(* ===== verification/_CoqProject ===== *)
-Q . S2P
Prelude.v
Types.v
Support.v
Index.v
Element.v
ElementFacts.v
Tensor.v
TensorFacts.v
Samples.v
Base.v
TypeInference.v
Inference.v
Ops.v
Linear.v
OpsFacts.v
OpsMoves.v
OpsPermute.v
OpsJoin.v
OpsElementwise.v
LinearFacts.v
AttributeFacts.v
TypeInferenceFacts.v
InferenceFacts.v
ProcessGrid.v
ProcessGridFacts.v
Regions.v
RegionFacts.v
SortFacts.v
Collectives.v
CollectiveFacts.v
ReplicaGroups.v
ReplicaGroupFacts.v
Version.v
Scope.v
Eval.v
Approx.v
EvalFacts.v
SsaFacts.v
Folder.v
FolderSamples.v
FolderFacts.v
FolderElementwise.v
FolderMoves.v
FolderJoin.v
FolderEval.v
FolderSafe.v
Simplify.v
SimplifyRules.v
SimplifyFacts.v
SimplifyElementwise.v
SimplifySelect.v
SimplifyShapes.v
SimplifyPermute.v
SimplifyBroadcast.v
SimplifySlices.v
SimplifyJoin.v
SimplifyEval.v
Vhlo.v
VhloTypes.v
VhloBytecode.v
VhloBytecodeFacts.v
VhloSamples.v
StablehloAttrs.v
StablehloToVhlo.v
VhloToStablehlo.v
StablehloVhloFacts.v
StablehloVhloOps.v
StablehloVhloRoundTrip.v
StablehloVhloDefaults.v
StablehloVhloOperations.v
VhloToVersion.v
VhloToVersionFacts.v
VhloToVersionLegal.v
StablehloBytecode.v
StablehloBytecodeFacts.v
ChloBytecode.v
Serialization.v
VhloVersionSamples.v
RefineShapes.v
RefineFacts.v
