(* ===== verification/Prelude.v ===== *)
(** * StableHLO: its reference interpreter, type checks, optimisations and artifacts, verified

    StableHLO programs are lists of tensor operations.  This development models
    the parts of the repository that give them meaning and that keep it: the
    reference interpreter ([src/stablehlo/reference/]); the inference and
    verification of types that guard it ([src/stablehlo/dialect/TypeInference.cpp],
    [Base.cpp]); the two optimisations of [src/stablehlo/transforms/optimization/],
    the one that replaces operations on constants by constants
    ([StablehloAggressiveFolder.cpp]) and the one that rewrites operations into simpler
    ones ([StablehloAggressiveSimplification.cpp]); the refinement of shapes
    ([StablehloRefineShapes.cpp]); and the way of a program into a portable artifact:
    its conversion to the versioned dialect VHLO and back, the upgrades and downgrades
    between versions, and the bytecode of attributes and types.

    ** How the parts interact

    The evaluator [eval] runs the operations of a block in a [Scope]; every
    operation is a function on [Tensor]s; a tensor is a byte buffer read and
    written through [get] and [set] at the indices an [IndexSpaceIterator]
    enumerates; an [Element] does the arithmetic on [APInt] and [APFloat].
    Operations that communicate go through the process grid.  The verifiers of
    [TypeInference] and [Inference] run before the interpreter, and the theorems say
    what their acceptance buys.  The folder runs in the compiler instead of the
    interpreter, on attributes instead of tensors, and is proved to agree with it.  A
    pattern of the simplification looks at the operations that define its operands and
    makes new operations; the evaluator gives both sides their meaning.  Shape refinement
    calls the inference functions and the flattening of replica groups.  An artifact is
    made of a program by [StablehloToVhlo], [VhloToVersion] and [VhloBytecode], one after
    the other, and read by [VhloBytecode], [VhloToVersion] (to the current version) and
    [VhloToStablehlo].

    ** Files, and the code they model

    The interpreter:
    - [Prelude]: faults, the error monad, 64-bit arithmetic, tactics.
    - [Types] ([reference/Types.cpp]); [Support]: the interface to LLVM's numbers,
      with laws and a concrete implementation for the witnesses.
    - [Index] ([Index.h], [Index.cpp]); [Element], [ElementFacts] ([Element.h],
      [Element.cpp]); [Tensor], [TensorFacts], [AttributeFacts] ([Tensor.h],
      [Tensor.cpp]); [Samples]: inputs of the witnesses.
    - [Ops], [Linear] ([reference/Ops.cpp], operations on tensors) with [OpsFacts],
      [OpsMoves], [OpsPermute], [OpsJoin], [OpsElementwise], [LinearFacts].
    - [ProcessGrid], [ProcessGridFacts] ([ProcessGrid.cpp], [Process.cpp]);
      [Collectives], [CollectiveFacts] ([Ops.cpp], operations that communicate).
    - [Regions], [RegionFacts], [SortFacts] ([Ops.cpp], operations that evaluate
      regions, [Value.cpp]); [Scope] ([Scope.cpp]); [Eval], [Approx], [EvalFacts],
      [SsaFacts] ([Ops.cpp], [eval]).

    The type checks:
    - [Base] ([dialect/Base.cpp]); [TypeInference], [TypeInferenceFacts] and, for the
      operations that the interpreter's theorems do not need, [Inference]
      ([dialect/TypeInference.cpp]); [InferenceFacts]: what the check of a gather buys.
    - [ReplicaGroups], [ReplicaGroupFacts] ([dialect/ReplicaGroupUtils.cpp]).

    The optimisations and the refinement of shapes:
    - [Folder] (the patterns of [StablehloAggressiveFolder.cpp]); [FolderSamples]:
      MLIR's folding helpers, concretely; [FolderFacts], [FolderElementwise],
      [FolderMoves], [FolderJoin]: each pattern against the operation it replaces;
      [FolderEval]: the registered patterns against the evaluator; [FolderSafe]: the
      patterns do not crash.
    - [Simplify] (the patterns of [StablehloAggressiveSimplification.cpp]),
      [SimplifyRules] (those of [StablehloAggressiveSimplificationPatterns.td]);
      [SimplifyFacts]: what it means that a rewrite keeps a tensor; then the
      patterns by the operation they rewrite: [SimplifyElementwise], [SimplifySelect],
      [SimplifyShapes] (lemmas on indices), [SimplifyPermute], [SimplifyBroadcast],
      [SimplifySlices], [SimplifyJoin]; [SimplifyEval]: all of them.
    - [RefineShapes] ([StablehloRefineShapes.cpp] and its header,
      [StablehloRefineArguments.cpp]), [RefineFacts].

    Portable artifacts:
    - [Version] ([dialect/Version.cpp]); [Serialization] ([dialect/Serialization.cpp]).
    - [Vhlo] (the types, attributes and enumerations of VHLO: [VhloTypes.td],
      [VhloAttrs.td], [VhloEnums.td]); [VhloTypes] ([VhloTypes.cpp]).
    - [StablehloAttrs] ([StablehloAttrs.td], [StablehloEnums.td]); [StablehloToVhlo]
      ([StablehloLegalizeToVhlo.cpp]); [VhloToStablehlo]
      ([VhloLegalizeToStablehlo.cpp]); [StablehloVhloFacts] (attributes),
      [StablehloVhloOps] (the meaning of an operation's attributes),
      [StablehloVhloRoundTrip] (one attribute of an operation),
      [StablehloVhloDefaults] (defaults), [StablehloVhloOperations] (operations).
    - [VhloToVersion] ([VhloToVersion.cpp], [VhloToVersionPatterns.td], [VhloOps.cpp],
      [VhloOps.td]); [VhloToVersionFacts], [VhloToVersionLegal].
    - [VhloBytecode], [VhloBytecodeFacts] ([VhloBytecode.cpp]); [StablehloBytecode],
      [StablehloBytecodeFacts] ([StablehloBytecode.cpp]); [ChloBytecode]
      ([ChloBytecode.cpp]); [VhloSamples], [VhloVersionSamples]: a concrete bytecode
      and programs for the witnesses.

    Definitions keep the names of the code.  State is passed explicitly; an error
    is a value of [result]: [Fatal] ends the program, [Failed] is a failed
    [LogicalResult], [UB] is behaviour that C++ leaves undefined, so a theorem
    that a function returns [Ok] also excludes overflow, reads out of range and
    failed assertions.  Code that can communicate runs in [proc], a tree of the
    effects on the grid, and the grid itself is a step relation over the atomic
    sections of the primitives.

    ** Interfaces

    - [LLVM] and [LLVMLaws] ([Support]): [APInt], [APFloat] and [<cmath>], by their
      documented behaviour on the operations used; [Concrete] implements them.
    - [CommonFolders] and [IndexingUtils] with their laws ([Folder]): the helpers of
      MLIR's headers of those names; [FolderSamples] implements them.
    - [MlirBytecode] and [MlirBytecodeLaws] ([VhloBytecode]): MLIR's primitive readers
      and writers and the raw storage of elements; [VhloSamples] implements them.  The
      sections of a file, which number its attributes and types, are a relation
      ([sections]) between what is written and what is read.
    - [BytecodeFile] ([Serialization]): the format of the head of a bytecode file.
    - The evaluation of a region is a parameter of the operations of [Regions] and
      [Collectives], which [Eval] instantiates with itself.
    - [std::sort] and [std::stable_sort] are parameters of [sortOp], by their
      contract.

    ** What the theorems show

    - Indices and memory: the iterator enumerates the index space; reads after
      writes; positions are an injection into the buffer; attributes round trip.
    - Elements: integer arithmetic is arithmetic modulo two to the width, order and
      division follow the signedness, bits and elements are in bijection, every
      operation gives a well-typed element.
    - Operations: what the type check accepts runs without a fault and holds the
      specified element at every index (broadcast, slice, pad, concatenate, reshape,
      transpose, reverse, dynamic slices, gather, dot_general, reduce, sort), each under
      the conditions that its comment names.  A gather of empty slices and a contraction
      of empty dimensions are accepted and fault.
    - Control and communication: a while loop with a measure ends; blocks return values
      of their declared types; registers are defined before they are read; the
      rendezvous is a barrier and its second use is broken; what is sent is received;
      all_reduce combines every contribution along every interleaving.
    - Types and groups: the inferred window sizes, most specific dimensions, the
      partitions of replica groups and of mesh axes.
    - Constant folding: an operation that the folder replaces by a constant
      evaluates to that constant, where the two agree; the folder does not crash on
      verified operations; on sums of booleans it is wrong.
    - Simplification: a pattern that matches an operation replaces it by a
      computation of the same tensor.  The scope holds what the defining operations
      computed ([defined]) and none of the new registers ([unused]); the operation
      and its attributes passed the verifier ([verified]); and the pattern is exact
      there ([simplifiable]): on floats and on empty results it may not be.
    - Shape refinement: the analysis of effects finds exactly the functions without
      effects; the refinement of a function keeps the stack, refines each function at
      most once, and gives it the types of its key.
    - Artifacts: types and the attributes of operations survive the passage to VHLO and
      back, up to a normal form; a program survives a downgrade and the upgrade after it,
      and old programs can be upgraded; a target version selects one version of every
      operation; bytecode is read as it was written; versions print and parse, and an
      artifact names the one it was written for.

    ** Bounds and fuel

    Shapes and sizes are [int64_t], with overflow as [UB]; element widths are those
    of [isSupportedType], at most 64 bits.  Loops of the code that are not
    structural take fuel computed from their input (the number of indices for
    loops over an index space, the number of functions for the analysis of effects),
    shown to be enough; [eval] and [while] take fuel as a parameter, on which their
    results do not depend ([eval_le]).

    ** Not modelled

    Printing and parsing of programs, files, threads and the driver of the
    interpreter ([Api.cpp], [InterpreterOps.cpp], [NumPy.cpp]): input, output and
    MLIR calls.  The operation classes and custom assembly of the dialects, most of
    them generated.  The drivers that apply patterns and conversions to MLIR's in-memory
    graph, whose semantics is not part of the repository, and so whole programs in a
    legalization: the attributes of each operation are modelled, not its replacement.
    The conversions from CHLO and to linalg and TOSA, and the passes on quantized
    types.  Of the folder, the patterns that rewrite control flow and reductions, erf and
    set_dimension_size; of the simplification, the patterns on reductions,
    gathers, scatters, sorts, tuples, loops, custom calls and results of dynamic
    shape, and of [ZeroExtentToEmptyConstant] the half that looks at operands; of shape
    refinement, the patterns of calls and ragged dots; of type inference, sparse
    encodings and ragged dots; of [VhloToVersion.cpp], [isLegalLocation], whose result is
    only logged. *)
From stdpp Require Export base list numbers option strings gmap.
From Stdlib Require Export ZArith Lia.
#[export] Set Default Goal Selector "!".
#[global] Open Scope Z_scope.

(** ** Faults and the error monad

    [Fatal] is [llvm::report_fatal_error], [UB] is behaviour C++ leaves
    undefined (an index outside a [SmallVector], signed overflow, a read of
    storage that was never written, a failed [assert]), [Failed] is a failed
    [LogicalResult] or [FailureOr], and [OutOfFuel] marks an execution that was
    cut off; it is no behaviour of the program. *)
Inductive fault :=
| Fatal (msg : string)
| Failed (msg : string)
| UB (what : string)
| OutOfFuel.

Inductive result (A : Type) :=
| Ok (a : A)
| Err (e : fault).
Arguments Ok {A} a.
Arguments Err {A} e.

#[export] Instance fault_eq_dec : EqDecision fault.
Proof. solve_decision. Defined.

#[export] Instance result_eq_dec {A} `{EqDecision A} : EqDecision (result A).
Proof. solve_decision. Defined.

#[export] Instance result_ret : MRet result := @Ok.
#[export] Instance result_bind : MBind result := fun A B k m =>
  match m with Ok a => k a | Err e => Err e end.
#[export] Instance result_fmap : FMap result := fun A B f m =>
  match m with Ok a => Ok (f a) | Err e => Err e end.

(** A monad the checked operations can be run in. *)
Class MLift (M : Type -> Type) := lift : forall A, result A -> M A.
Arguments lift {M _ A} m.
#[export] Instance result_lift : MLift result := fun A m => m.

Definition ok_or {A} (o : option A) (e : fault) : result A :=
  match o with Some a => Ok a | None => Err e end.

Definition assert_or (b : bool) (e : fault) : result () :=
  if b then Ok () else Err e.

(** A left fold in a monad: the shape of a C++ [for] loop over a range. *)
Fixpoint foldM {M} `{MRet M, MBind M} {A S} (body : A -> S -> M S)
    (l : list A) (s : S) : M S :=
  match l with
  | [] => mret s
  | a :: l => s' ← body a s; foldM body l s'
  end.

(** ** 64-bit signed integers

    A C++ [int64_t] is a [Z]; [i64] is the result of an [int64_t] operation,
    undefined when the mathematical result does not fit. *)
Definition int64_min : Z := - 2 ^ 63.
Definition int64_max : Z := 2 ^ 63 - 1.
Definition in_i64 (z : Z) : bool := (int64_min <=? z) && (z <=? int64_max).
Definition i64 (z : Z) : result Z :=
  if in_i64 z then Ok z else Err (UB "signed overflow").

(** ** Arrays indexed by an [int64_t]: outside the array, C++ has no behaviour. *)
Definition at_z {A} (l : list A) (i : Z) : result A :=
  if i <? 0 then Err (UB "index")
  else ok_or (l !! Z.to_nat i) (UB "index").

Definition set_z {A} (l : list A) (i : Z) (a : A) : result (list A) :=
  if (0 <=? i) && (i <? Z.of_nat (length l)) then Ok (<[Z.to_nat i := a]> l)
  else Err (UB "index").

(** [%] and [/] of two [int64_t]s; the quotient of the least by -1 overflows. *)
Definition rem_z (a b : Z) : result Z :=
  if b =? 0 then Err (UB "remainder by zero") else Ok (Z.rem a b).
Definition div_z (a b : Z) : result Z :=
  if b =? 0 then Err (UB "division by zero") else i64 (Z.quot a b).

(** [std::find] in a list of dimensions, as a position. *)
Definition find_pos (d : Z) (l : list Z) : option Z := Z.of_nat ∘ fst <$> list_find (fun x => x = d) l.

(** [llvm::enumerate] *)
Definition enumerate {A} (l : list A) : list (Z * A) := zip (seqZ 0 (Z.of_nat (length l))) l.

(** The product of the dimension sizes. *)
Definition prod_z (l : list Z) : Z := foldr Z.mul 1 l.

(** ** Tactics *)
Ltac simpl_result :=
  repeat (progress (simplify_eq/= ||
    match goal with
    | H : mbind ?k ?m = Ok _ |- _ =>
        let E := fresh "E" in destruct m eqn:E; [cbn in H | discriminate H]
    end)).

(** Steps over a completed operation of a [result] computation. *)
Ltac cbind := cbn [mbind result_bind mret result_ret fmap result_fmap].

(** ** Generic lemmas *)
Lemma bind_ok {A B} (m : result A) (k : A -> result B) b :
  m ≫= k = Ok b <-> exists a, m = Ok a /\ k a = Ok b.
Proof.
  destruct m as [a|e]; cbn; split; [by eauto | by intros (? & [= ->] & ?) | done |].
  by intros (? & ? & ?).
Qed.

Lemma foldM_app {A S} (body : A -> S -> result S) l1 l2 s :
  foldM body (l1 ++ l2) s = foldM body l1 s ≫= foldM body l2.
Proof.
  revert s; induction l1 as [|a l1 IH]; intros s; cbn; [done|].
  destruct (body a s); cbn; auto.
Qed.

Lemma i64_ok z : int64_min <= z <= int64_max -> i64 z = Ok z.
Proof. intros H; unfold i64, in_i64. rewrite !(proj2 (Z.leb_le _ _)); easy. Qed.

Lemma i64_inv z z' : i64 z = Ok z' -> z' = z /\ int64_min <= z <= int64_max.
Proof. unfold i64, in_i64. case_match eqn:E; intros; simplify_eq. lia. Qed.

Lemma at_z_ok {A} (l : list A) i a :
  at_z l i = Ok a <-> 0 <= i /\ l !! Z.to_nat i = Some a.
Proof.
  unfold at_z. destruct (Z.ltb_spec i 0).
  - split; [done | intros []; lia].
  - destruct (l !! Z.to_nat i); cbn; split; [by intros [= ->] | by intros [? [= ->]] | done | by intros []].
Qed.

Lemma at_z_nat {A} (l : list A) (n : nat) :
  at_z l (Z.of_nat n) = ok_or (l !! n) (UB "index").
Proof.
  unfold at_z. destruct (Z.ltb_spec (Z.of_nat n) 0); [lia|]. by rewrite Nat2Z.id.
Qed.

Lemma at_z_lt {A} (l : list A) i :
  0 <= i < Z.of_nat (length l) -> exists a, at_z l i = Ok a /\ l !! Z.to_nat i = Some a.
Proof.
  intros Hi. destruct (lookup_lt_is_Some_2 l (Z.to_nat i)) as [a Ha]; [lia|].
  exists a. split; [|done]. apply at_z_ok. split; [lia|done].
Qed.

Lemma set_z_ok {A} (l : list A) i a :
  0 <= i < Z.of_nat (length l) -> set_z l i a = Ok (<[Z.to_nat i := a]> l).
Proof.
  intros Hi. unfold set_z.
  rewrite (proj2 (Z.leb_le 0 i)), (proj2 (Z.ltb_lt i _)); by lia || done.
Qed.

Lemma set_z_inv {A} (l l' : list A) i a :
  set_z l i a = Ok l' -> 0 <= i < Z.of_nat (length l) /\ l' = <[Z.to_nat i := a]> l.
Proof. unfold set_z. case_match eqn:E; intros; simplify_eq. split; [lia|done]. Qed.

Lemma prod_z_nonneg l : Forall (fun d => 0 <= d) l -> 0 <= prod_z l.
Proof. induction 1; unfold prod_z in *; cbn [foldr] in *; [lia|nia]. Qed.

Lemma prod_z_pos l : Forall (fun d => 0 < d) l -> 0 < prod_z l.
Proof. induction 1; unfold prod_z in *; cbn [foldr] in *; [lia|nia]. Qed.

Create HintDb hlo discriminated.
#[export] Hint Resolve prod_z_nonneg prod_z_pos : hlo.
