(* ===== verification/Types.v ===== *)
(** * Types

    The MLIR types the program handles (the data of MLIR's builtin, quant and
    StableHLO token types, with their documented parameters), and the
    predicates of [src/stablehlo/reference/Types.cpp] on them. *)
From S2P Require Import Prelude.

(** ** MLIR's types *)
Inductive Signedness := Signless | Signed | Unsigned.

(** MLIR's floating-point types; a type determines its [fltSemantics]. *)
Inductive FloatKind :=
| Float4E2M1FN | Float6E2M3FN | Float6E3M2FN
| Float8E3M4 | Float8E4M3B11FNUZ | Float8E4M3 | Float8E4M3FN | Float8E4M3FNUZ
| Float8E5M2 | Float8E5M2FNUZ | Float8E8M0FNU
| Float16 | BFloat16 | FloatTF32 | Float32 | Float64 | Float80 | Float128.

(** A C++ [double], by its object representation. *)
Record double := Double { double_bits : Z }.

(** The encoding attribute of a ranked tensor type: an attribute with the
    bounded interface (the bounds of the dynamic dimensions), or another one. *)
Inductive Encoding :=
| TypeExtensions (bounds : list Z)
| OtherEncoding (tag : Z).

(** The layout and the memory space of a buffer are the attributes by their
    identity; [None] is the identity layout and the default memory space. *)
Inductive Ty :=
| IntegerType (signedness : Signedness) (width : Z)
| FloatType (kind : FloatKind)
| IndexType
| ComplexType (elementType : Ty)
| QuantizedType (flags : Z) (storageType : Ty) (storageMin storageMax : Z) (expressedType : Ty)
    (quantizedDimension : option Z) (scales : list double) (zeroPoints : list Z)
| TokenType
| TupleType (types : list Ty)
| RankedTensorType (shape : list Z) (elementType : Ty) (encoding : option Encoding)
| UnrankedTensorType (elementType : Ty)
| MemRefType (shape : list Z) (elementType : Ty) (layout memorySpace : option Z)
| FunctionType (inputs results : list Ty)
| FutureType (types : list Ty)
| NoneType
| WitnessType
| OtherType (tag : Z).

#[export] Instance signedness_eq_dec : EqDecision Signedness.
Proof. solve_decision. Defined.
#[export] Instance float_kind_eq_dec : EqDecision FloatKind.
Proof. solve_decision. Defined.
#[export] Instance double_eq_dec : EqDecision double.
Proof. solve_decision. Defined.
#[export] Instance encoding_eq_dec : EqDecision Encoding.
Proof. solve_decision. Defined.

Definition list_eq_dec_with {A} (eq_dec : forall x y : A, Decision (x = y)) : forall l1 l2 : list A, Decision (l1 = l2).
Proof.
  refine (fix go l1 l2 :=
    match l1, l2 with
    | [], [] => left _
    | x1 :: l1, x2 :: l2 => cast_if_and (eq_dec x1 x2) (go l1 l2)
    | _, _ => right _
    end); clear go; abstract congruence.
Defined.

Fixpoint Ty_eq_dec (t1 t2 : Ty) : Decision (t1 = t2).
Proof.
  refine (match t1, t2 with
  | IntegerType s1 w1, IntegerType s2 w2 => cast_if_and (decide (s1 = s2)) (decide (w1 = w2))
  | FloatType k1, FloatType k2 => cast_if (decide (k1 = k2))
  | IndexType, IndexType | TokenType, TokenType | NoneType, NoneType | WitnessType, WitnessType => left _
  | ComplexType e1, ComplexType e2 | UnrankedTensorType e1, UnrankedTensorType e2 => cast_if (Ty_eq_dec e1 e2)
  | QuantizedType f1 s1 a1 b1 x1 d1 sc1 z1, QuantizedType f2 s2 a2 b2 x2 d2 sc2 z2 =>
      cast_if_and3 (Ty_eq_dec s1 s2) (Ty_eq_dec x1 x2)
        (decide ((f1, a1, b1, d1, sc1, z1) = (f2, a2, b2, d2, sc2, z2)))
  | TupleType l1, TupleType l2 | FutureType l1, FutureType l2 => cast_if (list_eq_dec_with Ty_eq_dec l1 l2)
  | RankedTensorType s1 e1 n1, RankedTensorType s2 e2 n2 =>
      cast_if_and (Ty_eq_dec e1 e2) (decide ((s1, n1) = (s2, n2)))
  | MemRefType s1 e1 l1 m1, MemRefType s2 e2 l2 m2 => cast_if_and (Ty_eq_dec e1 e2) (decide ((s1, l1, m1) = (s2, l2, m2)))
  | FunctionType i1 r1, FunctionType i2 r2 =>
      cast_if_and (list_eq_dec_with Ty_eq_dec i1 i2) (list_eq_dec_with Ty_eq_dec r1 r2)
  | OtherType n1, OtherType n2 => cast_if (decide (n1 = n2))
  | _, _ => right _
  end); clear Ty_eq_dec; abstract intuition congruence.
Defined.
#[export] Instance ty_eq_decision : EqDecision Ty := Ty_eq_dec.

(** A shaped type: what the interpreter's tensors carry. *)
Record ShapedType := MkShaped {
  getShape : list Z;
  getElementType : Ty;
  getEncoding : option Encoding;
}.
#[export] Instance shaped_eq_dec : EqDecision ShapedType.
Proof. solve_decision. Defined.

Definition shaped (shape : list Z) (t : Ty) : ShapedType := MkShaped shape t None.
Definition shaped_type (s : ShapedType) : Ty :=
  RankedTensorType (getShape s) (getElementType s) (getEncoding s).
Definition getRank (s : ShapedType) : Z := Z.of_nat (length (getShape s)).
Definition getNumElements (s : ShapedType) : Z := prod_z (getShape s).
(** The verifiers and the interpreter see no shaped type but ranked tensors. *)
Definition dyn_cast_shaped (t : Ty) : option ShapedType :=
  match t with
  | RankedTensorType s e n => Some (MkShaped s e n)
  | _ => None
  end.

(** ** Queries of MLIR's [Type] *)
Definition isSignlessInteger (t : Ty) (w : Z) : bool :=
  match t with IntegerType Signless w' => w =? w' | _ => false end.
Definition isUnsignedInteger (t : Ty) (w : Z) : bool :=
  match t with IntegerType Unsigned w' => w =? w' | _ => false end.
Definition isa_IntegerType (t : Ty) : bool :=
  match t with IntegerType _ _ => true | _ => false end.
Definition isa_FloatType (t : Ty) : bool :=
  match t with FloatType _ => true | _ => false end.
Definition isa_ComplexType (t : Ty) : bool :=
  match t with ComplexType _ => true | _ => false end.
Definition isa_QuantizedType (t : Ty) : bool :=
  match t with QuantizedType _ _ _ _ _ _ _ _ => true | _ => false end.
Definition isF (k : FloatKind) (t : Ty) : bool :=
  match t with FloatType k' => bool_decide (k = k') | _ => false end.

Definition float_width (k : FloatKind) : Z :=
  match k with
  | Float4E2M1FN => 4
  | Float6E2M3FN | Float6E3M2FN => 6
  | Float8E3M4 | Float8E4M3B11FNUZ | Float8E4M3 | Float8E4M3FN | Float8E4M3FNUZ
  | Float8E5M2 | Float8E5M2FNUZ | Float8E8M0FNU => 8
  | Float16 | BFloat16 => 16
  | FloatTF32 => 19
  | Float32 => 32
  | Float64 => 64
  | Float80 => 80
  | Float128 => 128
  end.

(** [FloatType::getFPMantissaWidth]: the bits of the significand, the implicit
    one included. *)
Definition float_mantissa_width (k : FloatKind) : Z :=
  match k with
  | Float8E8M0FNU => 1
  | Float4E2M1FN => 2
  | Float6E3M2FN | Float8E5M2 | Float8E5M2FNUZ => 3
  | Float6E2M3FN | Float8E4M3B11FNUZ | Float8E4M3 | Float8E4M3FN | Float8E4M3FNUZ => 4
  | Float8E3M4 => 5
  | BFloat16 => 8
  | Float16 | FloatTF32 => 11
  | Float32 => 24
  | Float64 => 53
  | Float80 => 64
  | Float128 => 113
  end.

(** [Type::getIntOrFloatBitWidth] asserts that the type is one of the two. *)
Definition getIntOrFloatBitWidth (t : Ty) : result Z :=
  match t with
  | IntegerType _ w => Ok w
  | FloatType k => Ok (float_width k)
  | _ => Err (UB "only integers and floats have a bitwidth")
  end.

(** ** [Types.cpp] *)
Definition isSupportedUnsignedIntegerType (type : Ty) : bool :=
  isUnsignedInteger type 2 || isUnsignedInteger type 4 || isUnsignedInteger type 8 ||
  isUnsignedInteger type 16 || isUnsignedInteger type 32 || isUnsignedInteger type 64.

Definition isSupportedSignedIntegerType (type : Ty) : bool :=
  isSignlessInteger type 2 || isSignlessInteger type 4 || isSignlessInteger type 8 ||
  isSignlessInteger type 16 || isSignlessInteger type 32 || isSignlessInteger type 64.

Definition isSupportedBooleanType (type : Ty) : bool := isSignlessInteger type 1.

Definition isSupportedIntegerType (type : Ty) : bool :=
  isSupportedUnsignedIntegerType type || isSupportedSignedIntegerType type.

Definition isSupportedFloatType (type : Ty) : bool :=
  match type with
  | FloatType (FloatTF32 | Float80 | Float128) => false
  | FloatType _ => true
  | _ => false
  end.

Definition isSupportedComplexType (type : Ty) : bool :=
  match type with
  | ComplexType complexElemTy => isF Float32 complexElemTy || isF Float64 complexElemTy
  | _ => false
  end.

Definition complex_element (type : Ty) : result Ty :=
  match type with ComplexType t => Ok t | _ => Err (UB "cast<ComplexType>") end.

(** [numBits] recurses once, into a float type. *)
Definition numBits (type : Ty) : result Z :=
  if isSupportedComplexType type
  then t ← complex_element type; n ← getIntOrFloatBitWidth t; Ok (n * 2)
  else getIntOrFloatBitWidth type.

Definition i1 : Ty := IntegerType Signless 1.

(** ** Lemmas *)

(** The widths a supported integer type can have. *)
Definition int_width (w : Z) : bool :=
  (w =? 2) || (w =? 4) || (w =? 8) || (w =? 16) || (w =? 32) || (w =? 64).

Lemma supported_integer_inv t :
  isSupportedIntegerType t = true ->
  exists s w, t = IntegerType s w /\ int_width w = true /\ (s = Signless \/ s = Unsigned).
Proof.
  unfold isSupportedIntegerType, isSupportedUnsignedIntegerType,
    isSupportedSignedIntegerType, int_width.
  destruct t as [[] w| | | | | | | | | | | | | |]; cbn [isUnsignedInteger isSignlessInteger]; try discriminate; intros H;
    (eexists _, w; split; [done|]; split; [lia|auto]).
Qed.

Lemma int_width_bounds w : int_width w = true -> 2 <= w <= 64.
Proof. unfold int_width. lia. Qed.

Lemma supported_boolean_inv t : isSupportedBooleanType t = true -> t = i1.
Proof.
  unfold isSupportedBooleanType. destruct t as [[] w| | | | | | | | | | | | | |]; cbn [isSignlessInteger]; try discriminate.
  intros H. unfold i1. f_equal. lia.
Qed.

Lemma supported_float_inv t :
  isSupportedFloatType t = true -> exists k, t = FloatType k /\ 4 <= float_width k <= 64.
Proof. destruct t as [|[]| | | | | | | | | | | | |]; cbn; try done; intros _; eexists; (split; [done|]); unfold float_width; lia. Qed.

Lemma supported_complex_inv t :
  isSupportedComplexType t = true -> t = ComplexType (FloatType Float32) \/ t = ComplexType (FloatType Float64).
Proof. destruct t as [| | |[|[]| | | | | | | | | | | | |]| | | | | | | | | | |]; cbn; try done; auto. Qed.
