(* ===== verification/Support.v ===== *)
(** * The interface to LLVM's [APInt] and [APFloat], and to [<cmath>]

    The element arithmetic of the reference interpreter is done by LLVM's
    arbitrary-precision integers and software floats, which are not part of
    this repository.  [LLVM] names the operations the interpreter calls,
    [LLVMLaws] states the documented behaviour the theorems rely on, and every
    definition and theorem that involves elements is stated against the
    interface.  [Concrete] gives a concrete implementation of the interface, on
    which the definitions compute; its floats keep the bit patterns and types
    right but have no rounding arithmetic, which no law mentions. *)
From S2P Require Import Prelude Types.

(** The [w]-bit two's complement reading of an unsigned value. *)
Definition to_signed (w u : Z) : Z := if u <? 2 ^ (w - 1) then u else u - 2 ^ w.

Definition popcount_z (w u : Z) : Z := foldr (fun i n => Z.b2z (Z.testbit u i) + n) 0 (seqZ 0 w).
Definition clz_z (w u : Z) : Z := if u =? 0 then w else w - 1 - Z.log2 u.

Inductive RoundingMode := TowardZero | NearestTiesToEven | TowardPositive | TowardNegative | NearestTiesToAway.

(** The functions of [<cmath>] on [double] and of [<complex>] on
    [std::complex<double>] that [Element.cpp] calls. *)
Inductive StdFn :=
| std_cbrt | std_exp | std_expm1 | std_cos | std_sin | std_log | std_log1p
| std_sqrt | std_tan | std_tanh | std_fabs.
Inductive StdFn2 := std_pow | std_atan2.
Inductive DoubleOp := DAdd | DSub | DMul | DDiv.

Class LLVM := {
  APInt : Type;
  (** the unsigned integer an [APInt] holds *)
  uval : APInt -> Z;
  (** [APInt(numBits, val)] *)
  apint : Z -> Z -> APInt;
  getBitWidth : APInt -> Z;
  getZExtValue : APInt -> Z;
  getSExtValue : APInt -> Z;
  apint_and : APInt -> APInt -> APInt;
  apint_or : APInt -> APInt -> APInt;
  apint_xor : APInt -> APInt -> APInt;
  apint_not : APInt -> APInt;
  apint_add : APInt -> APInt -> APInt;
  apint_sub : APInt -> APInt -> APInt;
  apint_mul : APInt -> APInt -> APInt;
  apint_neg : APInt -> APInt;
  sdiv : APInt -> APInt -> APInt;
  udiv : APInt -> APInt -> APInt;
  srem : APInt -> APInt -> APInt;
  urem : APInt -> APInt -> APInt;
  apint_eq : APInt -> APInt -> bool;
  slt : APInt -> APInt -> bool;
  ult : APInt -> APInt -> bool;
  sgt : APInt -> APInt -> bool;
  ugt : APInt -> APInt -> bool;
  apint_abs : APInt -> APInt;
  smax : APInt -> APInt -> APInt;
  umax : APInt -> APInt -> APInt;
  smin : APInt -> APInt -> APInt;
  umin : APInt -> APInt -> APInt;
  isNegative : APInt -> bool;
  isZero : APInt -> bool;
  isOne : APInt -> bool;
  (** shifts by an [unsigned] and by an [APInt] *)
  shl : APInt -> Z -> APInt;
  lshr : APInt -> Z -> APInt;
  apint_shl : APInt -> APInt -> APInt;
  apint_lshr : APInt -> APInt -> APInt;
  apint_ashr : APInt -> APInt -> APInt;
  zext : APInt -> Z -> APInt;
  zextOrTrunc : APInt -> Z -> APInt;
  sextOrTrunc : APInt -> Z -> APInt;
  extractBits : APInt -> Z -> Z -> APInt;
  popcount : APInt -> Z;
  countLeadingZeros : APInt -> Z;
  APFloat : Type;
  getSemantics : APFloat -> FloatKind;
  (** [APFloat(semantics, bits)] and [bitcastToAPInt] *)
  apfloat : FloatKind -> APInt -> APFloat;
  bitcastToAPInt : APFloat -> APInt;
  (** a C++ [float] is its object representation *)
  apfloat_of_float : Z -> APFloat;
  convertToFloat : APFloat -> Z;
  apfloat_of_double : double -> APFloat;
  convertToDouble : APFloat -> double;
  apfloat_add : APFloat -> APFloat -> APFloat;
  apfloat_sub : APFloat -> APFloat -> APFloat;
  apfloat_mul : APFloat -> APFloat -> APFloat;
  apfloat_div : APFloat -> APFloat -> APFloat;
  apfloat_mod : APFloat -> APFloat -> APFloat;
  apfloat_neg : APFloat -> APFloat;
  apfloat_abs : APFloat -> APFloat;
  maximum : APFloat -> APFloat -> APFloat;
  minimum : APFloat -> APFloat -> APFloat;
  apfloat_lt : APFloat -> APFloat -> bool;
  apfloat_gt : APFloat -> APFloat -> bool;
  apfloat_eq : APFloat -> APFloat -> bool;
  isNaN : APFloat -> bool;
  apfloat_isZero : APFloat -> bool;
  isNegZero : APFloat -> bool;
  isPosZero : APFloat -> bool;
  apfloat_isNegative : APFloat -> bool;
  apfloat_isFinite : APFloat -> bool;
  isInfinity : APFloat -> bool;
  roundToIntegral : RoundingMode -> APFloat -> APFloat;
  (** [convert(semantics, rmNearestTiesToEven)] *)
  apfloat_convert : FloatKind -> APFloat -> APFloat;
  (** [convertToInteger] into an integer of a width and signedness, toward zero *)
  convertToInteger : Z -> bool -> APFloat -> APInt;
  (** whether the status of these conversions is not [opInvalidOp] *)
  convertToInteger_valid : Z -> bool -> APFloat -> bool;
  apfloat_convert_valid : FloatKind -> APFloat -> bool;
  (** [convertFromAPInt(value, isSigned, rmNearestTiesToEven)] *)
  convertFromAPInt : FloatKind -> APInt -> bool -> APFloat;
  getInf : FloatKind -> APFloat;
  getNaN : FloatKind -> APFloat;
  getZero : FloatKind -> APFloat;
  (** [getOne(semantics, negative)] *)
  getOne : FloatKind -> bool -> APFloat;
  double_of_Z : Z -> double;
  double_op : DoubleOp -> double -> double -> double;
  double_neg : double -> double;
  double_le : double -> double -> bool;
  double_lt : double -> double -> bool;
  std1 : StdFn -> double -> double;
  std2 : StdFn2 -> double -> double -> double;
  complex_op : DoubleOp -> double * double -> double * double -> double * double;
  (** a [double] times or divided by a complex number *)
  double_complex_op : DoubleOp -> double -> double * double -> double * double;
  complex_std1 : StdFn -> double * double -> double * double;
  complex_pow : double * double -> double * double -> double * double;
  complex_abs : double * double -> double;
}.

(** The signed integer an [APInt] holds. *)
Definition sval {L : LLVM} (x : APInt) : Z := to_signed (getBitWidth x) (uval x).

(** [APInt]'s binary operations are documented on operands of one width; an
    [APInt] of no bits has no sign, and no element has such a type. *)
Definition same_width {L : LLVM} (x y : APInt) : Prop :=
  0 < getBitWidth x /\ getBitWidth x = getBitWidth y.

Class LLVMLaws (L : LLVM) : Prop := {
  width_nonneg x : 0 <= getBitWidth x;
  uval_range x : 0 <= uval x < 2 ^ getBitWidth x;
  apint_ext x y : getBitWidth x = getBitWidth y -> uval x = uval y -> x = y;
  width_apint w v : 0 < w -> getBitWidth (apint w v) = w;
  uval_apint w v : 0 < w -> uval (apint w v) = v mod 2 ^ w;
  getZExtValue_spec x : getBitWidth x <= 64 -> getZExtValue x = uval x;
  getSExtValue_spec x : 0 < getBitWidth x <= 64 -> getSExtValue x = sval x;
  width_and x y : same_width x y -> getBitWidth (apint_and x y) = getBitWidth x;
  uval_and x y : same_width x y -> uval (apint_and x y) = Z.land (uval x) (uval y);
  width_or x y : same_width x y -> getBitWidth (apint_or x y) = getBitWidth x;
  uval_or x y : same_width x y -> uval (apint_or x y) = Z.lor (uval x) (uval y);
  width_xor x y : same_width x y -> getBitWidth (apint_xor x y) = getBitWidth x;
  uval_xor x y : same_width x y -> uval (apint_xor x y) = Z.lxor (uval x) (uval y);
  width_not x : getBitWidth (apint_not x) = getBitWidth x;
  uval_not x : uval (apint_not x) = 2 ^ getBitWidth x - 1 - uval x;
  width_add x y : same_width x y -> getBitWidth (apint_add x y) = getBitWidth x;
  uval_add x y : same_width x y -> uval (apint_add x y) = (uval x + uval y) mod 2 ^ getBitWidth x;
  width_sub x y : same_width x y -> getBitWidth (apint_sub x y) = getBitWidth x;
  uval_sub x y : same_width x y -> uval (apint_sub x y) = (uval x - uval y) mod 2 ^ getBitWidth x;
  width_mul x y : same_width x y -> getBitWidth (apint_mul x y) = getBitWidth x;
  uval_mul x y : same_width x y -> uval (apint_mul x y) = (uval x * uval y) mod 2 ^ getBitWidth x;
  width_neg x : getBitWidth (apint_neg x) = getBitWidth x;
  uval_neg x : uval (apint_neg x) = (- uval x) mod 2 ^ getBitWidth x;
  width_sdiv x y : same_width x y -> uval y <> 0 -> getBitWidth (sdiv x y) = getBitWidth x;
  uval_sdiv x y : same_width x y -> uval y <> 0 ->
    uval (sdiv x y) = (Z.quot (sval x) (sval y)) mod 2 ^ getBitWidth x;
  width_udiv x y : same_width x y -> uval y <> 0 -> getBitWidth (udiv x y) = getBitWidth x;
  uval_udiv x y : same_width x y -> uval y <> 0 -> uval (udiv x y) = uval x / uval y;
  width_srem x y : same_width x y -> uval y <> 0 -> getBitWidth (srem x y) = getBitWidth x;
  uval_srem x y : same_width x y -> uval y <> 0 ->
    uval (srem x y) = (Z.rem (sval x) (sval y)) mod 2 ^ getBitWidth x;
  width_urem x y : same_width x y -> uval y <> 0 -> getBitWidth (urem x y) = getBitWidth x;
  uval_urem x y : same_width x y -> uval y <> 0 -> uval (urem x y) = uval x mod uval y;
  apint_eq_spec x y : same_width x y -> apint_eq x y = (uval x =? uval y);
  slt_spec x y : same_width x y -> slt x y = (sval x <? sval y);
  ult_spec x y : same_width x y -> ult x y = (uval x <? uval y);
  sgt_spec x y : same_width x y -> sgt x y = (sval y <? sval x);
  ugt_spec x y : same_width x y -> ugt x y = (uval y <? uval x);
  width_abs x : getBitWidth (apint_abs x) = getBitWidth x;
  uval_abs x : 0 < getBitWidth x -> uval (apint_abs x) = Z.abs (sval x) mod 2 ^ getBitWidth x;
  smax_spec x y : same_width x y -> smax x y = if sgt x y then x else y;
  umax_spec x y : same_width x y -> umax x y = if ugt x y then x else y;
  smin_spec x y : same_width x y -> smin x y = if slt x y then x else y;
  umin_spec x y : same_width x y -> umin x y = if ult x y then x else y;
  isNegative_spec x : 0 < getBitWidth x -> isNegative x = (sval x <? 0);
  isZero_spec x : isZero x = (uval x =? 0);
  isOne_spec x : isOne x = (uval x =? 1);
  width_shl x n : 0 <= n <= getBitWidth x -> getBitWidth (shl x n) = getBitWidth x;
  uval_shl x n : 0 <= n <= getBitWidth x -> uval (shl x n) = (uval x * 2 ^ n) mod 2 ^ getBitWidth x;
  width_lshr x n : 0 <= n <= getBitWidth x -> getBitWidth (lshr x n) = getBitWidth x;
  uval_lshr x n : 0 <= n <= getBitWidth x -> uval (lshr x n) = uval x / 2 ^ n;
  apint_shl_spec x y : apint_shl x y = shl x (Z.min (uval y) (getBitWidth x));
  apint_lshr_spec x y : apint_lshr x y = lshr x (Z.min (uval y) (getBitWidth x));
  width_ashr x y : getBitWidth (apint_ashr x y) = getBitWidth x;
  uval_ashr x y : 0 < getBitWidth x ->
    uval (apint_ashr x y) = (sval x / 2 ^ Z.min (uval y) (getBitWidth x)) mod 2 ^ getBitWidth x;
  width_zext x w : getBitWidth x <= w -> getBitWidth (zext x w) = w;
  uval_zext x w : getBitWidth x <= w -> uval (zext x w) = uval x;
  width_zextOrTrunc x w : 0 < w -> getBitWidth (zextOrTrunc x w) = w;
  uval_zextOrTrunc x w : 0 < w -> uval (zextOrTrunc x w) = uval x mod 2 ^ w;
  width_sextOrTrunc x w : 0 < w -> getBitWidth (sextOrTrunc x w) = w;
  uval_sextOrTrunc x w : 0 < w -> 0 < getBitWidth x -> uval (sextOrTrunc x w) = sval x mod 2 ^ w;
  width_extractBits x n p : 0 < n -> 0 <= p -> p + n <= getBitWidth x -> getBitWidth (extractBits x n p) = n;
  uval_extractBits x n p : 0 < n -> 0 <= p -> p + n <= getBitWidth x ->
    uval (extractBits x n p) = (uval x / 2 ^ p) mod 2 ^ n;
  popcount_spec x : popcount x = popcount_z (getBitWidth x) (uval x);
  clz_spec x : countLeadingZeros x = clz_z (getBitWidth x) (uval x);
  width_bitcast f : getBitWidth (bitcastToAPInt f) = float_width (getSemantics f);
  sem_apfloat k b : getSemantics (apfloat k b) = k;
  apfloat_bitcast f : apfloat (getSemantics f) (bitcastToAPInt f) = f;
  bitcast_apfloat k b : getBitWidth b = float_width k -> bitcastToAPInt (apfloat k b) = b;
  of_float_sem z : getSemantics (apfloat_of_float z) = Float32;
  to_float_range f : 0 <= convertToFloat f < 2 ^ 32;
  of_to_float f : getSemantics f = Float32 -> apfloat_of_float (convertToFloat f) = f;
  of_double_sem d : getSemantics (apfloat_of_double d) = Float64;
  to_double_range f : 0 <= double_bits (convertToDouble f) < 2 ^ 64;
  of_to_double f : getSemantics f = Float64 -> apfloat_of_double (convertToDouble f) = f;
  to_of_double d : 0 <= double_bits d < 2 ^ 64 -> convertToDouble (apfloat_of_double d) = d;
  sem_add f g : getSemantics f = getSemantics g -> getSemantics (apfloat_add f g) = getSemantics f;
  sem_sub f g : getSemantics f = getSemantics g -> getSemantics (apfloat_sub f g) = getSemantics f;
  sem_mul f g : getSemantics f = getSemantics g -> getSemantics (apfloat_mul f g) = getSemantics f;
  sem_div f g : getSemantics f = getSemantics g -> getSemantics (apfloat_div f g) = getSemantics f;
  sem_mod f g : getSemantics f = getSemantics g -> getSemantics (apfloat_mod f g) = getSemantics f;
  sem_neg f : getSemantics (apfloat_neg f) = getSemantics f;
  sem_abs f : getSemantics (apfloat_abs f) = getSemantics f;
  sem_max f g : getSemantics f = getSemantics g -> getSemantics (maximum f g) = getSemantics f;
  sem_min f g : getSemantics f = getSemantics g -> getSemantics (minimum f g) = getSemantics f;
  sem_round m f : getSemantics (roundToIntegral m f) = getSemantics f;
  sem_convert k f : getSemantics (apfloat_convert k f) = k;
  width_convertToInteger w u f : 0 < w -> getBitWidth (convertToInteger w u f) = w;
  sem_fromAPInt k x s : getSemantics (convertFromAPInt k x s) = k;
  sem_inf k : getSemantics (getInf k) = k;
  sem_nan k : getSemantics (getNaN k) = k;
  sem_zero k : getSemantics (getZero k) = k;
  sem_one k n : getSemantics (getOne k n) = k;
  (** conversions read the number an integer or a float stands for *)
  fromAPInt_ext k x y s : (if s : bool then sval x = sval y else uval x = uval y) ->
    convertFromAPInt k x s = convertFromAPInt k y s;
  to_double_convert f : convertToDouble (apfloat_convert Float64 f) = convertToDouble f;
  isZero_double : apfloat_isZero (apfloat_of_double (Double 0)) = true;
}.

#[export] Hint Resolve uval_range width_nonneg : hlo.

(** ** A concrete implementation *)
Module Concrete.

Record zint := ZInt {
  zi_width : Z;
  zi_val : Z;
  zi_ok : (0 <? zi_width) && (0 <=? zi_val) && (zi_val <? 2 ^ zi_width) = true;
}.

Record zfloat := ZFloat {
  zf_kind : FloatKind;
  zf_val : Z;
  zf_ok : (0 <=? zf_val) && (zf_val <? 2 ^ float_width zf_kind) = true;
}.

Definition zi_zero : zint := ZInt 1 0 eq_refl.

Definition mk (w v : Z) : zint :=
  match Sumbool.sumbool_of_bool ((0 <? w) && (0 <=? v mod 2 ^ w) && (v mod 2 ^ w <? 2 ^ w)) with
  | left H => ZInt w (v mod 2 ^ w) H
  | right _ => zi_zero
  end.

Lemma fzero_ok k : (0 <=? 0) && (0 <? 2 ^ float_width k) = true.
Proof. by destruct k. Qed.

Definition mkf (k : FloatKind) (v : Z) : zfloat :=
  match Sumbool.sumbool_of_bool
      ((0 <=? v mod 2 ^ float_width k) && (v mod 2 ^ float_width k <? 2 ^ float_width k)) with
  | left H => ZFloat k (v mod 2 ^ float_width k) H
  | right _ => ZFloat k 0 (fzero_ok k)
  end.

Definition zs (x : zint) : Z := to_signed (zi_width x) (zi_val x).
Definition lift2 (f : Z -> Z -> Z) (x y : zint) : zint := mk (zi_width x) (f (zi_val x) (zi_val y)).
Definition slift2 (f : Z -> Z -> Z) (x y : zint) : zint := mk (zi_width x) (f (zs x) (zs y)).
Definition zsh (f : Z -> Z -> Z) (x : zint) (n : Z) : zint := mk (zi_width x) (f (zi_val x) n).
Definition zclamp (x y : zint) : Z := Z.min (zi_val y) (zi_width x).
Definition pick {A B} (b : A -> A -> B -> bool) (x y : A) (c : B) : A := if b x y c then x else y.

#[export] Instance concrete : LLVM := {|
  APInt := zint;
  uval := zi_val;
  apint := mk;
  getBitWidth := zi_width;
  getZExtValue := zi_val;
  getSExtValue := zs;
  apint_and := lift2 Z.land;
  apint_or := lift2 Z.lor;
  apint_xor := lift2 Z.lxor;
  apint_not x := mk (zi_width x) (2 ^ zi_width x - 1 - zi_val x);
  apint_add := lift2 Z.add;
  apint_sub := lift2 Z.sub;
  apint_mul := lift2 Z.mul;
  apint_neg x := mk (zi_width x) (- zi_val x);
  sdiv := slift2 Z.quot;
  udiv := lift2 Z.div;
  srem := slift2 Z.rem;
  urem := lift2 Z.modulo;
  apint_eq x y := zi_val x =? zi_val y;
  slt x y := zs x <? zs y;
  ult x y := zi_val x <? zi_val y;
  sgt x y := zs y <? zs x;
  ugt x y := zi_val y <? zi_val x;
  apint_abs x := mk (zi_width x) (Z.abs (zs x));
  smax x y := if zs y <? zs x then x else y;
  umax x y := if zi_val y <? zi_val x then x else y;
  smin x y := if zs x <? zs y then x else y;
  umin x y := if zi_val x <? zi_val y then x else y;
  isNegative x := zs x <? 0;
  isZero x := zi_val x =? 0;
  isOne x := zi_val x =? 1;
  shl := zsh (fun u n => u * 2 ^ n);
  lshr := zsh (fun u n => u / 2 ^ n);
  apint_shl x y := zsh (fun u n => u * 2 ^ n) x (zclamp x y);
  apint_lshr x y := zsh (fun u n => u / 2 ^ n) x (zclamp x y);
  apint_ashr x y := mk (zi_width x) (zs x / 2 ^ zclamp x y);
  zext x w := mk w (zi_val x);
  zextOrTrunc x w := mk w (zi_val x);
  sextOrTrunc x w := mk w (zs x);
  extractBits x n p := mk n (zi_val x / 2 ^ p);
  popcount x := popcount_z (zi_width x) (zi_val x);
  countLeadingZeros x := clz_z (zi_width x) (zi_val x);
  APFloat := zfloat;
  getSemantics := zf_kind;
  apfloat k b := mkf k (zi_val b);
  bitcastToAPInt f := mk (float_width (zf_kind f)) (zf_val f);
  apfloat_of_float z := mkf Float32 z;
  convertToFloat f := zf_val f mod 2 ^ 32;
  apfloat_of_double d := mkf Float64 (double_bits d);
  convertToDouble f := Double (zf_val f mod 2 ^ 64);
  apfloat_add f g := f;
  apfloat_sub f g := f;
  apfloat_mul f g := f;
  apfloat_div f g := f;
  apfloat_mod f g := f;
  apfloat_neg f := f;
  apfloat_abs f := f;
  maximum f g := f;
  minimum f g := f;
  apfloat_lt f g := false;
  apfloat_gt f g := false;
  apfloat_eq f g := zf_val f =? zf_val g;
  isNaN f := false;
  apfloat_isZero f := zf_val f =? 0;
  isNegZero f := false;
  isPosZero f := zf_val f =? 0;
  apfloat_isNegative f := false;
  apfloat_isFinite f := true;
  isInfinity f := false;
  roundToIntegral m f := f;
  apfloat_convert k f := mkf k (zf_val f);
  convertToInteger w u f := mk w (zf_val f);
  convertToInteger_valid w u f := true;
  apfloat_convert_valid k f := true;
  convertFromAPInt k x s := mkf k (if s then zs x else zi_val x);
  getInf k := mkf k 0;
  getNaN k := mkf k 0;
  getZero k := mkf k 0;
  getOne k n := mkf k 1;
  double_of_Z z := Double (z mod 2 ^ 64);
  double_op o d e := d;
  double_neg d := d;
  double_le d e := double_bits d <=? double_bits e;
  double_lt d e := double_bits d <? double_bits e;
  std1 f d := d;
  std2 f d e := d;
  complex_op o d e := d;
  double_complex_op o d e := e;
  complex_std1 f d := d;
  complex_pow d e := d;
  complex_abs d := fst d;
|}.

Lemma zint_eq x y : zi_width x = zi_width y -> zi_val x = zi_val y -> x = y.
Proof.
  destruct x as [w v H], y as [w' v' H']; cbn; intros -> ->. f_equal. apply proof_irrel.
Qed.

Lemma zfloat_eq x y : zf_kind x = zf_kind y -> zf_val x = zf_val y -> x = y.
Proof.
  destruct x as [w v H], y as [w' v' H']; cbn; intros -> ->. f_equal. apply proof_irrel.
Qed.

Lemma zint_range x : 0 < zi_width x /\ 0 <= zi_val x < 2 ^ zi_width x.
Proof. destruct x as [w v H]; cbn [zi_width zi_val]. lia. Qed.

Lemma zfloat_range x : 0 <= zf_val x < 2 ^ float_width (zf_kind x).
Proof. destruct x as [w v H]; cbn [zf_kind zf_val]. lia. Qed.

Lemma pow2_pos w : 0 <= w -> 0 < 2 ^ w.
Proof. intros; apply Z.pow_pos_nonneg; lia. Qed.

Lemma mk_spec w v : 0 < w -> zi_width (mk w v) = w /\ zi_val (mk w v) = v mod 2 ^ w.
Proof.
  intros Hw. unfold mk. destruct (Sumbool.sumbool_of_bool _) as [H|H]; [done|].
  pose proof (Z.mod_pos_bound v (2 ^ w) (pow2_pos w ltac:(lia))). lia.
Qed.

Lemma float_width_pos k : 0 < float_width k.
Proof. destruct k; cbn [float_width]; lia. Qed.

Lemma mkf_spec k v : zf_kind (mkf k v) = k /\ zf_val (mkf k v) = v mod 2 ^ float_width k.
Proof.
  unfold mkf. destruct (Sumbool.sumbool_of_bool _) as [H|H]; [done|].
  pose proof (Z.mod_pos_bound v (2 ^ float_width k)
    (pow2_pos (float_width k) ltac:(pose proof (float_width_pos k); lia))). lia.
Qed.

Lemma land_lt a b w : 0 <= w -> 0 <= a < 2 ^ w -> 0 <= b < 2 ^ w -> 0 <= Z.land a b < 2 ^ w.
Proof.
  intros Hw Ha Hb. split; [apply Z.land_nonneg; lia|].
  rewrite <- (Z.mod_small a (2 ^ w)), <- Z.land_ones, <- Z.land_assoc, (Z.land_comm (Z.ones w)),
    Z.land_assoc, Z.land_ones by lia.
  apply Z.mod_pos_bound, pow2_pos. done.
Qed.

Lemma lor_lt a b w : 0 <= w -> 0 <= a < 2 ^ w -> 0 <= b < 2 ^ w -> 0 <= Z.lor a b < 2 ^ w.
Proof.
  intros Hw Ha Hb. split; [apply Z.lor_nonneg; lia|].
  rewrite <- (Z.mod_small a (2 ^ w)), <- (Z.mod_small b (2 ^ w)), <- !Z.land_ones,
    <- Z.land_lor_distr_l, Z.land_ones by lia.
  apply Z.mod_pos_bound, pow2_pos. done.
Qed.

Lemma lxor_lt a b w : 0 <= w -> 0 <= a < 2 ^ w -> 0 <= b < 2 ^ w -> 0 <= Z.lxor a b < 2 ^ w.
Proof.
  intros Hw Ha Hb. split; [apply Z.lxor_nonneg; lia|].
  replace (Z.lxor a b) with (Z.land (Z.lxor a b) (Z.ones w));
    [rewrite Z.land_ones by lia; apply Z.mod_pos_bound, pow2_pos; done|].
  apply Z.bits_inj'; intros n Hn. rewrite Z.land_spec, Z.lxor_spec.
  destruct (Z.ltb_spec n w).
  - by rewrite Z.ones_spec_low, andb_true_r by lia.
  - rewrite Z.ones_spec_high, andb_false_r by lia.
    rewrite <- (Z.mod_small a (2 ^ w)), <- (Z.mod_small b (2 ^ w)), !Z.mod_pow2_bits_high by lia.
    done.
Qed.

Lemma mk_val_small w v : 0 < w -> 0 <= v < 2 ^ w -> zi_val (mk w v) = v.
Proof. intros Hw Hv. rewrite (proj2 (mk_spec w v Hw)). by apply Z.mod_small. Qed.

Lemma div_range a b n : 0 <= a < n -> 0 < b -> 0 <= a / b < n.
Proof.
  intros Ha Hb. split; [apply Z.div_pos; lia|].
  apply Z.div_lt_upper_bound; nia.
Qed.

Lemma mod_range a b n : 0 <= a < n -> 0 < b -> 0 <= a mod b < n.
Proof.
  intros Ha Hb. pose proof (Z.mod_pos_bound a b Hb). pose proof (Z.mod_le a b). lia.
Qed.

#[export] Instance concrete_laws : LLVMLaws concrete.
Proof.
  constructor; cbn [concrete getBitWidth uval apint_ashr APInt APFloat]; intros;
    unfold same_width, sval, zs, lift2, slift2, zsh, zclamp in *;
    cbn [getBitWidth uval concrete apint_and apint_or apint_xor apint_not apint_add
      apint_sub apint_mul apint_neg sdiv udiv srem urem apint_eq slt ult sgt ugt apint_abs smax
      umax smin umin isNegative isZero isOne shl lshr apint_shl apint_lshr apint_ashr zext
      zextOrTrunc sextOrTrunc extractBits popcount countLeadingZeros getSemantics apfloat apint
      bitcastToAPInt apfloat_of_float convertToFloat apfloat_of_double convertToDouble
      apfloat_add apfloat_sub apfloat_mul apfloat_div apfloat_mod apfloat_neg apfloat_abs maximum
      minimum roundToIntegral apfloat_convert convertToInteger convertFromAPInt getInf getNaN
      getZero getOne getZExtValue getSExtValue] in *;
    unfold lift2, slift2, zsh, zclamp, zs;
    try (pose proof (zint_range x)); try (pose proof (zint_range y));
    try done; try lia; try (by apply mk_spec; lia); try (by apply mkf_spec);
    try (by rewrite (proj2 (mk_spec _ _ ltac:(lia))));
    try (apply mk_val_small; [lia|]);
    try (by apply zint_eq).
  - destruct H as [? E]; rewrite E in *. apply land_lt; lia.
  - destruct H as [? E]; rewrite E in *. apply lor_lt; lia.
  - destruct H as [? E]; rewrite E in *. apply lxor_lt; lia.
  - lia.
  - apply div_range; lia.
  - apply mod_range; lia.
  - apply div_range; [lia | apply pow2_pos; lia].
  - pose proof (Z.pow_le_mono_r 2 (zi_width x) w ltac:(lia) ltac:(lia)). lia.
  - apply mk_spec, float_width_pos.
  - destruct (zfloat_range f). apply zfloat_eq.
    + apply mkf_spec.
    + rewrite (proj2 (mkf_spec _ _)), mk_val_small by (apply float_width_pos || done).
      by apply Z.mod_small.
  - apply zint_eq; rewrite (proj1 (mkf_spec _ _)).
    + by rewrite (proj1 (mk_spec _ _ (float_width_pos k))).
    + pose proof (zint_range b). rewrite (proj2 (mk_spec _ _ (float_width_pos k))), (proj2 (mkf_spec _ _)), Z.mod_mod
        by (pose proof (float_width_pos k); apply Z.pow_nonzero; lia).
      apply Z.mod_small. rewrite <- H. lia.
  - apply Z.mod_pos_bound. lia.
  - pose proof (zfloat_range f) as Hr. rewrite H in Hr. cbn [float_width] in Hr.
    apply zfloat_eq; [by rewrite H, (proj1 (mkf_spec _ _))|].
    rewrite (proj2 (mkf_spec _ _)). cbn [float_width]. by rewrite !Z.mod_small by (rewrite ?Z.mod_small; lia).
  - apply Z.mod_pos_bound. lia.
  - pose proof (zfloat_range f) as Hr. rewrite H in Hr. cbn [float_width] in Hr.
    apply zfloat_eq; [by rewrite H, (proj1 (mkf_spec _ _))|].
    rewrite (proj2 (mkf_spec _ _)). cbn [float_width double_bits].
    by rewrite !Z.mod_small by (rewrite ?Z.mod_small; lia).
  - destruct d as [bits]. cbn [double_bits] in H |- *. rewrite (proj2 (mkf_spec _ _)). cbn [float_width].
    by rewrite Z.mod_mod, Z.mod_small by lia.
  - f_equal. by destruct s.
  - rewrite (proj2 (mkf_spec _ _)). cbn [float_width]. f_equal. apply Z.mod_mod. lia.
Qed.

End Concrete.
