(* ===== verification/Index.v ===== *)
(** * Sizes, indices and the index-space iterator

    [src/stablehlo/reference/Index.h] and [Index.cpp]: [Sizes] (a vector of
    [int64_t]) with its arithmetic, and [IndexSpaceIterator], which enumerates
    the index space of a shape.  [indices] is the reference enumeration the
    iterator is proved to follow. *)
From S2P Require Import Prelude.

(** ** [Sizes] *)
Abbreviation Sizes := (list Z) (only parsing).
Abbreviation Index := (list Z) (only parsing).

(** [result[i] = this[permutation[i]]], into a vector of the size of [this]. *)
Definition permute (x : Sizes) (permutation : list Z) : result Sizes :=
  foldM (fun (i : nat) (result : Sizes) =>
    p ← at_z permutation (Z.of_nat i);
    v ← at_z x p;
    set_z result (Z.of_nat i) v)
  (seq 0 (length permutation)) (replicate (length x) 0).

Definition inBounds (x bounds : Sizes) : bool :=
  if decide (length x = length bounds)
  then forallb (fun '(size, bound) => negb ((size <? 0) || (bound <=? size))) (zip x bounds)
  else false.

Definition sizes_zip (op : Z -> Z -> Z) (x y : Sizes) : result Sizes :=
  if decide (length x = length y)
  then mapM (fun '(a, b) => i64 (op a b)) (zip x y)
  else Err (Fatal "expected same size").

Definition sizes_add (x y : Sizes) : result Sizes := sizes_zip Z.add x y.
Definition sizes_add_r (x : Sizes) (y : Z) : result Sizes := sizes_add x (replicate (length x) y).
Definition sizes_add_l (x : Z) (y : Sizes) : result Sizes := sizes_add_r y x.
Definition sizes_sub (x y : Sizes) : result Sizes := sizes_zip Z.sub x y.
Definition sizes_sub_r (x : Sizes) (y : Z) : result Sizes := sizes_sub x (replicate (length x) y).
Definition sizes_sub_l (x : Z) (y : Sizes) : result Sizes := sizes_sub (replicate (length y) x) y.
Definition sizes_mul (x y : Sizes) : result Sizes := sizes_zip Z.mul x y.
Definition sizes_mul_r (x : Sizes) (y : Z) : result Sizes := sizes_mul x (replicate (length x) y).
(** As written: the body of [operator*(int64_t&, const Sizes&)] is [y + x]. *)
Definition sizes_mul_l (x : Z) (y : Sizes) : result Sizes := sizes_add_r y x.

Definition clamp (mn x mx : Sizes) : result Sizes :=
  if decide (length mn = length x /\ length x = length mx)
  then Ok (zip_with (fun '(lo, a) hi => Z.min (Z.max a lo) hi) (zip mn x) mx)
  else Err (Fatal "expected same size").
Definition clamp_scalars (mn : Z) (x : Sizes) (mx : Z) : result Sizes :=
  clamp (replicate (length x) mn) x (replicate (length x) mx).
Definition clamp_lo (mn : Z) (x mx : Sizes) : result Sizes :=
  clamp (replicate (length x) mn) x mx.
Definition clamp_hi (mn x : Sizes) (mx : Z) : result Sizes :=
  clamp mn x (replicate (length x) mx).

(** ** [IndexSpaceIterator] *)
Record IndexSpaceIterator := MkIter {
  shape_ : Sizes;
  index_ : option Index;
}.

#[export] Instance iter_eq_dec : EqDecision IndexSpaceIterator.
Proof. solve_decision. Defined.

Definition iter_end (shape : Sizes) : IndexSpaceIterator :=
  {| shape_ := shape; index_ := None |}.

Definition iter_at (shape : Sizes) (index : option Index) : IndexSpaceIterator :=
  {| shape_ := shape;
     index_ := match index with
               | Some i => if inBounds i shape then Some i else None
               | None => None
               end |}.

Definition index_begin (shape : Sizes) : IndexSpaceIterator :=
  if existsb (fun dimSize => dimSize =? 0) shape then iter_end shape
  else iter_at shape (Some (replicate (length shape) 0)).

Definition index_end (shape : Sizes) : IndexSpaceIterator := iter_end shape.

Definition iter_deref (it : IndexSpaceIterator) : result Index :=
  ok_or (index_ it) (Fatal "Dereferencing a past-the-end iterator.").

(** The [for] loop of [operator++]: [n] counts the dimensions still to visit,
    so [i = n - 1]; [None] is the reset optional. *)
Fixpoint incr_loop (n : nat) (shape : Sizes) (index : Index) : result (option Index) :=
  match n with
  | O => Ok (Some index)
  | S i =>
      x ← at_z index (Z.of_nat i);
      x ← i64 (x + 1);
      index ← set_z index (Z.of_nat i) x;
      d ← at_z shape (Z.of_nat i);
      if d <=? x then
        index ← set_z index (Z.of_nat i) 0;
        if decide (i = O) then Ok None else incr_loop i shape index
      else Ok (Some index)
  end.

Definition iter_incr (it : IndexSpaceIterator) : result IndexSpaceIterator :=
  match index_ it with
  | None => Err (Fatal "Incrementing a past-the-end iterator.")
  | Some index =>
      if decide (shape_ it = []) then Ok (iter_end (shape_ it))
      else
        o ← incr_loop (length (shape_ it)) (shape_ it) index;
        Ok {| shape_ := shape_ it; index_ := o |}
  end.

(** [it++] returns the iterator as it was, and the advanced one is the new state. *)
Definition iter_post_incr (it : IndexSpaceIterator)
    : result (IndexSpaceIterator * IndexSpaceIterator) :=
  it' ← iter_incr it; Ok (it, it').

(** ** The loop [for (it = begin; it != end; ++it)], the body applied to the dereferenced iterator *)
Section loop.
Context {M : Type -> Type} `{!MRet M, !MBind M, !MLift M} {S : Type}.

Fixpoint for_loop (fuel : nat) (it last : IndexSpaceIterator)
    (body : Index -> S -> M S) (s : S) : M S :=
  if decide (it = last) then mret s
  else match fuel with
       | O => lift (Err OutOfFuel)
       | Datatypes.S fuel =>
           i ← lift (iter_deref it);
           s ← body i s;
           it ← lift (iter_incr it);
           for_loop fuel it last body s
       end.

Definition for_index (shape : Sizes) (body : Index -> S -> M S) (s : S) : M S :=
  for_loop (Z.to_nat (prod_z shape)) (index_begin shape) (index_end shape) body s.
End loop.

(** ** Reference: the index space in lexicographic order, and positions in it *)
Fixpoint indices (shape : Sizes) : list Index :=
  match shape with
  | [] => [[]]
  | d :: ds => flat_map (fun i => cons i <$> indices ds) (seqZ 0 d)
  end.

Fixpoint flat (shape : Sizes) (index : Index) : Z :=
  match shape, index with
  | d :: ds, x :: xs => x * prod_z ds + flat ds xs
  | _, _ => 0
  end.

Definition in_bounds (index shape : list Z) : Prop :=
  Forall2 (fun x d => 0 <= x < d) index shape.

Definition shape_ok (shape : Sizes) : Prop :=
  Forall (fun d => 0 <= d <= int64_max) shape.

(** ** Lemmas on bounds *)
Lemma inBounds_spec x b : inBounds x b = true <-> in_bounds x b.
Proof.
  unfold inBounds, in_bounds. split.
  - case_decide as Hl; [|done]. revert b Hl.
    induction x as [|a x IH]; intros [|d b] Hl; cbn in *; try done; try lia.
    rewrite andb_true_iff. intros [H1 H2]. constructor; [lia|]. apply IH; [lia|done].
  - intros H. rewrite decide_True by (by eapply Forall2_length).
    induction H as [|a d x b Ha H IH]; cbn; [done|].
    rewrite IH, andb_true_r. lia.
Qed.

Lemma in_bounds_length i s : in_bounds i s -> length i = length s.
Proof. apply Forall2_length. Qed.

Lemma in_bounds_app i1 i2 s1 s2 :
  in_bounds i1 s1 -> in_bounds i2 s2 -> in_bounds (i1 ++ i2) (s1 ++ s2).
Proof. apply Forall2_app. Qed.

Lemma in_bounds_lookup i s k x d :
  in_bounds i s -> i !! k = Some x -> s !! k = Some d -> 0 <= x < d.
Proof. intros H Hx Hd. eapply (Forall2_lookup_lr _ _ _ _ _ _ H Hx Hd). Qed.

Lemma in_bounds_pos i s : in_bounds i s -> Forall (fun d => 0 < d) s.
Proof. induction 1; constructor; [lia|done]. Qed.

Lemma in_bounds_prod_pos i s : in_bounds i s -> 0 < prod_z s.
Proof. intros H. apply prod_z_pos. by eapply in_bounds_pos. Qed.

#[export] Hint Resolve in_bounds_length in_bounds_pos in_bounds_prod_pos : hlo.

Lemma prod_z_app s1 s2 : prod_z (s1 ++ s2) = prod_z s1 * prod_z s2.
Proof.
  induction s1 as [|d s1 IH].
  - change ([] ++ s2) with s2. unfold prod_z at 2. cbn [foldr]. lia.
  - change ((d :: s1) ++ s2) with (d :: (s1 ++ s2)). unfold prod_z in *. cbn [foldr].
    rewrite IH. ring.
Qed.

Lemma prod_z_cons d s : prod_z (d :: s) = d * prod_z s.
Proof. reflexivity. Qed.

Lemma prod_z_one d : prod_z [d] = d.
Proof. unfold prod_z; cbn [foldr]; lia. Qed.

Lemma flat_one d x : flat [d] [x] = x.
Proof. cbn [flat]. unfold prod_z; cbn [foldr]; lia. Qed.

Lemma flat_app s1 s2 i1 i2 :
  length i1 = length s1 -> flat (s1 ++ s2) (i1 ++ i2) = flat s1 i1 * prod_z s2 + flat s2 i2.
Proof.
  revert i1. induction s1 as [|d s1 IH]; intros [|x i1] Hl; simpl in Hl; try lia.
  - simpl app. cbn [flat]. lia.
  - simpl app. cbn [flat]. rewrite IH by lia. rewrite prod_z_app. ring.
Qed.

Lemma flat_bounds i s : in_bounds i s -> 0 <= flat s i < prod_z s.
Proof.
  induction 1 as [|x d i s Hx Hi IH]; [unfold prod_z; cbn [flat foldr]; lia|].
  cbn [flat]. rewrite prod_z_cons. nia.
Qed.

Lemma flat_inj s i j : in_bounds i s -> in_bounds j s -> flat s i = flat s j -> i = j.
Proof.
  intros Hi. revert j. induction Hi as [|x d i s Hx Hi IH]; intros j Hj.
  - by inversion Hj.
  - inversion Hj as [|y ? j' ? Hy Hj']; subst. cbn [flat]. intros Heq.
    pose proof (flat_bounds _ _ Hi). pose proof (flat_bounds _ _ Hj').
    assert (x = y) as -> by nia. f_equal. apply IH; [done|]. lia.
Qed.

(** ** [indices] lists exactly the index space, each index at its position *)
Lemma elem_of_indices s i : i ∈ indices s <-> in_bounds i s.
Proof.
  revert i. induction s as [|d s IH]; intros i; cbn [indices].
  - split; [intros ->%list_elem_of_singleton; constructor | inversion 1; by apply list_elem_of_singleton].
  - rewrite list_elem_of_In, in_flat_map. setoid_rewrite <- list_elem_of_In. split.
    + intros (x & Hx%elem_of_seqZ & (i' & -> & Hi%IH)%list_elem_of_fmap).
      constructor; [lia|done].
    + inversion 1 as [|x ? i' ? Hx Hi]; subst. exists x. split; [apply elem_of_seqZ; lia|].
      apply list_elem_of_fmap. exists i'. split; [done|]. by apply IH.
Qed.

Lemma lookup_flat_map_blocks {A B} (f : A -> list B) m (l : list A) (i j : nat) x :
  (forall a, length (f a) = m) -> l !! i = Some x -> (j < m)%nat ->
  flat_map f l !! (i * m + j)%nat = f x !! j.
Proof.
  intros Hf. revert i. induction l as [|a l IH]; intros [|i] Hi Hj; simplify_eq/=.
  - rewrite lookup_app_l; [done|]. by rewrite Hf.
  - rewrite lookup_app_r; rewrite Hf; [|lia].
    replace (m + i * m + j - m)%nat with (i * m + j)%nat by lia. by apply IH.
Qed.

Lemma length_flat_map_blocks {A B} (f : A -> list B) m (l : list A) :
  (forall a, length (f a) = m) -> length (flat_map f l) = (length l * m)%nat.
Proof.
  intros Hf. induction l as [|a l IH]; cbn; [done|].
  rewrite length_app, Hf, IH. lia.
Qed.

Lemma length_indices s : Forall (fun d => 0 <= d) s -> length (indices s) = Z.to_nat (prod_z s).
Proof.
  induction 1 as [|d s Hd Hs IH]; [done|]. cbn [indices].
  rewrite length_flat_map_blocks with (m := length (indices s)) by (intros; by rewrite length_fmap).
  rewrite length_seqZ, IH, prod_z_cons, Z2Nat.inj_mul by auto with hlo. done.
Qed.

Lemma lookup_indices s i :
  in_bounds i s -> indices s !! Z.to_nat (flat s i) = Some i.
Proof.
  induction 1 as [|x d i s Hx Hi IH]; [done|]. cbn [indices flat].
  pose proof (flat_bounds _ _ Hi) as Hb. pose proof (in_bounds_prod_pos _ _ Hi) as Hp.
  assert (Forall (fun d => 0 <= d) s) as Hs
    by (eapply Forall_impl; [by eapply in_bounds_pos | cbn; lia]).
  pose proof (length_indices s Hs) as Hlen.
  replace (Z.to_nat (x * prod_z s + flat s i))
    with (Z.to_nat x * length (indices s) + Z.to_nat (flat s i))%nat by nia.
  rewrite lookup_flat_map_blocks with (x := x).
  - by rewrite list_lookup_fmap, IH.
  - intros; by rewrite length_fmap.
  - rewrite lookup_seqZ_lt by lia. f_equal. lia.
  - lia.
Qed.

Lemma shape_ok_nonneg s : shape_ok s -> Forall (fun d => 0 <= d) s.
Proof. intros H. eapply Forall_impl; [exact H | cbn; lia]. Qed.
#[export] Hint Resolve shape_ok_nonneg : hlo.

Lemma indices_lookup_flat s k i :
  Forall (fun d => 0 <= d) s -> indices s !! k = Some i -> in_bounds i s /\ flat s i = Z.of_nat k.
Proof.
  intros Hs Hk. assert (in_bounds i s) as Hi by (apply elem_of_indices; by eapply list_elem_of_lookup_2).
  split; [done|]. revert k Hs Hk. induction Hi as [|x d i s Hx Hi IH]; intros k Hs Hk.
  - cbn in Hk. apply list_lookup_singleton_Some in Hk as [-> _]. done.
  - apply Forall_cons in Hs as [Hd Hs]. cbn [indices flat] in *.
    pose proof (length_indices s Hs) as Hlen. pose proof (in_bounds_prod_pos _ _ Hi) as Hp.
    pose proof (Nat.div_mod_eq k (length (indices s))) as Hdm.
    pose proof (Nat.mod_upper_bound k (length (indices s)) ltac:(lia)) as Hm.
    assert (k < length (flat_map (fun i => cons i <$> indices s) (seqZ 0 d)))%nat as Hkl
      by (by eapply lookup_lt_Some).
    rewrite (length_flat_map_blocks _ (length (indices s))) in Hkl by (intros; by rewrite length_fmap).
    rewrite length_seqZ in Hkl.
    assert (k / length (indices s) < Z.to_nat d)%nat by (apply Nat.Div0.div_lt_upper_bound; lia).
    replace k with (k / length (indices s) * length (indices s) + k mod length (indices s))%nat in Hk by lia.
    rewrite (lookup_flat_map_blocks _ (length (indices s)) _ _ _ (Z.of_nat (k / length (indices s)))) in Hk;
      [| intros; by rewrite length_fmap | rewrite lookup_seqZ_lt by lia; f_equal; lia | done].
    apply list_lookup_fmap_Some in Hk as (i' & [= -> ->] & Hk).
    rewrite (IH _ Hs Hk). nia.
Qed.

Lemma NoDup_indices s : Forall (fun d => 0 <= d) s -> NoDup (indices s).
Proof.
  intros Hs. apply NoDup_alt. intros k1 k2 i H1 H2.
  apply indices_lookup_flat in H1 as [_ H1], H2 as [_ H2]; [lia|done|done].
Qed.

(** ** [operator++] moves to the next index of the enumeration *)
Lemma set_z_app_mid {A} (l1 l2 : list A) x y :
  set_z (l1 ++ x :: l2) (Z.of_nat (length l1)) y = Ok (l1 ++ y :: l2).
Proof.
  rewrite set_z_ok by (rewrite length_app; cbn [length]; lia).
  by rewrite Nat2Z.id, insert_app_r_alt, Nat.sub_diag.
Qed.

Lemma at_z_app_mid {A} (l1 l2 : list A) x :
  at_z (l1 ++ x :: l2) (Z.of_nat (length l1)) = Ok x.
Proof. by rewrite at_z_nat, list_lookup_middle. Qed.

Lemma incr_loop_spec pre : forall suf ipre isuf,
  pre <> [] -> in_bounds ipre pre -> Forall (fun d => d <= int64_max) pre ->
  (exists ipre', incr_loop (length pre) (pre ++ suf) (ipre ++ isuf)
                   = Ok (Some (ipre' ++ isuf))
     /\ in_bounds ipre' pre /\ flat pre ipre' = flat pre ipre + 1)
  \/ (incr_loop (length pre) (pre ++ suf) (ipre ++ isuf) = Ok None
     /\ flat pre ipre + 1 = prod_z pre).
Proof.
  induction pre as [|d pre IH] using rev_ind; intros suf ipre isuf Hne Hb Hmax; [done|].
  apply Forall2_app_inv_r in Hb as (ipre0 & [|x []] & Hb & Hx & ->);
    [inversion Hx | | inversion Hx as [|? ? ? ? ? Hx']; inversion Hx'].
  inversion Hx as [|? ? ? ? Hxd _]; subst. clear Hx Hne.
  apply Forall_app in Hmax as [Hmax Hdm]. apply Forall_inv in Hdm.
  pose proof (in_bounds_length _ _ Hb) as Hlen.
  rewrite length_app, Nat.add_1_r, <- !app_assoc. cbn [app incr_loop].
  rewrite <- Hlen, at_z_app_mid. cbind.
  rewrite i64_ok by (unfold int64_min, int64_max in *; lia). cbind.
  rewrite set_z_app_mid. cbind.
  rewrite Hlen, at_z_app_mid. cbind.
  rewrite (flat_app pre [d] ipre0 [x]), prod_z_app, !prod_z_one, flat_one by done.
  destruct (Z.leb_spec d (x + 1)).
  - rewrite <- Hlen, set_z_app_mid. cbind.
    assert (x + 1 = d) by lia. case_decide as Hz.
    + right. destruct ipre0; [|done]. destruct pre; [|done]. cbn. split; [done|lia].
    + destruct (IH (d :: suf) ipre0 (0 :: isuf)) as [(ipre' & E & Hb' & Hf) | [E Hf]];
        [destruct pre; [by destruct ipre0 | done] | done | done | |].
      * left. exists (ipre' ++ [0]). rewrite Hlen, E, <- app_assoc.
        split; [done|]. split; [apply in_bounds_app; [done|repeat constructor; lia]|].
        rewrite flat_app, flat_one, prod_z_one, Hf by eauto with hlo. lia.
      * right. rewrite Hlen, E. split; [done|]. nia.
  - left. exists (ipre0 ++ [x + 1]). rewrite <- app_assoc.
    split; [done|]. split; [apply in_bounds_app; [done|repeat constructor; lia]|].
    rewrite flat_app, flat_one, prod_z_one by done. lia.
Qed.

Lemma iter_incr_spec s i :
  shape_ok s -> in_bounds i s ->
  iter_incr {| shape_ := s; index_ := Some i |}
  = Ok {| shape_ := s; index_ := indices s !! S (Z.to_nat (flat s i)) |}.
Proof.
  intros Hs Hi. unfold iter_incr; cbn [shape_ index_].
  pose proof (flat_bounds _ _ Hi) as Hf. pose proof (length_indices s ltac:(by auto with hlo)) as Hl.
  case_decide as Hne; [subst; by inversion Hi|].
  destruct (incr_loop_spec s [] i [] Hne Hi) as [(i' & E & Hi' & Hf') | [E Hp]].
  - eapply Forall_impl; [exact Hs | cbn; lia].
  - rewrite !app_nil_r in E. rewrite E. cbind.
    rewrite <- Z2Nat.inj_succ by lia. unfold Z.succ. rewrite <- Hf'.
    by rewrite lookup_indices.
  - rewrite !app_nil_r in E. rewrite E. cbind.
    rewrite lookup_ge_None_2 by lia. done.
Qed.

Lemma for_loop_spec {S} s (body : Index -> S -> result S) : shape_ok s ->
  forall n k st fuel, n = (length (indices s) - k)%nat -> (n <= fuel)%nat ->
  for_loop fuel {| shape_ := s; index_ := indices s !! k |} (index_end s) body st
  = foldM body (drop k (indices s)) st.
Proof.
  intros Hs n. induction n as [|n IH]; intros k st fuel Hn Hfuel.
  - rewrite lookup_ge_None_2, drop_ge by lia.
    destruct fuel; cbn [for_loop]; by rewrite decide_True by done.
  - destruct (lookup_lt_is_Some_2 (indices s) k) as [i Hi]; [lia|].
    destruct fuel as [|fuel]; [lia|].
    rewrite (drop_S _ _ _ Hi), Hi. cbn [for_loop foldM].
    rewrite decide_False by done. unfold lift, result_lift, iter_deref. cbn [index_ ok_or]. cbind.
    destruct (body i st) as [st'|]; [|done]. cbind.
    apply indices_lookup_flat in Hi as [Hi Hf]; [|by auto with hlo].
    rewrite iter_incr_spec, Hf, Nat2Z.id by done. cbind. apply IH; lia.
Qed.

Lemma index_begin_spec s :
  shape_ok s -> index_begin s = {| shape_ := s; index_ := indices s !! 0%nat |}.
Proof.
  intros Hs. unfold index_begin.
  pose proof (length_indices s ltac:(by auto with hlo)) as Hl.
  destruct (existsb _ s) eqn:E.
  - apply existsb_exists in E as (d & Hd & Hz%Z.eqb_eq). subst.
    assert (prod_z s = 0) as Hp.
    { clear Hs Hl. induction s as [|e s IH]; [done|]. rewrite prod_z_cons.
      destruct Hd as [->|Hd]; [lia|]. rewrite IH by done. lia. }
    rewrite lookup_ge_None_2; [done|]. rewrite Hl, Hp. done.
  - assert (in_bounds (replicate (length s) 0) s) as Hb.
    { clear Hl. induction Hs as [|d s Hd Hs IH]; cbn in *; [constructor|].
      apply orb_false_iff in E as [E1 E2]. constructor; [lia|by apply IH]. }
    unfold iter_at. apply inBounds_spec in Hb as Hb'. rewrite Hb'.
    pose proof (lookup_indices _ _ Hb) as Hlk.
    replace (flat s (replicate (length s) 0)) with 0 in Hlk; [change (Z.to_nat 0) with O in Hlk; by rewrite Hlk|].
    clear. induction s; cbn; lia.
Qed.

(** The loop visits [indices s], in that order, and ends: no fuel runs out. *)
Lemma for_index_foldM {S} s (body : Index -> S -> result S) st :
  shape_ok s -> for_index s body st = foldM body (indices s) st.
Proof.
  intros Hs. unfold for_index. rewrite index_begin_spec by done.
  rewrite for_loop_spec with (n := length (indices s)); [done|done|lia|].
  by rewrite length_indices by auto with hlo.
Qed.

(** ** Properties *)

(** C1: for every shape, the loop [for (it = begin(); it != end(); ++it)] runs
    its body on the indices of the shape in lexicographic order and ends: the
    [k]-th index visited is the one at row-major position [k], and every index
    inside the shape, and no other, is visited exactly once. *)
Theorem iterator_enumerates shape :
  shape_ok shape ->
  (forall (St : Type) (body : Index -> St -> result St) st,
     for_index shape body st = foldM body (indices shape) st) /\
  (forall (k : nat) i, indices shape !! k = Some i <-> in_bounds i shape /\ flat shape i = Z.of_nat k) /\
  Z.of_nat (length (indices shape)) = prod_z shape.
Proof.
  intros Hs. split; [intros; by apply for_index_foldM|]. split.
  - intros k i. split.
    + intros Hk. eapply indices_lookup_flat in Hk as [Hi Hf]; [done|]. eapply Forall_impl; [exact Hs|cbn; lia].
    + intros [Hi Hf]. pose proof (lookup_indices _ _ Hi) as Hl. by rewrite Hf, Nat2Z.id in Hl.
  - rewrite length_indices by (eapply Forall_impl; [exact Hs|cbn; lia]).
    assert (0 <= prod_z shape) by (apply prod_z_nonneg; eapply Forall_impl; [exact Hs|cbn; lia]). lia.
Qed.

Lemma iterator_enumerates_witness :
  shape_ok [2; 3] /\
  for_index [2; 3] (fun i (l : list Index) => Ok (l ++ [i])) []
  = Ok [[0; 0]; [0; 1]; [0; 2]; [1; 0]; [1; 1]; [1; 2]].
Proof.
  assert (shape_ok [2; 3]) as Hs by (repeat constructor; discriminate).
  split; [exact Hs|].
  exact (proj1 (iterator_enumerates [2; 3] Hs) _ (fun i (l : list Index) => Ok (l ++ [i])) []).
Defined.
