(* ===== verification/Element.v ===== *)
(** * Elements

    [src/stablehlo/reference/Element.h] and [Element.cpp]: an [Element] pairs a
    supported element type with a value of that type, and the element
    operations dispatch on the type.  [element_ok] is the class invariant the
    constructors establish. *)
From S2P Require Import Prelude Types Support.

Section Element.
Context `{L : LLVM}.

(** [std::variant<APInt, bool, APFloat, std::pair<APFloat, APFloat>>] *)
Inductive Value_ :=
| VInt (v : APInt)
| VBool (v : bool)
| VFloat (v : APFloat)
| VComplex (v : APFloat * APFloat).

Record Element := MkElement { getType : Ty; value_ : Value_ }.

Definition unsupported {A} : result A := Err (Fatal "Unsupported element type").
Definition mismatch {A} : result A := Err (Fatal "Element types don't match").
Definition bad_variant_access {A} : result A := Err (UB "std::bad_variant_access").

(** ** Constructors and accessors *)
Definition Element_int (type : Ty) (value : APInt) : result Element :=
  if negb (isSupportedIntegerType type) then unsupported
  else
    w ← getIntOrFloatBitWidth type;
    if negb (w =? getBitWidth value) then Err (Fatal "Bit width mismatch")
    else Ok (MkElement type (VInt value)).

Definition Element_bool (type : Ty) (value : bool) : result Element :=
  if negb (isSupportedBooleanType type) then unsupported
  else Ok (MkElement type (VBool value)).

Definition float_kind (type : Ty) : result FloatKind :=
  match type with FloatType k => Ok k | _ => Err (UB "cast<FloatType>") end.

Definition Element_float (type : Ty) (value : APFloat) : result Element :=
  if negb (isSupportedFloatType type) then unsupported
  else
    typeSemantics ← float_kind type;
    if negb (bool_decide (typeSemantics = getSemantics value))
    then Err (Fatal "Semantics mismatch between provided type and float value")
    else Ok (MkElement type (VFloat value)).

Definition Element_complex (type : Ty) (value : APFloat * APFloat) : result Element :=
  if negb (isSupportedComplexType type) then unsupported
  else
    t ← complex_element type;
    typeSemantics ← float_kind t;
    if negb (bool_decide (typeSemantics = getSemantics value.1)) ||
       negb (bool_decide (typeSemantics = getSemantics value.2))
    then Err (Fatal "Semantics mismatch between provided type and complex value")
    else Ok (MkElement type (VComplex value)).

Definition getIntegerValue (e : Element) : result APInt :=
  if negb (isSupportedIntegerType (getType e)) then Err (Fatal "Element is not an integer")
  else match value_ e with VInt v => Ok v | _ => bad_variant_access end.

Definition getBooleanValue (e : Element) : result bool :=
  if negb (isSupportedBooleanType (getType e)) then Err (Fatal "Element is not a boolean")
  else match value_ e with VBool v => Ok v | _ => bad_variant_access end.

Definition getFloatValue (e : Element) : result APFloat :=
  if negb (isSupportedFloatType (getType e)) then Err (Fatal "Element is not a floating-point")
  else match value_ e with VFloat v => Ok v | _ => bad_variant_access end.

Definition getComplexValue (e : Element) : result (APFloat * APFloat) :=
  if negb (isSupportedComplexType (getType e)) then Err (Fatal "Element is not a complex value")
  else match value_ e with VComplex v => Ok v | _ => bad_variant_access end.

(** ** Bits *)
Definition toBits (e : Element) : result APInt :=
  let type := getType e in
  if isSupportedBooleanType type then
    b ← getBooleanValue e; Ok (apint 1 (if (b : bool) then 1 else 0))
  else if isSupportedIntegerType type then getIntegerValue e
  else if isSupportedFloatType type then f ← getFloatValue e; Ok (bitcastToAPInt f)
  else if isSupportedComplexType type then
    c ← getComplexValue e;
    let realBits := bitcastToAPInt c.1 in
    let imagBits := bitcastToAPInt c.2 in
    n ← numBits type;
    Ok (apint_add (shl (zext imagBits n) (Z.quot n 2)) (zext realBits n))
  else unsupported.

Fixpoint fromBits (type : Ty) (bits : APInt) : result Element :=
  n ← numBits type;
  if negb (n =? getBitWidth bits) then Err (Fatal "numBits(type) != bits.getBitWidth()")
  else if isSupportedBooleanType type then Element_bool type (negb (isZero bits))
  else if isSupportedIntegerType type then Element_int type bits
  else if isSupportedFloatType type then
    k ← float_kind type; Element_float type (apfloat k bits)
  else if isSupportedComplexType type then
    match type with
    | ComplexType elementType =>
        let realBits := extractBits bits (Z.quot n 2) 0 in
        realElement ← fromBits elementType realBits;
        let imagBits := extractBits bits (Z.quot n 2) (Z.quot n 2) in
        imagElement ← fromBits elementType imagBits;
        re ← getFloatValue realElement;
        im ← getFloatValue imagElement;
        Element_complex type (re, im)
    | _ => unsupported
    end
  else unsupported.

(** ** [map], with one function per group of types *)
Definition map1 (el : Element) (integerFn : APInt -> result APInt) (boolFn : bool -> result bool)
    (floatFn : APFloat -> result APFloat)
    (complexFn : APFloat * APFloat -> result (APFloat * APFloat)) : result Element :=
  let type := getType el in
  if isSupportedIntegerType type then
    v ← getIntegerValue el; r ← integerFn v; Element_int type r
  else if isSupportedBooleanType type then
    v ← getBooleanValue el; r ← boolFn v; Element_bool type r
  else if isSupportedFloatType type then
    v ← getFloatValue el; r ← floatFn v; Element_float type r
  else if isSupportedComplexType type then
    v ← getComplexValue el; r ← complexFn v; Element_complex type r
  else unsupported.

Definition map2 (lhs rhs : Element) (integerFn : APInt -> APInt -> result APInt)
    (boolFn : bool -> bool -> result bool) (floatFn : APFloat -> APFloat -> result APFloat)
    (complexFn : APFloat * APFloat -> APFloat * APFloat -> result (APFloat * APFloat))
    : result Element :=
  let type := getType lhs in
  if negb (bool_decide (getType lhs = getType rhs)) then mismatch
  else if isSupportedIntegerType type then
    a ← getIntegerValue lhs; b ← getIntegerValue rhs; r ← integerFn a b; Element_int type r
  else if isSupportedBooleanType type then
    a ← getBooleanValue lhs; b ← getBooleanValue rhs; r ← boolFn a b; Element_bool type r
  else if isSupportedFloatType type then
    a ← getFloatValue lhs; b ← getFloatValue rhs; r ← floatFn a b; Element_float type r
  else if isSupportedComplexType type then
    a ← getComplexValue lhs; b ← getComplexValue rhs; r ← complexFn a b; Element_complex type r
  else unsupported.

(** ** Conversions; an [APSInt] is an [APInt] with its [isUnsigned] flag *)
Definition apsint_extOrTrunc (value : APInt * bool) (width : Z) : APInt :=
  if value.2 then zextOrTrunc value.1 width else sextOrTrunc value.1 width.

Definition APFloat_of_double (d : double) : APFloat := apfloat_of_double d.
Definition float_zero : APFloat := apfloat_of_double (double_of_Z 0).

Definition convert_complex_at (conv : APFloat -> result Element) (type : Ty)
    (value : APFloat * APFloat) : result Element :=
  realElement ← conv value.1;
  imagElement ← conv value.2;
  re ← getFloatValue realElement;
  im ← getFloatValue imagElement;
  Element_complex type (re, im).

(** The conversions of an [APFloat] and of a [Complex<APFloat>] call each other;
    the recursion descends into the element type of a complex type. *)
Fixpoint convert_float (type : Ty) (value : APFloat) : result Element :=
  if isSupportedBooleanType type then Element_bool type (negb (apfloat_isZero value))
  else if isSupportedIntegerType type then
    w ← getIntOrFloatBitWidth type;
    Element_int type (convertToInteger w (isSupportedUnsignedIntegerType type) value)
  else if isSupportedFloatType type then
    k ← float_kind type; Element_float type (apfloat_convert k value)
  else if isSupportedComplexType type then
    match type with
    | ComplexType elementType =>
        convert_complex_at (convert_float elementType) type (value, float_zero)
    | _ => unsupported
    end
  else unsupported.

Definition convert_complex (type : Ty) (value : APFloat * APFloat) : result Element :=
  if isSupportedComplexType type then
    elementType ← complex_element type;
    convert_complex_at (convert_float elementType) type value
  else convert_float type value.1.

Definition convert_double (type : Ty) (value : double) : result Element :=
  convert_float type (apfloat_of_double value).

Definition convert_cdouble (type : Ty) (value : double * double) : result Element :=
  convert_complex type (apfloat_of_double value.1, apfloat_of_double value.2).

Fixpoint convert_apsint (type : Ty) (value : APInt * bool) : result Element :=
  if isSupportedBooleanType type then Element_bool type (negb (isZero value.1))
  else if isSupportedIntegerType type then
    w ← getIntOrFloatBitWidth type;
    Element_int type (apsint_extOrTrunc value w)
  else if isSupportedFloatType type then
    k ← float_kind type;
    Element_float type (convertFromAPInt k value.1 (negb value.2))
  else if isSupportedComplexType type then
    match type with
    | ComplexType elementType =>
        floatResult ← convert_apsint elementType value;
        f ← getFloatValue floatResult;
        convert_float type f
    | _ => unsupported
    end
  else unsupported.

(** As written: [isSigned] is passed for the parameter [isUnsigned] of [APSInt]. *)
Definition convert_apint (type : Ty) (value : APInt) (isSigned : bool) : result Element :=
  convert_apsint type (value, isSigned).

Definition convert_i64 (type : Ty) (value : Z) : result Element :=
  convert_apsint type (apint 64 value, false).

Definition convert_u64 (type : Ty) (value : Z) : result Element :=
  convert_apsint type (apint 64 value, true).

Definition convert_bool (type : Ty) (value : bool) : result Element :=
  if isSupportedBooleanType type then Element_bool type value
  else convert_u64 type (if value then 1 else 0).

Definition convert (type : Ty) (e : Element) : result Element :=
  let t := getType e in
  if isSupportedBooleanType t then v ← getBooleanValue e; convert_bool type v
  else if isSupportedSignedIntegerType t then
    v ← getIntegerValue e; convert_i64 type (getSExtValue v)
  else if isSupportedUnsignedIntegerType t then
    v ← getIntegerValue e; convert_u64 type (getZExtValue v)
  else if isSupportedFloatType t then v ← getFloatValue e; convert_float type v
  else if isSupportedComplexType t then v ← getComplexValue e; convert_complex type v
  else unsupported.

Definition getZeroValueOfType (type : Ty) : result Element :=
  if isSupportedBooleanType type then convert_bool type false
  else if isSupportedSignedIntegerType type then convert_i64 type 0
  else if isSupportedUnsignedIntegerType type then convert_u64 type 0
  else if isSupportedFloatType type then convert_float type float_zero
  else if isSupportedComplexType type then convert_complex type (float_zero, float_zero)
  else unsupported.

Definition to_cdouble (c : APFloat * APFloat) : double * double :=
  (convertToDouble c.1, convertToDouble c.2).

Definition mapWithUpcastToDouble (el : Element) (floatFn : double -> double)
    (complexFn : double * double -> double * double) : result Element :=
  let type := getType el in
  if isSupportedFloatType type then
    f ← getFloatValue el; convert_double type (floatFn (convertToDouble f))
  else if isSupportedComplexType type then
    c ← getComplexValue el; convert_cdouble type (complexFn (to_cdouble c))
  else unsupported.

Definition mapWithUpcastToDouble2 (lhs rhs : Element) (floatFn : double -> double -> double)
    (complexFn : double * double -> double * double -> double * double) : result Element :=
  let type := getType lhs in
  if negb (bool_decide (getType lhs = getType rhs)) then mismatch
  else if isSupportedFloatType type then
    a ← getFloatValue lhs; b ← getFloatValue rhs;
    convert_double type (floatFn (convertToDouble a) (convertToDouble b))
  else if isSupportedComplexType type then
    a ← getComplexValue lhs; b ← getComplexValue rhs;
    convert_cdouble type (complexFn (to_cdouble a) (to_cdouble b))
  else unsupported.

(** ** Operators *)
Definition el_lnot (e : Element) : result Element :=
  v ← getBooleanValue e; Element_bool i1 (negb v).

Definition el_and (lhs rhs : Element) : result Element :=
  map2 lhs rhs
    (fun lhs rhs => Ok (apint_and lhs rhs))
    (fun lhs rhs => Ok (lhs && rhs))
    (fun _ _ => Err (Fatal "float & float is unsupported"))
    (fun _ _ => Err (Fatal "complex & complex is unsupported")).

Definition el_mul (lhs rhs : Element) : result Element :=
  map2 lhs rhs
    (fun lhs rhs => Ok (apint_mul lhs rhs))
    (fun lhs rhs => Ok (lhs && rhs))
    (fun lhs rhs => Ok (apfloat_mul lhs rhs))
    (fun lhs rhs =>
      let resultReal := apfloat_sub (apfloat_mul lhs.1 rhs.1) (apfloat_mul lhs.2 rhs.2) in
      let resultImag := apfloat_add (apfloat_mul lhs.1 rhs.2) (apfloat_mul lhs.2 rhs.1) in
      Ok (resultReal, resultImag)).

Definition el_add (lhs rhs : Element) : result Element :=
  map2 lhs rhs
    (fun lhs rhs => Ok (apint_add lhs rhs))
    (fun lhs rhs => Ok (lhs || rhs))
    (fun lhs rhs => Ok (apfloat_add lhs rhs))
    (fun lhs rhs => Ok (apfloat_add lhs.1 rhs.1, apfloat_add lhs.2 rhs.2)).

Definition el_neg (el : Element) : result Element :=
  map1 el
    (fun val => Ok (apint_neg val))
    (fun _ => Err (Fatal "-bool is unsupported"))
    (fun val => Ok (apfloat_neg val))
    (fun val => Ok (apfloat_neg val.1, apfloat_neg val.2)).

Definition el_sub (lhs rhs : Element) : result Element :=
  map2 lhs rhs
    (fun lhs rhs => Ok (apint_sub lhs rhs))
    (fun _ _ => Err (Fatal "bool - bool is unsupported"))
    (fun lhs rhs => Ok (apfloat_sub lhs rhs))
    (fun lhs rhs => Ok (apfloat_sub lhs.1 rhs.1, apfloat_sub lhs.2 rhs.2)).

Definition el_div (lhs rhs : Element) : result Element :=
  let type := getType lhs in
  if negb (bool_decide (getType lhs = getType rhs)) then mismatch
  else if isSupportedIntegerType type then
    a ← getIntegerValue lhs; b ← getIntegerValue rhs;
    Element_int type (if isSupportedSignedIntegerType type then sdiv a b else udiv a b)
  else if isSupportedFloatType type then
    a ← getFloatValue lhs; b ← getFloatValue rhs; Element_float type (apfloat_div a b)
  else if isSupportedComplexType type then
    a ← getComplexValue lhs; b ← getComplexValue rhs;
    let elSemantics := getSemantics a.1 in
    let resultVal := complex_op DDiv (to_cdouble a) (to_cdouble b) in
    let resultReal := apfloat_convert elSemantics (apfloat_of_double resultVal.1) in
    let resultImag := apfloat_convert elSemantics (apfloat_of_double resultVal.2) in
    Element_complex type (resultReal, resultImag)
  else unsupported.

Definition el_lt (lhs other : Element) : result Element :=
  let type := getType other in
  if negb (bool_decide (getType lhs = type)) then mismatch
  else if isSupportedIntegerType type then
    a ← getIntegerValue lhs; b ← getIntegerValue other;
    if isSupportedSignedIntegerType type then Element_bool i1 (slt a b)
    else Element_bool i1 (ult a b)
  else if isSupportedBooleanType type then
    a ← getBooleanValue lhs; b ← getBooleanValue other; Element_bool i1 (negb a && b)
  else if isSupportedFloatType type then
    a ← getFloatValue lhs; b ← getFloatValue other; Element_bool i1 (apfloat_lt a b)
  else unsupported.

Definition el_eq (lhs other : Element) : result Element :=
  let type := getType other in
  if negb (bool_decide (getType lhs = type)) then mismatch
  else if isSupportedIntegerType type then
    a ← getIntegerValue lhs; b ← getIntegerValue other; Element_bool i1 (apint_eq a b)
  else if isSupportedBooleanType type then
    a ← getBooleanValue lhs; b ← getBooleanValue other; Element_bool i1 (Bool.eqb a b)
  else if isSupportedFloatType type then
    a ← getFloatValue lhs; b ← getFloatValue other; Element_bool i1 (apfloat_eq a b)
  else if isSupportedComplexType type then
    a ← getComplexValue lhs; b ← getComplexValue other;
    Element_bool i1 (apfloat_eq a.1 b.1 && apfloat_eq a.2 b.2)
  else unsupported.

Definition el_gt (lhs other : Element) : result Element :=
  let type := getType other in
  if negb (bool_decide (getType lhs = type)) then mismatch
  else if isSupportedIntegerType type then
    a ← getIntegerValue lhs; b ← getIntegerValue other;
    if isSupportedSignedIntegerType type then Element_bool i1 (sgt a b)
    else Element_bool i1 (ugt a b)
  else if isSupportedBooleanType type then
    a ← getBooleanValue lhs; b ← getBooleanValue other; Element_bool i1 (a && negb b)
  else if isSupportedFloatType type then
    a ← getFloatValue lhs; b ← getFloatValue other; Element_bool i1 (apfloat_gt a b)
  else unsupported.

Definition el_xor (lhs rhs : Element) : result Element :=
  map2 lhs rhs
    (fun lhs rhs => Ok (apint_xor lhs rhs))
    (fun lhs rhs => Ok (xorb lhs rhs))
    (fun _ _ => Err (Fatal "float ^ float is unsupported"))
    (fun _ _ => Err (Fatal "complex ^ complex is unsupported")).

Definition el_or (lhs rhs : Element) : result Element :=
  map2 lhs rhs
    (fun lhs rhs => Ok (apint_or lhs rhs))
    (fun lhs rhs => Ok (lhs || rhs))
    (fun _ _ => Err (Fatal "float | float is unsupported"))
    (fun _ _ => Err (Fatal "complex | complex is unsupported")).

(** The accessors' [||] is the built-in one, so it does not look at [other]
    when the receiver is true. *)
Definition el_lor (lhs other : Element) : result Element :=
  a ← getBooleanValue lhs;
  b ← (if (a : bool) then Ok true else getBooleanValue other);
  Element_bool i1 b.

Definition el_not (el : Element) : result Element :=
  map1 el
    (fun val => Ok (apint_not val))
    (fun val => Ok (negb val))
    (fun _ => Err (Fatal "~float is unsupported"))
    (fun _ => Err (Fatal "~complex is unsupported")).

Definition el_ne (lhs other : Element) : result Element := e ← el_eq lhs other; el_lnot e.
Definition el_le (lhs other : Element) : result Element :=
  a ← el_lt lhs other; b ← el_eq lhs other; el_lor a b.
Definition el_ge (lhs other : Element) : result Element :=
  a ← el_gt lhs other; b ← el_eq lhs other; el_lor a b.

(** ** Functions *)
Definition abs (el : Element) : result Element :=
  let type := getType el in
  if isSupportedIntegerType type then
    v ← getIntegerValue el; Element_int type (apint_abs v)
  else if isSupportedFloatType type then
    v ← getFloatValue el; Element_float type (apfloat_abs v)
  else if isSupportedComplexType type then
    v ← getComplexValue el;
    elementType ← complex_element type;
    convert_double elementType (complex_abs (to_cdouble v))
  else unsupported.

(** [APFloat::compare] *)
Inductive cmpResult := cmpEqual | cmpUnordered | cmpOther.
Definition compare (f g : APFloat) : cmpResult :=
  if isNaN f || isNaN g then cmpUnordered
  else if apfloat_eq f g then cmpEqual else cmpOther.
Definition isFiniteNonZero (f : APFloat) : bool := apfloat_isFinite f && negb (apfloat_isZero f).

Definition apf_areApproximatelyEqual (f g tolerance : APFloat) : bool :=
  if negb (bool_decide (getSemantics f = getSemantics g)) then false
  else match compare f g with
  | cmpEqual => true
  | cmpUnordered => Bool.eqb (isNaN f) (isNaN g)
  | cmpOther =>
      if (negb (isFiniteNonZero f) || negb (isFiniteNonZero g)) &&
         (negb (apfloat_isZero f) && negb (apfloat_isZero g)) then false
      else if negb (apfloat_isFinite f) || negb (apfloat_isFinite g) then false
      else double_le (std1 std_fabs (double_op DSub (convertToDouble f) (convertToDouble g)))
                     (convertToDouble tolerance)
  end.

Definition areApproximatelyEqual (e1 e2 : Element) (tolerance : APFloat) : result Element :=
  let type := getType e1 in
  if negb (bool_decide (type = getType e2)) then mismatch
  else if isSupportedFloatType type then
    a ← getFloatValue e1; b ← getFloatValue e2;
    Element_bool i1 (apf_areApproximatelyEqual a b tolerance)
  else if isSupportedComplexType type then
    a ← getComplexValue e1; b ← getComplexValue e2;
    Element_bool i1 (apf_areApproximatelyEqual a.1 b.1 tolerance &&
                     apf_areApproximatelyEqual a.2 b.2 tolerance)
  else unsupported.

Definition dlit (z : Z) : double := double_of_Z z.

Definition cbrt (el : Element) : result Element :=
  mapWithUpcastToDouble el (std1 std_cbrt)
    (fun e =>
      let theta := double_op DDiv (std2 std_atan2 e.2 e.1) (dlit 3) in
      double_complex_op DMul
        (std2 std_pow (double_op DAdd (std2 std_pow e.1 (dlit 2)) (std2 std_pow e.2 (dlit 2)))
                      (double_op DDiv (dlit 1) (dlit 6)))
        (std1 std_cos theta, std1 std_sin theta)).

Definition round_with (mode : RoundingMode) (el : Element) : result Element :=
  val ← getFloatValue el; Element_float (getType el) (roundToIntegral mode val).
Definition ceil : Element -> result Element := round_with TowardPositive.
Definition floor : Element -> result Element := round_with TowardNegative.
Definition roundNearestAfz : Element -> result Element := round_with NearestTiesToAway.
Definition roundNearestEven : Element -> result Element := round_with NearestTiesToEven.

Definition complex (e1 e2 : Element) : result Element :=
  let complexType := ComplexType (getType e1) in
  if isSupportedComplexType complexType then
    re ← getFloatValue e1; im ← getFloatValue e2; Element_complex complexType (re, im)
  else unsupported.

Definition exponential (el : Element) : result Element :=
  mapWithUpcastToDouble el (std1 std_exp) (complex_std1 std_exp).
Definition exponentialMinusOne (el : Element) : result Element :=
  mapWithUpcastToDouble el (std1 std_expm1)
    (fun e => complex_op DSub (complex_std1 std_exp e) (dlit 1, dlit 0)).
Definition cosine (el : Element) : result Element :=
  mapWithUpcastToDouble el (std1 std_cos) (complex_std1 std_cos).
Definition log (el : Element) : result Element :=
  mapWithUpcastToDouble el (std1 std_log) (complex_std1 std_log).
Definition logPlusOne (el : Element) : result Element :=
  mapWithUpcastToDouble el (std1 std_log1p)
    (fun e => complex_std1 std_log (complex_op DAdd e (dlit 1, dlit 0))).
Definition rsqrt (el : Element) : result Element :=
  mapWithUpcastToDouble el
    (fun e => double_op DDiv (dlit 1) (std1 std_sqrt e))
    (fun e => double_complex_op DDiv (dlit 1) (complex_std1 std_sqrt e)).
Definition sine (el : Element) : result Element :=
  mapWithUpcastToDouble el (std1 std_sin) (complex_std1 std_sin).
Definition sqrt (el : Element) : result Element :=
  mapWithUpcastToDouble el (std1 std_sqrt) (complex_std1 std_sqrt).
Definition tan (el : Element) : result Element :=
  mapWithUpcastToDouble el (std1 std_tan) (complex_std1 std_tan).
Definition tanh (el : Element) : result Element :=
  mapWithUpcastToDouble el (std1 std_tanh) (complex_std1 std_tanh).

Definition logistic (el : Element) : result Element :=
  one ← convert_double (getType el) (dlit 1);
  negated ← el_neg el;
  e ← exponential negated;
  d ← el_add one e;
  el_div one d.

Definition atan2 (e1 e2 : Element) : result Element :=
  let type := getType e1 in
  if isSupportedFloatType type then
    a ← getFloatValue e1; b ← getFloatValue e2;
    convert_double type (std2 std_atan2 (convertToDouble a) (convertToDouble b))
  else if isSupportedComplexType type then
    i ← convert_cdouble type (dlit 0, dlit 1);
    neg_i ← el_neg i;
    ie1 ← el_mul i e1; num ← el_add e2 ie1;
    e22 ← el_mul e2 e2; e11 ← el_mul e1 e1; sq ← el_add e22 e11;
    den ← sqrt sq;
    q ← el_div num den;
    l ← log q;
    el_mul neg_i l
  else unsupported.

Definition imag (el : Element) : result Element :=
  let type := getType el in
  if isSupportedFloatType type then
    f ← getFloatValue el;
    Element_float type (apfloat_convert (getSemantics f) float_zero)
  else if isSupportedComplexType type then
    t ← complex_element type; c ← getComplexValue el; Element_float t c.2
  else unsupported.

Definition real (el : Element) : result Element :=
  let type := getType el in
  if isSupportedFloatType type then Ok el
  else if isSupportedComplexType type then
    t ← complex_element type; c ← getComplexValue el; Element_float t c.1
  else unsupported.

Definition isFinite (el : Element) : result Element :=
  f ← getFloatValue el; Element_bool i1 (apfloat_isFinite f).

Definition max (e1 e2 : Element) : result Element :=
  map2 e1 e2
    (fun lhs rhs => Ok (if isSupportedSignedIntegerType (getType e1) then smax lhs rhs else umax lhs rhs))
    (fun lhs rhs => Ok (lhs || rhs))
    (fun lhs rhs => Ok (maximum lhs rhs))
    (fun lhs rhs =>
      let cmpRes := match compare lhs.1 rhs.1 with
                    | cmpEqual => apfloat_gt lhs.2 rhs.2
                    | _ => apfloat_gt lhs.1 rhs.1 end in
      Ok (if cmpRes : bool then lhs else rhs)).

Definition min (e1 e2 : Element) : result Element :=
  map2 e1 e2
    (fun lhs rhs => Ok (if isSupportedSignedIntegerType (getType e1) then smin lhs rhs else umin lhs rhs))
    (fun lhs rhs => Ok (lhs && rhs))
    (fun lhs rhs => Ok (minimum lhs rhs))
    (fun lhs rhs =>
      let cmpRes := match compare lhs.1 rhs.1 with
                    | cmpEqual => apfloat_lt lhs.2 rhs.2
                    | _ => apfloat_lt lhs.1 rhs.1 end in
      Ok (if cmpRes : bool then lhs else rhs)).

Definition popcnt (el : Element) : result Element :=
  v ← getIntegerValue el; convert_u64 (getType el) (popcount v).

(** The [while] loop of [power]; the exponent loses a bit per round, so its width is
    fuel enough. *)
Fixpoint power_loop (fuel : nat) (base exponent result : APInt) : Prelude.result APInt :=
  if isZero exponent then Ok result
  else match fuel with
       | O => Err OutOfFuel
       | S fuel =>
           let result := if negb (isZero (apint_and exponent (apint (getBitWidth exponent) 1)))
                         then apint_mul result base else result in
           power_loop fuel (apint_mul base base) (lshr exponent 1) result
       end.

Definition power (e1 e2 : Element) : result Element :=
  let type := getType e1 in
  if isSupportedIntegerType type then
    let isSigned := isSupportedSignedIntegerType type in
    base ← getIntegerValue e1;
    exponent ← getIntegerValue e2;
    let run exponent :=
      r ← power_loop (Z.to_nat (getBitWidth exponent)) base exponent (apint (getBitWidth base) 1);
      Element_int type r in
    if isSigned && isNegative exponent then
      if isOne (apint_abs base) then run (apint_abs exponent) else convert_i64 type 0
    else run exponent
  else mapWithUpcastToDouble2 e1 e2 (std2 std_pow) complex_pow.

(** [uint64_t] arithmetic *)
Definition u64 (z : Z) : Z := z mod 2 ^ 64.
Definition u64_shl (x n : Z) : result Z :=
  if (0 <=? n) && (n <? 64) then Ok (u64 (Z.shiftl x n)) else Err (UB "shift").
Definition u64_shr (x n : Z) : result Z :=
  if (0 <=? n) && (n <? 64) then Ok (Z.shiftr x n) else Err (UB "shift").

Definition reduce_mantissa (intVal srcMantissaBits destMantissaBits : Z) : result Z :=
  lastMantissaBitMask ← u64_shl 1 (srcMantissaBits - destMantissaBits);
  let baseRoundingBias := u64 (Z.shiftr lastMantissaBitMask 1 - 1) in
  xLastMantissaBit ← u64_shr (Z.land intVal lastMantissaBitMask) (srcMantissaBits - destMantissaBits);
  let xRoundingBias := u64 (xLastMantissaBit + baseRoundingBias) in
  let truncationMask := 2 ^ 64 - 1 - u64 (lastMantissaBitMask - 1) in
  let intVal := u64 (intVal + xRoundingBias) in
  Ok (Z.land intVal truncationMask).

Definition reduce_exponent (intVal bitWidth srcMantissaBits srcExponentBits destExponentBits : Z)
    : result Z :=
  signBitMask ← u64_shl 1 (bitWidth - 1);
  one_exp ← u64_shl 1 srcExponentBits;
  expBitsMask ← u64_shl (u64 (one_exp - 1)) srcMantissaBits;
  half ← u64_shl 1 (srcExponentBits - 1);
  let exponentBias := u64 (half - 1) in
  destHalf ← u64_shl 1 (destExponentBits - 1);
  let reducedExponentBias := u64 (destHalf - 1) in
  let reducedMaxExponent := u64 (exponentBias + reducedExponentBias) in
  let reducedMinExponent := u64 (exponentBias - reducedExponentBias) in
  let xExponent := Z.land intVal expBitsMask in
  hi ← u64_shl reducedMaxExponent srcMantissaBits;
  lo ← u64_shl reducedMinExponent srcMantissaBits;
  let xOverflows := hi <? xExponent in
  let xUnderflows := xExponent <=? lo in
  let xSignedZero := Z.land intVal signBitMask in
  let xSignedInf := Z.lor xSignedZero expBitsMask in
  let intVal := if xOverflows then xSignedInf else intVal in
  Ok (if xUnderflows then xSignedZero else intVal).

Definition reducePrecision (el : Element) (exponentBits mantissaBits : Z) : result Element :=
  f ← getFloatValue el;
  let intVal := getZExtValue (bitcastToAPInt f) in
  let type := getType el in
  k ← float_kind type;
  let bitWidth := float_width k in
  let srcMantissaBits := float_mantissa_width k - 1 in
  let destMantissaBits := mantissaBits in
  intVal ← (if destMantissaBits <? srcMantissaBits
            then reduce_mantissa intVal srcMantissaBits destMantissaBits else Ok intVal);
  let srcExponentBits := bitWidth - srcMantissaBits - 1 in
  let destExponentBits := exponentBits in
  intVal ← (if destExponentBits <? srcExponentBits
            then reduce_exponent intVal bitWidth srcMantissaBits srcExponentBits destExponentBits
            else Ok intVal);
  reducedResult ← Element_float type (apfloat k (apint bitWidth intVal));
  if isNaN f then
    if 0 <? destMantissaBits then Ok el else Element_float type (getInf k)
  else Ok reducedResult.

Definition rem (e1 e2 : Element) : result Element :=
  map2 e1 e2
    (fun lhs rhs => Ok (if isSupportedSignedIntegerType (getType e1) then srem lhs rhs else urem lhs rhs))
    (fun _ _ => Err (Fatal "rem(bool, bool) is unsupported"))
    (fun lhs rhs => Ok (apfloat_mod lhs rhs))
    (fun _ _ => Err (Fatal "rem(complex, complex) is not implemented")).

Definition shiftLeft (e1 e2 : Element) : result Element :=
  a ← getIntegerValue e1; b ← getIntegerValue e2; Element_int (getType e1) (apint_shl a b).
Definition shiftRightLogical (e1 e2 : Element) : result Element :=
  a ← getIntegerValue e1; b ← getIntegerValue e2; Element_int (getType e1) (apint_lshr a b).
Definition shiftRightArithmetic (e1 e2 : Element) : result Element :=
  a ← getIntegerValue e1; b ← getIntegerValue e2; Element_int (getType e1) (apint_ashr a b).

Definition sign (el : Element) : result Element :=
  let type := getType el in
  if isSupportedIntegerType type then
    elVal ← getIntegerValue el;
    if isNegative elVal then convert_i64 type (-1)
    else if isZero elVal then convert_i64 type 0
    else convert_i64 type 1
  else if isSupportedFloatType type then
    elVal ← getFloatValue el;
    if isNaN elVal then Ok el
    else if isNegZero elVal then convert_double type (double_neg (dlit 0))
    else if isPosZero elVal then convert_double type (dlit 0)
    else if apfloat_isNegative elVal then convert_double type (double_neg (dlit 1))
    else convert_double type (dlit 1)
  else if isSupportedComplexType type then
    elVal ← getComplexValue el;
    let elSemantics := getSemantics elVal.1 in
    if isNaN elVal.1 || isNaN elVal.2 then
      Element_complex type (getNaN elSemantics, getNaN elSemantics)
    else if apfloat_isZero elVal.1 && apfloat_isZero elVal.2 then
      Element_complex type (getZero elSemantics, getZero elSemantics)
    else
      a ← abs el; f ← getFloatValue a; d ← convert_float type f; el_div el d
  else unsupported.

(** ** Bitcasts *)
Definition bitcastConvertManyToOne (type : Ty) (elements : list Element) : result Element :=
  resultNumBits ← numBits type;
  e0 ← at_z elements 0;
  operandNumBits ← numBits (getType e0);
  r ← rem_z resultNumBits operandNumBits;
  if negb (r =? 0) then Err (Fatal "Unsupported bitcast conversion")
  else
    resultBits ← foldM (fun element resultBits =>
        n ← numBits (getType element);
        if negb (operandNumBits =? n) then Err (Fatal "All elements must have the same numBits")
        else
          operandBits ← toBits element;
          Ok (apint_add (shl resultBits operandNumBits) (zext operandBits resultNumBits)))
      (reverse elements) (apint resultNumBits 0);
    fromBits type resultBits.

(** [for (i = 0; i < operandNumBits; i += resultNumBits)] *)
Fixpoint one_to_many_loop (fuel : nat) (type : Ty) (el : Element) (operandNumBits resultNumBits i : Z)
    (results : list Element) : result (list Element) :=
  if operandNumBits <=? i then Ok results
  else match fuel with
       | O => Err OutOfFuel
       | S fuel =>
           bits ← toBits el;
           e ← fromBits type (extractBits bits resultNumBits i);
           one_to_many_loop fuel type el operandNumBits resultNumBits (i + resultNumBits) (results ++ [e])
       end.

Definition bitcastConvertOneToMany (type : Ty) (el : Element) : result (list Element) :=
  resultNumBits ← numBits type;
  operandNumBits ← numBits (getType el);
  r ← rem_z operandNumBits resultNumBits;
  if negb (r =? 0) then Err (Fatal "Unsupported bitcast conversion")
  else one_to_many_loop (Z.to_nat operandNumBits) type el operandNumBits resultNumBits 0 [].

Definition bitcastConvertOneToOne (type : Ty) (el : Element) : result Element :=
  n ← numBits type;
  m ← numBits (getType el);
  if negb (n =? m) then Err (Fatal "Unsupported bitcast conversion")
  else bits ← toBits el; fromBits type bits.

(** ** The class invariant *)
Definition element_ok (e : Element) : Prop :=
  match value_ e with
  | VInt v => isSupportedIntegerType (getType e) = true /\
              getIntOrFloatBitWidth (getType e) = Ok (getBitWidth v)
  | VBool _ => getType e = i1
  | VFloat f => isSupportedFloatType (getType e) = true /\ getType e = FloatType (getSemantics f)
  | VComplex (re, im) => isSupportedComplexType (getType e) = true /\
      getType e = ComplexType (FloatType (getSemantics re)) /\ getSemantics im = getSemantics re
  end.

Definition isSupportedType (type : Ty) : bool :=
  isSupportedIntegerType type || isSupportedBooleanType type ||
  isSupportedFloatType type || isSupportedComplexType type.
End Element.
