(* ===== verification/ElementFacts.v ===== *)
(** * Elements: theorems

    The arithmetic, comparison, conversion and bit-level theorems on
    [Element.v], for any implementation of the LLVM interface. *)
From S2P Require Import Prelude Types Support Element.

Section Facts.
Context {L : LLVM} {Laws : LLVMLaws L}.

(** An integer type of the interpreter, and its element of a value modulo [2^w]. *)
Definition int_type (s : Signedness) (w : Z) : bool :=
  int_width w && match s with Signed => false | _ => true end.
Definition int_el (s : Signedness) (w z : Z) : Element := MkElement (IntegerType s w) (VInt (apint w z)).
Definition bool_el (b : bool) : Element := MkElement i1 (VBool b).

(** The integer an element's bits stand for, by its signedness. *)
Definition int_read (s : Signedness) (w z : Z) : Z :=
  match s with Unsigned => z mod 2 ^ w | _ => to_signed w (z mod 2 ^ w) end.

(** ** Types *)
Lemma int_type_pos s w : int_type s w = true -> 2 <= w <= 64.
Proof. unfold int_type. intros H. apply int_width_bounds. by apply andb_true_iff in H as []. Qed.

Lemma int_type_supported s w : isSupportedIntegerType (IntegerType s w) = int_type s w.
Proof.
  unfold isSupportedIntegerType, isSupportedUnsignedIntegerType, isSupportedSignedIntegerType,
    int_type, int_width.
  destruct s; cbn [isSignlessInteger isUnsignedInteger]; lia.
Qed.

Lemma int_type_signed s w :
  int_type s w = true -> isSupportedSignedIntegerType (IntegerType s w) = bool_decide (s = Signless).
Proof.
  unfold isSupportedSignedIntegerType, int_type, int_width.
  destruct s; cbn [isSignlessInteger]; case_bool_decide; (done || lia).
Qed.

Lemma int_type_unsigned s w :
  int_type s w = true -> isSupportedUnsignedIntegerType (IntegerType s w) = bool_decide (s = Unsigned).
Proof.
  unfold isSupportedUnsignedIntegerType, int_type, int_width.
  destruct s; cbn [isUnsignedInteger]; case_bool_decide; (done || lia).
Qed.

Lemma int_type_not_bool s w : int_type s w = true -> isSupportedBooleanType (IntegerType s w) = false.
Proof.
  intros H%int_type_pos. unfold isSupportedBooleanType. destruct s; cbn [isSignlessInteger]; lia || done.
Qed.

Lemma isSupportedType_cases t :
  isSupportedType t = true ->
  (exists s w, t = IntegerType s w /\ int_type s w = true) \/ t = i1 \/
  (exists k, t = FloatType k /\ isSupportedFloatType t = true) \/
  t = ComplexType (FloatType Float32) \/ t = ComplexType (FloatType Float64).
Proof.
  unfold isSupportedType. rewrite !orb_true_iff. intros [[[H|H]|H]|H].
  - left. destruct (supported_integer_inv _ H) as (s & w & -> & Hw & Hs).
    exists s, w. rewrite <- int_type_supported. done.
  - right; left. by apply supported_boolean_inv.
  - do 2 right; left. destruct (supported_float_inv _ H) as (k & -> & _). eauto.
  - do 3 right. by apply supported_complex_inv.
Qed.

(** ** Constructors and the invariant *)
Lemma Element_int_ok s w v :
  int_type s w = true -> getBitWidth v = w ->
  Element_int (IntegerType s w) v = Ok (MkElement (IntegerType s w) (VInt v)).
Proof.
  intros Ht Hw. unfold Element_int. rewrite int_type_supported, Ht. cbn [negb getIntOrFloatBitWidth]. cbind.
  by rewrite Hw, Z.eqb_refl.
Qed.

Lemma Element_bool_ok b : Element_bool i1 b = Ok (bool_el b).
Proof. reflexivity. Qed.

Lemma Element_float_ok k f :
  isSupportedFloatType (FloatType k) = true -> getSemantics f = k ->
  Element_float (FloatType k) f = Ok (MkElement (FloatType k) (VFloat f)).
Proof.
  intros Ht <-. unfold Element_float. rewrite Ht. cbn [negb float_kind]. cbind.
  by rewrite bool_decide_true.
Qed.

Lemma Element_complex_ok k re im :
  isSupportedComplexType (ComplexType (FloatType k)) = true ->
  getSemantics re = k -> getSemantics im = k ->
  Element_complex (ComplexType (FloatType k)) (re, im)
  = Ok (MkElement (ComplexType (FloatType k)) (VComplex (re, im))).
Proof.
  intros Ht Hr Hi. unfold Element_complex. rewrite Ht. cbn [negb complex_element]. cbind.
  cbn [float_kind fst snd]. cbind. by rewrite Hr, Hi, bool_decide_true.
Qed.

Lemma Element_int_inv t v e : Element_int t v = Ok e -> element_ok e /\ getType e = t.
Proof.
  unfold Element_int. destruct (isSupportedIntegerType t) eqn:Ht; [|done]. cbn [negb].
  intros H. apply bind_ok in H as (w & Hw & H).
  destruct (Z.eqb_spec w (getBitWidth v)); cbn [negb] in H; simplify_eq.
  unfold element_ok; cbn [value_ getType]. by rewrite Hw.
Qed.

Lemma Element_bool_inv t v e : Element_bool t v = Ok e -> element_ok e /\ getType e = t.
Proof.
  unfold Element_bool. destruct (isSupportedBooleanType t) eqn:Ht; [|done]. cbn [negb].
  intros [= <-]. unfold element_ok; cbn. split; [by apply supported_boolean_inv|done].
Qed.

Lemma Element_float_inv t v e : Element_float t v = Ok e -> element_ok e /\ getType e = t.
Proof.
  unfold Element_float. destruct (isSupportedFloatType t) eqn:Ht; [|done]. cbn [negb].
  intros H. apply bind_ok in H as (k & Hk & H).
  case_bool_decide; cbn [negb] in H; simplify_eq.
  unfold element_ok; cbn [value_ getType]. rewrite Ht. destruct t; cbn in Hk; simplify_eq. done.
Qed.

Lemma Element_complex_inv t v e : Element_complex t v = Ok e -> element_ok e /\ getType e = t.
Proof.
  unfold Element_complex. destruct (isSupportedComplexType t) eqn:Ht; [|done]. cbn [negb].
  intros H. apply bind_ok in H as (t' & Ht' & H). apply bind_ok in H as (k & Hk & H).
  do 2 case_bool_decide; cbn [negb orb] in H; simplify_eq.
  unfold element_ok; cbn [value_ getType]. destruct v as [re im]. rewrite Ht.
  destruct t; cbn in Ht'; simplify_eq. destruct t'; cbn in Hk; simplify_eq. cbn [fst snd] in *.
  split; [|done]. split; [done|]. split; congruence.
Qed.

(** The forms an element can have. *)
Lemma element_ok_cases e :
  element_ok e ->
  (exists s w v, e = MkElement (IntegerType s w) (VInt v) /\ int_type s w = true /\ getBitWidth v = w) \/
  (exists b, e = bool_el b) \/
  (exists f, e = MkElement (FloatType (getSemantics f)) (VFloat f) /\
             isSupportedFloatType (FloatType (getSemantics f)) = true) \/
  (exists re im, e = MkElement (ComplexType (FloatType (getSemantics re))) (VComplex (re, im)) /\
     isSupportedComplexType (ComplexType (FloatType (getSemantics re))) = true /\
     getSemantics im = getSemantics re).
Proof.
  destruct e as [t [v|b|f|[re im]]]; unfold element_ok; cbn [value_ getType].
  - intros [H Hw]. left. destruct (supported_integer_inv _ H) as (s & w & -> & _).
    rewrite int_type_supported in H. cbn [getIntOrFloatBitWidth] in Hw. exists s, w, v. split; [done|]. split; congruence.
  - intros ->. right; left. by exists b.
  - intros [H ->]. do 2 right; left. by exists f.
  - intros (H & -> & Hi). do 3 right. by exists re, im.
Qed.

(** The accessors return the value of a well-formed element. *)
Lemma getIntegerValue_ok s w v :
  int_type s w = true -> getIntegerValue (MkElement (IntegerType s w) (VInt v)) = Ok v.
Proof. intros H. unfold getIntegerValue; cbn [getType value_]. by rewrite int_type_supported, H. Qed.

Lemma getFloatValue_ok k f :
  isSupportedFloatType (FloatType k) = true -> getFloatValue (MkElement (FloatType k) (VFloat f)) = Ok f.
Proof. intros H. unfold getFloatValue; cbn [getType value_]. by rewrite H. Qed.

Lemma getComplexValue_ok k c :
  isSupportedComplexType (ComplexType k) = true ->
  getComplexValue (MkElement (ComplexType k) (VComplex c)) = Ok c.
Proof. intros H. unfold getComplexValue; cbn [getType value_]. by rewrite H. Qed.

Lemma same_width_w x y w : 0 < w -> getBitWidth x = w -> getBitWidth y = w -> same_width x y.
Proof. unfold same_width. lia. Qed.

(** Canonical integers: an [APInt] is determined by its width and value. *)
Lemma apint_uval x : 0 < getBitWidth x -> apint (getBitWidth x) (uval x) = x.
Proof.
  intros H. apply apint_ext; [by apply width_apint|].
  rewrite uval_apint by done. apply Z.mod_small, uval_range.
Qed.

Lemma apint_intro x w z : 0 < w -> getBitWidth x = w -> uval x = z mod 2 ^ w -> x = apint w z.
Proof.
  intros H Hw Hu. apply apint_ext; [by rewrite width_apint|]. by rewrite uval_apint.
Qed.

Lemma sval_apint w z : 0 < w -> sval (apint w z) = to_signed w (z mod 2 ^ w).
Proof. intros. unfold sval. by rewrite width_apint, uval_apint by done. Qed.

Lemma to_signed_mod w z : 0 < w -> to_signed w (z mod 2 ^ w) mod 2 ^ w = z mod 2 ^ w.
Proof.
  intros H. unfold to_signed. pose proof (Z.pow_pos_nonneg 2 w).
  destruct (_ <? _); [apply Z.mod_mod; lia|].
  rewrite <- Zminus_mod_idemp_r, Z_mod_same_full, Z.sub_0_r. apply Z.mod_mod. lia.
Qed.

Lemma to_signed_range w z : 0 < w -> - 2 ^ (w - 1) <= to_signed w (z mod 2 ^ w) < 2 ^ (w - 1).
Proof.
  intros H. unfold to_signed.
  assert (2 ^ w = 2 * 2 ^ (w - 1)) as E by (rewrite <- Z.pow_succ_r by lia; f_equal; lia).
  pose proof (Z.mod_pos_bound z (2 ^ w) ltac:(apply Z.pow_pos_nonneg; lia)).
  destruct (Z.ltb_spec (z mod 2 ^ w) (2 ^ (w - 1))); lia.
Qed.

Lemma to_signed_small w z : 0 < w -> - 2 ^ (w - 1) <= z < 2 ^ (w - 1) -> to_signed w (z mod 2 ^ w) = z.
Proof.
  intros H Hz.
  assert (2 ^ w = 2 * 2 ^ (w - 1)) as E by (rewrite <- Z.pow_succ_r by lia; f_equal; lia).
  unfold to_signed. destruct (Z.leb_spec 0 z).
  - rewrite Z.mod_small by lia. destruct (Z.ltb_spec z (2 ^ (w - 1))); lia.
  - assert (z mod 2 ^ w = z + 2 ^ w) as ->.
    { rewrite <- (Z_mod_plus_full z 1), Z.mod_small; lia. }
    destruct (Z.ltb_spec (z + 2 ^ w) (2 ^ (w - 1))); lia.
Qed.

Lemma int_read_mod s w z : 0 < w -> int_read s w z mod 2 ^ w = z mod 2 ^ w.
Proof.
  intros H. unfold int_read. destruct s; try by apply to_signed_mod.
  apply Z.mod_mod. pose proof (Z.pow_pos_nonneg 2 w). lia.
Qed.

Lemma int_read_idem s w z : 0 < w -> int_read s w (int_read s w z) = int_read s w z.
Proof.
  intros H. pose proof (int_read_mod s w z H) as E. unfold int_read at 1 3. destruct s; by rewrite E.
Qed.

(** ** Integer arithmetic *)
Lemma map2_int s w a b z r fi fb ff fc :
  int_type s w = true -> fi (apint w a) (apint w b) = Ok r -> getBitWidth r = w -> uval r = z mod 2 ^ w ->
  map2 (int_el s w a) (int_el s w b) fi fb ff fc = Ok (int_el s w z).
Proof.
  intros Ht Hf Hw Hu. unfold map2; cbn [getType int_el].
  rewrite bool_decide_true, int_type_supported, Ht by done. cbn [negb].
  unfold int_el. rewrite !getIntegerValue_ok by done. cbind. rewrite Hf. cbind.
  rewrite Element_int_ok by done. repeat f_equal. apply apint_intro; [|done|done].
  apply int_type_pos in Ht. lia.
Qed.

Lemma map1_int s w a z r fi fb ff fc :
  int_type s w = true -> fi (apint w a) = Ok r -> getBitWidth r = w -> uval r = z mod 2 ^ w ->
  map1 (int_el s w a) fi fb ff fc = Ok (int_el s w z).
Proof.
  intros Ht Hf Hw Hu. unfold map1; cbn [getType int_el].
  rewrite int_type_supported, Ht. unfold int_el. rewrite !getIntegerValue_ok by done. cbind.
  rewrite Hf. cbind. rewrite Element_int_ok by done. repeat f_equal. apply apint_intro; [|done|done].
  apply int_type_pos in Ht. lia.
Qed.

Lemma same_width_apint w a b : 0 < w -> same_width (apint w a) (apint w b).
Proof. intros. by apply (same_width_w _ _ w); rewrite ?width_apint. Qed.

Ltac int_op Ht :=
  let Hw := fresh "Hw" in pose proof (int_type_pos _ _ Ht) as Hw;
  first [eapply map2_int | eapply map1_int]; [exact Ht | reflexivity | | ];
  repeat (rewrite ?width_add, ?width_sub, ?width_mul, ?width_neg, ?width_not, ?width_and, ?width_or,
    ?width_xor, ?uval_add, ?uval_sub, ?uval_mul, ?uval_neg, ?uval_not, ?uval_and, ?uval_or, ?uval_xor,
    ?width_apint, ?uval_apint by (lia || (apply same_width_apint; lia)));
  try done.

Lemma el_add_int s w a b : int_type s w = true -> el_add (int_el s w a) (int_el s w b) = Ok (int_el s w (a + b)).
Proof. intros Ht. int_op Ht. by rewrite <- Zplus_mod. Qed.

Lemma el_sub_int s w a b : int_type s w = true -> el_sub (int_el s w a) (int_el s w b) = Ok (int_el s w (a - b)).
Proof. intros Ht. int_op Ht. by rewrite <- Zminus_mod. Qed.

Lemma el_mul_int s w a b : int_type s w = true -> el_mul (int_el s w a) (int_el s w b) = Ok (int_el s w (a * b)).
Proof. intros Ht. int_op Ht. by rewrite <- Zmult_mod. Qed.

Lemma el_neg_int s w a : int_type s w = true -> el_neg (int_el s w a) = Ok (int_el s w (- a)).
Proof.
  intros Ht. int_op Ht. rewrite <- (Z.sub_0_l (a mod _)), <- (Z.sub_0_l a). apply Zminus_mod_idemp_r.
Qed.

Lemma pow2_land a b w : 0 <= w -> Z.land a b mod 2 ^ w = Z.land (a mod 2 ^ w) (b mod 2 ^ w).
Proof.
  intros. rewrite <- !Z.land_ones by done. apply Z.bits_inj'; intros n Hn.
  rewrite !Z.land_spec. by destruct (Z.testbit a n), (Z.testbit b n), (Z.testbit (Z.ones w) n).
Qed.

Lemma pow2_lor a b w : 0 <= w -> Z.lor a b mod 2 ^ w = Z.lor (a mod 2 ^ w) (b mod 2 ^ w).
Proof. intros. rewrite <- !Z.land_ones by done. apply Z.land_lor_distr_l. Qed.

Lemma pow2_lxor a b w : 0 <= w -> Z.lxor a b mod 2 ^ w = Z.lxor (a mod 2 ^ w) (b mod 2 ^ w).
Proof.
  intros. rewrite <- !Z.land_ones by done. apply Z.bits_inj'; intros n Hn.
  rewrite !Z.land_spec, !Z.lxor_spec, !Z.land_spec.
  by destruct (Z.testbit a n), (Z.testbit b n), (Z.testbit (Z.ones w) n).
Qed.

Lemma el_and_int s w a b : int_type s w = true -> el_and (int_el s w a) (int_el s w b) = Ok (int_el s w (Z.land a b)).
Proof. intros Ht. int_op Ht. by rewrite pow2_land by lia. Qed.

Lemma el_or_int s w a b : int_type s w = true -> el_or (int_el s w a) (int_el s w b) = Ok (int_el s w (Z.lor a b)).
Proof. intros Ht. int_op Ht. by rewrite pow2_lor by lia. Qed.

Lemma el_xor_int s w a b : int_type s w = true -> el_xor (int_el s w a) (int_el s w b) = Ok (int_el s w (Z.lxor a b)).
Proof. intros Ht. int_op Ht. by rewrite pow2_lxor by lia. Qed.

Lemma el_not_int s w a : int_type s w = true -> el_not (int_el s w a) = Ok (int_el s w (Z.lnot a)).
Proof.
  intros Ht. int_op Ht. pose proof (Z.pow_pos_nonneg 2 w ltac:(lia) ltac:(lia)).
  pose proof (Z.mod_pos_bound a (2 ^ w)).
  replace (Z.lnot a) with (2 ^ w - 1 - a mod 2 ^ w + (-1 - a / 2 ^ w) * 2 ^ w).
  - rewrite Z_mod_plus_full. symmetry. apply Z.mod_small. lia.
  - unfold Z.lnot. pose proof (Z.div_mod a (2 ^ w)). lia.
Qed.

(** ** Comparison, division and selection *)
Lemma int_read_apint s w a :
  int_type s w = true ->
  int_read s w a = match s with Unsigned => uval (apint w a) | _ => sval (apint w a) end.
Proof.
  intros Ht. pose proof (int_type_pos _ _ Ht). unfold int_read.
  destruct s; by rewrite ?sval_apint, ?uval_apint by lia.
Qed.

Lemma int_el_mod s w a b : int_type s w = true -> a mod 2 ^ w = b mod 2 ^ w -> int_el s w a = int_el s w b.
Proof.
  intros Ht H. pose proof (int_type_pos _ _ Ht). unfold int_el. do 2 f_equal.
  apply apint_intro; [lia | by rewrite width_apint by lia|]. by rewrite uval_apint by lia.
Qed.

Lemma int_el_read s w a : int_type s w = true -> int_el s w (int_read s w a) = int_el s w a.
Proof.
  intros Ht. pose proof (int_type_pos _ _ Ht). apply int_el_mod; [done|]. by apply int_read_mod; lia.
Qed.

Ltac int_dispatch Ht :=
  let Hw := fresh "Hw" in pose proof (int_type_pos _ _ Ht) as Hw;
  cbn [getType int_el];
  rewrite ?bool_decide_true, ?int_type_supported, ?Ht by done; cbn [negb];
  unfold int_el; rewrite ?getIntegerValue_ok by done; cbind;
  rewrite ?(int_type_signed _ _ Ht), ?(int_type_unsigned _ _ Ht).

Lemma el_lt_int s w a b :
  int_type s w = true ->
  el_lt (int_el s w a) (int_el s w b) = Ok (bool_el (int_read s w a <? int_read s w b)).
Proof.
  intros Ht. rewrite !int_read_apint by done. unfold el_lt. int_dispatch Ht.
  destruct s; [|unfold int_type in Ht; by rewrite andb_false_r in Ht|]; case_bool_decide; try done.
  - by rewrite slt_spec by (apply same_width_apint; lia).
  - by rewrite ult_spec by (apply same_width_apint; lia).
Qed.

Lemma el_gt_int s w a b :
  int_type s w = true ->
  el_gt (int_el s w a) (int_el s w b) = Ok (bool_el (int_read s w b <? int_read s w a)).
Proof.
  intros Ht. rewrite !int_read_apint by done. unfold el_gt. int_dispatch Ht.
  destruct s; [|unfold int_type in Ht; by rewrite andb_false_r in Ht|]; case_bool_decide; try done.
  - by rewrite sgt_spec by (apply same_width_apint; lia).
  - by rewrite ugt_spec by (apply same_width_apint; lia).
Qed.

Lemma to_signed_inj w x y :
  0 <= x < 2 ^ w -> 0 <= y < 2 ^ w -> to_signed w x = to_signed w y -> x = y.
Proof. unfold to_signed. intros. destruct (x <? _), (y <? _); lia. Qed.

Lemma int_read_eqb s w a b :
  int_type s w = true -> (int_read s w a =? int_read s w b) = (a mod 2 ^ w =? b mod 2 ^ w).
Proof.
  intros Ht. pose proof (int_type_pos _ _ Ht). pose proof (Z.pow_pos_nonneg 2 w ltac:(lia) ltac:(lia)) as Hp.
  pose proof (Z.mod_pos_bound a _ Hp). pose proof (Z.mod_pos_bound b _ Hp).
  apply eq_true_iff_eq. rewrite !Z.eqb_eq.
  split; [|intros E; unfold int_read; by rewrite E].
  intros E. unfold int_read in E. destruct s; [by apply to_signed_inj in E|by apply to_signed_inj in E|done].
Qed.

Lemma el_eq_int s w a b :
  int_type s w = true ->
  el_eq (int_el s w a) (int_el s w b) = Ok (bool_el (int_read s w a =? int_read s w b)).
Proof.
  intros Ht. rewrite int_read_eqb by done. unfold el_eq. int_dispatch Ht.
  rewrite apint_eq_spec by (apply same_width_apint; lia). by rewrite !uval_apint by lia.
Qed.

Lemma el_div_int s w a b :
  int_type s w = true -> b mod 2 ^ w <> 0 ->
  el_div (int_el s w a) (int_el s w b) = Ok (int_el s w (Z.quot (int_read s w a) (int_read s w b))).
Proof.
  intros Ht Hb. rewrite !int_read_apint by done. unfold el_div. int_dispatch Ht.
  assert (same_width (apint w a) (apint w b)) as Hs by (apply same_width_apint; lia).
  assert (uval (apint w b) <> 0) as Hn by (by rewrite uval_apint by lia).
  destruct s; [|unfold int_type in Ht; by rewrite andb_false_r in Ht|]; case_bool_decide; try done;
    (rewrite Element_int_ok;
      [|done|by rewrite ?width_sdiv, ?width_udiv, ?width_apint by (done || lia)]);
    do 3 f_equal; (apply apint_intro;
      [lia|by rewrite ?width_sdiv, ?width_udiv, ?width_apint by (done || lia)|]).
  - by rewrite uval_sdiv, width_apint by (done || lia).
  - pose proof (uval_range (apint w a)) as Ha. pose proof (uval_range (apint w b)).
    rewrite width_apint in Ha by lia.
    rewrite uval_udiv, Z.quot_div_nonneg by (done || lia). symmetry. apply Z.mod_small.
    split; [apply Z.div_pos; lia | apply Z.div_lt_upper_bound; nia].
Qed.

Lemma rem_int s w a b :
  int_type s w = true -> b mod 2 ^ w <> 0 ->
  rem (int_el s w a) (int_el s w b) = Ok (int_el s w (Z.rem (int_read s w a) (int_read s w b))).
Proof.
  intros Ht Hb. rewrite !int_read_apint by done. unfold rem, map2. int_dispatch Ht.
  assert (same_width (apint w a) (apint w b)) as Hs by (apply same_width_apint; lia).
  assert (uval (apint w b) <> 0) as Hn by (by rewrite uval_apint by lia).
  destruct s; [|unfold int_type in Ht; by rewrite andb_false_r in Ht|]; case_bool_decide; try done;
    (rewrite Element_int_ok;
      [|done|by rewrite ?width_srem, ?width_urem, ?width_apint by (done || lia)]);
    do 3 f_equal; (apply apint_intro;
      [lia|by rewrite ?width_srem, ?width_urem, ?width_apint by (done || lia)|]).
  - by rewrite uval_srem, width_apint by (done || lia).
  - pose proof (uval_range (apint w a)) as Ha. pose proof (uval_range (apint w b)).
    rewrite width_apint in Ha by lia.
    rewrite uval_urem, Z.rem_mod_nonneg by (done || lia). symmetry. apply Z.mod_small.
    assert (0 < uval (apint w b)) as Hp by lia.
    pose proof (Z.mod_pos_bound (uval (apint w a)) _ Hp).
    pose proof (Z.mod_le (uval (apint w a)) _ (proj1 Ha) Hp). lia.
Qed.

Lemma max_int s w a b :
  int_type s w = true ->
  max (int_el s w a) (int_el s w b) = Ok (int_el s w (Z.max (int_read s w a) (int_read s w b))).
Proof.
  intros Ht. assert (max (int_el s w a) (int_el s w b)
    = Ok (int_el s w (if int_read s w b <? int_read s w a then a else b))) as ->.
  - rewrite !int_read_apint by done. unfold max, map2. int_dispatch Ht.
    assert (same_width (apint w a) (apint w b)) as Hs by (apply same_width_apint; lia).
    destruct s; [|unfold int_type in Ht; by rewrite andb_false_r in Ht|]; case_bool_decide; try done.
    + rewrite smax_spec, sgt_spec by done. destruct (_ <? _); by rewrite Element_int_ok by (rewrite ?width_apint by lia; done).
    + rewrite umax_spec, ugt_spec by done. destruct (_ <? _); by rewrite Element_int_ok by (rewrite ?width_apint by lia; done).
  - f_equal. destruct (Z.ltb_spec (int_read s w b) (int_read s w a));
      [rewrite Z.max_l by lia|rewrite Z.max_r by lia]; by rewrite int_el_read.
Qed.

Lemma min_int s w a b :
  int_type s w = true ->
  min (int_el s w a) (int_el s w b) = Ok (int_el s w (Z.min (int_read s w a) (int_read s w b))).
Proof.
  intros Ht. assert (min (int_el s w a) (int_el s w b)
    = Ok (int_el s w (if int_read s w a <? int_read s w b then a else b))) as ->.
  - rewrite !int_read_apint by done. unfold min, map2. int_dispatch Ht.
    assert (same_width (apint w a) (apint w b)) as Hs by (apply same_width_apint; lia).
    destruct s; [|unfold int_type in Ht; by rewrite andb_false_r in Ht|]; case_bool_decide; try done.
    + rewrite smin_spec, slt_spec by done. destruct (_ <? _); by rewrite Element_int_ok by (rewrite ?width_apint by lia; done).
    + rewrite umin_spec, ult_spec by done. destruct (_ <? _); by rewrite Element_int_ok by (rewrite ?width_apint by lia; done).
  - f_equal. destruct (Z.ltb_spec (int_read s w a) (int_read s w b));
      [rewrite Z.min_l by lia|rewrite Z.min_r by lia]; by rewrite int_el_read.
Qed.

(** ** Powers *)
Lemma apint_mul_z w a b : 0 < w -> apint_mul (apint w a) (apint w b) = apint w (a * b).
Proof.
  intros Hw. assert (same_width (apint w a) (apint w b)) by (apply same_width_apint; lia).
  apply apint_intro; rewrite ?width_mul, ?uval_mul, ?width_apint, ?uval_apint by done; try done.
  by rewrite <- Zmult_mod.
Qed.

Lemma apint_odd w e :
  0 < w -> 0 <= e < 2 ^ w ->
  negb (isZero (apint_and (apint w e) (apint (getBitWidth (apint w e)) 1))) = Z.odd e.
Proof.
  intros Hw He. rewrite width_apint, isZero_spec by lia.
  rewrite uval_and by (apply same_width_apint; lia).
  rewrite !uval_apint by lia. rewrite (Z.mod_small e), (Z.mod_small 1) by
    (first [done | split; [lia | apply Z.pow_gt_1; lia]]).
  change 1 with (Z.ones 1). rewrite Z.land_ones by lia. change (2 ^ 1) with 2.
  rewrite Zmod_odd. by destruct (Z.odd e).
Qed.

Lemma apint_half w e : 0 < w -> 0 <= e < 2 ^ w -> lshr (apint w e) 1 = apint w (e / 2).
Proof.
  intros Hw He. apply apint_intro; rewrite ?width_lshr, ?uval_lshr, ?width_apint, ?uval_apint by
    (rewrite ?width_apint; lia); try done.
  change (2 ^ 1) with 2. rewrite (Z.mod_small e) by done. symmetry. apply Z.mod_small.
  split; [apply Z.div_pos; lia | apply Z.div_lt_upper_bound; lia].
Qed.

Lemma power_loop_spec w : 0 < w -> forall fuel b e r,
  0 <= e < 2 ^ w -> e < 2 ^ Z.of_nat fuel ->
  power_loop fuel (apint w b) (apint w e) (apint w r) = Ok (apint w (r * b ^ e)).
Proof.
  intros Hw. induction fuel as [|fuel IH]; intros b e r He Hf;
    unfold power_loop; fold (power_loop (L := L)); rewrite isZero_spec, uval_apint, (Z.mod_small e) by done.
  - change (2 ^ Z.of_nat 0) with 1 in Hf. assert (e = 0) as -> by lia.
    rewrite Z.eqb_refl, Z.pow_0_r, Z.mul_1_r. done.
  - destruct (Z.eqb_spec e 0) as [->|Hne]; [by rewrite Z.pow_0_r, Z.mul_1_r|].
    rewrite apint_odd, apint_half, !apint_mul_z by done.
    assert (0 <= e / 2) by (apply Z.div_pos; lia).
    assert (e / 2 < 2 ^ Z.of_nat fuel).
    { apply Z.div_lt_upper_bound; [lia|]. rewrite Nat2Z.inj_succ, Z.pow_succ_r in Hf; lia. }
    assert (0 <= e / 2 < 2 ^ w) by (pose proof (Z.div_le_upper_bound e 2 e); lia).
    pose proof (Zdiv2_odd_eqn e) as Ee. rewrite Z.div2_div in Ee.
    assert (b ^ e = b ^ (if Z.odd e then 1 else 0) * (b * b) ^ (e / 2)) as Eb.
    { rewrite Ee at 1. rewrite Z.pow_add_r, Z.pow_mul_r, Z.pow_2_r by (destruct (Z.odd e); lia). ring. }
    rewrite Eb. destruct (Z.odd e); rewrite IH by done; do 2 f_equal; rewrite ?Z.pow_1_r, ?Z.pow_0_r; ring.
Qed.

(** What [power] computes on integers: a negative exponent gives zero unless the
    base is a unit. *)
Definition int_power (s : Signedness) (w b e : Z) : Z :=
  let b' := int_read s w b in
  let e' := int_read s w e in
  if e' <? 0 then (if Z.abs b' =? 1 then b' ^ Z.abs e' else 0) else b' ^ e'.

Lemma pow_mod_base n a b e : 0 <= e -> a mod n = b mod n -> a ^ e mod n = b ^ e mod n.
Proof.
  intros He H. revert e He. apply natlike_ind; [done|]. intros e He IH.
  by rewrite !Z.pow_succ_r, Zmult_mod, H, IH, <- Zmult_mod by done.
Qed.

Lemma apint_abs_z w e : 0 < w -> apint_abs (apint w e) = apint w (Z.abs (to_signed w (e mod 2 ^ w))).
Proof.
  intros Hw. apply apint_intro; rewrite ?width_abs, ?uval_abs, ?sval_apint, ?width_apint by
    (rewrite ?width_apint; lia); done.
Qed.

Lemma convert_i64_int s w z :
  int_type s w = true -> - 2 ^ 63 <= z < 2 ^ 63 -> convert_i64 (IntegerType s w) z = Ok (int_el s w z).
Proof.
  intros Ht Hz. pose proof (int_type_pos _ _ Ht). unfold convert_i64.
  assert (forall v, convert_apsint (IntegerType s w) v
    = Element_int (IntegerType s w) (apsint_extOrTrunc v w)) as ->.
  { intros v. unfold convert_apsint. rewrite int_type_not_bool, int_type_supported, Ht by done. done. }
  unfold apsint_extOrTrunc; cbn [fst snd].
  rewrite Element_int_ok by (try apply width_sextOrTrunc; done || lia).
  unfold int_el. do 3 f_equal. apply apint_intro; [lia|by rewrite width_sextOrTrunc by lia|].
  rewrite uval_sextOrTrunc, sval_apint, to_signed_small by (rewrite ?width_apint; lia). done.
Qed.

Lemma convert_u64_int s w z :
  int_type s w = true -> 0 <= z < 2 ^ 64 -> convert_u64 (IntegerType s w) z = Ok (int_el s w z).
Proof.
  intros Ht Hz. pose proof (int_type_pos _ _ Ht). unfold convert_u64.
  assert (forall v, convert_apsint (IntegerType s w) v
    = Element_int (IntegerType s w) (apsint_extOrTrunc v w)) as ->.
  { intros v. unfold convert_apsint. rewrite int_type_not_bool, int_type_supported, Ht by done. done. }
  unfold apsint_extOrTrunc; cbn [fst snd].
  rewrite Element_int_ok by (try apply width_zextOrTrunc; done || lia).
  unfold int_el. do 3 f_equal. apply apint_intro; [lia|by rewrite width_zextOrTrunc by lia|].
  rewrite uval_zextOrTrunc, uval_apint, (Z.mod_small z) by lia. done.
Qed.

Lemma power_run s w b e :
  int_type s w = true -> 0 <= e < 2 ^ w ->
  (r ← power_loop (Z.to_nat (getBitWidth (apint w e))) (apint w b) (apint w e)
        (apint (getBitWidth (apint w b)) 1);
   Element_int (IntegerType s w) r)
  = Ok (int_el s w (int_read s w b ^ e)).
Proof.
  intros Ht He. pose proof (int_type_pos _ _ Ht).
  rewrite !width_apint, power_loop_spec by (rewrite ?Z2Nat.id; lia). cbind.
  rewrite Element_int_ok by (try apply width_apint; done || lia).
  f_equal. apply int_el_mod; [done|].
  rewrite Z.mul_1_l. apply pow_mod_base; [lia|]. symmetry. apply int_read_mod. lia.
Qed.

Lemma power_int s w b e :
  int_type s w = true ->
  power (int_el s w b) (int_el s w e) = Ok (int_el s w (int_power s w b e)).
Proof.
  intros Ht. pose proof (int_type_pos _ _ Ht).
  pose proof (Z.pow_pos_nonneg 2 w ltac:(lia) ltac:(lia)) as Hp.
  pose proof (Z.mod_pos_bound e _ Hp) as He.
  rewrite <- (int_el_mod s w (e mod 2 ^ w) e) by (try apply Z.mod_mod; done || lia).
  unfold power. int_dispatch Ht. unfold int_power.
  rewrite !int_read_apint, isNegative_spec, isOne_spec, !apint_abs_z by (rewrite ?width_apint; done || lia).
  rewrite !uval_apint by lia.
  destruct s; [|unfold int_type in Ht; by rewrite andb_false_r in Ht|]; case_bool_decide; try done; cbn [andb].
  - rewrite !sval_apint, !Z.mod_mod by lia.
    pose proof (to_signed_range w b ltac:(lia)). pose proof (to_signed_range w e ltac:(lia)) as Hse.
    assert (2 ^ w = 2 * 2 ^ (w - 1)) by (rewrite <- Z.pow_succ_r by lia; f_equal; lia).
    destruct (Z.ltb_spec (to_signed w (e mod 2 ^ w)) 0).
    + rewrite (Z.mod_small (Z.abs (to_signed w (b mod 2 ^ w)))) by lia.
      destruct (_ =? 1); [|by rewrite convert_i64_int by (done || lia)].
      rewrite power_run by (done || lia). unfold int_read. done.
    + rewrite power_run by (done || lia). unfold int_read, to_signed in *.
      destruct (Z.ltb_spec (e mod 2 ^ w) (2 ^ (w - 1))); [done|lia].
  - rewrite ?(Z.mod_mod e) by lia. rewrite (proj2 (Z.ltb_ge (e mod 2 ^ w) 0)) by lia.
    by rewrite power_run by done.
Qed.

(** ** Shifts and conversions *)
Lemma shift_bound w b : 0 < w -> 0 <= Z.min (b mod 2 ^ w) w <= w.
Proof.
  intros. pose proof (Z.mod_pos_bound b (2 ^ w) ltac:(apply Z.pow_pos_nonneg; lia)). lia.
Qed.

Lemma pow2_mod_shift w a n : 0 < w -> 0 <= n ->
  (a * 2 ^ Z.min n w) mod 2 ^ w = (a * 2 ^ n) mod 2 ^ w.
Proof.
  intros Hw Hn. destruct (Z.min_spec n w) as [[_ ->]|[? ->]]; [done|].
  replace (2 ^ n) with (2 ^ (n - w) * 2 ^ w) by (rewrite <- Z.pow_add_r by lia; f_equal; lia).
  by rewrite Z.mul_assoc, !Z_mod_mult.
Qed.

Lemma shiftLeft_int s w a b :
  int_type s w = true ->
  shiftLeft (int_el s w a) (int_el s w b) = Ok (int_el s w (Z.shiftl a (b mod 2 ^ w))).
Proof.
  intros Ht. unfold shiftLeft. int_dispatch Ht. pose proof (shift_bound w b ltac:(lia)).
  rewrite apint_shl_spec, uval_apint, width_apint by lia.
  rewrite Element_int_ok by (rewrite ?width_shl, ?width_apint; rewrite ?width_apint; done || lia).
  do 3 f_equal. apply apint_intro; rewrite ?width_shl, ?uval_shl, ?width_apint, ?uval_apint by
    (rewrite ?width_apint; lia); try lia.
  rewrite pow2_mod_shift, Z.shiftl_mul_pow2 by (try apply Z.mod_pos_bound; try apply Z.pow_pos_nonneg; lia).
  apply Zmult_mod_idemp_l.
Qed.

Lemma div_pow2_min x w n : 0 < w -> - 2 ^ w <= x < 2 ^ w -> 0 <= n -> x / 2 ^ Z.min n w = x / 2 ^ n.
Proof.
  intros Hw Hx Hn. destruct (Z.min_spec n w) as [[_ ->]|[? ->]]; [done|].
  pose proof (Z.pow_le_mono_r 2 w n ltac:(lia) ltac:(lia)).
  destruct (Z.leb_spec 0 x); [by rewrite !Z.div_small by lia|].
  assert (forall m, 2 ^ w <= m -> x / m = -1) as Hd; [|rewrite !Hd; lia].
  intros m Hm. symmetry. apply (Z.div_unique_pos x m (-1) (x + m)); lia.
Qed.

Lemma shiftRightLogical_int s w a b :
  int_type s w = true ->
  shiftRightLogical (int_el s w a) (int_el s w b)
  = Ok (int_el s w (Z.shiftr (a mod 2 ^ w) (b mod 2 ^ w))).
Proof.
  intros Ht. unfold shiftRightLogical. int_dispatch Ht. pose proof (shift_bound w b ltac:(lia)).
  pose proof (Z.pow_pos_nonneg 2 w ltac:(lia) ltac:(lia)) as Hp.
  pose proof (Z.mod_pos_bound a _ Hp). pose proof (Z.mod_pos_bound b _ Hp).
  rewrite apint_lshr_spec, uval_apint, width_apint by lia.
  rewrite Element_int_ok by (rewrite ?width_lshr, ?width_apint; rewrite ?width_apint; done || lia).
  do 3 f_equal. apply apint_intro; rewrite ?width_lshr, ?uval_lshr, ?width_apint, ?uval_apint by
    (rewrite ?width_apint; lia); try lia.
  rewrite div_pow2_min, Z.shiftr_div_pow2 by lia. symmetry. apply Z.mod_small.
  pose proof (Z.pow_pos_nonneg 2 (b mod 2 ^ w) ltac:(lia) ltac:(lia)).
  split; [apply Z.div_pos; lia | apply Z.div_lt_upper_bound; nia].
Qed.

Lemma shiftRightArithmetic_int s w a b :
  int_type s w = true ->
  shiftRightArithmetic (int_el s w a) (int_el s w b)
  = Ok (int_el s w (Z.shiftr (to_signed w (a mod 2 ^ w)) (b mod 2 ^ w))).
Proof.
  intros Ht. unfold shiftRightArithmetic. int_dispatch Ht.
  pose proof (Z.mod_pos_bound b (2 ^ w) ltac:(apply Z.pow_pos_nonneg; lia)).
  rewrite Element_int_ok by (rewrite ?width_ashr, ?width_apint; done || lia).
  do 3 f_equal. apply apint_intro; rewrite ?width_ashr, ?uval_ashr, ?width_apint, ?uval_apint by
    (rewrite ?width_apint; lia); try lia.
  pose proof (to_signed_range w a ltac:(lia)).
  assert (2 ^ w = 2 * 2 ^ (w - 1)) by (rewrite <- Z.pow_succ_r by lia; f_equal; lia).
  rewrite sval_apint, div_pow2_min, Z.shiftr_div_pow2 by lia. done.
Qed.

Lemma int_read_bounds s w z : int_type s w = true ->
  match s with Unsigned => 0 <= int_read s w z < 2 ^ 64 | _ => - 2 ^ 63 <= int_read s w z < 2 ^ 63 end.
Proof.
  intros Ht. pose proof (int_type_pos _ _ Ht). unfold int_read.
  pose proof (Z.pow_le_mono_r 2 (w - 1) 63 ltac:(lia) ltac:(lia)).
  pose proof (Z.pow_le_mono_r 2 w 64 ltac:(lia) ltac:(lia)).
  pose proof (to_signed_range w z ltac:(lia)).
  pose proof (Z.mod_pos_bound z (2 ^ w) ltac:(apply Z.pow_pos_nonneg; lia)).
  destruct s; lia.
Qed.

Lemma convert_int s w s' w' z :
  int_type s w = true -> int_type s' w' = true ->
  convert (IntegerType s' w') (int_el s w z) = Ok (int_el s' w' (int_read s w z)).
Proof.
  intros Ht Ht'. unfold convert; cbn [getType int_el].
  pose proof (int_read_bounds s w z Ht) as Hb. rewrite int_read_apint in * by done.
  rewrite int_type_not_bool by done. int_dispatch Ht.
  destruct s; [|unfold int_type in Ht; by rewrite andb_false_r in Ht|];
    [rewrite bool_decide_true by done | rewrite bool_decide_false, bool_decide_true by done].
  - rewrite getSExtValue_spec by (rewrite width_apint; lia). by apply convert_i64_int.
  - rewrite getZExtValue_spec by (rewrite width_apint; lia). by apply convert_u64_int.
Qed.

(** ** Bits *)
Lemma numBits_supported t : isSupportedType t = true -> exists n, numBits t = Ok n /\ 1 <= n <= 128.
Proof.
  intros H. destruct (isSupportedType_cases t H) as [(s & w & -> & Ht)|[->|[(k & -> & Hk)|[->| ->]]]].
  - pose proof (int_type_pos _ _ Ht). exists w. unfold numBits; cbn. split; [done|lia].
  - exists 1. split; [done|lia].
  - destruct (supported_float_inv _ Hk) as (k' & [= <-] & ?). exists (float_width k). split; [done|lia].
  - exists 64. split; [done|lia].
  - exists 128. split; [done|lia].
Qed.

Lemma int_type_not_complex s w : isSupportedComplexType (IntegerType s w) = false.
Proof. done. Qed.

Lemma float_not_int k : isSupportedIntegerType (FloatType k) = false.
Proof. done. Qed.

Definition complex_bits (re im : APFloat) : APInt :=
  let n := float_width (getSemantics re) in
  apint_add (shl (zext (bitcastToAPInt im) (n * 2)) n) (zext (bitcastToAPInt re) (n * 2)).

Lemma toBits_complex k re im :
  isSupportedComplexType (ComplexType (FloatType k)) = true -> getSemantics re = k ->
  toBits (MkElement (ComplexType (FloatType k)) (VComplex (re, im))) = Ok (complex_bits re im).
Proof.
  intros Hk <-. unfold toBits; cbn [getType].
  change (isSupportedBooleanType (ComplexType (FloatType (getSemantics re)))) with false.
  change (isSupportedIntegerType (ComplexType (FloatType (getSemantics re)))) with false.
  change (isSupportedFloatType (ComplexType (FloatType (getSemantics re)))) with false.
  cbv iota. unfold numBits.
  rewrite Hk, getComplexValue_ok by done. cbind. cbn [complex_element getIntOrFloatBitWidth fst snd]. cbind.
  cbn [getIntOrFloatBitWidth]. cbind. unfold complex_bits. by rewrite Z.quot_mul by done.
Qed.

Lemma complex_bits_spec re im :
  getSemantics im = getSemantics re ->
  let n := float_width (getSemantics re) in
  getBitWidth (complex_bits re im) = n * 2 /\
  uval (complex_bits re im) = uval (bitcastToAPInt im) * 2 ^ n + uval (bitcastToAPInt re).
Proof.
  intros Hs n. pose proof (Concrete.float_width_pos (getSemantics re)) as Hn. fold n in Hn.
  assert (getBitWidth (bitcastToAPInt im) = n) as Wi by (by rewrite width_bitcast, Hs).
  assert (getBitWidth (bitcastToAPInt re) = n) as Wr by (by rewrite width_bitcast).
  assert (getBitWidth (zext (bitcastToAPInt im) (n * 2)) = n * 2) as Wzi by (apply width_zext; lia).
  assert (getBitWidth (zext (bitcastToAPInt re) (n * 2)) = n * 2) as Wzr by (apply width_zext; lia).
  unfold complex_bits; fold n.
  assert (getBitWidth (shl (zext (bitcastToAPInt im) (n * 2)) n) = n * 2) as Ws by (rewrite width_shl; lia).
  assert (same_width (shl (zext (bitcastToAPInt im) (n * 2)) n) (zext (bitcastToAPInt re) (n * 2))) as Hsw
    by (apply (same_width_w _ _ (n * 2)); lia).
  rewrite width_add, uval_add, Ws, uval_shl, !uval_zext, Wzi by (rewrite ?Wzi; done || lia).
  split; [done|].
  pose proof (uval_range (bitcastToAPInt im)) as Hi. pose proof (uval_range (bitcastToAPInt re)) as Hr.
  rewrite Wi in Hi. rewrite Wr in Hr.
  replace (n * 2) with (n + n) by lia. rewrite Z.pow_add_r by lia.
  rewrite (Z.mod_small (_ * 2 ^ n)) by nia. apply Z.mod_small. nia.
Qed.

Lemma toBits_width e bits :
  element_ok e -> toBits e = Ok bits -> numBits (getType e) = Ok (getBitWidth bits).
Proof.
  intros [(s & w & v & -> & Ht & Hw)|[(b & ->)|[(f & -> & Hf)|(re & im & -> & Hc & Hs)]]]%element_ok_cases.
  - unfold toBits; cbn [getType]. rewrite int_type_not_bool, int_type_supported, Ht by done.
    rewrite getIntegerValue_ok by done. intros [= <-]. by rewrite Hw.
  - intros [= <-]. by rewrite width_apint by lia.
  - unfold toBits; cbn [getType]. cbn [isSupportedBooleanType isSignlessInteger]. rewrite float_not_int, Hf.
    rewrite getFloatValue_ok by done. intros [= <-]. by rewrite width_bitcast.
  - rewrite toBits_complex by done. intros [= <-].
    rewrite (proj1 (complex_bits_spec _ _ Hs)). unfold numBits; cbn [getType]. by rewrite Hc.
Qed.

Lemma fromBits_float k b :
  isSupportedFloatType (FloatType k) = true -> getBitWidth b = float_width k ->
  fromBits (FloatType k) b = Ok (MkElement (FloatType k) (VFloat (apfloat k b))).
Proof.
  intros Hk Hb. unfold fromBits. cbn [numBits isSupportedComplexType getIntOrFloatBitWidth]. cbind.
  rewrite Hb, Z.eqb_refl. cbn [negb isSupportedBooleanType isSignlessInteger]. rewrite float_not_int, Hk.
  cbn [float_kind]. cbind. apply Element_float_ok; [done|]. apply sem_apfloat.
Qed.

Lemma fromBits_complex_eq t bits :
  isSupportedComplexType (ComplexType t) = true ->
  fromBits (ComplexType t) bits =
  (n ← numBits (ComplexType t);
   if negb (n =? getBitWidth bits) then Err (Fatal "numBits(type) != bits.getBitWidth()")
   else
     realElement ← fromBits t (extractBits bits (Z.quot n 2) 0);
     imagElement ← fromBits t (extractBits bits (Z.quot n 2) (Z.quot n 2));
     re ← getFloatValue realElement;
     im ← getFloatValue imagElement;
     Element_complex (ComplexType t) (re, im)).
Proof.
  intros Ht.
  assert (forall (A : Type) (a b : A), (if isSupportedComplexType (ComplexType t) then a else b) = a) as E
    by (intros; by rewrite Ht).
  etransitivity; [|reflexivity]. cbn [fromBits].
  destruct (numBits (ComplexType t)); [|done]. cbind. destruct (negb _); [done|].
  change (isSupportedBooleanType (ComplexType t)) with false.
  change (isSupportedIntegerType (ComplexType t)) with false.
  change (isSupportedFloatType (ComplexType t)) with false. cbv iota. by rewrite E.
Qed.

Lemma fromBits_complex k b :
  isSupportedComplexType (ComplexType (FloatType k)) = true -> getBitWidth b = float_width k * 2 ->
  fromBits (ComplexType (FloatType k)) b
  = Ok (MkElement (ComplexType (FloatType k))
      (VComplex (apfloat k (extractBits b (float_width k) 0),
                 apfloat k (extractBits b (float_width k) (float_width k))))).
Proof.
  intros Hk Hb. pose proof (Concrete.float_width_pos k).
  assert (isSupportedFloatType (FloatType k) = true) as Hf by (destruct k; done).
  rewrite fromBits_complex_eq by done. unfold numBits. rewrite Hk. cbn [complex_element]. cbind.
  cbn [getIntOrFloatBitWidth]. cbind. rewrite Hb, Z.eqb_refl. cbn [negb].
  rewrite Z.quot_mul by done.
  rewrite !fromBits_float by (try apply width_extractBits; done || lia). cbind.
  rewrite !getFloatValue_ok by done. cbind.
  by rewrite Element_complex_ok by (done || apply sem_apfloat).
Qed.

(** The bits of an element determine it, and every bit pattern is an element. *)
Lemma toBits_fromBits e :
  element_ok e -> exists bits, toBits e = Ok bits /\ fromBits (getType e) bits = Ok e.
Proof.
  intros [(s & w & v & -> & Ht & Hw)|[(b & ->)|[(f & -> & Hf)|(re & im & -> & Hc & Hs)]]]%element_ok_cases.
  - exists v. split.
    + unfold toBits; cbn [getType]. rewrite int_type_not_bool, int_type_supported, Ht by done.
      by apply getIntegerValue_ok.
    + cbn [getType]. unfold fromBits, numBits. cbn [isSupportedComplexType getIntOrFloatBitWidth]. cbind.
      rewrite Hw, Z.eqb_refl, int_type_not_bool, int_type_supported, Ht by done. cbn [negb].
      by apply Element_int_ok.
  - exists (apint 1 (if b then 1 else 0)). split; [done|].
    assert (fromBits i1 (apint 1 (if b then 1 else 0))
      = if negb (1 =? getBitWidth (apint 1 (if b then 1 else 0))) then Err (Fatal "numBits(type) != bits.getBitWidth()")
        else Element_bool i1 (negb (isZero (apint 1 (if b then 1 else 0))))) as E by reflexivity.
    cbn [getType bool_el]. rewrite E, width_apint, isZero_spec, uval_apint by lia. by destruct b.
  - exists (bitcastToAPInt f). split.
    + unfold toBits; cbn [getType]. cbn [isSupportedBooleanType isSignlessInteger]. rewrite float_not_int, Hf.
      by rewrite getFloatValue_ok.
    + cbn [getType]. rewrite fromBits_float by (done || apply width_bitcast). by rewrite apfloat_bitcast.
  - exists (complex_bits re im). rewrite toBits_complex by done. split; [done|].
    destruct (complex_bits_spec _ _ Hs) as [Wb Ub]. cbn [getType].
    rewrite fromBits_complex by done.
    pose proof (Concrete.float_width_pos (getSemantics re)).
    pose proof (uval_range (bitcastToAPInt im)) as Hi. pose proof (uval_range (bitcastToAPInt re)) as Hr.
    rewrite width_bitcast, Hs in Hi. rewrite width_bitcast in Hr.
    do 2 f_equal. f_equal. f_equal.
    + etransitivity; [|apply apfloat_bitcast]. f_equal. apply apint_ext.
      * by rewrite width_extractBits, width_bitcast by lia.
      * rewrite uval_extractBits, Ub, Z.pow_0_r, Z.div_1_r by lia.
        rewrite Z.add_comm, Z_mod_plus_full. by apply Z.mod_small.
    + etransitivity; [|apply apfloat_bitcast]. rewrite Hs. f_equal. apply apint_ext.
      * rewrite width_extractBits, width_bitcast by lia. congruence.
      * rewrite uval_extractBits, Ub by lia.
        rewrite Z.add_comm, Z_div_plus_full, Z.div_small by lia. apply Z.mod_small. lia.
Qed.

Lemma fromBits_toBits t b n :
  isSupportedType t = true -> numBits t = Ok n -> getBitWidth b = n ->
  exists e, fromBits t b = Ok e /\ toBits e = Ok b /\ element_ok e /\ getType e = t.
Proof.
  intros Hs Hn Hb.
  assert (forall e, fromBits t b = Ok e -> toBits e = Ok b -> element_ok e -> getType e = t ->
    exists e, fromBits t b = Ok e /\ toBits e = Ok b /\ element_ok e /\ getType e = t) as K by eauto.
  destruct (isSupportedType_cases t Hs) as [(s & w & -> & Ht)|[->|[(k & -> & Hk)|Hc]]].
  - assert (w = n) as -> by (unfold numBits in Hn; cbn in Hn; congruence).
    apply (K (MkElement (IntegerType s n) (VInt b))); try done.
    + unfold fromBits, numBits. cbn [isSupportedComplexType getIntOrFloatBitWidth]. cbind.
      rewrite Hb, Z.eqb_refl, int_type_not_bool, int_type_supported, Ht by done. cbn [negb].
      by apply Element_int_ok.
    + unfold toBits; cbn [getType]. rewrite int_type_not_bool, int_type_supported, Ht by done.
      by apply getIntegerValue_ok.
    + unfold element_ok; cbn [value_ getType]. rewrite int_type_supported, Hb. done.
  - assert (n = 1) as -> by (unfold numBits in Hn; cbn in Hn; congruence).
    apply (K (bool_el (negb (isZero b)))); try done.
    + change (fromBits i1 b) with (if negb (1 =? getBitWidth b) then Err (Fatal "numBits(type) != bits.getBitWidth()")
        else Element_bool i1 (negb (isZero b))). by rewrite Hb.
    + change (Ok (apint 1 (if negb (isZero b) then 1 else 0)) = Ok b). f_equal.
      rewrite isZero_spec. pose proof (uval_range b) as Hu. rewrite Hb in Hu. change (2 ^ 1) with 2 in Hu.
      symmetry. apply apint_intro; [lia|done|].
      destruct (Z.eqb_spec (uval b) 0); cbn [negb]; [by rewrite Z.mod_0_l by lia|].
      rewrite Z.mod_small by lia. lia.
  - assert (float_width k = n) as <- by (unfold numBits in Hn; cbn in Hn; congruence).
    apply (K (MkElement (FloatType k) (VFloat (apfloat k b)))); try done.
    + by apply fromBits_float.
    + unfold toBits; cbn [getType]. cbn [isSupportedBooleanType isSignlessInteger]. rewrite float_not_int, Hk.
      rewrite getFloatValue_ok by done. cbind. by rewrite bitcast_apfloat.
    + unfold element_ok; cbn [value_ getType]. by rewrite sem_apfloat.
  - assert (exists k, t = ComplexType (FloatType k) /\ isSupportedComplexType t = true) as (k & -> & Hk)
      by (destruct Hc as [->| ->]; eauto).
    clear Hc. pose proof (Concrete.float_width_pos k).
    assert (float_width k * 2 = n) as <- by (unfold numBits in Hn; rewrite Hk in Hn; cbn in Hn; congruence).
    set (re := apfloat k (extractBits b (float_width k) 0)).
    set (im := apfloat k (extractBits b (float_width k) (float_width k))).
    assert (getSemantics re = k) as Hre by apply sem_apfloat.
    assert (getSemantics im = k) as Him by apply sem_apfloat.
    apply (K (MkElement (ComplexType (FloatType k)) (VComplex (re, im)))); try done.
    + by apply fromBits_complex.
    + rewrite toBits_complex by done. f_equal.
      destruct (complex_bits_spec re im ltac:(congruence)) as [Wb Ub]. rewrite Hre in *.
      pose proof (uval_range b) as Hu. rewrite Hb, Z.mul_comm, <- Z.add_diag, Z.pow_add_r in Hu by lia.
      assert (0 < 2 ^ float_width k) by (apply Z.pow_pos_nonneg; lia).
      apply apint_ext; [by rewrite Wb|]. rewrite Ub. unfold re, im.
      rewrite !bitcast_apfloat, !uval_extractBits, Z.pow_0_r, Z.div_1_r by (rewrite ?width_extractBits; lia).
      rewrite (Z.mod_small (_ / _)) by (split; [apply Z.div_pos | apply Z.div_lt_upper_bound]; lia).
      pose proof (Z.div_mod (uval b) (2 ^ float_width k)). lia.
    + unfold element_ok; cbn [value_ getType]. rewrite Hre, Him. done.
Qed.

Lemma fromBits_ok_inv t b e : fromBits t b = Ok e -> numBits t = Ok (getBitWidth b).
Proof.
  destruct t; cbn [fromBits]; intros H; apply bind_ok in H as (n & Hn & H);
    destruct (Z.eqb_spec n (getBitWidth b)); cbn [negb] in H; congruence.
Qed.

(** ** Splitting an element into chunks and joining them *)
Lemma one_to_many_loop_spec t e bits n m :
  isSupportedType t = true -> numBits t = Ok n -> 0 < n -> toBits e = Ok bits -> getBitWidth bits = n * m ->
  forall fuel k acc, 0 <= k <= m -> m - k <= Z.of_nat fuel ->
  exists es, one_to_many_loop fuel t e (n * m) n (n * k) acc = Ok (acc ++ es) /\
    Forall2 (fun j x => toBits x = Ok (extractBits bits n (n * j)) /\ element_ok x /\ getType x = t)
      (seqZ k (m - k)) es.
Proof.
  intros Ht Hn Hpos Hbits Hw. induction fuel as [|fuel IH]; intros k acc Hk Hf;
    cbn [one_to_many_loop]; destruct (Z.leb_spec (n * m) (n * k)).
  - exists []. rewrite app_nil_r, seqZ_nil by nia. done.
  - nia.
  - exists []. rewrite app_nil_r, seqZ_nil by nia. done.
  - assert (k < m) by nia. rewrite Hbits. cbind.
    destruct (fromBits_toBits t (extractBits bits n (n * k)) n) as (x & Hx & Hx'); [done|done| |].
    { apply width_extractBits; [lia|nia|]. rewrite Hw. nia. }
    rewrite Hx. cbind. replace (n * k + n) with (n * (k + 1)) by lia.
    destruct (IH (k + 1) (acc ++ [x])) as (es & -> & HF); [lia|lia|].
    exists (x :: es). rewrite <- app_assoc. split; [done|].
    rewrite seqZ_cons by lia. constructor; [done|].
    replace (Z.pred (m - k)) with (m - (k + 1)) by lia. done.
Qed.

Lemma join_chunk u n N k :
  0 < n -> 0 <= k -> 0 <= u < 2 ^ N -> n * (k + 1) <= N ->
  ((u / 2 ^ (n * (k + 1)) * 2 ^ n) mod 2 ^ N + u / 2 ^ (n * k) mod 2 ^ n) mod 2 ^ N = u / 2 ^ (n * k).
Proof.
  intros Hn Hk Hu HN.
  assert (0 < 2 ^ n) by (apply Z.pow_pos_nonneg; lia).
  assert (0 < 2 ^ (n * k)) by (apply Z.pow_pos_nonneg; nia).
  assert (u / 2 ^ (n * (k + 1)) = u / 2 ^ (n * k) / 2 ^ n) as ->.
  { replace (n * (k + 1)) with (n * k + n) by lia. rewrite Z.pow_add_r by nia. by rewrite Z.div_div by lia. }
  rewrite Zplus_mod_idemp_l, (Z.mul_comm _ (2 ^ n)), <- Z.div_mod by lia.
  apply Z.mod_small. split; [apply Z.div_pos; lia|].
  apply Z.div_lt_upper_bound; nia.
Qed.

Lemma join_spec bits n m :
  0 < n -> 0 < m -> getBitWidth bits = n * m ->
  forall es t k, numBits t = Ok n -> 0 <= k <= m ->
  Forall2 (fun j x => toBits x = Ok (extractBits bits n (n * j)) /\ element_ok x /\ getType x = t)
    (seqZ k (m - k)) es ->
  foldM (fun element resultBits =>
      n' ← numBits (getType element);
      if negb (n =? n') then Err (Fatal "All elements must have the same numBits")
      else
        operandBits ← toBits element;
        Ok (apint_add (shl resultBits n) (zext operandBits (n * m))))
    (reverse es) (apint (n * m) 0)
  = Ok (apint (n * m) (uval bits / 2 ^ (n * k))).
Proof.
  intros Hn Hm Hw es t. induction es as [|x es IH]; intros k Ht Hk HF.
  - inversion HF as [E|]. assert (length (seqZ k (m - k)) = O) as El by (by rewrite <- E).
    rewrite length_seqZ in El. assert (k = m) as -> by lia.
    pose proof (uval_range bits) as Hu. rewrite Hw in Hu. cbn [reverse foldM]. cbv [mret result_ret].
    by rewrite Z.div_small by lia.
  - assert (k < m) by (inversion HF as [|? ? ? ? ? ? E]; apply (f_equal length) in E; cbn in E;
      rewrite length_seqZ in E; lia).
    rewrite seqZ_cons in HF by lia. inversion HF as [|? ? ? ? (Hb & Hok & Hty) HF']; subst.
    replace (Z.pred (m - k)) with (m - Z.succ k) in HF' by lia.
    rewrite reverse_cons, foldM_app, (IH (Z.succ k)) by (done || lia). cbind. cbn [foldM].
    rewrite Ht. cbind. rewrite Z.eqb_refl. cbn [negb]. rewrite Hb. cbind. cbv [mret result_ret].
    f_equal. pose proof (uval_range bits) as Hu. rewrite Hw in Hu.
    assert (n * k + n <= n * m) by nia.
    assert (getBitWidth (extractBits bits n (n * k)) = n) as We by (apply width_extractBits; nia).
    assert (getBitWidth (shl (apint (n * m) (uval bits / 2 ^ (n * Z.succ k))) n) = n * m) as Ws
      by (rewrite width_shl, width_apint; rewrite ?width_apint; nia).
    assert (getBitWidth (zext (extractBits bits n (n * k)) (n * m)) = n * m) as Wz by (apply width_zext; nia).
    assert (same_width (shl (apint (n * m) (uval bits / 2 ^ (n * Z.succ k))) n)
              (zext (extractBits bits n (n * k)) (n * m))) as Hs by (apply (same_width_w _ _ (n * m)); nia).
    apply apint_intro; [nia|by rewrite width_add|].
    rewrite uval_add, Ws, uval_shl, uval_apint, width_apint, uval_zext, uval_extractBits by
      (rewrite ?width_apint; done || nia).
    rewrite (Z.mod_small (uval bits / _) (2 ^ (n * m))).
    + rewrite <- Z.add_1_r, join_chunk by (done || lia). symmetry. apply Z.mod_small.
      split; [apply Z.div_pos; [lia|apply Z.pow_pos_nonneg; nia]|].
      apply Z.div_lt_upper_bound; [apply Z.pow_pos_nonneg; nia|].
      assert (0 < 2 ^ (n * k)) by (apply Z.pow_pos_nonneg; nia). nia.
    + assert (0 < 2 ^ (n * Z.succ k)) by (apply Z.pow_pos_nonneg; nia).
      split; [apply Z.div_pos; lia|]. apply Z.div_lt_upper_bound; nia.
Qed.

Lemma Element_inv_hint t e :
  (exists v, Element_int t v = Ok e) \/ (exists v, Element_bool t v = Ok e) \/
  (exists v, Element_float t v = Ok e) \/ (exists v, Element_complex t v = Ok e) ->
  element_ok e /\ getType e = t.
Proof.
  intros [[v H]|[[v H]|[[v H]|[v H]]]]; eauto using Element_int_inv, Element_bool_inv,
    Element_float_inv, Element_complex_inv.
Qed.

Lemma map1_inv el fi fb ff fc e : map1 el fi fb ff fc = Ok e -> element_ok e /\ getType e = getType el.
Proof.
  unfold map1. intros H. apply Element_inv_hint.
  repeat case_match; try done; simpl_result; eauto.
Qed.

Lemma map2_inv e1 e2 fi fb ff fc e :
  map2 e1 e2 fi fb ff fc = Ok e -> element_ok e /\ getType e = getType e1 /\ getType e2 = getType e1.
Proof.
  unfold map2. case_bool_decide as Ht; cbn [negb]; [|done]. intros H. rewrite <- Ht.
  enough (element_ok e /\ getType e = getType e1) as [? ?] by done. apply Element_inv_hint.
  repeat case_match; try done; simpl_result; eauto.
Qed.

Lemma convert_apsint_inv t v e : convert_apsint t v = Ok e -> element_ok e /\ getType e = t.
Proof.
  enough ((forall v e, convert_float t v = Ok e -> element_ok e /\ getType e = t)) as Hf.
  - destruct t; cbn [convert_apsint]; intros H; repeat case_match; try done; simpl_result; eauto using
      Element_int_inv, Element_bool_inv, Element_float_inv.
  - clear. intros v e. destruct t; cbn [convert_float]; intros H; apply Element_inv_hint;
      repeat case_match; try done; unfold convert_complex_at in *; simpl_result; eauto.
Qed.

Lemma convert_float_inv t v e : convert_float t v = Ok e -> element_ok e /\ getType e = t.
Proof.
  destruct t; cbn [convert_float]; intros H; apply Element_inv_hint;
    repeat case_match; try done; unfold convert_complex_at in *; simpl_result; eauto.
Qed.

Lemma convert_complex_inv t v e : convert_complex t v = Ok e -> element_ok e /\ getType e = t.
Proof.
  unfold convert_complex, convert_complex_at. intros H.
  case_match; [|by eapply convert_float_inv]. apply Element_inv_hint. simpl_result. eauto.
Qed.

Lemma convert_inv t a e : convert t a = Ok e -> element_ok e /\ getType e = t.
Proof.
  unfold convert, convert_bool, convert_i64, convert_u64. intros H.
  repeat case_match; try done; simpl_result; eauto using convert_apsint_inv, convert_float_inv,
    convert_complex_inv, Element_bool_inv.
Qed.

Lemma mapWithUpcastToDouble_inv el f g e :
  mapWithUpcastToDouble el f g = Ok e -> element_ok e /\ getType e = getType el.
Proof.
  unfold mapWithUpcastToDouble, convert_double, convert_cdouble. intros H.
  repeat case_match; try done; simpl_result; eauto using convert_float_inv, convert_complex_inv.
Qed.

Lemma el_div_inv a b e : el_div a b = Ok e -> element_ok e /\ getType e = getType a.
Proof.
  unfold el_div. case_bool_decide; cbn [negb]; [|done]. intros He. apply Element_inv_hint.
  repeat case_match; try done; simpl_result; eauto.
Qed.

Lemma power_inv a b e : power a b = Ok e -> element_ok e /\ getType e = getType a.
Proof.
  unfold power, mapWithUpcastToDouble2, convert_double, convert_cdouble, convert_i64. intros He.
  repeat case_match; try done; simpl_result; repeat case_match; simpl_result; eauto using
    convert_apsint_inv, convert_float_inv, convert_complex_inv, Element_int_inv.
Qed.

Lemma compare_inv e1 e2 e op :
  op ∈ [el_lt; el_gt; el_eq] -> op e1 e2 = Ok e -> exists b, e = bool_el b.
Proof.
  intros Hop. rewrite !elem_of_cons, elem_of_nil in Hop.
  destruct Hop as [->|[->|[->|[]]]]; unfold el_lt, el_gt, el_eq; intros He;
    repeat case_match; try done; simpl_result; eexists; reflexivity.
Qed.
End Facts.

Ltac binds H := cbv beta in H; repeat (apply bind_ok in H as (? & _ & H)).

(** ** Properties *)
Section Claims.
Context {L : LLVM} {Laws : LLVMLaws L}.

(** C27: on integer elements of any supported type, signed or unsigned, [+],
    [-], [*], unary [-], [&], [|], [^] and [~] compute the integer operation
    modulo two to the width, and never fault. *)
Theorem integer_arithmetic s w a b :
  int_type s w = true ->
  el_add (int_el s w a) (int_el s w b) = Ok (int_el s w (a + b)) /\
  el_sub (int_el s w a) (int_el s w b) = Ok (int_el s w (a - b)) /\
  el_mul (int_el s w a) (int_el s w b) = Ok (int_el s w (a * b)) /\
  el_neg (int_el s w a) = Ok (int_el s w (- a)) /\
  el_and (int_el s w a) (int_el s w b) = Ok (int_el s w (Z.land a b)) /\
  el_or (int_el s w a) (int_el s w b) = Ok (int_el s w (Z.lor a b)) /\
  el_xor (int_el s w a) (int_el s w b) = Ok (int_el s w (Z.lxor a b)) /\
  el_not (int_el s w a) = Ok (int_el s w (Z.lnot a)).
Proof.
  intros Ht. repeat split; auto using el_add_int, el_sub_int, el_mul_int, el_neg_int, el_and_int,
    el_or_int, el_xor_int, el_not_int.
Qed.

(** Comparison, maximum and minimum, division, remainder and the
    shifts read integer elements by their signedness; division truncates toward
    zero, and every shift amount, also one past the width, acts as a shift of
    the mathematical integer. *)
Theorem integer_order_and_division s w a b :
  int_type s w = true ->
  let x := int_read s w a in
  let y := int_read s w b in
  let n := b mod 2 ^ w in
  el_lt (int_el s w a) (int_el s w b) = Ok (bool_el (x <? y)) /\
  el_gt (int_el s w a) (int_el s w b) = Ok (bool_el (y <? x)) /\
  el_eq (int_el s w a) (int_el s w b) = Ok (bool_el (x =? y)) /\
  max (int_el s w a) (int_el s w b) = Ok (int_el s w (Z.max x y)) /\
  min (int_el s w a) (int_el s w b) = Ok (int_el s w (Z.min x y)) /\
  (y <> 0 -> el_div (int_el s w a) (int_el s w b) = Ok (int_el s w (Z.quot x y)) /\
             rem (int_el s w a) (int_el s w b) = Ok (int_el s w (Z.rem x y))) /\
  shiftLeft (int_el s w a) (int_el s w b) = Ok (int_el s w (Z.shiftl a n)) /\
  shiftRightLogical (int_el s w a) (int_el s w b) = Ok (int_el s w (Z.shiftr (a mod 2 ^ w) n)) /\
  shiftRightArithmetic (int_el s w a) (int_el s w b)
    = Ok (int_el s w (Z.shiftr (to_signed w (a mod 2 ^ w)) n)).
Proof.
  intros Ht x y n. unfold x, y, n.
  split_and!; auto using el_lt_int, el_gt_int, el_eq_int, max_int, min_int,
    shiftLeft_int, shiftRightLogical_int, shiftRightArithmetic_int.
  intros Hy. assert (b mod 2 ^ w <> 0) as Hb.
  { intros E. apply Hy. unfold int_read, to_signed. rewrite E. pose proof (int_type_pos _ _ Ht).
    pose proof (Z.pow_pos_nonneg 2 (w - 1) ltac:(lia) ltac:(lia)).
    destruct s; try done; destruct (Z.ltb_spec 0 (2 ^ (w - 1))); done || lia. }
  split; auto using el_div_int, rem_int.
Qed.

(** The square-and-multiply loop of [power] ends within the width of the
    exponent and computes the base to the exponent modulo two to the width; a
    negative exponent gives zero unless the base is 1 or -1. *)
Theorem power_correct s w b e :
  int_type s w = true ->
  let base := int_read s w b in
  let exponent := int_read s w e in
  power (int_el s w b) (int_el s w e) = Ok (int_el s w
    (if exponent <? 0 then (if Z.abs base =? 1 then base ^ Z.abs exponent else 0)
     else base ^ exponent)).
Proof. apply power_int. Qed.

(** Conversion between integer types preserves the value modulo two to the
    width of the target. *)
Theorem convert_integer s w s' w' z :
  int_type s w = true -> int_type s' w' = true ->
  convert (IntegerType s' w') (int_el s w z) = Ok (int_el s' w' (int_read s w z)).
Proof. apply convert_int. Qed.

(** The [APInt] overload of [convert] reads its operand with the signedness
    opposite to its [isSigned] argument: it hands [isSigned] to [APSInt], whose
    parameter is [isUnsigned]. *)
Theorem convert_apint_swaps_signedness s w z isSigned :
  int_type s w = true ->
  convert_apint (IntegerType s w) (apint 32 z) isSigned
  = Ok (int_el s w (if isSigned then z mod 2 ^ 32 else to_signed 32 (z mod 2 ^ 32))).
Proof.
  intros Ht. pose proof (int_type_pos _ _ Ht). unfold convert_apint, convert_apsint.
  rewrite int_type_not_bool, int_type_supported, Ht by done. cbn [getIntOrFloatBitWidth]. cbind.
  unfold apsint_extOrTrunc; cbn [fst snd].
  rewrite Element_int_ok by (try destruct isSigned; rewrite ?width_zextOrTrunc, ?width_sextOrTrunc; done || lia).
  unfold int_el. do 3 f_equal. destruct isSigned; (apply apint_intro; [lia| |]);
    rewrite ?width_zextOrTrunc, ?width_sextOrTrunc, ?uval_zextOrTrunc, ?uval_sextOrTrunc, ?sval_apint,
      ?uval_apint by (rewrite ?width_apint; lia); done.
Qed.

(** [toBits] and [fromBits] are inverse bijections between the elements of
    a supported type and the bit patterns of its width. *)
Theorem bits_bijection t n :
  isSupportedType t = true -> numBits t = Ok n ->
  (forall e, element_ok e -> getType e = t -> exists bits,
     toBits e = Ok bits /\ getBitWidth bits = n /\ fromBits t bits = Ok e) /\
  (forall bits, getBitWidth bits = n -> exists e,
     fromBits t bits = Ok e /\ element_ok e /\ getType e = t /\ toBits e = Ok bits).
Proof.
  intros Ht Hn. split.
  - intros e He <-. destruct (toBits_fromBits e He) as (bits & Hb & Hf). exists bits.
    pose proof (toBits_width _ _ He Hb). split; [done|]. split; [congruence|done].
  - intros bits Hb. destruct (fromBits_toBits t bits n Ht Hn Hb) as (e & ? & ? & ? & ?). by exists e.
Qed.

(** Splitting an element into narrower elements of a supported type whose
    width divides its own, and joining the pieces back, gives the element. *)
Theorem bitcast_split_join t e n m :
  isSupportedType t = true -> element_ok e -> isSupportedType (getType e) = true ->
  numBits t = Ok n -> numBits (getType e) = Ok (n * m) ->
  exists es, bitcastConvertOneToMany t e = Ok es /\ Z.of_nat (length es) = m /\
    Forall (fun x => element_ok x /\ getType x = t) es /\
    bitcastConvertManyToOne (getType e) es = Ok e.
Proof.
  intros Ht He Hte Hn Hm.
  destruct (numBits_supported _ Ht) as (n' & En & Hn'). rewrite Hn in En. injection En as <-.
  destruct (numBits_supported _ Hte) as (nm & Em & Hnm). rewrite Hm in Em. injection Em as <-.
  assert (0 < m) as Hmp by nia. assert (0 < n) as Hnp by lia.
  destruct (toBits_fromBits e He) as (bits & Hb & Hf).
  pose proof (toBits_width _ _ He Hb) as Hw. rewrite Hm in Hw. injection Hw as Hw.
  destruct (one_to_many_loop_spec t e bits n m Ht Hn Hnp Hb (eq_sym Hw) (Z.to_nat (n * m)) 0 [])
    as (es & Hes & HF); [lia|rewrite Z2Nat.id; nia|].
  rewrite Z.mul_0_r in Hes. rewrite Z.sub_0_r in HF. exists es.
  split; [|split; [|split]].
  - unfold bitcastConvertOneToMany. rewrite Hn, Hm. cbind. unfold rem_z.
    destruct (Z.eqb_spec n 0); [lia|]. cbind.
    rewrite Z.mul_comm, Z.rem_mul by lia. cbn [Z.eqb negb]. by rewrite Z.mul_comm.
  - apply Forall2_length in HF. rewrite length_seqZ in HF. lia.
  - apply Forall_forall. intros x [j Hj]%list_elem_of_lookup.
    destruct (Forall2_lookup_r _ _ _ _ _ HF Hj) as (? & ? & ? & ?). done.
  - unfold bitcastConvertManyToOne. rewrite Hm. cbind.
    destruct es as [|x es]; [apply Forall2_length in HF; rewrite length_seqZ in HF; cbn in HF; lia|].
    inversion HF as [|? ? ? ? (_ & _ & Hty) HF' E]; subst.
    change (at_z (x :: es) 0) with (Ok x). cbind. rewrite Hn. cbind. unfold rem_z.
    destruct (Z.eqb_spec n 0); [lia|]. cbind.
    rewrite Z.mul_comm, Z.rem_mul by lia. cbn [Z.eqb negb]. rewrite (Z.mul_comm m).
    rewrite (join_spec bits n m Hnp Hmp (eq_sym Hw) _ _ 0 Hn) by
      (rewrite ?Z.sub_0_r; done || lia). cbind.
    rewrite Z.mul_0_r, Z.pow_0_r, Z.div_1_r, Hw, apint_uval by lia. done.
Qed.

(** Every arithmetic, logical, comparison and conversion operation that
    returns gives a well-formed element, of the type of its first operand
    ([i1] for a comparison, the target type for a conversion). *)
Theorem element_operations_typed :
  (forall op e1 e2 e,
     op ∈ [el_add; el_sub; el_mul; el_div; el_and; el_or; el_xor; max; min; rem; power;
           shiftLeft; shiftRightLogical; shiftRightArithmetic] ->
     op e1 e2 = Ok e -> element_ok e /\ getType e = getType e1) /\
  (forall op e1 e, op ∈ [el_neg; el_not; ceil; floor; roundNearestAfz; roundNearestEven; cbrt;
           exponential; exponentialMinusOne; cosine; log; logPlusOne; rsqrt; sine; sqrt; tan; tanh;
           logistic; popcnt] ->
     op e1 = Ok e -> element_ok e /\ getType e = getType e1) /\
  (forall op e1 e2 e, op ∈ [el_lt; el_gt; el_eq; el_le; el_ge; el_ne; el_lor] ->
     op e1 e2 = Ok e -> element_ok e /\ getType e = i1) /\
  (forall t e1 e, convert t e1 = Ok e -> element_ok e /\ getType e = t).
Proof.
  split_and!.
  - intros op e1 e2 e Hop He. rewrite !elem_of_cons, elem_of_nil in Hop.
    unfold el_add, el_sub, el_mul, el_and, el_or, el_xor, max, min, rem, shiftLeft,
      shiftRightLogical, shiftRightArithmetic in Hop.
    destruct_or! Hop; subst op; try done;
      first [ by apply map2_inv in He as (? & ? & _) | by apply el_div_inv in He
            | by apply power_inv in He | binds He; by eapply Element_int_inv ].
  - intros op e1 e Hop He. rewrite !elem_of_cons, elem_of_nil in Hop.
    unfold el_neg, el_not, ceil, floor, roundNearestAfz, roundNearestEven, round_with, logistic,
      popcnt, convert_u64 in Hop.
    destruct_or! Hop; subst op; try done;
      first [ by apply map1_inv in He | by apply mapWithUpcastToDouble_inv in He
            | binds He; by eapply Element_float_inv
            | binds He; by eapply convert_apsint_inv
            | idtac ].
    apply bind_ok in He as (one & E & He). binds He.
    apply el_div_inv in He as [? ->]. split; [done|]. by apply convert_float_inv in E as [_ ?].
  - intros op e1 e2 e Hop He. rewrite !elem_of_cons, elem_of_nil in Hop.
    assert (exists b, e = bool_el b) as [b ->]; [|done].
    destruct_or! Hop; subst op; try done;
      try (by eapply compare_inv in He; [|set_solver]);
      unfold el_le, el_ge, el_ne, el_lor, el_lnot in He; simpl_result; eexists; reflexivity.
  - intros t e1 e. apply convert_inv.
Qed.
End Claims.

(** ** Witnesses, on the concrete integers *)
Section Witnesses.
#[local] Existing Instance Concrete.concrete.
#[local] Existing Instance Concrete.concrete_laws.

Lemma integer_arithmetic_witness :
  int_type Unsigned 8 = true /\
  el_add (int_el Unsigned 8 200) (int_el Unsigned 8 100) = Ok (int_el Unsigned 8 300) /\
  uval (apint 8 300) = 44.
Proof.
  split; [reflexivity|]. split; [|reflexivity].
  exact (proj1 (integer_arithmetic Unsigned 8 200 100 eq_refl)).
Defined.

Lemma integer_order_and_division_witness :
  int_type Signless 8 = true /\
  el_lt (int_el Signless 8 200) (int_el Signless 8 100) = Ok (bool_el true) /\
  el_div (int_el Signless 8 200) (int_el Signless 8 10) = Ok (int_el Signless 8 (-5)).
Proof.
  split; [reflexivity|]. split.
  - exact (proj1 (integer_order_and_division Signless 8 200 100 eq_refl)).
  - exact (proj1 (proj1 (proj2 (proj2 (proj2 (proj2 (proj2
      (integer_order_and_division Signless 8 200 10 eq_refl)))))) ltac:(vm_compute; discriminate))).
Defined.

Lemma power_correct_witness :
  int_type Signless 16 = true /\
  power (int_el Signless 16 3) (int_el Signless 16 5) = Ok (int_el Signless 16 243).
Proof. split; [reflexivity|]. exact (power_correct Signless 16 3 5 eq_refl). Defined.

Lemma convert_integer_witness :
  int_type Signless 8 = true /\ int_type Unsigned 16 = true /\
  convert (IntegerType Unsigned 16) (int_el Signless 8 255) = Ok (int_el Unsigned 16 (-1)).
Proof.
  split; [reflexivity|]. split; [reflexivity|].
  exact (convert_integer Signless 8 Unsigned 16 255 eq_refl eq_refl).
Defined.

Lemma convert_apint_swaps_signedness_witness :
  int_type Signless 64 = true /\
  convert_apint (IntegerType Signless 64) (apint 32 (-1)) true = Ok (int_el Signless 64 (2 ^ 32 - 1)).
Proof. split; [reflexivity|]. exact (convert_apint_swaps_signedness Signless 64 (-1) true eq_refl). Defined.

Lemma bits_bijection_witness :
  isSupportedType (ComplexType (FloatType Float32)) = true /\
  exists e, fromBits (ComplexType (FloatType Float32)) (apint 64 12345) = Ok e /\
    toBits e = Ok (apint 64 12345).
Proof.
  split; [reflexivity|].
  assert (getBitWidth (apint 64 12345) = 64) as Hw by reflexivity.
  destruct (proj2 (bits_bijection (ComplexType (FloatType Float32)) 64 eq_refl eq_refl) _ Hw) as (e & ? & _ & _ & ?).
  exists e. split; assumption.
Defined.

Lemma bitcast_split_join_witness :
  exists es, bitcastConvertOneToMany (IntegerType Unsigned 8) (int_el Signless 32 67305985) = Ok es /\
    length es = 4%nat /\
    bitcastConvertManyToOne (IntegerType Signless 32) es = Ok (int_el Signless 32 67305985).
Proof.
  assert (element_ok (int_el Signless 32 67305985)) as He by (split; reflexivity).
  destruct (bitcast_split_join (IntegerType Unsigned 8) (int_el Signless 32 67305985) 8 4 eq_refl
    He eq_refl eq_refl eq_refl) as (es & ? & ? & _ & ?).
  exists es. split; [assumption|]. split; [lia|assumption].
Defined.

Lemma element_operations_typed_witness :
  el_add (int_el Unsigned 8 1) (int_el Unsigned 8 2) = Ok (int_el Unsigned 8 3) /\
  element_ok (int_el Unsigned 8 3) /\ getType (int_el Unsigned 8 3) = IntegerType Unsigned 8.
Proof.
  assert (el_add (int_el Unsigned 8 1) (int_el Unsigned 8 2) = Ok (int_el Unsigned 8 3)) as H
    by reflexivity.
  split; [exact H|].
  apply (proj1 element_operations_typed el_add (int_el Unsigned 8 1) (int_el Unsigned 8 2)); [left|exact H].
Defined.
End Witnesses.
