(* ===== verification/Tensor.v ===== *)
(** * Tensors

    [src/stablehlo/reference/Tensor.h] and [Tensor.cpp]: a tensor is a ranked type
    and a byte buffer that holds the elements in canonical (row-major) order.
    A byte that was never written is [None], and reading it is undefined.  The
    byte order of the machine is taken to be little-endian.  A [Tensor] of the
    code is a reference to its buffer; the operations of [Ops.cpp] write only to
    buffers they allocated or cloned themselves, so here a tensor is a value. *)
From S2P Require Import Prelude Types Support Index Element.

(** ** Bytes *)
Abbreviation Blob := (list (option Z)) (only parsing).

Fixpoint le_bytes (n : nat) (v : Z) : list Z :=
  match n with
  | O => []
  | S n => v mod 256 :: le_bytes n (v / 256)
  end.

Fixpoint le_combine (bs : list Z) : Z :=
  match bs with
  | [] => 0
  | b :: bs => b + 256 * le_combine bs
  end.

Definition in_blob (blob : Blob) (off : Z) (n : nat) : bool :=
  (0 <=? off) && (off + Z.of_nat n <=? Z.of_nat (length blob)).

(** An access of [n] bytes through a pointer into the buffer. *)
Definition load (blob : Blob) (off : Z) (n : nat) : result Z :=
  if in_blob blob off n then
    ok_or (le_combine <$> mapM id (take n (drop (Z.to_nat off) blob))) (UB "uninitialized read")
  else Err (UB "out-of-bounds read").

Definition store (blob : Blob) (off : Z) (n : nat) (v : Z) : result Blob :=
  if in_blob blob off n then
    Ok (take (Z.to_nat off) blob ++ (Some <$> le_bytes n v) ++ drop (Z.to_nat off + n) blob)
  else Err (UB "out-of-bounds write").

(** ** Sizes and positions *)

(** [ShapedType::getNumElements] asserts a static shape. *)
Definition numElements (shape : Sizes) : result Z :=
  if forallb (fun d => 0 <=? d) shape
  then foldM (fun d n => i64 (n * d)) shape 1
  else Err (UB "getNumElements of a dynamic shape").

Fixpoint getSizeInBytes (type : Ty) : result Z :=
  match type with
  | RankedTensorType shape elementType _ =>
      n ← numElements shape; b ← getSizeInBytes elementType; i64 (n * b)
  | IntegerType _ width => Ok (Z.max width 8 / 8)
  | FloatType k => Ok (Z.max (float_width k) 8 / 8)
  | ComplexType elementType => b ← getSizeInBytes elementType; i64 (b * 2)
  | _ => Err (Fatal "Unsupported type")
  end.

(** [strides[i]] is computed from [strides[i + 1]], from the right. *)
Fixpoint strides (shape : Sizes) : result (list Z) :=
  match shape with
  | [] => Ok []
  | _ :: ds =>
      match ds with
      | [] => Ok [1]
      | d :: _ =>
          ss ← strides ds;
          s ← at_z ss 0;
          s' ← i64 (s * d);
          Ok (s' :: ss)
      end
  end.

Definition flattenIndex (shape : Sizes) (index : Index) : result Z :=
  if negb (inBounds index shape) then
    Err (Fatal "Incompatible index and shape found while flattening index")
  else match shape with
  | [] => Ok 0
  | _ =>
      ss ← strides shape;
      foldM (fun '(stride, x) idx => p ← i64 (stride * x); i64 (idx + p)) (zip ss index) 0
  end.

Section Tensor.
Context `{L : LLVM}.

Record Tensor := MkTensor { getTensorType : ShapedType; getData : Blob }.

Definition getTensorShape (t : Tensor) : Sizes := getShape (getTensorType t).
Definition getTensorElementType (t : Tensor) : Ty := getElementType (getTensorType t).
Definition getTensorRank (t : Tensor) : Z := getRank (getTensorType t).
Definition getTensorNumElements (t : Tensor) : result Z := numElements (getTensorShape t).
Definition getAxes (t : Tensor) : list Z := seqZ 0 (getTensorRank t).

(** [Tensor(ShapedType)] allocates without initializing. *)
Definition newTensor (type : ShapedType) : result Tensor :=
  n ← getSizeInBytes (shaped_type type);
  Ok (MkTensor type (replicate (Z.to_nat n) None)).

Definition clone (t : Tensor) : Tensor := MkTensor (getTensorType t) (getData t).

(** ** Reading an element: [rd o n] reads [n] bytes at [elementPtr + o] *)
Definition read_element (elementType : Ty) (rd : Z -> nat -> result Z) : result Element :=
  if isSupportedFloatType elementType &&
     match elementType with FloatType k => float_width k <=? 8 | _ => false end then
    k ← float_kind elementType;
    v ← rd 0 1%nat;
    Element_float elementType (apfloat k (apint (float_width k) v))
  else if isF Float16 elementType then
    v ← rd 0 2%nat; Element_float elementType (apfloat Float16 (apint 16 v))
  else if isF BFloat16 elementType then
    v ← rd 0 2%nat; Element_float elementType (apfloat BFloat16 (apint 16 v))
  else if isF Float32 elementType then
    v ← rd 0 4%nat; Element_float elementType (apfloat_of_float v)
  else if isF Float64 elementType then
    v ← rd 0 8%nat; Element_float elementType (apfloat_of_double (Double v))
  else if isSupportedIntegerType elementType then
    bitwidth ← getIntOrFloatBitWidth elementType;
    if (bitwidth =? 2) || (bitwidth =? 4) || (bitwidth =? 8) then
      v ← rd 0 1%nat; Element_int elementType (apint bitwidth v)
    else if bitwidth =? 16 then v ← rd 0 2%nat; Element_int elementType (apint bitwidth v)
    else if bitwidth =? 32 then v ← rd 0 4%nat; Element_int elementType (apint bitwidth v)
    else if bitwidth =? 64 then v ← rd 0 8%nat; Element_int elementType (apint bitwidth v)
    else unsupported
  else if isSupportedBooleanType elementType then
    v ← rd 0 1%nat;
    if v =? 0 then Element_bool elementType false
    else if v =? 1 then Element_bool elementType true
    else Err (Fatal "Unsupported boolean value")
  else match elementType with
  | ComplexType complexElemTy =>
      if isF Float32 complexElemTy then
        re ← rd 0 4%nat; im ← rd 4 4%nat;
        Element_complex elementType (apfloat_of_float re, apfloat_of_float im)
      else if isF Float64 complexElemTy then
        re ← rd 0 8%nat; im ← rd 8 8%nat;
        Element_complex elementType (apfloat_of_double (Double re), apfloat_of_double (Double im))
      else unsupported
  | _ => unsupported
  end.

(** ** Writing an element: the values stored, each with its offset from
    [elementPtr] and its size; a store truncates to its size. *)
Definition write_element (elementType : Ty) (element : Element) : result (list (Z * nat * Z)) :=
  let float_bits := value ← getFloatValue element; Ok (getZExtValue (bitcastToAPInt value)) in
  let sext := value ← getIntegerValue element; Ok (getSExtValue value) in
  let zext := value ← getIntegerValue element; Ok (getZExtValue value) in
  if isSupportedFloatType elementType &&
     match elementType with FloatType k => float_width k <=? 8 | _ => false end then
    v ← float_bits; Ok [(0, 1%nat, v)]
  else if isF Float16 elementType || isF BFloat16 elementType then
    v ← float_bits; Ok [(0, 2%nat, v)]
  else if isF Float32 elementType then
    value ← getFloatValue element; Ok [(0, 4%nat, convertToFloat value)]
  else if isF Float64 elementType then
    value ← getFloatValue element; Ok [(0, 8%nat, double_bits (convertToDouble value))]
  else if isSignlessInteger elementType 2 || isSignlessInteger elementType 4 ||
          isSignlessInteger elementType 8 then
    v ← sext; Ok [(0, 1%nat, v)]
  else if isSignlessInteger elementType 16 then v ← sext; Ok [(0, 2%nat, v)]
  else if isSignlessInteger elementType 32 then v ← sext; Ok [(0, 4%nat, v)]
  else if isSignlessInteger elementType 64 then v ← sext; Ok [(0, 8%nat, v)]
  else if isUnsignedInteger elementType 2 || isUnsignedInteger elementType 4 ||
          isUnsignedInteger elementType 8 then
    v ← zext; Ok [(0, 1%nat, v)]
  else if isUnsignedInteger elementType 16 then v ← zext; Ok [(0, 2%nat, v)]
  else if isUnsignedInteger elementType 32 then v ← zext; Ok [(0, 4%nat, v)]
  else if isUnsignedInteger elementType 64 then v ← zext; Ok [(0, 8%nat, v)]
  else if isSupportedBooleanType elementType then
    value ← getBooleanValue element; Ok [(0, 1%nat, if (value : bool) then 1 else 0)]
  else match elementType with
  | ComplexType complexElemTy =>
      complexValue ← getComplexValue element;
      if isF Float32 complexElemTy then
        Ok [(0, 4%nat, convertToFloat complexValue.1); (4, 4%nat, convertToFloat complexValue.2)]
      else if isF Float64 complexElemTy then
        Ok [(0, 8%nat, double_bits (convertToDouble complexValue.1));
            (8, 8%nat, double_bits (convertToDouble complexValue.2))]
      else unsupported
  | _ => unsupported
  end.

(** [elementPtr - data] *)
Definition elementOffset (t : Tensor) (index : Index) : result Z :=
  size ← getSizeInBytes (getTensorElementType t);
  i ← flattenIndex (getTensorShape t) index;
  i64 (size * i).

Definition get (t : Tensor) (index : Index) : result Element :=
  off ← elementOffset t index;
  read_element (getTensorElementType t) (fun o n => load (getData t) (off + o) n).

Definition set (t : Tensor) (index : Index) (element : Element) : result Tensor :=
  off ← elementOffset t index;
  ws ← write_element (getTensorElementType t) element;
  blob ← foldM (fun '(o, n, v) blob => store blob (off + o) n v) ws (getData t);
  Ok (MkTensor (getTensorType t) blob).

(** The shape of most operations:
    [for (it = t.index_begin(); it != t.index_end(); ++it) t.set( *it, f( *it))]. *)
Definition for_set (f : Index -> result Element) (t : Tensor) : result Tensor :=
  for_index (getTensorShape t) (fun i t => e ← f i; set t i e) t.

Definition build (type : ShapedType) (f : Index -> result Element) : result Tensor :=
  t ← newTensor type; for_set f t.

(** ** Attributes *)

(** A [DenseElementsAttr]: a type and the values of its elements in row-major order. *)
Record DenseElementsAttr := MkAttr { attr_type : ShapedType; attr_values : list Value_ }.

(** Copying the attribute's values to a buffer, one stored value after the other. *)
Definition makeTensor (attr : DenseElementsAttr) : result Tensor :=
  let type := attr_type attr in
  let elementType := getElementType type in
  blob ← foldM (fun v blob =>
      ws ← write_element elementType (MkElement elementType v);
      Ok (blob ++ flat_map (fun '(_, n, v) => Some <$> le_bytes n v) ws))
    (attr_values attr) [];
  Ok (MkTensor type blob).

(** [failure()] is [None]. *)
Definition getBitWidthIfReferenceCopyable (elementType : Ty) : option Z :=
  if negb (isa_FloatType elementType) || negb (isa_IntegerType elementType) then None
  else
    let bitWidth := match elementType with
                    | FloatType k => float_width k
                    | IntegerType _ w => w
                    | _ => 0
                    end in
    if bitWidth mod 8 =? 0 then None else Some bitWidth.

(** [getFromRawBuffer] is MLIR's. *)
Definition makeDenseElementsAttr
    (getFromRawBuffer : ShapedType -> Blob -> result DenseElementsAttr) (tensor : Tensor)
    : result DenseElementsAttr :=
  let type := getTensorType tensor in
  let elementType := getElementType type in
  match getBitWidthIfReferenceCopyable elementType with
  | Some bitWidth =>
      n ← getTensorNumElements tensor;
      getFromRawBuffer type (take (Z.to_nat (n * (bitWidth / 8))) (getData tensor))
  | None =>
      if isa_FloatType elementType then
        values ← for_index (getTensorShape tensor) (fun i values =>
          element ← get tensor i; v ← getFloatValue element; Ok (values ++ [VFloat v])) [];
        Ok (MkAttr type values)
      else if isa_IntegerType elementType then
        if isSupportedBooleanType elementType then
          n ← getTensorNumElements tensor;
          data ← foldM (fun i data => v ← load (getData tensor) i 1; Ok (data ++ [VBool (negb (v =? 0))]))
            (seqZ 0 n) [];
          Ok (MkAttr type data)
        else
          values ← for_index (getTensorShape tensor) (fun i values =>
            element ← get tensor i; v ← getIntegerValue element; Ok (values ++ [VInt v])) [];
          Ok (MkAttr type values)
      else match elementType with
      | ComplexType complexElemTy =>
          let fetch (size : nat) (mk : Z -> APFloat) :=
            n ← getTensorNumElements tensor;
            values ← foldM (fun i values =>
                re ← load (getData tensor) (i * (2 * Z.of_nat size)) size;
                im ← load (getData tensor) (i * (2 * Z.of_nat size) + Z.of_nat size) size;
                Ok (values ++ [VComplex (mk re, mk im)])) (seqZ 0 n) [];
            Ok (MkAttr type values) in
          if isF Float32 complexElemTy then fetch 4%nat apfloat_of_float
          else if isF Float64 complexElemTy then fetch 8%nat (fun v => apfloat_of_double (Double v))
          else Err (Fatal "Only FloatType, IntType, and Complex<f32,f64> are handled currently.")
      | _ => Err (Fatal "Only FloatType, IntType, and Complex<f32,f64> are handled currently.")
      end
  end.

Definition makeSizes (tensor : Tensor) : result Sizes :=
  if negb (getTensorRank tensor =? 1) || negb (isa_IntegerType (getTensorElementType tensor)) then
    Err (Fatal "makeSizes(Tensor) only accepts integer tensors of rank 1")
  else
    for_index (getTensorShape tensor) (fun i values =>
      e ← get tensor i; v ← getIntegerValue e; Ok (values ++ [getSExtValue v])) [].

(** ** The invariant of a tensor of the interpreter *)
Definition shaped_ok (type : ShapedType) : Prop :=
  isSupportedType (getElementType type) = true /\
  shape_ok (getShape type) /\
  exists n, getSizeInBytes (shaped_type type) = Ok n.

Definition tensor_ok (t : Tensor) : Prop :=
  shaped_ok (getTensorType t) /\
  getSizeInBytes (shaped_type (getTensorType t)) = Ok (Z.of_nat (length (getData t))).

(** [f] gives a well-formed element of the tensor's element type at every index. *)
Definition typed_fn (type : ShapedType) (f : Index -> result Element) : Prop :=
  forall i, in_bounds i (getShape type) ->
    exists e, f i = Ok e /\ element_ok e /\ getType e = getElementType type.

(** The tensor has type [type] and holds [f i] at every index [i]. *)
Definition tensor_of (type : ShapedType) (f : Index -> result Element) (t : Tensor) : Prop :=
  tensor_ok t /\ getTensorType t = type /\ forall i, in_bounds i (getShape type) -> get t i = f i.

(** A tensor that holds an element everywhere. *)
Definition tensor_full (t : Tensor) : Prop := tensor_ok t /\ typed_fn (getTensorType t) (get t).
End Tensor.
