(* ===== verification/TensorFacts.v ===== *)
(** * Tensors: theorems

    The byte-level lemmas of [Tensor.v], that reading an element back after a
    write gives the element and leaves the others alone, and the lemma that a
    loop of writes over the index space builds the tensor of a function. *)
From S2P Require Import Prelude Types Support Index Element ElementFacts Tensor.

(** ** Little-endian bytes *)
Lemma length_le_bytes n v : length (le_bytes n v) = n.
Proof. revert v; induction n; intros; cbn [le_bytes length]; auto. Qed.

Lemma le_combine_le_bytes n v : le_combine (le_bytes n v) = v mod 2 ^ (8 * Z.of_nat n).
Proof.
  revert v; induction n as [|n IH]; intros v; cbn [le_bytes le_combine].
  - by rewrite Z.mul_0_r, Z.pow_0_r, Z.mod_1_r.
  - rewrite IH. replace (8 * Z.of_nat (S n)) with (8 + 8 * Z.of_nat n) by lia.
    rewrite Z.pow_add_r, Z.rem_mul_r by (try apply Z.pow_pos_nonneg; try apply Z.pow_nonzero; lia).
    change (2 ^ 8) with 256. lia.
Qed.

Lemma mapM_id_Some {A} (l : list A) : mapM id (Some <$> l) = Some l.
Proof. induction l as [|a l IH]; [done|]. rewrite fmap_cons. cbn. by rewrite IH. Qed.

(** ** Loads and stores *)
Lemma in_blob_spec blob off n :
  in_blob blob off n = true <-> 0 <= off /\ off + Z.of_nat n <= Z.of_nat (length blob).
Proof. unfold in_blob. by rewrite andb_true_iff, !Z.leb_le. Qed.

Lemma store_inv blob off n v blob' :
  store blob off n v = Ok blob' ->
  (0 <= off /\ off + Z.of_nat n <= Z.of_nat (length blob)) /\
  blob' = take (Z.to_nat off) blob ++ (Some <$> le_bytes n v) ++ drop (Z.to_nat off + n) blob.
Proof.
  unfold store. destruct (in_blob _ _ _) eqn:E; [|done]. intros [= <-]. by apply in_blob_spec in E.
Qed.

Lemma length_store blob off n v blob' : store blob off n v = Ok blob' -> length blob' = length blob.
Proof.
  intros [? ->]%store_inv. rewrite !length_app, length_take, length_drop, length_fmap, length_le_bytes. lia.
Qed.

Lemma store_ok blob off n v :
  0 <= off -> off + Z.of_nat n <= Z.of_nat (length blob) -> exists blob', store blob off n v = Ok blob'.
Proof. intros. unfold store. rewrite (proj2 (in_blob_spec blob off n)) by done. by eexists. Qed.

Lemma load_store_same blob off n v blob' :
  store blob off n v = Ok blob' -> load blob' off n = Ok (v mod 2 ^ (8 * Z.of_nat n)).
Proof.
  intros Hs. pose proof (length_store _ _ _ _ _ Hs) as Hlen. apply store_inv in Hs as [Hb ->].
  unfold load. rewrite (proj2 (in_blob_spec _ _ _)) by (rewrite Hlen; done).
  rewrite (drop_app_length' (take _ blob)) by (rewrite length_take; lia).
  rewrite take_app_length' by (rewrite length_fmap, length_le_bytes; lia).
  rewrite mapM_id_Some. cbn. by rewrite le_combine_le_bytes.
Qed.

Lemma load_store_other blob off n v blob' off' n' :
  store blob off n v = Ok blob' ->
  (off' + Z.of_nat n' <= off \/ off + Z.of_nat n <= off') -> load blob' off' n' = load blob off' n'.
Proof.
  intros Hs Hd. pose proof (length_store _ _ _ _ _ Hs) as Hlen. apply store_inv in Hs as [Hb ->].
  unfold load. assert (forall b, length b = length blob -> in_blob b off' n' = in_blob blob off' n') as Hi
    by (intros ? E; unfold in_blob; by rewrite E).
  rewrite (Hi _ Hlen). destruct (in_blob blob off' n') eqn:E; [|done]. apply in_blob_spec in E.
  do 3 f_equal. apply list_eq; intros k.
  destruct (decide (k < n')%nat); [|by rewrite !lookup_take_ge by lia].
  rewrite !lookup_take_lt, !lookup_drop by lia.
  destruct Hd.
  - rewrite lookup_app_l by (rewrite length_take; lia). by rewrite lookup_take_lt by lia.
  - rewrite lookup_app_r by (rewrite length_take; lia).
    rewrite lookup_app_r by (rewrite length_take, length_fmap, length_le_bytes; lia).
    rewrite lookup_drop, length_take, length_fmap, length_le_bytes. f_equal. lia.
Qed.

(** ** Element counts and positions *)
Lemma numElements_spec s n :
  numElements s = Ok n -> Forall (fun d => 0 <= d) s /\ n = prod_z s /\ prod_z s <= int64_max.
Proof.
  unfold numElements. destruct (forallb _ s) eqn:E; [|done].
  assert (Forall (fun d => 0 <= d) s) as Hs.
  { apply Forall_forall. intros d Hd. rewrite list_elem_of_In in Hd.
    rewrite forallb_forall in E. specialize (E d Hd). lia. }
  intros H. split; [done|].
  enough (forall m, m <= int64_max -> foldM (fun d n => i64 (n * d)) s m = Ok n -> n = m * prod_z s /\ m * prod_z s <= int64_max) as K.
  { apply K in H; [|done]. by rewrite Z.mul_1_l in H. }
  clear H E. induction Hs as [|d s Hd Hs IH]; intros m Hm H; cbn [foldM] in H.
  - injection H as <-. unfold prod_z; cbn [foldr]. by rewrite Z.mul_1_r.
  - apply bind_ok in H as (m' & H' & H). apply i64_inv in H' as [-> Hb].
    apply IH in H as [-> H]; [|lia]. rewrite prod_z_cons. split; [ring|]. by rewrite Z.mul_assoc.
Qed.

Lemma numElements_pos s :
  Forall (fun d => 0 < d) s -> prod_z s <= int64_max -> numElements s = Ok (prod_z s).
Proof.
  intros Hs Hm. unfold numElements.
  assert (forallb (fun d => 0 <=? d) s = true) as ->.
  { apply forallb_forall. intros d Hd. rewrite <- list_elem_of_In in Hd.
    rewrite Forall_forall in Hs. specialize (Hs d Hd). lia. }
  enough (forall m, 0 < m -> m * prod_z s <= int64_max -> foldM (fun d n => i64 (n * d)) s m = Ok (m * prod_z s)) as K.
  { rewrite K by lia. by rewrite Z.mul_1_l. }
  clear Hm. induction Hs as [|d s Hd Hs IH]; intros m Hm H; cbn [foldM].
  - unfold prod_z; cbn [foldr]. by rewrite Z.mul_1_r.
  - rewrite prod_z_cons in *. pose proof (prod_z_pos s Hs).
    rewrite i64_ok by (unfold int64_min; nia). cbind. rewrite IH by nia. f_equal. ring.
Qed.

(** The suffix products that [strides] computes. *)
Fixpoint suffix_prods (s : Sizes) : list Z :=
  match s with [] => [] | _ :: ds => prod_z ds :: suffix_prods ds end.

Lemma strides_spec s :
  Forall (fun d => 0 < d) s -> prod_z s <= int64_max -> strides s = Ok (suffix_prods s).
Proof.
  induction 1 as [|d s Hd Hs IH]; intros Hm; [done|]. rewrite prod_z_cons in Hm.
  pose proof (prod_z_pos s Hs). cbn [strides suffix_prods]. destruct Hs as [|d' s Hd' Hs]; [done|].
  rewrite IH by nia. cbind. cbn [suffix_prods]. change (at_z (prod_z s :: ?l) 0) with (Ok (prod_z s)). cbind.
  rewrite prod_z_cons in *.
  rewrite i64_ok by (unfold int64_min; nia). cbind. by rewrite Z.mul_comm.
Qed.

Lemma flattenIndex_ok s i : in_bounds i s -> prod_z s <= int64_max -> flattenIndex s i = Ok (flat s i).
Proof.
  intros Hi Hm. unfold flattenIndex. rewrite (proj2 (inBounds_spec i s) Hi). cbn [negb].
  rewrite strides_spec by (by eauto with hlo). destruct s as [|d0 s0]; [by inversion Hi|].
  cbind. remember (d0 :: s0) as s eqn:Es. clear Es d0 s0.
  enough (forall acc, 0 <= acc -> acc + flat s i <= int64_max ->
    foldM (fun '(stride, x) idx => p ← i64 (stride * x); i64 (idx + p)) (zip (suffix_prods s) i) acc
    = Ok (acc + flat s i)) as K.
  { pose proof (flat_bounds _ _ Hi). rewrite K by lia. by rewrite Z.add_0_l. }
  clear Hm. induction Hi as [|x d i s Hx Hi IH]; intros acc Ha Hb; cbn [suffix_prods zip zip_with foldM flat] in *.
  - by rewrite Z.add_0_r.
  - pose proof (flat_bounds _ _ Hi). pose proof (in_bounds_prod_pos _ _ Hi).
    rewrite i64_ok by (unfold int64_min; nia). cbind. rewrite i64_ok by (unfold int64_min; nia). cbind.
    rewrite IH by nia. f_equal. ring.
Qed.

Lemma flattenIndex_err s i :
  ~ in_bounds i s -> flattenIndex s i = Err (Fatal "Incompatible index and shape found while flattening index").
Proof.
  intros Hi. unfold flattenIndex. destruct (inBounds i s) eqn:E; [|done].
  by apply inBounds_spec in E.
Qed.

(** ** Elements in memory *)
Section Codec.
Context {L : LLVM} {Laws : LLVMLaws L}.

(** The stores of one element: one value, or the two halves of a complex one. *)
Inductive layout (size : Z) : list (Z * nat * Z) -> Prop :=
| layout_one n v : size = Z.of_nat n -> layout size [(0, n, v)]
| layout_two n v1 v2 : size = 2 * Z.of_nat n -> layout size [(0, n, v1); (Z.of_nat n, n, v2)].

(** A reader that sees the stored values. *)
Definition reads (rd : Z -> nat -> result Z) (ws : list (Z * nat * Z)) : Prop :=
  Forall (fun '(o, n, v) => rd o n = Ok (v mod 2 ^ (8 * Z.of_nat n))) ws.

Lemma float_bits_range f w : float_width (getSemantics f) <= w ->
  uval (bitcastToAPInt f) mod 2 ^ w = uval (bitcastToAPInt f).
Proof.
  intros Hw. apply Z.mod_small. pose proof (uval_range (bitcastToAPInt f)) as Hu.
  rewrite width_bitcast in Hu.
  pose proof (Z.pow_le_mono_r 2 (float_width (getSemantics f)) w ltac:(lia) Hw). lia.
Qed.

Lemma apfloat_uval f : apfloat (getSemantics f) (apint (float_width (getSemantics f)) (uval (bitcastToAPInt f))) = f.
Proof.
  rewrite <- (width_bitcast f), apint_uval by (rewrite width_bitcast; apply Concrete.float_width_pos).
  apply apfloat_bitcast.
Qed.

Lemma apint_mod_mod w n z : 0 < w -> w <= n -> apint w (z mod 2 ^ n) = apint w z.
Proof.
  intros Hw Hn. apply apint_intro; [done|by rewrite width_apint|]. rewrite uval_apint by done.
  apply Z.mod_mod_divide. exists (2 ^ (n - w)). rewrite <- Z.pow_add_r by lia. f_equal. lia.
Qed.

Lemma apint_sval x : 0 < getBitWidth x -> apint (getBitWidth x) (sval x) = x.
Proof.
  intros H. transitivity (apint (getBitWidth x) (uval x)); [|by apply apint_uval].
  apply apint_intro; [done|by rewrite width_apint|]. rewrite uval_apint by done.
  unfold sval. rewrite <- (Z.mod_small (uval x) (2 ^ getBitWidth x)) at 1 by apply uval_range.
  by apply to_signed_mod.
Qed.

Lemma double_eta d : Double (double_bits d) = d.
Proof. by destruct d. Qed.

Lemma int_type_widths s w :
  int_type s w = true -> (w = 2 \/ w = 4 \/ w = 8 \/ w = 16 \/ w = 32 \/ w = 64) /\ (s = Signless \/ s = Unsigned).
Proof.
  unfold int_type, int_width. intros H. apply andb_true_iff in H as [H Hs].
  split; [lia | destruct s; auto; done].
Qed.

(** Writing an element and reading it back. *)
Lemma codec e :
  element_ok e -> exists ws size,
    write_element (getType e) e = Ok ws /\ getSizeInBytes (getType e) = Ok size /\
    0 < size <= 16 /\ layout size ws /\
    forall rd, reads rd ws -> read_element (getType e) rd = Ok e.
Proof.
  intros [(s & w & v & -> & Ht & Hw)|[(b & ->)|[(f & -> & Hf)|(re & im & -> & Hc & Hs)]]]%element_ok_cases;
    cbn [getType bool_el].
  - pose proof (getIntegerValue_ok s w v Ht) as Hg. pose proof (Element_int_ok s w v Ht Hw) as Hel.
    pose proof (apint_sval v ltac:(rewrite Hw; apply int_type_pos in Ht; lia)) as Hsv.
    pose proof (apint_uval v ltac:(rewrite Hw; apply int_type_pos in Ht; lia)) as Huv.
    rewrite Hw in Hsv, Huv.
    destruct (int_type_widths s w Ht) as [Hws [->| ->]];
      repeat destruct Hws as [Hws|Hws]; rewrite Hws in *; clear Hws; eexists _, _;
      (split; [cbn -[getIntegerValue]; rewrite Hg; reflexivity|]; split; [reflexivity|];
       split; [split; vm_compute; congruence|]; split; [apply layout_one; reflexivity|]; intros rd Hr; apply Forall_inv in Hr; cbn beta iota in Hr;
       cbn -[Element_int Z.pow Z.mul]; rewrite Hr; cbind;
       rewrite apint_mod_mod by lia;
       rewrite ?getSExtValue_spec, ?getZExtValue_spec by lia; rewrite ?Hsv, ?Huv; exact Hel).
  - exists [(0, 1%nat, if b then 1 else 0)], 1. split; [reflexivity|]. split; [reflexivity|].
    split; [lia|]. split; [by constructor|]. intros rd Hr. apply Forall_inv in Hr. cbn beta iota in Hr.
    cbn -[Element_bool Z.pow Z.mul]. rewrite Hr. by destruct b.
  - pose proof (getFloatValue_ok _ f Hf) as Hg.
    pose proof (Element_float_ok _ f Hf eq_refl) as Hel.
    pose proof (float_bits_range f) as Hr8. pose proof (apfloat_uval f) as Hu.
    pose proof (width_bitcast f) as Hwb.
    pose proof (of_to_float f) as Hof. pose proof (of_to_double f) as Hod.
    pose proof (to_float_range f) as Hrf. pose proof (to_double_range f) as Hrd.
    destruct (getSemantics f) eqn:Hk; try (cbn in Hf; discriminate Hf); eexists _, _;
      (split; [cbn -[getFloatValue]; rewrite Hg; reflexivity|]; split; [reflexivity|];
       split; [split; vm_compute; congruence|]; split; [apply layout_one; reflexivity|]; intros rd Hr; apply Forall_inv in Hr; cbn beta iota in Hr;
       cbn [float_width] in Hr8, Hu, Hwb; cbn -[Element_float Z.pow Z.mul]; rewrite Hr; cbind).
    all: first
      [ rewrite getZExtValue_spec, Hr8 by (rewrite ?Hwb; lia); rewrite Hu; exact Hel
      | rewrite Z.mod_small by exact Hrf; rewrite Hof by done; exact Hel
      | rewrite Z.mod_small by exact Hrd; rewrite double_eta, Hod by done; exact Hel ].
  - pose proof (getComplexValue_ok _ (re, im) Hc) as Hg.
    pose proof (Element_complex_ok _ re im Hc eq_refl Hs) as Hel.
    pose proof (to_float_range re) as Hr1. pose proof (to_float_range im) as Hi1.
    pose proof (to_double_range re) as Hr2. pose proof (to_double_range im) as Hi2.
    pose proof (of_to_float re) as Hof. pose proof (of_to_double re) as Hod.
    pose proof (of_to_float im) as Hof'. pose proof (of_to_double im) as Hod'. rewrite Hs in Hof', Hod'.
    destruct (getSemantics re) eqn:Hk; try (cbn in Hc; discriminate Hc); eexists _, _;
      (split; [cbn -[getComplexValue]; rewrite Hg; reflexivity|]; split; [reflexivity|];
       split; [split; vm_compute; congruence|]; split; [by apply layout_two|];
       intros rd Hr; pose proof (Forall_inv Hr) as Ha; pose proof (Forall_inv (Forall_inv_tail Hr)) as Hb;
       cbn beta iota in Ha, Hb; cbn in Ha, Hb;
       cbn -[Element_complex Z.pow Z.mul]; rewrite Ha; cbind; rewrite Hb; cbind).
    + rewrite !Z.mod_small, Hof, Hof' by done. exact Hel.
    + rewrite !Z.mod_small, !double_eta, Hod, Hod' by done. exact Hel.
Qed.

Lemma read_element_float k rd :
  isSupportedFloatType (FloatType k) = true ->
  read_element (FloatType k) rd =
  (v ← rd 0 (Z.to_nat (Z.max (float_width k) 8 / 8));
   Element_float (FloatType k)
     (match k with
      | Float32 => apfloat_of_float v
      | Float64 => apfloat_of_double (Double v)
      | _ => apfloat k (apint (float_width k) v)
      end)).
Proof. intros Hk. destruct k; try (cbn in Hk; discriminate Hk); reflexivity. Qed.

Lemma read_local t sz rd rd' :
  isSupportedType t = true -> getSizeInBytes t = Ok sz ->
  (forall o n, 0 <= o -> o + Z.of_nat n <= sz -> rd o n = rd' o n) ->
  read_element t rd = read_element t rd'.
Proof.
  intros Ht Hsz Hrd.
  destruct (isSupportedType_cases t Ht) as [(s & w & -> & Hi)|[->|[(k & -> & Hk)|[->| ->]]]].
  - destruct (int_type_widths s w Hi) as [Hws [->| ->]];
      repeat destruct Hws as [Hws|Hws]; subst w; vm_compute in Hsz; injection Hsz as <-;
      cbn -[Element_int]; rewrite Hrd by lia; reflexivity.
  - vm_compute in Hsz. injection Hsz as <-. cbn -[Element_bool]. rewrite Hrd by lia. reflexivity.
  - injection Hsz as <-. rewrite !read_element_float by done. rewrite Hrd; [done|done|].
    destruct k; done.
  - vm_compute in Hsz. injection Hsz as <-. cbn -[Element_complex].
    rewrite (Hrd 0), (Hrd 4) by lia. reflexivity.
  - vm_compute in Hsz. injection Hsz as <-.
    assert (forall rd, read_element (ComplexType (FloatType Float64)) rd =
      (re ← rd 0 8%nat; im ← rd 8 8%nat;
       Element_complex (ComplexType (FloatType Float64))
         (apfloat_of_double (Double re), apfloat_of_double (Double im)))) as E by reflexivity.
    rewrite !E, !Hrd by lia. reflexivity.
Qed.

(** ** Tensors as maps from indices to elements *)
Lemma tensor_size type n :
  getSizeInBytes (shaped_type type) = Ok n ->
  exists sz, getSizeInBytes (getElementType type) = Ok sz /\ n = prod_z (getShape type) * sz /\
    prod_z (getShape type) <= int64_max /\ prod_z (getShape type) * sz <= int64_max.
Proof.
  intros H. cbn [shaped_type getSizeInBytes] in H.
  apply bind_ok in H as (m & Hm & H). apply bind_ok in H as (sz & Hsz & H).
  apply numElements_spec in Hm as (_ & -> & Hmax). apply i64_inv in H as [-> Hb].
  exists sz. repeat split; auto; lia.
Qed.

Lemma supported_size t : isSupportedType t = true -> exists sz, getSizeInBytes t = Ok sz /\ 0 < sz <= 16.
Proof.
  intros Ht.
  destruct (isSupportedType_cases t Ht) as [(s & w & -> & Hi)|[->|[(k & -> & Hk)|[->| ->]]]].
  - destruct (int_type_widths s w Hi) as [Hws _]. repeat destruct Hws as [Hws|Hws]; subst w;
      (eexists; split; [reflexivity|split; vm_compute; congruence]).
  - exists 1. done.
  - destruct k; try (cbn in Hk; discriminate Hk); (eexists; split; [reflexivity|split; vm_compute; congruence]).
  - exists 8. done.
  - exists 16. done.
Qed.

Lemma tensor_ok_nonneg t : tensor_ok t -> Forall (fun d => 0 <= d) (getTensorShape t).
Proof. intros [(_ & H & _) _]. eapply Forall_impl; [exact H|cbn; lia]. Qed.

Lemma elementOffset_ok t i :
  tensor_ok t -> in_bounds i (getTensorShape t) ->
  exists sz, getSizeInBytes (getTensorElementType t) = Ok sz /\ 0 < sz <= 16 /\
    elementOffset t i = Ok (sz * flat (getTensorShape t) i) /\
    0 <= flat (getTensorShape t) i /\
    sz * flat (getTensorShape t) i + sz <= Z.of_nat (length (getData t)).
Proof.
  intros [(Ht & Hs & _) Hlen] Hi.
  destruct (tensor_size _ _ Hlen) as (sz & Hsz & Hn & Hm & Hm').
  destruct (supported_size _ Ht) as (sz' & Hsz' & Hpos). rewrite Hsz in Hsz'. injection Hsz' as <-.
  exists sz. split; [done|]. split; [done|].
  pose proof (flat_bounds _ _ Hi) as Hf. unfold getTensorShape in *.
  split; [|split; [lia|nia]].
  unfold elementOffset, getTensorElementType, getTensorShape. rewrite Hsz. cbind.
  rewrite flattenIndex_ok by done. cbind. apply i64_ok. unfold int64_min. nia.
Qed.

Lemma set_spec t i e :
  tensor_ok t -> in_bounds i (getTensorShape t) -> element_ok e -> getType e = getTensorElementType t ->
  exists t', set t i e = Ok t' /\ tensor_ok t' /\ getTensorType t' = getTensorType t /\
    get t' i = Ok e /\
    forall j, in_bounds j (getTensorShape t) -> j <> i -> get t' j = get t j.
Proof.
  intros Hok Hi He Hty.
  destruct (elementOffset_ok t i Hok Hi) as (sz & Hsz & Hpos & Hoff & Hf & Hb).
  destruct (codec e He) as (ws & size & Hws & Hsize & _ & Hlay & Hrd).
  rewrite Hty in *. rewrite Hsz in Hsize. injection Hsize as <-.
  set (off := sz * flat (getTensorShape t) i) in *.
  assert (exists blob', foldM (fun '(o, n, v) blob => store blob (off + o) n v) ws (getData t) = Ok blob' /\
    length blob' = length (getData t) /\
    reads (fun o n => load blob' (off + o) n) ws /\
    forall off' n', off' + Z.of_nat n' <= off \/ off + sz <= off' ->
      load blob' off' n' = load (getData t) off' n') as (blob' & Hfold & Hlen & Hr & Hfr).
  { assert (0 <= off) by nia. destruct Hlay as [n v Hn|n v1 v2 Hn]; cbn [foldM].
    - destruct (store_ok (getData t) (off + 0) n v) as [b Hst]; [lia|lia|].
      rewrite Hst. cbind. exists b. split; [done|]. split; [by eapply length_store|]. split.
      + repeat constructor. by eapply load_store_same.
      + intros. eapply load_store_other; [done|lia].
    - destruct (store_ok (getData t) (off + 0) n v1) as [b Hst]; [lia|lia|].
      rewrite Hst. cbind. pose proof (length_store _ _ _ _ _ Hst) as Hl.
      destruct (store_ok b (off + Z.of_nat n) n v2) as [b' Hst']; [lia|lia|].
      rewrite Hst'. cbind. exists b'. split; [done|].
      pose proof (length_store _ _ _ _ _ Hst') as Hl'. split; [congruence|]. split.
      + repeat constructor; [|by eapply load_store_same].
        erewrite load_store_other by (done || lia). by eapply load_store_same.
      + intros. erewrite load_store_other by (done || lia). eapply load_store_other; [done|lia]. }
  exists (MkTensor (getTensorType t) blob').
  assert (tensor_ok (MkTensor (getTensorType t) blob')) as Hok'.
  { destruct Hok as [? Hl]. split; [done|]. cbn [getTensorType getData]. by rewrite Hlen. }
  split; [unfold set; rewrite Hoff; cbind; rewrite Hws; cbind; rewrite Hfold; by cbind|].
  split; [done|]. split; [done|]. split.
  - destruct (elementOffset_ok _ i Hok' Hi) as (sz' & Hsz' & _ & Hoff' & _).
    change (getTensorElementType (MkTensor (getTensorType t) blob')) with (getTensorElementType t) in *.
    change (getTensorShape (MkTensor (getTensorType t) blob')) with (getTensorShape t) in *.
    rewrite Hsz in Hsz'. injection Hsz' as <-.
    unfold get. rewrite Hoff'. cbind. apply Hrd. exact Hr.
  - intros j Hj Hne.
    destruct (elementOffset_ok _ j Hok' Hj) as (sz' & Hsz' & _ & Hoff' & _).
    destruct (elementOffset_ok _ j Hok Hj) as (sz'' & Hsz'' & _ & Hoff'' & Hfj & _).
    change (getTensorElementType (MkTensor (getTensorType t) blob')) with (getTensorElementType t) in *.
    change (getTensorShape (MkTensor (getTensorType t) blob')) with (getTensorShape t) in *.
    rewrite Hsz in Hsz', Hsz''. injection Hsz' as <-. injection Hsz'' as <-.
    assert (flat (getTensorShape t) j <> flat (getTensorShape t) i) by (intros E; by apply flat_inj in E).
    unfold get. rewrite Hoff', Hoff''. cbind.
    change (getTensorElementType (MkTensor (getTensorType t) blob')) with (getTensorElementType t).
    apply read_local with sz; [by destruct Hok as [(? & _) _]|done|].
    intros o n Ho Hn. apply Hfr. unfold off. nia.
Qed.

(** ** Loops of writes *)
Lemma newTensor_ok type :
  shaped_ok type -> exists t, newTensor type = Ok t /\ tensor_ok t /\ getTensorType t = type.
Proof.
  intros H. pose proof H as (Ht & Hs & n & Hn). destruct (tensor_size _ _ Hn) as (sz & Hsz & Hn' & _ & _).
  destruct (supported_size _ Ht) as (sz' & Hsz' & Hpos). rewrite Hsz in Hsz'. injection Hsz' as <-.
  unfold newTensor. rewrite Hn. cbind. eexists; split; [done|]. split; [|done].
  split; [done|]. cbn [getTensorType getData]. rewrite length_replicate, Hn.
  assert (0 <= prod_z (getShape type)) by (apply prod_z_nonneg; eapply Forall_impl; [exact Hs|cbn; lia]).
  f_equal. nia.
Qed.

(** A fold whose steps write at most one element each: where all the writes to
    an index agree it holds their value, elsewhere it is unchanged. *)
Lemma foldM_set {X} (body : X -> Tensor -> result Tensor) (tgt : X -> option Index) (val : X -> Element)
    type l t :
  tensor_ok t -> getTensorType t = type ->
  (forall x t, x ∈ l -> tensor_ok t -> getTensorType t = type ->
     body x t = match tgt x with Some i => set t i (val x) | None => Ok t end) ->
  (forall x i, x ∈ l -> tgt x = Some i ->
     in_bounds i (getShape type) /\ element_ok (val x) /\ getType (val x) = getElementType type) ->
  exists t', foldM body l t = Ok t' /\ tensor_ok t' /\ getTensorType t' = type /\
    (forall x j, x ∈ l -> tgt x = Some j -> (forall y, y ∈ l -> tgt y = Some j -> val y = val x) ->
       get t' j = Ok (val x)) /\
    (forall j, in_bounds j (getShape type) -> (forall x, x ∈ l -> tgt x <> Some j) -> get t' j = get t j).
Proof.
  revert t. induction l as [|a l IH]; intros t Hok Hty Hbody Hval.
  - exists t. split; [done|]. split; [done|]. split; [done|]. split; [|done]. intros x j Hx. by apply not_elem_of_nil in Hx.
  - cbn [foldM]. rewrite Hbody by (done || left).
    assert (exists t1, match tgt a with Some i => set t i (val a) | None => Ok t end = Ok t1 /\
      tensor_ok t1 /\ getTensorType t1 = type /\
      (forall i, tgt a = Some i -> get t1 i = Ok (val a)) /\
      (forall j, in_bounds j (getShape type) -> tgt a <> Some j -> get t1 j = get t j))
      as (t1 & -> & Hok1 & Hty1 & Hhit & Hmiss).
    { destruct (tgt a) as [i|] eqn:Ha; [|by exists t].
      destruct (Hval a i) as (Hi & He & Het); [left|done|].
      destruct (set_spec t i (val a)) as (t1 & ? & ? & ? & ? & Hm);
        [done|unfold getTensorShape; by rewrite Hty|done|unfold getTensorElementType; by rewrite Hty|].
      exists t1. split; [done|]. split; [done|]. split; [congruence|]. split; [by intros ? [= <-]|].
      intros j Hj Hne. apply Hm; [unfold getTensorShape; by rewrite Hty|congruence]. }
    cbind. destruct (IH t1) as (t' & Hf & Hok' & Hty' & Hin & Hout); [done|done|..].
    + intros x t2 Hx. apply Hbody. by right.
    + intros x i Hx. apply Hval. by right.
    + exists t'. split; [done|]. split; [done|]. split; [done|]. split.
      * intros x j Hx Hj Hagree.
        destruct (decide (Exists (fun y => tgt y = Some j) l)) as [(y & Hy & Hyj)%Exists_exists|Hno].
        -- rewrite (Hin y j Hy Hyj); [by rewrite (Hagree y) by (done || by right)|].
           intros z Hz Hzj. by rewrite (Hagree z), (Hagree y) by (done || by right).
        -- apply elem_of_cons in Hx as [->|Hx]; [|exfalso; apply Hno, Exists_exists; by exists x].
           rewrite Hout; [by apply Hhit| |].
           ++ by apply (Hval a); [left|].
           ++ intros y Hy Hyj. apply Hno, Exists_exists. by exists y.
      * intros j Hj Hno. rewrite Hout; [|done|by intros x Hx; apply Hno; right].
        apply Hmiss; [done|]. apply Hno. left.
Qed.

(** [fn_val f i] is the element [f] gives at [i], when it gives one. *)
Definition fn_val (f : Index -> result Element) (i : Index) : Element :=
  match f i with Ok e => e | Err _ => bool_el false end.

Lemma tensor_of_full type f t : typed_fn type f -> tensor_of type f t -> tensor_full t.
Proof.
  intros Hf (Hok & Hty & Hg). split; [done|]. rewrite Hty. intros i Hi. rewrite Hg by done. by apply Hf.
Qed.

Lemma for_set_spec type f t :
  tensor_ok t -> getTensorType t = type -> typed_fn type f ->
  exists t', for_set f t = Ok t' /\ tensor_of type f t'.
Proof.
  intros Hok Hty Hf. unfold for_set, getTensorShape. rewrite Hty.
  assert (shape_ok (getShape type)) as Hs by (rewrite <- Hty; by destruct Hok as [(_ & ? & _) _]).
  rewrite for_index_foldM by done.
  destruct (foldM_set (fun i t => e ← f i; set t i e) Some (fn_val f) type (indices (getShape type)) t)
    as (t' & Hfold & Hok' & Hty' & Hin & _); [done|done|..].
  - intros i t1 Hi _ _. apply elem_of_indices in Hi. destruct (Hf i Hi) as (e & He & _).
    unfold fn_val. rewrite He. done.
  - intros x i Hx [= <-]. apply elem_of_indices in Hx. destruct (Hf x Hx) as (e & He & ? & ?).
    unfold fn_val. rewrite He. done.
  - exists t'. split; [done|]. split; [done|]. split; [done|]. intros i Hi.
    destruct (Hf i Hi) as (e & He & _).
    rewrite (Hin i i); [unfold fn_val; by rewrite He|by apply elem_of_indices|done|by intros y _ [= ->]].
Qed.

Lemma build_spec type f :
  shaped_ok type -> typed_fn type f -> exists t, build type f = Ok t /\ tensor_of type f t.
Proof.
  intros Hty Hf. destruct (newTensor_ok type Hty) as (t & Ht & Hok & Hty').
  unfold build. rewrite Ht. cbind. by apply for_set_spec.
Qed.
End Codec.
