(* ===== verification/Samples.v ===== *)
(** * Sample tensors

    A decision procedure for [tensor_full], and tensors of [ui8] over the
    concrete instance of the LLVM interface: the inputs of the witnesses. *)
From S2P Require Import Prelude Types Support Index Element ElementFacts Tensor TensorFacts.

Section Check.
Context `{L : LLVM}.

Definition element_check (e : Element) : bool :=
  match value_ e with
  | VInt v => isSupportedIntegerType (getType e) &&
              bool_decide (getIntOrFloatBitWidth (getType e) = Ok (getBitWidth v))
  | VBool _ => bool_decide (getType e = i1)
  | VFloat f => isSupportedFloatType (getType e) && bool_decide (getType e = FloatType (getSemantics f))
  | VComplex (re, im) => isSupportedComplexType (getType e) &&
      bool_decide (getType e = ComplexType (FloatType (getSemantics re))) &&
      bool_decide (getSemantics im = getSemantics re)
  end.

Lemma element_check_ok e : element_check e = true -> element_ok e.
Proof.
  unfold element_check, element_ok. destruct (value_ e) as [v|b|f|[re im]];
    rewrite ?andb_true_iff, ?bool_decide_eq_true; naive_solver.
Qed.

Definition shaped_check (type : ShapedType) : bool :=
  isSupportedType (getElementType type) &&
  forallb (fun d => (0 <=? d) && (d <=? int64_max)) (getShape type) &&
  match getSizeInBytes (shaped_type type) with Ok _ => true | Err _ => false end.

Lemma shaped_check_ok type : shaped_check type = true -> shaped_ok type.
Proof.
  unfold shaped_check, shaped_ok. rewrite !andb_true_iff. intros [[H1 H2] H3]. split; [done|]. split.
  - apply Forall_forall. intros d Hd. rewrite list_elem_of_In in Hd. rewrite forallb_forall in H2.
    specialize (H2 d Hd). lia.
  - destruct (getSizeInBytes _); [by eexists|done].
Qed.

Definition full_check (t : Tensor) : bool :=
  shaped_check (getTensorType t) &&
  bool_decide (getSizeInBytes (shaped_type (getTensorType t)) = Ok (Z.of_nat (length (getData t)))) &&
  forallb (fun i => match get t i with
                    | Ok e => element_check e && bool_decide (getType e = getTensorElementType t)
                    | Err _ => false
                    end) (indices (getTensorShape t)).

Lemma full_check_ok t : full_check t = true -> tensor_full t.
Proof.
  unfold full_check. rewrite !andb_true_iff, bool_decide_eq_true. intros [[H1 H2] H3].
  split; [by split; [apply shaped_check_ok|]|]. intros i Hi. rewrite forallb_forall in H3.
  apply elem_of_indices, list_elem_of_In in Hi. specialize (H3 i Hi).
  destruct (get t i) as [e|]; [|done]. rewrite andb_true_iff, bool_decide_eq_true in H3.
  destruct H3 as [He Ht]. exists e. split; [done|]. split; [by apply element_check_ok|done].
Qed.
End Check.

Import Concrete.

(** A tensor of unsigned bytes. *)
Definition ui8 : Ty := IntegerType Unsigned 8.
Definition bytes (shape : list Z) (data : list Z) : Tensor := MkTensor (shaped shape ui8) (Some <$> data).
Definition scalar (z : Z) : Tensor := bytes [] [z].

(** [2, 3, 4; 5, 6, 7] *)
Definition sample : Tensor := bytes [2; 3] [2; 3; 4; 5; 6; 7].

Ltac concrete := first [apply full_check_ok | apply shaped_check_ok | idtac]; vm_compute; reflexivity.
