(* ===== verification/Base.v ===== *)
(** * Dimensions and bounds

    [src/stablehlo/dialect/Base.cpp]: the rules that combine a dimension size
    and its bound, type compatibility for type inference, and the encoding of
    bounds.  A size or a bound that is not known statically is [kDynamic]. *)
From S2P Require Import Prelude Types.

(** [ShapedType::kDynamic] *)
Definition kDynamic : Z := int64_min.
Definition isDynamicDimSize (val : Z) : bool := val =? kDynamic.
Definition isStaticDimSize (val : Z) : bool := negb (isDynamicDimSize val).

(** [getElementTypeOrSelf] *)
Definition getElementTypeOrSelf (t : Ty) : Ty :=
  match t with RankedTensorType _ e _ | UnrankedTensorType e | MemRefType _ e _ _ => e | _ => t end.

(** A type that is a [UniformQuantizedPerAxisType]. *)
Definition isPerAxis (t : Ty) : bool :=
  match t with QuantizedType _ _ _ _ _ (Some _) _ _ => true | _ => false end.
Definition isPerTensor (t : Ty) : bool :=
  match t with QuantizedType _ _ _ _ _ None _ _ => true | _ => false end.

(** MLIR's [verifyCompatibleShape] on two shapes and on two types: equal ranks,
    and at each dimension equal sizes unless one is dynamic. *)
Definition compatibleShapes (shape1 shape2 : list Z) : bool :=
  bool_decide (length shape1 = length shape2) &&
  forallb (fun '(d1, d2) => isDynamicDimSize d1 || isDynamicDimSize d2 || (d1 =? d2)) (zip shape1 shape2).

Definition verifyCompatibleShape (type1 type2 : Ty) : bool :=
  match dyn_cast_shaped type1, dyn_cast_shaped type2 with
  | Some s1, Some s2 => compatibleShapes (getShape s1) (getShape s2)
  | None, None => true
  | _, _ => false
  end.

(** ** Bounds and encodings *)
Definition encodingToBounds (encoding : option Encoding) : list Z :=
  match encoding with Some (TypeExtensions bounds) => bounds | _ => [] end.

(** Creating the extensions of a dialect that has none is not modelled: the
    prototype of the code's callers is always StableHLO's own attribute. *)
Definition boundsToEncoding (prototype : option Encoding) (bounds : list Z) : result (option Encoding) :=
  match bounds with
  | [] => Ok prototype
  | _ =>
      if forallb isDynamicDimSize bounds then Ok None
      else match prototype with
           | None => Err (Fatal "Expect an prototype attribute")
           | Some (OtherEncoding _) => Err (UB "cast<HloDialectInterface>")
           | Some (TypeExtensions _) => Ok (Some (TypeExtensions bounds))
           end
  end.

Definition verifyBounds (bounds : list Z) (type : ShapedType) : result () :=
  let rank := getRank type in
  if negb (Z.of_nat (length bounds) =? rank) then Err (Failed "Bounds length")
  else foldM (fun dim (_ : ()) =>
      bound ← at_z bounds dim;
      dimSize ← at_z (getShape type) dim;
      if negb (bound =? kDynamic) && negb (dimSize =? kDynamic)
      then Err (Failed "Static dimension cannot have a bound") else Ok ())
    (seqZ 0 rank) ().

Definition verifyCompatibleShapeWithBounds (type1 type2 : Ty) : bool :=
  let isCompatible (shape : list Z) (encoding : option Encoding) :=
    match shape, encoding with
    | [], _ => true
    | _, Some (TypeExtensions bounds) =>
        forallb (fun '(dim_size, bound) => negb (negb (isDynamicDimSize bound) && (bound <? dim_size)))
          (zip shape bounds)
    | _, _ => true
    end in
  verifyCompatibleShape type1 type2 &&
  match dyn_cast_shaped type1, dyn_cast_shaped type2 with
  | Some t1, Some t2 =>
      isCompatible (getShape t1) (getEncoding t2) && isCompatible (getShape t2) (getEncoding t1)
  | _, _ => true
  end.

Definition isCompatibleElementTypeForHloTypeInference (tp1 tp2 : Ty) : bool :=
  let tp1 := getElementTypeOrSelf tp1 in
  let tp2 := getElementTypeOrSelf tp2 in
  match tp1, tp2 with
  | QuantizedType _ s1 lo1 hi1 e1 _ _ _, QuantizedType _ s2 lo2 hi2 e2 _ _ _ =>
      if negb (bool_decide (s1 = s2)) || negb (lo1 =? lo2) || negb (hi1 =? hi2) ||
         negb (bool_decide (e1 = e2)) then false
      else (isPerAxis tp1 && isPerAxis tp2) || (negb (isPerAxis tp1) && negb (isPerAxis tp2))
  | QuantizedType _ _ _ _ _ _ _ _, _ => false
  | _, QuantizedType _ _ _ _ _ _ _ _ => false
  | _, _ => bool_decide (tp1 = tp2)
  end.

Definition isCompatibleForHloTypeInference (tp1 tp2 : Ty) : bool :=
  match dyn_cast_shaped tp1, dyn_cast_shaped tp2 with
  | Some stp1, Some stp2 =>
      verifyCompatibleShapeWithBounds tp1 tp2 &&
      isCompatibleElementTypeForHloTypeInference (getElementType stp1) (getElementType stp2)
  | _, _ => isCompatibleElementTypeForHloTypeInference tp1 tp2
  end.

Definition isCompatibleRangesForHloTypeInference (tp1 tp2 : list Ty) : bool :=
  bool_decide (length tp1 = length tp2) &&
  forallb (fun '(lt, rt) => isCompatibleForHloTypeInference lt rt) (zip tp1 tp2).

Definition isCompatibleShapeForHloTypeInference (shape1 : list Z) (tp2 : Ty) : bool :=
  if existsb (fun x => x <? 0) shape1 then false
  else match dyn_cast_shaped tp2 with
       | None => false
       | Some stp2 => isCompatibleForHloTypeInference (RankedTensorType shape1 (getElementType stp2) None) tp2
       end.

Definition createRealType (type : ShapedType) : ShapedType :=
  let elementTy := match getElementType type with ComplexType t => t | t => t end in
  MkShaped (getShape type) elementTy (getEncoding type).

(** ** Combining a size and a bound *)
Definition inferConcatenatedDimAndBound (leftSize rightSize leftBound rightBound : Z) : result (Z * Z) :=
  let isLeftStaticDim := negb (isDynamicDimSize leftSize) in
  let isRightStaticDim := negb (isDynamicDimSize rightSize) in
  if isLeftStaticDim && isRightStaticDim then
    inferredSize ← i64 (leftSize + rightSize); Ok (inferredSize, kDynamic)
  else
    let leftSizeOrBound := if isLeftStaticDim then leftSize else leftBound in
    let rightSizeOrBound := if isRightStaticDim then rightSize else rightBound in
    if negb (isDynamicDimSize leftSizeOrBound) && negb (isDynamicDimSize rightSizeOrBound) then
      inferredBound ← i64 (leftSizeOrBound + rightSizeOrBound); Ok (kDynamic, inferredBound)
    else Ok (kDynamic, kDynamic).

Definition inferMostSpecificDimAndBound (dim leftSize rightSize leftBound rightBound : Z)
    : result (Z * Z) :=
  let isLeftStaticDim := negb (isDynamicDimSize leftSize) in
  let isRightStaticDim := negb (isDynamicDimSize rightSize) in
  let isLeftStaticBound := negb (isDynamicDimSize leftBound) in
  let isRightStaticBound := negb (isDynamicDimSize rightBound) in
  if isLeftStaticDim || isRightStaticDim then
    if isLeftStaticDim && isRightStaticDim && negb (leftSize =? rightSize)
    then Err (Failed "Mismatched dimension sizes")
    else
      let inferredSize := if isLeftStaticDim then leftSize else rightSize in
      if (isLeftStaticBound || isRightStaticBound) &&
         ((if isLeftStaticBound then leftBound else rightBound) <? inferredSize)
      then Err (Failed "Mismatched dimension size and bound")
      else Ok (inferredSize, kDynamic)
  else if isLeftStaticBound && isRightStaticBound then Ok (kDynamic, Z.min leftBound rightBound)
  else Ok (kDynamic, if isLeftStaticBound then leftBound else rightBound).

Definition inferLeastSpecificDimAndBound (dim leftSize rightSize leftBound rightBound : Z)
    : result (Z * Z) :=
  let isLeftStaticDim := negb (isDynamicDimSize leftSize) in
  let isRightStaticDim := negb (isDynamicDimSize rightSize) in
  let isLeftStaticBound := negb (isDynamicDimSize leftBound) in
  let isRightStaticBound := negb (isDynamicDimSize rightBound) in
  if isLeftStaticDim || isRightStaticDim then
    if isLeftStaticDim && isRightStaticDim then
      if negb (leftSize =? rightSize) then Err (Failed "Mismatched dimension sizes")
      else Ok (leftSize, kDynamic)
    else if isLeftStaticBound || isRightStaticBound then
      Ok (kDynamic, if isLeftStaticDim then Z.max leftSize rightBound else Z.max rightSize leftBound)
    else Ok (kDynamic, kDynamic)
  else if isLeftStaticBound && isRightStaticBound then Ok (kDynamic, Z.max leftBound rightBound)
  else Ok (kDynamic, kDynamic).

(** The inner loop of [inferTypeWithCustomFn], over the dimensions of one type. *)
Definition infer_dims (inferDimAndBoundFn : Z -> Z -> Z -> Z -> Z -> result (Z * Z)) (rank : Z)
    (shape bounds : list Z) (inferred : list Z * list Z) : result (list Z * list Z) :=
  foldM (fun dim '(inferredSizes, inferredBounds) =>
      leftSize ← at_z inferredSizes dim;
      rightSize ← at_z shape dim;
      leftBound ← at_z inferredBounds dim;
      rightBound ← (match bounds with [] => Ok kDynamic | _ => at_z bounds dim end);
      '(size, bound) ← inferDimAndBoundFn dim leftSize rightSize leftBound rightBound;
      inferredSizes ← set_z inferredSizes dim size;
      inferredBounds ← set_z inferredBounds dim bound;
      Ok (inferredSizes, inferredBounds))
    (seqZ 0 rank) inferred.

Definition inferTypeWithCustomFn (rankedTypes : list ShapedType)
    (inferDimAndBoundFn : Z -> Z -> Z -> Z -> Z -> result (Z * Z)) : result ShapedType :=
  t0 ← at_z rankedTypes 0;
  let rank := getRank t0 in
  if existsb (fun type => negb (getRank type =? rank)) rankedTypes then
    Err (Failed "Mismatched ranks of types")
  else
    let bounds := encodingToBounds (getEncoding t0) in
    let inferredBounds := match bounds with [] => replicate (Z.to_nat rank) kDynamic | _ => bounds end in
    let anyInputHaveBounds := match bounds with [] => false | _ => true end in
    '(sizes, inferredBounds) ← foldM (fun type inferred =>
        infer_dims inferDimAndBoundFn rank (getShape type) (encodingToBounds (getEncoding type)) inferred)
      (tail rankedTypes) (getShape t0, inferredBounds);
    encoding ← boundsToEncoding (getEncoding t0) (if anyInputHaveBounds : bool then inferredBounds else []);
    Ok (MkShaped sizes (getElementType t0) encoding).

Definition inferLeastSpecificShapedType (inputTypes : list Ty) : result Ty :=
  match find (fun t => match dyn_cast_shaped t with None => true | Some _ => false end) inputTypes with
  | Some t => Ok t
  | None => shaped_type <$> inferTypeWithCustomFn (omap dyn_cast_shaped inputTypes) inferLeastSpecificDimAndBound
  end.

Definition inferMostSpecificShapedType (inputTypes : list Ty) : result Ty :=
  match omap dyn_cast_shaped inputTypes with
  | [] => at_z inputTypes 0
  | rankedTypes => shaped_type <$> inferTypeWithCustomFn rankedTypes inferMostSpecificDimAndBound
  end.

(** ** The sizes a dimension allows *)

(** Sizes and bounds are [kDynamic] or non-negative, and a static size has no bound. *)
Definition dim_ok (size bound : Z) : Prop :=
  (size = kDynamic \/ 0 <= size <= int64_max) /\ (bound = kDynamic \/ 0 <= bound <= int64_max) /\
  (size = kDynamic \/ bound = kDynamic).

(** [allows size bound n]: [n] is a possible run-time size. *)
Definition allows (size bound n : Z) : Prop :=
  if isDynamicDimSize size then 0 <= n /\ (isDynamicDimSize bound = true \/ n <= bound) else n = size.

Lemma isDynamic_spec z : isDynamicDimSize z = true <-> z = kDynamic.
Proof. apply Z.eqb_eq. Qed.

Lemma isDynamic_nonneg z : 0 <= z -> isDynamicDimSize z = false.
Proof. intros. apply Z.eqb_neq. unfold kDynamic, int64_min. lia. Qed.

Lemma isDynamic_kDynamic : isDynamicDimSize kDynamic = true.
Proof. reflexivity. Qed.

Lemma dim_ok_cases s b :
  dim_ok s b ->
  (0 <= s <= int64_max /\ isDynamicDimSize s = false /\ b = kDynamic) \/
  (s = kDynamic /\ 0 <= b <= int64_max /\ isDynamicDimSize b = false) \/
  (s = kDynamic /\ b = kDynamic).
Proof.
  intros (Hs & Hb & Hsb). pose proof (isDynamic_nonneg s). pose proof (isDynamic_nonneg b).
  intuition (subst; auto with lia).
Qed.

Lemma dim_ok_static s : 0 <= s <= int64_max -> dim_ok s kDynamic.
Proof. unfold dim_ok. auto. Qed.

Lemma dim_ok_bound b : 0 <= b <= int64_max -> dim_ok kDynamic b.
Proof. unfold dim_ok. auto. Qed.

Lemma dim_ok_dynamic : dim_ok kDynamic kDynamic.
Proof. unfold dim_ok. auto. Qed.

#[local] Hint Resolve dim_ok_static dim_ok_bound dim_ok_dynamic : core.

Lemma allows_static s b n : isDynamicDimSize s = false -> allows s b n <-> n = s.
Proof. unfold allows. by intros ->. Qed.

Lemma allows_bound b n : isDynamicDimSize b = false -> allows kDynamic b n <-> 0 <= n <= b.
Proof. intros E. unfold allows. rewrite isDynamic_kDynamic, E. intuition (done || lia). Qed.

Lemma allows_dynamic n : allows kDynamic kDynamic n <-> 0 <= n.
Proof. unfold allows. rewrite isDynamic_kDynamic. intuition. Qed.

Ltac dim_rewrite :=
  repeat match goal with H : isDynamicDimSize _ = _ |- _ => rewrite !H end;
  rewrite ?isDynamic_kDynamic; cbn [negb andb orb].

Ltac dim_allows :=
  repeat match goal with
  | |- context [allows ?s ?b ?n] => first
      [ rewrite (allows_dynamic n)
      | rewrite (allows_bound b n) by (apply isDynamic_nonneg; lia)
      | rewrite (allows_static s b n) by (apply isDynamic_nonneg; lia) ]
  end.

(** Merging two dimensions by the most specific rule computes the
    intersection of the sizes they allow: on success the result is well formed
    and allows exactly the sizes both allow, and failure means that no size is
    allowed by both. *)
Theorem most_specific_is_intersection dim ls rs lb rb :
  dim_ok ls lb -> dim_ok rs rb ->
  match inferMostSpecificDimAndBound dim ls rs lb rb with
  | Ok (s, b) => dim_ok s b /\ forall n, allows s b n <-> allows ls lb n /\ allows rs rb n
  | Err (Failed _) => forall n, ~ (allows ls lb n /\ allows rs rb n)
  | Err _ => False
  end.
Proof.
  intros [(? & ? & ->)|[(-> & ? & ?)|(-> & ->)]]%dim_ok_cases
    [(? & ? & ->)|[(-> & ? & ?)|(-> & ->)]]%dim_ok_cases;
    unfold inferMostSpecificDimAndBound; dim_rewrite;
    repeat (case_match; cbn [negb andb orb] in *; try discriminate);
    simplify_eq; try (split; [auto with lia|]); intros n; dim_allows; lia.
Qed.

Lemma most_specific_is_intersection_witness :
  dim_ok kDynamic 7 /\ dim_ok 5 kDynamic /\
  inferMostSpecificDimAndBound 0 kDynamic 5 7 kDynamic = Ok (5, kDynamic) /\
  (forall n, allows 5 kDynamic n <-> allows kDynamic 7 n /\ allows 5 kDynamic n).
Proof.
  assert (dim_ok kDynamic 7) as H1 by (unfold dim_ok, int64_max; lia).
  assert (dim_ok 5 kDynamic) as H2 by (unfold dim_ok, int64_max; lia).
  split; [exact H1|]. split; [exact H2|]. split; [reflexivity|].
  exact (proj2 (most_specific_is_intersection 0 kDynamic 5 7 kDynamic H1 H2)).
Defined.

(** Merging two dimensions by the least specific rule, when it succeeds,
    allows every size either of them allows, whichever comes first; it fails
    only on two different static sizes. *)
Theorem least_specific_is_upper_bound dim ls rs lb rb :
  dim_ok ls lb -> dim_ok rs rb ->
  inferLeastSpecificDimAndBound dim ls rs lb rb = inferLeastSpecificDimAndBound dim rs ls rb lb /\
  match inferLeastSpecificDimAndBound dim ls rs lb rb with
  | Ok (s, b) => dim_ok s b /\ forall n, allows ls lb n \/ allows rs rb n -> allows s b n
  | Err (Failed _) => isDynamicDimSize ls = false /\ isDynamicDimSize rs = false /\ ls <> rs
  | Err _ => False
  end.
Proof.
  intros [(? & ? & ->)|[(-> & ? & ?)|(-> & ->)]]%dim_ok_cases
    [(? & ? & ->)|[(-> & ? & ?)|(-> & ->)]]%dim_ok_cases;
    unfold inferLeastSpecificDimAndBound; dim_rewrite;
    rewrite ?(Z.eqb_sym rs ls), ?(Z.max_comm rb lb);
    (split; [repeat case_match; f_equal; f_equal; lia|]);
    repeat (case_match; cbn [negb andb orb] in *; try discriminate);
    simplify_eq; try (split; [auto with lia|]); try (intros n; dim_allows); lia || auto with lia.
Qed.

Lemma least_specific_is_upper_bound_witness :
  dim_ok 3 kDynamic /\ dim_ok kDynamic 7 /\
  inferLeastSpecificDimAndBound 0 3 kDynamic kDynamic 7 = Ok (kDynamic, 7) /\
  (forall n, allows 3 kDynamic n \/ allows kDynamic 7 n -> allows kDynamic 7 n).
Proof.
  assert (dim_ok 3 kDynamic) as H1 by (unfold dim_ok, int64_max; lia).
  assert (dim_ok kDynamic 7) as H2 by (unfold dim_ok, int64_max; lia).
  split; [exact H1|]. split; [exact H2|]. split; [reflexivity|].
  exact (proj2 (proj2 (least_specific_is_upper_bound 0 3 kDynamic kDynamic 7 H1 H2))).
Defined.

(** Concatenating two dimensions gives a dimension that allows exactly the
    sums of the sizes they allow when both are static, and otherwise allows
    every such sum; it never fails, and the only fault is an overflow of
    [int64_t]. *)
Theorem concatenated_dimension_allows_sums ls rs lb rb :
  dim_ok ls lb -> dim_ok rs rb ->
  match inferConcatenatedDimAndBound ls rs lb rb with
  | Ok (s, b) => dim_ok s b /\
      (forall m n, allows ls lb m -> allows rs rb n -> allows s b (m + n)) /\
      (isDynamicDimSize s = false -> s = ls + rs)
  | Err e => e = UB "signed overflow"
  end.
Proof.
  intros [(? & ? & ->)|[(-> & ? & ?)|(-> & ->)]]%dim_ok_cases
    [(? & ? & ->)|[(-> & ? & ?)|(-> & ->)]]%dim_ok_cases;
    unfold inferConcatenatedDimAndBound; dim_rewrite; dim_rewrite;
    try match goal with |- context [i64 ?z] => destruct (i64 z) eqn:E; cbind; cbn beta iota;
          [apply i64_inv in E as [-> ?] | unfold i64 in E; case_match; by simplify_eq] end;
    cbn beta iota; (split; [auto with lia|]; split; [intros m n; dim_allows; lia|]);
    rewrite ?isDynamic_kDynamic; done.
Qed.

Lemma concatenated_dimension_allows_sums_witness :
  dim_ok 3 kDynamic /\ dim_ok kDynamic 7 /\
  inferConcatenatedDimAndBound 3 kDynamic kDynamic 7 = Ok (kDynamic, 10) /\
  (forall m n, allows 3 kDynamic m -> allows kDynamic 7 n -> allows kDynamic 10 (m + n)).
Proof.
  assert (dim_ok 3 kDynamic) as H1 by (unfold dim_ok, int64_max; lia).
  assert (dim_ok kDynamic 7) as H2 by (unfold dim_ok, int64_max; lia).
  split; [exact H1|]. split; [exact H2|]. split; [reflexivity|].
  exact (proj1 (proj2 (concatenated_dimension_allows_sums 3 kDynamic kDynamic 7 H1 H2))).
Defined.

(** The least specific type of two types depends on their order: the bounds
    of every type but the first are dropped, although the flag that decides it
    is named [anyInputHaveBounds] and the documented rule c2 gives the bound
    [max(X, B)] whichever operand has it. *)
Theorem least_specific_type_drops_later_bounds n b e :
  0 <= n <= int64_max -> 0 <= b <= int64_max ->
  let static := RankedTensorType [n] e None in
  let bounded := RankedTensorType [kDynamic] e (Some (TypeExtensions [b])) in
  inferLeastSpecificShapedType [bounded; static]
    = Ok (RankedTensorType [kDynamic] e (Some (TypeExtensions [Z.max n b]))) /\
  inferLeastSpecificShapedType [static; bounded] = Ok (RankedTensorType [kDynamic] e None).
Proof.
  intros Hn Hb static bounded.
  assert (isDynamicDimSize n = false) as En by (apply isDynamic_nonneg; lia).
  assert (isDynamicDimSize b = false) as Eb by (apply isDynamic_nonneg; lia).
  assert (inferLeastSpecificDimAndBound 0 kDynamic n b kDynamic = Ok (kDynamic, Z.max n b)) as E1
    by (unfold inferLeastSpecificDimAndBound; dim_rewrite; done).
  assert (inferLeastSpecificDimAndBound 0 n kDynamic kDynamic b = Ok (kDynamic, Z.max n b)) as E2
    by (unfold inferLeastSpecificDimAndBound; dim_rewrite; done).
  assert (isDynamicDimSize (Z.max n b) = false) as Em by (apply isDynamic_nonneg; lia).
  split; cbv -[inferLeastSpecificDimAndBound isDynamicDimSize kDynamic Z.max];
    rewrite ?E1, ?E2; cbv -[isDynamicDimSize kDynamic Z.max]; by rewrite ?Em.
Qed.

Lemma least_specific_type_drops_later_bounds_witness :
  inferLeastSpecificShapedType [RankedTensorType [4] i1 None; RankedTensorType [kDynamic] i1 (Some (TypeExtensions [5]))]
  = Ok (RankedTensorType [kDynamic] i1 None).
Proof.
  refine (proj2 (least_specific_type_drops_later_bounds 4 5 i1 _ _)); unfold int64_max; lia.
Defined.
