(* ===== verification/TypeInference.v ===== *)
(** * Type inference and verification

    [src/stablehlo/dialect/TypeInference.cpp]: the checks on dimension numbers,
    windows, replica groups, quantized types and reduction regions, and the
    shape functions of the operations the interpreter calls or is called after.
    A failed check is [Failed]; a type that [cast] requires to be a ranked
    tensor is a [ShapedType]. *)
From S2P Require Import Prelude Types Base.

(** ** Checks on dimension numbers *)
Definition ensure (b : bool) (msg : string) : result () := if b then Ok () else Err (Failed msg).

Fixpoint insert_all (nums : list Z) (seen : gset Z) : option (gset Z) :=
  match nums with
  | [] => Some seen
  | dim :: nums => if decide (dim ∈ seen) then None else insert_all nums ({[dim]} ∪ seen)
  end.

Definition isUnique (nums : list Z) : bool :=
  match insert_all nums ∅ with Some _ => true | None => false end.

Definition checkDimsDistinct (lhsDims rhsDims : list Z) : result () :=
  ensure (isUnique (lhsDims ++ rhsDims)) "has duplicated dimension".

Definition checkDimInBounds (dim upperBound : Z) (upperBoundInclusive : bool) : result () :=
  ensure (negb ((dim <? 0) || (upperBound + (if upperBoundInclusive then 1 else 0) <=? dim)))
    "Expects dim to be in range".

Definition checkDimsInBounds (dims : list Z) (upperBound : Z) : result () :=
  ensure (forallb (fun dim => negb ((dim <? 0) || (upperBound <=? dim))) dims)
    "Expects each element to be in range".

(** ** Element types *)
Definition tensorsHaveSameElType (types : list ShapedType) (ignoreFpPrecision : bool) : bool :=
  match types with
  | [] => true
  | t1 :: rest =>
      let tensorEl1 := getElementType t1 in
      forallb (fun t2 =>
        (ignoreFpPrecision && isa_FloatType tensorEl1 && isa_FloatType (getElementType t2)) ||
        bool_decide (tensorEl1 = getElementType t2)) rest
  end.

Fixpoint getBitWidth (type : Ty) : result Z :=
  match type with
  | ComplexType t => w ← getBitWidth t; Ok (2 * w)
  | QuantizedType _ storage _ _ _ _ _ _ => getBitWidth storage
  | _ => getIntOrFloatBitWidth type
  end.

(** The four instances of [matchesType], in the order [isPromotableElementType] tries them. *)
Definition matchesSomeType (a b : Ty) : bool :=
  (isa_IntegerType a && isa_IntegerType b) || (isa_FloatType a && isa_FloatType b) ||
  (isa_ComplexType a && isa_ComplexType b) ||
  match a, b with
  | QuantizedType _ _ _ _ e1 _ _ _, QuantizedType _ _ _ _ e2 _ _ _ => bool_decide (e1 = e2)
  | _, _ => false
  end.

Definition isPromotableElementType (type1 type2 : Ty) (ignoreFpPrecision : bool) : result bool :=
  match dyn_cast_shaped type1, dyn_cast_shaped type2 with
  | Some t1, Some t2 =>
      let tensorEl1 := getElementType t1 in
      let tensorEl2 := getElementType t2 in
      if negb (matchesSomeType tensorEl1 tensorEl2) then Ok false
      else if ignoreFpPrecision && isa_FloatType tensorEl1 then Ok true
      else w1 ← getBitWidth tensorEl1; w2 ← getBitWidth tensorEl2; Ok (w1 <=? w2)
  | _, _ => Ok false
  end.

Definition verifyCompatibleDims (dimSize1 dimSize2 : Z) : bool :=
  isDynamicDimSize dimSize1 || isDynamicDimSize dimSize2 || (dimSize1 =? dimSize2).

Definition compatibleShapeAndElementType (type1 type2 : ShapedType) (ignoreFpPrecision : bool) : bool :=
  compatibleShapes (getShape type1) (getShape type2) &&
  tensorsHaveSameElType [type1; type2] ignoreFpPrecision.

(** ** Quantized types *)
Definition isSameQuantPerAxisScaleZeroPoint (ty1 ty2 : Ty) : bool :=
  match getElementTypeOrSelf ty1, getElementTypeOrSelf ty2 with
  | QuantizedType _ _ _ _ _ (Some _) scales1 zeros1, QuantizedType _ _ _ _ _ (Some _) scales2 zeros2 =>
      (* As written: the sizes compared are both those of the first type. *)
      if negb (bool_decide (length scales1 = length scales1)) then false
      else forallb (fun '(lhs, rhs) => bool_decide (lhs = rhs)) (zip scales1 scales2) &&
           forallb (fun '(lhs, rhs) => lhs =? rhs) (zip zeros1 zeros2)
  | _, _ => false
  end.

Definition verifyQPerTensorScaleAndZeroPointConstraints (ty1 ty2 : Ty) : result () :=
  if isPerTensor (getElementTypeOrSelf ty1) && isPerTensor (getElementTypeOrSelf ty2) then
    ensure (bool_decide (getElementTypeOrSelf ty1 = getElementTypeOrSelf ty2))
      "expect same quantization scale and zero_point"
  else Ok ().

Definition verifyQPerAxisScaleAndZeroPointConstraints (ty1 ty2 : Ty) : result () :=
  if isPerAxis (getElementTypeOrSelf ty1) && isPerAxis (getElementTypeOrSelf ty2) then
    ensure (isSameQuantPerAxisScaleZeroPoint ty1 ty2) "expect same quantization scales and zero_points"
  else Ok ().

Definition storage_type (t : Ty) : option Ty :=
  match t with QuantizedType _ s _ _ _ _ _ _ => Some s | _ => None end.
Definition expressed_type (t : Ty) : option Ty :=
  match t with QuantizedType _ _ _ _ e _ _ _ => Some e | _ => None end.
Definition quantized_dimension (t : Ty) : option Z :=
  match t with QuantizedType _ _ _ _ _ d _ _ => d | _ => None end.

Definition verifyBinaryOpQuantizationConstraints (lhsType rhsType resultType : Ty) : result () :=
  let lhsType := getElementTypeOrSelf lhsType in
  let rhsType := getElementTypeOrSelf rhsType in
  let resultType := getElementTypeOrSelf resultType in
  _ ← ensure (isa_QuantizedType lhsType && isa_QuantizedType rhsType && isa_QuantizedType resultType)
        "expects all operands and results to be either quantized or non-quantized";
  _ ← ensure (bool_decide (storage_type lhsType = storage_type rhsType) &&
              bool_decide (storage_type lhsType = storage_type resultType))
        "mismatched operands and result quantization storage types";
  _ ← ensure (bool_decide (expressed_type lhsType = expressed_type rhsType) &&
              bool_decide (expressed_type lhsType = expressed_type resultType))
        "mismatched operands and result quantization expressed types";
  if isPerAxis lhsType || isPerAxis rhsType then
    _ ← ensure (isPerAxis resultType) "result is not per_axis quantized but lhs or rhs are";
    _ ← ensure (negb (isPerAxis lhsType) ||
                bool_decide (quantized_dimension resultType = quantized_dimension lhsType))
          "quantization_dimension of lhs and result are not same";
    ensure (negb (isPerAxis rhsType) ||
            bool_decide (quantized_dimension resultType = quantized_dimension rhsType))
      "quantization_dimension of rhs and result are not same"
  else ensure (negb (isPerAxis resultType))
         "result per_axis quantized but none from rhs and lhs are per_axis quantized".

Definition verifyConvolutionDotGeneralCommonQuantizationConstraints
    (lhsElementType rhsElementType resultElementType : Ty) : result () :=
  _ ← ensure (isa_QuantizedType rhsElementType &&
              Bool.eqb (isa_QuantizedType lhsElementType) (isa_QuantizedType resultElementType))
        "rhs should be quantized for quantized operations";
  if isa_QuantizedType lhsElementType then
    _ ← ensure (bool_decide (storage_type lhsElementType = storage_type rhsElementType))
          "mismatched lhs and rhs quantization storage types";
    _ ← ensure (bool_decide (expressed_type lhsElementType = expressed_type rhsElementType) &&
                bool_decide (expressed_type lhsElementType = expressed_type resultElementType))
          "mismatched lhs, rhs and result quantization expressed types";
    ensure (negb (isPerTensor rhsElementType && negb (isPerTensor resultElementType)))
      "mismatched rhs and result quantization granularity"
  else
    ensure (bool_decide (Some lhsElementType = expressed_type rhsElementType) &&
            bool_decide (lhsElementType = resultElementType))
      "mismatched rhs quantization expressed type and lhs and result element type".

(** The products before the quantized dimension, as written: each size is
    converted to [int32_t] and the product taken in [uint64_t]. *)
Definition to_int32 (z : Z) : Z := (z + 2 ^ 31) mod 2 ^ 32 - 2 ^ 31.
Definition prod_prefix (shape : list Z) (qdim : Z) : Z :=
  foldl (fun acc dimSize => (acc * to_int32 dimSize) mod 2 ^ 64) 1 (take (Z.to_nat qdim) shape).

Definition hasStaticShape (t : ShapedType) : bool := forallb isStaticDimSize (getShape t).

Definition verifyReshapeOpQuantizationConstraints (operandTy resultTy : ShapedType) : result () :=
  _ ← verifyQPerTensorScaleAndZeroPointConstraints (shaped_type operandTy) (shaped_type resultTy);
  _ ← verifyQPerAxisScaleAndZeroPointConstraints (shaped_type operandTy) (shaped_type resultTy);
  match quantized_dimension (getElementType operandTy), quantized_dimension (getElementType resultTy) with
  | Some operandQDim, Some resultQDim =>
      d1 ← at_z (getShape operandTy) operandQDim;
      d2 ← at_z (getShape resultTy) resultQDim;
      _ ← ensure (isDynamicDimSize d1 || isDynamicDimSize d2 || (d1 =? d2))
            "expect same quantization dimension size for operand and result";
      if hasStaticShape operandTy && hasStaticShape resultTy then
        ensure (prod_prefix (getShape operandTy) operandQDim =? prod_prefix (getShape resultTy) resultQDim)
          "product of dimensions before quantization dimension must match"
      else Ok ()
  | _, _ => Ok ()
  end.

Definition verifyBroadcastInDimOpQuantConstraints (operandType resultType : ShapedType)
    (broadcastDimensions : list Z) : result () :=
  match getElementType operandType, getElementType resultType with
  | QuantizedType _ _ _ _ _ (Some operandQDim) oscales ozeros,
    QuantizedType _ _ _ _ _ (Some resultQDim) rscales rzeros =>
      b ← at_z broadcastDimensions operandQDim;
      _ ← ensure (resultQDim =? b) "result quantization_dimension not same as broadcast_dimensions";
      d ← at_z (getShape operandType) operandQDim;
      if d =? 1 then
        n ← at_z (getShape resultType) resultQDim;
        foldM (fun i (_ : ()) =>
            rs ← at_z rscales i; os ← at_z oscales 0;
            _ ← ensure (bool_decide (rs = os)) "mismatch result scale";
            rz ← at_z rzeros i; oz ← at_z ozeros 0;
            ensure (rz =? oz) "mismatch result zero_point")
          (seqZ 0 n) ()
      else Ok ()
  | _, _ => Err (UB "cast<UniformQuantizedPerAxisType>")
  end.

(** ** Windows *)
Definition dilatedBound (bound dilation : Z) : result Z :=
  if bound <? 0 then Err (UB "assert: The dimension to dilate must be >= 0")
  else if bound =? 0 then Ok 0
  else p ← i64 ((bound - 1) * dilation); i64 (p + 1).

Definition stridedBound (bound windowSize stride : Z) : result Z :=
  if windowSize <? 0 then Err (UB "assert: Expected window size to be >= 0")
  else if bound <? 0 then Err (UB "assert: Expected bound to be >= 0")
  else if (bound =? 0) || (bound <? windowSize) then Ok 0
  else if stride =? 0 then Err (UB "division by zero")
  else i64 (Z.quot (bound - windowSize) stride + 1).

Record WindowDimension := MkWindow {
  size : Z; stride : Z; paddingLow : Z; paddingHigh : Z; windowDilation : Z; baseDilation : Z;
}.

Definition or_default {A} (l : list A) (i : Z) (d : A) : result A :=
  match l with [] => Ok d | _ => at_z l i end.

Definition verifyWindowAttributesAndInferWindowDimensions (windowDimensions windowStrides : list Z)
    (padding : list (Z * Z)) (lhsDilation rhsDilation : list Z) (windowReversal : list bool)
    : result (list WindowDimension) :=
  let verifySize (attrSize : nat) (attrName : string) :=
    ensure (bool_decide (attrSize = O) || bool_decide (attrSize = length windowDimensions)) attrName in
  _ ← verifySize (length windowStrides) "window-strides";
  _ ← verifySize (length lhsDilation) "base-dilation factors";
  _ ← verifySize (length rhsDilation) "window-dilation factors";
  _ ← verifySize (length padding) "padding-entries";
  _ ← verifySize (length windowReversal) "window-reversal";
  foldM (fun i window =>
      size ← at_z windowDimensions i;
      _ ← ensure (isDynamicDimSize size || (0 <? size)) "expects window to have positive value";
      stride ← or_default windowStrides i 1;
      _ ← ensure (0 <? stride) "expects window to have positive stride";
      baseDilation ← or_default lhsDilation i 1;
      _ ← ensure (0 <? baseDilation) "expects window to have positive base dilation factor";
      windowDilation ← or_default rhsDilation i 1;
      _ ← ensure (0 <? windowDilation) "expects window to have positive window dilation factor";
      '(low, high) ← or_default padding i (0, 0);
      Ok (window ++ [MkWindow size stride low high windowDilation baseDilation]))
    (seqZ 0 (Z.of_nat (length windowDimensions))) [].

Definition inferWindowOutputShape (baseShape : list Z) (window : list WindowDimension) : result (list Z) :=
  if negb (bool_decide (length baseShape = length window)) then
    Err (UB "assert: Size of window dimensions must match the size of base shape")
  else
    mapM (fun '(base, dim) =>
      if isDynamicDimSize base || isDynamicDimSize (size dim) then Ok kDynamic
      else
        dilatedBase ← dilatedBound base (baseDilation dim);
        p ← i64 (paddingLow dim + dilatedBase);
        paddedDilatedBase ← i64 (p + paddingHigh dim);
        dilatedWindow ← dilatedBound (size dim) (windowDilation dim);
        stridedBound paddedDilatedBase dilatedWindow (stride dim))
      (zip baseShape window).

(** ** Replica groups: a 2-D attribute, given by its shape and its values *)
Fixpoint see_replicas (allGroupsMustHaveSameSize : bool) (replicaIds : list Z) (seen : gset Z)
    : result (gset Z) :=
  match replicaIds with
  | [] => Ok seen
  | replicaId :: replicaIds =>
      if replicaId =? -1 then
        if negb allGroupsMustHaveSameSize then see_replicas allGroupsMustHaveSameSize replicaIds seen
        else Err (Failed "Invalid replica id -1")
      else if decide (replicaId ∈ seen) then Err (Failed "replica id seen more than once")
      else see_replicas allGroupsMustHaveSameSize replicaIds ({[replicaId]} ∪ seen)
  end.

(** [replica_groups]: a dense attribute, by its shape and its values, or another one,
    which is accepted as it is. *)
Definition verifyReplicaGroups (replicaGroups : option (list Z * list Z))
    (allGroupsMustHaveSameSize useGlobalDeviceIds : bool) (expectedGroupSize : option Z) : result () :=
  match replicaGroups with
  | None => Ok ()
  | Some ([d0; d1], replicaIds) =>
      n ← (if useGlobalDeviceIds then i64 (d0 * d1) else Ok 1);
      _ ← ensure (negb (n =? 0))
            "if `use_global_device_ids` is set, the replica groups cannot be empty";
      seen ← see_replicas allGroupsMustHaveSameSize replicaIds ∅;
      _ ← ensure (forallb (fun id => bool_decide (id ∈ seen)) (seqZ 0 (Z.of_nat (base.size seen))))
            "replica id not seen in replica groups";
      match expectedGroupSize with
      | Some expected =>
          if allGroupsMustHaveSameSize then
            ensure (negb ((d0 =? 0) || negb (Z.quot (Z.of_nat (length replicaIds)) d0 =? expected)))
              "group size of replica_groups must be"
          else Ok ()
      | None => Ok ()
      end
  | Some _ => Err (Failed "replica groups should be a rank 2 tensor")
  end.

(** ** Reductions: the signature of a region's block, if it has one *)
Record BlockSig := MkBlockSig { block_args : list Ty; block_terminator : option (list Ty) }.

Definition encoding_of_bounds (prototype : option Encoding) (bounds : list Z) : result (option Encoding) :=
  match bounds with [] => Ok None | _ => boundsToEncoding prototype bounds end.

Definition verifyReduceOpInputsAndInferShape (inputTypes : list ShapedType) (dimensions : list Z)
    : result (list Z * option Encoding) :=
  witnessType ← at_z inputTypes 0;
  _ ← ensure (forallb (fun t => compatibleShapes (getShape witnessType) (getShape t)) (tail inputTypes))
        "expects all inputs to have compatible shapes";
  dimensionsToReduceSet ← foldM (fun dimension set =>
      _ ← ensure (negb ((dimension <? 0) || (getRank witnessType <=? dimension))) "Out-of-bounds dimension";
      _ ← ensure (negb (bool_decide (dimension ∈ set))) "Duplicate reduction dimension";
      Ok ({[dimension]} ∪ set)) dimensions (∅ : gset Z);
  let inputBounds := encodingToBounds (getEncoding witnessType) in
  '(newDimensions, newBounds) ← foldM (fun inputIdx '(newDimensions, newBounds) =>
      if bool_decide (inputIdx ∈ dimensionsToReduceSet) then Ok (newDimensions, newBounds)
      else
        d ← at_z (getShape witnessType) inputIdx;
        newBounds ← (match inputBounds with
                     | [] => Ok newBounds
                     | _ => b ← at_z inputBounds inputIdx; Ok (newBounds ++ [b]) end);
        Ok (newDimensions ++ [d], newBounds))
    (seqZ 0 (getRank witnessType)) ([], []);
  encoding ← encoding_of_bounds (getEncoding witnessType) newBounds;
  Ok (newDimensions, encoding).

Definition cast_shaped (t : Ty) : result ShapedType :=
  match dyn_cast_shaped t with Some s => Ok s | None => Err (UB "cast<ShapedType>") end.

Definition getAccumulatorTypesOrInputTypes (region : option BlockSig) (inputTypes : list ShapedType)
    : result (list ShapedType) :=
  match region with
  | None => Ok inputTypes
  | Some block =>
      match block_terminator block with
      | Some types => mapM cast_shaped types
      | None => Err (UB "getTerminator")
      end
  end.

Definition inferReduceOp (inputTypes : list ShapedType) (dimensions : list Z) (body : option BlockSig)
    : result (list ShapedType) :=
  '(newDimensions, encoding) ← verifyReduceOpInputsAndInferShape inputTypes dimensions;
  accumulatorTypes ← getAccumulatorTypesOrInputTypes body inputTypes;
  mapM (fun inputIdx =>
      t ← at_z accumulatorTypes inputIdx;
      Ok (MkShaped newDimensions (getElementType t) encoding))
    (seqZ 0 (Z.of_nat (length inputTypes))).

(** The loop that looks for the argument's shape as a subsequence of the allowed dimensions. *)
Fixpoint match_dims (allowedDimensions argShape : list Z) : list Z :=
  match allowedDimensions, argShape with
  | [], _ | _, [] => argShape
  | a :: allowedDimensions, d :: rest =>
      if verifyCompatibleDims a d then match_dims allowedDimensions rest
      else match_dims allowedDimensions argShape
  end.

Definition verifyReducerShape (block : BlockSig) (inputTypes initValueTypes : list ShapedType)
    (allowedDimensions : list Z) : result () :=
  let numInputs := Z.of_nat (length inputTypes) in
  _ ← ensure (Z.of_nat (length (block_args block)) =? numInputs * 2)
        "Reduction-region must take a number of parameters";
  match block_terminator block with
  | None => Err (Failed "The reduction-region expected to have a terminator")
  | Some operands =>
      _ ← ensure (negb (bool_decide (operands = [])))
            "The reduction-region expected to return some value(s)";
      _ ← ensure (Z.of_nat (length operands) =? numInputs) "Reduction-region must produce tensors";
      accumulatorSubShapes ← mapM (fun t =>
          match dyn_cast_shaped t with
          | Some s => Ok s
          | None => Err (Failed "must produce tensor-typed result(s)") end) operands;
      foldM (fun inputIdx (_ : ()) =>
          acc ← at_z accumulatorSubShapes inputIdx;
          arg0 ← at_z (block_args block) inputIdx;
          arg1 ← at_z (block_args block) (numInputs + inputIdx);
          arg0 ← cast_shaped arg0;
          arg1 ← cast_shaped arg1;
          init ← at_z initValueTypes inputIdx;
          input ← at_z inputTypes inputIdx;
          _ ← ensure (compatibleShapeAndElementType acc arg0 false) "type of reduction-region's parameter";
          _ ← ensure (compatibleShapeAndElementType acc arg1 true) "type of reduction-region's parameter";
          _ ← ensure (compatibleShapes (getShape init) (getShape acc)) "shape of reduction-region's result type";
          b ← isPromotableElementType (shaped_type init) (shaped_type acc) true;
          _ ← ensure b "element-type of reduction-region's result type";
          b ← isPromotableElementType (shaped_type input) (shaped_type arg1) true;
          _ ← ensure b "element-type of reduction-region's argument";
          let argShape := getShape arg1 in
          _ ← ensure (bool_decide (length argShape <= length allowedDimensions)%nat)
                "rank of reduction-region's argument";
          ensure (bool_decide (match_dims allowedDimensions argShape = []))
            "shape of reduction-region's argument")
        (seqZ 0 numInputs) ()
  end.

(** ** Shape functions *)
Definition inferPadOp (inputType : ShapedType) (edgePaddingLow edgePaddingHigh interiorPadding : list Z)
    : result ShapedType :=
  let rank := getRank inputType in
  _ ← ensure (Z.of_nat (length edgePaddingLow) =? rank) "edge_padding_low length must match operand rank";
  let inputShape := getShape inputType in
  let inputBounds := encodingToBounds (getEncoding inputType) in
  '(resultShape, resultBounds) ← foldM (fun i '(resultShape, resultBounds) =>
      paddingLowVal ← at_z edgePaddingLow i;
      paddingHighVal ← at_z edgePaddingHigh i;
      paddingInteriorVal ← at_z interiorPadding i;
      _ ← ensure (0 <=? paddingInteriorVal) "Interior padding cannot be negative";
      d ← at_z inputShape i;
      b ← or_default inputBounds i kDynamic;
      let isStaticDim := negb (isDynamicDimSize d) in
      let isStaticBound := negb (isDynamicDimSize b) in
      if isStaticDim || isStaticBound then
        let operandSizeOrBound := if isStaticDim then d else b in
        s1 ← i64 (operandSizeOrBound + paddingLowVal);
        s2 ← i64 (s1 + paddingHighVal);
        m ← i64 (operandSizeOrBound - 1);
        p ← i64 (Z.max m 0 * paddingInteriorVal);
        resultSizeOrBound ← i64 (s2 + p);
        _ ← ensure (0 <=? resultSizeOrBound) "Padding result in negative size";
        if isStaticDim then
          resultShape ← set_z resultShape i resultSizeOrBound; Ok (resultShape, resultBounds)
        else
          resultBounds ← set_z resultBounds i resultSizeOrBound; Ok (resultShape, resultBounds)
      else Ok (resultShape, resultBounds))
    (seqZ 0 rank) (replicate (length inputShape) kDynamic, replicate (length inputBounds) kDynamic);
  encoding ← boundsToEncoding (getEncoding inputType) resultBounds;
  Ok (MkShaped resultShape (getElementType inputType) encoding).

Definition divideCeil (n d : Z) : Z := (n + d - 1) / d.

Definition inferSliceOp (rankedTy : ShapedType) (startIndices limitIndices strides : list Z)
    : result ShapedType :=
  let rank := getRank rankedTy in
  _ ← ensure (Z.of_nat (length startIndices) =? rank) "the number of elements in start_indices";
  let inputBounds := encodingToBounds (getEncoding rankedTy) in
  shape ← foldM (fun i shape =>
      start ← at_z startIndices i;
      _ ← ensure (0 <=? start) "negative start index";
      d ← at_z (getShape rankedTy) i;
      b ← or_default inputBounds i kDynamic;
      let isStaticDim := negb (isDynamicDimSize d) in
      let isStaticBound := negb (isDynamicDimSize b) in
      limit ← at_z limitIndices i;
      _ ← (if isStaticDim || isStaticBound then
             let operandSizeOrBound := if isStaticDim then d else b in
             ensure (limit <=? operandSizeOrBound) "limit index is larger than dimension size"
           else Ok ());
      _ ← ensure (start <=? limit) "start index is larger than limit index";
      stride ← at_z strides i;
      _ ← ensure (0 <? stride) "stride must be positive";
      set_z shape i (divideCeil (limit - start) stride))
    (seqZ 0 rank) (replicate (Z.to_nat rank) kDynamic);
  encoding ← boundsToEncoding (getEncoding rankedTy) (replicate (length inputBounds) kDynamic);
  Ok (MkShaped shape (getElementType rankedTy) encoding).

Definition inferTransposeOp (rankedTy : ShapedType) (permutation : list Z) : result ShapedType :=
  let rank := getRank rankedTy in
  _ ← ensure (Z.of_nat (length permutation) =? rank) "operand rank does not match permutation size";
  _ ← ensure (bool_decide (seqZ 0 rank ≡ₚ permutation)) "attribute permutation must be a permutation";
  let inputBounds := encodingToBounds (getEncoding rankedTy) in
  resultShape ← mapM (fun dim => at_z (getShape rankedTy) dim) permutation;
  resultBounds ← (match inputBounds with [] => Ok [] | _ => mapM (fun dim => at_z inputBounds dim) permutation end);
  encoding ← boundsToEncoding (getEncoding rankedTy) resultBounds;
  Ok (MkShaped resultShape (getElementType rankedTy) encoding).

Definition inferDynamicSliceOp (rankedOperandType : ShapedType) (startIndicesTypes : list ShapedType)
    (sliceSizes : list Z) : result ShapedType :=
  let numSliceSizes := Z.of_nat (length sliceSizes) in
  let numStartIndices := Z.of_nat (length startIndicesTypes) in
  _ ← ensure (numStartIndices =? numSliceSizes) "mismatched number of slice sizes and start indices";
  _ ← ensure (getRank rankedOperandType =? numStartIndices)
        "mismatched number of start indices and the rank of operand";
  _ ← ensure (tensorsHaveSameElType startIndicesTypes true) "start indices must have same element type";
  _ ← foldM (fun i (_ : ()) =>
      sliceSize ← at_z sliceSizes i;
      _ ← ensure (0 <=? sliceSize) "has negative size index to dynamic slice";
      dimSize ← at_z (getShape rankedOperandType) i;
      ensure (isDynamicDimSize dimSize || (sliceSize <=? dimSize)) "has slice size greater than dimension size")
    (seqZ 0 numSliceSizes) ();
  Ok (MkShaped sliceSizes (getElementType rankedOperandType) None).

Definition inferDynamicUpdateSliceOp (operandType updateType : ShapedType)
    (startIndicesTypes : list ShapedType) : result ShapedType :=
  _ ← ensure (getRank updateType =? getRank operandType) "update rank does not match operand rank";
  _ ← ensure (Z.of_nat (length startIndicesTypes) =? getRank operandType)
        "expects number of start_indices to match operand rank";
  _ ← ensure (tensorsHaveSameElType startIndicesTypes true) "start indices must have same element type";
  _ ← ensure (forallb (fun '(operandDim, updateDim) =>
        isDynamicDimSize updateDim ||
        (if isStaticDimSize operandDim then negb ((updateDim <? 0) || (operandDim <? updateDim))
         else negb (updateDim <? 0)))
        (zip (getShape operandType) (getShape updateType)))
        "expects size of update to be in range";
  Ok operandType.

Definition inferConcatenateOp (inputTypes : list ShapedType) (dimension : Z) : result ShapedType :=
  witnessType ← at_z inputTypes 0;
  let rank := getRank witnessType in
  _ ← ensure (negb (rank =? 0)) "rank-0 values cannot be concatenated";
  _ ← ensure (dimension <? rank) "dimension is out-of-bounds for input rank";
  _ ← foldM (fun type (_ : ()) =>
      _ ← ensure (getRank type =? rank) "operands do not match rank";
      ensure (forallb (fun d => (d =? dimension) ||
          match at_z (getShape witnessType) d, at_z (getShape type) d with
          | Ok a, Ok b => verifyCompatibleDims a b
          | _, _ => false
          end) (seqZ 0 rank)) "shapes of operands are not compatible at non-concat index")
    inputTypes ();
  inferredSizes ← set_z (replicate (Z.to_nat rank) kDynamic) dimension 0;
  '(inferredSizes, inferredBounds) ← foldM (fun type inferred =>
      infer_dims (fun dim leftSize rightSize leftBound rightBound =>
          if dim =? dimension then inferConcatenatedDimAndBound leftSize rightSize leftBound rightBound
          else inferMostSpecificDimAndBound dim leftSize rightSize leftBound rightBound)
        rank (getShape type) (encodingToBounds (getEncoding type)) inferred)
    inputTypes (inferredSizes, replicate (Z.to_nat rank) kDynamic);
  let anyInputHaveBounds :=
    existsb (fun type => match encodingToBounds (getEncoding type) with [] => false | _ => true end) inputTypes in
  let witnessEncoding := head (omap getEncoding inputTypes) in
  encoding ← boundsToEncoding witnessEncoding (if anyInputHaveBounds then inferredBounds else []);
  Ok (MkShaped inferredSizes (getElementType witnessType) encoding).

Definition verifyPrecisionConfig (precisionConfig : option (list Z)) : result () :=
  ensure (match precisionConfig with Some l => bool_decide (length l <= 2)%nat | None => true end)
    "expects precision config to be empty or have <= 2 elements".

Definition checkDotGeneralConstraints (lhsType rhsType : ShapedType)
    (lhsBatchingDimensions rhsBatchingDimensions lhsContractingDimensions rhsContractingDimensions : list Z)
    (precisionConfig : option (list Z)) : result () :=
  _ ← verifyPrecisionConfig precisionConfig;
  _ ← ensure (bool_decide (length lhsBatchingDimensions = length rhsBatchingDimensions))
        "lhs and rhs should have the same number of batching dimensions";
  _ ← ensure (bool_decide (length lhsContractingDimensions = length rhsContractingDimensions))
        "lhs and rhs should have the same number of contracting dimensions";
  _ ← checkDimsDistinct lhsBatchingDimensions lhsContractingDimensions;
  _ ← checkDimsDistinct rhsBatchingDimensions rhsContractingDimensions;
  let checkDimsInRange (rank : Z) (dims : list Z) :=
    ensure (forallb (fun i => (0 <=? i) && (i <? rank)) dims) "value is out of range" in
  _ ← checkDimsInRange (getRank lhsType) lhsBatchingDimensions;
  _ ← checkDimsInRange (getRank lhsType) lhsContractingDimensions;
  _ ← checkDimsInRange (getRank rhsType) rhsBatchingDimensions;
  _ ← checkDimsInRange (getRank rhsType) rhsContractingDimensions;
  let checkSizes (msg : string) := foldM (fun '(lhs, rhs) (_ : ()) =>
      a ← at_z (getShape lhsType) lhs;
      b ← at_z (getShape rhsType) rhs;
      ensure (verifyCompatibleDims a b) msg) in
  _ ← checkSizes "batching dimension sizes must match" (zip lhsBatchingDimensions rhsBatchingDimensions) ();
  checkSizes "contracting dimension sizes must match" (zip lhsContractingDimensions rhsContractingDimensions) ().

(** The dimensions in neither list, in order: the result dimensions of one side. *)
Definition result_dims (rank : Z) (batching contracting : list Z) : list Z :=
  filter (fun i => (i ∉ batching) /\ (i ∉ contracting)) (seqZ 0 rank).

Definition inferDotGeneralOp (lhsType rhsType : ShapedType)
    (lhsBatchingDimensions rhsBatchingDimensions lhsContractingDimensions rhsContractingDimensions : list Z)
    (precisionConfig : option (list Z)) : result (list Z * option Encoding) :=
  _ ← checkDotGeneralConstraints lhsType rhsType lhsBatchingDimensions rhsBatchingDimensions
        lhsContractingDimensions rhsContractingDimensions precisionConfig;
  let lhsBounds := encodingToBounds (getEncoding lhsType) in
  let rhsBounds := encodingToBounds (getEncoding rhsType) in
  batch ← mapM (fun '(i, (lhsDim, rhsDim)) =>
      lhsBound ← or_default lhsBounds lhsDim kDynamic;
      rhsBound ← or_default rhsBounds rhsDim kDynamic;
      a ← at_z (getShape lhsType) lhsDim;
      b ← at_z (getShape rhsType) rhsDim;
      inferMostSpecificDimAndBound i a b lhsBound rhsBound)
    (zip (seqZ 0 (Z.of_nat (length lhsBatchingDimensions))) (zip lhsBatchingDimensions rhsBatchingDimensions));
  let side (type : ShapedType) (bounds : list Z) := mapM (fun i =>
      d ← at_z (getShape type) i; b ← or_default bounds i kDynamic; Ok (d, b)) in
  lhs ← side lhsType lhsBounds (result_dims (getRank lhsType) lhsBatchingDimensions lhsContractingDimensions);
  rhs ← side rhsType rhsBounds (result_dims (getRank rhsType) rhsBatchingDimensions rhsContractingDimensions);
  let inferred := batch ++ lhs ++ rhs in
  let outputEncoding := match getEncoding lhsType with Some e => Some e | None => getEncoding rhsType end in
  boundsAttr ← boundsToEncoding outputEncoding inferred.*2;
  Ok (inferred.*1, boundsAttr).

(** ** Convolutions *)
Definition isFp8Type (t : Ty) : bool :=
  existsb (fun k => isF k t) [Float8E3M4; Float8E4M3; Float8E4M3FN; Float8E5M2; Float8E4M3FNUZ;
                              Float8E4M3B11FNUZ; Float8E5M2FNUZ; Float8E8M0FNU].

(** The dimension numbers and group counts of a convolution. *)
Record ConvDims := MkConvDims {
  inputBatchDimension : Z; inputFeatureDimension : Z; inputSpatialDimensions : list Z;
  kernelInputFeatureDimension : Z; kernelOutputFeatureDimension : Z; kernelSpatialDimensions : list Z;
  outputBatchDimension : Z; outputFeatureDimension : Z; outputSpatialDimensions : list Z;
}.

Definition isSpatialDimensionsValid (lhsType : ShapedType) (c : ConvDims) : result () :=
  let n := length (inputSpatialDimensions c) in
  _ ← ensure (bool_decide (n = length (kernelSpatialDimensions c)) &&
              bool_decide (n = length (outputSpatialDimensions c)))
        "expects the same size for input, kernel and output spatial-dimensions";
  let inputDimNums := inputBatchDimension c :: inputFeatureDimension c :: inputSpatialDimensions c in
  let windowDimNums :=
    kernelInputFeatureDimension c :: kernelOutputFeatureDimension c :: kernelSpatialDimensions c in
  let outputDimNums := outputBatchDimension c :: outputFeatureDimension c :: outputSpatialDimensions c in
  let inRange i := (0 <=? i) && (i <? getRank lhsType) in
  _ ← ensure (forallb inRange inputDimNums && forallb inRange windowDimNums && forallb inRange outputDimNums)
        "expects input, kernel, and output dimension-numbers to be in-range";
  _ ← ensure (isUnique inputDimNums) "expects input dimension-numbers to be unique";
  _ ← ensure (isUnique windowDimNums) "expects kernel dimension-numbers to be unique";
  ensure (isUnique outputDimNums) "expects output dimension-numbers to be unique".

Definition verifyConvolutionAttributes (lhsType rhsType : ShapedType) (c : ConvDims)
    (featureGroupCount batchGroupCount : Z) (precisionConfig : option (list Z)) : result () :=
  _ ← isSpatialDimensionsValid lhsType c;
  _ ← ensure (negb ((1 <? batchGroupCount) && (1 <? featureGroupCount)))
        "expects batch_group_count and feature_group_count not to be both greater than 1";
  inputFeatures ← at_z (getShape lhsType) (inputFeatureDimension c);
  inputBatch ← at_z (getShape lhsType) (inputBatchDimension c);
  kernelInputFeatures ← at_z (getShape rhsType) (kernelInputFeatureDimension c);
  kernelOutputFeatures ← at_z (getShape rhsType) (kernelOutputFeatureDimension c);
  let divisible (a b : Z) (msg : string) := r ← rem_z a b; ensure (r =? 0) msg in
  _ ← (if isDynamicDimSize inputBatch then Ok ()
       else divisible inputBatch batchGroupCount "expects input batch dimension to be divisible by batch_group_count");
  _ ← (if isDynamicDimSize inputFeatures then Ok ()
       else
         _ ← divisible inputFeatures featureGroupCount
               "expects input feature dimension to be a multiple of feature_group_count";
         if isDynamicDimSize kernelInputFeatures then Ok ()
         else
           q ← div_z inputFeatures featureGroupCount;
           ensure (q =? kernelInputFeatures)
             "expects input feature dimension / feature_group_count = kernel input feature dimension");
  _ ← (if isDynamicDimSize kernelOutputFeatures then Ok ()
       else
         _ ← divisible kernelOutputFeatures batchGroupCount
               "expects output feature dimension size to be a multiple of batch_group_count";
         divisible kernelOutputFeatures featureGroupCount
           "expects kernel output feature dimension to be divisible by feature_group_count");
  verifyPrecisionConfig precisionConfig.

(** A 2-D attribute of integers is given by its shape and its values. *)
Fixpoint pairs_of (l : list Z) : list (Z * Z) :=
  match l with
  | first :: second :: l => (first, second) :: pairs_of l
  | _ => []
  end.
Definition convertPaddingAttribute (optionalAttr : option (list Z * list Z)) : result (list (Z * Z)) :=
  match optionalAttr with
  | None => Ok []
  | Some (shape, values) =>
      _ ← ensure (bool_decide (length shape = 2%nat) && bool_decide (shape !! 1%nat = Some 2))
            "expects the shape of padding-attribute to be {N, 2}";
      Ok (pairs_of values)
  end.

Definition inferConvolutionOp (lhsType rhsType : ShapedType) (windowStrides : option (list Z))
    (padding : option (list Z * list Z)) (lhsDilation rhsDilation : option (list Z))
    (windowReversal : option (list bool)) (c : ConvDims) (featureGroupCount batchGroupCount : Z)
    (precisionConfig : option (list Z)) : result (list Z) :=
  let numDims := getRank lhsType in
  _ ← ensure (2 <=? numDims) "expects convolution arguments to have >= 2 dimensions";
  _ ← ensure (numDims =? getRank rhsType) "expects convolution arguments to have same number of dimensions";
  let lhsElt := getElementType lhsType in
  let rhsElt := getElementType rhsType in
  _ ← ensure (isa_QuantizedType lhsElt || isa_QuantizedType rhsElt ||
              isCompatibleForHloTypeInference lhsElt rhsElt || (isFp8Type lhsElt && isFp8Type rhsElt))
        "expects lhs and rhs to have compatible element type";
  _ ← verifyConvolutionAttributes lhsType rhsType c featureGroupCount batchGroupCount precisionConfig;
  _ ← ensure (numDims =? Z.of_nat (length (inputSpatialDimensions c)) + 2)
        "expects convolution arguments to have spatial dimensions + 2 dimensions";
  windowDimensions ← mapM (fun d => at_z (getShape rhsType) d) (kernelSpatialDimensions c);
  padding ← convertPaddingAttribute padding;
  window ← verifyWindowAttributesAndInferWindowDimensions windowDimensions (default [] windowStrides)
             padding (default [] lhsDilation) (default [] rhsDilation) (default [] windowReversal);
  inputSpatialDimVals ← mapM (fun d => at_z (getShape lhsType) d) (inputSpatialDimensions c);
  windowOutputShape ← inferWindowOutputShape inputSpatialDimVals window;
  outputDimensions ← foldM (fun i outputDimensions =>
      d ← at_z (outputSpatialDimensions c) i;
      s ← at_z windowOutputShape i;
      set_z outputDimensions d s)
    (seqZ 0 (Z.of_nat (length window))) (replicate (length (getShape lhsType)) kDynamic);
  inputBatch ← at_z (getShape lhsType) (inputBatchDimension c);
  kernelOutputFeatures ← at_z (getShape rhsType) (kernelOutputFeatureDimension c);
  batch ← (if isDynamicDimSize inputBatch then Ok kDynamic else div_z inputBatch batchGroupCount);
  outputDimensions ← set_z outputDimensions (outputBatchDimension c) batch;
  set_z outputDimensions (outputFeatureDimension c) kernelOutputFeatures.

(** ** Verifiers *)
Definition verifyBitcastConvertOp (operandType targetType : ShapedType) : result () :=
  let targetElt := getElementType targetType in
  let operandElt := getElementType operandType in
  _ ← ensure (Bool.eqb (isa_ComplexType targetElt) (isa_ComplexType operandElt))
        "cannot convert between real and complex types";
  targetEltBitWidth ← getBitWidth targetElt;
  operandEltBitWidth ← getBitWidth operandElt;
  let '(smallerEltShape, biggerEltShape) :=
    if operandEltBitWidth <? targetEltBitWidth then (getShape operandType, getShape targetType)
    else (getShape targetType, getShape operandType) in
  let smallerEltBitWidth := Z.min targetEltBitWidth operandEltBitWidth in
  let biggerEltBitWidth := Z.max targetEltBitWidth operandEltBitWidth in
  smallerEltPrefix ←
    (if negb (operandEltBitWidth =? targetEltBitWidth) then
       _ ← ensure (bool_decide (length smallerEltShape = S (length biggerEltShape)))
             "rank of smaller element type should be 1 more than rank of larger element type";
       match last smallerEltShape with
       | None => Err (UB "back of an empty shape")
       | Some b =>
           _ ← ensure (isDynamicDimSize b || (b * smallerEltBitWidth =? biggerEltBitWidth))
                 "requires compatible bit widths";
           Ok (take (length smallerEltShape - 1) smallerEltShape)
       end
     else Ok smallerEltShape);
  ensure (forallb (fun '(a, b) => verifyCompatibleDims a b) (zip smallerEltPrefix biggerEltShape))
    "operand and result shapes must match except for the innermost dimension".

Definition verifyBroadcastInDimOp (operandType : ShapedType) (broadcastDimensions : list Z)
    (resultType : ShapedType) : result () :=
  _ ← verifyQPerTensorScaleAndZeroPointConstraints (shaped_type operandType) (shaped_type resultType);
  _ ← ensure (Z.of_nat (length broadcastDimensions) =? getRank operandType)
        "broadcast_dimensions size does not match operand rank";
  _ ← ensure (isUnique broadcastDimensions) "broadcast_dimensions should not have duplicates";
  let resultRank := getRank resultType in
  _ ← foldM (fun i (_ : ()) =>
      dimIndex ← at_z broadcastDimensions i;
      _ ← ensure (negb ((dimIndex <? 0) || (resultRank <=? dimIndex)))
            "broadcast_dimensions contains invalid value";
      dimSize ← at_z (getShape operandType) i;
      if isDynamicDimSize dimSize then Ok ()
      else
        resultDimSize ← at_z (getShape resultType) dimIndex;
        ensure ((dimSize =? 1) || (dimSize =? resultDimSize))
          "size of operand dimension is not equal to 1 or size of result dimension")
    (seqZ 0 (Z.of_nat (length broadcastDimensions))) ();
  if isPerAxis (getElementType resultType) then
    verifyBroadcastInDimOpQuantConstraints operandType resultType broadcastDimensions
  else Ok ().

(** [getNumElements] of the two static types is the product of their sizes. *)
Definition verifyReshapeOp (operandTy resultTy : ShapedType) : result () :=
  if negb (hasStaticShape operandTy) || negb (hasStaticShape resultTy) then Ok ()
  else
    _ ← ensure (getNumElements resultTy =? getNumElements operandTy)
          "number of output elements doesn't match expected number of elements";
    if isa_QuantizedType (getElementType operandTy) || isa_QuantizedType (getElementType resultTy)
    then verifyReshapeOpQuantizationConstraints operandTy resultTy
    else Ok ().

Definition verifyReverseOp (operandTy : ShapedType) (dimensions : list Z) : result () :=
  _ ← ensure (bool_decide (base.size (list_to_set dimensions : gset Z) = length dimensions))
        "dimensions should be unique";
  foldM (fun dim (_ : ()) =>
      _ ← ensure (negb (dim <? 0)) "all dimensions should be non-negative";
      ensure (negb (getRank operandTy <=? dim)) "all dimensions should be between 0 and the rank")
    dimensions ().
