(* ===== verification/Inference.v ===== *)
(** * Type inference and verification, continued

    [src/stablehlo/dialect/TypeInference.cpp] and [Base.cpp]: the shape functions
    and verifiers of the operations that [TypeInference.v] leaves out.  An operand
    that may be a constant is given by its values, if [matchInts] finds any; a
    region by the signature of its block, if it is not empty; the attribute
    [replica_groups] by its shape and values, if it is a dense attribute. *)
From Stdlib Require Import Ascii.
From S2P Require Import Prelude Types Support Base TypeInference.

(** ** Helpers *)

(** [llvm::is_sorted] and [llvm::is_contained] *)
Definition is_sorted (l : list Z) : bool := forallb (fun '(a, b) => a <=? b) (zip l (tail l)).
Definition is_contained (x : Z) (l : list Z) : bool := bool_decide (x ∈ l).

(** [Type::isInteger(width)], of any signedness *)
Definition isInteger (t : Ty) (width : Z) : bool := match t with IntegerType _ w => w =? width | _ => false end.

(** A loop whose body only checks. *)
Definition check_each {A} (check : A -> result ()) (l : list A) : result () := foldM (fun a (_ : ()) => check a) l ().

Definition noneQuantized (typeRange : list Ty) : bool :=
  forallb (fun val => negb (isa_QuantizedType (getElementTypeOrSelf val))) typeRange.
Definition anyQuantized (typeRange : list Ty) : bool :=
  existsb (fun val => isa_QuantizedType (getElementTypeOrSelf val)) typeRange.

Definition getSameShapeTensorType (shapedType : ShapedType) (elementType : Ty) : ShapedType :=
  MkShaped (getShape shapedType) elementType (getEncoding shapedType).

Definition verifyPairwiseCompatibleShapes (values : list ShapedType) : bool :=
  forallb (fun type1 => forallb (fun type2 => compatibleShapes (getShape type1) (getShape type2)) values) values.

Definition getDimSize (type : ShapedType) (dim : Z) : result Z := at_z (getShape type) dim.
Definition isDynamicDim (type : ShapedType) (dim : Z) : result bool :=
  d ← getDimSize type dim; Ok (isDynamicDimSize d).

Definition verifyRegionNotEmpty (region : option BlockSig) : result () :=
  ensure (match region with Some _ => true | None => false end) "expect non-empty region".
Definition front (region : option BlockSig) : result BlockSig := ok_or region (UB "front of an empty region").
Definition getTerminator (block : BlockSig) : result (list Ty) := ok_or (block_terminator block) (UB "getTerminator").

Definition verifyDimInBounds (type : ShapedType) (dim : Z) : result () :=
  _ ← ensure (0 <=? dim) "requires non-negative dimension attribute";
  ensure (dim <? getRank type) "requires dimension attribute in range".

(** If the shape operand is constant, it must be compatible with the result. *)
Definition verifyShapeOperandIsCompatibleWithResultType (shapeOperand : option (list Z)) (resultType : ShapedType)
    : result () :=
  ensure (match shapeOperand with
          | Some shape => isCompatibleShapeForHloTypeInference shape (shaped_type resultType)
          | None => true
          end) "output shape is incompatible with return type of operation".

Definition verifyAddOp (lhsType rhsType resultType : Ty) : result () :=
  if anyQuantized [lhsType; rhsType; resultType] then
    verifyBinaryOpQuantizationConstraints lhsType rhsType resultType
  else
    ensure (bool_decide (getElementTypeOrSelf lhsType = getElementTypeOrSelf rhsType) &&
            bool_decide (getElementTypeOrSelf lhsType = getElementTypeOrSelf resultType))
      "op requires the same element type for all operands and results".

Definition verifyTransposeOp (operandType : Ty) (permutation : list Z) (resultType : Ty) : result () :=
  _ ← verifyQPerTensorScaleAndZeroPointConstraints operandType resultType;
  _ ← verifyQPerAxisScaleAndZeroPointConstraints operandType resultType;
  match quantized_dimension (getElementTypeOrSelf resultType) with
  | None => Ok ()
  | Some resultQDim =>
      operandQDim ← ok_or (quantized_dimension (getElementTypeOrSelf operandType)) (UB "cast<UniformQuantizedPerAxisType>");
      p ← at_z permutation resultQDim;
      ensure (operandQDim =? p) "operand quantization_dimension is not same as permutation"
  end.

(** ** Batch normalisation *)
Definition verifyBatchNorm (multiDimOperands singleDimOperands : list ShapedType) (featureIndex : Z) : result () :=
  _ ← ensure (verifyPairwiseCompatibleShapes multiDimOperands) "expects multi-dimensional operands to have compatible shapes";
  _ ← ensure (verifyPairwiseCompatibleShapes singleDimOperands) "expects single-dimensional operands to have compatible shapes";
  multiDimType ← at_z multiDimOperands 0;
  _ ← ensure (featureIndex <? getRank multiDimType) "expects featureIndex to be smaller than the rank";
  featureCount ← getDimSize multiDimType featureIndex;
  singleDimType ← at_z singleDimOperands 0;
  singleDimSize ← getDimSize singleDimType 0;
  ensure (verifyCompatibleDims singleDimSize featureCount)
    "expects the size of single-dimensional operands to be compatible with feature count".

Definition inferBatchNormOp (multiDimOperands singleDimOperands : list ShapedType) (featureIndex : Z)
    (is_inference : bool) : result (list ShapedType) :=
  _ ← verifyBatchNorm multiDimOperands singleDimOperands featureIndex;
  multiDimType ← at_z multiDimOperands 0;
  if is_inference then Ok [multiDimType]
  else
    d ← getDimSize multiDimType featureIndex;
    encoding ← (match encodingToBounds (getEncoding multiDimType) with
                | [] => Ok None
                | multiDimBounds => b ← at_z multiDimBounds featureIndex; boundsToEncoding (getEncoding multiDimType) [b]
                end);
    let singleDimReturnShape := MkShaped [d] (getElementType multiDimType) encoding in
    Ok [multiDimType; singleDimReturnShape; singleDimReturnShape].

Definition inferBatchNormGradOp (operand scale mean variance gradOutput : ShapedType) (featureIndex : Z) :=
  inferBatchNormOp [operand; gradOutput] [scale; mean; variance] featureIndex false.
Definition inferBatchNormInferenceOp (operand scale offset mean variance : ShapedType) (featureIndex : Z) :=
  inferBatchNormOp [operand] [scale; offset; mean; variance] featureIndex true.
Definition inferBatchNormTrainingOp (operand scale offset : ShapedType) (featureIndex : Z) :=
  inferBatchNormOp [operand] [scale; offset] featureIndex false.

(** ** Windows of reductions *)
Definition verifyReduceWindowOpInputsAndInferWindow (inputTypes : list ShapedType) (windowDimensions : list Z)
    (windowStrides baseDilations windowDilations : option (list Z)) (padding : option (list Z * list Z))
    : result (list Z * list WindowDimension) :=
  _ ← ensure (negb (bool_decide (inputTypes = []))) "requires at least 1 input value";
  witnessType ← at_z inputTypes 0;
  _ ← ensure (forallb (fun t => compatibleShapes (getShape witnessType) (getShape t)) (tail inputTypes))
        "expects all inputs to have compatible shapes";
  padding ← convertPaddingAttribute padding;
  _ ← ensure (forallb (fun t => getRank t =? Z.of_nat (length windowDimensions)) inputTypes)
        "expects window-dimensions size == input rank";
  window ← verifyWindowAttributesAndInferWindowDimensions windowDimensions (default [] windowStrides) padding
             (default [] baseDilations) (default [] windowDilations) [];
  Ok (windowDimensions, window).

Definition inferReduceWindowOp (inputTypes : list ShapedType) (windowDimensions : list Z)
    (windowStrides baseDilations windowDilations : option (list Z)) (padding : option (list Z * list Z))
    (body : option BlockSig) : result (list ShapedType) :=
  '(_, inferredWindow) ← verifyReduceWindowOpInputsAndInferWindow inputTypes windowDimensions windowStrides
                           baseDilations windowDilations padding;
  accumulatorTypes ← getAccumulatorTypesOrInputTypes body inputTypes;
  mapM (fun '(i, inputType) =>
      resultShape ← inferWindowOutputShape (getShape inputType) inferredWindow;
      accumulatorType ← at_z accumulatorTypes i;
      match encodingToBounds (getEncoding inputType) with
      | [] => Ok (MkShaped resultShape (getElementType accumulatorType) None)
      | inputBounds =>
          resultBounds ← inferWindowOutputShape inputBounds inferredWindow;
          encoding ← boundsToEncoding (getEncoding inputType) resultBounds;
          Ok (MkShaped resultShape (getElementType accumulatorType) encoding)
      end) (enumerate inputTypes).

Definition verifyReduceWindowOp (inputTypes initValueTypes : list ShapedType) (windowDimensions : list Z)
    (windowStrides baseDilations windowDilations : option (list Z)) (padding : option (list Z * list Z))
    (body : option BlockSig) : result () :=
  '(windowDims, _) ← verifyReduceWindowOpInputsAndInferWindow inputTypes windowDimensions windowStrides
                       baseDilations windowDilations padding;
  block ← front body;
  verifyReducerShape block inputTypes initValueTypes windowDims.

Definition verifyReduceOp (inputTypes initValueTypes : list ShapedType) (dimensions : list Z)
    (body : option BlockSig) : result () :=
  '(newDimensions, _) ← verifyReduceOpInputsAndInferShape inputTypes dimensions;
  block ← front body;
  verifyReducerShape block inputTypes initValueTypes newDimensions.

(** ** Gathers *)

(** Each dimension of the operand and of the indices that are paired has a compatible size. *)
Definition check_batching (operandShape startIndicesShape : list Z) (operandDims startIndicesDims : list Z) : result () :=
  check_each (fun '(operandDim, startIndicesDim) =>
      operandDimSize ← at_z operandShape operandDim;
      startIndicesDimSize ← at_z startIndicesShape startIndicesDim;
      ensure (verifyCompatibleDims operandDimSize startIndicesDimSize) "batching dimensions must have compatible sizes")
    (zip operandDims startIndicesDims).

Definition verifyGather (operandShape startIndicesShape sliceSizesShape : ShapedType)
    (offsetDims collapsedSliceDims operandBatchingDims startIndicesBatchingDims startIndexMap : list Z)
    (indexVectorDim : Z) : result () :=
  let impliedOperandRank :=
    Z.of_nat (length offsetDims + length collapsedSliceDims + length operandBatchingDims) in
  _ ← ensure (getRank operandShape =? impliedOperandRank) "is not equal to operand rank";
  _ ← checkDimInBounds indexVectorDim (getRank startIndicesShape) true;
  let impliedTrailingDim := indexVectorDim =? getRank startIndicesShape in
  _ ← (effectiveDimSize ← (if impliedTrailingDim then Ok 1 else getDimSize startIndicesShape indexVectorDim);
       ensure ((negb impliedTrailingDim && isDynamicDimSize effectiveDimSize) ||
               (effectiveDimSize =? Z.of_nat (length startIndexMap)))
         "start_index_map size is not equal to size of index dimension of start_indices");
  _ ← ensure (is_sorted offsetDims) "expects offset_dims to be sorted";
  _ ← ensure (isUnique offsetDims) "expects offset_dims to not repeat";
  _ ← checkDimsDistinct collapsedSliceDims operandBatchingDims;
  _ ← ensure (is_sorted collapsedSliceDims) "expects collapsed_slice_dims to be sorted";
  _ ← checkDimsInBounds collapsedSliceDims (getRank operandShape);
  _ ← ensure (is_sorted operandBatchingDims) "expects operand_batching_dims to be sorted";
  _ ← checkDimsInBounds operandBatchingDims (getRank operandShape);
  _ ← ensure (isUnique startIndicesBatchingDims) "expects start_indices_batching_dims to not repeat";
  _ ← checkDimsInBounds startIndicesBatchingDims (getRank startIndicesShape);
  _ ← ensure (negb (is_contained indexVectorDim startIndicesBatchingDims))
        "expects start_indices_batching_dims not to include index_vector_dim";
  _ ← ensure (bool_decide (length operandBatchingDims = length startIndicesBatchingDims))
        "operand_batching_dims and start_indices_batching_dims should have the same size";
  _ ← check_batching (getShape operandShape) (getShape startIndicesShape) operandBatchingDims startIndicesBatchingDims;
  _ ← checkDimsDistinct startIndexMap operandBatchingDims;
  _ ← checkDimsInBounds startIndexMap (getRank operandShape);
  _ ← ensure (getRank sliceSizesShape =? 1) "slice_sizes.rank != 1";
  sliceSize ← (if hasStaticShape sliceSizesShape then Ok (getNumElements sliceSizesShape)
               else Err (UB "assert: getNumElements of a dynamic shape"));
  ensure (sliceSize =? getRank operandShape) "slice_sizes size not equal to operand rank".

(** [std::max_element], or -1 for an empty range *)
Definition max_dim (l : list Z) : Z := match l with [] => -1 | x :: l => foldl Z.max x l end.

Definition inferGatherShape {A} (resultRank : Z) (getStartIndicesDim getSliceDim : Z -> result A)
    (offsetDims collapsedSliceDims operandBatchingDims : list Z) (indexVectorDim : Z) : result (list A) :=
  let collapsedAndBatchDims := collapsedSliceDims ++ operandBatchingDims in
  let maxOperandDim := max_dim collapsedAndBatchDims in
  adjustedSliceSizePrefix ← foldM (fun dimIndex adjustedSliceSizePrefix =>
      if is_contained dimIndex collapsedAndBatchDims then Ok adjustedSliceSizePrefix
      else d ← getSliceDim dimIndex; Ok (adjustedSliceSizePrefix ++ [d]))
    (seqZ 0 (maxOperandDim + 1)) [];
  let getAdjustedSliceDim (index : Z) :=
    if index <? Z.of_nat (length adjustedSliceSizePrefix) then at_z adjustedSliceSizePrefix index
    else getSliceDim (index + Z.of_nat (length collapsedSliceDims) + Z.of_nat (length operandBatchingDims)) in
  let batchDims := filter (fun dim => dim ∉ offsetDims) (seqZ 0 resultRank) in
  mapM (fun i =>
      match find_pos i offsetDims with
      | Some index => getAdjustedSliceDim index
      | None =>
          match find_pos i batchDims with
          | None => Err (UB "assert: batchDimsIt != batchDims.end()")
          | Some index => getStartIndicesDim (if indexVectorDim <=? index then index + 1 else index)
          end
      end) (seqZ 0 resultRank).

Definition inferGatherReturnTypeComponents (operandShape startIndices : ShapedType) (getSliceDim : Z -> result Z)
    (offsetDims collapsedSliceDims operandBatchingDims : list Z) (indexVectorDim : Z) : result ShapedType :=
  let startIndicesRank :=
    if indexVectorDim =? getRank startIndices then getRank startIndices + 1 else getRank startIndices in
  let resultRank := Z.of_nat (length offsetDims) + startIndicesRank - 1 in
  _ ← checkDimsInBounds offsetDims resultRank;
  shape ← inferGatherShape resultRank (getDimSize startIndices) getSliceDim offsetDims collapsedSliceDims
            operandBatchingDims indexVectorDim;
  let encoding := getEncoding startIndices in
  let inferredBounds := replicate (Z.to_nat resultRank) kDynamic in
  inferredBounds ←
    match encodingToBounds encoding with
    | [] => Ok inferredBounds
    | startIndicesBounds =>
        '(inferredBounds, _) ← foldM (fun resultDim '(inferredBounds, startIndicesDim) =>
            if is_contained resultDim offsetDims then Ok (inferredBounds, startIndicesDim)
            else
              let startIndicesDim := if startIndicesDim =? indexVectorDim then startIndicesDim + 1 else startIndicesDim in
              b ← at_z startIndicesBounds startIndicesDim;
              inferredBounds ← set_z inferredBounds resultDim b;
              Ok (inferredBounds, startIndicesDim + 1))
          (seqZ 0 resultRank) (inferredBounds, 0);
        Ok inferredBounds
    end;
  encoding ← boundsToEncoding encoding inferredBounds;
  Ok (MkShaped shape (getElementType operandShape) encoding).

Definition checkSliceSizesOne (sliceSizes dims : list Z) : result () :=
  check_each (fun dim =>
      sliceDimSize ← at_z sliceSizes dim;
      ensure (sliceDimSize <=? 1) "Expects that slice_sizes[dim] should be <= 1") dims.

(** The slice fits in the operand. *)
Definition checkSliceSizesInBounds (operandShape : ShapedType) (sliceSizes : list Z) : result () :=
  check_each (fun '(index, size) =>
      _ ← ensure (negb (size <? 0)) "slice size is out of bounds for operand dimension";
      dimSize ← getDimSize operandShape index;
      ensure (isDynamicDimSize dimSize || negb (dimSize <? size))
        "slice size is out of bounds for operand dimension") (enumerate sliceSizes).

Definition inferGatherOp (operand startIndices : ShapedType) (offsetDims collapsedSliceDims operandBatchingDims
    startIndicesBatchingDims startIndexMap : list Z) (indexVectorDim : Z) (sliceSizes : list Z) : result ShapedType :=
  let ssSTC := MkShaped [Z.of_nat (length sliceSizes)] NoneType None in
  _ ← verifyGather operand startIndices ssSTC offsetDims collapsedSliceDims operandBatchingDims
        startIndicesBatchingDims startIndexMap indexVectorDim;
  _ ← checkSliceSizesOne sliceSizes collapsedSliceDims;
  _ ← checkSliceSizesOne sliceSizes operandBatchingDims;
  _ ← checkSliceSizesInBounds operand sliceSizes;
  inferGatherReturnTypeComponents operand startIndices (at_z sliceSizes) offsetDims collapsedSliceDims
    operandBatchingDims indexVectorDim.

(** The slice sizes are an operand, which may be a constant. *)
Definition inferDynamicGatherOp (operand startIndices sliceSizes : ShapedType) (sliceSizesValues : option (list Z))
    (offsetDims collapsedSliceDims operandBatchingDims startIndicesBatchingDims startIndexMap : list Z)
    (indexVectorDim : Z) : result ShapedType :=
  _ ← verifyGather operand startIndices sliceSizes offsetDims collapsedSliceDims operandBatchingDims
        startIndicesBatchingDims startIndexMap indexVectorDim;
  _ ← match sliceSizesValues with
      | None => Ok ()
      | Some sliceSizesValues =>
          _ ← checkSliceSizesOne sliceSizesValues collapsedSliceDims;
          _ ← checkSliceSizesOne sliceSizesValues operandBatchingDims;
          checkSliceSizesInBounds operand sliceSizesValues
      end;
  let getSliceDim (index : Z) :=
    match sliceSizesValues with None => Ok kDynamic | Some values => at_z values index end in
  inferGatherReturnTypeComponents operand startIndices getSliceDim offsetDims collapsedSliceDims
    operandBatchingDims indexVectorDim.

(** ** Scatters *)
Definition validateScatterDimensionNumbers (operandType : ShapedType) (scatterIndicesShape : list Z)
    (updateType : ShapedType) (updateWindowDims insertedWindowDims inputBatchingDims scatterIndicesBatchingDims
    scatterDimsToOperandDims : list Z) (indexVectorDim : Z) : result () :=
  let windowSize :=
    Z.of_nat (length updateWindowDims + length insertedWindowDims + length inputBatchingDims) in
  _ ← ensure (getRank operandType =? windowSize) "Expects rank-of operand to match";
  _ ← ensure (is_sorted updateWindowDims) "Expects update_window_dims to be sorted";
  _ ← ensure (isUnique updateWindowDims) "Expects update_window_dims to not repeat";
  _ ← checkDimsInBounds updateWindowDims (getRank updateType);
  _ ← checkDimsDistinct insertedWindowDims inputBatchingDims;
  _ ← ensure (is_sorted insertedWindowDims) "Expects inserted_window_dims to be sorted";
  _ ← checkDimsInBounds insertedWindowDims (getRank operandType);
  _ ← ensure (is_sorted inputBatchingDims) "Expects input_batching_dims to be sorted";
  _ ← checkDimsInBounds inputBatchingDims (getRank operandType);
  _ ← ensure (isUnique scatterIndicesBatchingDims) "Expects scatter_indices_batching_dims to not repeat";
  _ ← checkDimsInBounds scatterIndicesBatchingDims (Z.of_nat (length scatterIndicesShape));
  _ ← ensure (negb (is_contained indexVectorDim scatterIndicesBatchingDims))
        "expects scatter_indices_batching_dims not to include index_vector_dim";
  _ ← ensure (bool_decide (length inputBatchingDims = length scatterIndicesBatchingDims))
        "input_batching_dims and scatter_indices_batching_dims should have the same size";
  _ ← check_batching (getShape operandType) scatterIndicesShape inputBatchingDims scatterIndicesBatchingDims;
  let numDims := Z.of_nat (length scatterDimsToOperandDims) in
  _ ← ensure (negb ((indexVectorDim =? Z.of_nat (length scatterIndicesShape)) && negb (numDims =? 1)))
        "the bound of dimension index_vector_dim of scatter_indices is 1";
  d ← at_z scatterIndicesShape indexVectorDim;
  _ ← ensure (isDynamicDimSize d || (numDims =? d))
        "elements in scatter_dims_to_operand_dims and the bound of dimension index_vector_dim";
  _ ← checkDimsDistinct scatterDimsToOperandDims inputBatchingDims;
  checkDimsInBounds scatterDimsToOperandDims (getRank operandType).

(** The sizes of the operand's dimensions that the windows of the updates cover: the
    loop walks the inserted and the batching dimensions by their positions. *)
Definition max_update_slice_sizes (operandShape insertedWindowDims inputBatchingDims : list Z) : list Z :=
  (foldl (fun '(sizes, insertedDimsSeen, batchingDimsSeen) '(i, d) =>
      if bool_decide (insertedWindowDims !! insertedDimsSeen = Some i) then (sizes, S insertedDimsSeen, batchingDimsSeen)
      else if bool_decide (inputBatchingDims !! batchingDimsSeen = Some i) then (sizes, insertedDimsSeen, S batchingDimsSeen)
      else (sizes ++ [d], insertedDimsSeen, batchingDimsSeen))
    ([], O, O) (enumerate operandShape)).1.1.

(** The checks of one operand against its update. *)
Definition check_updates (operandShape updatesShape expandedScatterIndicesShape updateWindowDims insertedWindowDims
    inputBatchingDims : list Z) (indexVectorDim : Z) : result () :=
  let maxUpdateSliceSizes := max_update_slice_sizes operandShape insertedWindowDims inputBatchingDims in
  _ ← check_each (fun '(i, updateWindowDim) =>
        u ← at_z updatesShape updateWindowDim;
        m ← (if isDynamicDimSize u then Ok u else at_z maxUpdateSliceSizes i);
        ensure (isDynamicDimSize u || isDynamicDimSize m || (u <=? m))
          "expects bounds of the window dimensions of updates to not exceed the bounds of the operand")
        (enumerate updateWindowDims);
  _ ← foldM (fun '(i, u) scatterDimsSeen =>
        if is_contained i updateWindowDims then Ok scatterDimsSeen
        else
          let scatterDimsSeen := if scatterDimsSeen =? indexVectorDim then scatterDimsSeen + 1 else scatterDimsSeen in
          d ← at_z expandedScatterIndicesShape scatterDimsSeen;
          _ ← ensure (verifyCompatibleDims u d)
                "expects bounds of the scatter dimensions of updates to be same as those of scatter indices";
          Ok (scatterDimsSeen + 1)) (enumerate updatesShape) 0;
  Ok ().

Definition expandedScatterIndicesShape (scatterIndicesShape : list Z) (indexVectorDim : Z) : list Z :=
  if Z.of_nat (length scatterIndicesShape) =? indexVectorDim then scatterIndicesShape ++ [1] else scatterIndicesShape.

Definition verifyScatterOp (operandTypes : list ShapedType) (scatterIndicesType : ShapedType)
    (updatesTypes : list ShapedType) (updateWindowDims insertedWindowDims inputBatchingDims
    scatterIndicesBatchingDims scatterDimsToOperandDims : list Z) (indexVectorDim : Z)
    (updateComputation : option BlockSig) : result () :=
  let allCompatible (types : list ShapedType) :=
    match types with
    | [] => true
    | t0 :: _ => forallb (fun t => compatibleShapes (getShape t0) (getShape t)) types
    end in
  _ ← ensure (allCompatible operandTypes) "Not all inputs have compatible shapes.";
  _ ← ensure (allCompatible updatesTypes) "Not all updates have compatible shapes.";
  _ ← checkDimInBounds indexVectorDim (getRank scatterIndicesType) true;
  initValueTypes ← mapM (fun '(i, _) =>
      t ← at_z updatesTypes i; Ok (MkShaped [] (getElementType t) None)) (enumerate operandTypes);
  block ← front updateComputation;
  _ ← verifyReducerShape block operandTypes initValueTypes [];
  let indicesShape := expandedScatterIndicesShape (getShape scatterIndicesType) indexVectorDim in
  let expectedUpdatesRank := Z.of_nat (length indicesShape) - 1 + Z.of_nat (length updateWindowDims) in
  _ ← check_each (fun '(i, _) =>
        t ← at_z updatesTypes i;
        ensure (getRank t =? expectedUpdatesRank) "expects updates tensor must be of rank") (enumerate operandTypes);
  _ ← check_each (fun '(i, operandType) =>
        t ← at_z updatesTypes i;
        validateScatterDimensionNumbers operandType indicesShape t updateWindowDims insertedWindowDims
          inputBatchingDims scatterIndicesBatchingDims scatterDimsToOperandDims indexVectorDim) (enumerate operandTypes);
  check_each (fun '(i, operandType) =>
      t ← at_z updatesTypes i;
      check_updates (getShape operandType) (getShape t) indicesShape updateWindowDims insertedWindowDims
        inputBatchingDims indexVectorDim) (enumerate operandTypes).

Definition inferScatterOp (inputTypes : list ShapedType) (updateComputation : option BlockSig)
    : result (list ShapedType) :=
  accumulatorTypes ← getAccumulatorTypesOrInputTypes updateComputation inputTypes;
  mapM (fun '(inputIdx, inputShapedTy) =>
      t ← at_z accumulatorTypes inputIdx;
      Ok (getSameShapeTensorType inputShapedTy (getElementType t))) (enumerate inputTypes).

Definition inferSelectAndScatterOp (operandType : ShapedType) (scatter : option BlockSig) : result ShapedType :=
  accumulatorTypes ← getAccumulatorTypesOrInputTypes scatter [operandType];
  t ← at_z accumulatorTypes 0;
  Ok (getSameShapeTensorType operandType (getElementType t)).

Definition scalar_of (type : ShapedType) : ShapedType := MkShaped [] (getElementType type) None.

Definition verifySelectAndScatterOp (operandType sourceType initValueType : ShapedType)
    (windowDimensionsOpt windowStridesOpt : option (list Z)) (padding : option (list Z * list Z))
    (select scatter : option BlockSig) : result () :=
  selectBlock ← front select;
  _ ← ensure (bool_decide (length (block_args selectBlock) = 2%nat)) "expects the select-region to take 2 parameters";
  let expectedSelectArgType := scalar_of operandType in
  _ ← check_each (fun arg =>
        arg ← cast_shaped arg;
        ensure (compatibleShapeAndElementType expectedSelectArgType arg true) "expects the type of select-region's parameter")
        (block_args selectBlock);
  selectResult ← getTerminator selectBlock;
  _ ← ensure (bool_decide (length selectResult = 1%nat)) "expects select-region to return single value";
  t ← at_z selectResult 0;
  _ ← ensure (match dyn_cast_shaped t with
              | Some r => isInteger (getElementType r) 1 && (getRank r =? 0)
              | None => false
              end) "expects the return-type of select-region to be tensor<i1>";
  scatterBlock ← front scatter;
  _ ← verifyReducerShape scatterBlock [scalar_of sourceType] [initValueType] [];
  let windowDims := default [] windowDimensionsOpt in
  _ ← ensure (getRank operandType =? Z.of_nat (length windowDims)) "expects window-dimensions size == operand rank";
  padding ← convertPaddingAttribute padding;
  window ← verifyWindowAttributesAndInferWindowDimensions windowDims (default [] windowStridesOpt) padding [] [] [];
  windowShape ← inferWindowOutputShape (getShape operandType) window;
  ensure (compatibleShapeAndElementType (MkShaped windowShape (getElementType operandType) None) sourceType true)
    "expects source-type to be the window's result type".

(** ** Regions *)

(** [mapOverTupleElements] with a function that may fail *)
Definition tuple_types (t : Ty) : option (list Ty) := match t with TupleType types => Some types | _ => None end.
Definition mapOverTupleElements (inputTypes : list Ty) (fn : list Ty -> result Ty) : result Ty :=
  match omap tuple_types inputTypes with
  | [] => fn inputTypes
  | (tuple0 :: _) as tupleTypes =>
      _ ← ensure (bool_decide (length tupleTypes = length inputTypes))
            "Mismatched type kinds: either all types must be tuples, or no types must be tuples";
      _ ← ensure (forallb (fun t => bool_decide (length t = length tuple0)) tupleTypes)
            "Mismatched tuple sizes: all tuple sizes must be the same";
      TupleType <$> mapM (fun i => ithElements ← mapM (fun t => at_z t i) tupleTypes; fn ithElements)
                      (seqZ 0 (Z.of_nat (length tuple0)))
  end.
Definition inferLeastSpecificType (inputTypes : list Ty) := mapOverTupleElements inputTypes inferLeastSpecificShapedType.
Definition inferMostSpecificType (inputTypes : list Ty) := mapOverTupleElements inputTypes inferMostSpecificShapedType.
Definition inferMostSpecificTypeComponents (inputTypes : list Ty) : result ShapedType :=
  t ← inferMostSpecificType inputTypes; ok_or (dyn_cast_shaped t) (Failed "not a shaped type").

Definition inferConditionalOp (operandRankedTy : ShapedType) (branches : list (option BlockSig)) : result (list Ty) :=
  _ ← ensure (getRank operandRankedTy =? 0) "operand should be rank 0 tensor";
  _ ← ensure (negb (bool_decide (branches = []))) "expect at least one branch";
  _ ← check_each verifyRegionNotEmpty branches;
  branch0 ← at_z branches 0;
  block0 ← front branch0;
  branch0ResultTypes ← getTerminator block0;
  _ ← check_each (fun region =>
        block ← front region;
        _ ← ensure (bool_decide (block_args block = [])) "must have 0 arguments";
        branchResultTypes ← getTerminator block;
        ensure (isCompatibleRangesForHloTypeInference branch0ResultTypes branchResultTypes)
          "branch 0 and branch i have mismatched return types") branches;
  mapM (fun i =>
      inputTypes ← mapM (fun branch => block ← front branch; types ← getTerminator block; at_z types i) branches;
      inferLeastSpecificType inputTypes)
    (seqZ 0 (Z.of_nat (length branch0ResultTypes))).
Definition inferCaseOp (index : ShapedType) (branches : list (option BlockSig)) := inferConditionalOp index branches.
Definition inferIfOp (pred : ShapedType) (branches : list (option BlockSig)) := inferConditionalOp pred branches.

(** [cond.front().back()]: the last operation of the block, its terminator. *)
Definition verifyWhileOp (operandTypes : list Ty) (cond body : option BlockSig) : result () :=
  condBlock ← front cond;
  bodyBlock ← front body;
  _ ← ensure (isCompatibleRangesForHloTypeInference operandTypes (block_args condBlock))
        "expect operands to be compatible with condition block arguments";
  _ ← ensure (isCompatibleRangesForHloTypeInference operandTypes (block_args bodyBlock))
        "expect operands to be compatible with body block arguments";
  bodyReturnTypes ← ok_or (block_terminator bodyBlock) (Failed "The while body-region expected to have a terminator");
  _ ← ensure (isCompatibleRangesForHloTypeInference operandTypes bodyReturnTypes)
        "expect operands to be compatible with body block return types";
  condReturnTypes ← getTerminator condBlock;
  _ ← ensure (bool_decide (length condReturnTypes = 1%nat)) "expect condition body returns a single value";
  t ← at_z condReturnTypes 0;
  operandType ← cast_shaped t;
  ensure (negb (negb (getRank operandType =? 0) || negb (isInteger (getElementType operandType) 1)))
    "expect condition block return a zero-ranked tensor of i1".
Definition inferWhileOp (operand : list Ty) : result (list Ty) := Ok operand.

Definition inferMapOp (inputs : list ShapedType) (dimensions : list Z) (computation : option BlockSig)
    : result ShapedType :=
  _ ← verifyRegionNotEmpty computation;
  block ← front computation;
  _ ← ensure (bool_decide (length inputs = length (block_args block)))
        "expects number of operands to match the arity of map computation";
  _ ← check_each (fun '(i, arg) =>
        argType ← cast_shaped arg;
        _ ← ensure (getRank argType =? 0) "computation arguments must be 0-rank tensor";
        input ← at_z inputs i;
        ensure (bool_decide (getElementType argType = getElementType input))
          "element type of operands and computation arguments must match") (enumerate (block_args block));
  computationOutputs ← getTerminator block;
  _ ← ensure (bool_decide (length computationOutputs = 1%nat)) "computation must return single output";
  t ← at_z computationOutputs 0;
  computationOutputType ← cast_shaped t;
  _ ← ensure (getRank computationOutputType =? 0) "computation must return 0-rank tensor";
  _ ← ensure (forallb (fun '(i, d) => d =? i) (enumerate dimensions)) "requires monotonically increasing dimension numbers";
  resultShape ← foldM (fun operandType _ =>
      _ ← ensure (bool_decide (length dimensions = length (getShape operandType)))
            "applied to a subset of dimensions currently not supported";
      Ok (getShape operandType)) inputs [];
  Ok (MkShaped resultShape (getElementType computationOutputType) None).

Definition inferSortOp (inputs : list ShapedType) : result (list ShapedType) := Ok inputs.

(** Only the first operand's rank is looked at: the operation's trait says that
    the shapes are the same. *)
Definition verifySortOp (operandTypes : list ShapedType) (dimension : Z) (comparator : option BlockSig) : result () :=
  _ ← match operandTypes with
      | [] => Ok ()
      | operandShapedType :: _ =>
          let rank := getRank operandShapedType in
          ensure (negb ((dimension <? - rank) || (rank <=? dimension))) "dimension attribute value must be in range"
      end;
  block ← front comparator;
  _ ← ensure (bool_decide (length (block_args block) = 2 * length operandTypes)%nat)
        "comparator block should have 2 * numOperands arguments";
  _ ← check_each (fun '(index, operandType) =>
        check_each (fun i =>
            argType ← at_z (block_args block) i;
            ensure (bool_decide (argType = shaped_type (scalar_of operandType))) "comparator block argument")
          [2 * index; 2 * index + 1]) (enumerate operandTypes);
  comparatorResult ← getTerminator block;
  _ ← ensure (bool_decide (length comparatorResult = 1%nat)) "comparator must return single output";
  t ← at_z comparatorResult 0;
  comparatorResultType ← cast_shaped t;
  ensure (negb (negb (getRank comparatorResultType =? 0) ||
                negb (isInteger (getElementType comparatorResultType) 1)))
    "comparator must return tensor<i1>".

(** ** Elementwise operations and moves *)
Definition inferAbsOp (operandTy : ShapedType) : ShapedType :=
  getSameShapeTensorType operandTy
    (match getElementType operandTy with ComplexType t => t | t => t end).

Definition inferBroadcastOp (operandType : ShapedType) (broadcastSizes : list Z) : result ShapedType :=
  _ ← ensure (forallb (fun size => 0 <=? size) broadcastSizes) "Broadcast with negative dimension size";
  Ok (MkShaped (broadcastSizes ++ getShape operandType) (getElementType operandType) None).

Definition inferCholeskyOp (aType : ShapedType) : result ShapedType :=
  let aShape := getShape aType in
  let rank := getRank aType in
  _ ← ensure (2 <=? rank) "argument 'a' must have rank >= 2";
  a ← at_z aShape (rank - 2);
  b ← at_z aShape (rank - 1);
  _ ← ensure (verifyCompatibleDims a b) "minor dimensions of 'a' must have equal size";
  Ok aType.

Definition inferClampOp (minType operandType maxType : ShapedType) : result ShapedType :=
  _ ← ensure (compatibleShapes (getShape minType) (getShape operandType) || (getRank minType =? 0))
        "min shape is not scalar and is not compatible to operand shape";
  _ ← ensure (compatibleShapes (getShape maxType) (getShape operandType) || (getRank maxType =? 0))
        "max shape is not scalar and is not compatible to operand shape";
  Ok operandType.

Definition inferCompareOp (argTy : ShapedType) : ShapedType := MkShaped (getShape argTy) i1 (getEncoding argTy).
Definition inferComplexOp (operandType : ShapedType) : ShapedType :=
  getSameShapeTensorType operandType (ComplexType (getElementType operandType)).
(** The element type is the one the operation is built with. *)
Definition inferConvertOp (operandType : ShapedType) : list Z * option Encoding :=
  (getShape operandType, getEncoding operandType).
Definition inferImagOp (operand : ShapedType) : ShapedType := createRealType operand.
Definition inferRealOp (operand : ShapedType) : ShapedType := createRealType operand.
Definition inferIsFiniteOp (argTy : ShapedType) : ShapedType := getSameShapeTensorType argTy i1.
Definition inferReverseOp (operandType : Ty) : Ty := operandType.
Definition inferOptimizationBarrierOp (operand : list Ty) : list Ty := operand.

Definition inferGetDimensionSizeOp (operandType : ShapedType) (dimension : Z) : result ShapedType :=
  _ ← verifyDimInBounds operandType dimension;
  Ok (MkShaped [] (IntegerType Signless 32) None).

Definition inferGetTupleElementOp (operand : Ty) (index : Z) : result Ty :=
  operandType ← ok_or (tuple_types operand) (Failed "operand is not a tuple");
  _ ← ensure (index <? Z.of_nat (length operandType)) "index is out of bounds of operand";
  at_z operandType index.
Definition inferTupleOp (val : list Ty) : Ty := TupleType val.

Definition inferSelectOp (predType trueType falseType : ShapedType) : result ShapedType :=
  _ ← ensure (compatibleShapeAndElementType trueType falseType false)
        "requires compatible types for non-predicate operands";
  _ ← ensure ((getRank predType =? 0) || compatibleShapes (getShape predType) (getShape trueType))
        "requires the same shape for all operands";
  inferMostSpecificTypeComponents [shaped_type trueType; shaped_type falseType].

(** [size] by its type and its value, if it is a constant; [createTypeExtensions] is
    StableHLO's. *)
Definition inferSetDimensionSizeOp (inputType sizeType : ShapedType) (sizeAttr : option Z) (dimension : Z)
    : result ShapedType :=
  _ ← ensure (getRank sizeType =? 0) "size operand should be of rank-0";
  _ ← verifyDimInBounds inputType dimension;
  let rank := getRank inputType in
  _ ← ensure (negb ((dimension <? 0) || (rank <=? dimension))) "expects dimension to be in range";
  let shape := getShape inputType in
  let bounds := match encodingToBounds (getEncoding inputType) with
                | [] => replicate (Z.to_nat rank) kDynamic
                | inputBounds => inputBounds
                end in
  d ← at_z shape dimension;
  bounds ← (if negb (isDynamicDimSize d) then set_z bounds dimension d else Ok bounds);
  shape ← set_z shape dimension kDynamic;
  '(shape, bounds) ← match sizeAttr with
    | None => Ok (shape, bounds)
    | Some splat =>
        b ← at_z bounds dimension;
        if splat =? b then
          shape ← set_z shape dimension splat; bounds ← set_z bounds dimension kDynamic; Ok (shape, bounds)
        else Ok (shape, bounds)
    end;
  Ok (MkShaped shape (getElementType inputType)
        (if forallb isDynamicDimSize bounds then None else Some (TypeExtensions bounds))).

(** An operand that is not a ranked tensor is not modelled: there is none. *)
Definition inferTopKOp (operandType : ShapedType) (k : Z) : result (list ShapedType) :=
  _ ← ensure (1 <=? getRank operandType) "operand's rank must be at least 1";
  let operandLastDim := getRank operandType - 1 in
  d ← getDimSize operandType operandLastDim;
  _ ← ensure (isDynamicDimSize d || negb (d <? k)) "operand's last dimension must be at least k";
  resultShape ← set_z (getShape operandType) operandLastDim k;
  resultBounds ← (match encodingToBounds (getEncoding operandType) with
                  | [] => Ok []
                  | bounds => set_z bounds operandLastDim kDynamic
                  end);
  encoding ← boundsToEncoding (getEncoding operandType) resultBounds;
  Ok [MkShaped resultShape (getElementType operandType) encoding;
      MkShaped resultShape (IntegerType Signless 32) encoding].

Definition drop_back {A} (n : nat) (l : list A) : list A := take (length l - n) l.

Definition inferTriangularSolveOp (aType bType : ShapedType) (leftSide isTransposeAInvalid : bool) : result ShapedType :=
  let aRank := getRank aType in
  _ ← ensure (2 <=? aRank) "operand 'a' must have rank >= 2";
  a2 ← getDimSize aType (aRank - 2);
  a1 ← getDimSize aType (aRank - 1);
  _ ← ensure (verifyCompatibleDims a2 a1) "two minor dimensions of operand 'a' must be compatible";
  let bRank := getRank bType in
  _ ← ensure (aRank =? bRank) "operands must have equal rank";
  b ← getDimSize bType (bRank - (if leftSide then 2 else 1));
  _ ← ensure (verifyCompatibleDims a1 b) "shared dimension of operands 'a' and 'b' must be compatible";
  _ ← ensure (compatibleShapes (drop_back 2 (getShape aType)) (drop_back 2 (getShape bType)))
        "batch dimensions of the operands must be compatible";
  _ ← ensure (negb isTransposeAInvalid) "Invalid transpose option value for triangular solve";
  Ok bType.

Definition inferFftOp (operandType : ShapedType) (isFftTypeRfft isFftTypeIrfft : bool) (fftLength : list Z)
    : result ShapedType :=
  let fftRank := Z.of_nat (length fftLength) in
  _ ← ensure (negb ((3 <? fftRank) || (fftRank <? 1))) "rank must be between 1 and 3";
  let operandElementType := getElementType operandType in
  _ ← (if isFftTypeRfft then
         ensure (isF Float32 operandElementType || isF Float64 operandElementType)
           "RFFT requires f32 or f64 input type"
       else ensure (isa_ComplexType operandElementType) "FFT/IFFT/IRFFT take a complex tensor as input");
  resultElementType ← (if isFftTypeRfft then Ok (ComplexType operandElementType)
                       else if isFftTypeIrfft then complex_element operandElementType
                       else Ok operandElementType);
  let operandShape := getShape operandType in
  _ ← ensure (negb (Z.of_nat (length operandShape) <? fftRank)) "operand rank must not be less than fft rank";
  let shapeBack := drop (length operandShape - length fftLength) operandShape in
  let compatible := forallb (fun '(operandDim, fftDim) => verifyCompatibleDims operandDim fftDim) in
  let lastDim := Z.of_nat (length operandShape) - 1 in
  fftLast ← at_z fftLength (fftRank - 1);
  resultShape ← (if isFftTypeRfft then
                   _ ← ensure (compatible (zip shapeBack fftLength))
                         "RFFT requires innermost dimensions to be compatible with fft_length";
                   if negb (fftLast =? 0) then set_z operandShape lastDim (Z.quot fftLast 2 + 1) else Ok operandShape
                 else Ok operandShape);
  resultShape ← (if isFftTypeIrfft then
                   _ ← ensure (compatible (zip (drop_back 1 shapeBack) fftLength))
                         "IRFFT requires non-final dimensions to be compatible with fft_length";
                   d ← at_z operandShape lastDim;
                   _ ← ensure (negb ((negb (verifyCompatibleDims d 0) || negb (fftLast =? 0)) &&
                                     negb (verifyCompatibleDims d (Z.quot fftLast 2 + 1))))
                         "IRFFT requires innermost dimension to be compatible with fft_length[-1]/2+1";
                   set_z resultShape lastDim fftLast
                 else Ok resultShape);
  let bounds := encodingToBounds (getEncoding operandType) in
  resultBounds ← (if (isFftTypeIrfft || isFftTypeRfft) && negb (bool_decide (bounds = []))
                  then set_z bounds (Z.of_nat (length bounds) - 1) kDynamic else Ok bounds);
  encoding ← boundsToEncoding (getEncoding operandType) resultBounds;
  Ok (MkShaped resultShape resultElementType encoding).

(** [shape] by its type and its values, if they are constant. *)
Definition inferRngOp (aType bType shapeOperandType : ShapedType) (shapeAttr : option (list Z))
    (isRngDistributionUniform : bool) : result ShapedType :=
  _ ← ensure (isRngDistributionUniform || negb (negb (isa_FloatType (getElementType aType)) ||
                                                negb (isa_FloatType (getElementType bType))))
        "mu and sigma must be floats";
  let elementType := getElementType bType in
  match shapeAttr with
  | None =>
      size ← getDimSize shapeOperandType 0;
      Ok (MkShaped (replicate (Z.to_nat size) kDynamic) elementType None)
  | Some shapeVector => Ok (MkShaped shapeVector elementType None)
  end.

Definition verifyRngBitGeneratorOp (initialShape outputShape : ShapedType) : result () :=
  ensure (compatibleShapes (getShape initialShape) (getShape outputShape))
    "output state shape must be compatible with initial state shape".

Definition inferUniformDequantizeOp (operandType : ShapedType) : result ShapedType :=
  e ← ok_or (expressed_type (getElementType operandType)) (UB "cast<QuantizedType>");
  Ok (MkShaped (getShape operandType) e None).
Definition inferUniformQuantizeOp (operandType : ShapedType) : list Z := getShape operandType.
Definition verifyUniformQuantizeOp (operand result_type : Ty) : result () :=
  resultExpressedType ← ok_or (expressed_type (getElementTypeOrSelf result_type)) (UB "cast<QuantizedType>");
  let operandElementType := getElementTypeOrSelf operand in
  expected ← (if isa_FloatType operandElementType then Ok operandElementType
              else ok_or (expressed_type operandElementType) (UB "cast<QuantizedType>"));
  ensure (bool_decide (resultExpressedType = expected)) "Expressed type of result expected to be".

(** ** Contractions and convolutions *)
Definition pushDimensionAndBoundSize (dimension : Z) (type : ShapedType) : result (Z * Z) :=
  d ← getDimSize type dimension;
  b ← or_default (encodingToBounds (getEncoding type)) dimension kDynamic;
  Ok (d, b).

Definition inferDotOp (lhsType rhsType : ShapedType) (precisionConfig : option (list Z))
    : result (list Z * option Encoding) :=
  _ ← verifyPrecisionConfig precisionConfig;
  let compatible (l r : Z) :=
    a ← getDimSize lhsType l; b ← getDimSize rhsType r;
    ensure (verifyCompatibleDims a b) "expected both lhs/rhs ranks to be either 1 or 2" in
  inferred ←
    (if (getRank lhsType =? 1) && (getRank rhsType =? 1) then _ ← compatible 0 0; Ok []
     else if (getRank lhsType =? 2) && (getRank rhsType =? 1) then
       _ ← compatible 1 0; d ← pushDimensionAndBoundSize 0 lhsType; Ok [d]
     else if (getRank lhsType =? 1) && (getRank rhsType =? 2) then
       _ ← compatible 0 0; d ← pushDimensionAndBoundSize 1 rhsType; Ok [d]
     else if (getRank lhsType =? 2) && (getRank rhsType =? 2) then
       _ ← compatible 1 0;
       d ← pushDimensionAndBoundSize 0 lhsType; d' ← pushDimensionAndBoundSize 1 rhsType; Ok [d; d']
     else Err (Failed "expected both lhs/rhs ranks to be either 1 or 2"));
  let encoding := match getEncoding lhsType with Some e => Some e | None => getEncoding rhsType end in
  boundsAttr ← boundsToEncoding encoding inferred.*2;
  Ok (inferred.*1, boundsAttr).

Definition verifyDotOp (lhsType rhsType : ShapedType) (precisionConfig : option (list Z)) (resultType : ShapedType)
    : result () :=
  '(dims, _) ← inferDotOp lhsType rhsType precisionConfig;
  ensure (compatibleShapes dims (getShape resultType)) "inferred shape is incompatible with return type of operation".

Definition verifyDotGeneralOpQuantizationConstraints (lhsType rhsType resultType : Ty)
    (rhsContractingDimensions : list Z) : result () :=
  let lhsElementType := getElementTypeOrSelf lhsType in
  let rhsElementType := getElementTypeOrSelf rhsType in
  let resultElementType := getElementTypeOrSelf resultType in
  _ ← match rhsElementType with
      | QuantizedType _ _ _ _ _ None _ zeroPoints =>
          ensure (forallb (fun z => z =? 0) zeroPoints) "Zero point of rhs should be 0"
      | QuantizedType _ _ _ _ _ (Some quantizedDimension) _ zeroPoints =>
          _ ← ensure (forallb (fun z => z =? 0) zeroPoints) "Zero points of rhs should be 0";
          ensure (negb (is_contained quantizedDimension rhsContractingDimensions))
            "Quantization dimension of rhs should not be in the contracting dimension of rhs"
      | _ => Ok ()
      end;
  verifyConvolutionDotGeneralCommonQuantizationConstraints lhsElementType rhsElementType resultElementType.

Definition verifyDotGeneralOp (lhsType rhsType : ShapedType) (lhsBatchingDimensions rhsBatchingDimensions
    lhsContractingDimensions rhsContractingDimensions : list Z) (precisionConfig : option (list Z))
    (isDefaultPrecisionConfig hasAlgorithmSpecified : bool) (resultType : ShapedType) : result () :=
  '(dims, _) ← inferDotGeneralOp lhsType rhsType lhsBatchingDimensions rhsBatchingDimensions
                 lhsContractingDimensions rhsContractingDimensions precisionConfig;
  _ ← ensure (compatibleShapes dims (getShape resultType)) "inferred shape is incompatible with return type of operation";
  _ ← ensure (negb (negb isDefaultPrecisionConfig && hasAlgorithmSpecified))
        "must specify DEFAULT precision config when algorithm is set.";
  if anyQuantized [shaped_type lhsType; shaped_type rhsType; shaped_type resultType] then
    verifyDotGeneralOpQuantizationConstraints (shaped_type lhsType) (shaped_type rhsType) (shaped_type resultType)
      rhsContractingDimensions
  else Ok ().

Definition verifyConvolutionOpQuantizationConstraints (lhsType rhsType resultType : Ty)
    (kernelOutputFeatureDimension outputFeatureDimension : Z) : result () :=
  let lhsElementType := getElementTypeOrSelf lhsType in
  let rhsElementType := getElementTypeOrSelf rhsType in
  let resultElementType := getElementTypeOrSelf resultType in
  let same (t : Ty) (d : Z) := match quantized_dimension t with Some q => q =? d | None => true end in
  _ ← ensure (same rhsElementType kernelOutputFeatureDimension)
        "quantization dimension of rhs should be same with kernel_output_feature_dimension";
  _ ← ensure (same resultElementType outputFeatureDimension)
        "quantization dimension of result should be same with output_feature_dimension";
  verifyConvolutionDotGeneralCommonQuantizationConstraints lhsElementType rhsElementType resultElementType.

Definition quantized_convolution (lhsType rhsType resultType : ShapedType) (c : ConvDims) : result () :=
  if anyQuantized [shaped_type lhsType; shaped_type rhsType; shaped_type resultType] then
    verifyConvolutionOpQuantizationConstraints (shaped_type lhsType) (shaped_type rhsType) (shaped_type resultType)
      (kernelOutputFeatureDimension c) (outputFeatureDimension c)
  else Ok ().

Definition verifyConvolutionOp (lhsType rhsType : ShapedType) (windowStrides : option (list Z))
    (padding : option (list Z * list Z)) (lhsDilation rhsDilation : option (list Z))
    (windowReversal : option (list bool)) (c : ConvDims) (featureGroupCount batchGroupCount : Z)
    (precisionConfig : option (list Z)) (resultType : ShapedType) : result () :=
  dims ← inferConvolutionOp lhsType rhsType windowStrides padding lhsDilation rhsDilation windowReversal c
           featureGroupCount batchGroupCount precisionConfig;
  _ ← ensure (compatibleShapes dims (getShape resultType)) "inferred shape is incompatible with return type of operation";
  quantized_convolution lhsType rhsType resultType c.

(** The padding is an operand; the shape is inferred where it is a constant. *)
Definition inferDynamicConvOp (lhsType rhsType paddingType : ShapedType) (paddingValues : option (list Z))
    (windowStrides lhsDilation rhsDilation : option (list Z)) (windowReversal : option (list bool)) (c : ConvDims)
    (featureGroupCount batchGroupCount : Z) (precisionConfig : option (list Z)) : result (option (list Z)) :=
  let numDims := getRank lhsType in
  _ ← ensure (2 <=? numDims) "expects convolution arguments to have >= 2 dimensions";
  _ ← ensure (numDims =? getRank rhsType) "expects convolution arguments to have same number of dimensions";
  let lhsElt := getElementType lhsType in
  let rhsElt := getElementType rhsType in
  _ ← ensure (anyQuantized [shaped_type lhsType; shaped_type rhsType] ||
              isCompatibleForHloTypeInference lhsElt rhsElt || (isFp8Type lhsElt && isFp8Type rhsElt))
        "expects lhs and rhs to have compatible element type";
  _ ← verifyConvolutionAttributes lhsType rhsType c featureGroupCount batchGroupCount precisionConfig;
  _ ← ensure (numDims =? Z.of_nat (length (inputSpatialDimensions c)) + 2)
        "expects convolution arguments to have spatial dimensions + 2 dimensions";
  windowDimensions ← mapM (fun d => at_z (getShape rhsType) d) (kernelSpatialDimensions c);
  _ ← ensure (getRank paddingType =? 2) "expects padding to be of rank 2";
  p0 ← getDimSize paddingType 0;
  p1 ← getDimSize paddingType 1;
  _ ← ensure (negb (negb (p0 =? numDims - 2) || negb (p1 =? 2))) "expects padding to be of shape [n, 2]";
  match paddingValues with
  | None => Ok None
  | Some shape =>
      window ← verifyWindowAttributesAndInferWindowDimensions windowDimensions (default [] windowStrides)
                 (pairs_of shape) (default [] lhsDilation) (default [] rhsDilation) (default [] windowReversal);
      inputSpatialDimVals ← mapM (fun d => at_z (getShape lhsType) d) (inputSpatialDimensions c);
      windowOutputShape ← inferWindowOutputShape inputSpatialDimVals window;
      outputDimensions ← foldM (fun i outputDimensions =>
          d ← at_z (outputSpatialDimensions c) i;
          s ← at_z windowOutputShape i;
          set_z outputDimensions d s)
        (seqZ 0 (Z.of_nat (length window))) (replicate (length (getShape lhsType)) kDynamic);
      inputBatch ← at_z (getShape lhsType) (inputBatchDimension c);
      kernelOutputFeatures ← at_z (getShape rhsType) (kernelOutputFeatureDimension c);
      batch ← (if isDynamicDimSize inputBatch then Ok kDynamic else div_z inputBatch batchGroupCount);
      outputDimensions ← set_z outputDimensions (outputBatchDimension c) batch;
      Some <$> set_z outputDimensions (outputFeatureDimension c) kernelOutputFeatures
  end.

Definition verifyDynamicConvOp (lhsType rhsType paddingType : ShapedType) (paddingValues : option (list Z))
    (windowStrides lhsDilation rhsDilation : option (list Z)) (windowReversal : option (list bool)) (c : ConvDims)
    (featureGroupCount batchGroupCount : Z) (precisionConfig : option (list Z)) (resultType : ShapedType) : result () :=
  _ ← inferDynamicConvOp lhsType rhsType paddingType paddingValues windowStrides lhsDilation rhsDilation
        windowReversal c featureGroupCount batchGroupCount precisionConfig;
  quantized_convolution lhsType rhsType resultType c.

(** *** Algorithms of a contraction *)
Inductive KnownDotAlgorithm :=
| ANY_F8_ANY_F8_F32 | ANY_F8_ANY_F8_F32_FAST_ACCUM | F16_F16_F16 | F16_F16_F32 | BF16_BF16_BF16 | BF16_BF16_F32
| BF16_BF16_F32_X3 | BF16_BF16_F32_X6 | TF32_TF32_F32 | TF32_TF32_F32_X3 | F32_F32_F32 | F64_F64_F64
| BF16_BF16_F32_X9 | F8E4M3FN_F8E4M3FN_F32_X3 | F8E4M3FN_F8E4M3FN_F32_X4.

Definition isAnyF8 (t : Ty) : bool :=
  existsb (fun k => isF k t) [Float8E3M4; Float8E4M3; Float8E4M3FN; Float8E5M2; Float8E4M3FNUZ;
                              Float8E4M3B11FNUZ; Float8E5M2FNUZ].

Definition knownDotAlgorithms : list (FloatKind * FloatKind * FloatKind * Z * KnownDotAlgorithm) :=
  [(Float16, Float16, Float16, 1, F16_F16_F16);
   (Float16, Float16, Float32, 1, F16_F16_F32);
   (BFloat16, BFloat16, BFloat16, 1, BF16_BF16_BF16);
   (BFloat16, BFloat16, Float32, 1, BF16_BF16_F32);
   (BFloat16, BFloat16, Float32, 3, BF16_BF16_F32_X3);
   (Float8E4M3FN, Float8E4M3FN, Float32, 3, F8E4M3FN_F8E4M3FN_F32_X3);
   (Float8E4M3FN, Float8E4M3FN, Float32, 4, F8E4M3FN_F8E4M3FN_F32_X4);
   (BFloat16, BFloat16, Float32, 6, BF16_BF16_F32_X6);
   (BFloat16, BFloat16, Float32, 9, BF16_BF16_F32_X9);
   (FloatTF32, FloatTF32, Float32, 1, TF32_TF32_F32);
   (FloatTF32, FloatTF32, Float32, 3, TF32_TF32_F32_X3);
   (Float32, Float32, Float32, 1, F32_F32_F32);
   (Float64, Float64, Float64, 1, F64_F64_F64)].

Definition getKnownDotAlgorithm (lhsPrecisionType rhsPrecisionType accumulationType : Ty)
    (lhsComponentCount rhsComponentCount numPrimitiveOperations : Z) (allowImpreciseAccumulation : bool)
    : option KnownDotAlgorithm :=
  if negb (lhsComponentCount =? 1) || negb (rhsComponentCount =? 1) then None
  else if isAnyF8 lhsPrecisionType && isAnyF8 rhsPrecisionType && isF Float32 accumulationType &&
          (numPrimitiveOperations =? 1) then
    Some (if allowImpreciseAccumulation then ANY_F8_ANY_F8_F32_FAST_ACCUM else ANY_F8_ANY_F8_F32)
  else if allowImpreciseAccumulation then None
  else
    snd <$> find (fun '(l, r, a, n, _) => isF l lhsPrecisionType && isF r rhsPrecisionType && isF a accumulationType &&
                                          (n =? numPrimitiveOperations)) knownDotAlgorithms.

Definition isKnownDotAlgorithm (lhsPrecisionType rhsPrecisionType accumulationType : Ty)
    (lhsComponentCount rhsComponentCount numPrimitiveOperations : Z) (allowImpreciseAccumulation : bool) : bool :=
  match getKnownDotAlgorithm lhsPrecisionType rhsPrecisionType accumulationType lhsComponentCount rhsComponentCount
          numPrimitiveOperations allowImpreciseAccumulation with Some _ => true | None => false end.

Definition verifyDotAlgorithmAttr (lhsPrecisionType rhsPrecisionType accumulationType : Ty)
    (lhsComponentCount rhsComponentCount numPrimitiveOperations : Z) (allowImpreciseAccumulation : bool) : result () :=
  _ ← ensure (negb (lhsComponentCount <? 1)) "lhs component count must be positive";
  _ ← ensure (negb (rhsComponentCount <? 1)) "rhs component count must be positive";
  _ ← ensure (negb (numPrimitiveOperations <? 1)) "num primitive operations must be positive";
  ensure (isKnownDotAlgorithm lhsPrecisionType rhsPrecisionType accumulationType lhsComponentCount rhsComponentCount
            numPrimitiveOperations allowImpreciseAccumulation)
    "dot algorithm not known to be supported on any hardware".

(** ** Collectives *)
Definition inferAllToAllOp (operands : list ShapedType) (splitDimension concatDimension splitCount : Z)
    (replicaGroups : option (list Z * list Z)) : result (list ShapedType) :=
  _ ← verifyReplicaGroups replicaGroups true false (Some splitCount);
  mapM (fun operandType =>
      let inputRank := getRank operandType in
      _ ← ensure (splitDimension <? inputRank) "AllToAll split_dimension is out-of-bounds for input rank";
      _ ← ensure (concatDimension <? inputRank) "AllToAll concat_dimension is out-of-bounds for input rank";
      let resultShape := getShape operandType in
      s ← at_z resultShape splitDimension;
      resultShape ← (if isStaticDimSize s then
                       r ← rem_z s splitCount;
                       _ ← ensure (r =? 0) "split dimension expected to be a multiple of split_count";
                       q ← div_z s splitCount; set_z resultShape splitDimension q
                     else Ok resultShape);
      d ← at_z resultShape concatDimension;
      resultShape ← (if isStaticDimSize d then p ← i64 (d * splitCount); set_z resultShape concatDimension p
                     else Ok resultShape);
      resultBounds ←
        match encodingToBounds (getEncoding operandType) with
        | [] => Ok []
        | resultBounds =>
            b ← at_z resultBounds splitDimension;
            resultBounds ← (if isStaticDimSize b then q ← div_z b splitCount; set_z resultBounds splitDimension q
                            else Ok resultBounds);
            b ← at_z resultBounds concatDimension;
            if isStaticDimSize b then p ← i64 (b * splitCount); set_z resultBounds concatDimension p else Ok resultBounds
        end;
      encoding ← boundsToEncoding (getEncoding operandType) resultBounds;
      Ok (MkShaped resultShape (getElementType operandType) encoding)) operands.

(** As written, every result takes the element type of the first accumulator. *)
Definition inferAllReduceOp (operands : list ShapedType) (computation : option BlockSig) : result (list ShapedType) :=
  accumulatorTypes ← getAccumulatorTypesOrInputTypes computation operands;
  mapM (fun operand => t ← at_z accumulatorTypes 0; Ok (getSameShapeTensorType operand (getElementType t))) operands.

Definition dataOperands {A} (hasDynamicRoot : bool) (operands : list A) : list A :=
  if hasDynamicRoot then drop_back 1 operands else operands.

Definition inferCollectiveBroadcastOp (operands : list Ty) (hasDynamicRoot : bool) : list Ty :=
  dataOperands hasDynamicRoot operands.
Definition inferCollectivePermuteOp (operands : list Ty) : list Ty := operands.

Definition inferCollectiveReduceOp (operands : list ShapedType) (computation : option BlockSig) (hasDynamicRoot : bool)
    : result (list ShapedType) :=
  mapM (fun inputType =>
      accTypes ← getAccumulatorTypesOrInputTypes computation [inputType];
      t ← at_z accTypes 0;
      Ok (getSameShapeTensorType inputType (getElementType t))) (dataOperands hasDynamicRoot operands).

(** The loop returns at the first pair whose gathered dimension is dynamic: the pairs
    after it are not looked at. *)
Fixpoint check_all_gather (allGatherDim : Z) (pairs : list (ShapedType * ShapedType)) : result () :=
  match pairs with
  | [] => Ok ()
  | (operandType, resultType) :: pairs =>
      _ ← ensure (allGatherDim <? getRank operandType) "all_gather_dim must be a valid index of operand";
      d ← getDimSize operandType allGatherDim;
      _ ← ensure (negb (d =? 0)) "dimension size of operand at 'all_gather_dim' cannot be zero";
      _ ← ensure (getRank resultType =? getRank operandType) "operand and result must have the same rank";
      _ ← check_each (fun i =>
            if i =? allGatherDim then Ok ()
            else
              r ← getDimSize resultType i; o ← getDimSize operandType i;
              ensure (verifyCompatibleDims r o)
                "operand and result should have the same shape except for the dimension size at 'all_gather_dim'")
            (seqZ 0 (getRank operandType));
      r ← getDimSize resultType allGatherDim;
      if isDynamicDimSize d || isDynamicDimSize r then Ok ()
      else
        m ← rem_z r d;
        _ ← ensure (m =? 0) "expected to be a multiple of operand gather dimension size";
        check_all_gather allGatherDim pairs
  end.

Definition verifyAllGatherOp (operands : list ShapedType) (allGatherDim : Z) (replicaGroups : option (list Z * list Z))
    (channelId : Z) (useGlobalDeviceIds : bool) (results : list ShapedType) : result () :=
  _ ← verifyReplicaGroups replicaGroups true useGlobalDeviceIds None;
  _ ← ensure (negb (useGlobalDeviceIds && (channelId <? 0)))
        "channel_id cannot be negative when useGlobalDeviceIds is set";
  check_all_gather allGatherDim (zip operands results).

(** Each operand against the computation, as a reduction of one scalar. *)
Definition check_computation (computation : option BlockSig) (operands : list ShapedType) : result () :=
  check_each (fun operandType =>
      block ← front computation;
      verifyReducerShape block [operandType] [scalar_of operandType] []) operands.

Definition verifyAllReduceOp (operands : list ShapedType) (replicaGroups : option (list Z * list Z)) (channelId : Z)
    (useGlobalDeviceIds : bool) (computation : option BlockSig) : result () :=
  _ ← verifyReplicaGroups replicaGroups false useGlobalDeviceIds None;
  _ ← ensure (negb (useGlobalDeviceIds && (channelId <=? 0))) "channel_id must be positive when useGlobalDeviceIds is set";
  check_computation computation operands.

(** The checks on the operands of a collective with a root. *)
Definition check_root (hasDynamicRoot : bool) (operands : list ShapedType) : result () :=
  _ ← ensure (negb (negb hasDynamicRoot && bool_decide (operands = []))) "requires at least one data operand";
  if hasDynamicRoot then
    _ ← ensure (negb (Z.of_nat (length operands) <? 2))
          "with has_dynamic_root=true requires at least two operands (data + root)";
    rootType ← ok_or (last operands) (UB "back of an empty range");
    _ ← ensure (negb (negb (isInteger (getElementType rootType) 32) || negb (getRank rootType =? 1)))
          "last operand must be a rank-1 i32 tensor";
    d ← getDimSize rootType 0;
    ensure (d =? Z.of_nat (length operands) - 1) "must have the same number of elements as data operands"
  else Ok ().

Definition verifyCollectiveReduceOp (operands : list ShapedType) (replicaGroups : option (list Z * list Z))
    (channelId : Z) (useGlobalDeviceIds hasDynamicRoot : bool) (computation : option BlockSig) : result () :=
  _ ← verifyReplicaGroups replicaGroups false useGlobalDeviceIds None;
  _ ← ensure (negb (useGlobalDeviceIds && (channelId <=? 0))) "channel_id must be positive when useGlobalDeviceIds is set";
  _ ← check_root hasDynamicRoot operands;
  check_computation computation (dataOperands hasDynamicRoot operands).

Definition verifyCollectiveBroadcastOp (operands : list ShapedType) (replicaGroups : option (list Z * list Z))
    (hasDynamicRoot : bool) : result () :=
  _ ← match replicaGroups with
      | None => Ok ()
      | Some (shape, replicaIds) =>
          _ ← ensure (bool_decide (length shape = 2%nat)) "replica groups should be a rank 2 tensor";
          _ ← foldM (fun replicaId replicaIdsSeen =>
                _ ← ensure (negb (replicaId <? 0)) "replica_groups values must be positive";
                _ ← ensure (negb (bool_decide (replicaId ∈ replicaIdsSeen))) "seen more than once";
                Ok ({[replicaId]} ∪ replicaIdsSeen)) replicaIds (∅ : gset Z);
          Ok ()
      end;
  check_root hasDynamicRoot operands.

(** A dense attribute by its shape and its values. *)
Definition verifyCollectivePermuteOp (shape sourceTargetPairs : list Z) : result () :=
  _ ← ensure (bool_decide (length shape = 2%nat)) "expect source_target_pairs attribute to be of rank 2";
  d ← at_z shape 1;
  _ ← ensure (d =? 2) "expect source_target_pairs attribute of shape (N, 2)";
  _ ← foldM (fun '(i, val) '(sources, targets) =>
        _ ← ensure (negb (val <? 0)) "replica ids in source_target_pairs must be >= 0.";
        if Z.rem i 2 =? 0 then
          _ ← ensure (negb (bool_decide (val ∈ sources))) "duplicate sources not allowed.";
          Ok ({[val]} ∪ sources, targets)
        else
          _ ← ensure (negb (bool_decide (val ∈ targets))) "duplicate targets not allowed.";
          Ok (sources, {[val]} ∪ targets))
        (enumerate sourceTargetPairs) ((∅, ∅) : gset Z * gset Z);
  Ok ().

Definition verifyReduceScatterOp (operandType : ShapedType) (scatterDimension : Z)
    (replicaGroups : option (list Z * list Z)) (channelId : Z) (useGlobalDeviceIds : bool)
    (computation : option BlockSig) (resultType : ShapedType) : result () :=
  _ ← verifyReplicaGroups replicaGroups true useGlobalDeviceIds None;
  _ ← check_computation computation [operandType];
  _ ← ensure (getRank operandType =? getRank resultType) "operand and result should have same rank";
  _ ← ensure (scatterDimension <? getRank operandType) "scatter dim should be less than operand/result rank";
  _ ← ensure (negb (useGlobalDeviceIds && (channelId <=? 0))) "channel_id must be positive when useGlobalDeviceIds is set";
  operandScatterDimSize ← getDimSize operandType scatterDimension;
  resultScatterDimSize ← getDimSize resultType scatterDimension;
  if isDynamicDimSize operandScatterDimSize || isDynamicDimSize resultScatterDimSize then Ok ()
  else
    _ ← ensure (negb (resultScatterDimSize =? 0)) "result dimension size at scatter_dimension cannot be zero";
    _ ← ensure (negb (operandScatterDimSize =? 0)) "operand dimension size at scatter_dimension cannot be zero";
    r ← rem_z operandScatterDimSize resultScatterDimSize;
    _ ← ensure (r =? 0) "expected to be a multiple of result scatter dimension size";
    _ ← check_each (fun index =>
          if index =? scatterDimension then Ok ()
          else
            o ← getDimSize operandType index; r ← getDimSize resultType index;
            ensure (verifyCompatibleDims o r) "non scatter dimensions should be same")
          (seqZ 0 (getRank operandType));
    accumulatorTypes ← getAccumulatorTypesOrInputTypes computation [operandType];
    t ← at_z accumulatorTypes 0;
    ensure (bool_decide (getElementType resultType = getElementType t)) "result element-type".

(** ** Operations whose shape is an operand *)
Definition verifyDynamicBroadcastInDimOp (operandType : ShapedType) (outputDimensions : option (list Z))
    (broadcastDimensions : list Z) (knownExpandingDimensions knownNonexpandingDimensions : option (list Z))
    (resultType : ShapedType) : result () :=
  let resultRank := getRank resultType in
  let operandRank := getRank operandType in
  let types := [shaped_type operandType; shaped_type resultType] in
  _ ← ensure (anyQuantized types ||
              isCompatibleElementTypeForHloTypeInference (shaped_type operandType) (shaped_type resultType))
        "expects operand and result to have compatible element type";
  _ ← ensure (Z.of_nat (length broadcastDimensions) =? operandRank) "broadcast_dimensions size does not match operand rank";
  _ ← ensure (negb (resultRank <? operandRank)) "result rank is less than operand rank";
  _ ← ensure (isUnique broadcastDimensions) "broadcast_dimensions should not have duplicates";
  _ ← check_each (fun '(i, dimIndex) =>
        _ ← ensure (negb ((dimIndex <? 0) || (resultRank <=? dimIndex))) "broadcast_dimensions contains invalid value";
        dimSize ← getDimSize operandType i;
        resultDimSize ← getDimSize resultType dimIndex;
        ensure ((dimSize =? 1) || compatibleShapes [dimSize] [resultDimSize])
          "size of operand dimension is not compatible with size of result dimension") (enumerate broadcastDimensions);
  _ ← verifyShapeOperandIsCompatibleWithResultType outputDimensions resultType;
  let hints := default [] knownExpandingDimensions ++ default [] knownNonexpandingDimensions in
  let knownExpansionBehavior := list_to_set hints : gset Z in
  _ ← ensure (bool_decide (base.size knownExpansionBehavior = length hints))
        "duplicate expansion hint for at least one operand dimension";
  _ ← ensure (forallb (fun i => negb ((i <? 0) || (operandRank <=? i))) (elements knownExpansionBehavior))
        "hint for expanding dimension does not refer to a valid operand dimension";
  _ ← match outputDimensions with
      | Some shape =>
          if hasStaticShape operandType then
            check_each (fun '(i, dimIndex) =>
                dimSize ← getDimSize operandType i;
                if isDynamicDimSize dimSize then Ok ()
                else
                  shapeDimSize ← at_z shape dimIndex;
                  ensure ((dimSize =? 1) || (dimSize =? shapeDimSize))
                    "size of operand dimension is not equal to 1 or value of shape") (enumerate broadcastDimensions)
          else Ok ()
      | None => Ok ()
      end;
  if isPerAxis (getElementType resultType) then
    verifyBroadcastInDimOpQuantConstraints operandType resultType broadcastDimensions
  else Ok ().

Definition verifyDynamicIotaOp (outputShape : option (list Z)) (iotaDimension : Z) (resultType : ShapedType) : result () :=
  _ ← ensure (iotaDimension <? getRank resultType) "iota dimension cannot go beyond the output rank.";
  verifyShapeOperandIsCompatibleWithResultType outputShape resultType.

Definition verifyIotaOp (iotaDimension : Z) (shape : ShapedType) : result () :=
  _ ← ensure (negb (getRank shape =? 0)) "does not support scalars.";
  ensure (iotaDimension <? getRank shape) "iota dimension cannot go beyond the output rank.".

(** The size that [dynamic_pad] wants a dimension to have. *)
Definition padded_dim (in_ low high interior : Z) : result Z :=
  s ← i64 (in_ + low);
  m ← i64 (in_ - 1);
  p ← i64 (Z.max m 0 * interior);
  s ← i64 (s + p);
  i64 (s + high).

Definition verifyDynamicPadOp (inputType paddingLowType : ShapedType)
    (edgePaddingLow edgePaddingHigh interiorPadding : option (list Z)) (outputType : ShapedType) : result () :=
  let inputRank := getRank inputType in
  paddingSize ← getDimSize paddingLowType 0;
  _ ← ensure (paddingSize =? inputRank) "padding operands size must match operand rank";
  _ ← ensure (match interiorPadding with Some l => forallb (fun i => negb (i <? 0)) l | None => true end)
        "interior_padding must be non-negative";
  if negb (hasStaticShape inputType) || negb (hasStaticShape outputType) then Ok ()
  else
    match interiorPadding, edgePaddingLow, edgePaddingHigh with
    | Some interior, Some low, Some high =>
        let n := length (getShape outputType) in
        if negb (forallb (fun l => bool_decide (length l = n)) [getShape inputType; low; high; interior]) then
          Err (UB "assert: enumerate expects equal lengths")
        else check_each (fun '(i, out) =>
            in_ ← getDimSize inputType i; lo ← at_z low i; hi ← at_z high i; int ← at_z interior i;
            want ← padded_dim in_ lo hi int;
            ensure (out =? want) "expected output dimension") (enumerate (getShape outputType))
    | _, _, _ => Ok ()
    end.

Definition verifyDynamicReshapeOp (operandType outputShapeType : ShapedType) (outputShape : option (list Z))
    (resultType : ShapedType) : result () :=
  let types := [shaped_type operandType; shaped_type resultType] in
  _ ← ensure (anyQuantized types ||
              isCompatibleElementTypeForHloTypeInference (shaped_type operandType) (shaped_type resultType))
        "expects operand and result to have compatible element type";
  _ ← ensure (negb (hasStaticShape resultType && hasStaticShape operandType) ||
              (getNumElements resultType =? getNumElements operandType))
        "number of output elements doesn't match expected number of elements";
  _ ← verifyShapeOperandIsCompatibleWithResultType outputShape resultType;
  d ← getDimSize outputShapeType 0;
  _ ← ensure (d =? getRank resultType) "result should have a rank equal to the number of elements in output_shape";
  _ ← match outputShape with
      | Some shape =>
          if hasStaticShape operandType then
            shapeCount ← foldM (fun d acc => i64 (acc * d)) shape 1;
            ensure (getNumElements operandType =? shapeCount) "output_shape is incompatible with input type of operation"
          else Ok ()
      | None => Ok ()
      end;
  if anyQuantized types then verifyReshapeOpQuantizationConstraints operandType resultType else Ok ().

Definition verifyRealDynamicSliceOp (inputType startType limitType stridesType : ShapedType) : result () :=
  let check (type : ShapedType) (msg : string) :=
    if hasStaticShape type then ensure (getRank inputType =? getNumElements type) msg
    else Err (UB "assert: getNumElements of a dynamic shape") in
  _ ← check startType "has mismatched number of operand rank and start_indices size";
  _ ← check limitType "has mismatched number of operand rank and limit_indices size";
  check stridesType "has mismatched number of operand rank and strides size".

(** ** Tokens and channels *)
Definition isTokenType (t : Ty) : bool := match t with TokenType => true | _ => false end.
Definition isa_TensorType (t : Ty) : bool :=
  match t with RankedTensorType _ _ _ | UnrankedTensorType _ => true | _ => false end.

Definition inferAfterAllOp : Ty := TokenType.
Definition inferCreateTokenOp : Ty := TokenType.
Definition inferOutfeedOp : Ty := TokenType.
Definition inferPartitionIdOp : ShapedType := MkShaped [] (IntegerType Unsigned 32) None.
Definition inferReplicaIdOp : ShapedType := MkShaped [] (IntegerType Unsigned 32) None.

Definition inferSendOp (isDeviceToDevice isDeviceToHost isHostTransfer : bool) : result Ty :=
  _ ← ensure (negb (negb isHostTransfer && negb isDeviceToDevice)) "channel_type should be DEVICE_TO_DEVICE";
  _ ← ensure (negb (isHostTransfer && negb isDeviceToHost)) "channel_type should be DEVICE_TO_HOST";
  Ok TokenType.

(** Tensors, and a token last. *)
Definition check_token_results (resultTypes : list Ty) : result () :=
  _ ← ensure (negb (bool_decide (resultTypes = []))) "result is expected to be at least of size 1";
  _ ← ensure (forallb isa_TensorType (drop_back 1 resultTypes)) "everything but the last element to be of tensor type";
  t ← ok_or (last resultTypes) (UB "back of an empty range");
  ensure (isTokenType t) "last element of result types is expected to be of token type".

Definition verifyRecvOp (isDeviceToDevice isHostToDevice isHostTransfer : bool) (resultTypes : list Ty) : result () :=
  _ ← ensure (negb (negb isHostTransfer && negb isDeviceToDevice)) "channel_type should be DEVICE_TO_DEVICE";
  _ ← ensure (negb (isHostTransfer && negb isHostToDevice)) "channel_type should be HOST_TO_DEVICE";
  check_token_results resultTypes.

(** [layout]: for each child, its leaves if it is an array, and whether a leaf is an integer. *)
Definition verifyInfeedOp (layout : option (list (option (list bool)))) (resultTypes : list Ty) : result () :=
  _ ← check_token_results resultTypes;
  match layout with
  | None => Ok ()
  | Some layout =>
      _ ← ensure (Z.of_nat (length layout) =? Z.of_nat (length resultTypes) - 1) "layout-attribute size must be";
      check_each (fun childLayout =>
          leaves ← ok_or childLayout (Failed "layout-attribute expected to have elements of type array");
          ensure (forallb id leaves) "layout-attribute's leaf elements are expected to be of type integer") layout
  end.

(** ** Composites *)

(** The regular expression [^[a-zA-Z][a-zA-Z0-9_]*([.][a-zA-Z0-9_$]+)+$], read from the
    left: the name space, then parts that start with a dot. *)
Definition char_in (lo hi c : ascii) : bool := (nat_of_ascii lo <=? nat_of_ascii c)%nat && (nat_of_ascii c <=? nat_of_ascii hi)%nat.
Definition is_letter (c : ascii) : bool := char_in "a" "z" c || char_in "A" "Z" c.
Definition is_word (c : ascii) : bool := is_letter c || char_in "0" "9" c || Ascii.eqb c "_".
Definition is_part (c : ascii) : bool := is_word c || Ascii.eqb c "$".

(** [started]: a character of the current part was read. *)
Fixpoint match_parts (started : bool) (name : string) : bool :=
  match name with
  | EmptyString => started
  | String c name =>
      if is_part c then match_parts true name else started && Ascii.eqb c "." && match_parts false name
  end.
Fixpoint match_namespace (name : string) : bool :=
  match name with
  | EmptyString => false
  | String c name => if is_word c then match_namespace name else Ascii.eqb c "." && match_parts false name
  end.
Definition nameRegex (name : string) : bool :=
  match name with
  | EmptyString => false
  | String c name => is_letter c && match_namespace name
  end.

(** [decomp]: the type of the function the symbol table finds, if any. *)
Definition verifyCompositeOp (name : string) (decomp : option (list Ty * list Ty)) (types resTypes : list Ty) : result () :=
  _ ← ensure (nameRegex name) "name must be a valid namespaced op name";
  '(decompTypes, decompResTypes) ← ok_or decomp (Failed "does not reference a valid function");
  _ ← ensure (bool_decide (types = decompTypes)) "operands do not match the decomposition";
  ensure (bool_decide (resTypes = decompResTypes)) "results do not match the decomposition".

(** ** Accuracy of results *)
Section Accuracy.
Context `{L : LLVM}.

Definition verifyResultAccuracyCombination (atol rtol : APFloat) (ulps : Z) (mode : string) : result () :=
  if String.eqb mode "DEFAULT" || String.eqb mode "HIGHEST" then
    ensure (apfloat_isZero atol && apfloat_isZero rtol && (ulps =? 0)) "Invalid tolerances for ResultAccuracyAttr"
  else Ok ().

Definition verifyResultAccuracyAttr (atol rtol : APFloat) (ulps : Z) (mode : string) : result () :=
  _ ← ensure (negb (apfloat_isNegative atol || apfloat_isNegative rtol || (ulps <? 0))) "Negative tolerance";
  verifyResultAccuracyCombination atol rtol ulps mode.
End Accuracy.

(** ** Attributes of windows *)

(** [convert1DAttribute] and [convertWindowReversalAttribute]: a dense attribute by its shape and values. *)
Definition convert1DAttribute (optionalAttr : option (list Z * list Z)) : result (list Z) :=
  match optionalAttr with
  | None => Ok []
  | Some (shape, values) => _ ← ensure (bool_decide (length shape = 1%nat)) "expects the attribute to be 1-D"; Ok values
  end.
Definition convertWindowReversalAttribute (optionalAttr : option (list Z * list bool)) : result (list bool) :=
  match optionalAttr with
  | None => Ok []
  | Some (shape, values) => _ ← ensure (bool_decide (length shape = 1%nat)) "expects the attribute to be 1-D"; Ok values
  end.
