(* ===== verification/Ops.v ===== *)
(** * The tensor operations of the interpreter

    [src/stablehlo/reference/Ops.cpp], the operations that neither evaluate a
    region nor talk to other processes: one definition per function, over the
    loops of [Index.v] and the tensors of [Tensor.v]. *)
From S2P Require Import Prelude Types Support Index Element Tensor Base TypeInference.

Section Ops.
Context `{L : LLVM}.

Abbreviation Axes := (list Z) (only parsing).

(** ** Helpers *)

(** [evalIndex(ArrayRef<Tensor>)] and [evalIndex(Tensor)] *)
Definition evalIndexScalars (scalars : list Tensor) : result Index :=
  mapM (fun t => e ← get t []; v ← getIntegerValue e; Ok (getSExtValue v)) scalars.

Definition evalIndex (tensor : Tensor) : result Index :=
  for_index (getTensorShape tensor) (fun i result =>
    e ← get tensor i; v ← getIntegerValue e; Ok (result ++ [getSExtValue v])) [].

(** A failed inference is reported as a fatal error. *)
Definition or_fatal {A} (msg : string) (m : result A) : result A :=
  match m with Err (Failed _) => Err (Fatal msg) | _ => m end.

Definition extractElements (arr indices : list Z) : result Sizes := mapM (fun index => at_z arr index) indices.

Definition constant (initValue : Element) : result Tensor :=
  result ← newTensor (shaped [] (getType initValue)); set result [] initValue.

(** [constant(value, elementType)] for a [double] and for an [int64_t] *)
Definition constant_double (value : double) (elementType : Ty) : result Tensor :=
  e ← convert_double elementType value; constant e.
Definition constant_i64 (value : Z) (elementType : Ty) : result Tensor :=
  e ← convert_i64 elementType value; constant e.

Definition makeSplat (type : ShapedType) (initValue : Element) : result Tensor :=
  build type (fun _ => Ok initValue).

(** ** Elementwise operations *)
Definition elementwise1 (f : Element -> result Element) (operand : Tensor) (resultType : ShapedType)
    : result Tensor :=
  build resultType (fun i => a ← get operand i; f a).

Definition elementwise2 (f : Element -> Element -> result Element) (lhs rhs : Tensor)
    (resultType : ShapedType) : result Tensor :=
  build resultType (fun i => a ← get lhs i; b ← get rhs i; f a b).

Definition absOp := elementwise1 abs.
Definition addOp := elementwise2 el_add.
Definition andOp := elementwise2 el_and.
Definition atan2Op := elementwise2 atan2.
Definition cbrtOp := elementwise1 cbrt.
Definition ceilOp := elementwise1 ceil.
Definition complexOp := elementwise2 complex.
Definition cosineOp := elementwise1 cosine.
Definition divideOp := elementwise2 el_div.
Definition expm1Op := elementwise1 exponentialMinusOne.
Definition exponentialOp := elementwise1 exponential.
Definition floorOp := elementwise1 floor.
Definition imagOp := elementwise1 imag.
Definition isFiniteOp := elementwise1 isFinite.
Definition log1pOp := elementwise1 logPlusOne.
Definition logOp := elementwise1 log.
Definition logisticOp := elementwise1 logistic.
Definition maxOp := elementwise2 max.
Definition minOp := elementwise2 min.
Definition multiplyOp := elementwise2 el_mul.
Definition negOp := elementwise1 el_neg.
Definition notOp := elementwise1 el_not.
Definition orOp := elementwise2 el_or.
Definition populationCountOp := elementwise1 popcnt.
Definition powerOp := elementwise2 power.
Definition realOp := elementwise1 real.
Definition reducePrecisionOp (operand : Tensor) (exponentBits mantissaBits : Z) :=
  elementwise1 (fun e => reducePrecision e exponentBits mantissaBits) operand.
Definition remOp := elementwise2 rem.
Definition roundNearestEvenOp := elementwise1 roundNearestEven.
Definition roundOp := elementwise1 roundNearestAfz.
Definition rsqrtOp := elementwise1 rsqrt.
Definition shiftLeftOp := elementwise2 shiftLeft.
Definition shiftRightArithmeticOp := elementwise2 shiftRightArithmetic.
Definition shiftRightLogicalOp := elementwise2 shiftRightLogical.
Definition signOp := elementwise1 sign.
Definition sineOp := elementwise1 sine.
Definition sqrtOp := elementwise1 sqrt.
Definition subtractOp := elementwise2 el_sub.
Definition tanOp := elementwise1 tan.
Definition tanhOp := elementwise1 tanh.
Definition xorOp := elementwise2 el_xor.
Definition convertOp (operand : Tensor) (resultType : ShapedType) : result Tensor :=
  elementwise1 (convert (getElementType resultType)) operand resultType.
Definition clzOp (operand : Tensor) (resultType : ShapedType) : result Tensor :=
  elementwise1 (fun e => v ← getIntegerValue e;
    convert_u64 (getElementType resultType) (countLeadingZeros v)) operand resultType.

Inductive ComparisonDirection := EQ | NE | GE | GT | LE | LT.
Definition compare_elements (comparisonDirection : ComparisonDirection)
    : Element -> Element -> result Element :=
  match comparisonDirection with
  | EQ => el_eq | NE => el_ne | GE => el_ge | GT => el_gt | LE => el_le | LT => el_lt
  end.
Definition compareOp (lhs rhs : Tensor) (comparisonDirection : ComparisonDirection)
    (resultType : ShapedType) : result Tensor :=
  elementwise2 (compare_elements comparisonDirection) lhs rhs resultType.

(** An operand that is a scalar is used at every index. *)
Definition get_or_scalar (t : Tensor) (i : Index) : result Element :=
  if negb (getTensorRank t =? 0) then get t i else get t [].

Definition clampOp (mn operand mx : Tensor) (resultType : ShapedType) : result Tensor :=
  build resultType (fun i =>
    minElement ← get_or_scalar mn i;
    maxElement ← get_or_scalar mx i;
    e ← get operand i;
    m ← Element.max e minElement;
    Element.min m maxElement).

Definition selectOp (pred onTrue onFalse : Tensor) (resultType : ShapedType) : result Tensor :=
  build resultType (fun i =>
    predValue ← get_or_scalar pred i;
    b ← getBooleanValue predValue;
    if (b : bool) then get onTrue i else get onFalse i).

(** ** Data movement *)
Definition broadcastInDimOp (operand : Tensor) (broadcastDimensions : Axes) (resultType : ShapedType)
    : result Tensor :=
  build resultType (fun resultIndex =>
    operandIndex ← foldM (fun d operandIndex =>
        s ← at_z (getTensorShape operand) d;
        if s =? 1 then Ok operandIndex
        else
          b ← at_z broadcastDimensions d;
          x ← at_z resultIndex b;
          set_z operandIndex d x)
      (seqZ 0 (getTensorRank operand)) (replicate (Z.to_nat (getTensorRank operand)) 0);
    get operand operandIndex).

Definition concatenateOp (inputs : list Tensor) (dimension : Z) (resultType : ShapedType) : result Tensor :=
  result ← newTensor resultType;
  fst <$> foldM (fun input '(result, dimensionOffset) =>
      result ← for_index (getTensorShape input) (fun inputIndex result =>
          x ← at_z inputIndex dimension;
          x ← i64 (x + dimensionOffset);
          resultIndex ← set_z inputIndex dimension x;
          e ← get input inputIndex;
          set result resultIndex e) result;
      s ← at_z (getTensorShape input) dimension;
      dimensionOffset ← i64 (dimensionOffset + s);
      Ok (result, dimensionOffset))
    inputs (result, 0).

Definition constantOp (value : DenseElementsAttr) : result Tensor := makeTensor value.

Definition dynamicSliceOp (operand : Tensor) (startIndices : list Tensor) (sliceSizes : Sizes)
    (resultType : ShapedType) : result Tensor :=
  result ← newTensor resultType;
  starts ← evalIndexScalars startIndices;
  limits ← sizes_sub (getTensorShape operand) sliceSizes;
  adjustedStartIndices ← clamp_lo 0 starts limits;
  for_set (fun resultIndex =>
    operandIndex ← sizes_add adjustedStartIndices resultIndex;
    get operand operandIndex) result.

Definition dynamicUpdateSliceOp (operand update : Tensor) (startIndices : list Tensor)
    (resultType : ShapedType) : result Tensor :=
  result ← newTensor resultType;
  starts ← evalIndexScalars startIndices;
  limits ← sizes_sub (getTensorShape operand) (getTensorShape update);
  adjustedStartIndices ← clamp_lo 0 starts limits;
  for_set (fun resultIndex =>
    updateIndex ← sizes_sub resultIndex adjustedStartIndices;
    if inBounds updateIndex (getTensorShape update) then get update updateIndex
    else get operand resultIndex) result.

Definition getDimensionSizeOp (operand : Tensor) (dimension : Z) (resultType : ShapedType) : result Tensor :=
  result ← newTensor resultType;
  s ← at_z (getTensorShape operand) dimension;
  e ← convert_i64 (getElementType resultType) s;
  set result [] e.

Definition iotaOp (iotaDimension : Z) (resultType : ShapedType) : result Tensor :=
  build resultType (fun i => x ← at_z i iotaDimension; convert_i64 (getElementType resultType) x).

(** [padOp] with the result type given *)
Definition padOp (operand paddingValue : Tensor) (edgePaddingLow interiorPadding : Sizes)
    (resultType : ShapedType) : result Tensor :=
  v ← get paddingValue [];
  result ← makeSplat resultType v;
  for_index (getTensorShape operand) (fun operandIndex result =>
    step ← sizes_add_r interiorPadding 1;
    scaled ← sizes_mul operandIndex step;
    resultIndex ← sizes_add edgePaddingLow scaled;
    if inBounds resultIndex (getTensorShape result) then
      e ← get operand operandIndex; set result resultIndex e
    else Ok result) result.

Definition inferredPadOp (operand paddingValue : Tensor) (edgePaddingLow edgePaddingHigh interiorPadding : Sizes)
    : result Tensor :=
  t ← or_fatal "Could not infer PadOp's return type"
        (inferPadOp (getTensorType operand) edgePaddingLow edgePaddingHigh interiorPadding);
  padOp operand paddingValue edgePaddingLow interiorPadding t.

(** The two iterators advance together until the result's is at its end. *)
Fixpoint reshape_loop (fuel : nat) (operand : Tensor) (resultIt last operandIt : IndexSpaceIterator)
    (result : Tensor) : Prelude.result Tensor :=
  if decide (resultIt = last) then Ok result
  else match fuel with
       | O => Err OutOfFuel
       | S fuel =>
           resultIndex ← iter_deref resultIt;
           operandIndex ← iter_deref operandIt;
           e ← get operand operandIndex;
           result ← set result resultIndex e;
           resultIt ← iter_incr resultIt;
           operandIt ← iter_incr operandIt;
           reshape_loop fuel operand resultIt last operandIt result
       end.

Definition reshapeOp (operand : Tensor) (resultType : ShapedType) : result Tensor :=
  result ← newTensor resultType;
  let shape := getShape resultType in
  reshape_loop (Z.to_nat (prod_z shape)) operand (index_begin shape) (index_end shape)
    (index_begin (getTensorShape operand)) result.

Definition reverseOp (operand : Tensor) (dimensions : Axes) (resultType : ShapedType) : result Tensor :=
  build resultType (fun resultIndex =>
    operandIndex ← foldM (fun d operandIndex =>
        s ← at_z (getShape resultType) d;
        x ← at_z operandIndex d;
        x ← i64 (s - x);
        x ← i64 (x - 1);
        set_z operandIndex d x) dimensions resultIndex;
    get operand operandIndex).

(** [sliceOp] with the result type given, inferred, and on an index with colons *)
Definition sliceOp (operand : Tensor) (startIndices strides : Sizes) (resultType : ShapedType)
    : result Tensor :=
  build resultType (fun resultIndex =>
    scaled ← sizes_mul resultIndex strides;
    operandIndex ← sizes_add startIndices scaled;
    get operand operandIndex).

Definition inferredSliceOp (operand : Tensor) (startIndices limitIndices strides : Sizes) : result Tensor :=
  t ← or_fatal "Could not infer SliceOp's return type"
        (inferSliceOp (getTensorType operand) startIndices limitIndices strides);
  sliceOp operand startIndices strides t.

Definition kColon : Z := -1.

Definition indexSliceOp (operand : Tensor) (index : Index) : result Tensor :=
  '(start, limit) ← foldM (fun i '(start, limit) =>
      x ← at_z index i;
      if x =? -1 then
        s ← at_z (getTensorShape operand) i; Ok (start ++ [0], limit ++ [s])
      else x1 ← i64 (x + 1); Ok (start ++ [x], limit ++ [x1]))
    (seqZ 0 (getTensorRank operand)) ([], []);
  inferredSliceOp operand start limit (replicate (Z.to_nat (getTensorRank operand)) 1).

Definition transposeOp (operand : Tensor) (permutation : Axes) (resultType : ShapedType) : result Tensor :=
  result ← newTensor resultType;
  for_index (getTensorShape operand) (fun operandIndex result =>
    resultIndex ← foldM (fun d resultIndex =>
        p ← at_z permutation d; x ← at_z operandIndex p; set_z resultIndex d x)
      (seqZ 0 (getRank resultType)) (replicate (Z.to_nat (getRank resultType)) 0);
    e ← get operand operandIndex;
    set result resultIndex e) result.

Definition split (x : Tensor) (numResults axis : Z) : result (list Tensor) :=
  let resultShape := getTensorShape x in
  s ← at_z resultShape axis;
  r ← rem_z s numResults;
  if negb (r =? 0) then Err (Fatal "input dimension at axis should be divisible by numResults")
  else
    let s' := Z.quot s numResults in
    resultShape ← set_z resultShape axis s';
    mapM (fun i =>
        zero ← constant_double (double_of_Z 0) (IntegerType Signless 64);
        p ← i64 (i * s');
        start ← constant_i64 p (IntegerType Signless 64);
        inputStartIndices ← set_z (replicate (Z.to_nat (getTensorRank x)) zero) axis start;
        dynamicSliceOp x inputStartIndices resultShape (shaped resultShape (getTensorElementType x)))
      (seqZ 0 numResults).

(** ** Bitcasts *)

(** The loop over [resultElements], advancing the result's iterator. *)
Definition set_next (resultElement : Element) (st : Tensor * IndexSpaceIterator)
    : result (Tensor * IndexSpaceIterator) :=
  '(it, it') ← iter_post_incr st.2;
  i ← iter_deref it;
  t ← set st.1 i resultElement;
  Ok (t, it').

Definition get_next (operand : Tensor) (st : list Element * IndexSpaceIterator)
    : result (list Element * IndexSpaceIterator) :=
  '(it, it') ← iter_post_incr st.2;
  i ← iter_deref it;
  e ← get operand i;
  Ok (st.1 ++ [e], it').

Definition bitcastConvertOp (operand : Tensor) (resultType : ShapedType) : result Tensor :=
  result ← newTensor resultType;
  let resultElementType := getElementType resultType in
  resultNumBits ← numBits resultElementType;
  operandNumBits ← numBits (getTensorElementType operand);
  if resultNumBits <? operandNumBits then
    fst <$> for_index (getTensorShape operand) (fun operandIndex st =>
        e ← get operand operandIndex;
        resultElements ← bitcastConvertOneToMany resultElementType e;
        foldM set_next resultElements st)
      (result, index_begin (getShape resultType))
  else if operandNumBits <? resultNumBits then
    fst <$> for_index (getShape resultType) (fun resultIndex '(result, operandIt) =>
        '(operandElements, operandIt) ← foldM (fun _ => get_next operand)
          (seqZ 0 (Z.quot resultNumBits operandNumBits)) ([], operandIt);
        e ← bitcastConvertManyToOne resultElementType operandElements;
        result ← set result resultIndex e;
        Ok (result, operandIt))
      (result, index_begin (getTensorShape operand))
  else
    for_set (fun i => e ← get operand i; bitcastConvertOneToOne resultElementType e) result.
End Ops.
