(* ===== verification/Linear.v ===== *)
(** * Contractions, convolutions and transforms

    [src/stablehlo/reference/Ops.cpp]: [dotGeneralOp], [convolutionOp],
    [gatherOp], [triangularSolveOp] and [fftOp] with its helpers. *)
From S2P Require Import Prelude Types Support Index Element Tensor Base TypeInference Ops.

Section Linear.
Context `{L : LLVM}.

(** ** [dotGeneralOp] *)

(** The loop of [incrementIndices]: [n] counts the contracting dimensions still
    to visit; the boolean is [succeeded]. *)
Fixpoint increment_loop (n : nat) (lhsShape : Sizes) (lhsContracting rhsContracting : list Z)
    (lhsIndex rhsIndex : Index) : result (bool * Index * Index) :=
  match n with
  | O => Ok (true, lhsIndex, rhsIndex)
  | S i =>
      dl ← at_z lhsContracting (Z.of_nat i);
      dr ← at_z rhsContracting (Z.of_nat i);
      x ← at_z lhsIndex dl; x ← i64 (x + 1); lhsIndex ← set_z lhsIndex dl x;
      y ← at_z rhsIndex dr; y ← i64 (y + 1); rhsIndex ← set_z rhsIndex dr y;
      s ← at_z lhsShape dl;
      if x <? s then Ok (true, lhsIndex, rhsIndex)
      else if decide (i = O) then Ok (false, lhsIndex, rhsIndex)
      else
        lhsIndex ← set_z lhsIndex dl 0;
        rhsIndex ← set_z rhsIndex dr 0;
        increment_loop i lhsShape lhsContracting rhsContracting lhsIndex rhsIndex
  end.

Definition incrementIndices (lhsShape : Sizes) (lhsContracting rhsContracting : list Z)
    (lhsIndex rhsIndex : Index) : result (bool * Index * Index) :=
  match lhsContracting with
  | [] => Ok (false, lhsIndex, rhsIndex)
  | _ => increment_loop (length lhsContracting) lhsShape lhsContracting rhsContracting lhsIndex rhsIndex
  end.

(** The [while (true)] loop that accumulates one result element. *)
Fixpoint dot_loop (fuel : nat) (lhs rhs : Tensor) (lhsContracting rhsContracting : list Z)
    (elementType : Ty) (lhsIndex rhsIndex : Index) (resultElement : Element) : result Element :=
  match fuel with
  | O => Err OutOfFuel
  | S fuel =>
      a ← get lhs lhsIndex;
      a ← convert elementType a;
      b ← get rhs rhsIndex;
      b ← convert elementType b;
      p ← el_mul a b;
      resultElement ← el_add resultElement p;
      '(more, lhsIndex, rhsIndex) ←
        incrementIndices (getTensorShape lhs) lhsContracting rhsContracting lhsIndex rhsIndex;
      if (more : bool)
      then dot_loop fuel lhs rhs lhsContracting rhsContracting elementType lhsIndex rhsIndex resultElement
      else Ok resultElement
  end.

(** [dst[dims[i]] = src[offset + i]] for every position [i] of [dims]. *)
Definition scatter_dims (dims : list Z) (src : Index) (offset : Z) (dst : Index) : result Index :=
  foldM (fun i dst => d ← at_z dims i; x ← at_z src (offset + i); set_z dst d x)
    (seqZ 0 (Z.of_nat (length dims))) dst.

Definition contracting_sizes (lhs : Tensor) (lhsContracting : list Z) : Sizes :=
  (fun d => default 0 (getTensorShape lhs !! Z.to_nat d)) <$> lhsContracting.

Definition dotGeneralOp (lhs rhs : Tensor)
    (lhsBatchingDimensions rhsBatchingDimensions lhsContractingDimensions rhsContractingDimensions : list Z)
    (resultType : ShapedType) : result Tensor :=
  let lhsResultDims := result_dims (getTensorRank lhs) lhsBatchingDimensions lhsContractingDimensions in
  let rhsResultDims := result_dims (getTensorRank rhs) rhsBatchingDimensions rhsContractingDimensions in
  let nb := Z.of_nat (length lhsBatchingDimensions) in
  let nl := Z.of_nat (length lhsResultDims) in
  build resultType (fun resultIndex =>
    lhsIndex ← scatter_dims lhsBatchingDimensions resultIndex 0
                 (replicate (Z.to_nat (getTensorRank lhs)) 0);
    rhsIndex ← foldM (fun i rhsIndex =>
        d ← at_z rhsBatchingDimensions i; x ← at_z resultIndex i; set_z rhsIndex d x)
      (seqZ 0 nb) (replicate (Z.to_nat (getTensorRank rhs)) 0);
    lhsIndex ← scatter_dims lhsResultDims resultIndex nb lhsIndex;
    rhsIndex ← scatter_dims rhsResultDims resultIndex (nb + nl) rhsIndex;
    zero ← getZeroValueOfType (getElementType resultType);
    dot_loop (S (Z.to_nat (prod_z (contracting_sizes lhs lhsContractingDimensions)))) lhs rhs
      lhsContractingDimensions rhsContractingDimensions (getElementType resultType) lhsIndex rhsIndex zero).

(** With the result's shape inferred, and no batching dimension. *)
Definition inferredDotGeneralOp (lhs rhs : Tensor)
    (lhsContractingDimensions rhsContractingDimensions : list Z) (resultElementType : Ty) : result Tensor :=
  '(dims, _) ← or_fatal "Could not infer DotGeneralOp's return type"
    (inferDotGeneralOp (getTensorType lhs) (getTensorType rhs) [] []
       lhsContractingDimensions rhsContractingDimensions None);
  dotGeneralOp lhs rhs [] [] lhsContractingDimensions rhsContractingDimensions
    (shaped dims resultElementType).

(** ** [convolutionOp] *)
Record ConvParams := MkConv {
  windowStrides : list Z; padding : list (Z * Z); lhsDilation : list Z; rhsDilation : list Z;
  windowReversal : list bool; dims :> ConvDims;
}.

(** [result[permutation[i]] = input[i]] for the input [[n] ++ hw ++ [c]]. *)
Definition concatAndPermute {T} (d n : T) (hw : list T) (c : T) (permutation : list Z) : result (list T) :=
  let size := Z.of_nat (length permutation) in
  p0 ← at_z permutation 0;
  result ← set_z (replicate (length permutation) d) p0 n;
  pl ← at_z permutation (size - 1);
  result ← set_z result pl c;
  foldM (fun i result => p ← at_z permutation i; x ← at_z hw (i - 1); set_z result p x)
    (seqZ 1 (size - 2)) result.

(** The part of [convolutionOp] after the group counts. *)
Definition convolution_ungrouped (lhs rhs : Tensor) (c : ConvParams) (resultType : ShapedType) : result Tensor :=
  result ← newTensor resultType;
  let elementType := getElementType resultType in
  let lhsPermutation := [inputBatchDimension c] ++ inputSpatialDimensions c ++ [inputFeatureDimension c] in
  n ← at_z (getTensorShape lhs) (inputBatchDimension c);
  hw ← extractElements (getTensorShape rhs) (kernelSpatialDimensions c);
  f ← at_z (getTensorShape lhs) (inputFeatureDimension c);
  lhsWindowDimensions ← concatAndPermute 0 n hw f lhsPermutation;
  lhsWindowStrides ← concatAndPermute 0 1 (windowStrides c) 1 lhsPermutation;
  dilation ← sizes_sub_r (lhsDilation c) 1;
  lhsBaseDilations ← concatAndPermute 0 0 dilation 0 lhsPermutation;
  lhsWindowDilations ← concatAndPermute 0 1 (rhsDilation c) 1 lhsPermutation;
  lhsPadding ← concatAndPermute (0, 0) (0, 0) (padding c) (0, 0) lhsPermutation;
  paddingValue ← constant_double (double_of_Z 0) elementType;
  paddedLhs ← inferredPadOp lhs paddingValue lhsPadding.*1 lhsPadding.*2 lhsBaseDilations;
  outputSpatialShape ← extractElements (getShape resultType) (outputSpatialDimensions c);
  let start := iter_at outputSpatialShape (Some (replicate (length (outputSpatialDimensions c)) 0)) in
  for_loop (Z.to_nat (prod_z outputSpatialShape)) start (iter_end outputSpatialShape)
    (fun outputSpatialIndex result =>
      offsets ← concatAndPermute 0 0 outputSpatialIndex 0 lhsPermutation;
      lhsWindowStart ← mapM (fun '(i, offset) => s ← at_z lhsWindowStrides i; i64 (s * offset))
                         (zip (seqZ 0 (Z.of_nat (length offsets))) offsets);
      limitIndices ← mapM (fun '(i, start) =>
          d ← at_z lhsWindowDimensions i; w ← at_z lhsWindowDilations i; p ← i64 (d * w);
          l ← i64 (start + p); s ← at_z (getTensorShape paddedLhs) i; Ok (Z.min l s))
        (zip (seqZ 0 (Z.of_nat (length lhsWindowStart))) lhsWindowStart);
      lhsWindow ← inferredSliceOp paddedLhs lhsWindowStart limitIndices lhsWindowDilations;
      reverseDims ← foldM (fun '(i, isReverse) reverseDims =>
          if (isReverse : bool)
          then d ← at_z (inputSpatialDimensions c) i; Ok (reverseDims ++ [d])
          else Ok reverseDims)
        (zip (seqZ 0 (Z.of_nat (length (windowReversal c)))) (windowReversal c)) [];
      reversedLhsWindow ← reverseOp lhsWindow reverseDims (getTensorType lhsWindow);
      dotProduct ← inferredDotGeneralOp reversedLhsWindow rhs
        (inputSpatialDimensions c ++ [inputFeatureDimension c])
        (kernelSpatialDimensions c ++ [kernelInputFeatureDimension c]) elementType;
      resultNonSpatialDims ← extractElements (getShape resultType)
        (filter (fun i => i ∉ outputSpatialDimensions c) (seqZ 0 (getRank resultType)));
      let resultPermutation :=
        [outputBatchDimension c] ++ outputSpatialDimensions c ++ [outputFeatureDimension c] in
      fst <$> for_index (getTensorShape dotProduct) (fun dotProductIndex '(result, resultNonSpatialIt) =>
          nonSpatial ← iter_deref resultNonSpatialIt;
          x0 ← at_z nonSpatial 0;
          x1 ← at_z nonSpatial 1;
          resultIndex ← concatAndPermute 0 x0 outputSpatialIndex x1 resultPermutation;
          e ← get dotProduct dotProductIndex;
          result ← set result resultIndex e;
          resultNonSpatialIt ← iter_incr resultNonSpatialIt;
          Ok (result, resultNonSpatialIt))
        (result, iter_at resultNonSpatialDims (Some (replicate (length resultNonSpatialDims) 0))))
    result.

(** The overload that infers the result's shape, around the operation on the
    group counts it is called with. The padding is passed as an attribute of shape [rank - 2, 2]. *)
Definition inferredConvolutionOp
    (convolutionOp : Tensor -> Tensor -> ConvParams -> ShapedType -> result Tensor)
    (lhs rhs : Tensor) (c : ConvParams) (featureGroupCount batchGroupCount : Z) (resultType : ShapedType)
    : result Tensor :=
  let paddingVector := flat_map (fun '(lo, hi) => [lo; hi]) (padding c) in
  if negb (2 * (getTensorRank lhs - 2) =? Z.of_nat (length paddingVector)) then
    Err (UB "assert: the values of an attribute match its shape")
  else
    shape ← or_fatal "Could not infer ConvolutionOp's return type"
      (inferConvolutionOp (getTensorType lhs) (getTensorType rhs) (Some (windowStrides c))
         (Some ([getTensorRank lhs - 2; 2], paddingVector)) (Some (lhsDilation c)) (Some (rhsDilation c))
         (Some (windowReversal c)) c featureGroupCount batchGroupCount None);
    convolutionOp lhs rhs c (shaped shape (getElementType resultType)).

Definition convolution_batches (featureGroupCount batchGroupCount : Z) (lhs rhs : Tensor) (c : ConvParams)
    (resultType : ShapedType) : result Tensor :=
  if 1 <? batchGroupCount then
    _ ← newTensor resultType;
    lhses ← split lhs batchGroupCount (inputBatchDimension c);
    rhses ← split rhs batchGroupCount (kernelOutputFeatureDimension c);
    results ← mapM (fun '(lhs, rhs) =>
        inferredConvolutionOp convolution_ungrouped lhs rhs c featureGroupCount 1 resultType) (zip lhses rhses);
    concatenateOp results (outputFeatureDimension c) resultType
  else convolution_ungrouped lhs rhs c resultType.

(** The calls on one group pass a group count of 1, so the recursion is at most
    two calls deep: it is unfolded into [convolution_batches] and [convolution_ungrouped]. *)
Definition convolutionOp (lhs rhs : Tensor) (c : ConvParams) (featureGroupCount batchGroupCount : Z)
    (resultType : ShapedType) : result Tensor :=
  if 1 <? featureGroupCount then
    _ ← newTensor resultType;
    lhses ← split lhs featureGroupCount (inputFeatureDimension c);
    rhses ← split rhs featureGroupCount (kernelOutputFeatureDimension c);
    results ← mapM (fun '(lhs, rhs) =>
        inferredConvolutionOp (convolution_batches 1 batchGroupCount) lhs rhs c 1 batchGroupCount resultType)
      (zip lhses rhses);
    concatenateOp results (outputFeatureDimension c) resultType
  else convolution_batches featureGroupCount batchGroupCount lhs rhs c resultType.

(** ** [gatherOp] *)
Definition gatherOp (operand startIndices : Tensor) (offsetDims collapsedSliceDims operandBatchingDims
    startIndicesBatchingDims startIndexMap : list Z) (indexVectorDim : Z) (sliceSizes : Sizes)
    (indicesAreSorted : bool) (resultType : ShapedType) : result Tensor :=
  let batchDims := filter (fun d => d ∉ offsetDims) (seqZ 0 (getRank resultType)) in
  let zeros := replicate (Z.to_nat (getTensorRank operand)) 0 in
  build resultType (fun resultIndex =>
    batchIndex ← mapM (fun d => at_z resultIndex d) batchDims;
    startIndicesIndex ←
      (if indexVectorDim <? getTensorRank startIndices then
         if (0 <=? indexVectorDim) && (indexVectorDim <=? Z.of_nat (length batchIndex))
         then Ok (take (Z.to_nat indexVectorDim) batchIndex ++ kColon :: drop (Z.to_nat indexVectorDim) batchIndex)
         else Err (UB "insert position")
       else Ok batchIndex);
    slice ← indexSliceOp startIndices startIndicesIndex;
    startIndex ← evalIndex slice;
    fullStartIndex ← foldM (fun dOperand fullStartIndex =>
        match find_pos dOperand startIndexMap with
        | None => Ok fullStartIndex
        | Some dStart =>
            v ← at_z startIndex dStart;
            s ← at_z (getTensorShape operand) dOperand;
            z ← at_z sliceSizes dOperand;
            hi ← i64 (s - z);
            if hi <? 0 then Err (UB "std::clamp") else
            set_z fullStartIndex dOperand (Z.min (Z.max v 0) hi)
        end) (getAxes operand) zeros;
    fullBatchingIndex ← foldM (fun dOperand fullBatchingIndex =>
        match find_pos dOperand operandBatchingDims with
        | None => Ok fullBatchingIndex
        | Some iBatching =>
            dStart ← at_z startIndicesBatchingDims iBatching;
            v ← at_z startIndicesIndex dStart;
            set_z fullBatchingIndex dOperand v
        end) (getAxes operand) zeros;
    offsetIndex ← mapM (fun d => at_z resultIndex d) offsetDims;
    '(fullOffsetIndex, _) ← foldM (fun i '(fullOffsetIndex, oi) =>
        if decide (i ∈ collapsedSliceDims) then Ok (fullOffsetIndex, oi)
        else if decide (i ∈ operandBatchingDims) then Ok (fullOffsetIndex, oi)
        else
          x ← at_z offsetIndex oi;
          fullOffsetIndex ← set_z fullOffsetIndex i x;
          Ok (fullOffsetIndex, oi + 1)) (getAxes operand) (zeros, 0);
    sum ← sizes_add fullStartIndex fullBatchingIndex;
    operandIndex ← sizes_add sum fullOffsetIndex;
    get operand operandIndex).

(** ** [fftOp] *)
Definition M_PI : double := Double 0x400921FB54442D18.

Definition cast_complex (t : Ty) : result Ty :=
  match t with ComplexType e => Ok e | _ => Err (UB "assert: cast to an incompatible type") end.
Definition cast_float (t : Ty) : result Ty :=
  if isa_FloatType t then Ok t else Err (UB "assert: cast to an incompatible type").
Definition with_element (type : ShapedType) (t : Ty) : ShapedType :=
  MkShaped (getShape type) t (getEncoding type).

Definition __fft_1d (operand : Tensor) (resultType : ShapedType) (dimension : Z) : result Tensor :=
  build resultType (fun resultIndex =>
    N ← at_z (getTensorShape operand) dimension;
    X ← Element_complex (getElementType resultType) (float_zero, float_zero);
    foldM (fun n X =>
        operandIndex ← set_z resultIndex dimension n;
        floatType ← cast_complex (getTensorElementType operand);
        k ← at_z resultIndex dimension;
        let angle :=
          double_op DDiv (double_op DMul (double_op DMul (double_op DMul (double_of_Z (-2)) M_PI)
                                            (double_of_Z n)) (double_of_Z k)) (double_of_Z N) in
        phase ← Element_float floatType (apfloat_of_double angle);
        re ← cosine phase;
        im ← sine phase;
        rotator ← complex re im;
        e ← get operand operandIndex;
        p ← el_mul e rotator;
        el_add X p) (seqZ 0 N) X).

Definition conjugate (operand : Tensor) : result Tensor :=
  floatType ← cast_complex (getTensorElementType operand);
  let floatResultType := with_element (getTensorType operand) floatType in
  real ← realOp operand floatResultType;
  imag ← imagOp operand floatResultType;
  imag ← negOp imag floatResultType;
  complexOp real imag (getTensorType operand).

(** [DenseElementsAttr::get] of a type and one value. *)
Definition splat_attr (type : ShapedType) (v : Value_) : DenseElementsAttr :=
  MkAttr type (replicate (Z.to_nat (getNumElements type)) v).

Inductive FftType := FFT | IFFT | RFFT | IRFFT.

(** [back()] of an empty vector has no behaviour. *)
Definition back {A} (l : list A) : result (list A * A) :=
  x ← ok_or (last l) (UB "back of an empty vector"); Ok (take (length l - 1) l, x).

Definition fftOp (operand : Tensor) (fftType : FftType) (fftLength : list Z) (resultType : ShapedType)
    : result Tensor :=
  let fftRank := Z.of_nat (length fftLength) in
  let nBatchDims := getRank resultType - fftRank in
  let fftDims := seqZ nBatchDims fftRank in
  let forward dims := foldM (fun d result => __fft_1d result resultType d) (rev dims) in
  match fftType with
  | FFT => forward fftDims operand
  | IFFT =>
      foldM (fun d result =>
        size ← at_z (getShape resultType) d;
        divisor ← constantOp (splat_attr resultType
                                (VComplex (apfloat_of_double (double_of_Z size), float_zero)));
        c ← conjugate result;
        c ← __fft_1d c resultType d;
        c ← conjugate c;
        divideOp c divisor resultType) fftDims operand
  | RFFT =>
      result ← convertOp operand (with_element (getTensorType operand) (getElementType resultType));
      '(fftDims, d) ← back fftDims;
      result ← __fft_1d result (getTensorType result) d;
      let rank := Z.to_nat (getTensorRank operand) in
      result ← sliceOp result (replicate rank 0) (replicate rank 1) resultType;
      forward fftDims result
  | IRFFT =>
      renormFactor ← foldM (fun d acc => s ← at_z (getShape resultType) d; i64 (acc * s)) fftDims 1;
      '(fftDims, d_irfft) ← back fftDims;
      result ← foldM (fun d result =>
          c ← conjugate result;
          c ← __fft_1d c (getTensorType result) d;
          conjugate c) fftDims operand;
      let shape := getTensorShape result in
      '(shape_init, shape_last) ← back shape;
      shape_last ← i64 (shape_last - 1);
      let replicaShape := shape_init ++ [shape_last] in
      startIndices ← set_z (replicate (length shape) 0) (Z.of_nat (length shape) - 1) 1;
      replica ← inferredSliceOp result startIndices replicaShape (replicate (length shape) 1);
      replica ← reverseOp replica [d_irfft] (getTensorType replica);
      replica ← conjugate replica;
      floatType ← cast_float (getElementType resultType);
      let complexType := ComplexType floatType in
      result ← concatenateOp [result; replica] d_irfft (with_element resultType complexType);
      c ← conjugate result;
      c ← __fft_1d c (getTensorType result) d_irfft;
      result ← realOp c resultType;
      divisor ← constantOp (splat_attr resultType (VFloat (apfloat_of_double (double_of_Z renormFactor))));
      divideOp result divisor resultType
  end.

(** ** [triangularSolveOp] *)
Inductive Transpose := TRANSPOSE_INVALID | NO_TRANSPOSE | TRANSPOSE | ADJOINT.
#[export] Instance transpose_eq_dec : EqDecision Transpose.
Proof. solve_decision. Defined.

(** The rows solved before row [i], in the order of the source's loops. *)
Definition rows_before (descending : bool) (N i : Z) : list Z :=
  if descending then rev (seqZ (i + 1) (N - 1 - i)) else seqZ 0 i.

(** [index[d] = batchIndex[d]] for the batch dimensions, then the last two. *)
Definition matrix_index (rank : Z) (batchIndex : Index) (dim_a a dim_b b : Z) : result Index :=
  index ← foldM (fun d index => x ← at_z batchIndex d; set_z index d x)
    (seqZ 0 (Z.of_nat (length batchIndex))) (replicate (Z.to_nat rank) 0);
  index ← set_z index dim_a a;
  set_z index dim_b b.

Definition triangularSolveOp (A b : Tensor) (leftSide lower unitDiagonal : bool) (transposeA : Transpose)
    (resultType : ShapedType) : result Tensor :=
  result ← newTensor resultType;
  let rank := getTensorRank A in
  let transposed := bool_decide (transposeA = TRANSPOSE) || bool_decide (transposeA = ADJOINT) in
  tA ← (if transposed then
          let permutation := getAxes A in
          tmp ← at_z permutation (rank - 1);
          x ← at_z permutation (rank - 2);
          permutation ← set_z permutation (rank - 1) x;
          permutation ← set_z permutation (rank - 2) tmp;
          transposeOp A permutation (getTensorType A)
        else Ok A);
  let lower := if transposed then negb lower else lower in
  tA ← (if bool_decide (transposeA = ADJOINT) then conjugate tA else Ok tA);
  N ← at_z (getTensorShape A) (rank - 1);
  let dim_i := if leftSide then rank - 2 else rank - 1 in
  let dim_k := if leftSide then rank - 1 else rank - 2 in
  size_k ← at_z (getTensorShape b) dim_k;
  let descending := xorb leftSide lower in
  let rows := if descending then rev (seqZ 0 N) else seqZ 0 N in
  if rank <? 2 then Err (UB "a vector of a negative size") else
  batchShape ← mapM (fun d => at_z (getShape resultType) d) (seqZ 0 (rank - 2));
  for_index batchShape (fun batchIndex result =>
    foldM (fun k result =>
      foldM (fun i result =>
        index ← matrix_index rank batchIndex dim_k k dim_i i;
        x ← get b index;
        x ← foldM (fun j x =>
            ai ← matrix_index rank batchIndex dim_i i dim_k j;
            a ← get tA ai;
            xi ← matrix_index rank batchIndex dim_k k dim_i j;
            xj ← get result xi;
            p ← el_mul a xj;
            el_sub x p) (rows_before descending N i) x;
        x ← (if unitDiagonal then Ok x
             else a ← get tA [i; i]; el_div x a);
        set result index x) rows result) (seqZ 0 size_k) result) result.
End Linear.
