(* ===== verification/OpsFacts.v ===== *)
(** * The data-movement operations are the index maps they are specified to be

    For the operations of [Ops.v] that move elements, the type inference or
    verification of [TypeInference.v] is enough for the interpreter to run
    without a fault, and the result holds, at every index, the operand's element
    at the index the specification gives. *)
From S2P Require Import Prelude Types Support Index Element ElementFacts Tensor TensorFacts Samples Base TypeInference Ops.

(** ** Loops that fill an index *)
Lemma seqZ_0_S (n : nat) : seqZ 0 (Z.of_nat (S n)) = seqZ 0 (Z.of_nat n) ++ [Z.of_nat n].
Proof.
  unfold seqZ. rewrite !Nat2Z.id, seq_S, fmap_app. cbn. f_equal. f_equal. lia.
Qed.

(** An invariant of a counting loop. *)
Lemma foldM_seqZ_ind {St} (body : Z -> St -> result St) (P : nat -> St -> Prop) n s0 s :
  P O s0 -> (forall k s s', (k < n)%nat -> P k s -> body (Z.of_nat k) s = Ok s' -> P (S k) s') ->
  foldM body (seqZ 0 (Z.of_nat n)) s0 = Ok s -> P n s.
Proof.
  intros H0 Hstep. revert s. induction n as [|n IH]; intros s; [by intros [= <-]|].
  rewrite seqZ_0_S, foldM_app. intros (s1 & H1 & H)%bind_ok. cbn [foldM] in H. apply bind_ok in H as (s2 & H & [= <-]).
  eapply Hstep; [lia| |exact H]. apply IH; [|done]. intros; eapply Hstep; [lia|done|done].
Qed.

(** A counting loop that goes on under an invariant. *)
Lemma foldM_seqZ_total {St} (body : Z -> St -> result St) (P : nat -> St -> Prop) n s :
  P O s -> (forall k s, (k < n)%nat -> P k s -> exists s', body (Z.of_nat k) s = Ok s' /\ P (S k) s') ->
  exists s', foldM body (seqZ 0 (Z.of_nat n)) s = Ok s' /\ P n s'.
Proof.
  intros H0 Hstep. induction n as [|n IH]; [by exists s|].
  destruct IH as (s1 & H1 & Hp); [intros; apply Hstep; [lia|done]|]. destruct (Hstep n s1) as (s2 & H2 & Hp2); [lia|done|].
  exists s2. split; [|done]. rewrite seqZ_0_S, foldM_app, H1. cbind. cbn [foldM]. by rewrite H2.
Qed.

Lemma foldM_fill_gen (body : Z -> list Z -> result (list Z)) (g : nat -> Z) n m :
  (m <= n)%nat ->
  (forall (d : nat) acc, (d < n)%nat -> length acc = n -> acc !! d = Some 0 ->
     body (Z.of_nat d) acc = Ok (<[d := g d]> acc)) ->
  foldM body (seqZ 0 (Z.of_nat m)) (replicate n 0) = Ok ((g <$> seq 0 m) ++ replicate (n - m) 0).
Proof.
  intros Hm Hb. induction m as [|m IH]; [by rewrite Nat.sub_0_r|].
  rewrite seqZ_0_S, foldM_app, IH by lia. cbn [mbind result_bind foldM].
  rewrite Hb; [|lia|rewrite length_app, length_fmap, length_seq, length_replicate; lia|].
  - cbind. f_equal. replace (n - m)%nat with (S (n - S m)) by lia. cbn [replicate].
    rewrite insert_app_r_alt by (rewrite length_fmap, length_seq; lia).
    rewrite length_fmap, length_seq, Nat.sub_diag. cbn [insert list_insert].
    rewrite seq_S, fmap_app, <- app_assoc. done.
  - rewrite lookup_app_r by (rewrite length_fmap, length_seq; lia).
    rewrite length_fmap, length_seq, Nat.sub_diag. apply lookup_replicate. split; [done|lia].
Qed.

(** A loop over the positions of an index of zeros that sets each in turn. *)
Lemma foldM_fill (body : Z -> list Z -> result (list Z)) (g : nat -> Z) n :
  (forall (d : nat) acc, (d < n)%nat -> length acc = n -> acc !! d = Some 0 ->
     body (Z.of_nat d) acc = Ok (<[d := g d]> acc)) ->
  foldM body (seqZ 0 (Z.of_nat n)) (replicate n 0) = Ok (g <$> seq 0 n).
Proof.
  intros Hb. rewrite (foldM_fill_gen body g n n) by done.
  by rewrite Nat.sub_diag, app_nil_r.
Qed.

Lemma foldM_fill_to (body : Z -> list Z -> result (list Z)) target :
  (forall (d : nat) acc x, target !! d = Some x -> length acc = length target -> acc !! d = Some 0 ->
     body (Z.of_nat d) acc = Ok (<[d := x]> acc)) ->
  foldM body (seqZ 0 (Z.of_nat (length target))) (replicate (length target) 0) = Ok target.
Proof.
  intros H. rewrite (foldM_fill body (fun d => default 0 (target !! d))).
  - f_equal. apply list_eq. intros d. rewrite list_lookup_fmap.
    destruct (target !! d) as [x|] eqn:Hx.
    + rewrite lookup_seq_lt by (by eapply lookup_lt_Some). cbn. by rewrite Hx.
    + rewrite lookup_seq_ge; [done|]. by apply lookup_ge_None.
  - intros d acc Hd Hl Ha. destruct (lookup_lt_is_Some_2 target d Hd) as [x Hx].
    rewrite Hx. by apply H.
Qed.

(** A loop that only checks. *)
Lemma foldM_unit {A} (body : A -> () -> result ()) l :
  foldM body l () = Ok () -> forall x, x ∈ l -> body x () = Ok ().
Proof.
  induction l as [|a l IH]; intros H x Hx; [by apply not_elem_of_nil in Hx|].
  cbn [foldM] in H. apply bind_ok in H as ([] & Ha & H).
  apply elem_of_cons in Hx as [->|Hx]; [done|by apply IH].
Qed.

Lemma foldM_unit_intro {A} (body : A -> () -> result ()) l :
  (forall x, x ∈ l -> body x () = Ok ()) -> foldM body l () = Ok ().
Proof.
  induction l as [|a l IH]; intros H; [done|]. cbn [foldM]. rewrite H by left. cbind.
  apply IH. intros x Hx. apply H. by right.
Qed.

Lemma foldM_unit_seqZ (body : Z -> () -> result ()) n :
  foldM body (seqZ 0 (Z.of_nat n)) () = Ok () -> forall d : nat, (d < n)%nat -> body (Z.of_nat d) () = Ok ().
Proof. intros H d Hd. eapply foldM_unit; [exact H|]. apply elem_of_seqZ. lia. Qed.

Lemma ensure_ok b msg u : ensure b msg = Ok u -> b = true.
Proof. by destruct b. Qed.

Lemma at_z_inv {A} (l : list A) (d : nat) x : at_z l (Z.of_nat d) = Ok x -> l !! d = Some x.
Proof. intros [_ H]%at_z_ok. by rewrite Nat2Z.id in H. Qed.

Lemma at_z_some {A} (l : list A) (n : nat) x : l !! n = Some x -> at_z l (Z.of_nat n) = Ok x.
Proof. intros H. by rewrite at_z_nat, H. Qed.

Lemma lookup_some_z (l : list Z) (n : nat) : (n < length l)%nat -> l !! n = Some (default 0 (l !! n)).
Proof. intros H. destruct (lookup_lt_is_Some_2 l n H) as [x ->]. done. Qed.

Lemma mapM_ok {A B} (f : A -> result B) (g : A -> B) l :
  (forall x, x ∈ l -> f x = Ok (g x)) -> mapM f l = Ok (g <$> l).
Proof.
  induction l as [|x l IH]; intros H; [done|]. cbn [mapM].
  rewrite H by left. cbind. rewrite IH by (intros; apply H; by right). done.
Qed.

Lemma mapM_inv {A B} (f : A -> result B) l k : mapM f l = Ok k -> Forall2 (fun x y => f x = Ok y) l k.
Proof.
  revert k. induction l as [|x l IH]; intros k H; cbn [mapM] in H; [by injection H as <-; constructor|].
  apply bind_ok in H as (y & Hy & H). apply bind_ok in H as (k' & Hk & [= <-]). constructor; [done|by apply IH].
Qed.

(** Arithmetic on [Sizes] that does not overflow. *)
Definition fits (l : list Z) : Prop := Forall (fun z => int64_min <= z <= int64_max) l.

Lemma sizes_zip_ok op x y :
  length x = length y -> fits (zip_with op x y) -> sizes_zip op x y = Ok (zip_with op x y).
Proof.
  intros Hl Hf. unfold sizes_zip. rewrite decide_True by done.
  revert y Hl Hf. induction x as [|a x IH]; intros [|b y] Hl Hf; try done.
  cbn [zip_with] in Hf. apply Forall_cons in Hf as [Ha Hf].
  cbn [zip mapM]. rewrite i64_ok by done. cbind. rewrite IH by (cbn in Hl; lia || done). done.
Qed.

Lemma in_bounds_lookup_Some i s (k : nat) d :
  in_bounds i s -> s !! k = Some d -> exists x, i !! k = Some x /\ 0 <= x < d.
Proof.
  intros H Hd. destruct (Forall2_lookup_r _ _ _ _ _ H Hd) as (x & Hx & ?). by exists x.
Qed.

Lemma in_bounds_intro i s :
  length i = length s ->
  (forall (k : nat) x d, i !! k = Some x -> s !! k = Some d -> 0 <= x < d) -> in_bounds i s.
Proof. intros Hl H. apply Forall2_same_length_lookup_2; [done|]. intros k x d. apply H. Qed.

Section OpsFacts.
Context {L : LLVM} {Laws : LLVMLaws L}.

(** ** Building a tensor from a function on indices *)

(** [t] holds the operand's element at [g i] at every index [i]; [g] stays in
    the operand's index space. *)
Definition reindexed (g : Index -> Index) (operand t : Tensor) : Prop :=
  forall i, in_bounds i (getTensorShape t) ->
    in_bounds (g i) (getTensorShape operand) /\ get t i = get operand (g i).

(** The result of an operation: a full tensor of the type. *)
Definition result_is (type : ShapedType) (m : result Tensor) (P : Tensor -> Prop) : Prop :=
  exists t, m = Ok t /\ getTensorType t = type /\ tensor_full t /\ P t.

Lemma full_get t i :
  tensor_full t -> in_bounds i (getTensorShape t) ->
  exists e, get t i = Ok e /\ element_ok e /\ getType e = getTensorElementType t.
Proof. intros [_ H] Hi. by apply H. Qed.

Lemma full_ok t : tensor_full t -> tensor_ok t.
Proof. by intros []. Qed.

Lemma full_shaped t : tensor_full t -> shaped_ok (getTensorType t).
Proof. by intros [[] _]. Qed.

Lemma full_shape_ok t : tensor_full t -> shape_ok (getTensorShape t).
Proof. by intros [[(_ & ? & _) _] _]. Qed.

Lemma build_result type f P :
  shaped_ok type -> typed_fn type f ->
  (forall t, getTensorType t = type -> (forall i, in_bounds i (getShape type) -> get t i = f i) -> P t) ->
  result_is type (build type f) P.
Proof.
  intros Hty Hf HP. destruct (build_spec type f Hty Hf) as (t & Ht & Hof).
  exists t. pose proof (tensor_of_full _ _ _ Hf Hof). destruct Hof as (Hok & Htt & Hg).
  split; [done|]. split; [done|]. split; [done|]. by apply HP.
Qed.

Lemma build_reindexed type operand (f : Index -> result Index) g :
  shaped_ok type -> tensor_full operand -> getElementType type = getTensorElementType operand ->
  (forall i, in_bounds i (getShape type) -> f i = Ok (g i) /\ in_bounds (g i) (getTensorShape operand)) ->
  result_is type (build type (fun i => j ← f i; get operand j)) (reindexed g operand).
Proof.
  intros Hty Ho He Hf. apply build_result; [done| |].
  - intros i Hi. destruct (Hf i Hi) as [-> Hg]. cbind.
    destruct (full_get operand (g i)) as (e & ? & ? & ?); [done|done|]. exists e. split_and!; congruence.
  - intros t Ht Hg i Hi. unfold getTensorShape in *. rewrite Ht in Hi.
    destruct (Hf i Hi) as [Hfi Hb]. split; [done|]. rewrite Hg, Hfi by done. done.
Qed.

Lemma build_ext type f f' :
  shape_ok (getShape type) -> (forall i, in_bounds i (getShape type) -> f i = f' i) -> build type f = build type f'.
Proof.
  intros Hs H. unfold build, newTensor. destruct (getSizeInBytes _); cbind; [|done].
  unfold for_set, getTensorShape. cbn [getTensorType]. rewrite !for_index_foldM by done.
  assert (forall l t, (forall i, i ∈ l -> in_bounds i (getShape type)) ->
    foldM (fun i t => e ← f i; set t i e) l t = foldM (fun i t => e ← f' i; set t i e) l t) as E.
  { induction l as [|i l IH]; intros t Hl; [done|]. cbn [foldM].
    rewrite (H i) by (apply Hl; left). destruct (f' i) as [e|]; cbind; [|done].
    destruct (set t i e); cbind; [|done]. apply IH. intros. apply Hl. by right. }
  apply E. intros i Hi. by apply elem_of_indices.
Qed.

Lemma result_is_ext type (m m' : result Tensor) P : m = m' -> result_is type m' P -> result_is type m P.
Proof. by intros ->. Qed.


(** ** [broadcastInDimOp] *)

(** The operand's index: 0 in the dimensions of size 1, and the result's index
    at the dimension the operand's dimension is mapped to in the others. *)
Definition broadcast_index (operandShape broadcastDimensions : list Z) (i : Index) : Index :=
  zip_with (fun s b => if s =? 1 then 0 else default 0 (i !! Z.to_nat b)) operandShape broadcastDimensions.

(** Every dimension of the operand is mapped to one of the result, of its size or
    expanded from size 1. *)
Definition broadcasts (operandShape broadcastDimensions resultShape : list Z) : Prop :=
  length broadcastDimensions = length operandShape /\
  forall (d : nat) s b, operandShape !! d = Some s -> broadcastDimensions !! d = Some b ->
    0 <= b /\ exists r, resultShape !! Z.to_nat b = Some r /\ (s = 1 \/ s = r).

Lemma verifyBroadcastInDimOp_inv operandType bd resultType :
  verifyBroadcastInDimOp operandType bd resultType = Ok () ->
  shape_ok (getShape operandType) -> broadcasts (getShape operandType) bd (getShape resultType).
Proof.
  unfold verifyBroadcastInDimOp. intros H Hs.
  apply bind_ok in H as (? & _ & H). apply bind_ok in H as (? & Hlen%ensure_ok & H).
  apply bind_ok in H as (? & _ & H). apply bind_ok in H as ([] & Hf & _).
  unfold getRank in Hlen. split; [lia|]. intros d s b Hd Hb.
  pose proof (foldM_unit_seqZ _ _ Hf d (lookup_lt_Some _ _ _ Hb)) as E. cbn beta in E.
  rewrite (at_z_some _ _ _ Hb) in E. cbn [mbind result_bind] in E.
  apply bind_ok in E as (? & Hr%ensure_ok & E). unfold getRank in Hr.
  rewrite (at_z_some _ _ _ Hd) in E. cbn [mbind result_bind] in E.
  assert (0 <= s) as Hs0 by (eapply Forall_lookup_1 in Hs; [|exact Hd]; cbn in Hs; lia).
  assert (isDynamicDimSize s = false) as Hdyn.
  { unfold isDynamicDimSize, kDynamic, int64_min. lia. }
  rewrite Hdyn in E. apply bind_ok in E as (r & Hrr & E%ensure_ok). apply at_z_ok in Hrr as [? Hrr].
  split; [lia|]. exists r. split; [done|]. lia.
Qed.

Lemma broadcastInDimOp_fits operand broadcastDimensions resultType :
  tensor_full operand -> shaped_ok resultType ->
  getElementType resultType = getTensorElementType operand ->
  broadcasts (getTensorShape operand) broadcastDimensions (getShape resultType) ->
  result_is resultType (broadcastInDimOp operand broadcastDimensions resultType)
    (reindexed (broadcast_index (getTensorShape operand) broadcastDimensions) operand).
Proof.
  intros Ho Hr He [Hl Hv].
  unfold broadcastInDimOp. apply build_reindexed; [done|done|done|]. intros i Hi.
  set (target := broadcast_index _ _ i).
  assert (length target = length (getTensorShape operand)) as Ht.
  { unfold target, broadcast_index. rewrite length_zip_with. lia. }
  assert (forall (d : nat) s b, getTensorShape operand !! d = Some s -> broadcastDimensions !! d = Some b ->
    exists x r, i !! Z.to_nat b = Some x /\ 0 <= b /\ 0 <= x < r /\ (s = 1 \/ s = r)) as Hlk.
  { intros d s b Hd Hb. destruct (Hv d s b Hd Hb) as (? & r & Hrr & ?).
    destruct (in_bounds_lookup_Some _ _ _ _ Hi Hrr) as (x & ? & ?). eauto 10. }
  split.
  - unfold getTensorRank, getRank. rewrite Nat2Z.id. fold (getTensorShape operand). rewrite <- Ht.
    apply foldM_fill_to. intros d acc x Hx Hla Hacc.
    unfold target, broadcast_index in Hx. apply lookup_zip_with_Some in Hx as (s & b & Hx & Hd & Hb).
    rewrite (at_z_some _ _ _ Hd). cbind. destruct (s =? 1).
    + f_equal. subst x. symmetry. by apply list_insert_id.
    + rewrite (at_z_some _ _ _ Hb). cbind. destruct (Hlk d s b Hd Hb) as (y & r & Hy & ? & _).
      rewrite Hy in Hx. cbn in Hx. subst x. rewrite (proj2 (at_z_ok i b y)) by done. cbind.
      rewrite set_z_ok by (apply lookup_lt_Some in Hd; lia). by rewrite Nat2Z.id.
  - apply in_bounds_intro; [done|]. intros d x s Hx Hd.
    unfold target, broadcast_index in Hx. apply lookup_zip_with_Some in Hx as (s' & b & Hx & Hd' & Hb).
    rewrite Hd in Hd'. injection Hd' as <-. destruct (Hlk d s b Hd Hb) as (y & r & Hy & ? & ? & ?).
    rewrite Hy in Hx. cbn in Hx. destruct (Z.eqb_spec s 1); lia.
Qed.

Lemma broadcastInDimOp_spec operand broadcastDimensions resultType :
  tensor_full operand -> shaped_ok resultType ->
  getElementType resultType = getTensorElementType operand ->
  verifyBroadcastInDimOp (getTensorType operand) broadcastDimensions resultType = Ok () ->
  result_is resultType (broadcastInDimOp operand broadcastDimensions resultType)
    (reindexed (broadcast_index (getTensorShape operand) broadcastDimensions) operand).
Proof.
  intros Ho Hr He Hv. apply broadcastInDimOp_fits; [done..|]. apply verifyBroadcastInDimOp_inv; [done|by apply full_shape_ok].
Qed.

(** C30: when [verifyBroadcastInDimOp] accepts the operand's type, the dimensions
    and the result's type, [broadcastInDimOp] returns without a fault a tensor of
    the result's type that holds at every index the operand's element at that
    index taken at [broadcast_dimensions], 0 where the operand's size is 1. *)
Theorem broadcast_in_dim_correct operand broadcastDimensions resultType :
  tensor_full operand -> shaped_ok resultType ->
  getElementType resultType = getTensorElementType operand ->
  verifyBroadcastInDimOp (getTensorType operand) broadcastDimensions resultType = Ok () ->
  result_is resultType (broadcastInDimOp operand broadcastDimensions resultType)
    (reindexed (broadcast_index (getTensorShape operand) broadcastDimensions) operand).
Proof. apply broadcastInDimOp_spec. Qed.

(** ** Shapes no larger than an allocated one *)
Lemma foldM_mul_le s' s m' m n :
  Forall2 (fun d' d => 0 <= d' <= d) s' s -> 0 <= m' <= m ->
  foldM (fun d n => i64 (n * d)) s m = Ok n ->
  exists n', foldM (fun d n => i64 (n * d)) s' m' = Ok n' /\ 0 <= n' <= n.
Proof.
  intros Hs. revert m' m. induction Hs as [|d' d s' s Hd Hs IH]; intros m' m Hm H.
  - injection H as <-. by exists m'.
  - cbn [foldM] in *. apply bind_ok in H as (k & Hk & H). apply i64_inv in Hk as [-> Hk].
    rewrite i64_ok by (unfold int64_min in *; nia). cbind.
    apply IH with (m * d); [nia|done].
Qed.

Lemma shaped_ok_le s' s t e e' :
  Forall2 (fun d' d => 0 <= d' <= d) s' s -> shaped_ok (MkShaped s t e) -> shaped_ok (MkShaped s' t e').
Proof.
  intros H (Ht & Hs & n & Hn). split; [done|]. cbn [getShape shaped_type getSizeInBytes getElementType getEncoding] in *.
  split.
  { clear -H Hs. unfold shape_ok in *. cbn [getShape] in *.
    induction H as [|d' d s' s Hd H IH]; [done|]. apply Forall_cons in Hs as [? ?].
    constructor; [lia|by apply IH]. }
  apply bind_ok in Hn as (m & Hm & Hn). apply bind_ok in Hn as (sz & Hsz & Hn).
  apply i64_inv in Hn as [-> Hb]. destruct (supported_size _ Ht) as (sz' & Hsz' & Hpos).
  rewrite Hsz in Hsz'. injection Hsz' as <-.
  unfold numElements in *.
  assert (forallb (fun d => 0 <=? d) s' = true) as ->.
  { apply forallb_forall. intros d' Hd'%list_elem_of_In.
    apply list_elem_of_lookup in Hd' as (k & Hk).
    destruct (Forall2_lookup_l _ _ _ _ _ H Hk) as (? & _ & ?). lia. }
  destruct (forallb _ s); [|done].
  destruct (foldM_mul_le _ _ 1 1 _ H ltac:(lia) Hm) as (n' & -> & Hn'). cbind. rewrite Hsz. cbind.
  exists (n' * sz). apply i64_ok. unfold int64_min in *. nia.
Qed.

(** ** [sliceOp] *)
Definition slice_index (startIndices strides : Sizes) (i : Index) : Index :=
  zip_with Z.add startIndices (zip_with Z.mul i strides).

Lemma divideCeil_pos n d k : 0 < d -> k < divideCeil n d -> k * d < n.
Proof.
  unfold divideCeil. intros Hd Hk.
  pose proof (Z.mul_div_le (n + d - 1) d Hd). nia.
Qed.

Lemma divideCeil_range n d : 0 < d -> 0 <= n -> 0 <= divideCeil n d <= n.
Proof.
  unfold divideCeil. intros Hd Hn. split; [apply Z.div_pos; lia|].
  destruct (Z.eq_dec n 0) as [->|]; [rewrite Z.div_small; lia|].
  apply Z.lt_succ_r. apply Z.div_lt_upper_bound; nia.
Qed.

(** A loop that sets every position of a list of its state in turn, each step
    finding the position as it was at the start. *)
Lemma foldM_set_each {St} (proj : St -> list Z) (body : Z -> St -> result St) (P : nat -> Z -> Prop) (m : nat) acc l :
  (forall (d : nat) acc' l, (d < m)%nat -> proj acc' !! d = proj acc !! d -> body (Z.of_nat d) acc' = Ok l ->
     exists x, P d x /\ set_z (proj acc') (Z.of_nat d) x = Ok (proj l)) ->
  foldM body (seqZ 0 (Z.of_nat m)) acc = Ok l -> (m <= length (proj acc))%nat ->
  length (proj l) = length (proj acc) /\ (forall d : nat, (d < m)%nat -> exists x, P d x /\ proj l !! d = Some x) /\
  (forall d : nat, (m <= d)%nat -> proj l !! d = proj acc !! d).
Proof.
  revert l. induction m as [|m IH]; intros l Hb H Hm.
  - injection H as <-. split; [done|]. split; [lia|done].
  - rewrite seqZ_0_S, foldM_app in H. apply bind_ok in H as (l' & H & H').
    destruct (IH l') as (Hl & Hd & Hr); [intros; apply Hb; (lia || done)|done|lia|].
    cbn [foldM] in H'. apply bind_ok in H' as (l'' & H' & E).
    injection E as <-. apply Hb in H' as (x & Hx & H'); [|lia|by apply Hr]. apply set_z_inv in H' as [Hr' ->].
    rewrite Nat2Z.id, length_insert. split; [done|]. split.
    + intros d Hd'. destruct (decide (d = m)) as [->|Hne].
      * exists x. split; [done|]. apply list_lookup_insert_eq. lia.
      * destruct (Hd d) as (y & Hy & Hly); [lia|]. exists y. split; [done|]. by rewrite list_lookup_insert_ne.
    + intros d Hd'. rewrite list_lookup_insert_ne by lia. apply Hr. lia.
Qed.

Lemma inferSliceOp_inv operandType start limit strides type :
  inferSliceOp operandType start limit strides = Ok type -> shape_ok (getShape operandType) ->
  length start = length (getShape operandType) /\ getElementType type = getElementType operandType /\
  length (getShape type) = length (getShape operandType) /\
  forall d : nat, (d < length (getShape operandType))%nat ->
    exists lo hi st s, start !! d = Some lo /\ limit !! d = Some hi /\ strides !! d = Some st /\
      getShape operandType !! d = Some s /\ 0 <= lo <= hi /\ hi <= s /\ 0 < st /\
      getShape type !! d = Some (divideCeil (hi - lo) st).
Proof.
  unfold inferSliceOp. intros H Hs. apply bind_ok in H as (? & Hlen%ensure_ok & H).
  apply bind_ok in H as (shape & Hf & H). apply bind_ok in H as (enc & _ & [= <-]).
  cbn [getShape getElementType]. unfold getRank in *. split; [lia|]. split; [done|].
  rewrite Nat2Z.id in Hf.
  apply (foldM_set_each id _ (fun d x => exists lo hi st s, start !! d = Some lo /\ limit !! d = Some hi /\
    strides !! d = Some st /\ getShape operandType !! d = Some s /\ 0 <= lo <= hi /\ hi <= s /\ 0 < st /\
    x = divideCeil (hi - lo) st)) in Hf as (Hl & Hd & _); cbn [id] in *.
  - rewrite length_replicate in Hl. split; [done|]. intros d Hdl.
    destruct (Hd d Hdl) as (y & (lo & hi & st & s & ? & ? & ? & ? & ? & ? & ? & ->) & Hx).
    exists lo, hi, st, s. done.
  - intros d acc l Hdl _ E.
    apply bind_ok in E as (lo & Hlo%at_z_inv & E). apply bind_ok in E as (? & H1%ensure_ok & E).
    apply bind_ok in E as (s & Hsd%at_z_inv & E). apply bind_ok in E as (b & _ & E).
    apply bind_ok in E as (hi & Hhi%at_z_inv & E). apply bind_ok in E as (? & H2 & E).
    apply bind_ok in E as (? & H3%ensure_ok & E). apply bind_ok in E as (st & Hst%at_z_inv & E).
    apply bind_ok in E as (? & H4%ensure_ok & E).
    assert (0 <= s) as Hs0 by (eapply Forall_lookup_1 in Hs; [|exact Hsd]; cbn in Hs; lia).
    assert (isDynamicDimSize s = false) as Hdyn by (unfold isDynamicDimSize, kDynamic, int64_min; lia).
    rewrite Hdyn in H2. cbn [negb orb] in H2. apply ensure_ok in H2.
    exists (divideCeil (hi - lo) st). split; [|done]. exists lo, hi, st, s. split_and!; try done; lia.
  - by rewrite length_replicate.
Qed.

(** The index arithmetic of a slice does not overflow and stays inside the operand. *)
Lemma slice_index_spec (startIndices limitIndices strides os rs i : list Z) :
  shape_ok os -> length startIndices = length os -> length strides = length os -> length rs = length os ->
  (forall d : nat, (d < length os)%nat ->
    exists lo hi st s, startIndices !! d = Some lo /\ limitIndices !! d = Some hi /\ strides !! d = Some st /\
      os !! d = Some s /\ 0 <= lo <= hi /\ hi <= s /\ 0 < st /\ rs !! d = Some (divideCeil (hi - lo) st)) ->
  in_bounds i rs ->
  (scaled ← sizes_mul i strides; sizes_add startIndices scaled) = Ok (slice_index startIndices strides i) /\
  in_bounds (slice_index startIndices strides i) os.
Proof.
  intros Hs Hlen Hstr Hrl Hd Hi. pose proof (in_bounds_length _ _ Hi) as Hil.
  assert (forall (d : nat) lo x st s, startIndices !! d = Some lo -> i !! d = Some x -> strides !! d = Some st ->
    os !! d = Some s -> 0 <= x * st /\ 0 <= lo + x * st < s /\ 0 <= s <= int64_max) as Hlk.
  { intros d lo x st s H1 H2 H3 H4.
    destruct (Hd d) as (lo' & hi & st' & s' & E1 & E2 & E3 & E4 & ? & ? & ? & E5); [by apply lookup_lt_Some in H4|].
    simplify_eq. destruct (in_bounds_lookup_Some _ _ _ _ Hi E5) as (x' & Hx' & Hb). simplify_eq.
    pose proof (divideCeil_pos (hi - lo) st x ltac:(done) ltac:(lia)).
    eapply Forall_lookup_1 in Hs; [|exact H4]. cbn in Hs. nia. }
  assert (length (zip_with Z.mul i strides) = length strides) as Hlm by (rewrite length_zip_with; lia).
  split.
  - unfold sizes_mul, sizes_add, slice_index.
    rewrite sizes_zip_ok; [cbind|lia|].
    + apply sizes_zip_ok; [lia|]. apply Forall_lookup_2. intros d y Hy.
      apply lookup_zip_with_Some in Hy as (lo & z & -> & H1 & Hz).
      apply lookup_zip_with_Some in Hz as (x & st & -> & H2 & H3).
      destruct (lookup_lt_is_Some_2 (os) d) as [s H4]; [apply lookup_lt_Some in H1; lia|].
      pose proof (Hlk d lo x st s H1 H2 H3 H4). unfold int64_min in *. lia.
    + apply Forall_lookup_2. intros d y Hy. apply lookup_zip_with_Some in Hy as (x & st & -> & H2 & H3).
      destruct (lookup_lt_is_Some_2 (os) d) as [s H4]; [apply lookup_lt_Some in H3; lia|].
      destruct (lookup_lt_is_Some_2 startIndices d) as [lo H1]; [apply lookup_lt_Some in H3; lia|].
      pose proof (Hlk d lo x st s H1 H2 H3 H4).
      destruct (Hd d) as (? & ? & ? & ? & E1 & _ & _ & _ & ? & _); [by apply lookup_lt_Some in H4|].
      simplify_eq. unfold int64_min in *. lia.
  - apply in_bounds_intro.
    { unfold slice_index. rewrite length_zip_with. lia. }
    intros d y s Hy H4. unfold slice_index in Hy.
    apply lookup_zip_with_Some in Hy as (lo & z & -> & H1 & Hz).
    apply lookup_zip_with_Some in Hz as (x & st & -> & H2 & H3).
    pose proof (Hlk d lo x st s H1 H2 H3 H4). lia.
Qed.

Lemma sliceOp_spec operand startIndices limitIndices strides resultType :
  tensor_full operand -> length strides = length (getTensorShape operand) ->
  inferSliceOp (getTensorType operand) startIndices limitIndices strides = Ok resultType ->
  result_is resultType (sliceOp operand startIndices strides resultType)
    (reindexed (slice_index startIndices strides) operand).
Proof.
  intros Ho Hstr Hinf. pose proof (full_shape_ok _ Ho) as Hs.
  apply inferSliceOp_inv in Hinf as (Hlen & He & Hrl & Hd); [|done].
  change (getShape (getTensorType operand)) with (getTensorShape operand) in *.
  assert (shaped_ok resultType) as Hrt.
  { pose proof (full_shaped _ Ho) as Hso. destruct (getTensorType operand) as [s t e] eqn:Ht.
    destruct resultType as [s' t' e']. cbn in He. subst t'. eapply shaped_ok_le; [|exact Hso].
    unfold getTensorShape in *. rewrite Ht in *. cbn [getShape] in *.
    apply Forall2_same_length_lookup_2; [done|]. intros d x y Hx Hy.
    destruct (Hd d ltac:(by apply lookup_lt_Some in Hy)) as (lo & hi & st & z & _ & _ & _ & Hz & ? & ? & ? & Hx').
    rewrite Hx in Hx'. rewrite Hy in Hz. simplify_eq.
    pose proof (divideCeil_range (hi - lo) st). lia. }
  unfold sliceOp.
  eapply result_is_ext; [|apply build_reindexed with (f := fun i =>
    scaled ← sizes_mul i strides; sizes_add startIndices scaled); [done|done|done|]].
  { apply build_ext; [by destruct Hrt as (_ & ? & _)|]. intros i _. by destruct (sizes_mul i strides). }
  intros i Hi. by apply (slice_index_spec startIndices limitIndices strides (getTensorShape operand) (getShape resultType)).
Qed.

(** C31: when [inferSliceOp] accepts the operand's type, the bounds and the
    strides, [sliceOp] at the type it infers returns without a fault or an
    overflow, and the result holds at index [i] the operand's element at
    [start + i * strides], which is inside the operand. *)
Theorem slice_correct operand startIndices limitIndices strides resultType :
  tensor_full operand -> length strides = length (getTensorShape operand) ->
  inferSliceOp (getTensorType operand) startIndices limitIndices strides = Ok resultType ->
  result_is resultType (sliceOp operand startIndices strides resultType)
    (reindexed (slice_index startIndices strides) operand).
Proof. apply sliceOp_spec. Qed.

(** ** [dynamicSliceOp] and [dynamicUpdateSliceOp] *)

(** A scalar tensor of an integer type. *)
Definition scalar_index (t : Tensor) : Prop :=
  tensor_full t /\ getTensorShape t = [] /\
  exists s w, getTensorElementType t = IntegerType s w /\ int_type s w = true.

(** The start, moved so that the slice is inside the operand. *)
Definition clamped_start (starts shape sliceSizes : Sizes) : Index :=
  zip_with (fun start room => Z.min (Z.max start 0) room) starts (zip_with Z.sub shape sliceSizes).

Lemma int_element_inv e s w :
  element_ok e -> getType e = IntegerType s w -> int_type s w = true ->
  exists v, e = MkElement (IntegerType s w) (VInt v) /\ Support.getBitWidth v = w.
Proof.
  intros Hok Hty Hi.
  destruct (element_ok_cases e Hok) as [(s' & w' & v & -> & _ & Hw)|[(b & ->)|[(f & -> & _)|(k & c & -> & _)]]];
    cbn [getType bool_el] in Hty; unfold i1 in Hty; simplify_eq.
  by exists v.
Qed.

Lemma int_el_ok s w z : int_type s w = true -> element_ok (int_el s w z).
Proof.
  intros H. pose proof (int_type_pos _ _ H). unfold element_ok, int_el. cbn [value_ getType].
  rewrite int_type_supported. split; [done|]. cbn [getIntOrFloatBitWidth]. by rewrite width_apint by lia.
Qed.

Lemma evalIndexScalars_ok ts :
  Forall scalar_index ts -> exists starts, evalIndexScalars ts = Ok starts /\ length starts = length ts.
Proof.
  unfold evalIndexScalars. induction 1 as [|t ts (Hf & Hsh & s & w & Ht & Hi) Hts (starts & Hst & Hl)]; [by exists []|].
  cbn [mapM]. destruct (full_get t []) as (e & He & Hok & Hty); [done|rewrite Hsh; constructor|].
  rewrite He. cbind. rewrite Ht in Hty.
  destruct (int_element_inv _ _ _ Hok Hty Hi) as (v & -> & _).
  rewrite getIntegerValue_ok by done. cbind. rewrite Hst. eexists; split; [done|]. cbn. lia.
Qed.

Lemma clamp_lo_ok starts shape sliceSizes :
  length starts = length shape -> length shape = length sliceSizes ->
  clamp_lo 0 starts (zip_with Z.sub shape sliceSizes) = Ok (clamped_start starts shape sliceSizes).
Proof.
  intros H1 H2. unfold clamp_lo, clamp. rewrite length_replicate, length_zip_with.
  rewrite decide_True by (split; lia). f_equal. unfold clamped_start.
  generalize (zip_with Z.sub shape sliceSizes). clear H1 H2.
  induction starts as [|a starts IH]; intros [|r rs]; try done. cbn [length replicate zip zip_with]. by rewrite IH.
Qed.

Lemma zip_with_sub_fits (x y : Sizes) :
  Forall2 (fun y x => 0 <= y <= x) y x -> Forall (fun d => d <= int64_max) x -> fits (zip_with Z.sub x y).
Proof.
  induction 1 as [|b a y x H Hyx IH]; intros Hm; [constructor|]. apply Forall_cons in Hm as [? ?].
  constructor; [unfold int64_min in *; lia|by apply IH].
Qed.

(** The arithmetic both operations do first. *)
Lemma adjusted_start ts shape sliceSizes {A} (k : Index -> result A) :
  Forall scalar_index ts -> length ts = length shape -> shape_ok shape ->
  Forall2 (fun z d => 0 <= z <= d) sliceSizes shape ->
  exists starts, evalIndexScalars ts = Ok starts /\ length starts = length shape /\
    (starts ← evalIndexScalars ts; limits ← sizes_sub shape sliceSizes; adj ← clamp_lo 0 starts limits; k adj)
    = k (clamped_start starts shape sliceSizes).
Proof.
  intros Hts Hl Hs Hz. destruct (evalIndexScalars_ok ts Hts) as (starts & Hst & Hsl).
  exists starts. split; [done|]. split; [lia|]. rewrite Hst. cbind.
  pose proof (Forall2_length _ _ _ Hz). unfold sizes_sub.
  rewrite sizes_zip_ok; [|lia|apply zip_with_sub_fits; [done|eapply Forall_impl; [exact Hs|cbn; lia]]].
  cbind. by rewrite clamp_lo_ok by lia.
Qed.

Lemma clamped_start_lookup starts shape sliceSizes (d : nat) a :
  Forall2 (fun z d => 0 <= z <= d) sliceSizes shape ->
  clamped_start starts shape sliceSizes !! d = Some a ->
  exists s z, shape !! d = Some s /\ sliceSizes !! d = Some z /\ 0 <= z /\ 0 <= a /\ a + z <= s.
Proof.
  intros Hz Ha. apply lookup_zip_with_Some in Ha as (st & r & -> & _ & Hr).
  apply lookup_zip_with_Some in Hr as (s & z & -> & Hs & Hzd).
  exists s, z. destruct (Forall2_lookup_lr _ _ _ _ _ _ Hz Hzd Hs). split_and!; try done; lia.
Qed.

Lemma length_clamped_start starts shape sliceSizes :
  length starts = length shape -> length sliceSizes = length shape ->
  length (clamped_start starts shape sliceSizes) = length shape.
Proof. intros. unfold clamped_start. rewrite !length_zip_with. lia. Qed.

(** Adding an index of the slice to the clamped start. *)
Lemma slice_at_start starts shape sliceSizes i :
  shape_ok shape -> length starts = length shape ->
  Forall2 (fun z d => 0 <= z <= d) sliceSizes shape -> in_bounds i sliceSizes ->
  sizes_add (clamped_start starts shape sliceSizes) i
    = Ok (zip_with Z.add (clamped_start starts shape sliceSizes) i) /\
  in_bounds (zip_with Z.add (clamped_start starts shape sliceSizes) i) shape.
Proof.
  intros Hs Hst Hz Hi. pose proof (Forall2_length _ _ _ Hz) as Hzl. pose proof (in_bounds_length _ _ Hi).
  pose proof (length_clamped_start starts shape sliceSizes Hst Hzl) as Hcl.
  assert (in_bounds (zip_with Z.add (clamped_start starts shape sliceSizes) i) shape) as Hb.
  { apply in_bounds_intro; [rewrite length_zip_with; lia|]. intros d y s Hy Hsd.
    apply lookup_zip_with_Some in Hy as (a & x & -> & Ha & Hx).
    apply clamped_start_lookup in Ha as (s' & z & Hs' & Hzd & ? & ? & ?); [|done].
    pose proof (in_bounds_lookup _ _ _ _ _ Hi Hx Hzd). simplify_eq. lia. }
  split; [|done]. unfold sizes_add. apply sizes_zip_ok; [lia|].
  apply Forall_lookup_2. intros d y Hy.
  destruct (lookup_lt_is_Some_2 shape d) as [s Hsd]; [apply lookup_lt_Some in Hy; rewrite length_zip_with in Hy; lia|].
  pose proof (in_bounds_lookup _ _ _ _ _ Hb Hy Hsd). eapply Forall_lookup_1 in Hs; [|exact Hsd]. cbn in Hs.
  unfold int64_min. lia.
Qed.

Lemma inferDynamicSliceOp_inv operandType startTypes sliceSizes type :
  inferDynamicSliceOp operandType startTypes sliceSizes = Ok type -> shape_ok (getShape operandType) ->
  type = MkShaped sliceSizes (getElementType operandType) None /\
  length startTypes = length (getShape operandType) /\
  Forall2 (fun z d => 0 <= z <= d) sliceSizes (getShape operandType).
Proof.
  unfold inferDynamicSliceOp, getRank. intros H Hs. apply bind_ok in H as (? & H1%ensure_ok & H).
  apply bind_ok in H as (? & H2%ensure_ok & H). apply bind_ok in H as (? & _ & H).
  apply bind_ok in H as ([] & Hf & [= <-]). split; [done|]. split; [lia|].
  apply Forall2_same_length_lookup_2; [lia|]. intros d z s Hz Hsd.
  pose proof (foldM_unit_seqZ _ _ Hf d (lookup_lt_Some _ _ _ Hz)) as E. cbn beta in E.
  rewrite (at_z_some _ _ _ Hz) in E. cbn [mbind result_bind] in E.
  apply bind_ok in E as (? & E1%ensure_ok & E).
  rewrite (at_z_some _ _ _ Hsd) in E. cbn [mbind result_bind] in E. apply ensure_ok in E.
  eapply Forall_lookup_1 in Hs; [|exact Hsd]. cbn in Hs. unfold isDynamicDimSize, kDynamic, int64_min in E. lia.
Qed.

Lemma inferDynamicSliceOp_ok operandType startTypes sliceSizes :
  length startTypes = length (getShape operandType) -> tensorsHaveSameElType startTypes true = true ->
  Forall2 (fun z d => 0 <= z <= d) sliceSizes (getShape operandType) ->
  inferDynamicSliceOp operandType startTypes sliceSizes
    = Ok (MkShaped sliceSizes (getElementType operandType) None).
Proof.
  intros Hl Hel Hz. pose proof (Forall2_length _ _ _ Hz) as Hzl. unfold inferDynamicSliceOp, getRank.
  rewrite !(proj2 (Z.eqb_eq _ _)) by lia. cbn [ensure mbind result_bind]. rewrite Hel. cbn [ensure mbind result_bind].
  rewrite foldM_unit_intro; [done|]. intros x Hx%elem_of_seqZ.
  destruct (at_z_lt sliceSizes x) as (z & -> & Hzx); [lia|].
  destruct (at_z_lt (getShape operandType) x) as (d & -> & Hdx); [lia|].
  destruct (Forall2_lookup_lr _ _ _ _ _ _ Hz Hzx Hdx). cbn [mbind result_bind].
  rewrite (proj2 (Z.leb_le 0 z)), (proj2 (Z.leb_le z d)), orb_true_r by lia. done.
Qed.

Lemma dynamicSliceOp_spec operand startIndices sliceSizes resultType :
  tensor_full operand -> Forall scalar_index startIndices ->
  inferDynamicSliceOp (getTensorType operand) (getTensorType <$> startIndices) sliceSizes = Ok resultType ->
  exists starts, evalIndexScalars startIndices = Ok starts /\
  result_is resultType (dynamicSliceOp operand startIndices sliceSizes resultType)
    (reindexed (zip_with Z.add (clamped_start starts (getTensorShape operand) sliceSizes)) operand).
Proof.
  intros Ho Hts Hinf. pose proof (full_shape_ok _ Ho) as Hs.
  apply inferDynamicSliceOp_inv in Hinf as (-> & Hl & Hz); [|done]. rewrite length_fmap in Hl.
  change (getShape (getTensorType operand)) with (getTensorShape operand) in *.
  assert (shaped_ok (MkShaped sliceSizes (getElementType (getTensorType operand)) None)) as Hrt.
  { pose proof (full_shaped _ Ho) as Hso. unfold getTensorShape in *.
    destruct (getTensorType operand) as [s t e]. by eapply shaped_ok_le. }
  set (rt := MkShaped sliceSizes _ None) in *.
  destruct (adjusted_start startIndices (getTensorShape operand) sliceSizes
    (fun adj => t ← newTensor rt; for_set (fun i => j ← sizes_add adj i; get operand j) t))
    as (starts & Hst & Hsl & E); [done|done|done|done|].
  exists starts. split; [done|]. eapply result_is_ext; [|apply build_reindexed with
    (f := sizes_add (clamped_start starts (getTensorShape operand) sliceSizes)); [done|done|done|]].
  - unfold dynamicSliceOp, build. rewrite <- E. destruct (newTensor_ok rt Hrt) as (t & -> & _). by cbind.
  - intros i Hi. by apply slice_at_start.
Qed.

(** C32: when [inferDynamicSliceOp] accepts the types, [dynamicSliceOp] returns
    without a fault whatever integers the start indices hold: the slice is read
    at the start, which [evalIndexScalars] reads as a signed integer whatever its type,
    clamped to the range that keeps it inside the operand. *)
Theorem dynamic_slice_correct operand startIndices sliceSizes resultType :
  tensor_full operand -> Forall scalar_index startIndices ->
  inferDynamicSliceOp (getTensorType operand) (getTensorType <$> startIndices) sliceSizes = Ok resultType ->
  exists starts, evalIndexScalars startIndices = Ok starts /\
  result_is resultType (dynamicSliceOp operand startIndices sliceSizes resultType)
    (reindexed (zip_with Z.add (clamped_start starts (getTensorShape operand) sliceSizes)) operand).
Proof. apply dynamicSliceOp_spec. Qed.
End OpsFacts.

(** ** Witnesses *)
Section Witnesses.
Import Concrete.

Lemma broadcast_in_dim_correct_witness :
  result_is (shaped [2; 3; 2] ui8) (broadcastInDimOp sample [0; 1] (shaped [2; 3; 2] ui8))
    (reindexed (broadcast_index [2; 3] [0; 1]) sample) /\ broadcast_index [2; 3] [0; 1] [1; 2; 1] = [1; 2].
Proof.
  split; [|reflexivity]. apply (broadcast_in_dim_correct sample [0; 1] (shaped [2; 3; 2] ui8)); concrete.
Defined.

Lemma slice_correct_witness :
  result_is (shaped [1; 2] ui8) (sliceOp sample [1; 0] [1; 2] (shaped [1; 2] ui8))
    (reindexed (slice_index [1; 0] [1; 2]) sample) /\ slice_index [1; 0] [1; 2] [0; 1] = [1; 2].
Proof. split; [|reflexivity]. apply (slice_correct sample [1; 0] [2; 3] [1; 2]); concrete. Defined.

(** A start past the end is moved back. *)
Lemma dynamic_slice_correct_witness :
  exists starts, evalIndexScalars [scalar 0; scalar 200] = Ok starts /\
  result_is (shaped [2; 2] ui8) (dynamicSliceOp sample [scalar 0; scalar 200] [2; 2] (shaped [2; 2] ui8))
    (reindexed (zip_with Z.add (clamped_start starts [2; 3] [2; 2])) sample).
Proof.
  apply (dynamic_slice_correct sample); [concrete| |concrete].
  repeat constructor; try concrete; exists Unsigned, 8; split; reflexivity.
Defined.
End Witnesses.
