(* ===== verification/OpsMoves.v ===== *)
(** * Updates, reshapes and iota

    [dynamicUpdateSliceOp], [reshapeOp] and [iotaOp] of [Ops.v], with their round trips. *)
From S2P Require Import Prelude Types Support Index Element ElementFacts Tensor TensorFacts Samples Base TypeInference Ops OpsFacts.

Section OpsMoves.
Context {L : LLVM} {Laws : LLVMLaws L}.

(** ** [dynamicUpdateSliceOp] *)
Lemma inferDynamicUpdateSliceOp_inv operandType updateType startTypes type :
  inferDynamicUpdateSliceOp operandType updateType startTypes = Ok type ->
  shape_ok (getShape operandType) -> shape_ok (getShape updateType) ->
  type = operandType /\ length startTypes = length (getShape operandType) /\
  Forall2 (fun z d => 0 <= z <= d) (getShape updateType) (getShape operandType).
Proof.
  unfold inferDynamicUpdateSliceOp, getRank. intros H Hs Hu. apply bind_ok in H as (? & H1%ensure_ok & H).
  apply bind_ok in H as (? & H2%ensure_ok & H). apply bind_ok in H as (? & _ & H).
  apply bind_ok in H as ([] & Hf%ensure_ok & [= <-]). split; [done|]. split; [lia|].
  assert (length (getShape updateType) = length (getShape operandType)) as Hl by lia. clear H1 H2.
  revert Hf Hs Hu Hl. generalize (getShape updateType) as us, (getShape operandType) as os.
  induction us as [|u us IH]; intros [|o os] Hf Hs Hu Hl; try done.
  apply Forall_cons in Hs as [Ho Hs], Hu as [Hu0 Hu].
  cbn [zip zip_with forallb] in Hf. apply andb_true_iff in Hf as [Hf0 Hf].
  constructor; [|apply IH; (done || cbn in Hl; lia)].
  unfold isStaticDimSize, isDynamicDimSize, kDynamic, int64_min in Hf0.
  destruct (Z.eqb_spec o (-2 ^ 63)); cbn [negb] in Hf0; lia.
Qed.

(** What the result holds at an index: the update inside the window at [start],
    the operand outside. *)
Definition updated_at (operand update : Tensor) (start : Index) (t : Tensor) : Prop :=
  forall i, in_bounds i (getTensorShape operand) ->
    get t i = if inBounds (zip_with Z.sub i start) (getTensorShape update)
              then get update (zip_with Z.sub i start) else get operand i.

Lemma index_minus_start starts shape sliceSizes i :
  shape_ok shape -> length starts = length shape ->
  Forall2 (fun z d => 0 <= z <= d) sliceSizes shape -> in_bounds i shape ->
  sizes_sub i (clamped_start starts shape sliceSizes)
  = Ok (zip_with Z.sub i (clamped_start starts shape sliceSizes)).
Proof.
  intros Hs Hst Hz Hi. pose proof (Forall2_length _ _ _ Hz) as Hzl. pose proof (in_bounds_length _ _ Hi).
  pose proof (length_clamped_start starts shape sliceSizes Hst Hzl) as Hcl.
  unfold sizes_sub. apply sizes_zip_ok; [lia|]. apply Forall_lookup_2. intros d y Hy.
  apply lookup_zip_with_Some in Hy as (x & a & -> & Hx & Ha).
  apply clamped_start_lookup in Ha as (s & z & Hsd & Hzd & ? & ? & ?); [|done].
  pose proof (in_bounds_lookup _ _ _ _ _ Hi Hx Hsd). eapply Forall_lookup_1 in Hs; [|exact Hsd]. cbn in Hs.
  unfold int64_min, int64_max in *. lia.
Qed.

Lemma dynamicUpdateSliceOp_spec operand update startIndices resultType :
  tensor_full operand -> tensor_full update -> getTensorElementType update = getTensorElementType operand ->
  Forall scalar_index startIndices ->
  inferDynamicUpdateSliceOp (getTensorType operand) (getTensorType update) (getTensorType <$> startIndices)
    = Ok resultType ->
  exists starts, evalIndexScalars startIndices = Ok starts /\ length starts = length (getTensorShape operand) /\
  Forall2 (fun z d => 0 <= z <= d) (getTensorShape update) (getTensorShape operand) /\
  resultType = getTensorType operand /\
  result_is resultType (dynamicUpdateSliceOp operand update startIndices resultType)
    (updated_at operand update (clamped_start starts (getTensorShape operand) (getTensorShape update))).
Proof.
  intros Ho Hu He Hts Hinf. pose proof (full_shape_ok _ Ho) as Hs.
  apply inferDynamicUpdateSliceOp_inv in Hinf as (-> & Hl & Hz); [|done|by apply full_shape_ok].
  rewrite length_fmap in Hl. fold (getTensorShape operand) in *. fold (getTensorShape update) in *.
  set (rt := getTensorType operand) in *.
  set (src := fun adj i => j ← sizes_sub i adj;
    if inBounds j (getTensorShape update) then get update j else get operand i).
  destruct (adjusted_start startIndices (getTensorShape operand) (getTensorShape update)
    (fun adj => t ← newTensor rt; for_set (src adj) t)) as (starts & Hst & Hsl & E); [done|done|done|done|].
  exists starts. do 4 (split; [done|]). set (adj := clamped_start _ _ _) in *.
  assert (forall i, in_bounds i (getTensorShape operand) -> src adj i =
    if inBounds (zip_with Z.sub i adj) (getTensorShape update)
    then get update (zip_with Z.sub i adj) else get operand i) as Hsrc.
  { intros i Hi. unfold src, adj. rewrite index_minus_start by done. by cbind. }
  eapply result_is_ext; [|apply build_result with (f := src adj); [by apply full_shaped| |]].
  - unfold dynamicUpdateSliceOp, build. rewrite <- E.
    destruct (newTensor_ok rt) as (t & -> & _); [by apply full_shaped|]. by cbind.
  - intros i Hi. rewrite Hsrc by done. destruct (inBounds _ _) eqn:Hb.
    + apply inBounds_spec in Hb. destruct (full_get update _ Hu Hb) as (e & ? & ? & Hty). exists e.
      split_and!; [done|done|by rewrite Hty, He].
    + by apply full_get.
  - intros t _ Hg i Hi. rewrite Hg by done. by apply Hsrc.
Qed.

(** When [inferDynamicUpdateSliceOp] accepts the types, [dynamicUpdateSliceOp]
    returns without a fault, whatever integers the start indices hold, a tensor
    of the operand's type that holds the update in the window at the clamped
    start and the operand everywhere else. *)
Theorem dynamic_update_slice_correct operand update startIndices resultType :
  tensor_full operand -> tensor_full update -> getTensorElementType update = getTensorElementType operand ->
  Forall scalar_index startIndices ->
  inferDynamicUpdateSliceOp (getTensorType operand) (getTensorType update) (getTensorType <$> startIndices)
    = Ok resultType ->
  exists starts, evalIndexScalars startIndices = Ok starts /\
  result_is resultType (dynamicUpdateSliceOp operand update startIndices resultType)
    (updated_at operand update (clamped_start starts (getTensorShape operand) (getTensorShape update))).
Proof.
  intros Ho Hu He Hts Hinf.
  destruct (dynamicUpdateSliceOp_spec _ _ _ _ Ho Hu He Hts Hinf) as (starts & ? & _ & _ & _ & ?). by exists starts.
Qed.

Lemma zip_with_sub_add (a i : Sizes) : length a = length i -> zip_with Z.sub (zip_with Z.add a i) a = i.
Proof.
  revert i. induction a as [|x a IH]; intros [|y i] H; try done. cbn [zip_with]. f_equal; [lia|].
  apply IH. cbn in H. lia.
Qed.

(** Slicing the updated tensor at the same start indices, with the update's
    sizes, gives the update back, wherever the start indices point. *)
Theorem dynamic_slice_of_update operand update startIndices resultType :
  tensor_full operand -> tensor_full update -> getTensorElementType update = getTensorElementType operand ->
  Forall scalar_index startIndices ->
  inferDynamicUpdateSliceOp (getTensorType operand) (getTensorType update) (getTensorType <$> startIndices)
    = Ok resultType ->
  exists updated sliced,
    dynamicUpdateSliceOp operand update startIndices resultType = Ok updated /\
    dynamicSliceOp updated startIndices (getTensorShape update)
      (shaped (getTensorShape update) (getTensorElementType update)) = Ok sliced /\
    forall i, in_bounds i (getTensorShape update) -> get sliced i = get update i.
Proof.
  intros Ho Hu He Hts Hinf.
  destruct (dynamicUpdateSliceOp_spec _ _ _ _ Ho Hu He Hts Hinf)
    as (starts & Hst & Hsl & Hz & -> & updated & Hup & Hty & Hfull & Hat).
  assert (getTensorShape updated = getTensorShape operand) as Hsh by (unfold getTensorShape; by rewrite Hty).
  assert (inferDynamicSliceOp (getTensorType updated) (getTensorType <$> startIndices) (getTensorShape update)
    = Ok (shaped (getTensorShape update) (getTensorElementType update))) as Hinf'.
  { unfold inferDynamicUpdateSliceOp in Hinf. apply bind_ok in Hinf as (? & _ & Hinf).
    apply bind_ok in Hinf as (? & H2%ensure_ok & Hinf). apply bind_ok in Hinf as (? & H3%ensure_ok & _).
    rewrite Hty. unfold shaped. rewrite He. apply inferDynamicSliceOp_ok; [unfold getRank in H2; lia|done|done]. }
  destruct (dynamicSliceOp_spec updated startIndices _ _ Hfull Hts Hinf')
    as (starts' & Hst' & sliced & Hsl' & Hty' & Hfull' & Hre).
  rewrite Hst in Hst'. injection Hst' as <-. exists updated, sliced. split; [done|]. split; [done|].
  intros i Hi. rewrite Hsh in Hre. destruct (Hre i) as [Hb ->].
  { unfold getTensorShape at 1. by rewrite Hty'. }
  rewrite Hsh in Hb. rewrite (Hat _ Hb). pose proof (Forall2_length _ _ _ Hz) as Hzl.
  rewrite zip_with_sub_add by (rewrite length_clamped_start, <- Hzl by done; symmetry; by apply in_bounds_length).
  apply inBounds_spec in Hi. by rewrite Hi.
Qed.

(** ** [reshapeOp] *)
Definition copy_elements (operand : Tensor) (l : list (Index * Index)) (t : Tensor) : result Tensor :=
  foldM (fun p t => e ← get operand p.2; set t p.1 e) l t.

Lemma reshape_loop_spec operand rs os : shape_ok rs -> shape_ok os -> length (indices rs) = length (indices os) ->
  forall n k fuel t, n = (length (indices rs) - k)%nat -> (n <= fuel)%nat ->
  reshape_loop fuel operand {| shape_ := rs; index_ := indices rs !! k |} (index_end rs)
    {| shape_ := os; index_ := indices os !! k |} t
  = copy_elements operand (drop k (zip (indices rs) (indices os))) t.
Proof.
  intros Hrs Hos Hl n. induction n as [|n IH]; intros k fuel t Hn Hfuel.
  - rewrite lookup_ge_None_2, (drop_ge (zip _ _)) by (rewrite ?length_zip_with; lia).
    destruct fuel; cbn [reshape_loop]; by rewrite decide_True by done.
  - destruct (lookup_lt_is_Some_2 (indices rs) k) as [i Hi]; [lia|].
    destruct (lookup_lt_is_Some_2 (indices os) k) as [j Hj]; [lia|].
    destruct fuel as [|fuel]; [lia|].
    rewrite (drop_S (zip (indices rs) (indices os)) (i, j) k)
      by (apply lookup_zip_with_Some; by exists i, j).
    unfold copy_elements. rewrite Hi, Hj. cbn [reshape_loop foldM fst snd].
    rewrite decide_False by done. unfold iter_deref. cbn [index_ ok_or]. cbind.
    destruct (get operand j) as [e|]; [|done]. cbind. destruct (set t i e) as [t'|]; [|done]. cbind.
    apply indices_lookup_flat in Hi as [Hi Hf]; [|by auto with hlo].
    apply indices_lookup_flat in Hj as [Hj Hf']; [|by auto with hlo].
    rewrite !iter_incr_spec, Hf, Hf', Nat2Z.id by done. cbind. apply IH; lia.
Qed.

(** Positions of two shapes of as many elements that correspond in row-major order. *)
Lemma flat_partner s s' i :
  shape_ok s' -> prod_z s = prod_z s' -> in_bounds i s ->
  exists j, in_bounds j s' /\ flat s i = flat s' j.
Proof.
  intros Hs' Hp Hi. pose proof (flat_bounds _ _ Hi) as Hf.
  destruct (lookup_lt_is_Some_2 (indices s') (Z.to_nat (flat s i))) as [j Hj].
  { rewrite length_indices by auto with hlo. lia. }
  apply indices_lookup_flat in Hj as [Hj Hjf]; [|by auto with hlo]. exists j. split; [done|]. lia.
Qed.

Definition same_order (operand t : Tensor) : Prop :=
  forall i j, in_bounds i (getTensorShape t) -> in_bounds j (getTensorShape operand) ->
    flat (getTensorShape t) i = flat (getTensorShape operand) j -> get t i = get operand j.

Lemma hasStaticShape_ok type : shape_ok (getShape type) -> hasStaticShape type = true.
Proof.
  intros H. apply forallb_forall. intros d Hd%list_elem_of_In. unfold shape_ok in H.
  rewrite Forall_forall in H. apply H in Hd. unfold isStaticDimSize, isDynamicDimSize, kDynamic, int64_min. lia.
Qed.

Lemma verifyReshapeOp_inv operandType resultType :
  verifyReshapeOp operandType resultType = Ok () -> shape_ok (getShape operandType) -> shape_ok (getShape resultType) ->
  prod_z (getShape resultType) = prod_z (getShape operandType).
Proof.
  unfold verifyReshapeOp. intros H Ho Hr. rewrite !hasStaticShape_ok in H by done. cbn [negb orb] in H.
  apply bind_ok in H as (? & H%ensure_ok & _). unfold getNumElements in H. lia.
Qed.

Lemma reshapeOp_spec operand resultType :
  tensor_full operand -> shaped_ok resultType -> getElementType resultType = getTensorElementType operand ->
  prod_z (getShape resultType) = prod_z (getTensorShape operand) ->
  result_is resultType (reshapeOp operand resultType) (same_order operand).
Proof.
  intros Ho Hr He Hp. pose proof (full_shape_ok _ Ho) as Hs. assert (shape_ok (getShape resultType)) as Hrs by (by destruct Hr as (_ & ? & _)).
  set (rs := getShape resultType) in *. set (os := getTensorShape operand) in *.
  assert (length (indices rs) = length (indices os)) as Hl by (rewrite !length_indices by auto with hlo; by rewrite Hp).
  destruct (newTensor_ok resultType Hr) as (t0 & Ht0 & Hok0 & Hty0).
  destruct (foldM_set (fun p t => e ← get operand p.2; set t p.1 e) (fun p => Some p.1)
    (fun p => fn_val (get operand) p.2) resultType (zip (indices rs) (indices os)) t0)
    as (t & Hf & Hok & Hty & Hhit & _); [done|done|..].
  { intros [i j] t Hij _ _. pose proof (elem_of_zip_r _ _ _ _ Hij) as Hj%elem_of_indices. cbn [fst snd].
    destruct (full_get operand j Ho Hj) as (e & Hge & _). unfold fn_val. by rewrite Hge. }
  { intros [i j] i' Hij [= <-]. cbn [fst snd].
    pose proof (elem_of_zip_l _ _ _ _ Hij) as Hi%elem_of_indices. pose proof (elem_of_zip_r _ _ _ _ Hij) as Hj%elem_of_indices.
    destruct (full_get operand j Ho Hj) as (e & Hge & ? & ?). unfold fn_val. rewrite Hge. split_and!; [done|done|congruence]. }
  assert (forall i j, in_bounds i rs -> in_bounds j os -> flat rs i = flat os j -> get t i = get operand j) as Hord.
  { intros i j Hi Hj Hij. destruct (full_get operand j Ho Hj) as (e & Hge & _).
    assert ((i, j) ∈ zip (indices rs) (indices os)) as Hin.
    { apply list_elem_of_lookup_2 with (Z.to_nat (flat rs i)). apply lookup_zip_with_Some.
      exists i, j. split; [done|]. split; [by apply lookup_indices|]. rewrite Hij. by apply lookup_indices. }
    rewrite (Hhit (i, j) i Hin); [unfold fn_val; cbn [snd]; by rewrite Hge|done|].
    intros [i' j'] Hin' [= ->]. f_equal. cbn [snd].
    apply list_elem_of_lookup in Hin' as (k & Hk). apply lookup_zip_with_Some in Hk as (x & y & [= <- <-] & Hx & Hy).
    apply indices_lookup_flat in Hx as [_ Hx]; [|by auto with hlo].
    apply indices_lookup_flat in Hy as [Hy' Hy]; [|by auto with hlo].
    apply (flat_inj os); [done|done|lia]. }
  exists t. split; [|split; [done|split; [split; [done|]|]]].
  - unfold reshapeOp. rewrite Ht0. cbind. rewrite !index_begin_spec by done. fold rs os.
    rewrite reshape_loop_spec with (n := length (indices rs)); [exact Hf|done|done|done|lia|].
    rewrite length_indices by auto with hlo. done.
  - rewrite Hty. intros i Hi. destruct (flat_partner rs os i) as (j & Hj & Hij); [done|done|done|].
    rewrite (Hord i j) by done. rewrite He. by apply full_get.
  - unfold same_order. replace (getTensorShape t) with rs by (unfold getTensorShape; by rewrite Hty). exact Hord.
Qed.

(** C35: when [verifyReshapeOp] accepts the two types, [reshapeOp] returns without
    a fault (its loop ends and neither iterator is used past its end) a tensor
    that holds the operand's elements in the same row-major order. *)
Theorem reshape_preserves_order operand resultType :
  tensor_full operand -> shaped_ok resultType -> getElementType resultType = getTensorElementType operand ->
  verifyReshapeOp (getTensorType operand) resultType = Ok () ->
  result_is resultType (reshapeOp operand resultType) (same_order operand).
Proof.
  intros Ho Hr He Hv. apply reshapeOp_spec; [done|done|done|].
  apply verifyReshapeOp_inv in Hv; [done|by apply full_shape_ok|by destruct Hr as (_ & ? & _)].
Qed.

(** Reshaping to any accepted type and back restores every element. *)
Theorem reshape_round_trip operand resultType :
  tensor_full operand -> shaped_ok resultType -> getElementType resultType = getTensorElementType operand ->
  verifyReshapeOp (getTensorType operand) resultType = Ok () ->
  exists reshaped restored, reshapeOp operand resultType = Ok reshaped /\
    reshapeOp reshaped (getTensorType operand) = Ok restored /\
    forall i, in_bounds i (getTensorShape operand) -> get restored i = get operand i.
Proof.
  intros Ho Hr He Hv.
  apply verifyReshapeOp_inv in Hv; [|by apply full_shape_ok|by destruct Hr as (_ & ? & _)].
  destruct (reshapeOp_spec operand resultType) as (t & Ht & Hty & Hfull & Hord); [done|done|done|done|].
  destruct (reshapeOp_spec t (getTensorType operand)) as (t' & Ht' & Hty' & _ & Hord').
  - done.
  - by apply full_shaped.
  - unfold getTensorElementType. by rewrite Hty, He.
  - unfold getTensorShape. by rewrite Hty.
  - exists t, t'. split; [done|]. split; [done|]. intros i Hi.
    destruct (flat_partner (getTensorShape operand) (getTensorShape t) i) as (j & Hj & Hij).
    + by apply full_shape_ok.
    + unfold getTensorShape at 2. by rewrite Hty.
    + done.
    + assert (getTensorShape t' = getTensorShape operand) as Hsh by (unfold getTensorShape; by rewrite Hty').
      rewrite (Hord' i j), (Hord j i); rewrite ?Hsh; done.
Qed.

(** ** [iotaOp] *)

(** [iotaOp] on an integer type numbers the indices along its dimension:
    the element at an index is its coordinate there, modulo the width. *)
Theorem iota_correct iotaDimension shape s w d :
  shaped_ok (shaped shape (IntegerType s w)) -> int_type s w = true ->
  0 <= iotaDimension -> shape !! Z.to_nat iotaDimension = Some d ->
  result_is (shaped shape (IntegerType s w)) (iotaOp iotaDimension (shaped shape (IntegerType s w)))
    (fun t => forall i x, in_bounds i shape -> i !! Z.to_nat iotaDimension = Some x -> get t i = Ok (int_el s w x)).
Proof.
  intros Hsh Hi Hd Hlk. unfold iotaOp.
  change (getElementType (shaped shape (IntegerType s w))) with (IntegerType s w).
  assert (forall i x, in_bounds i shape -> i !! Z.to_nat iotaDimension = Some x ->
    (x ← at_z i iotaDimension; convert_i64 (IntegerType s w) x) = Ok (int_el s w x)) as E.
  { intros i x Hb Hx. rewrite (proj2 (at_z_ok i iotaDimension x)) by done. cbind. apply convert_i64_int; [done|].
    pose proof (in_bounds_lookup _ _ _ _ _ Hb Hx Hlk). destruct Hsh as (_ & Hs & _).
    eapply Forall_lookup_1 in Hs; [|exact Hlk]. cbn in Hs. unfold int64_max in Hs. lia. }
  apply build_result; [done| |].
  - intros i Hb. destruct (in_bounds_lookup_Some _ _ _ _ Hb Hlk) as (x & Hx & _).
    rewrite (E i x) by done. exists (int_el s w x). split; [done|]. split; [by apply int_el_ok|done].
  - intros t _ Hg i x Hb Hx. rewrite Hg by done. by apply E.
Qed.
End OpsMoves.

(** ** Witnesses *)
Section Witnesses.
Import Concrete.

Lemma scalar_is_index z : full_check (scalar z) = true -> scalar_index (scalar z).
Proof. intros H. split; [by apply full_check_ok|]. split; [done|]. by exists Unsigned, 8. Qed.

Ltac starts := repeat constructor; apply scalar_is_index; vm_compute; reflexivity.

Lemma dynamic_update_slice_correct_witness :
  exists starts, evalIndexScalars [scalar 0; scalar 200] = Ok starts /\
  result_is (getTensorType sample) (dynamicUpdateSliceOp sample (bytes [1; 2] [8; 9]) [scalar 0; scalar 200] (getTensorType sample))
    (updated_at sample (bytes [1; 2] [8; 9]) (clamped_start starts [2; 3] [1; 2])).
Proof.
  apply (dynamic_update_slice_correct sample (bytes [1; 2] [8; 9]) [scalar 0; scalar 200]); [concrete..|starts|concrete].
Defined.

Lemma dynamic_slice_of_update_witness :
  exists updated sliced,
    dynamicUpdateSliceOp sample (bytes [1; 2] [8; 9]) [scalar 0; scalar 200] (getTensorType sample) = Ok updated /\
    dynamicSliceOp updated [scalar 0; scalar 200] [1; 2] (shaped [1; 2] ui8) = Ok sliced /\
    forall i, in_bounds i [1; 2] -> get sliced i = get (bytes [1; 2] [8; 9]) i.
Proof.
  apply (dynamic_slice_of_update sample (bytes [1; 2] [8; 9]) [scalar 0; scalar 200]); [concrete..|starts|concrete].
Defined.

Lemma reshape_preserves_order_witness :
  result_is (shaped [3; 2] ui8) (reshapeOp sample (shaped [3; 2] ui8)) (same_order sample).
Proof. apply (reshape_preserves_order sample (shaped [3; 2] ui8)); concrete. Defined.

Lemma reshape_round_trip_witness :
  exists reshaped restored, reshapeOp sample (shaped [6] ui8) = Ok reshaped /\
    reshapeOp reshaped (getTensorType sample) = Ok restored /\
    forall i, in_bounds i [2; 3] -> get restored i = get sample i.
Proof. apply (reshape_round_trip sample (shaped [6] ui8)); concrete. Defined.

Lemma iota_correct_witness :
  result_is (shaped [2; 3] ui8) (iotaOp 1 (shaped [2; 3] ui8))
    (fun t => forall i x, in_bounds i [2; 3] -> i !! 1%nat = Some x -> get t i = Ok (int_el Unsigned 8 x)).
Proof. apply (iota_correct 1 [2; 3] Unsigned 8 3); [concrete|reflexivity|discriminate|reflexivity]. Defined.
End Witnesses.
