(* ===== verification/OpsPermute.v ===== *)
(** * Reversals and transposes *)
From S2P Require Import Prelude Types Support Index Element ElementFacts Tensor TensorFacts Samples Base TypeInference Ops OpsFacts.

(** ** Permutations of dimensions *)

(** [i[permutation[d]]] at every [d]. *)
Definition permuted (permutation : list Z) (i : Index) : Index :=
  (fun p => default 0 (i !! Z.to_nat p)) <$> permutation.

Definition position (permutation : list Z) (d : Z) : nat :=
  default O (fst <$> list_find (fun p => p = d) permutation).

Definition inverse (permutation : list Z) : list Z :=
  (fun d => Z.of_nat (position permutation d)) <$> seqZ 0 (Z.of_nat (length permutation)).

Definition permutes (permutation : list Z) (n : nat) : Prop := seqZ 0 (Z.of_nat n) ≡ₚ permutation.

Lemma permutes_length perm n : permutes perm n -> length perm = n.
Proof. intros H%Permutation_length. rewrite length_seqZ in H. lia. Qed.

Lemma permutes_lookup perm n (k : nat) p : permutes perm n -> perm !! k = Some p -> 0 <= p < Z.of_nat n.
Proof.
  intros H Hk. assert (p ∈ seqZ 0 (Z.of_nat n)) as Hin%elem_of_seqZ by (rewrite H; by eapply list_elem_of_lookup_2).
  lia.
Qed.

Lemma permutes_NoDup perm n : permutes perm n -> NoDup perm.
Proof. intros H. unfold permutes in H. rewrite <- H. apply NoDup_seqZ. Qed.

Lemma position_spec perm n d : permutes perm n -> 0 <= d < Z.of_nat n -> perm !! position perm d = Some d.
Proof.
  intros H Hd. assert (d ∈ perm) as Hin by (rewrite <- H; apply elem_of_seqZ; lia).
  unfold position. destruct (list_find _ perm) as [[k p]|] eqn:E.
  - apply list_find_Some in E as (? & -> & _). done.
  - apply list_find_None in E. rewrite Forall_forall in E. by destruct (E d).
Qed.

Lemma inverse_lookup perm n (d : nat) :
  permutes perm n -> (d < n)%nat -> inverse perm !! d = Some (Z.of_nat (position perm (Z.of_nat d))).
Proof.
  intros H Hd. unfold inverse. rewrite list_lookup_fmap, (permutes_length _ _ H).
  rewrite lookup_seqZ_lt by lia. cbn. do 3 f_equal. 
Qed.

Lemma permuted_lookup perm i (d : nat) p x :
  perm !! d = Some p -> i !! Z.to_nat p = Some x -> permuted perm i !! d = Some x.
Proof. intros Hp Hx. unfold permuted. rewrite list_lookup_fmap, Hp. cbn. by rewrite Hx. Qed.

Lemma length_permuted perm i : length (permuted perm i) = length perm.
Proof. apply length_fmap. Qed.

Lemma permuted_in_bounds perm s i :
  permutes perm (length s) -> in_bounds i s -> in_bounds (permuted perm i) (permuted perm s).
Proof.
  intros H Hi. apply in_bounds_intro; [by rewrite !length_permuted|]. intros d x y Hx Hy.
  unfold permuted in *. apply list_lookup_fmap_Some in Hx as (p & -> & Hp), Hy as (p' & -> & Hp'). simplify_eq.
  pose proof (permutes_lookup _ _ _ _ H Hp). pose proof (in_bounds_length _ _ Hi).
  destruct (lookup_lt_is_Some_2 s (Z.to_nat p)) as [y Hy]; [lia|].
  destruct (in_bounds_lookup_Some _ _ _ _ Hi Hy) as (x & Hx & ?). by rewrite Hx, Hy.
Qed.

(** [permuted (inverse p)] undoes [permuted p], and conversely. *)
Lemma permuted_inverse perm (i : Index) :
  permutes perm (length i) -> permuted perm (permuted (inverse perm) i) = i.
Proof.
  intros H. pose proof (permutes_length _ _ H) as Hl. apply list_eq_same_length with (length i).
  - done.
  - by rewrite length_permuted.
  - intros d x y Hd Hx Hy.
    unfold permuted in Hx. apply list_lookup_fmap_Some in Hx as (p & -> & Hp).
    pose proof (permutes_lookup _ _ _ _ H Hp).
    assert (position perm p = d) as Hpos.
    { apply (NoDup_lookup perm _ _ p); [by eapply permutes_NoDup|by eapply position_spec|done]. }
    rewrite list_lookup_fmap. rewrite (inverse_lookup perm (length i)) by (done || lia). cbn.
    rewrite Z2Nat.id, Hpos, Nat2Z.id, Hy by lia. done.
Qed.

Lemma inverse_permuted perm (i : Index) :
  permutes perm (length i) -> permuted (inverse perm) (permuted perm i) = i.
Proof.
  intros H. pose proof (permutes_length _ _ H) as Hl. apply list_eq_same_length with (length i).
  - done.
  - rewrite length_permuted. unfold inverse. rewrite length_fmap, length_seqZ. lia.
  - intros d x y Hd Hx Hy. 
    assert (d < length i)%nat as Hdl by (by eapply lookup_lt_Some).
    unfold permuted in Hx. rewrite list_lookup_fmap, (inverse_lookup perm (length i)) in Hx by done.
    cbn in Hx. rewrite Nat2Z.id, list_lookup_fmap, (position_spec _ _ _ H) in Hx by lia. cbn in Hx.
    rewrite Nat2Z.id, Hy in Hx. cbn in Hx. by simplify_eq.
Qed.

Lemma permutes_inverse perm n : permutes perm n -> permutes (inverse perm) n.
Proof.
  intros H. pose proof (permutes_length _ _ H) as Hl. apply NoDup_Permutation.
  - apply NoDup_seqZ.
  - apply NoDup_alt. intros a b x Ha Hb.
    assert (a < n /\ b < n)%nat as [Han Hbn].
    { apply lookup_lt_Some in Ha, Hb. unfold inverse in *. rewrite length_fmap, length_seqZ in *. lia. }
    rewrite (inverse_lookup perm n) in Ha, Hb by done. injection Ha as <-. injection Hb as Hb.
    pose proof (position_spec perm n (Z.of_nat a) H ltac:(lia)) as Pa.
    pose proof (position_spec perm n (Z.of_nat b) H ltac:(lia)) as Pb.
    assert (position perm (Z.of_nat a) = position perm (Z.of_nat b)) as E by lia. rewrite E, Pb in Pa. injection Pa. lia.
  - intros x. rewrite elem_of_seqZ. split.
    + intros Hx. assert (Z.to_nat x < n)%nat as Hxn by lia.
      destruct (lookup_lt_is_Some_2 perm (Z.to_nat x)) as [d Hd]; [lia|].
      pose proof (permutes_lookup _ _ _ _ H Hd) as Hdb.
      apply list_elem_of_lookup_2 with (Z.to_nat d). rewrite (inverse_lookup perm n) by (done || lia).
      do 2 f_equal. rewrite Z2Nat.id by lia.
      assert (position perm d = Z.to_nat x) as ->; [|lia].
      apply (NoDup_lookup perm _ _ d); [by eapply permutes_NoDup|by eapply position_spec|done].
    + intros (d & Hd)%list_elem_of_lookup. assert (d < n)%nat.
      { apply lookup_lt_Some in Hd. unfold inverse in Hd. rewrite length_fmap, length_seqZ in Hd. lia. }
      rewrite (inverse_lookup perm n) in Hd by done. injection Hd as <-.
      pose proof (position_spec perm n (Z.of_nat d) H ltac:(lia)) as Hp%lookup_lt_Some. lia.
Qed.

Section OpsPermute.
Context {L : LLVM} {Laws : LLVMLaws L}.

(** ** [transposeOp] *)

(** [t] holds the operand's element at [j] at [j] permuted. *)
Definition transposed (permutation : list Z) (operand t : Tensor) : Prop :=
  forall j, in_bounds j (getTensorShape operand) -> get t (permuted permutation j) = get operand j.

Lemma transpose_index permutation (j : Index) (n : nat) :
  permutes permutation n -> length j = n ->
  foldM (fun d resultIndex => p ← at_z permutation d; x ← at_z j p; set_z resultIndex d x)
    (seqZ 0 (Z.of_nat n)) (replicate n 0) = Ok (permuted permutation j).
Proof.
  intros H Hj. pose proof (permutes_length _ _ H) as Hl.
  replace n with (length (permuted permutation j)) by (by rewrite length_permuted).
  apply foldM_fill_to. intros d acc x Hx Hacc _. rewrite length_permuted in Hacc.
  unfold permuted in Hx. apply list_lookup_fmap_Some in Hx as (p & -> & Hp).
  pose proof (permutes_lookup _ _ _ _ H Hp). rewrite (at_z_some _ _ _ Hp). cbind.
  destruct (at_z_lt j p) as (x & -> & ->); [lia|]. cbind.
  rewrite set_z_ok by (apply lookup_lt_Some in Hp; lia). by rewrite Nat2Z.id.
Qed.

Lemma transposeOp_spec operand permutation resultType :
  tensor_full operand -> shaped_ok resultType -> getElementType resultType = getTensorElementType operand ->
  permutes permutation (length (getTensorShape operand)) ->
  getShape resultType = permuted permutation (getTensorShape operand) ->
  result_is resultType (transposeOp operand permutation resultType) (transposed permutation operand).
Proof.
  intros Ho Hr He Hp Hsh. pose proof (full_shape_ok _ Ho) as Hs. set (os := getTensorShape operand) in *.
  destruct (newTensor_ok resultType Hr) as (t0 & Ht0 & Hok0 & Hty0).
  destruct (foldM_set (fun j t =>
      resultIndex ← foldM (fun d resultIndex => p ← at_z permutation d; x ← at_z j p; set_z resultIndex d x)
        (seqZ 0 (getRank resultType)) (replicate (Z.to_nat (getRank resultType)) 0);
      e ← get operand j; set t resultIndex e) (fun j => Some (permuted permutation j))
    (fn_val (get operand)) resultType (indices os) t0) as (t & Hf & Hok & Hty & Hhit & _); [done|done|..].
  { intros j t Hj%elem_of_indices _ _. destruct (full_get operand j Ho Hj) as (e & Hge & _).
    unfold getRank. rewrite Hsh, length_permuted, (permutes_length _ _ Hp), Nat2Z.id.
    rewrite transpose_index by (done || by apply in_bounds_length). cbind. unfold fn_val. by rewrite Hge. }
  { intros j i Hj%elem_of_indices [= <-]. destruct (full_get operand j Ho Hj) as (e & Hge & ? & ?).
    unfold fn_val. rewrite Hge, Hsh. split_and!; [by apply permuted_in_bounds|done|congruence]. }
  assert (transposed permutation operand t) as Htr.
  { intros j Hj. destruct (full_get operand j Ho Hj) as (e & Hge & _).
    rewrite (Hhit j (permuted permutation j)); [unfold fn_val; by rewrite Hge|by apply elem_of_indices|done|].
    intros j' Hj'%elem_of_indices [= Hjj]. f_equal.
    rewrite <- (inverse_permuted permutation j'), <- (inverse_permuted permutation j), Hjj; [done|..];
      by rewrite (in_bounds_length _ os). }
  exists t. split; [|split; [done|split; [split; [done|]|done]]].
  - unfold transposeOp. rewrite Ht0. cbind. rewrite for_index_foldM by done. exact Hf.
  - rewrite Hty. intros i Hi. rewrite Hsh in Hi. pose proof (in_bounds_length _ _ Hi) as Hil.
    rewrite length_permuted, (permutes_length _ _ Hp) in Hil.
    rewrite <- (permuted_inverse permutation i) by (by rewrite Hil).
    pose proof (permuted_in_bounds (inverse permutation) (permuted permutation os) i) as Hb. rewrite inverse_permuted in Hb by done.
    rewrite length_permuted, (permutes_length _ _ Hp) in Hb. specialize (Hb (permutes_inverse _ _ Hp) Hi).
    rewrite Htr, He by done. by apply full_get.
Qed.

Lemma inferTransposeOp_inv operandType permutation type :
  inferTransposeOp operandType permutation = Ok type ->
  permutes permutation (length (getShape operandType)) /\
  getElementType type = getElementType operandType /\ getShape type = permuted permutation (getShape operandType).
Proof.
  unfold inferTransposeOp, getRank. intros H. apply bind_ok in H as (? & _ & H).
  apply bind_ok in H as (? & Hp%ensure_ok%bool_decide_eq_true & H). apply bind_ok in H as (sh & Hsh & H).
  apply bind_ok in H as (? & _ & H). apply bind_ok in H as (? & _ & [= <-]). split; [done|]. split; [done|].
  cbn [getShape]. apply mapM_inv in Hsh. clear Hp. unfold permuted.
  induction Hsh as [|p y perm sh Hy Hsh IH]; [done|]. cbn. rewrite <- IH. f_equal.
  apply at_z_ok in Hy as [_ Hy]. by rewrite Hy.
Qed.

(** C36: when [inferTransposeOp] accepts the operand's type and the permutation,
    [transposeOp] at the type it infers returns without a fault, writes every
    element of the result, and [result[permutation of j] = operand[j]]. *)
Theorem transpose_correct operand permutation resultType :
  tensor_full operand -> shaped_ok resultType ->
  inferTransposeOp (getTensorType operand) permutation = Ok resultType ->
  result_is resultType (transposeOp operand permutation resultType) (transposed permutation operand).
Proof. intros Ho Hr (Hp & He & Hsh)%inferTransposeOp_inv. by apply transposeOp_spec. Qed.

(** Transposing by a permutation and then by its inverse restores every element. *)
Theorem transpose_round_trip operand permutation resultType :
  tensor_full operand -> shaped_ok resultType ->
  inferTransposeOp (getTensorType operand) permutation = Ok resultType ->
  exists t restored, transposeOp operand permutation resultType = Ok t /\
    transposeOp t (inverse permutation) (getTensorType operand) = Ok restored /\
    forall i, in_bounds i (getTensorShape operand) -> get restored i = get operand i.
Proof.
  intros Ho Hr (Hp & He & Hsh)%inferTransposeOp_inv. fold (getTensorShape operand) in *.
  destruct (transposeOp_spec operand permutation resultType) as (t & Ht & Hty & Hfull & Htr); [done..|].
  assert (getTensorShape t = permuted permutation (getTensorShape operand)) as Hts
    by (unfold getTensorShape at 1; by rewrite Hty).
  destruct (transposeOp_spec t (inverse permutation) (getTensorType operand)) as (t' & Ht' & Hty' & _ & Htr').
  - done.
  - by apply full_shaped.
  - unfold getTensorElementType. by rewrite Hty, He.
  - rewrite Hts, length_permuted, (permutes_length _ _ Hp). by apply permutes_inverse.
  - by rewrite Hts, inverse_permuted.
  - exists t, t'. split; [done|]. split; [done|]. intros i Hi. rewrite <- (Htr i Hi).
    rewrite <- (Htr' (permuted permutation i)) by (rewrite Hts; by apply permuted_in_bounds).
    by rewrite inverse_permuted by (by rewrite (in_bounds_length _ _ Hi)).
Qed.

(** ** [reverseOp] *)
Definition reverse_index (shape dimensions : list Z) (i : Index) : Index :=
  imap (fun d '(s, x) => if decide (Z.of_nat d ∈ dimensions) then s - 1 - x else x) (zip shape i).

Lemma reverse_index_lookup shape dims i (d : nat) s x :
  shape !! d = Some s -> i !! d = Some x ->
  reverse_index shape dims i !! d = Some (if decide (Z.of_nat d ∈ dims) then s - 1 - x else x).
Proof.
  intros Hs Hx. unfold reverse_index. rewrite list_lookup_imap.
  rewrite (proj2 (lookup_zip_with_Some _ _ _ _ (s, x))); [done|by exists s, x].
Qed.

Lemma length_reverse_index shape dims i : length i = length shape -> length (reverse_index shape dims i) = length shape.
Proof. intros H. unfold reverse_index. rewrite length_imap, length_zip_with. lia. Qed.

Lemma reverse_index_nil shape i : length i = length shape -> reverse_index shape [] i = i.
Proof.
  intros Hl. apply list_eq_same_length with (length i); [done|by rewrite length_reverse_index|].
  intros d x y Hd Hx Hy. destruct (lookup_lt_is_Some_2 shape d) as [s Hs]; [lia|].
  rewrite (reverse_index_lookup _ _ _ _ s y) in Hx by done. rewrite decide_False in Hx by apply not_elem_of_nil. congruence.
Qed.

Lemma reverse_index_in_bounds shape dims i : in_bounds i shape -> in_bounds (reverse_index shape dims i) shape.
Proof.
  intros Hi. pose proof (in_bounds_length _ _ Hi). apply in_bounds_intro; [by apply length_reverse_index|].
  intros d y s Hy Hs. destruct (in_bounds_lookup_Some _ _ _ _ Hi Hs) as (x & Hx & ?).
  rewrite (reverse_index_lookup _ _ _ _ s x) in Hy by done. simplify_eq. case_decide; lia.
Qed.

Lemma reverse_index_twice shape dims i : in_bounds i shape -> reverse_index shape dims (reverse_index shape dims i) = i.
Proof.
  intros Hi. pose proof (in_bounds_length _ _ Hi).
  apply list_eq_same_length with (length i); [done|by rewrite !length_reverse_index by (by rewrite ?length_reverse_index)|].
  intros d x y Hd Hx Hy. destruct (lookup_lt_is_Some_2 shape d) as [s Hs]; [lia|].
  erewrite reverse_index_lookup in Hx; [|done|by apply reverse_index_lookup]. case_decide; simplify_eq; lia.
Qed.

(** The loop over the dimensions, which reverses each once. *)
Lemma reverse_loop shape dims : forall done_ i,
  shape_ok shape -> NoDup (done_ ++ dims) -> Forall (fun d => 0 <= d < Z.of_nat (length shape)) dims ->
  in_bounds i shape ->
  foldM (fun d operandIndex =>
      s ← at_z shape d; x ← at_z operandIndex d; x ← i64 (s - x); x ← i64 (x - 1); set_z operandIndex d x)
    dims (reverse_index shape done_ i) = Ok (reverse_index shape (done_ ++ dims) i).
Proof.
  induction dims as [|d dims IH]; intros done_ i Hs Hnd Hd Hi; [by rewrite app_nil_r|].
  apply Forall_cons in Hd as [Hd Hds]. pose proof (in_bounds_length _ _ Hi) as Hil. cbn [foldM].
  destruct (at_z_lt shape d) as (s & -> & Hsd); [lia|]. cbind.
  destruct (in_bounds_lookup_Some _ _ _ _ Hi Hsd) as (x & Hx & Hxs).
  assert (d ∉ done_) as Hnot.
  { apply NoDup_app in Hnd as (_ & Hnd & _). intros Hin. apply (Hnd d Hin). by left. }
  pose proof (reverse_index_lookup shape done_ i _ _ _ Hsd Hx) as Hlk.
  rewrite Z2Nat.id, decide_False in Hlk by (done || lia).
  rewrite (proj2 (at_z_ok _ d x)) by (split; [lia|done]). cbind.
  eapply Forall_lookup_1 in Hs as Hsmax; [|exact Hsd]. cbn in Hsmax.
  rewrite !i64_ok by (unfold int64_min; lia). cbind. rewrite i64_ok by (unfold int64_min; lia). cbind.
  rewrite set_z_ok by (rewrite length_reverse_index; lia). cbind.
  replace (done_ ++ d :: dims) with ((done_ ++ [d]) ++ dims) in * by (by rewrite <- app_assoc).
  rewrite <- IH by done. f_equal.
  apply list_eq_same_length with (length shape); [by apply length_reverse_index|by rewrite length_insert, length_reverse_index|].
  intros k a b Hk Ha Hb. destruct (lookup_lt_is_Some_2 shape k) as [s' Hs']; [lia|].
  destruct (lookup_lt_is_Some_2 i k) as [x' Hx']; [lia|].
  rewrite (reverse_index_lookup _ _ _ _ s' x') in Hb by done.
  destruct (decide (k = Z.to_nat d)) as [->|Hne].
  - rewrite list_lookup_insert_eq in Ha by (rewrite length_reverse_index; lia). simplify_eq.
    rewrite Z2Nat.id, decide_True by (lia || set_solver). lia.
  - rewrite list_lookup_insert_ne, (reverse_index_lookup _ _ _ _ s' x') in Ha by done.
    assert (Z.of_nat k <> d) by lia.
    destruct (decide (Z.of_nat k ∈ done_)), (decide (Z.of_nat k ∈ done_ ++ [d])); set_solver.
Qed.

Lemma list_to_set_NoDup (l : list Z) : base.size (list_to_set l : gset Z) = length l -> NoDup l.
Proof.
  induction l as [|x l IH]; intros H; [constructor|]. cbn [list_to_set length] in H.
  assert (base.size (list_to_set l : gset Z) <= length l)%nat as Hle.
  { clear. induction l as [|x l IH]; cbn; [by rewrite size_empty|].
    destruct (decide (x ∈ (list_to_set l : gset Z))).
    - replace ({[x]} ∪ list_to_set l : gset Z) with (list_to_set l : gset Z) by set_solver. lia.
    - rewrite size_union, size_singleton by set_solver. lia. }
  destruct (decide (x ∈ (list_to_set l : gset Z))) as [Hin|Hin].
  - replace ({[x]} ∪ list_to_set l : gset Z) with (list_to_set l : gset Z) in H by set_solver. lia.
  - rewrite size_union, size_singleton in H by set_solver. constructor; [set_solver|apply IH; lia].
Qed.

Lemma verifyReverseOp_inv type dims :
  verifyReverseOp type dims = Ok () ->
  NoDup dims /\ Forall (fun d => 0 <= d < Z.of_nat (length (getShape type))) dims.
Proof.
  unfold verifyReverseOp, getRank. intros H. apply bind_ok in H as (? & H1%ensure_ok%bool_decide_eq_true & H).
  split; [by apply list_to_set_NoDup|]. apply Forall_forall. intros d Hd.
  eapply foldM_unit in H; [|exact Hd]. cbn beta in H.
  apply bind_ok in H as (? & H2%ensure_ok & H%ensure_ok). lia.
Qed.

Lemma reverseOp_spec operand dimensions type :
  tensor_full operand -> getTensorType operand = type -> verifyReverseOp type dimensions = Ok () ->
  result_is type (reverseOp operand dimensions type) (reindexed (reverse_index (getShape type) dimensions) operand).
Proof.
  intros Ho <- [Hnd Hd]%verifyReverseOp_inv. unfold reverseOp. apply build_reindexed; [by apply full_shaped|done|done|].
  intros i Hi. pose proof (reverse_loop (getTensorShape operand) dimensions [] i) as E.
  rewrite reverse_index_nil in E by (by apply in_bounds_length).
  split; [apply E; by try apply full_shape_ok|]. by apply reverse_index_in_bounds.
Qed.

(** When [verifyReverseOp] accepts the dimensions, [reverseOp] returns without
    a fault the operand's elements at the indices reversed in those dimensions,
    and reversing that again restores every element. *)
Theorem reverse_correct operand dimensions :
  tensor_full operand -> verifyReverseOp (getTensorType operand) dimensions = Ok () ->
  result_is (getTensorType operand) (reverseOp operand dimensions (getTensorType operand)) (fun t =>
    reindexed (reverse_index (getTensorShape operand) dimensions) operand t /\
    result_is (getTensorType operand) (reverseOp t dimensions (getTensorType operand)) (fun t' =>
      forall i, in_bounds i (getTensorShape operand) -> get t' i = get operand i)).
Proof.
  intros Ho Hv.
  assert (forall t, tensor_full t -> getTensorType t = getTensorType operand ->
    result_is (getTensorType operand) (reverseOp t dimensions (getTensorType operand))
      (reindexed (reverse_index (getTensorShape operand) dimensions) t)) as Hrev
    by (intros; by apply reverseOp_spec).
  destruct (Hrev operand Ho eq_refl) as (t & Ht & Hty & Hfull & Hre).
  exists t. split; [done|]. split; [done|]. split; [done|]. split; [done|].
  destruct (Hrev t Hfull Hty) as (t' & Ht' & Hty' & Hfull' & Hre').
  exists t'. split; [done|]. split; [done|]. split; [done|]. intros i Hi.
  destruct (Hre' i) as [Hb ->]; [unfold getTensorShape; by rewrite Hty'|].
  destruct (Hre _ Hb) as [_ ->]. by rewrite reverse_index_twice.
Qed.
End OpsPermute.

(** ** Witnesses *)
Section Witnesses.
Import Concrete.

Lemma transpose_correct_witness :
  result_is (shaped [3; 2] ui8) (transposeOp sample [1; 0] (shaped [3; 2] ui8)) (transposed [1; 0] sample) /\
  permuted [1; 0] [1; 2] = [2; 1].
Proof. split; [|reflexivity]. apply (transpose_correct sample [1; 0] (shaped [3; 2] ui8)); concrete. Defined.

Lemma transpose_round_trip_witness :
  exists t restored, transposeOp sample [1; 0] (shaped [3; 2] ui8) = Ok t /\
    transposeOp t (inverse [1; 0]) (getTensorType sample) = Ok restored /\
    forall i, in_bounds i [2; 3] -> get restored i = get sample i.
Proof. apply (transpose_round_trip sample [1; 0] (shaped [3; 2] ui8)); concrete. Defined.

Lemma reverse_correct_witness :
  result_is (getTensorType sample) (reverseOp sample [1] (getTensorType sample)) (fun t =>
    reindexed (reverse_index [2; 3] [1]) sample t /\
    result_is (getTensorType sample) (reverseOp t [1] (getTensorType sample)) (fun t' =>
      forall i, in_bounds i [2; 3] -> get t' i = get sample i)).
Proof. apply (reverse_correct sample [1]); concrete. Defined.
End Witnesses.
