(* ===== verification/OpsJoin.v ===== *)
(** * Pads and concatenations: operations that write parts of their result *)
From S2P Require Import Prelude Types Support Index Element ElementFacts Tensor TensorFacts Samples Base TypeInference Ops OpsFacts.

Section OpsJoin.
Context {L : LLVM} {Laws : LLVMLaws L}.

(** ** [padOp] *)
Definition pad_index (edgePaddingLow interiorPadding : Sizes) (j : Index) : Index :=
  zip_with Z.add edgePaddingLow (zip_with Z.mul j ((fun p => p + 1) <$> interiorPadding)).

(** The positions of a padded dimension are representable. *)
Definition pad_fits (shape low interior : Sizes) : Prop :=
  forall (d : nat) s lo p, shape !! d = Some s -> low !! d = Some lo -> interior !! d = Some p ->
    0 <= p < int64_max /\ int64_min <= lo <= int64_max /\
    (0 < s -> (s - 1) * (p + 1) <= int64_max /\ lo + (s - 1) * (p + 1) <= int64_max).

Lemma pad_index_ok shape low interior j :
  length low = length shape -> length interior = length shape -> pad_fits shape low interior ->
  in_bounds j shape ->
  (step ← sizes_add_r interior 1; scaled ← sizes_mul j step; sizes_add low scaled)
  = Ok (pad_index low interior j).
Proof.
  intros Hl Hi Hf Hj. pose proof (in_bounds_length _ _ Hj) as Hjl.
  assert (forall (d : nat) p, interior !! d = Some p -> exists s lo x, shape !! d = Some s /\ low !! d = Some lo /\
    j !! d = Some x /\ 0 <= p < int64_max /\ 0 <= x * (p + 1) <= int64_max /\
    int64_min <= lo + x * (p + 1) <= int64_max) as Hlk.
  { intros d p Hp. destruct (lookup_lt_is_Some_2 shape d) as [s Hs]; [apply lookup_lt_Some in Hp; lia|].
    destruct (lookup_lt_is_Some_2 low d) as [lo Hlo]; [apply lookup_lt_Some in Hp; lia|].
    destruct (in_bounds_lookup_Some _ _ _ _ Hj Hs) as (x & Hx & Hxs).
    destruct (Hf d s lo p Hs Hlo Hp) as (? & ? & H). specialize (H ltac:(lia)).
    exists s, lo, x. split_and!; try done; unfold int64_min in *; nia. }
  assert (zip_with Z.add interior (replicate (length interior) 1) = (fun p => p + 1) <$> interior) as E.
  { clear. induction interior as [|p l IH]; [done|]. cbn. by rewrite IH. }
  unfold sizes_add_r, sizes_add, sizes_mul.
  rewrite sizes_zip_ok; [rewrite E; cbind|by rewrite length_replicate|].
  - rewrite sizes_zip_ok; [cbind; rewrite sizes_zip_ok; [done|rewrite length_zip_with, length_fmap; lia|]|rewrite length_fmap; lia|].
    + apply Forall_lookup_2. intros d y Hy. apply lookup_zip_with_Some in Hy as (lo & z & -> & Hlo & Hz).
      apply lookup_zip_with_Some in Hz as (x & q & -> & Hx & Hq).
      apply list_lookup_fmap_Some in Hq as (p & -> & Hp).
      destruct (Hlk d p Hp) as (s & lo' & x' & ? & ? & ? & ? & ? & ?). simplify_eq. done.
    + apply Forall_lookup_2. intros d y Hz.
      apply lookup_zip_with_Some in Hz as (x & q & -> & Hx & Hq).
      apply list_lookup_fmap_Some in Hq as (p & -> & Hp).
      destruct (Hlk d p Hp) as (s & lo' & x' & ? & ? & ? & ? & ? & ?). simplify_eq. unfold int64_min. lia.
  - rewrite E. apply Forall_lookup_2. intros d y Hy. apply list_lookup_fmap_Some in Hy as (p & -> & Hp).
    destruct (Hlk d p Hp) as (s & lo' & x' & ? & ? & ? & ? & ? & ?). unfold int64_min. lia.
Qed.

Lemma pad_index_inj shape low interior j j' :
  length low = length shape -> length interior = length shape -> Forall (fun p => 0 <= p) interior ->
  in_bounds j shape -> in_bounds j' shape -> pad_index low interior j = pad_index low interior j' -> j = j'.
Proof.
  intros Hl Hi Hp Hj Hj' E. pose proof (in_bounds_length _ _ Hj). pose proof (in_bounds_length _ _ Hj').
  apply list_eq_same_length with (length shape); [done|done|]. intros d x y Hd Hx Hy.
  destruct (lookup_lt_is_Some_2 low d) as [lo Hlo]; [lia|].
  destruct (lookup_lt_is_Some_2 interior d) as [p Hpd]; [lia|].
  assert (forall j x, j !! d = Some x -> pad_index low interior j !! d = Some (lo + x * (p + 1))) as Hlk.
  { intros k z Hz. unfold pad_index. apply lookup_zip_with_Some. exists lo, (z * (p + 1)). split; [done|]. split; [done|].
    apply lookup_zip_with_Some. exists z, (p + 1). split; [done|]. split; [done|].
    by rewrite list_lookup_fmap, Hpd. }
  pose proof (Hlk _ _ Hx) as E1. rewrite E, (Hlk _ _ Hy) in E1. injection E1 as E1.
  eapply Forall_lookup_1 in Hp; [|exact Hpd]. cbn in Hp. nia.
Qed.

(** What the result holds: the operand at the padded positions, the padding value elsewhere. *)
Definition padded (operand paddingValue : Tensor) (low interior : Sizes) (t : Tensor) : Prop :=
  (forall j, in_bounds j (getTensorShape operand) -> in_bounds (pad_index low interior j) (getTensorShape t) ->
     get t (pad_index low interior j) = get operand j) /\
  (forall i, in_bounds i (getTensorShape t) ->
     (forall j, in_bounds j (getTensorShape operand) -> pad_index low interior j <> i) ->
     get t i = get paddingValue []).

Lemma padOp_spec operand paddingValue low interior resultType :
  tensor_full operand -> tensor_full paddingValue -> getTensorShape paddingValue = [] ->
  getTensorElementType paddingValue = getTensorElementType operand ->
  shaped_ok resultType -> getElementType resultType = getTensorElementType operand ->
  length low = length (getTensorShape operand) -> length interior = length (getTensorShape operand) ->
  pad_fits (getTensorShape operand) low interior -> 
  result_is resultType (padOp operand paddingValue low interior resultType)
    (padded operand paddingValue low interior).
Proof.
  intros Ho Hv Hvs Hve Hr He Hl Hi Hf. pose proof (full_shape_ok _ Ho) as Hs.
  assert (Forall (fun p => 0 <= p) interior) as Hnn.
  { apply Forall_lookup_2. intros d p Hp.
    destruct (lookup_lt_is_Some_2 (getTensorShape operand) d) as [s Hsd]; [apply lookup_lt_Some in Hp; lia|].
    destruct (lookup_lt_is_Some_2 low d) as [lo Hlo]; [apply lookup_lt_Some in Hp; lia|].
    destruct (Hf d s lo p Hsd Hlo Hp). lia. }
  destruct (full_get paddingValue [] Hv) as (v & Hgv & Hvok & Hvt); [rewrite Hvs; constructor|].
  destruct (build_spec resultType (fun _ => Ok v) Hr) as (t0 & Ht0 & Hof).
  { intros i _. exists v. split_and!; [done|done|congruence]. }
  destruct Hof as (Hok0 & Hty0 & Hg0).
  set (tgt := fun j => if inBounds (pad_index low interior j) (getShape resultType)
                       then Some (pad_index low interior j) else None).
  set (body := fun operandIndex result =>
    step ← sizes_add_r interior 1; scaled ← sizes_mul operandIndex step; resultIndex ← sizes_add low scaled;
    if inBounds resultIndex (getTensorShape result) then e ← get operand operandIndex; set result resultIndex e
    else Ok result).
  destruct (foldM_set body tgt (fn_val (get operand)) resultType (indices (getTensorShape operand)) t0)
    as (t & Hfold & Hok & Hty & Hhit & Hmiss); [done|done|..].
  { intros j t Hj%elem_of_indices _ Ht. destruct (full_get operand j Ho Hj) as (e & Hge & _).
    pose proof (pad_index_ok _ low interior j Hl Hi Hf Hj) as E.
    apply bind_ok in E as (step & E1 & E). apply bind_ok in E as (scaled & E2 & E3).
    unfold body, tgt, fn_val. rewrite E1. cbind. rewrite E2. cbind. rewrite E3. cbind.
    unfold getTensorShape at 1. rewrite Ht, Hge. by destruct (inBounds _ _). }
  { intros j i Hj%elem_of_indices Htg. destruct (full_get operand j Ho Hj) as (e & Hge & ? & ?).
    unfold tgt in Htg. destruct (inBounds _ _) eqn:Hb; [|done]. injection Htg as <-. apply inBounds_spec in Hb.
    unfold fn_val. rewrite Hge. split_and!; [done|done|congruence]. }
  assert (getTensorShape t = getShape resultType) as Hts by (unfold getTensorShape; by rewrite Hty).
  assert (padded operand paddingValue low interior t) as Hpad.
  { split.
    - intros j Hj Hb. rewrite Hts in Hb. destruct (full_get operand j Ho Hj) as (e & Hge & _).
      assert (tgt j = Some (pad_index low interior j)) as Htg
        by (unfold tgt; apply inBounds_spec in Hb; by rewrite Hb).
      rewrite (Hhit j _ (proj2 (elem_of_indices _ _) Hj) Htg); [unfold fn_val; by rewrite Hge|].
      intros j' Hj'%elem_of_indices Htg'. unfold tgt in Htg'. destruct (inBounds _ _); [|done].
      injection Htg' as Htg'. f_equal. by apply (pad_index_inj (getTensorShape operand) low interior).
    - intros i Hib Hno. rewrite Hts in Hib. rewrite Hmiss; [by rewrite Hg0|done|].
      intros j Hj%elem_of_indices Htg. apply (Hno j Hj). unfold tgt in Htg. destruct (inBounds _ _); congruence. }
  exists t. split; [|split; [done|split; [split; [done|]|done]]].
  - unfold padOp. rewrite Hgv. cbind. unfold makeSplat. rewrite Ht0. cbind.
    rewrite for_index_foldM by done. exact Hfold.
  - rewrite Hty. intros i Hib.
    destruct (decide (Exists (fun j => tgt j = Some i) (indices (getTensorShape operand)))) as [Hex|Hnex].
    + apply Exists_exists in Hex as (j & Hj%elem_of_indices & Htg). unfold tgt in Htg.
      destruct (inBounds _ _) eqn:Hb; [|done]. injection Htg as <-. apply inBounds_spec in Hb.
      destruct Hpad as [Hp _]. rewrite Hp, He by (done || by rewrite Hts). by apply full_get.
    + rewrite Hmiss, Hg0 by (done || (intros j Hj Htg; apply Hnex, Exists_exists; by exists j)).
      exists v. split_and!; [done|done|congruence].
Qed.

Lemma at_z_default (l : list Z) (d : nat) b x : or_default l (Z.of_nat d) b = Ok x -> l = [] /\ x = b \/ l !! d = Some x.
Proof. unfold or_default. destruct l; [by intros [= ->]; left|]. intros H%at_z_inv. by right. Qed.

Lemma static_dim (s : list Z) (d : nat) x : shape_ok s -> s !! d = Some x -> 0 <= x <= int64_max /\ isDynamicDimSize x = false.
Proof.
  intros Hs Hx. eapply Forall_lookup_1 in Hs; [|exact Hx]. cbn in Hs. split; [done|].
  apply isDynamic_nonneg. lia.
Qed.

Lemma inferPadOp_inv operandType low high interior type :
  inferPadOp operandType low high interior = Ok type -> shape_ok (getShape operandType) ->
  length low = length (getShape operandType) /\ getElementType type = getElementType operandType /\
  length (getShape type) = length (getShape operandType) /\
  forall d : nat, (d < length (getShape operandType))%nat ->
    exists s lo hi p, getShape operandType !! d = Some s /\ low !! d = Some lo /\ high !! d = Some hi /\
      interior !! d = Some p /\ 0 <= p /\
      getShape type !! d = Some (s + lo + hi + Z.max (s - 1) 0 * p) /\ 0 <= s + lo + hi + Z.max (s - 1) 0 * p.
Proof.
  unfold inferPadOp, getRank. intros H Hs. apply bind_ok in H as (? & Hlen%ensure_ok & H).
  apply bind_ok in H as ([shape bounds] & Hf & H). apply bind_ok in H as (enc & _ & [= <-]).
  cbn [getShape getElementType]. split; [lia|]. split; [done|].
  apply (foldM_set_each fst _ (fun d x => exists s lo hi p, getShape operandType !! d = Some s /\
    low !! d = Some lo /\ high !! d = Some hi /\ interior !! d = Some p /\ 0 <= p /\
    x = s + lo + hi + Z.max (s - 1) 0 * p /\ 0 <= x)) in Hf as (Hl & Hd & _); cbn [fst] in *.
  - rewrite length_replicate in Hl. split; [done|]. intros d Hdl.
    destruct (Hd d Hdl) as (y & (s & lo & hi & p & ? & ? & ? & ? & ? & -> & ?) & Hy). by exists s, lo, hi, p.
  - intros d [acc accb] [l lb] Hdl _ E. cbn [fst].
    apply bind_ok in E as (lo & Hlo%at_z_inv & E). apply bind_ok in E as (hi & Hhi%at_z_inv & E).
    apply bind_ok in E as (p & Hp%at_z_inv & E). apply bind_ok in E as (? & Hp0%ensure_ok & E).
    apply bind_ok in E as (s & Hsd%at_z_inv & E). apply bind_ok in E as (b & _ & E).
    destruct (static_dim _ _ _ Hs Hsd) as [? Hdyn]. rewrite Hdyn in E. cbn [negb orb] in E.
    apply bind_ok in E as (s1 & E1 & E). apply bind_ok in E as (s2 & E2 & E). apply bind_ok in E as (m & E3 & E).
    apply bind_ok in E as (q & E4 & E). apply bind_ok in E as (r & E5 & E). apply bind_ok in E as (? & E6%ensure_ok & E).
    apply i64_inv in E1 as [-> _], E2 as [-> _], E3 as [-> _], E4 as [-> _], E5 as [-> _].
    apply bind_ok in E as (l' & E & [= <- <-]).
    eexists. split; [|exact E]. exists s, lo, hi, p. split_and!; try done; lia.
  - by rewrite length_replicate.
Qed.

(** C33: when [inferPadOp] accepts the operand's type and the padding, and the
    positions of the operand's elements fit in 64 bits ([pad_fits]), the pad of
    the inferred type has the documented size in every dimension, returns
    without a fault, and holds the operand's element [j] at
    [low + j * (interior + 1)] where that is inside the result (negative padding
    crops) and the padding value everywhere else. *)
Theorem pad_correct operand paddingValue low high interior resultType :
  tensor_full operand -> tensor_full paddingValue -> getTensorShape paddingValue = [] ->
  getTensorElementType paddingValue = getTensorElementType operand -> shaped_ok resultType ->
  length interior = length (getTensorShape operand) -> pad_fits (getTensorShape operand) low interior ->
  inferPadOp (getTensorType operand) low high interior = Ok resultType ->
  (forall (d : nat) s lo hi p, getTensorShape operand !! d = Some s -> low !! d = Some lo -> high !! d = Some hi ->
     interior !! d = Some p -> getShape resultType !! d = Some (s + lo + hi + Z.max (s - 1) 0 * p)) /\
  result_is resultType (inferredPadOp operand paddingValue low high interior)
    (padded operand paddingValue low interior).
Proof.
  intros Ho Hv Hvs Hve Hr Hi Hf Hinf. unfold inferredPadOp. rewrite Hinf. cbn [or_fatal mbind result_bind].
  apply inferPadOp_inv in Hinf as (Hl & He & _ & Hd); [|by apply full_shape_ok].
  fold (getTensorShape operand) in *. split; [|by apply padOp_spec].
  intros d s lo hi p H1 H2 H3 H4.
  destruct (Hd d) as (s' & lo' & hi' & p' & E1 & E2 & E3 & E4 & _ & E5 & _); [by apply lookup_lt_Some in H1|].
  simplify_eq. done.
Qed.

(** ** [concatenateOp] *)

(** The element at the coordinate [x] of the concatenated dimension, and the
    coordinates of [i] in the others. *)
Fixpoint concat_at (inputs : list Tensor) (k : nat) (i : Index) (x : Z) : result Element :=
  match inputs with
  | [] => Err (UB "outside the inputs")
  | t :: ts =>
      let s := default 0 (getTensorShape t !! k) in
      if x <? s then get t (<[k := x]> i) else concat_at ts k i (x - s)
  end.

(** The inputs agree with the result outside the dimension. *)
Definition joins (k : nat) (rs : list Z) (input : Tensor) : Prop :=
  length (getTensorShape input) = length rs /\
  forall d : nat, d <> k -> getTensorShape input !! d = rs !! d.

Definition total (k : nat) (inputs : list Tensor) : Z :=
  foldr (fun t n => default 0 (getTensorShape t !! k) + n) 0 inputs.

Lemma joins_in_bounds k rs input i s x :
  joins k rs input -> getTensorShape input !! k = Some s -> in_bounds i rs -> 0 <= x < s ->
  in_bounds (<[k := x]> i) (getTensorShape input).
Proof.
  intros [Hl Hd] Hs Hi Hx. pose proof (in_bounds_length _ _ Hi).
  apply in_bounds_intro; [by rewrite length_insert, Hl|]. intros d y s' Hy Hs'.
  destruct (decide (d = k)) as [->|Hne].
  - rewrite list_lookup_insert_eq in Hy by (apply lookup_lt_Some in Hs; lia). simplify_eq. lia.
  - rewrite list_lookup_insert_ne in Hy by done. rewrite Hd in Hs' by done. by eapply in_bounds_lookup.
Qed.

Lemma concat_step type (k : nat) input off t s R :
  tensor_ok t -> getTensorType t = type -> tensor_full input -> getTensorElementType input = getElementType type ->
  joins k (getShape type) input -> getTensorShape input !! k = Some s -> getShape type !! k = Some R ->
  0 <= off -> off + s <= R -> R <= int64_max ->
  exists t', for_index (getTensorShape input) (fun inputIndex result =>
      x ← at_z inputIndex (Z.of_nat k); x ← i64 (x + off);
      resultIndex ← set_z inputIndex (Z.of_nat k) x;
      e ← get input inputIndex; set result resultIndex e) t = Ok t' /\
    tensor_ok t' /\ getTensorType t' = type /\
    forall i x, in_bounds i (getShape type) -> i !! k = Some x ->
      get t' i = if (off <=? x) && (x <? off + s) then get input (<[k := x - off]> i) else get t i.
Proof.
  intros Hok Hty Hin He Hj Hs HR Hoff Hle HRm. pose proof (full_shape_ok _ Hin) as Hsh.
  set (shift := fun j : Index => <[k := default 0 (j !! k) + off]> j).
  assert (forall j, in_bounds j (getTensorShape input) ->
    exists y, j !! k = Some y /\ 0 <= y < s /\ in_bounds (shift j) (getShape type)) as Hb.
  { intros j Hjb. destruct (in_bounds_lookup_Some _ _ _ _ Hjb Hs) as (y & Hy & Hys).
    exists y. split; [done|]. split; [done|]. destruct Hj as [Hl Hd]. pose proof (in_bounds_length _ _ Hjb).
    apply in_bounds_intro; [unfold shift; rewrite length_insert; lia|]. intros d z r Hz Hr.
    unfold shift in Hz. rewrite Hy in Hz. cbn [from_option id] in Hz. destruct (decide (d = k)) as [->|Hne].
    - rewrite list_lookup_insert_eq in Hz by (apply lookup_lt_Some in Hs; lia). simplify_eq/=. lia.
    - rewrite list_lookup_insert_ne in Hz by done. rewrite <- Hd in Hr by done. by eapply in_bounds_lookup. }
  destruct (foldM_set (fun inputIndex result =>
      x ← at_z inputIndex (Z.of_nat k); x ← i64 (x + off);
      resultIndex ← set_z inputIndex (Z.of_nat k) x;
      e ← get input inputIndex; set result resultIndex e) (fun j => Some (shift j)) (fn_val (get input))
    type (indices (getTensorShape input)) t) as (t' & Hf & Hok' & Hty' & Hhit & Hmiss); [done|done|..].
  { intros j t1 Hjb%elem_of_indices _ _. destruct (Hb j Hjb) as (y & Hy & Hys & _).
    destruct (full_get input j Hin Hjb) as (e & Hge & _). pose proof (in_bounds_length _ _ Hjb).
    rewrite (at_z_some _ _ _ Hy). cbind. rewrite i64_ok by (unfold int64_min; lia). cbind.
    rewrite set_z_ok by (apply lookup_lt_Some in Hy; lia). cbind. rewrite Nat2Z.id, Hge. cbind.
    unfold fn_val, shift. by rewrite Hge, Hy. }
  { intros j i Hjb%elem_of_indices [= <-]. destruct (Hb j Hjb) as (y & Hy & Hys & Hib).
    destruct (full_get input j Hin Hjb) as (e & Hge & ? & ?). unfold fn_val. rewrite Hge.
    split_and!; [done|done|congruence]. }
  exists t'. split; [by rewrite for_index_foldM by done|]. split; [done|]. split; [done|].
  intros i x Hi Hx. assert (k < length i)%nat as Hk by (by eapply lookup_lt_Some).
  destruct ((off <=? x) && (x <? off + s)) eqn:Hc.
  - set (j := <[k := x - off]> i).
    assert (in_bounds j (getTensorShape input)) as Hjb by (eapply joins_in_bounds; [done..|lia]).
    assert (shift j = i) as Hsj.
    { unfold shift, j. rewrite list_lookup_insert_eq by done. cbn [from_option id].
      rewrite list_insert_insert_eq. apply list_insert_id. rewrite Hx. f_equal. lia. }
    destruct (full_get input j Hin Hjb) as (e & Hge & _).
    rewrite (Hhit j i); [unfold fn_val; by rewrite Hge|by apply elem_of_indices|by rewrite Hsj|].
    intros j' Hjb'%elem_of_indices [= Hsj']. f_equal. destruct (Hb j' Hjb') as (y & Hy & _ & _).
    unfold j. rewrite <- Hsj' in *. unfold shift in *. rewrite Hy in *. cbn [from_option id] in *.
    rewrite list_lookup_insert_eq in Hx by (by eapply lookup_lt_Some). simplify_eq.
    rewrite list_insert_insert_eq. symmetry. apply list_insert_id. rewrite Hy. f_equal. lia.
  - apply Hmiss; [done|]. intros j Hjb%elem_of_indices [= Hsj]. destruct (Hb j Hjb) as (y & Hy & Hys & _).
    rewrite <- Hsj in Hx. unfold shift in Hx. rewrite Hy in Hx. cbn [from_option id] in Hx.
    rewrite list_lookup_insert_eq in Hx by (by eapply lookup_lt_Some). simplify_eq. lia.
Qed.

Lemma total_nonneg k inputs : Forall tensor_full inputs -> 0 <= total k inputs.
Proof.
  induction 1 as [|t ts Ht Hts IH]; cbn [total foldr]; [done|]. fold (total k ts).
  destruct (getTensorShape t !! k) as [s|] eqn:Hs; cbn [from_option id]; [|lia].
  pose proof (static_dim _ _ _ (full_shape_ok _ Ht) Hs). lia.
Qed.

Lemma concat_loop type (k : nat) R inputs : forall t off,
  Forall tensor_full inputs -> Forall (fun input => getTensorElementType input = getElementType type) inputs ->
  Forall (joins k (getShape type)) inputs -> getShape type !! k = Some R -> R <= int64_max ->
  tensor_ok t -> getTensorType t = type -> 0 <= off -> off + total k inputs <= R ->
  exists t', foldM (fun input '(result, dimensionOffset) =>
      result ← for_index (getTensorShape input) (fun inputIndex result =>
          x ← at_z inputIndex (Z.of_nat k); x ← i64 (x + dimensionOffset);
          resultIndex ← set_z inputIndex (Z.of_nat k) x;
          e ← get input inputIndex; set result resultIndex e) result;
      s ← at_z (getTensorShape input) (Z.of_nat k);
      dimensionOffset ← i64 (dimensionOffset + s);
      Ok (result, dimensionOffset)) inputs (t, off) = Ok (t', off + total k inputs) /\
    tensor_ok t' /\ getTensorType t' = type /\
    forall i x, in_bounds i (getShape type) -> i !! k = Some x ->
      get t' i = if (off <=? x) && (x <? off + total k inputs) then concat_at inputs k i (x - off) else get t i.
Proof.
  induction inputs as [|input inputs IH]; intros t off Hf He Hj HR HRm Hok Hty Hoff Hle.
  - exists t. cbn [foldM total foldr]. rewrite Z.add_0_r. split; [done|]. split; [done|]. split; [done|].
    intros i x _ _. by replace ((off <=? x) && (x <? off)) with false by lia.
  - apply Forall_cons in Hf as [Hfi Hf], He as [Hei He], Hj as [Hji Hj].
    cbn [total foldr] in *. fold (total k inputs) in *.
    destruct (lookup_lt_is_Some_2 (getTensorShape input) k) as [s Hs].
    { destruct Hji as [Hl _]. apply lookup_lt_Some in HR. lia. }
    rewrite Hs in Hle |- *. cbn [from_option id] in *.
    pose proof (static_dim _ _ _ (full_shape_ok _ Hfi) Hs) as [Hs0 _]. pose proof (total_nonneg k inputs Hf).
    destruct (concat_step type k input off t s R) as (t1 & E & Hok1 & Hty1 & Hg1); [done..|lia|done|].
    cbn [foldM]. rewrite E. cbind. rewrite (at_z_some _ _ _ Hs). cbind.
    rewrite i64_ok by (unfold int64_min; lia). cbind.
    destruct (IH t1 (off + s)) as (t' & E' & Hok' & Hty' & Hg'); [done..|lia|lia|].
    exists t'. rewrite E'. split; [f_equal; f_equal; lia|]. split; [done|]. split; [done|].
    intros i x Hi Hx. rewrite (Hg' i x Hi Hx). cbn [concat_at]. rewrite Hs. cbn [from_option id].
    destruct (Z.ltb_spec (x - off) s), (Z.leb_spec (off + s) x), (Z.leb_spec off x);
      destruct (Z.ltb_spec x (off + s + total k inputs)), (Z.ltb_spec x (off + (s + total k inputs))); cbn [andb];
      try lia; rewrite ?(Hg1 i x Hi Hx); try (f_equal; lia);
      destruct (Z.leb_spec off x), (Z.ltb_spec x (off + s)); cbn [andb]; (lia || done).
Qed.

Lemma concat_at_full k rs inputs i x e0 :
  Forall tensor_full inputs -> Forall (fun input => getTensorElementType input = e0) inputs ->
  Forall (joins k rs) inputs -> in_bounds i rs -> (k < length rs)%nat -> 0 <= x < total k inputs ->
  exists e, concat_at inputs k i x = Ok e /\ element_ok e /\ getType e = e0.
Proof.
  intros Hf He Hj Hi Hk. revert x. induction inputs as [|t ts IH]; intros x Hx; cbn [total foldr] in Hx; [lia|].
  fold (total k ts) in Hx. apply Forall_cons in Hf as [Hft Hf], He as [Het He], Hj as [Hjt Hj]. cbn [concat_at].
  destruct (lookup_lt_is_Some_2 (getTensorShape t) k) as [s Hs]; [destruct Hjt; lia|].
  rewrite Hs in *. cbn [from_option id] in *. destruct (Z.ltb_spec x s).
  - rewrite <- Het. apply full_get; [done|]. eapply joins_in_bounds; [done..|lia].
  - apply IH; [done..|lia].
Qed.

Lemma concatenateOp_spec (k : nat) inputs type :
  Forall tensor_full inputs -> Forall (fun input => getTensorElementType input = getElementType type) inputs ->
  Forall (joins k (getShape type)) inputs -> getShape type !! k = Some (total k inputs) -> shaped_ok type ->
  result_is type (concatenateOp inputs (Z.of_nat k) type)
    (fun t => forall i x, in_bounds i (getShape type) -> i !! k = Some x -> get t i = concat_at inputs k i x).
Proof.
  intros Hf He Hj HR Hty. destruct (newTensor_ok type Hty) as (t0 & Ht0 & Hok0 & Hty0).
  assert (total k inputs <= int64_max) as Hmax by (destruct Hty as (_ & Hs & _); apply (static_dim _ _ _ Hs HR)).
  destruct (concat_loop type k _ inputs t0 0 Hf He Hj HR Hmax Hok0 Hty0) as (t & E & Hok & Htt & Hg); [lia|lia|].
  assert (forall i x, in_bounds i (getShape type) -> i !! k = Some x ->
    get t i = concat_at inputs k i x /\ 0 <= x < total k inputs) as Hget.
  { intros i x Hi Hx. pose proof (in_bounds_lookup _ _ _ _ _ Hi Hx HR). split; [|done].
    rewrite (Hg i x Hi Hx). replace ((0 <=? x) && (x <? 0 + total k inputs)) with true by lia. f_equal. lia. }
  exists t. split; [|split; [done|split; [split; [done|]|intros i x Hi Hx; by apply Hget]]].
  - unfold concatenateOp. rewrite Ht0. cbind. rewrite E. done.
  - rewrite Htt. intros i Hi. destruct (in_bounds_lookup_Some _ _ _ _ Hi HR) as (x & Hx & _).
    destruct (Hget i x Hi Hx) as [-> Hxb]. eapply concat_at_full; [done..|by eapply lookup_lt_Some|done].
Qed.

Definition concat_fn (dimension dim leftSize rightSize leftBound rightBound : Z) : result (Z * Z) :=
  if dim =? dimension then inferConcatenatedDimAndBound leftSize rightSize leftBound rightBound
  else inferMostSpecificDimAndBound dim leftSize rightSize leftBound rightBound.

(** One static type refines the sizes inferred so far: they agree with it, or
    are unknown, outside the dimension, and its size is added in the dimension. *)
Lemma infer_dims_concat (k n : nat) shape bounds sizes bnds sizes' bnds' a :
  infer_dims (concat_fn (Z.of_nat k)) (Z.of_nat n) shape bounds (sizes, bnds) = Ok (sizes', bnds') ->
  shape_ok shape -> length shape = n -> length sizes = n -> sizes !! k = Some a -> 0 <= a ->
  length sizes' = n /\
  (forall d : nat, (d < n)%nat -> d <> k ->
     sizes' !! d = shape !! d /\ (sizes !! d = Some kDynamic \/ sizes !! d = shape !! d)) /\
  exists s, shape !! k = Some s /\ 0 <= s /\ sizes' !! k = Some (a + s).
Proof.
  unfold infer_dims. intros H Hs Hl Hls Hk Ha.
  apply (foldM_set_each fst _ (fun d x => exists ls s, sizes !! d = Some ls /\ shape !! d = Some s /\ 0 <= s /\
    (d <> k -> x = s /\ (ls = kDynamic \/ ls = s)) /\ (d = k -> x = a + s))) in H as (Hl' & Hd & _);
    cbn [fst] in *; [| |lia].
  - split; [lia|]. split.
    + intros d Hdn Hne. destruct (Hd d Hdn) as (x & (ls & s & H1 & H2 & _ & H3 & _) & Hx).
      destruct (H3 Hne) as [-> Hor]. rewrite H1, H2, Hx. split; [done|]. destruct Hor; subst; auto.
    + destruct (Hd k) as (x & (ls & s & H1 & H2 & H3 & _ & H4) & Hx); [by apply lookup_lt_Some in Hk; lia|].
      exists s. split; [done|]. split; [done|]. by rewrite Hx, H4.
  - intros d [acc accb] [l lb] Hdn Hacc E. cbn [fst] in *.
    apply bind_ok in E as (ls & Hlsd%at_z_inv & E). apply bind_ok in E as (s & Hsd%at_z_inv & E).
    apply bind_ok in E as (lb' & _ & E). apply bind_ok in E as (rb & _ & E).
    apply bind_ok in E as ([size bound] & Efn & E). apply bind_ok in E as (l' & Eset & E).
    apply bind_ok in E as (lb'' & _ & [= <- <-]). exists size. split; [|done].
    destruct (static_dim _ _ _ Hs Hsd) as [Hsb Hdyn]. rewrite Hacc in Hlsd.
    exists ls, s. split; [done|]. split; [done|]. split; [lia|]. unfold concat_fn in Efn. split.
    + intros Hne. rewrite (proj2 (Z.eqb_neq _ _)) in Efn by lia.
      unfold inferMostSpecificDimAndBound in Efn. rewrite Hdyn, orb_true_r in Efn. cbn [negb andb] in Efn.
      destruct (isDynamicDimSize ls) eqn:Hdl; cbn [negb andb] in Efn.
      * apply isDynamic_spec in Hdl. repeat case_match; simplify_eq; auto.
      * repeat case_match; simplify_eq; lia.
    + intros ->. rewrite Z.eqb_refl in Efn. unfold inferConcatenatedDimAndBound in Efn.
      rewrite Hk in Hlsd. injection Hlsd as <-.
      rewrite Hdyn, (isDynamic_nonneg a) in Efn by done. cbn [negb andb] in Efn.
      apply bind_ok in Efn as (z & Hz & [= <- <-]). by apply i64_inv in Hz as [-> _].
Qed.

Lemma infer_concat_fold (k n : nat) inputs : forall sizes bnds sizes' bnds' a,
  foldM (fun type inferred => infer_dims (concat_fn (Z.of_nat k)) (Z.of_nat n) (getShape type)
           (encodingToBounds (getEncoding type)) inferred) (getTensorType <$> inputs) (sizes, bnds) = Ok (sizes', bnds') ->
  Forall tensor_full inputs -> Forall (fun t => length (getTensorShape t) = n) inputs ->
  length sizes = n -> sizes !! k = Some a -> 0 <= a ->
  length sizes' = n /\ Forall (joins k sizes') inputs /\ sizes' !! k = Some (a + total k inputs) /\
  forall d : nat, d <> k -> sizes !! d = sizes' !! d \/ sizes !! d = Some kDynamic.
Proof.
  induction inputs as [|t ts IH]; intros sizes bnds sizes' bnds' a H Hf Hl Hls Hk Ha.
  - injection H as <- <-. cbn [total foldr]. rewrite Z.add_0_r. split_and!; auto.
  - cbn [fmap list_fmap foldM] in H. apply bind_ok in H as ([s1 b1] & E & H).
    apply Forall_cons in Hf as [Hft Hf], Hl as [Hlt Hl].
    apply infer_dims_concat with (a := a) in E as (Hl1 & Hd1 & s & Hs & Hs0 & Hk1); [|by apply full_shape_ok|done..].
    fold (getTensorShape t) in *.
    destruct (IH _ _ _ _ (a + s) H) as (Hl' & Hj & Hk' & Hkeep); [done..|lia|].
    assert (forall d : nat, d <> k -> getTensorShape t !! d = sizes' !! d) as Hjt.
    { intros d Hne. destruct (decide (d < n)%nat) as [Hdn|Hdn].
      - destruct (Hd1 d Hdn Hne) as [E1 _]. destruct (Hkeep d Hne) as [E2|E2]; [congruence|].
        rewrite E1 in E2. pose proof (static_dim _ _ _ (full_shape_ok _ Hft) E2) as [? Hx].
        by rewrite isDynamic_kDynamic in Hx.
      - rewrite !lookup_ge_None_2 by lia. done. }
    split; [done|]. split; [constructor; [split; [lia|done]|done]|]. split.
    + rewrite Hk'. cbn [total foldr]. fold (total k ts). rewrite Hs. cbn [from_option id]. f_equal. lia.
    + intros d Hne. destruct (decide (d < n)%nat) as [Hdn|Hdn].
      * destruct (Hd1 d Hdn Hne) as [_ [E1|E1]]; [by right|left]. by rewrite E1, Hjt.
      * left. rewrite !lookup_ge_None_2 by lia. done.
Qed.

Lemma inferConcatenateOp_inv inputs dimension type :
  inferConcatenateOp (getTensorType <$> inputs) dimension = Ok type -> Forall tensor_full inputs ->
  exists (k : nat) input rest, dimension = Z.of_nat k /\ inputs = input :: rest /\
    getElementType type = getTensorElementType input /\
    Forall (joins k (getShape type)) inputs /\ getShape type !! k = Some (total k inputs).
Proof.
  unfold inferConcatenateOp. intros H Hf. apply bind_ok in H as (w & Hw & H).
  apply at_z_ok in Hw as [_ Hw]. destruct inputs as [|input rest]; [done|]. injection Hw as <-.
  apply bind_ok in H as (? & _ & H). apply bind_ok in H as (? & _ & H). apply bind_ok in H as ([] & Hr & H).
  apply bind_ok in H as (sizes & Hset & H). apply bind_ok in H as ([sizes' bnds] & Hfold & H).
  apply bind_ok in H as (enc & _ & [= <-]). cbn [getShape getElementType].
  apply set_z_inv in Hset as [Hdim ->]. unfold getRank in *. rewrite Nat2Z.id, length_replicate in *.
  set (n := length (getShape (getTensorType input))) in *.
  assert (Forall (fun t => length (getTensorShape t) = n) (input :: rest)) as Hl.
  { apply Forall_forall. intros t Ht. eapply foldM_unit in Hr; [|apply list_elem_of_fmap_2; exact Ht]. cbn beta in Hr.
    apply bind_ok in Hr as (? & Hr%ensure_ok & _). unfold getTensorShape. lia. }
  exists (Z.to_nat dimension), input, rest. split; [lia|]. split; [done|]. split; [done|].
  replace dimension with (Z.of_nat (Z.to_nat dimension)) in Hfold by lia.
  eapply infer_concat_fold with (a := 0) in Hfold as (_ & Hj & Hk & _);
    [done|done|done|by rewrite length_insert, length_replicate| |done].
  rewrite Nat2Z.id. apply list_lookup_insert_eq. rewrite length_replicate. lia.
Qed.

(** C34: when [inferConcatenateOp] accepts the inputs' types and the dimension, the
    inferred size of the dimension is the sum of the inputs' sizes, and
    [concatenateOp] returns without a fault, writes every element of the result,
    and holds at each index the element of the input its coordinate falls in. *)
Theorem concatenate_correct inputs dimension resultType :
  Forall tensor_full inputs -> shaped_ok resultType ->
  Forall (fun input => getTensorElementType input = getElementType resultType) inputs ->
  inferConcatenateOp (getTensorType <$> inputs) dimension = Ok resultType ->
  getShape resultType !! Z.to_nat dimension = Some (total (Z.to_nat dimension) inputs) /\
  result_is resultType (concatenateOp inputs dimension resultType)
    (fun t => forall i x, in_bounds i (getShape resultType) -> i !! Z.to_nat dimension = Some x ->
       get t i = concat_at inputs (Z.to_nat dimension) i x).
Proof.
  intros Hf Hr He Hinf. apply inferConcatenateOp_inv in Hinf as (k & input & rest & -> & _ & _ & Hj & Hk); [|done].
  rewrite Nat2Z.id. split; [done|]. by apply concatenateOp_spec.
Qed.
End OpsJoin.

(** ** Witnesses *)
Section Witnesses.
Import Concrete.

(** Cropping by one on the left, one hole between elements. *)
Lemma pad_correct_witness :
  result_is (shaped [3; 4] ui8) (inferredPadOp sample (scalar 9) [0; -1] [1; 0] [0; 1])
    (padded sample (scalar 9) [0; -1] [0; 1]) /\ pad_index [0; -1] [0; 1] [1; 2] = [1; 3].
Proof.
  split; [|reflexivity].
  apply (pad_correct sample (scalar 9) [0; -1] [1; 0] [0; 1] (shaped [3; 4] ui8)); [concrete..| |concrete].
  intros [|[|d]] s lo p [= <-] [= <-] [= <-]; unfold int64_min, int64_max; lia.
Defined.

Lemma concatenate_correct_witness :
  result_is (shaped [2; 5] ui8) (concatenateOp [sample; bytes [2; 2] [8; 9; 10; 11]] 1 (shaped [2; 5] ui8))
    (fun t => forall i x, in_bounds i [2; 5] -> i !! 1%nat = Some x ->
       get t i = concat_at [sample; bytes [2; 2] [8; 9; 10; 11]] 1 i x).
Proof.
  refine (proj2 (concatenate_correct [sample; bytes [2; 2] [8; 9; 10; 11]] 1 (shaped [2; 5] ui8) _ _ _ _));
    [constructor; [concrete|constructor; [concrete|constructor]]|concrete|repeat constructor|concrete].
Defined.
End Witnesses.
