(* ===== verification/OpsElementwise.v ===== *)
(** * The elementwise operations on integer tensors

    A tensor of integers is described by the function that gives the integer at
    every index; the operations are the pointwise operations on those functions. *)
From S2P Require Import Prelude Types Support Index Element ElementFacts Tensor TensorFacts Samples Base TypeInference Ops OpsFacts.

Section Elementwise.
Context {L : LLVM} {Laws : LLVMLaws L}.

(** [t] holds the integer [f i] at every index, modulo the width. *)
Definition holds (s : Signedness) (w : Z) (f : Index -> Z) (t : Tensor) : Prop :=
  forall i, in_bounds i (getTensorShape t) -> get t i = Ok (int_el s w (f i)).

(** [t] holds the boolean [p i] at every index. *)
Definition holds_bool (p : Index -> bool) (t : Tensor) : Prop :=
  forall i, in_bounds i (getTensorShape t) -> get t i = Ok (bool_el (p i)).

Lemma elementwise2_holds type s w f g h op lhs rhs :
  shaped_ok type -> getElementType type = IntegerType s w -> int_type s w = true ->
  getTensorShape lhs = getShape type -> getTensorShape rhs = getShape type ->
  holds s w f lhs -> holds s w g rhs ->
  (forall i, in_bounds i (getShape type) -> op (int_el s w (f i)) (int_el s w (g i)) = Ok (int_el s w (h i))) ->
  result_is type (elementwise2 op lhs rhs type) (holds s w h).
Proof.
  intros Hty He Hi Hl Hr Hf Hg Hop. unfold elementwise2.
  assert (forall i, in_bounds i (getShape type) ->
    (a ← get lhs i; b ← get rhs i; op a b) = Ok (int_el s w (h i))) as E.
  { intros i Hb. rewrite Hf by (by rewrite Hl). cbind. rewrite Hg by (by rewrite Hr). cbind. by apply Hop. }
  apply build_result; [done| |].
  - intros i Hb. rewrite E by done. exists (int_el s w (h i)). split_and!; [done|by apply int_el_ok|by rewrite He].
  - intros t Ht Hgt i Hb. unfold getTensorShape in Hb. rewrite Ht in Hb. rewrite Hgt by done. by apply E.
Qed.

Lemma elementwise1_holds type s w f h op operand :
  shaped_ok type -> getElementType type = IntegerType s w -> int_type s w = true ->
  getTensorShape operand = getShape type -> holds s w f operand ->
  (forall i, in_bounds i (getShape type) -> op (int_el s w (f i)) = Ok (int_el s w (h i))) ->
  result_is type (elementwise1 op operand type) (holds s w h).
Proof.
  intros Hty He Hi Hl Hf Hop. unfold elementwise1.
  assert (forall i, in_bounds i (getShape type) -> (a ← get operand i; op a) = Ok (int_el s w (h i))) as E.
  { intros i Hb. rewrite Hf by (by rewrite Hl). cbind. by apply Hop. }
  apply build_result; [done| |].
  - intros i Hb. rewrite E by done. exists (int_el s w (h i)). split_and!; [done|by apply int_el_ok|by rewrite He].
  - intros t Ht Hgt i Hb. unfold getTensorShape in Hb. rewrite Ht in Hb. rewrite Hgt by done. by apply E.
Qed.

(** On integer tensors of one type the arithmetic, bitwise, extremum, shift
    and power operations return, without a fault, the pointwise operation on the
    integers modulo the width; division and remainder do where no divisor is zero. *)
Theorem integer_tensor_operations type s w f g lhs rhs :
  shaped_ok type -> getElementType type = IntegerType s w -> int_type s w = true ->
  getTensorShape lhs = getShape type -> getTensorShape rhs = getShape type ->
  holds s w f lhs -> holds s w g rhs ->
  let pointwise op (h : Index -> Z) := result_is type (op lhs rhs type) (holds s w h) in
  pointwise addOp (fun i => f i + g i) /\
  pointwise subtractOp (fun i => f i - g i) /\
  pointwise multiplyOp (fun i => f i * g i) /\
  pointwise andOp (fun i => Z.land (f i) (g i)) /\
  pointwise orOp (fun i => Z.lor (f i) (g i)) /\
  pointwise xorOp (fun i => Z.lxor (f i) (g i)) /\
  pointwise maxOp (fun i => Z.max (int_read s w (f i)) (int_read s w (g i))) /\
  pointwise minOp (fun i => Z.min (int_read s w (f i)) (int_read s w (g i))) /\
  pointwise powerOp (fun i => int_power s w (f i) (g i)) /\
  pointwise shiftLeftOp (fun i => Z.shiftl (f i) (g i mod 2 ^ w)) /\
  pointwise shiftRightLogicalOp (fun i => Z.shiftr (f i mod 2 ^ w) (g i mod 2 ^ w)) /\
  ((forall i, in_bounds i (getShape type) -> g i mod 2 ^ w <> 0) ->
    pointwise divideOp (fun i => Z.quot (int_read s w (f i)) (int_read s w (g i))) /\
    pointwise remOp (fun i => Z.rem (int_read s w (f i)) (int_read s w (g i)))) /\
  result_is type (negOp lhs type) (holds s w (fun i => - f i)) /\
  result_is type (notOp lhs type) (holds s w (fun i => Z.lnot (f i))).
Proof.
  intros Hty He Hi Hl Hr Hf Hg pointwise.
  assert (forall op h, (forall a b, op (int_el s w a) (int_el s w b) = Ok (int_el s w (h a b))) ->
    result_is type (elementwise2 op lhs rhs type) (holds s w (fun i => h (f i) (g i)))) as Hop2.
  { intros op h Hop. by eapply elementwise2_holds. }
  unfold pointwise. split_and!.
  - apply (Hop2 el_add Z.add). intros. by apply el_add_int.
  - apply (Hop2 el_sub Z.sub). intros. by apply el_sub_int.
  - apply (Hop2 el_mul Z.mul). intros. by apply el_mul_int.
  - apply (Hop2 el_and Z.land). intros. by apply el_and_int.
  - apply (Hop2 el_or Z.lor). intros. by apply el_or_int.
  - apply (Hop2 el_xor Z.lxor). intros. by apply el_xor_int.
  - apply (Hop2 max (fun a b => Z.max (int_read s w a) (int_read s w b))). intros. by apply max_int.
  - apply (Hop2 min (fun a b => Z.min (int_read s w a) (int_read s w b))). intros. by apply min_int.
  - apply (Hop2 power (int_power s w)). intros. by apply power_int.
  - apply (Hop2 shiftLeft (fun a b => Z.shiftl a (b mod 2 ^ w))). intros. by apply shiftLeft_int.
  - apply (Hop2 shiftRightLogical (fun a b => Z.shiftr (a mod 2 ^ w) (b mod 2 ^ w))).
    intros. by apply shiftRightLogical_int.
  - intros Hz. split; eapply elementwise2_holds; try done; intros i Hb;
      [apply el_div_int|apply rem_int]; (done || by apply Hz).
  - eapply elementwise1_holds; try done. intros i _. by apply el_neg_int.
  - eapply elementwise1_holds; try done. intros i _. by apply el_not_int.
Qed.

(** ** Comparisons, selections and clamps *)
Definition compare_z (d : ComparisonDirection) (x y : Z) : bool :=
  match d with
  | EQ => x =? y | NE => negb (x =? y) | GE => y <=? x | GT => y <? x | LE => x <=? y | LT => x <? y
  end.

Lemma compare_elements_int d s w a b :
  int_type s w = true ->
  compare_elements d (int_el s w a) (int_el s w b) = Ok (bool_el (compare_z d (int_read s w a) (int_read s w b))).
Proof.
  intros Hi. destruct d; cbn [compare_elements compare_z].
  - by apply el_eq_int.
  - unfold el_ne. by rewrite el_eq_int.
  - unfold el_ge. rewrite el_gt_int, el_eq_int by done. cbn [mbind result_bind].
    unfold el_lor. cbn. do 2 f_equal.
    destruct (Z.ltb_spec (int_read s w b) (int_read s w a)), (Z.eqb_spec (int_read s w a) (int_read s w b)),
      (Z.leb_spec (int_read s w b) (int_read s w a)); (done || lia).
  - by apply el_gt_int.
  - unfold el_le. rewrite el_lt_int, el_eq_int by done. cbn [mbind result_bind].
    unfold el_lor. cbn. do 2 f_equal.
    destruct (Z.ltb_spec (int_read s w a) (int_read s w b)), (Z.eqb_spec (int_read s w a) (int_read s w b)),
      (Z.leb_spec (int_read s w a) (int_read s w b)); (done || lia).
  - by apply el_lt_int.
Qed.

(** [compareOp] on integer tensors holds at every index the comparison of the
    integers by their signedness, in each of its six directions. *)
Theorem compare_correct type resultType s w f g lhs rhs direction :
  shaped_ok resultType -> getElementType resultType = i1 -> getShape resultType = getShape type ->
  int_type s w = true -> getTensorShape lhs = getShape type -> getTensorShape rhs = getShape type ->
  holds s w f lhs -> holds s w g rhs ->
  result_is resultType (compareOp lhs rhs direction resultType)
    (holds_bool (fun i => compare_z direction (int_read s w (f i)) (int_read s w (g i)))).
Proof.
  intros Hty He Hs Hi Hl Hr Hf Hg. unfold compareOp, elementwise2.
  assert (forall i, in_bounds i (getShape resultType) ->
    (a ← get lhs i; b ← get rhs i; compare_elements direction a b)
    = Ok (bool_el (compare_z direction (int_read s w (f i)) (int_read s w (g i))))) as E.
  { intros i Hb. rewrite Hs in Hb. rewrite Hf by (by rewrite Hl). cbind. rewrite Hg by (by rewrite Hr). cbind.
    by apply compare_elements_int. }
  apply build_result; [done| |].
  - intros i Hb. rewrite E by done. eexists. split; [done|]. split; [done|by rewrite He].
  - intros t Ht Hgt i Hb. unfold getTensorShape in Hb. rewrite Ht in Hb. rewrite Hgt by done. by apply E.
Qed.

(** The index at which an operand that may be a scalar is read. *)
Definition spread (shape : Sizes) (i : Index) : Index := match shape with [] => [] | _ => i end.

Lemma get_or_scalar_spread t i : get_or_scalar t i = get t (spread (getTensorShape t) i).
Proof.
  unfold get_or_scalar, getTensorRank, getRank. fold (getTensorShape t).
  by destruct (getTensorShape t).
Qed.

Lemma spread_in_bounds t shape i :
  getTensorShape t = [] \/ getTensorShape t = shape -> in_bounds i shape ->
  in_bounds (spread (getTensorShape t) i) (getTensorShape t).
Proof. intros [->| ->] Hi; [constructor|]. by inversion Hi; subst. Qed.

(** [clampOp] on integer tensors holds the operand's integer clamped between
    the bounds, and [selectOp] the element of the tensor its predicate chooses;
    the bounds and the predicate may be scalars, used at every index. *)
Theorem clamp_select_correct type s w lo f hi p g mn operand mx pred onFalse :
  shaped_ok type -> getElementType type = IntegerType s w -> int_type s w = true ->
  getTensorShape operand = getShape type -> getTensorShape onFalse = getShape type ->
  getTensorShape mn = [] \/ getTensorShape mn = getShape type ->
  getTensorShape mx = [] \/ getTensorShape mx = getShape type ->
  getTensorShape pred = [] \/ getTensorShape pred = getShape type ->
  holds s w lo mn -> holds s w f operand -> holds s w hi mx -> holds_bool p pred -> holds s w g onFalse ->
  result_is type (clampOp mn operand mx type) (holds s w (fun i =>
    Z.min (Z.max (int_read s w (f i)) (int_read s w (lo (spread (getTensorShape mn) i))))
          (int_read s w (hi (spread (getTensorShape mx) i))))) /\
  result_is type (selectOp pred operand onFalse type)
    (holds s w (fun i => if p (spread (getTensorShape pred) i) then f i else g i)).
Proof.
  intros Hty He Hi Ho Hof Hmn Hmx Hpr Hlo Hf Hhi Hp Hg.
  assert (forall (src : Index -> result Element) h,
    (forall i, in_bounds i (getShape type) -> src i = Ok (int_el s w (h i))) ->
    result_is type (build type src) (holds s w h)) as Hbuild.
  { intros src h E. apply build_result; [done| |].
    - intros i Hb. rewrite E by done. exists (int_el s w (h i)). split_and!; [done|by apply int_el_ok|by rewrite He].
    - intros t Ht Hgt i Hb. unfold getTensorShape in Hb. rewrite Ht in Hb. rewrite Hgt by done. by apply E. }
  split; apply Hbuild; intros i Hb.
  - rewrite !get_or_scalar_spread. rewrite Hlo by (by eapply spread_in_bounds). cbind.
    rewrite Hhi by (by eapply spread_in_bounds). cbind. rewrite Hf by (by rewrite Ho). cbind.
    rewrite max_int by done. cbind. rewrite min_int by done. do 2 f_equal.
    assert (forall a b, int_read s w (Z.max (int_read s w a) (int_read s w b)) = Z.max (int_read s w a) (int_read s w b)) as Em.
    { intros a b. destruct (Z.max_spec (int_read s w a) (int_read s w b)) as [[_ ->]|[_ ->]];
        apply int_read_idem; by pose proof (int_type_pos _ _ Hi); lia. }
    by rewrite Em.
  - rewrite get_or_scalar_spread, Hp by (by eapply spread_in_bounds). cbind.
    unfold getBooleanValue. cbn. destruct (p _); [rewrite Hf|rewrite Hg]; by rewrite ?Ho, ?Hof.
Qed.
(** A decision procedure for [holds]. *)
Definition holds_checkb (s : Signedness) (w : Z) (f : Index -> Z) (t : Tensor) : bool :=
  forallb (fun i => match get t i with
                    | Ok (MkElement ty (VInt v)) =>
                        bool_decide (ty = IntegerType s w) && (Support.getBitWidth v =? w) &&
                        (uval v =? f i mod 2 ^ w)
                    | _ => false
                    end) (indices (getTensorShape t)).

Lemma holds_check s w f t : 0 < w -> holds_checkb s w f t = true -> holds s w f t.
Proof.
  intros Hw H i Hi. unfold holds_checkb in H. rewrite forallb_forall in H.
  apply elem_of_indices, list_elem_of_In in Hi. specialize (H i Hi).
  destruct (get t i) as [[ty [v| | |]]|]; try done. rewrite !andb_true_iff, bool_decide_eq_true in H.
  destruct H as [[-> H1%Z.eqb_eq] H2%Z.eqb_eq]. unfold int_el. do 3 f_equal. by apply apint_intro.
Qed.
End Elementwise.

Ltac holds_concrete := apply holds_check; vm_compute; reflexivity.

(** ** Witnesses *)
Section Witnesses.
Import Concrete.

Definition sample_at (i : Index) : Z := 2 + flat [2; 3] i.

Lemma sample_holds : holds Unsigned 8 sample_at sample.
Proof. holds_concrete. Qed.

Lemma integer_tensor_operations_witness :
  result_is (getTensorType sample) (multiplyOp sample sample (getTensorType sample))
    (holds Unsigned 8 (fun i => sample_at i * sample_at i)).
Proof.
  refine (proj1 (proj2 (proj2 (integer_tensor_operations (getTensorType sample) Unsigned 8 sample_at sample_at
    sample sample _ eq_refl eq_refl eq_refl eq_refl sample_holds sample_holds)))). concrete.
Defined.

Lemma compare_correct_witness :
  result_is (shaped [2; 3] i1) (compareOp sample sample LE (shaped [2; 3] i1))
    (holds_bool (fun i => int_read Unsigned 8 (sample_at i) <=? int_read Unsigned 8 (sample_at i))).
Proof.
  apply (compare_correct (getTensorType sample) (shaped [2; 3] i1) Unsigned 8 sample_at sample_at sample sample LE);
    [concrete|reflexivity..|exact sample_holds|exact sample_holds].
Defined.

Definition bit (b : Z) : Tensor := MkTensor (shaped [] i1) [Some b].

Lemma clamp_select_correct_witness :
  result_is (getTensorType sample) (clampOp (scalar 3) sample (scalar 5) (getTensorType sample))
    (holds Unsigned 8 (fun i => Z.min (Z.max (int_read Unsigned 8 (sample_at i)) 3) 5)).
Proof.
  refine (proj1 (clamp_select_correct (getTensorType sample) Unsigned 8 (fun _ => 3) sample_at (fun _ => 5)
    (fun _ => true) sample_at (scalar 3) sample (scalar 5) (bit 1) sample _ eq_refl eq_refl eq_refl eq_refl
    (or_introl eq_refl) (or_introl eq_refl) (or_introl eq_refl) _ sample_holds _ _ sample_holds)).
  - concrete.
  - holds_concrete.
  - holds_concrete.
  - intros i Hi. inversion Hi. reflexivity.
Defined.
End Witnesses.
