(* ===== verification/LinearFacts.v ===== *)
(** * Contractions compute sums of products *)
From S2P Require Import Prelude Types Support Index Element ElementFacts Tensor TensorFacts Samples Base TypeInference Ops OpsFacts OpsElementwise OpsJoin Linear.

(** ** Writing values at dimensions of an index *)
Fixpoint place (dims : list Z) (c base : Index) : Index :=
  match dims, c with
  | d :: dims, x :: c => place dims c (<[Z.to_nat d := x]> base)
  | _, _ => base
  end.

Definition dims_of (dims : list Z) (n : nat) : Prop :=
  NoDup dims /\ Forall (fun d => 0 <= d < Z.of_nat n) dims.

Lemma length_place dims c base : length (place dims c base) = length base.
Proof. revert c base. induction dims as [|d dims IH]; intros [|x c] base; cbn [place]; try done. by rewrite IH, length_insert. Qed.

Lemma place_ne dims : forall c base (k : nat) n,
  Forall (fun d => 0 <= d < n) dims -> Z.of_nat k ∉ dims -> place dims c base !! k = base !! k.
Proof.
  induction dims as [|d dims IH]; intros [|x c] base k n Hd Hk; cbn [place]; try done.
  apply Forall_cons in Hd as [Hd Hds]. apply not_elem_of_cons in Hk as [Hk Hks].
  rewrite (IH _ _ _ n) by done. apply list_lookup_insert_ne. lia.
Qed.

Lemma place_lookup dims : forall c base (k : nat) d x n,
  NoDup dims -> Forall (fun d => 0 <= d < n) dims -> n <= Z.of_nat (length base) ->
  dims !! k = Some d -> c !! k = Some x -> place dims c base !! Z.to_nat d = Some x.
Proof.
  induction dims as [|d' dims IH]; intros [|x' c] base [|k] d x n Hnd Hd Hn Hk Hx; cbn [place]; simplify_eq/=.
  - apply NoDup_cons in Hnd as [Hni Hnd]. apply Forall_cons in Hd as [Hd Hds].
    rewrite (place_ne _ _ _ _ n) by (done || by rewrite Z2Nat.id by lia). apply list_lookup_insert_eq. lia.
  - apply NoDup_cons in Hnd as [_ Hnd]. apply Forall_cons in Hd as [_ Hds].
    eapply IH; try done. by rewrite length_insert.
Qed.

Lemma place_insert dims c base (k : nat) d x n :
  NoDup dims -> Forall (fun d => 0 <= d < n) dims -> n <= Z.of_nat (length base) -> length c = length dims ->
  dims !! k = Some d -> <[Z.to_nat d := x]> (place dims c base) = place dims (<[k := x]> c) base.
Proof.
  intros Hnd Hd Hn Hl Hk. apply list_eq. intros j.
  pose proof (Forall_lookup_1 _ _ _ _ Hd Hk) as Hdb. cbn in Hdb.
  destruct (decide (j = Z.to_nat d)) as [->|Hne].
  - rewrite list_lookup_insert_eq by (rewrite length_place; lia). symmetry.
    apply (place_lookup dims _ base k d x n); try done.
    apply list_lookup_insert_eq. apply lookup_lt_Some in Hk. lia.
  - rewrite list_lookup_insert_ne by done. destruct (decide (Z.of_nat j ∈ dims)) as [Hin|Hin].
    + apply list_elem_of_lookup in Hin as (k' & Hk'). assert (k' <> k) by (intros ->; simplify_eq; lia).
      destruct (lookup_lt_is_Some_2 c k') as [y Hy]; [apply lookup_lt_Some in Hk'; lia|].
      rewrite <- (Nat2Z.id j), (place_lookup dims c base k' _ y n) by done.
      symmetry. apply (place_lookup dims _ base k' _ y n); try done. by rewrite list_lookup_insert_ne.
    + by rewrite !(place_ne _ _ _ _ n).
Qed.

(** [scatter_dims] writes a segment of the source. *)
Lemma scatter_dims_spec dims : forall src (off : nat) dst,
  Forall (fun d => 0 <= d < Z.of_nat (length dst)) dims -> (off + length dims <= length src)%nat ->
  scatter_dims dims src (Z.of_nat off) dst = Ok (place dims (drop off src) dst).
Proof.
  intros src off dst Hd Hl. unfold scatter_dims.
  enough (forall (k : nat) dst, (k <= length dims)%nat -> Forall (fun d => 0 <= d < Z.of_nat (length dst)) dims ->
    foldM (fun i dst => d ← at_z dims i; x ← at_z src (Z.of_nat off + i); set_z dst d x)
      (seqZ (Z.of_nat k) (Z.of_nat (length dims - k))) dst = Ok (place (drop k dims) (drop (off + k) src) dst)) as H.
  { specialize (H O dst ltac:(lia) Hd). by rewrite Nat.sub_0_r, Nat.add_0_r in H. }
  clear dst Hd. intros k dst Hk. remember (length dims - k)%nat as n eqn:Hn. revert k dst Hk Hn.
  induction n as [|n IH]; intros k dst Hk Hn Hd.
  - rewrite (drop_ge dims) by lia. done.
  - rewrite seqZ_cons by lia. cbn [foldM].
    destruct (lookup_lt_is_Some_2 dims k) as [d Hdk]; [lia|].
    destruct (lookup_lt_is_Some_2 src (off + k)) as [x Hx]; [lia|].
    rewrite (at_z_some _ _ _ Hdk). cbn [mbind result_bind].
    rewrite <- Nat2Z.inj_add, (at_z_some _ _ _ Hx). cbn [mbind result_bind].
    pose proof (Forall_lookup_1 _ _ _ _ Hd Hdk) as Hdb. cbn in Hdb.
    rewrite set_z_ok by lia. cbn [mbind result_bind].
    rewrite (drop_S dims d k Hdk), (drop_S src x (off + k) Hx). cbn [place].
    replace (Z.succ (Z.of_nat k)) with (Z.of_nat (S k)) by lia. replace (Z.pred (Z.of_nat (S n))) with (Z.of_nat n) by lia.
    rewrite IH by (rewrite ?length_insert; done || lia). by rewrite Nat.add_succ_r.
Qed.

Lemma incrementIndices_cons lhsShape lc rc l r :
  lc <> [] -> incrementIndices lhsShape lc rc l r = increment_loop (length lc) lhsShape lc rc l r.
Proof. by destruct lc. Qed.

(** ** The increments of [dot_loop] follow the index-space iterator *)
Section Contraction.
Context (lhsShape : Sizes) (lc rc : list Z) (nl nr : Z) (cs : Sizes).
Hypothesis lc_ok : NoDup lc /\ Forall (fun d => 0 <= d < nl) lc.
Hypothesis rc_ok : NoDup rc /\ Forall (fun d => 0 <= d < nr) rc.
Hypothesis same_length : length lc = length rc.
Hypothesis cs_ok : length cs = length lc /\
  forall (k : nat) d, lc !! k = Some d -> lhsShape !! Z.to_nat d = cs !! k.

Lemma increment_sim n : forall c lb rb,
  (n <= length lc)%nat -> length c = length lc -> nl <= Z.of_nat (length lb) -> nr <= Z.of_nat (length rb) ->
  match incr_loop n cs c with
  | Ok (Some c') => increment_loop n lhsShape lc rc (place lc c lb) (place rc c rb)
                    = Ok (true, place lc c' lb, place rc c' rb) /\ length c' = length lc
  | Ok None => exists l r, increment_loop n lhsShape lc rc (place lc c lb) (place rc c rb) = Ok (false, l, r)
  | Err _ => True
  end.
Proof.
  destruct lc_ok as [Hln Hlr], rc_ok as [Hrn Hrr], cs_ok as [Hcl Hcs].
  induction n as [|i IH]; intros c lb rb Hn Hc Hlb Hrb; cbn [incr_loop increment_loop]; [done|].
  destruct (lookup_lt_is_Some_2 lc i) as [dl Hdl]; [lia|]. destruct (lookup_lt_is_Some_2 rc i) as [dr Hdr]; [lia|].
  destruct (lookup_lt_is_Some_2 c i) as [x Hx]; [lia|]. destruct (lookup_lt_is_Some_2 cs i) as [s Hs]; [lia|].
  pose proof (Forall_lookup_1 _ _ _ _ Hlr Hdl) as Hdlb. pose proof (Forall_lookup_1 _ _ _ _ Hrr Hdr) as Hdrb. cbn in *.
  rewrite (at_z_some _ _ _ Hx). cbn [mbind result_bind]. destruct (i64 (x + 1)) as [x'|] eqn:Hx'; [|done].
  cbn [mbind result_bind]. rewrite set_z_ok by lia. cbn [mbind result_bind]. rewrite Nat2Z.id.
  rewrite (at_z_some _ _ _ Hs), (at_z_some _ _ _ Hdl), (at_z_some _ _ _ Hdr). cbn [mbind result_bind].
  assert (forall dims n base d y, NoDup dims -> Forall (fun d => 0 <= d < n) dims -> n <= Z.of_nat (length base) ->
    dims !! i = Some d -> c !! i = Some y -> at_z (place dims c base) d = Ok y) as Hat.
  { intros dims n base d y Hnd Hd Hb Hk Hy. apply at_z_ok. pose proof (Forall_lookup_1 _ _ _ _ Hd Hk) as Hdb. cbn in Hdb.
    split; [lia|]. by eapply place_lookup. }
  rewrite (Hat lc nl lb dl x) by done. cbn [mbind result_bind]. rewrite Hx'. cbn [mbind result_bind].
  rewrite (set_z_ok (place lc c lb)) by (rewrite length_place; lia). cbn [mbind result_bind].
  rewrite (Hat rc nr rb dr x) by done. cbn [mbind result_bind]. rewrite Hx'. cbn [mbind result_bind].
  rewrite (set_z_ok (place rc c rb)) by (rewrite length_place; lia). cbn [mbind result_bind].
  rewrite (proj2 (at_z_ok lhsShape dl s)) by (split; [lia|by rewrite (Hcs i)]). cbn [mbind result_bind].
  rewrite (place_insert lc c lb i dl x' nl), (place_insert rc c rb i dr x' nr) by (done || lia).
  destruct (Z.leb_spec s x'), (Z.ltb_spec x' s); try lia; [|by rewrite length_insert].
  rewrite set_z_ok by (rewrite length_insert; lia). cbn [mbind result_bind]. rewrite Nat2Z.id, list_insert_insert_eq.
  case_decide; [by eexists _, _|].
  rewrite !set_z_ok by (rewrite length_place; lia). cbn [mbind result_bind].
  rewrite (place_insert lc _ lb i dl 0 nl), (place_insert rc _ rb i dr 0 nr) by (rewrite ?length_insert; done || lia).
  rewrite !list_insert_insert_eq. apply IH; rewrite ?length_insert; lia.
Qed.

Lemma incrementIndices_spec c lb rb :
  shape_ok cs -> in_bounds c cs -> nl <= Z.of_nat (length lb) -> nr <= Z.of_nat (length rb) ->
  match indices cs !! S (Z.to_nat (flat cs c)) with
  | Some c' => incrementIndices lhsShape lc rc (place lc c lb) (place rc c rb)
               = Ok (true, place lc c' lb, place rc c' rb)
  | None => exists l r, incrementIndices lhsShape lc rc (place lc c lb) (place rc c rb) = Ok (false, l, r)
  end.
Proof.
  intros Hs Hc Hlb Hrb. pose proof (iter_incr_spec cs c Hs Hc) as Hit.
  destruct cs_ok as [Hcl _]. pose proof (in_bounds_length _ _ Hc) as Hlen.
  unfold iter_incr in Hit. cbn [shape_ index_] in Hit. case_decide as Hnil.
  - injection Hit as Hit. rewrite <- Hit.
    assert (lc = []) as -> by (apply nil_length_inv; by rewrite <- Hcl, Hnil). by eexists _, _.
  - rewrite incrementIndices_cons by (intros E; apply Hnil, nil_length_inv; by rewrite Hcl, E).
    apply bind_ok in Hit as (o & Ho & [= <-]). rewrite Hcl in Ho.
    pose proof (increment_sim (length lc) c lb rb) as Hsim. rewrite Ho in Hsim.
    destruct o; apply Hsim; (done || lia).
Qed.

(** The loop adds up the products over the contracted index space, in order. *)
Lemma dot_loop_spec `{L : LLVM} (lhs rhs : Tensor) e lb rb :
  getTensorShape lhs = lhsShape ->
  shape_ok cs -> nl <= Z.of_nat (length lb) -> nr <= Z.of_nat (length rb) ->
  forall fuel (k : nat) c acc, indices cs !! k = Some c -> (length (indices cs) - k <= fuel)%nat ->
  dot_loop fuel lhs rhs lc rc e (place lc c lb) (place rc c rb) acc
  = foldM (fun c acc =>
      a ← get lhs (place lc c lb); a ← convert e a; b ← get rhs (place rc c rb); b ← convert e b;
      p ← el_mul a b; el_add acc p) (drop k (indices cs)) acc.
Proof.
  intros Hsh Hs Hlb Hrb fuel. induction fuel as [|fuel IH]; intros k c acc Hk Hf;
    [apply lookup_lt_Some in Hk; lia|].
  rewrite (drop_S _ _ _ Hk). cbn [dot_loop foldM].
  destruct (get lhs _) as [a|]; [|done]. cbn [mbind result_bind]. destruct (convert e a) as [a'|]; [|done]. cbn [mbind result_bind].
  destruct (get rhs _) as [b|]; [|done]. cbn [mbind result_bind]. destruct (convert e b) as [b'|]; [|done]. cbn [mbind result_bind].
  destruct (el_mul a' b') as [p|]; [|done]. cbn [mbind result_bind]. destruct (el_add acc p) as [acc'|]; [|done].
  cbn [mbind result_bind]. apply indices_lookup_flat in Hk as [Hc Hfl]; [|by auto with hlo].
  pose proof (incrementIndices_spec c lb rb Hs Hc Hlb Hrb) as Hinc. rewrite Hfl, Nat2Z.id in Hinc. rewrite Hsh.
  destruct (indices cs !! S k) as [c'|] eqn:Hk'.
  - rewrite Hinc. cbn [mbind result_bind]. apply IH; [done|lia].
  - destruct Hinc as (l & r & ->). cbn [mbind result_bind].
    rewrite drop_ge by (by apply lookup_ge_None in Hk'). done.
Qed.
End Contraction.

(** ** Dimension numbers *)
Definition sizes_at (shape dims : list Z) : list Z := (fun d => default 0 (shape !! Z.to_nat d)) <$> dims.

Lemma insert_all_spec nums : forall seen,
  (exists s, insert_all nums seen = Some s) <-> NoDup nums /\ forall x, x ∈ nums -> x ∉ seen.
Proof.
  induction nums as [|d nums IH]; intros seen; cbn [insert_all].
  - split; [intros _; split; [constructor|set_solver]|by eexists].
  - rewrite NoDup_cons. case_decide as Hin.
    + split; [by intros (? & ?)|]. intros [_ H]. exfalso. apply (H d); [left|done].
    + rewrite IH. set_solver.
Qed.

Lemma isUnique_spec nums : isUnique nums = true <-> NoDup nums.
Proof.
  unfold isUnique. pose proof (insert_all_spec nums ∅) as H.
  destruct (insert_all nums ∅) as [s|].
  - split; [intros _; by apply H; eexists|done].
  - split; [done|]. intros Hnd. destruct H as [_ H]. destruct H as (? & ?); [|done]. split; [done|set_solver].
Qed.

Lemma elem_of_result_dims n batching contracting d :
  d ∈ result_dims n batching contracting <-> 0 <= d < n /\ (d ∉ batching) /\ (d ∉ contracting).
Proof. unfold result_dims. rewrite list_elem_of_filter, elem_of_seqZ. intuition lia. Qed.

Lemma NoDup_result_dims n batching contracting : NoDup (result_dims n batching contracting).
Proof. apply NoDup_filter, NoDup_seqZ. Qed.

(** The index of one operand: the batching dimensions hold [ib], the result
    dimensions [ir] and the contracting dimensions [c]. *)
Definition dot_index (rank : nat) (batching contracting : list Z) (ib ir c : Index) : Index :=
  place contracting c
    (place (result_dims (Z.of_nat rank) batching contracting) ir (place batching ib (replicate rank 0))).

Lemma sizes_at_lookup shape dims (k : nat) d :
  dims !! k = Some d -> sizes_at shape dims !! k = Some (default 0 (shape !! Z.to_nat d)).
Proof. intros H. unfold sizes_at. by rewrite list_lookup_fmap, H. Qed.

Lemma place_at dims shape c base d s :
  NoDup dims -> Forall (fun d => 0 <= d < Z.of_nat (length base)) dims -> in_bounds c (sizes_at shape dims) ->
  d ∈ dims -> shape !! Z.to_nat d = Some s ->
  exists x, place dims c base !! Z.to_nat d = Some x /\ 0 <= x < s.
Proof.
  intros Hnd Hd Hc Hin Hs. apply list_elem_of_lookup in Hin as (k & Hk).
  pose proof (sizes_at_lookup shape dims k d Hk) as Hsz. rewrite Hs in Hsz. cbn in Hsz.
  destruct (in_bounds_lookup_Some _ _ _ _ Hc Hsz) as (x & Hx & Hxs). exists x. split; [|done].
  by eapply place_lookup; [done|exact Hd|lia|exact Hk|].
Qed.

Lemma sizes_at_dims shape dims :
  Forall (fun d => 0 <= d < Z.of_nat (length shape)) dims ->
  length (sizes_at shape dims) = length dims /\
  forall (k : nat) d, dims !! k = Some d -> shape !! Z.to_nat d = sizes_at shape dims !! k.
Proof.
  intros Hd. split; [apply length_fmap|]. intros k d Hk. rewrite (sizes_at_lookup _ _ _ _ Hk).
  pose proof (Forall_lookup_1 _ _ _ _ Hd Hk) as Hdb. cbn in Hdb.
  destruct (lookup_lt_is_Some_2 shape (Z.to_nat d)) as [x ->]; [lia|done].
Qed.

Definition numbers_ok (rank : nat) (batching contracting : list Z) : Prop :=
  NoDup (batching ++ contracting) /\ Forall (fun d => 0 <= d < Z.of_nat rank) (batching ++ contracting).

Lemma numbers_split rank batching contracting :
  numbers_ok rank batching contracting ->
  NoDup contracting /\ Forall (fun d => 0 <= d < Z.of_nat rank) contracting.
Proof. intros [H1 H2]. apply NoDup_app in H1 as (_ & _ & ?). apply Forall_app in H2 as [_ ?]. done. Qed.

Lemma result_dims_range rank batching contracting :
  Forall (fun d => 0 <= d < Z.of_nat rank) (result_dims (Z.of_nat rank) batching contracting).
Proof. apply Forall_forall. intros d Hd%elem_of_result_dims. lia. Qed.

Lemma dot_index_in_bounds shape batching contracting ib ir c :
  numbers_ok (length shape) batching contracting ->
  in_bounds ib (sizes_at shape batching) ->
  in_bounds ir (sizes_at shape (result_dims (Z.of_nat (length shape)) batching contracting)) ->
  in_bounds c (sizes_at shape contracting) ->
  in_bounds (dot_index (length shape) batching contracting ib ir c) shape.
Proof.
  intros [Hnd Hr] Hib Hir Hc. apply NoDup_app in Hnd as (Hnb & Hdis & Hnc). apply Forall_app in Hr as [Hrb Hrc].
  pose proof (NoDup_result_dims (Z.of_nat (length shape)) batching contracting) as Hnr.
  pose proof (result_dims_range (length shape) batching contracting) as Hrr.
  set (rd := result_dims _ _ _) in *. unfold dot_index. fold rd.
  set (b0 := replicate (length shape) 0).
  assert (length b0 = length shape) as Hb0 by apply length_replicate.
  apply in_bounds_intro; [rewrite !length_place; done|]. intros k x s Hx Hs.
  assert (k < length shape)%nat as Hk by (by eapply lookup_lt_Some).
  assert (Z.to_nat (Z.of_nat k) = k) as Ek by lia.
  destruct (decide (Z.of_nat k ∈ contracting)) as [Hkc|Hkc]; [|rewrite (place_ne _ _ _ _ _ Hrc Hkc) in Hx;
    destruct (decide (Z.of_nat k ∈ rd)) as [Hkr|Hkr]; [|rewrite (place_ne _ _ _ _ _ Hrr Hkr) in Hx]].
  - destruct (place_at contracting shape c (place rd ir (place batching ib b0)) (Z.of_nat k) s) as (y & Hy & ?);
      rewrite ?Ek in *; rewrite ?length_place, ?Hb0; try done. by simplify_eq.
  - destruct (place_at rd shape ir (place batching ib b0) (Z.of_nat k) s) as (y & Hy & ?);
      rewrite ?Ek in *; rewrite ?length_place, ?Hb0; try done. by simplify_eq.
  - assert (Z.of_nat k ∈ batching) as Hkb.
    { destruct (decide (Z.of_nat k ∈ batching)); [done|]. exfalso. apply Hkr, elem_of_result_dims. split; [lia|done]. }
    destruct (place_at batching shape ib b0 (Z.of_nat k) s) as (y & Hy & ?);
      rewrite ?Ek in *; rewrite ?Hb0; try done. by simplify_eq.
Qed.

(** The contracted dimensions of the starting index are already zero. *)
Lemma place_zeros dims : forall base,
  (forall d, d ∈ dims -> base !! Z.to_nat d = Some 0) -> place dims (replicate (length dims) 0) base = base.
Proof.
  induction dims as [|d dims IH]; intros base H; [done|]. cbn [length replicate place].
  rewrite list_insert_id by (apply H; left). apply IH. intros d' Hd'. apply H. by right.
Qed.

Lemma dot_index_start rank batching contracting ib ir :
  numbers_ok rank batching contracting ->
  dot_index rank batching contracting ib ir (replicate (length contracting) 0)
  = place (result_dims (Z.of_nat rank) batching contracting) ir (place batching ib (replicate rank 0)).
Proof.
  intros [Hnd Hr]. apply NoDup_app in Hnd as (_ & Hdis & _). apply Forall_app in Hr as [Hrb Hrc].
  apply place_zeros. intros d Hd. pose proof Hd as Hdc. rewrite Forall_forall in Hrc. specialize (Hrc d Hd).
  rewrite (place_ne _ _ _ _ (Z.of_nat rank)), (place_ne _ _ _ _ (Z.of_nat rank)).
  - apply lookup_replicate. lia.
  - done.
  - rewrite Z2Nat.id by lia. intros Hin. by apply (Hdis d).
  - apply result_dims_range.
  - rewrite Z2Nat.id by lia. intros (_ & _ & Hn)%elem_of_result_dims. done.
Qed.

Lemma flat_zeros (s : Sizes) n : flat s (replicate n 0) = 0.
Proof. revert n. induction s as [|d s IH]; intros [|n]; cbn [replicate flat]; try done. rewrite IH. lia. Qed.

Lemma first_index s : Forall (fun d => 0 < d) s -> indices s !! 0%nat = Some (replicate (length s) 0).
Proof.
  intros Hs. assert (in_bounds (replicate (length s) 0) s) as Hb by (induction Hs; constructor; (lia || done)).
  apply lookup_indices in Hb. by rewrite flat_zeros in Hb.
Qed.

(** ** What [inferDotGeneralOp] establishes *)
Lemma static_sizes (shape : list Z) dims :
  shape_ok shape -> Forall (fun d => 0 <= d < Z.of_nat (length shape)) dims ->
  Forall2 (fun d s => shape !! Z.to_nat d = Some s) dims (sizes_at shape dims).
Proof.
  intros Hs. induction 1 as [|d dims Hd Hds IH]; cbn [sizes_at fmap list_fmap]; [constructor|].
  constructor; [|done]. destruct (lookup_lt_is_Some_2 shape (Z.to_nat d)) as [s ->]; [lia|done].
Qed.

Lemma sizes_at_ok shape batching dims :
  shape_ok shape -> numbers_ok (length shape) batching dims -> shape_ok (sizes_at shape dims).
Proof.
  intros Hs [_ [_ Hd]%Forall_app]. pose proof (static_sizes _ _ Hs Hd) as H. clear Hd.
  induction H as [|d x ds xs Hd H IH]; [constructor|]. constructor; [|done].
  by apply (static_dim shape (Z.to_nat d)).
Qed.

Lemma same_sizes lhsShape rhsShape msg dl dr :
  shape_ok lhsShape -> shape_ok rhsShape -> length dl = length dr ->
  foldM (fun '(lhs, rhs) (_ : ()) =>
      a ← at_z lhsShape lhs; b ← at_z rhsShape rhs; ensure (verifyCompatibleDims a b) msg) (zip dl dr) () = Ok () ->
  sizes_at lhsShape dl = sizes_at rhsShape dr.
Proof.
  intros Hl Hr. revert dr. induction dl as [|d dl IH]; intros [|d' dr] Hlen H; try done.
  cbn [zip zip_with foldM] in H. apply bind_ok in H as ([] & E & H).
  apply bind_ok in E as (a & Ha & E). apply bind_ok in E as (b & Hb & E%ensure_ok).
  apply at_z_ok in Ha as [_ Ha], Hb as [_ Hb]. unfold verifyCompatibleDims in E.
  destruct (static_dim _ _ _ Hl Ha) as [_ Hda], (static_dim _ _ _ Hr Hb) as [_ Hdb]. rewrite Hda, Hdb in E.
  cbn [orb] in E. cbn [sizes_at fmap list_fmap]. rewrite Ha, Hb. cbn [from_option id]. f_equal; [lia|].
  apply IH; [by injection Hlen|done].
Qed.

Lemma in_range_spec n dims msg :
  ensure (forallb (fun i => (0 <=? i) && (i <? n)) dims) msg = Ok () -> Forall (fun d => 0 <= d < n) dims.
Proof.
  intros H%ensure_ok. apply Forall_forall. intros d Hd. rewrite forallb_forall in H.
  apply list_elem_of_In, H in Hd. lia.
Qed.

Lemma side_dims (shape bounds dims : list Z) l :
  shape_ok shape ->
  mapM (fun i => d ← at_z shape i; b ← or_default bounds i kDynamic; Ok (d, b)) dims = Ok l ->
  l.*1 = sizes_at shape dims.
Proof.
  intros Hs H%mapM_inv. induction H as [|i [d b] dims l Hi Hl IH]; [done|]. cbn [sizes_at fmap list_fmap fst].
  apply bind_ok in Hi as (d' & Hd & Hi). apply bind_ok in Hi as (b' & _ & [= <- <-]).
  apply at_z_ok in Hd as [_ ->]. cbn [from_option id]. by rewrite IH.
Qed.

Lemma batch_dims lhsShape rhsShape lhsBounds rhsBounds lb rb : forall k l,
  shape_ok lhsShape -> shape_ok rhsShape -> length lb = length rb ->
  mapM (fun '(i, (lhsDim, rhsDim)) =>
      lhsBound ← or_default lhsBounds lhsDim kDynamic;
      rhsBound ← or_default rhsBounds rhsDim kDynamic;
      a ← at_z lhsShape lhsDim;
      b ← at_z rhsShape rhsDim;
      inferMostSpecificDimAndBound i a b lhsBound rhsBound)
    (zip (seqZ k (Z.of_nat (length lb))) (zip lb rb)) = Ok l -> l.*1 = sizes_at lhsShape lb.
Proof.
  revert rb. induction lb as [|d lb IH]; intros [|d' rb] k l Hl Hr Hlen H; try done; [by injection H as <-|].
  cbn [length] in H. rewrite seqZ_cons in H by lia. cbn [zip zip_with mapM] in H.
  apply bind_ok in H as ([s b] & E & H). apply bind_ok in H as (l' & H & [= <-]).
  apply bind_ok in E as (bl & _ & E). apply bind_ok in E as (br & _ & E).
  apply bind_ok in E as (x & Hx & E). apply bind_ok in E as (y & Hy & E). apply at_z_ok in Hx as [_ Hx], Hy as [_ Hy].
  destruct (static_dim _ _ _ Hl Hx) as [_ Hdx].
  cbn [sizes_at fmap list_fmap fst]. rewrite Hx. cbn [from_option id]. f_equal.
  - unfold inferMostSpecificDimAndBound in E. rewrite Hdx in E. cbn [negb orb andb] in E.
    repeat case_match; by simplify_eq.
  - apply (IH rb (Z.succ k)); [done|done|by injection Hlen|].
    replace (Z.of_nat (length lb)) with (Z.pred (Z.of_nat (S (length lb)))) by lia. done.
Qed.

Lemma inferDotGeneralOp_inv lhsType rhsType lb rb lc rc config dims enc :
  inferDotGeneralOp lhsType rhsType lb rb lc rc config = Ok (dims, enc) ->
  shape_ok (getShape lhsType) -> shape_ok (getShape rhsType) ->
  numbers_ok (length (getShape lhsType)) lb lc /\ numbers_ok (length (getShape rhsType)) rb rc /\
  sizes_at (getShape lhsType) lb = sizes_at (getShape rhsType) rb /\
  sizes_at (getShape lhsType) lc = sizes_at (getShape rhsType) rc /\
  dims = sizes_at (getShape lhsType) lb ++
         sizes_at (getShape lhsType) (result_dims (getRank lhsType) lb lc) ++
         sizes_at (getShape rhsType) (result_dims (getRank rhsType) rb rc).
Proof.
  unfold inferDotGeneralOp. intros H Hl Hr. apply bind_ok in H as ([] & Hc & H).
  unfold checkDotGeneralConstraints, checkDimsDistinct in Hc.
  apply bind_ok in Hc as ([] & _ & Hc). apply bind_ok in Hc as ([] & H1%ensure_ok%bool_decide_eq_true & Hc).
  apply bind_ok in Hc as ([] & H2%ensure_ok%bool_decide_eq_true & Hc).
  apply bind_ok in Hc as ([] & H3%ensure_ok%isUnique_spec & Hc). apply bind_ok in Hc as ([] & H4%ensure_ok%isUnique_spec & Hc).
  apply bind_ok in Hc as ([] & H5%in_range_spec & Hc). apply bind_ok in Hc as ([] & H6%in_range_spec & Hc).
  apply bind_ok in Hc as ([] & H7%in_range_spec & Hc). apply bind_ok in Hc as ([] & H8%in_range_spec & Hc).
  apply bind_ok in Hc as ([] & H9%same_sizes & H10%same_sizes); [|done..].
  apply bind_ok in H as (batch & Hb%batch_dims & H); [|done..].
  apply bind_ok in H as (l & Hsl%side_dims & H); [|done]. apply bind_ok in H as (r & Hsr%side_dims & H); [|done].
  apply bind_ok in H as (bnds & _ & [= <- _]).
  split; [split; [done|by apply Forall_app]|]. split; [split; [done|by apply Forall_app]|].
  split; [done|]. split; [done|]. by rewrite !fmap_app, Hb, Hsl, Hsr.
Qed.

Definition sum_z (l : list Z) : Z := foldr Z.add 0 l.

Section Dot.
Context {L : LLVM} {Laws : LLVMLaws L}.

Lemma place_app dims c rest base : length c = length dims -> place dims (c ++ rest) base = place dims c base.
Proof.
  revert c base. induction dims as [|d dims IH]; intros [|x c] base H; try done.
  cbn [app place]. apply IH. by injection H.
Qed.

(** The setup of one result element: the loop starts at the operands' indices
    with zeros in the contracted dimensions. *)
Lemma dot_setup (lhs rhs : Tensor) lb rb lc rc ib il ir {A} (k : Index -> Index -> result A) :
  numbers_ok (length (getTensorShape lhs)) lb lc -> numbers_ok (length (getTensorShape rhs)) rb rc ->
  length ib = length lb -> length rb = length lb ->
  length il = length (result_dims (getTensorRank lhs) lb lc) ->
  length ir = length (result_dims (getTensorRank rhs) rb rc) ->
  let lhsResultDims := result_dims (getTensorRank lhs) lb lc in
  let rhsResultDims := result_dims (getTensorRank rhs) rb rc in
  let resultIndex := ib ++ il ++ ir in
  let nb := Z.of_nat (length lb) in
  let nl := Z.of_nat (length lhsResultDims) in
  (lhsIndex ← scatter_dims lb resultIndex 0 (replicate (Z.to_nat (getTensorRank lhs)) 0);
   rhsIndex ← foldM (fun i rhsIndex => d ← at_z rb i; x ← at_z resultIndex i; set_z rhsIndex d x)
     (seqZ 0 nb) (replicate (Z.to_nat (getTensorRank rhs)) 0);
   lhsIndex ← scatter_dims lhsResultDims resultIndex nb lhsIndex;
   rhsIndex ← scatter_dims rhsResultDims resultIndex (nb + nl) rhsIndex;
   k lhsIndex rhsIndex)
  = k (dot_index (length (getTensorShape lhs)) lb lc ib il (replicate (length lc) 0))
      (dot_index (length (getTensorShape rhs)) rb rc ib ir (replicate (length rc) 0)).
Proof.
  intros Hl Hr Hib Hrb Hil Hir lhsResultDims rhsResultDims resultIndex nb nl.
  rewrite !dot_index_start by done. unfold getTensorRank, getRank in *. fold (getTensorShape lhs) in *.
  fold (getTensorShape rhs) in *. rewrite !Nat2Z.id.
  destruct Hl as [_ [Hlb _]%Forall_app], Hr as [_ [Hrb' _]%Forall_app].
  assert (length resultIndex = length lb + length lhsResultDims + length rhsResultDims)%nat as Hlen
    by (unfold resultIndex; rewrite !length_app, Hil, Hir; unfold lhsResultDims, rhsResultDims; lia).
  pose proof (scatter_dims_spec lb resultIndex 0 (replicate (length (getTensorShape lhs)) 0)) as E1.
  rewrite length_replicate in E1. change (Z.of_nat 0) with 0 in E1. rewrite E1 by (done || lia). cbn [mbind result_bind drop].
  pose proof (scatter_dims_spec rb resultIndex 0 (replicate (length (getTensorShape rhs)) 0)) as E2.
  rewrite length_replicate in E2. change (Z.of_nat 0) with 0 in E2. unfold scatter_dims in E2. cbv beta iota delta [Z.add] in E2. unfold nb. rewrite <- Hrb, E2 by (done || lia).
  cbn [mbind result_bind drop].
  rewrite scatter_dims_spec by (rewrite ?length_place, ?length_replicate; (apply result_dims_range || lia)).
  cbn [mbind result_bind]. unfold nl. rewrite <- Nat2Z.inj_add.
  rewrite scatter_dims_spec by (rewrite ?length_place, ?length_replicate; (apply result_dims_range || lia)).
  cbn [mbind result_bind].
  assert (drop (length rb) resultIndex = il ++ ir) as D1
    by (unfold resultIndex; rewrite Hrb, <- Hib; apply drop_app_length).
  rewrite <- drop_drop, D1, drop_0. fold lhsResultDims in Hil. unfold resultIndex.
  rewrite <- Hil, drop_app_length, !place_app by lia. done.
Qed.

(** Building a tensor of a concatenated shape. *)
Lemma build_result_app2 type s1 s2 s3 (src : Index -> result Element) (val : Index -> Index -> Index -> Element) :
  shaped_ok type -> getShape type = s1 ++ s2 ++ s3 ->
  (forall i1 i2 i3, element_ok (val i1 i2 i3) /\ getType (val i1 i2 i3) = getElementType type) ->
  (forall i1 i2 i3, in_bounds i1 s1 -> in_bounds i2 s2 -> in_bounds i3 s3 ->
     src (i1 ++ i2 ++ i3) = Ok (val i1 i2 i3)) ->
  result_is type (build type src) (fun t => forall i1 i2 i3, in_bounds i1 s1 -> in_bounds i2 s2 -> in_bounds i3 s3 ->
    get t (i1 ++ i2 ++ i3) = Ok (val i1 i2 i3)).
Proof.
  intros Hty Hs Hval Hsrc. apply build_result; [done| |].
  - intros i Hi. rewrite Hs in Hi. apply Forall2_app_inv_r in Hi as (i1 & i23 & Hi1 & Hi23 & ->).
    apply Forall2_app_inv_r in Hi23 as (i2 & i3 & Hi2 & Hi3 & ->). rewrite Hsrc by done.
    exists (val i1 i2 i3). split; [done|]. apply Hval.
  - intros t _ Hg i1 i2 i3 H1 H2 H3. rewrite Hg; [by apply Hsrc|]. rewrite Hs. by repeat apply in_bounds_app.
Qed.

Section Sum.
Context (s1 s2 s : Signedness) (w1 w2 w : Z) (f g : Index -> Z).
Context (t1 : int_type s1 w1 = true) (t2 : int_type s2 w2 = true) (t : int_type s w = true).

(** Accumulating products of converted integers. *)
Lemma dot_sum (lhs rhs : Tensor) (li ri : Index -> Index) l : forall acc,
  (forall c, c ∈ l -> get lhs (li c) = Ok (int_el s1 w1 (f (li c))) /\ get rhs (ri c) = Ok (int_el s2 w2 (g (ri c)))) ->
  foldM (fun c acc =>
    a ← get lhs (li c); a ← convert (IntegerType s w) a; b ← get rhs (ri c); b ← convert (IntegerType s w) b;
    p ← el_mul a b; el_add acc p) l (int_el s w acc)
  = Ok (int_el s w (acc + sum_z ((fun c => int_read s1 w1 (f (li c)) * int_read s2 w2 (g (ri c))) <$> l))).
Proof.
  induction l as [|c l IH]; intros acc H; cbn [foldM fmap list_fmap sum_z foldr]; [by rewrite Z.add_0_r|].
  destruct (H c) as [-> ->]; [by left|]. cbn [mbind result_bind].
  rewrite convert_int by done. cbn [mbind result_bind]. rewrite convert_int by done. cbn [mbind result_bind].
  rewrite el_mul_int by done. cbn [mbind result_bind]. rewrite el_add_int by done. cbn [mbind result_bind].
  rewrite IH by (intros; apply H; by right). do 2 f_equal. unfold sum_z. ring.
Qed.

Lemma zero_int : getZeroValueOfType (IntegerType s w) = Ok (int_el s w 0).
Proof.
  unfold getZeroValueOfType. rewrite int_type_not_bool, int_type_signed, int_type_unsigned by done.
  case_bool_decide; [by apply convert_i64_int|]. case_bool_decide; [by apply convert_u64_int|].
  destruct s; try done. unfold int_type in t. by rewrite andb_false_r in t.
Qed.

(** C2: when [inferDotGeneralOp] accepts the operands' types and the dimension
    numbers, and no contracted dimension is empty, [dotGeneralOp] on integer
    tensors returns without a fault: its loop ends, and the element at batch
    index [ib], left index [il] and right index [ir] is the sum over the
    contracted index space of the products of the operands' elements, each
    converted to the result's type, modulo its width. *)
Theorem dot_general_correct lhs rhs lb rb lc rc config dims enc :
  tensor_full lhs -> tensor_full rhs -> holds s1 w1 f lhs -> holds s2 w2 g rhs ->
  inferDotGeneralOp (getTensorType lhs) (getTensorType rhs) lb rb lc rc config = Ok (dims, enc) ->
  shaped_ok (shaped dims (IntegerType s w)) -> Forall (fun d => 0 < d) (sizes_at (getTensorShape lhs) lc) ->
  let lhsIndex := dot_index (length (getTensorShape lhs)) lb lc in
  let rhsIndex := dot_index (length (getTensorShape rhs)) rb rc in
  result_is (shaped dims (IntegerType s w))
    (dotGeneralOp lhs rhs lb rb lc rc (shaped dims (IntegerType s w))) (fun t =>
    forall ib il ir,
      in_bounds ib (sizes_at (getTensorShape lhs) lb) ->
      in_bounds il (sizes_at (getTensorShape lhs) (result_dims (getTensorRank lhs) lb lc)) ->
      in_bounds ir (sizes_at (getTensorShape rhs) (result_dims (getTensorRank rhs) rb rc)) ->
      get t (ib ++ il ++ ir) = Ok (int_el s w (sum_z ((fun c =>
        int_read s1 w1 (f (lhsIndex ib il c)) * int_read s2 w2 (g (rhsIndex ib ir c)))
        <$> indices (sizes_at (getTensorShape lhs) lc))))).
Proof.
  intros Hl Hr Hf Hg Hinf Hty Hpos lhsIndex rhsIndex.
  pose proof (full_shape_ok _ Hl) as Hls. pose proof (full_shape_ok _ Hr) as Hrs.
  apply inferDotGeneralOp_inv in Hinf as (Hnl & Hnr & Hb & Hc & ->); [|done|done].
  fold (getTensorShape lhs) in *. fold (getTensorShape rhs) in *. fold (getTensorRank lhs) in *. fold (getTensorRank rhs) in *.
  set (cs := sizes_at (getTensorShape lhs) lc) in *.
  set (val := fun ib il ir => int_el s w (sum_z ((fun c =>
    int_read s1 w1 (f (lhsIndex ib il c)) * int_read s2 w2 (g (rhsIndex ib ir c))) <$> indices cs))).
  assert (length lb = length rb /\ length lc = length rc) as [Hlrb Hlrc].
  { apply (f_equal length) in Hb, Hc. unfold cs, sizes_at in *. by rewrite !length_fmap in Hb, Hc. }
  assert (shape_ok cs) as Hcs by (by eapply sizes_at_ok).
  unfold dotGeneralOp. cbv zeta.
  apply build_result_app2 with (val := val); [done|done|intros; split; [by apply int_el_ok|done]|].
  intros ib il ir Hib Hil Hir.
  pose proof (in_bounds_length _ _ Hib) as Hlib. pose proof (in_bounds_length _ _ Hil) as Hlil.
  pose proof (in_bounds_length _ _ Hir) as Hlir. unfold sizes_at in Hlib, Hlil, Hlir. rewrite length_fmap in *.
  rewrite dot_setup by done.
  change (getElementType (shaped _ (IntegerType s w))) with (IntegerType s w). rewrite zero_int. cbn [mbind result_bind].
  pose proof (first_index cs Hpos) as Hc0. unfold cs at 2, sizes_at in Hc0. rewrite length_fmap in Hc0.
  rewrite <- Hlrc. unfold dot_index.
  rewrite (dot_loop_spec (getTensorShape lhs) lc rc (Z.of_nat (length (getTensorShape lhs)))
    (Z.of_nat (length (getTensorShape rhs))) cs) with (k := O).
  - rewrite drop_0. unfold val. rewrite <- (Z.add_0_l (sum_z _)). apply dot_sum. intros c Hcin%elem_of_indices.
    split; [apply Hf|apply Hg]; apply dot_index_in_bounds; try done; [by rewrite <- Hb|by rewrite <- Hc].
  - apply numbers_split in Hnl. done.
  - apply numbers_split in Hnr. done.
  - done.
  - apply sizes_at_dims. by apply numbers_split in Hnl as [_ ?].
  - done.
  - done.
  - rewrite !length_place, length_replicate. lia.
  - rewrite !length_place, length_replicate. lia.
  - exact Hc0.
  - rewrite length_indices by auto with hlo. unfold contracting_sizes. fold (sizes_at (getTensorShape lhs) lc). fold cs. lia.
Qed.
End Sum.

(** Over an empty contracted dimension [dotGeneralOp] does not return the sums
    of no products, zero: the first turn of its loop reads the left operand at an
    index that does not exist, which is a fatal error. *)
Theorem dot_general_empty_contraction_faults lhs rhs lb rb lc rc config dims enc e zero :
  tensor_full lhs -> tensor_full rhs ->
  inferDotGeneralOp (getTensorType lhs) (getTensorType rhs) lb rb lc rc config = Ok (dims, enc) ->
  shaped_ok (shaped dims e) -> Forall (fun d => 0 < d) dims -> getZeroValueOfType e = Ok zero ->
  0 ∈ sizes_at (getTensorShape lhs) lc ->
  dotGeneralOp lhs rhs lb rb lc rc (shaped dims e)
  = Err (Fatal "Incompatible index and shape found while flattening index").
Proof.
  intros Hl Hr Hinf Hty Hpos Hz Hempty.
  apply inferDotGeneralOp_inv in Hinf as (Hnl & Hnr & Hb & Hc & ->); [|by apply full_shape_ok..].
  fold (getTensorShape lhs) in *. fold (getTensorShape rhs) in *. fold (getTensorRank lhs) in *. fold (getTensorRank rhs) in *.
  assert (length lb = length rb /\ length lc = length rc) as [Hlrb Hlrc].
  { apply (f_equal length) in Hb, Hc. unfold sizes_at in *. by rewrite !length_fmap in Hb, Hc. }
  pose proof (first_index _ Hpos) as H0. rewrite !length_app, !replicate_add in H0.
  destruct (newTensor_ok _ Hty) as (t0 & Ht0 & _ & Hty0).
  unfold dotGeneralOp, build. cbv zeta. rewrite Ht0. cbn [mbind result_bind]. unfold for_set, getTensorShape at 1. rewrite Hty0.
  rewrite for_index_foldM by (by destruct Hty as (_ & ? & _)). cbn [getShape shaped].
  destruct (indices _) as [|i0 l]; [done|]. injection H0 as ->. cbn [foldM].
  rewrite dot_setup; [|done|done|by rewrite length_replicate; unfold sizes_at; rewrite length_fmap|done
    |by rewrite length_replicate; unfold sizes_at; rewrite length_fmap
    |by rewrite length_replicate; unfold sizes_at; rewrite length_fmap].
  cbn [getElementType shaped]. rewrite Hz. cbn [mbind result_bind dot_loop].
  assert (forall i, get lhs i = Err (Fatal "Incompatible index and shape found while flattening index")) as ->; [|done].
  intros i. unfold get, elementOffset.
  destruct (supported_size (getTensorElementType lhs)) as (sz & -> & _); [by apply full_shaped in Hl as [? _]|].
  cbn [mbind result_bind]. rewrite flattenIndex_err; [done|]. intros Hi%in_bounds_pos.
  apply list_elem_of_lookup in Hempty as (k & Hk). apply numbers_split in Hnl as [_ Hd].
  destruct (sizes_at_dims _ _ Hd) as [Hlen Hs]. destruct (lookup_lt_is_Some_2 lc k) as [d Hdk];
    [apply lookup_lt_Some in Hk; lia|]. rewrite <- (Hs k d Hdk) in Hk.
  eapply Forall_lookup_1 in Hi; [|exact Hk]. cbn in Hi. lia.
Qed.
End Dot.

(** ** Witnesses *)
Section Witnesses.
Import Concrete.

(** A matrix by a vector. *)
Lemma dot_general_correct_witness :
  result_is (shaped [2] ui8) (dotGeneralOp sample (bytes [3] [2; 3; 4]) [] [] [1] [0] (shaped [2] ui8)) (fun t =>
    get t [1] = Ok (int_el Unsigned 8 (5 * 2 + 6 * 3 + 7 * 4))).
Proof.
  assert (holds Unsigned 8 (fun i => 2 + flat [3] i) (bytes [3] [2; 3; 4])) as Hv by holds_concrete.
  assert (holds Unsigned 8 (fun i => 2 + flat [2; 3] i) sample) as Hs by holds_concrete.
  destruct (dot_general_correct Unsigned Unsigned Unsigned 8 8 8 (fun i => 2 + flat [2; 3] i) (fun i => 2 + flat [3] i)
    eq_refl eq_refl eq_refl sample (bytes [3] [2; 3; 4]) [] [] [1] [0] None [2] None) as (t & H1 & H2 & H3 & H4);
    [concrete|concrete|exact Hs|exact Hv|reflexivity|concrete|repeat constructor|].
  exists t. split; [exact H1|]. split; [exact H2|]. split; [exact H3|].
  refine (H4 [] [1] [] _ _ _); repeat constructor; discriminate.
Defined.

Lemma dot_general_empty_contraction_faults_witness :
  dotGeneralOp (bytes [2; 0] []) (bytes [0; 2] []) [] [] [1] [0] (shaped [2; 2] ui8)
  = Err (Fatal "Incompatible index and shape found while flattening index").
Proof.
  refine (dot_general_empty_contraction_faults (bytes [2; 0] []) (bytes [0; 2] []) [] [] [1] [0] None [2; 2] None ui8
    (int_el Unsigned 8 0) _ _ _ _ _ _ _);
    [concrete|concrete|reflexivity|concrete|repeat constructor|apply zero_int; reflexivity|left].
Defined.
End Witnesses.
