(* ===== verification/AttributeFacts.v ===== *)
(** * Tensors as memory, and attributes

    The properties of [Tensor.v]: positions, reads after writes, and the copies
    from and to [DenseElementsAttr]. *)
From S2P Require Import Prelude Types Support Index Element ElementFacts Tensor TensorFacts Samples OpsFacts Ops.

Lemma load_app b1 b2 b3 o n :
  0 <= o -> o + Z.of_nat n <= Z.of_nat (length b2) ->
  load (b1 ++ b2 ++ b3) (Z.of_nat (length b1) + o) n = load b2 o n.
Proof.
  intros Ho Hn. unfold load.
  rewrite !(proj2 (in_blob_spec _ _ _)) by (rewrite ?length_app; lia).
  replace (Z.to_nat (Z.of_nat (length b1) + o)) with (length b1 + Z.to_nat o)%nat by lia.
  rewrite <- drop_drop, drop_app_length, drop_app_le by lia. do 3 f_equal.
  rewrite take_app_le; [done|]. rewrite length_drop. lia.
Qed.

Lemma load_le_bytes n v : load (Some <$> le_bytes n v) 0 n = Ok (v mod 2 ^ (8 * Z.of_nat n)).
Proof.
  unfold load. rewrite (proj2 (in_blob_spec _ _ _)) by (rewrite length_fmap, length_le_bytes; lia).
  change (Z.to_nat 0) with O. rewrite drop_0, take_ge by (rewrite length_fmap, length_le_bytes; lia).
  rewrite mapM_id_Some. cbn. by rewrite le_combine_le_bytes.
Qed.

Section Attributes.
Context {L : LLVM} {Laws : LLVMLaws L}.

Lemma element_ok_supported e : element_ok e -> isSupportedType (getType e) = true.
Proof.
  unfold isSupportedType.
  intros [(s & w & v & -> & Ht & _)|[(b & ->)|[(f & -> & Hf)|(re & im & -> & Hc & _)]]]%element_ok_cases;
    cbn [getType bool_el].
  - by rewrite int_type_supported, Ht.
  - done.
  - by rewrite Hf, orb_true_r.
  - by rewrite Hc, orb_true_r.
Qed.

(** The bytes [makeTensor] copies for one value. *)
Definition stored (ws : list (Z * nat * Z)) : Blob := flat_map (fun '(_, n, v) => Some <$> le_bytes n v) ws.

Lemma stored_layout size ws : layout size ws ->
  Z.of_nat (length (stored ws)) = size /\ reads (load (stored ws)) ws.
Proof.
  intros [n v ->|n v1 v2 ->]; unfold stored; cbn [flat_map]; rewrite app_nil_r.
  - split; [by rewrite length_fmap, length_le_bytes|]. constructor; [apply load_le_bytes|constructor].
  - split; [rewrite length_app, !length_fmap, !length_le_bytes; lia|].
    pose proof (length_le_bytes n v1) as L1. pose proof (length_le_bytes n v2) as L2.
    repeat constructor.
    + pose proof (load_app [] (Some <$> le_bytes n v1) (Some <$> le_bytes n v2) 0 n) as E.
      cbn [app length] in E. change (Z.of_nat 0 + 0) with 0 in E. rewrite E, load_le_bytes by (rewrite ?length_fmap; lia). done.
    + pose proof (load_app (Some <$> le_bytes n v1) (Some <$> le_bytes n v2) [] 0 n) as E.
      rewrite app_nil_r in E.
      replace (Z.of_nat (length (Some <$> le_bytes n v1)) + 0) with (Z.of_nat n) in E by (rewrite length_fmap, L1; lia). rewrite E, load_le_bytes by (rewrite ?length_fmap; lia). done.
Qed.

(** The values fit the attribute's type. *)
Definition attr_ok (attr : DenseElementsAttr) : Prop :=
  shaped_ok (attr_type attr) /\
  Z.of_nat (length (attr_values attr)) = prod_z (getShape (attr_type attr)) /\
  Forall (fun v => element_ok (MkElement (getElementType (attr_type attr)) v)) (attr_values attr).

Lemma makeTensor_loop t sz vs : forall blob,
  Forall (fun v => element_ok (MkElement t v)) vs -> getSizeInBytes t = Ok sz ->
  exists chunks, foldM (fun v blob =>
      ws ← write_element t (MkElement t v);
      Ok (blob ++ flat_map (fun '(_, n, v) => Some <$> le_bytes n v) ws)) vs blob = Ok (blob ++ concat chunks) /\
    length chunks = length vs /\
    forall (k : nat) v, vs !! k = Some v -> exists chunk, chunks !! k = Some chunk /\
      Z.of_nat (length chunk) = sz /\ forall rd, (forall o n, 0 <= o -> o + Z.of_nat n <= sz -> rd o n = load chunk o n) ->
        read_element t rd = Ok (MkElement t v).
Proof.
  intros blob Hvs Hsz. revert blob. induction Hvs as [|v vs Hv Hvs IH]; intros blob.
  - exists []. cbn. rewrite app_nil_r. split; [done|]. split; [done|]. by intros k v Hk.
  - destruct (codec _ Hv) as (ws & size & Hw & Hs & _ & Hl & Hr). cbn [getType] in *.
    rewrite Hsz in Hs. injection Hs as <-. destruct (stored_layout _ _ Hl) as [Hlen Hrd].
    cbn [foldM]. rewrite Hw. cbn [mbind result_bind]. fold (stored ws).
    destruct (IH (blob ++ stored ws)) as (chunks & E & Hc & Hk). exists (stored ws :: chunks).
    rewrite E, <- app_assoc. cbn [concat]. split; [done|]. split; [cbn; lia|].
    intros [|k] v' Hk'; [|by apply Hk]. injection Hk' as <-. exists (stored ws). split; [done|]. split; [done|].
    intros rd Hrd'. rewrite (read_local t sz rd (load (stored ws))); [by apply Hr| |done|done].
    by apply element_ok_supported in Hv.
Qed.

Lemma concat_chunk (chunks : list Blob) sz (k : nat) chunk :
  (forall (j : nat) c, chunks !! j = Some c -> Z.of_nat (length c) = sz) -> chunks !! k = Some chunk ->
  exists b1 b3, concat chunks = b1 ++ chunk ++ b3 /\ Z.of_nat (length b1) = sz * Z.of_nat k.
Proof.
  revert k. induction chunks as [|c chunks IH]; intros [|k] Hsz Hk; simplify_eq/=.
  - exists [], (concat chunks). split; [done|]. cbn. lia.
  - destruct (IH k) as (b1 & b3 & E & Hl); [intros j c' Hj; by apply (Hsz (S j))|done|].
    exists (c ++ b1), b3. rewrite E, <- app_assoc. split; [done|].
    pose proof (Hsz O c eq_refl). rewrite length_app. lia.
Qed.

Lemma length_concat (chunks : list Blob) sz :
  (forall (j : nat) c, chunks !! j = Some c -> Z.of_nat (length c) = sz) ->
  Z.of_nat (length (concat chunks)) = sz * Z.of_nat (length chunks).
Proof.
  induction chunks as [|c chunks IH]; intros H; [cbn; lia|]. cbn [concat length]. rewrite length_app, Nat2Z.inj_add, IH.
  - pose proof (H O c eq_refl). lia.
  - intros j c' Hj. by apply (H (S j)).
Qed.

Lemma makeTensor_spec attr :
  attr_ok attr ->
  result_is (attr_type attr) (makeTensor attr) (fun t => forall i v, in_bounds i (getShape (attr_type attr)) ->
    attr_values attr !! Z.to_nat (flat (getShape (attr_type attr)) i) = Some v ->
    get t i = Ok (MkElement (getElementType (attr_type attr)) v)).
Proof.
  intros (Hty & Hlen & Hvs). set (t := getElementType (attr_type attr)) in *.
  destruct (Hty) as (Hsup & Hsh & n & Hn). destruct (tensor_size _ _ Hn) as (sz & Hsz & -> & Hmax & Hmax').
  destruct (makeTensor_loop t sz (attr_values attr) [] Hvs Hsz) as (chunks & E & Hcl & Hck).
  cbn [app] in E. set (T := MkTensor (attr_type attr) (concat chunks)).
  assert (forall (j : nat) c, chunks !! j = Some c -> Z.of_nat (length c) = sz) as Hall.
  { intros j c Hj. destruct (lookup_lt_is_Some_2 (attr_values attr) j) as [v Hv]; [apply lookup_lt_Some in Hj; lia|].
    destruct (Hck j v Hv) as (c' & Hc' & ? & _). congruence. }
  assert (tensor_ok T) as Hok.
  { split; [done|]. unfold T. cbn [getTensorType getData]. rewrite Hn. f_equal.
    rewrite (length_concat _ sz) by done. rewrite Hcl. lia. }
  assert (forall i v, in_bounds i (getShape (attr_type attr)) ->
    attr_values attr !! Z.to_nat (flat (getShape (attr_type attr)) i) = Some v -> get T i = Ok (MkElement t v)) as Hget.
  { intros i v Hi Hv. destruct (Hck _ _ Hv) as (chunk & Hc & Hcs & Hrd).
    destruct (concat_chunk chunks sz _ _ Hall Hc) as (b1 & b3 & Eb & Hb1).
    destruct (elementOffset_ok T i Hok Hi) as (sz' & Hsz' & _ & Hoff & Hf & _).
    unfold getTensorElementType, getTensorShape in *. cbn [getTensorType T] in *. rewrite Hsz in Hsz'. injection Hsz' as <-.
    unfold get. rewrite Hoff. cbn [mbind result_bind]. apply Hrd. intros o m Ho Hm.
    unfold T at 1. cbn [getData]. rewrite Eb, <- (load_app b1 chunk b3) by lia. f_equal. lia. }
  exists T. split; [unfold makeTensor; fold t; rewrite E; done|]. split; [done|]. split; [|done].
  split; [done|]. intros i Hi. cbn [getTensorType T] in *.
  pose proof (flat_bounds _ _ Hi). destruct (lookup_lt_is_Some_2 (attr_values attr) (Z.to_nat (flat (getShape (attr_type attr)) i))) as [v Hv]; [lia|].
  exists (MkElement t v). split; [by apply Hget|]. split; [|done]. eapply Forall_lookup_1 in Hvs; [exact Hvs|exact Hv].
Qed.

(** ** Properties *)

(** C29: a position inside the shape is the row-major one, different for every
    index and below the number of elements, and its computation does not
    overflow; an index outside the shape is a fatal error. *)
Theorem flatten_index_correct shape i :
  prod_z shape <= int64_max ->
  (in_bounds i shape -> flattenIndex shape i = Ok (flat shape i) /\ 0 <= flat shape i < prod_z shape /\
     forall j, in_bounds j shape -> flattenIndex shape j = flattenIndex shape i -> j = i) /\
  (~ in_bounds i shape ->
     flattenIndex shape i = Err (Fatal "Incompatible index and shape found while flattening index")).
Proof.
  intros Hm. split; [|apply flattenIndex_err]. intros Hi. split; [by apply flattenIndex_ok|].
  split; [by apply flat_bounds|]. intros j Hj. rewrite !flattenIndex_ok by done. intros [= E].
  by apply (flat_inj shape).
Qed.

(** Writing a well-formed element of the tensor's element type at an index
    inside the tensor returns, reading that index then gives the element, and
    every other index reads as before. *)
Theorem get_after_set t i e :
  tensor_ok t -> in_bounds i (getTensorShape t) -> element_ok e -> getType e = getTensorElementType t ->
  exists t', set t i e = Ok t' /\ tensor_ok t' /\ getTensorType t' = getTensorType t /\
    get t' i = Ok e /\ forall j, in_bounds j (getTensorShape t) -> j <> i -> get t' j = get t j.
Proof. apply set_spec. Qed.

(** [constantOp] on an attribute whose values fit its type returns the tensor
    that holds at every index the attribute's value at its row-major position. *)
Theorem constant_correct attr :
  attr_ok attr ->
  result_is (attr_type attr) (constantOp attr) (fun t => forall i v, in_bounds i (getShape (attr_type attr)) ->
    attr_values attr !! Z.to_nat (flat (getShape (attr_type attr)) i) = Some v ->
    get t i = Ok (MkElement (getElementType (attr_type attr)) v)).
Proof. apply makeTensor_spec. Qed.

(** No element type is copied by reference: the condition holds for a type
    that is both a float and an integer, so the optimisation of
    [makeDenseElementsAttr] never applies, whatever the raw-buffer constructor. *)
Theorem reference_copy_never_applies elementType getFromRawBuffer getFromRawBuffer' t :
  getBitWidthIfReferenceCopyable elementType = None /\
  makeDenseElementsAttr getFromRawBuffer t = makeDenseElementsAttr getFromRawBuffer' t.
Proof.
  assert (forall ty, getBitWidthIfReferenceCopyable ty = None) as E by (by intros []).
  split; [done|]. unfold makeDenseElementsAttr. by rewrite E.
Qed.

(** Reading a tensor's elements in order. *)
Lemma read_values {A} t (f : Element -> result A) (mk : A -> Value_) vs :
  tensor_full t -> Z.of_nat (length vs) = prod_z (getTensorShape t) ->
  (forall i v, in_bounds i (getTensorShape t) -> vs !! Z.to_nat (flat (getTensorShape t) i) = Some v ->
     exists e a, get t i = Ok e /\ f e = Ok a /\ mk a = v) ->
  for_index (getTensorShape t) (fun i values => element ← get t i; a ← f element; Ok (values ++ [mk a])) [] = Ok vs.
Proof.
  intros Ht Hl Hv. pose proof (full_shape_ok _ Ht) as Hs. rewrite for_index_foldM by done.
  enough (forall (k : nat) acc, acc = take k vs ->
    foldM (fun i values => element ← get t i; a ← f element; Ok (values ++ [mk a])) (drop k (indices (getTensorShape t))) acc
    = Ok vs) as H by (by apply (H O [])).
  intros k. remember (length vs - k)%nat as n eqn:Hn. revert k Hn. induction n as [|n IH]; intros k Hn acc ->.
  - rewrite drop_ge, take_ge by (rewrite ?length_indices by auto with hlo; lia). done.
  - destruct (lookup_lt_is_Some_2 vs k) as [v Hk]; [lia|].
    destruct (lookup_lt_is_Some_2 (indices (getTensorShape t)) k) as [i Hi]; [rewrite length_indices by auto with hlo; lia|].
    rewrite (drop_S _ _ _ Hi). cbn [foldM].
    apply indices_lookup_flat in Hi as [Hib Hf]; [|by auto with hlo].
    specialize (Hv i v Hib). rewrite Hf, Nat2Z.id in Hv. specialize (Hv Hk). destruct Hv as (e & a & Hge & Hfe & Hmk).
    rewrite Hge. cbn [mbind result_bind]. rewrite Hfe. cbn [mbind result_bind]. rewrite Hmk. apply IH; [lia|]. by rewrite (take_S_r _ _ _ Hk).
Qed.

(** An attribute of an integer or floating-point type, copied to a tensor by
    [makeTensor] and back by [makeDenseElementsAttr], is the same attribute. *)
Theorem attribute_round_trip attr getFromRawBuffer :
  attr_ok attr ->
  isSupportedIntegerType (getElementType (attr_type attr)) = true \/
  isSupportedFloatType (getElementType (attr_type attr)) = true ->
  exists t, makeTensor attr = Ok t /\ makeDenseElementsAttr getFromRawBuffer t = Ok attr.
Proof.
  intros Hok Hty. destruct (makeTensor_spec attr Hok) as (t & Ht & Htt & Hfull & Hget).
  exists t. split; [done|]. destruct Hok as (_ & Hlen & Hvs).
  assert (getTensorShape t = getShape (attr_type attr)) as Hsh by (unfold getTensorShape; by rewrite Htt).
  unfold makeDenseElementsAttr. assert (forall ty, getBitWidthIfReferenceCopyable ty = None) as -> by (by intros []).
  rewrite Htt. set (ty := getElementType (attr_type attr)) in *.
  assert (forall A (f : Element -> result A) (mk : A -> Value_),
    (forall v, element_ok (MkElement ty v) -> exists a, f (MkElement ty v) = Ok a /\ mk a = v) ->
    for_index (getTensorShape t) (fun i values => element ← get t i; a ← f element; Ok (values ++ [mk a])) []
    = Ok (attr_values attr)) as Hread.
  { intros A f mk Hf. apply read_values; [done|by rewrite Hsh|]. intros i v Hi Hv. rewrite Hsh in Hi, Hv.
    destruct (Hf v) as (a & Ha & Hmk); [eapply Forall_lookup_1 in Hvs; [exact Hvs|exact Hv]|].
    exists (MkElement ty v), a. split; [by apply Hget|done]. }
  destruct attr as [type vs]. cbn [attr_type attr_values] in *. destruct Hty as [Hty|Hty].
  - destruct (supported_integer_inv _ Hty) as (s & w & E & _). rewrite E in Hty |- *. rewrite int_type_supported in Hty.
    cbn [isa_FloatType isa_IntegerType]. rewrite int_type_not_bool by done.
    rewrite (Hread _ getIntegerValue VInt); [done|]. intros v Hv. rewrite E in Hv |- *.
    destruct (int_element_inv _ s w Hv eq_refl Hty) as (v' & [= ->] & _). exists v'. by rewrite getIntegerValue_ok.
  - destruct (supported_float_inv _ Hty) as (k & E & _). rewrite E in Hty |- *. cbn [isa_FloatType].
    rewrite (Hread _ getFloatValue VFloat); [done|]. intros v Hv. rewrite E in Hv |- *.
    destruct (element_ok_cases _ Hv) as [(?&?&?&[= ]&_)|[(?&[= ])|[(f & [= _ ->] & _)|(?&?&[= ]&_)]]].
    exists f. by rewrite getFloatValue_ok.
Qed.
End Attributes.

(** ** Witnesses *)
Section Witnesses.
Import Concrete.

Lemma flatten_index_correct_witness : flattenIndex [2; 3] [1; 2] = Ok 5 /\ 0 <= 5 < 6.
Proof.
  destruct (proj1 (flatten_index_correct [2; 3] [1; 2] ltac:(discriminate)) ltac:(repeat constructor; lia)) as (H1 & H2 & _).
  split; [exact H1|exact H2].
Defined.

Lemma get_after_set_witness :
  exists t', set sample [1; 2] (int_el Unsigned 8 9) = Ok t' /\ get t' [1; 2] = Ok (int_el Unsigned 8 9) /\
    get t' [0; 0] = get sample [0; 0].
Proof.
  destruct (get_after_set sample [1; 2] (int_el Unsigned 8 9)) as (t' & H1 & _ & _ & H2 & H3);
    [apply full_ok; concrete|repeat constructor; lia|split; reflexivity|reflexivity|].
  exists t'. split; [exact H1|]. split; [exact H2|]. apply H3; [repeat constructor; lia|discriminate].
Defined.

Definition sample_attr : DenseElementsAttr :=
  MkAttr (shaped [3] ui8) [VInt (apint 8 2); VInt (apint 8 3); VInt (apint 8 4)].

Lemma sample_attr_ok : attr_ok sample_attr.
Proof.
  split; [concrete|]. split; [reflexivity|]. repeat (constructor; [split; reflexivity|]). constructor.
Qed.

Lemma constant_correct_witness :
  result_is (shaped [3] ui8) (constantOp sample_attr) (fun t => forall i v, in_bounds i [3] ->
    attr_values sample_attr !! Z.to_nat (flat [3] i) = Some v -> get t i = Ok (MkElement ui8 v)).
Proof. exact (constant_correct sample_attr sample_attr_ok). Defined.

Lemma attribute_round_trip_witness :
  exists t, makeTensor sample_attr = Ok t /\
    makeDenseElementsAttr (fun _ _ => Err (Fatal "unused")) t = Ok sample_attr.
Proof.
  apply (attribute_round_trip sample_attr _ sample_attr_ok). left. reflexivity.
Defined.
End Witnesses.
