(* ===== verification/TypeInferenceFacts.v ===== *)
(** * Windows and replica groups *)
From S2P Require Import Prelude Types Support Index Base TypeInference OpsFacts OpsPermute.

(** ** Windows *)

Definition positions (bound windowSize stride n : Z) : Prop :=
  0 <= n /\ (0 < bound -> forall p, 0 <= p -> (p < n <-> p * stride + windowSize <= bound)) /\
  (bound = 0 -> n = 0).

Lemma stridedBound_spec bound windowSize stride :
  0 <= bound < int64_max -> 0 <= windowSize -> 0 < stride ->
  exists n, stridedBound bound windowSize stride = Ok n /\ positions bound windowSize stride n.
Proof.
  intros Hb Hw Hs. unfold stridedBound, positions.
  rewrite (proj2 (Z.ltb_ge windowSize 0)), (proj2 (Z.ltb_ge bound 0)), (proj2 (Z.eqb_neq stride 0)) by lia.
  destruct ((bound =? 0) || (bound <? windowSize)) eqn:E.
  - exists 0. split; [done|]. split; [lia|]. split; [|done]. intros Hb0 p Hp. split; [lia|]. intros. nia.
  - apply orb_false_iff in E as [E1%Z.eqb_neq E2%Z.ltb_ge].
    rewrite Z.quot_div_nonneg by lia.
    assert (0 <= (bound - windowSize) / stride <= bound) as Hq.
    { split; [apply Z.div_pos; lia|]. apply Z.div_le_upper_bound; nia. }
    exists ((bound - windowSize) / stride + 1). rewrite i64_ok by (unfold int64_min; lia).
    split; [done|]. split; [lia|]. split; [|lia]. intros _ p Hp. split; intros Hpn.
    + pose proof (Z.mul_div_le (bound - windowSize) stride Hs). nia.
    + enough (p <= (bound - windowSize) / stride) by lia. apply Z.div_le_lower_bound; lia.
Qed.

(** The size of a dimension after dilation: [dilation - 1] holes between elements. *)
Definition dilated (bound dilation : Z) : Z := if bound =? 0 then 0 else (bound - 1) * dilation + 1.

Lemma dilatedBound_spec bound dilation :
  0 <= bound -> 0 < dilation -> dilated bound dilation <= int64_max ->
  dilatedBound bound dilation = Ok (dilated bound dilation) /\ 0 <= dilated bound dilation.
Proof.
  intros Hb Hd. unfold dilatedBound, dilated. rewrite (proj2 (Z.ltb_ge bound 0)) by lia.
  destruct (Z.eqb_spec bound 0); [done|]. intros Hm.
  rewrite i64_ok by (unfold int64_min in *; nia). cbn [mbind result_bind].
  rewrite i64_ok by (unfold int64_min in *; nia). split; [done|nia].
Qed.

Definition padded_size (base : Z) (dim : WindowDimension) : Z :=
  paddingLow dim + dilated base (baseDilation dim) + paddingHigh dim.

(** A window that [verifyWindowAttributesAndInferWindowDimensions] accepts, over
    a static base, with sizes that are representable. *)
Definition window_ok (base : Z) (dim : WindowDimension) : Prop :=
  0 <= base /\ 0 < size dim /\ 0 < stride dim /\ 0 < windowDilation dim /\ 0 < baseDilation dim /\
  dilated base (baseDilation dim) <= int64_max /\ dilated (size dim) (windowDilation dim) <= int64_max /\
  int64_min <= paddingLow dim + dilated base (baseDilation dim) <= int64_max /\
  int64_min <= padded_size base dim < int64_max.

(** C38: for windows that verification accepts over static sizes, the inferred
    output size of every dimension is the number of positions of the dilated
    window in the padded, dilated base; but where negative padding removes more
    than the base holds, the size is not 0: an assertion fails. *)
Theorem window_output_shape_correct baseShape window :
  Forall2 window_ok baseShape window ->
  (Forall2 (fun base dim => 0 <= padded_size base dim) baseShape window ->
     exists shape, inferWindowOutputShape baseShape window = Ok shape /\
       Forall2 (fun '(base, dim) n =>
         positions (padded_size base dim) (dilated (size dim) (windowDilation dim)) (stride dim) n)
         (zip baseShape window) shape) /\
  (forall base dim, baseShape = [base] -> window = [dim] -> padded_size base dim < 0 ->
     inferWindowOutputShape baseShape window = Err (UB "assert: Expected bound to be >= 0")).
Proof.
  intros Hok.
  assert (forall base dim, window_ok base dim ->
    (if isDynamicDimSize base || isDynamicDimSize (size dim) then Ok kDynamic
     else
       dilatedBase ← dilatedBound base (baseDilation dim);
       p ← i64 (paddingLow dim + dilatedBase);
       paddedDilatedBase ← i64 (p + paddingHigh dim);
       dilatedWindow ← dilatedBound (size dim) (windowDilation dim);
       stridedBound paddedDilatedBase dilatedWindow (stride dim))
    = stridedBound (padded_size base dim) (dilated (size dim) (windowDilation dim)) (stride dim) /\
    0 <= dilated (size dim) (windowDilation dim)) as Hstep.
  { intros base dim (Hb & Hz & Hst & Hwd & Hbd & H1 & H2 & H3 & H4). unfold padded_size in *.
    rewrite !isDynamic_nonneg by lia. cbn [orb].
    destruct (dilatedBound_spec base (baseDilation dim)) as [-> _]; [done..|].
    destruct (dilatedBound_spec (size dim) (windowDilation dim)) as [-> ?]; [lia|done..|]. cbn [mbind result_bind].
    rewrite i64_ok by lia. cbn [mbind result_bind]. rewrite i64_ok by lia. by cbn [mbind result_bind]. }
  unfold inferWindowOutputShape. rewrite bool_decide_true by (by eapply Forall2_length). cbn [negb]. split.
  - intros Hpos. induction Hok as [|base dim bs ds Hd Hok IH].
    + exists []. by split; [|constructor].
    + apply Forall2_cons in Hpos as [Hp Hpos]. destruct (IH Hpos) as (shape & E & Hs). cbn [zip zip_with mapM].
      destruct (Hstep base dim Hd) as [-> Hdw].
      destruct (stridedBound_spec (padded_size base dim) (dilated (size dim) (windowDilation dim)) (stride dim))
        as (n & -> & Hn); [destruct Hd as (?&?&?&?&?&?&?&?&?); lia|done|by destruct Hd as (?&?&?&_)|].
      cbn [mbind result_bind]. rewrite E. cbn [mbind result_bind]. exists (n :: shape). by split; [|constructor].
  - intros base dim -> -> Hneg. apply Forall2_cons in Hok as [Hd _]. cbn [zip zip_with mapM].
    destruct (Hstep base dim Hd) as [-> Hdw]. unfold stridedBound.
    rewrite (proj2 (Z.ltb_ge _ 0)), (proj2 (Z.ltb_lt (padded_size base dim) 0)) by lia. done.
Qed.

Lemma window_output_shape_correct_witness :
  exists n, inferWindowOutputShape [5] [MkWindow 2 2 1 0 2 1] = Ok [n] /\ positions 6 3 2 n /\
  inferWindowOutputShape [5] [MkWindow 2 2 (-7) 0 2 1] = Err (UB "assert: Expected bound to be >= 0").
Proof.
  assert (window_ok 5 (MkWindow 2 2 1 0 2 1)) as H1 by (unfold window_ok, padded_size, dilated, int64_min, int64_max; cbn; lia).
  assert (window_ok 5 (MkWindow 2 2 (-7) 0 2 1)) as H2 by (unfold window_ok, padded_size, dilated, int64_min, int64_max; cbn; lia).
  assert (Forall2 window_ok [5] [MkWindow 2 2 1 0 2 1]) as F1 by (constructor; [exact H1|constructor]).
  assert (Forall2 window_ok [5] [MkWindow 2 2 (-7) 0 2 1]) as F2 by (constructor; [exact H2|constructor]).
  destruct (proj1 (window_output_shape_correct _ _ F1)) as (shape & E & Hs); [repeat constructor; discriminate|].
  apply Forall2_cons_inv_l in Hs as (n & rest & Hn & Hrest & ->). apply Forall2_nil_inv_l in Hrest as ->.
  exists n. split; [exact E|]. split; [exact Hn|].
  exact (proj2 (window_output_shape_correct _ _ F2) 5 (MkWindow 2 2 (-7) 0 2 1) eq_refl eq_refl ltac:(vm_compute; reflexivity)).
Defined.

(** ** Replica groups *)
Definition present (replicaIds : list Z) : list Z := filter (fun id => id <> -1) replicaIds.

Lemma see_replicas_spec same ids : forall seen s,
  see_replicas same ids seen = Ok s ->
  s = seen ∪ list_to_set (present ids) /\ NoDup (present ids) /\ (forall id, id ∈ present ids -> id ∉ seen) /\
  (same = true -> -1 ∉ ids).
Proof.
  induction ids as [|id ids IH]; intros seen s H; cbn [see_replicas] in H.
  - injection H as <-. cbn. split; [set_solver|]. split; [constructor|]. split; [set_solver|]. intros _. apply not_elem_of_nil.
  - unfold present. rewrite filter_cons. fold (present ids). destruct (Z.eqb_spec id (-1)) as [->|Hne].
    + destruct same; [done|]. cbn [negb] in H. rewrite decide_False by lia. destruct (IH _ _ H) as (? & ? & ? & _). done.
    + rewrite decide_True by done. case_decide as Hin; [done|]. destruct (IH _ _ H) as (-> & Hnd & Hd & Hs).
      split; [set_solver|]. split; [constructor; [|done]; intros Hc; specialize (Hd id Hc); set_solver|].
      split; [|intros Ht [Heq|?]%elem_of_cons; [congruence|by apply Hs]].
      intros x [->|Hx]%elem_of_cons; [done|]. specialize (Hd x Hx). set_solver.
Qed.

(** C39: replica groups that are given as a dense attribute and that
    [verifyReplicaGroups] accepts partition the replicas: the ids, without the padding
    [-1], are the numbers from 0 up, each once; where all groups must have one size
    there is no padding, and every group has the expected size. *)
Theorem replica_groups_partition shape replicaIds same global expected :
  verifyReplicaGroups (Some (shape, replicaIds)) same global expected = Ok () ->
  permutes (present replicaIds) (length (present replicaIds)) /\
  (same = true -> present replicaIds = replicaIds) /\
  (same = true -> forall k d0, expected = Some k -> shape !! 0%nat = Some d0 ->
     d0 <> 0 /\ Z.quot (Z.of_nat (length replicaIds)) d0 = k).
Proof.
  unfold verifyReplicaGroups. intros H. destruct shape as [|d0 [|d1 [|]]]; try done.
  apply bind_ok in H as (n & _ & H). apply bind_ok in H as (u & _ & H).
  apply bind_ok in H as (seen & Hsee & H). apply bind_ok in H as (v & Hall%ensure_ok & H).
  destruct (see_replicas_spec _ _ _ _ Hsee) as (-> & Hnd & _ & Hsame). rewrite union_empty_l_L in Hall.
  rewrite size_list_to_set in Hall by done. split; [|split].
  - unfold permutes. apply submseteq_length_Permutation; [|rewrite length_seqZ; lia].
    apply NoDup_submseteq; [apply NoDup_seqZ|]. intros id Hid. rewrite forallb_forall in Hall.
    apply list_elem_of_In, Hall, bool_decide_eq_true in Hid. set_solver.
  - intros Ht. specialize (Hsame Ht). unfold present. clear -Hsame.
    induction replicaIds as [|id ids IH]; [done|]. apply not_elem_of_cons in Hsame as [Hne Hsame].
    rewrite filter_cons_True by done. f_equal. by apply IH.
  - intros -> k d0' -> [= <-]. apply ensure_ok in H. destruct (Z.eqb_spec d0 0); [done|]. cbn [orb] in H. split; [done|].
    destruct (Z.eqb_spec (Z.quot (Z.of_nat (length replicaIds)) d0) k); done.
Qed.

Lemma replica_groups_partition_witness :
  permutes (present [1; 0; 2; -1]) 3 /\ present [1; 0; 2; -1] = [1; 0; 2].
Proof.
  split; [|reflexivity]. refine (proj1 (replica_groups_partition [2; 2] [1; 0; 2; -1] false false None _)). reflexivity.
Defined.
