(* ===== verification/InferenceFacts.v ===== *)
(** * What the verifiers of [Inference.v] establish *)
From S2P Require Import Prelude Types Support Index Element ElementFacts Tensor TensorFacts Samples Base TypeInference Inference Ops OpsFacts OpsElementwise OpsJoin Linear LinearFacts.

(** ** Index spaces with one dimension that is not 1 *)
Lemma indices_ones n : indices (replicate n 1) = [replicate n 0].
Proof. induction n as [|n IH]; [done|]. cbn [replicate indices]. rewrite IH. reflexivity. Qed.

Lemma indices_line a b n :
  indices (replicate a 1 ++ n :: replicate b 1) = (fun k => replicate a 0 ++ k :: replicate b 0) <$> seqZ 0 n.
Proof.
  induction a as [|a IH]; cbn [replicate app indices].
  - rewrite indices_ones. induction (seqZ 0 n) as [|k l IH]; [done|]. cbn [flat_map fmap list_fmap app]. by f_equal.
  - rewrite IH. change (seqZ 0 1) with [0]. cbn [flat_map]. by rewrite app_nil_r, <- list_fmap_compose.
Qed.

Lemma mul_ones k n : (length k <= n)%nat -> zip_with Z.mul k (replicate n 1) = k.
Proof.
  revert n. induction k as [|x k IH]; intros [|n] H; cbn in *; try done; [lia|]. rewrite IH by lia. f_equal. lia.
Qed.

(** ** Slices that fix all coordinates but one *)
Section IndexSlice.
Context {L : LLVM} {Laws : LLVMLaws L} (s : Signedness) (w : Z) (int : int_type s w = true).

(** The index a tensor of integers holds, as [evalIndex] reads it: signed. *)
Lemma evalIndex_values f t : shape_ok (getTensorShape t) -> holds s w f t ->
  evalIndex t = Ok ((fun i => int_read Signed w (f i)) <$> indices (getTensorShape t)).
Proof.
  intros Hs Hf. unfold evalIndex. rewrite for_index_foldM by done.
  enough (forall l acc, (forall i, i ∈ l -> in_bounds i (getTensorShape t)) ->
    foldM (fun i result => e ← get t i; v ← getIntegerValue e; Ok (result ++ [getSExtValue v])) l acc
      = Ok (acc ++ ((fun i => int_read Signed w (f i)) <$> l))) as E.
  { rewrite E; [done|]. intros i Hi. by apply elem_of_indices. }
  intros l. induction l as [|i l IH]; intros acc Hl; cbn [foldM fmap list_fmap]; [by rewrite app_nil_r|].
  rewrite Hf by (apply Hl; by left). cbind. unfold int_el. rewrite getIntegerValue_ok by done. cbind.
  pose proof (int_type_pos _ _ int). rewrite getSExtValue_spec by (rewrite width_apint by lia; lia).
  rewrite IH by (intros; apply Hl; by right). rewrite <- app_assoc. cbn [app]. do 3 f_equal.
  unfold int_read, sval. by rewrite width_apint, uval_apint by lia.
Qed.

Definition start_of (x : Z) : Z := if x =? -1 then 0 else x.
Definition limit_of (x d : Z) : Z := if x =? -1 then d else x + 1.
Definition one_of (x d : Z) : Z := if x =? -1 then d else 1.

(** Each coordinate is a colon or in range. *)
Definition pinned (shape : Sizes) (index : Index) : Prop := Forall2 (fun x d => x = -1 \/ 0 <= x < d) index shape.

Lemma pinned_lookup shape index (d : nat) x n : pinned shape index -> index !! d = Some x -> shape !! d = Some n ->
  x = -1 \/ 0 <= x < n.
Proof. intros H Hx Hn. by apply (Forall2_lookup_lr _ _ _ _ _ _ H Hx Hn). Qed.

Lemma index_bounds t index : shape_ok (getTensorShape t) -> pinned (getTensorShape t) index ->
  foldM (fun i '(start, limit) =>
      x ← at_z index i;
      if x =? -1 then
        s ← at_z (getTensorShape t) i; Ok (start ++ [0], limit ++ [s])
      else x1 ← i64 (x + 1); Ok (start ++ [x], limit ++ [x1]))
    (seqZ 0 (getTensorRank t)) ([], [])
  = Ok (start_of <$> index, zip_with limit_of index (getTensorShape t)).
Proof.
  intros Hs Hp. unfold getTensorRank. set (shape := getTensorShape t) in *. pose proof (Forall2_length _ _ _ Hp) as Hl.
  destruct (foldM_seqZ_total (fun i '(start, limit) =>
      x ← at_z index i;
      if x =? -1 then s ← at_z shape i; Ok (start ++ [0], limit ++ [s])
      else x1 ← i64 (x + 1); Ok (start ++ [x], limit ++ [x1]))
    (fun k st => st = (start_of <$> take k index, zip_with limit_of (take k index) (take k shape)))
    (length shape) ([], [])) as (st & E & ->); [done| |].
  - intros k st Hk ->. destruct (lookup_lt_is_Some_2 index k) as [x Hx]; [lia|].
    destruct (lookup_lt_is_Some_2 shape k Hk) as [d Hd].
    rewrite (at_z_some _ _ _ Hx), (at_z_some _ _ _ Hd). cbind.
    rewrite (take_S_r _ _ _ Hx), (take_S_r _ _ _ Hd), fmap_app, zip_with_app by (rewrite !length_take; lia).
    destruct (pinned_lookup _ _ _ _ _ Hp Hx Hd) as [->|Hb]; [by eexists|].
    destruct (static_dim _ _ _ Hs Hd) as [Hm _]. cbn. unfold start_of, limit_of.
    rewrite (proj2 (Z.eqb_neq x (-1))) by lia. rewrite i64_ok by (unfold int64_min; lia). cbind. by eexists.
  - rewrite !take_ge in E by lia. exact E.
Qed.

Lemma inferSliceOp_unit type start limit :
  shape_ok (getShape type) -> encodingToBounds (getEncoding type) = [] ->
  length start = length (getShape type) -> length limit = length (getShape type) ->
  (forall (d : nat) lo hi n, start !! d = Some lo -> limit !! d = Some hi -> getShape type !! d = Some n -> 0 <= lo <= hi /\ hi <= n) ->
  inferSliceOp type start limit (replicate (length (getShape type)) 1)
    = Ok (MkShaped (zip_with Z.sub limit start) (getElementType type) (getEncoding type)).
Proof.
  intros Hs Hb Hl1 Hl2 Hd. unfold inferSliceOp, getRank. rewrite Hl1, Z.eqb_refl, Hb. cbn [ensure mbind result_bind or_default length replicate boundsToEncoding].
  set (n := length (getShape type)) in *.
  match goal with |- context [foldM ?body (seqZ 0 (Z.of_nat n)) ?init] => destruct (foldM_seqZ_total body
    (fun k shape => length shape = n /\ forall d : nat, (d < k)%nat -> shape !! d = zip_with Z.sub limit start !! d) n init)
    as (shape & -> & Hsl & Hsh) end.
  - rewrite Nat2Z.id, length_replicate. split; [done|lia].
  - intros k acc Hk [Hal Ha]. destruct (lookup_lt_is_Some_2 start k) as [lo Hlo]; [lia|].
    destruct (lookup_lt_is_Some_2 limit k) as [hi Hhi]; [lia|]. destruct (lookup_lt_is_Some_2 (getShape type) k Hk) as [m Hm].
    destruct (Hd k lo hi m Hlo Hhi Hm). destruct (static_dim _ _ _ Hs Hm) as [_ Hm'].
    rewrite (at_z_some _ _ _ Hlo), (at_z_some _ _ _ Hhi), (at_z_some _ _ _ Hm), (at_z_some _ _ 1) by (by apply lookup_replicate).
    cbind. rewrite (proj2 (Z.leb_le 0 lo)), Hm' by lia. cbn [ensure negb orb mbind result_bind].
    rewrite (proj2 (Z.leb_le hi m)), (proj2 (Z.leb_le lo hi)) by lia. cbn [ensure mbind result_bind Z.ltb Z.compare]. rewrite set_z_ok, Nat2Z.id by lia. eexists. split; [done|].
    rewrite length_insert. split; [done|]. intros d Hdk. destruct (decide (d = k)) as [->|Hne].
    + rewrite list_lookup_insert_eq by lia. rewrite lookup_zip_with, Hhi, Hlo. cbn. unfold divideCeil. f_equal. rewrite Z.div_1_r. lia.
    + rewrite list_lookup_insert_ne by done. apply Ha. lia.
  - cbind. do 2 f_equal. apply list_eq. intros d. destruct (decide (d < n)%nat) as [Hdn|Hdn]; [by apply Hsh|].
    rewrite !(proj2 (lookup_ge_None _ _)); [done|rewrite length_zip_with; lia|lia].
Qed.

(** The values [evalIndex] reads from a slice with colons: those of the source at
    the positions of the slice. *)
Lemma indexSliceOp_values f t index : tensor_full t -> holds s w f t -> encodingToBounds (getEncoding (getTensorType t)) = [] ->
  pinned (getTensorShape t) index ->
  (slice ← indexSliceOp t index; evalIndex slice)
  = Ok ((fun k => int_read Signed w (f (zip_with Z.add (start_of <$> index) k))) <$> indices (zip_with one_of index (getTensorShape t))).
Proof.
  intros Ht Hf He Hp. pose proof (full_shape_ok _ Ht) as Hs. unfold indexSliceOp. rewrite index_bounds by done. cbind.
  pose proof (Forall2_length _ _ _ Hp) as Hl. unfold inferredSliceOp.
  set (shape := getTensorShape t) in *. change (getTensorRank t) with (Z.of_nat (length shape)). rewrite Nat2Z.id.
  assert (zip_with Z.sub (zip_with limit_of index shape) (start_of <$> index) = zip_with one_of index shape) as Eone.
  { apply list_eq. intros d. rewrite !lookup_zip_with, list_lookup_fmap. destruct (index !! d) as [x|] eqn:Hx; [|done].
    destruct (shape !! d) as [n|] eqn:Hn; [|done]. cbn. f_equal. unfold limit_of, start_of, one_of.
    destruct (Z.eqb_spec x (-1)); lia. }
  assert (inferSliceOp (getTensorType t) (start_of <$> index) (zip_with limit_of index shape) (replicate (length shape) 1)
    = Ok (MkShaped (zip_with one_of index shape) (getTensorElementType t) (getEncoding (getTensorType t)))) as E.
  { rewrite <- Eone. apply inferSliceOp_unit; [done|done|rewrite length_fmap; done|rewrite length_zip_with; fold (getTensorShape t); fold shape; lia|].
    intros d lo hi n. rewrite list_lookup_fmap, lookup_zip_with. fold (getTensorShape t). fold shape. intros Hlo Hhi Hn.
    destruct (index !! d) as [x|] eqn:Hx; [|done]. rewrite Hn in Hhi. injection Hlo as <-. injection Hhi as <-.
    destruct (static_dim _ _ _ Hs Hn) as [? _]. unfold start_of, limit_of.
    destruct (pinned_lookup _ _ _ _ _ Hp Hx Hn) as [->|?]; [rewrite Z.eqb_refl; lia|].
    rewrite (proj2 (Z.eqb_neq x (-1))) by lia. lia. }
  rewrite E. cbn [or_fatal mbind result_bind].
  destruct (sliceOp_spec _ _ _ _ _ Ht (length_replicate (length shape) 1) E) as (slice & -> & Hty & Hfull & Hre). cbind.
  assert (getTensorShape slice = zip_with one_of index shape) as Hsh by (unfold getTensorShape; by rewrite Hty).
  rewrite (evalIndex_values (fun k => f (slice_index (start_of <$> index) (replicate (length shape) 1) k)) slice).
  - rewrite Hsh. f_equal. apply list_fmap_ext. intros _ k Hk%list_elem_of_lookup_2%elem_of_indices%in_bounds_length. cbn.
    unfold slice_index. rewrite mul_ones; [done|]. rewrite length_zip_with in Hk. lia.
  - by apply full_shape_ok.
  - intros i Hi. destruct (Hre i Hi) as [Hb ->]. by apply Hf.
Qed.
End IndexSlice.

(** ** The start index of a gather: the coordinates [batch], with the dimension of
    the index vector added *)
Definition insert_at (p : nat) (k : Z) (batch : Index) : Index := take p batch ++ k :: drop p batch.

Lemma zip_with_zeros (l : list Z) n : length l = n -> zip_with Z.add l (replicate n 0) = l.
Proof. intros <-. induction l as [|x l IH]; [done|]. cbn. rewrite IH. f_equal. lia. Qed.

Lemma start_of_nonneg index shape : in_bounds index shape -> start_of <$> index = index.
Proof.
  induction 1 as [|x d index shape Hx H IH]; [done|]. cbn [fmap list_fmap]. unfold start_of at 1.
  rewrite (proj2 (Z.eqb_neq x (-1))) by lia. by f_equal.
Qed.

Lemma one_of_nonneg index shape : in_bounds index shape -> zip_with one_of index shape = replicate (length shape) 1.
Proof.
  induction 1 as [|x d index shape Hx H IH]; [done|]. cbn [zip_with length replicate]. unfold one_of at 1.
  rewrite (proj2 (Z.eqb_neq x (-1))) by lia. by f_equal.
Qed.

Lemma in_bounds_pinned index shape : in_bounds index shape -> pinned shape index.
Proof. intros H. eapply Forall2_impl; [exact H|]. intros x d Hx. by right. Qed.

Section StartIndex.
Context {L : LLVM} {Laws : LLVMLaws L} (s : Signedness) (w : Z) (f : Index -> Z) (int : int_type s w = true).
Context (t : Tensor) (full : tensor_full t) (values : holds s w f t).
Hypothesis no_bounds : encodingToBounds (getEncoding (getTensorType t)) = [].

Lemma start_scalar batch : in_bounds batch (getTensorShape t) ->
  (slice ← indexSliceOp t batch; evalIndex slice) = Ok [int_read Signed w (f batch)].
Proof.
  intros Hb. pose proof (in_bounds_length _ _ Hb) as Hl.
  rewrite (indexSliceOp_values s w int f t batch full values no_bounds) by by apply in_bounds_pinned.
  rewrite one_of_nonneg, (start_of_nonneg _ _ Hb), indices_ones by done. cbn [fmap list_fmap]. by rewrite zip_with_zeros by done.
Qed.

Lemma start_vector (p : nat) n batch : getTensorShape t !! p = Some n ->
  in_bounds batch (delete p (getTensorShape t)) ->
  (slice ← indexSliceOp t (insert_at p kColon batch); evalIndex slice)
  = Ok ((fun k => int_read Signed w (f (insert_at p k batch))) <$> seqZ 0 n).
Proof.
  intros Hp Hb. set (shape := getTensorShape t) in *. rewrite delete_take_drop in Hb.
  pose proof (lookup_lt_Some _ _ _ Hp) as Hlt.
  apply Forall2_app_inv_r in Hb as (b1 & b2 & H1 & H2 & ->).
  pose proof (Forall2_length _ _ _ H1) as L1. pose proof (Forall2_length _ _ _ H2) as L2. rewrite length_take in L1. rewrite length_drop in L2.
  assert (forall k, insert_at p k (b1 ++ b2) = b1 ++ k :: b2) as Ei.
  { intros k. unfold insert_at. by rewrite take_app_length', drop_app_length' by lia. }
  rewrite Ei, (indexSliceOp_values s w int f t _ full values no_bounds);
    fold shape; rewrite <- (take_drop_middle _ _ _ Hp).
  - rewrite zip_with_app by (rewrite length_take; lia). cbn [zip_with]. rewrite (one_of_nonneg _ _ H1), (one_of_nonneg _ _ H2).
    change (one_of kColon n) with n. rewrite length_take, length_drop, indices_line, <- list_fmap_compose. f_equal.
    apply list_fmap_ext. intros _ k _. cbn [compose]. do 2 f_equal. rewrite fmap_app. cbn [fmap list_fmap].
    rewrite (start_of_nonneg _ _ H1). fold (fmap (M := list) start_of b2). rewrite (start_of_nonneg _ _ H2), Ei.
    rewrite zip_with_app by (rewrite length_replicate; lia). cbn [zip_with]. rewrite !zip_with_zeros by lia. reflexivity.
  - apply Forall2_app; [by apply in_bounds_pinned|]. constructor; [by left|]. by apply in_bounds_pinned.
Qed.
End StartIndex.

(** ** Positions of dimensions *)
Lemma find_pos_Some d l i : find_pos d l = Some i -> 0 <= i /\ l !! Z.to_nat i = Some d.
Proof.
  unfold find_pos. destruct (list_find _ l) as [[k x]|] eqn:E; [|done]. apply list_find_Some in E as (Hk & -> & _).
  intros [= <-]. cbn. rewrite Nat2Z.id. split; [lia|done].
Qed.

Lemma find_pos_None d l : find_pos d l = None <-> d ∉ l.
Proof.
  unfold find_pos. destruct (list_find _ l) as [[k x]|] eqn:E.
  - apply list_find_Some in E as (Hk & -> & _). split; [done|]. intros []. by eapply list_elem_of_lookup_2.
  - apply list_find_None in E. split; [|done]. intros _ Hd. rewrite Forall_forall in E. by apply (E d).
Qed.

Lemma find_pos_lookup d l (k : nat) : NoDup l -> l !! k = Some d -> find_pos d l = Some (Z.of_nat k).
Proof.
  intros Hnd Hk. destruct (find_pos d l) as [i|] eqn:E.
  - apply find_pos_Some in E as [Hi Hl]. f_equal. pose proof (NoDup_lookup _ _ _ _ Hnd Hk Hl). lia.
  - apply find_pos_None in E. exfalso. by eapply E, list_elem_of_lookup_2.
Qed.

(** The dimensions below [n] that are not in [l], in order. *)
Definition other_dims (n : Z) (l : list Z) : list Z := filter (fun d => d ∉ l) (seqZ 0 n).

Lemma elem_of_other_dims n l d : d ∈ other_dims n l <-> 0 <= d < n /\ (d ∉ l).
Proof. unfold other_dims. rewrite list_elem_of_filter, elem_of_seqZ. intuition lia. Qed.

Lemma NoDup_other_dims n l : NoDup (other_dims n l).
Proof. apply NoDup_filter, NoDup_seqZ. Qed.

Lemma length_other_dims (n : nat) l : NoDup l -> Forall (fun d => 0 <= d < Z.of_nat n) l ->
  (length (other_dims (Z.of_nat n) l) + length l = n)%nat.
Proof.
  intros Hnd Hl. assert (filter (fun d => d ∈ l) (seqZ 0 (Z.of_nat n)) ≡ₚ l) as Hp.
  { apply NoDup_Permutation; [apply NoDup_filter, NoDup_seqZ|done|]. intros d. rewrite list_elem_of_filter, elem_of_seqZ.
    split; [tauto|]. intros Hd. split; [done|]. rewrite Forall_forall in Hl. specialize (Hl d Hd). lia. }
  apply Permutation_length in Hp. rewrite <- Hp. unfold other_dims.
  pose proof (Permutation_length (filter_app_complement (fun d => d ∈ l) (seqZ 0 (Z.of_nat n)))) as E.
  rewrite length_app, length_seqZ in E. lia.
Qed.

Lemma filter_keep {A} (P : A -> Prop) `{!forall x, Decision (P x)} l : Forall P l -> filter P l = l.
Proof. induction 1 as [|x l Hx Hl IH]; [done|]. rewrite filter_cons_True by done. by f_equal. Qed.

(** Above the largest of them, all dimensions are in order. *)
Lemma other_dims_split (m n : nat) l : (m <= n)%nat -> Forall (fun d => d < Z.of_nat m) l ->
  other_dims (Z.of_nat n) l = other_dims (Z.of_nat m) l ++ seqZ (Z.of_nat m) (Z.of_nat (n - m)).
Proof.
  intros Hm Hl. unfold other_dims. replace (Z.of_nat n) with (Z.of_nat m + Z.of_nat (n - m)) by lia.
  rewrite seqZ_app, filter_app, Z.add_0_l by lia. f_equal.
  apply filter_keep, Forall_forall. intros d Hd%elem_of_seqZ Hin. rewrite Forall_forall in Hl. specialize (Hl d Hin). lia.
Qed.

Lemma max_dim_spec l (n : nat) : Forall (fun d => 0 <= d < Z.of_nat n) l ->
  exists m, max_dim l + 1 = Z.of_nat m /\ (m <= n)%nat /\ Forall (fun d => 0 <= d < Z.of_nat m) l.
Proof.
  intros H. assert (forall x (k : list Z), 0 <= x < Z.of_nat n -> Forall (fun d => 0 <= d < Z.of_nat n) k ->
    x <= foldl Z.max x k < Z.of_nat n /\ Forall (fun d => d <= foldl Z.max x k) k) as K.
  { intros x k. revert x. induction k as [|y k IH]; intros x Hx Hk; cbn [foldl]; [split; [lia|constructor]|].
    apply Forall_cons in Hk as [Hy Hk]. destruct (IH (Z.max x y)) as [H1 H2]; [lia|done|]. split; [lia|].
    constructor; [lia|done]. }
  destruct l as [|x k]; [exists O; split; [done|]; split; [lia|constructor]|].
  apply Forall_cons in H as [Hx Hk]. destruct (K x k Hx Hk) as [H1 H2]. cbn [max_dim].
  exists (Z.to_nat (foldl Z.max x k + 1)). split; [lia|]. split; [lia|]. constructor; [lia|].
  apply Forall_forall. intros d Hd. rewrite Forall_forall in Hk, H2. specialize (Hk d Hd). specialize (H2 d Hd). cbn in *. lia.
Qed.

(** ** The shape of a gather *)
Section GatherShape.
Context {A : Type} (rank resultRank : nat) (getStartIndicesDim getSliceDim : Z -> result A).
Context (offsetDims collapsedSliceDims operandBatchingDims : list Z) (indexVectorDim : Z).
Hypothesis numbers : numbers_ok rank collapsedSliceDims operandBatchingDims.
Hypothesis ranks : (length offsetDims + length collapsedSliceDims + length operandBatchingDims = rank)%nat.
Hypothesis offsets : NoDup offsetDims.
Let dropped := collapsedSliceDims ++ operandBatchingDims.

Lemma prefix_spec l acc prefix :
  foldM (fun dimIndex prefix => if is_contained dimIndex dropped then Ok prefix
                                else d ← getSliceDim dimIndex; Ok (prefix ++ [d])) l acc = Ok prefix ->
  exists ds, prefix = acc ++ ds /\ Forall2 (fun d x => getSliceDim d = Ok x) (filter (fun d => d ∉ dropped) l) ds.
Proof.
  revert acc. induction l as [|d l IH]; intros acc H; cbn [foldM] in H; [injection H as <-; exists []; by rewrite app_nil_r|].
  unfold is_contained in H. rewrite filter_cons. case_bool_decide as Hd; cbn [mbind result_bind] in H.
  - destruct (IH _ H) as (ds & -> & Hds). exists ds. split; [done|]. by rewrite decide_False by tauto.
  - apply bind_ok in H as (acc' & Hx & H). apply bind_ok in Hx as (x & Hx & [= <-]).
    destruct (IH _ H) as (ds & -> & Hds). exists (x :: ds). rewrite <- app_assoc. split; [done|].
    rewrite decide_True by done. by constructor.
Qed.

(** The offset dimensions take the slice's sizes at the dimensions that are neither
    collapsed nor batching, the others the sizes of [start_indices] but for the index vector. *)
Lemma inferGatherShape_spec shape :
  inferGatherShape (Z.of_nat resultRank) getStartIndicesDim getSliceDim offsetDims collapsedSliceDims
    operandBatchingDims indexVectorDim = Ok shape ->
  length shape = resultRank /\
  (forall (k : nat) d, offsetDims !! k = Some d -> 0 <= d < Z.of_nat resultRank ->
     exists o x, other_dims (Z.of_nat rank) dropped !! k = Some o /\ getSliceDim o = Ok x /\ shape !! Z.to_nat d = Some x) /\
  (forall (k : nat) d, other_dims (Z.of_nat resultRank) offsetDims !! k = Some d ->
     exists x, getStartIndicesDim (if indexVectorDim <=? Z.of_nat k then Z.of_nat k + 1 else Z.of_nat k) = Ok x /\
       shape !! Z.to_nat d = Some x).
Proof.
  unfold inferGatherShape. fold dropped. destruct numbers as [Hnd Hr]. fold dropped in Hnd, Hr. intros H.
  destruct (max_dim_spec dropped rank Hr) as (m & Em & Hm & Hlow). rewrite Em in H.
  apply bind_ok in H as (prefix & (ds & -> & Hds)%prefix_spec & H). cbn [app] in H.
  fold (other_dims (Z.of_nat m) dropped) in Hds. pose proof (Forall2_length _ _ _ Hds) as Hdl.
  pose proof (length_other_dims m dropped Hnd Hlow) as Hlen.
  assert (length dropped = length collapsedSliceDims + length operandBatchingDims)%nat as Hld by apply length_app.
  apply mapM_inv in H. pose proof (Forall2_length _ _ _ H) as Hsl. rewrite length_seqZ in Hsl. split; [lia|].
  assert (forall d, 0 <= d < Z.of_nat resultRank -> exists x, shape !! Z.to_nat d = Some x /\
    match find_pos d offsetDims with
    | Some index => if index <? Z.of_nat (length ds) then at_z ds index
                    else getSliceDim (index + Z.of_nat (length collapsedSliceDims) + Z.of_nat (length operandBatchingDims))
    | None => match find_pos d (other_dims (Z.of_nat resultRank) offsetDims) with
              | None => Err (UB "assert: batchDimsIt != batchDims.end()")
              | Some index => getStartIndicesDim (if indexVectorDim <=? index then index + 1 else index)
              end
    end = Ok x) as Hat.
  { intros d Hd. destruct (Forall2_lookup_l _ _ _ (Z.to_nat d) d H) as (x & Hx & E); [|by exists x].
    rewrite lookup_seqZ_lt by lia. f_equal. lia. }
  split.
  - intros k d Hk Hd. destruct (Hat d Hd) as (x & Hx & E). rewrite (find_pos_lookup _ _ _ offsets Hk) in E.
    apply lookup_lt_Some in Hk. rewrite (other_dims_split m rank) by (done || (eapply Forall_impl; [exact Hlow|cbn; lia])).
    destruct (Z.ltb_spec (Z.of_nat k) (Z.of_nat (length ds))).
    + apply at_z_inv in E. destruct (Forall2_lookup_r _ _ _ _ _ Hds E) as (o & Ho & Es). exists o, x.
      split; [by apply lookup_app_l_Some|done].
    + eexists _, x. split; [|split; [exact E|done]]. rewrite lookup_app_r by lia. rewrite lookup_seqZ_lt by lia. f_equal. lia.
  - intros k d Hk. pose proof (list_elem_of_lookup_2 _ _ _ Hk) as [Hd Hno]%elem_of_other_dims.
    destruct (Hat d Hd) as (x & Hx & E). rewrite (proj2 (find_pos_None _ _) Hno) in E.
    rewrite (find_pos_lookup _ _ _ (NoDup_other_dims _ _) Hk) in E. by exists x.
Qed.
End GatherShape.

(** ** What [inferGatherOp] establishes, over static shapes *)
Lemma check_each_ok {A} (check : A -> result ()) l : check_each check l = Ok () -> Forall (fun a => check a = Ok ()) l.
Proof. intros H. apply Forall_forall. by apply (foldM_unit _ _ H). Qed.

Lemma checkDimsInBounds_ok dims n : checkDimsInBounds dims n = Ok () -> Forall (fun d => 0 <= d < n) dims.
Proof.
  unfold checkDimsInBounds. intros H%ensure_ok. apply Forall_forall. intros d Hd. rewrite forallb_forall in H.
  apply list_elem_of_In, H in Hd. lia.
Qed.

Lemma check_batching_ok os ss dims dims' : shape_ok os -> shape_ok ss -> length dims = length dims' ->
  check_batching os ss dims dims' = Ok () -> sizes_at os dims = sizes_at ss dims'.
Proof.
  intros Ho Hs Hl H%check_each_ok. revert dims' Hl H. induction dims as [|d dims IH]; intros [|d' dims'] Hl H; try done.
  apply Forall_cons in H as [E H]. apply bind_ok in E as (a & [_ Ha]%at_z_ok & E). apply bind_ok in E as (b & [_ Hb]%at_z_ok & E%ensure_ok).
  destruct (static_dim _ _ _ Ho Ha) as [_ Hda], (static_dim _ _ _ Hs Hb) as [_ Hdb].
  unfold verifyCompatibleDims in E. rewrite Hda, Hdb in E. cbn [orb] in E. cbn [sizes_at fmap list_fmap]. rewrite Ha, Hb.
  cbn [default]. f_equal; [cbn; lia|]. apply IH; [by injection Hl|done].
Qed.

(** The number of coordinates of the start index that the result's index gives. *)
Definition batch_rank (srank : nat) (indexVectorDim : Z) : nat :=
  if indexVectorDim =? Z.of_nat srank then srank else (srank - 1)%nat.

Record gather_ok (os ss sliceSizes offsetDims collapsedSliceDims operandBatchingDims startIndicesBatchingDims
    startIndexMap : list Z) (indexVectorDim : Z) (resultShape : list Z) : Prop := {
  gather_ok_ranks : (length offsetDims + length collapsedSliceDims + length operandBatchingDims = length os)%nat;
  gather_ok_offsets : NoDup offsetDims /\ Forall (fun d => 0 <= d < Z.of_nat (length resultShape)) offsetDims;
  gather_ok_result_rank : (length resultShape = length offsetDims + batch_rank (length ss) indexVectorDim)%nat;
  gather_ok_vector : 0 <= indexVectorDim <= Z.of_nat (length ss);
  gather_ok_vector_size : forall n, ss !! Z.to_nat indexVectorDim = Some n -> n = Z.of_nat (length startIndexMap);
  gather_ok_vector_scalar : indexVectorDim = Z.of_nat (length ss) -> length startIndexMap = 1%nat;
  gather_ok_numbers : numbers_ok (length os) collapsedSliceDims operandBatchingDims;
  gather_ok_batching : Forall (fun d => 0 <= d < Z.of_nat (length ss)) startIndicesBatchingDims /\
    (indexVectorDim ∉ startIndicesBatchingDims) /\ length operandBatchingDims = length startIndicesBatchingDims /\
    sizes_at os operandBatchingDims = sizes_at ss startIndicesBatchingDims;
  gather_ok_map : NoDup (startIndexMap ++ operandBatchingDims);
  gather_ok_sizes : Forall2 (fun z d => 0 <= z <= d) sliceSizes os;
  gather_ok_offset_shape : forall (k : nat) d, offsetDims !! k = Some d -> exists o z,
    other_dims (Z.of_nat (length os)) (collapsedSliceDims ++ operandBatchingDims) !! k = Some o /\
    sliceSizes !! Z.to_nat o = Some z /\ resultShape !! Z.to_nat d = Some z;
  gather_ok_batch_shape : forall (k : nat) d, other_dims (Z.of_nat (length resultShape)) offsetDims !! k = Some d ->
    exists n, ss !! (if indexVectorDim <=? Z.of_nat k then S k else k) = Some n /\ resultShape !! Z.to_nat d = Some n;
}.

Lemma verifyGather_inv operand startIndices slices off col obd sibd sim ivd :
  verifyGather operand startIndices slices off col obd sibd sim ivd = Ok () ->
  shape_ok (getShape operand) -> shape_ok (getShape startIndices) ->
  let os := getShape operand in let ss := getShape startIndices in
  (length off + length col + length obd = length os)%nat /\ NoDup off /\ 0 <= ivd <= Z.of_nat (length ss) /\
  (forall n, ss !! Z.to_nat ivd = Some n -> n = Z.of_nat (length sim)) /\
  (ivd = Z.of_nat (length ss) -> length sim = 1%nat) /\ numbers_ok (length os) col obd /\
  Forall (fun d => 0 <= d < Z.of_nat (length ss)) sibd /\ (ivd ∉ sibd) /\ length obd = length sibd /\
  sizes_at os obd = sizes_at ss sibd /\ NoDup (sim ++ obd) /\ getNumElements slices = getRank operand.
Proof.
  intros H Ho Hs os ss. subst os ss. unfold verifyGather in H.
  apply bind_ok in H as ([] & H1%ensure_ok & H). apply bind_ok in H as ([] & H2%ensure_ok & H).
  apply bind_ok in H as ([] & H3 & H). apply bind_ok in H as ([] & _ & H). apply bind_ok in H as ([] & H4%ensure_ok%isUnique_spec & H).
  apply bind_ok in H as ([] & H5%ensure_ok%isUnique_spec & H). apply bind_ok in H as ([] & _ & H).
  apply bind_ok in H as ([] & H6%checkDimsInBounds_ok & H). apply bind_ok in H as ([] & _ & H).
  apply bind_ok in H as ([] & H7%checkDimsInBounds_ok & H). apply bind_ok in H as ([] & _ & H).
  apply bind_ok in H as ([] & H8%checkDimsInBounds_ok & H). apply bind_ok in H as ([] & H9%ensure_ok & H).
  apply bind_ok in H as ([] & H10%ensure_ok%bool_decide_eq_true & H). apply bind_ok in H as ([] & H11%check_batching_ok & H); [|done..].
  apply bind_ok in H as ([] & H12%ensure_ok%isUnique_spec & H). apply bind_ok in H as ([] & _ & H).
  apply bind_ok in H as ([] & _ & H). apply bind_ok in H as (z & Hz & H%ensure_ok).
  assert (z = getNumElements slices) as -> by (destruct (hasStaticShape slices); congruence).
  unfold getRank in *. unfold is_contained in H9. apply negb_true_iff, bool_decide_eq_false in H9.
  cbv iota in H2. apply negb_true_iff, orb_false_iff in H2 as [H2 H2']. assert (0 <= ivd <= Z.of_nat (length (getShape startIndices))) as Hivd by lia.
  split; [apply Z.eqb_eq in H1; lia|]. split; [done|]. split; [done|].
  split; [|split; [|split; [split; [done|by apply Forall_app]|by apply Z.eqb_eq in H]]].
  - intros n Hn. pose proof (lookup_lt_Some _ _ _ Hn). rewrite (proj2 (Z.eqb_neq ivd _)) in H3 by lia.
    apply bind_ok in H3 as (e & [_ He]%at_z_ok & E%ensure_ok). destruct (static_dim _ _ _ Hs He) as [_ Hd].
    rewrite Hd, andb_false_r in E. apply Z.eqb_eq in E. congruence.
  - intros ->. rewrite Z.eqb_refl in H3. cbn [mbind result_bind negb andb orb] in H3. apply ensure_ok, Z.eqb_eq in H3. lia.
Qed.

Lemma checkSliceSizes_ok type sliceSizes : shape_ok (getShape type) -> length sliceSizes = length (getShape type) ->
  checkSliceSizesInBounds type sliceSizes = Ok () -> Forall2 (fun z d => 0 <= z <= d) sliceSizes (getShape type).
Proof.
  intros Hs Hl H%check_each_ok. apply Forall2_same_length_lookup_2; [done|]. intros k z d Hz Hd.
  rewrite Forall_forall in H. specialize (H (Z.of_nat k, z)). cbn beta iota in H.
  destruct (static_dim _ _ _ Hs Hd) as [_ Hdyn]. unfold getDimSize in H. rewrite (at_z_some _ _ _ Hd) in H. cbn [mbind result_bind] in H.
  rewrite Hdyn in H. apply bind_ok in H as ([] & H1%ensure_ok & H2%ensure_ok).
  - cbn [orb] in H2. apply negb_true_iff, Z.ltb_ge in H1, H2. lia.
  - unfold enumerate. apply list_elem_of_lookup. exists k. apply lookup_zip_with_Some. exists (Z.of_nat k), z.
    split; [done|]. split; [|done]. apply lookup_lt_Some in Hz. rewrite lookup_seqZ_lt by lia. f_equal; lia.
Qed.

Lemma inferGatherOp_inv operand startIndices off col obd sibd sim ivd sliceSizes type :
  inferGatherOp operand startIndices off col obd sibd sim ivd sliceSizes = Ok type ->
  shape_ok (getShape operand) -> shape_ok (getShape startIndices) ->
  getElementType type = getElementType operand /\
  gather_ok (getShape operand) (getShape startIndices) sliceSizes off col obd sibd sim ivd (getShape type).
Proof.
  intros H Ho Hs. unfold inferGatherOp in H. apply bind_ok in H as ([] & Hv%verifyGather_inv & H); [|done..].
  destruct Hv as (H1 & H2 & H3 & H4 & H5 & H6 & H7 & H8 & H9 & H10 & H11 & H12). cbn [getNumElements getShape] in H12.
  apply bind_ok in H as ([] & _ & H). apply bind_ok in H as ([] & _ & H). apply bind_ok in H as ([] & Hz & H).
  apply checkSliceSizes_ok in Hz; [|done|unfold getNumElements, getRank in H12; cbn [getShape prod_z foldr] in H12; lia].
  unfold inferGatherReturnTypeComponents in H.
  set (os := getShape operand) in *. set (ss := getShape startIndices) in *.
  assert (Z.of_nat (length off) + (if ivd =? getRank startIndices then getRank startIndices + 1 else getRank startIndices) - 1
    = Z.of_nat (length off + batch_rank (length ss) ivd)) as Er.
  { unfold getRank, batch_rank. fold ss. destruct (Z.eqb_spec ivd (Z.of_nat (length ss))); lia. }
  rewrite Er in H. apply bind_ok in H as ([] & H13%checkDimsInBounds_ok & H). apply bind_ok in H as (shape & Hsh & H).
  apply bind_ok in H as (bounds & _ & H). apply bind_ok in H as (enc & _ & [= <-]). cbn [getElementType getShape].
  split; [done|]. apply (inferGatherShape_spec (length os)) in Hsh as (Hl & Hoff & Hbat); [|done..].
  split; try done; try (by rewrite Hl).
  - intros k d Hd. destruct (Hoff k d Hd) as (o & x & Hk & [_ Hx]%at_z_ok & Hsx); [by apply (Forall_lookup_1 _ _ _ _ H13 Hd)|].
    by exists o, x.
  - rewrite Hl. intros k d Hd. destruct (Hbat k d Hd) as (x & [_ Hx]%at_z_ok & Hsx). exists x. split; [|done].
    fold ss in Hx. rewrite <- Hx. f_equal. destruct (ivd <=? Z.of_nat k); lia.
Qed.

(** ** The index a gather reads *)
Definition nth_z (l : list Z) (d : Z) : Z := default 0 (l !! Z.to_nat d).

Lemma at_z_nth l d : 0 <= d < Z.of_nat (length l) -> at_z l d = Ok (nth_z l d).
Proof. intros H. destruct (at_z_lt l d H) as (x & -> & Hx). unfold nth_z. by rewrite Hx. Qed.

Lemma nth_z_lookup l d x : l !! Z.to_nat d = Some x -> nth_z l d = x.
Proof. unfold nth_z. by intros ->. Qed.

Section GatherIndex.
Context (os ss sliceSizes offsetDims collapsedSliceDims operandBatchingDims startIndicesBatchingDims
  startIndexMap : list Z) (indexVectorDim : Z).

(** [start_of_vector v]: the component of the start index at the position [v] of [start_indices]. *)
Context (start_component : Index -> Z).

(** The position in [start_indices] of component [k] for the result's index [i]. *)
Definition gather_batch (i : Index) : Index := nth_z i <$> other_dims (Z.of_nat (length i)) offsetDims.
Definition start_position (i : Index) (k : Z) : Index :=
  if indexVectorDim <? Z.of_nat (length ss) then insert_at (Z.to_nat indexVectorDim) k (gather_batch i) else gather_batch i.

(** A dimension of the operand that [start_index_map] names starts at that component,
    clamped so that the slice fits; a batching dimension is at its coordinate of the
    batch; the dimensions that are neither collapsed nor batching add the offset. *)
Definition gather_start (i : Index) (d : Z) : Z :=
  match find_pos d startIndexMap with
  | None => 0
  | Some k => Z.min (Z.max (start_component (start_position i k)) 0) (nth_z os d - nth_z sliceSizes d)
  end.
Definition gather_batching (i : Index) (d : Z) : Z :=
  match find_pos d operandBatchingDims with
  | None => 0
  | Some j => nth_z (start_position i kColon) (nth_z startIndicesBatchingDims j)
  end.
Definition gather_offset (i : Index) (d : Z) : Z :=
  match find_pos d (other_dims (Z.of_nat (length os)) (collapsedSliceDims ++ operandBatchingDims)) with
  | None => 0
  | Some j => nth_z i (nth_z offsetDims j)
  end.
Definition gather_index (i : Index) : Index :=
  (fun d => gather_start i d + gather_batching i d + gather_offset i d) <$> seqZ 0 (Z.of_nat (length os)).

Context (resultShape : list Z) (accepted : gather_ok os ss sliceSizes offsetDims collapsedSliceDims operandBatchingDims
  startIndicesBatchingDims startIndexMap indexVectorDim resultShape).
Context (i : Index) (inside : in_bounds i resultShape).

Lemma length_gather_batch : length (gather_batch i) = batch_rank (length ss) indexVectorDim.
Proof.
  unfold gather_batch. rewrite length_fmap, (in_bounds_length _ _ inside).
  destruct (gather_ok_offsets _ _ _ _ _ _ _ _ _ _ accepted) as [Hnd Hr].
  pose proof (length_other_dims _ _ Hnd Hr). pose proof (gather_ok_result_rank _ _ _ _ _ _ _ _ _ _ accepted). lia.
Qed.

Lemma gather_batch_lookup (k : nat) n : (k < batch_rank (length ss) indexVectorDim)%nat ->
  ss !! (if indexVectorDim <=? Z.of_nat k then S k else k) = Some n ->
  exists x, gather_batch i !! k = Some x /\ 0 <= x < n.
Proof.
  intros Hk Hn. unfold gather_batch. pose proof length_gather_batch as Hl. unfold gather_batch in Hl. rewrite length_fmap in Hl.
  rewrite (in_bounds_length _ _ inside) in *. rewrite list_lookup_fmap.
  destruct (lookup_lt_is_Some_2 (other_dims (Z.of_nat (length resultShape)) offsetDims) k) as [d Hd]; [lia|].
  destruct (gather_ok_batch_shape _ _ _ _ _ _ _ _ _ _ accepted k d Hd) as (n' & Hn' & Hr). rewrite Hn in Hn'. injection Hn' as <-.
  destruct (in_bounds_lookup_Some _ _ _ _ inside Hr) as (x & Hx & Hb). rewrite Hd. exists x. cbn.
  by rewrite (nth_z_lookup _ _ _ Hx).
Qed.

Lemma gather_batch_vector : indexVectorDim < Z.of_nat (length ss) ->
  in_bounds (gather_batch i) (delete (Z.to_nat indexVectorDim) ss).
Proof.
  intros Hlt. pose proof (gather_ok_vector _ _ _ _ _ _ _ _ _ _ accepted) as Hv.
  assert (batch_rank (length ss) indexVectorDim = length ss - 1)%nat as Hbr
    by (unfold batch_rank; rewrite (proj2 (Z.eqb_neq _ _)) by lia; done).
  apply in_bounds_intro; [rewrite length_gather_batch, length_delete by (apply lookup_lt_is_Some; lia); lia|].
  intros k x n Hx Hn. assert (k < length ss - 1)%nat as Hk by (apply lookup_lt_Some in Hx; rewrite length_gather_batch in Hx; lia).
  destruct (gather_batch_lookup k n) as (y & Hy & ?); [lia| |congruence].
  destruct (Z.leb_spec indexVectorDim (Z.of_nat k)).
  - by rewrite list_lookup_delete_ge in Hn by lia.
  - by rewrite list_lookup_delete_lt in Hn by lia.
Qed.

Lemma gather_batch_scalar : indexVectorDim = Z.of_nat (length ss) -> in_bounds (gather_batch i) ss.
Proof.
  intros He. assert (batch_rank (length ss) indexVectorDim = length ss) as Hbr by (unfold batch_rank; by rewrite He, Z.eqb_refl).
  apply in_bounds_intro; [by rewrite length_gather_batch|].
  intros k x n Hx Hn. pose proof (lookup_lt_Some _ _ _ Hn). destruct (gather_batch_lookup k n) as (y & Hy & ?); [lia| |congruence].
  by rewrite (proj2 (Z.leb_gt _ _)) by lia.
Qed.

(** The coordinates of the batching dimensions are in the range of the operand. *)
Lemma start_position_at e n : 0 <= e < Z.of_nat (length ss) -> e <> indexVectorDim -> ss !! Z.to_nat e = Some n ->
  exists x, start_position i kColon !! Z.to_nat e = Some x /\ 0 <= x < n.
Proof.
  intros He Hne Hn. unfold start_position. destruct (Z.ltb_spec indexVectorDim (Z.of_nat (length ss))) as [Hlt|Hge].
  - pose proof (gather_batch_vector Hlt) as Hb. pose proof (gather_ok_vector _ _ _ _ _ _ _ _ _ _ accepted) as Hv.
    pose proof (in_bounds_length _ _ Hb) as Hl. rewrite length_delete in Hl by (apply lookup_lt_is_Some; lia).
    unfold insert_at. set (p := Z.to_nat indexVectorDim) in *. destruct (decide (Z.to_nat e < p)%nat) as [Hep|Hep].
    + rewrite lookup_app_l by (rewrite length_take; lia). rewrite lookup_take_lt by done.
      eapply in_bounds_lookup_Some; [exact Hb|]. by rewrite list_lookup_delete_lt by lia.
    + rewrite lookup_app_r by (rewrite length_take; lia). rewrite length_take, Nat.min_l by lia.
      destruct (Z.to_nat e - p)%nat as [|m] eqn:Em; [lia|]. rewrite lookup_cons, lookup_drop.
      eapply in_bounds_lookup_Some; [exact Hb|]. rewrite list_lookup_delete_ge by lia. rewrite <- Hn. f_equal. lia.
  - pose proof (gather_ok_vector _ _ _ _ _ _ _ _ _ _ accepted) as Hv.
    by apply (in_bounds_lookup_Some _ ss); [apply gather_batch_scalar; lia|].
Qed.
Lemma gather_windows : length (other_dims (Z.of_nat (length os)) (collapsedSliceDims ++ operandBatchingDims)) = length offsetDims.
Proof.
  destruct (gather_ok_numbers _ _ _ _ _ _ _ _ _ _ accepted) as [Hnd Hr]. pose proof (length_other_dims _ _ Hnd Hr) as H.
  rewrite length_app in H. pose proof (gather_ok_ranks _ _ _ _ _ _ _ _ _ _ accepted). lia.
Qed.

Lemma gather_sizes d : 0 <= d < Z.of_nat (length os) -> 0 <= nth_z sliceSizes d <= nth_z os d.
Proof.
  intros Hd. destruct (lookup_lt_is_Some_2 os (Z.to_nat d)) as [n Hn]; [lia|].
  destruct (Forall2_lookup_r _ _ _ _ _ (gather_ok_sizes _ _ _ _ _ _ _ _ _ _ accepted) Hn) as (z & Hz & ?).
  by rewrite (nth_z_lookup _ _ _ Hn), (nth_z_lookup _ _ _ Hz).
Qed.

Lemma gather_start_bounds d : 0 <= d < Z.of_nat (length os) -> 0 <= gather_start i d <= nth_z os d - nth_z sliceSizes d.
Proof. intros Hd%gather_sizes. unfold gather_start. destruct (find_pos d startIndexMap); lia. Qed.

(** A slice is not empty in a collapsed dimension. *)
Hypothesis collapsed_ones : Forall (fun d => nth_z sliceSizes d = 1) collapsedSliceDims.

Lemma gather_dim d : 0 <= d < Z.of_nat (length os) ->
  0 <= gather_start i d /\ 0 <= gather_batching i d /\ 0 <= gather_offset i d /\
  gather_start i d + gather_batching i d + gather_offset i d < nth_z os d.
Proof.
  intros Hd. pose proof (gather_sizes d Hd) as Hz. pose proof (gather_start_bounds d Hd) as Hst.
  destruct (gather_ok_numbers _ _ _ _ _ _ _ _ _ _ accepted) as [Hnd _].
  pose proof (NoDup_other_dims (Z.of_nat (length os)) (collapsedSliceDims ++ operandBatchingDims)) as Hw.
  unfold gather_batching. destruct (find_pos d operandBatchingDims) as [j|] eqn:Ej.
  - apply find_pos_Some in Ej as [Hj Ej]. pose proof (list_elem_of_lookup_2 _ _ _ Ej) as Hin.
    assert (gather_start i d = 0) as ->.
    { unfold gather_start. rewrite (proj2 (find_pos_None d startIndexMap)); [done|]. intros Hm.
      pose proof (gather_ok_map _ _ _ _ _ _ _ _ _ _ accepted) as (_ & Hdis & _)%NoDup_app. by apply (Hdis d). }
    assert (gather_offset i d = 0) as ->.
    { unfold gather_offset. rewrite (proj2 (find_pos_None d _)); [done|]. intros [_ Hm]%elem_of_other_dims.
      apply Hm, elem_of_app. by right. }
    destruct (gather_ok_batching _ _ _ _ _ _ _ _ _ _ accepted) as (Hr & Hv & Hl & Hs).
    destruct (lookup_lt_is_Some_2 startIndicesBatchingDims (Z.to_nat j)) as [e He]; [apply lookup_lt_Some in Ej; lia|].
    rewrite (nth_z_lookup _ _ _ He). pose proof (Forall_lookup_1 _ _ _ _ Hr He) as Her. cbn in Her.
    destruct (lookup_lt_is_Some_2 ss (Z.to_nat e)) as [n Hn]; [lia|].
    destruct (start_position_at e n) as (x & Hx & ?); [done|intros ->; by eapply Hv, list_elem_of_lookup_2|done|].
    rewrite (nth_z_lookup _ _ _ Hx). apply (f_equal (fun l => l !! Z.to_nat j)) in Hs.
    rewrite (sizes_at_lookup _ _ _ _ Ej), (sizes_at_lookup _ _ _ _ He), Hn in Hs. injection Hs as Hs. unfold nth_z. rewrite Hs. cbn. lia.
  - apply find_pos_None in Ej. destruct (decide (d ∈ collapsedSliceDims)) as [Hc|Hc].
    + assert (gather_offset i d = 0) as ->.
      { unfold gather_offset. rewrite (proj2 (find_pos_None d _)); [done|]. intros [_ Hm]%elem_of_other_dims.
        apply Hm, elem_of_app. by left. }
      rewrite Forall_forall in collapsed_ones. rewrite (collapsed_ones d Hc) in *. lia.
    + assert (d ∈ other_dims (Z.of_nat (length os)) (collapsedSliceDims ++ operandBatchingDims)) as Hin.
      { apply elem_of_other_dims. split; [done|]. intros [|]%elem_of_app; done. }
      apply list_elem_of_lookup in Hin as (j & Hj). unfold gather_offset. rewrite (find_pos_lookup _ _ _ Hw Hj).
      destruct (lookup_lt_is_Some_2 offsetDims j) as [e He]; [apply lookup_lt_Some in Hj; rewrite gather_windows in Hj; lia|].
      destruct (gather_ok_offset_shape _ _ _ _ _ _ _ _ _ _ accepted j e He) as (o & z & Ho & Hzo & Hre).
      rewrite Hj in Ho. injection Ho as <-. rewrite (nth_z_lookup _ _ _ Hzo) in *.
      destruct (in_bounds_lookup_Some _ _ _ _ inside Hre) as (x & Hx & ?).
      rewrite (nth_z_lookup offsetDims (Z.of_nat j) e), (nth_z_lookup _ _ _ Hx) by (by rewrite Nat2Z.id). lia.
Qed.

Lemma gather_index_in_bounds : in_bounds (gather_index i) os.
Proof.
  apply in_bounds_intro; [unfold gather_index; rewrite length_fmap, length_seqZ; lia|]. intros k x n Hx Hn.
  unfold gather_index in Hx. rewrite list_lookup_fmap in Hx. pose proof (lookup_lt_Some _ _ _ Hn).
  rewrite lookup_seqZ_lt in Hx by lia. injection Hx as <-. rewrite Z.add_0_l.
  destruct (gather_dim (Z.of_nat k)) as (? & ? & ? & Hlt); [lia|]. rewrite (nth_z_lookup os (Z.of_nat k) n) in Hlt by (by rewrite Nat2Z.id). lia.
Qed.
End GatherIndex.

(** ** The loops of [gatherOp] *)
Lemma fill_loop (body : Z -> list Z -> result (list Z)) (g : Z -> Z) (n : nat) :
  (forall d acc, 0 <= d < Z.of_nat n -> length acc = n -> body d acc = set_z acc d (g d) \/ (g d = 0 /\ body d acc = Ok acc)) ->
  foldM body (seqZ 0 (Z.of_nat n)) (replicate n 0) = Ok (g <$> seqZ 0 (Z.of_nat n)).
Proof.
  intros H. rewrite (foldM_fill body (fun d => g (Z.of_nat d))).
  - unfold seqZ. rewrite Nat2Z.id, <- list_fmap_compose. f_equal. apply list_fmap_ext. intros _ d _. cbn. by rewrite Z.add_0_r.
  - intros d acc Hd Hl Ha. destruct (H (Z.of_nat d) acc) as [->|[Hg ->]]; [lia|done| |].
    + by rewrite set_z_ok, Nat2Z.id by lia.
    + by rewrite Hg, list_insert_id.
Qed.

Lemma sizes_add_map (a b : Z -> Z) l : (forall d, d ∈ l -> int64_min <= a d + b d <= int64_max) ->
  sizes_add (a <$> l) (b <$> l) = Ok ((fun d => a d + b d) <$> l).
Proof.
  intros H. unfold sizes_add. rewrite sizes_zip_ok; rewrite ?length_fmap; try done; rewrite zip_with_fmap_l, zip_with_fmap_r, zip_with_diag; [done|].
  apply Forall_forall. intros x (d & -> & Hd)%list_elem_of_fmap. by apply H.
Qed.

(** The loop over the operand's dimensions that counts the offsets it has used. *)
Lemma offset_loop (n : nat) collapsed batching (values : list Z) :
  length (other_dims (Z.of_nat n) (collapsed ++ batching)) = length values ->
  exists count, foldM (fun i '(fullOffsetIndex, oi) =>
      if decide (i ∈ collapsed) then Ok (fullOffsetIndex, oi)
      else if decide (i ∈ batching) then Ok (fullOffsetIndex, oi)
      else x ← at_z values oi; fullOffsetIndex ← set_z fullOffsetIndex i x; Ok (fullOffsetIndex, oi + 1))
    (seqZ 0 (Z.of_nat n)) (replicate n 0, 0)
  = Ok ((fun d => match find_pos d (other_dims (Z.of_nat n) (collapsed ++ batching)) with
                  | None => 0 | Some j => nth_z values j end) <$> seqZ 0 (Z.of_nat n), count).
Proof.
  set (l := collapsed ++ batching). intros Hl. set (g := fun d => match find_pos d (other_dims (Z.of_nat n) l) with None => 0 | Some j => nth_z values j end).
  pose proof (NoDup_other_dims (Z.of_nat n) l) as Hnd.
  assert (forall k : nat, (k < n)%nat -> other_dims (Z.of_nat (S k)) l =
    other_dims (Z.of_nat k) l ++ (if decide (Z.of_nat k ∈ l) then [] else [Z.of_nat k])) as Hstep.
  { intros k Hk. unfold other_dims. rewrite seqZ_0_S, filter_app. f_equal. rewrite filter_cons, filter_nil.
    repeat case_decide; tauto. }
  assert (forall k : nat, (k <= n)%nat -> exists rest, other_dims (Z.of_nat n) l = other_dims (Z.of_nat k) l ++ rest) as Hpre.
  { intros k Hk. unfold other_dims. replace (Z.of_nat n) with (Z.of_nat k + Z.of_nat (n - k)) by lia.
    rewrite seqZ_app, filter_app by lia. by eexists. }
  match goal with |- context [foldM ?body _ _] => destruct (foldM_seqZ_total body
    (fun k st => st.1 = (g <$> seqZ 0 (Z.of_nat k)) ++ replicate (n - k) 0 /\ st.2 = Z.of_nat (length (other_dims (Z.of_nat k) l)))
    n (replicate n 0, 0)) as ([acc count] & -> & Ha & _) end.
  - rewrite Nat.sub_0_r. done.
  - intros k [acc oi] Hk [Ha Ho]. cbn [fst snd] in Ha, Ho. subst acc oi.
    assert (length (g <$> seqZ 0 (Z.of_nat k)) = k) as Hgl by (rewrite length_fmap, length_seqZ; lia).
    assert (((g <$> seqZ 0 (Z.of_nat k)) ++ replicate (n - k) 0) =
      (g <$> seqZ 0 (Z.of_nat k)) ++ 0 :: replicate (n - S k) 0) as Eacc.
    { f_equal. by replace (n - k)%nat with (S (n - S k)) by lia. }
    rewrite Hstep by done. destruct (decide (Z.of_nat k ∈ l)) as [Hin|Hin].
    + assert (g (Z.of_nat k) = 0) as Hg.
      { unfold g. rewrite (proj2 (find_pos_None _ _)); [done|]. by intros [_ ?]%elem_of_other_dims. }
      exists ((g <$> seqZ 0 (Z.of_nat (S k))) ++ replicate (n - S k) 0, Z.of_nat (length (other_dims (Z.of_nat k) l))).
      rewrite app_nil_r. split; [|done]. rewrite seqZ_0_S, fmap_app, <- app_assoc. cbn [fmap list_fmap app]. rewrite Hg, <- Eacc.
      destruct (decide (Z.of_nat k ∈ collapsed)); [done|]. destruct (decide (Z.of_nat k ∈ batching)); [done|].
      apply elem_of_app in Hin. tauto.
    + rewrite decide_False by (intros ?; apply Hin, elem_of_app; by left).
      rewrite decide_False by (intros ?; apply Hin, elem_of_app; by right).
      destruct (Hpre (S k)) as (rest & Er); [lia|]. rewrite Hstep, decide_False in Er by done. rewrite <- app_assoc in Er.
      assert (other_dims (Z.of_nat n) l !! length (other_dims (Z.of_nat k) l) = Some (Z.of_nat k)) as Hat
        by (rewrite Er; by apply list_lookup_middle).
      pose proof (find_pos_lookup _ _ _ Hnd Hat) as Hfp.
      rewrite at_z_nth by (apply lookup_lt_Some in Hat; lia). cbind.
      rewrite set_z_ok by (rewrite length_app, Hgl, length_replicate; lia). cbind. eexists. split; [done|]. cbn [fst snd].
      rewrite length_app. cbn [length]. split; [|lia]. rewrite Nat2Z.id, Eacc, seqZ_0_S, fmap_app, <- app_assoc.
      rewrite insert_app_r_alt by lia. rewrite Hgl, Nat.sub_diag. cbn [fmap list_fmap app].
      assert (g (Z.of_nat k) = nth_z values (Z.of_nat (length (other_dims (Z.of_nat k) l)))) as -> by (unfold g; by rewrite Hfp). done.
  - exists count. cbn [fst] in Ha. by rewrite Ha, Nat.sub_diag, app_nil_r.
Qed.

(** ** [gatherOp] *)
Section GatherOp.
Context {L : LLVM} {Laws : LLVMLaws L} (s : Signedness) (w : Z) (f : Index -> Z) (int : int_type s w = true).
Context (operand startIndices : Tensor) (operand_full : tensor_full operand) (start_full : tensor_full startIndices)
  (start_values : holds s w f startIndices) (no_bounds : encodingToBounds (getEncoding (getTensorType startIndices)) = []).
Context (offsetDims collapsedSliceDims operandBatchingDims startIndicesBatchingDims startIndexMap : list Z)
  (indexVectorDim : Z) (sliceSizes : list Z) (resultType : ShapedType).
Local Abbreviation os := (getTensorShape operand).
Local Abbreviation ss := (getTensorShape startIndices).
Hypothesis accepted : gather_ok os ss sliceSizes offsetDims collapsedSliceDims operandBatchingDims
  startIndicesBatchingDims startIndexMap indexVectorDim (getShape resultType).
Hypothesis collapsed_ones : Forall (fun d => nth_z sliceSizes d = 1) collapsedSliceDims.
Let component (v : Index) : Z := int_read Signed w (f v).
Let position := start_position ss offsetDims indexVectorDim.
Let read := gather_index os ss sliceSizes offsetDims collapsedSliceDims operandBatchingDims startIndicesBatchingDims
  startIndexMap indexVectorDim component.

Lemma gather_coordinates i dims : in_bounds i (getShape resultType) ->
  Forall (fun d => 0 <= d < Z.of_nat (length (getShape resultType))) dims ->
  mapM (fun d => at_z i d) dims = Ok (nth_z i <$> dims).
Proof.
  intros Hi Hd. apply mapM_ok. intros d Hin. rewrite Forall_forall in Hd. apply at_z_nth.
  rewrite (in_bounds_length _ _ Hi). by apply Hd.
Qed.

Lemma gather_start_index i : in_bounds i (getShape resultType) ->
  (slice ← indexSliceOp startIndices (position i kColon); evalIndex slice)
  = Ok ((fun k => component (position i k)) <$> seqZ 0 (Z.of_nat (length startIndexMap))).
Proof.
  intros Hi. unfold position, start_position. pose proof (gather_ok_vector _ _ _ _ _ _ _ _ _ _ accepted) as Hv.
  destruct (Z.ltb_spec indexVectorDim (Z.of_nat (length ss))) as [Hlt|Hge].
  - destruct (lookup_lt_is_Some_2 ss (Z.to_nat indexVectorDim)) as [n Hn]; [lia|].
    rewrite (start_vector s w f int startIndices start_full start_values no_bounds _ n) by (done || by eapply gather_batch_vector).
    by rewrite (gather_ok_vector_size _ _ _ _ _ _ _ _ _ _ accepted n Hn).
  - assert (indexVectorDim = Z.of_nat (length ss)) as He by lia.
    rewrite (start_scalar s w f int startIndices start_full start_values no_bounds) by (by eapply gather_batch_scalar).
    by rewrite (gather_ok_vector_scalar _ _ _ _ _ _ _ _ _ _ accepted He).
Qed.

Lemma gather_positions i : in_bounds i (getShape resultType) ->
  (if indexVectorDim <? getTensorRank startIndices then
     if (0 <=? indexVectorDim) && (indexVectorDim <=? Z.of_nat (length (gather_batch offsetDims i)))
     then Ok (take (Z.to_nat indexVectorDim) (gather_batch offsetDims i) ++ kColon :: drop (Z.to_nat indexVectorDim) (gather_batch offsetDims i))
     else Err (UB "insert position")
   else Ok (gather_batch offsetDims i)) = Ok (position i kColon).
Proof.
  intros Hi. pose proof (gather_ok_vector _ _ _ _ _ _ _ _ _ _ accepted) as Hv. unfold position, start_position.
  change (getTensorRank startIndices) with (Z.of_nat (length ss)). destruct (Z.ltb_spec indexVectorDim (Z.of_nat (length ss))) as [Hlt|]; [|done].
  rewrite (length_gather_batch _ _ _ _ _ _ _ _ _ _ accepted i Hi). unfold batch_rank. rewrite (proj2 (Z.eqb_neq _ _)) by lia.
  rewrite (proj2 (Z.leb_le 0 _)), (proj2 (Z.leb_le indexVectorDim _)) by lia. done.
Qed.

Lemma gather_dim_max d : 0 <= d < Z.of_nat (length os) -> 0 <= nth_z os d <= int64_max.
Proof.
  intros Hd. destruct (lookup_lt_is_Some_2 os (Z.to_nat d)) as [n Hn]; [lia|]. rewrite (nth_z_lookup _ _ _ Hn).
  by destruct (static_dim _ _ _ (full_shape_ok _ operand_full) Hn).
Qed.

Lemma gather_start_loop i : in_bounds i (getShape resultType) ->
  foldM (fun dOperand fullStartIndex =>
      match find_pos dOperand startIndexMap with
      | None => Ok fullStartIndex
      | Some dStart =>
          v ← at_z ((fun k => component (position i k)) <$> seqZ 0 (Z.of_nat (length startIndexMap))) dStart;
          s ← at_z (getTensorShape operand) dOperand;
          z ← at_z sliceSizes dOperand;
          hi ← i64 (s - z);
          if hi <? 0 then Err (UB "std::clamp") else
          set_z fullStartIndex dOperand (Z.min (Z.max v 0) hi)
      end) (seqZ 0 (Z.of_nat (length os))) (replicate (length os) 0)
  = Ok (gather_start os ss sliceSizes offsetDims startIndexMap indexVectorDim component i <$> seqZ 0 (Z.of_nat (length os))).
Proof.
  intros Hi. apply fill_loop. intros d acc Hd Hl. unfold gather_start.
  destruct (find_pos d startIndexMap) as [k|] eqn:Ek; [left|by right]. apply find_pos_Some in Ek as [Hk Ek].
  assert (at_z ((fun k => component (position i k)) <$> seqZ 0 (Z.of_nat (length startIndexMap))) k = Ok (component (position i k))) as ->.
  { apply at_z_ok. split; [done|]. rewrite list_lookup_fmap, lookup_seqZ_lt by (apply lookup_lt_Some in Ek; lia).
    rewrite Z.add_0_l, Z2Nat.id by done. done. }
  pose proof (gather_sizes _ _ _ _ _ _ _ _ _ _ accepted d Hd) as Hz. pose proof (gather_dim_max d Hd).
  assert (length sliceSizes = length os) as Hzl by (by eapply Forall2_length, gather_ok_sizes). cbind.
  rewrite (at_z_nth (getTensorShape operand)) by done. rewrite (at_z_nth sliceSizes) by lia. cbind.
  rewrite i64_ok by (unfold int64_min; lia). cbind. by rewrite (proj2 (Z.ltb_ge _ 0)) by lia.
Qed.

Lemma gather_batching_loop i : in_bounds i (getShape resultType) ->
  foldM (fun dOperand fullBatchingIndex =>
      match find_pos dOperand operandBatchingDims with
      | None => Ok fullBatchingIndex
      | Some iBatching =>
          dStart ← at_z startIndicesBatchingDims iBatching;
          v ← at_z (position i kColon) dStart;
          set_z fullBatchingIndex dOperand v
      end) (seqZ 0 (Z.of_nat (length os))) (replicate (length os) 0)
  = Ok (gather_batching ss offsetDims operandBatchingDims startIndicesBatchingDims indexVectorDim i <$> seqZ 0 (Z.of_nat (length os))).
Proof.
  intros Hi. apply fill_loop. intros d acc Hd Hl. unfold gather_batching.
  destruct (find_pos d operandBatchingDims) as [j|] eqn:Ej; [left|by right]. apply find_pos_Some in Ej as [Hj Ej].
  destruct (gather_ok_batching _ _ _ _ _ _ _ _ _ _ accepted) as (Hr & Hv & Hlen & _). apply lookup_lt_Some in Ej.
  rewrite at_z_nth by lia. cbind. assert (0 <= nth_z startIndicesBatchingDims j < Z.of_nat (length ss) /\
    nth_z startIndicesBatchingDims j <> indexVectorDim) as [He Hne].
  { destruct (lookup_lt_is_Some_2 startIndicesBatchingDims (Z.to_nat j)) as [e He]; [lia|]. rewrite (nth_z_lookup _ _ _ He).
    split; [by apply (Forall_lookup_1 _ _ _ _ Hr He)|]. intros ->. by eapply Hv, list_elem_of_lookup_2. }
  destruct (lookup_lt_is_Some_2 ss (Z.to_nat (nth_z startIndicesBatchingDims j))) as [n Hn]; [lia|].
  destruct (start_position_at _ _ _ _ _ _ _ _ _ _ accepted i Hi _ n He Hne Hn) as (x & Hx & _).
  rewrite (proj2 (at_z_ok _ _ x)) by (split; [lia|done]). cbind. unfold position. by rewrite (nth_z_lookup _ _ _ Hx).
Qed.

Lemma gatherOp_reads : shaped_ok resultType -> getElementType resultType = getTensorElementType operand ->
  result_is resultType (gatherOp operand startIndices offsetDims collapsedSliceDims operandBatchingDims
    startIndicesBatchingDims startIndexMap indexVectorDim sliceSizes false resultType) (reindexed read operand).
Proof.
  intros Hty He. eapply result_is_ext; [|apply build_reindexed with (f := fun i => Ok (read i)); [done|done|done|]].
  2:{ intros i Hi. split; [done|]. by eapply gather_index_in_bounds. }
  unfold gatherOp. cbv zeta. apply build_ext; [by destruct Hty as (_ & ? & _)|]. intros i Hi. cbind.
  fold (other_dims (getRank resultType) offsetDims). change (getRank resultType) with (Z.of_nat (length (getShape resultType))).
  rewrite (gather_coordinates i (other_dims _ offsetDims)); [|done|apply Forall_forall; by intros d [? _]%elem_of_other_dims]. cbind.
  rewrite <- (in_bounds_length _ _ Hi). fold (gather_batch offsetDims i). rewrite gather_positions by done. cbind.
  pose proof (gather_start_index i Hi) as Hst. apply bind_ok in Hst as (slice & -> & Hst). cbind. rewrite Hst. cbind.
  unfold getAxes. change (getTensorRank operand) with (Z.of_nat (length os)). rewrite Nat2Z.id.
  rewrite gather_start_loop, gather_batching_loop by done. cbind.
  rewrite (gather_coordinates i offsetDims) by (done || apply (gather_ok_offsets _ _ _ _ _ _ _ _ _ _ accepted)). cbind.
  destruct (offset_loop (length os) collapsedSliceDims operandBatchingDims (nth_z i <$> offsetDims)) as (count & ->);
    [rewrite length_fmap; by eapply gather_windows|]. cbind.
  assert (forall d, 0 <= d < Z.of_nat (length os) ->
    match find_pos d (other_dims (Z.of_nat (length os)) (collapsedSliceDims ++ operandBatchingDims)) with
    | None => 0 | Some j => nth_z (nth_z i <$> offsetDims) j end = gather_offset os offsetDims collapsedSliceDims operandBatchingDims i d) as Eoff.
  { intros d Hd. unfold gather_offset. destruct (find_pos d _) as [j|] eqn:Ej; [|done]. apply find_pos_Some in Ej as [Hj Ej%lookup_lt_Some].
    rewrite (gather_windows _ _ _ _ _ _ _ _ _ _ accepted) in Ej.
    destruct (lookup_lt_is_Some_2 offsetDims (Z.to_nat j) Ej) as [e Hej]. unfold nth_z at 1. rewrite list_lookup_fmap, Hej.
    cbn. by rewrite (nth_z_lookup _ _ _ Hej). }
  rewrite (list_fmap_ext (fun d => match find_pos d _ with None => 0 | Some j => nth_z (nth_z i <$> offsetDims) j end)
    (gather_offset os offsetDims collapsedSliceDims operandBatchingDims i)) by (intros k d Hk%list_elem_of_lookup_2%elem_of_seqZ; apply Eoff; lia).
  assert (forall d, d ∈ seqZ 0 (Z.of_nat (length os)) -> 0 <= d < Z.of_nat (length os)) as Hseq by (intros d Hd%elem_of_seqZ; lia).
  assert (forall d, 0 <= d < Z.of_nat (length os) -> _) as Hdim by (intros d Hd; exact (conj (gather_dim _ _ _ _ _ _ _ _ _ component _ accepted i Hi collapsed_ones d Hd) (gather_dim_max d Hd))).
  rewrite sizes_add_map by (intros d Hd%Hseq%Hdim; unfold int64_min; lia). cbind.
  by rewrite sizes_add_map by (intros d Hd%Hseq%Hdim; unfold int64_min; lia).
Qed.
End GatherOp.

(** C40: when [inferGatherOp] accepts the operand, integer start indices and the
    dimension numbers, and the slices have size 1 in the collapsed dimensions,
    [gatherOp] at the inferred type returns without a fault, whatever the start
    indices hold: the result's element at index [i] is the operand's at
    [gather_index i], which is inside the operand: the start index, clamped so that the
    slice fits, plus the batching coordinates, plus the offset. *)
Theorem gather_correct {L : LLVM} {Laws : LLVMLaws L} s w f operand startIndices offsetDims collapsedSliceDims operandBatchingDims
    startIndicesBatchingDims startIndexMap indexVectorDim sliceSizes type :
  int_type s w = true -> tensor_full operand -> tensor_full startIndices -> holds s w f startIndices ->
  encodingToBounds (getEncoding (getTensorType startIndices)) = [] ->
  inferGatherOp (getTensorType operand) (getTensorType startIndices) offsetDims collapsedSliceDims operandBatchingDims
    startIndicesBatchingDims startIndexMap indexVectorDim sliceSizes = Ok type ->
  shaped_ok type -> Forall (fun d => nth_z sliceSizes d = 1) collapsedSliceDims ->
  result_is type (gatherOp operand startIndices offsetDims collapsedSliceDims operandBatchingDims
    startIndicesBatchingDims startIndexMap indexVectorDim sliceSizes false type)
    (reindexed (gather_index (getTensorShape operand) (getTensorShape startIndices) sliceSizes offsetDims collapsedSliceDims
      operandBatchingDims startIndicesBatchingDims startIndexMap indexVectorDim (fun v => int_read Signed w (f v))) operand).
Proof.
  intros Hi Ho Hs Hf Hb Hinf Hty H1. apply inferGatherOp_inv in Hinf as [He Hok]; [|by apply full_shape_ok..].
  by apply (gatherOp_reads s).
Qed.

(** [inferGatherOp] also accepts a slice of size 0 in a collapsed dimension, which
    leaves no dimension of the result empty: a gather of such a slice at a start index
    that is not less than the operand's size clamps the start to the size itself, and
    reads the operand at an index that does not exist. *)
Theorem gather_empty_slice_faults {L : LLVM} {Laws : LLVMLaws L} s w f operand startIndices n :
  int_type s w = true -> tensor_full operand -> tensor_full startIndices -> holds s w f startIndices ->
  getTensorShape operand = [n] -> getTensorType startIndices = shaped [] (IntegerType s w) -> n <= int_read Signed w (f []) ->
  exists type, inferGatherOp (getTensorType operand) (getTensorType startIndices) [] [0] [] [] [0] 0 [0] = Ok type /\
    gatherOp operand startIndices [] [0] [] [] [0] 0 [0] false type
    = Err (Fatal "Incompatible index and shape found while flattening index").
Proof.
  intros Hi Ho Hs Hf Hn Hst Hv. pose proof (full_shape_ok _ Ho) as Hos. rewrite Hn in Hos. destruct (static_dim _ 0 n Hos eq_refl) as [Hb Hdyn].
  exists (shaped [] (getTensorElementType operand)). split.
  - rewrite Hst. unfold getTensorShape, getTensorElementType in *. destruct (getTensorType operand) as [os e enc]. cbn [getShape] in Hn. subst os.
    assert (checkSliceSizesInBounds (MkShaped [n] e enc) [0] = Ok ()) as Hz.
    { unfold checkSliceSizesInBounds. change (enumerate [0]) with [(0, 0)]. unfold check_each. cbn [foldM].
      change (getDimSize (MkShaped [n] e enc) 0) with (Ok n). cbn [Z.ltb Z.compare negb ensure mbind result_bind].
      rewrite Hdyn, (proj2 (Z.ltb_ge n 0)) by lia. done. }
    unfold inferGatherOp. cbn [length]. assert (verifyGather (MkShaped [n] e enc) (shaped [] (IntegerType s w))
      (MkShaped [Z.of_nat 1] NoneType None) [] [0] [] [] [0] 0 = Ok ()) as -> by reflexivity.
    change (checkSliceSizesOne [0] [0]) with (Ok ()). change (checkSliceSizesOne [0] []) with (Ok ()). cbn [mbind result_bind].
    rewrite Hz. reflexivity.
  - destruct (newTensor_ok (shaped [] (getTensorElementType operand))) as (t0 & Ht0 & _ & Hty0).
    { pose proof (full_shaped _ Ho) as Hty. unfold getTensorShape in Hn. unfold getTensorElementType. destruct (getTensorType operand) as [os e enc].
      cbn [getShape] in Hn. subst os. destruct Hty as (He & _ & _). split; [done|]. split; [constructor|].
      destruct (supported_size _ He) as (sz & Hsz & Hpos). cbn in *. rewrite Hsz. cbn. exists (1 * sz). apply i64_ok. unfold int64_min, int64_max. lia. }
    unfold gatherOp, build. cbv zeta. rewrite Ht0. cbind. unfold for_set, getTensorShape at 1. rewrite Hty0, for_index_foldM by constructor.
    cbn [getShape shaped indices foldM]. change (getRank (shaped [] (getTensorElementType operand))) with 0. change (filter _ (seqZ 0 0)) with (@nil Z).
    cbn [mapM]. cbind. change (getTensorRank startIndices) with (getRank (getTensorType startIndices)). rewrite Hst.
    change (0 <? getRank (shaped [] (IntegerType s w))) with false. cbind. pose proof (start_scalar s w f Hi startIndices Hs Hf) as E.
    unfold getTensorShape in E. rewrite Hst in E. specialize (E eq_refl []).
    apply bind_ok in E as (slice & -> & E); [|constructor]. cbind. rewrite E. cbind.
    unfold getAxes. change (getTensorRank operand) with (Z.of_nat (length (getTensorShape operand))). rewrite Hn.
    change (seqZ 0 (Z.of_nat (length [n]))) with [0]. cbn [foldM].
    change (find_pos 0 [0]) with (Some 0). change (find_pos 0 []) with (@None Z). change (Z.to_nat (Z.of_nat (length [n]))) with 1%nat.
    assert (forall x : Z, at_z [x] 0 = Ok x) as Hat by done. rewrite !Hat. cbind. rewrite Z.sub_0_r.
    rewrite (i64_ok n) by (unfold int64_min; lia). cbind. rewrite (proj2 (Z.ltb_ge n 0)) by lia.
    replace (_ `min` n) with n by lia. change (set_z (replicate 1 0) 0 n) with (Ok [n]). cbind.
    rewrite decide_True by by left. cbind.
    pose proof (sizes_add_map (fun _ => n) (fun _ => 0) [0]) as Hadd. cbn [fmap list_fmap] in Hadd. rewrite Z.add_0_r in Hadd.
    specialize (Hadd ltac:(intros; unfold int64_min; lia)).
    change (replicate 1 0) with [0]. rewrite Hadd. cbind. rewrite Hadd. cbind.
    unfold get, elementOffset. destruct (supported_size (getTensorElementType operand)) as (sz & -> & _); [by apply full_shaped in Ho as [? _]|].
    cbind. rewrite flattenIndex_err; [done|]. rewrite Hn. intros H%Forall2_cons_iff. lia.
Qed.

(** ** Witnesses *)
Section Witnesses.
Import Concrete.

(** Two rows of two elements: the second start index, [[1; 2]], is clamped to [[1; 1]]. *)
Lemma gather_correct_witness :
  result_is (shaped [2; 2] ui8)
    (gatherOp sample (bytes [2; 2] [0; 1; 1; 2]) [1] [0] [] [] [0; 1] 1 [1; 2] false (shaped [2; 2] ui8))
    (fun t => get t [1; 1] = get sample [1; 2]).
Proof.
  assert (holds Unsigned 8 (fun i => nth_z [0; 1; 1; 2] (flat [2; 2] i)) (bytes [2; 2] [0; 1; 1; 2])) as Hv by holds_concrete.
  destruct (gather_correct Unsigned 8 (fun i => nth_z [0; 1; 1; 2] (flat [2; 2] i)) sample (bytes [2; 2] [0; 1; 1; 2])
    [1] [0] [] [] [0; 1] 1 [1; 2] (shaped [2; 2] ui8)) as (t & H1 & H2 & H3 & H4);
    [reflexivity|concrete|concrete|exact Hv|reflexivity|reflexivity|concrete|repeat constructor|].
  exists t. split; [exact H1|]. split; [exact H2|]. split; [exact H3|].
  refine (proj2 (H4 [1; 1] _)). unfold getTensorShape. rewrite H2. repeat constructor; discriminate.
Defined.

Lemma gather_empty_slice_faults_witness :
  exists type, inferGatherOp (shaped [3] ui8) (shaped [] ui8) [] [0] [] [] [0] 0 [0] = Ok type /\
    gatherOp (bytes [3] [2; 3; 4]) (scalar 5) [] [0] [] [] [0] 0 [0] false type
    = Err (Fatal "Incompatible index and shape found while flattening index").
Proof.
  refine (gather_empty_slice_faults Unsigned 8 (fun _ => 5) (bytes [3] [2; 3; 4]) (scalar 5) 3 _ _ _ _ _ _ _);
    [reflexivity|concrete|concrete|holds_concrete|reflexivity|reflexivity|discriminate].
Defined.
End Witnesses.
