(* ===== verification/ProcessGrid.v ===== *)
(** * The process grid

    [src/stablehlo/reference/ProcessGrid.h], [ProcessGrid.cpp] and
    [Process.cpp]: processes, the communication strategies that split them into
    groups, and the rendezvous, send and receive primitives.  Each primitive of
    the code takes a lock, waits on a condition variable (which releases the
    lock) and goes on when its predicate holds; so it is here two atomic
    sections, [enter] before the wait and [resume] after it, [ready] the
    predicate.  [step] interleaves the sections of all threads.  A wait that
    lasts 3 seconds is a fatal error, and time is not modelled: a thread whose
    predicate does not hold may time out at any moment, a thread whose predicate
    holds wakes up. *)
From stdpp Require Import sorting.
From S2P Require Import Prelude Types Support Index Element Tensor.

(** ** Processes and groups *)
Record ProcessId := MkProcessId { replicaId : Z; partitionId : Z }.

#[export] Instance ProcessId_eq_dec : EqDecision ProcessId.
Proof. solve_decision. Defined.
#[export] Instance ProcessId_countable : Countable ProcessId.
Proof.
  apply (inj_countable' (fun p => (replicaId p, partitionId p)) (fun '(r, p) => MkProcessId r p)). by intros [].
Defined.

(** [operator<=]: [operator<] is lexicographic. *)
Definition ProcessId_lt (x y : ProcessId) : bool :=
  (replicaId x <? replicaId y) || ((replicaId x =? replicaId y) && (partitionId x <? partitionId y)).

Definition ProcessId_le (x y : ProcessId) : Prop := ProcessId_lt y x = false.
#[export] Instance ProcessId_le_dec : RelDecision ProcessId_le.
Proof. intros x y. unfold ProcessId_le. apply _. Defined.

Abbreviation ProcessGroup := (list ProcessId) (only parsing).
Abbreviation ProcessGroups := (list (list ProcessId)) (only parsing).

Fixpoint findGroup (groups : ProcessGroups) (processId : ProcessId) : option ProcessGroup :=
  match groups with
  | [] => None
  | processGroup :: groups =>
      if decide (processId ∈ processGroup) then Some processGroup else findGroup groups processId
  end.

(** ** Communication strategies *)
Section Strategies.
Context (numReplicas numPartitions : Z).

Definition crossPartition (partitionGroups : list (list Z)) : ProcessGroups :=
  flat_map (fun partitionGroup =>
    (fun replicaId => (fun partitionId => MkProcessId replicaId partitionId) <$> partitionGroup)
      <$> seqZ 0 numReplicas) partitionGroups.

Definition crossReplica (replicaGroups : list (list Z)) : ProcessGroups :=
  flat_map (fun replicaGroup =>
    (fun partitionId => (fun replicaId => MkProcessId replicaId partitionId) <$> replicaGroup)
      <$> seqZ 0 numPartitions) replicaGroups.

Definition crossReplicaAndPartition (replicaGroups : list (list Z)) : ProcessGroups :=
  (fun replicaGroup =>
    flat_map (fun partitionId => (fun replicaId => MkProcessId replicaId partitionId) <$> replicaGroup)
      (seqZ 0 numPartitions)) <$> replicaGroups.

(** On [uint32_t]. *)
Definition flattenedIds (flattenedIdGroups : list (list Z)) : result ProcessGroups :=
  mapM (mapM (fun flattenedId =>
    if numPartitions =? 0 then Err (UB "division by zero")
    else Ok (MkProcessId (flattenedId / numPartitions) (flattenedId mod numPartitions)))) flattenedIdGroups.
End Strategies.

(** The dense attribute of replica groups: [-1] pads a row, and an [int64_t]
    becomes a [uint32_t]. *)
Definition getReplicaGroups (rows columns : Z) (values : list Z) : result (list (list Z)) :=
  fst <$> foldM (fun _ '(replicaGroups, it) =>
      '(replicaGroup, it) ← foldM (fun _ '(replicaGroup, it) =>
          replicaId ← at_z values it;
          Ok (if replicaId =? -1 then (replicaGroup, it + 1)
              else (replicaGroup ++ [replicaId mod 2 ^ 32], it + 1)))
        (seqZ 0 columns) ([], it);
      Ok (replicaGroups ++ [replicaGroup], it))
    (seqZ 0 rows) ([], 0).

Abbreviation ChannelId := Z (only parsing).

(** ** [RendezvousResult]: a [std::map], whose iteration is sorted by key *)
Abbreviation RendezvousResult := (gmap ProcessId (list Tensor)) (only parsing).

Definition rendezvous_lookup (r : RendezvousResult) (processId : ProcessId) : list Tensor :=
  default [] (r !! processId).

Definition sorted_keys (r : RendezvousResult) : list ProcessId :=
  merge_sort ProcessId_le (map_to_list r).*1.

Definition getSortedTensors (r : RendezvousResult) : list (list Tensor) :=
  rendezvous_lookup r <$> sorted_keys r.

(** [results_.begin()] is dereferenced, also when there is none. *)
Definition hasMatchingOperandsCount (r : RendezvousResult) : result bool :=
  match getSortedTensors r with
  | [] => Err (UB "begin of an empty map")
  | first :: _ as all => Ok (forallb (fun ts => bool_decide (length first = length ts)) all)
  end.

(** ** The grid *)
Record RendezvousState := MkRendezvous {
  values : RendezvousResult; useCount : Z; result_ : RendezvousResult;
}.
Definition new_rendezvous : RendezvousState := MkRendezvous ∅ 0 ∅.

Record Grid := MkGrid {
  infeed_ : list string;
  outfeed_ : list (list Tensor);
  sendRecvChannels_ : gmap Z (list Tensor);
  sendRecvReady_ : gset Z;
  channels_ : gmap (list ProcessId * Z) RendezvousState;
}.

(** [ThreadSafeMap::operator[]] makes the entry when there is none. *)
Definition channel (grid : Grid) (key : list ProcessId * Z) : RendezvousState :=
  default new_rendezvous (channels_ grid !! key).
Definition sendRecvChannel (grid : Grid) (channelId : ChannelId) : list Tensor :=
  default [] (sendRecvChannels_ grid !! channelId).

Definition with_channel (grid : Grid) (key : list ProcessId * Z) (state : RendezvousState) : Grid :=
  MkGrid (infeed_ grid) (outfeed_ grid) (sendRecvChannels_ grid) (sendRecvReady_ grid)
    (<[key := state]> (channels_ grid)).
Definition with_sendRecv (grid : Grid) (channelId : ChannelId) (ts : list Tensor) (ready : gset Z) : Grid :=
  MkGrid (infeed_ grid) (outfeed_ grid) (<[channelId := ts]> (sendRecvChannels_ grid)) ready (channels_ grid).

(** ** [rendezvous] *)

(** After the wait: the last process to leave moves the result out.  The map it
    moves from is taken to be empty afterwards. *)
Definition rendezvous_leave (grid : Grid) (key : list ProcessId * Z) : result (Grid * RendezvousResult) :=
  let state := channel grid key in
  let useCount := useCount state - 1 in
  matching ← hasMatchingOperandsCount (result_ state);
  if negb matching then Err (Fatal "Mismatched number of operands per process")
  else
    let left := if 0 <? useCount then result_ state else ∅ in
    Ok (with_channel grid key (MkRendezvous (values state) useCount left), result_ state).

(** Up to the wait.  [state.result = std::move(state.values)] calls the
    converting constructor, which takes a reference to const: it copies. *)
Definition rendezvous_arrive (grid : Grid) (processGroup : ProcessGroup) (channelId : ChannelId)
    (processId : ProcessId) (operands : list Tensor) : result (Grid * option RendezvousResult) :=
  if decide (length processGroup = 1%nat) then Ok (grid, Some {[processId := operands]})
  else
    let key := (processGroup, channelId) in
    let state := channel grid key in
    let values := <[processId := operands]> (values state) in
    let useCount := useCount state + 1 in
    if decide (size values < length processGroup)%nat then
      Ok (with_channel grid key (MkRendezvous values useCount (result_ state)), None)
    else
      '(grid, r) ← rendezvous_leave (with_channel grid key (MkRendezvous values useCount values)) key;
      Ok (grid, Some r).

Definition rendezvous_ready (grid : Grid) (processGroup : ProcessGroup) (channelId : ChannelId) : bool :=
  bool_decide (size (values (channel grid (processGroup, channelId))) = length processGroup).

(** ** [send] and [recv] *)
Definition recv_ready (grid : Grid) (channelId : ChannelId) : bool :=
  match sendRecvChannel grid channelId with [] => false | _ => true end.
Definition recv_take (grid : Grid) (channelId : ChannelId) : Grid * list Tensor :=
  (with_sendRecv grid channelId [] (sendRecvReady_ grid), sendRecvChannel grid channelId).
Definition recv_enter (grid : Grid) (channelId : ChannelId) : Grid :=
  with_sendRecv grid channelId (sendRecvChannel grid channelId) ({[channelId]} ∪ sendRecvReady_ grid).

Definition send_ready (grid : Grid) (channelId : ChannelId) : bool :=
  bool_decide (channelId ∈ sendRecvReady_ grid).
Definition send_put (grid : Grid) (channelId : ChannelId) (inputs : list Tensor) : Grid :=
  with_sendRecv grid channelId inputs (sendRecvReady_ grid ∖ {[channelId]}).

(** ** Effects of a process on the grid *)
Inductive Effect :=
| Rendezvous (processGroup : list ProcessId) (channelId : Z) (operands : list Tensor)
| Recv (channelId : Z)
| Send (inputs : list Tensor) (channelId : Z)
| Infeed
| Outfeed (inputs : list Tensor).

Definition Reply (e : Effect) : Type :=
  match e with
  | Rendezvous _ _ _ => RendezvousResult
  | Recv _ => list Tensor
  | Send _ _ | Outfeed _ => ()
  | Infeed => string
  end.

(** The section up to the wait; [None] when the thread waits. *)
Definition enter (grid : Grid) (id : ProcessId) (e : Effect) : result (Grid * option (Reply e)) :=
  match e with
  | Rendezvous processGroup channelId operands => rendezvous_arrive grid processGroup channelId id operands
  | Recv channelId =>
      let grid := recv_enter grid channelId in
      if recv_ready grid channelId then
        let '(grid, ts) := recv_take grid channelId in Ok (grid, Some ts)
      else Ok (grid, None)
  | Send inputs channelId =>
      if send_ready grid channelId then Ok (send_put grid channelId inputs, Some ()) else Ok (grid, None)
  | Infeed =>
      match infeed_ grid with
      | [] => Err (UB "front of an empty queue")
      | name :: rest =>
          Ok (MkGrid rest (outfeed_ grid) (sendRecvChannels_ grid) (sendRecvReady_ grid) (channels_ grid), Some name)
      end
  | Outfeed inputs =>
      Ok (MkGrid (infeed_ grid) (outfeed_ grid ++ [inputs]) (sendRecvChannels_ grid) (sendRecvReady_ grid)
            (channels_ grid), Some ())
  end.

(** The predicate of the wait, and the section after it; [Infeed] and [Outfeed]
    do not wait. *)
Definition ready (grid : Grid) (e : Effect) : bool :=
  match e with
  | Rendezvous processGroup channelId _ => rendezvous_ready grid processGroup channelId
  | Recv channelId => recv_ready grid channelId
  | Send _ channelId => send_ready grid channelId
  | Infeed | Outfeed _ => true
  end.

Definition resume (grid : Grid) (e : Effect) : result (Grid * Reply e) :=
  match e with
  | Rendezvous processGroup channelId _ => rendezvous_leave grid (processGroup, channelId)
  | Recv channelId => Ok (recv_take grid channelId)
  | Send inputs channelId => Ok (send_put grid channelId inputs, ())
  | Infeed => Err (UB "front of an empty queue")
  | Outfeed _ => Ok (grid, ())
  end.

(** ** Code that a process runs: it returns, fails or performs an effect *)
Inductive proc (A : Type) :=
| Return (r : result A)
| Perform (e : Effect) (k : Reply e -> proc A).

Arguments Return {A} r.
Arguments Perform {A} e k.

Fixpoint proc_bind {A B} (k : A -> proc B) (m : proc A) : proc B :=
  match m with
  | Return (Ok a) => k a
  | Return (Err f) => Return (Err f)
  | Perform e k' => Perform e (fun r => proc_bind k (k' r))
  end.

#[export] Instance proc_ret : MRet proc := fun A a => Return (Ok a).
#[export] Instance proc_mbind : MBind proc := fun A B k m => proc_bind k m.
#[export] Instance proc_lift : MLift proc := fun A m => Return m.

Definition perform (e : Effect) : proc (Reply e) := Perform e (fun r => Return (Ok r)).

(** ** Threads *)
Record Thread (A : Type) := MkThread { code : proc A; waiting : bool }.
Arguments MkThread {A} code waiting.
Arguments code {A} t.
Arguments waiting {A} t.

(** A fatal error ends the program. *)
Inductive State (A : Type) :=
| Running (grid : Grid) (threads : gmap ProcessId (Thread A))
| Crashed (f : fault).
Arguments Running {A} grid threads.
Arguments Crashed {A} f.

Inductive Action := Go | TimeOut.

Definition timed_out (e : Effect) : fault :=
  match e with
  | Rendezvous _ _ _ => Fatal "rendezvous timed out"
  | Recv _ => Fatal "recv timed out"
  | _ => Fatal "send timed out"
  end.

(** One step of the thread [id]; [None] when it has none. *)
Definition step_thread {A} (id : ProcessId) (action : Action) (s : State A) : option (State A) :=
  match s with
  | Crashed _ => None
  | Running grid threads =>
      match threads !! id with
      | None => None
      | Some th =>
          match code th with
          | Return (Ok _) => None
          | Return (Err f) => match action with Go => Some (Crashed f) | TimeOut => None end
          | Perform e k =>
              match action, waiting th with
              | Go, false =>
                  match enter grid id e with
                  | Err f => Some (Crashed f)
                  | Ok (grid, Some r) => Some (Running grid (<[id := MkThread (k r) false]> threads))
                  | Ok (grid, None) => Some (Running grid (<[id := MkThread (Perform e k) true]> threads))
                  end
              | Go, true =>
                  if ready grid e then
                    match resume grid e with
                    | Err f => Some (Crashed f)
                    | Ok (grid, r) => Some (Running grid (<[id := MkThread (k r) false]> threads))
                    end
                  else None
              | TimeOut, true => if ready grid e then None else Some (Crashed (timed_out e))
              | TimeOut, false => None
              end
          end
      end
  end.

Definition step {A} (s s' : State A) : Prop := exists id action, step_thread id action s = Some s'.

(** A step in which no wait times out. *)
Definition timely {A} (s s' : State A) : Prop := exists id, step_thread id Go s = Some s'.

Fixpoint run {A} (schedule : list ProcessId) (s : State A) : option (State A) :=
  match schedule with
  | [] => Some s
  | id :: schedule => s' ← step_thread id Go s; run schedule s'
  end.

Definition start {A} (grid : Grid) (programs : gmap ProcessId (proc A)) : State A :=
  Running grid ((fun p => MkThread p false) <$> programs).

(** The value a process returned. *)
Definition returned {A} (s : State A) (id : ProcessId) : option A :=
  match s with
  | Crashed _ => None
  | Running _ threads =>
      match code <$> threads !! id with
      | Some (Return (Ok a)) => Some a
      | _ => None
      end
  end.
