(* ===== verification/ProcessGridFacts.v ===== *)
(** * Communication strategies partition the grid; rendezvous is a barrier, once *)
From stdpp Require Import sorting.
From S2P Require Import Prelude Types Support Index Element Tensor OpsPermute ProcessGrid.

(** ** Strategies *)
Definition processes (numReplicas numPartitions : Z) : list ProcessId :=
  flat_map (fun r => MkProcessId r <$> seqZ 0 numPartitions) (seqZ 0 numReplicas).

Lemma flat_map_app_perm {A B} (f g : A -> list B) l :
  flat_map (fun x => f x ++ g x) l ≡ₚ flat_map f l ++ flat_map g l.
Proof. induction l as [|a l IH]; [done|]. cbn [flat_map]. rewrite IH. solve_Permutation. Qed.

Lemma flat_map_swap {A B C} (f : A -> B -> C) (l : list A) (m : list B) :
  flat_map (fun a => (fun b => f a b) <$> m) l ≡ₚ flat_map (fun b => (fun a => f a b) <$> l) m.
Proof.
  induction l as [|a l IH].
  - cbn. by induction m.
  - cbn [flat_map]. rewrite IH.
    change (flat_map (fun b => (fun a => f a b) <$> (a :: l)) m)
      with (flat_map (fun b => [f a b] ++ ((fun a => f a b) <$> l)) m).
    rewrite (flat_map_app_perm (fun b => [f a b])). f_equiv. clear.
    induction m as [|b m IH]; [done|]. cbn. by rewrite IH.
Qed.

#[export] Instance flat_map_Permutation {A B} (f : A -> list B) : Proper ((≡ₚ) ==> (≡ₚ)) (flat_map f).
Proof.
  induction 1; cbn [flat_map]; [done|by f_equiv|solve_Permutation|by etrans].
Qed.

Lemma concat_cross {A B C} (f : A -> B -> C) (groups : list (list A)) (l : list B) :
  flat_map (fun group => flat_map (fun b => (fun a => f a b) <$> group) l) groups
  ≡ₚ flat_map (fun a => (fun b => f a b) <$> l) (concat groups).
Proof.
  induction groups as [|g groups IH]; [done|]. cbn [flat_map concat]. rewrite IH, flat_map_app.
  f_equiv. by rewrite <- flat_map_swap.
Qed.

Lemma concat_flat_map_map {A B C} (f : A -> B -> list C) (l : list B) (groups : list A) :
  concat (flat_map (fun g => (fun b => f g b) <$> l) groups) = flat_map (fun g => flat_map (fun b => f g b) l) groups.
Proof.
  induction groups as [|g groups IH]; [done|]. cbn [flat_map]. rewrite concat_app, IH. f_equal. by rewrite flat_map_concat_map.
Qed.

Lemma elem_of_processes nr np p :
  p ∈ processes nr np <-> 0 <= replicaId p < nr /\ 0 <= partitionId p < np.
Proof.
  unfold processes. rewrite list_elem_of_In, in_flat_map. setoid_rewrite <- list_elem_of_In. split.
  - intros (r & Hr%elem_of_seqZ & (q & -> & Hq%elem_of_seqZ)%list_elem_of_fmap). cbn. lia.
  - intros [Hr Hp]. exists (replicaId p). split; [apply elem_of_seqZ; lia|].
    apply list_elem_of_fmap. exists (partitionId p). destruct p. split; [done|]. apply elem_of_seqZ. cbn in *. lia.
Qed.

Lemma NoDup_processes nr np : NoDup (processes nr np).
Proof.
  unfold processes. assert (NoDup (seqZ 0 nr)) as Hnd by apply NoDup_seqZ.
  induction Hnd as [|r rs Hr Hnd IH]; cbn [flat_map]; [constructor|]. apply NoDup_app. split; [|split; [|done]].
  - apply NoDup_fmap; [|apply NoDup_seqZ]. by intros ?? [=].
  - intros p (q & -> & _)%list_elem_of_fmap (r' & Hr' & Hin)%list_elem_of_In%in_flat_map.
    apply list_elem_of_In, list_elem_of_fmap in Hin as (? & [= -> ->] & _). by apply Hr, list_elem_of_In.
Qed.

Lemma findGroup_spec groups p :
  NoDup (concat groups) -> p ∈ concat groups ->
  exists group, findGroup groups p = Some group /\ group ∈ groups /\ p ∈ group /\
    forall group', group' ∈ groups -> p ∈ group' -> group' = group.
Proof.
  induction groups as [|g groups IH]; cbn [concat findGroup]; [by intros _ ?%elem_of_nil|].
  intros (Hg & Hd & Hnd)%NoDup_app Hp. case_decide as Hin.
  - exists g. split; [done|]. split; [left|]. split; [done|].
    intros g' [->|Hg']%elem_of_cons Hp'; [done|]. exfalso. apply (Hd p Hin).
    apply list_elem_of_In, in_concat. exists g'. by split; apply list_elem_of_In.
  - apply elem_of_app in Hp as [?|Hp]; [done|]. destruct (IH Hnd Hp) as (g' & E & Hg' & Hp' & Hu).
    exists g'. split; [done|]. split; [by right|]. split; [done|].
    intros g'' [->|Hg'']%elem_of_cons Hp''; [done|]. by apply Hu.
Qed.

Definition flattened (np id : Z) : ProcessId := MkProcessId (id / np) (id mod np).

Lemma flattenedIds_ok np groups : 0 < np -> flattenedIds np groups = Ok (map (map (flattened np)) groups).
Proof.
  intros Hnp. unfold flattenedIds. rewrite (proj2 (Z.eqb_neq np 0)) by lia.
  induction groups as [|g groups IH]; cbn [mapM map]; [done|].
  assert (mapM (fun id => Ok (MkProcessId (id / np) (id mod np))) g = Ok (map (flattened np) g)) as ->.
  { clear. induction g as [|i g IH]; [done|]. cbn [mapM map]. cbind. by rewrite IH. }
  cbind. by rewrite IH.
Qed.

Lemma flattened_processes nr np :
  0 <= nr -> 0 < np -> map (flattened np) (seqZ 0 (nr * np)) ≡ₚ processes nr np.
Proof.
  intros Hnr Hnp. apply NoDup_Permutation; [|apply NoDup_processes|].
  - apply NoDup_fmap_2_strong; [|apply NoDup_seqZ]. intros x y _ _ [= Hd Hm].
    rewrite (Z.div_mod x np), (Z.div_mod y np) by lia. by rewrite Hd, Hm.
  - intros p. rewrite elem_of_processes, list_elem_of_fmap. setoid_rewrite elem_of_seqZ. split.
    + intros (id & -> & Hid). cbn. pose proof (Z.mod_pos_bound id np Hnp).
      split; [|done]. split; [apply Z.div_pos; lia|]. apply Z.div_lt_upper_bound; [done|]. lia.
    + intros [Hr Hp]. exists (replicaId p * np + partitionId p). destruct p as [r q]. cbn in *. split; [|nia].
      unfold flattened. rewrite Z.add_comm, Z.div_add, Z.mod_add, Z.div_small, Z.mod_small by lia. done.
Qed.

(** C9: replica groups that partition the replicas, partition groups that
    partition the partitions, or flattened ids that partition the grid, give
    process groups that partition the processes of the grid: every process is in
    exactly one group, and [findGroup] finds it. *)
Theorem strategies_partition numReplicas numPartitions groups processGroups :
  0 <= numReplicas -> 0 < numPartitions ->
  (concat groups ≡ₚ seqZ 0 numReplicas /\
     (processGroups = crossReplica numPartitions groups \/
      processGroups = crossReplicaAndPartition numPartitions groups)) \/
  (concat groups ≡ₚ seqZ 0 numPartitions /\ processGroups = crossPartition numReplicas groups) \/
  (concat groups ≡ₚ seqZ 0 (numReplicas * numPartitions) /\ flattenedIds numPartitions groups = Ok processGroups) ->
  concat processGroups ≡ₚ processes numReplicas numPartitions /\
  forall p, p ∈ processes numReplicas numPartitions ->
    exists group, findGroup processGroups p = Some group /\ group ∈ processGroups /\ p ∈ group /\
      forall group', group' ∈ processGroups -> p ∈ group' -> group' = group.
Proof.
  intros Hnr Hnp Hcases.
  assert (concat processGroups ≡ₚ processes numReplicas numPartitions) as Hperm.
  { destruct Hcases as [[Hg [-> | ->]]|[[Hg ->]|[Hg Hids]]].
    - unfold crossReplica. rewrite concat_flat_map_map, concat_cross. by rewrite Hg.
    - unfold crossReplicaAndPartition. rewrite <- flat_map_concat_map, concat_cross. by rewrite Hg.
    - unfold crossPartition. rewrite concat_flat_map_map, (concat_cross (fun p r => MkProcessId r p)), Hg.
      by rewrite flat_map_swap.
    - rewrite flattenedIds_ok in Hids by done. injection Hids as <-.
      rewrite <- flattened_processes, <- Hg by done. by rewrite concat_map. }
  split; [done|]. intros p Hp. apply findGroup_spec; rewrite Hperm; [apply NoDup_processes|done].
Qed.

(** ** Sets of processes that grow *)
Lemma size_add_new `{Countable K} (x : K) (X : gset K) : x ∉ X -> size ({[x]} ∪ X) = S (size X).
Proof. intros Hx. rewrite size_union, size_singleton by set_solver. lia. Qed.

Lemma missing_element `{Countable K} (X Y : gset K) :
  X ⊆ Y -> X <> Y -> exists x, (x ∈ Y) /\ (x ∉ X) /\ (size X < size Y)%nat.
Proof.
  intros Hs Hne. assert (X ⊂ Y) as Hss.
  { split; [done|]. intros Hs'. apply Hne. by apply (anti_symm (⊆)). }
  destruct (set_choose_L (Y ∖ X)) as [x [HxY HxX]%elem_of_difference]; [by apply non_empty_difference_L|].
  exists x. split; [done|]. split; [done|]. by apply subset_size.
Qed.

(** ** Results and channels *)
Lemma elem_of_sorted_keys (r : gmap ProcessId (list Tensor)) id : id ∈ sorted_keys r <-> id ∈ dom r.
Proof.
  unfold sorted_keys. rewrite merge_sort_Permutation, list_elem_of_fmap, elem_of_dom. split.
  - intros ([j ts] & -> & Hj%elem_of_map_to_list). by eexists.
  - intros [ts Hts]. exists (id, ts). split; [done|]. by apply elem_of_map_to_list.
Qed.

Lemma length_sorted_keys (r : gmap ProcessId (list Tensor)) : length (sorted_keys r) = size r.
Proof. unfold sorted_keys. by rewrite merge_sort_Permutation, length_fmap, length_map_to_list. Qed.

Lemma matching_ok (r : gmap ProcessId (list Tensor)) n :
  r <> ∅ -> map_Forall (fun _ ts => length ts = n) r -> hasMatchingOperandsCount r = Ok true.
Proof.
  intros Hne Hall. unfold hasMatchingOperandsCount, getSortedTensors.
  assert (forall ts, ts ∈ rendezvous_lookup r <$> sorted_keys r -> length ts = n) as Hlen.
  { intros ts (id & -> & [ts' Hts]%elem_of_sorted_keys%elem_of_dom)%list_elem_of_fmap.
    unfold rendezvous_lookup. rewrite Hts. by apply (Hall id). }
  pose proof (length_sorted_keys r) as Hl. destruct (_ <$> _) as [|ts tss] eqn:E.
  - apply fmap_nil_inv in E. rewrite E in Hl. symmetry in Hl. by apply map_size_empty_inv in Hl.
  - f_equal. apply forallb_forall. intros ts' Hts'%list_elem_of_In. apply bool_decide_eq_true.
    by rewrite (Hlen ts), (Hlen ts') by (first [done | left | by right]).
Qed.

Lemma channel_with grid key state : channel (with_channel grid key state) key = state.
Proof. unfold channel, with_channel. cbn. by rewrite lookup_insert_eq. Qed.

(** ** Steps of a thread *)
Section Steps.
Context {A : Type} (grid grid' : Grid) (threads : gmap ProcessId (Thread A)) (id : ProcessId) (e : Effect)
  (k : Reply e -> proc A).

Lemma step_waits :
  threads !! id = Some (MkThread (Perform e k) false) -> enter grid id e = Ok (grid', None) ->
  step_thread id Go (Running grid threads) = Some (Running grid' (<[id := MkThread (Perform e k) true]> threads)).
Proof. intros Ht He. cbn [step_thread]. rewrite Ht. cbn [code waiting]. by rewrite He. Qed.

Lemma step_passes r :
  threads !! id = Some (MkThread (Perform e k) false) -> enter grid id e = Ok (grid', Some r) ->
  step_thread id Go (Running grid threads) = Some (Running grid' (<[id := MkThread (k r) false]> threads)).
Proof. intros Ht He. cbn [step_thread]. rewrite Ht. cbn [code waiting]. by rewrite He. Qed.

Lemma step_wakes r :
  threads !! id = Some (MkThread (Perform e k) true) -> ready grid e = true -> resume grid e = Ok (grid', r) ->
  step_thread id Go (Running grid threads) = Some (Running grid' (<[id := MkThread (k r) false]> threads)).
Proof. intros Ht He Hr. cbn [step_thread]. rewrite Ht. cbn [code waiting]. by rewrite He, Hr. Qed.
End Steps.

(** ** Rendezvous *)
Section Rendezvous.
Context {A : Type} (group : list ProcessId) (channelId : Z) (ops : ProcessId -> list Tensor) (n : nat).
(** What a process goes on with after the rendezvous. *)
Context (finish : ProcessId -> Reply (Rendezvous group channelId []) -> proc A).
Context (Hgroup : NoDup group) (Hsize : (2 <= length group)%nat).
Context (Hops : forall id, id ∈ group -> length (ops id) = n).

Let G : gset ProcessId := list_to_set group.
Let key := (group, channelId).

(** The operands of the processes in [X]. *)
Definition contributed (X : gset ProcessId) : gmap ProcessId (list Tensor) :=
  map_imap (fun id _ => Some (ops id)) (gset_to_gmap () X).

Definition meets (id : ProcessId) : proc A :=
  Perform (Rendezvous group channelId (ops id)) (finish id).

Lemma lookup_contributed X id : contributed X !! id = if decide (id ∈ X) then Some (ops id) else None.
Proof.
  unfold contributed. rewrite map_lookup_imap, lookup_gset_to_gmap. case_decide.
  - by rewrite option_guard_True.
  - by rewrite option_guard_False.
Qed.

Lemma dom_contributed X : dom (contributed X) = X.
Proof.
  apply set_eq. intros id. rewrite elem_of_dom, lookup_contributed.
  case_decide; split; [done|by eexists|by intros []|done].
Qed.

Lemma size_contributed X : size (contributed X) = size X.
Proof. by rewrite <- size_dom, dom_contributed. Qed.

Lemma insert_contributed X id : <[id := ops id]> (contributed X) = contributed ({[id]} ∪ X).
Proof.
  apply map_eq. intros j. rewrite lookup_contributed. destruct (decide (id = j)) as [->|Hne].
  - rewrite lookup_insert_eq, decide_True by set_solver. done.
  - rewrite lookup_insert_ne, lookup_contributed by done. repeat case_decide; set_solver.
Qed.

Lemma size_G : size G = length group.
Proof. by apply size_list_to_set. Qed.

Lemma matching_contributed : hasMatchingOperandsCount (contributed G) = Ok true.
Proof.
  apply (matching_ok _ n).
  - intros HE. apply (f_equal size) in HE. rewrite size_contributed, size_G, map_size_empty in HE. lia.
  - intros id ts. rewrite lookup_contributed. case_decide; intros [= <-]. apply Hops. set_solver.
Qed.

(** [arrived] have contributed, [left] have taken the result. *)
Definition status (arrived left : gset ProcessId) (id : ProcessId) : Thread A :=
  if decide (id ∈ left) then MkThread (finish id (contributed G)) false
  else MkThread (meets id) (bool_decide (id ∈ arrived)).

Record meeting (arrived left : gset ProcessId) (grid : Grid) (threads : gmap ProcessId (Thread A)) : Prop := {
  meeting_arrived : arrived ⊆ G;
  meeting_left : left ⊆ arrived;
  meeting_threads id : threads !! id = if decide (id ∈ G) then Some (status arrived left id) else None;
  meeting_values : values (channel grid key) = contributed arrived;
  meeting_count : useCount (channel grid key) = Z.of_nat (size arrived) - Z.of_nat (size left);
  meeting_early : arrived <> G -> left = ∅;
  meeting_result : arrived = G -> left <> G -> result_ (channel grid key) = contributed G;
}.

Lemma status_arrive arrived left id j :
  id ∉ left -> j <> id -> status ({[id]} ∪ arrived) left j = status arrived left j.
Proof.
  intros Hid Hj. unfold status. case_decide; [done|]. f_equal. apply bool_decide_ext. set_solver.
Qed.

Lemma status_leave arrived left id j : j <> id -> status arrived ({[id]} ∪ left) j = status arrived left j.
Proof. intros Hj. unfold status. repeat case_decide; set_solver. Qed.

Lemma status_waits arrived left id :
  id ∉ left -> status arrived left id = MkThread (meets id) (bool_decide (id ∈ arrived)).
Proof. intros Hid. unfold status. by rewrite decide_False. Qed.

(** Leaving: possible as soon as everyone has arrived. *)
Lemma leave_step left grid threads id :
  meeting G left grid (<[id := MkThread (meets id) true]> threads) -> id ∈ G -> id ∉ left ->
  exists grid', rendezvous_leave grid key = Ok (grid', contributed G) /\
    meeting G ({[id]} ∪ left) grid' (<[id := MkThread (finish id (contributed G)) false]> threads).
Proof.
  intros [Ha Hl Ht Hv Hc He Hr] Hid Hnl.
  assert (left <> G) as Hne by set_solver. specialize (Hr eq_refl Hne).
  unfold rendezvous_leave. rewrite Hr, matching_contributed. cbind. cbn [negb].
  eexists. split; [done|].
  pose proof (size_add_new id left Hnl) as Hs.
  split; rewrite ?channel_with; cbn [values useCount result_]; [done|set_solver| |done|lia|done|].
  - intros j. specialize (Ht j). destruct (decide (id = j)) as [<-|Hj].
    + rewrite lookup_insert_eq, decide_True by done. unfold status. by rewrite decide_True by set_solver.
    + rewrite lookup_insert_ne in Ht |- * by done. by rewrite Ht, status_leave.
  - intros _ Hne'. assert (size ({[id]} ∪ left) < size G)%nat by (apply subset_size; set_solver).
    rewrite (proj2 (Z.ltb_lt 0 _)) by lia. done.
Qed.

(** Arriving: the last process leaves at once. *)
Lemma arrive_step arrived left grid threads id :
  meeting arrived left grid threads -> id ∈ G -> id ∉ arrived ->
  exists arrived' left' grid' threads',
    step_thread id Go (Running grid threads) = Some (Running grid' threads') /\
    meeting arrived' left' grid' threads' /\ (size arrived' = S (size arrived) /\ size left <= size left')%nat.
Proof.
  intros [Ha Hl Ht Hv Hc He Hr] Hid Hna.
  assert (left = ∅) as -> by (apply He; set_solver).
  pose proof (size_add_new id arrived Hna) as Hs.
  cbn [step_thread]. rewrite Ht, decide_True by done. rewrite status_waits, bool_decide_false by set_solver. cbn [code waiting meets enter].
  unfold rendezvous_arrive. rewrite decide_False by lia. fold key.
  rewrite Hv, insert_contributed, size_contributed, <- size_G, Hc, size_empty.
  assert (forall j, (<[id := MkThread (meets id) true]> threads) !! j
    = if decide (j ∈ G) then Some (status ({[id]} ∪ arrived) ∅ j) else None) as Hwait.
  { intros j. destruct (decide (id = j)) as [<-|Hj].
    - rewrite lookup_insert_eq, decide_True by done. by rewrite status_waits, bool_decide_true by set_solver.
    - rewrite lookup_insert_ne, Ht, status_arrive by set_solver. done. }
  case_decide as Hlt.
  - eexists ({[id]} ∪ arrived), ∅, _, _. split; [done|]. split; [|split; [exact Hs|lia]].
    split; rewrite ?channel_with; cbn [values useCount result_];
      [set_solver|set_solver|exact Hwait|done|rewrite size_empty; lia|done|].
    intros HG. rewrite HG in Hlt. lia.
  - assert ({[id]} ∪ arrived = G) as HG.
    { apply set_subseteq_size_eq; [set_solver|lia]. }
    rewrite HG.
    destruct (leave_step ∅ (with_channel grid key (MkRendezvous (contributed G) (Z.of_nat (size arrived) - Z.of_nat 0 + 1) (contributed G)))
      threads id) as (grid' & E & HM'); [|done|set_solver|].
    + split; rewrite ?channel_with; cbn [values useCount result_]; [done|set_solver| |done|rewrite size_empty, <- HG; lia|done|done].
      intros j. by rewrite Hwait, HG.
    + rewrite E. cbind. eexists G, _, _, _. split; [done|]. split; [exact HM'|]. split; [by rewrite <- Hs, HG|lia].
Qed.

(** ** The invariant along every interleaving *)
Definition barrier (s : State A) : Prop :=
  s = Crashed (Fatal "rendezvous timed out") \/
  exists arrived left grid threads, s = Running grid threads /\ meeting arrived left grid threads.

Hypothesis Hfinish : forall id, id ∈ group -> exists a, finish id (contributed G) = Return (Ok a).

Lemma wake_step left grid threads id :
  meeting G left grid threads -> id ∈ G -> id ∉ left ->
  exists grid' threads', step_thread id Go (Running grid threads) = Some (Running grid' threads') /\
    meeting G ({[id]} ∪ left) grid' threads'.
Proof.
  intros HM Hid Hnl. pose proof HM as [_ _ Ht Hv _ _ _].
  assert (threads !! id = Some (MkThread (meets id) true)) as Hth.
  { rewrite Ht, decide_True, status_waits by done. by rewrite bool_decide_true. }
  destruct (leave_step left grid threads id) as (grid' & E & HM'); [by rewrite insert_id|done|done|].
  exists grid', (<[id := MkThread (finish id (contributed G)) false]> threads). split; [|done].
  cbn [step_thread]. rewrite Hth. cbn [code waiting meets ready resume]. unfold rendezvous_ready. fold key.
  rewrite Hv, size_contributed, size_G, bool_decide_true, E by done. done.
Qed.

Lemma barrier_step s s' : barrier s -> step s s' -> barrier s'.
Proof.
  intros [->|(arrived & left & grid & threads & -> & HM)] (id & action & Hst); [by destruct action|].
  pose proof HM as [Ha Hl Ht Hv Hc He Hr]. pose proof Hst as Hst'. cbn [step_thread] in Hst'. rewrite Ht in Hst'.
  case_decide as Hid; [|done].
  destruct (decide (id ∈ left)) as [Hin|Hout].
  { unfold status in Hst'. rewrite decide_True in Hst' by done. cbn [code] in Hst'.
    destruct (Hfinish id) as [a Hf]; [set_solver|]. by rewrite Hf in Hst'. }
  rewrite status_waits in Hst' by done. cbn [code waiting meets] in Hst'.
  destruct (decide (id ∈ arrived)) as [Hia|Hna].
  - rewrite bool_decide_true in Hst' by done. destruct (decide (arrived = G)) as [->|Hne].
    + destruct (wake_step left grid threads id HM Hid Hout) as (grid' & threads' & E & HM').
      destruct action.
      * rewrite E in Hst. injection Hst as <-. right. by eexists _, _, _, _.
      * cbn [ready] in Hst'. unfold rendezvous_ready in Hst'. fold key in Hst'.
        by rewrite Hv, size_contributed, size_G, bool_decide_true in Hst' by done.
    + assert (size arrived < size G)%nat as Hlt by (apply subset_size; set_solver).
      cbn [ready] in Hst'. unfold rendezvous_ready in Hst'. fold key in Hst'.
      rewrite Hv, size_contributed, <- size_G, bool_decide_false in Hst' by lia.
      destruct action; [done|]. injection Hst' as <-. by left.
  - rewrite bool_decide_false in Hst' by done. destruct action; [|done].
    destruct (arrive_step arrived left grid threads id HM Hid Hna) as (a' & l' & g' & t' & E & HM' & _).
    rewrite E in Hst. injection Hst as <-. right. by eexists _, _, _, _.
Qed.

(** From any meeting everybody can arrive and leave. *)
Lemma meeting_completes m : forall arrived left grid threads,
  m = ((size G - size arrived) + (size G - size left))%nat -> meeting arrived left grid threads ->
  exists grid' threads', rtc timely (Running grid threads) (Running grid' threads') /\ meeting G G grid' threads'.
Proof.
  induction m as [m IH] using (well_founded_induction lt_wf). intros arrived left grid threads -> HM.
  pose proof HM as [Ha Hl Ht Hv Hc He Hr].
  pose proof (subseteq_size _ _ Ha). pose proof (subseteq_size _ _ Hl).
  destruct (decide (arrived = G)) as [->|Hne].
  - destruct (decide (left = G)) as [->|Hnl]; [exists grid, threads; by split; [apply rtc_refl|]|].
    destruct (missing_element left G Hl Hnl) as (id & Hid & Hout & Hlt).
    destruct (wake_step left grid threads id HM Hid Hout) as (grid1 & threads1 & E & HM1).
    pose proof (size_add_new id left Hout) as Hs.
    edestruct (IH (size G - size G + (size G - size ({[id]} ∪ left)))%nat) as (grid2 & threads2 & Hrtc & HM2);
      [lia|reflexivity|exact HM1|].
    exists grid2, threads2. split; [|done]. eapply rtc_l; [by exists id|done].
  - destruct (missing_element arrived G Ha Hne) as (id & Hid & Hout & Hlt).
    destruct (arrive_step arrived left grid threads id HM Hid Hout) as (a1 & l1 & grid1 & threads1 & E & HM1 & Hs & Hs').
    edestruct (IH (size G - size a1 + (size G - size l1))%nat) as (grid2 & threads2 & Hrtc & HM2);
      [lia|reflexivity|exact HM1|].
    exists grid2, threads2. split; [|done]. eapply rtc_l; [by exists id|done].
Qed.

Definition all_meet : gmap ProcessId (proc A) := list_to_map ((fun id => (id, meets id)) <$> group).

Lemma meeting_start grid : channels_ grid !! key = None ->
  exists threads, start grid all_meet = Running grid threads /\ meeting ∅ ∅ grid threads.
Proof.
  intros Hkey. eexists. split; [done|].
  assert (channel grid key = new_rendezvous) as E by (unfold channel; by rewrite Hkey).
  split; rewrite ?E; cbn [values useCount result_ new_rendezvous]; [set_solver|done| |done|done|done|].
  - intros id. unfold all_meet. rewrite lookup_fmap. case_decide as Hid.
    + rewrite status_waits by set_solver. rewrite bool_decide_false by set_solver.
      rewrite (elem_of_list_to_map_1 _ id (meets id)); [done| |].
      * rewrite <- list_fmap_compose. cbn. by rewrite list_fmap_id.
      * apply list_elem_of_fmap. exists id. split; [done|]. set_solver.
    + rewrite not_elem_of_list_to_map_1; [done|]. rewrite <- list_fmap_compose. cbn. rewrite list_fmap_id. set_solver.
  - intros HG. apply (f_equal size) in HG. rewrite size_empty, size_G in HG. lia.
Qed.

Lemma returned_meeting arrived left grid threads id a :
  meeting arrived left grid threads -> returned (Running grid threads) id = Some a ->
  id ∈ left /\ arrived = G /\ finish id (contributed G) = Return (Ok a).
Proof.
  intros HM. pose proof HM as [Ha Hl Ht Hv Hc He Hr]. cbn [returned]. rewrite Ht.
  case_decide as Hid; [|done]. cbn [fmap option_fmap option_map]. unfold status. case_decide as Hin; [|done].
  cbn [code]. intros H. split; [done|]. split; [|by destruct (finish id (contributed G)) as [[]|]; simplify_eq].
  destruct (decide (arrived = G)); [done|]. rewrite He in Hin by done. set_solver.
Qed.

Lemma barrier_reachable grid s : channels_ grid !! key = None -> rtc step (start grid all_meet) s -> barrier s.
Proof.
  intros Hkey Hs. destruct (meeting_start grid Hkey) as (threads & E & HM). rewrite E in Hs.
  refine (rtc_ind_r barrier _ _ _ s Hs).
  - right. exists ∅, ∅, grid, threads. by split.
  - intros s1 s2 _ Hst Hb. by apply (barrier_step s1).
Qed.

Lemma barrier_no_timeout grid threads id0 a0 id :
  barrier (Running grid threads) -> returned (Running grid threads) id0 = Some a0 ->
  step_thread id TimeOut (Running grid threads) = None.
Proof.
  intros [[=]|(arrived & left & ? & ? & [= <- <-] & HM)] Hret.
  destruct (returned_meeting _ _ _ _ _ _ HM Hret) as (Hin & -> & _).
  pose proof HM as [Ha Hl Ht Hv Hc He Hr]. cbn [step_thread]. rewrite Ht. case_decide as Hid; [|done].
  unfold status. case_decide; cbn [code waiting].
  - destruct (Hfinish id) as [a ->]; [set_solver|done].
  - rewrite bool_decide_true by done. cbn [meets ready]. unfold rendezvous_ready. fold key.
    by rewrite Hv, size_contributed, size_G, bool_decide_true.
Qed.

Lemma barrier_completes grid threads :
  barrier (Running grid threads) ->
  exists s', rtc timely (Running grid threads) s' /\
    forall id, id ∈ group -> exists a, returned s' id = Some a /\ finish id (contributed G) = Return (Ok a).
Proof.
  intros [[=]|(arrived & left & ? & ? & [= <- <-] & HM)].
  destruct (meeting_completes _ _ _ _ _ eq_refl HM) as (grid' & threads' & Hrtc & HM').
  exists (Running grid' threads'). split; [done|]. intros id Hid. destruct (Hfinish id Hid) as [a Ha].
  exists a. split; [|done]. pose proof (meeting_threads _ _ _ _ HM' id) as Ht.
  cbn [returned]. rewrite Ht, decide_True by set_solver. unfold status. rewrite decide_True by set_solver.
  cbn. by rewrite Ha.
Qed.
End Rendezvous.

(** C6: when the processes of a group, and no other, meet for the first time on
    their channel, each with equally many operands, and what they go on with is
    local and returns, then along every interleaving of their threads: no process goes on before all have arrived,
    and each goes on with the operands of all of them; the only error is a
    time-out, which is impossible once a process has gone on; and until a wait
    times out, all of them can still go on. *)
Theorem rendezvous_barrier {A} group channelId ops n (finish : ProcessId -> gmap ProcessId (list Tensor) -> proc A)
    grid s :
  NoDup group -> (2 <= length group)%nat -> (forall id, id ∈ group -> length (ops id) = n) ->
  let all := contributed ops (list_to_set group) in
  (forall id, id ∈ group -> exists a, finish id all = Return (Ok a)) ->
  channels_ grid !! (group, channelId) = None ->
  rtc step (start grid (all_meet group channelId ops finish)) s ->
  s = Crashed (Fatal "rendezvous timed out") \/
  ((forall id a, returned s id = Some a -> finish id all = Return (Ok a)) /\
   (forall id0 a0 id, returned s id0 = Some a0 -> step_thread id TimeOut s = None) /\
   exists s', rtc timely s s' /\
     forall id, id ∈ group -> exists a, returned s' id = Some a /\ finish id all = Return (Ok a)).
Proof.
  intros Hnd Hlen Hops all Hfin Hkey Hs.
  assert (barrier group channelId ops finish s) as Hb by (by eapply barrier_reachable).
  destruct s as [grid' threads|f]; [|left; by destruct Hb as [?|(?&?&?&?&?&_)]]. right. split; [|split].
  - intros id a Hr. destruct Hb as [[=]|(arrived & left & ? & ? & [= <- <-] & HM)].
    by destruct (returned_meeting _ _ _ _ _ _ _ _ _ _ HM Hr) as (_ & _ & ?).
  - intros id0 a0 id Hr. by eapply barrier_no_timeout.
  - by eapply barrier_completes.
Qed.

(** ** A second rendezvous *)

(** Two rendezvous of one group on one channel; the second one's result. *)
Definition meets_twice (group : list ProcessId) (channelId : Z) (first second : list Tensor)
    : proc (gmap ProcessId (list Tensor)) :=
  Perform (Rendezvous group channelId first) (fun _ =>
    Perform (Rendezvous group channelId second) (fun r => Return (Ok r))).

Section Twice.
Context (p q : ProcessId) (channelId : Z) (a1 a2 b1 b2 : list Tensor) (grid : Grid).
Context (Hpq : p <> q) (Hl1 : length a1 = length b1) (Hl2 : length a2 = length b1).
Let key := ([p; q], channelId).
Context (Hkey : channels_ grid !! key = None).
Let V1 : gmap ProcessId (list Tensor) := <[q := b1]> {[p := a1]}.
Let V2 : gmap ProcessId (list Tensor) := <[p := a2]> V1.

Lemma twice_sizes : size V1 = 2%nat /\ size V2 = 2%nat.
Proof.
  assert (size V1 = 2%nat) as HV1.
  { unfold V1. rewrite map_size_insert_None, map_size_singleton; [done|]. by apply lookup_singleton_ne. }
  split; [done|]. unfold V2. rewrite map_size_insert_Some; [done|]. exists a1. unfold V1.
  by rewrite lookup_insert_ne, lookup_singleton_eq.
Qed.

Lemma twice_matching : hasMatchingOperandsCount V1 = Ok true /\ hasMatchingOperandsCount V2 = Ok true.
Proof.
  destruct twice_sizes as [HV1 HV2].
  split; (apply (matching_ok _ (length b1));
    [intros HE; first [rewrite HE in HV1 | rewrite HE in HV2]; done
    |by repeat apply map_Forall_insert_2; [..|apply map_Forall_empty]]).
Qed.

(** The four steps: [p] waits, [q] completes the first meeting, [p] wakes up,
    [p] passes through the second. *)
Definition grid1 : Grid := with_channel grid key (MkRendezvous {[p := a1]} 1 ∅).
Definition grid2 : Grid :=
  with_channel (with_channel grid1 key (MkRendezvous V1 2 V1)) key (MkRendezvous V1 1 V1).
Definition grid3 : Grid := with_channel grid2 key (MkRendezvous V1 0 ∅).
Definition grid4 : Grid :=
  with_channel (with_channel grid3 key (MkRendezvous V2 1 V2)) key (MkRendezvous V2 0 ∅).

Lemma twice_arrive g id ops st :
  channel g key = st -> size (<[id := ops]> (values st)) = 2%nat ->
  hasMatchingOperandsCount (<[id := ops]> (values st)) = Ok true ->
  let vs := <[id := ops]> (values st) in
  rendezvous_arrive g [p; q] channelId id ops
  = Ok (with_channel (with_channel g key (MkRendezvous vs (useCount st + 1) vs)) key
          (MkRendezvous vs (useCount st) (if 0 <? useCount st then vs else ∅)), Some vs).
Proof.
  intros <- Hs HM vs. unfold rendezvous_arrive. rewrite decide_False by done. cbv zeta.
  rewrite decide_False by (fold key; rewrite Hs; cbn; lia). unfold rendezvous_leave. fold key. rewrite channel_with.
  cbn [result_ useCount values]. rewrite HM. cbind. cbn [negb].
  replace (useCount (channel g key) + 1 - 1) with (useCount (channel g key)) by lia. done.
Qed.

Lemma twice_enter :
  enter grid p (Rendezvous [p; q] channelId a1) = Ok (grid1, None) /\
  enter grid1 q (Rendezvous [p; q] channelId b1) = Ok (grid2, Some V1) /\
  ready grid2 (Rendezvous [p; q] channelId a1) = true /\
  resume grid2 (Rendezvous [p; q] channelId a1) = Ok (grid3, V1) /\
  enter grid3 p (Rendezvous [p; q] channelId a2) = Ok (grid4, Some V2).
Proof.
  destruct twice_sizes as [HV1 HV2], twice_matching as [HM1 HM2].
  assert (channel grid key = new_rendezvous) as Hnew by (unfold channel; by rewrite Hkey).
  repeat split; cbn [enter ready resume].
  - unfold rendezvous_arrive. rewrite decide_False by done. fold key. rewrite Hnew. cbn [values useCount result_ new_rendezvous].
    rewrite decide_True; [done|]. pose proof (map_size_singleton (M := gmap ProcessId) p a1) as Hs.
    change (size (<[p := a1]> (∅ : gmap ProcessId (list Tensor))) = 1%nat) in Hs. rewrite Hs. cbn. lia.
  - rewrite (twice_arrive _ _ _ (MkRendezvous {[p := a1]} 1 ∅)); [done|apply channel_with|done|done].
  - unfold rendezvous_ready. fold key. unfold grid2. rewrite channel_with. cbn [values]. by rewrite HV1.
  - unfold rendezvous_leave. fold key. unfold grid2. rewrite channel_with. cbn [values result_ useCount]. rewrite HM1. done.
  - rewrite (twice_arrive _ _ _ (MkRendezvous V1 0 ∅)); [done|apply channel_with|done|done].
Qed.
End Twice.

(** C10: a channel does not work as a barrier twice: [rendezvous] copies the
    contributions instead of moving them out, so of two processes that meet a
    second time on the same channel the first to arrive goes on at once, with
    what the other contributed to the first meeting. *)
Theorem second_rendezvous_is_stale p q channelId a1 a2 b1 b2 grid :
  p <> q -> length a1 = length b1 -> length a2 = length b1 -> channels_ grid !! ([p; q], channelId) = None ->
  exists s, rtc timely (start grid {[p := meets_twice [p; q] channelId a1 a2; q := meets_twice [p; q] channelId b1 b2]}) s /\
    returned s p = Some {[p := a2; q := b1]} /\
    (exists grid' threads k, s = Running grid' threads /\
       threads !! q = Some (MkThread (Perform (Rendezvous [p; q] channelId b2) k) false)).
Proof.
  intros Hpq Hl1 Hl2 Hkey.
  destruct (twice_enter p q channelId a1 a2 b1 grid Hpq Hl1 Hl2 Hkey) as (E1 & E2 & E3 & E4 & E5).
  eexists. split; [|split].
  - eapply rtc_l; [exists p; eapply step_waits; [|exact E1]|].
    { rewrite lookup_fmap, lookup_insert_eq. done. }
    eapply rtc_l; [exists q; eapply step_passes; [|exact E2]|].
    { rewrite lookup_insert_ne, lookup_fmap, lookup_insert_ne, lookup_singleton_eq by done. done. }
    eapply rtc_l; [exists p; eapply step_wakes; [|exact E3|exact E4]|].
    { rewrite lookup_insert_ne, lookup_insert_eq by done. done. }
    eapply rtc_l; [exists p; eapply step_passes; [|exact E5]|apply rtc_refl].
    by rewrite lookup_insert_eq.
  - cbn [returned]. rewrite lookup_insert_eq. cbn. f_equal. apply map_eq. intros i.
    destruct (decide (i = p)) as [->|?]; [by rewrite !lookup_insert_eq|].
    destruct (decide (i = q)) as [->|?].
    + by rewrite !(lookup_insert_ne _ p), lookup_insert_eq, lookup_singleton_eq by done.
    + by rewrite !lookup_insert_ne, !lookup_singleton_ne by done.
  - eexists _, _, _. split; [done|]. rewrite !lookup_insert_ne, lookup_insert_eq by done. done.
Qed.

(** ** Send and receive *)
Section Exchange.
Context (s r : ProcessId) (channelId : Z) (inputs : list Tensor) (Hsr : s <> r).

Definition sends : proc (list Tensor) := Perform (Send inputs channelId) (fun _ => Return (Ok [])).
Definition receives : proc (list Tensor) := Perform (Recv channelId) (fun ts => Return (Ok ts)).

Inductive stage := Fresh | Waits | Gone.
#[local] Instance stage_eq_dec : EqDecision stage.
Proof. solve_decision. Defined.

Definition sender (st : stage) : Thread (list Tensor) :=
  match st with Fresh => MkThread sends false | Waits => MkThread sends true
              | Gone => MkThread (Return (Ok [])) false end.
Definition receiver (st : stage) : Thread (list Tensor) :=
  match st with Fresh => MkThread receives false | Waits => MkThread receives true
              | Gone => MkThread (Return (Ok inputs)) false end.

(** The data in the channel, and whether the receiver is announced. *)
Definition agrees (sst rst : stage) (data : list Tensor) (announced : bool) : Prop :=
  match sst, rst with
  | Fresh, Fresh | Waits, Fresh => data = [] /\ announced = false
  | Fresh, Waits | Waits, Waits => data = [] /\ announced = true
  | Gone, Waits => data = inputs /\ announced = false
  | Gone, Gone => inputs <> []
  | _, _ => False
  end.

Definition has_threads (sst rst : stage) (threads : gmap ProcessId (Thread (list Tensor))) : Prop :=
  forall id, threads !! id = if decide (id = s) then Some (sender sst)
                             else if decide (id = r) then Some (receiver rst) else None.

Definition exchanging (sst rst : stage) (grid : Grid) (threads : gmap ProcessId (Thread (list Tensor))) : Prop :=
  agrees sst rst (sendRecvChannel grid channelId) (bool_decide (channelId ∈ sendRecvReady_ grid)) /\
  has_threads sst rst threads.

Definition exchange (st : State (list Tensor)) : Prop :=
  st = Crashed (Fatal "recv timed out") \/ st = Crashed (Fatal "send timed out") \/
  exists sst rst grid threads, st = Running grid threads /\ exchanging sst rst grid threads.

Lemma sendRecvChannel_with grid data announced :
  sendRecvChannel (with_sendRecv grid channelId data announced) channelId = data.
Proof. unfold sendRecvChannel, with_sendRecv. cbn. by rewrite lookup_insert_eq. Qed.

Lemma set_sender sst rst sst' threads :
  has_threads sst rst threads -> has_threads sst' rst (<[s := sender sst']> threads).
Proof.
  intros Ht id. case_decide as E; [subst id; by rewrite lookup_insert_eq|].
  rewrite lookup_insert_ne, Ht by done. by rewrite decide_False.
Qed.

Lemma set_receiver sst rst rst' threads :
  has_threads sst rst threads -> has_threads sst rst' (<[r := receiver rst']> threads).
Proof.
  intros Ht id. destruct (decide (id = r)) as [->|E]; [rewrite decide_False by done; by rewrite lookup_insert_eq|].
  rewrite lookup_insert_ne, Ht by done. repeat case_decide; done.
Qed.

(** What the sender's next section does. *)
Lemma sender_step sst rst grid threads st' action :
  exchanging sst rst grid threads -> step_thread s action (Running grid threads) = Some st' -> exchange st'.
Proof.
  intros [Hg Ht] Hst. cbn [step_thread] in Hst. rewrite Ht, decide_True in Hst by done.
  destruct sst; cbn [sender code waiting sends enter ready resume timed_out] in Hst; [| |by destruct action].
  - destruct action; [|done]. unfold send_ready in Hst. destruct (bool_decide _) eqn:Hr.
    + injection Hst as <-. right; right. exists Gone, rst, (send_put grid channelId inputs).
      eexists. split; [done|]. split; [|by apply (set_sender Fresh _ Gone)].
      rewrite (bool_decide_false (channelId ∈ _)) by (cbn; set_solver). unfold send_put. rewrite sendRecvChannel_with.
      destruct rst; cbn in *; destruct Hg; done.
    + injection Hst as <-. right; right. exists Waits, rst, grid. eexists. split; [done|].
      split; [|by apply (set_sender Fresh _ Waits)]. rewrite Hr. by destruct rst.
  - unfold send_ready in Hst. destruct (bool_decide _) eqn:Hr; destruct action; try done; injection Hst as <-; [|by right; left].
    right; right. exists Gone, rst, (send_put grid channelId inputs).
    eexists. split; [done|]. split; [|by apply (set_sender Waits _ Gone)].
    rewrite (bool_decide_false (channelId ∈ _)) by (cbn; set_solver). unfold send_put. rewrite sendRecvChannel_with.
    destruct rst; cbn in *; destruct Hg; done.
Qed.

Lemma receiver_step sst rst grid threads st' action :
  exchanging sst rst grid threads -> step_thread r action (Running grid threads) = Some st' -> exchange st'.
Proof.
  intros [Hg Ht] Hst. cbn [step_thread] in Hst. rewrite Ht, decide_False, decide_True in Hst by done.
  destruct rst; cbn [receiver code waiting receives enter ready resume timed_out] in Hst; [| |by destruct action].
  - destruct action; [|done]. unfold recv_ready, recv_enter in Hst. rewrite sendRecvChannel_with in Hst.
    assert (sst <> Gone /\ sendRecvChannel grid channelId = []) as [Hs Hd] by (destruct sst; cbn in Hg; destruct Hg; done).
    rewrite Hd in Hst. injection Hst as <-. right; right. exists sst, Waits. eexists _, _. split; [done|].
    split; [|by apply (set_receiver _ Fresh Waits)]. rewrite sendRecvChannel_with, bool_decide_true by (cbn; set_solver).
    by destruct sst.
  - unfold recv_ready in Hst. destruct (sendRecvChannel grid channelId) as [|t ts] eqn:Hd; destruct action; try done;
      injection Hst as <-; [by left|]. right; right.
    assert (sst = Gone /\ inputs = t :: ts) as [-> Hi] by (destruct sst; cbn in Hg; destruct Hg; done).
    exists Gone, Gone. eexists _, _. split; [done|]. split; [by cbn; rewrite Hi|].
    rewrite Hd, <- Hi. by apply (set_receiver _ Waits Gone).
Qed.

Lemma exchange_step st st' : exchange st -> step st st' -> exchange st'.
Proof.
  intros [->|[->|(sst & rst & grid & threads & -> & Hx)]] (id & action & Hst); [done..|].
  destruct (decide (id = s)) as [->|Hs]; [by eapply sender_step|].
  destruct (decide (id = r)) as [->|Hr]; [by eapply receiver_step|].
  destruct Hx as [_ Ht]. cbn [step_thread] in Hst. by rewrite Ht, !decide_False in Hst by done.
Qed.

(** The three steps that complete an exchange. *)
Lemma can_announce sst grid threads :
  exchanging sst Fresh grid threads -> exists grid' threads',
    step_thread r Go (Running grid threads) = Some (Running grid' threads') /\ exchanging sst Waits grid' threads'.
Proof.
  intros [Hg Ht]. assert (sst <> Gone /\ sendRecvChannel grid channelId = []) as [Hs Hd] by (destruct sst; cbn in Hg; destruct Hg; done).
  eexists _, _. split.
  - eapply step_waits; [rewrite Ht, decide_False, decide_True by done; done|]. cbn [enter].
    unfold recv_ready, recv_enter. by rewrite sendRecvChannel_with, Hd.
  - split; [|by apply (set_receiver _ Fresh Waits)]. rewrite sendRecvChannel_with, bool_decide_true by (cbn; set_solver).
    by destruct sst.
Qed.

Lemma can_send sst grid threads :
  sst <> Gone -> exchanging sst Waits grid threads -> exists grid' threads',
    step_thread s Go (Running grid threads) = Some (Running grid' threads') /\ exchanging Gone Waits grid' threads'.
Proof.
  intros Hs [Hg Ht]. assert (bool_decide (channelId ∈ sendRecvReady_ grid) = true) as Hr by (destruct sst; cbn in Hg; by destruct Hg).
  exists (send_put grid channelId inputs), (<[s := sender Gone]> threads). split.
  - destruct sst; [| |done].
    + refine (step_passes grid _ threads s (Send inputs channelId) (fun _ => Return (Ok [])) () _ _); [rewrite Ht, decide_True by done; done|]. cbn [enter].
      unfold send_ready. by rewrite Hr.
    + refine (step_wakes grid _ threads s (Send inputs channelId) (fun _ => Return (Ok [])) () _ _ _); [rewrite Ht, decide_True by done; done| |done].
      cbn [ready]. unfold send_ready. by rewrite Hr.
  - split; [|by apply (set_sender sst _ Gone)]. unfold send_put.
    rewrite sendRecvChannel_with, bool_decide_false by (cbn; set_solver). done.
Qed.

Lemma can_receive grid threads :
  inputs <> [] -> exchanging Gone Waits grid threads -> exists grid' threads',
    step_thread r Go (Running grid threads) = Some (Running grid' threads') /\ exchanging Gone Gone grid' threads'.
Proof.
  intros Hne [[Hd Hr] Ht]. exists (recv_take grid channelId).1, (<[r := receiver Gone]> threads). split.
  - refine (step_wakes grid _ threads r (Recv channelId) (fun ts => Return (Ok ts)) inputs _ _ _); [rewrite Ht, decide_False, decide_True by done; done| |].
    + cbn [ready]. unfold recv_ready. rewrite Hd. by destruct inputs.
    + cbn [resume]. unfold recv_take. by rewrite Hd.
  - split; [done|]. by apply (set_receiver _ Waits Gone).
Qed.

Lemma exchange_completes sst rst grid threads :
  inputs <> [] -> exchanging sst rst grid threads ->
  exists grid' threads', rtc timely (Running grid threads) (Running grid' threads') /\ exchanging Gone Gone grid' threads'.
Proof.
  intros Hne Hx.
  assert (forall g t, exchanging Gone Waits g t -> exists g' t', rtc timely (Running g t) (Running g' t') /\ exchanging Gone Gone g' t') as H1.
  { intros g t Hx'. destruct (can_receive g t Hne Hx') as (g' & t' & E & Hx''). exists g', t'. split; [|done]. apply rtc_once. by exists r. }
  assert (forall sst' g t, exchanging sst' Waits g t -> exists g' t', rtc timely (Running g t) (Running g' t') /\ exchanging Gone Gone g' t') as H2.
  { intros sst' g t Hx'. destruct (decide (sst' = Gone)) as [->|Hs]; [by apply H1|].
    destruct (can_send sst' g t Hs Hx') as (g1 & t1 & E & Hx1). destruct (H1 g1 t1 Hx1) as (g2 & t2 & Hr & Hx2).
    exists g2, t2. split; [|done]. eapply rtc_l; [by exists s|done]. }
  destruct rst.
  - destruct (can_announce sst grid threads Hx) as (g1 & t1 & E & Hx1). destruct (H2 sst g1 t1 Hx1) as (g2 & t2 & Hr & Hx2).
    exists g2, t2. split; [|done]. eapply rtc_l; [by exists r|done].
  - by eapply H2.
  - exists grid, threads. split; [apply rtc_refl|]. destruct sst; [by destruct Hx as [[]]..|done].
Qed.
End Exchange.

(** C7: when one process sends on a channel that another one receives from, the
    receiver gets, along every interleaving, exactly the tensors that were sent,
    and the only errors are time-outs; until one happens the exchange can
    complete when there is a tensor to send, but a send of no tensors is never
    received. *)
Theorem send_recv_delivers s r channelId inputs grid st :
  s <> r -> sendRecvChannel grid channelId = [] -> channelId ∉ sendRecvReady_ grid ->
  rtc step (start grid {[s := sends channelId inputs; r := receives channelId]}) st ->
  (st = Crashed (Fatal "recv timed out") \/ st = Crashed (Fatal "send timed out")) \/
  ((forall ts, returned st r = Some ts -> ts = inputs /\ inputs <> []) /\
   (inputs <> [] -> exists st', rtc timely st st' /\ returned st' r = Some inputs /\ returned st' s = Some [])).
Proof.
  intros Hsr Hd Hr Hst.
  assert (exchange s r channelId inputs st) as Hx.
  { refine (rtc_ind_r (exchange s r channelId inputs) _ _ _ st Hst).
    - right; right. exists Fresh, Fresh. eexists _, _. split; [done|]. split; [by rewrite Hd, bool_decide_false|].
      intros id. rewrite lookup_fmap. destruct (decide (id = s)) as [->|Hs]; [by rewrite lookup_insert_eq|].
      rewrite lookup_insert_ne by done. destruct (decide (id = r)) as [->|?]; [by rewrite lookup_singleton_eq|].
      by rewrite lookup_singleton_ne.
    - intros s1 s2 _ Hs Hb. by apply (exchange_step s r channelId inputs Hsr s1). }
  destruct Hx as [->|[->|(sst & rst & g & threads & -> & Hx)]]; [by left; left|by left; right|]. right. split.
  - intros ts Hret. destruct Hx as [Hg Ht]. cbn [returned] in Hret. rewrite Ht, decide_False, decide_True in Hret by done.
    destruct rst; cbn in Hret; [done..|]. injection Hret as <-. by destruct sst; cbn in Hg.
  - intros Hne. destruct (exchange_completes s r channelId inputs Hsr sst rst g threads Hne Hx) as (g' & t' & Hrtc & [_ Ht]).
    exists (Running g' t'). split; [done|]. cbn [returned].
    split; rewrite Ht; [by rewrite decide_False, decide_True by done|by rewrite decide_True by done].
Qed.

(** ** Witnesses *)
Section Witnesses.

Definition empty_grid : Grid := MkGrid [] [] ∅ ∅ ∅.
Definition p0 : ProcessId := MkProcessId 0 0.
Definition p1 : ProcessId := MkProcessId 1 0.
Definition a_tensor (z : Z) : Tensor := MkTensor (shaped [] (IntegerType Unsigned 8)) [Some z].

Lemma strategies_partition_witness :
  findGroup (crossReplica 2 [[0; 2]; [1]]) (MkProcessId 2 1) = Some [MkProcessId 0 1; MkProcessId 2 1] /\
  exists group, findGroup (crossReplica 2 [[0; 2]; [1]]) (MkProcessId 2 1) = Some group /\ MkProcessId 2 1 ∈ group.
Proof.
  split; [vm_compute; reflexivity|].
  assert (concat [[0; 2]; [1]] ≡ₚ seqZ 0 3) as Hp by (vm_compute; apply perm_skip, perm_swap).
  assert (MkProcessId 2 1 ∈ processes 3 2) as Hin by (apply elem_of_processes; cbn; lia).
  destruct (proj2 (strategies_partition 3 2 [[0; 2]; [1]] (crossReplica 2 [[0; 2]; [1]]) ltac:(lia) ltac:(lia)
    (or_introl (conj Hp (or_introl eq_refl)))) (MkProcessId 2 1) Hin) as (g & H1 & _ & H2 & _).
  exists g. split; [exact H1|exact H2].
Defined.

Lemma rendezvous_barrier_witness :
  exists s', rtc timely (start empty_grid (all_meet [p0; p1] 1 (fun id => [a_tensor (replicaId id)])
    (fun _ r => Return (Ok (getSortedTensors r))))) s' /\ returned s' p0 <> None.
Proof.
  assert (NoDup [p0; p1]) as Hnd by (apply (bool_decide_unpack _); vm_compute; exact I).
  destruct (rendezvous_barrier [p0; p1] 1 (fun id => [a_tensor (replicaId id)]) 1 (fun _ r => Return (Ok (getSortedTensors r)))
    empty_grid _ Hnd ltac:(cbn; lia) ltac:(reflexivity)
    ltac:(intros; eexists; reflexivity) eq_refl (rtc_refl _ _)) as [H|(_ & _ & s' & H1 & H2)]; [discriminate H|].
  exists s'. split; [exact H1|]. destruct (H2 p0 ltac:(left)) as (a & H3 & _). rewrite H3. discriminate.
Defined.

Lemma second_rendezvous_is_stale_witness :
  exists s, rtc timely (start empty_grid {[p0 := meets_twice [p0; p1] 1 [a_tensor 1] [a_tensor 2];
                                           p1 := meets_twice [p0; p1] 1 [a_tensor 3] [a_tensor 4]]}) s /\
    returned s p0 = Some {[p0 := [a_tensor 2]; p1 := [a_tensor 3]]}.
Proof.
  destruct (second_rendezvous_is_stale p0 p1 1 [a_tensor 1] [a_tensor 2] [a_tensor 3] [a_tensor 4] empty_grid
    ltac:(discriminate) eq_refl eq_refl eq_refl) as (s & H1 & H2 & _).
  exists s. split; [exact H1|exact H2].
Defined.

Lemma send_recv_delivers_witness :
  exists s', rtc timely (start empty_grid {[p0 := sends 7 [a_tensor 5]; p1 := receives 7]}) s' /\
    returned s' p1 = Some [a_tensor 5].
Proof.
  assert (7 ∉ sendRecvReady_ empty_grid) as Hr by (apply (bool_decide_unpack _); vm_compute; exact I).
  destruct (send_recv_delivers p0 p1 7 [a_tensor 5] empty_grid _ ltac:(discriminate) eq_refl Hr (rtc_refl _ _)) as [[H|H]|(_ & H)]; [discriminate H..|].
  destruct (H ltac:(discriminate)) as (s' & H1 & H2 & _). exists s'. split; [exact H1|exact H2].
Defined.
End Witnesses.
