(* ===== verification/Regions.v ===== *)
(** * The operations that evaluate a region

    [src/stablehlo/reference/Ops.cpp]: map, reduce, reduce_window, scatter,
    select_and_scatter, sort, if, case and while, with the interpreter values of
    [Value.cpp] they pass to their regions.  Evaluating a region can talk to
    other processes, so the operations run in [proc]; a region comes as the
    function from arguments to results that evaluating it in its scope is. *)
From S2P Require Import Prelude Types Support Index Element Tensor Base TypeInference Ops Linear ProcessGrid.

(** ** [InterpreterValue] *)
Inductive InterpreterValue :=
| TensorValue (tensor : Tensor)
| TokenValue
| TupleValue (values : list InterpreterValue) (type : list Ty).

Definition getTensor (v : InterpreterValue) : result Tensor :=
  match v with TensorValue t => Ok t | _ => Err (Fatal "InterpreterValue is not a Tensor.") end.
Definition getToken (v : InterpreterValue) : result () :=
  match v with TokenValue => Ok () | _ => Err (Fatal "InterpreterValue is not a Token.") end.
Definition getTuple (v : InterpreterValue) : result (list InterpreterValue) :=
  match v with TupleValue vs _ => Ok vs | _ => Err (Fatal "InterpreterValue is not a Tuple.") end.
Definition value_type (v : InterpreterValue) : Ty :=
  match v with
  | TensorValue t => shaped_type (getTensorType t)
  | TokenValue => TokenType
  | TupleValue _ type => TupleType type
  end.

(** A region: the signature of its block, and its evaluation. *)
Record Region := MkRegion {
  signature : BlockSig;
  eval_region : list InterpreterValue -> proc (list InterpreterValue);
}.

Section Regions.
Context `{L : LLVM}.

(** [eval(region, args)[0].getTensor()] *)
Definition eval_tensor (region : Region) (args : list Tensor) : proc Tensor :=
  vs ← eval_region region (TensorValue <$> args);
  lift (v ← at_z vs 0; getTensor v).

Definition region_argument (region : Region) (i : Z) : result ShapedType :=
  t ← at_z (block_args (signature region)) i; cast_shaped t.

(** [result.set(index, value.getTensor().get({}))] over the zip of both. *)
Fixpoint set_all (index : Index) (results : list Tensor) (values : list InterpreterValue)
    : result (list Tensor) :=
  match results, values with
  | r :: results, v :: values =>
      t ← getTensor v;
      e ← get t [];
      r ← set r index e;
      results ← set_all index results values;
      Ok (r :: results)
  | _, _ => Ok results
  end.

(** ** Control flow *)
Definition caseOp (index : Tensor) (branches : list Region) : proc (list InterpreterValue) :=
  indexValue ← lift (e ← get index []; v ← getIntegerValue e; Ok (getSExtValue v));
  let size := Z.of_nat (length branches) in
  let indexValue := if (indexValue <? 0) || (size <=? indexValue) then size - 1 else indexValue in
  branch ← lift (at_z branches indexValue);
  eval_region branch [].

Definition ifOp (pred : Tensor) (trueBranch falseBranch : Region) : proc (list InterpreterValue) :=
  b ← lift (e ← get pred []; getBooleanValue e);
  if (b : bool) then eval_region trueBranch [] else eval_region falseBranch [].

Definition condition (condResults : list InterpreterValue) : result bool :=
  v ← at_z condResults 0; t ← getTensor v; e ← get t []; getBooleanValue e.

(** The loop may not end: [fuel] bounds the evaluations of [body]. *)
Fixpoint while_loop (fuel : nat) (cond body : Region) (results condResults : list InterpreterValue)
    : proc (list InterpreterValue) :=
  b ← lift (condition condResults);
  if (b : bool) then
    match fuel with
    | O => lift (Err OutOfFuel)
    | S fuel =>
        results ← eval_region body results;
        condResults ← eval_region cond results;
        while_loop fuel cond body results condResults
    end
  else mret results.

Definition whileOp (fuel : nat) (operand : list InterpreterValue) (cond body : Region)
    : proc (list InterpreterValue) :=
  condResults ← eval_region cond operand;
  while_loop fuel cond body operand condResults.

(** ** [mapOp] *)
Definition mapOp (inputs : list Tensor) (computation : Region) (resultType : ShapedType) : proc Tensor :=
  result ← lift (newTensor resultType);
  for_index (getTensorShape result) (fun index result =>
    args ← lift (mapM (fun '(i, input) =>
      type ← region_argument computation i;
      tensor ← newTensor type;
      e ← get input index;
      set tensor [] e) (enumerate inputs));
    t ← eval_tensor computation args;
    lift (e ← get t []; set result index e)) result.

(** ** [reduceOp] *)

(** The index without the reduced axes. *)
Definition kept_axes (dimensions : list Z) (index : Index) : Index :=
  (filter (fun '(axis, _) => axis ∉ dimensions) (enumerate index)).*2.

Definition splats (types : list ShapedType) (values : list Tensor) (index : Index) : result (list Tensor) :=
  mapM (fun '(type, value) => e ← get value index; makeSplat type e) (zip types values).

Definition reduceOp (inputs initValues : list Tensor) (dimensions : list Z) (body : Region)
    (resultTypes : list ShapedType) : proc (list Tensor) :=
  results ← lift (splats resultTypes initValues []);
  input0 ← lift (at_z inputs 0);
  for_index (getTensorShape input0) (fun inputIndex results =>
    let resultIndex := kept_axes dimensions inputIndex in
    accumulators ← lift (splats (getTensorType <$> initValues) results resultIndex);
    elements ← lift (splats (getTensorType <$> initValues) inputs inputIndex);
    bodyResult ← eval_region body (TensorValue <$> accumulators ++ elements);
    lift (set_all resultIndex results bodyResult)) results.

(** With the result types inferred. *)
Definition inferredReduceOp (inputs initValues : list Tensor) (dimensions : list Z) (body : Region)
    : proc (list Tensor) :=
  resultTypes ← lift (or_fatal "Could not infer ReduceOp's return type"
    (inferReduceOp (getTensorType <$> inputs) dimensions (Some (signature body))));
  reduceOp inputs initValues dimensions body resultTypes.

(** ** [reduceWindowOp] *)
Definition reduceWindowOp (inputs initValues : list Tensor)
    (windowDimensions windowStrides baseDilations windowDilations paddingLow paddingHigh : Sizes)
    (body : Region) (resultTypes : list ShapedType) : proc (list Tensor) :=
  results ← lift (splats resultTypes initValues []);
  paddedInputs ← lift (mapM (fun '(input, initValue) =>
    interior ← sizes_sub_r baseDilations 1;
    inferredPadOp input initValue paddingLow paddingHigh interior) (zip inputs initValues));
  result0 ← lift (at_z results 0);
  for_index (getTensorShape result0) (fun resultIndex results =>
    windows ← lift (
      windowStart ← sizes_mul resultIndex windowStrides;
      last ← sizes_sub_r windowDimensions 1;
      extent ← sizes_mul last windowDilations;
      windowEnd ← sizes_add windowStart extent;
      windowEnd ← sizes_add_r windowEnd 1;
      mapM (fun paddedInput => inferredSliceOp paddedInput windowStart windowEnd windowDilations) paddedInputs);
    input0 ← lift (at_z inputs 0);
    reducedValues ← inferredReduceOp windows initValues (getAxes input0) body;
    lift (set_all resultIndex results (TensorValue <$> reducedValues))) results.

(** ** [scatterOp] *)

(** [v.insert(v.begin() + i, x)] *)
Definition insert_z {A} (l : list A) (i : Z) (x : A) : result (list A) :=
  if (i <? 0) || (Z.of_nat (length l) <? i) then Err (UB "insert")
  else Ok (take (Z.to_nat i) l ++ x :: drop (Z.to_nat i) l).

(** [full[d] = index[position of d in dims]], for the [d] in [dims]. *)
Definition full_index (rank : Z) (dims : list Z) (index : Z -> result Z) : result Index :=
  foldM (fun d full =>
      match find_pos d dims with
      | None => Ok full
      | Some i => x ← index i; set_z full d x
      end)
    (seqZ 0 rank) (replicate (Z.to_nat rank) 0).

(** The index of the inputs that [updateIndex] of the updates goes to. *)
Definition scatter_index (rank : Z) (scatterIndices : Tensor) (updateIndex : Index)
    (updateScatterDims updateWindowDims insertedWindowDims inputBatchingDims
     scatterIndicesBatchingDims scatterDimsToOperandDims : list Z) (indexVectorDim : Z) : result Index :=
  updateScatterIndex ← mapM (fun d => at_z updateIndex d) updateScatterDims;
  startIndicesIndex ← (if indexVectorDim <? getTensorRank scatterIndices
                       then insert_z updateScatterIndex indexVectorDim kColon
                       else Ok updateScatterIndex);
  start ← indexSliceOp scatterIndices startIndicesIndex;
  startIndex ← evalIndex start;
  fullStartIndex ← full_index rank scatterDimsToOperandDims (fun dStart => at_z startIndex dStart);
  fullBatchingIndex ← full_index rank inputBatchingDims (fun iBatching =>
    dStart ← at_z scatterIndicesBatchingDims iBatching; at_z startIndicesIndex dStart);
  updateWindowIndex ← mapM (fun d => at_z updateIndex d) updateWindowDims;
  '(fullWindowIndex, _) ← foldM (fun i '(full, wi) =>
      if bool_decide (i ∈ insertedWindowDims) || bool_decide (i ∈ inputBatchingDims) then Ok (full, wi)
      else x ← at_z updateWindowIndex wi; full ← set_z full i x; Ok (full, wi + 1))
    (seqZ 0 rank) (replicate (Z.to_nat rank) 0, 0);
  sum ← sizes_add fullStartIndex fullBatchingIndex;
  sizes_add sum fullWindowIndex.

Definition scatterOp (inputs : list Tensor) (scatterIndices : Tensor) (updates : list Tensor)
    (updateWindowDims insertedWindowDims inputBatchingDims scatterIndicesBatchingDims
     scatterDimsToOperandDims : list Z) (indexVectorDim : Z) (updateComputation : Region)
    (resultTypes : list ShapedType) : proc (list Tensor) :=
  let results := clone <$> inputs in
  update0 ← lift (at_z updates 0);
  let updateScatterDims := filter (fun d => d ∉ updateWindowDims) (getAxes update0) in
  for_index (getTensorShape update0) (fun updateIndex results =>
    input0 ← lift (at_z inputs 0);
    resultIndex ← lift (scatter_index (getTensorRank input0) scatterIndices updateIndex updateScatterDims
      updateWindowDims insertedWindowDims inputBatchingDims scatterIndicesBatchingDims
      scatterDimsToOperandDims indexVectorDim);
    result0 ← lift (at_z results 0);
    if negb (inBounds resultIndex (getTensorShape result0)) then mret results
    else
      current ← lift (mapM (fun result => e ← get result resultIndex; constant e) results);
      update ← lift (mapM (fun update => e ← get update updateIndex; constant e) updates);
      updatedValues ← eval_region updateComputation (TensorValue <$> current ++ update);
      lift (set_all resultIndex results updatedValues)) results.

(** ** [selectAndScatterOp] *)

(** [iterateThroughWindow] *)
Definition iterateThroughWindow {S} (sourceIndex : Index) (operand : Tensor)
    (windowDimensions windowStrides paddingLow : Sizes) (body : Index -> S -> proc S) (s : S) : proc S :=
  for_index windowDimensions (fun windowIndex s =>
    operandIndex ← lift (
      start ← sizes_mul sourceIndex windowStrides;
      index ← sizes_add start windowIndex;
      sizes_sub index paddingLow);
    if negb (inBounds operandIndex (getTensorShape operand)) then mret s
    else body operandIndex s) s.

Definition selectAndScatterOp (operand source initValue : Tensor)
    (windowDimensions windowStrides paddingLow : Sizes) (select scatter : Region) (resultType : ShapedType)
    : proc Tensor :=
  result ← lift (e ← get initValue []; makeSplat resultType e);
  for_index (getTensorShape source) (fun sourceIndex result =>
    selected ← iterateThroughWindow sourceIndex operand windowDimensions windowStrides paddingLow
      (fun operandIndex selected =>
        currVal ← lift (get operand operandIndex);
        let '(selectedVal, selectedIndex) := default (currVal, operandIndex) selected in
        args ← lift (a ← constant selectedVal; b ← constant currVal; Ok [a; b]);
        selectResult ← eval_tensor select args;
        keep ← lift (e ← get selectResult []; getBooleanValue e);
        mret (Some (if (keep : bool) then (selectedVal, selectedIndex) else (currVal, operandIndex))))
      None;
    iterateThroughWindow sourceIndex operand windowDimensions windowStrides paddingLow
      (fun operandIndex result =>
        if decide (Some operandIndex = snd <$> selected) then
          sourceValues ← lift (
            t ← newTensor (shaped [2] (getTensorElementType initValue));
            e ← get source sourceIndex;
            t ← set t [0] e;
            e ← get result operandIndex;
            set t [1] e);
          reducedResult ← inferredReduceOp [sourceValues] [initValue] [0] scatter;
          lift (r ← at_z reducedResult 0; e ← get r []; set result operandIndex e)
        else mret result) result) result.

(** ** [sortOp] *)
Section Sort.

(** [std::sort] promises a sorted permutation, but not which one. *)
Variable std_sort : list Z -> (Z -> Z -> proc bool) -> proc (list Z).

(** [std::stable_sort] by insertion: equivalent handles stay in order. *)
Fixpoint insert_sorted (comp : Z -> Z -> proc bool) (x : Z) (l : list Z) : proc (list Z) :=
  match l with
  | [] => mret [x]
  | y :: l' =>
      lt ← comp x y;
      if (lt : bool) then mret (x :: l) else l' ← insert_sorted comp x l'; mret (y :: l')
  end.

Definition stable_sort (l : list Z) (comp : Z -> Z -> proc bool) : proc (list Z) :=
  foldM (insert_sorted comp) l [].

(** [comparatorTogether] *)
Definition comparatorTogether (inputs : list Tensor) (adjustedDimension : Z) (comparator : Region)
    (resultIndex : Index) (lhsHandle rhsHandle : Z) : proc bool :=
  args ← lift (
    lhsIndex ← set_z resultIndex adjustedDimension lhsHandle;
    rhsIndex ← set_z resultIndex adjustedDimension rhsHandle;
    mapM (fun input =>
      a ← get input lhsIndex; a ← constant a;
      b ← get input rhsIndex; b ← constant b;
      Ok [a; b]) inputs);
  t ← eval_tensor comparator (concat args);
  lift (e ← get t []; getBooleanValue e).

(** The elements of a sorted slice, from inputs to results. *)
Definition reshuffle (inputs : list Tensor) (adjustedDimension : Z) (resultIndex : Index) (handles : list Z)
    (results : list Tensor) : result (list Tensor) :=
  foldM (fun '(resultHandle, inputHandle) results =>
      from ← set_z resultIndex adjustedDimension inputHandle;
      to ← set_z resultIndex adjustedDimension resultHandle;
      mapM (fun '(input, result) => e ← get input from; set result to e) (zip inputs results))
    (enumerate handles) results.

Definition sortOp (inputs : list Tensor) (dimension : Z) (isStable : bool) (comparator : Region)
    : proc (list Tensor) :=
  results ← lift (mapM (fun input => newTensor (getTensorType input)) inputs);
  input0 ← lift (at_z inputs 0);
  let adjustedDimension := if 0 <=? dimension then dimension else dimension + getTensorRank input0 in
  for_index (getTensorShape input0) (fun resultIndex results =>
    i ← lift (at_z resultIndex adjustedDimension);
    if negb (i =? 0) then mret results
    else
      size ← lift (at_z (getTensorShape input0) adjustedDimension);
      let inputsTogether := seqZ 0 size in
      let comp := comparatorTogether inputs adjustedDimension comparator resultIndex in
      handles ← (if isStable then stable_sort inputsTogether comp else std_sort inputsTogether comp);
      lift (reshuffle inputs adjustedDimension resultIndex handles results)) results.
End Sort.
End Regions.
