(* ===== verification/RegionFacts.v ===== *)
(** * Reductions are folds, sorts are sorted permutations, loops obey their invariant

    The region operations of [Regions.v], for regions whose evaluation is local:
    it returns without an effect on the process grid. *)
From stdpp Require Import sorting.
From S2P Require Import Prelude Types Support Index Element ElementFacts Tensor TensorFacts Samples Base TypeInference Ops Linear ProcessGrid Regions OpsFacts.

(** ** Loops of local bodies *)
Lemma lift_ok {A B} (a : A) (k : A -> proc B) : lift (Ok a) ≫= k = k a.
Proof. reflexivity. Qed.

Lemma eval_tensor_ok region args t vs :
  eval_region region (TensorValue <$> args) = Return (Ok (TensorValue t :: vs)) -> eval_tensor region args = lift (Ok t).
Proof. intros E. unfold eval_tensor. by rewrite E. Qed.

(** A loop whose body returns and keeps an invariant of the indices visited. *)
Lemma for_index_runs {S} shape (body : Index -> S -> proc S) (P : list Index -> S -> Prop) s :
  shape_ok shape -> P [] s ->
  (forall visited i s, in_bounds i shape -> P visited s ->
     exists s', body i s = Return (Ok s') /\ P (visited ++ [i]) s') ->
  exists s', for_index shape body s = Return (Ok s') /\ P (indices shape) s'.
Proof.
  intros Hs H0 Hstep. unfold for_index. rewrite index_begin_spec by done.
  assert (forall (n k : nat) s fuel, n = (length (indices shape) - k)%nat -> (n <= fuel)%nat -> P (take k (indices shape)) s ->
    exists s', for_loop (M := proc) fuel {| shape_ := shape; index_ := indices shape !! k |} (index_end shape) body s
      = Return (Ok s') /\ P (indices shape) s') as Hloop.
  { intros n. induction n as [|n IH]; intros k st fuel Hn Hfuel HP.
    - rewrite lookup_ge_None_2 by lia. exists st. rewrite take_ge in HP by lia.
      split; [|done]. by destruct fuel; cbn [for_loop]; rewrite decide_True by done.
    - destruct (lookup_lt_is_Some_2 (indices shape) k) as [i Hi]; [lia|]. destruct fuel as [|fuel]; [lia|].
      destruct (indices_lookup_flat shape k i) as [Hib Hf]; [by auto with hlo|done|].
      destruct (Hstep _ _ _ Hib HP) as (st' & E & HP'). rewrite <- (take_S_r _ _ _ Hi) in HP'.
      rewrite Hi. cbn [for_loop]. rewrite decide_False by done. unfold iter_deref. cbn [index_ ok_or].
      rewrite lift_ok, E. change (mbind ?k (Return (Ok st'))) with (k st').
      rewrite iter_incr_spec, Hf, Nat2Z.id, lift_ok by done. apply IH; [lia|lia|done]. }
  apply (Hloop (length (indices shape)) 0%nat); [lia|by rewrite length_indices by auto with hlo|done].
Qed.

Section Regions.
Context {L : LLVM} {Laws : LLVMLaws L}.

(** The tensor holds the element at its only index. *)
Definition scalar_of (t : Tensor) (ty : Ty) (e : Element) : Prop :=
  getTensorType t = shaped [] ty /\ tensor_full t /\ get t [] = Ok e.

Definition typed (ty : Ty) (e : Element) : Prop := element_ok e /\ getType e = ty.

Lemma makeSplat_spec type e :
  shaped_ok type -> typed (getElementType type) e ->
  exists t, makeSplat type e = Ok t /\ getTensorType t = type /\ tensor_full t /\
    forall i, in_bounds i (getShape type) -> get t i = Ok e.
Proof.
  intros Hty [He Ht]. destruct (build_result type (fun _ => Ok e) (fun t => forall i, in_bounds i (getShape type) -> get t i = Ok e))
    as (t & ? & ? & ? & ?); [done| |done|by exists t].
  intros i _. by exists e.
Qed.

Lemma in_bounds_nil : in_bounds [] [].
Proof. constructor. Qed.

Lemma splat_scalar ty e :
  shaped_ok (shaped [] ty) -> typed ty e -> exists t, makeSplat (shaped [] ty) e = Ok t /\ scalar_of t ty e.
Proof.
  intros Hty He. destruct (makeSplat_spec _ _ Hty He) as (t & ? & ? & ? & Hg).
  exists t. split; [done|]. split; [done|]. split; [done|]. apply Hg, in_bounds_nil.
Qed.

Lemma scalar_shaped t ty e : scalar_of t ty e -> shaped_ok (shaped [] ty) /\ typed ty e.
Proof.
  intros (Hty & Hf & Hg). split; [rewrite <- Hty; by apply full_shaped|].
  destruct (full_get t []) as (e' & He' & Hok & Ht); [done|unfold getTensorShape; rewrite Hty; constructor|].
  rewrite Hg in He'. injection He' as <-. split; [done|]. rewrite Ht. unfold getTensorElementType. by rewrite Hty.
Qed.

(** The region computes [f] on scalar tensors of the type. *)
Definition computes (body : Region) (ty : Ty) (f : Element -> Element -> Element) : Prop :=
  forall ta tb a b, scalar_of ta ty a -> scalar_of tb ty b ->
    exists tc, eval_region body [TensorValue ta; TensorValue tb] = Return (Ok [TensorValue tc]) /\
      scalar_of tc ty (f a b).

(** ** [reduceOp] *)
Lemma in_bounds_kept dims i s : in_bounds i s -> in_bounds (kept_axes dims i) (kept_axes dims s).
Proof.
  unfold kept_axes, enumerate. generalize 0. intros z Hi. rewrite (in_bounds_length _ _ Hi).
  revert z. induction Hi as [|x d i s Hx Hi IH]; intros z; [constructor|]. cbn [length].
  rewrite Nat2Z.inj_succ, seqZ_cons by lia. rewrite Z.pred_succ. cbn [zip zip_with].
  rewrite !filter_cons. destruct (decide (z ∈ dims)) as [Hd|Hd].
  - rewrite !decide_False by tauto. apply IH.
  - rewrite !decide_True by done. rewrite !fmap_cons. constructor; [done|apply IH].
Qed.

(** The region combines accumulators and elements, scalars of the types [tys]. *)
Definition combines (body : Region) (tys : list Ty) (f : list Element -> list Element -> list Element) : Prop :=
  forall tas tbs es es', Forall3 scalar_of tas tys es -> Forall3 scalar_of tbs tys es' ->
    exists tcs, eval_region body (TensorValue <$> tas ++ tbs) = Return (Ok (TensorValue <$> tcs)) /\
      Forall3 scalar_of tcs tys (f es es').

(** The tensor has the type, and is full. *)
Definition of_type (t : Tensor) (type : ShapedType) : Prop := getTensorType t = type /\ tensor_full t.
(** The tensors hold the elements at the index. *)
Definition hold_at (i : Index) : list Tensor -> list Element -> Prop := Forall2 (fun t e => get t i = Ok e).

Lemma splats_scalars index tys : forall ts es,
  Forall (fun ty => shaped_ok (shaped [] ty)) tys -> Forall2 typed tys es -> hold_at index ts es ->
  exists ss, splats (shaped [] <$> tys) ts index = Ok ss /\ Forall3 scalar_of ss tys es.
Proof.
  induction tys as [|ty tys IH]; intros ts es Hsh Hty Hh; inversion Hty; subst; inversion Hh as [|t e ts' es' Hg Hh']; subst.
  { exists []. split; [done|constructor]. }
  apply Forall_cons in Hsh as [Hsh Hshs]. destruct (IH ts' _ Hshs ltac:(eassumption) Hh') as (ss & Hss & Hs3).
  destruct (splat_scalar ty y Hsh) as (t' & Ht' & Hs); [done|]. exists (t' :: ss). split; [|by constructor].
  unfold splats in *. cbn [fmap list_fmap zip zip_with mapM]. rewrite Hg. cbind. rewrite Ht'. cbind. by rewrite Hss.
Qed.

(** [set_all]: the elements of the scalars are written at the index. *)
Lemma set_all_scalars index : forall types ts tys es ss,
  Forall2 of_type ts types -> getElementType <$> types = tys -> Forall (fun type => in_bounds index (getShape type)) types ->
  Forall3 scalar_of ss tys es ->
  exists ts', set_all index ts (TensorValue <$> ss) = Ok ts' /\ Forall2 of_type ts' types /\ hold_at index ts' es /\
    Forall2 (fun t t' => forall j, in_bounds j (getTensorShape t) -> j <> index -> get t' j = get t j) ts ts'.
Proof.
  induction types as [|type types IH]; intros ts tys es ss Hts <- Hi H3; inversion Hts as [|t ? ts0 ? [Htt Hft] Hts']; subst.
  { inversion H3; subst. exists []. repeat split; constructor. }
  apply Forall3_cons_inv_m in H3 as (tc & ss0 & z & es0 & -> & -> & H1 & H3).
  apply Forall_cons in Hi as [Hi His]. destruct (scalar_shaped _ _ _ H1) as [_ [Hok Hty]]. destruct H1 as (_ & _ & Hg).
  destruct (IH ts0 (getElementType <$> types) es0 ss0) as (ts' & Hset & Hof & Hh & Hmiss); [done..|].
  destruct (set_spec t index z) as (t' & Hset' & Hok' & Hty' & Hhit & Hmiss');
    [by apply full_ok|done|done|by rewrite Hty|].
  exists (t' :: ts'). split; [cbn [fmap list_fmap set_all Regions.getTensor]; cbind; rewrite Hg; cbind; rewrite Hset'; cbind; by rewrite Hset|].
  split; [constructor; [|done]|split; [by constructor|constructor; [|done]]].
  - split; [done|]. split; [done|]. rewrite Hty'. intros j Hj. destruct (decide (j = index)) as [->|Hne].
    + exists z. split; [done|]. split; [done|]. by rewrite Hty.
    + rewrite Hmiss' by done. by apply (full_get t j).
  - intros j Hj Hne. by apply Hmiss'.
Qed.

Lemma scalars_types ts tys es : Forall3 scalar_of ts tys es -> getTensorType <$> ts = shaped [] <$> tys.
Proof. induction 1 as [|t ty e ts tys es (Ht & _) H IH]; [done|]. cbn. by rewrite Ht, IH. Qed.
Lemma scalars_shaped ts tys es : Forall3 scalar_of ts tys es -> Forall (fun ty => shaped_ok (shaped [] ty)) tys.
Proof. induction 1 as [|t ty e ts tys es Ht H IH]; [constructor|]. constructor; [by eapply scalar_shaped|done]. Qed.

(** The results before the first index *)
Lemma initial_results shape : forall types tys inits e0s,
  Forall (fun type => shaped_ok type /\ getShape type = shape) types -> getElementType <$> types = tys ->
  Forall3 scalar_of inits tys e0s ->
  exists ts, splats types inits [] = Ok ts /\ Forall2 of_type ts types /\ forall r, in_bounds r shape -> hold_at r ts e0s.
Proof.
  induction types as [|type types IH]; intros tys inits e0s Htypes <- H3.
  { inversion H3; subst. exists []. split; [done|]. split; constructor. }
  apply Forall3_cons_inv_m in H3 as (t0 & inits' & z & es' & -> & -> & Ht0 & H3). apply Forall_cons in Htypes as [[Hok Hsh] Htypes].
  destruct (IH _ _ _ Htypes eq_refl H3) as (ts & Hts & Hof & Hh). destruct (scalar_shaped _ _ _ Ht0) as [_ Hty]. destruct Ht0 as (_ & _ & Hg).
  destruct (makeSplat_spec type z Hok Hty) as (t & Ht & Htt & Hft & Hgt). exists (t :: ts). split; [|split].
  - unfold splats in *. cbn [zip zip_with mapM]. rewrite Hg. cbind. rewrite Ht. cbind. by rewrite Hts.
  - by constructor.
  - intros r Hr. constructor; [|by apply Hh]. apply Hgt. by rewrite Hsh.
Qed.

Section Reduce.
Context (inputs inits : list Tensor) (dims : list Z) (body : Region) (types : list ShapedType) (tys : list Ty) (shape : list Z)
  (f : list Element -> list Element -> list Element) (e0s : list Element).
Context (Hinputs : Forall2 (fun t ty => tensor_full t /\ getTensorElementType t = ty /\ getTensorShape t = shape) inputs tys).
Context (Hinits : Forall3 scalar_of inits tys e0s) (Hbody : combines body tys f) (Hsome : inputs <> []).
Context (Htypes : Forall (fun type => shaped_ok type /\ getShape type = kept_axes dims shape) types)
  (Helts : getElementType <$> types = tys).

(** The elements of the inputs at an index, and those that go to [r], combined from the
    initial values. *)
Definition elements_at (i : Index) : list Element := (fun t => fn_val (get t) i) <$> inputs.
Definition reduced (visited : list Index) (r : Index) : list Element :=
  fold_left (fun acc i => f acc (elements_at i)) (filter (fun i => kept_axes dims i = r) visited) e0s.

Definition reduce_invariant (visited : list Index) (results : list Tensor) : Prop :=
  Forall2 of_type results types /\ forall r, in_bounds r (kept_axes dims shape) -> hold_at r results (reduced visited r).

Lemma input_elements i : in_bounds i shape -> Forall2 typed tys (elements_at i) /\ hold_at i inputs (elements_at i).
Proof.
  intros Hi. unfold elements_at, hold_at. pose proof Hinputs as Hin. clear - Hin Hi Laws.
  induction Hin as [|t ty ts tys' (Hf & Hty & Hsh) H [IH1 IH2]]; cbn [fmap list_fmap]; [split; constructor|].
  destruct (full_get t i) as (e & He & Hok & Hety); [done|by rewrite Hsh|]. cbn [fmap list_fmap].
  assert (fn_val (get t) i = e) as -> by (unfold fn_val; by rewrite He).
  split; constructor; [split; [done|by rewrite Hety]|done|done|done].
Qed.

Lemma held_typed r results es : Forall2 of_type results types -> in_bounds r (kept_axes dims shape) -> hold_at r results es ->
  Forall2 typed tys es.
Proof.
  intros Hof Hr Hh. rewrite <- Helts. clear - Hof Hr Hh Htypes Laws. revert es Hh Htypes.
  induction Hof as [|t type ts types' [Htt Hft] Hof IH]; intros es Hh Hts; inversion Hh; subst; [constructor|].
  apply Forall_cons in Hts as [[_ Hs] Hts]. cbn. constructor; [|by apply IH].
  destruct (full_get t r) as (e & He & Hok & Hety); [done|unfold getTensorShape; by rewrite Hs|].
  rewrite H1 in He. injection He as ->. by split.
Qed.

Lemma reduce_step visited i results :
  in_bounds i shape -> reduce_invariant visited results ->
  exists results', (
    accumulators ← lift (splats (getTensorType <$> inits) results (kept_axes dims i));
    elements ← lift (splats (getTensorType <$> inits) inputs i);
    bodyResult ← eval_region body (TensorValue <$> accumulators ++ elements);
    lift (set_all (kept_axes dims i) results bodyResult)) = Return (Ok results') /\
    reduce_invariant (visited ++ [i]) results'.
Proof.
  intros Hi [Hof Hget]. pose proof (in_bounds_kept dims _ _ Hi) as Hr. rewrite (scalars_types _ _ _ Hinits). pose proof (scalars_shaped _ _ _ Hinits) as Hsh.
  destruct (input_elements i Hi) as [Hety Heh]. pose proof (Hget _ Hr) as Hh.
  destruct (splats_scalars (kept_axes dims i) tys results _ Hsh (held_typed _ _ _ Hof Hr Hh) Hh) as (tas & -> & Ha).
  destruct (splats_scalars i tys inputs _ Hsh Hety Heh) as (tbs & -> & Hb).
  cbind. rewrite !lift_ok. destruct (Hbody _ _ _ _ Ha Hb) as (tcs & -> & Hc). change (mbind ?k (Return (Ok ?v))) with (k v).
  destruct (set_all_scalars (kept_axes dims i) types results tys (f (reduced visited (kept_axes dims i)) (elements_at i)) tcs Hof Helts) as (results' & -> & Hof' & Hhit & Hmiss); [|exact Hc|].
  { eapply Forall_impl; [exact Htypes|]. intros type [_ ->]. done. }
  eexists. split; [done|]. split; [done|]. intros r Hrb. unfold reduced. rewrite filter_app. destruct (decide (r = kept_axes dims i)) as [->|Hne].
  - rewrite filter_cons_True by done. cbn [filter list_filter]. rewrite fold_left_app. exact Hhit.
  - rewrite filter_cons_False, app_nil_r by done. pose proof (Hget _ Hrb) as Hh'. fold (reduced visited r).
    revert Hh'. generalize (reduced visited r). pose proof Htypes as Hts. clear - Hmiss Hne Hof Hts Hrb. revert results' Hmiss Hts.
    induction Hof as [|t type ts types' [Htt _] Hof IH]; intros results' Hmiss Hts es Hh'; inversion Hmiss; subst; inversion Hh'; subst; [constructor|].
    apply Forall_cons in Hts as [[_ Hs] Hts]. constructor; [|by apply IH]. rewrite H1; [done|unfold getTensorShape; by rewrite Hs|done].
Qed.

(** The results before the first index *)
Lemma reduceOp_spec :
  exists ts, reduceOp inputs inits dims body types = Return (Ok ts) /\ Forall2 of_type ts types /\
    forall r, in_bounds r (kept_axes dims shape) -> hold_at r ts (reduced (indices shape) r).
Proof.
  assert (exists input0 rest, inputs = input0 :: rest) as (input0 & rest & Ei) by (clear - Hsome; destruct inputs; [done|eauto]).
  assert (getTensorShape input0 = shape /\ shape_ok shape) as [H0 Hshape].
  { pose proof Hinputs as Hin. rewrite Ei in Hin. inversion Hin as [|? ? ? ? (Hf & _ & Hs)]; subst. split; [done|by apply full_shape_ok]. }
  destruct (initial_results _ _ _ _ _ Htypes Helts Hinits) as (t0s & Hs & Hof0 & Hh0). unfold reduceOp. rewrite Hs, lift_ok.
  replace (at_z inputs 0) with (Ok input0) by (by rewrite Ei). rewrite lift_ok, H0.
  destruct (for_index_runs shape (fun inputIndex results =>
    accumulators ← lift (splats (getTensorType <$> inits) results (kept_axes dims inputIndex));
    elements ← lift (splats (getTensorType <$> inits) inputs inputIndex);
    bodyResult ← eval_region body (TensorValue <$> accumulators ++ elements);
    lift (set_all (kept_axes dims inputIndex) results bodyResult)) reduce_invariant t0s)
    as (results & E & Hof & Hh).
  - done.
  - split; [done|]. intros r Hr. by apply Hh0.
  - intros visited i results Hi HP. by apply reduce_step.
  - exists results. split; [exact E|]. by split.
Qed.
End Reduce.

(** What the inference of a reduction's type accepts. *)
Lemma reduce_set rank dims : forall set set' : gset Z,
  foldM (fun dimension (set : gset Z) =>
      _ ← ensure (negb ((dimension <? 0) || (rank <=? dimension))) "Out-of-bounds dimension";
      _ ← ensure (negb (bool_decide (dimension ∈ set))) "Duplicate reduction dimension";
      Ok ({[dimension]} ∪ set)) dims set = Ok set' ->
  forall x, x ∈ set' <-> x ∈ set \/ x ∈ dims.
Proof.
  induction dims as [|d dims IH]; intros set set' H x; cbn [foldM] in H.
  - injection H as <-. split; [by left|intros [?|?%elem_of_nil]; done].
  - apply bind_ok in H as (s1 & H1 & H). apply bind_ok in H1 as (_ & _ & H1). apply bind_ok in H1 as (_ & _ & H1).
    injection H1 as <-. rewrite (IH _ _ H), elem_of_union, elem_of_singleton, elem_of_cons. tauto.
Qed.

Lemma reduce_shape (set : gset Z) (bounds shape : list Z) : forall suf pre nd nb nd' nb',
  shape = pre ++ suf ->
  foldM (fun inputIdx '(newDimensions, newBounds) =>
      if bool_decide (inputIdx ∈ set) then Ok (newDimensions, newBounds)
      else
        d ← at_z shape inputIdx;
        newBounds ← (match bounds with
                     | [] => Ok newBounds
                     | _ => b ← at_z bounds inputIdx; Ok (newBounds ++ [b]) end);
        Ok (newDimensions ++ [d], newBounds))
    (seqZ (Z.of_nat (length pre)) (Z.of_nat (length suf))) (nd, nb) = Ok (nd', nb' : list Z) ->
  nd' = nd ++ (filter (fun '(axis, _) => axis ∉ set) (zip (seqZ (Z.of_nat (length pre)) (Z.of_nat (length suf))) suf)).*2.
Proof.
  induction suf as [|d suf IH]; intros pre nd nb nd' nb' Hsh H.
  - cbn in H. injection H as <- _. by rewrite app_nil_r.
  - cbn [length] in H |- *. rewrite Nat2Z.inj_succ, seqZ_cons, Z.pred_succ in H |- * by lia. cbn [foldM zip zip_with] in H |- *.
    apply bind_ok in H as ([nd1 nb1] & H1 & H).
    replace (Z.succ (Z.of_nat (length pre))) with (Z.of_nat (length (pre ++ [d]))) in * by (rewrite length_app; cbn; lia).
    apply IH in H; [|by rewrite <- app_assoc]. rewrite H. clear H IH.
    rewrite filter_cons. case_bool_decide as Hin.
    + injection H1 as <- _. by rewrite decide_False by tauto.
    + rewrite Hsh, at_z_app_mid in H1. cbn [mbind result_bind] in H1. apply bind_ok in H1 as (nb2 & _ & [= <- _]).
      rewrite decide_True by done. by rewrite fmap_cons, <- app_assoc.
Qed.

Lemma inferReduceOp_shape inputTypes dims body types shape :
  Forall (fun type => getShape type = shape) inputTypes -> inferReduceOp inputTypes dims body = Ok types ->
  inputTypes <> [] /\ length types = length inputTypes /\ Forall (fun type => getShape type = kept_axes dims shape) types.
Proof.
  unfold inferReduceOp. intros Hshapes H. apply bind_ok in H as ([nd enc] & Hv & H). apply bind_ok in H as (acc & _ & H).
  unfold verifyReduceOpInputsAndInferShape in Hv. apply bind_ok in Hv as (witnessType & Hw & Hv).
  destruct inputTypes as [|inputType rest]; [done|]. injection Hw as <-. apply Forall_cons in Hshapes as [Hshape _].
  apply bind_ok in Hv as (_ & _ & Hv). apply bind_ok in Hv as (set & Hset & Hv).
  apply bind_ok in Hv as ([nd' nb'] & Hfold & Hv). apply bind_ok in Hv as (enc' & _ & [= -> ->]).
  apply (reduce_shape set _ _ (getShape inputType) [] [] []) in Hfold; [|done]. cbn [app length] in Hfold. subst nd.
  apply mapM_inv in H. split; [done|]. split.
  { apply Forall2_length in H. rewrite length_seqZ in H. lia. }
  rewrite <- Hshape. generalize dependent types. generalize (seqZ 0 (Z.of_nat (length (inputType :: rest)))). intros idx types H.
  induction H as [|k type idx types Hk H IH]; constructor; [|done].
  apply bind_ok in Hk as (t & _ & [= <-]). cbn [getShape]. unfold kept_axes, enumerate. f_equal. apply list_filter_iff. intros [axis x].
  rewrite (reduce_set _ _ _ _ Hset). rewrite elem_of_empty. tauto.
Qed.

(** C3: a reduction of any number of inputs of one shape over a local body, with the
    result types that [inferReduceOp] infers and element types that the body keeps,
    runs without a fault, and holds at every index of the results the initial values
    combined with the elements of the inputs that differ from the index only in the
    reduced dimensions, each exactly once, in row-major order. *)
Theorem reduce_correct inputs inits dims body types tys shape f e0s :
  Forall2 (fun t ty => tensor_full t /\ getTensorElementType t = ty /\ getTensorShape t = shape) inputs tys ->
  Forall3 scalar_of inits tys e0s -> combines body tys f ->
  inferReduceOp (getTensorType <$> inputs) dims (Some (signature body)) = Ok types ->
  Forall shaped_ok types -> getElementType <$> types = tys ->
  exists ts, inferredReduceOp inputs inits dims body = Return (Ok ts) /\ Forall2 of_type ts types /\
    forall r, in_bounds r (kept_axes dims shape) ->
      Forall2 (fun t e => get t r = Ok e) ts
        (fold_left (fun acc i => f acc ((fun t => fn_val (get t) i) <$> inputs))
           (filter (fun i => kept_axes dims i = r) (indices shape)) e0s).
Proof.
  intros Hinputs Hinits Hbody Hinf Htypes Helt. unfold inferredReduceOp. rewrite Hinf. cbn [or_fatal]. rewrite lift_ok.
  apply (inferReduceOp_shape _ _ _ _ shape) in Hinf as (Hne & _ & Hsh).
  - apply (reduceOp_spec inputs inits dims body types tys shape f e0s); try done; [by destruct inputs|].
    apply Forall_and. by split.
  - clear - Hinputs. induction Hinputs as [|t ty ts tys' (_ & _ & Hs) H IH]; constructor; done.
Qed.

(** ** [whileOp] *)

(** One turn of the loop keeps [P] and decreases the measure. *)
Definition loop_rule (cond body : Region) (P : list InterpreterValue -> Prop)
    (measure : list InterpreterValue -> nat) : Prop :=
  forall vs, P vs -> exists cs b, eval_region cond vs = Return (Ok cs) /\ condition cs = Ok b /\
    (b = true -> exists vs', eval_region body vs = Return (Ok vs') /\ P vs' /\ (measure vs' < measure vs)%nat).

Lemma while_loop_spec cond body P measure :
  loop_rule cond body P measure -> forall n vs cs,
  (measure vs <= n)%nat -> P vs -> eval_region cond vs = Return (Ok cs) ->
  exists vs' cs', (forall fuel, (n <= fuel)%nat -> while_loop fuel cond body vs cs = Return (Ok vs')) /\
    P vs' /\ eval_region cond vs' = Return (Ok cs') /\ condition cs' = Ok false.
Proof.
  intros Hrule n. induction n as [|n IH]; intros vs cs Hn HP Hcs;
    destruct (Hrule vs HP) as (cs1 & b & Hcs1 & Hb & Hstep); rewrite Hcs in Hcs1; injection Hcs1 as <-;
    (destruct b; [destruct (Hstep eq_refl) as (vs1 & Hvs1 & HP1 & Hm)|]); try lia.
  1,3: exists vs, cs; split; [|done]; intros fuel _; destruct fuel; cbn [while_loop]; by rewrite Hb.
  destruct (Hrule vs1 HP1) as (cs1 & _ & Hcs1 & _). destruct (IH vs1 cs1) as (vs' & cs' & Hloop & Hres); [lia|done|done|].
  exists vs', cs'. split; [|done]. intros [|fuel] Hfuel; [lia|]. cbn [while_loop]. rewrite Hb, lift_ok, Hvs1.
  change (mbind ?k (Return (Ok vs1))) with (k vs1). cbv beta. rewrite Hcs1.
  change (mbind ?k (Return (Ok cs1))) with (k cs1). apply Hloop. lia.
Qed.

(** C8: a while loop over local regions whose body keeps an invariant and
    decreases a measure ends, whatever fuel above the measure the evaluation is
    given, and its results satisfy the invariant and make the condition
    false. *)
Theorem while_correct cond body P measure operand :
  loop_rule cond body P measure -> P operand ->
  exists vs cs, (forall fuel, (measure operand <= fuel)%nat -> whileOp fuel operand cond body = Return (Ok vs)) /\
    P vs /\ eval_region cond vs = Return (Ok cs) /\ condition cs = Ok false.
Proof.
  intros Hrule HP. destruct (Hrule operand HP) as (cs & _ & Hcs & _).
  destruct (while_loop_spec cond body P measure Hrule (measure operand) operand cs) as (vs & cs' & Hloop & Hres); [lia|done|done|].
  exists vs, cs'. split; [|done]. intros fuel Hf. unfold whileOp. rewrite Hcs.
  change (mbind ?k (Return (Ok cs))) with (k cs). by apply Hloop.
Qed.

(** ** Sorting handles *)

(** A strict weak order on the members of [l]. *)
Definition weak_order (c : Z -> Z -> bool) (l : list Z) : Prop :=
  (forall x y, x ∈ l -> y ∈ l -> c x y = true -> c y x = false) /\
  (forall x y z, x ∈ l -> y ∈ l -> z ∈ l -> c x y = false -> c y z = false -> c x z = false).

Lemma weak_order_trans c l x y z :
  weak_order c l -> x ∈ l -> y ∈ l -> z ∈ l -> c x y = true -> c z y = false -> c x z = true.
Proof.
  intros [_ Hneg] Hx Hy Hz Hxy Hzy. destruct (c x z) eqn:Hxz; [done|].
  by rewrite (Hneg x z y) in Hxy.
Qed.

(** Sorted, and equivalent handles in increasing order. *)
Definition before (c : Z -> Z -> bool) (x y : Z) : Prop := c x y = true \/ c y x = false /\ x < y.

Definition local_comparison (comp : Z -> Z -> proc bool) (c : Z -> Z -> bool) (l : list Z) : Prop :=
  forall x y, x ∈ l -> y ∈ l -> comp x y = Return (Ok (c x y)).

Lemma insert_sorted_spec comp c x : forall l,
  local_comparison comp c (x :: l) -> weak_order c (x :: l) -> StronglySorted (before c) l ->
  Forall (fun y => y < x) l ->
  exists l', insert_sorted comp x l = Return (Ok l') /\ l' ≡ₚ x :: l /\ StronglySorted (before c) l'.
Proof.
  induction l as [|y l IH]; intros Hc Hw Hs Hlt.
  - exists [x]. split; [done|]. split; [done|]. repeat constructor.
  - cbn [insert_sorted]. rewrite Hc by set_solver. change (mbind ?k (Return (Ok ?b))) with (k b). cbv beta.
    apply StronglySorted_inv in Hs as [Hs Hy]. apply Forall_cons in Hlt as [Hyx Hlt]. destruct (c x y) eqn:Hxy.
    + exists (x :: y :: l). split; [done|]. split; [done|]. constructor; [by constructor|].
      constructor; [by left|]. rewrite Forall_forall in Hy |- *. intros z Hz. left.
      apply (weak_order_trans c (x :: y :: l) x y z Hw); [set_solver..|done|].
      destruct (Hy z Hz) as [Hyz|[? _]]; [|done]. destruct Hw as [Ha _]. apply Ha; set_solver.
    + destruct IH as (l' & E & Hp & Hs'); [intros ????; apply Hc; set_solver| |done|done|].
      { destruct Hw as [Ha Hn]. split; [intros ????; apply Ha; set_solver|intros ??????; apply Hn; set_solver]. }
      rewrite E. exists (y :: l'). split; [done|]. split; [rewrite Hp; constructor|]. constructor; [done|].
      rewrite Hp. constructor; [by right|done].
Qed.

Lemma stable_sort_spec comp c l :
  local_comparison comp c l -> weak_order c l -> StronglySorted Z.lt l ->
  exists l', stable_sort l comp = Return (Ok l') /\ l' ≡ₚ l /\ StronglySorted (before c) l'.
Proof.
  intros Hc Hw Hl. unfold stable_sort.
  enough (forall rest acc done_, l = done_ ++ rest -> acc ≡ₚ done_ -> StronglySorted (before c) acc ->
    exists l', foldM (insert_sorted comp) rest acc = Return (Ok l') /\ l' ≡ₚ l /\ StronglySorted (before c) l') as H.
  { apply (H l [] []); [done|done|constructor]. }
  induction rest as [|x rest IH]; intros acc done_ -> Hacc Hs.
  - exists acc. by rewrite app_nil_r.
  - assert (forall y, y ∈ x :: acc -> y ∈ done_ ++ x :: rest) as Hsub by (intros y; rewrite elem_of_cons, Hacc; set_solver).
    destruct (insert_sorted_spec comp c x acc) as (acc' & E & Hp & Hs').
    + intros y z Hy Hz. apply Hc; by apply Hsub.
    + destruct Hw as [Ha Hn]. split; [intros ????; apply Ha; by apply Hsub|intros ??????; apply Hn; by apply Hsub].
    + done.
    + rewrite Hacc. apply Forall_forall. intros y Hy.
      apply (StronglySorted_app_1_elem_of Z.lt done_ (x :: rest) y x Hl Hy). left.
    + cbn [foldM]. rewrite E. change (mbind ?k (Return (Ok acc'))) with (k acc').
      apply (IH acc' (done_ ++ [x])); [by rewrite <- app_assoc|rewrite Hp, Hacc; solve_Permutation|done].
Qed.

(** ** Regions of one elementwise operation *)
Definition binary_region (op : Element -> Element -> result Element) (ty : Ty) : Region :=
  let scalar := shaped_type (shaped [] ty) in
  MkRegion (MkBlockSig [scalar; scalar] (Some [scalar])) (fun args => lift (
    a ← at_z args 0; a ← Regions.getTensor a;
    b ← at_z args 1; b ← Regions.getTensor b;
    c ← elementwise2 op a b (shaped [] ty);
    Ok [TensorValue c])).

Definition value_of (op : Element -> Element -> result Element) (a b : Element) : Element :=
  match op a b with Ok e => e | Err _ => a end.

Definition total_on (ty : Ty) (op : Element -> Element -> result Element) : Prop :=
  forall a b, typed ty a -> typed ty b -> exists e, op a b = Ok e /\ typed ty e.

Lemma elementwise_scalars op ty ta tb a b : total_on ty op -> scalar_of ta ty a -> scalar_of tb ty b ->
  exists t, elementwise2 op ta tb (shaped [] ty) = Ok t /\ scalar_of t ty (value_of op a b).
Proof.
  intros Hop Ha Hb. destruct (scalar_shaped _ _ _ Ha) as [Hsh Hta]. destruct (scalar_shaped _ _ _ Hb) as [_ Htb].
  destruct (Hop a b Hta Htb) as (e & He & Hok & Hty). destruct Ha as (_ & _ & Hga), Hb as (_ & _ & Hgb).
  assert (forall i, in_bounds i [] -> (x ← get ta i; y ← get tb i; op x y) = Ok e) as E.
  { intros i Hi. inversion Hi. rewrite Hga. cbind. rewrite Hgb. cbind. done. }
  destruct (build_result (shaped [] ty) (fun i => x ← get ta i; y ← get tb i; op x y) (fun t => get t [] = Ok e))
    as (t & Ht & Htt & Hf & Hg); [done| | |].
  - intros i Hi. exists e. split; [by apply E|]. by split.
  - intros t _ Hg. rewrite Hg by constructor. apply E. constructor.
  - exists t. split; [done|]. split; [done|]. split; [done|]. unfold value_of. by rewrite He.
Qed.

Lemma binary_computes op ty : total_on ty op -> computes (binary_region op ty) ty (value_of op).
Proof.
  intros Hop ta tb a b Ha Hb. destruct (elementwise_scalars op ty ta tb a b Hop Ha Hb) as (t & Ht & Hs). exists t. split; [|done].
  change (lift (c ← elementwise2 op ta tb (shaped [] ty); Ok [TensorValue c]) = Return (Ok [TensorValue t])). by rewrite Ht.
Qed.

(** Addition of integers. *)
Lemma typed_int s w e : int_type s w = true -> typed (IntegerType s w) e -> exists z, e = int_el s w z.
Proof.
  intros Hi [He Ht]. pose proof (int_type_pos s w Hi). destruct (int_element_inv e s w He Ht Hi) as (x & -> & <-).
  exists (uval x). unfold int_el. by rewrite apint_uval by lia.
Qed.

Lemma add_total s w : int_type s w = true -> total_on (IntegerType s w) el_add.
Proof.
  intros Hi a b Ha Hb. destruct (typed_int s w a Hi Ha) as [x ->], (typed_int s w b Hi Hb) as [y ->].
  exists (int_el s w (x + y)). split; [by apply el_add_int|]. split; [by apply int_el_ok|done].
Qed.
Lemma mul_total s w : int_type s w = true -> total_on (IntegerType s w) el_mul.
Proof.
  intros Hi a b Ha Hb. destruct (typed_int s w a Hi Ha) as [x ->], (typed_int s w b Hi Hb) as [y ->].
  exists (int_el s w (x * y)). split; [by apply el_mul_int|]. split; [by apply int_el_ok|done].
Qed.
Lemma add_computes s w : int_type s w = true ->
  computes (binary_region el_add (IntegerType s w)) (IntegerType s w) (value_of el_add).
Proof. intros Hi. by apply binary_computes, add_total. Qed.
End Regions.

(** ** Witnesses *)
Section Witnesses.
Import Concrete.

Lemma scalar_of_scalar z : full_check (scalar z) = true -> get (scalar z) [] = Ok (int_el Unsigned 8 z) ->
  scalar_of (scalar z) ui8 (int_el Unsigned 8 z).
Proof. intros H Hg. split; [done|]. split; [by apply full_check_ok|done]. Qed.

(** The rows of [2, 3, 4; 5, 6, 7], summed from 1 and, at once, multiplied from 2. *)
Definition sum_and_product : Region :=
  let scalar := shaped_type (shaped [] ui8) in
  MkRegion (MkBlockSig [scalar; scalar; scalar; scalar] (Some [scalar; scalar])) (fun args => lift (
    a ← at_z args 0; a ← Regions.getTensor a; b ← at_z args 1; b ← Regions.getTensor b;
    c ← at_z args 2; c ← Regions.getTensor c; d ← at_z args 3; d ← Regions.getTensor d;
    s ← elementwise2 el_add a c (shaped [] ui8); p ← elementwise2 el_mul b d (shaped [] ui8);
    Ok [TensorValue s; TensorValue p])).
Definition pairwise (es es' : list Element) : list Element :=
  match es, es' with [a; b], [c; d] => [value_of el_add a c; value_of el_mul b d] | _, _ => [] end.

Lemma reduce_correct_witness :
  exists t u, inferredReduceOp [sample; sample] [scalar 1; scalar 2] [1] sum_and_product = Return (Ok [t; u]) /\
    get t [1] = Ok (int_el Unsigned 8 (1 + 5 + 6 + 7)) /\ get u [1] = Ok (int_el Unsigned 8 (2 * 5 * 6 * 7)).
Proof.
  assert (combines sum_and_product [ui8; ui8] pairwise) as Hbody.
  { intros tas tbs es es' Ha Hb. inversion Ha as [|ta ? a tas1 ? es1 Ha1 Ha']; subst. inversion Ha' as [|tb ? b ? ? ? Hb1 Hn]; subst. inversion Hn; subst.
    inversion Hb as [|tc ? c tbs1 ? es1 Hc1 Hb']; subst. inversion Hb' as [|td ? d ? ? ? Hd1 Hn']; subst. inversion Hn'; subst.
    destruct (elementwise_scalars el_add ui8 ta tc a c) as (s & Hs & Hss); [by apply add_total|done|done|].
    destruct (elementwise_scalars el_mul ui8 tb td b d) as (p & Hp & Hps); [by apply mul_total|done|done|].
    exists [s; p]. split; [|constructor; [exact Hss|constructor; [exact Hps|constructor]]].
    change (lift (s ← elementwise2 el_add ta tc (shaped [] ui8); p ← elementwise2 el_mul tb td (shaped [] ui8);
      Ok [TensorValue s; TensorValue p]) = Return (Ok [TensorValue s; TensorValue p])). rewrite Hs. cbind. by rewrite Hp. }
  destruct (reduce_correct [sample; sample] [scalar 1; scalar 2] [1] sum_and_product [shaped [2] ui8; shaped [2] ui8] [ui8; ui8] [2; 3]
    pairwise [int_el Unsigned 8 1; int_el Unsigned 8 2]) as (ts & H1 & H2 & H3);
    [|constructor; [|constructor; [|constructor]]; apply scalar_of_scalar; reflexivity|exact Hbody|reflexivity
    |constructor; [concrete|constructor; [concrete|constructor]]|reflexivity|].
  { constructor; [|constructor; [|constructor]]; (split; [concrete|split; reflexivity]). }
  specialize (H3 [1] ltac:(repeat constructor; discriminate)).
  assert (fold_left (fun acc i => pairwise acc ((fun t => fn_val (get t) i) <$> [sample; sample]))
    (filter (fun i => kept_axes [1] i = [1]) (indices [2; 3])) [int_el Unsigned 8 1; int_el Unsigned 8 2]
    = [int_el Unsigned 8 (1 + 5 + 6 + 7); int_el Unsigned 8 (2 * 5 * 6 * 7)]) as E by reflexivity.
  rewrite E in H3. apply Forall2_cons_inv_r in H3 as (t & ts1 & Ht & H3 & ->). apply Forall2_cons_inv_r in H3 as (u & ts2 & Hu & H3 & ->).
  apply Forall2_nil_inv_r in H3 as ->. exists t, u. split; [exact H1|]. by split.
Defined.

(** [while (x < 3) x = x + 1] on [ui8]. *)
Definition less_than_3 : Region :=
  MkRegion (MkBlockSig [shaped_type (shaped [] ui8)] (Some [shaped_type (shaped [] i1)])) (fun args => lift (
    x ← at_z args 0; x ← Regions.getTensor x;
    c ← compareOp x (scalar 3) LT (shaped [] i1);
    Ok [TensorValue c])).

Definition increment : Region :=
  MkRegion (MkBlockSig [shaped_type (shaped [] ui8)] (Some [shaped_type (shaped [] ui8)])) (fun args => lift (
    x ← at_z args 0; x ← Regions.getTensor x;
    c ← elementwise2 el_add x (scalar 1) (shaped [] ui8);
    Ok [TensorValue c])).

Lemma while_correct_witness :
  exists vs, (forall fuel, (3 <= fuel)%nat -> whileOp fuel [TensorValue (scalar 0)] less_than_3 increment = Return (Ok vs)) /\
    vs = [TensorValue (scalar 3)].
Proof.
  set (P := fun vs => exists z, z ∈ [0; 1; 2; 3] /\ vs = [TensorValue (scalar z)]).
  set (measure := fun vs => match vs with
    | [TensorValue t] => match getData t with [Some b] => Z.to_nat (3 - b) | _ => O end
    | _ => O end).
  destruct (while_correct less_than_3 increment P measure [TensorValue (scalar 0)]) as (vs & cs & H1 & (z & Hz & ->) & H2 & H3).
  - intros vs (z & Hz & ->). apply list_elem_of_In in Hz. cbn in Hz.
    destruct Hz as [<-|[<-|[<-|[<-|[]]]]]; eexists _, _; (split; [reflexivity|]); (split; [reflexivity|]);
      [..|discriminate]; intros _; eexists; (split; [reflexivity|]); (split; [|unfold measure; apply Nat.ltb_lt; reflexivity]).
    + exists 1. split; [apply list_elem_of_In; cbn; tauto|reflexivity].
    + exists 2. split; [apply list_elem_of_In; cbn; tauto|reflexivity].
    + exists 3. split; [apply list_elem_of_In; cbn; tauto|reflexivity].
  - exists 0. split; [left|reflexivity].
  - exists [TensorValue (scalar z)]. split; [exact H1|]. apply list_elem_of_In in Hz. cbn in Hz.
    destruct Hz as [<-|[<-|[<-|[<-|[]]]]]; [| | |reflexivity]; injection H2 as <-; discriminate H3.
Defined.
End Witnesses.
