(* ===== verification/SortFacts.v ===== *)
(** * Sorting sorts every slice, and keeps the tuples together *)
From stdpp Require Import sorting.
From S2P Require Import Prelude Types Support Index Element ElementFacts Tensor TensorFacts Samples Base TypeInference Ops Linear ProcessGrid Regions OpsFacts RegionFacts.

Section SortFacts.
Context {L : LLVM} {Laws : LLVMLaws L}.

Lemma scalar_shaped_ok ty : isSupportedType ty = true -> shaped_ok (shaped [] ty).
Proof.
  intros Ht. split; [done|]. split; [constructor|]. destruct (supported_size ty Ht) as (sz & Hsz & Hb).
  exists sz. cbn [shaped_type shaped getShape getElementType getEncoding getSizeInBytes].
  change (numElements []) with (Ok 1). cbind. rewrite Hsz. cbind. rewrite Z.mul_1_l.
  apply i64_ok. unfold int64_min, int64_max. lia.
Qed.

Lemma constant_spec ty e :
  isSupportedType ty = true -> typed ty e -> exists t, Ops.constant e = Ok t /\ scalar_of t ty e.
Proof.
  intros Hs [He Ht]. pose proof (scalar_shaped_ok ty Hs) as Hsh. unfold Ops.constant. rewrite Ht.
  destruct (newTensor_ok (shaped [] ty) Hsh) as (t0 & -> & Hok & Hty0). cbind.
  destruct (set_spec t0 [] e) as (t & Hset & Hok' & Hty & Hg & _);
    [done|unfold getTensorShape; rewrite Hty0; constructor|done|unfold getTensorElementType; by rewrite Hty0|].
  exists t. split; [done|]. rewrite Hty0 in Hty. split; [done|]. split; [|done]. split; [done|].
  rewrite Hty. intros i Hi. inversion Hi. subst i. by exists e.
Qed.

Lemma full_supported t : tensor_full t -> isSupportedType (getTensorElementType t) = true.
Proof. intros H. by apply full_shaped in H as [? _]. Qed.

Lemma mapM_exists {A B} (f : A -> result B) l :
  (forall x, x ∈ l -> exists y, f x = Ok y) -> exists k, mapM f l = Ok k.
Proof.
  induction l as [|x l IH]; intros H; [by exists []|]. destruct (H x) as [y Hy]; [left|].
  destruct IH as [k Hk]; [intros z Hz; apply H; by right|]. exists (y :: k). cbn [mapM]. by rewrite Hy, Hk.
Qed.

(** ** Writing an entry of every result *)

Definition pairs_ok (shape : Sizes) (input result : Tensor) : Prop :=
  tensor_full input /\ getTensorShape input = shape /\ tensor_ok result /\ getTensorType result = getTensorType input.

Lemma write_entry shape from to inputs results :
  in_bounds from shape -> in_bounds to shape -> Forall2 (pairs_ok shape) inputs results ->
  exists results', mapM (fun '(input, result) => e ← get input from; set result to e) (zip inputs results) = Ok results' /\
    Forall2 (pairs_ok shape) inputs results' /\
    (forall k input result', inputs !! k = Some input -> results' !! k = Some result' -> get result' to = get input from) /\
    (forall k i result result', results !! k = Some result -> results' !! k = Some result' ->
       in_bounds i shape -> i <> to -> get result' i = get result i).
Proof.
  intros Hfrom Hto. induction 1 as [|input result inputs results Hp Hps IH].
  - exists []. split; [done|]. split; [constructor|]. split; [by intros []|by intros []].
  - destruct IH as (results' & E & Hok & Hhit & Hmiss). pose proof Hp as (Hin & Hsh & Hr & Hty).
    destruct (full_get input from) as (e & He & Heok & Hety); [done|by rewrite Hsh|].
    assert (getTensorShape result = shape) as Hrs by (unfold getTensorShape; by rewrite Hty).
    destruct (set_spec result to e) as (result' & Hset & Hr' & Hty' & Hg & Ho);
      [done|by rewrite Hrs|done|rewrite Hety; unfold getTensorElementType; by rewrite Hty|].
    exists (result' :: results'). cbn [zip zip_with mapM]. rewrite He. cbind. rewrite Hset, E. split; [done|].
    split; [constructor; [|done]; split_and!; congruence|]. split.
    + intros [|k] i r Hi Hrk; simplify_eq/=; [congruence|by eapply Hhit].
    + intros [|k] i r r' Hrk Hrk' Hi Hne; simplify_eq/=; [apply Ho; [by rewrite Hrs|done]|by eapply Hmiss].
Qed.

(** ** One slice *)
Section Slice.
Context (shape : Sizes) (d : nat) (n : Z) (Hd : shape !! d = Some n) (inputs : list Tensor) (base : Index).
Context (Hbase : in_bounds base shape).

Lemma slot_bounds j : 0 <= j < n -> in_bounds (<[d := j]> base) shape.
Proof.
  intros Hj. unfold in_bounds. rewrite <- (list_insert_id shape d n Hd). by apply Forall2_insert.
Qed.

Lemma set_slot j : set_z base (Z.of_nat d) j = Ok (<[d := j]> base).
Proof.
  rewrite set_z_ok; [by rewrite Nat2Z.id|]. apply lookup_lt_Some in Hd. rewrite <- (in_bounds_length _ _ Hbase) in Hd. lia.
Qed.

Lemma slot_inj j j' : <[d := j]> base = <[d := j']> base -> j = j'.
Proof.
  intros H. apply (f_equal (lookup d)) in H.
  assert (d < length base)%nat by (rewrite (in_bounds_length _ _ Hbase); by eapply lookup_lt_Some).
  rewrite !list_lookup_insert_eq in H by done. congruence.
Qed.

Definition slice_written (pairs : list (Z * Z)) (results' : list Tensor) : Prop :=
  forall j h k input result', (j, h) ∈ pairs -> inputs !! k = Some input -> results' !! k = Some result' ->
    get result' (<[d := j]> base) = get input (<[d := h]> base).

Definition rest_kept (pairs : list (Z * Z)) (results results' : list Tensor) : Prop :=
  forall i k result result', in_bounds i shape -> (forall j h, (j, h) ∈ pairs -> i <> <[d := j]> base) ->
    results !! k = Some result -> results' !! k = Some result' -> get result' i = get result i.

Lemma write_slice pairs : forall results,
  Forall2 (pairs_ok shape) inputs results -> NoDup pairs.*1 ->
  Forall (fun '(j, h) => 0 <= j < n /\ 0 <= h < n) pairs ->
  exists results', foldM (fun '(resultHandle, inputHandle) results =>
      from ← set_z base (Z.of_nat d) inputHandle;
      to ← set_z base (Z.of_nat d) resultHandle;
      mapM (fun '(input, result) => e ← get input from; set result to e) (zip inputs results)) pairs results = Ok results' /\
    Forall2 (pairs_ok shape) inputs results' /\ slice_written pairs results' /\ rest_kept pairs results results'.
Proof.
  induction pairs as [|[j h] pairs IH]; intros results Hok Hnd Hb.
  - exists results. split; [done|]. split; [done|]. split; [by intros ????? ?%elem_of_nil|].
    intros i k r r' _ _ H1 H2. congruence.
  - apply NoDup_cons in Hnd as [Hj Hnd]. apply Forall_cons in Hb as [[Hbj Hbh] Hb]. cbn [foldM].
    rewrite !set_slot. cbind.
    destruct (write_entry shape (<[d := h]> base) (<[d := j]> base) inputs results) as (results1 & -> & Hok1 & Hhit & Hmiss);
      [by apply slot_bounds..|done|]. cbind.
    destruct (IH results1 Hok1 Hnd Hb) as (results' & -> & Hok' & Hw & Hk).
    pose proof (Forall2_length _ _ _ Hok) as L0. pose proof (Forall2_length _ _ _ Hok1) as L1.
    exists results'. split; [done|]. split; [done|]. split.
    + intros j' h' k input result' [[= -> ->]|Hin]%elem_of_cons Hki Hkr; [|by eapply Hw].
      destruct (lookup_lt_is_Some_2 results1 k) as [r1 Hr1]; [apply lookup_lt_Some in Hki; lia|].
      rewrite (Hk _ k r1 result'); [by eapply Hhit|by apply slot_bounds| |done|done].
      intros j'' h'' Hin Heq. apply slot_inj in Heq. subst j''. apply Hj, list_elem_of_fmap. by exists (j, h'').
    + intros i k r r' Hi Hne Hkr Hkr'.
      destruct (lookup_lt_is_Some_2 results1 k) as [r1 Hr1]; [apply lookup_lt_Some in Hkr; lia|].
      rewrite (Hk i k r1 r'); [|done|intros j' h' Hin; apply (Hne j' h'); by right|done|done].
      eapply Hmiss; [done|done|done|]. apply (Hne j h). left.
Qed.
End Slice.

(** ** The comparator on handles *)

(** Scalar tensors that hold the elements. *)
Definition scalars (ts : list Tensor) (es : list Element) : Prop :=
  Forall2 (fun t e => scalar_of t (getType e) e) ts es.

(** The comparator computes [cmp] on tuples of elements of the types. *)
Definition compares (comparator : Region) (tys : list Ty) (cmp : list Element -> list Element -> bool) : Prop :=
  forall ta tb la lb, scalars ta la -> scalars tb lb -> getType <$> la = tys -> getType <$> lb = tys ->
    exists t, eval_region comparator (TensorValue <$> concat (zip_with (fun a b => [a; b]) ta tb)) = Return (Ok [TensorValue t]) /\
      get t [] = Ok (bool_el (cmp la lb)).

Definition tuple_ok (tys : list Ty) (l : list Element) : Prop := Forall element_ok l /\ getType <$> l = tys.

(** [cmp] is a strict weak order on tuples of elements of the types. *)
Definition tuple_order (tys : list Ty) (cmp : list Element -> list Element -> bool) : Prop :=
  (forall a b, tuple_ok tys a -> tuple_ok tys b -> cmp a b = true -> cmp b a = false) /\
  (forall a b c, tuple_ok tys a -> tuple_ok tys b -> tuple_ok tys c ->
     cmp a b = false -> cmp b c = false -> cmp a c = false).

(** The elements of the inputs at an index. *)
Definition tuple_at (inputs : list Tensor) (i : Index) : list Element := (fun input => fn_val (get input) i) <$> inputs.

Definition types_of (inputs : list Tensor) : list Ty := getTensorElementType <$> inputs.

Lemma tuple_at_ok inputs shape i :
  Forall (fun t => tensor_full t /\ getTensorShape t = shape) inputs -> in_bounds i shape ->
  tuple_ok (types_of inputs) (tuple_at inputs i).
Proof.
  intros Hin Hi. unfold tuple_ok, tuple_at, types_of.
  induction Hin as [|t ts [Hf Hs] Hin [IH1 IH2]]; [by split; [constructor|]|].
  destruct (full_get t i) as (e & He & Hok & Hty); [done|by rewrite Hs|].
  assert (fn_val (get t) i = e) as E by (unfold fn_val; by rewrite He).
  rewrite !fmap_cons, E. split; [by constructor|]. by rewrite Hty, IH2.
Qed.

Lemma compared_scalars inputs shape i j :
  Forall (fun t => tensor_full t /\ getTensorShape t = shape) inputs -> in_bounds i shape -> in_bounds j shape ->
  exists ta tb, mapM (fun input =>
      a ← get input i; a ← Ops.constant a; b ← get input j; b ← Ops.constant b; Ok [a; b]) inputs
    = Ok (zip_with (fun a b => [a; b]) ta tb) /\
    scalars ta (tuple_at inputs i) /\ scalars tb (tuple_at inputs j).
Proof.
  intros Hin Hi Hj. induction Hin as [|t ts [Hf Hs] Hin (ta & tb & E & Ha & Hb)].
  - exists [], []. split; [done|]. split; constructor.
  - destruct (full_get t i) as (a & Hga & Hoka & Htya); [done|by rewrite Hs|].
    destruct (full_get t j) as (b & Hgb & Hokb & Htyb); [done|by rewrite Hs|].
    pose proof (full_supported t Hf) as Hsup.
    destruct (constant_spec (getType a) a) as (sa & Hca & Hsa); [by rewrite Htya|done|].
    destruct (constant_spec (getType b) b) as (sb & Hcb & Hsb); [by rewrite Htyb|done|].
    exists (sa :: ta), (sb :: tb). cbn [mapM zip_with]. rewrite Hga. cbind. rewrite Hca. cbind. rewrite Hgb. cbind.
    rewrite Hcb. cbind. rewrite E. split; [done|]. unfold tuple_at, fn_val. rewrite !fmap_cons, Hga, Hgb.
    split; by constructor.
Qed.

Lemma comparatorTogether_spec inputs shape d n comparator cmp base x y :
  Forall (fun t => tensor_full t /\ getTensorShape t = shape) inputs -> shape !! d = Some n -> in_bounds base shape ->
  compares comparator (types_of inputs) cmp -> 0 <= x < n -> 0 <= y < n ->
  comparatorTogether inputs (Z.of_nat d) comparator base x y
  = Return (Ok (cmp (tuple_at inputs (<[d := x]> base)) (tuple_at inputs (<[d := y]> base)))).
Proof.
  intros Hin Hd Hbase Hc Hx Hy. unfold comparatorTogether.
  rewrite !(set_slot shape d n) by done. cbn [mbind result_bind].
  pose proof (slot_bounds shape d n Hd base Hbase x Hx) as Hbx. pose proof (slot_bounds shape d n Hd base Hbase y Hy) as Hby.
  destruct (compared_scalars inputs shape _ _ Hin Hbx Hby) as (ta & tb & -> & Ha & Hb). rewrite lift_ok.
  destruct (Hc _ _ _ _ Ha Hb) as (t & E & Hg); [by eapply tuple_at_ok..|].
  rewrite (eval_tensor_ok _ _ _ _ E), lift_ok, Hg. done.
Qed.

Lemma seqZ_sorted (z n : Z) : StronglySorted Z.lt (seqZ z n).
Proof.
  remember (Z.to_nat n) as m eqn:Hm. revert z n Hm.
  induction m as [|m IH]; intros z n Hm; [rewrite seqZ_nil by lia; constructor|].
  rewrite seqZ_cons by lia. constructor; [apply IH; lia|]. apply Forall_forall. intros x Hx%elem_of_seqZ. lia.
Qed.

(** ** [sortOp] *)
Lemma new_results inputs shape :
  Forall (fun t => tensor_full t /\ getTensorShape t = shape) inputs ->
  exists results, mapM (fun input => newTensor (getTensorType input)) inputs = Ok results /\
    Forall2 (pairs_ok shape) inputs results.
Proof.
  induction 1 as [|t ts [Hf Hs] Hts (results & E & Hok)]; [by exists []|].
  destruct (newTensor_ok (getTensorType t)) as (r & Hr & Hrok & Hrty); [by apply full_shaped|].
  exists (r :: results). cbn [mapM]. rewrite Hr. cbind. rewrite E. split; [done|]. by constructor.
Qed.

Section SortOp.
Context (std_sort : list Z -> (Z -> Z -> proc bool) -> proc (list Z)).

(** What [std::sort] promises for a strict weak order. *)
Definition sorts : Prop := forall l comp c, local_comparison comp c l -> weak_order c l ->
  exists l', std_sort l comp = Return (Ok l') /\ l' ≡ₚ l /\ StronglySorted (fun x y => c y x = false) l'.

Context (inputs : list Tensor) (shape : Sizes) (d : nat) (n : Z) (isStable : bool) (comparator : Region)
  (cmp : list Element -> list Element -> bool).
Context (Hstd : isStable = false -> sorts) (Hd : shape !! d = Some n) (Hne : inputs <> []).
Context (Hin : Forall (fun t => tensor_full t /\ getTensorShape t = shape) inputs).
Context (Hcmp : compares comparator (types_of inputs) cmp) (Hord : tuple_order (types_of inputs) cmp).

(** The order of the handles of the slice at [base]. *)
Definition handle_lt (base : Index) (x y : Z) : bool :=
  cmp (tuple_at inputs (<[d := x]> base)) (tuple_at inputs (<[d := y]> base)).

Definition handles_sorted (base : Index) (l : list Z) : Prop :=
  StronglySorted (if isStable then before (handle_lt base) else fun x y => handle_lt base y x = false) l.

(** The results hold at [base]'s slice the tuples of the inputs, sorted. *)
Definition slice_sorted (base : Index) (results : list Tensor) : Prop :=
  exists handles, handles ≡ₚ seqZ 0 n /\ handles_sorted base handles /\
    forall (j : nat) h k input result, handles !! j = Some h -> inputs !! k = Some input -> results !! k = Some result ->
      get result (<[d := Z.of_nat j]> base) = get input (<[d := h]> base).

Lemma handles_weak_order base : in_bounds base shape -> weak_order (handle_lt base) (seqZ 0 n).
Proof.
  intros Hb. destruct Hord as [Ha Hn]. unfold handle_lt.
  assert (forall x, x ∈ seqZ 0 n -> tuple_ok (types_of inputs) (tuple_at inputs (<[d := x]> base))) as Hok.
  { intros x Hx%elem_of_seqZ. eapply tuple_at_ok; [done|]. apply (slot_bounds shape d n Hd base Hb). lia. }
  split; [intros x y Hx Hy; by apply Ha; apply Hok|intros x y z Hx Hy Hz; by apply Hn; apply Hok].
Qed.

Lemma sort_handles base : in_bounds base shape ->
  let comp := comparatorTogether inputs (Z.of_nat d) comparator base in
  exists handles, (if isStable then stable_sort (seqZ 0 n) comp else std_sort (seqZ 0 n) comp) = Return (Ok handles) /\
    handles ≡ₚ seqZ 0 n /\ handles_sorted base handles.
Proof.
  intros Hb comp. assert (local_comparison comp (handle_lt base) (seqZ 0 n)) as Hlocal.
  { intros x y Hx%elem_of_seqZ Hy%elem_of_seqZ. apply (comparatorTogether_spec inputs shape d n); [done..|lia|lia]. }
  pose proof (handles_weak_order base Hb) as Hw. unfold handles_sorted. destruct isStable.
  - apply stable_sort_spec; [done|done|apply seqZ_sorted].
  - by apply Hstd.
Qed.

Lemma enumerate_lookup (l : list Z) (j : nat) h : l !! j = Some h -> (Z.of_nat j, h) ∈ enumerate l.
Proof.
  intros Hj. pose proof (lookup_lt_Some _ _ _ Hj). apply list_elem_of_lookup. exists j. unfold enumerate.
  rewrite lookup_zip_with, lookup_seqZ_lt, Hj by lia. cbn. by rewrite Z.add_0_l.
Qed.

Lemma enumerate_inv (l : list Z) j h : (j, h) ∈ enumerate l -> 0 <= j < Z.of_nat (length l) /\ h ∈ l.
Proof.
  intros H. pose proof (elem_of_zip_l _ _ _ _ H) as Hj%elem_of_seqZ. pose proof (elem_of_zip_r _ _ _ _ H).
  split; [lia|done].
Qed.

Lemma enumerate_fst (l : list Z) : (enumerate l).*1 = seqZ 0 (Z.of_nat (length l)).
Proof. unfold enumerate. apply fst_zip. rewrite length_seqZ. lia. Qed.

(** Slices at different bases share no index. *)
Lemma slices_disjoint base base' j j' :
  in_bounds base shape -> in_bounds base' shape -> base !! d = Some 0 -> base' !! d = Some 0 ->
  <[d := j]> base = <[d := j']> base' -> base = base'.
Proof.
  intros Hb Hb' H0 H0' E. apply (f_equal (insert d 0)) in E. rewrite !list_insert_insert_eq in E.
  by rewrite !list_insert_id in E.
Qed.

Definition sort_invariant (visited : list Index) (results : list Tensor) : Prop :=
  Forall2 (pairs_ok shape) inputs results /\
  forall base, base ∈ visited -> in_bounds base shape -> base !! d = Some 0 -> slice_sorted base results.

Lemma sort_slice visited base results :
  in_bounds base shape -> base !! d = Some 0 -> sort_invariant visited results ->
  exists handles results', (if isStable then stable_sort (seqZ 0 n) (comparatorTogether inputs (Z.of_nat d) comparator base)
     else std_sort (seqZ 0 n) (comparatorTogether inputs (Z.of_nat d) comparator base)) = Return (Ok handles) /\
    reshuffle inputs (Z.of_nat d) base handles results = Ok results' /\ sort_invariant (visited ++ [base]) results'.
Proof.
  intros Hb H0 [Hok Hvis]. destruct (sort_handles base Hb) as (handles & E & Hp & Hs).
  assert (length handles = Z.to_nat n) as Hlen by (rewrite Hp; apply length_seqZ).
  assert (0 < n) as Hn by (destruct (in_bounds_lookup base shape d 0 n Hb H0 Hd); lia).
  destruct (write_slice shape d n Hd inputs base Hb (enumerate handles) results) as (results' & Hr & Hok' & Hw & Hk).
  { done. }
  { rewrite enumerate_fst. apply NoDup_seqZ. }
  { apply Forall_forall. intros [j h] [Hj Hh]%enumerate_inv. rewrite Hp in Hh. apply elem_of_seqZ in Hh. lia. }
  exists handles, results'. split; [done|]. split; [done|]. split; [done|].
  pose proof (Forall2_length _ _ _ Hok) as L0. pose proof (Forall2_length _ _ _ Hok') as L1.
  assert (slice_sorted base results') as Hbase.
  { exists handles. split; [done|]. split; [done|]. intros j h k input result Hj Hki Hkr.
    eapply Hw; [by apply enumerate_lookup|done|done]. }
  intros base' Hinv Hb' H0'. destruct (decide (base' = base)) as [->|Hdiff]; [done|].
  apply elem_of_app in Hinv as [Hinv|[->|Hinv%elem_of_nil]%elem_of_cons]; [|done|done].
  destruct (Hvis base' Hinv Hb' H0') as (handles' & Hp' & Hs' & Hget). exists handles'. split; [done|]. split; [done|].
  intros j h k input result' Hj Hki Hkr'. assert (length handles' = Z.to_nat n) as Hlen' by (rewrite Hp'; apply length_seqZ).
  destruct (lookup_lt_is_Some_2 results k) as [result Hkr]; [apply lookup_lt_Some in Hki; lia|].
  rewrite (Hk _ k result result'); [by eapply Hget| | |done|done].
  - apply (slot_bounds shape d n Hd base' Hb'). apply lookup_lt_Some in Hj. lia.
  - intros j' h' _ Heq. by apply slices_disjoint in Heq.
Qed.

(** Every index is in some slice, so the results are full. *)
Lemma sorted_full input result k results :
  (forall base, in_bounds base shape -> base !! d = Some 0 -> slice_sorted base results) ->
  inputs !! k = Some input -> results !! k = Some result -> pairs_ok shape input result -> tensor_full result.
Proof.
  intros Hall Hki Hkr (Hf & Hs & Hok & Hty). split; [done|]. rewrite Hty. fold (getTensorShape input). intros i Hi.
  change (getShape (getTensorType input)) with (getTensorShape input) in Hi. rewrite Hs in Hi.
  destruct (in_bounds_lookup_Some i shape d n Hi Hd) as (x & Hx & Hxb).
  assert (in_bounds (<[d := 0]> i) shape) as Hb by (apply (slot_bounds shape d n Hd i Hi); lia).
  assert ((<[d := 0]> i) !! d = Some 0) as H0 by (apply list_lookup_insert_eq; by eapply lookup_lt_Some).
  destruct (Hall _ Hb H0) as (handles & Hp & _ & Hget).
  assert (length handles = Z.to_nat n) as Hlen by (rewrite Hp; apply length_seqZ).
  destruct (lookup_lt_is_Some_2 handles (Z.to_nat x)) as [h Hh]; [lia|].
  assert (0 <= h < n) as Hhb by (apply list_elem_of_lookup_2 in Hh; rewrite Hp in Hh; apply elem_of_seqZ in Hh; lia).
  specialize (Hget _ h k input result Hh Hki Hkr). rewrite !list_insert_insert_eq, Z2Nat.id, list_insert_id in Hget by (done || lia).
  rewrite Hget. apply (full_get input); [done|]. rewrite Hs. by apply (slot_bounds shape d n Hd i Hi).
Qed.
End SortOp.

(** C4: sorting inputs of one shape along a dimension, by a local comparator that
    is a strict weak order on the tuples of their elements, returns results in
    which every slice along the dimension holds the tuples of the inputs' slice
    in sorted order, the inputs permuted together, and for a stable sort
    equivalent tuples in their original order. *)
Theorem sort_correct std_sort inputs shape dimension (d : nat) n isStable comparator cmp :
  (isStable = false -> sorts std_sort) ->
  inputs <> [] -> Forall (fun t => tensor_full t /\ getTensorShape t = shape) inputs ->
  (dimension = Z.of_nat d \/ dimension = Z.of_nat d - Z.of_nat (length shape)) -> shape !! d = Some n ->
  compares comparator (types_of inputs) cmp -> tuple_order (types_of inputs) cmp ->
  exists results, sortOp std_sort inputs dimension isStable comparator = Return (Ok results) /\
    Forall2 (fun input result => tensor_full result /\ getTensorType result = getTensorType input) inputs results /\
    forall base, in_bounds base shape -> base !! d = Some 0 -> slice_sorted inputs d n isStable cmp base results.
Proof.
  intros Hstd Hne Hin Hdim Hd Hcmp Hord. destruct (new_results inputs shape Hin) as (r0 & E0 & Hok0).
  unfold sortOp. rewrite E0, lift_ok. destruct inputs as [|input0 inputs']; [done|]. set (inputs := input0 :: inputs') in *.
  change (at_z inputs 0) with (Ok input0). rewrite lift_ok.
  assert (tensor_full input0 /\ getTensorShape input0 = shape) as [Hf0 Hs0] by (by apply Forall_inv in Hin).
  assert ((if 0 <=? dimension then dimension else dimension + getTensorRank input0) = Z.of_nat d) as ->.
  { assert (getTensorRank input0 = Z.of_nat (length shape)) as -> by (by rewrite <- Hs0).
    apply lookup_lt_Some in Hd. destruct (Z.leb_spec 0 dimension); lia. }
  cbv zeta. rewrite Hs0.
  assert (at_z shape (Z.of_nat d) = Ok n) as Hn by (rewrite at_z_nat, Hd; done). rewrite Hn.
  match goal with |- context [for_index _ ?body _] =>
    destruct (for_index_runs shape body (sort_invariant inputs shape d n isStable cmp) r0) as (results & E & Hok & Hall);
      [|split; [exact Hok0|by intros ? ?%elem_of_nil]| |] end.
  - rewrite <- Hs0. by apply full_shape_ok.
  - intros visited i results Hi HI. destruct (in_bounds_lookup_Some i shape d n Hi Hd) as (x & Hx & Hxb). cbv beta.
    rewrite at_z_nat, Hx. cbn [ok_or]. rewrite lift_ok. destruct (Z.eqb_spec x 0) as [->|Hx0]; cbn [negb].
    + destruct (sort_slice std_sort inputs shape d n isStable comparator cmp Hstd Hd Hin Hcmp Hord visited i results Hi Hx HI)
        as (handles & results' & Eh & Er & HI').
      rewrite lift_ok. exists results'. split; [|done]. revert Eh. destruct isStable; intros ->.
      all: change (mbind ?k (Return (Ok handles))) with (k handles); cbv beta; by rewrite Er.
    + exists results. split; [done|]. destruct HI as [HI1 HI2]. split; [done|].
      intros base [Hb|[->|?%elem_of_nil]%elem_of_cons]%elem_of_app Hbb H0; [by apply HI2|congruence|done].
  - exists results. split; [exact E|].
    assert (forall base, in_bounds base shape -> base !! d = Some 0 -> slice_sorted inputs d n isStable cmp base results) as Hslices.
    { intros base Hb H0. apply Hall; [by apply elem_of_indices|done|done]. }
    split; [|done]. apply Forall2_same_length_lookup_2; [by eapply Forall2_length|]. intros k input result Hki Hkr.
    pose proof (Forall2_lookup_lr _ _ _ _ _ _ Hok Hki Hkr) as Hp. split; [|by destruct Hp as (_ & _ & _ & ?)].
    by eapply (sorted_full inputs shape d n isStable cmp Hd input result k results).
Qed.

(** The order of the first components. *)
Definition first_lt (la lb : list Element) : bool :=
  match la, lb with
  | a :: _, b :: _ => match (c ← el_lt a b; getBooleanValue c) with Ok c => c | Err _ => false end
  | _, _ => false
  end.

Definition first_less (arguments : list Ty) : Region :=
  MkRegion (MkBlockSig arguments (Some [shaped_type (shaped [] i1)])) (fun args => lift (
    a ← at_z args 0; a ← Regions.getTensor a;
    b ← at_z args 1; b ← Regions.getTensor b;
    c ← compareOp a b LT (shaped [] i1);
    Ok [TensorValue c])).

Lemma first_lt_int s w x y la lb : int_type s w = true ->
  first_lt (int_el s w x :: la) (int_el s w y :: lb) = (int_read s w x <? int_read s w y).
Proof. intros Hi. unfold first_lt. rewrite el_lt_int by done. by destruct (_ <? _). Qed.

Lemma compare_scalars ta tb s w x y : int_type s w = true ->
  scalar_of ta (IntegerType s w) (int_el s w x) -> scalar_of tb (IntegerType s w) (int_el s w y) ->
  exists t, compareOp ta tb LT (shaped [] i1) = Ok t /\ get t [] = Ok (bool_el (int_read s w x <? int_read s w y)).
Proof.
  intros Hi (_ & _ & Ha) (_ & _ & Hb).
  destruct (build_result (shaped [] i1) (fun i => a ← get ta i; b ← get tb i; compare_elements LT a b)
    (fun t => get t [] = Ok (bool_el (int_read s w x <? int_read s w y)))) as (t & Ht & _ & _ & Hg).
  - by apply scalar_shaped_ok.
  - intros i Hb'. inversion Hb'. eexists. rewrite Ha. cbind. rewrite Hb. cbind. cbn [compare_elements].
    rewrite el_lt_int by done. split; [done|]. by split.
  - intros t _ Hg. rewrite Hg by constructor. rewrite Ha. cbind. rewrite Hb. cbind. cbn [compare_elements].
    by rewrite el_lt_int.
  - by exists t.
Qed.

(** Sorting tuples by their first component, an integer. *)
Lemma first_less_compares arguments s w tys : int_type s w = true ->
  compares (first_less arguments) (IntegerType s w :: tys) first_lt.
Proof.
  intros Hi ta tb la lb Ha Hb Hla Hlb.
  destruct Ha as [|t a ta la Ha Hta]; [done|]. destruct Hb as [|u b tb lb Hb Htb]; [done|].
  cbn [fmap list_fmap] in Hla, Hlb. injection Hla as Hla _. injection Hlb as Hlb _. rewrite Hla in Ha. rewrite Hlb in Hb.
  destruct (scalar_shaped _ _ _ Ha) as [_ Hta']. destruct (scalar_shaped _ _ _ Hb) as [_ Htb'].
  destruct (typed_int s w a Hi Hta') as [x ->], (typed_int s w b Hi Htb') as [y ->].
  destruct (compare_scalars t u s w x y Hi Ha Hb) as (c & Hc & Hg). exists c.
  rewrite first_lt_int by done. split; [|done].
  change (lift (c ← compareOp t u LT (shaped [] i1); Ok [TensorValue c]) = Return (Ok [TensorValue c])). by rewrite Hc.
Qed.

Lemma first_lt_order s w tys : int_type s w = true -> tuple_order (IntegerType s w :: tys) first_lt.
Proof.
  intros Hi. assert (forall l, tuple_ok (IntegerType s w :: tys) l -> exists x l', l = int_el s w x :: l') as Hinv.
  { intros [|a l] [Hok Hty]; [done|]. injection Hty as Hty _. apply Forall_inv in Hok.
    destruct (typed_int s w a Hi) as [x ->]; [by split|by exists x, l]. }
  split.
  - intros a b (x & la & ->)%Hinv (y & lb & ->)%Hinv. rewrite !first_lt_int by done. lia.
  - intros a b c (x & la & ->)%Hinv (y & lb & ->)%Hinv (z & lc & ->)%Hinv. rewrite !first_lt_int by done. lia.
Qed.
End SortFacts.

(** ** Witnesses *)
Section Witnesses.
Import Concrete.

(** The keys 2, 1, 2, 0 with the payload 10, 11, 12, 13, sorted by key and stable. *)
Lemma sort_correct_witness :
  exists keys payload, sortOp (fun l comp => stable_sort l comp) [bytes [4] [2; 1; 2; 0]; bytes [4] [10; 11; 12; 13]] (-1) true
      (first_less []) = Return (Ok [keys; payload]) /\
    exists j : nat, get payload [Z.of_nat j] = Ok (int_el Unsigned 8 12) /\ get keys [Z.of_nat j] = Ok (int_el Unsigned 8 2).
Proof.
  set (inputs := [bytes [4] [2; 1; 2; 0]; bytes [4] [10; 11; 12; 13]]).
  destruct (sort_correct (fun l comp => stable_sort l comp) inputs [4] (-1) 0 4 true (first_less []) first_lt)
    as (results & E & Htys & Hslices).
  - discriminate.
  - discriminate.
  - apply Forall_cons; split; [split; concrete|apply Forall_singleton; split; concrete].
  - right. reflexivity.
  - reflexivity.
  - apply (first_less_compares [] Unsigned 8 [ui8]). reflexivity.
  - apply (first_lt_order Unsigned 8 [ui8]). reflexivity.
  - destruct results as [|keys [|payload [|]]]; try (apply Forall2_length in Htys; discriminate Htys).
    exists keys, payload. split; [exact E|].
    destruct (Hslices [0]) as (handles & Hp & _ & Hget); [repeat constructor; discriminate|reflexivity|].
    destruct (proj1 (list_elem_of_lookup handles 2)) as [j Hj].
    { rewrite Hp. apply elem_of_seqZ. lia. }
    exists j. split.
    + etransitivity; [exact (Hget j 2 1%nat _ payload Hj eq_refl eq_refl)|reflexivity].
    + etransitivity; [exact (Hget j 2 0%nat _ keys Hj eq_refl eq_refl)|reflexivity].
Defined.
End Witnesses.
