(* ===== verification/Collectives.v ===== *)
(** * Collective and point-to-point operations

    [src/stablehlo/reference/Ops.cpp]: the operations that communicate over the
    process grid.  [process] is the process that runs the operation, if the
    program is run in parallel, and the size of its grid. *)
From S2P Require Import Prelude Types Support Index Element Tensor Base TypeInference Ops Linear ProcessGrid Regions.

Record Process := MkProcess { id_ : ProcessId; numReplicas_ : Z; numPartitions_ : Z }.

Section Collectives.
Context `{L : LLVM}.
Context (process : option Process).

Definition ui32 : Ty := IntegerType Unsigned 32.

Definition in_parallel (name : string) : result Process :=
  ok_or process (Fatal (name +:+ " is only supported when run via interpreter.run_parallel")).

(** The groups of the reductions and of all_gather. *)
Definition reduction_groups (p : Process) (replicaGroups : list (list Z)) (channelId : Z) (useGlobalDeviceIds : bool)
    : result (list (list ProcessId)) :=
  if (channelId <=? 0) && negb useGlobalDeviceIds then Ok (crossReplica (numPartitions_ p) replicaGroups)
  else if (0 <? channelId) && negb useGlobalDeviceIds then
    Ok (crossReplicaAndPartition (numPartitions_ p) replicaGroups)
  else if (0 <? channelId) && useGlobalDeviceIds then flattenedIds (numPartitions_ p) replicaGroups
  else Ok [].

(** The groups of all_to_all, broadcast and permute. *)
Definition exchange_groups (p : Process) (replicaGroups : list (list Z)) (channelId : Z)
    : list (list ProcessId) :=
  if channelId <=? 0 then crossReplica (numPartitions_ p) replicaGroups
  else crossPartition (numReplicas_ p) replicaGroups.

Definition own_group (p : Process) (groups : list (list ProcessId)) : result (list ProcessId) :=
  ok_or (findGroup groups (id_ p)) (Fatal "Failed to find process group with process_id").

(** [broadcastInDimOp(constant(0.0, elementType), {}, type)] *)
Definition zeros (type : ShapedType) : result Tensor :=
  c ← constant_double (double_of_Z 0) (getElementType type);
  broadcastInDimOp c [] type.

(** ** [allGatherOp] *)
Definition allGatherOp (operands : list Tensor) (allGatherDim : Z) (replicaGroups : list (list Z)) (channelId : Z)
    (useGlobalDeviceIds : bool) (resultTypes : list ShapedType) : proc (list InterpreterValue) :=
  p ← lift (in_parallel "all_gather");
  processGroups ← lift (reduction_groups p replicaGroups channelId useGlobalDeviceIds);
  processGroup ← lift (own_group p processGroups);
  rendezvousResult ← perform (Rendezvous processGroup channelId operands);
  lift (mapM (fun '(resultIndex, resultType) =>
      operandsAtIndex ← mapM (fun id => at_z (rendezvous_lookup rendezvousResult id) resultIndex) processGroup;
      t ← concatenateOp operandsAtIndex allGatherDim resultType;
      Ok (TensorValue t)) (enumerate resultTypes)).

(** ** [allReduceOp] *)

(** The elements of the processes, combined by the computation from left to right. *)
Definition combine (computation : Region) (groupOperands : list (list Tensor)) (resultIndex : Z) (index : Index)
    : proc (option Tensor) :=
  foldM (fun processOperands resultElement =>
      operandElement ← lift (t ← at_z processOperands resultIndex; e ← get t index; constant e);
      match resultElement with
      | Some r => r ← eval_tensor computation [r; operandElement]; mret (Some r)
      | None => mret (Some operandElement)
      end) groupOperands None.

Definition combine_all (computation : Region) (groupOperands : list (list Tensor)) (resultIndex : Z)
    (resultType : ShapedType) : proc Tensor :=
  result ← lift (newTensor resultType);
  for_index (getTensorShape result) (fun index result =>
    combined ← combine computation groupOperands resultIndex index;
    lift (t ← ok_or combined (UB "null tensor"); e ← get t []; set result index e)) result.

Definition allReduceOp (operands : list Tensor) (replicaGroups : list (list Z)) (channelId : Z)
    (useGlobalDeviceIds : bool) (computation : Region) (resultTypes : list ShapedType)
    : proc (list InterpreterValue) :=
  p ← lift (in_parallel "all_reduce");
  processGroups ← lift (reduction_groups p replicaGroups channelId useGlobalDeviceIds);
  processGroup ← lift (own_group p processGroups);
  rendezvousResult ← perform (Rendezvous processGroup channelId operands);
  let groupOperands := getSortedTensors rendezvousResult in
  mapM (fun '(resultIndex, resultType) =>
      t ← combine_all computation groupOperands resultIndex resultType;
      mret (TensorValue t)) (enumerate resultTypes).

(** ** [allToAllOp] *)
Definition allToAllOp (operands : list Tensor) (splitDimension concatDimension splitCount : Z)
    (replicaGroups : list (list Z)) (channelId : Z) (resultTypes : list ShapedType)
    : proc (list InterpreterValue) :=
  p ← lift (in_parallel "all_to_all");
  processGroup ← lift (own_group p (exchange_groups p replicaGroups channelId));
  groupOperands ← perform (Rendezvous processGroup channelId operands);
  let receiverIndex := default 0 (Z.of_nat ∘ fst <$> list_find (fun id => id = id_ p) processGroup) in
  lift (mapM (fun '(resultIndex, resultType) =>
      scatteredParts ← mapM (fun sender =>
          t ← at_z (rendezvous_lookup groupOperands sender) resultIndex;
          splitParts ← split t splitCount splitDimension;
          at_z splitParts receiverIndex) processGroup;
      t ← concatenateOp scatteredParts concatDimension resultType;
      Ok (TensorValue t)) (enumerate resultTypes)).

(** ** [collectiveBroadcastOp] *)

(** All operands, but for the roots that come last. *)
Definition data_operands (operands : list Tensor) (hasDynamicRoot : bool) : result (list Tensor) :=
  if hasDynamicRoot then
    match operands with [] => Err (UB "drop_back") | _ => Ok (take (length operands - 1) operands) end
  else Ok operands.

(** The element [index] of [operands.back()]. *)
Definition root_element (operands : list Tensor) (index : Z) : result APInt :=
  rootTensor ← ok_or (last operands) (UB "back");
  e ← get rootTensor [index];
  getIntegerValue e.

Definition collectiveBroadcastOp (operands : list Tensor) (replicaGroups : list (list Z)) (channelId : Z)
    (hasDynamicRoot : bool) : proc (list InterpreterValue) :=
  p ← lift (in_parallel "collective_broadcast");
  dataOperands ← lift (data_operands operands hasDynamicRoot);
  match findGroup (exchange_groups p replicaGroups channelId) (id_ p) with
  | None => lift (mapM (fun t => z ← zeros (getTensorType t); Ok (TensorValue z)) dataOperands)
  | Some processGroup =>
      rendezResult ← perform (Rendezvous processGroup channelId dataOperands);
      lift (mapM (fun dataIndex =>
          rootId ← (if hasDynamicRoot then
              v ← root_element operands dataIndex;
              let rootIdxVal := getSExtValue v in
              if (rootIdxVal <? 0) || (Z.of_nat (length processGroup) <=? rootIdxVal)
              then Err (Fatal "collective_broadcast dynamic root index out of bounds")
              else at_z processGroup rootIdxVal
            else at_z processGroup 0);
          t ← at_z (rendezvous_lookup rendezResult rootId) dataIndex;
          Ok (TensorValue t)) (seqZ 0 (Z.of_nat (length dataOperands))))
  end.

(** ** [collectiveReduceOp] *)
Definition collectiveReduceOp (operands : list Tensor) (replicaGroups : list (list Z)) (channelId : Z)
    (useGlobalDeviceIds hasDynamicRoot : bool) (computation : Region) (resultTypes : list ShapedType)
    : proc (list InterpreterValue) :=
  p ← lift (in_parallel "collective_reduce");
  processGroups ← lift (reduction_groups p replicaGroups channelId useGlobalDeviceIds);
  dataOperands ← lift (data_operands operands hasDynamicRoot);
  match findGroup processGroups (id_ p) with
  | None => lift (mapM (fun type => z ← zeros type; Ok (TensorValue z)) resultTypes)
  | Some processGroup =>
      rendezResult ← perform (Rendezvous processGroup channelId dataOperands);
      let groupOperands := getSortedTensors rendezResult in
      mapM (fun '(resultIndex, resultType) =>
          rootId ← lift (if hasDynamicRoot then
              v ← root_element operands resultIndex; at_z processGroup (getZExtValue v)
            else at_z processGroup 0);
          if decide (id_ p = rootId) then
            t ← combine_all computation groupOperands resultIndex resultType; mret (TensorValue t)
          else lift (z ← zeros resultType; Ok (TensorValue z))) (enumerate resultTypes)
  end.

(** ** [collectivePermuteOp] *)
Definition collectivePermuteOp (operand : Tensor) (sourceTargetPairs : list (list Z)) (channelId : Z)
    : proc Tensor :=
  p ← lift (in_parallel "collective_permute");
  result ← foldM (fun processGroup (result : option Tensor) =>
      '(from, to) ← lift (from ← at_z processGroup 0; to ← at_z processGroup 1; Ok (from, to));
      if bool_decide (from <> id_ p) && bool_decide (to <> id_ p) then mret result
      else if decide (from = to) then mret (Some operand)
      else
        rendezvousResult ← perform (Rendezvous processGroup channelId [operand]);
        if decide (to <> id_ p) then mret result
        else lift (t ← at_z (rendezvous_lookup rendezvousResult from) 0; Ok (Some t)))
    (exchange_groups p sourceTargetPairs channelId) None;
  match result with
  | Some t => mret t
  | None => lift (zeros (getTensorType operand))
  end.

(** ** [reduceScatterOp] *)
Definition reduceScatterOp (operand : Tensor) (scatterDimension : Z) (replicaGroups : list (list Z)) (channelId : Z)
    (useGlobalDeviceIds : bool) (region : Region) (returnType : ShapedType) : proc Tensor :=
  p ← lift (in_parallel "reduce_scatter");
  processGroups ← lift (reduction_groups p replicaGroups channelId useGlobalDeviceIds);
  processGroup ← lift (own_group p processGroups);
  reducedValue ← allReduceOp [operand] replicaGroups channelId useGlobalDeviceIds region [getTensorType operand];
  lift (
    v ← at_z reducedValue 0;
    reduced ← Regions.getTensor v;
    group0 ← at_z processGroups 0;
    parts ← split reduced (Z.of_nat (length group0)) scatterDimension;
    match list_find (fun sender => sender = id_ p) processGroup with
    | Some (receiverIndex, _) => at_z parts (Z.of_nat receiverIndex)
    | None => newTensor returnType
    end).

(** ** Identity of the process *)
Definition partitionIdOp : result Tensor :=
  p ← in_parallel "partition_id";
  e ← convert_apint ui32 (apint 32 (partitionId (id_ p))) false;
  constant e.

Definition replicaIdOp : result Tensor :=
  p ← in_parallel "replica_id";
  e ← convert_apint ui32 (apint 32 (replicaId (id_ p))) false;
  constant e.

(** ** Tokens, queues and channels; [lookupSymbol] finds a function's body *)
Definition infeedOp (lookupSymbol : string -> option Region) : proc (list InterpreterValue) :=
  _ ← lift (in_parallel "infeed");
  mnemonic ← perform Infeed;
  body ← lift (ok_or (lookupSymbol mnemonic) (UB "null function"));
  results ← eval_region body [];
  mret (results ++ [TokenValue]).

Definition outfeedOp (inputs : list Tensor) : proc (list InterpreterValue) :=
  _ ← lift (in_parallel "outfeed");
  _ ← perform (Outfeed inputs);
  mret [TokenValue].

Definition recvOp (channelId : Z) : proc (list InterpreterValue) :=
  _ ← lift (ok_or process (UB "null process"));
  ts ← perform (Recv channelId);
  mret ((TensorValue <$> ts) ++ [TokenValue]).

Definition sendOp (inputs : list Tensor) (channelId : Z) : proc (list InterpreterValue) :=
  _ ← lift (ok_or process (UB "null process"));
  _ ← perform (Send inputs channelId);
  mret [TokenValue].
End Collectives.
