(* ===== verification/CollectiveFacts.v ===== *)
(** * Collectives over the grid compute what every process contributed *)
From stdpp Require Import sorting.
From S2P Require Import Prelude Types Support Index Element ElementFacts Tensor TensorFacts Samples Base TypeInference Ops Linear ProcessGrid ProcessGridFacts Regions Collectives OpsFacts RegionFacts SortFacts.

Section CollectiveFacts.
Context {L : LLVM} {Laws : LLVMLaws L}.

(** ** The local part of [allReduceOp] *)

(** The elements combined from left to right, without an initial value. *)
Definition combined (f : Element -> Element -> Element) (l : list Element) : option Element :=
  match l with [] => None | x :: l => Some (fold_left f l x) end.

Section Combine.
Context (computation : Region) (ty : Ty) (f : Element -> Element -> Element) (Hcomp : computes computation ty f).
Context (Hty : isSupportedType ty = true).

Lemma combine_from index : forall ts e t,
  Forall (fun t => tensor_full t /\ getTensorElementType t = ty /\ in_bounds index (getTensorShape t)) ts ->
  scalar_of t ty e ->
  exists t', foldM (fun processOperands resultElement =>
      operandElement ← lift (t ← at_z processOperands 0; e ← get t index; Ops.constant e);
      match resultElement with
      | Some r => r ← eval_tensor computation [r; operandElement]; mret (Some r)
      | None => mret (Some operandElement)
      end) ((fun t => [t]) <$> ts) (Some t) = (Return (Ok (Some t')) : proc (option Tensor)) /\
    scalar_of t' ty (fold_left f ((fun t => fn_val (get t) index) <$> ts) e).
Proof.
  induction ts as [|u ts IH]; intros e t Hts Ht; [by exists t|].
  apply Forall_cons in Hts as [(Hu & Hut & Hub) Hts]. cbn [fmap list_fmap foldM].
  destruct (full_get u index) as (x & Hx & Hxok & Hxty); [done|done|].
  change (at_z [u] 0) with (Ok u). cbn [mbind result_bind]. rewrite Hx. cbn [mbind result_bind].
  destruct (constant_spec ty x) as (c & -> & Hc); [done|split; [done|by rewrite Hxty]|]. rewrite lift_ok.
  destruct (Hcomp t c e x Ht Hc) as (r & E & Hr). rewrite (eval_tensor_ok _ [t; c] _ _ E), lift_ok.
  destruct (IH (f e x) r Hts Hr) as (t' & E' & Ht'). exists t'. split; [exact E'|].
  cbn [fold_left]. assert (fn_val (get u) index = x) as -> by (unfold fn_val; by rewrite Hx). exact Ht'.
Qed.

Lemma combine_spec index ts x :
  Forall (fun t => tensor_full t /\ getTensorElementType t = ty /\ in_bounds index (getTensorShape t)) ts ->
  combined f ((fun t => fn_val (get t) index) <$> ts) = Some x ->
  exists t, combine computation ((fun t => [t]) <$> ts) 0 index = Return (Ok (Some t)) /\ scalar_of t ty x.
Proof.
  destruct ts as [|u ts]; [done|]. intros [(Hu & Hut & Hub) Hts]%Forall_cons [= <-].
  unfold combine. cbn [fmap list_fmap foldM].
  destruct (full_get u index) as (e & He & Heok & Hety); [done|done|].
  change (at_z [u] 0) with (Ok u). cbn [mbind result_bind]. rewrite He. cbn [mbind result_bind].
  destruct (constant_spec ty e) as (c & -> & Hc); [done|split; [done|by rewrite Hety]|]. rewrite lift_ok.
  destruct (combine_from index ts e c Hts Hc) as (t' & E & Ht'). exists t'. split; [exact E|].
  assert (fn_val (get u) index = e) as -> by (unfold fn_val; by rewrite He). exact Ht'.
Qed.

(** Every index of the result holds the combination of the processes' elements. *)
Lemma combine_all_spec type ts :
  shaped_ok type -> getElementType type = ty -> ts <> [] ->
  Forall (fun t => tensor_full t /\ getTensorElementType t = ty /\ getTensorShape t = getShape type) ts ->
  exists t, combine_all computation ((fun t => [t]) <$> ts) 0 type = Return (Ok t) /\
    getTensorType t = type /\ tensor_full t /\
    forall i, in_bounds i (getShape type) ->
      Some (fn_val (get t) i) = combined f ((fun t => fn_val (get t) i) <$> ts) /\ exists e, get t i = Ok e.
Proof.
  intros Htype Helt Hne Hts. unfold combine_all. destruct (newTensor_ok type Htype) as (t0 & -> & Hok0 & Hty0).
  rewrite lift_ok. unfold getTensorShape at 1. rewrite Hty0.
  match goal with |- context [for_index _ ?body _] =>
    destruct (for_index_runs (getShape type) body (fun visited t => tensor_ok t /\ getTensorType t = type /\
      forall i, i ∈ visited -> in_bounds i (getShape type) -> exists e, get t i = Ok e /\ typed ty e /\
        Some e = combined f ((fun t => fn_val (get t) i) <$> ts)) t0) as (t & E & Hok & Hty' & Hall) end.
  - by destruct Htype as (_ & ? & _).
  - split; [done|]. split; [done|]. by intros i ?%elem_of_nil.
  - intros visited i t Hi (Hok & Htt & Hvis). cbv beta.
    destruct (combined f ((fun t => fn_val (get t) i) <$> ts)) as [x|] eqn:Ex; [|by destruct ts].
    destruct (combine_spec i ts x) as (r & -> & Hr); [|done|].
    { eapply Forall_impl; [exact Hts|]. intros t1 (? & ? & ->). done. }
    change (mbind ?k (Return (Ok (Some r)))) with (k (Some r)). cbn [ok_or mbind result_bind].
    destruct (scalar_shaped _ _ _ Hr) as [_ [Hxok Hxty]]. destruct Hr as (_ & _ & ->). cbn [mbind result_bind].
    destruct (set_spec t i x) as (t' & -> & Hok' & Htt' & Hhit & Hmiss);
      [done|unfold getTensorShape; by rewrite Htt|done|unfold getTensorElementType; by rewrite Htt, Hxty|].
    exists t'. split; [done|]. split; [done|]. split; [congruence|]. intros j Hj Hjb.
    destruct (decide (j = i)) as [->|Hji]; [by exists x|]. rewrite Hmiss; [|unfold getTensorShape; by rewrite Htt|done].
    apply elem_of_app in Hj as [Hj|[->|Hj%elem_of_nil]%elem_of_cons]; [by apply Hvis|done|done].
  - assert (forall i, in_bounds i (getShape type) -> exists e, get t i = Ok e /\ typed ty e /\
      Some e = combined f ((fun t => fn_val (get t) i) <$> ts)) as Hget by (intros i Hi; apply Hall; [by apply elem_of_indices|done]).
    exists t. split; [exact E|]. split; [done|]. split.
    + split; [done|]. rewrite Hty'. intros i Hi. destruct (Hget i Hi) as (e & ? & [? ?] & _). exists e. by rewrite Helt.
    + intros i Hi. destruct (Hget i Hi) as (e & He & _ & Hc). split; [|by exists e]. unfold fn_val. by rewrite He.
Qed.
End Combine.

(** ** The order of a group's operands *)
#[local] Instance ProcessId_le_total : Total ProcessId_le.
Proof. intros [r1 p1] [r2 p2]. unfold ProcessId_le, ProcessId_lt. cbn. lia. Qed.

#[local] Instance ProcessId_le_trans : Transitive ProcessId_le.
Proof. intros [r1 p1] [r2 p2] [r3 p3]. unfold ProcessId_le, ProcessId_lt. cbn. lia. Qed.

Lemma contributed_order group ops : NoDup group ->
  let all := contributed ops (list_to_set group) in
  sorted_keys all ≡ₚ group /\ StronglySorted ProcessId_le (sorted_keys all) /\
  getSortedTensors all = ops <$> sorted_keys all.
Proof.
  intros Hnd all. assert (sorted_keys all ≡ₚ (map_to_list all).*1) as Hp by apply merge_sort_Permutation.
  split; [|split].
  - apply NoDup_Permutation; [rewrite Hp; apply NoDup_fst_map_to_list|done|].
    intros id. rewrite elem_of_sorted_keys. unfold all. rewrite dom_contributed. apply elem_of_list_to_set.
  - apply StronglySorted_merge_sort; apply _.
  - unfold getSortedTensors. apply list_fmap_ext. intros k id Hk%list_elem_of_lookup_2.
    apply elem_of_sorted_keys in Hk. unfold all in Hk. rewrite dom_contributed in Hk.
    unfold rendezvous_lookup, all. by rewrite lookup_contributed, decide_True.
Qed.

(** ** [allReduceOp] on the grid *)
Section AllReduce.
Context (numReplicas numPartitions : Z) (replicaGroups : list (list Z)) (channelId : Z) (useGlobalDeviceIds : bool).
Context (computation : Region) (type : ShapedType) (f : Element -> Element -> Element) (x : ProcessId -> Tensor).
Context (group : list ProcessId).

Definition at_process (id : ProcessId) : option Process := Some (MkProcess id numReplicas numPartitions).

Definition all_reduces (id : ProcessId) : proc (list InterpreterValue) :=
  allReduceOp (at_process id) [x id] replicaGroups channelId useGlobalDeviceIds computation [type].

Definition after_rendezvous (r : gmap ProcessId (list Tensor)) : proc (list InterpreterValue) :=
  mapM (fun '(resultIndex, resultType) =>
    t ← combine_all computation (getSortedTensors r) resultIndex resultType; mret (TensorValue t)) (enumerate [type]).

Lemma all_reduces_meets id groups :
  reduction_groups (MkProcess id numReplicas numPartitions) replicaGroups channelId useGlobalDeviceIds = Ok groups ->
  findGroup groups id = Some group ->
  all_reduces id = meets group channelId (fun id => [x id]) (fun _ => after_rendezvous) id.
Proof.
  intros Hg Hf. unfold all_reduces, allReduceOp, at_process. cbn [in_parallel ok_or]. rewrite lift_ok, Hg, lift_ok.
  unfold own_group. cbn [id_]. rewrite Hf. cbn [ok_or]. rewrite lift_ok. reflexivity.
Qed.

Lemma after_rendezvous_spec :
  NoDup group -> (2 <= length group)%nat -> shaped_ok type -> computes computation (getElementType type) f ->
  (forall id, id ∈ group -> tensor_full (x id) /\ getTensorType (x id) = type) ->
  let all := contributed (fun id => [x id]) (list_to_set group) in
  exists t, after_rendezvous all = Return (Ok [TensorValue t]) /\ getTensorType t = type /\ tensor_full t /\
    forall i, in_bounds i (getShape type) ->
      Some (fn_val (get t) i) = combined f ((fun id => fn_val (get (x id)) i) <$> sorted_keys all) /\ exists e, get t i = Ok e.
Proof.
  intros Hnd Hlen Htype Hcomp Hx all. destruct (contributed_order group (fun id => [x id]) Hnd) as (Hp & _ & Hsorted).
  fold all in Hp, Hsorted. unfold after_rendezvous. rewrite Hsorted.
  replace ((fun id => [x id]) <$> sorted_keys all) with ((fun t => [t]) <$> (x <$> sorted_keys all))
    by (by rewrite <- list_fmap_compose).
  destruct (combine_all_spec computation (getElementType type) f Hcomp ltac:(by destruct Htype) type (x <$> sorted_keys all))
    as (t & E & Ht & Hf & Hget); [done|done| | |].
  - intros HE%fmap_nil_inv. rewrite HE in Hp. apply Permutation_nil in Hp. by rewrite Hp in Hlen; cbn in Hlen; lia.
  - apply Forall_fmap, Forall_forall. intros id Hid. rewrite Hp in Hid. destruct (Hx id Hid) as [Hf Ht]. cbn.
    unfold getTensorElementType, getTensorShape. by rewrite Ht.
  - exists t. split; [|split; [done|split; [done|]]].
    + change (enumerate [type]) with [(0, type)]. cbn [mapM]. rewrite E. reflexivity.
    + intros i Hi. destruct (Hget i Hi) as [Hc He]. split; [|done]. by rewrite Hc, <- list_fmap_compose.
Qed.
End AllReduce.

(** C5: when the processes of a group, as [findGroup] finds it for each of them,
    run an all_reduce with a local computation on tensors of one type, on a
    channel not used before, then along every interleaving, unless a wait times
    out, every process that returns has a tensor that holds at every index the
    combination of all the processes' elements at that index, and all of them can
    return.  The elements are combined in the order of the process ids, as
    [getSortedTensors] gives them; where the group lists its processes in another
    order, that is not the order of the group. *)
Theorem all_reduce_correct numReplicas numPartitions replicaGroups channelId useGlobalDeviceIds computation type f x
    group groups grid s :
  NoDup group -> (2 <= length group)%nat ->
  reduction_groups (MkProcess (MkProcessId 0 0) numReplicas numPartitions) replicaGroups channelId useGlobalDeviceIds = Ok groups ->
  (forall id, id ∈ group -> findGroup groups id = Some group) ->
  shaped_ok type -> computes computation (getElementType type) f ->
  (forall id, id ∈ group -> tensor_full (x id) /\ getTensorType (x id) = type) ->
  channels_ grid !! (group, channelId) = None ->
  rtc step (start grid (list_to_map ((fun id => (id, all_reduces numReplicas numPartitions replicaGroups channelId
    useGlobalDeviceIds computation type x id)) <$> group))) s ->
  s = Crashed (Fatal "rendezvous timed out") \/
  exists order t, order ≡ₚ group /\ StronglySorted ProcessId_le order /\ getTensorType t = type /\ tensor_full t /\
    (forall i, in_bounds i (getShape type) ->
       Some (fn_val (get t) i) = combined f ((fun id => fn_val (get (x id)) i) <$> order)) /\
    (forall id vs, returned s id = Some vs -> vs = [TensorValue t]) /\
    exists s', rtc timely s s' /\ forall id, id ∈ group -> returned s' id = Some [TensorValue t].
Proof.
  intros Hnd Hlen Hgroups Hfind Htype Hcomp Hx Hkey Hs.
  destruct (after_rendezvous_spec computation type f x group Hnd Hlen Htype Hcomp Hx) as (t & E & Ht & Hf & Hget).
  set (ops := fun id => [x id]) in *. set (finish := fun _ : ProcessId => after_rendezvous computation type).
  assert ((fun id => (id, all_reduces numReplicas numPartitions replicaGroups channelId useGlobalDeviceIds computation type x id)) <$> group
    = (fun id => (id, meets group channelId ops finish id)) <$> group) as Hprog.
  { apply list_fmap_ext. intros k id Hid%list_elem_of_lookup_2. f_equal.
    by apply (all_reduces_meets _ _ _ _ _ _ _ _ _ id groups); [|apply Hfind]. }
  rewrite Hprog in Hs. fold (all_meet group channelId ops finish) in Hs.
  assert (forall id, id ∈ group -> exists a, finish id (contributed ops (list_to_set group)) = Return (Ok a)) as Hfin.
  { intros id _. exists [TensorValue t]. exact E. }
  assert (forall id, id ∈ group -> length (ops id) = 1%nat) as Hops by done.
  assert (barrier group channelId ops finish s) as Hb by (by eapply (barrier_reachable group channelId ops 1)).
  destruct s as [grid' threads|fl]; [|left; by destruct Hb as [?|(?&?&?&?&?&_)]]. right.
  destruct (contributed_order group ops Hnd) as (Hp & Hsort & _).
  exists (sorted_keys (contributed ops (list_to_set group))), t.
  split; [done|]. split; [done|]. split; [done|]. split; [done|]. split; [|split].
  - intros i Hi. by destruct (Hget i Hi).
  - intros id vs Hr. destruct Hb as [[=]|(arrived & left & ? & ? & [= <- <-] & HM)].
    destruct (returned_meeting _ _ _ _ _ _ _ _ _ _ HM Hr) as (_ & _ & Ha). unfold finish in Ha. rewrite E in Ha. congruence.
  - destruct (barrier_completes group channelId ops 1 finish Hnd Hlen Hops Hfin grid' threads Hb) as (s' & Hrtc & Hall).
    exists s'. split; [done|]. intros id Hid. destruct (Hall id Hid) as (a & -> & Ha). unfold finish in Ha. rewrite E in Ha. congruence.
Qed.
End CollectiveFacts.

(** ** Witnesses *)
Section Witnesses.
Import Concrete.

(** Two replicas add [2; 3] and [5; 7]. *)
Definition contribution (id : ProcessId) : Tensor :=
  if replicaId id =? 0 then bytes [2] [2; 3] else bytes [2] [5; 7].

Definition two_replicas : list ProcessId := [MkProcessId 0 0; MkProcessId 1 0].

Definition adding (id : ProcessId) : proc (list InterpreterValue) :=
  all_reduces 2 1 [[0; 1]] 0 false (binary_region el_add ui8) (shaped [2] ui8) contribution id.

Lemma all_reduce_correct_witness :
  exists t s', rtc timely (start empty_grid (list_to_map ((fun id => (id, adding id)) <$> two_replicas))) s' /\
    (forall id, id ∈ two_replicas -> returned s' id = Some [TensorValue t]) /\
    fn_val (get t) [1] = int_el Unsigned 8 (3 + 7).
Proof.
  assert (NoDup two_replicas) as Hnd by (apply (bool_decide_unpack _); vm_compute; exact I).
  assert (forall id, id ∈ two_replicas -> findGroup [two_replicas] id = Some two_replicas) as Hfind.
  { intros id Hid. cbn [findGroup]. rewrite decide_True by exact Hid. reflexivity. }
  assert (shaped_ok (shaped [2] ui8)) as Hty by concrete.
  pose proof (add_computes Unsigned 8 eq_refl) as Hadd.
  assert (forall id, id ∈ two_replicas -> tensor_full (contribution id) /\ getTensorType (contribution id) = shaped [2] ui8) as Hx.
  { intros id _. unfold contribution. destruct (replicaId id =? 0); split; concrete. }
  destruct (all_reduce_correct 2 1 [[0; 1]] 0 false (binary_region el_add ui8) (shaped [2] ui8) (value_of el_add) contribution
    two_replicas [two_replicas] empty_grid (start empty_grid (list_to_map ((fun id => (id, adding id)) <$> two_replicas)))
    Hnd ltac:(cbn; lia) eq_refl Hfind Hty Hadd Hx eq_refl (rtc_refl _ _))
    as [H|(order & t & Hp & Hsort & _ & _ & Hget & _ & s' & Hs' & Hret)].
  - discriminate H.
  - exists t, s'. split; [exact Hs'|]. split; [exact Hret|].
    specialize (Hget [1] ltac:(repeat constructor; discriminate)).
    apply Permutation_sym in Hp. unfold two_replicas in Hp. apply Permutation_length_2_inv in Hp as [->| ->];
      injection Hget as ->; reflexivity.
Defined.
End Witnesses.
