(* ===== verification/ReplicaGroups.v ===== *)
(** * Replica groups over the axes of a mesh

    [src/stablehlo/dialect/ReplicaGroupUtils.cpp]: a mesh arranges devices along
    named axes, and replica groups can be given as the axes, or parts of axes,
    along which the devices communicate.  [flattenReplicaGroupMeshAxes] lists the
    groups: it splits the mesh axes at the sub-axes (a reshape), moves the split
    axes that communicate to the end (a transpose) and cuts the devices in that
    order into runs.  A [failure] is [Failed]. *)
From stdpp Require Import sorting.
From S2P Require Import Prelude Types Support Index Element Tensor.

Record MeshAxis := MkMeshAxis { axis_name : string; axis_size : Z }.
Record SubAxisInfo := MkSubAxis { preSize : Z; size_ : Z }.
Record AxisRef := MkAxisRef { ref_name : string; sub_axis_info : option SubAxisInfo }.
Record Mesh := MkMesh { mesh_axes : list MeshAxis; device_ids : option (list Z) }.

(** A part of a mesh axis: its index is its position in the list of them all. *)
Record SplitDim := MkSplitDim { axisName : string; segPreSize : Z; segSize : Z }.

(** The product of [int64_t]s. *)
Definition product (l : list Z) : result Z := foldM (fun d acc => i64 (acc * d)) l 1.

(** ** [flattenedReplicaGroupsFromTransposePermutation] *)
Definition transposeAxes (axisSizes groupedAxisIndices : list Z) : list Z :=
  filter (fun i => i ∉ groupedAxisIndices) (seqZ 0 (Z.of_nat (length axisSizes))) ++ groupedAxisIndices.

(** The coordinate of the position along the [k]-th transposed axis, times the
    stride of that axis in the mesh. *)
Definition axis_offset (transposeAxes transposedSizes originalStrides transposedStrides : list Z)
    (linearTransposeIdx k : Z) : result Z :=
  stride ← at_z transposedStrides k;
  d ← at_z transposedSizes k;
  q ← div_z linearTransposeIdx stride;
  coord ← rem_z q d;
  axis ← at_z transposeAxes k;
  s ← at_z originalStrides axis;
  i64 (coord * s).

(** The position in the mesh of the device at position [linearTransposeIdx] after
    the transpose. *)
Definition original_index (transposeAxes transposedSizes originalStrides transposedStrides : list Z)
    (linearTransposeIdx : Z) : result Z :=
  foldM (fun k originalIndex =>
      offset ← axis_offset transposeAxes transposedSizes originalStrides transposedStrides linearTransposeIdx k;
      i64 (originalIndex + offset)) (seqZ 0 (Z.of_nat (length transposedSizes))) 0.

Definition flattenedReplicaGroupsFromTransposePermutation (axisSizes groupedAxisIndices deviceIds : list Z)
    (totalDevices : Z) : result (list (list Z)) :=
  let axes := transposeAxes axisSizes groupedAxisIndices in
  transposedSizes ← mapM (fun i => a ← at_z axes i; at_z axisSizes a) (seqZ 0 (Z.of_nat (length axisSizes)));
  originalStrides ← strides axisSizes;
  transposedStrides ← strides transposedSizes;
  groupSizes ← mapM (fun idx => at_z axisSizes idx) groupedAxisIndices;
  numDevicesPerGroup ← product groupSizes;
  numGroups ← div_z totalDevices numDevicesPerGroup;
  mapM (fun i => mapM (fun j =>
      p ← i64 (i * numDevicesPerGroup);
      linearTransposeIdx ← i64 (p + j);
      originalIndex ← original_index axes transposedSizes originalStrides transposedStrides linearTransposeIdx;
      at_z deviceIds originalIndex) (seqZ 0 numDevicesPerGroup)) (seqZ 0 numGroups).

(** ** [computeReindexedAxes] *)
Definition ensure (b : bool) (msg : string) : result () := if b then Ok () else Err (Failed msg).

Definition find_axis (axesInMesh : list MeshAxis) (name : string) : option MeshAxis :=
  snd <$> list_find (fun meshAxis => axis_name meshAxis = name) axesInMesh.

Definition verify_axis (axesInMesh : list MeshAxis) (axisRef : AxisRef) : result () :=
  meshAxis ← ok_or (find_axis axesInMesh (ref_name axisRef)) (Failed "axis not found in mesh definition");
  match sub_axis_info axisRef with
  | None => Ok ()
  | Some sub =>
      _ ← ensure ((1 <=? preSize sub) && (1 <=? size_ sub)) "sub-axis pre_size and size must be at least 1";
      nextPreSize ← i64 (preSize sub * size_ sub);
      _ ← ensure (nextPreSize <=? axis_size meshAxis) "sub-axis (pre_size * size) must divide mesh axis size";
      r ← rem_z (axis_size meshAxis) nextPreSize;
      ensure (r =? 0) "sub-axis (pre_size * size) must divide mesh axis size"
  end.

(** [preSizes.erase(llvm::unique(preSizes), preSizes.end())] *)
Fixpoint unique (l : list Z) : list Z :=
  match l with
  | [] => []
  | x :: l' =>
      match l' with
      | [] => [x]
      | y :: _ => if x =? y then unique l' else x :: unique l'
      end
  end.

(** The sizes at which an axis is cut. *)
Definition pre_sizes (meshAxis : MeshAxis) (commAxes : list AxisRef) : result (list Z) :=
  cuts ← foldM (fun axisRef cuts =>
      if bool_decide (ref_name axisRef = axis_name meshAxis) then
        match sub_axis_info axisRef with
        | None => Ok cuts
        | Some sub => e ← i64 (preSize sub * size_ sub); Ok (cuts ++ [preSize sub; e])
        end
      else Ok cuts) commAxes [1; axis_size meshAxis];
  Ok (unique (merge_sort Z.le cuts)).

Definition split_axis (commAxes : list AxisRef) (meshAxis : MeshAxis) : result (list SplitDim) :=
  if axis_size meshAxis =? 1 then Ok [MkSplitDim (axis_name meshAxis) 1 1]
  else
    preSizes ← pre_sizes meshAxis commAxes;
    mapM (fun '(p, q) => s ← div_z q p; Ok (MkSplitDim (axis_name meshAxis) p s))
      (zip preSizes (tail preSizes)).

(** The index of the split dimension an axis of the communication names. *)
Definition match_axis (axesInMesh : list MeshAxis) (splitDims : list SplitDim) (axisRef : AxisRef) : option Z :=
  let '(reqPreSize, reqSize) :=
    match sub_axis_info axisRef with
    | Some sub => (preSize sub, size_ sub)
    | None => (1, default 0 (axis_size <$> find_axis axesInMesh (ref_name axisRef)))
    end in
  Z.of_nat ∘ fst <$> list_find (fun d =>
    axisName d = ref_name axisRef /\ segPreSize d = reqPreSize /\ segSize d = reqSize) splitDims.

(** The attributes of the communication: an [AxisRefAttr], or another one. *)
Definition verify_attr (axesInMesh : list MeshAxis) (attr : option AxisRef) : result AxisRef :=
  axisRef ← ok_or attr (Failed "expected AxisRefAttr in comm_axes");
  _ ← verify_axis axesInMesh axisRef;
  Ok axisRef.

Definition computeReindexedAxes (axesInMesh : list MeshAxis) (attrs : list (option AxisRef))
    : result (list Z * list Z) :=
  commAxes ← mapM (verify_attr axesInMesh) attrs;
  splitDims ← @concat SplitDim <$> mapM (split_axis commAxes) axesInMesh;
  groupedAxisIndices ← foldM (fun axisRef grouped =>
      i ← ok_or (match_axis axesInMesh splitDims axisRef) (Failed "Invalid or overlapping communication axis");
      _ ← ensure (negb (bool_decide (i ∈ grouped))) "Duplicate or overlapping communication axis";
      Ok (grouped ++ [i])) commAxes [];
  Ok (segSize <$> splitDims, groupedAxisIndices).

(** [meshAttr]: a [MeshAttr], or another attribute. *)
Definition flattenReplicaGroupMeshAxes (meshAttr : option Mesh) (commAxes : list (option AxisRef)) : result (list (list Z)) :=
  mesh ← ok_or meshAttr (Failed "expected stablehlo.mesh for mesh attribute");
  '(splitAxisSizes, groupedAxisIndices) ← computeReindexedAxes (mesh_axes mesh) commAxes;
  totalDevices ← product (axis_size <$> mesh_axes mesh);
  let deviceIds :=
    match device_ids mesh with
    | None | Some [] => seqZ 0 totalDevices
    | Some ids => ids
    end in
  flattenedReplicaGroupsFromTransposePermutation splitAxisSizes groupedAxisIndices deviceIds totalDevices.
