(* ===== verification/ReplicaGroupFacts.v ===== *)
(** * Mesh axes partition the devices into groups

    The groups that [ReplicaGroups.v] flattens from the axes of a mesh: which
    devices they hold, in which order, and when they partition the devices. *)
From stdpp Require Import sorting.
From S2P Require Import Prelude Types Support Index Element ElementFacts Tensor TensorFacts Samples Base TypeInference Ops OpsFacts OpsPermute ReplicaGroups.

(** ** Sums *)
Definition sum_z (l : list Z) : Z := foldr Z.add 0 l.

Lemma sum_z_nonneg l : Forall (fun x => 0 <= x) l -> 0 <= sum_z l.
Proof. induction 1; unfold sum_z in *; cbn [foldr]; lia. Qed.

#[local] Instance sum_z_proper : Proper ((≡ₚ) ==> (=)) sum_z.
Proof. intros l l' H. unfold sum_z. apply (foldr_permutation_proper (=) Z.add 0); [|done]. intros; lia. Qed.

#[local] Instance prod_z_proper : Proper ((≡ₚ) ==> (=)) prod_z.
Proof. intros l l' H. unfold prod_z. apply (foldr_permutation_proper (=) Z.mul 1); [|done]. intros; lia. Qed.

(** A sum of nonnegative terms does not overflow if its value does not. *)
Lemma foldM_sum {A} (term : A -> result Z) (v : A -> Z) l : forall acc,
  Forall (fun a => term a = Ok (v a) /\ 0 <= v a) l -> 0 <= acc -> acc + sum_z (v <$> l) <= int64_max ->
  foldM (fun a acc => t ← term a; i64 (acc + t)) l acc = Ok (acc + sum_z (v <$> l)).
Proof.
  induction l as [|a l IH]; intros acc Hl Ha Hm; cbn [foldM fmap list_fmap].
  - unfold sum_z; cbn [foldr]. f_equal. lia.
  - apply Forall_cons in Hl as [[Ht Hv] Hl]. rewrite Ht. cbind. rewrite fmap_cons in Hm.
    cbn [sum_z foldr] in *. fold (sum_z (v <$> l)) in *.
    assert (0 <= sum_z (v <$> l)) by (apply sum_z_nonneg, Forall_fmap; eapply Forall_impl; [exact Hl|cbn; by intros ? [??]]).
    rewrite i64_ok by (unfold int64_min; lia). cbind. rewrite IH by (done || lia). f_equal. lia.
Qed.

Lemma product_spec l : Forall (fun d => 0 < d) l -> prod_z l <= int64_max -> product l = Ok (prod_z l).
Proof.
  intros Hl Hm. unfold product.
  enough (forall acc, 0 < acc -> acc * prod_z l <= int64_max -> foldM (fun d acc => i64 (acc * d)) l acc = Ok (acc * prod_z l)) as H
    by (rewrite H by lia; f_equal; lia).
  clear Hm. induction Hl as [|d l Hd Hl IH]; intros acc Ha Hm; cbn [foldM].
  - unfold prod_z; cbn [foldr]. f_equal. lia.
  - rewrite prod_z_cons in *. pose proof (prod_z_pos l Hl). rewrite i64_ok by (unfold int64_min; nia). cbind.
    rewrite IH by nia. f_equal. lia.
Qed.

(** ** Coordinates from positions *)
Lemma suffix_prods_lookup s (k : nat) d st :
  s !! k = Some d -> suffix_prods s !! k = Some st -> exists m, prod_z s = m * (d * st).
Proof.
  revert k. induction s as [|e s IH]; intros [|k] Hd Hst; cbn [suffix_prods] in *; simplify_eq/=.
  - exists 1. rewrite Z.mul_1_l. reflexivity.
  - destruct (IH k Hd Hst) as [m Hm]. exists (e * m). change (prod_z (e :: s)) with (e * prod_z s). rewrite Hm. ring.
Qed.

Lemma length_suffix_prods s : length (suffix_prods s) = length s.
Proof. induction s; cbn; auto. Qed.

Lemma suffix_prods_pos s : Forall (fun d => 0 < d) s -> Forall (fun d => 0 < d) (suffix_prods s).
Proof. induction 1; cbn [suffix_prods]; constructor; auto using prod_z_pos. Qed.

Lemma flat_coordinate s i (k : nat) x d st :
  in_bounds i s -> i !! k = Some x -> s !! k = Some d -> suffix_prods s !! k = Some st ->
  (flat s i / st) mod d = x.
Proof.
  intros Hi. revert k. induction Hi as [|y e i s Hy Hi IH]; intros [|k] Hx Hd Hst; cbn [suffix_prods] in *; simplify_eq/=.
  - pose proof (flat_bounds _ _ Hi). rewrite Z.div_add_l, Z.div_small, Z.add_0_r by lia. by apply Z.mod_small.
  - destruct (suffix_prods_lookup s k d st Hd Hst) as [m Hm].
    pose proof (Forall_lookup_1 _ _ _ _ (suffix_prods_pos s (in_bounds_pos _ _ Hi)) Hst) as Hst0.
    pose proof (Forall_lookup_1 _ _ _ _ (in_bounds_pos _ _ Hi) Hd) as Hd0. cbn in Hst0, Hd0.
    rewrite Hm. replace (y * (m * (d * st)) + flat s i) with (flat s i + (y * m * d) * st) by ring.
    rewrite Z.div_add by lia. rewrite Z.mod_add by lia. by apply (IH k).
Qed.

(** The position is the sum of the coordinates times the strides. *)
Lemma flat_sum s : forall i, in_bounds i s -> flat s i = sum_z (zip_with Z.mul i (suffix_prods s)).
Proof. induction s as [|d s IH]; intros i Hi; inversion Hi; subst; [done|]. cbn [flat suffix_prods zip_with]. unfold sum_z. cbn [foldr]. f_equal. by apply IH. Qed.

(** ** Reshape, transpose and flatten *)
Section Transpose.
Context (s g : list Z) (Hs : Forall (fun d => 0 < d) s) (Hmax : prod_z s <= int64_max).
Context (Hnd : NoDup g) (Hg : Forall (fun a => 0 <= a < Z.of_nat (length s)) g).

Definition rest_axes : list Z := filter (fun i => i ∉ g) (seqZ 0 (Z.of_nat (length s))).

Lemma transposeAxes_permutes : permutes (transposeAxes s g) (length s).
Proof.
  apply NoDup_Permutation; [apply NoDup_seqZ| |].
  - apply NoDup_app. split; [apply NoDup_filter, NoDup_seqZ|]. split; [|done].
    by intros x [? _]%list_elem_of_filter.
  - intros x. unfold transposeAxes. rewrite elem_of_app, list_elem_of_filter. split; [|intros [[_ ?]|Hx]; [done|]].
    + destruct (decide (x ∈ g)); tauto.
    + rewrite Forall_forall in Hg. apply elem_of_seqZ. specialize (Hg x Hx). lia.
Qed.

Local Abbreviation perm := (transposeAxes s g).

Lemma permuted_prod : prod_z (permuted perm s) = prod_z s.
Proof.
  assert (permuted perm s ≡ₚ permuted (seqZ 0 (Z.of_nat (length s))) s) as ->
    by (unfold permuted; by rewrite <- transposeAxes_permutes).
  f_equal. apply list_eq. intros k. unfold permuted. rewrite list_lookup_fmap.
  destruct (decide (k < length s)%nat) as [Hk|Hk].
  - rewrite lookup_seqZ_lt by lia. cbn. rewrite Z.add_0_l, Nat2Z.id. by destruct (lookup_lt_is_Some_2 s k Hk) as [x ->].
  - rewrite lookup_seqZ_ge by lia. by rewrite lookup_ge_None_2 by lia.
Qed.

Lemma permuted_pos : Forall (fun d => 0 < d) (permuted perm s).
Proof.
  apply Forall_fmap, Forall_forall. intros p Hp. cbn. pose proof transposeAxes_permutes as H.
  apply list_elem_of_lookup in Hp as [k Hk]. pose proof (permutes_lookup _ _ _ _ H Hk).
  destruct (lookup_lt_is_Some_2 s (Z.to_nat p)) as [d Hd]; [lia|]. rewrite Hd.
  by apply (Forall_lookup_1 _ _ _ _ Hs Hd).
Qed.

Lemma transposed_sizes :
  mapM (fun i => a ← at_z perm i; at_z s a) (seqZ 0 (Z.of_nat (length s))) = Ok (permuted perm s).
Proof.
  pose proof transposeAxes_permutes as H. pose proof (permutes_length _ _ H) as Hl.
  rewrite <- Hl. clear Hl. assert (Forall (fun p => 0 <= p < Z.of_nat (length s)) perm) as Hp.
  { apply Forall_forall. intros p [k Hk]%list_elem_of_lookup. by eapply permutes_lookup. }
  clear H. revert Hp. generalize perm. intros l Hp.
  enough (forall pre, mapM (fun i => a ← at_z (pre ++ l) i; at_z s a) (seqZ (Z.of_nat (length pre)) (Z.of_nat (length l)))
    = Ok (permuted l s)) as HE by apply (HE []).
  induction Hp as [|p l Hp Hpl IH]; intros pre; [done|]. cbn [length].
  rewrite Nat2Z.inj_succ, seqZ_cons, Z.pred_succ by lia. cbn [mapM]. rewrite at_z_app_mid. cbind.
  destruct (at_z_lt s p) as (d & -> & Hd); [lia|]. cbind.
  specialize (IH (pre ++ [p])). rewrite <- app_assoc in IH. cbn [app] in IH.
  replace (Z.of_nat (length (pre ++ [p]))) with (Z.succ (Z.of_nat (length pre))) in IH by (rewrite length_app; cbn; lia).
  rewrite IH. unfold permuted. rewrite fmap_cons, Hd. done.
Qed.

(** What the coordinate along an axis of the mesh adds to the position. *)
Definition contribution (i : Index) (p : Z) : Z :=
  default 0 (i !! Z.to_nat p) * default 0 (suffix_prods s !! Z.to_nat p).

Lemma contributions_sum i : in_bounds i s -> sum_z (contribution i <$> perm) = flat s i.
Proof.
  intros Hi. rewrite <- transposeAxes_permutes. rewrite (flat_sum s i Hi). f_equal. apply list_eq. intros k.
  rewrite list_lookup_fmap, lookup_zip_with. unfold contribution. pose proof (in_bounds_length _ _ Hi) as Hl.
  destruct (decide (k < length s)%nat) as [Hk|Hk].
  - rewrite lookup_seqZ_lt by lia. cbn. rewrite Z.add_0_l, Nat2Z.id.
    destruct (lookup_lt_is_Some_2 i k) as [x ->]; [lia|].
    destruct (lookup_lt_is_Some_2 (suffix_prods s) k) as [y ->]; [rewrite length_suffix_prods; lia|]. done.
  - rewrite lookup_seqZ_ge by lia. by rewrite (lookup_ge_None_2 i) by lia.
Qed.

Lemma axis_offset_spec i (k : nat) p :
  in_bounds i s -> perm !! k = Some p ->
  axis_offset perm (permuted perm s) (suffix_prods s) (suffix_prods (permuted perm s))
    (flat (permuted perm s) (permuted perm i)) (Z.of_nat k) = Ok (contribution i p) /\ 0 <= contribution i p.
Proof.
  intros Hi Hp. pose proof transposeAxes_permutes as H. pose proof (permutes_lookup _ _ _ _ H Hp) as Hpb.
  pose proof (permuted_in_bounds _ _ _ H Hi) as Hpi. pose proof (in_bounds_length _ _ Hi) as Hl.
  destruct (lookup_lt_is_Some_2 s (Z.to_nat p)) as [d Hd]; [lia|].
  destruct (lookup_lt_is_Some_2 i (Z.to_nat p)) as [x Hx]; [lia|].
  destruct (lookup_lt_is_Some_2 (suffix_prods s) (Z.to_nat p)) as [st Hst]; [rewrite length_suffix_prods; lia|].
  assert (permuted perm s !! k = Some d) as Hd' by (by eapply permuted_lookup).
  assert (permuted perm i !! k = Some x) as Hx' by (by eapply permuted_lookup).
  destruct (lookup_lt_is_Some_2 (suffix_prods (permuted perm s)) k) as [st' Hst'];
    [rewrite length_suffix_prods, length_permuted; by eapply lookup_lt_Some|].
  pose proof (in_bounds_lookup _ _ _ _ _ Hi Hx Hd) as Hxd.
  pose proof (Forall_lookup_1 _ _ _ _ (suffix_prods_pos _ Hs) Hst) as Hst0. cbn in Hst0.
  pose proof (Forall_lookup_1 _ _ _ _ (suffix_prods_pos _ permuted_pos) Hst') as Hst0'. cbn in Hst0'.
  destruct (suffix_prods_lookup _ _ _ _ Hd Hst) as [m Hm]. pose proof (prod_z_pos s Hs).
  assert (0 <= x * st < prod_z s) as Hterm.
  { rewrite Hm in *. assert (0 < d * st) by nia. assert (0 < m) by (apply (Z.mul_pos_cancel_r m (d * st)); lia).
    assert (x * st < d * st) by nia. split; [nia|]. assert (d * st <= m * (d * st)) by nia. lia. }
  pose proof (flat_bounds _ _ Hpi) as Hf. rewrite permuted_prod in Hf.
  unfold axis_offset, contribution. rewrite Hx, Hst. cbn [default from_option id].
  rewrite !at_z_nat, Hst', Hd'. cbn [ok_or]. cbind. unfold div_z, rem_z.
  rewrite (proj2 (Z.eqb_neq st' 0)) by lia. rewrite Z.quot_div_nonneg by lia.
  pose proof (Z.div_pos (flat (permuted perm s) (permuted perm i)) st' ltac:(lia) ltac:(lia)).
  assert (flat (permuted perm s) (permuted perm i) / st' <= flat (permuted perm s) (permuted perm i)) as Hdiv.
  { apply Z.div_le_upper_bound; [lia|]. clear - Hf Hst0'. nia. }
  rewrite i64_ok by (unfold int64_min; lia). cbind. rewrite (proj2 (Z.eqb_neq d 0)) by lia. cbind.
  rewrite Z.rem_mod_nonneg by lia. rewrite (flat_coordinate _ _ k x d st') by done.
  rewrite Hp. cbn [ok_or]. cbind. unfold at_z. rewrite (proj2 (Z.ltb_ge p 0)) by lia. rewrite Hst. cbn [ok_or]. cbind.
  rewrite i64_ok by (unfold int64_min; lia). split; [done|lia].
Qed.

Lemma original_index_spec i : in_bounds i s ->
  original_index perm (permuted perm s) (suffix_prods s) (suffix_prods (permuted perm s))
    (flat (permuted perm s) (permuted perm i)) = Ok (flat s i).
Proof.
  intros Hi. unfold original_index. pose proof (flat_bounds _ _ Hi).
  set (v := fun k => contribution i (default 0 (perm !! Z.to_nat k))).
  assert (v <$> seqZ 0 (Z.of_nat (length (permuted perm s))) = contribution i <$> perm) as Hv.
  { apply list_eq. intros k. rewrite !list_lookup_fmap, length_permuted. unfold v.
    destruct (decide (k < length perm)%nat) as [Hk|Hk].
    - rewrite lookup_seqZ_lt by lia. destruct (lookup_lt_is_Some_2 perm k Hk) as [x Hx].
      cbn. rewrite Z.add_0_l, Nat2Z.id. by rewrite Hx.
    - rewrite lookup_seqZ_ge by lia. by rewrite lookup_ge_None_2 by lia. }
  rewrite (foldM_sum _ v); [by rewrite Hv, contributions_sum|..|lia|by rewrite Hv, contributions_sum by done; lia].
  apply Forall_forall. intros k Hk%elem_of_seqZ. rewrite length_permuted in Hk.
  destruct (lookup_lt_is_Some_2 perm (Z.to_nat k)) as [p Hp]; [lia|]. unfold v. rewrite Hp. cbn [default from_option id].
  destruct (axis_offset_spec i (Z.to_nat k) p Hi Hp) as [E ?]. rewrite Z2Nat.id in E by lia. by rewrite E.
Qed.

(** The index in the mesh of the device at a position after the transpose. *)
Definition device_index (t : Z) : Index :=
  permuted (inverse perm) (default [] (indices (permuted perm s) !! Z.to_nat t)).

Lemma device_index_spec t : 0 <= t < prod_z s ->
  in_bounds (device_index t) s /\ flat (permuted perm s) (permuted perm (device_index t)) = t.
Proof.
  intros Ht. pose proof transposeAxes_permutes as H. pose proof permuted_pos as Hpos.
  assert (Forall (fun d => 0 <= d) (permuted perm s)) as Hnn by (eapply Forall_impl; [exact Hpos|cbn; lia]).
  destruct (lookup_lt_is_Some_2 (indices (permuted perm s)) (Z.to_nat t)) as [i Hi];
    [rewrite length_indices by done; rewrite permuted_prod; lia|].
  unfold device_index. rewrite Hi. cbn [default from_option id].
  destruct (indices_lookup_flat _ _ _ Hnn Hi) as [Hib Hf].
  assert (length i = length s) as Hl by (rewrite (in_bounds_length _ _ Hib), length_permuted; by apply permutes_length).
  rewrite permuted_inverse by (by rewrite Hl). split; [|lia].
  assert (in_bounds (permuted (inverse perm) i) (permuted (inverse perm) (permuted perm s))) as Hb.
  { apply permuted_in_bounds; [|done]. rewrite length_permuted, (permutes_length _ _ H). by apply permutes_inverse. }
  by rewrite (inverse_permuted perm s H) in Hb.
Qed.

Lemma device_index_of i : in_bounds i s -> device_index (flat (permuted perm s) (permuted perm i)) = i.
Proof.
  intros Hi. pose proof transposeAxes_permutes as H. unfold device_index.
  rewrite lookup_indices by (by apply permuted_in_bounds). cbn [default from_option id].
  apply inverse_permuted. by rewrite (in_bounds_length _ _ Hi).
Qed.

(** Every position of the mesh once. *)
Lemma device_positions : (fun t => flat s (device_index t)) <$> seqZ 0 (prod_z s) ≡ₚ seqZ 0 (prod_z s).
Proof.
  apply NoDup_Permutation; [|apply NoDup_seqZ|].
  - apply NoDup_fmap_2_strong; [|apply NoDup_seqZ]. intros t t' Ht%elem_of_seqZ Ht'%elem_of_seqZ E.
    destruct (device_index_spec t) as [Hb <-]; [lia|]. destruct (device_index_spec t') as [Hb' <-]; [lia|].
    f_equal. f_equal. by apply (flat_inj s).
  - intros x. rewrite list_elem_of_fmap, elem_of_seqZ. split.
    + intros (t & -> & Ht%elem_of_seqZ). destruct (device_index_spec t) as [Hb _]; [lia|].
      pose proof (flat_bounds _ _ Hb). lia.
    + intros Hx. assert (Forall (fun d => 0 <= d) s) as Hnn by (eapply Forall_impl; [exact Hs|cbn; lia]).
      destruct (lookup_lt_is_Some_2 (indices s) (Z.to_nat x)) as [i Hi]; [rewrite length_indices by done; lia|].
      destruct (indices_lookup_flat _ _ _ Hnn Hi) as [Hib Hf].
      exists (flat (permuted perm s) (permuted perm i)). rewrite device_index_of by done. split; [lia|].
      apply elem_of_seqZ. pose proof (flat_bounds _ _ (permuted_in_bounds _ _ _ transposeAxes_permutes Hib)) as Hb.
      rewrite permuted_prod in Hb. lia.
Qed.

Lemma group_sizes : mapM (fun idx => at_z s idx) g = Ok (permuted g s).
Proof.
  unfold permuted. apply mapM_ok. rewrite Forall_forall in Hg. intros p Hp. specialize (Hg p Hp).
  destruct (at_z_lt s p) as (d & -> & ->); [lia|]. done.
Qed.

Lemma split_prod : prod_z s = prod_z (permuted rest_axes s) * prod_z (permuted g s).
Proof. rewrite <- permuted_prod, <- prod_z_app. unfold permuted. by rewrite <- fmap_app. Qed.

Lemma sizes_pos axes : Forall (fun a => 0 <= a < Z.of_nat (length s)) axes -> Forall (fun d => 0 < d) (permuted axes s).
Proof.
  intros Ha. apply Forall_fmap. eapply Forall_impl; [exact Ha|]. intros p Hp. cbn in *.
  destruct (lookup_lt_is_Some_2 s (Z.to_nat p)) as [d Hd]; [lia|]. rewrite Hd. by apply (Forall_lookup_1 _ _ _ _ Hs Hd).
Qed.

Lemma rest_axes_bounds : Forall (fun a => 0 <= a < Z.of_nat (length s)) rest_axes.
Proof. apply Forall_forall. intros x [_ Hx%elem_of_seqZ]%list_elem_of_filter. lia. Qed.
End Transpose.

Lemma concat_blocks {A} (F : Z -> A) (n : nat) (m : Z) : 0 <= m ->
  concat ((fun i => (fun j => F (i * m + j)) <$> seqZ 0 m) <$> seqZ 0 (Z.of_nat n)) = F <$> seqZ 0 (Z.of_nat n * m).
Proof.
  intros Hm. induction n as [|n IH]; [done|]. rewrite seqZ_S, fmap_app, concat_app, IH.
  replace (Z.of_nat (S n) * m) with (Z.of_nat n * m + m) by lia. rewrite (seqZ_app 0) by nia. rewrite fmap_app. f_equal.
  rewrite fmap_cons. cbn [fmap list_fmap concat]. rewrite app_nil_r, !Z.add_0_l. apply list_eq. intros k.
  rewrite !list_lookup_fmap. destruct (decide (Z.of_nat k < m)) as [Hk|Hk].
  - rewrite !lookup_seqZ_lt by lia. cbn. by rewrite Z.add_0_l.
  - by rewrite !lookup_seqZ_ge by lia.
Qed.

Section Flatten.
Context (s g ids : list Z) (Hs : Forall (fun d => 0 < d) s) (Hmax : prod_z s <= int64_max).
Context (Hnd : NoDup g) (Hg : Forall (fun a => 0 <= a < Z.of_nat (length s)) g).
Context (Hids : Z.of_nat (length ids) = prod_z s).

Definition device (t : Z) : Z := default 0 (ids !! Z.to_nat (flat s (device_index s g t))).

(** The groups: a run of devices for each of the other coordinates. *)
Definition mesh_groups : list (list Z) :=
  let per := prod_z (permuted g s) in
  (fun i => (fun j => device (i * per + j)) <$> seqZ 0 per) <$> seqZ 0 (prod_z (permuted (rest_axes s g) s)).

Lemma flattened_spec : flattenedReplicaGroupsFromTransposePermutation s g ids (prod_z s) = Ok mesh_groups.
Proof.
  unfold flattenedReplicaGroupsFromTransposePermutation. rewrite transposed_sizes by done. cbind.
  rewrite (strides_spec s) by done. cbind. rewrite (strides_spec (permuted _ s)) by first [by apply permuted_pos|rewrite permuted_prod; done]. cbind.
  rewrite group_sizes by done. cbind.
  pose proof (sizes_pos s Hs g Hg) as Hgp. pose proof (sizes_pos s Hs _ (rest_axes_bounds s g)) as Hrp.
  pose proof (prod_z_pos _ Hgp). pose proof (prod_z_pos _ Hrp). pose proof (split_prod s g Hnd Hg) as Hsplit.
  rewrite product_spec by (done || nia). cbind. unfold div_z. rewrite (proj2 (Z.eqb_neq _ 0)) by lia.
  rewrite Hsplit, Z.quot_mul, i64_ok by (unfold int64_min; lia || nia). cbind.
  apply mapM_ok. intros i Hi%elem_of_seqZ. apply mapM_ok. intros j Hj%elem_of_seqZ.
  rewrite i64_ok by (unfold int64_min; nia). cbind. rewrite i64_ok by (unfold int64_min; nia). cbind.
  set (t := i * prod_z (permuted g s) + j). assert (0 <= t < prod_z s) as Ht by (unfold t; nia).
  destruct (device_index_spec s g Hs Hnd Hg t Ht) as [Hb Hf]. rewrite <- Hf at 1.
  rewrite original_index_spec by done. cbind. pose proof (flat_bounds _ _ Hb). unfold device.
  destruct (at_z_lt ids (flat s (device_index s g t))) as (d & -> & ->); [lia|]. done.
Qed.

Lemma mesh_groups_partition : concat mesh_groups ≡ₚ ids.
Proof.
  pose proof (sizes_pos s Hs g Hg) as Hgp. pose proof (sizes_pos s Hs _ (rest_axes_bounds s g)) as Hrp.
  pose proof (prod_z_pos _ Hgp). pose proof (prod_z_pos _ Hrp).
  unfold mesh_groups. rewrite <- (Z2Nat.id (prod_z (permuted (rest_axes s g) s))) by lia.
  rewrite concat_blocks, Z2Nat.id, <- split_prod by (done || lia).
  transitivity ((fun x => default 0 (ids !! Z.to_nat x)) <$> ((fun t => flat s (device_index s g t)) <$> seqZ 0 (prod_z s))).
  { by rewrite <- list_fmap_compose. }
  rewrite device_positions by done. rewrite <- Hids. match goal with |- ?l ≡ₚ _ => enough (l = ids) as -> by done end. apply list_eq. intros k. rewrite list_lookup_fmap.
  destruct (decide (k < length ids)%nat) as [Hk|Hk].
  - rewrite lookup_seqZ_lt by lia. cbn. rewrite Z.add_0_l, Nat2Z.id. by destruct (lookup_lt_is_Some_2 ids k Hk) as [x ->].
  - rewrite lookup_seqZ_ge by lia. by rewrite lookup_ge_None_2 by lia.
Qed.

(** Two devices are in one group when they agree on the axes that do not communicate. *)
Lemma mesh_groups_lookup i : in_bounds i s ->
  exists group, mesh_groups !! Z.to_nat (flat (permuted (rest_axes s g) s) (permuted (rest_axes s g) i)) = Some group /\
    Z.of_nat (length group) = prod_z (permuted g s) /\
    group !! Z.to_nat (flat (permuted g s) (permuted g i)) = ids !! Z.to_nat (flat s i).
Proof.
  intros Hi. pose proof (permuted_in_bounds _ _ _ (transposeAxes_permutes s g Hnd Hg) Hi) as Hb.
  change (transposeAxes s g) with (rest_axes s g ++ g) in Hb. unfold permuted in Hb. rewrite !fmap_app in Hb.
  fold (permuted (rest_axes s g) s) (permuted g s) (permuted (rest_axes s g) i) (permuted g i) in Hb.
  apply Forall2_app_inv in Hb as [Hr Hgb]; [|by rewrite !length_permuted].
  pose proof (flat_bounds _ _ Hr) as Fr. pose proof (flat_bounds _ _ Hgb) as Fg.
  unfold mesh_groups. rewrite list_lookup_fmap, lookup_seqZ_lt by lia. cbn [fmap option_fmap option_map].
  eexists. split; [reflexivity|]. split; [rewrite length_fmap, length_seqZ; lia|].
  rewrite list_lookup_fmap, lookup_seqZ_lt by lia. cbn [fmap option_fmap option_map].
  rewrite !Z.add_0_l, !Z2Nat.id by lia. unfold device.
  assert (flat (permuted (rest_axes s g) s) (permuted (rest_axes s g) i) * prod_z (permuted g s) + flat (permuted g s) (permuted g i)
    = flat (permuted (transposeAxes s g) s) (permuted (transposeAxes s g) i)) as ->.
  { unfold permuted, transposeAxes. rewrite !fmap_app. rewrite flat_app; [done|by rewrite !length_fmap]. }
  rewrite device_index_of by done. pose proof (flat_bounds _ _ Hi).
  destruct (lookup_lt_is_Some_2 ids (Z.to_nat (flat s i))) as [x ->]; [lia|]. done.
Qed.
End Flatten.

(** ** Cutting the axes at the sub-axes *)
Lemma elem_of_unique x l : x ∈ unique l <-> x ∈ l.
Proof.
  induction l as [|y [|z l] IH]; [done..|]. change (unique (y :: z :: l)) with (if y =? z then unique (z :: l) else y :: unique (z :: l)).
  destruct (Z.eqb_spec y z) as [->|].
  - rewrite IH, !elem_of_cons. tauto.
  - rewrite elem_of_cons, IH, !elem_of_cons. tauto.
Qed.

Lemma unique_sorted l : StronglySorted Z.le l -> StronglySorted Z.le (unique l).
Proof.
  induction l as [|y [|z l] IH]; intros H; [done..|].
  change (unique (y :: z :: l)) with (if y =? z then unique (z :: l) else y :: unique (z :: l)).
  apply StronglySorted_inv in H as [H Hy]. destruct (y =? z); [by apply IH|]. constructor; [by apply IH|].
  apply Forall_forall. intros x Hx. apply (proj1 (elem_of_unique _ _)) in Hx.
  rewrite Forall_forall in Hy. by apply Hy.
Qed.

(** Each cut divides the next one. *)
Fixpoint nested (l : list Z) : Prop :=
  match l with
  | p :: l' => match l' with q :: _ => (p | q) /\ nested l' | [] => True end
  | [] => True
  end.

Definition segments (l : list Z) : list Z := (fun '(p, q) => q / p) <$> zip l (tail l).

Lemma segments_prod l x : nested (x :: l) -> Forall (fun p => 1 <= p) (x :: l) ->
  Forall (fun d => 0 < d) (segments (x :: l)) /\ x * prod_z (segments (x :: l)) = default x (last (x :: l)).
Proof.
  revert x. induction l as [|y l IH]; intros x Hn Hpos; [split; [constructor|]; cbn [last default]; unfold segments, prod_z; cbn [zip zip_with tail fmap list_fmap foldr from_option id]; lia|].
  destruct Hn as [[k Hk] Hn]. apply Forall_cons in Hpos as [Hx Hpos]. destruct (IH y Hn Hpos) as [IH1 IH2].
  apply Forall_cons in Hpos as [Hy _].
  assert (segments (x :: y :: l) = k :: segments (y :: l)) as ->.
  { change (segments (x :: y :: l)) with (y / x :: segments (y :: l)). f_equal. rewrite Hk. apply Z.div_mul. lia. }
  split; [constructor; [nia|done]|]. rewrite prod_z_cons. rewrite last_cons.
  destruct (last (y :: l)) as [z|] eqn:E; [|by apply last_None in E]. cbn [default from_option id] in *. rewrite <- IH2, Hk. ring.
Qed.

Lemma sorted_ends l lo hi : StronglySorted Z.le l -> lo ∈ l -> hi ∈ l -> Forall (fun x => lo <= x <= hi) l ->
  exists l', l = lo :: l' /\ last l = Some hi.
Proof.
  intros Hs Hlo Hhi Hall. destruct l as [|x l]; [by apply elem_of_nil in Hlo|]. exists l.
  apply StronglySorted_inv in Hs as [Hs Hx]. pose proof Hall as [Hx0 _]%Forall_cons. split.
  - f_equal. apply elem_of_cons in Hlo as [->|Hlo]; [done|]. rewrite Forall_forall in Hx. specialize (Hx _ Hlo). lia.
  - assert (StronglySorted Z.le (x :: l)) as Hs' by (by constructor). clear Hs Hx Hx0 Hlo. revert Hall Hhi Hs'.
    generalize (x :: l). clear x l. intros l. induction l as [|x l IH] using rev_ind; intros Hall Hhi Hs; [by apply elem_of_nil in Hhi|].
    rewrite last_snoc. f_equal. apply elem_of_app in Hhi as [Hhi|Hhi]; [|by apply list_elem_of_singleton in Hhi].
    pose proof (StronglySorted_app_1_elem_of Z.le l [x] hi x Hs Hhi ltac:(left)).
    apply Forall_app in Hall as [_ Hall]. apply Forall_inv in Hall. lia.
Qed.

Definition axis_cuts (name : string) (commAxes : list AxisRef) : list Z :=
  flat_map (fun axisRef =>
    if bool_decide (ref_name axisRef = name) then
      match sub_axis_info axisRef with None => [] | Some sub => [preSize sub; preSize sub * size_ sub] end
    else []) commAxes.

(** The parts into which a mesh axis is split: they have its name, each is in front of as
    many devices of the axis as its pre-size says, and they make up the axis. *)
Fixpoint parts_of (name : string) (pre : Z) (parts : list SplitDim) : Prop :=
  match parts with
  | [] => True
  | d :: parts => axisName d = name /\ segPreSize d = pre /\ parts_of name (pre * segSize d) parts
  end.
Definition splits (a : MeshAxis) (parts : list SplitDim) : Prop :=
  parts_of (axis_name a) 1 parts /\ prod_z (segSize <$> parts) = axis_size a.

(** The part that an axis of the communication names: the sub-axis, or the whole axis. *)
Definition names (axesInMesh : list MeshAxis) (r : AxisRef) (d : SplitDim) : Prop :=
  axisName d = ref_name r /\
  match sub_axis_info r with
  | Some sub => segPreSize d = preSize sub /\ segSize d = size_ sub
  | None => segPreSize d = 1 /\ exists a, a ∈ axesInMesh /\ axis_name a = ref_name r /\ segSize d = axis_size a
  end.

Lemma match_axis_names axesInMesh dims r i : verify_axis axesInMesh r = Ok () -> match_axis axesInMesh dims r = Some i ->
  exists d, dims !! Z.to_nat i = Some d /\ names axesInMesh r d.
Proof.
  intros Hv H. unfold match_axis in H. unfold names. destruct (sub_axis_info r) as [sub|] eqn:Es; cbv beta iota zeta in H.
  - destruct (list_find _ dims) as [[k d]|] eqn:E; [|done]. injection H as <-. apply list_find_Some in E as (Hk & (Hn & Hp & Hq) & _).
    exists d. cbn. by rewrite Nat2Z.id.
  - destruct (list_find _ dims) as [[k d]|] eqn:E; [|done]. injection H as <-. apply list_find_Some in E as (Hk & (Hn & Hp & Hq) & _).
    exists d. cbn. rewrite Nat2Z.id. split; [done|]. split; [done|]. split; [done|].
    unfold verify_axis in Hv. destruct (find_axis axesInMesh (ref_name r)) as [a|] eqn:Ea; [|done]. exists a.
    unfold find_axis in Ea. destruct (list_find _ axesInMesh) as [[k' a']|] eqn:E; [|done]. injection Ea as ->.
    apply list_find_Some in E as (Hk' & Ha & _). split; [by eapply list_elem_of_lookup_2|]. by split.
Qed.

Lemma grouped_names axesInMesh dims commAxes : forall acc grouped,
  Forall (fun r => verify_axis axesInMesh r = Ok ()) commAxes ->
  foldM (fun axisRef grouped =>
      i ← ok_or (match_axis axesInMesh dims axisRef) (Failed "Invalid or overlapping communication axis");
      _ ← ensure (negb (bool_decide (i ∈ grouped))) "Duplicate or overlapping communication axis";
      Ok (grouped ++ [i])) commAxes acc = Ok grouped ->
  exists new, grouped = acc ++ new /\
    Forall2 (fun r i => exists d, dims !! Z.to_nat i = Some d /\ names axesInMesh r d) commAxes new.
Proof.
  induction commAxes as [|r rest IH]; intros acc grouped Hv H; cbn [foldM] in H.
  - injection H as <-. exists []. by rewrite app_nil_r.
  - apply Forall_cons in Hv as [Hr Hv]. apply bind_ok in H as (acc' & H1 & H). apply bind_ok in H1 as (i & Hi & H1).
    apply bind_ok in H1 as ([] & _ & [= <-]). apply IH in H as (new & -> & Hnew); [|done].
    exists (i :: new). split; [by rewrite <- app_assoc|]. constructor; [|done].
    destruct (match_axis axesInMesh dims r) as [j|] eqn:E; [|done]. injection Hi as ->. by eapply match_axis_names.
Qed.

Lemma splits_parts l : forall x name, nested (x :: l) -> Forall (fun p => 1 <= p) (x :: l) ->
  parts_of name x ((fun '(p, q) => MkSplitDim name p (q / p)) <$> zip (x :: l) l).
Proof.
  induction l as [|y l IH]; intros x name Hn Hp; [done|]. destruct Hn as [[m Hm] Hn]. apply Forall_cons in Hp as [Hx Hp].
  cbn [zip zip_with fmap list_fmap parts_of axisName segPreSize segSize]. split; [done|]. split; [done|].
  replace (x * (y / x)) with y by (rewrite Hm, Z.div_mul by lia; lia). by apply IH.
Qed.

Section Reindex.
Context (axesInMesh : list MeshAxis) (commAxes : list AxisRef).
Context (Hsize : Forall (fun a => 1 <= axis_size a <= int64_max) axesInMesh) (Hnames : NoDup (axis_name <$> axesInMesh)).
Context (Hverified : Forall (fun r => verify_axis axesInMesh r = Ok ()) commAxes).

Lemma find_axis_spec a : a ∈ axesInMesh -> find_axis axesInMesh (axis_name a) = Some a.
Proof.
  intros Ha. unfold find_axis. destruct (list_find _ axesInMesh) as [[k b]|] eqn:E.
  - apply list_find_Some in E as (Hk & Hb & _). cbn. f_equal. apply list_elem_of_lookup in Ha as [j Hj].
    assert (k = j) as ->; [|congruence]. eapply NoDup_lookup; [exact Hnames|by rewrite list_lookup_fmap, Hk|].
    rewrite list_lookup_fmap, Hj. cbn. by rewrite Hb.
  - apply list_find_None in E. rewrite Forall_forall in E. by destruct (E a Ha).
Qed.

Lemma verified_sub r a sub : r ∈ commAxes -> a ∈ axesInMesh -> ref_name r = axis_name a -> sub_axis_info r = Some sub ->
  1 <= preSize sub /\ 1 <= size_ sub /\ preSize sub * size_ sub <= axis_size a.
Proof.
  intros Hr Ha Hn Hsub. rewrite Forall_forall in Hverified. specialize (Hverified r Hr). unfold verify_axis in Hverified.
  rewrite Hn, find_axis_spec in Hverified by done. cbn [ok_or mbind result_bind] in Hverified. rewrite Hsub in Hverified.
  apply bind_ok in Hverified as ([] & H1 & H). apply bind_ok in H as (n & H2 & H). apply i64_inv in H2 as [-> _].
  apply bind_ok in H as ([] & H3 & _). unfold ensure in H1, H3.
  destruct ((1 <=? preSize sub) && (1 <=? size_ sub)) eqn:E1; [|done].
  destruct (preSize sub * size_ sub <=? axis_size a) eqn:E3; [|done]. lia.
Qed.

Lemma axis_cuts_bounds a x : a ∈ axesInMesh -> x ∈ axis_cuts (axis_name a) commAxes -> 1 <= x <= axis_size a.
Proof.
  intros Ha Hx. apply list_elem_of_In, in_flat_map in Hx as (r & Hr & Hx). apply list_elem_of_In in Hr.
  case_bool_decide as Hn; [|done]. destruct (sub_axis_info r) as [sub|] eqn:Hsub; [|done].
  destruct (verified_sub r a sub Hr Ha Hn Hsub) as (? & ? & ?). destruct Hx as [<-|[<-|[]]]; nia.
Qed.

Lemma cuts_spec a : a ∈ axesInMesh ->
  pre_sizes a commAxes = Ok (unique (merge_sort Z.le ([1; axis_size a] ++ axis_cuts (axis_name a) commAxes))).
Proof.
  intros Ha. unfold pre_sizes.
  enough (forall rest acc, (forall r, r ∈ rest -> r ∈ commAxes) -> foldM (fun axisRef cuts =>
      if bool_decide (ref_name axisRef = axis_name a) then
        match sub_axis_info axisRef with
        | None => Ok cuts
        | Some sub => e ← i64 (preSize sub * size_ sub); Ok (cuts ++ [preSize sub; e])
        end
      else Ok cuts) rest acc = Ok (acc ++ axis_cuts (axis_name a) rest)) as H by (by rewrite H).
  induction rest as [|r rest IH]; intros acc Hrest; cbn [foldM axis_cuts flat_map]; [by rewrite app_nil_r|].
  case_bool_decide as Hn; [destruct (sub_axis_info r) as [sub|] eqn:Hsub|].
  2,3: cbind; apply IH; intros x Hx; apply Hrest; by right.
  destruct (verified_sub r a sub) as (? & ? & ?); [apply Hrest; left|done..|].
  rewrite Forall_forall in Hsize. specialize (Hsize a Ha). cbn in Hsize.
  rewrite i64_ok by (unfold int64_min; nia). cbind.
  rewrite IH by (intros x Hx; apply Hrest; by right). by rewrite <- app_assoc.
Qed.

Lemma split_axis_spec a : a ∈ axesInMesh -> (forall l, pre_sizes a commAxes = Ok l -> nested l) ->
  exists dims, split_axis commAxes a = Ok dims /\ Forall (fun d => 0 < d) (segSize <$> dims) /\ splits a dims.
Proof.
  intros Ha Hnest. unfold split_axis, splits. destruct (Z.eqb_spec (axis_size a) 1) as [E|Hne].
  { eexists. split; [done|]. rewrite E. cbn [fmap list_fmap segSize parts_of axisName segPreSize]. split; [repeat constructor|]. by split_and!. }
  rewrite cuts_spec in * by done. cbind. specialize (Hnest _ eq_refl).
  set (l := unique _) in *. rewrite Forall_forall in Hsize. specialize (Hsize a Ha). cbn in Hsize.
  assert (forall x, x ∈ l <-> x = 1 \/ x = axis_size a \/ x ∈ axis_cuts (axis_name a) commAxes) as Hin.
  { intros x. unfold l. rewrite elem_of_unique, merge_sort_Permutation, elem_of_app, !elem_of_cons, elem_of_nil. tauto. }
  destruct (sorted_ends l 1 (axis_size a)) as (l' & El & Hlast).
  { apply unique_sorted, StronglySorted_merge_sort; apply _. }
  { apply Hin. by left. }
  { apply Hin. right. by left. }
  { apply Forall_forall. intros x [->|[->|Hx]]%Hin; [lia..|by apply (axis_cuts_bounds a)]. }
  assert (Forall (fun p => 1 <= p <= axis_size a) l) as Hl.
  { apply Forall_forall. intros x [->|[->|Hx]]%Hin; [lia..|by apply (axis_cuts_bounds a)]. }
  rewrite (mapM_ok _ (fun '(p, q) => MkSplitDim (axis_name a) p (q / p))).
  - eexists. split; [done|]. rewrite <- list_fmap_compose.
    replace (segSize ∘ (fun '(p, q) => MkSplitDim (axis_name a) p (q / p)) <$> zip l (tail l)) with (segments l)
      by (unfold segments; apply list_fmap_ext; by intros ? []).
    rewrite El in *. destruct (segments_prod l' 1 Hnest) as [Hp Hprod].
    { eapply Forall_impl; [exact Hl|cbn; lia]. }
    split; [done|]. split; [apply (splits_parts l' 1); [done|]; eapply Forall_impl; [exact Hl|cbn; lia]|]. rewrite Hlast in Hprod. cbn [default from_option id] in Hprod. lia.
  - intros [p q] Hpq. rewrite Forall_forall in Hl. pose proof (elem_of_zip_l _ _ _ _ Hpq) as Hp.
    pose proof (elem_of_zip_r _ _ _ _ Hpq) as Hq. assert (q ∈ l) as Hq' by (rewrite El in *; by right).
    pose proof (Hl p Hp). pose proof (Hl q Hq'). unfold div_z. rewrite (proj2 (Z.eqb_neq p 0)) by lia.
    rewrite Z.quot_div_nonneg by lia. pose proof (Z.div_pos q p ltac:(lia) ltac:(lia)).
    pose proof (Z.div_le_upper_bound q p q ltac:(lia) ltac:(nia)). rewrite i64_ok by (unfold int64_min; lia). done.
Qed.
End Reindex.

(** ** The groups of a mesh *)
Lemma split_dims_spec commAxes axes :
  (forall a, a ∈ axes -> exists dims, split_axis commAxes a = Ok dims /\ Forall (fun d => 0 < d) (segSize <$> dims) /\ splits a dims) ->
  exists parts, mapM (split_axis commAxes) axes = Ok parts /\ Forall2 splits axes parts /\
    Forall (fun d => 0 < d) (segSize <$> concat parts) /\ prod_z (segSize <$> concat parts) = prod_z (axis_size <$> axes).
Proof.
  induction axes as [|a axes IH]; intros H; [exists []; repeat split; constructor|].
  destruct (H a) as (da & Ea & Pa & Qa); [left|]. destruct IH as (ds & Es & Hs & Ps & Qs); [intros b Hb; apply H; by right|].
  exists (da :: ds). cbn [mapM concat]. rewrite Ea. cbind. rewrite Es. cbind. pose proof Qa as [_ Hprod].
  rewrite fmap_app, prod_z_app, fmap_cons, prod_z_cons, Hprod, Qs. split; [done|]. split; [by constructor|]. split; [by apply Forall_app|done].
Qed.

Lemma grouped_spec axesInMesh splitDims commAxes : forall acc grouped,
  NoDup acc -> Forall (fun i => 0 <= i < Z.of_nat (length splitDims)) acc ->
  foldM (fun axisRef grouped =>
      i ← ok_or (match_axis axesInMesh splitDims axisRef) (Failed "Invalid or overlapping communication axis");
      _ ← ensure (negb (bool_decide (i ∈ grouped))) "Duplicate or overlapping communication axis";
      Ok (grouped ++ [i])) commAxes acc = Ok grouped ->
  NoDup grouped /\ Forall (fun i => 0 <= i < Z.of_nat (length splitDims)) grouped.
Proof.
  induction commAxes as [|r rest IH]; intros acc grouped Hnd Hb H; cbn [foldM] in H.
  - injection H as <-. done.
  - apply bind_ok in H as (acc' & H1 & H). apply bind_ok in H1 as (i & Hi & H1). apply bind_ok in H1 as ([] & Hnot & [= <-]).
    unfold ensure in Hnot. case_bool_decide as Hin; [done|]. apply (IH (acc ++ [i])) in H; [done|..].
    + apply NoDup_app. split; [done|]. split; [|apply NoDup_singleton].
      intros x Hx Hx'. apply list_elem_of_singleton in Hx' as ->. done.
    + apply Forall_app. split; [done|]. apply Forall_singleton.
      destruct (match_axis axesInMesh splitDims r) as [j|] eqn:E; [|done]. injection Hi as ->.
      unfold match_axis in E. destruct (match sub_axis_info r with Some _ => _ | None => _ end) as [p q].
      destruct (list_find _ splitDims) as [[k d]|] eqn:Ef; [|done]. injection E as <-.
      apply list_find_Some in Ef as (Hk & _ & _). apply lookup_lt_Some in Hk. cbn. lia.
Qed.

(** The devices of a mesh, in the order of its axes. *)
Definition mesh_devices (mesh : Mesh) : list Z :=
  match device_ids mesh with
  | None | Some [] => seqZ 0 (prod_z (axis_size <$> mesh_axes mesh))
  | Some ids => ids
  end.

Lemma verified_axes axesInMesh refs commAxes : mapM (verify_attr axesInMesh) (Some <$> refs) = Ok commAxes ->
  commAxes = refs /\ Forall (fun r => verify_axis axesInMesh r = Ok ()) refs.
Proof.
  revert commAxes. induction refs as [|r refs IH]; intros commAxes H; [by injection H as <-|].
  apply bind_ok in H as (r' & Hr & H). apply bind_ok in H as (rs & Hrs & [= <-]). apply IH in Hrs as [-> Hv].
  cbn [verify_attr ok_or mbind result_bind] in Hr. apply bind_ok in Hr as ([] & Hr & [= <-]). split; [done|by constructor].
Qed.

(** C28: when the axes of a mesh have positive sizes and different names, the
    device list fits the mesh, and the sub-axes of each axis nest, then the
    communication axes that [computeReindexedAxes] accepts give groups of equal
    size that partition the devices.  The mesh is seen as parts of its axes, in
    order; the grouped indices are those of the parts that the communication axes
    name, by axis name, pre-size and size.  A device is in the group given by its
    coordinates on the parts that do not communicate, at the position given by
    its coordinates on those that do, in the order of the communication axes. *)
Theorem mesh_groups_correct mesh commAxes splitAxisSizes groupedAxisIndices :
  Forall (fun a => 1 <= axis_size a <= int64_max) (mesh_axes mesh) -> NoDup (axis_name <$> mesh_axes mesh) ->
  prod_z (axis_size <$> mesh_axes mesh) <= int64_max ->
  Z.of_nat (length (mesh_devices mesh)) = prod_z (axis_size <$> mesh_axes mesh) ->
  (forall a l, a ∈ mesh_axes mesh -> pre_sizes a commAxes = Ok l -> nested l) ->
  computeReindexedAxes (mesh_axes mesh) (Some <$> commAxes) = Ok (splitAxisSizes, groupedAxisIndices) ->
  exists parts groups, Forall2 splits (mesh_axes mesh) parts /\ splitAxisSizes = segSize <$> concat parts /\
    Forall2 (fun r k => exists d, concat parts !! Z.to_nat k = Some d /\ names (mesh_axes mesh) r d) commAxes groupedAxisIndices /\
    flattenReplicaGroupMeshAxes (Some mesh) (Some <$> commAxes) = Ok groups /\ concat groups ≡ₚ mesh_devices mesh /\
    prod_z splitAxisSizes = prod_z (axis_size <$> mesh_axes mesh) /\
    let rest := rest_axes splitAxisSizes groupedAxisIndices in
    forall i, in_bounds i splitAxisSizes ->
    exists group, groups !! Z.to_nat (flat (permuted rest splitAxisSizes) (permuted rest i)) = Some group /\
      Z.of_nat (length group) = prod_z (permuted groupedAxisIndices splitAxisSizes) /\
      group !! Z.to_nat (flat (permuted groupedAxisIndices splitAxisSizes) (permuted groupedAxisIndices i))
        = mesh_devices mesh !! Z.to_nat (flat splitAxisSizes i).
Proof.
  intros Hsize Hnames Hmax Hids Hnest Hc. pose proof Hc as Hc'. unfold computeReindexedAxes in Hc'.
  apply bind_ok in Hc' as (refs & [-> Hverified]%verified_axes & Hc').
  destruct (split_dims_spec commAxes (mesh_axes mesh)) as (parts & Ed & Hsplits & Hpos & Hprod).
  { intros a Ha. apply (split_axis_spec (mesh_axes mesh)); [done..|]. intros l. by apply Hnest. }
  rewrite Ed in Hc'. cbn [fmap result_fmap mbind result_bind] in Hc'. apply bind_ok in Hc' as (grouped & Hg & [= <- <-]).
  destruct (grouped_spec (mesh_axes mesh) (concat parts) commAxes [] grouped) as [Hnd Hb]; [constructor|constructor|exact Hg|].
  destruct (grouped_names (mesh_axes mesh) (concat parts) commAxes [] grouped) as (new & -> & Hnew); [done|exact Hg|]. cbn [app] in *.
  rewrite <- (length_fmap segSize (concat parts)) in Hb.
  assert (Z.of_nat (length (mesh_devices mesh)) = prod_z (segSize <$> concat parts)) as Hids' by (by rewrite Hprod).
  exists parts, (mesh_groups (segSize <$> concat parts) new (mesh_devices mesh)). do 3 (split; [done|]). split_and!.
  - unfold flattenReplicaGroupMeshAxes. cbn [ok_or mbind result_bind]. rewrite Hc. cbn [mbind result_bind].
    rewrite product_spec by (done || (apply Forall_fmap; eapply Forall_impl; [exact Hsize|cbn; lia])). cbn [mbind result_bind].
    rewrite <- flattened_spec by (done || by rewrite Hprod). rewrite Hprod. done.
  - by apply mesh_groups_partition.
  - done.
  - cbv zeta. intros i Hi. by apply mesh_groups_lookup.
Qed.

(** Without the nesting of sub-axes the groups lose devices: on an axis of
    six devices the sub-axes of pre-size 1 and size 2 and of pre-size 3 and size 2 are
    accepted together, and the only group holds four of the devices. *)
Theorem crossing_sub_axes_lose_devices :
  let mesh := MkMesh [MkMeshAxis "x" 6] None in
  let commAxes := [MkAxisRef "x" (Some (MkSubAxis 1 2)); MkAxisRef "x" (Some (MkSubAxis 3 2))] in
  flattenReplicaGroupMeshAxes (Some mesh) (Some <$> commAxes) = Ok [[0; 1; 2; 3]] /\ mesh_devices mesh = [0; 1; 2; 3; 4; 5].
Proof. cbv zeta. split; vm_compute; reflexivity. Qed.

(** ** Witness: a mesh of 2 by 4 devices, and the second half of its second axis *)
Lemma mesh_groups_correct_witness :
  exists groups, flattenReplicaGroupMeshAxes (Some (MkMesh [MkMeshAxis "a" 2; MkMeshAxis "b" 4] None))
      [Some (MkAxisRef "a" None); Some (MkAxisRef "b" (Some (MkSubAxis 2 2)))] = Ok groups /\
    concat groups ≡ₚ [0; 1; 2; 3; 4; 5; 6; 7] /\ groups = [[0; 1; 4; 5]; [2; 3; 6; 7]].
Proof.
  destruct (mesh_groups_correct (MkMesh [MkMeshAxis "a" 2; MkMeshAxis "b" 4] None)
    [MkAxisRef "a" None; MkAxisRef "b" (Some (MkSubAxis 2 2))] [2; 2; 2] [0; 2]) as (parts & groups & _ & _ & _ & H & Hp & _).
  - repeat constructor; discriminate.
  - apply (bool_decide_unpack _). vm_compute. exact I.
  - vm_compute. discriminate.
  - reflexivity.
  - intros a l Ha Hl. apply list_elem_of_In in Ha. destruct Ha as [<-|[<-|[]]]; vm_compute in Hl; injection Hl as <-;
      repeat split; exists 2; reflexivity.
  - reflexivity.
  - exists groups. split; [exact H|]. split; [exact Hp|]. vm_compute in H. injection H as <-. reflexivity.
Defined.
