(* ===== verification/Version.v ===== *)
(** * VHLO versions

    [src/stablehlo/dialect/Version.h] and [Version.cpp]: version numbers, their
    order, printing and parsing, and the compatibility window.  A [failure] is
    [Failed]. *)
From Stdlib Require Import Ascii.
From S2P Require Import Prelude.

Record Version := MkVersion { getMajor : Z; getMinor : Z; getPatch : Z }.

(** [std::array] compares lexicographically. *)
Definition version_lt (v w : Version) : bool :=
  (getMajor v <? getMajor w) ||
  ((getMajor v =? getMajor w) &&
   ((getMinor v <? getMinor w) || ((getMinor v =? getMinor w) && (getPatch v <? getPatch w)))).
Definition version_le (v w : Version) : bool := negb (version_lt w v).

Definition getCurrentVersion : Version := MkVersion 1 21 0.
Definition getMinimumVersion : Version := MkVersion 0 9 0.

(** ** Printing *)
Definition digit (d : Z) : ascii := ascii_of_nat (Z.to_nat (48 + d)).

(** The decimal digits of [n], before those in [acc]; an [int64_t] has at most 19. *)
Fixpoint print_digits (fuel : nat) (n : Z) (acc : string) : string :=
  let acc := String (digit (n mod 10)) acc in
  match fuel with
  | O => acc
  | S fuel => if n <? 10 then acc else print_digits fuel (n / 10) acc
  end.

Definition print_int64 (n : Z) : string :=
  if n <? 0 then String "-" (print_digits 19 (- n) "") else print_digits 19 n "".

Definition toString (v : Version) : string :=
  (print_int64 (getMajor v) ++ "." ++ print_int64 (getMinor v) ++ "." ++ print_int64 (getPatch v))%string.

(** ** Parsing *)
Definition is_digit (a : ascii) : bool := (48 <=? Z.of_nat (nat_of_ascii a)) && (Z.of_nat (nat_of_ascii a) <=? 57).

(** The longest match of [[0-9]*] at the start. *)
Fixpoint span_digits (s : string) : string * string :=
  match s with
  | String a s' =>
      if is_digit a then let '(digits, rest) := span_digits s' in (String a digits, rest) else (EmptyString, s)
  | EmptyString => (EmptyString, EmptyString)
  end.

Fixpoint digits_value (s : string) (n : Z) : Z :=
  match s with
  | String a s => digits_value s (n * 10 + (Z.of_nat (nat_of_ascii a) - 48))
  | EmptyString => n
  end.

(** [getAsInteger] into an [int64_t]. *)
Definition parseNumber (numRef : string) : result Z :=
  let n := digits_value numRef 0 in
  if n <=? int64_max then Ok n else Err (Fatal "failed to parse version number").

(** [([0-9]+)] at the start. *)
Definition match_number (s : string) : option (string * string) :=
  match span_digits s with
  | (EmptyString, _) => None
  | matched => Some matched
  end.

Definition match_dot (s : string) : option string :=
  match s with
  | String a rest => if decide (a = "."%char) then Some rest else None
  | EmptyString => None
  end.

(** The groups of [^([0-9]+)\.([0-9]+)\.([0-9]+)$]. *)
Definition versionRegex (s : string) : option (string * string * string) :=
  '(m1, r) ← match_number s; r ← match_dot r;
  '(m2, r) ← match_number r; r ← match_dot r;
  '(m3, r) ← match_number r;
  match r with EmptyString => Some (m1, m2, m3) | _ => None end.

Definition fromString (versionRef : string) : result Version :=
  '(m1, m2, m3) ← ok_or (versionRegex versionRef) (Failed "version");
  a ← parseNumber m1; b ← parseNumber m2; c ← parseNumber m3;
  Ok (MkVersion a b c).

(** ** The compatibility window *)
Definition getBytecodeVersion (v : Version) : result Z :=
  if version_lt v (MkVersion 0 9 0) then Err (Failed "version")
  else if version_lt v (MkVersion 0 10 0) then Ok 0
  else if version_lt v (MkVersion 0 12 0) then Ok 1
  else if version_lt v (MkVersion 0 14 0) then Ok 3
  else if version_lt v (MkVersion 0 15 0) then Ok 4
  else if version_le v getCurrentVersion then Ok 6
  else Err (Failed "version").

Inductive CompatibilityRequirement := NONE | WEEK_4 | WEEK_12 | MAX.

Definition fromCompatibilityRequirement (requirement : CompatibilityRequirement) : Version :=
  match requirement with
  | NONE => getCurrentVersion
  | WEEK_4 => MkVersion 1 18 0
  | WEEK_12 => MkVersion 1 16 3
  | MAX => getMinimumVersion
  end.

(** ** What is printed can be parsed *)
Fixpoint all_digits (s : string) : bool :=
  match s with String a s => is_digit a && all_digits s | EmptyString => true end.

Lemma digit_value d : 0 <= d < 10 -> Z.of_nat (nat_of_ascii (digit d)) = 48 + d.
Proof. intros H. unfold digit. rewrite nat_ascii_embedding; lia. Qed.

Lemma digit_is_digit d : 0 <= d < 10 -> is_digit (digit d) = true.
Proof. intros H. unfold is_digit. rewrite digit_value by done. lia. Qed.

Lemma print_digits_value fuel : forall n acc, 0 <= n < 10 ^ Z.of_nat (S fuel) ->
  digits_value (print_digits fuel n acc) 0 = digits_value acc n.
Proof.
  induction fuel as [|fuel IH]; intros n acc Hn; pose proof (Z.mod_pos_bound n 10 ltac:(lia)); cbn [print_digits].
  - cbn [digits_value]. rewrite digit_value by done. rewrite Z.mod_small by (change (10 ^ Z.of_nat 1) with 10 in Hn; lia). f_equal. lia.
  - destruct (Z.ltb_spec n 10).
    + cbn [digits_value]. rewrite digit_value by done. rewrite Z.mod_small by lia. f_equal. lia.
    + rewrite IH; [cbn [digits_value]; rewrite digit_value by done; f_equal; pose proof (Z.div_mod n 10); lia|].
      split; [apply Z.div_pos; lia|]. apply Z.div_lt_upper_bound; [lia|].
      rewrite Nat2Z.inj_succ, Z.pow_succ_r in Hn by lia. lia.
Qed.

Lemma print_digits_all fuel : forall n acc, all_digits acc = true -> all_digits (print_digits fuel n acc) = true.
Proof.
  induction fuel as [|fuel IH]; intros n acc Ha; pose proof (Z.mod_pos_bound n 10 ltac:(lia)); cbn [print_digits];
    [|destruct (n <? 10); [|apply IH]]; cbn [all_digits]; by rewrite digit_is_digit.
Qed.

Lemma print_digits_nonempty fuel : forall n acc, print_digits fuel n acc <> EmptyString.
Proof. induction fuel as [|fuel IH]; intros n acc; cbn [print_digits]; [done|]. by destruct (n <? 10). Qed.

Lemma span_digits_app s r :
  all_digits s = true -> match r with String a _ => is_digit a = false | EmptyString => True end ->
  span_digits (s ++ r)%string = (s, r).
Proof.
  intros Hs Hr. induction s as [|a s IH].
  - change ("" ++ r)%string with r. destruct r as [|b r]; cbn [span_digits]; [done|]. by rewrite Hr.
  - change (String a s ++ r)%string with (String a (s ++ r)). cbn [all_digits span_digits] in *.
    apply andb_true_iff in Hs as [-> Hs]. by rewrite IH.
Qed.

Definition is_int64 (n : Z) : Prop := 0 <= n <= int64_max.

Lemma match_printed n r : is_int64 n -> match r with String a _ => is_digit a = false | EmptyString => True end ->
  match_number (print_int64 n ++ r)%string = Some (print_int64 n, r) /\ parseNumber (print_int64 n) = Ok n.
Proof.
  intros Hn Hr. unfold is_int64, int64_max in Hn. unfold print_int64. rewrite (proj2 (Z.ltb_ge n 0)) by lia. split.
  - unfold match_number. rewrite span_digits_app by (done || by apply print_digits_all).
    pose proof (print_digits_nonempty 19 n "") as Hne. by destruct (print_digits 19 n "").
  - unfold parseNumber. rewrite print_digits_value by (cbn; lia). cbn [digits_value].
    rewrite (proj2 (Z.leb_le n int64_max)) by (unfold int64_max; lia). done.
Qed.

Lemma match_dot_app s : match_dot ("." ++ s)%string = Some s.
Proof. reflexivity. Qed.

Lemma string_app_nil (s : string) : (s ++ "")%string = s.
Proof.
  induction s as [|a s IH]; [done|]. change (String a s ++ "")%string with (String a (s ++ "")). by rewrite IH.
Qed.

Lemma is_digit_value a : is_digit a = true -> 0 <= Z.of_nat (nat_of_ascii a) - 48.
Proof. unfold is_digit. lia. Qed.

Lemma span_digits_all s : all_digits (span_digits s).1 = true.
Proof.
  induction s as [|a s IH]; [done|]. cbn [span_digits]. destruct (is_digit a) eqn:Ha; [|done].
  destruct (span_digits s) as [d r]. cbn [fst all_digits] in *. by rewrite Ha.
Qed.

Lemma digits_value_nonneg s : forall n, all_digits s = true -> 0 <= n -> 0 <= digits_value s n.
Proof.
  induction s as [|a s IH]; intros n Hs Hn; [done|]. cbn [all_digits digits_value] in *.
  apply andb_true_iff in Hs as [Ha%is_digit_value Hs]. apply IH; [done|lia].
Qed.

Lemma parse_matched s m r n : match_number s = Some (m, r) -> parseNumber m = Ok n -> is_int64 n.
Proof.
  unfold match_number. pose proof (span_digits_all s) as Hall. destruct (span_digits s) as [d r'].
  intros Hm Hn. assert (m = d) as -> by (destruct d; congruence). unfold parseNumber in Hn. cbn [fst] in Hall.
  pose proof (digits_value_nonneg d 0 Hall ltac:(lia)). destruct (Z.leb_spec (digits_value d 0) int64_max); [|done].
  injection Hn as <-. done.
Qed.

(** C37: printing a version of nonnegative numbers and parsing it gives the version
    back, and parsing yields only versions of nonnegative [int64_t] numbers. *)
Theorem version_round_trip v :
  (is_int64 (getMajor v) -> is_int64 (getMinor v) -> is_int64 (getPatch v) -> fromString (toString v) = Ok v) /\
  (forall s, fromString s = Ok v -> is_int64 (getMajor v) /\ is_int64 (getMinor v) /\ is_int64 (getPatch v)).
Proof.
  split.
  - destruct v as [a b c]. cbn [getMajor getMinor getPatch]. intros Ha Hb Hc. unfold fromString, toString, versionRegex.
    cbn [getMajor getMinor getPatch].
    destruct (match_printed a ("." ++ print_int64 b ++ "." ++ print_int64 c) Ha) as [Ma Pa]; [done|].
    destruct (match_printed b ("." ++ print_int64 c) Hb) as [Mb Pb]; [done|].
    destruct (match_printed c "" Hc) as [Mc Pc]; [done|]. rewrite string_app_nil in Mc.
    rewrite Ma. cbn [mbind option_bind]. rewrite match_dot_app. cbn [mbind option_bind].
    rewrite Mb. cbn [mbind option_bind]. rewrite match_dot_app. cbn [mbind option_bind].
    rewrite Mc. cbn [mbind option_bind ok_or]. cbind. rewrite Pa. cbind. rewrite Pb. cbind. rewrite Pc. done.
  - intros s H. unfold fromString in H. apply bind_ok in H as ([[m1 m2] m3] & Hm & H).
    apply bind_ok in H as (a & Pa & H). apply bind_ok in H as (b & Pb & H). apply bind_ok in H as (c & Pc & [= <-]).
    unfold versionRegex in Hm. destruct (match_number s) as [[n1 r1]|] eqn:E1; [|done]. cbn [mbind option_bind] in Hm.
    destruct (match_dot r1) as [r2|]; [|done]. cbn [mbind option_bind] in Hm.
    destruct (match_number r2) as [[n2 r3]|] eqn:E2; [|done]. cbn [mbind option_bind] in Hm.
    destruct (match_dot r3) as [r4|]; [|done]. cbn [mbind option_bind] in Hm.
    destruct (match_number r4) as [[n3 r5]|] eqn:E3; [|done]. cbn [mbind option_bind] in Hm.
    destruct r5; [|done]. injection Hm as <- <- <-. exact (conj (parse_matched _ _ _ _ E1 Pa) (conj (parse_matched _ _ _ _ E2 Pb) (parse_matched _ _ _ _ E3 Pc))).
Qed.

Ltac versions := unfold version_le, version_lt, getCurrentVersion, getMinimumVersion in *; cbn [getMajor getMinor getPatch] in *; lia.

Lemma bytecode_cases v n : getBytecodeVersion v = Ok n ->
  version_le getMinimumVersion v = true /\ version_le v getCurrentVersion = true /\
  ((version_lt v (MkVersion 0 10 0) = true /\ n = 0) \/
   (version_lt v (MkVersion 0 10 0) = false /\ version_lt v (MkVersion 0 12 0) = true /\ n = 1) \/
   (version_lt v (MkVersion 0 12 0) = false /\ version_lt v (MkVersion 0 14 0) = true /\ n = 3) \/
   (version_lt v (MkVersion 0 14 0) = false /\ version_lt v (MkVersion 0 15 0) = true /\ n = 4) \/
   (version_lt v (MkVersion 0 15 0) = false /\ n = 6)).
Proof.
  unfold getBytecodeVersion. destruct v as [a b c].
  destruct (version_lt _ (MkVersion 0 9 0)) eqn:E1; [done|]. destruct (version_lt _ (MkVersion 0 10 0)) eqn:E2.
  { intros [= <-]. split_and!; [versions..|]. by left. }
  destruct (version_lt _ (MkVersion 0 12 0)) eqn:E3.
  { intros [= <-]. split_and!; [versions..|]. right; left. done. }
  destruct (version_lt _ (MkVersion 0 14 0)) eqn:E4.
  { intros [= <-]. split_and!; [versions..|]. right; right; left. done. }
  destruct (version_lt _ (MkVersion 0 15 0)) eqn:E5.
  { intros [= <-]. split_and!; [versions..|]. right; right; right; left. done. }
  destruct (version_le _ getCurrentVersion) eqn:E6; [|done]. intros [= <-]. split_and!; [versions|done|].
  right; right; right; right. done.
Qed.

Lemma bytecode_fails v e : getBytecodeVersion v = Err e ->
  version_le getMinimumVersion v = false \/ version_le v getCurrentVersion = false.
Proof.
  unfold getBytecodeVersion. destruct (version_lt v (MkVersion 0 9 0)) eqn:E1; [intros _; left; destruct v; versions|].
  repeat (destruct (version_lt v _); [done|]). destruct (version_le v getCurrentVersion); [done|]. by right.
Qed.

(** A version has a bytecode version exactly when it lies between the minimum
    and the current version, a newer one never has an older bytecode version, and
    the target of every compatibility requirement lies in that window, older for
    longer requirements. *)
Theorem compatibility_window v w :
  ((exists n, getBytecodeVersion v = Ok n) <-> version_le getMinimumVersion v = true /\ version_le v getCurrentVersion = true) /\
  (forall m n, version_le v w = true -> getBytecodeVersion v = Ok m -> getBytecodeVersion w = Ok n -> m <= n) /\
  (forall r, exists n, getBytecodeVersion (fromCompatibilityRequirement r) = Ok n) /\
  version_le (fromCompatibilityRequirement MAX) (fromCompatibilityRequirement WEEK_12) = true /\
  version_le (fromCompatibilityRequirement WEEK_12) (fromCompatibilityRequirement WEEK_4) = true /\
  version_le (fromCompatibilityRequirement WEEK_4) (fromCompatibilityRequirement NONE) = true.
Proof.
  split_and!; try reflexivity.
  - split; [intros [n H]; by apply bytecode_cases in H as (? & ? & _)|]. intros [H1 H2].
    destruct (getBytecodeVersion v) eqn:E; [by eexists|]. destruct (bytecode_fails v e E); congruence.
  - intros m n Hle Hm Hn. apply bytecode_cases in Hm as (_ & _ & Hm), Hn as (_ & _ & Hn).
    destruct v as [a b c], w as [a' b' c']. unfold version_le, version_lt in *. cbn [getMajor getMinor getPatch] in *. lia.
  - intros []; eexists; reflexivity.
Qed.

(** ** Witness *)
Lemma version_round_trip_witness : fromString (toString (MkVersion 1 21 0)) = Ok (MkVersion 1 21 0).
Proof. apply version_round_trip; split; discriminate. Defined.

Lemma compatibility_window_witness : exists n, getBytecodeVersion (MkVersion 1 16 3) = Ok n /\ 4 <= n.
Proof.
  destruct (compatibility_window (MkVersion 0 14 0) (MkVersion 1 16 3)) as (_ & H & Hr & _).
  destruct (Hr WEEK_12) as (n & Hn). exists n. split; [exact Hn|]. exact (H 4 n eq_refl eq_refl Hn).
Defined.
