(* ===== verification/Scope.v ===== *)
(** * Scopes

    [src/stablehlo/reference/Scope.h] and [Scope.cpp]: the values of the SSA
    registers of a region under evaluation, and a handle to the scope of the
    enclosing region.  [eval] makes a new scope for every evaluation of a region
    and adds only to its own, so the parent's scope is passed as a value. *)
From S2P Require Import Prelude Types Support Index Element Tensor Base TypeInference Ops Linear ProcessGrid Regions.

(** An SSA value: its identity and its type. *)
Record Value := MkValue { value_id : positive; ssa_type : Ty }.

Section Scope.
Context `{L : LLVM}.

Inductive Scope := MkScope (stack_frame_ : gmap positive InterpreterValue) (parent_ : option Scope).

Definition stack_frame_ (scope : Scope) := let '(MkScope frame _) := scope in frame.
Definition parent_ (scope : Scope) := let '(MkScope _ parent) := scope in parent.

Definition newScope (parent : option Scope) : Scope := MkScope ∅ parent.

Definition add (scope : Scope) (ssaValue : Value) (runtimeValue : InterpreterValue) : result Scope :=
  match stack_frame_ scope !! value_id ssaValue with
  | Some _ => Err (Fatal "Duplicate SSA register found in scope")
  | None =>
      if decide (ssa_type ssaValue = value_type runtimeValue) then
        Ok (MkScope (<[value_id ssaValue := runtimeValue]> (stack_frame_ scope)) (parent_ scope))
      else Err (Fatal "Expected same type for an SSA register and its evaluated value")
  end.

(** [add] of a range; an assertion compares the sizes. *)
Definition add_all (scope : Scope) (ssaValues : list Value) (runtimeValues : list InterpreterValue) : result Scope :=
  if decide (length ssaValues = length runtimeValues) then
    foldM (fun '(ssaValue, runtimeValue) scope => add scope ssaValue runtimeValue) (zip ssaValues runtimeValues) scope
  else Err (UB "assert: ssaValues.size() == runtimeValues.size()").

Fixpoint find (scope : Scope) (ssaValue : Value) : result InterpreterValue :=
  match scope with
  | MkScope frame parent =>
      match frame !! value_id ssaValue with
      | Some v => Ok v
      | None =>
          match parent with
          | Some parent => find parent ssaValue
          | None => Err (Fatal "value not found in scope")
          end
      end
  end.

Definition find_all (scope : Scope) (ssaValues : list Value) : result (list InterpreterValue) :=
  mapM (find scope) ssaValues.
Definition findTensor (scope : Scope) (ssaValue : Value) : result Tensor :=
  v ← find scope ssaValue; Regions.getTensor v.
Definition findTensors (scope : Scope) (ssaValues : list Value) : result (list Tensor) :=
  mapM (findTensor scope) ssaValues.
Definition findToken (scope : Scope) (ssaValue : Value) : result () :=
  v ← find scope ssaValue; getToken v.
Definition findTokens (scope : Scope) (ssaValues : list Value) : result (list ()) :=
  mapM (findToken scope) ssaValues.
Definition findTuple (scope : Scope) (ssaValue : Value) : result (list InterpreterValue) :=
  v ← find scope ssaValue; getTuple v.

(** ** The invariant of a scope: every register holds a value of its type *)
Section Invariant.
(** The types of the registers of the program. *)
Context (types : positive -> Ty).

Definition declared (v : Value) : Prop := ssa_type v = types (value_id v).

Definition frame_typed (frame : gmap positive InterpreterValue) : Prop :=
  forall id v, frame !! id = Some v -> value_type v = types id.

Inductive scope_typed : Scope -> Prop :=
| typed_root frame : frame_typed frame -> scope_typed (MkScope frame None)
| typed_nested frame parent : frame_typed frame -> scope_typed parent -> scope_typed (MkScope frame (Some parent)).

Lemma newScope_typed parent : (forall p, parent = Some p -> scope_typed p) -> scope_typed (newScope parent).
Proof.
  intros H. unfold newScope. destruct parent as [p|]; constructor; try (by apply H).
  all: intros id v Hv; by rewrite lookup_empty in Hv.
Qed.

Lemma add_typed scope x v scope' : declared x -> scope_typed scope -> add scope x v = Ok scope' -> scope_typed scope'.
Proof.
  unfold add. intros Hx Hs. destruct (_ !! _); [done|]. case_decide as Ht; [|done]. intros [= <-].
  assert (frame_typed (<[value_id x:=v]> (stack_frame_ scope))) as Hf.
  { intros id w Hw. apply lookup_insert_Some in Hw as [[<- <-]|[_ Hw]]; [by rewrite <- Hx|].
    inversion Hs as [frame Hf|frame p Hf]; subst; by apply Hf. }
  inversion Hs as [frame|frame p]; subst; by constructor.
Qed.

Lemma add_all_typed scope xs vs scope' :
  Forall declared xs -> scope_typed scope -> add_all scope xs vs = Ok scope' -> scope_typed scope'.
Proof.
  unfold add_all. case_decide as Hlen; [|done]. revert vs scope Hlen.
  induction xs as [|x xs IH]; intros [|v vs] scope Hlen Hx Hs; try done; [by intros [= <-]|].
  apply Forall_cons in Hx as [Hx Hxs]. cbn [zip zip_with foldM]. intros H. apply bind_ok in H as (scope1 & H1 & H).
  apply (IH vs scope1); [by injection Hlen|done|by eapply add_typed|done].
Qed.

Lemma find_typed scope x v : scope_typed scope -> find scope x = Ok v -> value_type v = types (value_id x).
Proof.
  induction 1 as [frame Hf|frame p Hf Hp IH]; cbn [find]; destruct (frame !! value_id x) eqn:E; try done.
  - intros [= <-]. by apply Hf.
  - intros [= <-]. by apply Hf.
Qed.

Lemma find_all_typed scope xs vs :
  scope_typed scope -> Forall declared xs -> find_all scope xs = Ok vs -> value_type <$> vs = ssa_type <$> xs.
Proof.
  intros Hs Hx. unfold find_all. revert vs. induction Hx as [|x xs Hx Hxs IH]; intros vs H; cbn [mapM] in H; [by injection H as <-|].
  apply bind_ok in H as (v & Hv & H). apply bind_ok in H as (vs' & Hvs & [= <-]). rewrite !fmap_cons. f_equal; [|by apply IH].
  rewrite Hx. by eapply find_typed.
Qed.
End Invariant.

Lemma add_all_values scope xs vs scope' : add_all scope xs vs = Ok scope' -> value_type <$> vs = ssa_type <$> xs.
Proof.
  unfold add_all. case_decide as Hlen; [|done]. revert vs scope Hlen.
  induction xs as [|x xs IH]; intros [|v vs] scope Hlen; try done. cbn [zip zip_with foldM]. intros H.
  apply bind_ok in H as (scope1 & H1 & H). rewrite !fmap_cons. f_equal; [|by eapply IH; [injection Hlen|]].
  unfold add in H1. destruct (_ !! _); [done|]. by case_decide.
Qed.

(** ** What a scope holds: the value added last, or the parent's *)
Lemma find_add_same scope x v scope' : add scope x v = Ok scope' -> find scope' x = Ok v.
Proof.
  unfold add. destruct (_ !! _); [done|]. case_decide; [|done]. intros [= <-]. cbn [find]. by rewrite lookup_insert_eq.
Qed.

Lemma find_add_other scope x v y scope' :
  add scope x v = Ok scope' -> value_id y <> value_id x -> find scope' y = find scope y.
Proof.
  unfold add. destruct (_ !! _); [done|]. case_decide; [|done]. intros [= <-] Hne. destruct scope as [frame parent].
  cbn [find stack_frame_ parent_]. by rewrite lookup_insert_ne.
Qed.

(** The registers a lookup can reach. *)
Fixpoint visible (scope : Scope) : gset positive :=
  match scope with
  | MkScope frame parent => dom frame ∪ match parent with Some p => visible p | None => ∅ end
  end.

Lemma find_visible scope x : value_id x ∈ visible scope -> exists v, find scope x = Ok v.
Proof.
  revert scope. fix IH 1. intros [frame [p|]] H; cbn [visible find] in *.
  - destruct (frame !! value_id x) eqn:E; [by eexists|]. apply IH. apply elem_of_union in H as [H|H]; [|done].
    by apply not_elem_of_dom in E.
  - destruct (frame !! value_id x) eqn:E; [by eexists|]. apply elem_of_union in H as [H|H]; [|by apply elem_of_empty in H].
    by apply not_elem_of_dom in E.
Qed.
End Scope.
