(* ===== verification/Eval.v ===== *)
(** * The evaluator

    [eval] of [src/stablehlo/reference/Ops.cpp]: the operations of a region are
    evaluated in order in a new scope, each by its function, until one returns.
    The program is data: [Op] has a constructor per operation the evaluator
    knows, with the operands, attributes and regions the evaluator reads.  The
    evaluation of a region may not end (while loops, recursive calls), so [fuel]
    bounds the nesting of regions and the turns of each loop. *)
From S2P Require Import Prelude Types Support Index Element Tensor Base TypeInference Ops Linear ProcessGrid Regions Collectives ReplicaGroups Scope.

(** ** Programs *)
Inductive UnaryKind :=
| AbsOp | BitcastConvertOp | CbrtOp | CeilOp | ClzOp | ConvertOp | CosineOp | ExpOp | Expm1Op | FloorOp | ImagOp
| IsFiniteOp | Log1pOp | LogOp | LogisticOp | NegOp | NotOp | PopulationCountOp | RealOp | ReshapeOp
| RoundNearestEvenOp | RoundOp | RsqrtOp | SignOp | SineOp | SqrtOp | TanOp | TanhOp.

Inductive BinaryKind :=
| AddOp | AndOp | Atan2Op | ComplexOp | DivOp | MaxOp | MinOp | MulOp | OrOp | PowOp | RemOp
| ShiftLeftOp | ShiftRightArithmeticOp | ShiftRightLogicalOp | SubtractOp | XorOp.

(** A dense attribute by its shape and values, or the axes of a mesh; [None] is a
    symbol that names no mesh. *)
Inductive ReplicaGroupsAttr :=
| DenseGroups (rows columns : Z) (values : list Z)
| MeshAxesGroups (mesh : option Mesh) (axes : list (option AxisRef)).

Record GatherDims := MkGatherDims {
  offsetDims : list Z; collapsedSliceDims : list Z; operandBatchingDims : list Z;
  startIndicesBatchingDims : list Z; startIndexMap : list Z; gatherIndexVectorDim : Z;
}.

Record ScatterDims := MkScatterDims {
  updateWindowDims : list Z; insertedWindowDims : list Z; inputBatchingDims : list Z;
  scatterIndicesBatchingDims : list Z; scatterDimsToOperandDims : list Z; scatterIndexVectorDim : Z;
}.

(** The attributes of a window: a missing one has a default. *)
Record WindowAttrs := MkWindowAttrs {
  windowStridesAttr : option (list Z); paddingAttr : option (list Z * list Z);
  lhsDilationAttr : option (list Z); rhsDilationAttr : option (list Z); windowReversalAttr : option (list bool);
}.

Section Syntax.
Context `{L : LLVM}.

Inductive Op :=
| UnaryOp (kind : UnaryKind) (operand : Value)
| BinaryOp (kind : BinaryKind) (lhs rhs : Value)
| AfterAllOp (inputs : list Value)
| AllGatherOp (operands : list Value) (allGatherDim : Z) (replicaGroups : ReplicaGroupsAttr)
    (channelHandle : option Z) (useGlobalDeviceIds : bool)
| AllReduceOp (operands : list Value) (replicaGroups : ReplicaGroupsAttr) (channelHandle : option Z)
    (useGlobalDeviceIds : bool) (computation : Block)
| AllToAllOp (operands : list Value) (splitDimension concatDimension splitCount : Z)
    (replicaGroups : ReplicaGroupsAttr) (channelHandle : option Z)
| BroadcastInDimOp (operand : Value) (broadcastDimensions : list Z)
| CallOp (operands : list Value) (callee : string)
| CaseOp (index : Value) (branches : list Block)
| ClampOp (min operand max : Value)
| CollectiveBroadcastOp (operands : list Value) (replicaGroups : ReplicaGroupsAttr) (channelHandle : option Z)
    (hasDynamicRoot : bool)
| CollectiveReduceOp (operands : list Value) (replicaGroups : ReplicaGroupsAttr) (channelHandle : option Z)
    (useGlobalDeviceIds hasDynamicRoot : bool) (computation : Block)
| CollectivePermuteOp (operand : Value) (sourceTargetPairs : list Z) (channelHandle : option Z)
| CompareOp (lhs rhs : Value) (comparisonDirection : ComparisonDirection)
| CompositeOp (operands : list Value) (decomposition : string)
| ConcatenateOp (inputs : list Value) (dimension : Z)
| ConstantOp (value : DenseElementsAttr)
| ConvolutionOp (lhs rhs : Value) (window : WindowAttrs) (dimensionNumbers : ConvDims)
    (featureGroupCount batchGroupCount : Z)
| DotGeneralOp (lhs rhs : Value) (lhsBatchingDimensions rhsBatchingDimensions lhsContractingDimensions
    rhsContractingDimensions : list Z)
| DynamicBroadcastInDimOp (operand outputDimensions : Value) (broadcastDimensions : list Z)
| DynamicConvOp (lhs rhs padding : Value) (window : WindowAttrs) (dimensionNumbers : ConvDims)
    (featureGroupCount batchGroupCount : Z)
| DynamicGatherOp (operand startIndices sliceSizes : Value) (dimensionNumbers : GatherDims) (indicesAreSorted : bool)
| DynamicIotaOp (outputShape : Value) (iotaDimension : Z)
| DynamicPadOp (operand paddingValue edgePaddingLow edgePaddingHigh interiorPadding : Value)
| DynamicReshapeOp (operand outputShape : Value)
| DynamicSliceOp (operand : Value) (startIndices : list Value) (sliceSizes : list Z)
| DynamicUpdateSliceOp (operand update : Value) (startIndices : list Value)
| FftOp (operand : Value) (fftType : FftType) (fftLength : list Z)
| GatherOp (operand startIndices : Value) (dimensionNumbers : GatherDims) (sliceSizes : list Z) (indicesAreSorted : bool)
| GetDimensionSizeOp (operand : Value) (dimension : Z)
| GetTupleElementOp (operand : Value) (index : Z)
| IfOp (pred : Value) (trueBranch falseBranch : Block)
| InfeedOp (token : Value)
| IotaOp (iotaDimension : Z)
| MapOp (inputs : list Value) (computation : Block)
| OptimizationBarrierOp (operand : list Value)
| OutfeedOp (inputs : list Value) (token : Value)
| PadOp (operand paddingValue : Value) (edgePaddingLow interiorPadding : list Z)
| PartitionIdOp
| RecvOp (token : Value) (channelHandle : option Z)
| ReduceOp (inputs initValues : list Value) (dimensions : list Z) (body : Block)
| ReducePrecisionOp (operand : Value) (exponentBits mantissaBits : Z)
| ReduceScatterOp (operand : Value) (scatterDimension : Z) (replicaGroups : ReplicaGroupsAttr)
    (channelHandle : option Z) (useGlobalDeviceIds : bool) (computation : Block)
| ReduceWindowOp (inputs initValues : list Value) (windowDimensions : list Z) (window : WindowAttrs) (body : Block)
| ReplicaIdOp
| ReturnOp (operands : list Value)
| ReverseOp (operand : Value) (dimensions : list Z)
| ScatterOp (inputs : list Value) (scatterIndices : Value) (updates : list Value) (dimensionNumbers : ScatterDims)
    (updateComputation : Block)
| SelectAndScatterOp (operand source initValue : Value) (windowDimensions : option (list Z)) (window : WindowAttrs)
    (select scatter : Block)
| SelectOp (pred onTrue onFalse : Value)
| SendOp (inputs : list Value) (token : Value) (channelHandle : option Z)
| SliceOp (operand : Value) (startIndices strides : list Z)
| SortOp (inputs : list Value) (dimension : Z) (isStable : bool) (comparator : Block)
| TransposeOp (operand : Value) (permutation : list Z)
| TriangularSolveOp (a b : Value) (leftSide lower unitDiagonal : bool) (transposeA : Transpose)
| TupleOp (val : list Value)
| WhileOp (operand : list Value) (cond body : Block)
| DecomposableOp (name : string) (operands : list Value)
| OtherOp (name : string) (operands : list Value)
with Operation := MkOperation (op : Op) (results : list Value)
with Block := MkBlock (arguments : list Value) (operations : list Operation).

Definition op_of (operation : Operation) : Op := let '(MkOperation op _) := operation in op.
Definition results_of (operation : Operation) : list Value := let '(MkOperation _ results) := operation in results.
Definition arguments_of (block : Block) : list Value := let '(MkBlock arguments _) := block in arguments.
Definition operations_of (block : Block) : list Operation := let '(MkBlock _ operations) := block in operations.

(** The types the terminator of a block returns. *)
Definition terminator_of (block : Block) : option (list Ty) :=
  match last (operations_of block) with
  | Some (MkOperation (ReturnOp operands) _) => Some (ssa_type <$> operands)
  | _ => None
  end.

Definition block_signature (block : Block) : BlockSig :=
  MkBlockSig (ssa_type <$> arguments_of block) (terminator_of block).
End Syntax.

Definition unary_op `{L : LLVM} (kind : UnaryKind) : Tensor -> ShapedType -> result Tensor :=
  match kind with
  | AbsOp => absOp | BitcastConvertOp => bitcastConvertOp | CbrtOp => cbrtOp | CeilOp => ceilOp | ClzOp => clzOp
  | ConvertOp => convertOp | CosineOp => cosineOp | ExpOp => exponentialOp | Expm1Op => expm1Op | FloorOp => floorOp
  | ImagOp => imagOp | IsFiniteOp => isFiniteOp | Log1pOp => log1pOp | LogOp => logOp | LogisticOp => logisticOp
  | NegOp => negOp | NotOp => notOp | PopulationCountOp => populationCountOp | RealOp => realOp
  | ReshapeOp => reshapeOp | RoundNearestEvenOp => roundNearestEvenOp | RoundOp => roundOp | RsqrtOp => rsqrtOp
  | SignOp => signOp | SineOp => sineOp | SqrtOp => sqrtOp | TanOp => tanOp | TanhOp => tanhOp
  end.

Definition binary_op `{L : LLVM} (kind : BinaryKind) : Tensor -> Tensor -> ShapedType -> result Tensor :=
  match kind with
  | AddOp => addOp | AndOp => andOp | Atan2Op => atan2Op | ComplexOp => complexOp | DivOp => divideOp | MaxOp => maxOp
  | MinOp => minOp | MulOp => multiplyOp | OrOp => orOp | PowOp => powerOp | RemOp => remOp
  | ShiftLeftOp => shiftLeftOp | ShiftRightArithmeticOp => shiftRightArithmeticOp
  | ShiftRightLogicalOp => shiftRightLogicalOp | SubtractOp => subtractOp | XorOp => xorOp
  end.

(** ** Attributes *)

(** [SmallVector(n, x)]; no vector has a negative size. *)
Definition filled {A} (n : Z) (x : A) : result (list A) :=
  if n <? 0 then Err (UB "vector of negative size") else Ok (replicate (Z.to_nat n) x).

Definition extractAttributeOrDefault {A} (attr : option (list A)) (size : Z) (value : A) : result (list A) :=
  match attr with Some l => Ok l | None => filled size value end.

Definition convert_padding (attr : list Z * list Z) : result (list (Z * Z)) :=
  or_fatal "Invalid padding format found." (convertPaddingAttribute (Some attr)).

(** The mesh is given by a symbol that is looked up, or in place. *)
Definition replica_groups (replicaGroupsAttr : ReplicaGroupsAttr) : result (list (list Z)) :=
  match replicaGroupsAttr with
  | DenseGroups rows columns values => getReplicaGroups rows columns values
  | MeshAxesGroups mesh axes =>
      mesh ← ok_or mesh (Fatal "Failed to find mesh symbol");
      groups ← or_fatal "Failed to flatten replica group mesh axes" (flattenReplicaGroupMeshAxes (Some mesh) axes);
      Ok ((fun group : list Z => (fun id => id mod 2 ^ 32) <$> group) <$> (groups : list (list Z)))
  end.

Definition channel_id (channelHandle : option Z) : Z := default 0 channelHandle.

(** The parameters of a convolution of a rank, with its defaults. *)
Definition conv_params (rank : Z) (window : WindowAttrs) (padding : option (list (Z * Z))) (dims : ConvDims)
    : result ConvParams :=
  windowStrides ← extractAttributeOrDefault (windowStridesAttr window) (rank - 2) 1;
  padding ← match padding with
            | Some padding => Ok padding
            | None => default (filled (rank - 2) (0, 0)) (convert_padding <$> paddingAttr window)
            end;
  lhsDilation ← extractAttributeOrDefault (lhsDilationAttr window) (rank - 2) 1;
  rhsDilation ← extractAttributeOrDefault (rhsDilationAttr window) (rank - 2) 1;
  windowReversal ← extractAttributeOrDefault (windowReversalAttr window) (rank - 2) false;
  Ok (MkConv windowStrides padding lhsDilation rhsDilation windowReversal dims).

Section Eval.
Context `{L : LLVM}.

(** The padding of a dynamic convolution: the elements two by two. *)
Fixpoint padding_loop (fuel : nat) (dPadding : Tensor) (it last : IndexSpaceIterator) (padding : list (Z * Z))
    : result (list (Z * Z)) :=
  if decide (it = last) then Ok padding
  else match fuel with
       | O => Err OutOfFuel
       | S fuel =>
           index ← iter_deref it; e ← get dPadding index; paddingLow ← getIntegerValue e;
           it ← iter_incr it;
           index ← iter_deref it; e ← get dPadding index; paddingHigh ← getIntegerValue e;
           it ← iter_incr it;
           padding_loop fuel dPadding it last (padding ++ [(getSExtValue paddingLow, getSExtValue paddingHigh)])
       end.

Definition dynamic_padding (dPadding : Tensor) : result (list (Z * Z)) :=
  let shape := getTensorShape dPadding in
  padding_loop (Z.to_nat (prod_z shape)) dPadding (index_begin shape) (index_end shape) [].

(** The first of the [i]-th pair goes to [paddingLow[i]], the second to [paddingHigh[i]]. *)
Definition window_padding (rank : Z) (window : WindowAttrs) : result (Sizes * Sizes) :=
  low ← filled rank 0;
  high ← filled rank 0;
  match paddingAttr window with
  | None => Ok (low, high)
  | Some attr =>
      pairs ← convert_padding attr;
      foldM (fun '(i, (first, second)) '(low, high) =>
          low ← set_z low i first; high ← set_z high i second; Ok (low, high)) (enumerate pairs) (low, high)
  end.

(** ** Functions and the operations on tuples *)
Definition getTupleElementOp (operand : list InterpreterValue) (index : Z) : result InterpreterValue :=
  at_z operand index.
Definition tupleOp (val : list InterpreterValue) (resultType : Ty) : result InterpreterValue :=
  match resultType with
  | TupleType types => Ok (TupleValue val types)
  | _ => Err (UB "assert: cast to an incompatible type")
  end.
Definition optimizationBarrierOp (operand : list InterpreterValue) : list InterpreterValue := operand.
Definition afterAllOp (inputs : list ()) : InterpreterValue := TokenValue.

Definition failOnDecomposableOp (name : string) : result (list InterpreterValue) :=
  Err (Fatal ("Operation " +:+ name +:+ " is unsupported at the moment.")).

(** A custom evaluator of the operations that [eval] does not know; it adds the
    results to the scope. *)
Abbreviation Fallback := (Operation -> Scope -> option Process -> proc Scope) (only parsing).

(** The symbols of the module, and [std::sort]. *)
Context (functions : string -> option Block) (process : option Process).
Context (std_sort : list Z -> (Z -> Z -> proc bool) -> proc (list Z)).

Section Operation.
(** The evaluation of a region, with less fuel. *)
Context (eval : Block -> list InterpreterValue -> option Fallback -> option Scope -> proc (list InterpreterValue)).
Context (fuel : nat) (fallback : option Fallback) (scope : Scope).

(** A region in its scope: most operations evaluate theirs without the fallback. *)
Definition region (block : Block) : Region :=
  MkRegion (block_signature block) (fun args => eval block args None (Some scope)).
Definition loop_region (block : Block) : Region :=
  MkRegion (block_signature block) (fun args => eval block args fallback (Some scope)).

Definition callOp (inputs : list Tensor) (funcName : string) : proc (list InterpreterValue) :=
  func ← lift (ok_or (functions funcName) (UB "null function"));
  eval func (TensorValue <$> inputs) fallback None.

Definition findTensor := findTensor scope.
Definition findTensors := findTensors scope.

(** The result of an operation that gives one tensor. *)
Definition one (t : result Tensor) : proc (list InterpreterValue) := lift (t ← t; Ok [TensorValue t]).
Definition one_of (t : proc Tensor) : proc (list InterpreterValue) := t ← t; mret [TensorValue t].
Definition tensors (results : proc (list Tensor)) : proc (list InterpreterValue) :=
  ts ← results; mret (TensorValue <$> (ts : list Tensor)).

(** [op.getType()] and the types of all results. *)
Definition shaped_types (results : list Value) : result (list ShapedType) :=
  mapM (fun v => cast_shaped (ssa_type v)) results.
Definition result_type (results : list Value) : result ShapedType :=
  v ← at_z results 0; cast_shaped (ssa_type v).

(** *** Operations on tensors *)
Definition eval_convolution (lhs rhs : Value) (padding : option Value) (window : WindowAttrs) (dims : ConvDims)
    (featureGroupCount batchGroupCount : Z) (type : ShapedType) : result Tensor :=
  lhs ← findTensor lhs;
  rhs ← findTensor rhs;
  padding ← match padding with
            | None => Ok None
            | Some padding => dPadding ← findTensor padding; Some <$> dynamic_padding dPadding
            end;
  c ← conv_params (getTensorRank lhs) window padding dims;
  convolutionOp lhs rhs c featureGroupCount batchGroupCount type.

Definition eval_gather (operand startIndices : Tensor) (dims : GatherDims) (sliceSizes : Sizes)
    (indicesAreSorted : bool) (type : ShapedType) : result Tensor :=
  gatherOp operand startIndices (offsetDims dims) (collapsedSliceDims dims) (operandBatchingDims dims)
    (startIndicesBatchingDims dims) (startIndexMap dims) (gatherIndexVectorDim dims) sliceSizes indicesAreSorted type.

(** The operations that evaluate no region and have one tensor as their result. *)
Definition eval_tensor_op (op : Op) : option (ShapedType -> result Tensor) :=
  match op with
  | UnaryOp kind operand => Some (fun type => operand ← findTensor operand; unary_op kind operand type)
  | BinaryOp kind lhs rhs => Some (fun type => lhs ← findTensor lhs; rhs ← findTensor rhs; binary_op kind lhs rhs type)
  | BroadcastInDimOp operand broadcastDimensions | DynamicBroadcastInDimOp operand _ broadcastDimensions =>
      Some (fun type => operand ← findTensor operand; broadcastInDimOp operand broadcastDimensions type)
  | ClampOp min operand max =>
      Some (fun type => min ← findTensor min; operand ← findTensor operand; max ← findTensor max; clampOp min operand max type)
  | CompareOp lhs rhs comparisonDirection =>
      Some (fun type => lhs ← findTensor lhs; rhs ← findTensor rhs; compareOp lhs rhs comparisonDirection type)
  | ConcatenateOp inputs dimension => Some (fun type => inputs ← findTensors inputs; concatenateOp inputs dimension type)
  | ConstantOp value => Some (fun type => constantOp value)
  | ConvolutionOp lhs rhs window dims featureGroupCount batchGroupCount =>
      Some (fun type => eval_convolution lhs rhs None window dims featureGroupCount batchGroupCount type)
  | DotGeneralOp lhs rhs lhsBatching rhsBatching lhsContracting rhsContracting =>
      Some (fun type => lhs ← findTensor lhs; rhs ← findTensor rhs;
            dotGeneralOp lhs rhs lhsBatching rhsBatching lhsContracting rhsContracting type)
  | DynamicConvOp lhs rhs padding window dims featureGroupCount batchGroupCount =>
      Some (fun type => eval_convolution lhs rhs (Some padding) window dims featureGroupCount batchGroupCount type)
  | DynamicGatherOp operand startIndices sliceSizes dims indicesAreSorted =>
      Some (fun type => operand ← findTensor operand; startIndices ← findTensor startIndices; sliceSizes ← findTensor sliceSizes;
            sizes ← makeSizes sliceSizes; eval_gather operand startIndices dims sizes indicesAreSorted type)
  | DynamicIotaOp _ iotaDimension | IotaOp iotaDimension => Some (fun type => iotaOp iotaDimension type)
  | DynamicPadOp operand paddingValue edgePaddingLow edgePaddingHigh interiorPadding =>
      Some (fun type => operand ← findTensor operand; paddingValue ← findTensor paddingValue;
            low ← findTensor edgePaddingLow; high ← findTensor edgePaddingHigh; interior ← findTensor interiorPadding;
            low ← makeSizes low; high ← makeSizes high; interior ← makeSizes interior;
            inferredPadOp operand paddingValue low high interior)
  | DynamicReshapeOp operand _ => Some (fun type => operand ← findTensor operand; reshapeOp operand type)
  | DynamicSliceOp operand startIndices sliceSizes =>
      Some (fun type => operand ← findTensor operand; startIndices ← findTensors startIndices;
            dynamicSliceOp operand startIndices sliceSizes type)
  | DynamicUpdateSliceOp operand update startIndices =>
      Some (fun type => operand ← findTensor operand; update ← findTensor update; startIndices ← findTensors startIndices;
            dynamicUpdateSliceOp operand update startIndices type)
  | FftOp operand fftType fftLength => Some (fun type => operand ← findTensor operand; fftOp operand fftType fftLength type)
  | GatherOp operand startIndices dims sliceSizes indicesAreSorted =>
      Some (fun type => operand ← findTensor operand; startIndices ← findTensor startIndices;
            eval_gather operand startIndices dims sliceSizes indicesAreSorted type)
  | GetDimensionSizeOp operand dimension =>
      Some (fun type => operand ← findTensor operand; getDimensionSizeOp operand dimension type)
  | PadOp operand paddingValue edgePaddingLow interiorPadding =>
      Some (fun type => operand ← findTensor operand; paddingValue ← findTensor paddingValue;
            padOp operand paddingValue edgePaddingLow interiorPadding type)
  | ReducePrecisionOp operand exponentBits mantissaBits =>
      Some (fun type => operand ← findTensor operand; reducePrecisionOp operand exponentBits mantissaBits type)
  | ReverseOp operand dimensions => Some (fun type => operand ← findTensor operand; reverseOp operand dimensions type)
  | SelectOp pred onTrue onFalse =>
      Some (fun type => pred ← findTensor pred; onTrue ← findTensor onTrue; onFalse ← findTensor onFalse;
            selectOp pred onTrue onFalse type)
  | SliceOp operand startIndices strides =>
      Some (fun type => operand ← findTensor operand; sliceOp operand startIndices strides type)
  | TransposeOp operand permutation => Some (fun type => operand ← findTensor operand; transposeOp operand permutation type)
  | TriangularSolveOp a b leftSide lower unitDiagonal transposeA =>
      Some (fun type => a ← findTensor a; b ← findTensor b; triangularSolveOp a b leftSide lower unitDiagonal transposeA type)
  | _ => None
  end.

(** *** Operations that communicate *)
Definition eval_collective (op : Op) (results : list Value) : option (proc (list InterpreterValue)) :=
  match op with
  | AllGatherOp operands allGatherDim replicaGroups channelHandle useGlobalDeviceIds => Some (
      '(operands, groups, resultTypes) ← lift (operands ← findTensors operands; groups ← replica_groups replicaGroups;
        resultTypes ← shaped_types results; Ok (operands, groups, resultTypes));
      allGatherOp process operands allGatherDim groups (channel_id channelHandle) useGlobalDeviceIds resultTypes)
  | AllReduceOp operands replicaGroups channelHandle useGlobalDeviceIds computation => Some (
      '(operands, groups, resultTypes) ← lift (operands ← findTensors operands; groups ← replica_groups replicaGroups;
        resultTypes ← shaped_types results; Ok (operands, groups, resultTypes));
      allReduceOp process operands groups (channel_id channelHandle) useGlobalDeviceIds (region computation) resultTypes)
  | AllToAllOp operands splitDimension concatDimension splitCount replicaGroups channelHandle => Some (
      '(operands, groups, resultTypes) ← lift (operands ← findTensors operands; groups ← replica_groups replicaGroups;
        resultTypes ← shaped_types results; Ok (operands, groups, resultTypes));
      allToAllOp process operands splitDimension concatDimension splitCount groups (channel_id channelHandle) resultTypes)
  | CollectiveBroadcastOp operands replicaGroups channelHandle hasDynamicRoot => Some (
      '(operands, groups) ← lift (operands ← findTensors operands; groups ← replica_groups replicaGroups; Ok (operands, groups));
      collectiveBroadcastOp process operands groups (channel_id channelHandle) hasDynamicRoot)
  | CollectiveReduceOp operands replicaGroups channelHandle useGlobalDeviceIds hasDynamicRoot computation => Some (
      '(operands, groups, resultTypes) ← lift (operands ← findTensors operands; groups ← replica_groups replicaGroups;
        resultTypes ← shaped_types results; Ok (operands, groups, resultTypes));
      collectiveReduceOp process operands groups (channel_id channelHandle) useGlobalDeviceIds hasDynamicRoot
        (region computation) resultTypes)
  | CollectivePermuteOp operand sourceTargetPairs channelHandle => Some (
      operand ← lift (findTensor operand);
      one_of (collectivePermuteOp process operand
        ((fun '(source, target) => [source mod 2 ^ 32; target mod 2 ^ 32]) <$> pairs_of sourceTargetPairs)
        (channel_id channelHandle)))
  | InfeedOp token => Some (
      _ ← lift (findToken scope token);
      infeedOp process (fun name => region <$> functions name))
  | OutfeedOp inputs token => Some (
      inputs ← lift (inputs ← findTensors inputs; _ ← findToken scope token; Ok inputs);
      outfeedOp process inputs)
  | PartitionIdOp => Some (one (partitionIdOp process))
  | RecvOp token channelHandle => Some (
      _ ← lift (findToken scope token);
      recvOp process (channel_id channelHandle))
  | ReduceScatterOp operand scatterDimension replicaGroups channelHandle useGlobalDeviceIds computation => Some (
      '(operand, groups, type) ← lift (operand ← findTensor operand; groups ← replica_groups replicaGroups;
        type ← result_type results; Ok (operand, groups, type));
      one_of (reduceScatterOp process operand scatterDimension groups (channel_id channelHandle) useGlobalDeviceIds
        (region computation) type))
  | ReplicaIdOp => Some (one (replicaIdOp process))
  | SendOp inputs token channelHandle => Some (
      inputs ← lift (inputs ← findTensors inputs; _ ← findToken scope token; Ok inputs);
      sendOp process inputs (channel_id channelHandle))
  | _ => None
  end.

(** *** Operations that evaluate regions *)
Definition eval_reduce_window (inputs initValues : list Value) (windowDimensions : list Z) (window : WindowAttrs)
    (body : Block) (results : list Value) : proc (list InterpreterValue) :=
  '(inputs, initValues, (windowStrides, baseDilations, windowDilations), (paddingLow, paddingHigh), resultTypes) ← lift (
    inputs ← findTensors inputs;
    initValues ← findTensors initValues;
    input0 ← at_z inputs 0;
    let rank := getTensorRank input0 in
    windowStrides ← extractAttributeOrDefault (windowStridesAttr window) rank 1;
    baseDilations ← extractAttributeOrDefault (lhsDilationAttr window) rank 1;
    windowDilations ← extractAttributeOrDefault (rhsDilationAttr window) rank 1;
    padding ← window_padding rank window;
    resultTypes ← shaped_types results;
    Ok (inputs, initValues, (windowStrides, baseDilations, windowDilations), padding, resultTypes));
  tensors (reduceWindowOp inputs initValues windowDimensions windowStrides baseDilations windowDilations
    paddingLow paddingHigh (region body) resultTypes).

Definition eval_select_and_scatter (operand source initValue : Value) (windowDimensions : option (list Z))
    (window : WindowAttrs) (select scatter : Block) (results : list Value) : proc (list InterpreterValue) :=
  '(operand, source, initValue, (windowDimensions, windowStrides, paddingLow), type) ← lift (
    operand ← findTensor operand;
    source ← findTensor source;
    initValue ← findTensor initValue;
    let rank := getTensorRank operand in
    windowDimensions ← extractAttributeOrDefault windowDimensions rank 1;
    windowStrides ← extractAttributeOrDefault (windowStridesAttr window) rank 1;
    '(paddingLow, _) ← window_padding rank window;
    type ← result_type results;
    Ok (operand, source, initValue, (windowDimensions, windowStrides, paddingLow), type));
  one_of (selectAndScatterOp operand source initValue windowDimensions windowStrides paddingLow
    (region select) (region scatter) type).

Definition eval_scatter (inputs : list Value) (scatterIndices : Value) (updates : list Value) (dims : ScatterDims)
    (updateComputation : Block) (results : list Value) : proc (list InterpreterValue) :=
  '(inputs, scatterIndices, updates, resultTypes) ← lift (
    inputs ← findTensors inputs; scatterIndices ← findTensor scatterIndices; updates ← findTensors updates;
    resultTypes ← shaped_types results; Ok (inputs, scatterIndices, updates, resultTypes));
  tensors (scatterOp inputs scatterIndices updates (updateWindowDims dims) (insertedWindowDims dims)
    (inputBatchingDims dims) (scatterIndicesBatchingDims dims) (scatterDimsToOperandDims dims)
    (scatterIndexVectorDim dims) (region updateComputation) resultTypes).

Definition eval_region_op (op : Op) (results : list Value) : option (proc (list InterpreterValue)) :=
  match op with
  | CallOp operands callee | CompositeOp operands callee => Some (
      operands ← lift (findTensors operands); callOp operands callee)
  | CaseOp index branches => Some (index ← lift (findTensor index); caseOp index (region <$> branches))
  | IfOp pred trueBranch falseBranch => Some (
      pred ← lift (findTensor pred); ifOp pred (region trueBranch) (region falseBranch))
  | MapOp inputs computation => Some (
      '(inputs, type) ← lift (inputs ← findTensors inputs; type ← result_type results; Ok (inputs, type));
      one_of (mapOp inputs (region computation) type))
  | ReduceOp inputs initValues dimensions body => Some (
      '(inputs, initValues, resultTypes) ← lift (inputs ← findTensors inputs; initValues ← findTensors initValues;
        resultTypes ← shaped_types results; Ok (inputs, initValues, resultTypes));
      tensors (reduceOp inputs initValues dimensions (region body) resultTypes))
  | ReduceWindowOp inputs initValues windowDimensions window body =>
      Some (eval_reduce_window inputs initValues windowDimensions window body results)
  | ScatterOp inputs scatterIndices updates dims updateComputation =>
      Some (eval_scatter inputs scatterIndices updates dims updateComputation results)
  | SelectAndScatterOp operand source initValue windowDimensions window select scatter =>
      Some (eval_select_and_scatter operand source initValue windowDimensions window select scatter results)
  | SortOp inputs dimension isStable comparator => Some (
      inputs ← lift (findTensors inputs); tensors (sortOp std_sort inputs dimension isStable (region comparator)))
  | WhileOp operand cond body => Some (
      operand ← lift (find_all scope operand); whileOp fuel operand (loop_region cond) (loop_region body))
  | _ => None
  end.

(** *** Operations on tokens and tuples *)
Definition eval_other (op : Op) (results : list Value) : option (result (list InterpreterValue)) :=
  match op with
  | AfterAllOp inputs => Some (inputs ← findTokens scope inputs; Ok [afterAllOp inputs])
  | GetTupleElementOp operand index => Some (
      operand ← findTuple scope operand; v ← getTupleElementOp operand index; Ok [v])
  | OptimizationBarrierOp operand => Some (operand ← find_all scope operand; Ok (optimizationBarrierOp operand))
  | TupleOp val => Some (
      val ← find_all scope val; v ← at_z results 0; t ← tupleOp val (ssa_type v); Ok [t])
  | DecomposableOp name _ => Some (failOnDecomposableOp name)
  | _ => None
  end.

(** The results of an operation; [None] when the evaluator does not know it. *)
Definition eval_op (op : Op) (results : list Value) : option (proc (list InterpreterValue)) :=
  match eval_region_op op results with
  | Some p => Some p
  | None =>
      match eval_collective op results with
      | Some p => Some p
      | None =>
          match eval_other op results with
          | Some r => Some (lift r)
          | None =>
              match eval_tensor_op op with
              | Some f => Some (one (type ← result_type results; f type))
              | None => None
              end
          end
      end
  end.

(** [eval] accepts only shaped results of static shape. *)
Definition static_results (results : list Value) : bool :=
  forallb (fun v => match dyn_cast_shaped (ssa_type v) with Some s => hasStaticShape s | None => true end) results.

(** The scope after an operation that is no terminator. *)
Definition eval_operation (operation : Operation) : proc Scope :=
  match eval_op (op_of operation) (results_of operation) with
  | Some p => values ← p; lift (add_all scope (results_of operation) values)
  | None =>
      match fallback with
      | None => lift (Err (Fatal "Unsupported op"))
      | Some fallback => fallback operation scope process
      end
  end.
End Operation.

(** The operations of a region, up to the terminator. *)
Fixpoint eval_operations
    (eval : Block -> list InterpreterValue -> option Fallback -> option Scope -> proc (list InterpreterValue))
    (fuel : nat) (fallback : option Fallback) (operations : list Operation) (scope : Scope)
    : proc (list InterpreterValue) :=
  match operations with
  | [] => lift (Err (Fatal "Expected a terminator when evaluating a region"))
  | operation :: operations =>
      if negb (static_results (results_of operation)) then
        lift (Err (Fatal "dynamic result types are not supported at the moment"))
      else
        match op_of operation with
        | ReturnOp operands => lift (find_all scope operands)
        | _ =>
            scope ← eval_operation eval fuel fallback scope operation;
            eval_operations eval fuel fallback operations scope
        end
  end.

Fixpoint eval (fuel : nat) (region : Block) (args : list InterpreterValue) (fallback : option Fallback)
    (parent : option Scope) : proc (list InterpreterValue) :=
  match fuel with
  | O => lift (Err OutOfFuel)
  | S fuel =>
      if decide (length (arguments_of region) = length args) then
        scope ← lift (add_all (newScope parent) (arguments_of region) args);
        eval_operations (eval fuel) fuel fallback (operations_of region) scope
      else lift (Err (Fatal "Expected same number of block arguments and runtime arguments"))
  end.
End Eval.
