(* ===== verification/Approx.v ===== *)
(** * Approximation of evaluations

    [p ⊑ q]: [p] performs the same effects and gives the same results as [q],
    except that it may be cut off for lack of fuel where [q] goes on.  Every
    operation that evaluates regions is monotone in what its regions do. *)
From S2P Require Import Prelude Types Support Index Element Tensor Base TypeInference Ops Linear ProcessGrid Regions Collectives.

Fixpoint proc_le_def {A} (p q : proc A) : Prop :=
  match p with
  | Return r => r = Err OutOfFuel \/ q = Return r
  | Perform e k => exists k', q = Perform e k' /\ forall r, proc_le_def (k r) (k' r)
  end.
#[export] Instance proc_le {A} : SqSubsetEq (proc A) := proc_le_def.

#[export] Instance proc_le_preorder {A} : PreOrder (⊑@{proc A}).
Proof.
  split.
  - intros p. induction p as [r|e k IH]; [by right|]. exists k. split; [done|exact IH].
  - intros p. induction p as [r|e k IH]; intros q s Hpq Hqs.
    + destruct Hpq as [->| ->]; [by left|exact Hqs].
    + destruct Hpq as (k' & -> & Hk). destruct Hqs as (k'' & -> & Hk'). exists k''. split; [done|].
      intros r. by apply (IH r (k' r)); [apply Hk|apply Hk'].
Qed.

Lemma proc_le_fuel {A} (q : proc A) : Return (Err OutOfFuel) ⊑ q.
Proof. by left. Qed.

Lemma bind_le {A B} (p p' : proc A) (k k' : A -> proc B) :
  p ⊑ p' -> (forall a, k a ⊑ k' a) -> p ≫= k ⊑ p' ≫= k'.
Proof.
  intros Hp Hk. revert p' Hp. induction p as [r|e h IH]; intros p' Hp.
  - destruct Hp as [->| ->]; [apply proc_le_fuel|]. destruct r as [a|f]; [apply Hk|]. by right.
  - destruct Hp as (h' & -> & Hh). exists (fun r => h' r ≫= k'). split; [done|]. intros r. apply IH, Hh.
Qed.

Lemma foldM_le {A S} (f f' : A -> S -> proc S) l : (forall a s, f a s ⊑ f' a s) -> forall s, foldM f l s ⊑ foldM f' l s.
Proof. intros H. induction l as [|a l IH]; intros s; [done|]. cbn [foldM]. apply bind_le; [apply H|exact IH]. Qed.

Lemma mapM_le {A B} (f f' : A -> proc B) l : (forall a, f a ⊑ f' a) -> mapM f l ⊑ mapM f' l.
Proof.
  intros H. induction l as [|a l IH]; [done|]. cbn [mapM]. apply bind_le; [apply H|]. intros b.
  apply bind_le; [exact IH|]. done.
Qed.

Lemma for_index_le {S} shape (f f' : Index -> S -> proc S) s : (forall i s, f i s ⊑ f' i s) -> for_index shape f s ⊑ for_index shape f' s.
Proof.
  intros H. unfold for_index. generalize (Z.to_nat (prod_z shape)). intros fuel. generalize (index_begin shape), (index_end shape).
  intros it last. revert it s. induction fuel as [|fuel IH]; intros it s; cbn [for_loop]; (case_decide; [done|]).
  - done.
  - apply bind_le; [done|]. intros i. apply bind_le; [apply H|]. intros s'. apply bind_le; [done|]. intros it'. apply IH.
Qed.

Create HintDb approx discriminated.

(** A step of a monotonicity proof. *)
Ltac le_step :=
  match goal with
  | |- ?p ⊑ ?p => reflexivity
  | |- _ ≫= _ ⊑ _ ≫= _ => apply bind_le; [|intros ?]
  | |- foldM _ _ _ ⊑ foldM _ _ _ => apply foldM_le; intros ? ?
  | |- mapM _ _ ⊑ mapM _ _ => apply mapM_le; intros ?
  | |- for_index _ _ _ ⊑ for_index _ _ _ => apply for_index_le; intros ? ?
  | |- (if ?b then _ else _) ⊑ _ => destruct b
  | |- (let '_ := ?x in _) ⊑ _ => destruct x
  | |- match ?x with _ => _ end ⊑ _ => destruct x
  end.
Ltac monotone := cbv zeta beta; repeat (le_step; cbv zeta beta); try done.

(** ** Regions *)
Definition region_le (r r' : Region) : Prop :=
  signature r = signature r' /\ forall args, eval_region r args ⊑ eval_region r' args.

Section Regions.
Context `{L : LLVM}.

Lemma eval_region_le r r' args : region_le r r' -> eval_region r args ⊑ eval_region r' args.
Proof. intros [_ H]. apply H. Qed.

Lemma eval_tensor_le r r' args : region_le r r' -> eval_tensor r args ⊑ eval_tensor r' args.
Proof. intros [_ H]. unfold eval_tensor. apply bind_le; [apply H|done]. Qed.

Lemma caseOp_le index rs rs' : Forall2 region_le rs rs' -> caseOp index rs ⊑ caseOp index rs'.
Proof.
  intros H. unfold caseOp. apply bind_le; [done|]. intros v. cbv zeta. rewrite (Forall2_length _ _ _ H).
  match goal with |- context [at_z rs ?x] => generalize x; intros i end. unfold at_z. destruct (i <? 0); [by right|].
  destruct (rs !! Z.to_nat i) as [r|] eqn:E.
  - destruct (Forall2_lookup_l _ _ _ _ _ H E) as (r' & -> & Hr). cbn [ok_or]. apply (eval_region_le r r' []), Hr.
  - apply lookup_ge_None_1 in E. rewrite lookup_ge_None_2 by (by rewrite <- (Forall2_length _ _ _ H)). by right.
Qed.

Lemma ifOp_le pred t t' f f' : region_le t t' -> region_le f f' -> ifOp pred t f ⊑ ifOp pred t' f'.
Proof. intros Ht Hf. unfold ifOp. monotone; by apply eval_region_le. Qed.

Lemma whileOp_le fuel fuel' operand c c' b b' :
  (fuel <= fuel')%nat -> region_le c c' -> region_le b b' -> whileOp fuel operand c b ⊑ whileOp fuel' operand c' b'.
Proof.
  intros Hf Hc Hb. unfold whileOp. apply bind_le; [by apply eval_region_le|]. intros cs. revert fuel' Hf operand cs.
  induction fuel as [|fuel IH]; intros fuel' Hf operand cs.
  - destruct fuel'; cbn [while_loop]; (apply bind_le; [done|]); intros []; try done. apply proc_le_fuel.
  - destruct fuel' as [|fuel']; [lia|]. cbn [while_loop]. apply bind_le; [done|]. intros []; [|done].
    apply bind_le; [by apply eval_region_le|]. intros vs. apply bind_le; [by apply eval_region_le|]. intros cs'. apply IH. lia.
Qed.

Lemma mapOp_le inputs c c' type : region_le c c' -> mapOp inputs c type ⊑ mapOp inputs c' type.
Proof.
  intros Hc. assert (region_argument c = region_argument c') as E by (unfold region_argument; by destruct Hc as [-> _]).
  unfold mapOp. rewrite E. monotone. by apply eval_tensor_le.
Qed.

Lemma reduceOp_le inputs inits dims b b' types : region_le b b' -> reduceOp inputs inits dims b types ⊑ reduceOp inputs inits dims b' types.
Proof. intros Hb. unfold reduceOp. monotone. by apply eval_region_le. Qed.

Lemma inferredReduceOp_le inputs inits dims b b' : region_le b b' -> inferredReduceOp inputs inits dims b ⊑ inferredReduceOp inputs inits dims b'.
Proof. intros Hb. unfold inferredReduceOp. destruct Hb as [E Hb]. rewrite E. monotone. by apply reduceOp_le. Qed.

Lemma reduceWindowOp_le inputs inits wd ws bd wdl lo hi b b' types :
  region_le b b' -> reduceWindowOp inputs inits wd ws bd wdl lo hi b types ⊑ reduceWindowOp inputs inits wd ws bd wdl lo hi b' types.
Proof. intros Hb. unfold reduceWindowOp. monotone. by apply inferredReduceOp_le. Qed.

Lemma scatterOp_le inputs si updates a1 a2 a3 a4 a5 a6 c c' types :
  region_le c c' -> scatterOp inputs si updates a1 a2 a3 a4 a5 a6 c types ⊑ scatterOp inputs si updates a1 a2 a3 a4 a5 a6 c' types.
Proof. intros Hc. unfold scatterOp. monotone. by apply eval_region_le. Qed.

Lemma iterateThroughWindow_le {S} i operand wd ws lo (f f' : Index -> S -> proc S) s :
  (forall i s, f i s ⊑ f' i s) -> iterateThroughWindow i operand wd ws lo f s ⊑ iterateThroughWindow i operand wd ws lo f' s.
Proof. intros H. unfold iterateThroughWindow. monotone. Qed.

Lemma selectAndScatterOp_le operand source init wd ws lo s s' c c' type :
  region_le s s' -> region_le c c' -> selectAndScatterOp operand source init wd ws lo s c type ⊑ selectAndScatterOp operand source init wd ws lo s' c' type.
Proof.
  intros Hs Hc. unfold selectAndScatterOp. apply bind_le; [done|]. intros result. apply for_index_le. intros i st.
  apply bind_le.
  - apply iterateThroughWindow_le. intros j sel. monotone. by apply eval_tensor_le.
  - intros sel. apply iterateThroughWindow_le. intros j r. monotone. by apply inferredReduceOp_le.
Qed.

Lemma stable_sort_le l comp comp' : (forall x y, comp x y ⊑ comp' x y) -> stable_sort l comp ⊑ stable_sort l comp'.
Proof.
  intros H. unfold stable_sort. apply foldM_le. intros x acc. induction acc as [|y acc IH]; [done|]. cbn [insert_sorted].
  apply bind_le; [apply H|]. intros []; [done|]. by apply bind_le.
Qed.

(** A sorting routine that only calls its comparator. *)
Definition sort_monotone (std_sort : list Z -> (Z -> Z -> proc bool) -> proc (list Z)) : Prop :=
  forall l comp comp', (forall x y, comp x y ⊑ comp' x y) -> std_sort l comp ⊑ std_sort l comp'.

Lemma sortOp_le std_sort inputs dim stable c c' :
  sort_monotone std_sort -> region_le c c' -> sortOp std_sort inputs dim stable c ⊑ sortOp std_sort inputs dim stable c'.
Proof.
  intros Hsort Hc. unfold sortOp. monotone.
  all: try apply stable_sort_le; try apply Hsort; intros x y; unfold comparatorTogether; monotone; by apply eval_tensor_le.
Qed.

(** ** Collectives *)
Context (process : option Process).

Lemma combine_all_le c c' ops i type : region_le c c' -> combine_all c ops i type ⊑ combine_all c' ops i type.
Proof. intros Hc. unfold combine_all, combine. monotone. by apply eval_tensor_le. Qed.

Lemma allReduceOp_le operands groups ch ugd c c' types :
  region_le c c' -> allReduceOp process operands groups ch ugd c types ⊑ allReduceOp process operands groups ch ugd c' types.
Proof. intros Hc. unfold allReduceOp. monotone. by apply combine_all_le. Qed.

Lemma collectiveReduceOp_le operands groups ch ugd root c c' types :
  region_le c c' -> collectiveReduceOp process operands groups ch ugd root c types ⊑ collectiveReduceOp process operands groups ch ugd root c' types.
Proof. intros Hc. unfold collectiveReduceOp. monotone. by apply combine_all_le. Qed.

Lemma reduceScatterOp_le operand dim groups ch ugd c c' type :
  region_le c c' -> reduceScatterOp process operand dim groups ch ugd c type ⊑ reduceScatterOp process operand dim groups ch ugd c' type.
Proof. intros Hc. unfold reduceScatterOp. monotone. by apply allReduceOp_le. Qed.

Lemma infeedOp_le lookup lookup' :
  (forall name, option_Forall2 region_le (lookup name) (lookup' name)) -> infeedOp process lookup ⊑ infeedOp process lookup'.
Proof.
  intros H. unfold infeedOp. apply bind_le; [done|]. intros _. apply bind_le; [done|]. intros name.
  destruct (H name) as [r r' Hr|]; [|done]. cbn [ok_or]. 
  change (eval_region r [] ≫= (fun results => mret (results ++ [TokenValue])) ⊑ eval_region r' [] ≫= (fun results => mret (results ++ [TokenValue]))).
  apply bind_le; [by apply eval_region_le|done].
Qed.
End Regions.

#[export] Hint Resolve caseOp_le ifOp_le whileOp_le mapOp_le reduceOp_le reduceWindowOp_le scatterOp_le
  selectAndScatterOp_le sortOp_le allReduceOp_le collectiveReduceOp_le reduceScatterOp_le infeedOp_le : approx.
