(* ===== verification/EvalFacts.v ===== *)
(** * Evaluation: fuel, types and scopes *)
From S2P Require Import Prelude Types Support Index Element ElementFacts Tensor TensorFacts Samples Base TypeInference Ops Linear ProcessGrid Regions Collectives ReplicaGroups Scope Eval Approx.

Section EvalFacts.
Context `{L : LLVM} (functions : string -> option Block) (process : option Process).
Context (std_sort : list Z -> (Z -> Z -> proc bool) -> proc (list Z)).

Abbreviation Evaluator :=
  (Block -> list InterpreterValue -> option (Operation -> Scope -> option Process -> proc Scope) -> option Scope ->
   proc (list InterpreterValue)).

(** ** Fuel changes no result *)
Section Monotone.
Context (Hsort : sort_monotone std_sort).
Context (E E' : Evaluator) (HE : forall b args fb parent, E b args fb parent ⊑ E' b args fb parent).
Context (fuel fuel' : nat) (Hfuel : (fuel <= fuel')%nat).
Context (fallback : option (Operation -> Scope -> option Process -> proc Scope)) (scope : Scope).

Lemma region_monotone b : region_le (region E scope b) (region E' scope b).
Proof. split; [done|]. intros args. apply HE. Qed.

Lemma loop_region_monotone b : region_le (loop_region E fallback scope b) (loop_region E' fallback scope b).
Proof. split; [done|]. intros args. apply HE. Qed.

Lemma regions_monotone bs : Forall2 region_le (region E scope <$> bs) (region E' scope <$> bs).
Proof. apply Forall2_fmap_2, Forall_Forall2_diag, Forall_forall. intros b _. apply region_monotone. Qed.

Lemma one_of_le p p' : p ⊑ p' -> one_of p ⊑ one_of p'.
Proof. intros H. by apply bind_le. Qed.

Lemma tensors_le p p' : p ⊑ p' -> tensors p ⊑ tensors p'.
Proof. intros H. by apply bind_le. Qed.

Lemma symbols_monotone name : option_Forall2 region_le (region E scope <$> functions name) (region E' scope <$> functions name).
Proof. destruct (functions name); constructor. apply region_monotone. Qed.

#[local] Hint Resolve region_monotone loop_region_monotone regions_monotone symbols_monotone one_of_le tensors_le : approx.

Lemma eval_region_op_le op results : option_Forall2 (⊑)
  (eval_region_op functions std_sort E fuel fallback scope op results)
  (eval_region_op functions std_sort E' fuel' fallback scope op results).
Proof.
  destruct op; cbn [eval_region_op]; constructor; unfold callOp, eval_scatter, eval_select_and_scatter, eval_reduce_window;
    monotone; auto with approx; apply HE.
Qed.

Lemma eval_collective_le op results : option_Forall2 (⊑)
  (eval_collective functions process E scope op results) (eval_collective functions process E' scope op results).
Proof. destruct op; cbn [eval_collective]; constructor; monotone; auto with approx. Qed.

Lemma eval_op_le op results : option_Forall2 (⊑)
  (eval_op functions process std_sort E fuel fallback scope op results)
  (eval_op functions process std_sort E' fuel' fallback scope op results).
Proof.
  unfold eval_op. destruct (eval_region_op_le op results); [by constructor|].
  destruct (eval_collective_le op results); [by constructor|].
  destruct (eval_other scope op results); [by constructor|]. destruct (eval_tensor_op scope op); by constructor.
Qed.

Lemma eval_operation_le operation :
  eval_operation functions process std_sort E fuel fallback scope operation
  ⊑ eval_operation functions process std_sort E' fuel' fallback scope operation.
Proof. unfold eval_operation. destruct (eval_op_le (op_of operation) (results_of operation)); [|done]. by apply bind_le. Qed.
End Monotone.

Lemma eval_operations_le (Hsort : sort_monotone std_sort) (E E' : Evaluator) fuel fuel' fallback :
  (forall b args fb parent, E b args fb parent ⊑ E' b args fb parent) -> (fuel <= fuel')%nat ->
  forall operations scope, eval_operations functions process std_sort E fuel fallback operations scope
    ⊑ eval_operations functions process std_sort E' fuel' fallback operations scope.
Proof.
  intros HE Hf operations. induction operations as [|operation operations IH]; intros scope; [done|]. cbn [eval_operations].
  destruct (negb _); [done|].
  assert ((scope' ← eval_operation functions process std_sort E fuel fallback scope operation;
           eval_operations functions process std_sort E fuel fallback operations scope')
    ⊑ (scope' ← eval_operation functions process std_sort E' fuel' fallback scope operation;
       eval_operations functions process std_sort E' fuel' fallback operations scope')) as Hstep.
  { apply bind_le; [by apply eval_operation_le|intros scope'; apply IH]. }
  revert Hstep. generalize (scope' ← eval_operation functions process std_sort E fuel fallback scope operation;
    eval_operations functions process std_sort E fuel fallback operations scope').
  generalize (scope' ← eval_operation functions process std_sort E' fuel' fallback scope operation;
    eval_operations functions process std_sort E' fuel' fallback operations scope').
  intros p' p Hstep. by destruct (op_of operation).
Qed.

(** The fuel of [eval] is no behaviour: with more of it a region performs the same
    effects with the same results, as far as it came with less. *)
Lemma eval_le (Hsort : sort_monotone std_sort) fuel : forall fuel' b args fallback parent, (fuel <= fuel')%nat ->
  eval functions process std_sort fuel b args fallback parent ⊑ eval functions process std_sort fuel' b args fallback parent.
Proof.
  induction fuel as [|fuel IH]; intros fuel' b args fallback parent Hf; [apply proc_le_fuel|].
  destruct fuel' as [|fuel']; [lia|]. cbn [eval]. case_decide; [|done]. apply bind_le; [done|]. intros scope.
  apply eval_operations_le; [done| |lia]. intros b' args' fb' parent'. apply IH. lia.
Qed.

(** ** Values have the types of their registers *)

(** The value a computation returns if every effect it performs is answered. *)
Fixpoint may_return {A} (p : proc A) (a : A) : Prop :=
  match p with
  | Return r => r = Ok a
  | Perform e k => exists r, may_return (k r) a
  end.

Lemma may_return_bind {A B} (p : proc A) (k : A -> proc B) b :
  may_return (p ≫= k) b -> exists a, may_return p a /\ may_return (k a) b.
Proof.
  induction p as [[a|f]|e h IH]; intros H.
  - by exists a.
  - done.
  - destruct H as [r H]. destruct (IH r H) as (a & Ha & Hk). exists a. split; [by exists r|done].
Qed.

Lemma may_return_lift {A} (r : result A) a : may_return (lift r) a <-> r = Ok a.
Proof. done. Qed.

Section Typed.
Context (types : positive -> Ty) (fallback : option (Operation -> Scope -> option Process -> proc Scope)).

(** A custom evaluator that keeps the types of the registers. *)
Definition fallback_typed : Prop := forall fb operation scope scope',
  fallback = Some fb -> Forall (declared types) (results_of operation) -> scope_typed types scope ->
  may_return (fb operation scope process) scope' -> scope_typed types scope'.

Context (Hfallback : fallback_typed).

Lemma eval_operation_typed (E : Evaluator) fuel scope operation scope' :
  Forall (declared types) (results_of operation) -> scope_typed types scope ->
  may_return (eval_operation functions process std_sort E fuel fallback scope operation) scope' ->
  scope_typed types scope'.
Proof.
  intros Hd Hs H. unfold eval_operation in H. destruct (eval_op _ _ _ _ _ _ _ _) as [p|].
  - apply may_return_bind in H as (vs & _ & H). by eapply add_all_typed; [exact Hd|exact Hs|exact H].
  - destruct fallback as [fb|] eqn:Ef; [|done]. by eapply (Hfallback fb operation scope).
Qed.

(** A block either returns at its first operation or goes on after it. *)
Lemma operation_step (E : Evaluator) fuel operation operations scope vs :
  may_return (eval_operations functions process std_sort E fuel fallback (operation :: operations) scope) vs ->
  (exists operands, op_of operation = ReturnOp operands /\ find_all scope operands = Ok vs) \/
  may_return (scope ← eval_operation functions process std_sort E fuel fallback scope operation;
              eval_operations functions process std_sort E fuel fallback operations scope) vs.
Proof.
  cbn [eval_operations]. destruct (negb _); [done|].
  generalize (scope ← eval_operation functions process std_sort E fuel fallback scope operation;
              eval_operations functions process std_sort E fuel fallback operations scope).
  intros p. destruct (op_of operation); try (intros H; right; exact H).
  intros H. left. eexists. split; [reflexivity|]. by apply may_return_lift.
Qed.

Lemma eval_operations_typed (E : Evaluator) fuel operations : forall scope vs,
  Forall (fun operation => Forall (declared types) (results_of operation) /\
    forall operands, op_of operation = ReturnOp operands -> Forall (declared types) operands) operations ->
  scope_typed types scope ->
  may_return (eval_operations functions process std_sort E fuel fallback operations scope) vs ->
  exists operation operands, operation ∈ operations /\ op_of operation = ReturnOp operands /\
    value_type <$> vs = ssa_type <$> operands.
Proof.
  induction operations as [|operation operations IH]; intros scope vs Hd Hs H; [done|].
  apply Forall_cons in Hd as [[Hres Hret] Hd].
  destruct (operation_step E fuel operation operations scope vs H) as [(operands & Eop & Hf)|Hstep].
  - exists operation, operands. split; [left|]. split; [done|]. by apply (find_all_typed types scope); [|apply Hret|].
  - apply may_return_bind in Hstep as (scope' & H1 & H2). destruct (IH scope' vs Hd) as (o & ops & Ho & Hop & Hty); [|done|].
    + by eapply eval_operation_typed.
    + exists o, ops. split; [by right|done].
Qed.
End Typed.

(** C11: a region whose registers are used at their declared types, evaluated in a
    scope that holds values of those types, returns values of the types of the
    operands of one of its terminators, and was given arguments of the types of
    its block arguments. *)
Theorem eval_typed types fuel region args fallback parent vs :
  fallback_typed types fallback -> (forall p, parent = Some p -> scope_typed types p) ->
  Forall (declared types) (arguments_of region) ->
  Forall (fun operation => Forall (declared types) (results_of operation) /\
    forall operands, op_of operation = ReturnOp operands -> Forall (declared types) operands) (operations_of region) ->
  may_return (eval functions process std_sort fuel region args fallback parent) vs ->
  value_type <$> args = ssa_type <$> arguments_of region /\
  exists operation operands, operation ∈ operations_of region /\ op_of operation = ReturnOp operands /\
    value_type <$> vs = ssa_type <$> operands.
Proof.
  intros Hfb Hparent Hargs Hops H. destruct fuel as [|fuel]; [done|]. cbn [eval] in H. case_decide as Hlen; [|done].
  apply may_return_bind in H as (scope & Hadd & H). apply may_return_lift in Hadd. split.
  - exact (add_all_values _ _ _ _ Hadd).
  - eapply eval_operations_typed; [done|done| |exact H]. eapply add_all_typed; [done| |exact Hadd]. by apply newScope_typed.
Qed.
End EvalFacts.

(** ** Witnesses: double a number, and while it is less than 100, double it again *)
Section Witnesses.
Import Concrete.

Definition reg (id : positive) : Value := MkValue id (shaped_type (shaped [] ui8)).
Definition flag (id : positive) : Value := MkValue id (shaped_type (shaped [] i1)).

Definition double_block : Block := MkBlock [reg 1]
  [MkOperation (BinaryOp AddOp (reg 1) (reg 1)) [reg 2]; MkOperation (ReturnOp [reg 2]) []].

Definition small_block : Block := MkBlock [reg 3]
  [MkOperation (ConstantOp (MkAttr (shaped [] ui8) [VInt (apint 8 100)])) [reg 4];
   MkOperation (CompareOp (reg 3) (reg 4) LT) [flag 5]; MkOperation (ReturnOp [flag 5]) []].

Definition main_block : Block := MkBlock [reg 6]
  [MkOperation (WhileOp [reg 6] small_block double_block) [reg 7]; MkOperation (ReturnOp [reg 7]) []].

Definition run_main (fuel : nat) (z : Z) : proc (list InterpreterValue) :=
  eval (fun _ => None) None stable_sort fuel main_block [TensorValue (scalar z)] None None.

Definition sample_types (id : positive) : Ty := shaped_type (shaped [] ui8).

Lemma eval_typed_witness :
  value_type <$> [TensorValue (scalar 192)] = [shaped_type (shaped [] ui8)] /\
  may_return (run_main 10 3) [TensorValue (scalar 192)].
Proof.
  assert (may_return (run_main 10 3) [TensorValue (scalar 192)]) as H by (vm_compute; reflexivity).
  destruct (eval_typed (fun _ => None) None stable_sort sample_types 10 main_block [TensorValue (scalar 3)] None None
    [TensorValue (scalar 192)]) as [_ (operation & operands & Hin & Hop & Hty)].
  - intros fb operation scope scope' Hfb. discriminate Hfb.
  - intros p Hp. discriminate Hp.
  - repeat constructor.
  - repeat constructor; intros operands Hop; try discriminate Hop. injection Hop as <-. repeat constructor.
  - exact H.
  - split; [|exact H]. rewrite Hty. apply list_elem_of_In in Hin.
    destruct Hin as [<-|[<-|[]]]; [discriminate Hop|]. injection Hop as <-. reflexivity.
Defined.
End Witnesses.
