(* ===== verification/SsaFacts.v ===== *)
(** * Registers are defined before they are used

    The dominance condition that MLIR's verifier enforces on programs, and what
    it gives: the scopes of [eval] hold every register that is read, and no
    register twice. *)
From S2P Require Import Prelude Types Support Index Element ElementFacts Tensor TensorFacts Samples Base TypeInference Ops Linear ProcessGrid Regions Collectives ReplicaGroups Scope Eval Approx EvalFacts.

Section Ssa.
Context `{L : LLVM}.

(** ** The operands and the regions of an operation *)
Definition operands_of (op : Op) : list Value :=
  match op with
  | UnaryOp _ x | BroadcastInDimOp x _ | CollectivePermuteOp x _ _ | DynamicIotaOp x _ | FftOp x _ _
  | GetDimensionSizeOp x _ | GetTupleElementOp x _ | InfeedOp x | RecvOp x _ | ReducePrecisionOp x _ _
  | ReduceScatterOp x _ _ _ _ _ | ReverseOp x _ | SliceOp x _ _ | TransposeOp x _ | CaseOp x _ | IfOp x _ _ => [x]
  | BinaryOp _ x y | CompareOp x y _ | ConvolutionOp x y _ _ _ _ | DotGeneralOp x y _ _ _ _
  | DynamicBroadcastInDimOp x y _ | DynamicReshapeOp x y | GatherOp x y _ _ _ | PadOp x y _ _
  | TriangularSolveOp x y _ _ _ _ => [x; y]
  | ClampOp x y z | DynamicConvOp x y z _ _ _ _ | DynamicGatherOp x y z _ _ | SelectOp x y z
  | SelectAndScatterOp x y z _ _ _ _ => [x; y; z]
  | DynamicPadOp a b c d e => [a; b; c; d; e]
  | AfterAllOp xs | AllGatherOp xs _ _ _ _ | AllReduceOp xs _ _ _ _ | AllToAllOp xs _ _ _ _ _ | CallOp xs _
  | CollectiveBroadcastOp xs _ _ _ | CollectiveReduceOp xs _ _ _ _ _ | CompositeOp xs _ | ConcatenateOp xs _
  | MapOp xs _ | OptimizationBarrierOp xs | ReturnOp xs | SortOp xs _ _ _ | TupleOp xs | WhileOp xs _ _
  | DecomposableOp _ xs | OtherOp _ xs => xs
  | DynamicSliceOp x xs _ => x :: xs
  | DynamicUpdateSliceOp x y xs => x :: y :: xs
  | OutfeedOp xs x | SendOp xs x _ => xs ++ [x]
  | ReduceOp xs ys _ _ | ReduceWindowOp xs ys _ _ _ => xs ++ ys
  | ScatterOp xs y zs _ _ => xs ++ y :: zs
  | ConstantOp _ | IotaOp _ | PartitionIdOp | ReplicaIdOp => []
  end.

Definition blocks_of (op : Op) : list Block :=
  match op with
  | AllReduceOp _ _ _ _ b | CollectiveReduceOp _ _ _ _ _ b | MapOp _ b | ReduceOp _ _ _ b | ReduceScatterOp _ _ _ _ _ b
  | ReduceWindowOp _ _ _ _ b | ScatterOp _ _ _ _ b | SortOp _ _ _ b => [b]
  | IfOp _ a b | SelectAndScatterOp _ _ _ _ _ a b | WhileOp _ a b => [a; b]
  | CaseOp _ bs => bs
  | _ => []
  end.

Definition ids (xs : list Value) : list positive := value_id <$> xs.

(** ** Dominance: [visible] registers may be read; [own] ones are defined in this block *)
Inductive ssa_block : gset positive -> Block -> Prop :=
| ssa_block_intro visible arguments operations :
    NoDup (ids arguments) ->
    ssa_operations (visible ∪ list_to_set (ids arguments)) (list_to_set (ids arguments)) operations ->
    ssa_block visible (MkBlock arguments operations)
with ssa_operations : gset positive -> gset positive -> list Operation -> Prop :=
| ssa_nil visible own : ssa_operations visible own []
| ssa_cons visible own op results operations :
    (forall x, x ∈ operands_of op -> value_id x ∈ visible) ->
    (forall b, b ∈ blocks_of op -> ssa_block visible b) ->
    NoDup (ids results) -> (forall x, x ∈ results -> value_id x ∉ own) ->
    ssa_operations (visible ∪ list_to_set (ids results)) (own ∪ list_to_set (ids results)) operations ->
    ssa_operations visible own (MkOperation op results :: operations).

(** ** Scopes *)
Lemma add_visible scope x v scope' : add scope x v = Ok scope' ->
  visible scope' = visible scope ∪ {[value_id x]} /\
  dom (stack_frame_ scope') = dom (stack_frame_ scope) ∪ {[value_id x]}.
Proof.
  unfold add. destruct (_ !! _); [done|]. case_decide; [|done]. intros [= <-]. destruct scope as [frame parent].
  cbn [visible stack_frame_ parent_]. rewrite dom_insert_L. split; set_solver.
Qed.

Lemma add_all_visible scope xs vs scope' : add_all scope xs vs = Ok scope' ->
  visible scope' = visible scope ∪ list_to_set (ids xs) /\
  dom (stack_frame_ scope') = dom (stack_frame_ scope) ∪ list_to_set (ids xs).
Proof.
  unfold add_all. case_decide as Hlen; [|done]. revert vs scope Hlen.
  induction xs as [|x xs IH]; intros [|v vs] scope Hlen H; try done.
  - injection H as <-. cbn. split; set_solver.
  - cbn [zip zip_with foldM] in H. apply bind_ok in H as (scope1 & H1 & H). apply add_visible in H1 as [V1 D1].
    apply IH in H as [V D]; [|by injection Hlen]. unfold ids in *. rewrite fmap_cons, list_to_set_cons.
    rewrite V, V1, D, D1. split; set_solver.
Qed.

Context (functions : string -> option Block) (process : option Process).
Context (std_sort : list Z -> (Z -> Z -> proc bool) -> proc (list Z)).
Context (E : Block -> list InterpreterValue -> option (Operation -> Scope -> option Process -> proc Scope) -> option Scope ->
   proc (list InterpreterValue)).
Context (fuel : nat) (fallback : option (Operation -> Scope -> option Process -> proc Scope)).

(** A custom evaluator that adds the results of its operation to the scope. *)
Definition fallback_adds : Prop := forall fb operation scope scope',
  fallback = Some fb -> may_return (fb operation scope process) scope' ->
  visible scope' = visible scope ∪ list_to_set (ids (results_of operation)) /\
  dom (stack_frame_ scope') = dom (stack_frame_ scope) ∪ list_to_set (ids (results_of operation)).

(** From some operations and a scope, the evaluation comes to others. *)
Inductive reaches : list Operation -> Scope -> list Operation -> Scope -> Prop :=
| reaches_here operations scope : reaches operations scope operations scope
| reaches_next operation operations scope scope' operations'' scope'' :
    may_return (eval_operation functions process std_sort E fuel fallback scope operation) scope' ->
    reaches operations scope' operations'' scope'' ->
    reaches (operation :: operations) scope operations'' scope''.

Lemma reaches_ssa (Hfb : fallback_adds) operations scope operations' scope' :
  reaches operations scope operations' scope' ->
  ssa_operations (visible scope) (dom (stack_frame_ scope)) operations ->
  ssa_operations (visible scope') (dom (stack_frame_ scope')) operations'.
Proof.
  induction 1 as [|operation operations scope scope' operations'' scope'' H Hr IH]; intros Hssa; [done|]. apply IH.
  inversion Hssa as [|? ? op results ops Hops Hbs Hnd Hown Hrest]; subst.
  assert (visible scope' = visible scope ∪ list_to_set (ids results) /\
    dom (stack_frame_ scope') = dom (stack_frame_ scope) ∪ list_to_set (ids results)) as [-> ->]; [|done].
  unfold eval_operation in H. cbn [op_of results_of] in H. destruct (eval_op _ _ _ _ _ _ _ _) as [p|].
  - apply may_return_bind in H as (vs & _ & H). eapply add_all_visible. exact H.
  - destruct fallback as [fb|] eqn:Ef; [|done]. by apply (Hfb fb (MkOperation op results)).
Qed.

(** C12: in a region that satisfies dominance relative to what its parent's scope
    holds, every operation that the evaluation comes to finds its operands in
    the scope, its results are new to the scope's frame, and its regions
    satisfy dominance relative to the scope they will be evaluated in: neither
    an unknown nor a duplicate register is ever an error. *)
Theorem registers_defined_before_use region args parent scope0 operation rest scope :
  fallback_adds -> ssa_block (match parent with Some p => visible p | None => ∅ end) region ->
  add_all (newScope parent) (arguments_of region) args = Ok scope0 ->
  reaches (operations_of region) scope0 (operation :: rest) scope ->
  (forall x, x ∈ operands_of (op_of operation) -> exists v, find scope x = Ok v) /\
  NoDup (ids (results_of operation)) /\
  (forall x, x ∈ results_of operation -> stack_frame_ scope !! value_id x = None) /\
  (forall b, b ∈ blocks_of (op_of operation) -> ssa_block (visible scope) b).
Proof.
  intros Hfb Hb Hadd Hr. inversion Hb as [? arguments operations Hnd Hops]; subst. cbn [arguments_of operations_of] in *.
  apply add_all_visible in Hadd as [V D]. apply reaches_ssa in Hr; [|done|].
  - inversion Hr as [|? ? op results ops Ho Hbs Hnd' Hown Hrest]; subst. cbn [op_of results_of]. split_and!; [|done| |done].
    + intros x Hx. by apply find_visible, Ho.
    + intros x Hx. by apply not_elem_of_dom, Hown.
  - rewrite V, D. unfold newScope. cbn [visible stack_frame_].
    rewrite dom_empty_L, !(left_id_L ∅ (∪)). by destruct parent.
Qed.
End Ssa.

(** ** Witness: the return of a region that doubles a number *)
Section Witnesses.
Import Concrete.

Lemma double_block_ssa visible : 1%positive ∉ visible -> 2%positive ∉ visible -> ssa_block visible double_block.
Proof.
  intros H1 H2. constructor; [apply NoDup_singleton|]. constructor.
  - intros x [->|[->|Hx%elem_of_nil]%elem_of_cons]%elem_of_cons; [set_solver..|done].
  - by intros b Hb%elem_of_nil.
  - apply NoDup_singleton.
  - intros x ->%list_elem_of_singleton. set_solver.
  - constructor; [|by intros b Hb%elem_of_nil|apply NoDup_nil_2|by intros x Hx%elem_of_nil|constructor].
    intros x ->%list_elem_of_singleton. set_solver.
Qed.

Lemma registers_defined_before_use_witness :
  exists scope v, reaches (fun _ => None) None stable_sort (fun _ _ _ _ => Return (Err OutOfFuel)) 1 None
      (operations_of double_block) (MkScope {[1%positive := TensorValue (scalar 3)]} None)
      [MkOperation (ReturnOp [reg 2]) []] scope /\ find scope (reg 2) = Ok v.
Proof.
  set (scope := MkScope (<[2%positive := TensorValue (scalar 6)]> {[1%positive := TensorValue (scalar 3)]}) None).
  assert (reaches (fun _ => None) None stable_sort (fun _ _ _ _ => Return (Err OutOfFuel)) 1 None
      (operations_of double_block) (MkScope {[1%positive := TensorValue (scalar 3)]} None)
      [MkOperation (ReturnOp [reg 2]) []] scope) as Hr.
  { eapply reaches_next; [|apply reaches_here]. vm_compute. reflexivity. }
  exists scope. destruct (registers_defined_before_use (fun _ => None) None stable_sort (fun _ _ _ _ => Return (Err OutOfFuel)) 1 None
    double_block [TensorValue (scalar 3)] None (MkScope {[1%positive := TensorValue (scalar 3)]} None)
    (MkOperation (ReturnOp [reg 2]) []) [] scope) as (H & _).
  - intros fb operation s s' Hfb. discriminate Hfb.
  - apply double_block_ssa; apply not_elem_of_empty.
  - reflexivity.
  - exact Hr.
  - destruct (H (reg 2)) as [v Hv]; [left|]. exists v. split; [exact Hr|exact Hv].
Defined.
End Witnesses.
