(* ===== verification/Folder.v ===== *)
(** * The constant folder

    The patterns of [src/stablehlo/transforms/optimization/StablehloAggressiveFolder.cpp]
    that replace an operation by a constant.  A pattern is a function from the
    operation and the attributes of the constants among its operands to the
    attribute of the constant that replaces it; [Failed] is a pattern that does
    not match, every other fault a crash of the compiler.

    MLIR's part is an interface: [CommonFolders] and [IndexingUtils] name the
    helpers of its headers of those names, with their documented behaviour. *)
From S2P Require Import Prelude Types Support Index Element Tensor Base TypeInference Ops Eval.

Record Options := MkOptions {
  assumeNoUndeclaredSideEffects : bool; foldOpElementLimit : Z; optimizeFloat : bool;
}.

Inductive ComparisonType := NOTYPE | FLOAT | TOTALORDER | SIGNED | UNSIGNED.
#[export] Instance ComparisonType_eq_dec : EqDecision ComparisonType.
Proof. solve_decision. Defined.

(** The attributes of an operation that the patterns read and the evaluator does not. *)
Record OpAttrs := MkOpAttrs {
  compare_type : option ComparisonType; limit_indices : list Z; edge_padding_high : list Z;
}.

(** ** MLIR's attributes and folding helpers *)
Class CommonFolders {L : LLVM} := {
  (** the value of a splat; an attribute that is no splat has none *)
  getSplatValue : DenseElementsAttr -> option Value_;
  (** element by element, [calculate] on attributes *)
  constFoldUnaryOp : (Value_ -> result Value_) -> DenseElementsAttr -> result DenseElementsAttr;
  constFoldBinaryOp : (Value_ -> Value_ -> result Value_) ->
    DenseElementsAttr -> DenseElementsAttr -> ShapedType -> result DenseElementsAttr;
  constFoldCastOp : (Value_ -> result Value_) -> DenseElementsAttr -> ShapedType -> result DenseElementsAttr;
}.

Class CommonFoldersLaws {L : LLVM} (C : CommonFolders) : Prop := {
  splat_values a v : getSplatValue a = Some v -> Forall (eq v) (attr_values a);
  splat_typed a v : getSplatValue a = Some v -> attr_values a = [] -> element_ok (MkElement (getElementType (attr_type a)) v);
  unary_sound f a a' : constFoldUnaryOp f a = Ok a' ->
    attr_type a' = attr_type a /\ Forall2 (fun x y => f x = Ok y) (attr_values a) (attr_values a');
  unary_folds f a : Forall (fun x => exists y, f x = Ok y) (attr_values a) -> exists a', constFoldUnaryOp f a = Ok a';
  binary_sound f l r type a : constFoldBinaryOp f l r type = Ok a ->
    attr_type l = attr_type r -> getShape type = getShape (attr_type l) ->
    attr_type a = type /\ Forall3 (fun x y z => f x y = Ok z) (attr_values l) (attr_values r) (attr_values a);
  binary_folds f l r type : attr_type l = attr_type r -> getShape type = getShape (attr_type l) ->
    Forall2 (fun x y => exists z, f x y = Ok z) (attr_values l) (attr_values r) ->
    exists a, constFoldBinaryOp f l r type = Ok a;
  cast_sound f a type a' : constFoldCastOp f a type = Ok a' -> getShape type = getShape (attr_type a) ->
    attr_type a' = type /\ Forall2 (fun x y => f x = Ok y) (attr_values a) (attr_values a');
  (** they fail where [calculate] does, and on attributes they do not fold *)
  unary_fails f a e : constFoldUnaryOp f a = Err e ->
    (exists msg, e = Failed msg) \/ exists x, x ∈ attr_values a /\ f x = Err e;
  binary_fails f l r type e : constFoldBinaryOp f l r type = Err e ->
    (exists msg, e = Failed msg) \/ exists x y, (x, y) ∈ zip (attr_values l) (attr_values r) /\ f x y = Err e;
  cast_fails f a type e : constFoldCastOp f a type = Err e ->
    (exists msg, e = Failed msg) \/ exists x, x ∈ attr_values a /\ f x = Err e;
}.

Class IndexingUtils := {
  computeStrides : list Z -> list Z;
  linearize : list Z -> list Z -> Z;
  delinearize : Z -> list Z -> list Z;
  invertPermutationVector : list Z -> list Z;
  applyPermutation : list Z -> list Z -> list Z;
}.

Class IndexingUtilsLaws (I : IndexingUtils) : Prop := {
  length_computeStrides sizes : length (computeStrides sizes) = length sizes;
  computeStrides_lookup sizes (k : nat) : (k < length sizes)%nat ->
    computeStrides sizes !! k = Some (prod_z (drop (S k) sizes));
  linearize_spec offsets basis : length offsets = length basis ->
    linearize offsets basis = foldr Z.add 0 (zip_with Z.mul offsets basis);
  delinearize_linearize sizes index : in_bounds index sizes ->
    delinearize (linearize index (computeStrides sizes)) (computeStrides sizes) = index;
  length_invert permutation : length (invertPermutationVector permutation) = length permutation;
  invert_lookup permutation (k : nat) (j : Z) :
    NoDup permutation -> Forall (fun j => 0 <= j < Z.of_nat (length permutation)) permutation ->
    permutation !! k = Some j -> invertPermutationVector permutation !! Z.to_nat j = Some (Z.of_nat k);
  length_apply input permutation : length (applyPermutation input permutation) = length permutation;
  apply_lookup input permutation (k : nat) (j : Z) :
    Forall (fun j => 0 <= j < Z.of_nat (length input)) permutation ->
    permutation !! k = Some j -> applyPermutation input permutation !! k = input !! Z.to_nat j;
}.

Section Folder.
Context {L : LLVM} {C : CommonFolders} {I : IndexingUtils}.

(** MLIR keeps the elements of an integer attribute as [APInt]s, booleans too. *)
Definition attr_apint (v : Value_) : result APInt :=
  match v with
  | VInt x => Ok x
  | VBool b => Ok (apint 1 (Z.b2z b))
  | _ => Err (UB "cast<IntegerAttr>")
  end.
Definition attr_apfloat (v : Value_) : result APFloat :=
  match v with VFloat f => Ok f | _ => Err (UB "cast<FloatAttr>") end.
Definition int_value (elementType : Ty) (x : APInt) : Value_ :=
  if isSupportedBooleanType elementType then VBool (negb (isZero x)) else VInt x.

(** A splat of a type. *)
Definition splat (type : ShapedType) (v : Value_) : DenseElementsAttr :=
  MkAttr type (replicate (Z.to_nat (getNumElements type)) v).

(** ** Checks that the patterns share *)
Context (options : Options).

Definition validateStaticShapeResult (resultType : ShapedType) : result () :=
  ensure (hasStaticShape resultType) "unable to fold dynamically shaped result type to constant".

(** The limit is an [int64_t] compared as a [size_t]. *)
Definition validateElementCountForFold (resultType : ShapedType) : result () :=
  ensure (getNumElements resultType <=? foldOpElementLimit options mod 2 ^ 64) "too many elements".

Definition validateShapeFoldDtype (resultType : ShapedType) (allowComplex : bool) : result () :=
  let t := getElementType resultType in
  ensure (isa_IntegerType t ||
          optimizeFloat options && (isa_FloatType t || allowComplex && isa_ComplexType t))
    "skipping fold of shape op dtype".

Definition isInteger1 (t : Ty) : bool := match t with IntegerType _ w => w =? 1 | _ => false end.
Definition isa_Unsigned (t : Ty) : bool := match t with IntegerType Unsigned _ => true | _ => false end.

(** ** Elementwise operations *)
Definition foldBinaryOpIntOrFloat (resultType : ShapedType) (lhs rhs : DenseElementsAttr)
    (foldInt : APInt -> APInt -> result APInt) (foldFloat : APFloat -> APFloat -> result Value_)
    : result DenseElementsAttr :=
  let elemTy := getElementType (attr_type lhs) in
  if isa_IntegerType elemTy then
    constFoldBinaryOp (fun x y =>
      a ← attr_apint x; b ← attr_apint y; r ← foldInt a b; Ok (int_value (getElementType resultType) r)) lhs rhs resultType
  else if isa_FloatType elemTy then
    constFoldBinaryOp (fun x y => a ← attr_apfloat x; b ← attr_apfloat y; foldFloat a b) lhs rhs resultType
  else Err (Failed "folding failed").

Definition no_float (lhs rhs : APFloat) : result Value_ := Err (Failed "nullopt").

(** [APInt]'s division has no result for a divisor of zero. *)
Definition divides (op : APInt -> APInt -> APInt) (lhs rhs : APInt) : result APInt :=
  if isZero rhs then Err (UB "division by zero") else Ok (op lhs rhs).

Definition FoldMax (isUnsignedInt : bool) (lhs rhs : APInt) : APInt :=
  if isUnsignedInt then umax lhs rhs else smax lhs rhs.
Definition FoldMin (isUnsignedInt : bool) (lhs rhs : APInt) : APInt :=
  if isUnsignedInt then umin lhs rhs else smin lhs rhs.

Definition logical (op : bool -> bool -> bool) (lhs rhs : APInt) : APInt :=
  apint (Support.getBitWidth lhs) (Z.b2z (op (negb (isZero lhs)) (negb (isZero rhs)))).

Definition integerDivisorHasZeroElement (rhs : DenseElementsAttr) : bool :=
  isa_IntegerType (getElementType (attr_type rhs)) &&
  existsb (fun v => match attr_apint v with Ok x => isZero x | Err _ => false end) (attr_values rhs).

(** The patterns of and, or and xor. *)
Definition fold_bits (bitwise : APInt -> APInt -> APInt) (op : bool -> bool -> bool) (resultType : ShapedType)
    (lhs rhs : DenseElementsAttr) : result DenseElementsAttr :=
  let t := getElementType resultType in
  if isInteger1 t then foldBinaryOpIntOrFloat resultType lhs rhs (fun a b => Ok (logical op a b)) no_float
  else if isa_IntegerType t then foldBinaryOpIntOrFloat resultType lhs rhs (fun a b => Ok (bitwise a b)) no_float
  else Err (Failed "Expected integral element type.").

(** The patterns of div and rem. *)
Definition fold_division (signed unsigned : APInt -> APInt -> APInt) (foldFloat : APFloat -> APFloat -> result Value_)
    (resultType : ShapedType) (lhs rhs : DenseElementsAttr) : result DenseElementsAttr :=
  let t := getElementType resultType in
  _ ← validateShapeFoldDtype resultType false;
  _ ← ensure (negb (isa_IntegerType t && integerDivisorHasZeroElement rhs)) "integer division by zero";
  foldBinaryOpIntOrFloat resultType lhs rhs (divides (if isa_Unsigned t then unsigned else signed)) foldFloat.

Definition fold_binary (kind : BinaryKind) (resultType : ShapedType) (lhs rhs : DenseElementsAttr)
    : result DenseElementsAttr :=
  let t := getElementType resultType in
  let isUnsignedIntOrBool := isa_Unsigned t || isInteger1 t in
  let shape_op foldInt foldFloat :=
    _ ← validateShapeFoldDtype resultType false;
    foldBinaryOpIntOrFloat resultType lhs rhs (fun a b => Ok (foldInt a b)) (fun a b => Ok (VFloat (foldFloat a b))) in
  match kind with
  | AddOp => shape_op apint_add apfloat_add
  | AndOp => fold_bits apint_and andb resultType lhs rhs
  | DivOp => fold_division sdiv udiv (fun a b => Ok (VFloat (apfloat_div a b))) resultType lhs rhs
  | MaxOp => shape_op (FoldMax isUnsignedIntOrBool) maximum
  | MinOp => shape_op (FoldMin isUnsignedIntOrBool) minimum
  | MulOp => shape_op apint_mul apfloat_mul
  | OrOp => fold_bits apint_or orb resultType lhs rhs
  | RemOp => fold_division srem urem (fun a b =>
      if bool_decide (getSemantics a = getSemantics b) then Ok (VFloat (apfloat_mod a b))
      else Err (Failed "nullopt")) resultType lhs rhs
  | SubtractOp => shape_op apint_sub apfloat_sub
  | XorOp => fold_bits apint_xor xorb resultType lhs rhs
  | _ => Err (Failed "no pattern")
  end.

Definition getComparisonType (compareType : option ComparisonType) (elementType : Ty) : ComparisonType :=
  let inferred :=
    match elementType with
    | IntegerType Unsigned _ => UNSIGNED
    | IntegerType Signless w => if w =? 1 then UNSIGNED else SIGNED
    | FloatType _ | ComplexType _ => FLOAT
    | _ => NOTYPE
    end in
  match compareType with
  | None | Some NOTYPE => inferred
  | Some kind => kind
  end.

Definition compare_float (direction : ComparisonDirection) (lhs rhs : APFloat) : bool :=
  match direction with
  | EQ => apfloat_eq lhs rhs
  | NE => negb (apfloat_eq lhs rhs)
  | GE => apfloat_gt lhs rhs || apfloat_eq lhs rhs
  | GT => apfloat_gt lhs rhs
  | LE => apfloat_lt lhs rhs || apfloat_eq lhs rhs
  | LT => apfloat_lt lhs rhs
  end.

(** [sge] is "not less", [sle] "not greater". *)
Definition compare_int (direction : ComparisonDirection) (signed : bool) (lhs rhs : APInt) : bool :=
  let lt := if signed then slt else ult in
  let gt := if signed then sgt else ugt in
  match direction with
  | EQ => apint_eq lhs rhs
  | NE => negb (apint_eq lhs rhs)
  | GE => negb (lt lhs rhs)
  | GT => gt lhs rhs
  | LE => negb (gt lhs rhs)
  | LT => lt lhs rhs
  end.

Definition fold_compare (direction : ComparisonDirection) (compareType : option ComparisonType)
    (resultType : ShapedType) (lhs rhs : DenseElementsAttr) : result DenseElementsAttr :=
  _ ← validateShapeFoldDtype resultType false;
  let kind := getComparisonType compareType (getElementType (attr_type lhs)) in
  _ ← ensure (bool_decide (kind <> NOTYPE)) "Could not determine comparison type.";
  foldBinaryOpIntOrFloat resultType lhs rhs
    (fun a b =>
       if bool_decide (kind <> UNSIGNED /\ kind <> SIGNED) then Err (Fatal "invalid integer comparison")
       else Ok (apint 1 (Z.b2z (compare_int direction (bool_decide (kind = SIGNED)) a b))))
    (fun a b =>
       if bool_decide (kind <> FLOAT /\ kind <> TOTALORDER) then Err (Fatal "invalid float comparison")
       else Ok (int_value (getElementType resultType) (apint 1 (Z.b2z (compare_float direction a b))))).

Definition fold_clamp (resultType : ShapedType) (minAttr operandAttr maxAttr : DenseElementsAttr)
    : result DenseElementsAttr :=
  _ ← validateShapeFoldDtype resultType false;
  let isUnsignedInt := isa_Unsigned (getElementType resultType) in
  res ← foldBinaryOpIntOrFloat resultType minAttr operandAttr
    (fun a b => Ok (FoldMax isUnsignedInt a b)) (fun a b => Ok (VFloat (maximum a b)));
  foldBinaryOpIntOrFloat resultType maxAttr res
    (fun a b => Ok (FoldMin isUnsignedInt a b)) (fun a b => Ok (VFloat (minimum a b))).

(** *** Unary operations *)

(** A folder that computes in double precision: only floats reach it, since the
    operations that have one take no integers. *)
Definition FoldAsDouble (evaluateOp : double -> result double) (operand : APFloat) : result Value_ :=
  let operandValue := convertToDouble (apfloat_convert Float64 operand) in
  r ← evaluateOp operandValue;
  Ok (VFloat (apfloat_convert (getSemantics operand) (apfloat_of_double r))).

Definition positive_only (bad : double -> bool) (f : double -> double) (operand : double) : result double :=
  if bad operand then Err (Failed "nullopt") else Ok (f operand).

Definition no_int (isSigned : bool) (operand : APInt) : result APInt := Err (Failed "nullopt").

Definition fold_sign_int (isSigned : bool) (operand : APInt) : result APInt :=
  if negb isSigned then Err (Failed "nullopt")
  else Ok (apint (Support.getBitWidth operand) (if isNegative operand then -1 else if isZero operand then 0 else 1)).

Definition fold_sign_float (operand : APFloat) : result Value_ :=
  if isNaN operand then Err (Failed "nullopt")
  else if apfloat_isZero operand then Ok (VFloat (getZero (getSemantics operand)))
  else Ok (VFloat (getOne (getSemantics operand) (apfloat_isNegative operand))).

(** [EvaluateOp] of each pattern, on integers and on floats. *)
Definition evaluate_unary (kind : UnaryKind)
    : option ((bool -> APInt -> result APInt) * (APFloat -> result Value_)) :=
  let as_double f := Some (no_int, FoldAsDouble f) in
  let float_op (f : APFloat -> APFloat) := Some (no_int, fun operand => Ok (VFloat (f operand))) in
  match kind with
  | AbsOp => Some (fun _ operand => Ok (apint_abs operand), fun operand => Ok (VFloat (apfloat_abs operand)))
  | CosineOp => as_double (fun x => Ok (std1 std_cos x))
  | ExpOp => as_double (fun x => Ok (std1 std_exp x))
  | LogOp => as_double (positive_only (fun x => double_le x (dlit 0)) (std1 std_log))
  | LogisticOp => as_double (fun x =>
      Ok (double_op DDiv (dlit 1) (double_op DAdd (dlit 1) (std1 std_exp (double_neg x)))))
  | NegOp => Some (fun _ operand => Ok (apint_neg operand), fun operand => Ok (VFloat (apfloat_neg operand)))
  | NotOp => Some (fun _ operand => Ok (apint_not operand), fun _ => Err (Failed "nullopt"))
  | RoundOp => float_op (roundToIntegral NearestTiesToAway)
  | RoundNearestEvenOp => float_op (roundToIntegral NearestTiesToEven)
  | RsqrtOp => as_double (positive_only (fun x => double_le x (dlit 0)) (fun x => double_op DDiv (dlit 1) (std1 std_sqrt x)))
  | SignOp => Some (fold_sign_int, fold_sign_float)
  | SineOp => as_double (fun x => Ok (std1 std_sin x))
  | SqrtOp => as_double (positive_only (fun x => double_lt x (dlit 0)) (std1 std_sqrt))
  | TanOp => as_double (fun x => Ok (std1 std_tan x))
  | TanhOp => as_double (fun x => Ok (std1 std_tanh x))
  | _ => None
  end.

Definition fold_unary (kind : UnaryKind) (resultType : ShapedType) (operand : DenseElementsAttr)
    : result DenseElementsAttr :=
  '(evaluateInt, evaluateFloat) ← ok_or (evaluate_unary kind) (Failed "no pattern");
  let elementType := getElementType resultType in
  let isSignedInt := negb (isa_Unsigned elementType) in
  if negb (isa_IntegerType elementType || isa_FloatType elementType) then Err (Failed "failure")
  else
    let elemTy := getElementType (attr_type operand) in
    if isa_IntegerType elemTy then
      constFoldUnaryOp (fun x => a ← attr_apint x; r ← evaluateInt isSignedInt a; Ok (int_value elemTy r)) operand
    else if isa_FloatType elemTy then constFoldUnaryOp (fun x => a ← attr_apfloat x; evaluateFloat a) operand
    else Err (Failed "folding failed").

(** *** Conversions *)
Definition isBooleanOrUnsigned (t : Ty) : bool := isSignlessInteger t 1 || isa_Unsigned t.

Definition foldConvert (elements : DenseElementsAttr) (resultType : ShapedType) : result DenseElementsAttr :=
  let oldType := getElementType (attr_type elements) in
  let newType := getElementType resultType in
  newBitWidth ← getIntOrFloatBitWidth newType;
  let isOldTypeUnsigned := isBooleanOrUnsigned oldType in
  let isNewTypeUnsigned := isBooleanOrUnsigned newType in
  let isNewTypeBoolean := isSignlessInteger newType 1 in
  let to_bool (zero : bool) := Ok (int_value newType (sextOrTrunc (apint 1 (if zero then 0 else 1)) newBitWidth)) in
  let from_float (f : APFloat -> result Value_) :=
    constFoldCastOp (fun x => a ← attr_apfloat x; f a) elements resultType in
  let from_int (f : APInt -> result Value_) :=
    constFoldCastOp (fun x => a ← attr_apint x; f a) elements resultType in
  if isa_FloatType oldType then
    match newType with
    | FloatType targetSemantics =>
        from_float (fun operand =>
          if apfloat_convert_valid targetSemantics operand then Ok (VFloat (apfloat_convert targetSemantics operand))
          else Err (Failed "castStatus"))
    | _ =>
        if isNewTypeBoolean then from_float (fun operand => to_bool (apfloat_isZero operand))
        else from_float (fun operand =>
          if isInfinity operand || isNegZero operand then Err (Failed "castStatus")
          else if convertToInteger_valid newBitWidth isNewTypeUnsigned operand then
            Ok (int_value newType (convertToInteger newBitWidth isNewTypeUnsigned operand))
          else Err (Failed "castStatus"))
    end
  else
    match newType with
    | FloatType semantics => from_int (fun operand => Ok (VFloat (convertFromAPInt semantics operand (negb isOldTypeUnsigned))))
    | _ =>
        if isNewTypeBoolean then from_int (fun operand => to_bool (isZero operand))
        else from_int (fun operand => Ok (int_value newType (apsint_extOrTrunc (operand, isOldTypeUnsigned) newBitWidth)))
    end.

Definition fold_convert (resultType : ShapedType) (elements : DenseElementsAttr) : result DenseElementsAttr :=
  _ ← validateStaticShapeResult resultType;
  _ ← validateShapeFoldDtype resultType false;
  _ ← validateElementCountForFold resultType;
  let operandElemType := getElementType (attr_type elements) in
  _ ← ensure (optimizeFloat options || negb (isa_FloatType operandElemType || isa_FloatType (getElementType resultType)))
    "skipping fold of float convert";
  _ ← ensure (isa_IntegerType operandElemType || isa_FloatType operandElemType)
    "expected constant integer or float operand";
  foldConvert elements resultType.

(** ** Data movement *)
Definition fold_broadcast_in_dim (resultType : ShapedType) (operand : DenseElementsAttr) : result DenseElementsAttr :=
  _ ← validateStaticShapeResult resultType;
  _ ← validateShapeFoldDtype resultType true;
  v ← ok_or (getSplatValue operand) (Failed "operand not splat");
  Ok (splat resultType v).

(** [attr.value_begin() + begin], and [n] elements from there *)
Definition sub_range (values : list Value_) (start n : Z) : result (list Value_) :=
  if (0 <=? start) && (start + n <=? Z.of_nat (length values)) then
    Ok (take (Z.to_nat n) (drop (Z.to_nat start) values))
  else Err (UB "range").

Definition fold_concatenate (dimension : Z) (type : ShapedType) (constants : list DenseElementsAttr)
    : result DenseElementsAttr :=
  _ ← validateStaticShapeResult type;
  _ ← validateShapeFoldDtype type false;
  _ ← validateElementCountForFold type;
  topSize ← foldM (fun d n => i64 (n * d)) (take (Z.to_nat dimension) (getShape type)) 1;
  newElems ← foldM (fun i newElems =>
      foldM (fun attr newElems =>
          bottomSize ← div_z (getNumElements (attr_type attr)) topSize;
          chunk ← sub_range (attr_values attr) (i * bottomSize mod 2 ^ 64) bottomSize;
          Ok (newElems ++ chunk)) constants newElems)
    (seqZ 0 topSize) [];
  if Z.of_nat (length newElems) =? getNumElements type then Ok (MkAttr type newElems)
  else Err (UB "assert: newElems.size() == numElems").

Definition fold_get_dimension_size (dimension : Z) (operandType resultType : ShapedType) : result DenseElementsAttr :=
  _ ← validateStaticShapeResult resultType;
  _ ← validateShapeFoldDtype resultType false;
  size ← at_z (getShape operandType) dimension;
  _ ← ensure (isStaticDimSize size) "expected static dimension";
  Ok (splat resultType (VInt (apint 32 size))).

Definition fold_reshape (resultType : ShapedType) (attr : DenseElementsAttr) : result DenseElementsAttr :=
  _ ← validateStaticShapeResult resultType;
  _ ← validateShapeFoldDtype resultType true;
  Ok (MkAttr resultType (attr_values attr)).

(** *** Reverse: for each dimension, swap the windows of every block *)
Definition swap_z (values : list Value_) (a b : Z) : result (list Value_) :=
  x ← at_z values a; y ← at_z values b; values ← set_z values a y; set_z values b x.

Definition reverse_strides (shape : list Z) (numElements : Z) : result (list Z) :=
  foldM (fun i stride => s ← at_z stride i; d ← at_z shape i; q ← div_z s d; Ok (stride ++ [q]))
    (seqZ 0 (Z.of_nat (length shape))) [numElements].

Definition reverse_dim (shape stride : list Z) (numElements dim : Z) (values : list Value_) : result (list Value_) :=
  numWindows ← at_z shape dim;
  s ← at_z stride dim;
  windowSize ← div_z s numWindows;
  numBlocks ← div_z numElements s;
  foldM (fun block values =>
    foldM (fun window values =>
      let reversedWindow := numWindows - window - 1 in
      let windowStart := block * s + window * windowSize in
      let reversedWindowStart := block * s + reversedWindow * windowSize in
      foldM (fun i values => swap_z values (windowStart + i) (reversedWindowStart + i)) (seqZ 0 windowSize) values)
      (seqZ 0 (Z.quot numWindows 2)) values)
    (seqZ 0 numBlocks) values.

Definition foldReverseHelper (attr : DenseElementsAttr) (type : ShapedType) (dims : list Z) : result DenseElementsAttr :=
  let numElements := getNumElements (attr_type attr) in
  stride ← reverse_strides (getShape type) numElements;
  values ← foldM (reverse_dim (getShape type) stride numElements) dims (attr_values attr);
  Ok (MkAttr type values).

Definition fold_reverse (dims : list Z) (shapedType : ShapedType) (inputAttr : DenseElementsAttr) : result DenseElementsAttr :=
  _ ← validateStaticShapeResult shapedType;
  _ ← validateElementCountForFold shapedType;
  sizes ← mapM (fun dim => at_z (getShape shapedType) dim) dims;
  let allReverseDimsOne := forallb (fun size => size =? 1) sizes in
  _ ← ensure (negb (bool_decide (dims = []) || (getNumElements shapedType <=? 1) ||
      bool_decide (is_Some (getSplatValue inputAttr)) || allReverseDimsOne)) "trivial reverse handled by simplifier";
  let elementType := getElementType shapedType in
  _ ← ensure (isa_IntegerType elementType || isa_FloatType elementType) "unsupported element type to reverse";
  foldReverseHelper inputAttr shapedType dims.

(** *** Select *)
Definition fold_select (resultType : ShapedType) (predAttr onTrueAttr onFalseAttr : DenseElementsAttr)
    : result DenseElementsAttr :=
  _ ← validateStaticShapeResult resultType;
  _ ← validateShapeFoldDtype resultType false;
  match getSplatValue predAttr with
  | Some pred => pred ← attr_apint pred; Ok (if isZero pred then onFalseAttr else onTrueAttr)
  | None =>
      _ ← ensure (negb (isa_FloatType (getElementType resultType))) "float select not supported yet";
      _ ← validateElementCountForFold resultType;
      values ← mapM (fun '(predEl, (onTrueEl, onFalseEl)) =>
          predEl ← attr_apint predEl; onTrueEl ← attr_apint onTrueEl; onFalseEl ← attr_apint onFalseEl;
          Ok (int_value (getElementType resultType) (if negb (isZero predEl) then onTrueEl else onFalseEl)))
        (zip (attr_values predAttr) (zip (attr_values onTrueAttr) (attr_values onFalseAttr)));
      Ok (MkAttr resultType values)
  end.

(** *** Slice *)

(** The next source index: the last dimension first, back to its start at its end. *)
Fixpoint slice_advance (dim : nat) (startIndex endIndex strides srcIndex : list Z) : result (list Z) :=
  match dim with
  | O => Ok srcIndex
  | S dim =>
      x ← at_z srcIndex (Z.of_nat dim);
      s ← at_z strides (Z.of_nat dim);
      x ← i64 (x + s);
      e ← at_z endIndex (Z.of_nat dim);
      if e <=? x then
        b ← at_z startIndex (Z.of_nat dim);
        srcIndex ← set_z srcIndex (Z.of_nat dim) b;
        slice_advance dim startIndex endIndex strides srcIndex
      else set_z srcIndex (Z.of_nat dim) x
  end.

Definition sliceType (operandType resultType : ShapedType) (startIndices limitIndices strides : list Z)
    (data : list Value_) : result DenseElementsAttr :=
  let dimOffsets := computeStrides (getShape operandType) in
  '(_, values) ← foldM (fun _ '(srcIndex, values) =>
      v ← at_z data (linearize srcIndex dimOffsets);
      srcIndex ← slice_advance (length srcIndex) startIndices limitIndices strides srcIndex;
      Ok (srcIndex, values ++ [v]))
    (seqZ 0 (getNumElements resultType)) (startIndices, []);
  Ok (MkAttr resultType values).

Definition fold_slice (startIndices limitIndices strides : list Z) (resultType : ShapedType) (els : DenseElementsAttr)
    : result DenseElementsAttr :=
  _ ← validateStaticShapeResult resultType;
  _ ← validateShapeFoldDtype resultType false;
  _ ← ensure (hasStaticShape (attr_type els)) "expected operand with static ranked tensor type";
  match getSplatValue els with
  | Some v => Ok (splat resultType v)
  | None =>
      let t := getElementType (attr_type els) in
      _ ← ensure (isa_IntegerType t || isa_FloatType t) "unsupported element type";
      sliceType (attr_type els) resultType startIndices limitIndices strides (attr_values els)
  end.

Definition fold_dynamic_slice (resultType : ShapedType) (operand : DenseElementsAttr) : result DenseElementsAttr :=
  _ ← validateStaticShapeResult resultType;
  v ← ok_or (getSplatValue operand) (Failed "Input must be a splat constant.");
  Ok (splat resultType v).

(** *** Iota *)
Definition fold_iota (iotaDimension : Z) (resultType : ShapedType) : result DenseElementsAttr :=
  _ ← validateElementCountForFold resultType;
  _ ← ensure (isa_IntegerType (getElementType resultType)) "expected integer result type";
  let outputSize := getNumElements resultType in
  resultBitWidth ← getIntOrFloatBitWidth (getElementType resultType);
  if outputSize =? 0 then Ok (MkAttr resultType [])
  else
    _ ← ensure (outputSize =? 1) "expected output size to be 1";
    sequenceMax ← at_z (getShape resultType) iotaDimension;
    sequences ← foldM (fun d n => i64 (n * d)) (take (Z.to_nat iotaDimension) (getShape resultType)) 1;
    elementRepetitions ← foldM (fun d n => i64 (n * d)) (drop (S (Z.to_nat iotaDimension)) (getShape resultType)) 1;
    Ok (MkAttr resultType (flat_map (fun _ => flat_map (fun value => map (fun _ =>
        int_value (getElementType resultType) (apint resultBitWidth value)) (seqZ 0 elementRepetitions))
      (seqZ 0 sequenceMax)) (seqZ 0 sequences))).

(** *** Transpose *)
Definition transposeType (permutation : list Z) (operandType resultType : ShapedType) (data : list Value_)
    : result DenseElementsAttr :=
  let operandStrides := computeStrides (getShape operandType) in
  let resultStrides := computeStrides (getShape resultType) in
  let inversePermutation := invertPermutationVector permutation in
  values ← mapM (fun i =>
      let dstDimIndex := delinearize i resultStrides in
      let srcDimIndex := applyPermutation dstDimIndex inversePermutation in
      at_z data (linearize srcDimIndex operandStrides)) (seqZ 0 (getNumElements resultType));
  Ok (MkAttr resultType values).

Definition fold_transpose (permutation : list Z) (resultType : ShapedType) (els : DenseElementsAttr)
    : result DenseElementsAttr :=
  _ ← validateStaticShapeResult resultType;
  match getSplatValue els with
  | Some v => Ok (splat resultType v)
  | None =>
      let t := getElementType (attr_type els) in
      _ ← ensure (isa_IntegerType t || isa_FloatType t) "unsupported element type";
      transposeType permutation (attr_type els) resultType (attr_values els)
  end.
End Folder.
