(* ===== verification/FolderSamples.v ===== *)
(** * MLIR's folding helpers, concretely

    Instances of [CommonFolders] and [IndexingUtils] over the concrete instance of
    the LLVM interface, with their laws: the folder runs on them, and the
    witnesses of its theorems evaluate it. *)
From S2P Require Import Prelude Types Support Index Element ElementFacts Tensor TensorFacts Samples Base TypeInference Ops OpsFacts OpsPermute AttributeFacts Eval Folder.

Import Concrete.

(** ** Equality of values *)
Definition zint_eqb (x y : zint) : bool := (zi_width x =? zi_width y) && (zi_val x =? zi_val y).
Definition zfloat_eqb (x y : zfloat) : bool := bool_decide (zf_kind x = zf_kind y) && (zf_val x =? zf_val y).

Definition value_eqb (v w : Value_) : bool :=
  match v, w with
  | VInt x, VInt y => zint_eqb x y
  | VBool b, VBool c => Bool.eqb b c
  | VFloat f, VFloat g => zfloat_eqb f g
  | VComplex (a, b), VComplex (c, d) => zfloat_eqb a c && zfloat_eqb b d
  | _, _ => false
  end.

Lemma zint_eqb_true x y : zint_eqb x y = true -> x = y.
Proof. unfold zint_eqb. rewrite andb_true_iff, !Z.eqb_eq. intros []. by apply zint_eq. Qed.
Lemma zfloat_eqb_true x y : zfloat_eqb x y = true -> x = y.
Proof. unfold zfloat_eqb. rewrite andb_true_iff, Z.eqb_eq, bool_decide_eq_true. intros []. by apply zfloat_eq. Qed.

Lemma value_eqb_true v w : value_eqb v w = true -> v = w.
Proof.
  destruct v as [x|b|f|[a b]], w as [y|c|g|[c d]]; cbn [value_eqb]; try done.
  - by intros ->%zint_eqb_true.
  - by intros ->%Bool.eqb_prop.
  - by intros ->%zfloat_eqb_true.
  - rewrite andb_true_iff. by intros [->%zfloat_eqb_true ->%zfloat_eqb_true].
Qed.

(** ** [CommonFolders] *)
Definition splat_value (a : DenseElementsAttr) : option Value_ :=
  match attr_values a with
  | v :: vs => if forallb (value_eqb v) vs then Some v else None
  | [] => None
  end.

#[export] Instance folders : CommonFolders := {|
  getSplatValue := splat_value;
  constFoldUnaryOp f a := values ← mapM f (attr_values a); Ok (MkAttr (attr_type a) values);
  constFoldBinaryOp f l r type :=
    _ ← ensure (bool_decide (length (attr_values l) = length (attr_values r))) "sizes";
    values ← mapM (fun '(x, y) => f x y) (zip (attr_values l) (attr_values r)); Ok (MkAttr type values);
  constFoldCastOp f a type := values ← mapM f (attr_values a); Ok (MkAttr type values);
|}.

Lemma mapM_total {A B} (f : A -> result B) l : Forall (fun x => exists y, f x = Ok y) l -> exists k, mapM f l = Ok k.
Proof.
  induction 1 as [|x l [y Hy] _ [k Hk]]; [by exists []|]. exists (y :: k). simpl. rewrite Hy. cbind. by rewrite Hk.
Qed.

Lemma mapM_fails {A B} (f : A -> result B) l e : mapM f l = Err e -> exists x, x ∈ l /\ f x = Err e.
Proof.
  induction l as [|x l IH]; [done|]. simpl. destruct (f x) as [y|e'] eqn:E; cbind.
  - destruct (mapM f l) as [k|e']; cbind; [done|]. intros [= ->]. destruct (IH eq_refl) as (z & Hz & Hf). exists z. split; [by right|done].
  - intros [= ->]. exists x. split; [by left|done].
Qed.

Lemma bind_err {A B} (m : result A) (g : A -> B) e : (a ← m; Ok (g a)) = Err e -> m = Err e.
Proof. destruct m; cbn; [done|by intros [= ->]]. Qed.

Lemma Forall2_zip {A B D} (f : A -> B -> result D) l k m : length l = length k ->
  Forall2 (fun p z => (let '(x, y) := p in f x y) = Ok z) (zip l k) m -> Forall3 (fun x y z => f x y = Ok z) l k m.
Proof.
  revert k m. induction l as [|x l IH]; intros [|y k] m Hl H; try done; cbn in H; inversion H; subst; constructor; [done|].
  apply IH; [by injection Hl|done].
Qed.

#[export] Instance folders_laws : CommonFoldersLaws folders.
Proof.
  split; cbn [getSplatValue constFoldUnaryOp constFoldBinaryOp constFoldCastOp folders].
  - intros a v. unfold splat_value. destruct (attr_values a) as [|w vs]; [done|]. destruct (forallb _ vs) eqn:E; [|done].
    intros [= ->]. constructor; [done|]. rewrite Forall_forall. intros u Hu%list_elem_of_In. rewrite forallb_forall in E.
    by apply value_eqb_true, E.
  - intros a v. unfold splat_value. by destruct (attr_values a).
  - intros f a a' H. apply bind_ok in H as (vs & H%mapM_inv & [= <-]). done.
  - intros f a H. destruct (mapM_total f _ H) as [vs ->]. cbind. by eexists.
  - intros f l r type a H _ _. apply bind_ok in H as ([] & Hl%ensure_ok%bool_decide_eq_true & H).
    apply bind_ok in H as (vs & H%mapM_inv & [= <-]). split; [done|]. by apply Forall2_zip.
  - intros f l r type _ _ H. rewrite bool_decide_true by (by eapply Forall2_length). cbind. cbn [ensure]. cbind.
    destruct (mapM_total (fun '(x, y) => f x y) (zip (attr_values l) (attr_values r))) as [vs ->]; [|cbind; by eexists].
    clear -H. induction H; constructor; done.
  - intros f a type a' H _. apply bind_ok in H as (vs & H%mapM_inv & [= <-]). done.
  - intros f a e H. right. by apply bind_err, mapM_fails in H.
  - intros f l r type e H. destruct (ensure _ _) as [u|e'] eqn:E; cbind.
    + right. apply bind_err, mapM_fails in H as ([x y] & Hx & Hf). by exists x, y.
    + left. unfold ensure in E. destruct (bool_decide _); [done|]. injection E as <-. injection H as <-. by eexists.
  - intros f a type e H. right. by apply bind_err, mapM_fails in H.
Qed.

(** ** [IndexingUtils] *)
Fixpoint delinearize_z (linear : Z) (strides : list Z) : list Z :=
  match strides with [] => [] | s :: strides => linear / s :: delinearize_z (linear mod s) strides end.

#[export] Instance indexing : IndexingUtils := {|
  computeStrides := suffix_prods;
  linearize offsets basis := foldr Z.add 0 (zip_with Z.mul offsets basis);
  delinearize := delinearize_z;
  invertPermutationVector := inverse;
  applyPermutation input permutation := permuted permutation input;
|}.

Lemma linearize_suffix i sizes : length i = length sizes -> foldr Z.add 0 (zip_with Z.mul i (suffix_prods sizes)) = flat sizes i.
Proof. revert i. induction sizes as [|d sizes IH]; intros [|x i] Hl; try done. cbn. by rewrite IH by (cbn in Hl; lia). Qed.

#[export] Instance indexing_laws : IndexingUtilsLaws indexing.
Proof.
  split; cbn [computeStrides linearize delinearize invertPermutationVector applyPermutation indexing].
  - intros sizes. induction sizes; cbn; [done|congruence].
  - intros sizes. induction sizes as [|d sizes IH]; intros [|k] H; cbn in *; [lia|lia|done|apply IH; lia].
  - done.
  - intros sizes index Hi. rewrite linearize_suffix by (by apply in_bounds_length).
    induction Hi as [|x d i sizes Hx Hi IH]; [done|]. cbn [flat suffix_prods delinearize_z]. pose proof (flat_bounds _ _ Hi).
    rewrite Z.div_add_l, Z.div_small, Z.add_0_r by lia. rewrite Z.add_comm, Z_mod_plus_full, Z.mod_small by lia. by rewrite IH.
  - intros permutation. unfold inverse. rewrite length_fmap, length_seqZ. lia.
  - intros permutation k j Hnd Hj Hk. eapply Forall_lookup_1 in Hj; [|exact Hk]. cbn in Hj.
    unfold inverse. rewrite list_lookup_fmap, lookup_seqZ_lt by lia. cbn. rewrite Z2Nat.id by lia.
    unfold position. destruct (list_find _ permutation) as [[n p]|] eqn:E.
    + apply list_find_Some in E as (Hn & -> & _). cbn. do 2 f_equal. by eapply NoDup_lookup.
    + apply list_find_None in E. eapply Forall_lookup_1 in E; [|exact Hk]. done.
  - intros input permutation. apply length_permuted.
  - intros input permutation k j Hj Hk. eapply Forall_lookup_1 in Hj; [|exact Hk]. cbn in Hj.
    destruct (lookup_lt_is_Some_2 input (Z.to_nat j)) as [x Hx]; [lia|]. rewrite Hx. by eapply permuted_lookup.
Qed.

(** ** Sample constants *)
Definition attr_check (attr : DenseElementsAttr) : bool :=
  shaped_check (attr_type attr) && (Z.of_nat (length (attr_values attr)) =? prod_z (getShape (attr_type attr))) &&
  forallb (fun v => element_check (MkElement (getElementType (attr_type attr)) v)) (attr_values attr).

Lemma attr_check_ok attr : attr_check attr = true -> attr_ok attr.
Proof.
  unfold attr_check. rewrite !andb_true_iff, Z.eqb_eq, forallb_forall. intros [[H1 H2] H3].
  split; [by apply shaped_check_ok|]. split; [done|]. apply Forall_forall. intros v Hv%list_elem_of_In. by apply element_check_ok, H3.
Qed.

Definition byte_attr (shape : list Z) (values : list Z) : DenseElementsAttr :=
  MkAttr (shaped shape ui8) ((fun z => VInt (apint 8 z)) <$> values).
Definition bool_attr (shape : list Z) (values : list bool) : DenseElementsAttr := MkAttr (shaped shape i1) (VBool <$> values).
Definition tensor_of_attr (attr : DenseElementsAttr) : Tensor :=
  match makeTensor attr with Ok t => t | Err _ => sample end.
Definition all_options : Options := MkOptions true 65536 true.
