(* ===== verification/FolderFacts.v ===== *)
(** * The constant folder agrees with the interpreter: elementwise operations

    A pattern of [Folder.v] that replaces an operation by a constant replaces it
    by the tensor that the reference interpreter computes. *)
From S2P Require Import Prelude Types Support Index Element ElementFacts Tensor TensorFacts Samples Base TypeInference Ops OpsFacts OpsElementwise AttributeFacts Eval Folder FolderSamples.

(** The checks a pattern starts with. *)
Ltac checks H :=
  repeat (let u := fresh in apply bind_ok in H as (u & _ & H); lazymatch type of u with unit => clear u end).

Section Represents.
Context {L : LLVM} {Laws : LLVMLaws L}.

(** The tensor holds the attribute's values in row-major order. *)
Definition represents (attr : DenseElementsAttr) (t : Tensor) : Prop :=
  tensor_full t /\ getTensorType t = attr_type attr /\
  Z.of_nat (length (attr_values attr)) = prod_z (getShape (attr_type attr)) /\
  forall i v, in_bounds i (getShape (attr_type attr)) ->
    attr_values attr !! Z.to_nat (flat (getShape (attr_type attr)) i) = Some v ->
    get t i = Ok (MkElement (getElementType (attr_type attr)) v).

Lemma constant_represents attr : attr_ok attr -> exists t, constantOp attr = Ok t /\ represents attr t.
Proof.
  intros H. destruct (makeTensor_spec attr H) as (t & Ht & Htt & Hfull & Hget).
  exists t. split; [done|]. split; [done|]. split; [done|]. split; [by destruct H as (_ & ? & _)|done].
Qed.

(** The value at the position of an index. *)
Lemma value_at attr i :
  Z.of_nat (length (attr_values attr)) = prod_z (getShape (attr_type attr)) ->
  in_bounds i (getShape (attr_type attr)) ->
  exists v, attr_values attr !! Z.to_nat (flat (getShape (attr_type attr)) i) = Some v.
Proof. intros Hl Hi. pose proof (flat_bounds _ _ Hi). apply lookup_lt_is_Some_2. lia. Qed.

Lemma represents_get attr t i : represents attr t -> in_bounds i (getShape (attr_type attr)) ->
  exists v, attr_values attr !! Z.to_nat (flat (getShape (attr_type attr)) i) = Some v /\
    get t i = Ok (MkElement (getElementType (attr_type attr)) v) /\
    element_ok (MkElement (getElementType (attr_type attr)) v).
Proof.
  intros ((Hok & Hfull) & Ht & Hl & Hg) Hi. destruct (value_at attr i Hl Hi) as [v Hv]. exists v.
  split; [done|]. rewrite (Hg i v Hi Hv). split; [done|]. unfold typed_fn in Hfull. rewrite Ht in Hfull.
  destruct (Hfull i Hi) as (e & He & Hok' & _). rewrite (Hg i v Hi Hv) in He. by injection He as <-.
Qed.

Lemma represents_shape attr t : represents attr t -> getTensorShape t = getShape (attr_type attr).
Proof. intros (_ & Ht & _). unfold getTensorShape. by rewrite Ht. Qed.

Lemma represents_shaped attr t : represents attr t -> shaped_ok (attr_type attr).
Proof. intros (Hf & <- & _). by apply full_shaped. Qed.

(** Every value is the one of some index, so it has the attribute's type. *)
Lemma represents_values attr t : represents attr t ->
  Forall (fun v => element_ok (MkElement (getElementType (attr_type attr)) v)) (attr_values attr).
Proof.
  intros H. pose proof (represents_shaped _ _ H) as (_ & Hs & _). pose proof H as (_ & _ & Hl & _).
  apply Forall_lookup. intros k v Hk.
  destruct (lookup_lt_is_Some_2 (indices (getShape (attr_type attr))) k) as [i Hi].
  { rewrite length_indices by (by apply shape_ok_nonneg). apply lookup_lt_Some in Hk. lia. }
  apply indices_lookup_flat in Hi as [Hi Hf]; [|by apply shape_ok_nonneg].
  destruct (represents_get attr t i H Hi) as (v' & Hv' & _ & Hok). rewrite Hf, Nat2Z.id in Hv'. congruence.
Qed.

Lemma bool_values attr t : represents attr t -> getElementType (attr_type attr) = i1 ->
  Forall (fun v => exists b, v = VBool b) (attr_values attr).
Proof.
  intros H Ht. eapply Forall_impl; [by eapply represents_values|]. intros v Hv. cbv beta in Hv. rewrite Ht in Hv.
  destruct (element_ok_cases _ Hv) as [(s & w & x & E & Hi & _)|[(b & E)|[(f & E & _)|(re & im & E & _)]]]; injection E; try done.
  - intros _ <- _. pose proof (int_type_pos _ _ Hi). lia.
  - intros ->. by exists b.
Qed.

(** A tensor built from a function that gives the attribute's values. *)
Lemma build_represents type attr f :
  shaped_ok type -> attr_type attr = type -> Z.of_nat (length (attr_values attr)) = prod_z (getShape type) ->
  (forall i v, in_bounds i (getShape type) -> attr_values attr !! Z.to_nat (flat (getShape type) i) = Some v ->
     f i = Ok (MkElement (getElementType type) v) /\ element_ok (MkElement (getElementType type) v)) ->
  result_is type (build type f) (represents attr).
Proof.
  intros Hty <- Hl Hf.
  assert (typed_fn (attr_type attr) f) as Htf.
  { intros i Hi. destruct (value_at attr i Hl Hi) as [v Hv]. destruct (Hf i v Hi Hv) as [-> He]. by eexists. }
  destruct (build_spec (attr_type attr) f Hty Htf) as (t & Ht & Hof).
  pose proof (tensor_of_full _ _ _ Htf Hof) as Hfull. destruct Hof as (_ & Htt & Hg).
  exists t. split; [done|]. split; [done|]. split; [done|]. split; [done|]. split; [done|]. split; [done|].
  intros i v Hi Hv. rewrite Hg by done. by apply Hf.
Qed.

(** ** Element by element *)

(** On elements of type [t], [calculate] gives the value of [op]'s result, of type [t']. *)
Definition agrees2 (t t' : Ty) (op : Element -> Element -> result Element) (calculate : Value_ -> Value_ -> result Value_) : Prop :=
  forall x y z, element_ok (MkElement t x) -> element_ok (MkElement t y) -> calculate x y = Ok z ->
    op (MkElement t x) (MkElement t y) = Ok (MkElement t' z) /\ element_ok (MkElement t' z).

Definition agrees1 (t t' : Ty) (op : Element -> result Element) (calculate : Value_ -> result Value_) : Prop :=
  forall x z, element_ok (MkElement t x) -> calculate x = Ok z ->
    op (MkElement t x) = Ok (MkElement t' z) /\ element_ok (MkElement t' z).

Context {C : CommonFolders} {CLaws : CommonFoldersLaws C}.

Lemma elementwise2_represents type l r tl tr a op calculate :
  shaped_ok type -> attr_type l = attr_type r -> getShape type = getShape (attr_type l) ->
  represents l tl -> represents r tr ->
  agrees2 (getElementType (attr_type l)) (getElementType type) op calculate ->
  constFoldBinaryOp calculate l r type = Ok a ->
  result_is type (elementwise2 op tl tr type) (represents a).
Proof.
  intros Hty Hlr Hs Hl Hr Hop Ha. destruct (binary_sound _ _ _ _ _ Ha Hlr Hs) as [Hat Hall].
  unfold elementwise2. apply build_represents; [done|done| |].
  - destruct Hl as (_ & _ & Hl & _). apply Forall3_length_lr in Hall. rewrite Hs. congruence.
  - intros i v Hi Hv. rewrite Hs in Hi, Hv. destruct (Forall3_lookup_r _ _ _ _ _ _ Hall Hv) as (x & y & Hx & Hy & Hc).
    destruct (represents_get l tl i Hl Hi) as (x' & Hx' & -> & Hxo).
    destruct (represents_get r tr i Hr) as (y' & Hy' & -> & Hyo); [by rewrite <- Hlr|]. cbind.
    rewrite <- Hlr in *. rewrite Hx in Hx'. rewrite Hy in Hy'. injection Hx' as <-. injection Hy' as <-.
    by apply (Hop x y v).
Qed.

Lemma elementwise1_represents type l tl a op calculate :
  shaped_ok type -> attr_type a = type -> getShape type = getShape (attr_type l) -> represents l tl ->
  agrees1 (getElementType (attr_type l)) (getElementType type) op calculate ->
  Forall2 (fun x y => calculate x = Ok y) (attr_values l) (attr_values a) ->
  result_is type (elementwise1 op tl type) (represents a).
Proof.
  intros Hty Hat Hs Hl Hop Hall. unfold elementwise1. apply build_represents; [done|done| |].
  - destruct Hl as (_ & _ & Hl & _). apply Forall2_length in Hall. rewrite Hs. congruence.
  - intros i v Hi Hv. rewrite Hs in Hi, Hv. destruct (Forall2_lookup_r _ _ _ _ _ Hall Hv) as (x & Hx & Hc).
    destruct (represents_get l tl i Hl Hi) as (x' & Hx' & -> & Hxo). cbind.
    rewrite Hx in Hx'. injection Hx' as <-. by apply Hop.
Qed.
End Represents.

(** ** Folders on integers, booleans and floats *)
Section Agree.
Context {L : LLVM} {Laws : LLVMLaws L}.

(** A folder agrees with an operation on each group of element types. *)
Record folder_agrees (t t' : Ty) (op : Element -> Element -> result Element)
    (fi : APInt -> APInt -> result APInt) (ff : APFloat -> APFloat -> result Value_) : Prop := {
  agrees_int s w a b r : t = IntegerType s w -> int_type s w = true -> Support.getBitWidth a = w -> Support.getBitWidth b = w ->
    fi a b = Ok r -> op (MkElement t (VInt a)) (MkElement t (VInt b)) = Ok (MkElement t' (int_value t' r));
  agrees_bool a b r : t = i1 -> fi (apint 1 (Z.b2z a)) (apint 1 (Z.b2z b)) = Ok r ->
    op (bool_el a) (bool_el b) = Ok (MkElement t' (int_value t' r));
  agrees_float a b v : t = FloatType (getSemantics a) -> getSemantics b = getSemantics a -> isSupportedFloatType t = true ->
    ff a b = Ok v -> op (MkElement t (VFloat a)) (MkElement t (VFloat b)) = Ok (MkElement t' v);
  agrees_typed a b e : op a b = Ok e -> element_ok e;
}.

Lemma folder_agrees2_int t t' op fi ff : folder_agrees t t' op fi ff -> isa_IntegerType t = true ->
  agrees2 t t' op (fun x y => a ← attr_apint x; b ← attr_apint y; r ← fi a b; Ok (int_value t' r)).
Proof.
  intros H Ht x y z Hx Hy Hc. enough (op (MkElement t x) (MkElement t y) = Ok (MkElement t' z)) as E
    by (split; [done|by eapply agrees_typed in E]).
  destruct (element_ok_cases _ Hx) as [(s & w & v & E & Hi & Hw)|[(b & E)|[(f & E & _)|(re & im & E & _)]]];
    injection E as -> ->; try done.
  - destruct (element_ok_cases _ Hy) as [(s' & w' & v' & E & _ & Hw')|[(b & E)|[(f & E & _)|(re' & im' & E & _)]]];
      injection E; intros; subst; try done.
    + cbn [attr_apint] in Hc. cbind. simpl_result. by eapply agrees_int.
    + pose proof (int_type_pos _ _ Hi). lia.
  - destruct (element_ok_cases _ Hy) as [(s' & w' & v' & E & Hi & _)|[(b' & E)|[(f & E & _)|(re' & im' & E & _)]]];
      injection E; intros; subst; try done.
    cbn [attr_apint] in Hc. cbind. simpl_result. by eapply agrees_bool.
Qed.

Lemma folder_agrees2_float t t' op fi ff : folder_agrees t t' op fi ff -> isa_FloatType t = true ->
  agrees2 t t' op (fun x y => a ← attr_apfloat x; b ← attr_apfloat y; ff a b).
Proof.
  intros H Ht x y z Hx Hy Hc. enough (op (MkElement t x) (MkElement t y) = Ok (MkElement t' z)) as E
    by (split; [done|by eapply agrees_typed in E]).
  destruct (element_ok_cases _ Hx) as [(s & w & v & E & _)|[(b & E)|[(f & E & Hs)|(re & im & E & _)]]];
    injection E as -> ->; try done.
  destruct (element_ok_cases _ Hy) as [(s' & w' & v' & E & _)|[(b & E)|[(f' & E & _)|(re' & im' & E & _)]]];
    injection E; intros; subst; try done.
  by eapply agrees_float.
Qed.

Context {C : CommonFolders} {CLaws : CommonFoldersLaws C}.

Lemma foldBinary_represents type l r tl tr op fi ff a :
  shaped_ok type -> attr_type l = attr_type r -> getShape type = getShape (attr_type l) ->
  represents l tl -> represents r tr ->
  folder_agrees (getElementType (attr_type l)) (getElementType type) op fi ff ->
  foldBinaryOpIntOrFloat type l r fi ff = Ok a ->
  result_is type (elementwise2 op tl tr type) (represents a).
Proof.
  intros Hty Hlr Hs Hl Hr Hop. unfold foldBinaryOpIntOrFloat.
  destruct (isa_IntegerType _) eqn:Hi; [|destruct (isa_FloatType _) eqn:Hf; [|done]]; intros Ha;
    (eapply elementwise2_represents; [done|done|done|done|done| |exact Ha]).
  - by apply (folder_agrees2_int _ _ _ _ ff).
  - by apply (folder_agrees2_float _ _ _ fi).
Qed.

(** *** The operations [map2] runs *)
Lemma map2_value s w a b r fi fb ff fc :
  int_type s w = true -> fi a b = Ok r -> Support.getBitWidth r = w ->
  map2 (MkElement (IntegerType s w) (VInt a)) (MkElement (IntegerType s w) (VInt b)) fi fb ff fc
  = Ok (MkElement (IntegerType s w) (VInt r)).
Proof.
  intros Ht Hf Hw. unfold map2. cbn [getType]. rewrite bool_decide_true, int_type_supported, Ht by done. cbn [negb].
  rewrite !getIntegerValue_ok by done. cbind. rewrite Hf. cbind. by apply Element_int_ok.
Qed.

Lemma map2_float k a b r fi fb ff fc :
  isSupportedFloatType (FloatType k) = true -> ff a b = Ok r -> getSemantics r = k ->
  map2 (MkElement (FloatType k) (VFloat a)) (MkElement (FloatType k) (VFloat b)) fi fb ff fc
  = Ok (MkElement (FloatType k) (VFloat r)).
Proof.
  intros Ht Hf Hk. unfold map2. cbn [getType]. rewrite bool_decide_true by done. cbn [negb].
  rewrite float_not_int, Ht, !getFloatValue_ok by done. change (isSupportedBooleanType (FloatType k)) with false.
  cbind. rewrite Hf. cbind. by apply Element_float_ok.
Qed.

Lemma int_value_int s w r : int_type s w = true -> int_value (IntegerType s w) r = VInt r.
Proof. intros H. unfold int_value. by rewrite int_type_not_bool. Qed.

Lemma isZero_bit b : isZero (apint 1 (Z.b2z b)) = negb b.
Proof. rewrite isZero_spec, uval_apint by lia. by destruct b. Qed.

(** An operation that [map2] runs agrees with a folder that does the same on
    integers and floats, and the same on single bits as on booleans. *)
Lemma map2_agrees t fi fb ff fc gi gf :
  (forall a b s w r, t = IntegerType s w -> int_type s w = true -> Support.getBitWidth a = w -> Support.getBitWidth b = w ->
     gi a b = Ok r -> fi a b = Ok r /\ Support.getBitWidth r = w) ->
  (t = i1 -> forall a b r, gi (apint 1 (Z.b2z a)) (apint 1 (Z.b2z b)) = Ok r -> fb a b = Ok (negb (isZero r))) ->
  (forall a b v, getSemantics b = getSemantics a -> gf a b = Ok v ->
     exists r, v = VFloat r /\ ff a b = Ok r /\ getSemantics r = getSemantics a) ->
  folder_agrees t t (fun a b => map2 a b fi fb ff fc) gi gf.
Proof.
  intros Hi Hb Hf. split.
  - intros s w a b r -> Ht Ha Hw Hr. destruct (Hi a b s w r) as [E Hwr]; [done..|].
    rewrite int_value_int by done. by apply map2_value.
  - intros a b r -> Hr. change (map2 (bool_el a) (bool_el b) fi fb ff fc) with (r ← fb a b; Element_bool i1 r).
    by rewrite (Hb eq_refl a b r Hr).
  - intros a b v -> Hs Ht Hv. destruct (Hf a b v Hs Hv) as (r & -> & E & Hk). by apply map2_float.
  - intros a b e H. by apply map2_inv in H as [? _].
Qed.
End Agree.

(** ** Binary operations *)
Section Binary.
Context {L : LLVM} {Laws : LLVMLaws L} {C : CommonFolders} {CLaws : CommonFoldersLaws C}.

(** The operation on elements the interpreter runs. *)
Definition binary_el (kind : BinaryKind) : Element -> Element -> result Element :=
  match kind with
  | AddOp => el_add | AndOp => el_and | Atan2Op => atan2 | ComplexOp => complex | DivOp => el_div | MaxOp => max
  | MinOp => min | MulOp => el_mul | OrOp => el_or | PowOp => power | RemOp => rem
  | ShiftLeftOp => shiftLeft | ShiftRightArithmeticOp => shiftRightArithmetic
  | ShiftRightLogicalOp => shiftRightLogical | SubtractOp => el_sub | XorOp => el_xor
  end.

Lemma binary_op_el kind : binary_op kind = elementwise2 (binary_el kind).
Proof. by destruct kind. Qed.

Lemma pair_width a b s w : int_type s w = true -> Support.getBitWidth a = w -> Support.getBitWidth b = w -> same_width a b.
Proof. intros H Ha Hb. pose proof (int_type_pos _ _ H). unfold same_width. lia. Qed.

Lemma bit_values (f : APInt -> APInt -> APInt) (g : bool -> bool -> bool) a b :
  (forall x y, same_width x y -> Support.getBitWidth x = 1 -> uval (f x y) = Z.b2z (g (negb (uval x =? 0)) (negb (uval y =? 0)))) ->
  negb (isZero (f (apint 1 (Z.b2z a)) (apint 1 (Z.b2z b)))) = g a b.
Proof.
  intros H. rewrite isZero_spec, H by (rewrite ?width_apint by lia; (done || apply same_width_apint; lia)).
  rewrite !uval_apint by lia. by destruct a, b, (g _ _).
Qed.

Lemma bit_cases x : Support.getBitWidth x = 1 -> uval x = 0 \/ uval x = 1.
Proof. intros H. pose proof (uval_range x) as Hr. rewrite H in Hr. lia. Qed.

Ltac bits x y := intros x y Hxy Hx; destruct (bit_cases x Hx) as [E|E], (bit_cases y ltac:(destruct Hxy; lia)) as [E'|E'].

(** Agreement for operations without a fault on integers. *)
Lemma shape_op_agrees t fi fb ff fc (gi : APInt -> APInt -> APInt) (gf : APFloat -> APFloat -> APFloat) :
  (forall a b s w, t = IntegerType s w -> int_type s w = true -> same_width a b -> Support.getBitWidth a = w ->
     fi a b = Ok (gi a b) /\ Support.getBitWidth (gi a b) = w) ->
  (t = i1 -> forall a b, fb a b = Ok (negb (isZero (gi (apint 1 (Z.b2z a)) (apint 1 (Z.b2z b)))))) ->
  (forall a b, ff a b = Ok (gf a b)) ->
  (forall a b, getSemantics a = getSemantics b -> getSemantics (gf a b) = getSemantics a) ->
  folder_agrees t t (fun a b => map2 a b fi fb ff fc) (fun a b => Ok (gi a b)) (fun a b => Ok (VFloat (gf a b))).
Proof.
  intros Hi Hb Hf Hs. apply map2_agrees.
  - intros a b s w r Ht Hw Ha Hb' [= <-]. by apply (Hi a b s w Ht Hw (pair_width a b s w Hw Ha Hb')).
  - intros Ht a b r [= <-]. by apply Hb.
  - intros a b v Hab [= <-]. exists (gf a b). split; [done|]. split; [apply Hf|by apply Hs].
Qed.

Lemma bits_agrees t fb fc (f : APInt -> APInt -> APInt) (g : bool -> bool -> bool) ff :
  t = i1 -> (forall a b, fb a b = Ok (g a b)) ->
  folder_agrees t t (fun a b => map2 a b (fun a b => Ok (f a b)) fb ff fc) (fun a b => Ok (logical g a b)) no_float.
Proof.
  intros Ht Hb. apply map2_agrees.
  - intros a b s w r E Hw. subst t. injection E as <- <-. done.
  - intros _ a b r [= <-]. rewrite Hb. f_equal. unfold logical. rewrite !isZero_bit, !negb_involutive, width_apint by lia.
    by rewrite isZero_bit, negb_involutive.
  - by intros a b v _ Hv.
Qed.

Lemma bitwise_agrees t fb fc ff (f : APInt -> APInt -> APInt) :
  t <> i1 -> (forall a b, same_width a b -> Support.getBitWidth (f a b) = Support.getBitWidth a) ->
  folder_agrees t t (fun a b => map2 a b (fun a b => Ok (f a b)) fb ff fc) (fun a b => Ok (f a b)) no_float.
Proof.
  intros Ht Hf. apply map2_agrees.
  - intros a b s w r E Hw Ha Hb [= <-]. split; [done|]. rewrite Hf; [done|by eapply pair_width].
  - done.
  - by intros a b v _ Hv.
Qed.
(** The interpreter's functions look at the type of their first operand. *)
Lemma shape_op_agrees_at t op fi fb ff (gi : APInt -> APInt -> APInt) (gf : APFloat -> APFloat -> APFloat) :
  (exists fc, forall a b, getType a = t -> op a b = map2 a b fi fb ff fc) ->
  (forall a b e, op a b = Ok e -> element_ok e) ->
  (forall a b s w, t = IntegerType s w -> int_type s w = true -> same_width a b -> Support.getBitWidth a = w ->
     fi a b = Ok (gi a b) /\ Support.getBitWidth (gi a b) = w) ->
  (t = i1 -> forall a b, fb a b = Ok (negb (isZero (gi (apint 1 (Z.b2z a)) (apint 1 (Z.b2z b)))))) ->
  (forall a b, ff a b = Ok (gf a b)) ->
  (forall a b, getSemantics a = getSemantics b -> getSemantics (gf a b) = getSemantics a) ->
  folder_agrees t t op (fun a b => Ok (gi a b)) (fun a b => Ok (VFloat (gf a b))).
Proof.
  intros [fc E] Hty Hi Hb Hf Hs. pose proof (shape_op_agrees t fi fb ff fc gi gf Hi Hb Hf Hs) as H.
  split; [| | |exact Hty].
  - intros s w a b r Ht ????. rewrite E by done. by eapply (agrees_int _ _ _ _ _ H).
  - intros a b r Ht ?. rewrite E by done. by apply (agrees_bool _ _ _ _ _ H).
  - intros a b v Ht ???. rewrite E by done. by apply (agrees_float _ _ _ _ _ H).
Qed.

Lemma typed_op op a b e :
  op ∈ [el_add; el_sub; el_mul; el_div; el_and; el_or; el_xor; max; min; rem] -> op a b = Ok e -> element_ok e.
Proof.
  rewrite !elem_of_cons, elem_of_nil. intros Hop He. unfold el_add, el_sub, el_mul, el_and, el_or, el_xor, max, min, rem in Hop.
  destruct_or! Hop; subst op; try done;
    first [by eapply map2_inv in He as (? & _) | by apply el_div_inv in He as (? & _)].
Qed.

Lemma unsigned_type s w : int_type s w = true -> isa_Unsigned (IntegerType s w) = bool_decide (s = Unsigned) /\
  isInteger1 (IntegerType s w) = false /\ isSupportedSignedIntegerType (IntegerType s w) = negb (bool_decide (s = Unsigned)).
Proof.
  intros H. pose proof (int_type_pos _ _ H). rewrite int_type_signed by done. unfold int_type in H.
  destruct s; cbn [isa_Unsigned isInteger1]; repeat case_bool_decide; try done; split_and!; try done; try lia.
Qed.

Lemma FoldMax_width u x y : same_width x y -> Support.getBitWidth (FoldMax u x y) = Support.getBitWidth x.
Proof. intros H. unfold FoldMax. destruct H as [Hp H], u; [rewrite umax_spec|rewrite smax_spec]; try done; by case_match. Qed.
Lemma FoldMin_width u x y : same_width x y -> Support.getBitWidth (FoldMin u x y) = Support.getBitWidth x.
Proof. intros H. unfold FoldMin. destruct H as [Hp H], u; [rewrite umin_spec|rewrite smin_spec]; try done; by case_match. Qed.

Lemma max_agrees t u :
  (t <> i1 -> u = isa_Unsigned t) -> (t = i1 -> u = true) ->
  folder_agrees t t max (fun a b => Ok (FoldMax u a b)) (fun a b => Ok (VFloat (maximum a b))).
Proof.
  intros Hu Hb. apply (shape_op_agrees_at t max (fun x y => Ok (FoldMax u x y)) (fun a b => Ok (a || b)) (fun a b => Ok (maximum a b))).
  - eexists. intros a b Ha. unfold max, map2. destruct (negb _); [done|]. rewrite Ha. destruct (isSupportedIntegerType t) eqn:Ht; [|reflexivity].
    destruct (supported_integer_inv _ Ht) as (s & w & -> & _). rewrite int_type_supported in Ht.
    destruct (unsigned_type _ _ Ht) as (E & _ & ->). rewrite Hu, E by (intros E'; injection E' as -> ->; done).
    by case_bool_decide.
  - intros. eapply (typed_op max); [set_solver|done].
  - intros a b s w _ _ Hs <-. split; [done|]. by apply FoldMax_width.
  - intros Ht a b. rewrite (Hb Ht). f_equal. symmetry. apply bit_values. intros x y Hxy Hx. cbn [FoldMax].
    rewrite umax_spec, ugt_spec by done.
    destruct (bit_cases x Hx) as [Ex | Ex], (bit_cases y ltac:(destruct Hxy; lia)) as [Ey | Ey]; rewrite Ex, Ey; cbn; congruence.
  - done.
  - intros. by apply sem_max.
Qed.

Lemma min_agrees t u :
  (t <> i1 -> u = isa_Unsigned t) -> (t = i1 -> u = true) ->
  folder_agrees t t min (fun a b => Ok (FoldMin u a b)) (fun a b => Ok (VFloat (minimum a b))).
Proof.
  intros Hu Hb. apply (shape_op_agrees_at t min (fun x y => Ok (FoldMin u x y)) (fun a b => Ok (a && b)) (fun a b => Ok (minimum a b))).
  - eexists. intros a b Ha. unfold min, map2. destruct (negb _); [done|]. rewrite Ha. destruct (isSupportedIntegerType t) eqn:Ht; [|reflexivity].
    destruct (supported_integer_inv _ Ht) as (s & w & -> & _). rewrite int_type_supported in Ht.
    destruct (unsigned_type _ _ Ht) as (E & _ & ->). rewrite Hu, E by (intros E'; injection E' as -> ->; done).
    by case_bool_decide.
  - intros. eapply (typed_op min); [set_solver|done].
  - intros a b s w _ _ Hs <-. split; [done|]. by apply FoldMin_width.
  - intros Ht a b. rewrite (Hb Ht). f_equal. symmetry. apply bit_values. intros x y Hxy Hx. cbn [FoldMin].
    rewrite umin_spec, ult_spec by done.
    destruct (bit_cases x Hx) as [Ex | Ex], (bit_cases y ltac:(destruct Hxy; lia)) as [Ey | Ey]; rewrite Ex, Ey; cbn; congruence.
  - done.
  - intros. by apply sem_min.
Qed.

Lemma add_agrees t : t <> i1 -> folder_agrees t t el_add (fun a b => Ok (apint_add a b)) (fun a b => Ok (VFloat (apfloat_add a b))).
Proof.
  intros Ht. apply shape_op_agrees; [|done|done|intros; by apply sem_add].
  intros a b s w _ _ Hs <-. split; [done|by apply width_add].
Qed.

Lemma sub_agrees t : t <> i1 -> folder_agrees t t el_sub (fun a b => Ok (apint_sub a b)) (fun a b => Ok (VFloat (apfloat_sub a b))).
Proof.
  intros Ht. apply shape_op_agrees; [|done|done|intros; by apply sem_sub].
  intros a b s w _ _ Hs <-. split; [done|by apply width_sub].
Qed.

Lemma mul_agrees t : folder_agrees t t el_mul (fun a b => Ok (apint_mul a b)) (fun a b => Ok (VFloat (apfloat_mul a b))).
Proof.
  apply shape_op_agrees; [| |done|intros; by apply sem_mul].
  - intros a b s w _ _ Hs <-. split; [done|by apply width_mul].
  - intros _ a b. f_equal. symmetry. apply bit_values. intros x y Hxy Hx. rewrite uval_mul, Hx by done.
    by destruct (bit_cases x Hx) as [-> | ->], (bit_cases y ltac:(destruct Hxy; lia)) as [-> | ->].
Qed.

Lemma divides_inv op a b r : divides op a b = Ok r -> uval b <> 0 /\ r = op a b.
Proof. unfold divides. rewrite isZero_spec. destruct (Z.eqb_spec (uval b) 0); [done|]. by intros [= <-]. Qed.

Lemma div_agrees t : t <> i1 ->
  folder_agrees t t el_div (divides (if isa_Unsigned t then udiv else sdiv)) (fun a b => Ok (VFloat (apfloat_div a b))).
Proof.
  intros Ht1. split.
  - intros s w a b r -> Ht Ha Hb [Hz ->]%divides_inv. destruct (unsigned_type _ _ Ht) as (E & _ & E').
    rewrite int_value_int by done. unfold el_div. cbn [getType].
    rewrite bool_decide_true, int_type_supported, Ht, !getIntegerValue_ok by done. cbn [negb]. cbind.
    pose proof (pair_width a b s w Ht Ha Hb). rewrite E, E'.
    case_bool_decide; cbn [negb]; (apply Element_int_ok; [done|]); by rewrite ?width_udiv, ?width_sdiv.
  - done.
  - intros a b v -> Hs Ht [= <-]. unfold el_div. cbn [getType]. rewrite bool_decide_true, float_not_int, Ht, !getFloatValue_ok by done.
    cbn [negb]. cbind. apply Element_float_ok; [done|by apply sem_div].
  - intros a b e H. eapply (typed_op el_div); [set_solver|done].
Qed.

Lemma rem_agrees t : t <> i1 -> folder_agrees t t rem (divides (if isa_Unsigned t then urem else srem))
  (fun a b => if bool_decide (getSemantics a = getSemantics b) then Ok (VFloat (apfloat_mod a b)) else Err (Failed "nullopt")).
Proof.
  intros Ht1. split.
  - intros s w a b r -> Ht Ha Hb [Hz ->]%divides_inv. destruct (unsigned_type _ _ Ht) as (E & _ & E').
    rewrite int_value_int by done. pose proof (pair_width a b s w Ht Ha Hb). unfold rem. cbn [getType]. rewrite E, E'.
    apply map2_value; [done|by case_bool_decide|]. case_bool_decide; by rewrite ?width_urem, ?width_srem.
  - done.
  - intros a b v -> Hs Ht. rewrite bool_decide_true by done. intros [= <-]. apply map2_float; [done|done|by apply sem_mod].
  - intros a b e H. eapply (typed_op rem); [set_solver|done].
Qed.

(** ** Properties *)
Context (options : Options).

(** A binary operation that the folder replaces by a constant is replaced by
    the tensor that the interpreter computes from the constants of its operands,
    on integers, floats and, but for add, on booleans. *)
Theorem fold_binary_correct kind type l r tl tr a :
  attr_type l = type -> attr_type r = type -> represents l tl -> represents r tr ->
  (getElementType type = i1 -> kind ∈ [AndOp; OrOp; XorOp; MulOp; MaxOp; MinOp]) ->
  fold_binary options kind type l r = Ok a ->
  result_is type (binary_op kind tl tr type) (represents a).
Proof.
  intros Hl Hr Hrl Hrr Hbool H. rewrite binary_op_el. set (t := getElementType type) in *.
  assert (shaped_ok type) as Hty by (rewrite <- Hl; by eapply represents_shaped).
  assert (forall op fi ff, folder_agrees t t op fi ff -> foldBinaryOpIntOrFloat type l r fi ff = Ok a ->
    result_is type (elementwise2 op tl tr type) (represents a)) as Hop.
  { intros op fi ff Hag Hf. eapply (foldBinary_represents type l r); [done|congruence|by rewrite Hl|done|done|rewrite Hl; exact Hag|exact Hf]. }
  assert (kind ∉ [AndOp; OrOp; XorOp; MulOp; MaxOp; MinOp] -> t <> i1) as Hnb by auto.
  assert (t <> i1 -> isInteger1 t = true -> isSupportedType t = false) as Hone.
  { intros Hn H1. destruct t as [[] w| | | | | | | | | | | | | |]; try done; cbn [isInteger1] in H1; apply Z.eqb_eq in H1 as ->; done. }
  assert (t <> i1 -> isInteger1 t = false) as Hone'.
  { intros Hn. destruct (isInteger1 t) eqn:E; [|done]. destruct Hty as [Hty' _]. fold t in Hty'. by rewrite Hone in Hty'. }
  assert (forall fi fb ff fc f g,
    (t = i1 -> folder_agrees t t (fun a b => map2 a b (fun a b => Ok (fi a b)) fb ff fc) (fun a b => Ok (logical g a b)) no_float) ->
    (forall a b, same_width a b -> Support.getBitWidth (fi a b) = Support.getBitWidth a) -> f = fi ->
    fold_bits f g type l r = Ok a ->
    result_is type (elementwise2 (fun a b => map2 a b (fun a b => Ok (fi a b)) fb ff fc) tl tr type) (represents a)) as Hbits.
  { intros fi fb ff fc f g Hb Hw -> Hf. unfold fold_bits in Hf. fold t in Hf. destruct (decide (t = i1)) as [E|E].
    - rewrite E in Hf. eapply Hop, Hf. by apply Hb.
    - rewrite Hone' in Hf by done. destruct (isa_IntegerType t); [|done]. eapply Hop, Hf. by apply bitwise_agrees. }
  destruct kind; cbn [fold_binary binary_el] in *; try done; unfold fold_division, fold_division in H;
    try (apply bind_ok in H as ([] & _ & H)); try (apply bind_ok in H as ([] & _ & H)).
  - eapply Hop, H. apply add_agrees, Hnb. set_solver.
  - eapply Hbits; [|by intros; apply width_and|reflexivity|exact H]. intros Ht. by apply bits_agrees.
  - eapply Hop, H. apply div_agrees, Hnb. set_solver.
  - eapply Hop, H. apply max_agrees; [intros; fold t; by rewrite Hone', orb_false_r|intros E; fold t; by rewrite E].
  - eapply Hop, H. apply min_agrees; [intros; fold t; by rewrite Hone', orb_false_r|intros E; fold t; by rewrite E].
  - eapply Hop, H. apply mul_agrees.
  - eapply Hbits; [|by intros; apply width_or|reflexivity|exact H]. intros Ht. by apply bits_agrees.
  - eapply Hop, H. apply rem_agrees, Hnb. set_solver.
  - eapply Hop, H. apply sub_agrees, Hnb. set_solver.
  - eapply Hbits; [|by intros; apply width_xor|reflexivity|exact H]. intros Ht. by apply bits_agrees.
Qed.

(** C16: on booleans the folder of add takes the exclusive or of single bits, where
    the interpreter takes the disjunction: the two differ on true and true. *)
Theorem fold_add_of_booleans type l r tl tr a :
  getElementType type = i1 -> attr_type l = type -> attr_type r = type -> represents l tl -> represents r tr ->
  fold_binary options AddOp type l r = Ok a ->
  Forall3 (fun x y z => exists b c, x = VBool b /\ y = VBool c /\ z = VBool (xorb b c))
    (attr_values l) (attr_values r) (attr_values a) /\
  result_is type (addOp tl tr type) (fun t => forall i b c, in_bounds i (getShape type) ->
    attr_values l !! Z.to_nat (flat (getShape type) i) = Some (VBool b) ->
    attr_values r !! Z.to_nat (flat (getShape type) i) = Some (VBool c) -> get t i = Ok (bool_el (b || c))).
Proof.
  intros Ht Hl Hr Hrl Hrr H. assert (shaped_ok type) as Hty by (rewrite <- Hl; by eapply represents_shaped).
  assert (Forall (fun v => exists b, v = VBool b) (attr_values l)) as Bl by (eapply bool_values; [done|by rewrite Hl]).
  assert (Forall (fun v => exists b, v = VBool b) (attr_values r)) as Br by (eapply bool_values; [done|by rewrite Hr]).
  split.
  - cbn [fold_binary] in H. apply bind_ok in H as ([] & _ & H). unfold foldBinaryOpIntOrFloat in H. rewrite Hl, Ht in H.
    apply binary_sound in H as [_ H]; [|congruence|by rewrite Hl]. induction H as [|x y z xs ys zs Hc H IH]; [constructor|].
    apply Forall_cons in Bl as [[b ->] Bl]. apply Forall_cons in Br as [[c ->] Br].
    constructor; [|by apply IH]. exists b, c. split; [done|]. split; [done|]. cbn [attr_apint mbind result_bind] in Hc.
    injection Hc as <-. unfold int_value. cbn [isSupportedBooleanType isSignlessInteger i1 Z.eqb Pos.eqb]. f_equal. apply (bit_values apint_add). intros x y Hxy Hx. rewrite uval_add, Hx by done.
    by destruct (bit_cases x Hx) as [-> | ->], (bit_cases y ltac:(destruct Hxy; lia)) as [-> | ->].
  - assert (forall i, in_bounds i (getShape type) -> exists b c,
      attr_values l !! Z.to_nat (flat (getShape type) i) = Some (VBool b) /\
      attr_values r !! Z.to_nat (flat (getShape type) i) = Some (VBool c) /\
      (x ← get tl i; y ← get tr i; el_add x y) = Ok (bool_el (b || c))) as Hget.
    { intros i Hi. destruct (represents_get l tl i Hrl) as (x & Hx & -> & _); [by rewrite Hl|].
      destruct (represents_get r tr i Hrr) as (y & Hy & -> & _); [by rewrite Hr|]. rewrite Hl, Hr, Ht in *.
      destruct (Forall_lookup_1 _ _ _ _ Bl Hx) as [b ->]. destruct (Forall_lookup_1 _ _ _ _ Br Hy) as [c ->].
      exists b, c. done. }
    apply build_result; [done| |].
    + intros i Hi. destruct (Hget i Hi) as (b & c & _ & _ & ->). eexists. split; [done|]. split; [done|by rewrite Ht].
    + intros t Htt Hg i b c Hi Hb Hc. rewrite Hg by done. destruct (Hget i Hi) as (b' & c' & Hb' & Hc' & ->). congruence.
Qed.
End Binary.

(** ** Witnesses *)
Section Witnesses.
Import Concrete.

Lemma represents_computed attr : attr_check attr = true -> represents attr (tensor_of_attr attr).
Proof.
  intros H%attr_check_ok. destruct (constant_represents attr H) as (t & Ht & Hr). unfold tensor_of_attr, constantOp in *.
  by rewrite Ht.
Qed.

Lemma fold_add_of_booleans_witness :
  fold_binary all_options AddOp (shaped [2] i1) (bool_attr [2] [true; true]) (bool_attr [2] [true; false])
    = Ok (bool_attr [2] [false; true]) /\
  result_is (shaped [2] i1) (addOp (tensor_of_attr (bool_attr [2] [true; true])) (tensor_of_attr (bool_attr [2] [true; false])) (shaped [2] i1))
    (fun t => get t [0] = Ok (bool_el true)).
Proof.
  split; [reflexivity|].
  destruct (fold_add_of_booleans all_options (shaped [2] i1) (bool_attr [2] [true; true]) (bool_attr [2] [true; false])
    (tensor_of_attr (bool_attr [2] [true; true])) (tensor_of_attr (bool_attr [2] [true; false])) (bool_attr [2] [false; true]))
    as (_ & t & Ht & Htt & Hf & H);
    [reflexivity|reflexivity|reflexivity|by apply represents_computed; vm_compute|by apply represents_computed; vm_compute|reflexivity|].
  exists t. split; [exact Ht|]. split; [exact Htt|]. split; [exact Hf|].
  apply (H [0] true true); [repeat constructor; lia|reflexivity|reflexivity].
Defined.
End Witnesses.
