(* ===== verification/FolderElementwise.v ===== *)
(** * The constant folder agrees with the interpreter: comparisons, clamps,
    unary operations and conversions *)
From S2P Require Import Prelude Types Support Index Element ElementFacts Tensor TensorFacts Samples Base TypeInference Ops OpsFacts OpsElementwise AttributeFacts Eval Folder FolderFacts.

Section Compare.
Context {L : LLVM} {Laws : LLVMLaws L} {C : CommonFolders} {CLaws : CommonFoldersLaws C}.

(** ** Comparisons *)
Lemma compare_int_z d signed x y : same_width x y ->
  compare_int d signed x y = compare_z d (if signed : bool then sval x else uval x) (if signed then sval y else uval y).
Proof.
  intros H. assert (apint_eq x y = ((if signed then sval x else uval x) =? (if signed then sval y else uval y))) as He.
  { rewrite apint_eq_spec by done. destruct signed; [|done]. unfold sval. destruct H as [Hp H]. rewrite H.
    pose proof (uval_range x) as Rx. rewrite H in Rx. pose proof (uval_range y).
    destruct (Z.eqb_spec (uval x) (uval y)) as [-> |Hn]; [by rewrite Z.eqb_refl|]. symmetry. apply Z.eqb_neq. intros E.
    by apply to_signed_inj in E. }
  destruct d, signed; cbn [compare_int compare_z]; rewrite ?slt_spec, ?ult_spec, ?sgt_spec, ?ugt_spec, ?He by done;
    try done; by rewrite Z.leb_antisym.
Qed.

Lemma float_accessors k f g : isSupportedFloatType (FloatType k) = true ->
  el_lt (MkElement (FloatType k) (VFloat f)) (MkElement (FloatType k) (VFloat g)) = Ok (bool_el (apfloat_lt f g)) /\
  el_gt (MkElement (FloatType k) (VFloat f)) (MkElement (FloatType k) (VFloat g)) = Ok (bool_el (apfloat_gt f g)) /\
  el_eq (MkElement (FloatType k) (VFloat f)) (MkElement (FloatType k) (VFloat g)) = Ok (bool_el (apfloat_eq f g)).
Proof.
  intros H. unfold el_lt, el_gt, el_eq. cbn [getType].
  rewrite bool_decide_true, float_not_int, H, !getFloatValue_ok by done.
  change (isSupportedBooleanType (FloatType k)) with false. done.
Qed.

Lemma compare_elements_float d k f g : isSupportedFloatType (FloatType k) = true ->
  compare_elements d (MkElement (FloatType k) (VFloat f)) (MkElement (FloatType k) (VFloat g))
  = Ok (bool_el (compare_float d f g)).
Proof.
  intros H. destruct (float_accessors k f g H) as (El & Eg & Ee).
  destruct d; cbn [compare_elements compare_float]; unfold el_ne, el_ge, el_le; rewrite ?El, ?Eg, ?Ee; cbind; try done;
    unfold el_lor; cbn; by repeat case_match.
Qed.

Lemma compare_elements_typed d a b e : compare_elements d a b = Ok e -> element_ok e.
Proof.
  destruct d; cbn [compare_elements]; unfold el_ne, el_ge, el_le, el_lnot, el_lor; intros H; simpl_result;
    try reflexivity.
  all: match goal with H : ?op _ _ = Ok ?e |- element_ok ?e =>
    apply (compare_inv _ _ _ op) in H as [? ->]; [reflexivity|set_solver] end.
Qed.

Lemma int_value_bit b : int_value i1 (apint 1 (Z.b2z b)) = VBool b.
Proof.
  unfold int_value. cbn [isSupportedBooleanType isSignlessInteger i1 Z.eqb Pos.eqb]. by rewrite isZero_bit, negb_involutive.
Qed.

Context (options : Options).

Lemma compare_agrees d t kind :
  (forall s w, t = IntegerType s w -> int_type s w = true -> kind = (if bool_decide (s = Unsigned) then UNSIGNED else SIGNED)) ->
  (t = i1 -> kind = UNSIGNED) ->
  folder_agrees t i1 (compare_elements d)
    (fun a b => if bool_decide (kind <> UNSIGNED /\ kind <> SIGNED) then Err (Fatal "invalid integer comparison")
                else Ok (apint 1 (Z.b2z (compare_int d (bool_decide (kind = SIGNED)) a b))))
    (fun a b => if bool_decide (kind <> FLOAT /\ kind <> TOTALORDER) then Err (Fatal "invalid float comparison")
                else Ok (int_value i1 (apint 1 (Z.b2z (compare_float d a b))))).
Proof.
  intros Hk Hb. split.
  - intros s w a b r -> Ht Ha Hb'. case_bool_decide; [done|]. intros [= <-]. rewrite int_value_bit.
    pose proof (int_type_pos _ _ Ht). pose proof (pair_width a b s w Ht Ha Hb').
    pose proof (compare_elements_int d s w (uval a) (uval b) Ht) as E. unfold int_el in E.
    assert (apint w (uval a) = a) as Ea by (rewrite <- Ha; apply apint_uval; lia).
    assert (apint w (uval b) = b) as Eb by (rewrite <- Hb'; apply apint_uval; lia). rewrite Ea, Eb in E. rewrite E. unfold bool_el. do 3 f_equal.
    rewrite compare_int_z by done. unfold sval. rewrite Ha, Hb'. pose proof (uval_range a) as Ra. pose proof (uval_range b) as Rb.
    rewrite Ha in Ra. rewrite Hb' in Rb. rewrite (Hk s w eq_refl Ht). unfold int_read. rewrite !Z.mod_small by done.
    unfold int_type in Ht. destruct s; [done|by rewrite andb_false_r in Ht|done].
  - intros a b r Ht. rewrite (Hb Ht). case_bool_decide; [done|]. intros [= <-]. rewrite int_value_bit.
    change (bool_decide (UNSIGNED = SIGNED)) with false. rewrite compare_int_z by (apply same_width_apint; lia).
    rewrite !uval_apint by lia. by destruct d, a, b.
  - intros a b v -> Hs Ht. case_bool_decide; [done|]. intros [= <-]. rewrite int_value_bit. by apply compare_elements_float.
  - intros a b e. apply compare_elements_typed.
Qed.

(** A comparison that the folder replaces by a constant is replaced by the
    booleans that the interpreter computes, for any comparison type of a float
    and for the inferred one of an integer or a boolean. *)
Theorem fold_compare_correct direction compareType type l r tl tr a :
  getElementType type = i1 -> shaped_ok type -> attr_type l = attr_type r -> getShape type = getShape (attr_type l) ->
  represents l tl -> represents r tr ->
  (isa_IntegerType (getElementType (attr_type l)) = true -> compareType = None \/ compareType = Some NOTYPE) ->
  fold_compare options direction compareType type l r = Ok a ->
  result_is type (compareOp tl tr direction type) (represents a).
Proof.
  intros Hi1 Hty Hlr Hs Hl Hr Hc H. unfold fold_compare in H. rewrite Hi1 in H.
  apply bind_ok in H as ([] & _ & H). apply bind_ok in H as ([] & _ & H).
  eapply (foldBinary_represents type l r); [done..| |exact H]. rewrite Hi1. apply compare_agrees.
  - intros s w E Ht. rewrite E in *. pose proof (int_type_pos _ _ Ht). unfold int_type in Ht.
    destruct (Hc eq_refl) as [-> | ->]; cbn [getComparisonType]; destruct s; try done;
      try (by rewrite andb_false_r in Ht); (destruct (Z.eqb_spec w 1); [lia|done]).
  - intros E. rewrite E in *. by destruct (Hc eq_refl) as [-> | ->].
Qed.

(** ** Clamps *)
Lemma FoldMax_comm u x y : same_width x y -> FoldMax u x y = FoldMax u y x.
Proof.
  intros H. assert (same_width y x) as H' by (destruct H; split; lia).
  pose proof (uval_range x) as Rx. pose proof (uval_range y) as Ry. destruct H as [Hp Hw]. rewrite Hw in Rx.
  unfold FoldMax. destruct u; [rewrite !umax_spec, !ugt_spec by done|rewrite !smax_spec, !sgt_spec by done].
  - destruct (Z.ltb_spec (uval y) (uval x)), (Z.ltb_spec (uval x) (uval y)); try done; [lia|]. apply apint_ext; [done|lia].
  - destruct (Z.ltb_spec (sval y) (sval x)), (Z.ltb_spec (sval x) (sval y)); try done; [lia|]. apply apint_ext; [done|].
    unfold sval in *. rewrite Hw in *. apply (to_signed_inj (Support.getBitWidth y)); [done|done|lia].
Qed.

Lemma FoldMin_comm u x y : same_width x y -> FoldMin u x y = FoldMin u y x.
Proof.
  intros H. assert (same_width y x) as H' by (destruct H; split; lia).
  pose proof (uval_range x) as Rx. pose proof (uval_range y) as Ry. destruct H as [Hp Hw]. rewrite Hw in Rx.
  unfold FoldMin. destruct u; [rewrite !umin_spec, !ult_spec by done|rewrite !smin_spec, !slt_spec by done].
  - destruct (Z.ltb_spec (uval x) (uval y)), (Z.ltb_spec (uval y) (uval x)); try done; [lia|]. apply apint_ext; [done|lia].
  - destruct (Z.ltb_spec (sval x) (sval y)), (Z.ltb_spec (sval y) (sval x)); try done; [lia|]. apply apint_ext; [done|].
    unfold sval in *. rewrite Hw in *. apply (to_signed_inj (Support.getBitWidth y)); [done|done|lia].
Qed.

Lemma spread_id shape i : in_bounds i shape -> spread shape i = i.
Proof. intros H. by destruct H. Qed.

Lemma get_or_scalar_same t i : in_bounds i (getTensorShape t) -> get_or_scalar t i = get t i.
Proof. intros Hi. by rewrite get_or_scalar_spread, spread_id. Qed.

(** The elements of an attribute of a supported integer type. *)
Lemma int_at attr t i s w : represents attr t -> getElementType (attr_type attr) = IntegerType s w -> int_type s w = true ->
  in_bounds i (getShape (attr_type attr)) ->
  exists x, attr_values attr !! Z.to_nat (flat (getShape (attr_type attr)) i) = Some (VInt x) /\
    Support.getBitWidth x = w /\ get t i = Ok (MkElement (IntegerType s w) (VInt x)).
Proof.
  intros H Ht Hi Hb. destruct (represents_get attr t i H Hb) as (v & Hv & Hg & Hok). rewrite Ht in *.
  destruct (element_ok_cases _ Hok) as [(s' & w' & x & E & _ & Hw)|[(b & E)|[(f & E & _)|(re & im & E & _)]]]; try done.
  - injection E as <- <- ->. by exists x.
  - injection E as -> -> _. pose proof (int_type_pos _ _ Hi). lia.
Qed.

Lemma foldBinary_int type l r fi ff a s w : getElementType type = IntegerType s w -> int_type s w = true ->
  attr_type l = type -> attr_type r = type -> foldBinaryOpIntOrFloat type l r fi ff = Ok a ->
  attr_type a = type /\ length (attr_values a) = length (attr_values l) /\
  forall (k : nat) x y v, attr_values l !! k = Some (VInt x) -> attr_values r !! k = Some (VInt y) ->
    attr_values a !! k = Some v -> exists z, fi x y = Ok z /\ v = VInt z.
Proof.
  intros Ht Hi Hl Hr H. unfold foldBinaryOpIntOrFloat in H. rewrite Hl, Ht in H. cbn [isa_IntegerType] in H.
  apply binary_sound in H as [Ha H]; [|congruence|by rewrite Hl]. split; [done|]. split; [by apply Forall3_length_lr in H|].
  intros k x y v Hx Hy Hv. destruct (Forall3_lookup_r _ _ _ _ _ _ H Hv) as (x' & y' & Hx' & Hy' & E).
  rewrite Hx in Hx'. rewrite Hy in Hy'. injection Hx' as <-. injection Hy' as <-. cbn [attr_apint mbind result_bind] in E.
  apply bind_ok in E as (z & Hz & [= <-]). exists z. by rewrite int_value_int.
Qed.

(** A clamp of integers that the folder replaces by a constant, its bounds of
    the operand's type, is replaced by the tensor of the interpreter's clamp. *)
Theorem fold_clamp_correct type mn x mx tmn tx tmx a :
  attr_type mn = type -> attr_type x = type -> attr_type mx = type -> isSupportedIntegerType (getElementType type) = true ->
  represents mn tmn -> represents x tx -> represents mx tmx ->
  fold_clamp options type mn x mx = Ok a ->
  result_is type (clampOp tmn tx tmx type) (represents a).
Proof.
  intros Hmn Hx Hmx Hsup Rmn Rx Rmx H. assert (shaped_ok type) as Hty by (rewrite <- Hx; by eapply represents_shaped).
  destruct (supported_integer_inv _ Hsup) as (s & w & Ht & _). rewrite Ht, int_type_supported in Hsup.
  unfold fold_clamp in H. apply bind_ok in H as ([] & _ & H). apply bind_ok in H as (res & Hres & H). rewrite Ht in *.
  remember (isa_Unsigned (IntegerType s w)) as un eqn:Hun.
  destruct (foldBinary_int type mn x _ _ res s w Ht Hsup Hmn Hx Hres) as (Hrt & Hrl & Hrv).
  destruct (foldBinary_int type mx res _ _ a s w Ht Hsup Hmx Hrt H) as (Hat & Hal & Hav).
  assert (Z.of_nat (length (attr_values mx)) = prod_z (getShape type)) as Hlen by (rewrite <- Hmx; apply Rmx).
  assert (Z.of_nat (length (attr_values mn)) = prod_z (getShape type)) as Hlen' by (rewrite <- Hmn; apply Rmn).
  unfold clampOp. apply build_represents; [done|done|congruence|]. intros i v Hi Hv.
  destruct (int_at mn tmn i s w Rmn) as (b & Hb & Wb & Gb); [by rewrite ?Hmn..|].
  destruct (int_at x tx i s w Rx) as (e & He & We & Ge); [by rewrite ?Hx..|].
  destruct (int_at mx tmx i s w Rmx) as (u & Hu' & Wu & Gu); [by rewrite ?Hmx..|].
  rewrite Hmn in Hb. rewrite Hx in He. rewrite Hmx in Hu'.
  rewrite !get_or_scalar_same by (rewrite (represents_shape _ _ Rmn), Hmn || rewrite (represents_shape _ _ Rmx), Hmx; done).
  rewrite Gb, Gu, Ge. cbind.
  destruct (value_at res i) as [m Hm]; [rewrite Hrt; congruence|by rewrite Hrt|]. rewrite Hrt in Hm.
  destruct (Hrv _ _ _ _ Hb He Hm) as (m' & [= <-] & ->). destruct (Hav _ _ _ _ Hu' Hm Hv) as (z & [= <-] & ->).
  assert (IntegerType s w <> i1) as Hn by (intros E; injection E as -> ->; done).
  assert (same_width e b) as Sw by by eapply pair_width.
  pose proof (max_agrees (IntegerType s w) un (fun _ => Hun) (fun E => match Hn E with end)) as Hmax.
  pose proof (min_agrees (IntegerType s w) un (fun _ => Hun) (fun E => match Hn E with end)) as Hmin.
  rewrite (agrees_int _ _ _ _ _ Hmax s w e b _ eq_refl Hsup We Wb eq_refl). cbind.
  rewrite int_value_int, (FoldMax_comm un e b) by done.
  assert (Support.getBitWidth (FoldMax un b e) = w) as Wm by (rewrite FoldMax_width; [done|by eapply pair_width]).
  pose proof (agrees_int _ _ _ _ _ Hmin s w (FoldMax un b e) u _ eq_refl Hsup Wm Wu eq_refl) as E.
  rewrite int_value_int, (FoldMin_comm un _ u) in E by (done || by eapply pair_width).
  rewrite Ht. split; [exact E|]. by apply (agrees_typed _ _ _ _ _ Hmin) in E.
Qed.
End Compare.

(** ** Unary operations *)
Section Unary.
Context {L : LLVM} {Laws : LLVMLaws L} {C : CommonFolders} {CLaws : CommonFoldersLaws C}.

Definition unary_el (kind : UnaryKind) : option (Element -> result Element) :=
  match kind with
  | AbsOp => Some abs | CosineOp => Some cosine | ExpOp => Some exponential | LogOp => Some log | NegOp => Some el_neg
  | NotOp => Some el_not | RoundOp => Some roundNearestAfz | RoundNearestEvenOp => Some roundNearestEven
  | RsqrtOp => Some rsqrt | SignOp => Some sign | SineOp => Some sine | SqrtOp => Some sqrt | TanOp => Some tan
  | TanhOp => Some tanh | LogisticOp => Some logistic
  | _ => None
  end.

Lemma unary_op_el kind op : unary_el kind = Some op -> unary_op kind = elementwise1 op.
Proof. destruct kind; intros [= <-]; done. Qed.

(** A folder on integers and floats agrees with an operation on the supported ones. *)
Definition int_agrees1 (t : Ty) (op : Element -> result Element) (fi : APInt -> result APInt) : Prop :=
  forall s w a r, t = IntegerType s w -> int_type s w = true -> Support.getBitWidth a = w -> fi a = Ok r ->
    op (MkElement t (VInt a)) = Ok (MkElement t (VInt r)) /\ Support.getBitWidth r = w.
Definition float_agrees1 (op : Element -> result Element) (ff : APFloat -> result Value_) : Prop :=
  forall a v, isSupportedFloatType (FloatType (getSemantics a)) = true -> ff a = Ok v ->
    exists r, v = VFloat r /\ getSemantics r = getSemantics a /\
      op (MkElement (FloatType (getSemantics a)) (VFloat a)) = Ok (MkElement (FloatType (getSemantics a)) (VFloat r)).

Lemma agrees1_int t op fi : isSupportedIntegerType t = true -> int_agrees1 t op fi ->
  agrees1 t t op (fun x => a ← attr_apint x; r ← fi a; Ok (int_value t r)).
Proof.
  intros Ht H x z Hx Hc. destruct (element_ok_cases _ Hx) as [(s & w & v & E & Hi & Hw)|[(b & E)|[(f & E & _)|(re & im & E & _)]]];
    injection E as -> ->; try done. cbn [attr_apint mbind result_bind] in Hc. apply bind_ok in Hc as (r & Hr & [= <-]).
  rewrite int_value_int by done. destruct (H s w v r eq_refl Hi Hw Hr) as [E Hwr]. split; [done|].
  split; [done|]. cbn [value_ getType getIntOrFloatBitWidth]. by rewrite Hwr.
Qed.

Lemma agrees1_float t op ff : isa_FloatType t = true -> float_agrees1 op ff ->
  agrees1 t t op (fun x => a ← attr_apfloat x; ff a).
Proof.
  intros Ht H x z Hx Hc. destruct (element_ok_cases _ Hx) as [(s & w & v & E & _)|[(b & E)|[(f & E & Hs)|(re & im & E & _)]]];
    injection E as -> ->; try done. cbn [attr_apfloat mbind result_bind] in Hc.
  destruct (H f z Hs Hc) as (r & -> & Hr & E). split; [done|]. split; [done|]. by rewrite Hr.
Qed.

Lemma double_agrees op evaluateOp (g : double -> double) complexFn :
  (forall x r, evaluateOp x = Ok r -> r = g x) -> (forall el, op el = mapWithUpcastToDouble el g complexFn) ->
  float_agrees1 op (FoldAsDouble evaluateOp).
Proof.
  intros Hg Hop a v Hs H. unfold FoldAsDouble in H. rewrite to_double_convert in H. apply bind_ok in H as (r & Hr & [= <-]).
  eexists. split; [done|]. split; [apply sem_convert|]. rewrite Hop. unfold mapWithUpcastToDouble. cbn [getType].
  rewrite Hs, getFloatValue_ok by done. cbind. rewrite <- (Hg _ _ Hr). unfold convert_double. cbn [convert_float].
  rewrite float_not_int, Hs. change (isSupportedBooleanType _) with false. cbn [float_kind]. cbind.
  apply Element_float_ok; [done|apply sem_convert].
Qed.

Lemma positive_only_inv bad g x r : positive_only bad g x = Ok r -> r = g x.
Proof. unfold positive_only. destruct (bad x); [done|]. by intros [= <-]. Qed.

Lemma map1_float_agrees op (g : APFloat -> APFloat) :
  (forall f, getSemantics (g f) = getSemantics f) ->
  (forall k f, isSupportedFloatType (FloatType k) = true ->
     op (MkElement (FloatType k) (VFloat f)) = Element_float (FloatType k) (g f)) ->
  float_agrees1 op (fun f => Ok (VFloat (g f))).
Proof.
  intros Hg Hop a v Hs [= <-]. exists (g a). split; [done|]. split; [apply Hg|]. rewrite Hop by done.
  apply Element_float_ok; [done|apply Hg].
Qed.

Lemma map1_int_agrees t op (g : APInt -> APInt) :
  (forall x, Support.getBitWidth (g x) = Support.getBitWidth x) ->
  (forall s w x, int_type s w = true -> op (MkElement (IntegerType s w) (VInt x)) = Element_int (IntegerType s w) (g x)) ->
  int_agrees1 t op (fun x => Ok (g x)).
Proof.
  intros Hg Hop s w a r -> Hi Hw [= <-]. rewrite Hop by done. split; [|by rewrite Hg]. apply Element_int_ok; [done|by rewrite Hg].
Qed.

Lemma no_int_agrees t op b : int_agrees1 t op (no_int b).
Proof. by intros s w a r _ _ _ H. Qed.

Lemma sign_int_agrees t : int_agrees1 t sign (fold_sign_int (negb (isa_Unsigned t))).
Proof.
  intros s w a r -> Hi Hw. pose proof (int_type_pos _ _ Hi). pose proof (Z.pow_le_mono_r 2 1 (w - 1) ltac:(lia) ltac:(lia)).
  unfold fold_sign_int. destruct (negb (negb _)); [done|]. intros [= <-].
  rewrite Hw. split; [|apply width_apint; lia]. unfold sign. cbn [getType]. rewrite int_type_supported, Hi, getIntegerValue_ok by done. cbind.
  destruct (isNegative a); [|destruct (isZero a)]; by apply convert_i64_int.
Qed.

Lemma el_not_bool b : el_not (bool_el b) = Ok (bool_el (negb b)).
Proof. done. Qed.

Lemma unary_int_agrees kind op fi ff t : evaluate_unary kind = Some (fi, ff) -> unary_el kind = Some op ->
  int_agrees1 t op (fi (negb (isa_Unsigned t))).
Proof.
  destruct kind; intros [= <- <-] [= <-]; try apply no_int_agrees; try apply sign_int_agrees; apply map1_int_agrees;
    try apply width_abs; try apply width_neg; try apply width_not; intros s w x Hi; unfold abs, el_neg, el_not, map1;
    cbn [getType]; by rewrite int_type_supported, Hi, getIntegerValue_ok.
Qed.

Lemma unary_float_agrees kind op fi ff : evaluate_unary kind = Some (fi, ff) -> unary_el kind = Some op ->
  kind ∉ [SignOp; LogisticOp] -> float_agrees1 op ff.
Proof.
  intros He Ho Hk. destruct kind; try done; injection He as <- <-; injection Ho as <-;
    try (exfalso; apply Hk; set_solver);
    try (eapply double_agrees; [|by intros]; intros x r Hr; by first [injection Hr as <- | apply positive_only_inv in Hr]).
  - apply map1_float_agrees; [apply sem_abs|]. intros k f Hs. unfold abs. cbn [getType].
    by rewrite float_not_int, Hs, getFloatValue_ok.
  - apply map1_float_agrees; [apply sem_neg|]. intros k f Hs. unfold el_neg, map1. cbn [getType].
    rewrite float_not_int, Hs, getFloatValue_ok by done. by change (isSupportedBooleanType (FloatType k)) with false.
  - by intros a v _ Hv.
  - apply map1_float_agrees; [apply sem_round|]. intros k f Hs. unfold roundNearestEven, round_with. by rewrite getFloatValue_ok.
  - apply map1_float_agrees; [apply sem_round|]. intros k f Hs. unfold roundNearestAfz, round_with. by rewrite getFloatValue_ok.
Qed.

Lemma not_bool_agrees : agrees1 i1 i1 el_not (fun x => a ← attr_apint x; r ← Ok (apint_not a); Ok (int_value i1 r)).
Proof.
  intros x z Hx Hc. destruct (element_ok_cases _ Hx) as [(s & w & v & E & Hi & Hw)|[(b & E)|[(f & E & _)|(re & im & E & _)]]];
    injection E; try done.
  - intros _ <- _. pose proof (int_type_pos _ _ Hi). lia.
  - intros ->. cbn [attr_apint mbind result_bind] in Hc. injection Hc as <-. unfold int_value.
    cbn [isSupportedBooleanType isSignlessInteger i1 Z.eqb Pos.eqb]. rewrite isZero_spec, uval_not, width_apint, uval_apint by lia.
    by destruct b.
Qed.

(** A unary operation that the folder replaces by a constant is replaced by the
    tensor of the interpreter: on integers the same bits, on floats the same
    computation in double precision and the same rounding, booleans negated. *)
Theorem fold_unary_correct kind type x tx a :
  attr_type x = type -> represents x tx ->
  (getElementType type = i1 -> kind = NotOp) ->
  (isa_FloatType (getElementType type) = true -> kind ∉ [SignOp; LogisticOp]) ->
  fold_unary kind type x = Ok a ->
  result_is type (unary_op kind tx type) (represents a).
Proof.
  intros Hx Hr Hb Hf H. assert (shaped_ok type) as Hty by (rewrite <- Hx; by eapply represents_shaped).
  unfold fold_unary in H. apply bind_ok in H as ([fi ff] & He & H). rewrite Hx in H.
  destruct (evaluate_unary kind) as [[fi' ff']|] eqn:Ev; [|done]. injection He as -> ->.
  destruct (unary_el kind) as [op|] eqn:Eo; [|by destruct kind]. rewrite (unary_op_el _ _ Eo).
  set (t := getElementType type) in *. destruct (negb _) eqn:Hn; [done|].
  assert (forall calculate, agrees1 t t op calculate -> constFoldUnaryOp calculate x = Ok a ->
    result_is type (elementwise1 op tx type) (represents a)) as Hop.
  { intros calculate Hag Hc. apply unary_sound in Hc as [Ha Hall]. eapply elementwise1_represents;
      [done|congruence|by rewrite Hx|done|rewrite Hx; exact Hag|exact Hall]. }
  destruct Hty as (Hsup & _). fold t in Hsup. destruct (isSupportedType_cases _ Hsup) as [(s & w & E & Hi)|[E|[(k & E & _)|[E|E]]]];
    rewrite E in H, Hn, Hop, Hb, Hf; cbn [isa_IntegerType isa_FloatType] in H; try done.
  - eapply Hop, H. apply agrees1_int; [by rewrite int_type_supported|]. by eapply unary_int_agrees.
  - specialize (Hb eq_refl) as ->. injection Ev as <- <-. injection Eo as <-. eapply Hop, H. apply not_bool_agrees.
  - eapply Hop, H. apply agrees1_float; [done|]. eapply unary_float_agrees; [done..|by apply Hf].
Qed.
End Unary.

(** ** Conversions *)
Section Convert.
Context {L : LLVM} {Laws : LLVMLaws L} {C : CommonFolders} {CLaws : CommonFoldersLaws C}.

(** What [foldConvert] computes, by the old and the new type. *)
Definition converts (t t' : Ty) (calculate : Value_ -> result Value_) : Prop := agrees1 t t' (convert t') calculate.

Lemma agrees1_intro t t' op calculate :
  (forall x z, element_ok (MkElement t x) -> calculate x = Ok z -> op (MkElement t x) = Ok (MkElement t' z)) ->
  (forall a e, op a = Ok e -> element_ok e) -> agrees1 t t' op calculate.
Proof. intros H Hty x z Hx Hc. pose proof (H x z Hx Hc) as E. split; [exact E|by eapply Hty]. Qed.

Lemma convert_typed t a e : convert t a = Ok e -> element_ok e.
Proof. intros H. by apply convert_inv in H as [? _]. Qed.

Lemma int_element t s w x : t = IntegerType s w -> int_type s w = true -> element_ok (MkElement t x) ->
  exists v, x = VInt v /\ Support.getBitWidth v = w.
Proof.
  intros -> Hi Hx. destruct (element_ok_cases _ Hx) as [(s' & w' & v & E & _ & Hw)|[(b & E)|[(f & E & _)|(re & im & E & _)]]]; try done.
  - injection E as <- <- ->. by exists v.
  - injection E as -> -> _. pose proof (int_type_pos _ _ Hi). lia.
Qed.

Lemma bool_element x : element_ok (MkElement i1 x) -> exists b, x = VBool b.
Proof.
  intros Hx. destruct (element_ok_cases _ Hx) as [(s & w & v & E & Hi & Hw)|[(b & E)|[(f & E & _)|(re & im & E & _)]]]; injection E; try done.
  - intros _ <- _. pose proof (int_type_pos _ _ Hi). lia.
  - intros ->. by exists b.
Qed.

Lemma float_element k x : element_ok (MkElement (FloatType k) x) -> exists f, x = VFloat f /\ getSemantics f = k.
Proof.
  intros Hx. destruct (element_ok_cases _ Hx) as [(s & w & v & E & _)|[(b & E)|[(f & E & _)|(re & im & E & _)]]]; try done.
  injection E as -> ->. by exists f.
Qed.

Lemma convert_of_float t' k f : isSupportedFloatType (FloatType k) = true ->
  convert t' (MkElement (FloatType k) (VFloat f)) = convert_float t' f.
Proof.
  intros H. unfold convert. cbn [getType]. change (isSupportedBooleanType (FloatType k)) with false.
  change (isSupportedSignedIntegerType (FloatType k)) with false. change (isSupportedUnsignedIntegerType (FloatType k)) with false.
  by rewrite H, getFloatValue_ok.
Qed.

(** An integer element converts by its value in 64 bits. *)
Lemma convert_of_int t' s w v : int_type s w = true -> Support.getBitWidth v = w ->
  convert t' (MkElement (IntegerType s w) (VInt v)) =
  convert_apsint t' (apint 64 (if isa_Unsigned (IntegerType s w) then uval v else sval v), isa_Unsigned (IntegerType s w)).
Proof.
  intros H Hw. pose proof (int_type_pos _ _ H). unfold convert, convert_i64, convert_u64. cbn [getType].
  rewrite int_type_not_bool, int_type_signed, int_type_unsigned, getIntegerValue_ok by done. cbind.
  unfold int_type in H. destruct s; cbn [isa_Unsigned].
  - rewrite bool_decide_true by done. by rewrite getSExtValue_spec by lia.
  - by rewrite andb_false_r in H.
  - rewrite bool_decide_false, bool_decide_true by done. by rewrite getZExtValue_spec by lia.
Qed.

Lemma value_range64 s w v : int_type s w = true -> Support.getBitWidth v = w ->
  0 <= uval v < 2 ^ 64 /\ - 2 ^ 63 <= sval v < 2 ^ 63.
Proof.
  intros H Hw. pose proof (int_type_pos _ _ H). pose proof (uval_range v) as Hv. rewrite Hw in Hv.
  pose proof (to_signed_range w (uval v) ltac:(lia)) as Hs. rewrite Z.mod_small in Hs by done. unfold sval. rewrite Hw.
  pose proof (Z.pow_le_mono_r 2 w 64 ltac:(lia) ltac:(lia)). pose proof (Z.pow_le_mono_r 2 (w - 1) 63 ltac:(lia) ltac:(lia)). lia.
Qed.

Lemma sval64 z : - 2 ^ 63 <= z < 2 ^ 63 -> sval (apint 64 z) = z.
Proof. intros H. rewrite sval_apint, to_signed_small by lia. done. Qed.

Lemma sval_zero v : 0 < Support.getBitWidth v -> (sval v =? 0) = (uval v =? 0).
Proof.
  intros H. pose proof (uval_range v). pose proof (Z.pow_pos_nonneg 2 (Support.getBitWidth v) ltac:(lia) ltac:(lia)).
  unfold sval, to_signed. destruct (Z.ltb_spec (uval v) (2 ^ (Support.getBitWidth v - 1))); lia.
Qed.

Lemma to_bool_value (zero : bool) :
  int_value i1 (sextOrTrunc (apint 1 (if zero then 0 else 1)) 1) = VBool (negb zero).
Proof.
  unfold int_value. cbn [isSupportedBooleanType isSignlessInteger i1 Z.eqb Pos.eqb].
  rewrite isZero_spec, uval_sextOrTrunc by (rewrite ?width_apint; lia). rewrite sval_apint by lia. by destruct zero.
Qed.

Lemma convert_float_int s w f : int_type s w = true ->
  convert_float (IntegerType s w) f = Ok (MkElement (IntegerType s w) (VInt (convertToInteger w (isa_Unsigned (IntegerType s w)) f))).
Proof.
  intros Hi. pose proof (int_type_pos _ _ Hi). cbn [convert_float]. rewrite int_type_not_bool, int_type_supported, Hi, int_type_unsigned by done.
  cbn [getIntOrFloatBitWidth]. cbind. rewrite Element_int_ok by (done || (apply width_convertToInteger; lia)).
  destruct (unsigned_type s w Hi) as (-> & _). done.
Qed.

Lemma convert_float_float k f : isSupportedFloatType (FloatType k) = true ->
  convert_float (FloatType k) f = Ok (MkElement (FloatType k) (VFloat (apfloat_convert k f))).
Proof.
  intros H. cbn [convert_float]. rewrite float_not_int, H. change (isSupportedBooleanType (FloatType k)) with false. cbn [float_kind]. cbind.
  apply Element_float_ok; [done|apply sem_convert].
Qed.

Lemma convert_apsint_float k v : isSupportedFloatType (FloatType k) = true ->
  convert_apsint (FloatType k) v = Ok (MkElement (FloatType k) (VFloat (convertFromAPInt k v.1 (negb v.2)))).
Proof.
  intros H. cbn [convert_apsint]. rewrite float_not_int, H. change (isSupportedBooleanType (FloatType k)) with false. cbn [float_kind]. cbind.
  apply Element_float_ok; [done|apply sem_fromAPInt].
Qed.

Lemma convert_apsint_bool v : convert_apsint i1 v = Ok (bool_el (negb (isZero v.1))).
Proof. done. Qed.

Lemma convert_apsint_int s w v : int_type s w = true ->
  convert_apsint (IntegerType s w) v = Ok (MkElement (IntegerType s w) (VInt (apsint_extOrTrunc v w))).
Proof.
  intros Hi. pose proof (int_type_pos _ _ Hi). cbn [convert_apsint]. rewrite int_type_not_bool, int_type_supported, Hi by done.
  cbn [getIntOrFloatBitWidth]. cbind. apply Element_int_ok; [done|]. unfold apsint_extOrTrunc.
  destruct v.2; [apply width_zextOrTrunc|apply width_sextOrTrunc]; lia.
Qed.

(** Extending to 64 bits first changes nothing. *)
Lemma extOrTrunc_64 s w w' v : int_type s w = true -> Support.getBitWidth v = w -> 0 < w' ->
  apsint_extOrTrunc (apint 64 (if isa_Unsigned (IntegerType s w) then uval v else sval v), isa_Unsigned (IntegerType s w)) w'
  = apsint_extOrTrunc (v, isa_Unsigned (IntegerType s w)) w'.
Proof.
  intros Hi Hw Hw'. pose proof (int_type_pos _ _ Hi). destruct (value_range64 _ _ _ Hi Hw) as [Hu Hs]. unfold apsint_extOrTrunc. cbn [fst snd].
  destruct (isa_Unsigned _).
  - apply apint_ext; rewrite ?width_zextOrTrunc, ?uval_zextOrTrunc by lia; [done|]. by rewrite uval_apint, (Z.mod_small (uval v)) by lia.
  - apply apint_ext; rewrite ?width_sextOrTrunc by lia; [done|]. rewrite !uval_sextOrTrunc, sval64 by (rewrite ?width_apint; lia). done.
Qed.

Lemma to_bool_agrees t (zero : Value_ -> result bool) calculate :
  (forall x, calculate x = (b ← zero x; Ok (int_value i1 (sextOrTrunc (apint 1 (if (b : bool) then 0 else 1)) 1)))) ->
  (forall x b, element_ok (MkElement t x) -> zero x = Ok b -> convert i1 (MkElement t x) = Ok (bool_el (negb b))) ->
  agrees1 t i1 (convert i1) calculate.
Proof.
  intros Hc Hz. apply agrees1_intro; [|apply convert_typed]. intros x z Hx Hcx. rewrite Hc in Hcx.
  apply bind_ok in Hcx as (b & Hb & [= <-]). rewrite to_bool_value. by apply Hz.
Qed.

Lemma not_boolean s w : int_type s w = true -> isSignlessInteger (IntegerType s w) 1 = false.
Proof. intros H. by apply int_type_not_bool in H. Qed.

Lemma boolean_or_unsigned s w : int_type s w = true -> isBooleanOrUnsigned (IntegerType s w) = isa_Unsigned (IntegerType s w).
Proof. intros H. unfold isBooleanOrUnsigned. by rewrite not_boolean. Qed.

Definition folds_as (x : DenseElementsAttr) (type : ShapedType) (a : DenseElementsAttr) : Prop :=
  exists calculate, constFoldCastOp calculate x type = Ok a /\
    agrees1 (getElementType (attr_type x)) (getElementType type) (convert (getElementType type)) calculate.

Lemma foldConvert_from_int x type a s w : getElementType (attr_type x) = IntegerType s w -> int_type s w = true ->
  isSupportedType (getElementType type) = true -> isa_ComplexType (getElementType type) = false ->
  foldConvert x type = Ok a -> folds_as x type a.
Proof.
  intros E Hi Hty Hnc H. pose proof (int_type_pos _ _ Hi). unfold foldConvert in H. apply bind_ok in H as (w' & Hw' & H). unfold folds_as. rewrite E in *.
  destruct (isSupportedType_cases _ Hty) as [(s' & w'' & E' & Hi')|[E'|[(k' & E' & Hk')|[E'|E']]]]; rewrite E' in *; try done;
    injection Hw' as <-; cbn [isa_FloatType] in H; rewrite ?not_boolean, boolean_or_unsigned in H by done;
    (eexists; split; [exact H|]).
  - apply agrees1_intro; [|apply convert_typed]. intros y z Hy Hc. destruct (int_element _ s w y eq_refl Hi Hy) as (v & -> & Hw).
    injection Hc as <-. pose proof (int_type_pos _ _ Hi'). rewrite int_value_int, convert_of_int, convert_apsint_int, extOrTrunc_64 by (done || lia). done.
  - apply (to_bool_agrees _ (fun y => v ← attr_apint y; Ok (isZero v))); [by intros []|]. intros y b Hy Hb.
    destruct (int_element _ s w y eq_refl Hi Hy) as (v & -> & Hw). injection Hb as <-. rewrite convert_of_int by done.
    rewrite convert_apsint_bool. do 3 f_equal. cbn [fst].
    destruct (value_range64 _ _ _ Hi Hw) as [Hu Hs]. rewrite !isZero_spec.
    destruct (isa_Unsigned _); [by rewrite uval_apint, Z.mod_small by lia|].
    rewrite <- (sval_zero (apint 64 (sval v))), sval64, sval_zero by (rewrite ?width_apint; lia). done.
  - apply agrees1_intro; [|apply convert_typed]. intros y z Hy Hc. destruct (int_element _ s w y eq_refl Hi Hy) as (v & -> & Hw).
    injection Hc as <-. rewrite convert_of_int, convert_apsint_float by done. do 3 f_equal. cbn [fst snd].
    destruct (value_range64 _ _ _ Hi Hw) as [Hu Hs]. apply fromAPInt_ext.
    destruct s; cbn [negb isa_Unsigned]; first [by apply sval64|by rewrite uval_apint, Z.mod_small by lia].
Qed.

Lemma foldConvert_from_bool x type a : getElementType (attr_type x) = i1 ->
  isSupportedType (getElementType type) = true -> isa_ComplexType (getElementType type) = false ->
  foldConvert x type = Ok a -> folds_as x type a.
Proof.
  intros E Hty Hnc H. unfold foldConvert in H. apply bind_ok in H as (w' & Hw' & H). unfold folds_as. rewrite E in *.
  assert (forall t' b, convert t' (bool_el b) = convert_bool t' b) as Hb by done.
  destruct (isSupportedType_cases _ Hty) as [(s' & w'' & E' & Hi')|[E'|[(k' & E' & Hk')|[E'|E']]]]; rewrite E' in *; try done;
    injection Hw' as <-; cbn [isa_FloatType i1] in H; fold i1 in H; rewrite ?not_boolean in H by done;
    (eexists; split; [exact H|]).
  - apply agrees1_intro; [|apply convert_typed]. intros y z Hy Hc. destruct (bool_element _ Hy) as (b & ->).
    injection Hc as <-. pose proof (int_type_pos _ _ Hi'). rewrite int_value_int by done. fold (bool_el b). rewrite Hb.
    unfold convert_bool. rewrite int_type_not_bool by done. unfold convert_u64. rewrite convert_apsint_int by done. do 3 f_equal.
    unfold apsint_extOrTrunc. cbn [snd fst isBooleanOrUnsigned isSignlessInteger i1 Z.eqb Pos.eqb orb].
    apply apint_ext; rewrite ?width_zextOrTrunc, ?uval_zextOrTrunc, ?uval_apint by lia; [done|]. by destruct b.
  - apply (to_bool_agrees _ (fun y => v ← attr_apint y; Ok (isZero v))); [by intros []|]. intros y b Hy Hc.
    destruct (bool_element _ Hy) as (c & ->). injection Hc as <-. fold (bool_el c). rewrite Hb, isZero_bit, negb_involutive. done.
  - apply agrees1_intro; [|apply convert_typed]. intros y z Hy Hc. destruct (bool_element _ Hy) as (b & ->).
    injection Hc as <-. fold (bool_el b). rewrite Hb. unfold convert_bool. change (isSupportedBooleanType (FloatType k')) with false.
    unfold convert_u64. rewrite convert_apsint_float by done. do 3 f_equal. apply fromAPInt_ext. cbn.
    rewrite !uval_apint by lia. by destruct b.
Qed.

Lemma foldConvert_from_float x type a k : getElementType (attr_type x) = FloatType k -> isSupportedFloatType (FloatType k) = true ->
  isSupportedType (getElementType type) = true -> isa_ComplexType (getElementType type) = false ->
  foldConvert x type = Ok a -> folds_as x type a.
Proof.
  intros E Hk Hty Hnc H. unfold foldConvert in H. apply bind_ok in H as (w' & Hw' & H). unfold folds_as. rewrite E in *.
  destruct (isSupportedType_cases _ Hty) as [(s' & w'' & E' & Hi')|[E'|[(k' & E' & Hk')|[E'|E']]]]; rewrite E' in *; try done;
    injection Hw' as <-; cbn [isa_FloatType] in H; rewrite ?not_boolean in H by done;
    (eexists; split; [exact H|]).
  - apply agrees1_intro; [|apply convert_typed]. intros y z Hy Hc. destruct (float_element _ _ Hy) as (f & -> & _).
    cbn [attr_apfloat mbind result_bind] in Hc. destruct (_ || _); [done|]. destruct (convertToInteger_valid _ _ _); [|done].
    injection Hc as <-. rewrite int_value_int, convert_of_float, convert_float_int, boolean_or_unsigned by done. done.
  - apply (to_bool_agrees _ (fun y => f ← attr_apfloat y; Ok (apfloat_isZero f))); [by intros []|]. intros y b Hy Hc.
    destruct (float_element _ _ Hy) as (f & -> & _). injection Hc as <-. by rewrite convert_of_float.
  - apply agrees1_intro; [|apply convert_typed]. intros y z Hy Hc. destruct (float_element _ _ Hy) as (f & -> & _).
    cbn [attr_apfloat mbind result_bind] in Hc. destruct (apfloat_convert_valid _ _); [|done].
    injection Hc as <-. by rewrite convert_of_float, convert_float_float.
Qed.

Context (options : Options).

(** A conversion between integers, booleans and floats that the folder replaces
    by a constant is replaced by the tensor that the interpreter computes. *)
Theorem fold_convert_correct type x tx a :
  shaped_ok type -> getShape type = getShape (attr_type x) -> represents x tx ->
  fold_convert options type x = Ok a ->
  result_is type (convertOp tx type) (represents a).
Proof.
  intros Hty Hs Hr H. pose proof (represents_shaped _ _ Hr) as (Hx & _). unfold fold_convert in H.
  apply bind_ok in H as ([] & _ & H). apply bind_ok in H as ([] & Hd%ensure_ok & H). apply bind_ok in H as ([] & _ & H).
  apply bind_ok in H as ([] & _ & H). apply bind_ok in H as ([] & Hold%ensure_ok & H).
  assert (isa_ComplexType (getElementType type) = false) as Hnc.
  { destruct (getElementType type); try done. cbn in Hd. by rewrite andb_false_r in Hd. }
  assert (folds_as x type a) as (calculate & Hc & Hag).
  { pose proof Hty as (Ht & _). destruct (isSupportedType_cases _ Hx) as [(s & w & E & Hi)|[E|[(k & E & Hk)|[E|E]]]].
    - by eapply foldConvert_from_int.
    - by eapply foldConvert_from_bool.
    - rewrite E in Hk. by eapply foldConvert_from_float.
    - by rewrite E in Hold.
    - by rewrite E in Hold. }
  apply cast_sound in Hc as [Ha Hall]; [|done]. unfold convertOp. by eapply elementwise1_represents.
Qed.
End Convert.
