(* ===== verification/FolderMoves.v ===== *)
(** * The constant folder agrees with the interpreter: data movement

    The patterns of [Folder.v] that rearrange the values of a constant compute
    source positions with strides, odometers and permutations; the interpreter
    computes source indices.  The lemmas relate the two through [flat], the
    row-major position of an index. *)
From S2P Require Import Prelude Types Support Index Element ElementFacts Tensor TensorFacts Samples Base TypeInference Ops OpsFacts OpsMoves OpsPermute OpsJoin Eval Folder FolderFacts.

(** ** Strides and positions *)
Section Positions.
Context {I : IndexingUtils} {ILaws : IndexingUtilsLaws I}.

Lemma strides_lookup sizes (k : nat) : (k < length sizes)%nat -> suffix_prods sizes !! k = Some (prod_z (drop (S k) sizes)).
Proof. revert k. induction sizes as [|d sizes IH]; intros [|k] H; cbn in *; [lia|lia|done|]. apply IH. lia. Qed.

Lemma length_strides sizes : length (suffix_prods sizes) = length sizes.
Proof. induction sizes; cbn; [done|congruence]. Qed.

Lemma computeStrides_suffix sizes : computeStrides sizes = suffix_prods sizes.
Proof.
  apply list_eq_same_length with (length sizes); [apply length_strides|apply length_computeStrides|].
  intros k x y Hk Hx Hy. rewrite computeStrides_lookup in Hx by done. rewrite strides_lookup in Hy by done. congruence.
Qed.

Lemma linearize_flat sizes i : length i = length sizes -> linearize i (computeStrides sizes) = flat sizes i.
Proof.
  intros Hl. rewrite computeStrides_suffix, linearize_spec by (by rewrite length_strides).
  revert i Hl. induction sizes as [|d sizes IH]; intros [|x i] Hl; try done. cbn. by rewrite IH by (cbn in Hl; lia).
Qed.

Lemma delinearize_flat sizes i : in_bounds i sizes -> delinearize (flat sizes i) (computeStrides sizes) = i.
Proof. intros Hi. rewrite <- linearize_flat by (by apply in_bounds_length). by apply delinearize_linearize. Qed.

Lemma invert_inverse perm n : permutes perm n -> invertPermutationVector perm = inverse perm.
Proof.
  intros Hp. pose proof (permutes_length _ _ Hp) as Hl. pose proof (permutes_length _ _ (permutes_inverse _ _ Hp)) as Hl'.
  apply list_eq_same_length with n; [done|by rewrite length_invert|]. intros d x y Hd Hx Hy.
  rewrite (inverse_lookup perm n) in Hy by done. injection Hy as <-.
  pose proof (position_spec perm n (Z.of_nat d) Hp ltac:(lia)) as Hpos.
  pose proof (invert_lookup perm (position perm (Z.of_nat d)) (Z.of_nat d) (permutes_NoDup _ _ Hp)) as E.
  rewrite Nat2Z.id, Hx in E. enough (Some x = Some (Z.of_nat (position perm (Z.of_nat d)))) by congruence.
  apply E; [|done]. apply Forall_lookup. intros k z Hk. rewrite Hl. by eapply permutes_lookup.
Qed.

Lemma apply_permuted perm i : permutes perm (length i) -> applyPermutation i perm = permuted perm i.
Proof.
  intros Hp. apply list_eq_same_length with (length perm); [by rewrite length_permuted|apply length_apply|].
  intros d x y Hd Hx Hy. destruct (lookup_lt_is_Some_2 perm d Hd) as [p Hk].
  rewrite (apply_lookup i perm d p) in Hx; [| |done].
  - rewrite (permuted_lookup perm i d p x) in Hy by done. congruence.
  - apply Forall_lookup. intros k z Hz. by eapply permutes_lookup.
Qed.
End Positions.

Section FolderMoves.
Context {L : LLVM} {Laws : LLVMLaws L}.

(** ** Rearranged values *)

(** A tensor that reads a represented one at [g] is represented by the attribute
    that reads the values at [g]. *)
Lemma reindexed_represents type m g tx x a :
  result_is type m (reindexed g tx) -> represents x tx ->
  attr_type a = type -> getElementType type = getElementType (attr_type x) ->
  Z.of_nat (length (attr_values a)) = prod_z (getShape type) ->
  (forall i v, in_bounds i (getShape type) -> attr_values a !! Z.to_nat (flat (getShape type) i) = Some v ->
    attr_values x !! Z.to_nat (flat (getShape (attr_type x)) (g i)) = Some v) ->
  result_is type m (represents a).
Proof.
  intros (t & Hm & Ht & Hfull & Hre) Hx <- He Hl Hv. exists t. split; [done|]. split; [done|]. split; [done|].
  split; [done|]. split; [done|]. split; [done|]. intros i v Hi Hiv. rewrite <- Ht in Hi. destruct (Hre i Hi) as [Hb ->].
  rewrite (represents_shape _ _ Hx) in Hb. rewrite He. rewrite Ht in Hi.
  destruct Hx as (_ & _ & _ & Hg). apply Hg; [done|]. by apply Hv.
Qed.

Lemma splat_ok type v : shaped_ok type -> Z.of_nat (length (attr_values (splat type v))) = prod_z (getShape type).
Proof.
  intros (_ & Hs%shape_ok_nonneg%prod_z_nonneg & _). unfold splat, getNumElements. cbn [attr_values]. rewrite length_replicate. lia.
Qed.

(** Reading a splat anywhere gives a splat. *)
Lemma reindexed_splat type m g tx x v :
  result_is type m (reindexed g tx) -> represents x tx -> getElementType type = getElementType (attr_type x) ->
  Forall (eq v) (attr_values x) -> result_is type m (represents (splat type v)).
Proof.
  intros (t & Hm & Ht & Hfull & Hre) Hx He Hv.
  assert (shaped_ok type) as Hty by (rewrite <- Ht; by apply full_shaped).
  exists t. split; [done|]. split; [done|]. split; [done|]. split; [done|]. split; [done|]. split; [by apply splat_ok|].
  intros i w Hi Hw. unfold splat in *. cbn [attr_values attr_type] in *. apply lookup_replicate in Hw as [-> _].
  rewrite <- Ht in Hi. destruct (Hre i Hi) as [Hb ->]. rewrite (represents_shape _ _ Hx) in Hb.
  destruct (represents_get _ _ _ Hx Hb) as (w & Hw & -> & _). rewrite Forall_forall in Hv.
  rewrite He. do 2 f_equal. symmetry. apply Hv. by eapply list_elem_of_lookup_2.
Qed.

Context {C : CommonFolders} {CLaws : CommonFoldersLaws C} {I : IndexingUtils} {ILaws : IndexingUtilsLaws I}.

(** ** broadcast_in_dim of a splat *)
Theorem fold_broadcast_in_dim_correct options x tx broadcastDimensions resultType a :
  represents x tx -> shaped_ok resultType -> getElementType resultType = getElementType (attr_type x) ->
  verifyBroadcastInDimOp (attr_type x) broadcastDimensions resultType = Ok () ->
  fold_broadcast_in_dim options resultType x = Ok a ->
  result_is resultType (broadcastInDimOp tx broadcastDimensions resultType) (represents a).
Proof.
  intros Hx Hty He Hv Ha. pose proof Hx as (Hfull & Htx & _). unfold fold_broadcast_in_dim in Ha. checks Ha.
  destruct (getSplatValue x) as [v|] eqn:Hsp; [|done]. injection Ha as <-. apply splat_values in Hsp.
  eapply reindexed_splat; [|done|done|done]. eapply broadcastInDimOp_spec; [done|done|unfold getTensorElementType; congruence|congruence].
Qed.

(** ** dynamic_slice of a splat *)
Theorem fold_dynamic_slice_correct x tx startIndices sliceSizes resultType a :
  represents x tx -> Forall scalar_index startIndices ->
  inferDynamicSliceOp (attr_type x) (getTensorType <$> startIndices) sliceSizes = Ok resultType ->
  fold_dynamic_slice resultType x = Ok a ->
  result_is resultType (dynamicSliceOp tx startIndices sliceSizes resultType) (represents a).
Proof.
  intros Hx Hst Hinf Ha. pose proof Hx as (Hfull & Htx & _). unfold fold_dynamic_slice in Ha. checks Ha.
  destruct (getSplatValue x) as [v|] eqn:Hsp; [|done]. injection Ha as <-. apply splat_values in Hsp. rewrite <- Htx in Hinf.
  destruct (dynamicSliceOp_spec tx startIndices sliceSizes resultType Hfull Hst Hinf) as (starts & _ & Hr).
  eapply reindexed_splat; [exact Hr|done| |done].
  apply inferDynamicSliceOp_inv in Hinf as (-> & _); [|by apply full_shape_ok]. cbn. by rewrite Htx.
Qed.

(** ** reshape *)
Theorem fold_reshape_correct options x tx resultType a :
  represents x tx -> shaped_ok resultType -> getElementType resultType = getElementType (attr_type x) ->
  verifyReshapeOp (attr_type x) resultType = Ok () ->
  fold_reshape options resultType x = Ok a ->
  result_is resultType (reshapeOp tx resultType) (represents a).
Proof.
  intros Hx Hty He Hv Ha. pose proof Hx as (Hfull & Htx & Hl & Hg). unfold fold_reshape in Ha. checks Ha. injection Ha as <-.
  pose proof (represents_shaped _ _ Hx) as (_ & Hs & _). pose proof Hty as (_ & Hs' & _).
  apply verifyReshapeOp_inv in Hv; [|done|done].
  destruct (reshapeOp_spec tx resultType) as (t & Ht & Htt & Hft & Hord);
    [done|done|unfold getTensorElementType; congruence|unfold getTensorShape; congruence|].
  exists t. split; [done|]. split; [done|]. split; [done|]. split; [done|]. cbn [attr_type attr_values].
  split; [done|]. split; [congruence|]. intros i v Hi Hiv.
  destruct (flat_partner (getShape resultType) (getShape (attr_type x)) i) as (j & Hj & Hij); [done|done|done|].
  rewrite (Hord i j); [|by unfold getTensorShape; rewrite Htt|by rewrite (represents_shape _ _ Hx)|].
  - rewrite He. apply Hg; [done|]. by rewrite <- Hij.
  - unfold getTensorShape. by rewrite Htt, Htx.
Qed.

(** ** transpose *)
Lemma transposeOp_fits operand permutation resultType :
  tensor_full operand -> shaped_ok resultType -> getElementType resultType = getTensorElementType operand ->
  permutes permutation (length (getTensorShape operand)) ->
  getShape resultType = permuted permutation (getTensorShape operand) ->
  result_is resultType (transposeOp operand permutation resultType) (reindexed (permuted (inverse permutation)) operand).
Proof.
  intros Ho Hr He Hp Hsh.
  destruct (transposeOp_spec operand permutation resultType) as (t & Ht & Hty & Hfull & Htr); [done..|].
  exists t. split; [done|]. split; [done|]. split; [done|]. intros i Hi. unfold getTensorShape in Hi. rewrite Hty, Hsh in Hi.
  pose proof (permutes_inverse _ _ Hp) as Hp'. pose proof (in_bounds_length _ _ Hi) as Hil.
  rewrite length_permuted, (permutes_length _ _ Hp) in Hil.
  assert (in_bounds (permuted (inverse permutation) i) (getTensorShape operand)) as Hb.
  { rewrite <- (inverse_permuted permutation (getTensorShape operand)) by done. apply permuted_in_bounds; [|done].
    by rewrite length_permuted, (permutes_length _ _ Hp). }
  split; [done|]. rewrite <- (Htr _ Hb). by rewrite permuted_inverse by (by rewrite Hil).
Qed.

Lemma transposeOp_reindexed operand permutation resultType :
  tensor_full operand -> shaped_ok resultType ->
  inferTransposeOp (getTensorType operand) permutation = Ok resultType ->
  result_is resultType (transposeOp operand permutation resultType) (reindexed (permuted (inverse permutation)) operand).
Proof. intros Ho Hr (Hp & He & Hsh)%inferTransposeOp_inv. by apply transposeOp_fits. Qed.

Lemma transposeType_values permutation operandType resultType data a :
  permutes permutation (length (getShape operandType)) -> shape_ok (getShape resultType) ->
  getShape resultType = permuted permutation (getShape operandType) ->
  transposeType permutation operandType resultType data = Ok a ->
  attr_type a = resultType /\ Z.of_nat (length (attr_values a)) = prod_z (getShape resultType) /\
  forall i v, in_bounds i (getShape resultType) -> attr_values a !! Z.to_nat (flat (getShape resultType) i) = Some v ->
    data !! Z.to_nat (flat (getShape operandType) (permuted (inverse permutation) i)) = Some v.
Proof.
  intros Hp Hs Hsh Ha. unfold transposeType, getNumElements in Ha. apply bind_ok in Ha as (values & Hv%mapM_inv & [= <-]).
  pose proof (prod_z_nonneg _ (shape_ok_nonneg _ Hs)) as Hn. cbn [attr_type attr_values].
  split; [done|]. split; [apply Forall2_length in Hv; rewrite length_seqZ in Hv; lia|]. intros i v Hi Hiv.
  pose proof (flat_bounds _ _ Hi) as Hf. pose proof (in_bounds_length _ _ Hi) as Hil.
  rewrite Hsh, length_permuted, (permutes_length _ _ Hp) in Hil. pose proof (permutes_inverse _ _ Hp) as Hp'.
  destruct (Forall2_lookup_r _ _ _ _ _ Hv Hiv) as (k & Hk & Hat). rewrite lookup_seqZ_lt in Hk by lia. injection Hk as <-.
  rewrite Z.add_0_l, Z2Nat.id, delinearize_flat, (invert_inverse _ _ Hp), apply_permuted in Hat by (done || lia || by rewrite Hil).
  rewrite linearize_flat in Hat; [by apply at_z_ok in Hat as [_ ?]|].
  by rewrite length_permuted, (permutes_length _ _ Hp').
Qed.

Theorem fold_transpose_correct x tx permutation resultType a :
  represents x tx -> shaped_ok resultType -> inferTransposeOp (attr_type x) permutation = Ok resultType ->
  fold_transpose permutation resultType x = Ok a ->
  result_is resultType (transposeOp tx permutation resultType) (represents a).
Proof.
  intros Hx Hty Hinf Ha. pose proof Hx as (Hfull & Htx & _). unfold fold_transpose in Ha. checks Ha.
  pose proof (inferTransposeOp_inv _ _ _ Hinf) as (Hp & He & Hsh).
  pose proof (transposeOp_reindexed tx permutation resultType Hfull Hty ltac:(congruence)) as Hr.
  destruct (getSplatValue x) as [v|] eqn:Hsp.
  - injection Ha as <-. apply splat_values in Hsp. by eapply reindexed_splat.
  - checks Ha. apply transposeType_values in Ha as (Hat & Hl & Hv); [|done|by destruct Hty as (_ & ? & _)|done].
    by eapply reindexed_represents.
Qed.

(** ** slice: the odometer over the source indices *)

(** A dimension of a slice: its first index, its limit and its stride. *)
Definition dim_lo (d : Z * Z * Z) : Z := d.1.1.
Definition dim_hi (d : Z * Z * Z) : Z := d.1.2.
Definition dim_stride (d : Z * Z * Z) : Z := d.2.
Definition dim_size (d : Z * Z * Z) : Z := divideCeil (dim_hi d - dim_lo d) (dim_stride d).

Lemma divideCeil_le n d k : 0 < d -> (divideCeil n d <= k <-> n <= k * d).
Proof.
  unfold divideCeil. intros Hd. pose proof (Z.mul_div_le (n + d - 1) d Hd). pose proof (Z.mul_succ_div_gt (n + d - 1) d Hd).
  split; nia.
Qed.

Lemma slice_index_app l1 l2 s1 s2 i1 i2 :
  length l1 = length i1 -> length s1 = length i1 ->
  slice_index (l1 ++ l2) (s1 ++ s2) (i1 ++ i2) = slice_index l1 s1 i1 ++ slice_index l2 s2 i2.
Proof. intros H1 H2. unfold slice_index. rewrite !zip_with_app; [done|rewrite length_zip_with; lia|lia]. Qed.

Lemma zero_in_bounds s : Forall (fun d => 0 <= d) s -> 0 < prod_z s ->
  in_bounds (replicate (length s) 0) s /\ flat s (replicate (length s) 0) = 0.
Proof.
  induction 1 as [|d s Hd Hs IH]; [by split; [constructor|]|]. rewrite prod_z_cons. intros Hp.
  pose proof (prod_z_nonneg _ Hs). destruct IH as [Hb Hf]; [nia|]. cbn [length replicate flat]. split; [|lia].
  constructor; [nia|done].
Qed.

Lemma slice_index_zero dims :
  slice_index (dim_lo <$> dims) (dim_stride <$> dims) (replicate (length dims) 0) = dim_lo <$> dims.
Proof.
  induction dims as [|d dims IH]; [done|]. unfold slice_index in *. cbn. rewrite IH. f_equal. lia.
Qed.

Lemma slice_advance_spec dims : forall s1 s2 s3 i suf r,
  Forall (fun d => 0 < dim_stride d) dims -> in_bounds i (dim_size <$> dims) ->
  slice_advance (length dims) ((dim_lo <$> dims) ++ s1) ((dim_hi <$> dims) ++ s2) ((dim_stride <$> dims) ++ s3)
    (slice_index (dim_lo <$> dims) (dim_stride <$> dims) i ++ suf) = Ok r ->
  exists i', r = slice_index (dim_lo <$> dims) (dim_stride <$> dims) i' ++ suf /\ in_bounds i' (dim_size <$> dims) /\
    (flat (dim_size <$> dims) i' = flat (dim_size <$> dims) i + 1 \/ flat (dim_size <$> dims) i + 1 = prod_z (dim_size <$> dims)).
Proof.
  induction dims as [|d dims IH] using rev_ind; intros s1 s2 s3 i suf r Hst Hb.
  { intros [= <-]. apply Forall2_nil_inv_r in Hb as ->. exists []. split; [done|]. split; [constructor|]. by right. }
  apply Forall_app in Hst as [Hst Hd]. apply Forall_inv in Hd.
  rewrite !fmap_app in *. cbn [fmap list_fmap] in *.
  apply Forall2_app_inv_r in Hb as (i0 & ix & Hb & Hx & ->). pose proof (in_bounds_length _ _ Hb) as Hlen.
  apply Forall2_cons_inv_r in Hx as (x & ? & Hx & ->%Forall2_nil_inv_r & ->).
  rewrite length_fmap in Hlen. rewrite slice_index_app by (by rewrite length_fmap).
  assert (length (slice_index (dim_lo <$> dims) (dim_stride <$> dims) i0) = length dims) as Hsl
    by (unfold slice_index; rewrite !length_zip_with, !length_fmap; lia).
  change (slice_index [dim_lo d] [dim_stride d] [x]) with [dim_lo d + x * dim_stride d].
  rewrite length_app, Nat.add_1_r, <- !app_assoc. cbn [app slice_advance].
  rewrite <- Hsl at 1. rewrite at_z_app_mid. cbind. rewrite <- (length_fmap dim_stride dims) at 1. rewrite at_z_app_mid. cbind.
  intros H. apply bind_ok in H as (y & [-> Hy]%i64_inv & H).
  rewrite <- (length_fmap dim_hi dims) in H at 1. rewrite at_z_app_mid in H. cbn [mbind result_bind] in H.
  rewrite !(flat_app _ [_] _ [_]), prod_z_app, !prod_z_one, flat_one by (by rewrite length_fmap).
  pose proof (divideCeil_le (dim_hi d - dim_lo d) (dim_stride d) (x + 1) Hd) as Hc. fold (dim_size d) in Hc.
  destruct (Z.leb_spec (dim_hi d) (dim_lo d + x * dim_stride d + dim_stride d)) as [Hle|Hlt].
  - rewrite <- (length_fmap dim_lo dims) in H at 1. rewrite at_z_app_mid in H. cbn [mbind result_bind] in H.
    rewrite <- Hsl in H at 1. rewrite set_z_app_mid in H. cbn [mbind result_bind] in H.
    assert (x + 1 = dim_size d) by lia.
    apply (IH (dim_lo d :: s1) (dim_hi d :: s2) (dim_stride d :: s3)) in H as (i' & -> & Hb' & Hf); [|done|done].
    pose proof (in_bounds_length _ _ Hb') as Hlen'. rewrite length_fmap in Hlen'.
    exists (i' ++ [0]). rewrite slice_index_app by (by rewrite length_fmap).
    change (slice_index [dim_lo d] [dim_stride d] [0]) with [dim_lo d + 0].
    rewrite Z.add_0_r, <- app_assoc. split; [done|].
    split; [apply in_bounds_app; [done|repeat constructor; lia]|].
    rewrite flat_app, prod_z_one, flat_one by (by rewrite length_fmap). destruct Hf as [->|Hf]; [left|right]; nia.
  - rewrite <- Hsl in H at 1. rewrite set_z_app_mid in H. injection H as <-.
    exists (i0 ++ [x + 1]). rewrite slice_index_app by (by rewrite length_fmap).
    change (slice_index [dim_lo d] [dim_stride d] [x + 1]) with [dim_lo d + (x + 1) * dim_stride d].
    rewrite <- app_assoc, Z.mul_add_distr_r, Z.mul_1_l, Z.add_assoc. split; [done|].
    split; [apply in_bounds_app; [done|repeat constructor; lia]|].
    rewrite flat_app, prod_z_one, flat_one by (by rewrite length_fmap). left. lia.
Qed.

(** The loop reads the source at every index of the result, in row-major order. *)
Lemma sliceType_values dims operandType resultType data a :
  Forall (fun d => 0 < dim_stride d) dims -> getShape resultType = dim_size <$> dims ->
  length dims = length (getShape operandType) -> shape_ok (getShape resultType) ->
  sliceType operandType resultType (dim_lo <$> dims) (dim_hi <$> dims) (dim_stride <$> dims) data = Ok a ->
  attr_type a = resultType /\ Z.of_nat (length (attr_values a)) = prod_z (getShape resultType) /\
  forall i v, in_bounds i (getShape resultType) -> attr_values a !! Z.to_nat (flat (getShape resultType) i) = Some v ->
    data !! Z.to_nat (flat (getShape operandType) (slice_index (dim_lo <$> dims) (dim_stride <$> dims) i)) = Some v.
Proof.
  intros Hst Hsh Hlen Hs Ha. unfold sliceType, getNumElements in Ha. rewrite Hsh in *.
  pose proof (prod_z_nonneg _ (shape_ok_nonneg _ Hs)) as Hn. rewrite <- (Z2Nat.id _ Hn) in Ha.
  set (src := slice_index (dim_lo <$> dims) (dim_stride <$> dims)) in *.
  assert (forall i, in_bounds i (dim_size <$> dims) -> length (src i) = length dims) as Hsrc.
  { intros i Hi%in_bounds_length. unfold src, slice_index. rewrite !length_zip_with, Hi, !length_fmap. lia. }
  apply bind_ok in Ha as ((srcIndex & values) & Hf & [= <-]). cbn [attr_type attr_values].
  eapply (foldM_seqZ_ind _ (fun k '(srcIndex, values) => length values = k /\
    (forall i v, in_bounds i (dim_size <$> dims) -> values !! Z.to_nat (flat (dim_size <$> dims) i) = Some v ->
      data !! Z.to_nat (flat (getShape operandType) (src i)) = Some v) /\
    ((k < Z.to_nat (prod_z (dim_size <$> dims)))%nat -> exists i, srcIndex = src i /\
      in_bounds i (dim_size <$> dims) /\ flat (dim_size <$> dims) i = Z.of_nat k))) in Hf as (Hl & Hv & _).
  - split; [done|]. split; [lia|done].
  - split; [done|]. split; [intros i v _ Hv; by rewrite lookup_nil in Hv|]. intros Hpos.
    destruct (zero_in_bounds (dim_size <$> dims)) as [Hi Hif]; [auto with hlo|lia|]. rewrite length_fmap in *.
    exists (replicate (length dims) 0). split; [symmetry; apply slice_index_zero|done].
  - intros k [srcIndex' values'] [srcIndex'' values''] Hk (Hl & Hv & Hnext) H.
    destruct (Hnext Hk) as (i & -> & Hi & Hif).
    apply bind_ok in H as (v & Hat & H). apply bind_ok in H as (s & Had & [= <- <-]).
    rewrite linearize_flat in Hat by (rewrite Hsrc by done; lia). apply at_z_ok in Hat as [_ Hat].
    split; [rewrite length_app, Hl; cbn; lia|]. split.
    + intros j w Hj Hw. apply lookup_app_Some in Hw as [Hw|[Hge Hw]]; [by apply Hv|].
      apply list_lookup_singleton_Some in Hw as [Hz <-]. pose proof (flat_bounds _ _ Hj).
      assert (j = i) as -> by (eapply flat_inj; [done|done|lia]). done.
    + intros Hk'. pose proof (slice_advance_spec dims [] [] [] i [] s Hst Hi) as E. rewrite !app_nil_r in E.
      rewrite (Hsrc i Hi) in Had. destruct (E Had) as (i' & -> & Hi' & Hf'). rewrite app_nil_r.
      exists i'. split; [done|]. split; [done|]. lia.
Qed.

Lemma slice_dims (startIndices limitIndices strides : list Z) n :
  length startIndices = n -> length limitIndices = n -> length strides = n ->
  exists dims, length dims = n /\ startIndices = dim_lo <$> dims /\ limitIndices = dim_hi <$> dims /\ strides = dim_stride <$> dims.
Proof.
  intros <- Hl Hs. exists (zip (zip startIndices limitIndices) strides).
  split; [rewrite !length_zip_with; lia|]. revert limitIndices strides Hl Hs.
  induction startIndices as [|a l IH]; intros [|b l'] [|c l''] Hl Hs; try done. cbn in *.
  destruct (IH l' l'') as (E1 & E2 & E3); [lia|lia|]. split; [by f_equal|]. split; by f_equal.
Qed.

Lemma slice_dim_sizes dims os rs : length dims = length os ->
  (forall d : nat, (d < length os)%nat -> exists lo hi st s, (dim_lo <$> dims) !! d = Some lo /\ (dim_hi <$> dims) !! d = Some hi /\
    (dim_stride <$> dims) !! d = Some st /\ os !! d = Some s /\ 0 <= lo <= hi /\ hi <= s /\ 0 < st /\
    rs !! d = Some (divideCeil (hi - lo) st)) -> length rs = length os ->
  Forall (fun d => 0 < dim_stride d) dims /\ rs = dim_size <$> dims.
Proof.
  intros Hdl Hd Hrl.
  assert (forall k d, dims !! k = Some d -> 0 < dim_stride d /\ rs !! k = Some (dim_size d)) as Hk.
  { intros k d Hkd. destruct (Hd k) as (lo & hi & st & s & H1 & H2 & H3 & _ & _ & _ & H6 & H7);
      [apply lookup_lt_Some in Hkd; lia|].
    rewrite list_lookup_fmap, Hkd in H1, H2, H3. cbn in H1, H2, H3. by simplify_eq. }
  split; [apply Forall_lookup; intros k d Hkd; by apply (Hk k)|].
  apply list_eq_same_length with (length dims); [by rewrite length_fmap|by rewrite Hrl|].
  intros k y z _ Hy Hz. apply list_lookup_fmap_Some in Hz as (d & -> & Hkd). apply Hk in Hkd as [_ Hkd]. congruence.
Qed.

(** The values of a slice: the operand's, at [start + i * strides]. *)
Theorem fold_slice_correct options x tx startIndices limitIndices strides resultType a :
  represents x tx -> length limitIndices = length (getShape (attr_type x)) -> length strides = length (getShape (attr_type x)) ->
  inferSliceOp (attr_type x) startIndices limitIndices strides = Ok resultType ->
  fold_slice options startIndices limitIndices strides resultType x = Ok a ->
  result_is resultType (sliceOp tx startIndices strides resultType) (represents a).
Proof.
  intros Hx Hlim Hstr Hinf Ha. pose proof Hx as (Hfull & Htx & _). unfold fold_slice in Ha. checks Ha.
  assert (result_is resultType (sliceOp tx startIndices strides resultType) (reindexed (slice_index startIndices strides) tx)) as Hr.
  { eapply sliceOp_spec; [done|by rewrite (represents_shape _ _ Hx)|]. rewrite Htx. exact Hinf. }
  pose proof (represents_shaped _ _ Hx) as (_ & Hs & _). apply inferSliceOp_inv in Hinf as (Hlen & He & Hrl & Hd); [|done].
  destruct (getSplatValue x) as [v|] eqn:Hsp.
  { injection Ha as <-. apply splat_values in Hsp. by eapply reindexed_splat. }
  checks Ha. destruct (slice_dims startIndices limitIndices strides _ Hlen Hlim Hstr) as (dims & Hdl & -> & -> & ->).
  destruct (slice_dim_sizes _ _ _ Hdl Hd Hrl) as [Hpos Hsize].
  apply sliceType_values in Ha as (Hat & Hl & Hv); [|done|done|done|].
  - by eapply reindexed_represents.
  - destruct Hr as (t & _ & Ht & Hft & _). apply full_shape_ok in Hft. unfold getTensorShape in Hft. by rewrite Ht in Hft.
Qed.

(** ** iota, at most one element *)
Lemma prod_z_ones s : Forall (fun d => 0 <= d) s -> prod_z s = 1 -> Forall (fun d => d = 1) s.
Proof.
  induction 1 as [|d s Hd Hs IH]; [done|]. rewrite prod_z_cons. intros [-> Hp]%Z.eq_mul_1_nonneg; [|done].
  constructor; [done|by apply IH].
Qed.

Lemma foldM_mul_ones s : Forall (fun d => d = 1) s -> foldM (fun d n => i64 (n * d)) s 1 = Ok 1.
Proof. induction 1 as [|d s -> Hs IH]; [done|]. cbn [foldM]. rewrite i64_ok by (unfold int64_min, int64_max; lia). by cbind. Qed.

Theorem fold_iota_correct options iotaDimension shape s w d a :
  shaped_ok (shaped shape (IntegerType s w)) -> int_type s w = true ->
  0 <= iotaDimension -> shape !! Z.to_nat iotaDimension = Some d ->
  fold_iota options iotaDimension (shaped shape (IntegerType s w)) = Ok a ->
  result_is (shaped shape (IntegerType s w)) (iotaOp iotaDimension (shaped shape (IntegerType s w))) (represents a).
Proof.
  intros Hty Hi Hdim Hd Ha. pose proof Hty as (_ & Hs%shape_ok_nonneg & _). cbn [shaped getShape] in Hs.
  destruct (iota_correct iotaDimension shape s w d Hty Hi Hdim Hd) as (t & Ht & Htt & Hft & Hg).
  assert (attr_type a = shaped shape (IntegerType s w) /\ Z.of_nat (length (attr_values a)) = prod_z shape /\
    forall v, v ∈ attr_values a -> v = VInt (apint w 0) /\ d = 1) as (Hat & Hl & Hv).
  { unfold fold_iota in Ha. checks Ha. cbn [shaped getElementType getIntOrFloatBitWidth mbind result_bind getNumElements getShape] in Ha.
    change (getNumElements (shaped shape (IntegerType s w))) with (prod_z shape) in Ha.
    destruct (Z.eqb_spec (prod_z shape) 0) as [Hz|Hz].
    { injection Ha as <-. split; [done|]. split; [done|]. by intros v Hv%elem_of_nil. }
    apply bind_ok in Ha as ([] & H1%ensure_ok & Ha). apply Z.eqb_eq in H1. pose proof (prod_z_ones _ Hs H1) as Hone.
    rewrite (proj2 (at_z_ok _ _ _)) in Ha by done. cbn [mbind result_bind shaped getShape] in Ha.
    rewrite !foldM_mul_ones in Ha by (first [by apply Forall_take|by apply Forall_drop]). cbn [mbind result_bind] in Ha.
    eapply Forall_lookup_1 in Hone; [|exact Hd]. cbn in Hone. subst d.
    change (seqZ 0 1) with [0] in Ha. cbn [flat_map map app] in Ha. injection Ha as <-. cbn [attr_type attr_values length].
    split; [done|]. split; [lia|]. intros v ->%list_elem_of_singleton. split; [|done]. unfold int_value.
    destruct (isSupportedBooleanType (IntegerType s w)) eqn:Hb; [|done].
    apply int_type_pos in Hi. apply supported_boolean_inv in Hb as [= _ ->]. lia. }
  exists t. split; [done|]. split; [done|]. split; [done|]. split; [done|]. rewrite Hat. split; [done|]. split; [done|].
  intros i v Hb Hiv. apply list_elem_of_lookup_2, Hv in Hiv as [-> ->]. cbn [shaped getShape] in Hb.
  destruct (in_bounds_lookup_Some _ _ _ _ Hb Hd) as (y & Hy & Hy1). assert (y = 0) as -> by lia. by apply Hg.
Qed.
End FolderMoves.
