(* ===== verification/FolderJoin.v ===== *)
(** * The constant folder agrees with the interpreter: concatenations, selections, sizes and reversals *)
From S2P Require Import Prelude Types Support Index Element ElementFacts Tensor TensorFacts Samples Base TypeInference Ops OpsFacts OpsPermute OpsJoin OpsElementwise Eval Folder FolderFacts FolderMoves.

Section FolderJoin.
Context {L : LLVM} {Laws : LLVMLaws L}.

(** ** concatenate: row by row, a chunk of each input *)
Lemma foldM_mul_prod l : forall m n, foldM (fun d n => i64 (n * d)) l m = Ok n -> n = m * prod_z l.
Proof.
  induction l as [|d l IH]; intros m n; cbn [foldM]; [intros [= <-]; unfold prod_z; cbn; lia|].
  intros (x & [-> _]%i64_inv & H)%bind_ok. apply IH in H as ->. rewrite prod_z_cons. lia.
Qed.

(** The value at position [r] of row [i]: in the chunk of [chunk a] values of the
    input [a] that the position falls in. *)
Fixpoint concat_value (chunk : DenseElementsAttr -> Z) (attrs : list DenseElementsAttr) (i r : Z) : option Value_ :=
  match attrs with
  | [] => None
  | a :: attrs => if r <? chunk a then attr_values a !! Z.to_nat (i * chunk a + r) else concat_value chunk attrs i (r - chunk a)
  end.

Definition row_size (chunk : DenseElementsAttr -> Z) (attrs : list DenseElementsAttr) : Z :=
  foldr (fun a n => chunk a + n) 0 attrs.

Lemma sub_range_inv values start n l : sub_range values start n = Ok l -> 0 <= n ->
  Z.of_nat (length l) = n /\ forall r, 0 <= r < n -> l !! Z.to_nat r = values !! Z.to_nat (start + r).
Proof.
  unfold sub_range. destruct (_ && _) eqn:E; [|done]. intros [= <-] Hn. split.
  - rewrite length_take, length_drop. lia.
  - intros r Hr. rewrite lookup_take_lt, lookup_drop by lia. f_equal. lia.
Qed.

Definition concat_row (topSize i : Z) (constants : list DenseElementsAttr) (newElems : list Value_) : result (list Value_) :=
  foldM (fun attr newElems =>
      bottomSize ← div_z (getNumElements (attr_type attr)) topSize;
      chunk ← sub_range (attr_values attr) (i * bottomSize mod 2 ^ 64) bottomSize;
      Ok (newElems ++ chunk)) constants newElems.

Definition chunks_ok (topSize : Z) (chunk : DenseElementsAttr -> Z) (attrs : list DenseElementsAttr) : Prop :=
  Forall (fun a => div_z (getNumElements (attr_type a)) topSize = Ok (chunk a) /\ 0 <= chunk a /\ topSize * chunk a < 2 ^ 64) attrs.

Lemma concat_row_spec topSize chunk i attrs : 0 <= i < topSize -> forall acc acc', chunks_ok topSize chunk attrs ->
  concat_row topSize i attrs acc = Ok acc' ->
  exists row, acc' = acc ++ row /\ Z.of_nat (length row) = row_size chunk attrs /\
    forall r, 0 <= r < row_size chunk attrs -> row !! Z.to_nat r = concat_value chunk attrs i r.
Proof.
  unfold concat_row. intros Hi. induction attrs as [|a attrs IH]; intros acc acc' Hc H; cbn [foldM] in H.
  { injection H as <-. exists []. rewrite app_nil_r. split; [done|]. split; [done|]. cbn. lia. }
  apply Forall_cons in Hc as [(Hdiv & Ha & Hmax) Hc].
  apply bind_ok in H as (acc1 & H1 & H). rewrite Hdiv in H1. cbn [mbind result_bind] in H1.
  rewrite Z.mod_small in H1 by nia.
  apply bind_ok in H1 as (l & [Hl Hlv]%sub_range_inv & [= <-]); [|done].
  apply IH in H as (row & -> & Hrow & Hv); [|done]. exists (l ++ row). rewrite <- app_assoc. split; [done|].
  cbn [row_size foldr]. fold (row_size chunk attrs). rewrite length_app. split; [lia|]. intros r Hr. cbn [concat_value].
  destruct (Z.ltb_spec r (chunk a)).
  - rewrite lookup_app_l by lia. apply Hlv. lia.
  - rewrite lookup_app_r by lia. rewrite <- Hv by lia. f_equal. lia.
Qed.

Lemma concat_rows_spec topSize chunk attrs n acc : 0 <= n <= topSize -> chunks_ok topSize chunk attrs ->
  foldM (fun i newElems => concat_row topSize i attrs newElems) (seqZ 0 n) [] = Ok acc ->
  Z.of_nat (length acc) = n * row_size chunk attrs /\
  forall i r, 0 <= i < n -> 0 <= r < row_size chunk attrs ->
    acc !! Z.to_nat (i * row_size chunk attrs + r) = concat_value chunk attrs i r.
Proof.
  intros Hn Hc. rewrite <- (Z2Nat.id n) by lia. apply (foldM_seqZ_ind _ (fun n acc => Z.of_nat (length acc) = Z.of_nat n * row_size chunk attrs /\
    forall i r, 0 <= i < Z.of_nat n -> 0 <= r < row_size chunk attrs ->
      acc !! Z.to_nat (i * row_size chunk attrs + r) = concat_value chunk attrs i r)).
  - split; [done|]. lia.
  - intros k s s' Hk [Hl Hv] H. destruct (concat_row_spec topSize chunk (Z.of_nat k) attrs ltac:(lia) _ _ Hc H) as (row & -> & Hrow & Hrv).
    rewrite length_app. split; [lia|]. intros i r Hi Hr.
    destruct (decide (i = Z.of_nat k)) as [->|Hne].
    + rewrite lookup_app_r by nia. rewrite <- Hrv by done. f_equal. nia.
    + rewrite lookup_app_l by nia. apply Hv; lia.
Qed.

(** The inputs' shapes, which differ in the size of the dimension only. *)
Lemma joins_shape k rs t s : joins k rs t -> getTensorShape t !! k = Some s ->
  getTensorShape t = take k rs ++ s :: drop (S k) rs.
Proof.
  intros [Hl Hd] Hs. apply lookup_lt_Some in Hs as Hk.
  rewrite <- (take_drop_middle _ _ _ Hs) at 1. f_equal; [|f_equal].
  - apply list_eq. intros d. destruct (decide (d < k)%nat).
    + rewrite !lookup_take_lt by done. apply Hd. lia.
    + rewrite !lookup_take_ge by lia. done.
  - apply list_eq. intros d. rewrite !lookup_drop. apply Hd. lia.
Qed.

Lemma flat_split (k : nat) rs (i : Index) R x : rs !! k = Some R -> i !! k = Some x ->
  flat rs i = flat (take k rs) (take k i) * (R * prod_z (drop (S k) rs)) + (x * prod_z (drop (S k) rs) + flat (drop (S k) rs) (drop (S k) i)).
Proof.
  intros HR Hx. apply lookup_lt_Some in HR as Hk. apply lookup_lt_Some in Hx as Hk'.
  transitivity (flat (take k rs ++ R :: drop (S k) rs) (take k i ++ x :: drop (S k) i)); [by rewrite !take_drop_middle|].
  rewrite flat_app by (rewrite !length_take; lia). cbn [flat]. by rewrite prod_z_cons.
Qed.

Definition chunk_size (k : nat) (rs : list Z) (a : DenseElementsAttr) : Z :=
  default 0 (getShape (attr_type a) !! k) * prod_z (drop (S k) rs).

Lemma represents_types attrs ts : Forall2 represents attrs ts -> getTensorType <$> ts = attr_type <$> attrs.
Proof. induction 1 as [|a t attrs ts (_ & Ha & _) _ IH]; [done|]. rewrite !fmap_cons. by rewrite Ha, IH. Qed.

Lemma row_size_total k rs attrs ts : Forall2 represents attrs ts ->
  row_size (chunk_size k rs) attrs = total k ts * prod_z (drop (S k) rs).
Proof.
  induction 1 as [|a t attrs ts Ha _ IH]; [done|]. cbn [row_size total foldr].
  fold (row_size (chunk_size k rs) attrs) (total k ts). rewrite IH. unfold chunk_size. rewrite (represents_shape _ _ Ha). lia.
Qed.

Lemma chunk_divides (k : nat) rs a t : represents a t -> joins k rs t -> (k < length rs)%nat ->
  0 < prod_z (take k rs) -> Forall (fun d => 0 <= d) rs ->
  div_z (getNumElements (attr_type a)) (prod_z (take k rs)) = Ok (chunk_size k rs a) /\
  0 <= chunk_size k rs a /\ prod_z (take k rs) * chunk_size k rs a < 2 ^ 64.
Proof.
  intros Ha Hj Hk Htop Hrs. pose proof (represents_shaped _ _ Ha) as (_ & Hs%shape_ok_nonneg & n & Hn).
  apply tensor_size in Hn as (_ & _ & _ & Hmax & _).
  destruct (lookup_lt_is_Some_2 (getTensorShape t) k) as [s Hsk]; [destruct Hj; lia|].
  pose proof (joins_shape _ _ _ _ Hj Hsk) as Hsh. rewrite (represents_shape _ _ Ha) in Hsk, Hsh.
  eapply Forall_lookup_1 in Hs; [|exact Hsk]. cbn in Hs.
  pose proof (prod_z_nonneg (drop (S k) rs) ltac:(by apply Forall_drop)) as Hp.
  unfold chunk_size, getNumElements, div_z. rewrite Hsk. cbn [from_option id]. rewrite Hsh in Hmax |- *.
  rewrite prod_z_app, prod_z_cons in *. rewrite (proj2 (Z.eqb_neq _ 0)) by lia.
  replace (_ * (s * _)) with (s * prod_z (drop (S k) rs) * prod_z (take k rs)) in * by lia.
  rewrite Z.quot_mul by lia. unfold int64_max in *. split; [apply i64_ok; unfold int64_min, int64_max; nia|nia].
Qed.

(** Row and position of an index lead to the element of the input its coordinate falls in. *)
Lemma concat_value_at (k : nat) rs e0 (ix : Index) y v : in_bounds ix rs -> ix !! k = Some y ->
  forall attrs ts x,
  Forall2 represents attrs ts -> Forall (joins k rs) ts -> Forall (fun a => getElementType (attr_type a) = e0) attrs ->
  0 <= x ->
  concat_value (chunk_size k rs) attrs (flat (take k rs) (take k ix)) (x * prod_z (drop (S k) rs) + flat (drop (S k) rs) (drop (S k) ix))
    = Some v ->
  concat_at ts k ix x = Ok (MkElement e0 v).
Proof.
  intros Hix Hy attrs ts x Hr. revert x.
  assert (in_bounds (drop (S k) ix) (drop (S k) rs)) as Hd%flat_bounds by (by apply Forall2_drop).
  pose proof (in_bounds_length _ _ Hix) as Hlen. pose proof (lookup_lt_Some _ _ _ Hy) as Hk.
  induction Hr as [|a t attrs ts Ha Hr IH]; intros x Hj He Hx H; cbn [concat_value concat_at] in *; [done|].
  apply Forall_cons in Hj as [Hjt Hj], He as [Het He].
  destruct (lookup_lt_is_Some_2 (getTensorShape t) k) as [s Hs]; [destruct Hjt; lia|].
  pose proof (joins_shape _ _ _ _ Hjt Hs) as Hsh. pose proof (joins_in_bounds k rs t ix s x Hjt Hs Hix) as Hb.
  rewrite (represents_shape _ _ Ha) in *. rewrite Hs.
  assert (chunk_size k rs a = s * prod_z (drop (S k) rs)) as Hc by (unfold chunk_size; by rewrite Hs).
  rewrite Hc in H. cbn [from_option id].
  destruct (Z.ltb_spec x s) as [Hlt|Hge].
  - destruct (Z.ltb_spec (x * prod_z (drop (S k) rs) + flat (drop (S k) rs) (drop (S k) ix)) (s * prod_z (drop (S k) rs))); [|nia].
    pose proof Ha as (_ & _ & _ & Hg). rewrite <- Het. apply Hg; [by apply Hb|]. rewrite <- H. do 2 f_equal.
    rewrite Hsh at 1. replace (<[k:=x]> ix) with (take k ix ++ x :: drop (S k) ix) by (symmetry; by apply insert_take_drop).
    rewrite flat_app by (rewrite !length_take; lia). cbn [flat]. rewrite prod_z_cons. lia.
  - destruct (Z.ltb_spec (x * prod_z (drop (S k) rs) + flat (drop (S k) rs) (drop (S k) ix)) (s * prod_z (drop (S k) rs))); [nia|].
    apply IH; [done|done|lia|]. rewrite <- H. f_equal. lia.
Qed.

Theorem fold_concatenate_correct options dimension resultType constants inputs a :
  Forall2 represents constants inputs -> shaped_ok resultType ->
  Forall (fun x => getElementType (attr_type x) = getElementType resultType) constants ->
  inferConcatenateOp (attr_type <$> constants) dimension = Ok resultType ->
  fold_concatenate options dimension resultType constants = Ok a ->
  result_is resultType (concatenateOp inputs dimension resultType) (represents a).
Proof.
  intros Hr Hty He Hinf Ha. rewrite <- (represents_types _ _ Hr) in Hinf.
  assert (Forall tensor_full inputs) as Hf by (clear -Hr; induction Hr as [|? ? ? ? (? & _)]; by constructor).
  assert (Forall (fun t => getTensorElementType t = getElementType resultType) inputs) as Het.
  { clear -Hr He. induction Hr as [|x t ? ? (_ & Hxt & _) _ IH]; constructor; apply Forall_cons in He as [Hx He]; [|by apply IH].
    unfold getTensorElementType. congruence. }
  apply inferConcatenateOp_inv in Hinf as (k & _ & _ & -> & _ & _ & Hj & HR); [|done].
  destruct (concatenateOp_spec k inputs resultType Hf Het Hj HR Hty) as (t & Ht & Htt & Hft & Hg).
  unfold fold_concatenate in Ha. apply bind_ok in Ha as ([] & _ & Ha). apply bind_ok in Ha as ([] & _ & Ha).
  apply bind_ok in Ha as ([] & _ & Ha). rewrite Nat2Z.id in Ha. apply bind_ok in Ha as (top & Htop%foldM_mul_prod & Ha).
  rewrite Z.mul_1_l in Htop. subst top. apply bind_ok in Ha as (values & Hv & Ha).
  destruct (Z.eqb_spec (Z.of_nat (length values)) (getNumElements resultType)) as [Hl|]; [|done]. injection Ha as <-.
  exists t. split; [done|]. split; [done|]. split; [done|]. split; [done|]. cbn [attr_type attr_values]. split; [done|]. split; [done|].
  intros i v Hi Hiv. pose proof Hty as (_ & Hs%shape_ok_nonneg & _).
  destruct (in_bounds_lookup_Some _ _ _ _ Hi HR) as (x & Hx & Hxb). rewrite (Hg i x Hi Hx).
  pose proof (lookup_lt_Some _ _ _ HR) as Hk. pose proof (in_bounds_length _ _ Hi) as Hil.
  assert (in_bounds (take k i) (take k (getShape resultType))) as Hti by (by apply Forall2_take).
  assert (in_bounds (drop (S k) i) (drop (S k) (getShape resultType))) as Hdi%flat_bounds by (by apply Forall2_drop).
  pose proof (in_bounds_prod_pos _ _ Hti) as Htop. apply flat_bounds in Hti.
  assert (chunks_ok (prod_z (take k (getShape resultType))) (chunk_size k (getShape resultType)) constants) as Hdiv.
  { clear -Hr Hj Hk Htop Hs Laws. unfold chunks_ok. induction Hr as [|c tc cs ts Hc _ IH]; constructor;
      apply Forall_cons in Hj as [Hjc Hj]; [by eapply chunk_divides|by apply IH]. }
  destruct (concat_rows_spec _ _ _ _ _ (conj (Z.lt_le_incl _ _ Htop) (Z.le_refl _)) Hdiv Hv) as [_ Hrow]. rewrite (row_size_total _ _ _ _ Hr) in Hrow.
  eapply concat_value_at; [done|done|done|done|done|lia|]. rewrite <- Hrow by nia. rewrite <- Hiv. f_equal.
  by rewrite (flat_split k _ i _ x HR Hx).
Qed.

Context {C : CommonFolders} {CLaws : CommonFoldersLaws C}.

(** ** select *)
Lemma predicate_read type p tp i : represents p tp -> getElementType (attr_type p) = i1 ->
  getShape (attr_type p) = [] \/ getShape (attr_type p) = getShape type -> in_bounds i (getShape type) ->
  exists b, get_or_scalar tp i = Ok (bool_el b) /\
    attr_values p !! Z.to_nat (flat (getShape (attr_type p)) (spread (getShape (attr_type p)) i)) = Some (VBool b).
Proof.
  intros Hp Ht Hs Hi. rewrite get_or_scalar_spread, (represents_shape _ _ Hp).
  assert (in_bounds (spread (getShape (attr_type p)) i) (getShape (attr_type p))) as Hb.
  { rewrite <- (represents_shape _ _ Hp) in *. by eapply spread_in_bounds. }
  destruct (represents_get _ _ _ Hp Hb) as (v & Hv & -> & _). pose proof (bool_values _ _ Hp Ht) as Hall.
  eapply Forall_lookup_1 in Hall; [|exact Hv]. destruct Hall as [b ->]. exists b. by rewrite Ht.
Qed.

(** An integer of a type, through the attribute's [APInt] and back. *)
Lemma int_value_apint t v x : element_ok (MkElement t v) -> isa_IntegerType t = true -> attr_apint v = Ok x -> int_value t x = v.
Proof.
  intros Hv Ht Hx. destruct (element_ok_cases _ Hv) as [(s & w & y & E & Hi & _)|[(b & E)|[(f & E & _)|(re & im & E & _)]]];
    injection E as -> ->; try done; injection Hx as <-.
  - by apply int_value_int.
  - unfold int_value. cbn [isSupportedBooleanType i1 isSignlessInteger]. by rewrite Z.eqb_refl, isZero_bit, negb_involutive.
Qed.

Theorem fold_select_correct options resultType p onTrue onFalse tp tt tf a :
  shaped_ok resultType -> represents p tp -> represents onTrue tt -> represents onFalse tf ->
  getElementType (attr_type p) = i1 -> attr_type onTrue = resultType -> attr_type onFalse = resultType ->
  getShape (attr_type p) = getShape resultType \/ getShape (attr_type p) = [] /\ is_Some (getSplatValue p) ->
  fold_select options resultType p onTrue onFalse = Ok a ->
  result_is resultType (selectOp tp tt tf resultType) (represents a).
Proof.
  intros Hty Hp Htt Htf Hb Ht Hf Hs Ha.
  assert (getShape (attr_type p) = [] \/ getShape (attr_type p) = getShape resultType) as Hps by tauto.
  assert (attr_type a = resultType /\ Z.of_nat (length (attr_values a)) = prod_z (getShape resultType) /\
    forall i v b, in_bounds i (getShape resultType) -> attr_values a !! Z.to_nat (flat (getShape resultType) i) = Some v ->
      attr_values p !! Z.to_nat (flat (getShape (attr_type p)) (spread (getShape (attr_type p)) i)) = Some (VBool b) ->
      attr_values (if b then onTrue else onFalse) !! Z.to_nat (flat (getShape resultType) i) = Some v) as (Hat & Hl & Hv).
  { unfold fold_select in Ha. apply bind_ok in Ha as ([] & _ & Ha). apply bind_ok in Ha as ([] & Hdt%ensure_ok & Ha). pose proof Htt as (_ & _ & Hlt & _). pose proof Htf as (_ & _ & Hlf & _).
    rewrite Ht in Hlt. rewrite Hf in Hlf. destruct (getSplatValue p) as [pred|] eqn:Hsp.
    - apply splat_values in Hsp. apply bind_ok in Ha as (x & Hx & [= <-]).
      split; [by destruct (isZero x)|]. split; [by destruct (isZero x)|]. intros i v b Hi Hiv Hpb.
      eapply Forall_lookup_1 in Hsp; [|exact Hpb]. subst pred. injection Hx as <-. rewrite isZero_bit in Hiv. by destruct b.
    - destruct Hs as [Hs|[_ []]]; [|done]. pose proof (represents_values _ _ Htt) as Hvt. pose proof (represents_values _ _ Htf) as Hvf.
      rewrite Ht in Hvt. rewrite Hf in Hvf. pose proof Hp as (_ & _ & Hlp & _). rewrite Hs in Hlp |- *.
      apply bind_ok in Ha as ([] & Hnf%ensure_ok & Ha).
      assert (isa_IntegerType (getElementType resultType) = true) as Hint by (by destruct (isa_IntegerType _), (isa_FloatType _), (optimizeFloat _)).
      checks Ha. apply bind_ok in Ha as (values & Hm%mapM_inv & [= <-]). cbn [attr_type attr_values].
      split; [done|]. split; [apply Forall2_length in Hm; rewrite !length_zip_with in Hm; lia|]. intros i v b Hi Hiv Hpb.
      destruct (Forall2_lookup_r _ _ _ _ _ Hm Hiv) as ((pv & (tv & fv)) & Hz & Hc).
      apply lookup_zip_with_Some in Hz as (? & ? & [= <- <-] & Hpv & Hz).
      apply lookup_zip_with_Some in Hz as (? & ? & [= <- <-] & Htv & Hfv).
      assert (spread (getShape resultType) i = i) as Hsi by (destruct Hi; done). rewrite Hsi, Hpv in Hpb. injection Hpb as ->.
      apply bind_ok in Hc as (x & [= <-] & Hc). apply bind_ok in Hc as (y & Hy & Hc). apply bind_ok in Hc as (z & Hz & [= <-]).
      rewrite isZero_bit, negb_involutive. eapply Forall_lookup_1 in Hvt, Hvf; [|exact Hfv|exact Htv].
      destruct b; [rewrite Htv|rewrite Hfv]; f_equal; symmetry; by apply int_value_apint. }
  unfold selectOp. apply build_represents; [done|done|done|]. intros i v Hi Hiv.
  destruct (predicate_read _ _ _ _ Hp Hb Hps Hi) as (b & -> & Hpb). cbind.
  change (getBooleanValue (bool_el b)) with (Ok b : result bool). cbind. pose proof (Hv i v b Hi Hiv Hpb) as Hsel.
  assert (exists t c, (if b then tt else tf) = t /\ (if b then onTrue else onFalse) = c /\ represents c t /\ attr_type c = resultType)
    as (t & c & Et & Ec & Hct & Hcty) by (destruct b; eauto 10).
  replace (if b then get tt i else get tf i) with (get t i) by (rewrite <- Et; by destruct b). rewrite Ec in Hsel.
  rewrite <- Hcty in *. destruct (represents_get _ _ i Hct Hi) as (v' & Hv' & -> & He). rewrite Hsel in Hv'. by injection Hv' as <-.
Qed.

(** ** get_dimension_size *)
Lemma getDimensionSizeOp_spec operand dimension size :
  tensor_full operand -> at_z (getTensorShape operand) dimension = Ok size ->
  result_is (shaped [] (IntegerType Signless 32)) (getDimensionSizeOp operand dimension (shaped [] (IntegerType Signless 32)))
    (fun t => get t [] = Ok (int_el Signless 32 size)).
Proof.
  intros Hfull Hsize. set (type := shaped [] (IntegerType Signless 32)).
  assert (shaped_ok type) as Hty by (apply shaped_check_ok; vm_compute; reflexivity).
  destruct (newTensor_ok type Hty) as (t0 & Ht0 & Hok0 & Hty0).
  destruct (set_spec t0 [] (int_el Signless 32 size)) as (t & Ht & Hok & Htt & Hg & _);
    [done|unfold getTensorShape; rewrite Hty0; constructor|by apply int_el_ok|unfold getTensorElementType; by rewrite Hty0|].
  exists t. split; [|split; [congruence|split; [split; [done|]|done]]].
  - unfold getDimensionSizeOp. rewrite Ht0. cbind. rewrite Hsize. cbind.
    change (getElementType type) with (IntegerType Signless 32). rewrite convert_i64_int; [by cbind|done|]. apply at_z_ok in Hsize as [_ Hsize]. apply full_shape_ok in Hfull.
    eapply Forall_lookup_1 in Hfull; [|exact Hsize]. cbn in Hfull. unfold int64_max in Hfull. lia.
  - rewrite Htt, Hty0. intros i Hi. apply Forall2_nil_inv_r in Hi as ->. exists (int_el Signless 32 size). split; [done|]. split; [by apply int_el_ok|done].
Qed.

Theorem fold_get_dimension_size_correct options operand dimension a :
  tensor_full operand ->
  fold_get_dimension_size options dimension (getTensorType operand) (shaped [] (IntegerType Signless 32)) = Ok a ->
  result_is (shaped [] (IntegerType Signless 32)) (getDimensionSizeOp operand dimension (shaped [] (IntegerType Signless 32))) (represents a).
Proof.
  intros Hfull Ha. unfold fold_get_dimension_size in Ha. checks Ha. apply bind_ok in Ha as (size & Hsize & Ha). checks Ha. injection Ha as <-.
  destruct (getDimensionSizeOp_spec operand dimension size Hfull Hsize) as (t & Ht & Htt & Hft & Hg).
  exists t. do 3 (split; [done|]). split; [done|]. split; [done|]. split; [done|]. intros i v Hi Hv.
  apply Forall2_nil_inv_r in Hi as ->. rewrite Hg. cbn [splat attr_values] in Hv. by apply lookup_replicate in Hv as [-> _].
Qed.
End FolderJoin.

(** ** Reversals

    [foldReverseHelper] swaps windows of the values in place, one dimension at a
    time; [reverseOp] reads the operand at the reversed index.  The swaps of a
    dimension exchange disjoint pairs of positions, so their order is irrelevant
    and together they reverse that coordinate of every index. *)
(** ** Disjoint swaps *)
Section Swaps.
Context {L : LLVM}.

Lemma swap_z_inv values a b l : swap_z values a b = Ok l ->
  0 <= a /\ 0 <= b /\ exists x y, values !! Z.to_nat a = Some x /\ values !! Z.to_nat b = Some y /\
    l = <[Z.to_nat b := x]> (<[Z.to_nat a := y]> values).
Proof.
  unfold swap_z. intros H. apply bind_ok in H as (x & [Ha Hx]%at_z_ok & H). apply bind_ok in H as (y & [Hb Hy]%at_z_ok & H).
  apply bind_ok in H as (l1 & [_ ->]%set_z_inv & H). apply set_z_inv in H as [_ ->]. split; [done|]. split; [done|]. by exists x, y.
Qed.

Definition swaps (ps : list (Z * Z)) (values : list Value_) : result (list Value_) :=
  foldM (fun p values => swap_z values p.1 p.2) ps values.

(** Swaps of disjoint pairs exchange each pair and keep everything else. *)
Lemma swaps_spec ps : forall values l, NoDup (ps.*1 ++ ps.*2) -> swaps ps values = Ok l ->
  length l = length values /\
  (forall a b, (a, b) ∈ ps -> 0 <= a /\ 0 <= b /\ l !! Z.to_nat a = values !! Z.to_nat b /\ l !! Z.to_nat b = values !! Z.to_nat a) /\
  (forall k, 0 <= k -> k ∉ ps.*1 -> k ∉ ps.*2 -> l !! Z.to_nat k = values !! Z.to_nat k).
Proof.
  unfold swaps. induction ps as [|[a b] ps IH]; intros values l Hnd H; cbn [foldM fst snd] in H.
  { injection H as <-. split; [done|]. split; [by intros ? ? ?%elem_of_nil|done]. }
  apply bind_ok in H as (l1 & (Ha & Hb & x & y & Hx & Hy & ->)%swap_z_inv & H).
  rewrite !fmap_cons in *. cbn [fst snd] in *. cbn [app] in Hnd. apply NoDup_cons in Hnd as [Hna Hnd].
  rewrite not_elem_of_app, not_elem_of_cons in Hna. destruct Hna as (Ha1 & Hab & Ha2).
  rewrite <- Permutation_middle in Hnd. apply NoDup_cons in Hnd as [Hnb Hnd]. rewrite not_elem_of_app in Hnb. destruct Hnb as [Hb1 Hb2].
  destruct (IH _ _ Hnd H) as (Hl & Hin & Hout). clear IH H. rewrite !length_insert in Hl. split; [done|].
  assert (forall k, 0 <= k -> k <> a -> k <> b ->
    <[Z.to_nat b:=x]> (<[Z.to_nat a:=y]> values) !! Z.to_nat k = values !! Z.to_nat k) as Hother
    by (intros k ? ? ?; rewrite !list_lookup_insert_ne by lia; done).
  assert (a <> b) as Hne by done.
  split.
  - intros a' b' [[= -> ->]|Hp]%elem_of_cons.
    + rewrite !Hout by done. split; [done|]. split; [done|]. apply lookup_lt_Some in Hx as Hxl. apply lookup_lt_Some in Hy as Hyl. split.
      * rewrite list_lookup_insert_ne, list_lookup_insert_eq by lia. done.
      * rewrite list_lookup_insert_eq by (rewrite length_insert; lia). done.
    + destruct (Hin a' b' Hp) as (? & ? & -> & ->). split; [done|]. split; [done|].
      apply (list_elem_of_fmap_2 fst) in Hp as Hp1. apply (list_elem_of_fmap_2 snd) in Hp as Hp2. cbn [fst snd] in Hp1, Hp2.
      by rewrite !Hother by (try done; intros ->; contradiction).
  - intros k Hk Hk1 Hk2. rewrite not_elem_of_cons in Hk1, Hk2. destruct Hk1, Hk2. rewrite Hout by done. by apply Hother.
Qed.
End Swaps.

(** ** Nested loops *)
Lemma foldM_ext {A St} (f g : A -> St -> result St) l s : (forall x s, x ∈ l -> f x s = g x s) -> foldM f l s = foldM g l s.
Proof.
  revert s. induction l as [|x l IH]; intros s H; [done|]. cbn [foldM]. rewrite H by (by left).
  destruct (g x s); [|done]. cbind. apply IH. intros. apply H. by right.
Qed.

Lemma foldM_fmap {A B St} (f : B -> St -> result St) (g : A -> B) l s : foldM f (g <$> l) s = foldM (fun x => f (g x)) l s.
Proof. revert s. induction l as [|x l IH]; intros s; [done|]. cbn. destruct (f (g x) s); [apply IH|done]. Qed.

Lemma foldM_indices {St} (f : Index -> St -> result St) d ds s :
  foldM f (indices (d :: ds)) s = foldM (fun x => foldM (fun i => f (x :: i)) (indices ds)) (seqZ 0 d) s.
Proof.
  cbn [indices]. revert s. induction (seqZ 0 d) as [|x l IH]; intros s; [done|]. cbn [flat_map foldM].
  rewrite foldM_app, foldM_fmap. destruct (foldM _ (indices ds) s); [apply IH|done].
Qed.

Lemma foldM_indices_nil {St} (f : Index -> St -> result St) s : foldM f (indices []) s = f [] s.
Proof. cbn. by destruct (f [] s). Qed.

Section Reverse.
Context {L : LLVM}.

(** A window's element and the one it is exchanged with. *)
Definition window_pair (numWindows windowSize : Z) (i : Index) : Z * Z :=
  match i with
  | [block; window; k] =>
      (block * (numWindows * windowSize) + window * windowSize + k,
       block * (numWindows * windowSize) + (numWindows - window - 1) * windowSize + k)
  | _ => (0, 0)
  end.

Definition window_pairs (numBlocks numWindows windowSize : Z) : list (Z * Z) :=
  window_pair numWindows windowSize <$> indices [numBlocks; Z.quot numWindows 2; windowSize].

Lemma in_bounds_3 i a b c : in_bounds i [a; b; c] <-> exists x y z, i = [x; y; z] /\ 0 <= x < a /\ 0 <= y < b /\ 0 <= z < c.
Proof.
  split.
  - intros H. inversion H as [|x ? i1 ? Hx H1]; subst. inversion H1 as [|y ? i2 ? Hy H2]; subst. inversion H2 as [|z ? i3 ? Hz H3]; subst.
    inversion H3; subst. by exists x, y, z.
  - intros (x & y & z & -> & ? & ? & ?). do 3 (constructor; [done|]). constructor.
Qed.

Lemma flat_3 a b c x y z : flat [a; b; c] [x; y; z] = x * (b * c) + y * c + z.
Proof. cbn [flat]. unfold prod_z. cbn [foldr]. lia. Qed.

Lemma window_pair_flat T R P b w k : window_pair R P [b; w; k] = (flat [T; R; P] [b; w; k], flat [T; R; P] [b; R - w - 1; k]).
Proof. rewrite !flat_3. done. Qed.

Lemma half_range R w : 0 <= w < Z.quot R 2 -> 0 <= w < R - w - 1 /\ R - w - 1 < R.
Proof.
  intros Hw. destruct (Z.le_gt_cases 0 R) as [H|H].
  - rewrite Z.quot_div_nonneg in Hw by lia. pose proof (Z.mul_div_le R 2). lia.
  - pose proof (Z.quot_opp_l R 2 ltac:(lia)). rewrite (Z.quot_div_nonneg (- R)) in H0 by lia. pose proof (Z.div_pos (-R) 2). lia.
Qed.

(** The pairs of all windows of all blocks are disjoint. *)
Lemma NoDup_window_pairs T R P : 0 <= P -> 0 <= R -> 0 <= T ->
  NoDup ((window_pairs T R P).*1 ++ (window_pairs T R P).*2).
Proof.
  intros HP HR HT. unfold window_pairs. rewrite <- !list_fmap_compose.
  assert (NoDup (indices [T; Z.quot R 2; P])) as Hnd.
  { apply NoDup_indices. repeat constructor; [done| |done]. apply Z.quot_pos; lia. }
  assert (forall i, i ∈ indices [T; Z.quot R 2; P] -> exists b w k, i = [b; w; k] /\
    in_bounds [b; w; k] [T; R; P] /\ in_bounds [b; R - w - 1; k] [T; R; P] /\ w < R - w - 1) as Hi.
  { intros i Hi%elem_of_indices. apply in_bounds_3 in Hi as (b & w & k & -> & ? & Hw & ?). apply half_range in Hw as [? ?].
    exists b, w, k. split; [done|]. split; [|split; [|lia]]; apply in_bounds_3; repeat eexists; lia. }
  apply NoDup_app. split; [|split].
  - apply NoDup_fmap_2_strong; [|done]. intros i j Hii Hjj. destruct (Hi i Hii) as (b & w & k & -> & ? & _), (Hi j Hjj) as (b' & w' & k' & -> & ? & _).
    cbn [compose]. rewrite !(window_pair_flat T). by apply flat_inj.
  - intros x (i & -> & Hii)%list_elem_of_fmap (j & E & Hjj)%list_elem_of_fmap.
    destruct (Hi i Hii) as (b & w & k & -> & ? & _ & ?), (Hi j Hjj) as (b' & w' & k' & -> & _ & ? & ?).
    cbn [compose] in E. rewrite !(window_pair_flat T) in E. cbn [fst snd] in E. apply flat_inj in E; [|done|done]. injection E. lia.
  - apply NoDup_fmap_2_strong; [|done]. intros i j Hii Hjj. destruct (Hi i Hii) as (b & w & k & -> & _ & ? & _), (Hi j Hjj) as (b' & w' & k' & -> & _ & ? & _).
    cbn [compose]. rewrite !(window_pair_flat T). cbn [fst snd]. intros E. apply flat_inj in E; [|done|done]. injection E as -> E ->. by replace w with w' by lia.
Qed.

Lemma reverse_dim_swaps shape stride (d : nat) R P T values : 0 < R -> 0 < P -> 0 < T ->
  R * P <= int64_max -> T * (R * P) <= int64_max ->
  shape !! d = Some R -> stride !! d = Some (R * P) ->
  reverse_dim shape stride (T * (R * P)) (Z.of_nat d) values = swaps (window_pairs T R P) values.
Proof.
  intros HR HP HT H1 H2 Hs Hst. unfold reverse_dim. rewrite (at_z_some _ _ _ Hs), (at_z_some _ _ _ Hst). cbind.
  assert (div_z (R * P) R = Ok P) as ->.
  { unfold div_z. rewrite (proj2 (Z.eqb_neq _ 0)), (Z.mul_comm R), Z.quot_mul by lia. apply i64_ok. unfold int64_min, int64_max in *. nia. }
  assert (div_z (T * (R * P)) (R * P) = Ok T) as ->.
  { unfold div_z. rewrite (proj2 (Z.eqb_neq _ 0)), Z.quot_mul by nia. apply i64_ok. unfold int64_min, int64_max in *. nia. }
  cbind. unfold swaps, window_pairs. rewrite foldM_fmap, !foldM_indices. apply foldM_ext. intros b v _.
  rewrite !foldM_indices. apply foldM_ext. intros w v' _. rewrite !foldM_indices. apply foldM_ext. intros k v'' _.
  by rewrite foldM_indices_nil.
Qed.

(** A dimension's swaps reverse its coordinate. *)
Lemma reverse_dim_spec shape stride (d : nat) R P T values l : 0 < R -> 0 < P -> 0 < T ->
  R * P <= int64_max -> T * (R * P) <= int64_max ->
  shape !! d = Some R -> stride !! d = Some (R * P) ->
  reverse_dim shape stride (T * (R * P)) (Z.of_nat d) values = Ok l ->
  length l = length values /\
  forall b x k, in_bounds [b; x; k] [T; R; P] ->
    l !! Z.to_nat (flat [T; R; P] [b; x; k]) = values !! Z.to_nat (flat [T; R; P] [b; R - 1 - x; k]).
Proof.
  intros HR HP HT H1 H2 Hs Hst H. rewrite (reverse_dim_swaps shape stride d R P T) in H by done.
  apply swaps_spec in H as (Hl & Hin & Hout); [|apply NoDup_window_pairs; lia]. split; [done|]. intros b x k Hi.
  assert (forall w, in_bounds [b; w; k] [T; Z.quot R 2; P] ->
    (flat [T; R; P] [b; w; k], flat [T; R; P] [b; R - w - 1; k]) ∈ window_pairs T R P) as Hpair.
  { intros w Hw. rewrite <- window_pair_flat. apply list_elem_of_fmap_2. by apply elem_of_indices. }
  pose proof Hi as (? & ? & ? & [= <- <- <-] & ? & Hx & ?)%in_bounds_3.
  rewrite Z.quot_div_nonneg in Hpair by lia. pose proof (Z.mul_div_le R 2 ltac:(lia)). pose proof (Z.mul_succ_div_gt R 2 ltac:(lia)).
  destruct (Z.lt_trichotomy x (R - 1 - x)) as [Hlt|[Heq|Hgt]].
  - destruct (Hin _ _ (Hpair x ltac:(apply in_bounds_3; repeat eexists; lia))) as (_ & _ & -> & _). do 4 f_equal. f_equal. lia.
  - rewrite <- Heq. apply Hout; [by apply flat_bounds| |]; unfold window_pairs; rewrite <- list_fmap_compose;
      intros (i & E & Hw%elem_of_indices)%list_elem_of_fmap; apply in_bounds_3 in Hw as (b' & w & k' & -> & ? & Hw & ?);
      apply half_range in Hw as [? ?]; cbn [compose] in E; rewrite (window_pair_flat T) in E; cbn [fst snd] in E;
      (apply flat_inj in E; [injection E; lia|done|apply in_bounds_3; repeat eexists; lia]).
  - destruct (Hin _ _ (Hpair (R - 1 - x) ltac:(apply in_bounds_3; repeat eexists; lia))) as (_ & _ & _ & E).
    replace (R - (R - 1 - x) - 1) with x in E by lia. exact E.
Qed.

(** ** Strides of the helper *)
Lemma reverse_strides_spec shape stride : Forall (fun d => 0 < d) shape -> reverse_strides shape (prod_z shape) = Ok stride ->
  forall d : nat, (d <= length shape)%nat -> stride !! d = Some (prod_z (drop d shape)).
Proof.
  intros Hpos H. unfold reverse_strides in H.
  apply (foldM_seqZ_ind _ (fun k st => length st = S k /\ forall d : nat, (d <= k)%nat -> st !! d = Some (prod_z (drop d shape)))) in H as [_ H].
  - exact H.
  - split; [done|]. intros d Hd. by replace d with O by lia.
  - intros k st st' Hk [Hl Hst] E. rewrite (at_z_some st k _ (Hst k ltac:(lia))) in E.
    destruct (lookup_lt_is_Some_2 shape k Hk) as [x Hx]. rewrite (at_z_some shape k _ Hx) in E. cbn [mbind result_bind] in E.
    eapply Forall_lookup_1 in Hpos; [|exact Hx]. cbn in Hpos.
    apply bind_ok in E as (q & Hq & [= <-]). rewrite (drop_S shape x k) in Hq by done. rewrite prod_z_cons in Hq.
    unfold div_z in Hq. rewrite (proj2 (Z.eqb_neq _ 0)), (Z.mul_comm x), Z.quot_mul in Hq by lia. apply i64_inv in Hq as [-> _].
    split; [rewrite length_app; cbn; lia|]. intros d Hd. destruct (decide (d = S k)) as [->|].
    + rewrite lookup_app_r, Hl, Nat.sub_diag by lia. done.
    + rewrite lookup_app_l by lia. apply Hst. lia.
Qed.

(** ** The whole helper *)
Lemma reverse_index_one shape (k : nat) R i x : in_bounds i shape -> shape !! k = Some R -> i !! k = Some x ->
  reverse_index shape [Z.of_nat k] i = <[k := R - 1 - x]> i.
Proof.
  intros Hi HR Hx. pose proof (in_bounds_length _ _ Hi) as Hl.
  apply list_eq_same_length with (length i); [by rewrite length_insert|by rewrite length_reverse_index|].
  intros d y z Hd Hy Hz. destruct (lookup_lt_is_Some_2 shape d) as [s Hs]; [lia|]. destruct (lookup_lt_is_Some_2 i d) as [w Hw]; [lia|].
  rewrite (reverse_index_lookup _ _ _ _ s w) in Hy by done. destruct (decide (d = k)) as [->|Hne].
  - rewrite decide_True in Hy by (by left). rewrite list_lookup_insert_eq in Hz by lia. congruence.
  - rewrite decide_False in Hy by (rewrite list_elem_of_singleton; lia). rewrite list_lookup_insert_ne in Hz by done. congruence.
Qed.

Lemma dim_product shape (k : nat) : Forall (fun d => 0 < d) shape -> (k < length shape)%nat ->
  exists R, shape !! k = Some R /\ 0 < R /\ 0 < prod_z (take k shape) /\ 0 < prod_z (drop (S k) shape) /\
    prod_z shape = prod_z (take k shape) * (R * prod_z (drop (S k) shape)).
Proof.
  intros Hpos Hk. destruct (lookup_lt_is_Some_2 shape k Hk) as [R HR]. exists R. split; [done|].
  split; [by eapply Forall_lookup_1 in Hpos|]. split; [by apply prod_z_pos, Forall_take|]. split; [by apply prod_z_pos, Forall_drop|].
  rewrite <- (take_drop_middle _ _ _ HR) at 1. by rewrite prod_z_app, prod_z_cons.
Qed.

Lemma reverse_dim_values shape stride d values l :
  Forall (fun d => 0 < d) shape -> prod_z shape <= int64_max -> 0 <= d < Z.of_nat (length shape) ->
  (forall k : nat, (k <= length shape)%nat -> stride !! k = Some (prod_z (drop k shape))) ->
  reverse_dim shape stride (prod_z shape) d values = Ok l ->
  length l = length values /\
  forall i, in_bounds i shape ->
    l !! Z.to_nat (flat shape i) = values !! Z.to_nat (flat shape (reverse_index shape [d] i)).
Proof.
  intros Hpos Hmax Hd Hst H. rewrite <- (Z2Nat.id d) in * by lia. set (k := Z.to_nat d) in *. clearbody k. clear d.
  destruct (dim_product shape k Hpos ltac:(lia)) as (R & HR & HRp & HT & HP & Hp).
  pose proof (Hst k ltac:(lia)) as Hsk. rewrite (drop_S shape R k HR), prod_z_cons in Hsk. rewrite Hp in H, Hmax.
  apply (reverse_dim_spec shape stride k R _ (prod_z (take k shape)) values l) in H as [Hl Hv]; [|done|done|done|nia|done|done|done].
  split; [done|]. intros i Hi. destruct (in_bounds_lookup_Some _ _ _ _ Hi HR) as (x & Hx & ?).
  pose proof (in_bounds_length _ _ Hi).
  rewrite (reverse_index_one shape k R i x) by done.
  rewrite (flat_split k shape i R x), (flat_split k shape (<[k:=_]> i) R (R - 1 - x)) by (done || (apply list_lookup_insert_eq; lia)).
  rewrite take_insert_ge, drop_insert_lt by lia.
  assert (in_bounds (take k i) (take k shape)) as Hti%flat_bounds by (by apply Forall2_take).
  assert (in_bounds (drop (S k) i) (drop (S k) shape)) as Hdi%flat_bounds by (by apply Forall2_drop).
  specialize (Hv (flat (take k shape) (take k i)) x (flat (drop (S k) shape) (drop (S k) i))).
  rewrite !flat_3 in Hv. rewrite !Z.add_assoc in *. apply Hv. apply in_bounds_3. do 3 eexists. split; [done|]. split; [done|]. by split.
Qed.

Lemma reverse_index_cons shape d dims i : in_bounds i shape -> d ∉ dims ->
  reverse_index shape [d] (reverse_index shape dims i) = reverse_index shape (d :: dims) i.
Proof.
  intros Hi Hd. pose proof (in_bounds_length _ _ Hi) as Hl. pose proof (reverse_index_in_bounds _ dims _ Hi) as Hi'.
  pose proof (in_bounds_length _ _ Hi') as Hl'.
  apply list_eq_same_length with (length i); [by rewrite length_reverse_index|by rewrite length_reverse_index|].
  intros k x y Hk Hx Hy. destruct (lookup_lt_is_Some_2 shape k) as [s Hs]; [lia|]. destruct (lookup_lt_is_Some_2 i k) as [w Hw]; [lia|].
  erewrite reverse_index_lookup in Hx; [|done|by apply reverse_index_lookup]. erewrite reverse_index_lookup in Hy; [|done|done].
  injection Hx as <-. injection Hy as <-. repeat case_decide; try set_solver.
Qed.

Lemma reverse_dims_values shape stride dims : forall values l,
  Forall (fun d => 0 < d) shape -> prod_z shape <= int64_max -> NoDup dims ->
  Forall (fun d => 0 <= d < Z.of_nat (length shape)) dims ->
  (forall k : nat, (k <= length shape)%nat -> stride !! k = Some (prod_z (drop k shape))) ->
  foldM (reverse_dim shape stride (prod_z shape)) dims values = Ok l ->
  length l = length values /\
  forall i, in_bounds i shape -> l !! Z.to_nat (flat shape i) = values !! Z.to_nat (flat shape (reverse_index shape dims i)).
Proof.
  induction dims as [|d dims IH]; intros values l Hpos Hmax Hnd Hd Hst H; cbn [foldM] in H.
  - injection H as <-. split; [done|]. intros i Hi. by rewrite reverse_index_nil by (by apply in_bounds_length).
  - apply NoDup_cons in Hnd as [Hni Hnd]. apply Forall_cons in Hd as [Hd0 Hd]. apply bind_ok in H as (l1 & H1 & H).
    apply reverse_dim_values in H1 as [Hl1 H1]; [|done..]. apply IH in H as [Hl H]; [|done..]. split; [congruence|].
    intros i Hi. rewrite (H i Hi), H1 by (by apply reverse_index_in_bounds). by rewrite reverse_index_cons.
Qed.
End Reverse.

Lemma prod_z_all_pos s : Forall (fun d => 0 <= d) s -> 0 < prod_z s -> Forall (fun d => 0 < d) s.
Proof.
  induction 1 as [|d s Hd Hs IH]; [done|]. rewrite prod_z_cons. intros Hp. pose proof (prod_z_nonneg _ Hs).
  constructor; [nia|apply IH; nia].
Qed.

Section Correct.
Context {L : LLVM} {Laws : LLVMLaws L} {C : CommonFolders} {CLaws : CommonFoldersLaws C}.

Theorem fold_reverse_correct options x tx dims a :
  represents x tx -> verifyReverseOp (attr_type x) dims = Ok () ->
  fold_reverse options dims (attr_type x) x = Ok a ->
  result_is (attr_type x) (reverseOp tx dims (attr_type x)) (represents a).
Proof.
  intros Hx Hv Ha. pose proof Hx as (Hfull & Htx & Hlen & _).
  pose proof (reverseOp_spec tx dims (attr_type x) Hfull Htx Hv) as Hr. apply verifyReverseOp_inv in Hv as [Hnd Hd].
  pose proof (represents_shaped _ _ Hx) as (_ & Hs & n & Hn). apply tensor_size in Hn as (_ & _ & _ & Hmax & _).
  unfold fold_reverse in Ha. checks Ha. apply bind_ok in Ha as (sizes & _ & Ha). apply bind_ok in Ha as ([] & Hone%ensure_ok & Ha).
  checks Ha. unfold foldReverseHelper in Ha. apply bind_ok in Ha as (stride & Hst & Ha). apply bind_ok in Ha as (l & H & [= <-]).
  assert (Forall (fun d => 0 < d) (getShape (attr_type x))) as Hpos.
  { apply prod_z_all_pos; [auto with hlo|]. unfold getNumElements in Hone.
    destruct (Z.leb_spec (prod_z (getShape (attr_type x))) 1); [by rewrite orb_true_r in Hone|lia]. }
  apply reverse_dims_values in H as [Hl H]; [|done|done|done|done|by apply reverse_strides_spec].
  eapply reindexed_represents; [exact Hr|done|done|done|cbn; congruence|]. cbn [attr_values]. intros i v Hi Hiv. by rewrite <- H.
Qed.
End Correct.
