(* ===== verification/FolderEval.v ===== *)
(** * The constant folder, against the evaluator

    The patterns of [Folder.v] put together: an operation of a program whose
    operands are constants, and the constant that replaces it.  Evaluated in the
    same scope the two give tensors of the same type with the same elements. *)
From S2P Require Import Prelude Types Support Index Element ElementFacts Tensor TensorFacts Samples Base TypeInference Ops OpsFacts OpsMoves OpsPermute OpsJoin AttributeFacts Regions Scope Eval Folder FolderSamples FolderFacts FolderElementwise FolderMoves FolderJoin.

Section FolderEval.
Context {L : LLVM} {C : CommonFolders} {I : IndexingUtils}.
Context (options : Options).

(** The constants among the SSA values: [matchPattern(value, m_Constant(&attr))]. *)
Context (constants : Value -> option DenseElementsAttr).

Definition constant (v : Value) : result DenseElementsAttr := ok_or (constants v) (Failed "expected constant operand").

(** The patterns of [populateStablehloAggressiveFolderPatterns] by the operation
    they match, for the operations with one tensor as their result. *)
Definition fold_op (attrs : OpAttrs) (op : Op) (type : ShapedType) : result DenseElementsAttr :=
  match op with
  | UnaryOp ConvertOp operand => x ← constant operand; fold_convert options type x
  | UnaryOp ReshapeOp operand => x ← constant operand; fold_reshape options type x
  | UnaryOp kind operand => x ← constant operand; fold_unary kind type x
  | BinaryOp kind lhs rhs => l ← constant lhs; r ← constant rhs; fold_binary options kind type l r
  | BroadcastInDimOp operand _ => x ← constant operand; fold_broadcast_in_dim options type x
  | ClampOp min operand max =>
      mn ← constant min; x ← constant operand; mx ← constant max; fold_clamp options type mn x mx
  | CompareOp lhs rhs direction =>
      l ← constant lhs; r ← constant rhs; fold_compare options direction (compare_type attrs) type l r
  | ConcatenateOp inputs dimension => xs ← mapM constant inputs; fold_concatenate options dimension type xs
  | DynamicSliceOp operand _ _ => x ← constant operand; fold_dynamic_slice type x
  | GetDimensionSizeOp operand dimension =>
      operandType ← cast_shaped (ssa_type operand); fold_get_dimension_size options dimension operandType type
  | IotaOp iotaDimension => fold_iota options iotaDimension type
  | ReverseOp operand dimensions => x ← constant operand; fold_reverse options dimensions type x
  | SelectOp pred onTrue onFalse =>
      p ← constant pred; t ← constant onTrue; f ← constant onFalse; fold_select options type p t f
  | SliceOp operand startIndices strides =>
      x ← constant operand; fold_slice options startIndices (limit_indices attrs) strides type x
  | TransposeOp operand permutation => x ← constant operand; fold_transpose permutation type x
  | _ => Err (Failed "no pattern")
  end.
End FolderEval.

(** ** What the folder relies on *)
Section Correct.
Context {L : LLVM} {Laws : LLVMLaws L} {C : CommonFolders} {CLaws : CommonFoldersLaws C} {I : IndexingUtils} {ILaws : IndexingUtilsLaws I}.
Context (options : Options) (constants : Value -> option DenseElementsAttr) (attrs : OpAttrs) (scope : Scope).

(** The scope holds the tensors of the constants. *)
Definition constants_hold : Prop :=
  forall v x, constants v = Some x -> exists t, findTensor scope v = Ok t /\ represents x t.

(** The constant of an operand that has one. *)
Definition attr_of (v : Value) : DenseElementsAttr := default (MkAttr (shaped [] i1) []) (constants v).

(** The verifier accepts the operation on the constants, and the interpreter gets
    well-formed operands. *)
Definition accepted (op : Op) (type : ShapedType) : Prop :=
  shaped_ok type /\
  match op with
  | UnaryOp ConvertOp operand => getShape type = getShape (attr_type (attr_of operand))
  | UnaryOp ReshapeOp operand =>
      getElementType type = getElementType (attr_type (attr_of operand)) /\ verifyReshapeOp (attr_type (attr_of operand)) type = Ok ()
  | UnaryOp _ operand => attr_type (attr_of operand) = type
  | BinaryOp _ lhs rhs => attr_type (attr_of lhs) = type /\ attr_type (attr_of rhs) = type
  | BroadcastInDimOp operand dims =>
      getElementType type = getElementType (attr_type (attr_of operand)) /\
      verifyBroadcastInDimOp (attr_type (attr_of operand)) dims type = Ok ()
  | ClampOp min operand max => attr_type (attr_of min) = type /\ attr_type (attr_of operand) = type /\ attr_type (attr_of max) = type
  | CompareOp lhs rhs _ =>
      getElementType type = i1 /\ attr_type (attr_of lhs) = attr_type (attr_of rhs) /\ getShape type = getShape (attr_type (attr_of lhs))
  | ConcatenateOp inputs dimension =>
      Forall (fun x => getElementType (attr_type (attr_of x)) = getElementType type) inputs /\
      inferConcatenateOp ((fun x => attr_type (attr_of x)) <$> inputs) dimension = Ok type
  | DynamicSliceOp operand startIndices sliceSizes =>
      exists starts, findTensors scope startIndices = Ok starts /\ Forall scalar_index starts /\
        inferDynamicSliceOp (attr_type (attr_of operand)) (getTensorType <$> starts) sliceSizes = Ok type
  | GetDimensionSizeOp operand dimension =>
      type = shaped [] (IntegerType Signless 32) /\
      exists t, findTensor scope operand = Ok t /\ tensor_full t /\ cast_shaped (ssa_type operand) = Ok (getTensorType t) /\
        0 <= dimension < Z.of_nat (length (getTensorShape t))
  | IotaOp iotaDimension =>
      type = shaped (getShape type) (getElementType type) /\ 0 <= iotaDimension < Z.of_nat (length (getShape type))
  | ReverseOp operand dimensions => attr_type (attr_of operand) = type /\ verifyReverseOp type dimensions = Ok ()
  | SelectOp pred onTrue onFalse =>
      getElementType (attr_type (attr_of pred)) = i1 /\ attr_type (attr_of onTrue) = type /\ attr_type (attr_of onFalse) = type
  | SliceOp operand startIndices strides =>
      length (limit_indices attrs) = length (getShape (attr_type (attr_of operand))) /\
      length strides = length (getShape (attr_type (attr_of operand))) /\
      inferSliceOp (attr_type (attr_of operand)) startIndices (limit_indices attrs) strides = Ok type
  | TransposeOp operand permutation => inferTransposeOp (attr_type (attr_of operand)) permutation = Ok type
  | _ => True
  end.

(** The operations on which the folder and the interpreter agree.  Sums of booleans
    differ, and so do clamps of booleans and the sign of zeros; the interpreter
    has no difference, quotient or remainder of booleans; logistic is computed by
    another formula, and a comparison of integers may be given the signedness that
    its operands do not have. *)
Definition agrees (op : Op) (type : ShapedType) : Prop :=
  match op with
  | UnaryOp ConvertOp _ | UnaryOp ReshapeOp _ => True
  | UnaryOp kind _ =>
      (getElementType type = i1 -> kind = NotOp) /\ (isa_FloatType (getElementType type) = true -> kind ∉ [SignOp; LogisticOp])
  | BinaryOp kind _ _ => getElementType type = i1 -> kind ∈ [AndOp; OrOp; XorOp; MulOp; MaxOp; MinOp]
  | ClampOp _ _ _ => isSupportedIntegerType (getElementType type) = true
  | CompareOp lhs _ _ =>
      isa_IntegerType (getElementType (attr_type (attr_of lhs))) = true ->
      compare_type attrs = None \/ compare_type attrs = Some NOTYPE
  | IotaOp _ => isSupportedIntegerType (getElementType type) = true
  | SelectOp pred _ _ =>
      getShape (attr_type (attr_of pred)) = getShape type \/
      getShape (attr_type (attr_of pred)) = [] /\ is_Some (getSplatValue (attr_of pred))
  | _ => True
  end.

Lemma constant_inv v x : constant constants v = Ok x -> constants v = Some x.
Proof. unfold constant. by destruct (constants v); [intros [= ->]|]. Qed.

Lemma constant_inv' v x : constants_hold -> constant constants v = Ok x ->
  attr_of v = x /\ exists t, findTensor scope v = Ok t /\ represents x t.
Proof. intros Hc Hx%constant_inv. unfold attr_of. rewrite Hx. split; [done|]. by apply Hc. Qed.

Lemma constants_inv vs xs : constants_hold -> mapM (constant constants) vs = Ok xs ->
  exists ts, findTensors scope vs = Ok ts /\ Forall2 represents xs ts /\ attr_of <$> vs = xs.
Proof.
  intros Hc H%mapM_inv. induction H as [|v x vs xs Hx H IH]; [by exists []|]. destruct IH as (ts & Hts & Hr & <-).
  destruct (constant_inv' _ _ Hc Hx) as [<- (t & Ht & Hrt)]. exists (t :: ts). split; [|split; [by constructor|done]].
  unfold findTensors, findTensor in *. simpl. rewrite Ht. cbind. by rewrite Hts.
Qed.

(** [op]'s tensor, and the one of the constant that replaces it. *)
Definition same_tensor (m m' : result Tensor) : Prop :=
  exists t t', m = Ok t /\ m' = Ok t' /\ getTensorType t = getTensorType t' /\
    forall i, in_bounds i (getTensorShape t) -> get t i = get t' i.

Lemma represented_same type m a : result_is type m (represents a) -> same_tensor m (constantOp a).
Proof.
  intros (t & -> & Ht & Hfull & Hr). pose proof Hr as (_ & Hat & Hl & Hg).
  assert (attr_ok a) as Hok by (split; [by eapply represents_shaped|split; [done|by eapply represents_values]]).
  destruct (constant_represents a Hok) as (t' & -> & Hr'). exists t, t'. split; [done|]. split; [done|].
  pose proof Hr' as (_ & Hat' & _ & Hg'). split; [congruence|]. intros i Hi. rewrite (represents_shape _ _ Hr) in Hi.
  destruct (value_at a i Hl Hi) as [v Hv]. by rewrite (Hg i v), (Hg' i v).
Qed.

(** The next operand, a constant. *)
Ltac const Hc H :=
  let x := fresh "x" in let Hx := fresh "Hx" in let t := fresh "t" in let Ht := fresh "Ht" in let Hr := fresh "Hr" in
  apply bind_ok in H as (x & Hx & H); destruct (constant_inv' _ _ Hc Hx) as [<- (t & Ht & Hr)]; rewrite Ht; cbind.

Lemma fold_op_represents op type a :
  constants_hold -> accepted op type -> agrees op type -> fold_op options constants attrs op type = Ok a ->
  exists f, eval_tensor_op scope op = Some f /\ result_is type (f type) (represents a).
Proof.
  intros Hc [Hty Hac] Hag H. unfold fold_op in H.
  destruct op; try done; cbn [eval_tensor_op]; eexists; (split; [reflexivity|]); cbn [accepted agrees] in Hac, Hag; cbv beta.
  - destruct kind; const Hc H;
      first [ by (eapply fold_convert_correct; [..|exact H]) | destruct Hac, Hag; by (eapply fold_reshape_correct; [..|exact H]) | destruct Hag; by (eapply fold_unary_correct; [..|exact H]) ].
  - const Hc H. const Hc H. destruct Hac. by (eapply fold_binary_correct; [..|exact H]).
  - const Hc H. destruct Hac. by (eapply fold_broadcast_in_dim_correct; [..|exact H]).
  - const Hc H. const Hc H. const Hc H. destruct Hac as (? & ? & ?). by (eapply fold_clamp_correct; [..|exact H]).
  - const Hc H. const Hc H. destruct Hac as (? & ? & ?). by (eapply fold_compare_correct; [..|exact H]).
  - apply bind_ok in H as (xs & Hxs & H). destruct (constants_inv _ _ Hc Hxs) as (ts & -> & Hr & <-). cbind.
    destruct Hac as [He Hinf]. eapply fold_concatenate_correct; [done|done|by apply Forall_fmap| |exact H].
    by rewrite <- list_fmap_compose.
  - const Hc H. destruct Hac as (starts & -> & Hst & Hinf). cbind. by (eapply fold_dynamic_slice_correct; [..|exact H]).
  - destruct Hac as (-> & t & -> & Hfull & Hcast & _). rewrite Hcast in H. cbn [mbind result_bind] in H. cbind. by (eapply fold_get_dimension_size_correct; [..|exact H]).
  - destruct Hac as [Htype [Hd0 Hd1]]. destruct (supported_integer_inv _ Hag) as (s & w & Ht & _). rewrite Ht, int_type_supported in Hag.
    destruct (lookup_lt_is_Some_2 (getShape type) (Z.to_nat iotaDimension)) as [d Hd]; [lia|].
    rewrite Ht in Htype. revert Htype Hd Hty H. generalize (getShape type) as sh. clear Hd1. intros sh -> Hd Hty H. clear Ht.
    by (eapply fold_iota_correct; [..|exact H]).
  - const Hc H. destruct Hac as [<- Hv]. by (eapply fold_reverse_correct; [..|exact H]).
  - const Hc H. const Hc H. const Hc H. destruct Hac as (? & ? & ?). by (eapply fold_select_correct; [..|exact H]).
  - const Hc H. destruct Hac as (? & ? & ?). by (eapply fold_slice_correct; [..|exact H]).
  - const Hc H. by (eapply fold_transpose_correct; [..|exact H]).
Qed.

(** C13: an operation whose operands are constants, when the folder replaces it by a
    constant and it is one of those on which the two agree ([agrees]): evaluated in a
    scope that holds the operands, the operation returns without a fault a tensor of
    the result's type, the constant evaluates to a tensor of that type, and the two
    hold the same element at every index.  Outside are sign and logistic of
    floats; the unary and binary elementwise operations on booleans other than not, and,
    or, xor, multiply, maximum and minimum; clamp and iota of other than integers; a
    comparison of integers with an explicit comparison type; and a select whose predicate
    has neither the shape of the result nor a splat value. *)
Theorem fold_op_correct op type a :
  constants_hold -> accepted op type -> agrees op type -> fold_op options constants attrs op type = Ok a ->
  exists f g, eval_tensor_op scope op = Some f /\ eval_tensor_op scope (ConstantOp a) = Some g /\ same_tensor (f type) (g type) /\
    result_is type (f type) (represents a).
Proof.
  intros Hc Hac Hag H. destruct (fold_op_represents _ _ _ Hc Hac Hag H) as (f & Hf & Hr).
  exists f, (fun _ => constantOp a). split; [done|]. split; [done|]. split; [by eapply represented_same|done].
Qed.
End Correct.

(** ** Witnesses *)
Section Witnesses.
Import Concrete.

Definition folded_reg (n : positive) (shape : list Z) : Value := MkValue n (shaped_type (shaped shape ui8)).

(** Two constants. *)
Definition sample_constants (v : Value) : option DenseElementsAttr :=
  match value_id v with
  | 1%positive => Some (byte_attr [2; 3] [2; 3; 4; 5; 6; 7])
  | 2%positive => Some (byte_attr [2; 1] [8; 9])
  | _ => None
  end.

Definition sample_scope : Scope :=
  MkScope {[1%positive := TensorValue (tensor_of_attr (byte_attr [2; 3] [2; 3; 4; 5; 6; 7]));
            2%positive := TensorValue (tensor_of_attr (byte_attr [2; 1] [8; 9]))]} None.

Lemma sample_constants_hold : constants_hold sample_constants sample_scope.
Proof.
  intros [id t] x H. unfold sample_constants in H. cbn [value_id] in H.
  destruct id as [id|[id|id|]|]; try discriminate H; injection H as <-; eexists; (split; [reflexivity|]);
    apply represents_computed; vm_compute; reflexivity.
Qed.

Definition sample_fold_attrs : OpAttrs := MkOpAttrs None [2; 3] [].

Lemma fold_op_correct_witness :
  (exists f g, eval_tensor_op sample_scope (ConcatenateOp [folded_reg 1 [2; 3]; folded_reg 2 [2; 1]] 1) = Some f /\
    eval_tensor_op sample_scope (ConstantOp (byte_attr [2; 4] [2; 3; 4; 8; 5; 6; 7; 9])) = Some g /\
    same_tensor (f (shaped [2; 4] ui8)) (g (shaped [2; 4] ui8)) /\
    result_is (shaped [2; 4] ui8) (f (shaped [2; 4] ui8)) (represents (byte_attr [2; 4] [2; 3; 4; 8; 5; 6; 7; 9]))) /\
  (exists f g, eval_tensor_op sample_scope (SliceOp (folded_reg 1 [2; 3]) [0; 0] [1; 2]) = Some f /\
    eval_tensor_op sample_scope (ConstantOp (byte_attr [2; 2] [2; 4; 5; 7])) = Some g /\
    same_tensor (f (shaped [2; 2] ui8)) (g (shaped [2; 2] ui8)) /\
    result_is (shaped [2; 2] ui8) (f (shaped [2; 2] ui8)) (represents (byte_attr [2; 2] [2; 4; 5; 7]))).
Proof.
  split.
  - apply (fold_op_correct all_options sample_constants sample_fold_attrs sample_scope _ _ _ sample_constants_hold).
    + split; [concrete|]. split; [repeat constructor|concrete].
    + exact Logic.I.
    + reflexivity.
  - apply (fold_op_correct all_options sample_constants sample_fold_attrs sample_scope _ _ _ sample_constants_hold).
    + split; [concrete|]. split; [reflexivity|]. split; [reflexivity|concrete].
    + exact Logic.I.
    + reflexivity.
Defined.
End Witnesses.
