(* ===== verification/FolderSafe.v ===== *)
(** * The constant folder does not crash

    A pattern of [Folder.v] on constants that the verifier accepts either matches
    or leaves the operation alone: no division by zero, no position outside the
    values, no overflow and no failed assertion. *)
From S2P Require Import Prelude Types Support Index Element ElementFacts Tensor TensorFacts Samples Base TypeInference Ops OpsFacts OpsMoves OpsPermute OpsJoin AttributeFacts Regions Scope Eval Folder FolderSamples FolderFacts FolderElementwise FolderMoves FolderJoin FolderEval.

(** ** Computations that return or fail to match *)
Definition safe {A} (m : result A) : Prop := match m with Ok _ | Err (Failed _) => True | _ => False end.

Lemma safe_bind {A B} (m : result A) (k : A -> result B) : safe m -> (forall a, m = Ok a -> safe (k a)) -> safe (m ≫= k).
Proof. intros Hm Hk. destruct m as [a|[]]; try done. by apply Hk. Qed.

Lemma safe_ensure b msg : safe (ensure b msg).
Proof. unfold ensure. by destruct b. Qed.

Lemma safe_ok_or {A} (o : option A) msg : safe (ok_or o (Failed msg)).
Proof. by destruct o. Qed.

Lemma safe_mapM {A B} (f : A -> result B) l : (forall x, x ∈ l -> safe (f x)) -> safe (mapM f l).
Proof.
  intros H. destruct (mapM f l) as [k|e] eqn:E; [done|]. apply mapM_fails in E as (x & Hx & E). specialize (H x Hx). by rewrite E in H.
Qed.

(** A loop under an invariant. *)
Lemma safe_foldM {A St} (body : A -> St -> result St) (P : list A -> St -> Prop) l s :
  P l s -> (forall x l s, P (x :: l) s -> safe (body x s) /\ forall s', body x s = Ok s' -> P l s') -> safe (foldM body l s).
Proof.
  intros HP Hstep. revert s HP. induction l as [|x l IH]; intros s HP; [done|]. cbn [foldM]. destruct (Hstep x l s HP) as [Hs Hn].
  apply safe_bind; [done|]. intros s' Hs'. by apply IH, Hn.
Qed.

Create HintDb safe.
#[export] Hint Resolve safe_ensure safe_ok_or : safe.

Section Folds.
Context {L : LLVM} {Laws : LLVMLaws L} {C : CommonFolders} {CLaws : CommonFoldersLaws C}.

Lemma fails_safe {A} (m : result A) : (forall e, m = Err e -> exists msg, e = Failed msg) -> safe m.
Proof. intros H. destruct m as [a|e]; [done|]. by destruct (H e eq_refl) as [msg ->]. Qed.

Lemma safe_unary f a : (forall x, x ∈ attr_values a -> safe (f x)) -> safe (constFoldUnaryOp f a).
Proof.
  intros H. apply fails_safe. intros e [?|(x & Hx & E)]%unary_fails; [done|]. specialize (H x Hx). rewrite E in H.
  destruct e; try done. by eexists.
Qed.

Lemma safe_cast f a type : (forall x, x ∈ attr_values a -> safe (f x)) -> safe (constFoldCastOp f a type).
Proof.
  intros H. apply fails_safe. intros e [?|(x & Hx & E)]%cast_fails; [done|]. specialize (H x Hx). rewrite E in H.
  destruct e; try done. by eexists.
Qed.

Lemma safe_binary f l r type : (forall x y, x ∈ attr_values l -> y ∈ attr_values r -> safe (f x y)) -> safe (constFoldBinaryOp f l r type).
Proof.
  intros H. apply fails_safe. intros e [?|(x & y & Hxy & E)]%binary_fails; [done|].
  specialize (H x y (elem_of_zip_l _ _ _ _ Hxy) (elem_of_zip_r _ _ _ _ Hxy)). rewrite E in H. destruct e; try done. by eexists.
Qed.

(** Values that are read as what their type says. *)
Definition readable (t : Ty) (v : Value_) : Prop :=
  (isa_IntegerType t = true -> exists x, attr_apint v = Ok x) /\ (isa_FloatType t = true -> exists f, v = VFloat f).
Definition readable_values (t : Ty) (a : DenseElementsAttr) : Prop := Forall (readable t) (attr_values a).

Lemma typed_readable t a : Forall (fun v => element_ok (MkElement t v)) (attr_values a) -> readable_values t a.
Proof.
  intros H. eapply Forall_impl; [exact H|]. intros v Hv. cbv beta in Hv.
  destruct (element_ok_cases _ Hv) as [(s & w & x & E & _)|[(b & E)|[(f & E & _)|(re & im & E & _)]]];
    injection E as -> ->; (split; intros; try done; by eexists).
Qed.

Lemma readable_int t x : isa_IntegerType t = true -> readable t (int_value t x).
Proof.
  intros Ht. split; [intros _|by destruct t]. unfold int_value. destruct (isSupportedBooleanType t); by eexists.
Qed.

Lemma safe_foldBinary type l r fi ff :
  readable_values (getElementType (attr_type l)) l -> readable_values (getElementType (attr_type l)) r ->
  (isa_IntegerType (getElementType (attr_type l)) = true -> forall a b y, y ∈ attr_values r -> attr_apint y = Ok b -> safe (fi a b)) ->
  (isa_FloatType (getElementType (attr_type l)) = true -> forall a b, safe (ff a b)) ->
  safe (foldBinaryOpIntOrFloat type l r fi ff).
Proof.
  unfold readable_values. rewrite !Forall_forall. intros Hl Hr Hi Hf. unfold foldBinaryOpIntOrFloat.
  destruct (isa_IntegerType _) eqn:Ei; [|destruct (isa_FloatType _) eqn:Ef; [|done]]; apply safe_binary; intros x y Hx Hy.
  - destruct (proj1 (Hl x Hx) Ei) as [a Ea], (proj1 (Hr y Hy) Ei) as [b Eb]. rewrite Ea, Eb. cbind.
    apply safe_bind; [by eapply Hi|done].
  - destruct (proj2 (Hl x Hx) Ef) as [a ->], (proj2 (Hr y Hy) Ef) as [b ->]. cbn. by apply Hf.
Qed.

(** Past a check. *)
Ltac checked := apply safe_bind; [by eauto with safe|intros [] _].

(** ** Elementwise operations *)
Lemma safe_fold_bits bitwise op type l r :
  readable_values (getElementType (attr_type l)) l -> readable_values (getElementType (attr_type l)) r -> safe (fold_bits bitwise op type l r).
Proof. intros Hl Hr. unfold fold_bits. destruct (isInteger1 _), (isa_IntegerType (getElementType type)); try done; by apply safe_foldBinary. Qed.

Lemma safe_fold_division options signed unsigned ff type l r :
  attr_type l = type -> attr_type r = type -> readable_values (getElementType type) l -> readable_values (getElementType type) r ->
  (forall a b, safe (ff a b)) -> safe (fold_division options signed unsigned ff type l r).
Proof.
  intros Htl Htr Hl Hr Hff. unfold fold_division. checked. apply safe_bind; [by eauto with safe|]. intros [] Hz%ensure_ok.
  apply safe_foldBinary; [by rewrite Htl|by rewrite Htl| |done]. rewrite Htl. intros Hi a b y Hy Hb.
  unfold divides. destruct (isZero b) eqn:E; [|done]. unfold integerDivisorHasZeroElement in Hz. rewrite Htr, Hi in Hz.
  cbn [andb] in Hz. apply negb_true_iff in Hz. exfalso. eapply eq_true_false_abs; [|exact Hz].
  apply existsb_exists. exists y. split; [by apply list_elem_of_In|]. by rewrite Hb.
Qed.

Lemma safe_fold_binary options kind type l r :
  attr_type l = type -> attr_type r = type -> readable_values (getElementType type) l -> readable_values (getElementType type) r ->
  safe (fold_binary options kind type l r).
Proof.
  intros Hl Hr Tl Tr. destruct kind; cbn [fold_binary]; try done.
  all: try (apply safe_fold_bits; by rewrite Hl).
  all: try (checked; apply safe_foldBinary; by rewrite ?Hl).
  - by apply safe_fold_division.
  - apply safe_fold_division; try done. intros a b. by case_bool_decide.
Qed.

Lemma safe_fold_clamp options type mn x mx :
  attr_type mn = type -> attr_type x = type -> attr_type mx = type ->
  readable_values (getElementType type) mn -> readable_values (getElementType type) x -> readable_values (getElementType type) mx ->
  safe (fold_clamp options type mn x mx).
Proof.
  intros Hmn Hx Hmx Tmn Tx Tmx. unfold fold_clamp. checked. apply safe_bind; [by apply safe_foldBinary; rewrite ?Hmn|]. intros res Hres.
  apply safe_foldBinary; [by rewrite Hmx| |done|done]. rewrite Hmx. unfold foldBinaryOpIntOrFloat in Hres. rewrite Hmn in Hres.
  destruct (isa_IntegerType _) eqn:Ei; [|destruct (isa_FloatType _) eqn:Ef; [|done]];
    (apply binary_sound in Hres as [_ Hall]; [|congruence|by rewrite Hmn]); unfold readable_values;
    apply Forall_lookup; intros k v Hv; destruct (Forall3_lookup_r _ _ _ _ _ _ Hall Hv) as (y & z & _ & _ & Hc);
    apply bind_ok in Hc as (a & _ & Hc); apply bind_ok in Hc as (b & _ & Hc).
  - apply bind_ok in Hc as (c & _ & [= <-]). by apply readable_int.
  - injection Hc as <-. split; [congruence|by eexists].
Qed.

(** A comparison of integers has the comparison type of integers, and one of
    floats the type of floats. *)
Definition comparable (compareType : option ComparisonType) (t : Ty) : Prop :=
  let kind := getComparisonType compareType t in
  (isa_IntegerType t = true -> kind = SIGNED \/ kind = UNSIGNED) /\ (isa_FloatType t = true -> kind = FLOAT \/ kind = TOTALORDER).

Lemma safe_fold_compare options direction compareType type l r :
  comparable compareType (getElementType (attr_type l)) ->
  readable_values (getElementType (attr_type l)) l -> readable_values (getElementType (attr_type l)) r ->
  safe (fold_compare options direction compareType type l r).
Proof.
  intros [Hi Hf] Tl Tr. unfold fold_compare. checked. checked. apply safe_foldBinary; [done|done| |].
  - intros Ei a b y _ _. case_bool_decide as Hk; [|done]. by destruct Hk, (Hi Ei).
  - intros Ef a b. case_bool_decide as Hk; [|done]. by destruct Hk, (Hf Ef).
Qed.

Lemma safe_evaluate_unary kind fi ff : evaluate_unary kind = Some (fi, ff) -> (forall s x, safe (fi s x)) /\ (forall x, safe (ff x)).
Proof.
  destruct kind; intros [= <- <-]; (split; [intros s x|intros x]); try done; unfold FoldAsDouble, fold_sign_int, fold_sign_float, positive_only, no_int;
    cbv zeta; repeat case_match; try done; (apply safe_bind; [|done]); repeat case_match; try done.
Qed.

Lemma safe_fold_unary kind type x : attr_type x = type -> readable_values (getElementType type) x -> safe (fold_unary kind type x).
Proof.
  intros <- Hx. unfold fold_unary. destruct (evaluate_unary kind) as [[fi ff]|] eqn:E; [|done]. cbn [ok_or]. cbind.
  apply safe_evaluate_unary in E as [Hi Hf]. destruct (negb _); [done|]. unfold readable_values in Hx. rewrite Forall_forall in Hx.
  destruct (isa_IntegerType _) eqn:Ei; [|destruct (isa_FloatType _) eqn:Ef; [|done]]; apply safe_unary; intros v Hv.
  - destruct (proj1 (Hx v Hv) Ei) as [a ->]. cbind. apply safe_bind; [apply Hi|done].
  - destruct (proj2 (Hx v Hv) Ef) as [a ->]. cbn. apply Hf.
Qed.

Lemma safe_fold_convert options type x : readable_values (getElementType (attr_type x)) x -> safe (fold_convert options type x).
Proof.
  intros Hx. unfold fold_convert. checked. apply safe_bind; [by eauto with safe|]. intros [] Hnew%ensure_ok. checked. checked.
  apply safe_bind; [by eauto with safe|]. intros [] Hold%ensure_ok. unfold foldConvert.
  assert (exists w, getIntOrFloatBitWidth (getElementType type) = Ok w) as [w ->].
  { destruct (getElementType type); try (by eexists); by destruct (optimizeFloat options). }
  cbind. unfold readable_values in Hx. rewrite Forall_forall in Hx.
  assert (forall f, isa_FloatType (getElementType (attr_type x)) = true -> (forall a, safe (f a)) ->
    safe (constFoldCastOp (fun x => a ← attr_apfloat x; f a) x type)) as Hff.
  { intros f Hf Hsafe. apply safe_cast. intros v Hv. destruct (proj2 (Hx v Hv) Hf) as [a ->]. apply Hsafe. }
  assert (forall f, isa_IntegerType (getElementType (attr_type x)) = true -> (forall a, safe (f a)) ->
    safe (constFoldCastOp (fun x => a ← attr_apint x; f a) x type)) as Hfi.
  { intros f Hf Hsafe. apply safe_cast. intros v Hv. destruct (proj1 (Hx v Hv) Hf) as [a ->]. apply Hsafe. }
  destruct (isa_FloatType (getElementType (attr_type x))) eqn:Ef.
  - destruct (getElementType type); try destruct (isSignlessInteger _ _); apply Hff; try done; intros a; repeat case_match; done.
  - rewrite orb_false_r in Hold. destruct (getElementType type); try destruct (isSignlessInteger _ _); by apply Hfi.
Qed.

(** ** Data movement *)
Context {I : IndexingUtils} {ILaws : IndexingUtilsLaws I}.

Lemma safe_fold_broadcast_in_dim options type x : safe (fold_broadcast_in_dim options type x).
Proof. unfold fold_broadcast_in_dim. checked. checked. apply safe_bind; [by eauto with safe|done]. Qed.

Lemma safe_fold_dynamic_slice type x : safe (fold_dynamic_slice type x).
Proof. unfold fold_dynamic_slice. checked. apply safe_bind; [by eauto with safe|done]. Qed.

Lemma safe_fold_reshape options type x : safe (fold_reshape options type x).
Proof. unfold fold_reshape. checked. by checked. Qed.

Lemma safe_fold_get_dimension_size options dimension operandType type :
  0 <= dimension < Z.of_nat (length (getShape operandType)) -> safe (fold_get_dimension_size options dimension operandType type).
Proof.
  intros Hd. unfold fold_get_dimension_size. checked. checked. destruct (at_z_lt (getShape operandType) dimension Hd) as (size & -> & _).
  cbind. by checked.
Qed.

Lemma safe_fold_select options type p onTrue onFalse :
  getElementType (attr_type p) = i1 -> readable_values i1 p ->
  readable_values (getElementType type) onTrue -> readable_values (getElementType type) onFalse ->
  safe (fold_select options type p onTrue onFalse).
Proof.
  unfold readable_values. rewrite !Forall_forall. intros Hp Hpv Ht Hf. unfold fold_select. checked.
  apply safe_bind; [by eauto with safe|]. intros [] Hd%ensure_ok. destruct (getSplatValue p) as [v|] eqn:Hs.
  - assert (readable i1 v) as [Hv _].
    { pose proof (splat_values _ _ Hs) as Hall. destruct (attr_values p) as [|w values] eqn:E.
      - apply splat_typed in Hs; [|done]. rewrite Hp in Hs. apply (Forall_inv (P := readable i1) (l := [])).
        apply (typed_readable i1 (MkAttr type [v])). by constructor.
      - apply Forall_inv in Hall as <-. apply Hpv. by left. }
    destruct (Hv eq_refl) as [b ->]. done.
  - apply safe_bind; [by eauto with safe|]. intros [] Hnf%ensure_ok. checked.
    assert (isa_IntegerType (getElementType type) = true) as Hint by (by destruct (isa_IntegerType _), (isa_FloatType _), (optimizeFloat _)).
    apply safe_bind; [|done]. apply safe_mapM. intros (pv & (tv & fv)) Hz.
    pose proof (elem_of_zip_l _ _ _ _ Hz) as Hpz. apply elem_of_zip_r in Hz. pose proof (elem_of_zip_l _ _ _ _ Hz) as Htz. apply elem_of_zip_r in Hz.
    destruct (proj1 (Hpv _ Hpz) eq_refl) as [a ->], (proj1 (Ht _ Htz) Hint) as [b ->], (proj1 (Hf _ Hz) Hint) as [c ->]. done.
Qed.

(** *** Positions in range *)
Lemma at_flat x (i : Index) : Z.of_nat (length (attr_values x)) = prod_z (getShape (attr_type x)) -> in_bounds i (getShape (attr_type x)) ->
  exists v, at_z (attr_values x) (flat (getShape (attr_type x)) i) = Ok v.
Proof. intros Hl Hi. pose proof (flat_bounds _ _ Hi). destruct (at_z_lt (attr_values x) (flat (getShape (attr_type x)) i)) as (v & ? & _); [lia|by exists v]. Qed.

Lemma safe_fold_transpose permutation type x :
  Z.of_nat (length (attr_values x)) = prod_z (getShape (attr_type x)) -> shape_ok (getShape type) ->
  inferTransposeOp (attr_type x) permutation = Ok type -> safe (fold_transpose permutation type x).
Proof.
  intros Hl Hs (Hp & He & Hsh)%inferTransposeOp_inv. unfold fold_transpose. checked. destruct (getSplatValue x); [done|]. checked.
  unfold transposeType, getNumElements. apply safe_bind; [|done]. apply safe_mapM. intros k Hk%elem_of_seqZ. rewrite Z.add_0_l in Hk.
  destruct (lookup_lt_is_Some_2 (indices (getShape type)) (Z.to_nat k)) as [i Hi]; [rewrite length_indices by auto with hlo; lia|].
  apply indices_lookup_flat in Hi as [Hi Hf]; [|auto with hlo]. rewrite Z2Nat.id in Hf by lia. subst k.
  pose proof (in_bounds_length _ _ Hi) as Hil. rewrite Hsh, length_permuted, (permutes_length _ _ Hp) in Hil.
  pose proof (permutes_inverse _ _ Hp) as Hp'.
  rewrite delinearize_flat, (invert_inverse _ _ Hp), apply_permuted, linearize_flat
    by (done || by rewrite Hil || by rewrite length_permuted, (permutes_length _ _ Hp')).
  assert (in_bounds (permuted (inverse permutation) i) (getShape (attr_type x))) as Hb.
  { rewrite <- (inverse_permuted permutation (getShape (attr_type x))) by done. apply permuted_in_bounds; [|by rewrite <- Hsh].
    by rewrite length_permuted, (permutes_length _ _ Hp). }
  by destruct (at_flat x _ Hl Hb) as [v ->].
Qed.

Lemma slice_advance_ok n startIndex endIndex strides : forall srcIndex,
  (n <= length startIndex)%nat -> (n <= length endIndex)%nat -> (n <= length strides)%nat -> (n <= length srcIndex)%nat ->
  (forall (d : nat) x s, (d < n)%nat -> srcIndex !! d = Some x -> strides !! d = Some s -> int64_min <= x + s <= int64_max) ->
  exists r, slice_advance n startIndex endIndex strides srcIndex = Ok r.
Proof.
  induction n as [|n IH]; intros src H1 H2 H3 H4 Hov; [by exists src|]. cbn [slice_advance].
  destruct (lookup_lt_is_Some_2 src n) as [x Hx]; [lia|]. destruct (lookup_lt_is_Some_2 strides n) as [s Hs]; [lia|].
  destruct (lookup_lt_is_Some_2 endIndex n) as [e He]; [lia|]. destruct (lookup_lt_is_Some_2 startIndex n) as [b Hb]; [lia|].
  rewrite (at_z_some _ _ _ Hx), (at_z_some _ _ _ Hs). cbind. rewrite i64_ok by (apply (Hov n x s); [lia|done|done]). cbind.
  rewrite (at_z_some _ _ _ He), (at_z_some _ _ _ Hb). cbind.
  destruct (e <=? x + s); rewrite set_z_ok by (apply lookup_lt_Some in Hx; lia); [|by eexists]. cbind. rewrite Nat2Z.id. apply IH; rewrite ?length_insert; try lia.
  intros d y z Hd Hy Hz. rewrite list_lookup_insert_ne in Hy by lia. apply (Hov d y z); [lia|done|done].
Qed.

(** Adding a stride to an index inside the operand does not overflow. *)
Definition strides_fit (limitIndices strides : list Z) : Prop :=
  forall (d : nat) hi s, limitIndices !! d = Some hi -> strides !! d = Some s -> hi + s <= int64_max.

Lemma slice_index_step dims i (d : nat) y st : strides_fit (dim_hi <$> dims) (dim_stride <$> dims) ->
  Forall (fun d => 0 < dim_stride d) dims -> Forall (fun d => 0 <= dim_lo d) dims -> in_bounds i (dim_size <$> dims) ->
  slice_index (dim_lo <$> dims) (dim_stride <$> dims) i !! d = Some y -> (dim_stride <$> dims) !! d = Some st ->
  int64_min <= y + st <= int64_max.
Proof.
  intros Hfit Hpos Hlo Hi Hy Hst. unfold slice_index in Hy. apply lookup_zip_with_Some in Hy as (lo & z & -> & H1 & Hz).
  apply lookup_zip_with_Some in Hz as (x & st' & -> & H2 & H3). rewrite Hst in H3. injection H3 as <-.
  apply list_lookup_fmap_Some in Hst as (t & -> & Ht). rewrite list_lookup_fmap, Ht in H1. injection H1 as <-.
  assert ((dim_size <$> dims) !! d = Some (dim_size t)) as Hsize by (by rewrite list_lookup_fmap, Ht).
  pose proof (in_bounds_lookup _ _ _ _ _ Hi H2 Hsize). eapply Forall_lookup_1 in Hpos, Hlo; [|exact Ht|exact Ht]. cbn in Hpos, Hlo.
  pose proof (divideCeil_pos (dim_hi t - dim_lo t) (dim_stride t) x Hpos ltac:(unfold dim_size in *; lia)).
  specialize (Hfit d (dim_hi t) (dim_stride t)). rewrite !list_lookup_fmap, Ht in Hfit. specialize (Hfit eq_refl eq_refl).
  unfold int64_min, int64_max in *. nia.
Qed.

Lemma safe_fold_slice options startIndices limitIndices strides type x :
  Z.of_nat (length (attr_values x)) = prod_z (getShape (attr_type x)) -> shaped_ok (attr_type x) -> shape_ok (getShape type) ->
  length limitIndices = length (getShape (attr_type x)) -> length strides = length (getShape (attr_type x)) ->
  strides_fit limitIndices strides ->
  inferSliceOp (attr_type x) startIndices limitIndices strides = Ok type ->
  safe (fold_slice options startIndices limitIndices strides type x).
Proof.
  intros Hl (_ & Hs & _) Hrs Hlim Hstr Hfit Hinf. apply inferSliceOp_inv in Hinf as (Hlen & _ & Hrl & Hd); [|done].
  unfold fold_slice. checked. checked. checked. destruct (getSplatValue x); [done|]. checked.
  destruct (slice_dims startIndices limitIndices strides _ Hlen Hlim Hstr) as (dims & Hdl & -> & -> & ->).
  destruct (slice_dim_sizes _ _ _ Hdl Hd Hrl) as [Hpos Hsize].
  assert (Forall (fun d => 0 <= dim_lo d) dims) as Hlo.
  { apply Forall_lookup. intros k d Hk. destruct (Hd k) as (lo & hi & st & s & H1 & _ & _ & _ & H4 & _); [apply lookup_lt_Some in Hk; lia|].
    rewrite list_lookup_fmap, Hk in H1. injection H1 as <-. lia. }
  assert (forall i, in_bounds i (getShape type) -> in_bounds (slice_index (dim_lo <$> dims) (dim_stride <$> dims) i) (getShape (attr_type x))) as Hin.
  { intros i Hi. by apply (slice_index_spec _ (dim_hi <$> dims) _ _ (getShape type)). }
  unfold sliceType, getNumElements. rewrite Hsize in *. pose proof (prod_z_nonneg _ (shape_ok_nonneg _ Hrs)) as Hn.
  rewrite <- (Z2Nat.id _ Hn). edestruct (foldM_seqZ_total (fun (_ : Z) '(srcIndex, values) =>
      v ← at_z (attr_values x) (linearize srcIndex (computeStrides (getShape (attr_type x))));
      srcIndex ← slice_advance (length srcIndex) (dim_lo <$> dims) (dim_hi <$> dims) (dim_stride <$> dims) srcIndex;
      Ok (srcIndex, values ++ [v]))
    (fun k '(srcIndex, _) => (k < Z.to_nat (prod_z (dim_size <$> dims)))%nat -> exists i,
      srcIndex = slice_index (dim_lo <$> dims) (dim_stride <$> dims) i /\ in_bounds i (dim_size <$> dims) /\
      flat (dim_size <$> dims) i = Z.of_nat k) (Z.to_nat (prod_z (dim_size <$> dims))) (dim_lo <$> dims, [])) as ([src values] & -> & _); [| |done].
  - intros Hk. destruct (zero_in_bounds (dim_size <$> dims)) as [Hi Hif]; [auto with hlo|lia|]. rewrite length_fmap in *.
    exists (replicate (length dims) 0). split; [symmetry; apply slice_index_zero|done].
  - intros k [src values] Hk (i & -> & Hi & Hif)%(fun H => H Hk). pose proof (Hin i Hi) as Hb. pose proof (in_bounds_length _ _ Hb) as Hbl.
    rewrite linearize_flat by done. destruct (at_flat x _ Hl Hb) as [v ->]. cbind.
    destruct (slice_advance_ok (length (slice_index (dim_lo <$> dims) (dim_stride <$> dims) i)) (dim_lo <$> dims) (dim_hi <$> dims)
      (dim_stride <$> dims) (slice_index (dim_lo <$> dims) (dim_stride <$> dims) i)) as [r Hr]; rewrite ?length_fmap; try lia.
    { intros d y st _ Hy Hs'. by apply (slice_index_step dims i d). }
    rewrite Hr. cbind. eexists. split; [done|]. intros Hk'.
    pose proof (slice_advance_spec dims [] [] [] i [] r Hpos Hi) as E. rewrite !app_nil_r in E. rewrite Hbl, <- Hdl in Hr.
    destruct (E Hr) as (i' & -> & Hi' & Hf'). rewrite app_nil_r. exists i'. split; [done|]. split; [done|]. lia.
Qed.

(** The product of a prefix of a tensor's shape does not overflow. *)
Lemma shaped_prefix type k : shaped_ok type -> foldM (fun d n => i64 (n * d)) (take k (getShape type)) 1 = Ok (prod_z (take k (getShape type))).
Proof.
  intros (_ & _ & n & Hn). cbn [shaped_type getSizeInBytes] in Hn. apply bind_ok in Hn as (m & Hm & _).
  unfold numElements in Hm. destruct (forallb _ _); [|done]. rewrite <- (take_drop k (getShape type)), foldM_app in Hm.
  apply bind_ok in Hm as (m' & Hm' & _). rewrite Hm'. apply foldM_mul_prod in Hm' as ->. f_equal. lia.
Qed.

Lemma concat_row_total topSize chunk i attrs : 0 <= i < topSize -> forall acc, chunks_ok topSize chunk attrs ->
  Forall (fun a => Z.of_nat (length (attr_values a)) = topSize * chunk a) attrs ->
  exists acc', concat_row topSize i attrs acc = Ok acc'.
Proof.
  intros Hi. unfold concat_row. induction attrs as [|a attrs IH]; intros acc Hc Hl; [by exists acc|]. cbn [foldM].
  apply Forall_cons in Hc as [(Hdiv & Ha & Hmax) Hc], Hl as [Hla Hl]. rewrite Hdiv. cbind. rewrite Z.mod_small by nia.
  unfold sub_range. rewrite (proj2 (Z.leb_le 0 _)), (proj2 (Z.leb_le _ _)) by nia. cbn [andb]. cbind. by apply IH.
Qed.

Lemma chunks_of_inputs (k : nat) rs constants inputs : Forall2 represents constants inputs -> Forall (joins k rs) inputs ->
  (k < length rs)%nat -> 0 < prod_z (take k rs) -> Forall (fun d => 0 <= d) rs ->
  chunks_ok (prod_z (take k rs)) (chunk_size k rs) constants /\
  Forall (fun a => Z.of_nat (length (attr_values a)) = prod_z (take k rs) * chunk_size k rs a) constants.
Proof.
  intros Hr Hj Hk Htop Hs. unfold chunks_ok. induction Hr as [|c t cs ts Hc _ IH]; [done|].
  apply Forall_cons in Hj as [Hjc Hj]. destruct (IH Hj) as [IH1 IH2]. split; (constructor; [|done]); [by eapply chunk_divides|].
  destruct (lookup_lt_is_Some_2 (getTensorShape t) k) as [s Hsk]; [destruct Hjc; lia|].
  pose proof (joins_shape _ _ _ _ Hjc Hsk) as Hsh. pose proof Hc as (_ & _ & Hl & _). rewrite (represents_shape _ _ Hc) in Hsk, Hsh.
  rewrite Hl. unfold chunk_size. rewrite Hsk. cbn [from_option id]. rewrite Hsh at 1. by rewrite prod_z_app, prod_z_cons.
Qed.

Lemma safe_fold_concatenate options dimension type constants inputs :
  Forall2 represents constants inputs -> shaped_ok type ->
  inferConcatenateOp (attr_type <$> constants) dimension = Ok type ->
  safe (fold_concatenate options dimension type constants).
Proof.
  intros Hr Hty Hinf. rewrite <- (represents_types _ _ Hr) in Hinf.
  apply inferConcatenateOp_inv in Hinf as (k & _ & _ & -> & _ & _ & Hj & HR);
    [|clear -Hr; induction Hr as [|? ? ? ? (? & _)]; by constructor].
  unfold fold_concatenate. checked. checked. checked. rewrite Nat2Z.id, shaped_prefix by done. cbind.
  set (rs := getShape type) in *. set (top := prod_z (take k rs)) in *.
  pose proof Hty as (_ & Hs%shape_ok_nonneg & _). fold rs in Hs.
  assert (0 <= top) as Htop by (by apply prod_z_nonneg, Forall_take).
  assert (prod_z rs = top * (total k inputs * prod_z (drop (S k) rs))) as Hp.
  { rewrite <- (take_drop_middle _ _ _ HR) at 1. by rewrite prod_z_app, prod_z_cons. }
  destruct (decide (top = 0)) as [Hz|Hnz].
  { rewrite Hz. cbn [seqZ foldM]. change (seqZ 0 0) with (@nil Z). cbn [foldM]. cbind. unfold getNumElements. fold rs. rewrite Hp, Hz. done. }
  assert (chunks_ok top (chunk_size k rs) constants /\
    Forall (fun a => Z.of_nat (length (attr_values a)) = top * chunk_size k rs a) constants) as [Hc Hl].
  { apply chunks_of_inputs with inputs; [done|done|by eapply lookup_lt_Some|lia|done]. }
  replace (seqZ 0 top) with (seqZ 0 (Z.of_nat (Z.to_nat top))) by (by rewrite Z2Nat.id).
  destruct (foldM_seqZ_total (fun i newElems => concat_row top i constants newElems) (fun _ _ => True) (Z.to_nat top) []) as (values & Hv & _);
    [done|intros i acc Hi _; destruct (concat_row_total top (chunk_size k rs) (Z.of_nat i) constants ltac:(lia) acc Hc Hl) as [acc' H]; by exists acc'|].
  unfold concat_row in Hv. rewrite Hv. cbind. rewrite Z2Nat.id in Hv by done.
  destruct (concat_rows_spec top (chunk_size k rs) constants top values ltac:(lia) Hc Hv) as [Hlen _].
  unfold getNumElements. fold rs. rewrite Hlen, Hp, (row_size_total _ _ _ _ Hr), Z.eqb_refl. done.
Qed.

Lemma safe_fold_iota options iotaDimension type : shaped_ok type -> 0 <= iotaDimension < Z.of_nat (length (getShape type)) ->
  safe (fold_iota options iotaDimension type).
Proof.
  intros Hty Hd. unfold fold_iota. checked. apply safe_bind; [by eauto with safe|]. intros [] Hi%ensure_ok.
  destruct (getElementType type) as [s w| | | | | | | | | | | | | |]; try done. cbn [getIntOrFloatBitWidth]. cbind.
  destruct (getNumElements type =? 0); [done|]. apply safe_bind; [by eauto with safe|]. intros [] H1%ensure_ok.
  destruct (at_z_lt (getShape type) iotaDimension Hd) as (d & -> & _). cbind.
  pose proof Hty as (_ & Hs%shape_ok_nonneg & _). unfold getNumElements in H1.
  pose proof (prod_z_ones _ Hs ltac:(lia)) as Hone. rewrite !foldM_mul_ones by (first [by apply Forall_take|by apply Forall_drop]). done.
Qed.

(** *** Reversals *)
Lemma swap_z_total values a b : 0 <= a < Z.of_nat (length values) -> 0 <= b < Z.of_nat (length values) ->
  exists l, swap_z values a b = Ok l /\ length l = length values.
Proof.
  intros Ha Hb. unfold swap_z. destruct (at_z_lt values a Ha) as (x & -> & _), (at_z_lt values b Hb) as (y & -> & _). cbind.
  rewrite set_z_ok by done. cbind. rewrite set_z_ok by (by rewrite length_insert). eexists. split; [done|]. by rewrite !length_insert.
Qed.

Lemma swaps_total ps : forall values, Forall (fun p => 0 <= p.1 < Z.of_nat (length values) /\ 0 <= p.2 < Z.of_nat (length values)) ps ->
  exists l, swaps ps values = Ok l.
Proof.
  unfold swaps. induction ps as [|[a b] ps IH]; intros values H; [by exists values|]. cbn [foldM fst snd].
  apply Forall_cons in H as [[Ha Hb] H]. destruct (swap_z_total values a b Ha Hb) as (l & -> & Hl). cbind. apply IH. by rewrite Hl.
Qed.

Lemma window_pairs_range T R P : 0 < R -> 0 < P -> 0 < T ->
  Forall (fun p => 0 <= p.1 < T * (R * P) /\ 0 <= p.2 < T * (R * P)) (window_pairs T R P).
Proof.
  intros HR HP HT. apply Forall_forall. intros p (i & -> & Hi%elem_of_indices)%list_elem_of_fmap.
  apply in_bounds_3 in Hi as (b & w & k & -> & ? & Hw & ?). apply half_range in Hw as [? ?]. rewrite (window_pair_flat T). cbn [fst snd].
  replace (T * (R * P)) with (prod_z [T; R; P]) by (unfold prod_z; cbn [foldr]; lia).
  split; apply flat_bounds, in_bounds_3; repeat eexists; lia.
Qed.

Lemma reverse_dim_total shape stride d values :
  Forall (fun d => 0 < d) shape -> prod_z shape <= int64_max -> 0 <= d < Z.of_nat (length shape) ->
  (forall k : nat, (k <= length shape)%nat -> stride !! k = Some (prod_z (drop k shape))) ->
  Z.of_nat (length values) = prod_z shape ->
  exists l, reverse_dim shape stride (prod_z shape) d values = Ok l.
Proof.
  intros Hpos Hmax Hd Hst Hl. rewrite <- (Z2Nat.id d) in * by lia. set (k := Z.to_nat d) in *. clearbody k. clear d.
  destruct (dim_product shape k Hpos ltac:(lia)) as (R & HR & HRp & HT & HP & Hp).
  pose proof (Hst k ltac:(lia)) as Hsk. rewrite (drop_S shape R k HR), prod_z_cons in Hsk. rewrite Hp in *.
  rewrite (reverse_dim_swaps shape stride k R _ (prod_z (take k shape))) by (done || nia).
  apply swaps_total. rewrite Hl. by apply window_pairs_range.
Qed.

Lemma reverse_strides_total shape : Forall (fun d => 0 < d) shape -> prod_z shape <= int64_max ->
  exists stride, reverse_strides shape (prod_z shape) = Ok stride.
Proof.
  intros Hpos Hmax. unfold reverse_strides.
  edestruct (foldM_seqZ_total (fun i stride => s ← at_z stride i; d ← at_z shape i; q ← div_z s d; Ok (stride ++ [q]))
    (fun k st => length st = S k /\ exists s, st !! k = Some s /\ s = prod_z (drop k shape)) (length shape) [prod_z shape]) as (st & -> & _);
    [by split; [|exists (prod_z shape)]| |by exists st].
  intros k st Hk (Hl & s & Hs & ->). rewrite (at_z_some st k _ Hs). destruct (lookup_lt_is_Some_2 shape k Hk) as [x Hx].
  rewrite (at_z_some shape k _ Hx). cbind. pose proof Hpos as Hxp. eapply Forall_lookup_1 in Hxp; [|exact Hx]. cbn in Hxp.
  assert (prod_z (drop k shape) <= int64_max) as Hle.
  { rewrite <- (take_drop k shape), prod_z_app in Hmax. pose proof (prod_z_pos _ (Forall_take _ k _ Hpos)). pose proof (prod_z_pos _ (Forall_drop _ k _ Hpos)). nia. }
  pose proof (prod_z_pos _ (Forall_drop _ (S k) _ Hpos)).
  rewrite (drop_S shape x k Hx), prod_z_cons in *. unfold div_z. rewrite (proj2 (Z.eqb_neq _ 0)), (Z.mul_comm x), Z.quot_mul by lia.
  rewrite i64_ok by (unfold int64_min in *; nia). cbind. eexists. split; [done|]. split; [rewrite length_app; cbn; lia|].
  eexists. split; [|done]. by rewrite lookup_app_r, Hl, Nat.sub_diag by lia.
Qed.

Lemma safe_fold_reverse options dims x :
  Z.of_nat (length (attr_values x)) = prod_z (getShape (attr_type x)) -> shaped_ok (attr_type x) ->
  verifyReverseOp (attr_type x) dims = Ok () -> safe (fold_reverse options dims (attr_type x) x).
Proof.
  intros Hl (_ & Hs & n & Hn) [Hnd Hd]%verifyReverseOp_inv. apply tensor_size in Hn as (_ & _ & _ & Hmax & _).
  unfold fold_reverse. checked. checked. apply safe_bind.
  { apply safe_mapM. intros d Hdin. rewrite Forall_forall in Hd. by destruct (at_z_lt _ _ (Hd d Hdin)) as (y & -> & _). }
  intros sizes _. apply safe_bind; [by eauto with safe|]. intros [] Hone%ensure_ok. checked.
  assert (Forall (fun d => 0 < d) (getShape (attr_type x))) as Hpos.
  { apply prod_z_all_pos; [auto with hlo|]. unfold getNumElements in Hone.
    destruct (Z.leb_spec (prod_z (getShape (attr_type x))) 1); [by rewrite orb_true_r in Hone|lia]. }
  unfold foldReverseHelper, getNumElements. destruct (reverse_strides_total _ Hpos Hmax) as [stride Hst]. rewrite Hst. cbind.
  pose proof (reverse_strides_spec _ _ Hpos Hst) as Hlk. apply safe_bind; [|done].
  apply (safe_foldM _ (fun dims values => Forall (fun d => 0 <= d < Z.of_nat (length (getShape (attr_type x)))) dims /\
    Z.of_nat (length values) = prod_z (getShape (attr_type x)))); [done|].
  intros d l values [[Hd0 Hds]%Forall_cons Hv]. destruct (reverse_dim_total _ stride d values Hpos Hmax Hd0 Hlk Hv) as [v' Hv'].
  rewrite Hv'. split; [done|]. intros ? [= <-]. split; [done|]. apply reverse_dim_values in Hv' as [-> _]; done.
Qed.
End Folds.

(** ** The folder on a program *)
Section Program.
Context {L : LLVM} {Laws : LLVMLaws L} {C : CommonFolders} {CLaws : CommonFoldersLaws C} {I : IndexingUtils} {ILaws : IndexingUtilsLaws I}.
Context (options : Options) (constants : Value -> option DenseElementsAttr) (attrs : OpAttrs) (scope : Scope).

(** What the verifier does not check: that a comparison type fits the operands,
    and that no stride added to a limit overflows. *)
Definition fits (op : Op) : Prop :=
  match op with
  | CompareOp lhs _ _ => comparable (compare_type attrs) (getElementType (attr_type (attr_of constants lhs)))
  | SliceOp _ _ strides => strides_fit (limit_indices attrs) strides
  | _ => True
  end.

Lemma represents_readable a t : represents a t -> readable_values (getElementType (attr_type a)) a.
Proof. intros H. by eapply typed_readable, represents_values. Qed.

Lemma safe_constant v : safe (constant constants v).
Proof. apply safe_ok_or. Qed.
Hint Resolve safe_constant represents_readable : safe.

Ltac operand Hc :=
  apply safe_bind; [by eauto with safe|];
  let x := fresh "x" in let Hx := fresh "Hx" in let t := fresh "t" in let Ht := fresh "Ht" in let Hr := fresh "Hr" in
  intros x Hx; destruct (constant_inv' _ _ _ _ Hc Hx) as [<- (t & Ht & Hr)]; clear Hx.

(** C14: on an operation that the verifier accepts, whose comparison type fits the
    operands and whose strides do not overflow when they are added to the limits
    ([fits]; the verifier checks neither), the folder finds a constant or does not
    match: it does not crash. *)
Theorem fold_op_safe op type :
  constants_hold constants scope -> accepted constants attrs scope op type -> fits op -> safe (fold_op options constants attrs op type).
Proof.
  intros Hc [Hty Hac] Hfit. destruct op; try done; cbn [fold_op accepted fits] in *.
  - destruct kind; operand Hc; try (by apply safe_fold_reshape); try (apply safe_fold_convert; by eauto with safe);
      (apply safe_fold_unary; [done|rewrite <- Hac; by eauto with safe]).
  - operand Hc. operand Hc. destruct Hac as [H1 H2]. apply safe_fold_binary; [done|done| |]; [rewrite <- H1|rewrite <- H2]; by eauto with safe.
  - operand Hc. apply safe_fold_broadcast_in_dim.
  - operand Hc. operand Hc. operand Hc. destruct Hac as (H1 & H2 & H3).
    apply safe_fold_clamp; [done|done|done| | |]; [rewrite <- H1|rewrite <- H2|rewrite <- H3]; by eauto with safe.
  - operand Hc. operand Hc. destruct Hac as (_ & H1 & _). apply safe_fold_compare; [done| |]; [|rewrite H1]; by eauto with safe.
  - apply safe_bind; [apply safe_mapM; intros; apply safe_constant|]. intros xs Hxs.
    destruct (constants_inv _ _ _ _ Hc Hxs) as (ts & _ & Hr & <-). destruct Hac as [_ Hinf].
    eapply safe_fold_concatenate; [done|done|]. by rewrite <- list_fmap_compose.
  - operand Hc. apply safe_fold_dynamic_slice.
  - destruct Hac as (_ & t & _ & _ & -> & Hd). cbind. by apply safe_fold_get_dimension_size.
  - destruct Hac as [_ Hd]. by apply safe_fold_iota.
  - operand Hc. destruct Hac as [<- Hv]. apply safe_fold_reverse; [by apply Hr|by eapply represents_shaped|done].
  - operand Hc. operand Hc. operand Hc. destruct Hac as (H1 & H2 & H3).
    apply safe_fold_select; [done|rewrite <- H1|rewrite <- H2|rewrite <- H3]; by eauto with safe.
  - operand Hc. destruct Hac as (? & ? & ?). pose proof Hty as (_ & ? & _).
    apply safe_fold_slice; [by apply Hr|by eapply represents_shaped|done..].
  - operand Hc. pose proof Hty as (_ & ? & _). apply safe_fold_transpose; [by apply Hr|done|done].
Qed.
End Program.

(** ** Witnesses *)
Section Witnesses.
Import Concrete.

(** A slice whose last step runs past the limit, and a quotient by itself. *)
Lemma fold_op_safe_witness :
  safe (fold_op all_options sample_constants sample_fold_attrs (SliceOp (folded_reg 1 [2; 3]) [0; 0] [1; 2]) (shaped [2; 2] ui8)) /\
  safe (fold_op all_options sample_constants sample_fold_attrs (BinaryOp DivOp (folded_reg 2 [2; 1]) (folded_reg 2 [2; 1])) (shaped [2; 1] ui8)).
Proof.
  split.
  - apply (fold_op_safe all_options sample_constants sample_fold_attrs sample_scope _ _ sample_constants_hold).
    + split; [concrete|]. split; [reflexivity|]. split; [reflexivity|concrete].
    + intros [|[|d]] hi s Hhi Hs; cbn in Hhi, Hs; try discriminate Hhi; injection Hhi as <-; injection Hs as <-; unfold int64_max; lia.
  - apply (fold_op_safe all_options sample_constants sample_fold_attrs sample_scope _ _ sample_constants_hold).
    + split; [concrete|]. split; reflexivity.
    + exact Logic.I.
Defined.
End Witnesses.
