(* ===== verification/Simplify.v ===== *)
(** * The simplification patterns

    [src/stablehlo/transforms/optimization/StablehloAggressiveSimplification.cpp]:
    the patterns on operations with one tensor as their result.  A pattern is a
    function from the operation, its attributes and its result type to the rewrite
    it makes; [Failed] is a pattern that does not match, every other fault a crash
    of the compiler.  Two SSA values are the same when their registers are. *)
From S2P Require Import Prelude Types Support Index Element Tensor Base TypeInference Ops Regions Scope Eval Folder.

#[export] Instance BinaryKind_eq_dec : EqDecision BinaryKind.
Proof. solve_decision. Defined.

(** ** Rewrites *)
Section Rewrites.
Context {L : LLVM}.

(** A pattern creates operations, each with a new register, then replaces its
    operation by a value or by an operation in its place: [replaceOp],
    [replaceOpWithNewOp] and [modifyOpInPlace]. *)
Inductive Replacement :=
| ReplaceWithValue (v : Value)
| ReplaceWithOp (op : Op) (attrs : OpAttrs) (type : ShapedType).

Record Rewrite := MkRewrite { created : list (Op * OpAttrs * Value); replacement : Replacement }.

(** What a pattern sees around its operation: the defining operations of the
    values, whether a value has one use, whether the operation's result is used,
    and used by another dialect, and registers that are not in use. *)
Record Program := MkProgram {
  defining_op : Value -> option Op;
  has_one_use : Value -> bool;
  result_used : bool;
  foreign_user : bool;
  fresh : nat -> positive;
}.

Abbreviation Pattern := (Op -> OpAttrs -> ShapedType -> result Rewrite) (only parsing).

Definition same_value (v w : Value) : bool := bool_decide (value_id v = value_id w).

Definition no_match {A} : result A := Err (Failed "no match").
Definition no_attrs : OpAttrs := MkOpAttrs None [] [].

Definition replace_value (v : Value) : Rewrite := MkRewrite [] (ReplaceWithValue v).
Definition replace_op (op : Op) (type : ShapedType) : Rewrite := MkRewrite [] (ReplaceWithOp op no_attrs type).

(** The type of a value, which must be a ranked tensor's. *)
Definition type_of (v : Value) : result ShapedType := cast_shaped (ssa_type v).

(** A register for the result of a created operation. *)
Definition new_value (program : Program) (n : nat) (type : ShapedType) : Value :=
  MkValue (fresh program n) (shaped_type type).

(** The arrays of a slice are an attribute that the evaluator does not read in full. *)
Definition slice_attrs (limit : list Z) : OpAttrs := MkOpAttrs None limit [].
End Rewrites.

Section Simplify.
Context {L : LLVM} {C : CommonFolders} (options : Options) (program : Program).
Abbreviation Pattern := (Op -> OpAttrs -> ShapedType -> result Rewrite) (only parsing).

(** ** Matchers *)
Definition m_Constant (v : Value) : result DenseElementsAttr :=
  match defining_op program v with Some (ConstantOp a) => Ok a | _ => no_match end.

(** Of a [DenseIntElementsAttr], and of one integer. *)
Definition m_ConstantInts (v : Value) : result DenseElementsAttr :=
  a ← m_Constant v; _ ← ensure (isa_IntegerType (getElementType (attr_type a))) "DenseIntElementsAttr"; Ok a.
Definition m_ConstantInt (v : Value) : result APInt :=
  a ← m_ConstantInts v;
  match getSplatValue a with
  | Some x => match attr_apint x with Ok n => Ok n | Err _ => no_match end
  | None => no_match
  end.

Definition matches {A} (m : result A) : bool := match m with Ok _ => true | Err _ => false end.

(** [hlo::matchInts] and [convertToI64Array] *)
Definition convertToI64Array (attr : DenseElementsAttr) : result (list Z) :=
  mapM (fun v => x ← attr_apint v; Ok (getSExtValue x)) (attr_values attr).
Definition matchInts (v : Value) : result (list Z) := a ← m_ConstantInts v; convertToI64Array a.

Fixpoint isIotaRange_from (n : Z) (dims : list Z) : bool :=
  match dims with [] => true | d :: dims => (n =? d) && isIotaRange_from (n + 1) dims end.
Definition isIotaRange (dims : list Z) : bool := isIotaRange_from 0 dims.

Definition bool_constant (type : ShapedType) (b : bool) : Rewrite := replace_op (ConstantOp (splat type (VBool b))) type.

(** ** [CompareOp] *)
Definition invertDirection (direction : ComparisonDirection) : ComparisonDirection :=
  match direction with EQ => EQ | NE => NE | GE => LE | GT => LT | LE => GE | LT => GT end.

Definition CompareOpCanon : Pattern := fun op attrs type =>
  match op with
  | CompareOp lhs rhs direction =>
      _ ← ensure (bool_decide (compare_type attrs = Some SIGNED \/ compare_type attrs = Some UNSIGNED)) "not an integer comparison";
      if same_value lhs rhs then
        match direction with
        | EQ | GE | LE => Ok (bool_constant type true)
        | GT | LT | NE => Ok (bool_constant type false)
        end
      else if matches (m_Constant lhs) && negb (matches (m_Constant rhs)) then
        Ok (MkRewrite [] (ReplaceWithOp (CompareOp rhs lhs (invertDirection direction)) attrs type))
      else no_match
  | _ => no_match
  end.

(** ** [ConcatenateOp] *)
Definition ConcatenateOpNoop : Pattern := fun op attrs type =>
  match op with
  | ConcatenateOp [input] dimension =>
      _ ← ensure (bool_decide (ssa_type input = shaped_type type)) "not single operand noop-concat";
      Ok (replace_value input)
  | _ => no_match
  end.

(** The operands that are not empty along the axis. *)
Fixpoint nonempty_operands (axis : Z) (operands : list Value) : result (list Value) :=
  match operands with
  | [] => Ok []
  | operand :: operands =>
      type ← type_of operand;
      size ← at_z (getShape type) axis;
      rest ← nonempty_operands axis operands;
      Ok (if size =? 0 then rest else operand :: rest)
  end.

Definition ConcatenateOpRemoveEmpty : Pattern := fun op attrs type =>
  match op with
  | ConcatenateOp inputs axis =>
      newOperands ← nonempty_operands axis inputs;
      if negb (bool_decide (newOperands = [])) && (length newOperands <? length inputs)%nat then
        Ok (replace_op (ConcatenateOp newOperands axis) type)
      else no_match
  | _ => no_match
  end.

Definition getFlattenedOperands (dimension : Z) (v : Value) : list Value :=
  match defining_op program v with
  | Some (ConcatenateOp inputs d) => if has_one_use program v && (d =? dimension) then inputs else [v]
  | _ => [v]
  end.

Definition ConcatenateOpFlatten : Pattern := fun op attrs type =>
  match op with
  | ConcatenateOp inputs dimension =>
      let needToFlatten := existsb (fun v =>
        match getFlattenedOperands dimension v with [w] => negb (same_value v w) | _ => true end) inputs in
      _ ← ensure needToFlatten "no need to flatten";
      Ok (replace_op (ConcatenateOp (flat_map (getFlattenedOperands dimension) inputs) dimension) type)
  | _ => no_match
  end.

(** ** [BroadcastInDimOp] *)
Definition getInvertedBroadcastDimensions (dims : list Z) : result (list Z) :=
  foldM (fun i permutation => d ← at_z dims i; set_z permutation d i)
    (seqZ 0 (Z.of_nat (length dims))) (replicate (length dims) 0).

Definition getMergedBroadcastDimensions (dims dimsParent : list Z) : result (list Z) :=
  mapM (fun dim => at_z dims dim) dimsParent.

(** ** Operations of dynamic shape *)

(** When another dialect uses the result, it keeps its type by a conversion. *)
Definition refineOpWithNewOp (op : Op) (refined type : ShapedType) : Rewrite :=
  if foreign_user program then
    let v := new_value program 0 refined in
    MkRewrite [(op, no_attrs, v)] (ReplaceWithOp (UnaryOp ConvertOp v) no_attrs type)
  else replace_op op refined.

Definition DynamicBroadcastInDimOpNotActuallyDynamic : Pattern := fun op attrs type =>
  match op with
  | DynamicBroadcastInDimOp operand outputDimensions broadcastDimensions =>
      operandType ← type_of operand;
      _ ← ensure (hasStaticShape operandType) "requires operand static shape";
      if hasStaticShape type then Ok (replace_op (BroadcastInDimOp operand broadcastDimensions) type)
      else
        shape ← matchInts outputDimensions;
        Ok (refineOpWithNewOp (BroadcastInDimOp operand broadcastDimensions) (shaped shape (getElementType type)) type)
  | _ => no_match
  end.

Definition DynamicIotaIsStatic : Pattern := fun op attrs type =>
  match op with
  | DynamicIotaOp outputShape iotaDimension =>
      _ ← ensure (hasStaticShape type) "requires output static shape";
      Ok (replace_op (IotaOp iotaDimension) type)
  | _ => no_match
  end.

Definition DynamicReshapeOpIsStatic : Pattern := fun op attrs type =>
  match op with
  | DynamicReshapeOp operand outputShape =>
      _ ← ensure (hasStaticShape type) "dynamic reshape not static";
      Ok (replace_op (UnaryOp ReshapeOp operand) type)
  | _ => no_match
  end.

(** [std::clamp] asserts that the bounds are in order. *)
Definition std_clamp (v lo hi : Z) : result Z :=
  if hi <? lo then Err (UB "assert: !(hi < lo)") else Ok (if v <? lo then lo else if hi <? v then hi else v).

(** The start of a slice of constant start indices, in bounds. *)
Definition constant_start (inputShape sliceSizes : list Z) (index : Z) (start : APInt) : result Z :=
  d ← at_z inputShape index;
  size ← at_z sliceSizes index;
  room ← i64 (d - size);
  std_clamp (getSExtValue start) 0 room.

Definition constant_starts (inputShape sliceSizes : list Z) (startIndices : list Value) : result (list Z) :=
  mapM (fun '(index, start) => v ← m_ConstantInt start; constant_start inputShape sliceSizes index v)
    (enumerate startIndices).

Definition add_sizes (start sizes : list Z) : result (list Z) :=
  mapM (fun '(start, size) => i64 (start + size)) (zip start sizes).

(** The builder of a slice infers its type. *)
Definition create_slice (input : Value) (inputType : ShapedType) (start limit strides : list Z) : result Replacement :=
  type ← or_fatal "Failed to infer result type(s)." (inferSliceOp inputType start limit strides);
  Ok (ReplaceWithOp (SliceOp input start strides) (slice_attrs limit) type).

Definition DynamicSliceOpToSlice : Pattern := fun op attrs type =>
  match op with
  | DynamicSliceOp input startIndices sliceSizes =>
      inputType ← type_of input;
      _ ← ensure (hasStaticShape inputType) "dynamic slice input not static";
      start ← constant_starts (getShape inputType) sliceSizes startIndices;
      limit ← add_sizes start sliceSizes;
      slice ← create_slice input inputType start limit (replicate (length (getShape inputType)) 1);
      Ok (MkRewrite [] slice)
  | _ => no_match
  end.

(** ** [GetDimensionSizeOp] *)
Definition GetDimensionSizeOpCanon : Pattern := fun op attrs type =>
  match op with
  | GetDimensionSizeOp operand dimension =>
      operandType ← type_of operand;
      dimSize ← at_z (getShape operandType) dimension;
      _ ← ensure (negb (dimSize <? 0)) "dynamic dimension";
      match getElementType type with
      | IntegerType _ w =>
          Ok (replace_op (ConstantOp (splat type (int_value (getElementType type) (apint w dimSize)))) type)
      | _ => Err (UB "cast<IntegerType>")
      end
  | _ => no_match
  end.

(** ** [IotaOp] *)
Definition IotaOpBroadcast : Pattern := fun op attrs type =>
  match op with
  | IotaOp iotaDim =>
      _ ← ensure (negb (getRank type <? 2)) "itoa not broadcastable";
      iotaDimSize ← at_z (getShape type) iotaDim;
      let iota1D := new_value program 0 (shaped [iotaDimSize] (getElementType type)) in
      Ok (MkRewrite [(IotaOp 0, no_attrs, iota1D)] (ReplaceWithOp (BroadcastInDimOp iota1D [iotaDim]) no_attrs type))
  | _ => no_match
  end.

(** ** [PadOp]: a result of static shape *)
Definition PadOpBroadcastEmptyTensor : Pattern := fun op attrs type =>
  match op with
  | PadOp operand padVal _ _ =>
      operandTy ← type_of operand;
      _ ← ensure (hasStaticShape operandTy) "operand shape is dynamic";
      _ ← ensure (getNumElements operandTy =? 0) "operand is not empty tensor";
      _ ← ensure (hasStaticShape type) "not modelled: reifyReturnTypeShapes";
      Ok (replace_op (BroadcastInDimOp padVal []) type)
  | _ => no_match
  end.

(** ** [SelectOp] *)
Definition truth (v : Value_) : result bool := x ← attr_apint v; Ok (negb (isZero x)).

Fixpoint select_values (cond onTrue onFalse : list Value_) : result (list Value_) :=
  match cond, onTrue, onFalse with
  | [], [], [] => Ok []
  | c :: cond, t :: onTrue, f :: onFalse =>
      b ← truth c; values ← select_values cond onTrue onFalse; Ok ((if b : bool then t else f) :: values)
  | _, _, _ => Err (UB "assert: zip_equal")
  end.

Definition SelectOpCanon : Pattern := fun op attrs type =>
  match op with
  | SelectOp pred trueVal falseVal =>
      if same_value trueVal falseVal then Ok (replace_value trueVal)
      else
        cond ← m_Constant pred;
        match getSplatValue cond with
        | Some v => b ← truth v; Ok (replace_value (if b : bool then trueVal else falseVal))
        | None =>
            _ ← ensure (getNumElements (attr_type cond) <=? foldOpElementLimit options) "too many elements";
            trueAttr ← m_Constant trueVal;
            falseAttr ← m_Constant falseVal;
            newValues ← select_values (attr_values cond) (attr_values trueAttr) (attr_values falseAttr);
            Ok (replace_op (ConstantOp (MkAttr type newValues)) type)
        end
  | _ => no_match
  end.

(** Not in the pattern set until a legalization is fixed. *)
Definition CompareSelectIntoMinMax : Pattern := fun op attrs type =>
  match op with
  | SelectOp pred trueVal falseVal =>
      match defining_op program pred with
      | Some (CompareOp cmpLhs cmpRhs direction) =>
          direction ←
            (if same_value cmpLhs falseVal && same_value cmpRhs trueVal then Ok (invertDirection direction)
             else if same_value cmpLhs trueVal && same_value cmpRhs falseVal then Ok direction
             else no_match);
          match direction with
          | GE | GT => Ok (replace_op (BinaryOp MaxOp trueVal falseVal) type)
          | LE | LT => Ok (replace_op (BinaryOp MinOp trueVal falseVal) type)
          | _ => no_match
          end
      | _ => no_match
      end
  | _ => no_match
  end.

(** ** [SliceOp] *)

(** The first operand that the slice needs with the sizes before it, and one past
    the last; [None] is the end of the operands. *)
Fixpoint slice_operands (dimension sliceStart sliceLimit : Z) (k : nat) (runningSize frontOffset : Z)
    (subsetStart subsetEnd : option nat) (operands : list Value) : result (option nat * option nat * Z) :=
  match operands with
  | [] => Ok (subsetStart, subsetEnd, frontOffset)
  | input :: operands =>
      inputTy ← type_of input;
      dimSize ← at_z (getShape inputTy) dimension;
      if isDynamicDimSize dimSize then Err (Failed "concat input has dynamic dimension")
      else
        next ← i64 (runningSize + dimSize);
        let '(subsetStart, frontOffset) :=
          if (sliceStart <? next) && bool_decide (subsetStart = None) then (Some k, runningSize)
          else (subsetStart, frontOffset) in
        let subsetEnd := if runningSize <? sliceLimit then Some (S k) else subsetEnd in
        slice_operands dimension sliceStart sliceLimit (S k) next frontOffset subsetStart subsetEnd operands
  end.

(** [OperandRange(subsetStart, subsetEnd)] of iterators that are in order. *)
Definition operand_range (operands : list Value) (subsetStart subsetEnd : nat) : result (list Value) :=
  if (subsetStart <=? subsetEnd)%nat && (subsetEnd <=? length operands)%nat then
    Ok (take (subsetEnd - subsetStart) (drop subsetStart operands))
  else Err (UB "iterators out of order").

Definition SliceOpConcatSimplify : Pattern := fun op attrs type =>
  match op with
  | SliceOp operand start strides =>
      let limit := limit_indices attrs in
      _ ← ensure (hasStaticShape type) "result shape not static";
      match defining_op program operand with
      | Some (ConcatenateOp inputs dimension) =>
          concatType ← type_of operand;
          sliceStart ← at_z start dimension;
          sliceLimit ← at_z limit dimension;
          frontOffset ← at_z (getShape concatType) dimension;
          '(subsetStart, subsetEnd, frontOffset) ←
            slice_operands dimension sliceStart sliceLimit 0 0 frontOffset None None inputs;
          let subsetStart := default (length inputs) subsetStart in
          let subsetEnd := default (length inputs) subsetEnd in
          let subsetSize := Z.of_nat subsetEnd - Z.of_nat subsetStart in
          _ ← ensure (negb (subsetSize =? Z.of_nat (length inputs))) "slice needs all concat inputs";
          _ ← ensure (negb (subsetSize =? 0)) "slice is empty";
          _ ← ensure (negb ((1 <? subsetSize) && negb (has_one_use program operand))) "slice is not the only concat user";
          concatRange ← operand_range inputs subsetStart subsetEnd;
          types ← mapM type_of concatRange;
          newType ← or_fatal "Failed to infer result type(s)." (inferConcatenateOp types dimension);
          let newConcat := new_value program 0 newType in
          newStart ← i64 (sliceStart - frontOffset);
          newStart ← set_z start dimension newStart;
          newLimit ← i64 (sliceLimit - frontOffset);
          newLimit ← set_z limit dimension newLimit;
          slice ← create_slice newConcat newType newStart newLimit strides;
          Ok (MkRewrite [(ConcatenateOp concatRange dimension, no_attrs, newConcat)] slice)
      | _ => no_match
      end
  | _ => no_match
  end.

(** ** [TransposeOp] *)
Definition getMergedTransposePermutation (childPerm parentPerm : list Z) : result (list Z) :=
  mapM (fun parentIdx => at_z childPerm parentIdx) parentPerm.

Fixpoint increasing (l : list Z) : bool :=
  match l with
  | x :: (y :: _) as l' => negb (y <? x) && increasing l'
  | _ => true
  end.

Definition TransposeIsReshape : Pattern := fun op attrs type =>
  match op with
  | TransposeOp input permutation =>
      inputTy ← type_of input;
      _ ← ensure (hasStaticShape inputTy && hasStaticShape type) "requires statically-shaped input and output";
      sizes ← mapM (fun idx => at_z (getShape inputTy) idx) permutation;
      let nonZeroPerms := fst <$> filter (fun p => p.2 <> 1) (zip permutation sizes) in
      _ ← ensure (increasing nonZeroPerms) "memory layout change";
      Ok (replace_op (UnaryOp ReshapeOp input) type)
  | _ => no_match
  end.

(** ** Empty tensors *)
Definition getMaybeZeroExtentType (t : Ty) : option ShapedType :=
  match dyn_cast_shaped t with
  | Some type => if hasStaticShape type && (getNumElements type =? 0) then Some type else None
  | None => None
  end.

(** The half of the pattern that looks at the result of an operation of the dialect
    without a memory effect; the half that replaces operands without elements by
    constants is left out. *)
Definition ZeroExtentToEmptyConstant : Pattern := fun op attrs type =>
  match op with
  | ConstantOp _ => no_match
  | _ =>
      match getMaybeZeroExtentType (shaped_type type) with
      | Some resultType =>
          _ ← ensure (result_used program) "no use";
          Ok (replace_op (ConstantOp (MkAttr resultType [])) type)
      | None => no_match
      end
  end.
End Simplify.
