(* ===== verification/SimplifyRules.v ===== *)
(** * The declarative simplification patterns

    [src/stablehlo/transforms/optimization/StablehloAggressiveSimplificationPatterns.td],
    the patterns on operations that the evaluator knows and with one tensor as
    their result; one definition per pattern.  The replacing operation has the
    result type of the replaced one.  Attributes that no operation reads
    ([MergeDiscardableAttributes]) are left out. *)
From S2P Require Import Prelude Types Support Index Element Tensor Base TypeInference Ops Regions Scope Eval Folder Simplify.

Section Rules.
Context {L : LLVM} {C : CommonFolders} (program : Program).
Abbreviation Pattern := (Op -> OpAttrs -> ShapedType -> result Rewrite) (only parsing).

(** ** Constraints *)
Definition constrain (b : bool) (r : result Rewrite) : result Rewrite := if b then r else no_match.

(** The integer of a splat, and its predicates. *)
Definition splat_int (p : APInt -> bool) (a : DenseElementsAttr) : bool :=
  isa_IntegerType (getElementType (attr_type a)) &&
  match getSplatValue a with Some v => match attr_apint v with Ok x => p x | Err _ => false end | None => false end.
Definition splat_float (p : APFloat -> bool) (a : DenseElementsAttr) : bool :=
  match getSplatValue a with Some (VFloat x) => p x | _ => false end.

Definition IntZero : DenseElementsAttr -> bool := splat_int isZero.
Definition IntOne : DenseElementsAttr -> bool := splat_int isOne.
Definition IntAllOnes : DenseElementsAttr -> bool :=
  splat_int (fun x => uval x =? 2 ^ Support.getBitWidth x - 1).
Definition AnyZero (a : DenseElementsAttr) : bool := IntZero a || splat_float apfloat_isZero a.
Definition AnyOne (a : DenseElementsAttr) : bool :=
  IntOne a || splat_float (fun x => apint_eq (bitcastToAPInt x) (bitcastToAPInt (getOne (getSemantics x) false))) a.

(** A constant operand with a property. *)
Definition constant_with (p : DenseElementsAttr -> bool) (v : Value) : bool :=
  match m_Constant program v with Ok a => p a | Err _ => false end.
Definition NotConstantOp (v : Value) : bool := negb (constant_with (fun _ => true) v).

Definition static_value (v : Value) : bool :=
  match type_of v with Ok type => hasStaticShape type | Err _ => false end.
Definition TypesEqual (type : ShapedType) (v : Value) : bool := bool_decide (ssa_type v = shaped_type type).
Definition NumberOfElementsEqual (type : ShapedType) (v : Value) : bool :=
  match type_of v with Ok t => getNumElements type =? getNumElements t | Err _ => false end.
Definition RankEqual (type : ShapedType) (v : Value) : bool :=
  match type_of v with Ok t => getRank type =? getRank t | Err _ => false end.
Definition ZeroElement (v : Value) : bool :=
  match type_of v with Ok t => getNumElements t =? 0 | Err _ => false end.

Definition getDimSize (v : Value) (dim : Z) : result Z := type ← type_of v; at_z (getShape type) dim.
Definition AllDimSizeEquals (n : Z) (v : Value) (dims : list Z) : result bool :=
  sizes ← mapM (getDimSize v) dims; Ok (forallb (fun size => size =? n) sizes).

Fixpoint is_sorted (l : list Z) : bool :=
  match l with
  | x :: (y :: _) as l' => (x <=? y) && is_sorted l'
  | _ => true
  end.

Definition BroadcastNotReducibleToReshape (inner operand : Value) : bool :=
  negb (static_value inner) ||
  match defining_op program inner, type_of inner with
  | Some (BroadcastInDimOp _ dims), Ok type => negb (is_sorted dims && NumberOfElementsEqual type operand)
  | _, _ => false
  end.

(** [getScalarLike] and [getConstantLike] *)
Definition getScalarLike (t : Ty) (n : Z) : result Value_ :=
  match t with
  | IntegerType _ w => Ok (int_value t (apint w n))
  | FloatType k => Ok (VFloat (convertFromAPInt k (apint 64 n) true))
  | ComplexType (FloatType k) =>
      Ok (VComplex (convertFromAPInt k (apint 64 n) true, convertFromAPInt k (apint 64 0) true))
  | _ => Err (UB "unhandled element type")
  end.
Definition constant_like (n : Z) (type : ShapedType) : result Rewrite :=
  v ← getScalarLike (getElementType type) n; Ok (replace_op (ConstantOp (splat type v)) type).

(** ** Binary operations *)
Definition CanonicalizeConstantToRhs (kind : BinaryKind) : Pattern := fun op attrs type =>
  match op with
  | BinaryOp k lhs rhs =>
      constrain (bool_decide (k = kind) && matches (m_Constant program lhs) && NotConstantOp rhs)
        (Ok (replace_op (BinaryOp kind rhs lhs) type))
  | _ => no_match
  end.

(** [op(X, cst)] by its left operand, and by its right one. *)
Definition remove_noop (kind : BinaryKind) (p : DenseElementsAttr -> bool) : Pattern := fun op attrs type =>
  match op with
  | BinaryOp k lhs rhs => constrain (bool_decide (k = kind) && constant_with p rhs) (Ok (replace_value lhs))
  | _ => no_match
  end.
Definition fold_to_constant (kind : BinaryKind) (p : DenseElementsAttr -> bool) : Pattern := fun op attrs type =>
  match op with
  | BinaryOp k lhs rhs => constrain (bool_decide (k = kind) && constant_with p rhs) (Ok (replace_value rhs))
  | _ => no_match
  end.

(** [op(X, X)], with a condition on the type of the operand, by a zero. *)
Definition fold_same_to_zero (kind : BinaryKind) (p : Value -> bool) : Pattern := fun op attrs type =>
  match op with
  | BinaryOp k lhs rhs =>
      constrain (bool_decide (k = kind) && same_value lhs rhs && static_value lhs && p lhs)
        (operandType ← type_of lhs; constant_like 0 operandType)
  | _ => no_match
  end.

Definition AddOp_CanonicalizeConstantToRhs : Pattern := CanonicalizeConstantToRhs AddOp.
Definition AddOp_RemoveNoop : Pattern := remove_noop AddOp AnyZero.
Definition AndOp_CanonicalizeConstantToRhs : Pattern := CanonicalizeConstantToRhs AndOp.
Definition AndOp_FoldToZero : Pattern := fold_to_constant AndOp IntZero.
Definition AndOp_RemoveNoop : Pattern := remove_noop AndOp IntAllOnes.
Definition MaxOp_CanonicalizeConstantToRhs : Pattern := CanonicalizeConstantToRhs MaxOp.
Definition MinOp_CanonicalizeConstantToRhs : Pattern := CanonicalizeConstantToRhs MinOp.
Definition MulOp_CanonicalizeConstantToRhs : Pattern := CanonicalizeConstantToRhs MulOp.
Definition MulOp_FoldToZero : Pattern := fold_to_constant MulOp IntZero.
Definition MulOp_RemoveNoop : Pattern := remove_noop MulOp AnyOne.
Definition OrOp_CanonicalizeConstantToRhs : Pattern := CanonicalizeConstantToRhs OrOp.
Definition OrOp_FoldToOne : Pattern := fold_to_constant OrOp IntAllOnes.
Definition OrOp_RemoveNoop : Pattern := remove_noop OrOp IntZero.
Definition SubtractOp_FoldToZero : Pattern := fold_same_to_zero SubtractOp (fun operand =>
  match type_of operand with Ok type => isa_IntegerType (getElementType type) | Err _ => false end).
Definition SubtractOp_RemoveNoop : Pattern := remove_noop SubtractOp AnyZero.
Definition XorOp_CanonicalizeConstantToRhs : Pattern := CanonicalizeConstantToRhs XorOp.
Definition XorOp_FoldToZero : Pattern := fold_same_to_zero XorOp (fun _ => true).
Definition XorOp_RemoveNoop : Pattern := remove_noop XorOp IntZero.

(** ** Complex numbers *)
Definition ComplexOp_CancelOutComposedOps : Pattern := fun op attrs type =>
  match op with
  | BinaryOp ComplexOp lhs rhs =>
      match defining_op program lhs, defining_op program rhs with
      | Some (UnaryOp RealOp x), Some (UnaryOp ImagOp y) => constrain (same_value x y) (Ok (replace_value x))
      | _, _ => no_match
      end
  | _ => no_match
  end.
Definition ImagOp_CancelOutComposedOps : Pattern := fun op attrs type =>
  match op with
  | UnaryOp ImagOp operand =>
      match defining_op program operand with
      | Some (BinaryOp ComplexOp lhs rhs) => Ok (replace_value rhs)
      | _ => no_match
      end
  | _ => no_match
  end.
Definition RealOp_CancelOutComposedOps : Pattern := fun op attrs type =>
  match op with
  | UnaryOp RealOp operand =>
      match defining_op program operand with
      | Some (BinaryOp ComplexOp lhs rhs) => Ok (replace_value lhs)
      | _ => no_match
      end
  | _ => no_match
  end.

(** ** Comparisons of booleans with a constant *)
Definition pred_constant (p : DenseElementsAttr -> bool) : Value -> bool :=
  constant_with (fun a => isSignlessInteger (getElementType (attr_type a)) 1 && p a).
Definition CompareOp_NeBooleanFalse : Pattern := fun op attrs type =>
  match op with
  | CompareOp lhs cst NE => constrain (pred_constant IntZero cst) (Ok (replace_value lhs))
  | _ => no_match
  end.
Definition CompareOp_EqBooleanTrue : Pattern := fun op attrs type =>
  match op with
  | CompareOp lhs cst EQ => constrain (pred_constant IntOne cst) (Ok (replace_value lhs))
  | _ => no_match
  end.

(** ** Unary operations *)
Definition ConvertOp_RemoveNoop : Pattern := fun op attrs type =>
  match op with
  | UnaryOp ConvertOp operand => constrain (TypesEqual type operand) (Ok (replace_value operand))
  | _ => no_match
  end.
Definition ReshapeOp_RemoveNoop : Pattern := fun op attrs type =>
  match op with
  | UnaryOp ReshapeOp operand => constrain (TypesEqual type operand) (Ok (replace_value operand))
  | _ => no_match
  end.
Definition ReshapeOp_MergeComposition : Pattern := fun op attrs type =>
  match op with
  | UnaryOp ReshapeOp reshaped =>
      match defining_op program reshaped with
      | Some (UnaryOp ReshapeOp operand) => Ok (replace_op (UnaryOp ReshapeOp operand) type)
      | _ => no_match
      end
  | _ => no_match
  end.

(** ** [ReverseOp] *)
Definition ReverseOp_EmptyDim : Pattern := fun op attrs type =>
  match op with ReverseOp operand [] => Ok (replace_value operand) | _ => no_match end.
Definition ReverseOp_ZeroElements : Pattern := fun op attrs type =>
  match op with
  | ReverseOp operand dims => constrain (static_value operand && ZeroElement operand) (Ok (replace_value operand))
  | _ => no_match
  end.
Definition ReverseOp_AllDimsEqualOne : Pattern := fun op attrs type =>
  match op with
  | ReverseOp operand dims =>
      if static_value operand then
        all_ones ← AllDimSizeEquals 1 operand dims; constrain all_ones (Ok (replace_value operand))
      else no_match
  | _ => no_match
  end.
Definition ReverseOp_SplatToNoop : Pattern := fun op attrs type =>
  match op with
  | ReverseOp cst dims =>
      constrain (constant_with (fun a => bool_decide (is_Some (getSplatValue a))) cst) (Ok (replace_value cst))
  | _ => no_match
  end.

(** ** Broadcasts *)
Definition BroadcastInDimOp_RemoveNoop : Pattern := fun op attrs type =>
  match op with
  | BroadcastInDimOp operand dims => constrain (isIotaRange dims && TypesEqual type operand) (Ok (replace_value operand))
  | _ => no_match
  end.
Definition BroadcastInDimOp_MergeComposition : Pattern := fun op attrs type =>
  match op with
  | BroadcastInDimOp inner outer_dims =>
      match defining_op program inner with
      | Some (BroadcastInDimOp operand inner_dims) =>
          constrain (BroadcastNotReducibleToReshape inner operand)
            (dims ← getMergedBroadcastDimensions outer_dims inner_dims;
             Ok (replace_op (BroadcastInDimOp operand dims) type))
      | _ => no_match
      end
  | _ => no_match
  end.
Definition BroadcastInDimOp_ReplaceWithReshape : Pattern := fun op attrs type =>
  match op with
  | BroadcastInDimOp operand dims =>
      constrain (static_value operand && is_sorted dims && NumberOfElementsEqual type operand)
        (Ok (replace_op (UnaryOp ReshapeOp operand) type))
  | _ => no_match
  end.
Definition BroadcastInDimOp_ReplaceWithTranspose : Pattern := fun op attrs type =>
  match op with
  | BroadcastInDimOp operand dims =>
      constrain (static_value operand && NumberOfElementsEqual type operand && RankEqual type operand)
        (permutation ← getInvertedBroadcastDimensions dims; Ok (replace_op (TransposeOp operand permutation) type))
  | _ => no_match
  end.
Definition DynamicBroadcastInDimOp_MergeComposition : Pattern := fun op attrs type =>
  match op with
  | DynamicBroadcastInDimOp inner shape dims =>
      match defining_op program inner with
      | Some (DynamicBroadcastInDimOp operand shape_p dims_p) =>
          merged ← getMergedBroadcastDimensions dims dims_p;
          Ok (replace_op (DynamicBroadcastInDimOp operand shape merged) type)
      | _ => no_match
      end
  | _ => no_match
  end.
Definition DynamicBroadcastInDimOp_FoldToDynamicReshape : Pattern := fun op attrs type =>
  match op with
  | DynamicBroadcastInDimOp inner shape dims =>
      match defining_op program inner with
      | Some (DynamicReshapeOp operand shape') =>
          constrain (same_value shape shape' && isIotaRange dims) (Ok (replace_op (DynamicReshapeOp operand shape) type))
      | _ => no_match
      end
  | _ => no_match
  end.

(** ** Other operations of dynamic shape *)
Definition int_constant (v : Value) : result (list Z) := a ← m_ConstantInts program v; convertToI64Array a.

Definition DynamicGatherOp_ReplaceWithGather : Pattern := fun op attrs type =>
  match op with
  | DynamicGatherOp operand start_indices slice_sizes dimension_numbers indices_are_sorted =>
      sizes ← int_constant slice_sizes;
      Ok (replace_op (GatherOp operand start_indices dimension_numbers sizes indices_are_sorted) type)
  | _ => no_match
  end.
Definition DynamicPadOp_ReplaceWithPad : Pattern := fun op attrs type =>
  match op with
  | DynamicPadOp input padding_value edge_padding_low edge_padding_high interior_padding =>
      low ← int_constant edge_padding_low;
      high ← int_constant edge_padding_high;
      interior ← int_constant interior_padding;
      Ok (MkRewrite [] (ReplaceWithOp (PadOp input padding_value low interior) (MkOpAttrs None [] high) type))
  | _ => no_match
  end.
Definition DynamicReshapeOp_MergeComposition : Pattern := fun op attrs type =>
  match op with
  | DynamicReshapeOp reshaped shape =>
      match defining_op program reshaped with
      | Some (DynamicReshapeOp operand shape_p) => Ok (replace_op (DynamicReshapeOp operand shape) type)
      | _ => no_match
      end
  | _ => no_match
  end.

(** ** [DynamicUpdateSliceOp] *)
Definition DynamicUpdateSliceOp_RemoveNoop : Pattern := fun op attrs type =>
  match op with
  | DynamicUpdateSliceOp operand update start_indices =>
      constrain (constant_with (fun a => getNumElements (attr_type a) =? 0) update) (Ok (replace_value operand))
  | _ => no_match
  end.
Definition DynamicUpdateSliceOp_FoldToUpdateOperand : Pattern := fun op attrs type =>
  match op with
  | DynamicUpdateSliceOp operand update start_indices =>
      constrain (static_value operand && static_value update && bool_decide (ssa_type operand = ssa_type update) &&
                 forallb (constant_with IntZero) start_indices) (Ok (replace_value update))
  | _ => no_match
  end.

(** ** Iota, padding, slices *)
Definition IotaOp_FoldScalarToZero : Pattern := fun op attrs type =>
  match op with
  | IotaOp dim => size ← at_z (getShape type) dim; constrain (size =? 1) (constant_like 0 type)
  | _ => no_match
  end.
Definition all_zero (l : list Z) : bool := forallb (fun x => x =? 0) l.
Definition PadOp_RemoveNoop : Pattern := fun op attrs type =>
  match op with
  | PadOp operand padding_value edge_padding_low interior_padding =>
      constrain (all_zero edge_padding_low && all_zero (edge_padding_high attrs) && all_zero interior_padding && TypesEqual type operand)
        (Ok (replace_value operand))
  | _ => no_match
  end.
Definition SliceOp_RemoveNoop : Pattern := fun op attrs type =>
  match op with
  | SliceOp operand start_indices strides =>
      constrain (static_value operand && TypesEqual type operand) (Ok (replace_value operand))
  | _ => no_match
  end.

(** ** [SelectOp] *)
Definition SelectOp_InvertPredicateAndSwap : Pattern := fun op attrs type =>
  match op with
  | SelectOp not_pred on_true on_false =>
      match defining_op program not_pred with
      | Some (UnaryOp NotOp pred) => Ok (replace_op (SelectOp pred on_false on_true) type)
      | _ => no_match
      end
  | _ => no_match
  end.
Definition SelectOp_InvertBroadcastPredicateAndSwap : Pattern := fun op attrs type =>
  match op with
  | SelectOp b on_true on_false =>
      match defining_op program b with
      | Some (BroadcastInDimOp not_pred broadcast_dimensions) =>
          match defining_op program not_pred with
          | Some (UnaryOp NotOp pred) =>
              constrain (has_one_use program b)
                (b_type ← type_of b;
                 let v := new_value program 0 b_type in
                 Ok (MkRewrite [(BroadcastInDimOp pred broadcast_dimensions, no_attrs, v)]
                   (ReplaceWithOp (SelectOp v on_false on_true) no_attrs type)))
          | _ => no_match
          end
      | _ => no_match
      end
  | _ => no_match
  end.

(** ** [TransposeOp] *)
Definition TransposeOp_RemoveNoop : Pattern := fun op attrs type =>
  match op with
  | TransposeOp operand dims => constrain (isIotaRange dims) (Ok (replace_value operand))
  | _ => no_match
  end.
Definition TransposeOp_TransposeOfTranspose : Pattern := fun op attrs type =>
  match op with
  | TransposeOp inner dims =>
      match defining_op program inner with
      | Some (TransposeOp child child_dims) =>
          permutation ← getMergedTransposePermutation child_dims dims;
          Ok (replace_op (TransposeOp child permutation) type)
      | _ => no_match
      end
  | _ => no_match
  end.
End Rules.
