(* ===== verification/SimplifyFacts.v ===== *)
(** * What a rewrite preserves

    The registers of a program, the operations that its verifier accepts, and what
    it means that a rewrite of [Simplify.v] computes the tensor of the operation it
    replaces; the facts about constants and elements that the patterns share. *)
From S2P Require Import Prelude Types Support Index Element ElementFacts Tensor TensorFacts Samples Base TypeInference Ops OpsFacts OpsElementwise OpsMoves OpsPermute OpsJoin AttributeFacts Regions Scope Eval Folder FolderFacts FolderElementwise FolderMoves FolderEval Simplify SimplifyRules.

Section Meaning.
Context {L : LLVM} (program : Program).

(** ** Registers and operations *)

(** A register that holds a tensor of its type. *)
Definition register (scope : Scope) (v : Value) (t : Tensor) : Prop :=
  findTensor scope v = Ok t /\ ssa_type v = shaped_type (getTensorType t) /\ getEncoding (getTensorType t) = None /\
  tensor_full t.

(** A register that holds a shape. *)
Definition shape_register (scope : Scope) (v : Value) (shape : list Z) : Prop :=
  exists t, register scope v t /\ makeSizes t = Ok shape.

(** A list of sizes. *)
Definition sizes_tensor (t : Tensor) : Prop := getTensorRank t = 1 /\ isSupportedIntegerType (getTensorElementType t) = true.

(** The verifier accepts the operation on the types of its operands, and its
    operands are registers of the scope. *)
Definition verified (scope : Scope) (op : Op) (attrs : OpAttrs) (type : ShapedType) : Prop :=
  shaped_ok type /\ getEncoding type = None /\
  match op with
  | UnaryOp kind operand => exists t, register scope operand t /\
      match kind with
      | ConvertOp => getShape type = getTensorShape t
      | ReshapeOp => getElementType type = getTensorElementType t /\ verifyReshapeOp (getTensorType t) type = Ok ()
      | RealOp | ImagOp => getShape type = getTensorShape t /\ getTensorElementType t = ComplexType (getElementType type)
      | _ => getTensorType t = type
      end
  | BinaryOp kind lhs rhs => exists l r, register scope lhs l /\ register scope rhs r /\ getTensorType r = getTensorType l /\
      match kind with
      | ComplexOp => getShape type = getTensorShape l /\ getElementType type = ComplexType (getTensorElementType l)
      | _ => getTensorType l = type
      end
  | BroadcastInDimOp operand dims => exists t, register scope operand t /\
      getElementType type = getTensorElementType t /\ verifyBroadcastInDimOp (getTensorType t) dims type = Ok ()
  | CompareOp lhs rhs direction => exists l r, register scope lhs l /\ register scope rhs r /\
      getTensorType r = getTensorType l /\ getElementType type = i1 /\ getShape type = getTensorShape l
  | ConcatenateOp inputs dimension => exists ts, Forall2 (register scope) inputs ts /\
      Forall (fun t => getTensorElementType t = getElementType type) ts /\
      inferConcatenateOp (getTensorType <$> ts) dimension = Ok type
  | ConstantOp value => attr_type value = type /\ attr_ok value
  | DynamicBroadcastInDimOp operand outputDimensions dims => exists t, register scope operand t /\
      getElementType type = getTensorElementType t /\ verifyBroadcastInDimOp (getTensorType t) dims type = Ok () /\
      shape_register scope outputDimensions (getShape type)
  | DynamicGatherOp operand startIndices sliceSizes _ _ => exists t i s,
      register scope operand t /\ register scope startIndices i /\ register scope sliceSizes s /\ sizes_tensor s
  | DynamicIotaOp _ iotaDimension | IotaOp iotaDimension => 0 <= iotaDimension < getRank type
  | DynamicPadOp operand paddingValue low high interior => exists t p l h i,
      register scope operand t /\ register scope paddingValue p /\ getTensorShape p = [] /\
      getTensorElementType p = getTensorElementType t /\
      register scope low l /\ register scope high h /\ register scope interior i /\
      sizes_tensor l /\ sizes_tensor h /\ sizes_tensor i /\
      (forall lo hi inner, makeSizes l = Ok lo -> makeSizes h = Ok hi -> makeSizes i = Ok inner ->
        inferPadOp (getTensorType t) lo hi inner = Ok type /\
        length inner = length (getTensorShape t) /\ pad_fits (getTensorShape t) lo inner)
  | DynamicReshapeOp operand outputShape => exists t, register scope operand t /\
      getElementType type = getTensorElementType t /\ verifyReshapeOp (getTensorType t) type = Ok () /\
      shape_register scope outputShape (getShape type)
  | DynamicSliceOp operand startIndices sliceSizes => exists t starts, register scope operand t /\
      Forall2 (register scope) startIndices starts /\ Forall scalar_index starts /\
      inferDynamicSliceOp (getTensorType t) (getTensorType <$> starts) sliceSizes = Ok type
  | DynamicUpdateSliceOp operand update startIndices => exists t u starts, register scope operand t /\
      register scope update u /\ getTensorElementType u = getTensorElementType t /\
      Forall2 (register scope) startIndices starts /\ Forall scalar_index starts /\
      inferDynamicUpdateSliceOp (getTensorType t) (getTensorType u) (getTensorType <$> starts) = Ok type
  | GetDimensionSizeOp operand dimension => exists t, register scope operand t /\
      type = shaped [] (IntegerType Signless 32) /\ 0 <= dimension < getTensorRank t
  | PadOp operand paddingValue low interior => exists t p, register scope operand t /\ register scope paddingValue p /\
      getTensorShape p = [] /\ getTensorElementType p = getTensorElementType t /\
      inferPadOp (getTensorType t) low (edge_padding_high attrs) interior = Ok type /\
      length interior = length (getTensorShape t) /\ pad_fits (getTensorShape t) low interior
  | ReverseOp operand dims => exists t, register scope operand t /\ getTensorType t = type /\ verifyReverseOp type dims = Ok ()
  | SelectOp pred onTrue onFalse => exists p t f, register scope pred p /\ register scope onTrue t /\ register scope onFalse f /\
      getTensorElementType p = i1 /\ (getTensorShape p = [] \/ getTensorShape p = getShape type) /\
      getTensorType t = type /\ getTensorType f = type
  | SliceOp operand start strides => exists t, register scope operand t /\ length strides = length (getTensorShape t) /\
      length (limit_indices attrs) = length (getTensorShape t) /\
      inferSliceOp (getTensorType t) start (limit_indices attrs) strides = Ok type
  | TransposeOp operand permutation => exists t, register scope operand t /\ inferTransposeOp (getTensorType t) permutation = Ok type
  | _ => True
  end.

(** The scope holds the results of the operations before, which were accepted. *)
Definition defined (scope : Scope) : Prop :=
  forall v op, defining_op program v = Some op -> forall f, eval_tensor_op scope op = Some f ->
    exists t attrs, register scope v t /\ f (getTensorType t) = Ok t /\ verified scope op attrs (getTensorType t).

(** The new registers are not in use. *)
Definition unused (scope : Scope) : Prop :=
  forall n v, value_id v = fresh program n -> exists e, find scope v = Err e.

(** ** Rewrites *)
Definition eval_tensor (scope : Scope) (op : Op) (type : ShapedType) : result Tensor :=
  f ← ok_or (eval_tensor_op scope op) (Fatal "Unsupported op"); f type.

Definition eval_created (scope : Scope) (created : list (Op * OpAttrs * Value)) : result Scope :=
  foldM (fun '(op, _, v) scope =>
    type ← type_of v; t ← eval_tensor scope op type; add scope v (TensorValue t)) created scope.

Definition eval_replacement (scope : Scope) (replacement : Replacement) : result Tensor :=
  match replacement with
  | ReplaceWithValue v => findTensor scope v
  | ReplaceWithOp op _ type => eval_tensor scope op type
  end.

Definition eval_rewrite (scope : Scope) (rewrite : Rewrite) : result Tensor :=
  scope ← eval_created scope (created rewrite); eval_replacement scope (replacement rewrite).

(** The operation returns a tensor of its type, and the rewrite one of that type
    with the same elements. *)
Definition preserves (scope : Scope) (op : Op) (type : ShapedType) (rewrite : Rewrite) : Prop :=
  exists t t', eval_tensor scope op type = Ok t /\ eval_rewrite scope rewrite = Ok t' /\
    getTensorType t = type /\ getTensorType t' = type /\ forall i, in_bounds i (getShape type) -> get t i = get t' i.
End Meaning.

Lemma shaped_shape type : shaped_ok type -> shape_ok (getShape type).
Proof. by intros (_ & ? & _). Qed.

Section Facts.
Context {L : LLVM} {Laws : LLVMLaws L}.

Lemma register_type scope v t : register scope v t -> type_of v = Ok (getTensorType t).
Proof. intros (_ & H & _). unfold type_of. rewrite H. by destruct (getTensorType t). Qed.

Lemma register_find scope v t : register scope v t -> findTensor scope v = Ok t.
Proof. by intros (H & _). Qed.

Lemma registers_find scope vs ts : Forall2 (register scope) vs ts -> findTensors scope vs = Ok ts.
Proof.
  induction 1 as [|v t vs ts Hv H IH]; [done|]. unfold findTensors, Scope.findTensors in *. cbn [mapM].
  pose proof (register_find _ _ _ Hv) as E. unfold findTensor in E. rewrite E. cbind. by rewrite IH.
Qed.

Lemma register_full scope v t : register scope v t -> tensor_full t.
Proof. by intros (_ & _ & _ & H). Qed.

Lemma register_fun scope v t t' : register scope v t -> register scope v t' -> t = t'.
Proof. intros (H & _) (H' & _). congruence. Qed.

Lemma find_id scope v w : value_id v = value_id w -> find scope v = find scope w.
Proof. revert scope. fix IH 1. intros [frame [p|]] E; cbn [find]; rewrite E; destruct (frame !! _); auto. Qed.

Lemma findTensor_id scope v w : value_id v = value_id w -> findTensor scope v = findTensor scope w.
Proof. intros E. unfold findTensor, Scope.findTensor. by rewrite (find_id _ _ _ E). Qed.

Lemma register_same scope v w t t' : same_value v w = true -> register scope v t -> register scope w t' -> t = t'.
Proof. unfold same_value. intros H%bool_decide_eq_true (E & _) (E' & _). rewrite (findTensor_id _ _ _ H) in E. congruence. Qed.

Lemma register_static scope v t : register scope v t -> static_value v = true.
Proof.
  intros H. unfold static_value. rewrite (register_type _ _ _ H). apply hasStaticShape_ok, full_shape_ok, H.
Qed.

Lemma constrain_ok b r (rw : Rewrite) : constrain b r = Ok rw -> b = true /\ r = Ok rw.
Proof. by destruct b. Qed.

(** ** Replacing an operation *)
Section Replace.
Context (program : Program) (scope : Scope).

Lemma preserves_results op type rewrite P Q f :
  eval_tensor_op scope op = Some f -> result_is type (f type) P -> result_is type (eval_rewrite scope rewrite) Q ->
  (forall t t', P t -> Q t' -> getTensorType t = type -> getTensorType t' = type ->
     forall i, in_bounds i (getShape type) -> get t i = get t' i) ->
  preserves scope op type rewrite.
Proof.
  intros Hf (t & Ht & Htt & _ & HP) (t' & Ht' & Htt' & _ & HQ) H. exists t, t'. unfold eval_tensor. rewrite Hf. cbn.
  split_and!; try done. by apply H.
Qed.

Lemma eval_replace_value v : eval_rewrite scope (replace_value v) = findTensor scope v.
Proof. done. Qed.

Lemma eval_replace_op op attrs type f :
  eval_tensor_op scope op = Some f -> eval_rewrite scope (MkRewrite [] (ReplaceWithOp op attrs type)) = f type.
Proof. intros H. unfold eval_rewrite, eval_replacement, eval_tensor. cbn. by rewrite H. Qed.

Lemma register_result v t (P : Tensor -> Prop) : register scope v t -> P t -> result_is (getTensorType t) (findTensor scope v) P.
Proof. intros (H & _ & _ & Hf) HP. by exists t. Qed.

(** A replacement by an operand that the result equals. *)
Lemma preserves_value op type v t f :
  eval_tensor_op scope op = Some f -> register scope v t -> getTensorType t = type ->
  result_is type (f type) (fun t' => forall i, in_bounds i (getShape type) -> get t' i = get t i) ->
  preserves scope op type (replace_value v).
Proof.
  intros Hf Hv Ht Hr. eapply preserves_results; [exact Hf|exact Hr| |].
  - rewrite eval_replace_value, <- Ht. apply (register_result v t (fun t' => t' = t) Hv). done.
  - intros t1 t2 H1 -> _ _ i Hi. by apply H1.
Qed.

(** A replacement by an operation that computes the same. *)
Lemma preserves_op op type op' attrs f f' P :
  eval_tensor_op scope op = Some f -> eval_tensor_op scope op' = Some f' ->
  f type = f' type -> result_is type (f type) P -> preserves scope op type (MkRewrite [] (ReplaceWithOp op' attrs type)).
Proof.
  intros Hf Hf' He (t & Ht & Htt & _). exists t, t. rewrite (eval_replace_op _ _ _ _ Hf'), <- He.
  unfold eval_tensor. rewrite Hf. cbn. by split_and!.
Qed.

(** The operation that defines a register, with what is known of its result. *)
Lemma inner v t op f : defined program scope -> defining_op program v = Some op -> register scope v t ->
  eval_tensor_op scope op = Some f -> f (getTensorType t) = Ok t /\ exists attrs, verified scope op attrs (getTensorType t).
Proof.
  intros Hd Hv Ht Hf. destruct (Hd v op Hv f Hf) as (t' & attrs & Ht' & He & Hver).
  pose proof (register_fun _ _ _ _ Ht Ht') as <-. eauto.
Qed.

Lemma result_known type m P t : result_is type m P -> m = Ok t -> P t /\ getTensorType t = type /\ tensor_full t.
Proof. intros (t' & -> & ? & ? & ?) [= <-]. done. Qed.

Lemma shaped_ext (a b : ShapedType) : getShape a = getShape b -> getElementType a = getElementType b ->
  getEncoding a = None -> getEncoding b = None -> a = b.
Proof. destruct a, b. cbn. congruence. Qed.

Lemma register_encoding v t : register scope v t -> getEncoding (getTensorType t) = None.
Proof. by intros (_ & _ & H & _). Qed.

(** ** Constants *)
Lemma m_Constant_inv v a : m_Constant program v = Ok a -> defining_op program v = Some (ConstantOp a).
Proof. unfold m_Constant. destruct (defining_op _ _) as [[]|]; try done. by intros [= ->]. Qed.

Lemma constant_register v a : defined program scope -> m_Constant program v = Ok a ->
  exists t, register scope v t /\ represents a t.
Proof.
  intros Hd Hv%m_Constant_inv. destruct (Hd _ _ Hv (fun _ => constantOp a) eq_refl) as (t & attrs & Ht & He & _ & _ & _ & Hok).
  exists t. split; [done|]. destruct (constant_represents a Hok) as (t' & Ht' & Hr). congruence.
Qed.

Lemma constant_with_inv p v : constant_with program p v = true -> exists a, m_Constant program v = Ok a /\ p a = true.
Proof. unfold constant_with. destruct (m_Constant _ _) as [a|]; [|done]. by exists a. Qed.

(** ** Created operations *)
Lemma eval_created_one n op attrs type t :
  unused program scope -> shaped_ok type -> getEncoding type = None -> eval_tensor scope op type = Ok t ->
  getTensorType t = type -> tensor_full t ->
  exists scope', eval_created scope [(op, attrs, new_value program n type)] = Ok scope' /\
    register scope' (new_value program n type) t /\ forall v t', register scope v t' -> register scope' v t'.
Proof.
  intros Hun Hty Henc He Ht Hf. set (v := new_value program n type).
  assert (type_of v = Ok type) as Htv by (by destruct type).
  destruct (Hun n v eq_refl) as [e Hfind].
  assert (exists scope', add scope v (TensorValue t) = Ok scope') as [scope' Hadd].
  { unfold add. destruct (stack_frame_ scope !! value_id v) eqn:E.
    { destruct scope as [frame p]. cbn [find stack_frame_] in *. by rewrite E in Hfind. }
    rewrite decide_True by (cbn [v new_value ssa_type value_type]; by rewrite Ht). by eexists. }
  exists scope'. unfold eval_created. cbn [foldM]. rewrite Htv. cbind. rewrite He. cbind. rewrite Hadd. cbind. split; [done|]. split.
  - split; [|by rewrite Ht]. unfold findTensor, Scope.findTensor. by rewrite (find_add_same _ _ _ _ Hadd).
  - intros w t' (Hw & Hrest). split; [|done]. unfold findTensor, Scope.findTensor in *.
    rewrite (find_add_other _ _ _ _ _ Hadd); [done|]. intros E. rewrite (find_id _ _ _ E), Hfind in Hw. done.
Qed.
End Replace.
End Facts.
