(* ===== verification/SimplifyElementwise.v ===== *)
(** * Simplifying elementwise operations and the parts of complex numbers *)
From S2P Require Import Prelude Types Support Index Element ElementFacts Tensor TensorFacts Samples Base TypeInference Ops OpsFacts OpsMoves OpsElementwise AttributeFacts Regions Scope Eval Folder FolderFacts FolderElementwise FolderMoves FolderEval Simplify SimplifyRules SimplifyFacts.

(** The kinds of a list. *)
Ltac kinds H := repeat (apply elem_of_cons in H as [->|H]); [..|by apply elem_of_nil in H].

Section Elements.
Context {L : LLVM} {Laws : LLVMLaws L}.

(** Integers and booleans. *)
Definition discrete (t : Ty) : Prop := isSupportedIntegerType t = true \/ t = i1.

(** The element of a discrete type that stands for a number. *)
Definition const_el (t : Ty) (n : Z) : Element :=
  match t with
  | IntegerType s w => if isSupportedBooleanType t then bool_el (Z.odd n) else int_el s w n
  | _ => bool_el (Z.odd n)
  end.

Lemma const_int s w n : int_type s w = true -> const_el (IntegerType s w) n = int_el s w n.
Proof. intros H. cbn [const_el]. by rewrite int_type_not_bool. Qed.

Lemma discrete_cases e : element_ok e -> discrete (getType e) ->
  (exists s w z, e = int_el s w z /\ int_type s w = true) \/ exists b, e = bool_el b.
Proof.
  intros He Hd. destruct (element_ok_cases _ He) as [(s & w & v & -> & Hi & Hw)|[(b & ->)|[(f & -> & Hf)|(re & im & -> & Hc)]]].
  - left. exists s, w, (uval v). split; [|done]. unfold int_el. do 2 f_equal.
    pose proof (int_type_pos _ _ Hi). apply apint_ext; [by rewrite width_apint by lia|].
    rewrite uval_apint by lia. subst w. symmetry. apply Z.mod_small, uval_range.
  - right. by exists b.
  - by destruct Hd.
  - by destruct Hd.
Qed.

Lemma discrete_pair a b : element_ok a -> element_ok b -> getType b = getType a -> discrete (getType a) ->
  (exists s w x y, a = int_el s w x /\ b = int_el s w y /\ int_type s w = true) \/ exists x y, a = bool_el x /\ b = bool_el y.
Proof.
  intros Ha Hb Ht Hd. destruct (discrete_cases a Ha Hd) as [(s & w & x & -> & Hi)|[x ->]];
    (destruct (discrete_cases b Hb ltac:(by rewrite Ht)) as [(s' & w' & y & -> & Hi')|[y ->]]).
  - injection Ht as -> ->. left. by exists s, w, x, y.
  - injection Ht as <- <-. pose proof (int_type_pos _ _ Hi). lia.
  - injection Ht as -> ->. pose proof (int_type_pos _ _ Hi'). lia.
  - right. by exists x, y.
Qed.

Lemma bool_el_ok b : element_ok (bool_el b).
Proof. done. Qed.

(** ** The laws of the binary operations *)
Definition commutative_kinds : list BinaryKind := [AddOp; AndOp; MaxOp; MinOp; MulOp; OrOp; XorOp].

Lemma commutative_not_subtract kind : kind ∈ commutative_kinds -> kind <> SubtractOp.
Proof. unfold commutative_kinds. intros Hk. by kinds Hk. Qed.

Lemma binary_total_int kind s w a b : kind ∈ SubtractOp :: commutative_kinds -> int_type s w = true ->
  exists z, binary_el kind (int_el s w a) (int_el s w b) = Ok (int_el s w z).
Proof.
  intros Hk Hi. unfold commutative_kinds in Hk. kinds Hk; cbn [binary_el]; eexists;
    [by apply el_sub_int|by apply el_add_int|by apply el_and_int|by apply max_int|by apply min_int|by apply el_mul_int|by apply el_or_int|by apply el_xor_int].
Qed.

Lemma binary_comm kind a b : kind ∈ commutative_kinds -> element_ok a -> element_ok b -> getType b = getType a ->
  discrete (getType a) -> binary_el kind a b = binary_el kind b a.
Proof.
  intros Hk Ha Hb Ht Hd. unfold commutative_kinds in Hk.
  destruct (discrete_pair a b Ha Hb Ht Hd) as [(s & w & x & y & -> & -> & Hi)|(x & y & -> & ->)].
  - kinds Hk; cbn [binary_el];
      rewrite ?el_add_int, ?el_and_int, ?max_int, ?min_int, ?el_mul_int, ?el_or_int, ?el_xor_int by done; do 2 f_equal;
      first [apply Z.land_comm|apply Z.lor_comm|apply Z.lxor_comm|lia].
  - kinds Hk; by destruct x, y.
Qed.

Lemma binary_typed kind a b : kind ∈ SubtractOp :: commutative_kinds -> element_ok a -> element_ok b ->
  getType b = getType a -> discrete (getType a) -> (getType a = i1 -> kind <> SubtractOp) ->
  exists e, binary_el kind a b = Ok e /\ element_ok e /\ getType e = getType a.
Proof.
  intros Hk Ha Hb Ht Hd Hs. destruct (discrete_pair a b Ha Hb Ht Hd) as [(s & w & x & y & -> & -> & Hi)|(x & y & -> & ->)].
  - destruct (binary_total_int kind s w x y Hk Hi) as [z ->]. exists (int_el s w z).
    split; [done|]. split; [by apply int_el_ok|done].
  - apply elem_of_cons in Hk as [->|Hk]; [by destruct Hs|]. unfold commutative_kinds in Hk.
    kinds Hk; cbn [binary_el]; eexists; (split; [by destruct x, y|split; [apply bool_el_ok|done]]).
Qed.

(** [op(X, n)] is [X], and [op(X, n)] is [n]. *)
Definition identities : list (BinaryKind * Z) := [(AddOp, 0); (AndOp, -1); (MulOp, 1); (OrOp, 0); (SubtractOp, 0); (XorOp, 0)].
Definition absorbing : list (BinaryKind * Z) := [(AndOp, 0); (MulOp, 0); (OrOp, -1)].

Lemma binary_identity kind n a : (kind, n) ∈ identities -> element_ok a -> discrete (getType a) ->
  (getType a = i1 -> kind <> SubtractOp) -> binary_el kind a (const_el (getType a) n) = Ok a.
Proof.
  intros Hk Ha Hd Hs. unfold identities in Hk. destruct (discrete_cases a Ha Hd) as [(s & w & x & -> & Hi)|[x ->]].
  - cbn [getType int_el]. rewrite const_int by done. repeat (apply elem_of_cons in Hk as [[= -> ->]|Hk]); [..|by apply elem_of_nil in Hk];
      cbn [binary_el]; rewrite ?el_add_int, ?el_and_int, ?el_mul_int, ?el_or_int, ?el_sub_int, ?el_xor_int by done; do 2 f_equal;
      first [apply Z.land_m1_r|apply Z.lor_0_r|apply Z.lxor_0_r|lia].
  - repeat (apply elem_of_cons in Hk as [[= -> ->]|Hk]); [..|by apply elem_of_nil in Hk]; try (by destruct x). by destruct Hs.
Qed.

Lemma binary_absorbing kind n a : (kind, n) ∈ absorbing -> element_ok a -> discrete (getType a) ->
  binary_el kind a (const_el (getType a) n) = Ok (const_el (getType a) n).
Proof.
  intros Hk Ha Hd. unfold absorbing in Hk. destruct (discrete_cases a Ha Hd) as [(s & w & x & -> & Hi)|[x ->]].
  - cbn [getType int_el]. rewrite const_int by done. repeat (apply elem_of_cons in Hk as [[= -> ->]|Hk]); [..|by apply elem_of_nil in Hk];
      cbn [binary_el]; rewrite ?el_and_int, ?el_mul_int, ?el_or_int by done; do 2 f_equal;
      first [apply Z.land_0_r|apply Z.lor_m1_r|lia].
  - repeat (apply elem_of_cons in Hk as [[= -> ->]|Hk]); [..|by apply elem_of_nil in Hk]; by destruct x.
Qed.

(** [X - X] and [X xor X] are zero. *)
Lemma binary_same kind a : kind ∈ [SubtractOp; XorOp] -> element_ok a -> discrete (getType a) ->
  (getType a = i1 -> kind <> SubtractOp) -> binary_el kind a a = Ok (const_el (getType a) 0).
Proof.
  intros Hk Ha Hd Hs. destruct (discrete_cases a Ha Hd) as [(s & w & x & -> & Hi)|[x ->]].
  - cbn [getType int_el]. rewrite const_int by done. kinds Hk; cbn [binary_el]; rewrite ?el_sub_int, ?el_xor_int by done; do 2 f_equal;
      first [apply Z.lxor_nilpotent|lia].
  - kinds Hk; [by destruct Hs|by destruct x].
Qed.

(** ** Elements of splats *)
Context {C : CommonFolders} {CLaws : CommonFoldersLaws C}.

Lemma splat_get a t v i : represents a t -> getSplatValue a = Some v -> in_bounds i (getTensorShape t) ->
  get t i = Ok (MkElement (getTensorElementType t) v) /\ element_ok (MkElement (getTensorElementType t) v).
Proof.
  intros Hr Hv Hi. pose proof (represents_shape _ _ Hr) as Hs. rewrite Hs in Hi.
  destruct (represents_get a t i Hr Hi) as (v' & Hv' & Hg & Hok). apply splat_values in Hv.
  eapply Forall_lookup_1 in Hv; [|exact Hv']. subst v'. unfold getTensorElementType. destruct Hr as (_ & -> & _). done.
Qed.

Lemma splat_int_get p n a t i : represents a t -> splat_int p a = true -> in_bounds i (getTensorShape t) ->
  discrete (getTensorElementType t) ->
  (forall x w, Support.getBitWidth x = w -> 0 < w -> p x = true -> uval x = n mod 2 ^ w) ->
  get t i = Ok (const_el (getTensorElementType t) n).
Proof.
  unfold splat_int. intros Hr [Ht H]%andb_prop Hi Hd Hp. destruct (getSplatValue a) as [v|] eqn:Hv; [|done].
  destruct (splat_get a t v i Hr Hv Hi) as [-> Hok]. f_equal.
  destruct (discrete_cases _ Hok Hd) as [(s & w & z & E & Hi')|[b E]]; injection E as Et ->; rewrite Et; cbn [attr_apint] in H.
  - pose proof (int_type_pos _ _ Hi'). rewrite const_int by done. unfold int_el. do 2 f_equal.
    apply apint_ext; rewrite ?width_apint by lia; [done|]. rewrite (Hp _ w ltac:(apply width_apint; lia) ltac:(lia) H), uval_apint by lia. done.
  - specialize (Hp _ 1 ltac:(apply width_apint; lia) ltac:(lia) H). rewrite uval_apint in Hp by lia.
    change (const_el i1 n) with (bool_el (Z.odd n)). unfold bool_el. do 2 f_equal.
    rewrite <- Z.bit0_odd, <- (Z.mod_pow2_bits_low n 1 0), <- Hp by lia. by destruct b.
Qed.

Section Predicates.
Context (a : DenseElementsAttr) (t : Tensor) (i : Index).
Context (Hr : represents a t) (Hi : in_bounds i (getTensorShape t)) (Hd : discrete (getTensorElementType t)).

Lemma IntZero_get : IntZero a = true -> get t i = Ok (const_el (getTensorElementType t) 0).
Proof.
  intros H. eapply splat_int_get; [done|exact H|done|done|]. intros x w _ _ Hx.
  rewrite isZero_spec in Hx. rewrite Zmod_0_l. lia.
Qed.

Lemma IntOne_get : IntOne a = true -> get t i = Ok (const_el (getTensorElementType t) 1).
Proof.
  intros H. eapply splat_int_get; [done|exact H|done|done|]. intros x w Hw Hpos Hx. rewrite isOne_spec in Hx.
  pose proof (uval_range x) as Hu. rewrite Hw in Hu. rewrite Z.mod_small by lia. lia.
Qed.

Lemma IntAllOnes_get : IntAllOnes a = true -> get t i = Ok (const_el (getTensorElementType t) (-1)).
Proof.
  intros H. eapply splat_int_get; [done|exact H|done|done|]. intros x w Hw Hpos Hx. cbv beta in Hx. rewrite Hw in Hx.
  pose proof (Z.pow_pos_nonneg 2 w ltac:(lia) ltac:(lia)).
  replace (-1) with (2 ^ w - 1 + (-1) * 2 ^ w) by lia. rewrite Z.mod_add, Z.mod_small by lia. lia.
Qed.

Lemma no_float_splat p : splat_float p a = false.
Proof.
  unfold splat_float. destruct (getSplatValue a) as [v|] eqn:Hv; [|done].
  destruct (splat_get a t v i Hr Hv Hi) as [_ Hok].
  by destruct (discrete_cases _ Hok Hd) as [(s & w & z & [= Et ->] & Hi')|[b [= Et ->]]].
Qed.

Lemma AnyZero_get : AnyZero a = true -> get t i = Ok (const_el (getTensorElementType t) 0).
Proof. unfold AnyZero. rewrite no_float_splat, orb_false_r. apply IntZero_get. Qed.

Lemma AnyOne_get : AnyOne a = true -> get t i = Ok (const_el (getTensorElementType t) 1).
Proof. unfold AnyOne. rewrite no_float_splat, orb_false_r. apply IntOne_get. Qed.
End Predicates.
End Elements.

Section Patterns.
Context {L : LLVM} {Laws : LLVMLaws L} {C : CommonFolders} {CLaws : CommonFoldersLaws C}.
Context (program : Program) (scope : Scope) (Hdef : defined program scope).

Lemma elementwise2_result type l r op :
  shaped_ok type -> tensor_full l -> tensor_full r -> getTensorShape l = getShape type -> getTensorShape r = getShape type ->
  (forall a b, element_ok a -> element_ok b -> getType a = getTensorElementType l -> getType b = getTensorElementType r ->
     exists e, op a b = Ok e /\ element_ok e /\ getType e = getElementType type) ->
  result_is type (elementwise2 op l r type)
    (fun t => forall i, in_bounds i (getShape type) -> get t i = (a ← get l i; b ← get r i; op a b)).
Proof.
  intros Hty Hl Hr Hsl Hsr Hop. unfold elementwise2. apply build_result; [done| |by intros t _ Hg].
  intros i Hi. destruct (full_get l i Hl) as (a & -> & Ha & Hta); [by rewrite Hsl|].
  destruct (full_get r i Hr) as (b & -> & Hb & Htb); [by rewrite Hsr|]. cbind. by apply Hop.
Qed.

Lemma elementwise1_result type x op :
  shaped_ok type -> tensor_full x -> getTensorShape x = getShape type ->
  (forall a, element_ok a -> getType a = getTensorElementType x ->
     exists e, op a = Ok e /\ element_ok e /\ getType e = getElementType type) ->
  result_is type (elementwise1 op x type)
    (fun t => forall i, in_bounds i (getShape type) -> get t i = (a ← get x i; op a)).
Proof.
  intros Hty Hx Hs Hop. unfold elementwise1. apply build_result; [done| |by intros t _ Hg].
  intros i Hi. destruct (full_get x i Hx) as (a & -> & Ha & Hta); [by rewrite Hs|]. cbind. by apply Hop.
Qed.

Lemma binary_result kind l r type :
  kind ∈ SubtractOp :: commutative_kinds -> tensor_full l -> tensor_full r -> getTensorType l = type -> getTensorType r = type ->
  discrete (getElementType type) -> (getElementType type = i1 -> kind <> SubtractOp) ->
  result_is type (binary_op kind l r type)
    (fun t => forall i, in_bounds i (getShape type) -> get t i = (a ← get l i; b ← get r i; binary_el kind a b)).
Proof.
  intros Hk Hl Hr Htl Htr Hd Hs. rewrite binary_op_el.
  apply elementwise2_result; unfold getTensorShape, getTensorElementType; rewrite ?Htl, ?Htr; try done;
    [rewrite <- Htl; by apply full_shaped|].
  intros a b Ha Hb Ea Eb. rewrite <- Ea in *. apply binary_typed; congruence || done.
Qed.

Lemma canonicalize_preserves kind op attrs type rw :
  kind ∈ commutative_kinds -> verified scope op attrs type -> discrete (getElementType type) ->
  CanonicalizeConstantToRhs program kind op attrs type = Ok rw -> preserves scope op type rw.
Proof.
  intros Hk Hv Hd H. destruct op; try done. cbn [CanonicalizeConstantToRhs] in H. apply constrain_ok in H as [Hc [= <-]].
  apply andb_prop in Hc as [[E%bool_decide_eq_true _]%andb_prop _]. subst kind0.
  destruct Hv as (Hty & _ & l & r & Hl & Hr & Hlr & Ht). assert (getTensorType l = type) as Htl.
  { clear -Ht Hk. unfold commutative_kinds in Hk. by kinds Hk. }
  pose proof (binary_result kind l r type) as Hres. eapply preserves_op; [reflexivity|reflexivity| |].
  - rewrite (register_find _ _ _ Hl), (register_find _ _ _ Hr). cbind. rewrite binary_op_el. unfold elementwise2.
    apply build_ext; [by destruct Hty as (_ & ? & _)|]. intros i Hi. rewrite <- Htl in Hi.
    destruct (full_get l i (register_full _ _ _ Hl) Hi) as (a & -> & Ha & Hta).
    destruct (full_get r i (register_full _ _ _ Hr)) as (b & -> & Hb & Htb); [unfold getTensorShape; by rewrite Hlr|]. cbind.
    unfold getTensorElementType in *. apply binary_comm; try done; congruence.
  - rewrite (register_find _ _ _ Hl), (register_find _ _ _ Hr). cbind. apply Hres; try done; [by right|by eapply register_full..|congruence|].
    intros _. by apply commutative_not_subtract.
Qed.

(** What a predicate on attributes says of the elements of the constant. *)
Definition reads_as (p : DenseElementsAttr -> bool) (n : Z) : Prop :=
  forall a t i, represents a t -> in_bounds i (getTensorShape t) -> discrete (getTensorElementType t) -> p a = true ->
    get t i = Ok (const_el (getTensorElementType t) n).

(** The operands of a binary operation on one type. *)
Lemma binary_operands kind lhs rhs attrs type : kind <> ComplexOp -> verified scope (BinaryOp kind lhs rhs) attrs type ->
  exists l r, register scope lhs l /\ register scope rhs r /\ getTensorType l = type /\ getTensorType r = type.
Proof.
  intros Hk (_ & _ & l & r & Hl & Hr & Hlr & Ht). exists l, r. destruct kind; try done; split_and!; try done; congruence.
Qed.

Lemma binary_simple kind : kind ∈ SubtractOp :: commutative_kinds -> kind <> ComplexOp.
Proof. unfold commutative_kinds. intros Hk. by kinds Hk. Qed.

(** [op(X, cst)] by one of its operands, when the operation on an element and the
    constant's is known. *)
Lemma constant_operand_preserves (left : bool) kind n lhs rhs attrs type a :
  kind ∈ SubtractOp :: commutative_kinds -> verified scope (BinaryOp kind lhs rhs) attrs type -> discrete (getElementType type) ->
  (getElementType type = i1 -> kind <> SubtractOp) -> m_Constant program rhs = Ok a ->
  (forall t i, represents a t -> in_bounds i (getTensorShape t) -> discrete (getTensorElementType t) ->
     get t i = Ok (const_el (getTensorElementType t) n)) ->
  (forall x, element_ok x -> getType x = getElementType type ->
     binary_el kind x (const_el (getType x) n) = Ok (if left then x else const_el (getType x) n)) ->
  preserves scope (BinaryOp kind lhs rhs) type (replace_value (if left then lhs else rhs)).
Proof.
  intros Hk Hv Hd Hs Ha Hp Hop.
  destruct (binary_operands kind lhs rhs attrs type (binary_simple _ Hk) Hv) as (l & r & Hl & Hr & Htl & Htr).
  destruct (constant_register _ _ _ _ Hdef Ha) as (r' & Hr' & Hrep). pose proof (register_fun _ _ _ _ Hr Hr') as <-.
  assert (forall i, in_bounds i (getShape type) -> (a ← get l i; b ← get r i; binary_el kind a b) = get (if left then l else r) i) as Hget.
  { intros i Hi. assert (in_bounds i (getTensorShape r)) as Hir by (unfold getTensorShape; by rewrite Htr).
    destruct (full_get l i (register_full _ _ _ Hl)) as (x & Ex & Hx & Htx); [unfold getTensorShape; by rewrite Htl|].
    assert (getTensorElementType r = getType x) as Htrx by (rewrite Htx; unfold getTensorElementType; congruence).
    assert (getType x = getElementType type) as Hxt by (rewrite Htx; unfold getTensorElementType; congruence).
    pose proof (Hp r i Hrep Hir ltac:(by rewrite Htrx, Hxt)) as Er. rewrite Ex. cbind. rewrite Er. cbind. rewrite Htrx, Hop by done.
    destruct left; [done|]. by rewrite Er, Htrx. }
  eapply (preserves_value scope _ type _ (if left then l else r)); [reflexivity|by destruct left..|].
  rewrite (register_find _ _ _ Hl), (register_find _ _ _ Hr). cbind.
  destruct (binary_result kind l r type Hk) as (t & Ht & Htt & Hf & Hg); [by eapply register_full..|done|done|done|done|].
  exists t. split; [done|]. split; [done|]. split; [done|]. intros i Hi. rewrite Hg by done. by apply Hget.
Qed.

Lemma identity_kinds kind n : (kind, n) ∈ identities -> kind ∈ SubtractOp :: commutative_kinds.
Proof. unfold identities, commutative_kinds. set_solver. Qed.
Lemma absorbing_kinds kind n : (kind, n) ∈ absorbing -> kind ∈ commutative_kinds.
Proof. unfold absorbing, commutative_kinds. set_solver. Qed.

Lemma remove_noop_preserves kind n p op attrs type rw :
  (kind, n) ∈ identities -> reads_as p n -> verified scope op attrs type -> discrete (getElementType type) ->
  (getElementType type = i1 -> kind <> SubtractOp) ->
  remove_noop program kind p op attrs type = Ok rw -> preserves scope op type rw.
Proof.
  intros Hk Hp Hv Hd Hs H. destruct op; try done. apply constrain_ok in H as [[E Hc]%andb_prop [= <-]].
  apply bool_decide_eq_true in E as ->. apply constant_with_inv in Hc as (a & Ha & Hpa).
  apply (constant_operand_preserves true kind n lhs rhs attrs type a); try done; [by eapply identity_kinds|by intros; apply (Hp a)|].
  intros x Hx Htx. apply binary_identity; try done; by rewrite Htx.
Qed.

Lemma fold_to_constant_preserves kind n p op attrs type rw :
  (kind, n) ∈ absorbing -> reads_as p n -> verified scope op attrs type -> discrete (getElementType type) ->
  fold_to_constant program kind p op attrs type = Ok rw -> preserves scope op type rw.
Proof.
  intros Hk Hp Hv Hd H. destruct op; try done. apply constrain_ok in H as [[E Hc]%andb_prop [= <-]].
  apply bool_decide_eq_true in E as ->. apply constant_with_inv in Hc as (a & Ha & Hpa). pose proof (absorbing_kinds _ _ Hk) as Hc.
  apply (constant_operand_preserves false kind n lhs rhs attrs type a); try done; [by right|by intros _; apply commutative_not_subtract|by intros; apply (Hp a)|].
  intros x Hx Htx. apply binary_absorbing; try done; by rewrite Htx.
Qed.

(** ** Splats *)
Lemma splat_constant type v : shaped_ok type -> element_ok (MkElement (getElementType type) v) ->
  result_is type (constantOp (splat type v))
    (fun t => forall i, in_bounds i (getShape type) -> get t i = Ok (MkElement (getElementType type) v)).
Proof.
  intros Hty Hv. destruct (constant_represents (splat type v)) as (t & Ht & Hr).
  { split; [done|]. split; [by apply splat_ok|]. by apply Forall_replicate. }
  exists t. split; [done|]. destruct (Hr) as (Hf & Htt & Hl & Hg). split; [done|]. split; [done|]. intros i Hi.
  destruct (value_at (splat type v) i Hl Hi) as [v' Hv']. rewrite (Hg i v' Hi Hv').
  cbn [splat attr_values] in Hv'. apply lookup_replicate in Hv' as [-> _]. done.
Qed.

Lemma const_el_ok t n : discrete t -> element_ok (const_el t n) /\ getType (const_el t n) = t.
Proof.
  intros [H| ->]; [|done]. destruct (supported_integer_inv _ H) as (s & w & -> & _). rewrite int_type_supported in H.
  rewrite const_int by done. split; [by apply int_el_ok|done].
Qed.

Lemma scalar_like t n v : discrete t -> getScalarLike t n = Ok v -> MkElement t v = const_el t n.
Proof.
  intros [H| ->].
  - destruct (supported_integer_inv _ H) as (s & w & -> & _). rewrite int_type_supported in H. cbn [getScalarLike].
    rewrite int_value_int, const_int by done. by intros [= <-].
  - cbn [getScalarLike i1]. intros [= <-]. change (const_el i1 n) with (bool_el (Z.odd n)). unfold bool_el. f_equal.
    unfold int_value. cbn [isSupportedBooleanType isSignlessInteger Z.eqb Pos.eqb]. f_equal.
    rewrite isZero_spec, uval_apint, Z.pow_1_r, Zmod_odd by lia. by destruct (Z.odd n).
Qed.

Lemma constant_like_result type n rw : shaped_ok type -> discrete (getElementType type) -> constant_like n type = Ok rw ->
  result_is type (eval_rewrite scope rw)
    (fun t => forall i, in_bounds i (getShape type) -> get t i = Ok (const_el (getElementType type) n)).
Proof.
  intros Hty Hd H. apply bind_ok in H as (v & Hv & [= <-]). pose proof (scalar_like _ _ _ Hd Hv) as E.
  unfold replace_op. erewrite eval_replace_op by reflexivity. rewrite <- E. apply splat_constant; [done|].
  rewrite E. by apply const_el_ok.
Qed.

Lemma fold_same_preserves kind p op attrs type rw :
  kind ∈ [SubtractOp; XorOp] -> verified scope op attrs type -> discrete (getElementType type) ->
  (getElementType type = i1 -> kind <> SubtractOp) ->
  fold_same_to_zero kind p op attrs type = Ok rw -> preserves scope op type rw.
Proof.
  intros Hk Hv Hd Hs H. destruct op; try done. apply constrain_ok in H as [Hc H].
  apply andb_prop in Hc as [[[E Hsame]%andb_prop _]%andb_prop _]. apply bool_decide_eq_true in E as ->.
  assert (kind ∈ SubtractOp :: commutative_kinds) as Hk' by (unfold commutative_kinds; set_solver). pose proof Hv as (Hty & _).
  destruct (binary_operands kind lhs rhs attrs type (binary_simple _ Hk') Hv) as (l & r & Hl & Hr & Htl & Htr).
  rewrite (register_type _ _ _ Hl), Htl in H. cbn [mbind result_bind] in H. pose proof (register_same _ _ _ _ _ Hsame Hl Hr) as <-.
  eapply preserves_results; [reflexivity| |by apply (constant_like_result type 0)|].
  - rewrite (register_find _ _ _ Hl), (register_find _ _ _ Hr). cbind. apply (binary_result kind l l type Hk'); try done; by eapply register_full.
  - cbv beta. intros t t' H1 H2 _ _ i Hi. rewrite H1, H2 by done.
    destruct (full_get l i (register_full _ _ _ Hl)) as (x & -> & Hx & Htx); [unfold getTensorShape; by rewrite Htl|]. cbind.
    assert (getType x = getElementType type) as E by (rewrite Htx; unfold getTensorElementType; congruence).
    rewrite <- E. apply binary_same; by rewrite ?E.
Qed.
End Patterns.

(** ** The parts of complex numbers *)
Section ComplexElements.
Context {L : LLVM} {Laws : LLVMLaws L}.

Lemma complex_float t : isSupportedComplexType (ComplexType t) = true -> exists k, t = FloatType k /\ isSupportedFloatType t = true.
Proof. intros [[= ->]|[= ->]]%supported_complex_inv; by eexists. Qed.

Lemma complex_parts e t : element_ok e -> getType e = ComplexType t ->
  exists re im, real e = Ok re /\ imag e = Ok im /\ complex re im = Ok e /\
    (element_ok re /\ getType re = t) /\ (element_ok im /\ getType im = t).
Proof.
  intros He Ht. destruct (element_ok_cases _ He) as [(s & w & v & -> & _)|[(b & ->)|[(f & -> & _)|(re & im & -> & Hc & Him)]]]; try done.
  injection Ht as <-. destruct (complex_float _ Hc) as (_ & _ & Hf).
  exists (MkElement (FloatType (getSemantics re)) (VFloat re)), (MkElement (FloatType (getSemantics re)) (VFloat im)).
  unfold real, imag, complex. cbn [getType isSupportedFloatType]. rewrite !Hc. cbn [complex_element mbind result_bind].
  rewrite !getComplexValue_ok by done. cbind. rewrite !Element_float_ok, !getFloatValue_ok by done. cbind.
  rewrite Element_complex_ok by done. unfold element_ok. cbn. by split_and!; rewrite ?Him.
Qed.

Lemma complex_of re im : isSupportedComplexType (ComplexType (getType re)) = true -> element_ok re -> element_ok im ->
  getType im = getType re ->
  exists e, complex re im = Ok e /\ real e = Ok re /\ imag e = Ok im /\ element_ok e /\ getType e = ComplexType (getType re).
Proof.
  intros Hc Hre Him Ht. destruct (complex_float _ Hc) as (k & Hk & Hf). rewrite Hk in Hf.
  destruct (element_ok_cases _ Hre) as [(s & w & v & -> & _)|[(b & ->)|[(f & -> & Hf')|(a & b & -> & _)]]]; try done.
  destruct (element_ok_cases _ Him) as [(s & w & v & -> & _)|[(b & ->)|[(g & -> & _)|(a & b & -> & _)]]]; try done.
  cbn [getType] in *. injection Ht as Hg. exists (MkElement (ComplexType (FloatType (getSemantics f))) (VComplex (f, g))).
  unfold real, imag, complex. cbn [getType isSupportedFloatType]. rewrite !Hc. cbn [complex_element mbind result_bind]. rewrite Hg.
  rewrite !getComplexValue_ok, !getFloatValue_ok by done. cbind. rewrite Element_complex_ok, !Element_float_ok by done.
  unfold element_ok. cbn. by split_and!.
Qed.
End ComplexElements.

Section Complex.
Context {L : LLVM} {Laws : LLVMLaws L} {C : CommonFolders} {CLaws : CommonFoldersLaws C}.
Context (program : Program) (scope : Scope) (Hdef : defined program scope).

(** The real or the imaginary part of a register. *)
Definition part (is_real : bool) : Element -> result Element := if is_real then real else imag.
Definition part_kind (is_real : bool) : UnaryKind := if is_real then RealOp else ImagOp.

Lemma part_result is_real x type : shaped_ok type -> tensor_full x -> getShape type = getTensorShape x ->
  getTensorElementType x = ComplexType (getElementType type) ->
  result_is type (unary_op (part_kind is_real) x type)
    (fun t => forall i, in_bounds i (getShape type) -> get t i = (a ← get x i; part is_real a)).
Proof.
  intros Hty Hx Hs He. destruct is_real; (apply elementwise1_result; [done|done|done|]); intros a Ha Hta; rewrite He in Hta;
    destruct (complex_parts a _ Ha Hta) as (re & im & ? & ? & _ & [] & []); by eexists.
Qed.

Lemma part_register is_real v x t : defining_op program v = Some (UnaryOp (part_kind is_real) x) -> register scope v t ->
  exists tx, register scope x tx /\ getTensorShape tx = getTensorShape t /\
    getTensorElementType tx = ComplexType (getTensorElementType t) /\
    forall i, in_bounds i (getTensorShape t) -> get t i = (a ← get tx i; part is_real a).
Proof.
  intros Hv Ht. destruct (inner _ _ _ _ _ _ Hdef Hv Ht eq_refl) as (He & attrs & Hver).
  assert (exists tx, register scope x tx /\ getTensorShape t = getTensorShape tx /\
    getTensorElementType tx = ComplexType (getTensorElementType t)) as (tx & Hx & Hs & Hc).
  { destruct Hver as (_ & _ & tx & Hx & Hk). exists tx. by destruct is_real. }
  exists tx. split; [done|]. split; [done|]. split; [done|]. cbv beta in He. rewrite (register_find _ _ _ Hx) in He. cbn [mbind result_bind] in He.
  pose proof (part_result is_real tx (getTensorType t) (full_shaped _ (register_full _ _ _ Ht)) (register_full _ _ _ Hx) Hs Hc) as R.
  by apply (result_known _ _ _ _ R) in He as [Hg _].
Qed.

Lemma complex_result l r type : shaped_ok type -> tensor_full l -> tensor_full r -> getTensorType r = getTensorType l ->
  getShape type = getTensorShape l -> getElementType type = ComplexType (getTensorElementType l) ->
  result_is type (complexOp l r type)
    (fun t => forall i, in_bounds i (getShape type) -> get t i = (a ← get l i; b ← get r i; complex a b)).
Proof.
  intros Hty Hl Hr Ht Hs He. apply elementwise2_result; try done; [unfold getTensorShape in *; congruence|].
  intros a b Ha Hb Hta Htb. destruct (complex_of a b) as (e & ? & _ & _ & ? & Hte); try done.
  - destruct Hty as (Hty & _). rewrite He in Hty. by rewrite Hta.
  - rewrite Hta, Htb. unfold getTensorElementType. by rewrite Ht.
  - exists e. split; [done|]. split; [done|]. by rewrite Hte, He, Hta.
Qed.

Lemma ComplexOp_CancelOutComposedOps_preserves op attrs type rw : verified scope op attrs type ->
  ComplexOp_CancelOutComposedOps program op attrs type = Ok rw -> preserves scope op type rw.
Proof.
  intros Hv H. unfold ComplexOp_CancelOutComposedOps in H. repeat case_match; try discriminate H. subst.
  apply constrain_ok in H as [Hsame [= <-]]. destruct Hv as (Hty & Henc & l & r & Hl & Hr & Htr & Hs & He).
  destruct (part_register true lhs _ l ltac:(done) Hl) as (tx & Hx & Hsx & Hex & Hgx).
  destruct (part_register false rhs _ r ltac:(done) Hr) as (ty & Hy & _ & _ & Hgy).
  pose proof (register_same _ _ _ _ _ Hsame Hx Hy) as <-.
  assert (getTensorType tx = type) as Htx.
  { apply shaped_ext; [unfold getTensorShape in *; congruence|unfold getTensorElementType in *; congruence| |done]. by eapply register_encoding. }
  eapply preserves_value; [reflexivity|exact Hx|done|].
  rewrite (register_find _ _ _ Hl), (register_find _ _ _ Hr). cbind.
  destruct (complex_result l r type Hty) as (t & Ht & Htt & Hf & Hg); [by eapply register_full..|done|done|done|].
  exists t. split; [done|]. split; [done|]. split; [done|]. intros i Hi. rewrite Hg by done. rewrite Hs in Hi.
  rewrite Hgx, Hgy by (unfold getTensorShape in *; congruence).
  destruct (full_get tx i (register_full _ _ _ Hx)) as (e & -> & Hok & Hte); [by rewrite Hsx|]. cbind.
  rewrite Hex in Hte. destruct (complex_parts e _ Hok Hte) as (re & im & Ere & Eim & Ec & _).
  cbn [part]. rewrite Ere. cbind. rewrite Eim. cbind. done.
Qed.

(** A part of a complex number by the operand it was made of. *)
Lemma part_of_complex is_real operand lhs rhs attrs type :
  verified scope (UnaryOp (part_kind is_real) operand) attrs type -> defining_op program operand = Some (BinaryOp ComplexOp lhs rhs) ->
  preserves scope (UnaryOp (part_kind is_real) operand) type (replace_value (if is_real then lhs else rhs)).
Proof.
  intros Hv Hop. assert (shaped_ok type /\ getEncoding type = None /\ exists t, register scope operand t /\
    getShape type = getTensorShape t /\ getTensorElementType t = ComplexType (getElementType type)) as (Hty & Henc & t & Ht & Hs & He).
  { destruct Hv as (? & ? & t & ? & Hk). do 2 (split; [done|]). exists t. by destruct is_real. }
  destruct (inner _ _ _ _ _ _ Hdef Hop Ht eq_refl) as (Hres & attrs' & _ & _ & l & r & Hl & Hr & Htr & Hsl & Hel).
  cbv beta in Hres. rewrite (register_find _ _ _ Hl), (register_find _ _ _ Hr) in Hres. cbn [mbind result_bind] in Hres.
  pose proof (complex_result l r (getTensorType t) (full_shaped _ (register_full _ _ _ Ht)) (register_full _ _ _ Hl) (register_full _ _ _ Hr) Htr Hsl Hel) as R.
  apply (result_known _ _ _ _ R) in Hres as [Hg _].
  assert (getTensorType l = type) as Htl.
  { apply shaped_ext; [unfold getTensorShape in *; congruence|unfold getTensorElementType in *; congruence| |done]. by eapply register_encoding. }
  eapply (preserves_value scope _ type _ (if is_real then l else r)); [reflexivity|by destruct is_real|destruct is_real; congruence|].
  rewrite (register_find _ _ _ Ht). cbind.
  destruct (part_result is_real t type Hty (register_full _ _ _ Ht) Hs He) as (t' & Ht' & Htt & Hf & Hg').
  exists t'. split; [done|]. split; [done|]. split; [done|]. intros i Hi. rewrite Hg' by done. rewrite Hs in Hi. rewrite (Hg i Hi).
  destruct (full_get l i (register_full _ _ _ Hl)) as (a & Ea & Ha & Hta); [unfold getTensorShape in *; congruence|].
  destruct (full_get r i (register_full _ _ _ Hr)) as (b & Eb & Hb & Htb); [unfold getTensorShape in *; congruence|].
  rewrite Ea, Eb. cbind. assert (getType b = getType a) as Hab by (rewrite Hta, Htb; unfold getTensorElementType; congruence).
  destruct (complex_of a b) as (e & -> & Hre & Him & _); try done.
  { destruct (full_shaped _ (register_full _ _ _ Ht)) as (Hsup & _). rewrite Hel in Hsup. by rewrite Hta. }
  cbind. destruct is_real; cbn [part]; congruence.
Qed.

Lemma ImagOp_CancelOutComposedOps_preserves op attrs type rw : verified scope op attrs type ->
  ImagOp_CancelOutComposedOps program op attrs type = Ok rw -> preserves scope op type rw.
Proof.
  intros Hv H. unfold ImagOp_CancelOutComposedOps in H. repeat case_match; try discriminate H. subst. injection H as <-.
  by eapply (part_of_complex false).
Qed.

Lemma RealOp_CancelOutComposedOps_preserves op attrs type rw : verified scope op attrs type ->
  RealOp_CancelOutComposedOps program op attrs type = Ok rw -> preserves scope op type rw.
Proof.
  intros Hv H. unfold RealOp_CancelOutComposedOps in H. repeat case_match; try discriminate H. subst. injection H as <-.
  by eapply (part_of_complex true).
Qed.
End Complex.
