(* ===== verification/SimplifySelect.v ===== *)
(** * Simplifying comparisons and selections *)
From S2P Require Import Prelude Types Support Index Element ElementFacts Tensor TensorFacts Samples Base TypeInference Ops OpsFacts OpsMoves OpsElementwise AttributeFacts Regions Scope Eval Folder FolderFacts FolderElementwise FolderMoves FolderJoin FolderEval Simplify SimplifyRules SimplifyFacts SimplifyElementwise.

Section CompareElements.
Context {L : LLVM} {Laws : LLVMLaws L}.

(** The number that an integer or a boolean stands for. *)
Definition number (e : Element) : Z :=
  match e with
  | MkElement (IntegerType s w) (VInt v) => int_read s w (uval v)
  | MkElement _ (VBool b) => Z.b2z b
  | _ => 0
  end.

Lemma number_int s w z : int_type s w = true -> number (int_el s w z) = int_read s w z.
Proof.
  intros H. pose proof (int_type_pos _ _ H). cbn [number int_el]. rewrite uval_apint by lia.
  unfold int_read. by rewrite Z.mod_mod by (apply Z.pow_nonzero; lia).
Qed.

Lemma compare_discrete d a b : element_ok a -> element_ok b -> getType b = getType a -> discrete (getType a) ->
  compare_elements d a b = Ok (bool_el (compare_z d (number a) (number b))).
Proof.
  intros Ha Hb Ht Hd. destruct (discrete_pair a b Ha Hb Ht Hd) as [(s & w & x & y & -> & -> & Hi)|(x & y & -> & ->)].
  - by rewrite compare_elements_int, !number_int.
  - by destruct d, x, y.
Qed.

Lemma compare_invert d x y : compare_z (invertDirection d) y x = compare_z d x y.
Proof. destruct d; cbn [compare_z invertDirection]; rewrite 1?(Z.eqb_sym y x); done. Qed.

(** The greater and the smaller of two integers. *)
Lemma max_number a b : element_ok a -> element_ok b -> getType b = getType a -> isSupportedIntegerType (getType a) = true ->
  max a b = Ok (if number b <=? number a then a else b) /\ min a b = Ok (if number a <=? number b then a else b).
Proof.
  intros Ha Hb Ht Hd. destruct (discrete_pair a b Ha Hb Ht (or_introl Hd)) as [(s & w & x & y & -> & -> & Hi)|(x & y & -> & ->)]; [|done].
  rewrite max_int, min_int, !number_int by done. split; f_equal.
  - destruct (Z.leb_spec (int_read s w y) (int_read s w x)); [rewrite Z.max_l by lia|rewrite Z.max_r by lia]; by apply int_el_read.
  - destruct (Z.leb_spec (int_read s w x) (int_read s w y)); [rewrite Z.min_l by lia|rewrite Z.min_r by lia]; by apply int_el_read.
Qed.

Lemma number_inj a b : element_ok a -> element_ok b -> getType b = getType a -> discrete (getType a) ->
  number a = number b -> a = b.
Proof.
  intros Ha Hb Ht Hd E. destruct (discrete_pair a b Ha Hb Ht Hd) as [(s & w & x & y & -> & -> & Hi)|(x & y & -> & ->)].
  - rewrite !number_int in E by done. by rewrite <- (int_el_read s w x), E, int_el_read.
  - by destruct x, y.
Qed.
End CompareElements.

Section Compare.
Context {L : LLVM} {Laws : LLVMLaws L} {C : CommonFolders} {CLaws : CommonFoldersLaws C}.
Context (program : Program) (scope : Scope) (Hdef : defined program scope).

(** ** [CompareOp] *)
Definition compared (d : ComparisonDirection) (l r t : Tensor) : Prop :=
  forall i, in_bounds i (getTensorShape t) -> exists a b, get l i = Ok a /\ get r i = Ok b /\
    element_ok a /\ getType a = getTensorElementType l /\ element_ok b /\ getType b = getTensorElementType l /\
    get t i = Ok (bool_el (compare_z d (number a) (number b))).

Lemma compare_result d l r type : shaped_ok type -> tensor_full l -> tensor_full r -> getTensorType r = getTensorType l ->
  discrete (getTensorElementType l) -> getElementType type = i1 -> getShape type = getTensorShape l ->
  result_is type (compareOp l r d type) (compared d l r).
Proof.
  intros Hty Hl Hr Ht Hd He Hs. destruct (elementwise2_result type l r (compare_elements d)) as (t & Hres & Htt & Hf & Hg); try done.
  - unfold getTensorShape in *. congruence.
  - intros a b Ha Hb Hta Htb. eexists. rewrite compare_discrete; [split; [done|]|done|done| |congruence].
    + split; [apply bool_el_ok|]. by rewrite He.
    + rewrite Hta, Htb. unfold getTensorElementType. by rewrite Ht.
  - exists t. split; [done|]. split; [done|]. split; [done|]. intros i Hi. unfold getTensorShape in Hi. rewrite Htt in Hi. rewrite Hs in Hi.
    destruct (full_get l i Hl Hi) as (a & Ea & Ha & Hta).
    destruct (full_get r i Hr) as (b & Eb & Hb & Htb); [unfold getTensorShape; by rewrite Ht|].
    exists a, b. assert (getType b = getTensorElementType l) by (rewrite Htb; unfold getTensorElementType; by rewrite Ht).
    split_and!; try done. rewrite Hg by (unfold getTensorShape in *; congruence). rewrite Ea, Eb. cbind. apply compare_discrete; congruence.
Qed.

Lemma compare_same d x : compare_z d x x = match d with EQ | GE | LE => true | _ => false end.
Proof. destruct d; cbn [compare_z]; lia. Qed.

Lemma bool_constant_result type b : shaped_ok type -> getElementType type = i1 ->
  result_is type (eval_rewrite scope (bool_constant type b)) (fun t => forall i, in_bounds i (getShape type) -> get t i = Ok (bool_el b)).
Proof.
  intros Hty He. unfold bool_constant, replace_op. erewrite eval_replace_op by reflexivity. cbv beta.
  pose proof (splat_constant type (VBool b) Hty) as H. rewrite He in H. by apply H.
Qed.

Lemma CompareOpCanon_preserves op attrs type rw :
  (forall lhs rhs d l, op = CompareOp lhs rhs d -> register scope lhs l -> discrete (getTensorElementType l)) ->
  verified scope op attrs type -> CompareOpCanon program op attrs type = Ok rw -> preserves scope op type rw.
Proof.
  intros Hd Hv H. destruct op; try done. destruct Hv as (Hty & Henc & l & r & Hl & Hr & Ht & He & Hs).
  specialize (Hd _ _ _ _ eq_refl Hl). cbn [CompareOpCanon] in H. apply bind_ok in H as ([] & _ & H).
  pose proof (compare_result comparisonDirection l r type Hty (register_full _ _ _ Hl) (register_full _ _ _ Hr) Ht Hd He Hs) as R.
  destruct (same_value lhs rhs) eqn:Hsame.
  - pose proof (register_same _ _ _ _ _ Hsame Hl Hr) as <-.
    assert (rw = bool_constant type (match comparisonDirection with EQ | GE | LE => true | _ => false end)) as ->
      by (by destruct comparisonDirection; injection H as <-).
    eapply preserves_results; [reflexivity| |by apply bool_constant_result|].
    + rewrite (register_find _ _ _ Hl), (register_find _ _ _ Hr). exact R.
    + intros t t' H1 H2 Htt _ i Hi. rewrite H2 by done. destruct (H1 i) as (a & b & Ea & Eb & _ & _ & _ & _ & ->); [unfold getTensorShape; congruence|].
      rewrite Ea in Eb. injection Eb as <-. by rewrite compare_same.
  - destruct (_ && _); [|done]. injection H as <-.
    eapply preserves_results; [reflexivity| | |].
    + rewrite (register_find _ _ _ Hl), (register_find _ _ _ Hr). exact R.
    + erewrite eval_replace_op by reflexivity. rewrite (register_find _ _ _ Hl), (register_find _ _ _ Hr). cbind.
      apply (compare_result (invertDirection comparisonDirection) r l); try done; try (by eapply register_full);
        unfold getTensorElementType, getTensorShape in *; congruence.
    + intros t t' H1 H2 Htt Htt' i Hi. destruct (H1 i) as (a & b & Ea & Eb & _ & _ & _ & _ & ->); [unfold getTensorShape; congruence|].
      destruct (H2 i) as (b' & a' & Eb' & Ea' & _ & _ & _ & _ & ->); [unfold getTensorShape; congruence|]. assert (a' = a) as -> by congruence. assert (b' = b) as -> by congruence.
      by rewrite compare_invert.
Qed.

(** A boolean compared with a constant is the boolean. *)
Lemma compare_constant_preserves d n lhs rhs attrs type p :
  (d = NE /\ n = 0 \/ d = EQ /\ n = 1) -> reads_as p n -> pred_constant program p rhs = true ->
  verified scope (CompareOp lhs rhs d) attrs type -> preserves scope (CompareOp lhs rhs d) type (replace_value lhs).
Proof.
  intros Hd Hp Hc (Hty & Henc & l & r & Hl & Hr & Ht & He & Hs).
  apply constant_with_inv in Hc as (a & Ha & [Hi1 Hpa]%andb_prop).
  destruct (constant_register _ _ _ _ Hdef Ha) as (r' & Hr' & Hrep). pose proof (register_fun _ _ _ _ Hr Hr') as <-.
  assert (getTensorElementType r = i1) as Her.
  { unfold getTensorElementType. destruct Hrep as (_ & -> & _). by apply supported_boolean_inv. }
  assert (getTensorElementType l = i1) as Hel by (unfold getTensorElementType in *; congruence).
  assert (getTensorType l = type) as Htl.
  { apply shaped_ext; [done|unfold getTensorElementType in *; congruence| |done]. by eapply register_encoding. }
  eapply preserves_value; [reflexivity|exact Hl|done|]. rewrite (register_find _ _ _ Hl), (register_find _ _ _ Hr). cbind.
  destruct (compare_result d l r type Hty (register_full _ _ _ Hl) (register_full _ _ _ Hr) Ht) as (t & Hres & Htt & Hf & Hg);
    [rewrite Hel; by right|done|done|].
  exists t. split; [done|]. split; [done|]. split; [done|]. intros i Hi.
  destruct (Hg i) as (x & y & Ex & Ey & Hx & Htx & _ & _ & ->); [unfold getTensorShape; congruence|].
  pose proof (Hp a r i Hrep) as Hy. rewrite Her in Hy. rewrite Ey in Hy.
  injection (Hy ltac:(unfold getTensorShape in *; congruence) ltac:(by right) Hpa) as ->. rewrite Ex.
  destruct (discrete_cases x Hx ltac:(rewrite Htx, Hel; by right)) as [(s & w & z & -> & Hi')|[b ->]].
  - rewrite Hel in Htx. injection Htx as -> ->. pose proof (int_type_pos _ _ Hi'). lia.
  - do 2 f_equal. by destruct Hd as [[-> ->]|[-> ->]], b.
Qed.

Lemma CompareOp_NeBooleanFalse_preserves op attrs type rw : verified scope op attrs type ->
  CompareOp_NeBooleanFalse program op attrs type = Ok rw -> preserves scope op type rw.
Proof.
  intros Hv H. unfold CompareOp_NeBooleanFalse in H. repeat case_match; try discriminate H. subst. apply constrain_ok in H as [Hc [= <-]].
  eapply (compare_constant_preserves NE 0); [by left| |exact Hc|exact Hv]. intros a t i Hr Hi Hd. by apply IntZero_get.
Qed.

Lemma CompareOp_EqBooleanTrue_preserves op attrs type rw : verified scope op attrs type ->
  CompareOp_EqBooleanTrue program op attrs type = Ok rw -> preserves scope op type rw.
Proof.
  intros Hv H. unfold CompareOp_EqBooleanTrue in H. repeat case_match; try discriminate H. subst. apply constrain_ok in H as [Hc [= <-]].
  eapply (compare_constant_preserves EQ 1); [by right| |exact Hc|exact Hv]. intros a t i Hr Hi Hd. by apply IntOne_get.
Qed.
End Compare.

(** ** Selections *)
Section Select.
Context {L : LLVM} {Laws : LLVMLaws L} {C : CommonFolders} {CLaws : CommonFoldersLaws C}.
Context (options : Options) (program : Program) (scope : Scope) (Hdef : defined program scope).

(** At every index the predicate holds a boolean, which selects the operand. *)
Definition selected (p t f r : Tensor) : Prop :=
  forall i, in_bounds i (getTensorShape r) -> exists b, get p (spread (getTensorShape p) i) = Ok (bool_el b) /\
    get r i = get (if b then t else f) i.

Lemma one_bit_element t i : tensor_full t -> getTensorElementType t = i1 -> in_bounds i (getTensorShape t) ->
  exists b, get t i = Ok (bool_el b).
Proof.
  intros Hf Ht Hi. destruct (full_get t i Hf Hi) as (e & -> & He & Hte). rewrite Ht in Hte.
  destruct (discrete_cases e He ltac:(rewrite Hte; by right)) as [(s & w & z & -> & Hi')|[b ->]]; [|by exists b].
  injection Hte as -> ->. pose proof (int_type_pos _ _ Hi'). lia.
Qed.

Lemma select_result p t f type : shaped_ok type -> tensor_full p -> tensor_full t -> tensor_full f ->
  getTensorElementType p = i1 -> (getTensorShape p = [] \/ getTensorShape p = getShape type) ->
  getTensorType t = type -> getTensorType f = type ->
  result_is type (selectOp p t f type) (selected p t f).
Proof.
  intros Hty Hp Ht Hf Hep Hsp Htt Htf.
  assert (forall i, in_bounds i (getShape type) -> exists b, get p (spread (getTensorShape p) i) = Ok (bool_el b)) as Hb.
  { intros i Hi. apply one_bit_element; [done|done|]. by apply (spread_in_bounds p (getShape type)). }
  assert (forall i b, in_bounds i (getShape type) -> get p (spread (getTensorShape p) i) = Ok (bool_el b) ->
    (predValue ← get_or_scalar p i; b ← getBooleanValue predValue; if (b : bool) then get t i else get f i) = get (if b then t else f) i) as He.
  { intros i b Hi E. rewrite get_or_scalar_spread, E. cbind. by destruct b. }
  unfold selectOp. apply build_result; [done| |].
  - intros i Hi. destruct (Hb i Hi) as [b E]. rewrite (He i b Hi E).
    destruct (full_get (if b then t else f) i) as (e & ? & ? & ?); [by destruct b|destruct b; unfold getTensorShape; congruence|].
    exists e. split; [done|]. split; [done|]. destruct b; unfold getTensorElementType in *; congruence.
  - intros r Hr Hg i Hi. unfold getTensorShape in Hi. rewrite Hr in Hi. destruct (Hb i Hi) as [b E]. exists b. split; [done|].
    rewrite Hg by done. by apply He.
Qed.

Lemma select_operands pred onTrue onFalse attrs type : verified scope (SelectOp pred onTrue onFalse) attrs type ->
  exists p t f, register scope pred p /\ register scope onTrue t /\ register scope onFalse f /\ getTensorType t = type /\
    getTensorType f = type /\ getTensorElementType p = i1 /\ (getTensorShape p = [] \/ getTensorShape p = getShape type) /\
    result_is type (operand ← findTensor scope pred; t ← findTensor scope onTrue; f ← findTensor scope onFalse; selectOp operand t f type)
      (selected p t f).
Proof.
  intros (Hty & Henc & p & t & f & Hp & Ht & Hf & Hep & Hsp & Htt & Htf). exists p, t, f. split_and!; try done.
  rewrite (register_find _ _ _ Hp), (register_find _ _ _ Ht), (register_find _ _ _ Hf). cbind.
  apply select_result; try done; by eapply register_full.
Qed.

(** A selection that always takes the same operand. *)
Lemma select_same_preserves (b : bool) pred onTrue onFalse attrs type :
  verified scope (SelectOp pred onTrue onFalse) attrs type ->
  (forall p i, register scope pred p -> in_bounds i (getTensorShape p) -> get p i = Ok (bool_el b)) ->
  preserves scope (SelectOp pred onTrue onFalse) type (replace_value (if b then onTrue else onFalse)).
Proof.
  intros Hv Hb. destruct (select_operands _ _ _ _ _ Hv) as (p & t & f & Hp & Ht & Hf & Htt & Htf & _ & Hsp & r & Hr & Hrt & Hrf & Hg).
  eapply (preserves_value scope _ type _ (if b then t else f)); [reflexivity|by destruct b..|].
  exists r. split; [exact Hr|]. split; [done|]. split; [done|]. intros i Hi.
  destruct (Hg i) as (b' & Eb & ->); [unfold getTensorShape; congruence|].
  rewrite (Hb p) in Eb; [|done|by apply (spread_in_bounds p (getShape type))]. by injection Eb as <-.
Qed.

Lemma truth_bool b : truth (VBool b) = Ok b.
Proof. unfold truth. cbn [attr_apint mbind result_bind]. f_equal. rewrite isZero_spec, uval_apint by lia. by destruct b. Qed.

(** The values that a predicate of constants selects. *)
Lemma select_values_spec cond onTrue onFalse values : select_values cond onTrue onFalse = Ok values ->
  length cond = length values /\ length onTrue = length values /\ length onFalse = length values /\
  forall (k : nat) c t f v, cond !! k = Some c -> onTrue !! k = Some t -> onFalse !! k = Some f -> values !! k = Some v ->
    exists b, truth c = Ok b /\ v = if b then t else f.
Proof.
  revert onTrue onFalse values. induction cond as [|c cond IH]; intros [|t onTrue] [|f onFalse] values H; try done.
  - injection H as <-. done.
  - cbn [select_values] in H. apply bind_ok in H as (b & Hb & H). apply bind_ok in H as (l & Hl & [= <-]).
    destruct (IH _ _ _ Hl) as (? & ? & ? & Hk). cbn [length]. split_and!; [lia..|].
    intros [|k] c' t' f' v Hc Ht Hf Hv; cbn in *; [|by eapply Hk]. simplify_eq. by exists b.
Qed.

(** A scalar, or the element at the index: at the same place of an attribute of as many values. *)
Lemma spread_flat shape type i : shape = [] \/ shape = getShape type -> prod_z shape = prod_z (getShape type) ->
  in_bounds i (getShape type) -> flat shape (spread shape i) = flat (getShape type) i.
Proof.
  intros [->| ->] Hp Hi; [|by rewrite spread_id]. pose proof (flat_bounds _ _ Hi). cbn in *. lia.
Qed.

Lemma select_constants cond onTrue onFalse p t f type values attrs pred vt vf :
  verified scope (SelectOp pred vt vf) attrs type -> register scope pred p -> register scope vt t -> register scope vf f ->
  represents cond p -> represents onTrue t -> represents onFalse f ->
  select_values (attr_values cond) (attr_values onTrue) (attr_values onFalse) = Ok values ->
  preserves scope (SelectOp pred vt vf) type (replace_op (ConstantOp (MkAttr type values)) type).
Proof.
  intros Hv Hp Ht Hf Rp Rt Rf Hsel.
  destruct (select_operands _ _ _ _ _ Hv) as (p' & t' & f' & Hp' & Ht' & Hf' & Htt & Htf & Hep & Hsp & Hres).
  pose proof (register_fun _ _ _ _ Hp Hp') as <-. pose proof (register_fun _ _ _ _ Ht Ht') as <-.
  pose proof (register_fun _ _ _ _ Hf Hf') as <-. clear Hp' Ht' Hf'. pose proof Hv as (Hty & _).
  destruct (select_values_spec _ _ _ _ Hsel) as (Hlc & Hlt & Hlf & Hk). pose proof Rt as (_ & Eat & Hnt & _). pose proof Rf as (_ & Eaf & _).
  pose proof Rp as (_ & Eap & Hnp & _). assert (attr_type onTrue = type) as Hat by congruence. assert (attr_type onFalse = type) as Haf by congruence.
  pose proof (represents_values _ _ Rt) as Ht_ok. pose proof (represents_values _ _ Rf) as Hf_ok. rewrite Hat in Ht_ok, Hnt. rewrite Haf in Hf_ok.
  destruct (constant_represents (MkAttr type values)) as (c & Hc & Rc).
  { split; [done|]. cbn [attr_type attr_values]. split; [congruence|]. apply Forall_lookup. intros k v Hvk.
    destruct (lookup_lt_is_Some_2 (attr_values cond) k) as [cv Ec]; [apply lookup_lt_Some in Hvk; lia|].
    destruct (lookup_lt_is_Some_2 (attr_values onTrue) k) as [tv Et]; [apply lookup_lt_Some in Hvk; lia|].
    destruct (lookup_lt_is_Some_2 (attr_values onFalse) k) as [fv Ef]; [apply lookup_lt_Some in Hvk; lia|].
    destruct (Hk k cv tv fv v Ec Et Ef Hvk) as ([] & _ & ->);
      [exact (Forall_lookup_1 _ _ _ _ Ht_ok Et)|exact (Forall_lookup_1 _ _ _ _ Hf_ok Ef)]. }
  eapply (preserves_results _ _ _ _ (selected p t f) (represents (MkAttr type values))); [reflexivity|exact Hres| |].
  - unfold replace_op. erewrite eval_replace_op by reflexivity. exists c. pose proof Rc as (? & ? & _). done.
  - intros r c' Hr Rc' Hrt _ i Hi. destruct (Hr i) as (b & Eb & ->); [unfold getTensorShape; congruence|].
    destruct (represents_get _ _ i Rc' Hi) as (v & Ev & -> & _). cbn [attr_type attr_values] in *.
    assert (getTensorShape p = getShape (attr_type cond)) as Esp by (by apply represents_shape).
    destruct (represents_get cond p (spread (getTensorShape p) i) Rp) as (cv & Ecv & Egp & _).
    { rewrite <- Esp. by apply (spread_in_bounds p (getShape type)). }
    rewrite <- Esp, (spread_flat _ type) in Ecv; [|done|rewrite Esp; lia|done]. rewrite Egp in Eb. injection Eb as _ ->.
    destruct (represents_get onTrue t i Rt) as (tv & Etv & Egt & _); [by rewrite Hat|]. rewrite Hat in Etv, Egt.
    destruct (represents_get onFalse f i Rf) as (fv & Efv & Egf & _); [by rewrite Haf|]. rewrite Haf in Efv, Egf.
    destruct (Hk _ _ _ _ _ Ecv Etv Efv Ev) as (b' & Hb' & ->). rewrite truth_bool in Hb'. injection Hb' as <-. by destruct b.
Qed.

Lemma SelectOpCanon_preserves op attrs type rw : verified scope op attrs type ->
  SelectOpCanon options program op attrs type = Ok rw -> preserves scope op type rw.
Proof.
  intros Hv H. destruct op; try done. cbn [SelectOpCanon] in H.
  destruct (select_operands _ _ _ _ _ Hv) as (p & t & f & Hp & Ht & Hf & Htt & Htf & Hep & Hsp & Hres).
  destruct (same_value onTrue onFalse) eqn:Hsame.
  - injection H as <-. pose proof (register_same _ _ _ _ _ Hsame Ht Hf) as <-.
    eapply (preserves_value scope _ type _ t); [reflexivity|done|done|].
    destruct Hres as (r & Hr & Hrt & Hrf & Hg). exists r. split; [exact Hr|]. split; [done|]. split; [done|]. intros i Hi.
    destruct (Hg i) as (b & _ & ->); [unfold getTensorShape; congruence|]. by destruct b.
  - apply bind_ok in H as (cond & Hcond & H). destruct (constant_register _ _ _ _ Hdef Hcond) as (p' & Hp' & Rp).
    pose proof (register_fun _ _ _ _ Hp Hp') as <-. destruct (getSplatValue cond) as [v|] eqn:Hsplat.
    + apply bind_ok in H as (b & Hb & [= <-]). eapply (select_same_preserves b); [exact Hv|]. intros p' i Hp'' Hi.
      pose proof (register_fun _ _ _ _ Hp Hp'') as <-. destruct (splat_get cond p v i Rp Hsplat Hi) as [E Hok].
      destruct (one_bit_element p i (register_full _ _ _ Hp) Hep Hi) as [b' Eb]. rewrite Eb in E. injection E as _ <-.
      rewrite truth_bool in Hb. by injection Hb as <-.
    + apply bind_ok in H as ([] & _ & H). apply bind_ok in H as (at_ & Hat & H). apply bind_ok in H as (af & Haf & H).
      apply bind_ok in H as (values & Hsel & [= <-]).
      destruct (constant_register _ _ _ _ Hdef Hat) as (t' & Ht' & Rt). pose proof (register_fun _ _ _ _ Ht Ht') as <-.
      destruct (constant_register _ _ _ _ Hdef Haf) as (f' & Hf' & Rf). pose proof (register_fun _ _ _ _ Hf Hf') as <-.
      by apply (select_constants cond at_ af p t f type values attrs).
Qed.

(** The negation of a boolean register. *)
Lemma not_register v x t : defining_op program v = Some (UnaryOp NotOp x) -> register scope v t -> getTensorElementType t = i1 ->
  exists tx, register scope x tx /\ getTensorType tx = getTensorType t /\
    forall i, in_bounds i (getTensorShape t) -> exists b, get tx i = Ok (bool_el b) /\ get t i = Ok (bool_el (negb b)).
Proof.
  intros Hv Ht He. destruct (inner _ _ _ _ _ _ Hdef Hv Ht eq_refl) as (Hres & attrs & _ & _ & tx & Hx & Htx).
  exists tx. split; [done|]. split; [done|]. cbv beta in Hres. rewrite (register_find _ _ _ Hx) in Hres. cbn [mbind result_bind] in Hres.
  assert (getTensorElementType tx = i1) as Hex by (unfold getTensorElementType in *; congruence).
  destruct (elementwise1_result (getTensorType t) tx el_not) as (t' & Ht' & _ & _ & Hg);
    [by apply full_shaped, (register_full scope v)|by eapply register_full|unfold getTensorShape; congruence| |].
  { intros a Ha Hta. rewrite Hex in Hta. destruct (discrete_cases a Ha ltac:(rewrite Hta; by right)) as [(s & w & z & -> & Hi')|[b ->]].
    - injection Hta as -> ->. pose proof (int_type_pos _ _ Hi'). lia.
    - exists (bool_el (negb b)). split; [by destruct b|]. split; [apply bool_el_ok|]. by fold (getTensorElementType t). }
  assert (t' = t) as -> by (cbn [unary_op] in Hres; unfold notOp in Hres; congruence).
  intros i Hi. destruct (one_bit_element tx i (register_full _ _ _ Hx) Hex) as [b Eb]; [unfold getTensorShape in *; congruence|].
  exists b. split; [done|]. rewrite Hg by done. rewrite Eb. by destruct b.
Qed.

Lemma SelectOp_InvertPredicateAndSwap_preserves op attrs type rw : verified scope op attrs type ->
  SelectOp_InvertPredicateAndSwap program op attrs type = Ok rw -> preserves scope op type rw.
Proof.
  intros Hv H. unfold SelectOp_InvertPredicateAndSwap in H. repeat case_match; try discriminate H. subst. injection H as <-.
  destruct (select_operands _ _ _ _ _ Hv) as (p & t & f & Hp & Ht & Hf & Htt & Htf & Hep & Hsp & Hres). pose proof Hv as (Hty & _).
  destruct (not_register _ _ _ ltac:(done) Hp Hep) as (x & Hx & Htx & Hnot).
  eapply preserves_results; [reflexivity|exact Hres| |].
  - unfold replace_op. erewrite eval_replace_op by reflexivity.
    rewrite (register_find _ _ _ Hx), (register_find _ _ _ Ht), (register_find _ _ _ Hf). cbind.
    apply (select_result x f t); try done; [by eapply register_full..| |]; unfold getTensorElementType, getTensorShape in *; by rewrite Htx.
  - intros r r' Hr Hr' Hrt Hrt' i Hi. destruct (Hr i) as (b & Eb & ->); [unfold getTensorShape; congruence|].
    destruct (Hr' i) as (b' & Eb' & ->); [unfold getTensorShape; congruence|]. unfold getTensorShape in Eb', Eb. rewrite Htx in Eb'.
    destruct (Hnot (spread (getTensorShape p) i)) as (c & Ec & Ec'); [by apply (spread_in_bounds p (getShape type))|].
    unfold getTensorShape in *. rewrite Ec in Eb'. rewrite Ec' in Eb. injection Eb as <-. injection Eb' as <-. by destruct c.
Qed.

(** The defining operation of a broadcast register. *)
Lemma broadcast_register v x dims t : defining_op program v = Some (BroadcastInDimOp x dims) -> register scope v t ->
  exists tx, register scope x tx /\ getElementType (getTensorType t) = getTensorElementType tx /\
    verifyBroadcastInDimOp (getTensorType tx) dims (getTensorType t) = Ok () /\
    reindexed (broadcast_index (getTensorShape tx) dims) tx t.
Proof.
  intros Hv Ht. destruct (inner _ _ _ _ _ _ Hdef Hv Ht eq_refl) as (Hres & attrs & _ & _ & tx & Hx & He & Hver).
  exists tx. do 3 (split; [done|]). cbv beta in Hres. rewrite (register_find _ _ _ Hx) in Hres. cbn [mbind result_bind] in Hres.
  pose proof (broadcastInDimOp_spec tx dims (getTensorType t) (register_full _ _ _ Hx) (full_shaped _ (register_full _ _ _ Ht)) He Hver) as R.
  by apply (result_known _ _ _ _ R) in Hres as [Hg _].
Qed.

Lemma SelectOp_InvertBroadcastPredicateAndSwap_preserves op attrs type rw : unused program scope -> verified scope op attrs type ->
  SelectOp_InvertBroadcastPredicateAndSwap program op attrs type = Ok rw -> preserves scope op type rw.
Proof.
  intros Hun Hv H. unfold SelectOp_InvertBroadcastPredicateAndSwap in H. repeat case_match; try discriminate H. subst.
  apply constrain_ok in H as [_ H].
  destruct (select_operands _ _ _ _ _ Hv) as (p & t & f & Hp & Ht & Hf & Htt & Htf & Hep & Hsp & Hres). pose proof Hv as (Hty & _).
  rewrite (register_type _ _ _ Hp) in H. cbn [mbind result_bind] in H. injection H as <-.
  destruct (broadcast_register _ _ _ _ ltac:(done) Hp) as (n & Hn & Hen & Hbn & Hg).
  destruct (not_register _ _ _ ltac:(done) Hn) as (x & Hx & Htx & Hnot); [unfold getTensorElementType in *; congruence|].
  assert (getTensorShape x = getTensorShape n) as Hsx by (unfold getTensorShape; by rewrite Htx).
  destruct (broadcastInDimOp_spec x broadcastDimensions (getTensorType p) (register_full _ _ _ Hx) (full_shaped _ (register_full _ _ _ Hp)))
    as (v & Hve & Htv & Hfv & Hgv); [unfold getTensorElementType in *; congruence|by rewrite Htx|].
  destruct (eval_created_one program scope 0 (BroadcastInDimOp operand0 broadcastDimensions) no_attrs (getTensorType p) v)
    as (scope' & Hcr & Hrv & Hkeep); [done|by apply full_shaped, (register_full scope pred)|by eapply register_encoding| |done|done|].
  { unfold eval_tensor. cbn. by rewrite (register_find _ _ _ Hx). }
  eapply preserves_results; [reflexivity|exact Hres| |].
  - unfold eval_rewrite. cbn [created replacement]. rewrite Hcr. cbn [mbind result_bind eval_replacement eval_tensor ok_or].
    unfold eval_tensor. cbn [eval_tensor_op ok_or mbind result_bind].
    rewrite (register_find _ _ _ Hrv), (register_find _ _ _ (Hkeep _ _ Ht)), (register_find _ _ _ (Hkeep _ _ Hf)). cbind.
    apply (select_result v f t); try done; [by eapply register_full..| |]; unfold getTensorElementType, getTensorShape in *; by rewrite Htv.
  - intros r r' Hr Hr' Hrt Hrt' i Hi. destruct (Hr i) as (b & Eb & ->); [unfold getTensorShape; congruence|].
    destruct (Hr' i) as (b' & Eb' & ->); [unfold getTensorShape; congruence|].
    assert (in_bounds (spread (getTensorShape p) i) (getTensorShape p)) as Hsi by (by apply (spread_in_bounds p (getShape type))).
    assert (getTensorShape v = getTensorShape p) as Hsv by (unfold getTensorShape; by rewrite Htv). rewrite Hsv in Eb'.
    destruct (Hg _ Hsi) as [Hb Eg]. destruct (Hgv (spread (getTensorShape p) i)) as [_ Egv]; [by rewrite Hsv|].
    rewrite Hsx in Egv. rewrite Eg in Eb. rewrite Egv in Eb'. destruct (Hnot _ Hb) as (c & Ec & Ec').
    rewrite Ec in Eb'. rewrite Ec' in Eb. injection Eb as <-. injection Eb' as <-. by destruct c.
Qed.

(** ** A selection by a comparison of its operands *)
Definition min_or_max (direction : ComparisonDirection) : option BinaryKind :=
  match direction with GE | GT => Some MaxOp | LE | LT => Some MinOp | _ => None end.

Lemma compare_select direction kind x y : min_or_max direction = Some kind -> element_ok x -> element_ok y ->
  getType y = getType x -> isSupportedIntegerType (getType x) = true ->
  binary_el kind x y = Ok (if compare_z direction (number x) (number y) then x else y).
Proof.
  intros Hk Hx Hy Ht Hi. destruct (max_number x y Hx Hy Ht Hi) as [Hmax Hmin].
  assert (number x = number y -> x = y) as Hinj by (intros E; apply number_inj; try done; by left).
  destruct direction; try done; injection Hk as <-; cbn [binary_el compare_z]; rewrite ?Hmax, ?Hmin; f_equal;
    repeat match goal with |- context [?a <=? ?b] => destruct (Z.leb_spec a b) | |- context [?a <? ?b] => destruct (Z.ltb_spec a b) end;
    try done; try lia; try apply Hinj; try (symmetry; apply Hinj); lia.
Qed.

(** A register that a comparison of two registers defines. *)
Lemma compare_register v lhs rhs d p l r : defining_op program v = Some (CompareOp lhs rhs d) -> register scope v p ->
  register scope lhs l -> register scope rhs r -> discrete (getTensorElementType l) ->
  getTensorShape p = getTensorShape l /\ compared d l r p.
Proof.
  intros Hv Hp Hl Hr Hd. destruct (inner _ _ _ _ _ _ Hdef Hv Hp eq_refl) as (Hres & attrs & Hty & _ & l' & r' & Hl' & Hr' & Ht & He & Hs).
  pose proof (register_fun _ _ _ _ Hl Hl') as <-. pose proof (register_fun _ _ _ _ Hr Hr') as <-. split; [done|].
  rewrite (register_find _ _ _ Hl), (register_find _ _ _ Hr) in Hres. cbn [mbind result_bind] in Hres.
  pose proof (compare_result d l r (getTensorType p) Hty (register_full _ _ _ Hl) (register_full _ _ _ Hr) Ht Hd He Hs) as R.
  by apply (result_known _ _ _ _ R) in Hres as [Hc _].
Qed.

Lemma CompareSelectIntoMinMax_inv pred onTrue onFalse attrs type rw :
  CompareSelectIntoMinMax program (SelectOp pred onTrue onFalse) attrs type = Ok rw ->
  exists lhs rhs d direction kind, defining_op program pred = Some (CompareOp lhs rhs d) /\
    min_or_max direction = Some kind /\ rw = replace_op (BinaryOp kind onTrue onFalse) type /\
    (same_value lhs onTrue = true /\ same_value rhs onFalse = true /\ d = direction \/
     same_value lhs onFalse = true /\ same_value rhs onTrue = true /\ direction = invertDirection d).
Proof.
  unfold CompareSelectIntoMinMax. intros H. destruct (defining_op program pred) as [[]|] eqn:Hc; try done.
  apply bind_ok in H as (direction & Hd & H). exists lhs, rhs, comparisonDirection, direction.
  assert (exists kind, min_or_max direction = Some kind /\ rw = replace_op (BinaryOp kind onTrue onFalse) type) as (kind & Hk & ->)
    by (destruct direction; try done; injection H as <-; by eexists).
  exists kind. split; [done|]. split; [done|]. split; [done|].
  destruct (same_value lhs onFalse && _) eqn:E1; [injection Hd as <-; apply andb_prop in E1 as []; by right|].
  destruct (same_value lhs onTrue && _) eqn:E2; [|done]. injection Hd as <-. apply andb_prop in E2 as []. by left.
Qed.

Lemma CompareSelectIntoMinMax_preserves op attrs type rw : isSupportedIntegerType (getElementType type) = true ->
  verified scope op attrs type -> CompareSelectIntoMinMax program op attrs type = Ok rw -> preserves scope op type rw.
Proof.
  intros Hi Hv H. destruct op; try done.
  destruct (CompareSelectIntoMinMax_inv _ _ _ _ _ _ H) as (lhs & rhs & d & direction & kind & Hc & Hk & -> & Hsame).
  destruct (select_operands _ _ _ _ _ Hv) as (p & t & f & Hp & Ht & Hf & Htt & Htf & _ & _ & Hres). pose proof Hv as (Hty & _).
  destruct (inner _ _ _ _ _ _ Hdef Hc Hp eq_refl) as (_ & attrs' & _ & _ & l & r & Hl & Hr & Hlr & _).
  assert (discrete (getElementType type)) as Hd by by left.
  assert (getTensorType l = type) as Hlt.
  { destruct Hsame as [(H1 & _)|(H1 & _)]; [by rewrite (register_same _ _ _ _ _ H1 Hl Ht)|by rewrite (register_same _ _ _ _ _ H1 Hl Hf)]. }
  destruct (compare_register _ _ _ _ _ _ _ Hc Hp Hl Hr) as [Hs Hcmp]; [unfold getTensorElementType; by rewrite Hlt|].
  assert (forall i, in_bounds i (getShape type) -> exists x y, get t i = Ok x /\ get f i = Ok y /\ element_ok x /\ element_ok y /\
    getType x = getElementType type /\ getType y = getElementType type /\
    get p i = Ok (bool_el (compare_z direction (number x) (number y)))) as Hat.
  { intros i Hin. destruct (Hcmp i) as (a & b & Ea & Eb & Ha & Hta & Hb & Htb & Ep); [unfold getTensorShape in *; by rewrite Hs, Hlt|].
    unfold getTensorElementType in *. rewrite Hlt in Hta, Htb.
    destruct Hsame as [(H1 & H2 & ->)|(H1 & H2 & ->)]; pose proof (fun t => register_same _ _ _ _ t H1 Hl) as E1; pose proof (fun t => register_same _ _ _ _ t H2 Hr) as E2.
    - rewrite (E1 _ Ht) in Ea. rewrite (E2 _ Hf) in Eb. by exists a, b.
    - rewrite (E1 _ Hf) in Ea. rewrite (E2 _ Ht) in Eb. exists b, a. by rewrite compare_invert. }
  assert (kind ∈ SubtractOp :: commutative_kinds /\ kind <> SubtractOp) as [Hk' Hns] by (destruct direction; try done; injection Hk as <-; unfold commutative_kinds; set_solver).
  eapply preserves_results; [reflexivity|exact Hres| |].
  - unfold replace_op. erewrite eval_replace_op by reflexivity. rewrite (register_find _ _ _ Ht), (register_find _ _ _ Hf). cbind.
    apply (binary_result kind t f type Hk'); try done; by eapply register_full.
  - intros r1 r2 H1 H2 Ht1 Ht2 i Hin. rewrite H2 by done. destruct (Hat i Hin) as (x & y & Ex & Ey & Hx & Hy & Htx & Hty' & Ep).
    destruct (H1 i) as (b & Eb & ->); [unfold getTensorShape; congruence|].
    rewrite spread_id in Eb by (unfold getTensorShape in *; by rewrite Hs, Hlt). rewrite Ep in Eb. injection Eb as <-.
    rewrite Ex, Ey. cbind. rewrite (compare_select direction kind) by (try done; congruence). by destruct (compare_z _ _ _).
Qed.
End Select.
