(* ===== verification/SimplifyShapes.v ===== *)
(** * Positions that dimensions of size 1 do not change

    A reshape keeps the row-major positions; the patterns that replace a transpose
    or a broadcast by a reshape rely on it that the dimensions of size 1 count for
    nothing in a position, and that the other dimensions keep their order. *)
From stdpp Require Import sorting.
From S2P Require Import Prelude Types Support Index Element Tensor TensorFacts TypeInference Ops OpsFacts OpsPermute LinearFacts Simplify SimplifyRules.

Lemma filter_fmap {A B} (P : B -> Prop) `{forall x, Decision (P x)} (f : A -> B) (l : list A) :
  filter P (f <$> l) = f <$> filter (fun x => P (f x)) l.
Proof.
  induction l as [|x l IH]; [done|]. rewrite fmap_cons. destruct (decide (P (f x))).
  - by rewrite !filter_cons_True, fmap_cons, IH.
  - by rewrite !filter_cons_False, IH.
Qed.

Lemma prod_z_Permutation l l' : l ≡ₚ l' -> prod_z l = prod_z l'.
Proof. induction 1; rewrite ?prod_z_cons; nia. Qed.

(** Lists of positive factors of one product are equal when one is no greater. *)
Lemma prod_z_le_eq l l' : Forall2 (fun x y => 1 <= x <= y) l l' -> 1 <= prod_z l <= prod_z l' /\ (prod_z l = prod_z l' -> l = l').
Proof.
  induction 1 as [|x y l l' Hx H IH]; [done|]. rewrite !prod_z_cons. destruct IH as [Hp He]. split; [nia|].
  intros E. assert (x = y) as -> by nia. f_equal. apply He. nia.
Qed.

(** ** Squeezed indices *)
Definition squeeze (s i : list Z) : list (Z * Z) := filter (fun p => p.1 <> 1) (zip s i).

Fixpoint flat_pairs (l : list (Z * Z)) : Z :=
  match l with [] => 0 | (_, x) :: l => x * prod_z l.*1 + flat_pairs l end.

Lemma prod_squeeze s i : length i = length s -> prod_z (squeeze s i).*1 = prod_z s.
Proof.
  revert i. induction s as [|d s IH]; intros [|x i] H; try done. unfold squeeze in *. cbn [zip zip_with].
  destruct (decide (d = 1)) as [->|Hd].
  - rewrite filter_cons_False by (cbn; lia). rewrite prod_z_cons, IH by (cbn in H; lia). lia.
  - rewrite filter_cons_True by done. cbn [fmap list_fmap fst]. rewrite !prod_z_cons. f_equal. apply IH. cbn in H. lia.
Qed.

Lemma flat_squeeze s i : in_bounds i s -> flat s i = flat_pairs (squeeze s i).
Proof.
  induction 1 as [|x d i s Hx H IH]; [done|]. pose proof (Forall2_length _ _ _ H) as Hl. cbn [flat]. unfold squeeze. cbn [zip zip_with].
  destruct (decide (d = 1)) as [->|Hd].
  - rewrite filter_cons_False by (cbn; lia). assert (x = 0) as -> by lia. by rewrite IH.
  - rewrite filter_cons_True by done. cbn [flat_pairs]. fold (squeeze s i). by rewrite prod_squeeze, IH.
Qed.

(** ** Dimensions kept in order *)
Definition wide (s : list Z) (k : Z) : Prop := s !! Z.to_nat k <> Some 1.
#[export] Instance wide_dec s k : Decision (wide s k).
Proof. unfold wide. apply _. Defined.

Definition pair_at (s i : list Z) (k : Z) : Z * Z := (default 0 (s !! Z.to_nat k), default 0 (i !! Z.to_nat k)).

Lemma zip_positions s i : length i = length s -> zip s i = pair_at s i <$> seqZ 0 (Z.of_nat (length s)).
Proof.
  intros Hl. apply list_eq_same_length with (length s); [by rewrite length_fmap, length_seqZ, Nat2Z.id|rewrite length_zip_with; lia|].
  intros k x y Hk Hx Hy. apply lookup_zip_with_Some in Hx as (d & z & -> & Hd & Hz).
  rewrite list_lookup_fmap, lookup_seqZ_lt in Hy by lia. injection Hy as <-. unfold pair_at.
  by rewrite Z.add_0_l, Nat2Z.id, Hd, Hz.
Qed.

Lemma zip_permuted dims s i : zip (permuted dims s) (permuted dims i) = pair_at s i <$> dims.
Proof. unfold permuted. induction dims as [|d dims IH]; [done|]. cbn. by rewrite IH. Qed.

Definition in_range (dims : list Z) (n : nat) : Prop := Forall (fun k => 0 <= k < Z.of_nat n) dims.

Lemma squeeze_at s i dims : in_range dims (length s) ->
  filter (fun p => p.1 <> 1) (pair_at s i <$> dims) = pair_at s i <$> filter (wide s) dims.
Proof.
  intros Hr. rewrite filter_fmap. f_equal. induction Hr as [|k dims Hk Hr IH]; [done|].
  destruct (lookup_lt_is_Some_2 s (Z.to_nat k)) as [d Hd]; [lia|].
  assert ((pair_at s i k).1 <> 1 <-> wide s k) as E by (unfold pair_at, wide; rewrite Hd; cbn; naive_solver).
  destruct (decide (wide s k)); [rewrite !filter_cons_True by tauto; by rewrite IH|by rewrite !filter_cons_False by tauto].
Qed.

Lemma seqZ_increasing a n : StronglySorted Z.le (seqZ a n).
Proof.
  destruct (Z.lt_ge_cases n 0) as [H|H]; [rewrite seqZ_nil by lia; constructor|].
  revert a. pattern n. apply natlike_ind; [|clear n H|done].
  - intros a. rewrite seqZ_nil by lia. constructor.
  - intros n Hn IH a. rewrite seqZ_cons by lia. replace (Z.pred (Z.succ n)) with n by lia. constructor; [apply IH|].
    apply Forall_forall. intros x Hx%elem_of_seqZ. lia.
Qed.

Lemma sorted_filter (P : Z -> Prop) `{forall x, Decision (P x)} l : StronglySorted Z.le l -> StronglySorted Z.le (filter P l).
Proof.
  induction 1 as [|x l Hs IH Hx]; [constructor|]. destruct (decide (P x)).
  - rewrite filter_cons_True by done. constructor; [done|]. apply Forall_forall. intros y [_ Hy]%list_elem_of_filter.
    rewrite Forall_forall in Hx. by apply Hx.
  - by rewrite filter_cons_False.
Qed.

Lemma squeeze_permuted s i dims : length i = length s -> NoDup dims -> in_range dims (length s) ->
  (forall k, 0 <= k < Z.of_nat (length s) -> wide s k -> k ∈ dims) -> StronglySorted Z.le (filter (wide s) dims) ->
  squeeze (permuted dims s) (permuted dims i) = squeeze s i.
Proof.
  intros Hl Hn Hr Hw Hs. unfold squeeze. rewrite zip_permuted, (zip_positions s i) by done.
  rewrite !squeeze_at by (done || (apply Forall_forall; intros k Hk%elem_of_seqZ; lia)). f_equal.
  apply (StronglySorted_unique Z.le); [done|apply sorted_filter, seqZ_increasing|].
  apply NoDup_Permutation; [by apply NoDup_filter|apply NoDup_filter, NoDup_seqZ|]. intros k. rewrite !list_elem_of_filter, elem_of_seqZ.
  unfold in_range in Hr. rewrite Forall_forall in Hr. split; [intros [? Hk]|intros [? Hk]]; split; try done; [apply Hr in Hk; lia|]. apply Hw; [lia|done].
Qed.

Lemma flat_permuted s i dims : in_bounds i s -> NoDup dims -> in_range dims (length s) ->
  (forall k, 0 <= k < Z.of_nat (length s) -> wide s k -> k ∈ dims) -> StronglySorted Z.le (filter (wide s) dims) ->
  in_bounds (permuted dims i) (permuted dims s) /\ flat (permuted dims s) (permuted dims i) = flat s i.
Proof.
  intros Hi Hn Hr Hw Hs. pose proof (in_bounds_length _ _ Hi) as Hl.
  assert (in_bounds (permuted dims i) (permuted dims s)) as Hb.
  { apply in_bounds_intro; [by rewrite !length_permuted|]. intros k x d Hx Hd. unfold permuted in *.
    apply list_lookup_fmap_Some in Hx as (p & -> & Hp), Hd as (p' & -> & Hp'). simplify_eq.
    eapply Forall_lookup_1 in Hr; [|exact Hp]. cbv beta in Hr.
    destruct (lookup_lt_is_Some_2 s (Z.to_nat p)) as [d Hd]; [lia|].
    destruct (in_bounds_lookup_Some _ _ _ _ Hi Hd) as (x & Hx & ?). by rewrite Hx, Hd. }
  split; [done|]. rewrite !flat_squeeze by done. by rewrite squeeze_permuted.
Qed.

(** ** Permutations as lists of positions *)
Lemma permuted_seqZ s : permuted (seqZ 0 (Z.of_nat (length s))) s = s.
Proof.
  apply list_eq_same_length with (length s); [done|unfold permuted; by rewrite length_fmap, length_seqZ, Nat2Z.id|].
  intros k x y Hk Hx Hy. unfold permuted in Hx. rewrite list_lookup_fmap, lookup_seqZ_lt in Hx by lia.
  cbn [fmap option_fmap option_map] in Hx. rewrite Z.add_0_l, Nat2Z.id, Hy in Hx. by injection Hx.
Qed.

Lemma mapM_at_z l dims r : mapM (fun p => at_z l p) dims = Ok r -> r = permuted dims l.
Proof.
  intros H%mapM_inv. unfold permuted. induction H as [|p y dims r Hy H IH]; [done|]. rewrite IH. cbn. f_equal.
  apply at_z_ok in Hy as [_ Hy]. by rewrite Hy.
Qed.

Lemma permuted_permuted dims perm i : in_range dims (length perm) -> permuted dims (permuted perm i) = permuted (permuted dims perm) i.
Proof.
  intros Hr. unfold permuted. rewrite <- list_fmap_compose. apply list_fmap_ext. intros k p Hp.
  eapply Forall_lookup_1 in Hr; [|exact Hp]. cbv beta in Hr. cbn. rewrite list_lookup_fmap.
  by destruct (lookup_lt_is_Some_2 perm (Z.to_nat p) ltac:(lia)) as [q ->].
Qed.

Lemma permutes_range perm n : permutes perm n -> in_range perm n.
Proof. intros H. apply Forall_lookup. intros k p Hk. by eapply permutes_lookup. Qed.

Lemma permutes_permuted dims perm n : permutes dims n -> permutes perm n -> permutes (permuted dims perm) n.
Proof.
  intros Hd Hp. pose proof (permutes_length _ _ Hp) as Hl. unfold permutes in *. rewrite Hp at 1. rewrite <- (permuted_seqZ perm) at 1.
  rewrite Hl. unfold permuted. by rewrite Hd.
Qed.

Lemma permutes_intro dims n : NoDup dims -> in_range dims n -> length dims = n -> permutes dims n.
Proof.
  intros Hn Hr Hl. unfold permutes. symmetry. apply submseteq_length_Permutation; [|rewrite length_seqZ; lia].
  apply NoDup_submseteq; [done|]. intros k Hk. unfold in_range in Hr. rewrite Forall_forall in Hr. apply elem_of_seqZ. apply Hr in Hk. lia.
Qed.

Lemma isIotaRange_seqZ dims : isIotaRange dims = true -> dims = seqZ 0 (Z.of_nat (length dims)).
Proof.
  unfold isIotaRange. generalize 0. induction dims as [|d dims IH]; intros n H; [done|]. cbn [isIotaRange_from] in H.
  apply andb_prop in H as [Hd H]. apply IH in H. cbn [length]. rewrite seqZ_cons by lia. f_equal; [lia|].
  replace (Z.pred (Z.of_nat (S (length dims)))) with (Z.of_nat (length dims)) by lia. exact H.
Qed.

Lemma permutes_seqZ n : permutes (seqZ 0 (Z.of_nat n)) n.
Proof. unfold permutes. done. Qed.

(** ** Broadcasts that expand nothing *)
Lemma broadcasts_range sx dims s : broadcasts sx dims s -> in_range dims (length s).
Proof.
  intros [Hl Hb]. apply Forall_lookup. intros d b Hd. destruct (lookup_lt_is_Some_2 sx d) as [x Hx]; [apply lookup_lt_Some in Hd; lia|].
  destruct (Hb d x b Hx Hd) as (? & r & Hr%lookup_lt_Some & _). lia.
Qed.

(** An operand of as many elements as the result has each dimension's size, and the
    dimensions that it does not have are of size 1. *)
Lemma broadcasts_exact sx dims s : broadcasts sx dims s -> NoDup dims -> Forall (fun d => 0 < d) s -> prod_z sx = prod_z s ->
  in_range dims (length s) /\ sx = permuted dims s /\ forall k, 0 <= k < Z.of_nat (length s) -> wide s k -> k ∈ dims.
Proof.
  intros Hfit Hn Hp He. pose proof (broadcasts_range _ _ _ Hfit) as Hr. destruct Hfit as [Hl Hb].
  set (all := seqZ 0 (Z.of_nat (length s))). set (rest := filter (fun k => k ∉ dims) all).
  assert (dims ++ rest ≡ₚ all) as Hperm.
  { apply NoDup_Permutation.
    - apply NoDup_app. split_and!; [done| |apply NoDup_filter, NoDup_seqZ]. intros k Hk [? _]%list_elem_of_filter. done.
    - apply NoDup_seqZ.
    - intros k. unfold rest. rewrite elem_of_app, list_elem_of_filter. unfold all. rewrite elem_of_seqZ. unfold in_range in Hr.
      rewrite Forall_forall in Hr. split.
      + intros [H|[_ H]]; [apply Hr in H; lia|done].
      + intros H. destruct (decide (k ∈ dims)); [by left|by right]. }
  assert (permuted all s = s) as Hall by apply permuted_seqZ.
  assert (prod_z (permuted (dims ++ rest) s) = prod_z sx) as Hprod.
  { rewrite He, <- Hall at 1. apply prod_z_Permutation. rewrite Hall. unfold permuted. rewrite Hperm. fold (permuted all s). by rewrite Hall. }
  assert (forall k, 0 <= k < Z.of_nat (length s) -> 1 <= default 0 (s !! Z.to_nat k)) as Hpos.
  { intros k Hk. destruct (lookup_lt_is_Some_2 s (Z.to_nat k)) as [d Hd]; [lia|]. rewrite Hd. cbn. eapply Forall_lookup_1 in Hp; [|exact Hd]. cbn in Hp. lia. }
  assert (sx ++ replicate (length rest) 1 = permuted dims s ++ permuted rest s) as E.
  { apply prod_z_le_eq.
    - apply Forall2_app; [apply Forall2_same_length_lookup_2; [by rewrite length_permuted|]|apply Forall2_same_length_lookup_2; [by rewrite length_replicate, length_permuted|]].
      + intros d x y Hx Hy. unfold permuted in Hy. apply list_lookup_fmap_Some in Hy as (b & -> & Hd).
        destruct (Hb d x b Hx Hd) as (? & r & Hr' & Hor). eapply Forall_lookup_1 in Hr; [|exact Hd]. cbv beta in Hr. specialize (Hpos b Hr).
        rewrite Hr' in *. cbn in *. lia.
      + intros d x y [-> _]%lookup_replicate Hy. unfold permuted in Hy. apply list_lookup_fmap_Some in Hy as (b & -> & Hd).
        assert (b ∈ rest) as [_ Hin%elem_of_seqZ]%list_elem_of_filter by (by eapply list_elem_of_lookup_2). specialize (Hpos b). lia.
    - unfold permuted in *. rewrite fmap_app in Hprod. rewrite Hprod, prod_z_app.
      assert (prod_z (replicate (length rest) 1) = 1) as ->; [|lia]. clear. induction (length rest); [done|]. cbn [replicate]. rewrite prod_z_cons. lia. }
  apply app_inj_1 in E as [Esx Erest]; [|by rewrite length_permuted]. split; [done|]. split; [done|].
  intros k Hk Hw. destruct (decide (k ∈ dims)) as [|Hnot]; [done|]. exfalso. apply Hw.
  assert (k ∈ rest) as Hin by (apply list_elem_of_filter; split; [done|apply elem_of_seqZ; lia]). apply list_elem_of_lookup in Hin as [j Hj].
  assert (permuted rest s !! j = Some 1) as E1 by (rewrite <- Erest; apply lookup_replicate; split; [done|by eapply lookup_lt_Some]).
  unfold permuted in E1. rewrite list_lookup_fmap, Hj in E1. cbn in E1.
  destruct (lookup_lt_is_Some_2 s (Z.to_nat k)) as [d Hd]; [lia|]. rewrite Hd in *. cbn in E1. congruence.
Qed.

Lemma verifyBroadcastInDimOp_NoDup operandType dims resultType : verifyBroadcastInDimOp operandType dims resultType = Ok () -> NoDup dims.
Proof.
  unfold verifyBroadcastInDimOp. intros H. apply bind_ok in H as (? & _ & H). apply bind_ok in H as (? & _ & H).
  apply bind_ok in H as (? & Hu%ensure_ok & _). by apply isUnique_spec.
Qed.

(** The index of the operand of such a broadcast. *)
Lemma broadcast_index_exact dims s i : in_bounds i s -> in_range dims (length s) ->
  broadcast_index (permuted dims s) dims i = permuted dims i.
Proof.
  intros Hi Hr. apply list_eq_same_length with (length dims); [by rewrite length_permuted|unfold broadcast_index; rewrite length_zip_with, length_permuted; lia|].
  intros d x y Hd Hx Hy. unfold broadcast_index in Hx. apply lookup_zip_with_Some in Hx as (r & b & -> & Hr' & Hb).
  unfold permuted in Hr', Hy. rewrite list_lookup_fmap, Hb in Hr', Hy. injection Hr' as <-. injection Hy as <-.
  eapply Forall_lookup_1 in Hr; [|exact Hb]. cbv beta in Hr. destruct (lookup_lt_is_Some_2 s (Z.to_nat b)) as [r Hsb]; [lia|].
  destruct (in_bounds_lookup_Some _ _ _ _ Hi Hsb) as (z & Hz & ?). rewrite Hsb, Hz. cbn. destruct (Z.eqb_spec r 1); lia.
Qed.

(** ** Broadcasts of broadcasts *)
Lemma broadcasts_trans sx inner sm outer s : broadcasts sx inner sm -> broadcasts sm outer s -> broadcasts sx (permuted inner outer) s.
Proof.
  intros [Hl Hb] [Hl' Hb']. split; [by rewrite length_permuted|]. intros d x b Hx Hp.
  unfold permuted in Hp. apply list_lookup_fmap_Some in Hp as (p & -> & Hp).
  destruct (Hb d x p Hx Hp) as (? & r & Hr & Hor). destruct (lookup_lt_is_Some_2 outer (Z.to_nat p)) as [b Hpb]; [apply lookup_lt_Some in Hr; lia|].
  destruct (Hb' _ r b Hr Hpb) as (? & r' & Hr' & Hor'). rewrite Hpb. cbn. split; [done|]. exists r'. split; [done|]. destruct Hor, Hor'; lia.
Qed.

Lemma broadcast_index_trans sx inner sm outer s i : broadcasts sx inner sm -> broadcasts sm outer s ->
  broadcast_index sx inner (broadcast_index sm outer i) = broadcast_index sx (permuted inner outer) i.
Proof.
  intros [Hl Hb] [Hl' Hb']. apply list_eq_same_length with (length sx); [unfold broadcast_index; rewrite length_zip_with, length_permuted; lia|unfold broadcast_index; rewrite length_zip_with; lia|].
  intros d a b Hd Ha Hc. unfold broadcast_index at 1 in Ha. unfold broadcast_index in Hc.
  apply lookup_zip_with_Some in Ha as (x & p & -> & Hx & Hp). apply lookup_zip_with_Some in Hc as (x' & q & -> & Hx' & Hq).
  rewrite Hx in Hx'. injection Hx' as <-. unfold permuted in Hq. rewrite list_lookup_fmap, Hp in Hq. injection Hq as <-.
  destruct (Z.eqb_spec x 1) as [|Hne]; [done|]. destruct (Hb d x p Hx Hp) as (? & r & Hr & [?| ->]); [done|].
  destruct (lookup_lt_is_Some_2 outer (Z.to_nat p)) as [b Hpb]; [apply lookup_lt_Some in Hr; lia|].
  assert (broadcast_index sm outer i !! Z.to_nat p = Some (default 0 (i !! Z.to_nat b))) as E.
  { apply lookup_zip_with_Some. exists r, b. by rewrite (proj2 (Z.eqb_neq r 1)). }
  by rewrite E, Hpb.
Qed.

Lemma broadcast_index_seqZ s i : in_bounds i s -> broadcast_index s (seqZ 0 (Z.of_nat (length s))) i = i.
Proof.
  intros Hi. pose proof (in_bounds_length _ _ Hi) as Hl. apply list_eq_same_length with (length i); [done|unfold broadcast_index; rewrite length_zip_with, length_seqZ; lia|].
  intros d a b Hd Ha Hb. unfold broadcast_index in Ha. apply lookup_zip_with_Some in Ha as (x & p & -> & Hx & Hp).
  rewrite lookup_seqZ_lt in Hp by lia. injection Hp as <-. rewrite Z.add_0_l, Nat2Z.id, Hb. cbn.
  pose proof (in_bounds_lookup _ _ _ _ _ Hi Hb Hx). destruct (Z.eqb_spec x 1); lia.
Qed.

(** [getInvertedBroadcastDimensions] inverts a permutation. *)
Lemma inverted_dimensions dims n perm : permutes dims n -> getInvertedBroadcastDimensions dims = Ok perm -> perm = inverse dims.
Proof.
  intros Hp H. pose proof (permutes_length _ _ Hp) as Hl. pose proof (permutes_NoDup _ _ Hp) as Hn. unfold getInvertedBroadcastDimensions in H.
  apply (foldM_seqZ_ind _ (fun k l => length l = length dims /\ forall (j : nat) d, (j < k)%nat -> dims !! j = Some d -> l !! Z.to_nat d = Some (Z.of_nat j))) in H.
  - destruct H as [Hlp H]. pose proof (permutes_length _ _ (permutes_inverse _ _ Hp)) as Hli. apply list_eq_same_length with n; [done|congruence|].
    intros d x y Hd Hx Hy. rewrite (inverse_lookup dims n) in Hy by done. injection Hy as <-.
    pose proof (position_spec dims n (Z.of_nat d) Hp ltac:(lia)) as Hpos.
    assert (position dims (Z.of_nat d) < length dims)%nat as Hlt by (by eapply lookup_lt_Some).
    pose proof (H _ _ Hlt Hpos) as E. rewrite Nat2Z.id, Hx in E. by injection E.
  - split; [by rewrite length_replicate|]. lia.
  - intros k l l' Hk [Hll Hj] E. apply bind_ok in E as (d & Hd%at_z_inv & E). apply set_z_inv in E as [Hr ->].
    split; [by rewrite length_insert|]. intros j e Hjk He. destruct (decide (j = k)) as [->|Hne].
    + rewrite Hd in He. injection He as <-. apply list_lookup_insert_eq. lia.
    + rewrite list_lookup_insert_ne; [apply Hj; [lia|done]|]. intros E. apply Hne.
      pose proof (permutes_lookup _ _ _ _ Hp He). pose proof (permutes_lookup _ _ _ _ Hp Hd).
      apply (NoDup_lookup dims _ _ e); [done|done|]. rewrite Hd. f_equal. lia.
Qed.

(** The filter of [TransposeIsReshape]. *)
Lemma wide_filter perm s : in_range perm (length s) ->
  fst <$> filter (fun p : Z * Z => p.2 <> 1) (zip perm (permuted perm s)) = filter (wide s) perm.
Proof.
  induction 1 as [|k perm Hk Hr IH]; [done|]. destruct (lookup_lt_is_Some_2 s (Z.to_nat k)) as [d Hd]; [lia|].
  unfold permuted in *. cbn [fmap list_fmap zip zip_with]. rewrite Hd. cbn [default from_option id].
  assert ((k, d).2 <> 1 <-> wide s k) as E by (unfold wide; rewrite Hd; cbn; naive_solver).
  destruct (decide (wide s k)); [rewrite !filter_cons_True by tauto; cbn; f_equal; exact IH|by rewrite !filter_cons_False by tauto].
Qed.

(** ** Sorted lists *)
Lemma is_sorted_spec l : is_sorted l = true -> StronglySorted Z.le l.
Proof.
  intros H. apply Sorted_StronglySorted; [intros ???; lia|]. induction l as [|x l IH]; [constructor|].
  destruct l as [|y l]; [by repeat constructor|]. cbn [is_sorted] in H. apply andb_prop in H as [Hxy H].
  constructor; [by apply IH|]. constructor. lia.
Qed.

Lemma increasing_spec l : increasing l = true -> StronglySorted Z.le l.
Proof.
  intros H. apply Sorted_StronglySorted; [intros ???; lia|]. induction l as [|x l IH]; [constructor|].
  destruct l as [|y l]; [by repeat constructor|]. cbn [increasing] in H. apply andb_prop in H as [Hxy H].
  constructor; [by apply IH|]. constructor. lia.
Qed.
