(* ===== verification/SimplifyPermute.v ===== *)
(** * Simplifying reshapes, reversals, transposes and broadcasts *)
From S2P Require Import Prelude Types Support Index Element ElementFacts Tensor TensorFacts Samples Base TypeInference Ops OpsFacts OpsMoves OpsPermute OpsJoin AttributeFacts Regions Scope Eval Folder FolderFacts FolderMoves FolderJoin FolderEval Simplify SimplifyRules SimplifyFacts SimplifyElementwise SimplifyShapes.

Section Moves.
Context {L : LLVM} {Laws : LLVMLaws L}.
Context (program : Program) (scope : Scope) (Hdef : defined program scope).

(** ** Operations that read one operand at an index *)

(** A replacement by the operand, which is read where it is written. *)
Lemma preserves_unmoved op type v t f g : eval_tensor_op scope op = Some f -> register scope v t -> getTensorType t = type ->
  result_is type (f type) (reindexed g t) -> (forall i, in_bounds i (getShape type) -> get t (g i) = get t i) ->
  preserves scope op type (replace_value v).
Proof.
  intros Hf Hv Ht (r & Hr & Hrt & Hrf & Hg) Hid. eapply preserves_value; [exact Hf|exact Hv|done|].
  exists r. do 3 (split; [done|]). intros i Hi. destruct (Hg i) as [_ ->]; [by unfold getTensorShape; rewrite Hrt|]. by apply Hid.
Qed.

Lemma TypesEqual_inv type v t : TypesEqual type v = true -> register scope v t -> getTensorType t = type.
Proof.
  unfold TypesEqual. intros H%bool_decide_eq_true (_ & E & Henc & _). rewrite E in H.
  destruct (getTensorType t), type. cbn in H. unfold shaped_type in H. cbn in H. by injection H as <- <- <-.
Qed.

(** ** [ReshapeOp] *)
Lemma reshape_result t type : tensor_full t -> shaped_ok type -> getElementType type = getTensorElementType t ->
  verifyReshapeOp (getTensorType t) type = Ok () ->
  prod_z (getShape type) = prod_z (getTensorShape t) /\ result_is type (reshapeOp t type) (same_order t).
Proof.
  intros Hf Hty He Hv. apply verifyReshapeOp_inv in Hv; [|by apply full_shape_ok|by destruct Hty as (_ & ? & _)].
  split; [done|]. by apply reshapeOp_spec.
Qed.

Lemma ReshapeOp_RemoveNoop_preserves op attrs type rw : verified scope op attrs type ->
  ReshapeOp_RemoveNoop op attrs type = Ok rw -> preserves scope op type rw.
Proof.
  intros Hv H. unfold ReshapeOp_RemoveNoop in H. repeat case_match; try discriminate H. subst. apply constrain_ok in H as [Ht [= <-]].
  destruct Hv as (Hty & _ & t & Hr & He & Hver). pose proof (TypesEqual_inv _ _ _ Ht Hr) as <-.
  destruct (reshape_result t (getTensorType t) (register_full _ _ _ Hr) Hty He Hver) as [_ (t' & Hres & Htt & Hf & Ho)].
  eapply preserves_value; [reflexivity|exact Hr|done|]. rewrite (register_find _ _ _ Hr). cbind. exists t'. do 3 (split; [done|]).
  intros i Hi. apply Ho; unfold getTensorShape in *; by rewrite ?Htt.
Qed.

(** The register of a reshape, by the tensor that it reshapes. *)
Lemma reshape_register v op x t : defining_op program v = Some op -> op = UnaryOp ReshapeOp x \/ (exists s, op = DynamicReshapeOp x s) ->
  register scope v t -> exists tx, register scope x tx /\ getElementType (getTensorType t) = getTensorElementType tx /\
    prod_z (getTensorShape t) = prod_z (getTensorShape tx) /\ same_order tx t /\ reshapeOp tx (getTensorType t) = Ok t.
Proof.
  intros Hv Hop Ht.
  assert (exists tx, register scope x tx /\ getElementType (getTensorType t) = getTensorElementType tx /\
    verifyReshapeOp (getTensorType tx) (getTensorType t) = Ok () /\ reshapeOp tx (getTensorType t) = Ok t) as (tx & Hx & He & Hver & Hres).
  { destruct Hop as [->|[s ->]].
    - destruct (inner _ _ _ _ _ _ Hdef Hv Ht eq_refl) as (Hres & attrs & _ & _ & tx & Hx & He & Hver).
      cbv beta in Hres. rewrite (register_find _ _ _ Hx) in Hres. by exists tx.
    - destruct (inner _ _ _ _ _ _ Hdef Hv Ht eq_refl) as (Hres & attrs & _ & _ & tx & Hx & He & Hver & _).
      cbv beta in Hres. rewrite (register_find _ _ _ Hx) in Hres. by exists tx. }
  exists tx. do 2 (split; [done|]).
  destruct (reshape_result tx (getTensorType t) (register_full _ _ _ Hx) (full_shaped _ (register_full _ _ _ Ht)) He Hver) as [Hp R].
  apply (result_known _ _ _ _ R) in Hres as Ho. destruct Ho as [Ho _]. done.
Qed.

(** A reshape of a reshape, static or dynamic. *)
Lemma reshape_twice op op' attrs attrs' type mid x f f' :
  verified scope op attrs type -> eval_tensor_op scope op = Some f -> eval_tensor_op scope op' = Some f' ->
  op = UnaryOp ReshapeOp mid \/ (exists s, op = DynamicReshapeOp mid s) ->
  op' = UnaryOp ReshapeOp x \/ (exists s, op' = DynamicReshapeOp x s) ->
  (exists op_p, defining_op program mid = Some op_p /\ (op_p = UnaryOp ReshapeOp x \/ exists s, op_p = DynamicReshapeOp x s)) ->
  preserves scope op type (MkRewrite [] (ReplaceWithOp op' attrs' type)).
Proof.
  intros Hv Hf Hf' Hop Hop' (op_p & Hmid & Hopp).
  assert (exists t, register scope mid t /\ shaped_ok type /\ getElementType type = getTensorElementType t /\
    verifyReshapeOp (getTensorType t) type = Ok () /\ f type = reshapeOp t type) as (t & Ht & Hty & He & Hver & Ef).
  { destruct Hop as [->|[s ->]].
    - destruct Hv as (Hty & _ & t & Ht & He & Hver). exists t. do 4 (split; [done|]). injection Hf as <-. by rewrite (register_find _ _ _ Ht).
    - destruct Hv as (Hty & _ & t & Ht & He & Hver & _). exists t. do 4 (split; [done|]). injection Hf as <-. by rewrite (register_find _ _ _ Ht). }
  destruct (reshape_register mid op_p x t Hmid Hopp Ht) as (tx & Hx & Hex & Hp & Ho & _).
  assert (f' type = reshapeOp tx type) as Ef'.
  { destruct Hop' as [->|[s ->]]; injection Hf' as <-; by rewrite (register_find _ _ _ Hx). }
  destruct (reshape_result t type (register_full _ _ _ Ht) Hty He Hver) as [Hp' R].
  eapply preserves_results; [exact Hf|rewrite Ef; exact R| |].
  - rewrite (eval_replace_op _ _ _ _ _ Hf'), Ef'. apply reshapeOp_spec; [by eapply register_full|done| |congruence].
    unfold getTensorElementType in *. congruence.
  - intros r r' H1 H2 Hr Hr' i Hi. assert (shape_ok (getTensorShape t)) as Hs by (by apply full_shape_ok, (register_full scope mid)).
    destruct (flat_partner (getShape type) (getTensorShape t) i Hs Hp' Hi) as (j & Hj & Eij).
    assert (shape_ok (getTensorShape tx)) as Hsx by (by apply full_shape_ok, (register_full scope x)).
    destruct (flat_partner (getTensorShape t) (getTensorShape tx) j Hsx Hp Hj) as (k & Hk & Ejk).
    assert (getTensorShape r = getShape type /\ getTensorShape r' = getShape type) as [Esr Esr'] by (unfold getTensorShape; by rewrite Hr, Hr').
    rewrite (H1 i j), (Ho j k), (H2 i k); rewrite ?Esr, ?Esr'; congruence.
Qed.

Lemma ReshapeOp_MergeComposition_preserves op attrs type rw : verified scope op attrs type ->
  ReshapeOp_MergeComposition program op attrs type = Ok rw -> preserves scope op type rw.
Proof.
  intros Hv H. unfold ReshapeOp_MergeComposition in H. repeat case_match; try discriminate H. subst. injection H as <-.
  eapply reshape_twice; [exact Hv|reflexivity|reflexivity|by left|by left|]. eexists. split; [done|by left].
Qed.

Lemma DynamicReshapeOp_MergeComposition_preserves op attrs type rw : verified scope op attrs type ->
  DynamicReshapeOp_MergeComposition program op attrs type = Ok rw -> preserves scope op type rw.
Proof.
  intros Hv H. unfold DynamicReshapeOp_MergeComposition in H. repeat case_match; try discriminate H. subst. injection H as <-.
  eapply reshape_twice; [exact Hv|reflexivity|reflexivity|right; by eexists|right; by eexists|]. eexists. split; [done|right; by eexists].
Qed.

Lemma DynamicReshapeOpIsStatic_preserves op attrs type rw : verified scope op attrs type ->
  DynamicReshapeOpIsStatic op attrs type = Ok rw -> preserves scope op type rw.
Proof.
  intros Hv H. unfold DynamicReshapeOpIsStatic in H. repeat case_match; try discriminate H. subst. apply bind_ok in H as ([] & _ & [= <-]).
  destruct Hv as (Hty & _ & t & Ht & He & Hver & _). eapply preserves_op; [reflexivity|reflexivity|reflexivity|].
  rewrite (register_find _ _ _ Ht). by apply (reshape_result t type (register_full _ _ _ Ht)).
Qed.

(** ** [ReverseOp] *)
Lemma reverse_preserves operand dims attrs type : verified scope (ReverseOp operand dims) attrs type ->
  (forall t i, register scope operand t -> getTensorType t = type -> NoDup dims /\ Forall (fun d => 0 <= d < Z.of_nat (length (getShape type))) dims ->
     in_bounds i (getShape type) -> get t (reverse_index (getShape type) dims i) = get t i) ->
  preserves scope (ReverseOp operand dims) type (replace_value operand).
Proof.
  intros (Hty & _ & t & Ht & Htt & Hver) H. eapply (preserves_unmoved _ _ _ t); [reflexivity|done|done| |].
  - rewrite (register_find _ _ _ Ht). by apply (reverseOp_spec t dims type (register_full _ _ _ Ht)).
  - intros i Hi. apply H; try done. by apply verifyReverseOp_inv.
Qed.

Lemma ReverseOp_EmptyDim_preserves op attrs type rw : verified scope op attrs type ->
  ReverseOp_EmptyDim op attrs type = Ok rw -> preserves scope op type rw.
Proof.
  intros Hv H. unfold ReverseOp_EmptyDim in H. repeat case_match; try discriminate H. subst. injection H as <-.
  eapply reverse_preserves; [exact Hv|]. intros t i _ _ _ Hi. by rewrite reverse_index_nil by (by apply in_bounds_length).
Qed.

Lemma ReverseOp_ZeroElements_preserves op attrs type rw : verified scope op attrs type ->
  ReverseOp_ZeroElements op attrs type = Ok rw -> preserves scope op type rw.
Proof.
  intros Hv H. unfold ReverseOp_ZeroElements in H. repeat case_match; try discriminate H. subst. apply constrain_ok in H as [[_ Hz]%andb_prop [= <-]].
  eapply reverse_preserves; [exact Hv|]. intros t i Ht <- _ Hi. apply in_bounds_prod_pos in Hi.
  unfold ZeroElement in Hz. rewrite (register_type _ _ _ Ht) in Hz. unfold getNumElements in Hz. lia.
Qed.

Lemma ReverseOp_AllDimsEqualOne_preserves op attrs type rw : verified scope op attrs type ->
  ReverseOp_AllDimsEqualOne op attrs type = Ok rw -> preserves scope op type rw.
Proof.
  intros Hv H. unfold ReverseOp_AllDimsEqualOne in H. repeat case_match; try discriminate H. subst.
  apply bind_ok in H as (b & Hb & [-> [= <-]]%constrain_ok). apply bind_ok in Hb as (sizes & Hs%mapM_inv & [= Hb]).
  eapply reverse_preserves; [exact Hv|]. intros t i Ht <- [_ Hd] Hi. f_equal.
  assert (forall d, d ∈ dimensions -> getTensorShape t !! Z.to_nat d = Some 1) as Hone.
  { intros d Hin. apply list_elem_of_lookup in Hin as [k Hk]. destruct (Forall2_lookup_l _ _ _ _ _ Hs Hk) as (s & Hks & E).
    apply list_elem_of_lookup_2, list_elem_of_In in Hks. rewrite forallb_forall in Hb. apply Hb in Hks. cbv beta in Hks.
    unfold getDimSize in E. rewrite (register_type _ _ _ Ht) in E. cbn [mbind result_bind] in E. apply at_z_ok in E as [_ E].
    unfold getTensorShape. rewrite E. f_equal. lia. }
  pose proof (in_bounds_length _ _ Hi) as Hl. apply list_eq_same_length with (length i); [done|by rewrite length_reverse_index|].
  intros k x y Hk Hx Hy. destruct (lookup_lt_is_Some_2 (getShape (getTensorType t)) k) as [s Hsk]; [lia|].
  rewrite (reverse_index_lookup _ _ _ _ s y) in Hx by done. case_decide as Hin; [|congruence].
  apply Hone in Hin. rewrite Nat2Z.id in Hin. unfold getTensorShape in Hin. rewrite Hsk in Hin. injection Hin as ->.
  pose proof (in_bounds_lookup _ _ _ _ _ Hi Hy Hsk). injection Hx as <-. lia.
Qed.
End Moves.

(** ** Transposes of transposes, broadcasts of broadcasts *)
Section Permute.
Context {L : LLVM} {Laws : LLVMLaws L} {C : CommonFolders} {CLaws : CommonFoldersLaws C}.
Context (program : Program) (scope : Scope) (Hdef : defined program scope).

(** ** [ReverseOp] of a splat *)
Lemma ReverseOp_SplatToNoop_preserves op attrs type rw : verified scope op attrs type ->
  ReverseOp_SplatToNoop program op attrs type = Ok rw -> preserves scope op type rw.
Proof.
  intros Hv H. unfold ReverseOp_SplatToNoop in H. repeat case_match; try discriminate H. subst.
  apply constrain_ok in H as [(a & Ha & [v Hs]%bool_decide_eq_true)%constant_with_inv [= <-]].
  destruct (constant_register _ _ _ _ Hdef Ha) as (t' & Ht' & Hrep).
  eapply reverse_preserves; [exact Hv|]. intros t i Ht <- _ Hi. pose proof (register_fun _ _ _ _ Ht Ht') as <-.
  destruct (splat_get a t v i Hrep Hs Hi) as [-> _]. apply (splat_get a t v); [done|done|]. by apply reverse_index_in_bounds.
Qed.

(** ** [TransposeOp] *)
Lemma transpose_operand operand permutation attrs type : verified scope (TransposeOp operand permutation) attrs type ->
  exists t, register scope operand t /\ permutes permutation (length (getTensorShape t)) /\
    getElementType type = getTensorElementType t /\ getShape type = permuted permutation (getTensorShape t) /\
    result_is type (operand ← findTensor scope operand; transposeOp operand permutation type)
      (reindexed (permuted (inverse permutation)) t).
Proof.
  intros (Hty & _ & t & Ht & Hinf). exists t. split; [done|]. pose proof Hinf as (Hp & He & Hs)%inferTransposeOp_inv.
  do 3 (split; [done|]). rewrite (register_find _ _ _ Ht). cbind. by apply transposeOp_reindexed; [eapply register_full|..].
Qed.

Lemma TransposeOp_RemoveNoop_preserves op attrs type rw : verified scope op attrs type ->
  TransposeOp_RemoveNoop op attrs type = Ok rw -> preserves scope op type rw.
Proof.
  intros Hv H. unfold TransposeOp_RemoveNoop in H. repeat case_match; try discriminate H. subst. apply constrain_ok in H as [Hi [= <-]].
  destruct (transpose_operand _ _ _ _ Hv) as (t & Ht & Hp & He & Hs & Hres). pose proof (permutes_length _ _ Hp) as Hl.
  apply isIotaRange_seqZ in Hi. rewrite Hl in Hi. rewrite Hi, permuted_seqZ in Hs.
  assert (getTensorType t = type) as Htt by (apply shaped_ext; [done|done|by eapply register_encoding|by destruct Hv as (_ & ? & _)]).
  eapply preserves_unmoved; [reflexivity|exact Ht|done|exact Hres|]. intros i Hin. f_equal. rewrite Hs in Hin.
  pose proof (in_bounds_length _ _ Hin) as Hli. rewrite <- (permuted_seqZ i) at 1. rewrite Hli, <- Hi. apply inverse_permuted. by rewrite Hli.
Qed.

(** The register of a transpose. *)
Lemma transpose_register v x permutation t : defining_op program v = Some (TransposeOp x permutation) -> register scope v t ->
  exists tx, register scope x tx /\ permutes permutation (length (getTensorShape tx)) /\
    getTensorElementType t = getTensorElementType tx /\ getTensorShape t = permuted permutation (getTensorShape tx) /\
    transposed permutation tx t.
Proof.
  intros Hv Ht. destruct (inner _ _ _ _ _ _ Hdef Hv Ht eq_refl) as (Hres & attrs & _ & _ & tx & Hx & Hinf).
  cbv beta in Hres. rewrite (register_find _ _ _ Hx) in Hres. cbn [mbind result_bind] in Hres.
  pose proof Hinf as (Hp & He & Hs)%inferTransposeOp_inv. exists tx. do 4 (split; [done|]).
  pose proof (transposeOp_spec tx permutation (getTensorType t) (register_full _ _ _ Hx) (full_shaped _ (register_full _ _ _ Ht)) He Hp Hs) as R.
  by apply (result_known _ _ _ _ R) in Hres as [Hg _].
Qed.

Lemma TransposeOp_TransposeOfTranspose_preserves op attrs type rw : verified scope op attrs type ->
  TransposeOp_TransposeOfTranspose program op attrs type = Ok rw -> preserves scope op type rw.
Proof.
  intros Hv H. unfold TransposeOp_TransposeOfTranspose in H. repeat case_match; try discriminate H. subst.
  apply bind_ok in H as (merged & Hm%mapM_at_z & [= <-]). subst merged.
  destruct (transpose_operand _ _ _ _ Hv) as (t & Ht & Hp & He & Hs & Hres). pose proof Hv as (Hty & _).
  destruct (transpose_register _ _ _ _ ltac:(done) Ht) as (c & Hc & Hpc & Hec & Hsc & Htr).
  rename permutation into dims, permutation0 into child_dims. rewrite Hsc in Hs, Hp.
  rewrite length_permuted, (permutes_length _ _ Hpc) in Hp. pose proof (permutes_range _ _ Hp) as Hr. rewrite <- (permutes_length _ _ Hpc) in Hr.
  rewrite permuted_permuted in Hs by done.
  eapply preserves_results; [reflexivity|exact Hres| |].
  - unfold replace_op. erewrite eval_replace_op by reflexivity. rewrite (register_find _ _ _ Hc). cbind.
    apply transposeOp_fits; [by eapply register_full|done|congruence|by apply permutes_permuted|done].
  - intros r r' Q1 Q2 Hr1 Hr2 i Hi. destruct (Q1 i) as [Hb ->]; [by unfold getTensorShape; rewrite Hr1|].
    destruct (Q2 i) as [Hb' ->]; [by unfold getTensorShape; rewrite Hr2|]. set (j := permuted (inverse (permuted dims child_dims)) i) in *.
    rewrite <- (Htr j Hb'). f_equal. pose proof (in_bounds_length _ _ Hi) as Hli. rewrite Hs, !length_permuted, (permutes_length _ _ Hp) in Hli.
    rewrite <- (permuted_inverse (permuted dims child_dims) i) by (rewrite Hli; by apply permutes_permuted). fold j.
    rewrite <- permuted_permuted by done. apply inverse_permuted. by rewrite length_permuted, (permutes_length _ _ Hpc).
Qed.

Lemma TransposeIsReshape_preserves op attrs type rw : verified scope op attrs type ->
  TransposeIsReshape op attrs type = Ok rw -> preserves scope op type rw.
Proof.
  intros Hv H. unfold TransposeIsReshape in H. destruct op; try done.
  destruct (transpose_operand _ _ _ _ Hv) as (t & Ht & Hp & He & Hs & Hres). pose proof Hv as (Hty & _).
  rewrite (register_type _ _ _ Ht) in H. cbn [mbind result_bind] in H. apply bind_ok in H as ([] & _ & H).
  apply bind_ok in H as (sizes & Hsz%mapM_at_z & H). fold (getTensorShape t) in Hsz. subst sizes.
  apply bind_ok in H as ([] & Hinc%ensure_ok%increasing_spec & [= <-]).
  pose proof (permutes_range _ _ Hp) as Hr. rewrite wide_filter in Hinc by done.
  eapply preserves_results; [reflexivity|exact Hres| |].
  - unfold replace_op. erewrite eval_replace_op by reflexivity. rewrite (register_find _ _ _ Ht). cbind.
    apply reshapeOp_spec; [by eapply register_full|done|done|]. rewrite Hs. rewrite <- (permuted_seqZ (getTensorShape t)) at 2.
    apply prod_z_Permutation. unfold permuted. by rewrite Hp.
  - intros r r' Q1 Q2 Hr1 Hr2 i Hi. assert (getTensorShape r = getShape type /\ getTensorShape r' = getShape type) as [E E'] by (unfold getTensorShape; by rewrite Hr1, Hr2).
    destruct (Q1 i) as [Hb ->]; [by rewrite E|]. symmetry. apply Q2; [by rewrite E'|done|]. rewrite E', Hs.
    pose proof (in_bounds_length _ _ Hi) as Hli. rewrite Hs, length_permuted, (permutes_length _ _ Hp) in Hli.
    rewrite <- (permuted_inverse permutation i) at 1 by (by rewrite Hli).
    apply flat_permuted; [done|by eapply permutes_NoDup|done| |done].
    intros k Hk _. unfold permutes in Hp. rewrite <- Hp. apply elem_of_seqZ. lia.
Qed.

(** ** [BroadcastInDimOp] and [DynamicBroadcastInDimOp] *)
Definition broadcast_like (op : Op) (x : Value) (dims : list Z) : Prop :=
  op = BroadcastInDimOp x dims \/ exists s, op = DynamicBroadcastInDimOp x s dims.

Lemma broadcast_operand op operand dims attrs type : broadcast_like op operand dims -> verified scope op attrs type ->
  exists t, register scope operand t /\ shaped_ok type /\ getElementType type = getTensorElementType t /\
    NoDup dims /\ broadcasts (getTensorShape t) dims (getShape type) /\
    eval_tensor_op scope op = Some (fun type => operand ← findTensor scope operand; broadcastInDimOp operand dims type) /\
    result_is type (operand ← findTensor scope operand; broadcastInDimOp operand dims type)
      (reindexed (broadcast_index (getTensorShape t) dims) t).
Proof.
  intros Hop Hv.
  assert (exists t, register scope operand t /\ shaped_ok type /\ getElementType type = getTensorElementType t /\
    verifyBroadcastInDimOp (getTensorType t) dims type = Ok ()) as (t & Ht & Hty & He & Hver).
  { destruct Hop as [->|[s ->]]; destruct Hv as (Hty & _ & t & Ht & He & Hver); exists t; naive_solver. }
  exists t. do 3 (split; [done|]). split; [by eapply verifyBroadcastInDimOp_NoDup|].
  assert (broadcasts (getTensorShape t) dims (getShape type)) as Hb by (apply verifyBroadcastInDimOp_inv; [done|by apply full_shape_ok, (register_full scope operand)]).
  split; [done|]. split; [by destruct Hop as [->|[s ->]]|]. rewrite (register_find _ _ _ Ht). cbind.
  by apply broadcastInDimOp_fits; [eapply register_full|..].
Qed.

Lemma broadcast_like_register v op x dims t : defining_op program v = Some op -> broadcast_like op x dims -> register scope v t ->
  exists tx, register scope x tx /\ getTensorElementType t = getTensorElementType tx /\
    broadcasts (getTensorShape tx) dims (getTensorShape t) /\ reindexed (broadcast_index (getTensorShape tx) dims) tx t.
Proof.
  intros Hv Hop Ht.
  assert (eval_tensor_op scope op = Some (fun type => operand ← findTensor scope x; broadcastInDimOp operand dims type)) as Hf
    by (by destruct Hop as [->|[s ->]]).
  destruct (inner _ _ _ _ _ _ Hdef Hv Ht Hf) as (Hres & attrs & Hver).
  destruct (broadcast_operand _ _ _ _ _ Hop Hver) as (tx & Hx & _ & He & _ & Hb & _ & R). exists tx. do 3 (split; [done|]).
  by apply (result_known _ _ _ _ R) in Hres as [Hg _].
Qed.

Lemma broadcast_identity_preserves op operand dims attrs type t : broadcast_like op operand dims -> verified scope op attrs type ->
  isIotaRange dims = true -> register scope operand t -> getTensorType t = type -> preserves scope op type (replace_value operand).
Proof.
  intros Hop Hv Hi Ht Htt. destruct (broadcast_operand _ _ _ _ _ Hop Hv) as (t' & Ht' & Hty & He & _ & [Hl _] & Hf & Hres).
  pose proof (register_fun _ _ _ _ Ht Ht') as <-. apply isIotaRange_seqZ in Hi. rewrite Hl in Hi.
  eapply preserves_unmoved; [exact Hf|exact Ht|done|exact Hres|]. intros i Hin. rewrite Hi, broadcast_index_seqZ; [done|]. by rewrite <- Htt in Hin.
Qed.

Lemma BroadcastInDimOp_RemoveNoop_preserves op attrs type rw : verified scope op attrs type ->
  BroadcastInDimOp_RemoveNoop op attrs type = Ok rw -> preserves scope op type rw.
Proof.
  intros Hv H. unfold BroadcastInDimOp_RemoveNoop in H. repeat case_match; try discriminate H. subst. apply constrain_ok in H as [[Hi Ht]%andb_prop [= <-]].
  pose proof Hv as (_ & _ & t & Hr & _). eapply broadcast_identity_preserves; [by left|exact Hv|done|exact Hr|]. by eapply TypesEqual_inv.
Qed.

Lemma broadcast_merge op op' op_p attrs attrs' type mid x outer inner_dims dims f' :
  verified scope op attrs type -> broadcast_like op mid outer -> defining_op program mid = Some op_p -> broadcast_like op_p x inner_dims ->
  getMergedBroadcastDimensions outer inner_dims = Ok dims -> broadcast_like op' x dims -> eval_tensor_op scope op' = Some f' ->
  preserves scope op type (MkRewrite [] (ReplaceWithOp op' attrs' type)).
Proof.
  intros Hv Hop Hmid Hopp Hm%mapM_at_z Hop' Hf'. subst dims.
  destruct (broadcast_operand _ _ _ _ _ Hop Hv) as (t & Ht & Hty & He & _ & Hb & Hf & Hres).
  destruct (broadcast_like_register _ _ _ _ _ Hmid Hopp Ht) as (tx & Hx & Hex & Hbx & Hg).
  eapply preserves_results; [exact Hf|exact Hres| |].
  - rewrite (eval_replace_op _ _ _ _ _ Hf'). assert (f' type = broadcastInDimOp tx (permuted inner_dims outer) type) as ->.
    { destruct Hop' as [->|[s ->]]; injection Hf' as <-; by rewrite (register_find _ _ _ Hx). }
    apply broadcastInDimOp_fits; [by eapply register_full|done|congruence|by eapply broadcasts_trans].
  - intros r r' Q1 Q2 Hr1 Hr2 i Hi. destruct (Q1 i) as [Hbi ->]; [by unfold getTensorShape; rewrite Hr1|].
    destruct (Hg _ Hbi) as [_ ->]. destruct (Q2 i) as [_ ->]; [by unfold getTensorShape; rewrite Hr2|].
    by erewrite broadcast_index_trans.
Qed.

Lemma BroadcastInDimOp_MergeComposition_preserves op attrs type rw : verified scope op attrs type ->
  BroadcastInDimOp_MergeComposition program op attrs type = Ok rw -> preserves scope op type rw.
Proof.
  intros Hv H. unfold BroadcastInDimOp_MergeComposition in H. repeat case_match; try discriminate H. subst.
  apply constrain_ok in H as [_ (dims & Hd & [= <-])%bind_ok]. eapply broadcast_merge; [exact Hv|by left|done|by left|exact Hd|by left|reflexivity].
Qed.

Lemma DynamicBroadcastInDimOp_MergeComposition_preserves op attrs type rw : verified scope op attrs type ->
  DynamicBroadcastInDimOp_MergeComposition program op attrs type = Ok rw -> preserves scope op type rw.
Proof.
  intros Hv H. unfold DynamicBroadcastInDimOp_MergeComposition in H. repeat case_match; try discriminate H. subst.
  apply bind_ok in H as (dims & Hd & [= <-]).
  eapply broadcast_merge; [exact Hv|right; by eexists|done|right; by eexists|exact Hd|right; by eexists|reflexivity].
Qed.
End Permute.
