(* ===== verification/SimplifyBroadcast.v ===== *)
(** * Simplifying broadcasts to reshapes and transposes, and iotas *)
From S2P Require Import Prelude Types Support Index Element ElementFacts Tensor TensorFacts Samples Base TypeInference Ops OpsFacts OpsMoves OpsPermute OpsJoin AttributeFacts Regions Scope Eval Folder FolderFacts FolderElementwise FolderMoves FolderJoin FolderEval Simplify SimplifyRules SimplifyFacts SimplifyElementwise SimplifyShapes SimplifyPermute.

(** A dimension of a tensor that has elements can be a tensor of its own. *)
Lemma shaped_ok_dim type (k : nat) n : shaped_ok type -> prod_z (getShape type) <> 0 -> getShape type !! k = Some n ->
  shaped_ok (shaped [n] (getElementType type)).
Proof.
  intros (Ht & Hs & m & Hm) Hp Hn. pose proof (static_dim _ _ _ Hs Hn) as [Hn0 _]. split; [done|]. split; [by constructor; [|constructor]|].
  destruct type as [shape t enc]. cbn [getShape shaped_type getSizeInBytes getElementType shaped] in *. apply bind_ok in Hm as (e & He & Hm).
  apply bind_ok in Hm as (sz & Hsz & Hm). apply i64_inv in Hm as [-> Hb]. destruct (supported_size _ Ht) as (sz' & Hsz' & Hpos).
  rewrite Hsz in Hsz'. injection Hsz' as <-. unfold numElements in *. case_match; [|done]. apply foldM_mul_prod in He. rewrite Z.mul_1_l in He. subst e.
  pose proof (prod_z_nonneg _ (shape_ok_nonneg _ Hs)). rewrite <- (take_drop_middle _ _ _ Hn), prod_z_app, prod_z_cons in Hb, Hp.
  pose proof (shape_ok_nonneg _ Hs) as Hnn. pose proof (prod_z_nonneg _ (Forall_take _ k _ Hnn)). pose proof (prod_z_nonneg _ (Forall_drop _ (S k) _ Hnn)).
  set (a := prod_z (take k shape)) in *. set (b := prod_z (drop (S k) shape)) in *.
  assert (1 <= a /\ 1 <= b) as [] by nia. assert (n * 1 <= n * (a * b)) by (apply Z.mul_le_mono_nonneg_l; nia). replace (a * (n * b)) with (n * (a * b)) in * by lia. assert (n * sz <= n * (a * b) * sz) by (apply Z.mul_le_mono_nonneg_r; lia).
  cbn [forallb foldM]. replace (0 <=? n) with true by lia. cbn [andb]. rewrite i64_ok by (unfold int64_min; nia). cbind. rewrite Hsz. cbind.
  exists (1 * n * sz). apply i64_ok. unfold int64_min. nia.
Qed.

Section Broadcast.
Context {L : LLVM} {Laws : LLVMLaws L} {C : CommonFolders} {CLaws : CommonFoldersLaws C}.
Context (program : Program) (scope : Scope) (Hdef : defined program scope).

Lemma NumberOfElementsEqual_inv type v t : NumberOfElementsEqual type v = true -> register scope v t ->
  prod_z (getShape type) = prod_z (getTensorShape t).
Proof. unfold NumberOfElementsEqual. intros H Ht. rewrite (register_type _ _ _ Ht) in H. unfold getNumElements in H. by apply Z.eqb_eq in H. Qed.

(** The operand that a broadcast of as many elements reads. *)
Lemma broadcast_exact t dims type i : broadcasts (getTensorShape t) dims (getShape type) -> NoDup dims ->
  prod_z (getShape type) = prod_z (getTensorShape t) -> in_bounds i (getShape type) ->
  in_range dims (length (getShape type)) /\ getTensorShape t = permuted dims (getShape type) /\
  (forall k, 0 <= k < Z.of_nat (length (getShape type)) -> wide (getShape type) k -> k ∈ dims) /\
  broadcast_index (getTensorShape t) dims i = permuted dims i.
Proof.
  intros Hb Hn Hp Hi. destruct (broadcasts_exact _ _ _ Hb Hn (in_bounds_pos _ _ Hi)) as (Hr & Hs & Hw); [done|].
  do 3 (split; [done|]). rewrite Hs. by apply broadcast_index_exact.
Qed.

Lemma BroadcastInDimOp_ReplaceWithReshape_preserves op attrs type rw : verified scope op attrs type ->
  BroadcastInDimOp_ReplaceWithReshape op attrs type = Ok rw -> preserves scope op type rw.
Proof.
  intros Hv H. unfold BroadcastInDimOp_ReplaceWithReshape in H. repeat case_match; try discriminate H. subst.
  apply constrain_ok in H as [[[_ Hs]%andb_prop Hn]%andb_prop [= <-]].
  destruct (broadcast_operand _ _ _ _ _ _ (or_introl eq_refl) Hv) as (t & Ht & Hty & He & Hnd & Hb & Hf & Hres).
  pose proof (NumberOfElementsEqual_inv _ _ _ Hn Ht) as Hp.
  eapply preserves_results; [exact Hf|exact Hres| |].
  - unfold replace_op. erewrite eval_replace_op by reflexivity. rewrite (register_find _ _ _ Ht). cbind.
    by apply reshapeOp_spec; [eapply register_full|..].
  - intros r r' Q1 Q2 Hr1 Hr2 i Hi. destruct (broadcast_exact t _ type i Hb Hnd Hp Hi) as (Hr & Hsh & Hw & Hbi).
    destruct (Q1 i) as [Hin ->]; [by unfold getTensorShape; rewrite Hr1|]. symmetry. apply Q2; [by unfold getTensorShape; rewrite Hr2|done|].
    rewrite Hbi, Hsh. unfold getTensorShape at 1. rewrite Hr2. symmetry. apply flat_permuted; try done. by apply sorted_filter, is_sorted_spec.
Qed.

(** A transpose of a tensor without elements. *)
Lemma transposeOp_empty t permutation type : tensor_full t -> shaped_ok type -> prod_z (getTensorShape t) = 0 -> prod_z (getShape type) = 0 ->
  result_is type (transposeOp t permutation type) (fun _ => True).
Proof.
  intros Hf Hty Ht He. destruct (newTensor_ok type Hty) as (t0 & Ht0 & Hok & Htt). unfold transposeOp. rewrite Ht0. cbind.
  rewrite for_index_foldM by (by apply full_shape_ok). assert (indices (getTensorShape t) = []) as ->.
  { destruct (indices (getTensorShape t)) as [|i l] eqn:E; [done|].
    assert (i ∈ indices (getTensorShape t)) as Hi%elem_of_indices%in_bounds_prod_pos by (rewrite E; left). lia. }
  exists t0. split; [done|]. split; [done|]. split; [|done]. split; [done|]. intros i Hi. rewrite Htt in Hi. apply in_bounds_prod_pos in Hi. lia.
Qed.

Lemma BroadcastInDimOp_ReplaceWithTranspose_preserves op attrs type rw : verified scope op attrs type ->
  BroadcastInDimOp_ReplaceWithTranspose op attrs type = Ok rw -> preserves scope op type rw.
Proof.
  intros Hv H. unfold BroadcastInDimOp_ReplaceWithTranspose in H. repeat case_match; try discriminate H. subst.
  apply constrain_ok in H as [[[_ Hn]%andb_prop Hrank]%andb_prop (perm & Hperm & [= <-])%bind_ok].
  destruct (broadcast_operand _ _ _ _ _ _ (or_introl eq_refl) Hv) as (t & Ht & Hty & He & Hnd & Hb & Hf & Hres).
  pose proof (NumberOfElementsEqual_inv _ _ _ Hn Ht) as Hp.
  assert (length (getShape type) = length (getTensorShape t)) as Hlen.
  { unfold RankEqual in Hrank. rewrite (register_type _ _ _ Ht) in Hrank. unfold getRank in Hrank. unfold getTensorShape. lia. }
  assert (permutes broadcastDimensions (length (getShape type))) as Hdims.
  { apply permutes_intro; [done|by eapply broadcasts_range|]. destruct Hb as [-> _]. done. }
  apply (inverted_dimensions _ _ _ Hdims) in Hperm. subst perm.
  assert (forall P, result_is type (transposeOp t (inverse broadcastDimensions) type) P ->
    result_is type (eval_rewrite scope (replace_op (TransposeOp operand (inverse broadcastDimensions)) type)) P) as Heval.
  { intros P. unfold replace_op. erewrite eval_replace_op by reflexivity. by rewrite (register_find _ _ _ Ht). }
  destruct (Z.eq_dec (prod_z (getShape type)) 0) as [Hz|Hz].
  { eapply preserves_results; [exact Hf|exact Hres|apply Heval, transposeOp_empty; [by eapply register_full|done|congruence|done]|].
    intros r r' _ _ _ _ i Hi%in_bounds_prod_pos. lia. }
  assert (Forall (fun d => 0 < d) (getShape type)) as Hpos.
  { apply shaped_shape in Hty. pose proof (prod_z_nonneg _ (shape_ok_nonneg _ Hty)). apply prod_z_all_pos; [by apply shape_ok_nonneg|lia]. }
  destruct (broadcasts_exact _ _ _ Hb Hnd Hpos) as (Hr & Hsh & Hw); [done|].
  eapply preserves_results; [exact Hf|exact Hres|apply Heval, transposeOp_spec; [by eapply register_full|done|done| |]|].
  - rewrite <- Hlen. by apply permutes_inverse.
  - by rewrite Hsh, inverse_permuted.
  - intros r r' Q1 Q2 Hr1 Hr2 i Hi. destruct (Q1 i) as [Hin ->]; [by unfold getTensorShape; rewrite Hr1|].
    rewrite Hsh, broadcast_index_exact in Hin |- * by done. rewrite <- (Q2 _ ltac:(by rewrite Hsh)).
    by rewrite inverse_permuted by (by rewrite (in_bounds_length _ _ Hi)).
Qed.

(** ** Dynamic broadcasts *)
Lemma shape_register_same v w shape shape' : same_value v w = true -> shape_register scope v shape -> shape_register scope w shape' -> shape = shape'.
Proof. intros Hs (t & Ht & E) (t' & Ht' & E'). pose proof (register_same _ _ _ _ _ Hs Ht Ht') as <-. congruence. Qed.

Lemma DynamicBroadcastInDimOp_FoldToDynamicReshape_preserves op attrs type rw : verified scope op attrs type ->
  DynamicBroadcastInDimOp_FoldToDynamicReshape program op attrs type = Ok rw -> preserves scope op type rw.
Proof.
  intros Hv H. unfold DynamicBroadcastInDimOp_FoldToDynamicReshape in H. repeat case_match; try discriminate H. subst.
  apply constrain_ok in H as [[Hs Hi]%andb_prop [= <-]].
  destruct (broadcast_operand _ _ _ _ _ _ (or_intror (ex_intro _ _ eq_refl)) Hv) as (t & Ht & Hty & He & _ & _ & Hf & _).
  assert (shape_register scope outputDimensions (getShape type)) as Hsh by (by destruct Hv as (_ & _ & ? & _ & _ & _ & ?)).
  assert (getTensorType t = type) as Htt.
  { destruct (inner program scope _ _ _ _ Hdef ltac:(eassumption) Ht eq_refl) as (_ & attrs' & _ & _ & tx & _ & _ & _ & Hsh').
    apply shaped_ext; [|done|by eapply register_encoding|by destruct Hv as (_ & ? & _)]. symmetry. by eapply shape_register_same. }
  destruct (reshape_register program scope Hdef operand (DynamicReshapeOp operand0 outputShape) operand0 t ltac:(done) ltac:(right; by eexists) Ht)
    as (tx & Hx & _ & _ & _ & Hres).
  pose proof (broadcast_identity_preserves scope _ _ _ _ _ t (or_intror (ex_intro _ outputDimensions eq_refl)) Hv Hi Ht Htt) as (r & r' & Hr & Hr' & Hrest).
  exists r, t. rewrite eval_replace_value, (register_find _ _ _ Ht) in Hr'. injection Hr' as <-. split; [done|]. split; [|done].
  unfold replace_op. erewrite eval_replace_op by reflexivity. rewrite (register_find _ _ _ Hx). cbind. by rewrite <- Htt.
Qed.

Lemma DynamicBroadcastInDimOpNotActuallyDynamic_preserves op attrs type rw : verified scope op attrs type ->
  DynamicBroadcastInDimOpNotActuallyDynamic program op attrs type = Ok rw -> preserves scope op type rw.
Proof.
  intros Hv H. destruct op; try done. cbn [DynamicBroadcastInDimOpNotActuallyDynamic] in H.
  destruct (broadcast_operand _ _ _ _ _ _ (or_intror (ex_intro _ _ eq_refl)) Hv) as (t & Ht & Hty & _ & _ & _ & Hf & Hres).
  apply bind_ok in H as (? & _ & H). apply bind_ok in H as ([] & _ & H).
  rewrite hasStaticShape_ok in H by (by apply shaped_shape). injection H as <-.
  eapply preserves_op; [exact Hf|reflexivity|reflexivity|exact Hres].
Qed.

(** ** [IotaOp] *)
Lemma convert_float_complex k f : k = Float32 \/ k = Float64 -> exists e, convert_float (ComplexType (FloatType k)) f = Ok e.
Proof.
  intros Hk. assert (isSupportedFloatType (FloatType k) = true) as Hf by (by destruct Hk as [->| ->]).
  assert (convert_float (ComplexType (FloatType k)) f = convert_complex_at (convert_float (FloatType k)) (ComplexType (FloatType k)) (f, float_zero)) as ->
    by (by destruct Hk as [->| ->]).
  unfold convert_complex_at. cbn [fst snd]. rewrite !convert_float_float by done. cbind. rewrite !getFloatValue_ok by done. cbind.
  unfold Element_complex. destruct Hk as [->| ->]; cbn; rewrite !sem_convert; by eexists.
Qed.

Lemma convert_apsint_complex k v : k = Float32 \/ k = Float64 -> exists e, convert_apsint (ComplexType (FloatType k)) v = Ok e.
Proof.
  intros Hk. assert (isSupportedFloatType (FloatType k) = true) as Hf by (by destruct Hk as [->| ->]).
  assert (convert_apsint (ComplexType (FloatType k)) v = (floatResult ← convert_apsint (FloatType k) v;
    f ← getFloatValue floatResult; convert_float (ComplexType (FloatType k)) f)) as -> by (by destruct Hk as [->| ->]).
  rewrite convert_apsint_float by done. cbind. rewrite getFloatValue_ok by done. cbind. by apply convert_float_complex.
Qed.

Lemma convert_i64_total t x : isSupportedType t = true -> exists e, convert_i64 t x = Ok e /\ element_ok e /\ getType e = t.
Proof.
  intros H. assert (exists e, convert_i64 t x = Ok e) as [e He]; [|exists e; split; [done|by eapply convert_apsint_inv]].
  unfold convert_i64. destruct (isSupportedType_cases t H) as [(s & w & -> & Hi)|[->|[(k & -> & Hk)|Hc]]].
  - rewrite convert_apsint_int by done. by eexists.
  - by eexists.
  - rewrite convert_apsint_float by done. by eexists.
  - destruct Hc as [->| ->]; apply convert_apsint_complex; [by left|by right].
Qed.

Definition counts (dim : Z) (elementType : Ty) (t : Tensor) : Prop :=
  forall i x, in_bounds i (getTensorShape t) -> i !! Z.to_nat dim = Some x -> get t i = convert_i64 elementType x.

Lemma iota_result dim type : shaped_ok type -> 0 <= dim < getRank type -> result_is type (iotaOp dim type) (counts dim (getElementType type)).
Proof.
  intros Hty Hd. assert (forall i, in_bounds i (getShape type) -> exists x, i !! Z.to_nat dim = Some x /\ at_z i dim = Ok x) as Hat.
  { intros i Hi. pose proof (in_bounds_length _ _ Hi). unfold getRank in Hd. destruct (at_z_lt i dim) as (x & ? & ?); [lia|]. by exists x. }
  unfold iotaOp. apply build_result; [done| |].
  - intros i Hi. destruct (Hat i Hi) as (x & _ & ->). cbind. apply convert_i64_total. by destruct Hty.
  - intros t Ht Hg i x Hi Hx. unfold getTensorShape in Hi. rewrite Ht in Hi. rewrite Hg by done.
    destruct (Hat i Hi) as (x' & Hx' & ->). cbind. congruence.
Qed.

Lemma DynamicIotaIsStatic_preserves op attrs type rw : verified scope op attrs type ->
  DynamicIotaIsStatic op attrs type = Ok rw -> preserves scope op type rw.
Proof.
  intros (Hty & _ & Hv) H. unfold DynamicIotaIsStatic in H. repeat case_match; try discriminate H. subst. apply bind_ok in H as ([] & _ & [= <-]).
  eapply preserves_op; [reflexivity|reflexivity|reflexivity|]. by apply iota_result.
Qed.

(** A numbering of a tensor of one dimension, broadcast along the others. *)
Lemma IotaOpBroadcast_preserves op attrs type rw : getNumElements type <> 0 -> unused program scope -> verified scope op attrs type ->
  IotaOpBroadcast program op attrs type = Ok rw -> preserves scope op type rw.
Proof.
  intros Hne Hun Hv H. destruct op; try done. destruct Hv as (Hty & Henc & Hd). cbn [IotaOpBroadcast] in H.
  apply bind_ok in H as ([] & _ & H). apply bind_ok in H as (n & Hn%at_z_ok & [= <-]). destruct Hn as [_ Hn].
  pose proof (shaped_ok_dim _ _ _ Hty Hne Hn) as Hty1.
  destruct (iota_result 0 (shaped [n] (getElementType type)) Hty1) as (v & Hve & Htv & Hfv & Hcv); [unfold getRank; cbn; lia|].
  destruct (eval_created_one program scope 0 (IotaOp 0) no_attrs (shaped [n] (getElementType type)) v) as (scope' & Hcr & Hrv & _); try done.
  assert (getTensorShape v = [n]) as Hsv by (unfold getTensorShape; by rewrite Htv).
  eapply preserves_results; [reflexivity|by apply iota_result| |].
  - unfold eval_rewrite. cbn [created replacement]. rewrite Hcr. cbn [mbind result_bind eval_replacement eval_tensor ok_or].
    unfold eval_tensor. cbn [eval_tensor_op ok_or mbind result_bind]. rewrite (register_find _ _ _ Hrv). cbind.
    apply broadcastInDimOp_fits; [done|done|by unfold getTensorElementType; rewrite Htv|]. rewrite Hsv. split; [done|].
    intros [|d] s b Hs Hb; [|by destruct d]. injection Hs as <-. injection Hb as <-. split; [lia|]. exists n. split; [done|by right].
  - intros r r' Q1 Q2 Hr1 Hr2 i Hi. destruct (in_bounds_lookup_Some _ _ _ _ Hi Hn) as (x & Hx & Hxn).
    rewrite (Q1 i x) by (try done; unfold getTensorShape; by rewrite Hr1).
    destruct (Q2 i) as [Hb ->]; [by unfold getTensorShape; rewrite Hr2|]. rewrite Hsv in Hb |- *. unfold broadcast_index in *. cbn [zip_with] in *.
    rewrite Hx in *. cbn [default from_option id] in *. symmetry. rewrite (Hcv _ (if n =? 1 then 0 else x)); [|by rewrite Hsv|done].
    destruct (Z.eqb_spec n 1); [|done]. f_equal. lia.
Qed.
End Broadcast.
