(* ===== verification/SimplifySlices.v ===== *)
(** * Simplifying slices, updates, pads, sizes, empty tensors and operations with
    constant sizes *)
From S2P Require Import Prelude Types Support Index Element ElementFacts Tensor TensorFacts Samples Base TypeInference Ops OpsFacts OpsMoves OpsPermute OpsJoin OpsElementwise AttributeFacts Regions Scope Eval Folder FolderFacts FolderElementwise FolderMoves FolderJoin FolderEval Simplify SimplifyRules SimplifyFacts SimplifyElementwise SimplifyShapes SimplifyPermute SimplifyBroadcast.

Section Slices.
Context {L : LLVM} {Laws : LLVMLaws L} {C : CommonFolders} {CLaws : CommonFoldersLaws C}.
Context (program : Program) (scope : Scope) (Hdef : defined program scope).

(** ** [ConvertOp] *)
Lemma convert_same e : element_ok e -> discrete (getType e) -> convert (getType e) e = Ok e.
Proof.
  intros He Hd. destruct (discrete_cases e He Hd) as [(s & w & z & -> & Hi)|[b ->]]; [|by destruct b].
  cbn [getType int_el]. by rewrite convert_int, int_el_read.
Qed.

Lemma ConvertOp_RemoveNoop_preserves op attrs type rw : discrete (getElementType type) -> verified scope op attrs type ->
  ConvertOp_RemoveNoop op attrs type = Ok rw -> preserves scope op type rw.
Proof.
  intros Hd Hv H. unfold ConvertOp_RemoveNoop in H. repeat case_match; try discriminate H. subst. apply constrain_ok in H as [Ht [= <-]].
  destruct Hv as (Hty & _ & t & Hr & Hs). pose proof (TypesEqual_inv _ _ _ _ Ht Hr) as Htt.
  assert (forall a, element_ok a -> getType a = getTensorElementType t -> convert (getElementType type) a = Ok a) as Hc.
  { intros a Ha Hta. unfold getTensorElementType in Hta. rewrite Htt in Hta. rewrite <- Hta. apply convert_same; [done|by rewrite Hta]. }
  eapply preserves_value; [reflexivity|exact Hr|done|]. rewrite (register_find _ _ _ Hr). cbind.
  destruct (elementwise1_result type t (convert (getElementType type))) as (t' & Hres & Htt' & Hf & Hg); [done|by eapply register_full|done| |].
  { intros a Ha Hta. exists a. split; [by apply Hc|]. split; [done|]. unfold getTensorElementType in Hta. congruence. }
  exists t'. do 3 (split; [done|]). intros i Hi. rewrite Hg by done.
  destruct (full_get t i (register_full _ _ _ Hr)) as (a & -> & Ha & Hta); [by rewrite <- Hs|]. by apply Hc.
Qed.

(** ** [IotaOp] of one row *)
Lemma scalar_zero t v : isSupportedType t = true -> isSupportedComplexType t = false -> getScalarLike t 0 = Ok v ->
  convert_i64 t 0 = Ok (MkElement t v).
Proof.
  intros Ht Hc H. destruct (isSupportedType_cases t Ht) as [(s & w & -> & Hi)|[->|[(k & -> & Hk)|[->| ->]]]]; try done.
  - pose proof (scalar_like (IntegerType s w) 0 v) as E. rewrite E; [|left; by rewrite int_type_supported|done].
    rewrite const_int by done. by apply convert_i64_int.
  - rewrite (scalar_like i1 0 v) by (done || by right). unfold convert_i64. rewrite convert_apsint_bool. cbn [fst].
    rewrite isZero_spec, uval_apint by lia. done.
  - injection H as <-. unfold convert_i64. by rewrite convert_apsint_float.
Qed.

Lemma IotaOp_FoldScalarToZero_preserves op attrs type rw : isSupportedComplexType (getElementType type) = false -> verified scope op attrs type ->
  IotaOp_FoldScalarToZero op attrs type = Ok rw -> preserves scope op type rw.
Proof.
  intros Hc Hv H. unfold IotaOp_FoldScalarToZero in H. repeat case_match; try discriminate H. subst.
  destruct Hv as (Hty & _ & Hd). apply bind_ok in H as (n & Hn%at_z_ok & [->%Z.eqb_eq H]%constrain_ok). destruct Hn as [_ Hn].
  apply bind_ok in H as (v & Hv & [= <-]).
  assert (convert_i64 (getElementType type) 0 = Ok (MkElement (getElementType type) v)) as Hz by (apply scalar_zero; [by destruct Hty|done|done]).
  eapply preserves_results; [reflexivity|by apply iota_result| |].
  - unfold replace_op. erewrite eval_replace_op by reflexivity. apply splat_constant; [done|]. by apply convert_apsint_inv in Hz as [? _].
  - intros r r' Q1 Q2 Hr1 Hr2 i Hi. rewrite Q2 by done. destruct (in_bounds_lookup_Some _ _ _ _ Hi Hn) as (x & Hx & Hxn).
    rewrite (Q1 i x); [|by unfold getTensorShape; rewrite Hr1|done]. rewrite <- Hz. f_equal. lia.
Qed.

(** ** [GetDimensionSizeOp] *)
Lemma GetDimensionSizeOpCanon_preserves op attrs type rw : verified scope op attrs type ->
  GetDimensionSizeOpCanon op attrs type = Ok rw -> preserves scope op type rw.
Proof.
  intros Hv H. destruct op; try done. destruct Hv as (Hty & _ & t & Ht & -> & Hd). cbn [GetDimensionSizeOpCanon] in H.
  rewrite (register_type _ _ _ Ht) in H. cbn [mbind result_bind] in H. apply bind_ok in H as (n & Hn & H). apply bind_ok in H as ([] & _ & H).
  cbn [getElementType shaped] in H. injection H as <-.
  eapply preserves_results; [reflexivity| | |].
  - rewrite (register_find _ _ _ Ht). cbind. by apply (getDimensionSizeOp_spec t dimension n (register_full _ _ _ Ht)).
  - unfold replace_op. erewrite eval_replace_op by reflexivity. apply splat_constant; [done|]. by apply (int_el_ok Signless 32 n).
  - intros r r' Q1 Q2 _ _ i Hi. rewrite Q2 by done. apply Forall2_nil_inv_r in Hi as ->. exact Q1.
Qed.

(** ** [SliceOp] *)
Lemma slice_noop_index (lo hi st s x : Z) : 0 <= lo <= hi -> hi <= s -> 0 < st -> divideCeil (hi - lo) st = s -> 0 <= x < s -> lo + x * st = x.
Proof.
  unfold divideCeil. intros Hlo Hhi Hst He Hx. pose proof (Z.mul_div_le (hi - lo + st - 1) st Hst) as Hd. rewrite He in Hd.
  destruct (Z.eq_dec st 1) as [->|Hne]; [nia|]. assert (s = 1) by nia. subst s. nia.
Qed.

Lemma SliceOp_RemoveNoop_preserves op attrs type rw : verified scope op attrs type ->
  SliceOp_RemoveNoop op attrs type = Ok rw -> preserves scope op type rw.
Proof.
  intros Hv H. unfold SliceOp_RemoveNoop in H. repeat case_match; try discriminate H. subst. apply constrain_ok in H as [[_ He]%andb_prop [= <-]].
  destruct Hv as (Hty & _ & t & Ht & Hstr & Hlim & Hinf). pose proof (TypesEqual_inv _ _ _ _ He Ht) as Htt.
  eapply preserves_unmoved; [reflexivity|exact Ht|done| |].
  - rewrite (register_find _ _ _ Ht). cbind. by apply (sliceOp_spec t _ _ _ _ (register_full _ _ _ Ht) Hstr Hinf).
  - intros i Hi. f_equal. apply inferSliceOp_inv in Hinf as (Hls & _ & _ & Hd); [|by apply full_shape_ok, (register_full scope operand)].
    fold (getTensorShape t) in *. assert (getTensorShape t = getShape type) as Hs by (unfold getTensorShape; by rewrite Htt). rewrite Hs in *.
    pose proof (in_bounds_length _ _ Hi) as Hl. apply list_eq_same_length with (length i); [done|unfold slice_index; rewrite !length_zip_with; lia|].
    intros d a x Hdl Ha Hx. destruct (Hd d ltac:(lia)) as (lo & hi & st & s & E1 & E2 & E3 & E4 & ? & ? & ? & E5).
    unfold slice_index in Ha. apply lookup_zip_with_Some in Ha as (lo' & z & -> & H1' & Hz).
    apply lookup_zip_with_Some in Hz as (x' & st' & -> & H2' & H3'). rewrite E4 in E5. simplify_eq.
    eapply (slice_noop_index _ hi); [done|eassumption|done|done|]. by eapply in_bounds_lookup.
Qed.

(** ** [DynamicUpdateSliceOp] *)
Lemma update_operands operand update startIndices attrs type : verified scope (DynamicUpdateSliceOp operand update startIndices) attrs type ->
  exists t u starts, register scope operand t /\ register scope update u /\ getTensorType t = type /\
    length starts = length (getTensorShape t) /\
    result_is type (operand ← findTensor scope operand; update ← findTensor scope update; startIndices ← findTensors scope startIndices;
      dynamicUpdateSliceOp operand update startIndices type) (updated_at t u (clamped_start starts (getTensorShape t) (getTensorShape u))).
Proof.
  intros (Hty & _ & t & u & ts & Ht & Hu & He & Hts & Hidx & Hinf).
  destruct (dynamicUpdateSliceOp_spec t u ts type (register_full _ _ _ Ht) (register_full _ _ _ Hu) He Hidx Hinf) as (starts & _ & Hl & _ & E & Hres).
  exists t, u, starts. do 4 (split; [done|]). rewrite (register_find _ _ _ Ht), (register_find _ _ _ Hu). cbind.
  rewrite (registers_find _ _ _ Hts). by cbind.
Qed.

Lemma DynamicUpdateSliceOp_RemoveNoop_preserves op attrs type rw : verified scope op attrs type ->
  DynamicUpdateSliceOp_RemoveNoop program op attrs type = Ok rw -> preserves scope op type rw.
Proof.
  intros Hv H. unfold DynamicUpdateSliceOp_RemoveNoop in H. repeat case_match; try discriminate H. subst.
  apply constrain_ok in H as [(a & Ha & Hz)%constant_with_inv [= <-]].
  destruct (update_operands _ _ _ _ _ Hv) as (t & u & starts & Ht & Hu & Htt & _ & r & Hr & Hrt & Hrf & Hg).
  destruct (constant_register _ _ _ _ Hdef Ha) as (u' & Hu' & Hrep). pose proof (register_fun _ _ _ _ Hu Hu') as <-.
  eapply preserves_value; [reflexivity|exact Ht|done|]. exists r. do 3 (split; [done|]). intros i Hi.
  rewrite Hg by (unfold getTensorShape; by rewrite Htt). destruct (inBounds _ (getTensorShape u)) eqn:Hb; [|done].
  apply inBounds_spec, in_bounds_prod_pos in Hb. rewrite (represents_shape _ _ Hrep) in Hb. unfold getNumElements in Hz. lia.
Qed.

Lemma clamped_start_whole starts shape : Forall (fun d => 0 <= d) shape -> length starts = length shape ->
  clamped_start starts shape shape = replicate (length shape) 0.
Proof.
  unfold clamped_start. intros H. revert starts. induction H as [|d shape Hd H IH]; intros [|a starts] Hl; try done.
  cbn [zip_with length replicate]. rewrite IH by (cbn in Hl; lia). f_equal. lia.
Qed.

Lemma zip_with_sub_zeros (i : Index) n : n = length i -> zip_with Z.sub i (replicate n 0) = i.
Proof. intros ->. induction i as [|x i IH]; [done|]. cbn [length replicate zip_with]. rewrite IH. f_equal. lia. Qed.

Lemma DynamicUpdateSliceOp_FoldToUpdateOperand_preserves op attrs type rw : verified scope op attrs type ->
  DynamicUpdateSliceOp_FoldToUpdateOperand program op attrs type = Ok rw -> preserves scope op type rw.
Proof.
  intros Hv H. unfold DynamicUpdateSliceOp_FoldToUpdateOperand in H. repeat case_match; try discriminate H. subst.
  apply constrain_ok in H as [[[_ He%bool_decide_eq_true]%andb_prop _]%andb_prop [= <-]].
  destruct (update_operands _ _ _ _ _ Hv) as (t & u & starts & Ht & Hu & Htt & Hl & r & Hr & Hrt & Hrf & Hg).
  assert (getTensorType u = getTensorType t) as Hut.
  { destruct Ht as (_ & E & _), Hu as (_ & E' & _). rewrite E, E' in He. destruct (getTensorType t), (getTensorType u). by injection He as <- <- <-. }
  eapply preserves_value; [reflexivity|exact Hu|congruence|]. exists r. do 3 (split; [done|]). intros i Hi.
  assert (getTensorShape u = getTensorShape t) as Hs by (unfold getTensorShape; by rewrite Hut).
  assert (in_bounds i (getTensorShape t)) as Hi' by (unfold getTensorShape; by rewrite Htt).
  rewrite Hg, Hs by done. rewrite clamped_start_whole, zip_with_sub_zeros;
    [|by rewrite (in_bounds_length _ _ Hi')|by apply shape_ok_nonneg, full_shape_ok, (register_full scope operand)|done].
  apply inBounds_spec in Hi'. by rewrite Hi'.
Qed.
End Slices.

(** ** Pads, empty tensors and operations with constant sizes *)
(** A loop that collects. *)
Lemma foldM_collect {A B} (g : A -> result B) l acc :
  foldM (fun i acc => x ← g i; Ok (acc ++ [x])) l acc = (k ← mapM g l; Ok (acc ++ k)).
Proof.
  revert acc. induction l as [|a l IH]; intros acc; cbn [foldM mapM]; [cbind; by rewrite app_nil_r|].
  destruct (g a) as [x|]; cbind; [|done]. rewrite IH. destruct (mapM g l); cbind; [|done]. by rewrite <- app_assoc.
Qed.

Lemma mapM_pointwise {A A' B} (f : A -> result B) (g : A' -> result B) l l' r :
  Forall2 (fun x y => forall z, f x = Ok z -> g y = Ok z) l l' -> mapM f l = Ok r -> mapM g l' = Ok r.
Proof.
  intros H. revert r. induction H as [|x y l l' Hxy H IH]; intros r Hr; [done|]. cbn [mapM] in *.
  apply bind_ok in Hr as (z & Hz & Hr). apply bind_ok in Hr as (k & Hk & Hr). rewrite (Hxy z Hz). cbind. by rewrite (IH k Hk).
Qed.

Lemma length_enumerate {A} (l : list A) : length (enumerate l) = length l.
Proof. unfold enumerate. rewrite length_zip_with, length_seqZ. lia. Qed.

Lemma enumerate_at {A} (l : list A) (d : nat) k x : enumerate l !! d = Some (k, x) -> k = Z.of_nat d /\ l !! d = Some x.
Proof.
  unfold enumerate. intros (k' & x' & [= -> ->] & Hk & Hx)%lookup_zip_with_Some. split; [|done].
  pose proof (lookup_lt_Some _ _ _ Hx). rewrite lookup_seqZ_lt in Hk by lia. injection Hk as <-. lia.
Qed.

Lemma or_fatal_ok {A} msg (m : result A) x : or_fatal msg m = Ok x -> m = Ok x.
Proof. unfold or_fatal. by destruct m as [|[]]. Qed.

Section Pads.
Context {L : LLVM} {Laws : LLVMLaws L} {C : CommonFolders} {CLaws : CommonFoldersLaws C}.
Context (program : Program) (scope : Scope) (Hdef : defined program scope).

(** ** [PadOp] *)
Lemma pad_operands operand paddingValue low interior attrs type : verified scope (PadOp operand paddingValue low interior) attrs type ->
  exists t p, register scope operand t /\ register scope paddingValue p /\ getTensorShape p = [] /\
    getTensorElementType p = getTensorElementType t /\ getElementType type = getTensorElementType t /\
    length low = length (getTensorShape t) /\ length interior = length (getTensorShape t) /\
    result_is type (operand ← findTensor scope operand; paddingValue ← findTensor scope paddingValue;
      padOp operand paddingValue low interior type) (padded t p low interior).
Proof.
  intros (Hty & _ & t & p & Ht & Hp & Hps & Hpe & Hinf & Hl & Hf). exists t, p. do 4 (split; [done|]).
  apply inferPadOp_inv in Hinf as (Hlow & He & _); [|by apply full_shape_ok, (register_full scope operand)].
  do 3 (split; [done|]). rewrite (register_find _ _ _ Ht), (register_find _ _ _ Hp). cbind.
  by apply padOp_spec; [eapply register_full|eapply register_full|..].
Qed.

Lemma all_zero_replicate l : all_zero l = true -> l = replicate (length l) 0.
Proof.
  unfold all_zero. induction l as [|x l IH]; [done|]. cbn [forallb length replicate]. intros [Hx H]%andb_prop. f_equal; [lia|by apply IH].
Qed.

Lemma pad_index_zeros i n : n = length i -> pad_index (replicate n 0) (replicate n 0) i = i.
Proof.
  intros ->. unfold pad_index. induction i as [|x i IH]; [done|]. cbn [length replicate fmap list_fmap zip_with] in *. rewrite IH. f_equal. lia.
Qed.

Lemma PadOp_RemoveNoop_preserves op attrs type rw : verified scope op attrs type ->
  PadOp_RemoveNoop op attrs type = Ok rw -> preserves scope op type rw.
Proof.
  intros Hv H. unfold PadOp_RemoveNoop in H. repeat case_match; try discriminate H. subst.
  apply constrain_ok in H as [[[[Hlo _]%andb_prop Hin]%andb_prop He]%andb_prop [= <-]].
  destruct (pad_operands _ _ _ _ _ _ Hv) as (t & p & Ht & _ & _ & _ & _ & Hl & Hl' & r & Hr & Hrt & Hrf & Hg & _).
  pose proof (TypesEqual_inv _ _ _ _ He Ht) as Htt. eapply preserves_value; [reflexivity|exact Ht|done|].
  exists r. do 3 (split; [done|]). intros i Hi. apply all_zero_replicate in Hlo, Hin.
  assert (in_bounds i (getTensorShape t)) as Hit by (unfold getTensorShape; by rewrite Htt).
  rewrite Hlo, Hin, Hl, Hl' in Hg. rewrite <- (Hg i Hit); rewrite pad_index_zeros by (by rewrite (in_bounds_length _ _ Hit)); [done|].
  by unfold getTensorShape; rewrite Hrt.
Qed.

Lemma PadOpBroadcastEmptyTensor_preserves op attrs type rw : verified scope op attrs type ->
  PadOpBroadcastEmptyTensor op attrs type = Ok rw -> preserves scope op type rw.
Proof.
  intros Hv H. destruct op; try done. destruct (pad_operands _ _ _ _ _ _ Hv) as (t & p & Ht & Hp & Hps & Hpe & He & Hl & Hl' & Hres).
  pose proof Hv as (Hty & _). cbn [PadOpBroadcastEmptyTensor] in H. rewrite (register_type _ _ _ Ht) in H. cbn [mbind result_bind] in H.
  apply bind_ok in H as ([] & _ & H). apply bind_ok in H as ([] & Hz%ensure_ok & H). apply bind_ok in H as ([] & _ & [= <-]).
  eapply preserves_results; [reflexivity|exact Hres| |].
  - unfold replace_op. erewrite eval_replace_op by reflexivity. rewrite (register_find _ _ _ Hp). cbind.
    apply broadcastInDimOp_fits; [by eapply register_full|done|congruence|]. rewrite Hps. by split.
  - intros r r' [_ Q1] Q2 Hr1 Hr2 i Hi. rewrite Q1.
    + destruct (Q2 i) as [_ ->]; [by unfold getTensorShape; rewrite Hr2|]. by rewrite Hps.
    + by unfold getTensorShape; rewrite Hr1.
    + intros j Hj%in_bounds_prod_pos. unfold getNumElements in Hz. fold (getTensorShape t) in Hz. lia.
Qed.

(** ** Constant sizes *)
Lemma constant_sizes v l t : int_constant program v = Ok l -> register scope v t -> sizes_tensor t -> makeSizes t = Ok l.
Proof.
  intros H Ht [Hrank Hel]. apply bind_ok in H as (a & Ha & Hl). apply bind_ok in Ha as (a' & Ha & Hi).
  apply bind_ok in Hi as ([] & _ & [= ->]).
  destruct (constant_register _ _ _ _ Hdef Ha) as (t' & Ht' & Hrep). pose proof (register_fun _ _ _ _ Ht Ht') as <-.
  destruct (supported_integer_inv _ Hel) as (s & w & Et & _). rewrite Et, int_type_supported in Hel.
  unfold makeSizes. rewrite Hrank, Et. cbn [Z.eqb Pos.eqb negb orb isa_IntegerType].
  rewrite for_index_foldM by (by eapply full_shape_ok, register_full). destruct Hrep as (Hf & Hat & Hlen & Hg).
  assert (forall l, foldM (fun i values => e ← get t i; v0 ← getIntegerValue e; Ok (values ++ [getSExtValue v0])) l [] =
    mapM (fun i => e ← get t i; v0 ← getIntegerValue e; Ok (getSExtValue v0)) l) as ->.
  { intros idx. transitivity (foldM (fun i acc => x ← (e ← get t i; v0 ← getIntegerValue e; Ok (getSExtValue v0)); Ok (acc ++ [x])) idx []).
    - apply foldM_ext. intros i acc _. destruct (get t i) as [e|]; cbind; [|done]. by destruct (getIntegerValue e); cbind.
    - rewrite foldM_collect. destruct (mapM _ idx); by cbind. }
  eapply mapM_pointwise; [|exact Hl]. unfold getTensorShape. rewrite Hat.
  assert (shape_ok (getShape (attr_type a))) as Hs by (rewrite <- Hat; by apply full_shape_ok).
  apply Forall2_same_length_lookup_2; [rewrite length_indices by auto with hlo; lia|].
  intros k v' i Hk Hi z Hz. apply indices_lookup_flat in Hi as [Hi Hfl]; [|by auto with hlo].
  pose proof (Hg i v' Hi) as E. rewrite Hfl, Nat2Z.id in E. specialize (E Hk). rewrite E. cbind.
  assert (element_ok (MkElement (getElementType (attr_type a)) v')) as Hok.
  { destruct (full_get t i Hf) as (e & Ee & He & _); [by unfold getTensorShape; rewrite Hat|]. congruence. }
  unfold getTensorElementType in Et. rewrite Hat in Et. rewrite Et in *.
  destruct (int_element (IntegerType s w) s w v' eq_refl Hel Hok) as (x & -> & _). rewrite getIntegerValue_ok by done. cbind.
  cbn [attr_apint] in Hz. done.
Qed.

(** ** [DynamicPadOp] *)
Lemma DynamicPadOp_ReplaceWithPad_preserves op attrs type rw : verified scope op attrs type ->
  DynamicPadOp_ReplaceWithPad program op attrs type = Ok rw -> preserves scope op type rw.
Proof.
  intros Hv H. unfold DynamicPadOp_ReplaceWithPad in H. destruct op; try done.
  apply bind_ok in H as (low & Hlow & H). apply bind_ok in H as (high & Hhigh & H). apply bind_ok in H as (interior & Hint & [= <-]).
  destruct Hv as (Hty & Henc & t & p & l & h & i & Ht & Hp & Hps & Hpe & Hl & Hh & Hi & Sl & Sh & Si & Hinf).
  pose proof (constant_sizes _ _ _ Hlow Hl Sl) as El. pose proof (constant_sizes _ _ _ Hhigh Hh Sh) as Eh. pose proof (constant_sizes _ _ _ Hint Hi Si) as Ei.
  destruct (Hinf _ _ _ El Eh Ei) as (Htype & Hlen & Hfit).
  destruct (pad_operands operand paddingValue low interior (MkOpAttrs None [] high) type) as (t' & p' & Ht' & _ & _ & _ & _ & _ & _ & Hres).
  { split; [done|]. split; [done|]. by exists t, p. }
  rewrite (register_find _ _ _ Ht), (register_find _ _ _ Hp) in Hres. cbn [mbind result_bind] in Hres.
  eapply preserves_op; [reflexivity|reflexivity| |].
  - rewrite (register_find _ _ _ Ht), (register_find _ _ _ Hp), (register_find _ _ _ Hl), (register_find _ _ _ Hh), (register_find _ _ _ Hi). cbind.
    rewrite El, Eh, Ei. cbind. unfold inferredPadOp. by rewrite Htype.
  - rewrite (register_find _ _ _ Ht), (register_find _ _ _ Hp), (register_find _ _ _ Hl), (register_find _ _ _ Hh), (register_find _ _ _ Hi). cbind.
    rewrite El, Eh, Ei. cbind. unfold inferredPadOp. rewrite Htype. exact Hres.
Qed.

(** ** Operations that the interpreter runs *)

(** The interpreter returns a tensor of the operation's type. *)
Definition returns (op : Op) (type : ShapedType) : Prop :=
  exists f, eval_tensor_op scope op = Some f /\ result_is type (f type) (fun _ => True).

Lemma DynamicGatherOp_ReplaceWithGather_preserves op attrs type rw : returns op type -> verified scope op attrs type ->
  DynamicGatherOp_ReplaceWithGather program op attrs type = Ok rw -> preserves scope op type rw.
Proof.
  intros (f & Hf & Hres) Hv H. unfold DynamicGatherOp_ReplaceWithGather in H. destruct op; try done.
  apply bind_ok in H as (sizes & Hsz & [= <-]). destruct Hv as (_ & _ & t & i & s & Ht & Hi & Hs & Hst).
  pose proof (constant_sizes _ _ _ Hsz Hs Hst) as E. eapply preserves_op; [exact Hf|reflexivity| |exact Hres].
  injection Hf as <-. rewrite (register_find _ _ _ Ht), (register_find _ _ _ Hi), (register_find _ _ _ Hs). cbind. by rewrite E.
Qed.

Lemma ZeroExtentToEmptyConstant_inv op attrs type rw : ZeroExtentToEmptyConstant program op attrs type = Ok rw ->
  rw = replace_op (ConstantOp (MkAttr type [])) type /\ getNumElements type = 0.
Proof.
  intros H. unfold ZeroExtentToEmptyConstant in H. destruct op; try done; unfold getMaybeZeroExtentType in H;
    replace (dyn_cast_shaped (shaped_type type)) with (Some type) in H by (by destruct type);
    (destruct (hasStaticShape type && (getNumElements type =? 0)) eqn:E; [|done]);
    apply bind_ok in H as ([] & _ & [= <-]); (split; [done|]); apply andb_prop in E as [_ E]; lia.
Qed.

Lemma ZeroExtentToEmptyConstant_preserves op attrs type rw : returns op type ->
  ZeroExtentToEmptyConstant program op attrs type = Ok rw -> preserves scope op type rw.
Proof.
  intros (f & Hf & Hres) [-> Hz]%ZeroExtentToEmptyConstant_inv. unfold getNumElements in Hz. assert (shaped_ok type) as Hty by (destruct Hres as (t & _ & <- & Ht & _); by apply full_shaped).
  destruct (constant_represents (MkAttr type [])) as (t & Ht & Hrep); [split; [done|]; split; [done|constructor]|].
  eapply preserves_results; [exact Hf|exact Hres| |].
  - unfold replace_op. erewrite eval_replace_op by reflexivity. destruct Hrep as (Hft & Htt & _). exists t. do 3 (split; [done|]). exact I.
  - intros r r' _ _ _ _ i Hi%in_bounds_prod_pos. lia.
Qed.

(** ** [DynamicSliceOp] *)
Lemma constant_index v t n : m_ConstantInt program v = Ok n -> register scope v t -> scalar_index t ->
  (e ← get t []; v ← getIntegerValue e; Ok (getSExtValue v)) = Ok (getSExtValue n).
Proof.
  intros H Ht (Hf & Hs & s & w & Et & Hi). apply bind_ok in H as (a & Ha & H). apply bind_ok in Ha as (a' & Ha & Hb).
  apply bind_ok in Hb as ([] & _ & [= ->]). destruct (getSplatValue a) as [x|] eqn:Hx; [|done].
  destruct (constant_register _ _ _ _ Hdef Ha) as (t' & Ht' & Hrep). pose proof (register_fun _ _ _ _ Ht Ht') as <-.
  destruct (splat_get a t x [] Hrep Hx) as [-> Hok]; [rewrite Hs; constructor|]. cbind. rewrite Et in *.
  destruct (int_element _ _ _ _ eq_refl Hi Hok) as (z & -> & _). rewrite getIntegerValue_ok by done. cbind.
  cbn [attr_apint] in H. by injection H as ->.
Qed.

Lemma std_clamp_ok v room : 0 <= room -> std_clamp v 0 room = Ok (Z.min (Z.max v 0) room).
Proof.
  intros H. unfold std_clamp. destruct (Z.ltb_spec room 0); [lia|]. f_equal.
  destruct (Z.ltb_spec v 0); [lia|]. destruct (Z.ltb_spec room v); lia.
Qed.

Lemma constant_starts_clamped shape sizes vs ts starts start : shape_ok shape -> length ts = length shape ->
  Forall2 (fun z d => 0 <= z <= d) sizes shape -> Forall2 (register scope) vs ts -> Forall scalar_index ts ->
  evalIndexScalars ts = Ok starts -> constant_starts program shape sizes vs = Ok start -> start = clamped_start starts shape sizes.
Proof.
  intros Hs Hl Hz Hr Hx He Hc. unfold constant_starts in Hc. apply mapM_inv in Hc, He. pose proof (Forall2_length _ _ _ Hz) as Hzl.
  pose proof (Forall2_length _ _ _ Hr) as Hrl. pose proof (Forall2_length _ _ _ He) as Hel. pose proof (Forall2_length _ _ _ Hc) as Hcl.
  rewrite length_enumerate in Hcl. apply list_eq_same_length with (length shape); [by rewrite length_clamped_start by lia|lia|].
  intros d x y Hd Hx' Hy. destruct (Forall2_lookup_r _ _ _ _ _ Hc Hx') as ([k v] & Hkv & E). apply enumerate_at in Hkv as [-> Hv].
  destruct (Forall2_lookup_l _ _ _ _ _ Hr Hv) as (t & Ht & Hreg). destruct (Forall2_lookup_l _ _ _ _ _ He Ht) as (st & Hst & Est).
  eapply Forall_lookup_1 in Hx; [|exact Ht]. apply bind_ok in E as (n & Hn & E). rewrite (constant_index _ _ _ Hn Hreg Hx) in Est. injection Est as <-.
  unfold constant_start in E. apply bind_ok in E as (s & Hsd%at_z_inv & E). apply bind_ok in E as (z & Hzd%at_z_inv & E).
  apply bind_ok in E as (room & [-> _]%i64_inv & E). destruct (Forall2_lookup_lr _ _ _ _ _ _ Hz Hzd Hsd).
  rewrite std_clamp_ok in E by lia. injection E as <-. unfold clamped_start in Hy. apply lookup_zip_with_Some in Hy as (st & r & -> & Hst' & Hr').
  apply lookup_zip_with_Some in Hr' as (s' & z' & -> & Hs' & Hz'). congruence.
Qed.

Lemma add_sizes_zip start sizes limit : add_sizes start sizes = Ok limit -> limit = zip_with Z.add start sizes.
Proof.
  unfold add_sizes. intros H%mapM_inv. revert sizes limit H. induction start as [|a start IH]; intros [|z sizes] limit H; inversion H; subst; try done.
  apply i64_inv in H2 as [-> _]. cbn [zip_with]. f_equal. by apply IH.
Qed.

Lemma slice_index_ones start i : length start = length i -> slice_index start (replicate (length start) 1) i = zip_with Z.add start i.
Proof.
  unfold slice_index. revert i. induction start as [|a start IH]; intros [|x i] H; try done. cbn [length replicate zip_with].
  rewrite IH by (cbn in H; lia). f_equal. lia.
Qed.

Lemma inferSliceOp_encoding t start limit strides type : inferSliceOp t start limit strides = Ok type -> getEncoding t = None -> getEncoding type = None.
Proof.
  unfold inferSliceOp. intros H He. rewrite He in H. cbn [encodingToBounds length replicate boundsToEncoding] in H.
  apply bind_ok in H as ([] & _ & H). apply bind_ok in H as (s & _ & H). apply bind_ok in H as (enc & Henc & [= <-]). by injection Henc as <-.
Qed.

Lemma DynamicSliceOpToSlice_preserves op attrs type rw : verified scope op attrs type ->
  DynamicSliceOpToSlice program op attrs type = Ok rw -> preserves scope op type rw.
Proof.
  intros Hv H. destruct op; try done. cbn [DynamicSliceOpToSlice] in H. destruct Hv as (Hty & _ & t & ts & Ht & Hts & Hidx & Hinf).
  destruct (dynamicSliceOp_spec t ts sliceSizes type (register_full _ _ _ Ht) Hidx Hinf) as (starts & Hst & Hres).
  rewrite (register_type _ _ _ Ht) in H. cbn [mbind result_bind] in H. apply bind_ok in H as ([] & _ & H). fold (getTensorShape t) in H.
  pose proof (full_shape_ok _ (register_full _ _ _ Ht)) as Hs. apply inferDynamicSliceOp_inv in Hinf as (-> & Hl & Hz); [|done].
  rewrite length_fmap in Hl. fold (getTensorShape t) in Hl, Hz. pose proof (Forall2_length _ _ _ Hz) as Hzl.
  apply bind_ok in H as (start & Hstart & H). apply bind_ok in H as (limit & ->%add_sizes_zip & H). apply bind_ok in H as (slice & Hslice & [= <-]).
  pose proof (constant_starts_clamped _ _ _ _ _ _ Hs Hl Hz Hts Hidx Hst Hstart) as ->.
  destruct (evalIndexScalars_ok ts Hidx) as (starts' & Hst' & Hsl). rewrite Hst in Hst'. injection Hst' as <-.
  set (start := clamped_start starts (getTensorShape t) sliceSizes) in *.
  assert (length start = length (getTensorShape t)) as Hlen by (apply length_clamped_start; lia).
  apply bind_ok in Hslice as (sty & Hsty & [= <-]). apply or_fatal_ok in Hsty.
  pose proof (sliceOp_spec t start _ (replicate (length (getTensorShape t)) 1) sty (register_full _ _ _ Ht) ltac:(by rewrite length_replicate) Hsty) as Hnew.
  assert (sty = MkShaped sliceSizes (getElementType (getTensorType t)) None) as ->.
  { pose proof (inferSliceOp_encoding _ _ _ _ _ Hsty (register_encoding _ _ _ Ht)) as Henc.
    apply inferSliceOp_inv in Hsty as (_ & He & Hls & Hd); [|done]. fold (getTensorShape t) in *.
    apply shaped_ext; [|done|done|done]. cbn [getShape]. apply list_eq_same_length with (length (getTensorShape t)); [lia|done|].
    intros d x z Hdl Hx Hzd. destruct (Hd d Hdl) as (lo & hi & st & s & E1 & E2 & E3 & E4 & ? & ? & ? & E5).
    apply lookup_replicate in E3 as [-> _]. apply lookup_zip_with_Some in E2 as (lo' & z' & -> & E1' & Hz'). simplify_eq.
    unfold divideCeil. rewrite Z.div_1_r. lia. }
  eapply preserves_results; [reflexivity| | |].
  - rewrite (register_find _ _ _ Ht), (registers_find _ _ _ Hts). cbind. exact Hres.
  - erewrite eval_replace_op by reflexivity. rewrite (register_find _ _ _ Ht). cbind. exact Hnew.
  - intros r r' Q1 Q2 Hr1 Hr2 i Hi. destruct (Q1 i) as [_ ->]; [by unfold getTensorShape; rewrite Hr1|].
    destruct (Q2 i) as [_ ->]; [by unfold getTensorShape; rewrite Hr2|]. rewrite <- Hlen, slice_index_ones; [done|].
    rewrite Hlen, <- Hzl. symmetry. by apply in_bounds_length.
Qed.
End Pads.
