(* ===== verification/SimplifyJoin.v ===== *)
(** * Simplifying concatenations and slices of them

    Last, [SliceOpConcatSimplify] of [Simplify.v], which keeps the operands of a
    concatenation that a slice of it reads. *)
From S2P Require Import Prelude Types Support Index Element ElementFacts Tensor TensorFacts Samples Base TypeInference Ops OpsFacts OpsMoves OpsPermute OpsJoin OpsElementwise AttributeFacts Regions Scope Eval Folder FolderFacts FolderElementwise FolderMoves FolderJoin FolderEval Simplify SimplifyRules SimplifyFacts SimplifyElementwise SimplifyPermute SimplifySlices.

(** ** Elements of a concatenation *)
Section ConcatAt.
Context {L : LLVM} {Laws : LLVMLaws L}.

Lemma total_app k ts us : total k (ts ++ us) = total k ts + total k us.
Proof. unfold total. induction ts as [|t ts IH]; [done|]. cbn [app foldr]. rewrite IH. lia. Qed.

Lemma concat_at_app ts us k i x : Forall tensor_full ts -> 0 <= x ->
  concat_at (ts ++ us) k i x = if x <? total k ts then concat_at ts k i x else concat_at us k i (x - total k ts).
Proof.
  intros Hf. revert x. induction Hf as [|t ts Ht Hf IH]; intros x Hx; cbn [app concat_at total foldr].
  - rewrite (proj2 (Z.ltb_ge x 0)) by lia. f_equal. lia.
  - fold (total k ts). pose proof (total_nonneg k ts Hf) as Hn. set (s := default 0 (getTensorShape t !! k)).
    destruct (Z.ltb_spec x s); [by rewrite (proj2 (Z.ltb_lt x _)) by lia|]. rewrite IH by lia.
    destruct (Z.ltb_spec (x - s) (total k ts)), (Z.ltb_spec x (s + total k ts)); try lia; [done|]. f_equal. lia.
Qed.

Lemma concat_at_insert ts k i x y : concat_at ts k (<[k := y]> i) x = concat_at ts k i x.
Proof.
  revert x. induction ts as [|t ts IH]; intros x; [done|]. cbn [concat_at]. rewrite list_insert_insert_eq. by rewrite IH.
Qed.

(** [t] is the concatenation of tensors along a dimension. *)
Definition joined (k : nat) (ts : list Tensor) (t : Tensor) : Prop :=
  forall i x, in_bounds i (getTensorShape t) -> i !! k = Some x -> get t i = concat_at ts k i x.

Lemma dimension_size k rs t : joins k rs t -> (k < length rs)%nat -> getTensorShape t !! k = Some (default 0 (getTensorShape t !! k)).
Proof. intros [Hl _] Hk. apply lookup_some_z. lia. Qed.

Lemma joins_trans k rs t u : joins k rs t -> joins k (getTensorShape t) u -> joins k rs u.
Proof. intros [Hl Hd] [Hl' Hd']. split; [congruence|]. intros d Hne. by rewrite Hd', Hd. Qed.

Lemma joins_same k rs rs' t : joins k rs t -> joins k rs' t -> length rs = length rs' /\ forall d : nat, d <> k -> rs !! d = rs' !! d.
Proof. intros [Hl Hd] [Hl' Hd']. split; [congruence|]. intros d Hne. by rewrite <- Hd, Hd'. Qed.
End ConcatAt.

Section Join.
Context {L : LLVM} {Laws : LLVMLaws L} {C : CommonFolders} {CLaws : CommonFoldersLaws C}.
Context (program : Program) (scope : Scope) (Hdef : defined program scope).

(** The operands of a concatenation of a type. *)
Definition concat_operands (k : nat) (type : ShapedType) (vs : list Value) (ts : list Tensor) : Prop :=
  Forall2 (register scope) vs ts /\ Forall tensor_full ts /\ Forall (fun t => getTensorElementType t = getElementType type) ts /\
  Forall (joins k (getShape type)) ts /\ getShape type !! k = Some (total k ts).

Lemma registers_full vs ts : Forall2 (register scope) vs ts -> Forall tensor_full ts.
Proof. induction 1; constructor; [by eapply register_full|done]. Qed.

Lemma concat_operands_result k type vs ts : shaped_ok type -> concat_operands k type vs ts ->
  result_is type (inputs ← findTensors scope vs; concatenateOp inputs (Z.of_nat k) type) (joined k ts).
Proof.
  intros Hty (Hr & Hf & He & Hj & Hk). rewrite (registers_find _ _ _ Hr). cbind.
  destruct (concatenateOp_spec k ts type Hf He Hj Hk Hty) as (t & Ht & Htt & Hft & Hg). exists t. do 3 (split; [done|]).
  intros i x Hi Hx. apply Hg; [|done]. unfold getTensorShape in Hi. by rewrite Htt in Hi.
Qed.

Lemma concat_verified inputs dimension attrs type : verified scope (ConcatenateOp inputs dimension) attrs type ->
  exists (k : nat) ts, dimension = Z.of_nat k /\ concat_operands k type inputs ts.
Proof.
  intros (Hty & _ & ts & Hr & He & Hinf). pose proof (registers_full _ _ Hr) as Hf.
  apply inferConcatenateOp_inv in Hinf as (k & input & rest & -> & _ & _ & Hj & Hk); [|done]. by exists k, ts.
Qed.

(** The register of a concatenation. *)
Lemma concat_register v inputs dimension t : defining_op program v = Some (ConcatenateOp inputs dimension) -> register scope v t ->
  exists (k : nat) ts, dimension = Z.of_nat k /\ concat_operands k (getTensorType t) inputs ts /\ joined k ts t.
Proof.
  intros Hv Ht. destruct (inner _ _ _ _ _ _ Hdef Hv Ht eq_refl) as (Hres & attrs & Hver).
  destruct (concat_verified _ _ _ _ Hver) as (k & ts & -> & Hc). exists k, ts. do 2 (split; [done|]).
  pose proof (concat_operands_result k _ _ _ (full_shaped _ (register_full _ _ _ Ht)) Hc) as R.
  by apply (result_known _ _ _ _ R) in Hres as [Hj _].
Qed.

(** A concatenation replaced by one of other operands. *)
Lemma concat_replaced k type vs ts vs' ts' attrs : shaped_ok type -> concat_operands k type vs ts -> concat_operands k type vs' ts' ->
  (forall i x, in_bounds i (getShape type) -> 0 <= x < total k ts -> concat_at ts k i x = concat_at ts' k i x) ->
  preserves scope (ConcatenateOp vs (Z.of_nat k)) type (MkRewrite [] (ReplaceWithOp (ConcatenateOp vs' (Z.of_nat k)) attrs type)).
Proof.
  intros Hty Hc Hc' He. eapply preserves_results; [reflexivity|by apply (concat_operands_result k type vs ts)| |].
  - erewrite eval_replace_op by reflexivity. by apply (concat_operands_result k type vs' ts').
  - intros r r' Q1 Q2 Hr1 Hr2 i Hi. destruct Hc as (_ & _ & _ & _ & Hk). destruct (in_bounds_lookup_Some _ _ _ _ Hi Hk) as (x & Hx & Hxb).
    rewrite (Q1 i x), (Q2 i x) by (try done; unfold getTensorShape; by rewrite ?Hr1, ?Hr2). by apply He.
Qed.

(** ** [ConcatenateOp] *)
Lemma ConcatenateOpNoop_preserves op attrs type rw : verified scope op attrs type ->
  ConcatenateOpNoop op attrs type = Ok rw -> preserves scope op type rw.
Proof.
  intros Hv H. destruct op; try done. cbn [ConcatenateOpNoop] in H. destruct inputs as [|v [|]]; try done.
  apply bind_ok in H as ([] & Heq%ensure_ok & [= <-]). pose proof Hv as (Hty & _). destruct (concat_verified _ _ _ _ Hv) as (k & ts & -> & Hc).
  pose proof (concat_operands_result k type _ _ Hty Hc) as (r & Hr & Hrt & Hrf & Hg). destruct Hc as (Hreg & _ & _ & _ & Hk).
  apply Forall2_cons_inv_l in Hreg as (t & ? & Ht & ->%Forall2_nil_inv_l & ->). pose proof (TypesEqual_inv _ _ _ _ Heq Ht) as Htt.
  eapply preserves_value; [reflexivity|exact Ht|done|]. exists r. do 3 (split; [done|]). intros i Hi.
  destruct (in_bounds_lookup_Some _ _ _ _ Hi Hk) as (x & Hx & Hxb). rewrite (Hg i x) by (try done; unfold getTensorShape; by rewrite Hrt).
  cbn [concat_at total foldr] in *. rewrite Z.add_0_r in Hxb. rewrite (proj2 (Z.ltb_lt x _)) by lia. by rewrite list_insert_id.
Qed.

Lemma nonempty_operands_spec k vs ts : forall vs', Forall2 (register scope) vs ts ->
  nonempty_operands (Z.of_nat k) vs = Ok vs' -> exists ts', Forall2 (register scope) vs' ts' /\ (forall P : Tensor -> Prop, Forall P ts -> Forall P ts') /\
    total k ts' = total k ts /\ forall i x, 0 <= x -> concat_at ts' k i x = concat_at ts k i x.
Proof.
  intros vs' H. revert vs'. induction H as [|v t vs ts Hv H IH]; intros vs' E; cbn [nonempty_operands] in E.
  - injection E as <-. by exists [].
  - rewrite (register_type _ _ _ Hv) in E. cbn [mbind result_bind] in E. apply bind_ok in E as (s & Hs%at_z_inv & E).
    apply bind_ok in E as (rest & Hrest & [= <-]). destruct (IH _ Hrest) as (ts' & Hr & HP & Ht & Hc). fold (getTensorShape t) in Hs.
    pose proof (static_dim _ _ _ (full_shape_ok _ (register_full _ _ _ Hv)) Hs) as [Hs0 _].
    destruct (Z.eqb_spec s 0) as [->|Hne].
    + exists ts'. split; [done|]. split; [intros P [_ HPs]%Forall_cons; by apply HP|]. cbn [total foldr concat_at]. rewrite Hs. cbn [default from_option id].
      split; [exact Ht|]. intros i x Hx. rewrite (proj2 (Z.ltb_ge x 0)), Hc by lia. f_equal. lia.
    + exists (t :: ts'). split; [by constructor|]. split; [intros P [? HPs]%Forall_cons; constructor; [done|by apply HP]|]. cbn [total foldr concat_at]. rewrite Hs. cbn [default from_option id].
      split; [unfold total in Ht; by rewrite Ht|]. intros i x Hx. destruct (Z.ltb_spec x s); [done|]. rewrite Hc by lia. done.
Qed.

Lemma ConcatenateOpRemoveEmpty_preserves op attrs type rw : verified scope op attrs type ->
  ConcatenateOpRemoveEmpty op attrs type = Ok rw -> preserves scope op type rw.
Proof.
  intros Hv H. destruct op; try done. cbn [ConcatenateOpRemoveEmpty] in H. pose proof Hv as (Hty & _).
  destruct (concat_verified _ _ _ _ Hv) as (k & ts & -> & Hc). apply bind_ok in H as (vs' & Hvs' & H). case_match; [|done]. injection H as <-.
  destruct (nonempty_operands_spec k inputs ts vs' (proj1 Hc) Hvs') as (ts' & Hr & HP & Ht & Hat).
  apply (concat_replaced k type inputs ts vs' ts'); [done|done| |].
  - destruct Hc as (_ & Hf & He & Hj & Hk). repeat (split; [by try apply HP|]). by rewrite Ht.
  - intros i x _ Hx. symmetry. apply Hat. lia.
Qed.

(** The operands of the operands that are concatenations themselves. *)
Lemma flattened_operands_spec k type vs ts : (k < length (getShape type))%nat -> Forall2 (register scope) vs ts ->
  Forall (fun t => getTensorElementType t = getElementType type) ts -> Forall (joins k (getShape type)) ts ->
  exists ts', Forall2 (register scope) (flat_map (getFlattenedOperands program (Z.of_nat k)) vs) ts' /\
    Forall (fun t => getTensorElementType t = getElementType type) ts' /\ Forall (joins k (getShape type)) ts' /\
    total k ts' = total k ts /\
    forall i x, in_bounds i (getShape type) -> 0 <= x < total k ts -> concat_at ts k i x = concat_at ts' k i x.
Proof.
  intros Hk H. induction H as [|v t vs ts Hv H IH]; intros He Hj; [by exists []|].
  apply Forall_cons in He as [Het He], Hj as [Hjt Hj]. destruct (IH He Hj) as (ts' & Hr & He' & Hj' & Ht' & Hat).
  pose proof (registers_full _ _ H) as Hf. pose proof (total_nonneg k ts Hf) as Hn. pose proof (dimension_size _ _ _ Hjt Hk) as Hs.
  set (s := default 0 (getTensorShape t !! k)) in *.
  assert (exists us, Forall2 (register scope) (getFlattenedOperands program (Z.of_nat k) v) us /\
    Forall (fun t => getTensorElementType t = getElementType type) us /\ Forall (joins k (getShape type)) us /\ total k us = s /\
    forall i x, in_bounds i (getShape type) -> 0 <= x < s -> get t (<[k := x]> i) = concat_at us k i x) as (us & Hru & Heu & Hju & Htu & Hatu).
  { assert (forall i x, 0 <= x < s -> get t (<[k := x]> i) = concat_at [t] k i x) as Hone.
    { intros i x Hx. cbn [concat_at]. fold s. by rewrite (proj2 (Z.ltb_lt x s)) by lia. }
    assert (total k [t] = s) as Htot by (cbn [total foldr]; fold s; lia).
    unfold getFlattenedOperands. destruct (defining_op program v) as [[]|] eqn:Hdv; try (exists [t]; split_and!; auto; fail).
    destruct (has_one_use program v && (dimension =? Z.of_nat k)) eqn:Hd; [|exists [t]; split_and!; auto].
    apply andb_prop in Hd as [_ ->%Z.eqb_eq]. destruct (concat_register _ _ _ _ Hdv Hv) as (k' & us & Hkk & (Hru & Hfu & Heu & Hju & Hku) & Hjn).
    assert (k' = k) as -> by lia. fold (getTensorShape t) in Hju, Hku. exists us. split; [done|]. split.
    { eapply Forall_impl; [exact Heu|]. intros u Hu. cbv beta in Hu. unfold getTensorElementType in *. congruence. }
    split; [eapply Forall_impl; [exact Hju|intros u Hu; by eapply joins_trans]|]. split; [congruence|].
    intros i x Hi Hx. pose proof (joins_in_bounds k _ t i s x Hjt Hs Hi Hx) as Hb. rewrite (Hjn _ x Hb); [apply concat_at_insert|].
    apply list_lookup_insert_eq. rewrite (in_bounds_length _ _ Hi). done. }
  exists (us ++ ts'). cbn [flat_map]. split; [by apply Forall2_app|]. split; [by apply Forall_app|]. split; [by apply Forall_app|].
  rewrite total_app, Htu, Ht'. cbn [total foldr]. fold s (total k ts). split; [done|]. intros i x Hi Hx.
  rewrite concat_at_app by (lia || by eapply registers_full). rewrite Htu. cbn [concat_at]. fold s.
  destruct (Z.ltb_spec x s); [apply Hatu; [done|lia]|]. apply Hat; [done|lia].
Qed.

Lemma ConcatenateOpFlatten_preserves op attrs type rw : verified scope op attrs type ->
  ConcatenateOpFlatten program op attrs type = Ok rw -> preserves scope op type rw.
Proof.
  intros Hv H. destruct op; try done. cbn [ConcatenateOpFlatten] in H. pose proof Hv as (Hty & _).
  destruct (concat_verified _ _ _ _ Hv) as (k & ts & -> & Hc). apply bind_ok in H as ([] & _ & [= <-]). pose proof Hc as (Hr & Hf & He & Hj & Hk).
  destruct (flattened_operands_spec k type inputs ts (lookup_lt_Some _ _ _ Hk) Hr He Hj) as (ts' & Hr' & He' & Hj' & Ht' & Hat).
  apply (concat_replaced k type inputs ts _ ts'); [done|done| |done].
  split; [done|]. split; [by eapply registers_full|]. split; [done|]. split; [done|]. by rewrite Ht'.
Qed.
End Join.

(** ** Slicing a part of a concatenation *)
Section SliceConcat.
Context {L : LLVM} {Laws : LLVMLaws L} {C : CommonFolders} {CLaws : CommonFoldersLaws C}.
Context (program : Program) (scope : Scope) (Hdef : defined program scope).

(** ** The loop over the operands *)

(** The first operand that ends after the start, with the sizes before it. *)
Definition found_start (k : nat) (s running front : Z) (n : nat) (ts : list Tensor) (subsetStart subsetStart' : option nat) (front' : Z) : Prop :=
  match subsetStart with
  | Some a => subsetStart' = Some a /\ front' = front
  | None => subsetStart' = None /\ (ts = [] \/ running + total k ts <= s) \/
      exists m, (m < length ts)%nat /\ subsetStart' = Some (n + m)%nat /\ front' = running + total k (take m ts) /\
        (m = 0%nat \/ running + total k (take m ts) <= s)
  end.

(** One past the last operand that starts before the limit. *)
Definition found_end (k : nat) (l running : Z) (n : nat) (ts : list Tensor) (subsetEnd subsetEnd' : option nat) : Prop :=
  subsetEnd' = subsetEnd /\ (ts = [] \/ l <= running) \/
  exists m, (m < length ts)%nat /\ subsetEnd' = Some (S (n + m)) /\ (S m = length ts \/ l <= running + total k (take (S m) ts)).

Lemma slice_operands_run k s l vs ts : Forall2 (register scope) vs ts -> forall n running front sS sE sS' sE' front',
  slice_operands (Z.of_nat k) s l n running front sS sE vs = Ok (sS', sE', front') ->
  found_start k s running front n ts sS sS' front' /\ found_end k l running n ts sE sE'.
Proof.
  induction 1 as [|v t vs ts Hv H IH]; intros n running front sS sE sS' sE' front' E; cbn [slice_operands] in E.
  - injection E as <- <- <-. split; [destruct sS; cbn; auto|left; auto].
  - rewrite (register_type _ _ _ Hv) in E. cbn [mbind result_bind] in E. apply bind_ok in E as (d & Hd%at_z_inv & E).
    fold (getTensorShape t) in Hd. destruct (isDynamicDimSize d); [done|]. apply bind_ok in E as (next & [-> _]%i64_inv & E).
    assert (forall m, total k (take (S m) (t :: ts)) = d + total k (take m ts)) as Htake by (intros m; cbn [take total foldr]; by rewrite Hd).
    assert (total k (t :: ts) = d + total k ts) as Htot by (cbn [total foldr]; by rewrite Hd).
    destruct (if (s <? running + d) && _ then _ else _) as [sS1 front1] eqn:E1. destruct (IH _ _ _ _ _ _ _ _ E) as [Hs He]. split.
    + clear He E. unfold found_start in *. destruct sS as [a|].
      * rewrite bool_decide_false, andb_false_r in E1 by done. injection E1 as <- <-. exact Hs.
      * rewrite bool_decide_true, andb_true_r in E1 by done. destruct (Z.ltb_spec s (running + d)); injection E1 as <- <-.
        -- destruct Hs as [-> ->]. right. exists O. rewrite Nat.add_0_r. cbn [take total foldr length]. split; [lia|]. split; [done|]. split; [lia|by left].
        -- destruct Hs as [[-> Hs]|(m & Hm & -> & -> & Hor)].
           ++ left. split; [done|]. right. rewrite Htot. destruct Hs as [->|]; [cbn [total foldr]|]; lia.
           ++ right. exists (S m). rewrite Htake. cbn [length]. split; [lia|]. split; [f_equal; lia|]. split; [lia|].
              right. destruct Hor as [->|]; [change (total k (take 0 ts)) with 0; lia|lia].
    + unfold found_end in *. destruct He as [[-> Hor]|(m & Hm & -> & Hor)].
      * destruct (Z.ltb_spec running l); [|left; split; [done|by right]]. right. exists O. rewrite Nat.add_0_r, Htake. cbn [take total foldr length].
        split; [lia|]. split; [done|]. destruct Hor as [->|]; [by left|right; change (total k (take 0 ts)) with 0; lia].
      * right. exists (S m). rewrite Htake. cbn [length]. split; [lia|]. split; [do 2 f_equal; lia|]. destruct Hor; [left; lia|right; lia].
Qed.

(** The operands from the first to the last hold all that the slice reads. *)
Lemma kept_operands k s l vs ts sS sE sS' sE' front front' x (a := default (length vs) sS') (e := default (length vs) sE') :
  Forall2 (register scope) vs ts -> sS = None -> sE = None ->
  slice_operands (Z.of_nat k) s l 0 0 front sS sE vs = Ok (sS', sE', front') -> (a <= e <= length vs)%nat ->
  0 <= s <= x -> x < l -> l <= total k ts ->
  0 <= x - front' < total k (take (e - a) (drop a ts)) /\ forall i, concat_at ts k i x = concat_at (take (e - a) (drop a ts)) k i (x - front').
Proof.
  intros Hr -> -> E Hae Hs Hx Hl. pose proof (Forall2_length _ _ _ Hr) as Hlen. pose proof (registers_full _ _ _ Hr) as Hf.
  destruct (slice_operands_run k s l vs ts Hr _ _ _ _ _ _ _ _ E) as [Hstart Hend]. subst a e.
  destruct Hstart as [[_ [->|]]|(m & Hm & -> & -> & Hor)]; [cbn [total foldr] in Hl; lia|lia|].
  destruct Hend as [[_ [->|]]|(m' & Hm' & -> & Hor')]; [cbn [length] in Hm; lia|lia|].
  cbn [default from_option id] in *. rewrite !Nat.add_0_l, !Z.add_0_l in *.
  assert (total k (take m ts) <= s) as Hfront by (destruct Hor as [->|]; [change (total k (take 0 ts)) with 0; lia|done]).
  assert (l <= total k (take (S m') ts)) as Hback by (destruct Hor' as [->|]; [by rewrite take_ge|done]).
  set (kept := take (S m' - m) (drop m ts)).
  assert (take (S m') ts = take m ts ++ kept) as Etake.
  { unfold kept. rewrite <- (take_drop m ts) at 1. rewrite take_app_ge by (rewrite length_take; lia). rewrite length_take, Nat.min_l by lia. done. }
  rewrite Etake, total_app in Hback. split; [lia|]. intros i.
  rewrite <- (take_drop (S m') ts) at 1. rewrite Etake, <- app_assoc.
  rewrite concat_at_app by (lia || by apply Forall_take). rewrite (proj2 (Z.ltb_ge x _)) by lia.
  rewrite concat_at_app by (lia || by apply Forall_take, Forall_drop). by rewrite (proj2 (Z.ltb_lt (x - _) _)) by lia.
Qed.

(** ** The types of the new operations *)
Lemma inferConcatenateOp_encoding ts dimension type : inferConcatenateOp ts dimension = Ok type -> Forall (fun t => getEncoding t = None) ts ->
  getEncoding type = None.
Proof.
  unfold inferConcatenateOp. intros H Hn. apply bind_ok in H as (w & _ & H). apply bind_ok in H as (? & _ & H). apply bind_ok in H as (? & _ & H).
  apply bind_ok in H as (? & _ & H). apply bind_ok in H as (? & _ & H). apply bind_ok in H as ([sizes bounds] & _ & H).
  assert (existsb (fun type => match encodingToBounds (getEncoding type) with [] => false | _ => true end) ts = false /\ omap getEncoding ts = []) as [E1 E2].
  { clear H. induction Hn as [|t ts Ht Hn [IH1 IH2]]; [done|]. cbn [existsb omap list_omap]. rewrite Ht. cbn [encodingToBounds orb]. by rewrite IH1. }
  rewrite E1, E2 in H. apply bind_ok in H as (enc & Henc & [= <-]). by injection Henc as <-.
Qed.

Lemma registers_types vs ts : Forall2 (register scope) vs ts -> mapM type_of vs = Ok (getTensorType <$> ts).
Proof. induction 1 as [|v t vs ts Hv H IH]; [done|]. cbn [mapM]. rewrite (register_type _ _ _ Hv). cbind. by rewrite IH. Qed.

Lemma total_kept k ts a n : Forall tensor_full ts -> 0 <= total k (take n (drop a ts)) <= total k ts.
Proof.
  intros Hf. pose proof (total_app k (take a ts) (drop a ts)) as E1. pose proof (total_app k (take n (drop a ts)) (drop n (drop a ts))) as E2.
  rewrite take_drop in E1, E2.
  pose proof (total_nonneg k _ (Forall_take _ a _ Hf)). pose proof (total_nonneg k _ (Forall_take _ n _ (Forall_drop _ a _ Hf))).
  pose proof (total_nonneg k _ (Forall_drop _ n _ (Forall_drop _ a _ Hf))). lia.
Qed.

(** A concatenation of some of the operands. *)
Lemma kept_concatenation k type vs ts a n newType (vs' := take n (drop a vs)) (ts' := take n (drop a ts)) :
  shaped_ok type -> concat_operands scope k type vs ts -> inferConcatenateOp (getTensorType <$> ts') (Z.of_nat k) = Ok newType ->
  shaped_ok newType /\ getEncoding newType = None /\ getElementType newType = getElementType type /\
  length (getShape newType) = length (getShape type) /\ concat_operands scope k newType vs' ts' .
Proof.
  intros Hty (Hr & Hf & He & Hj & Hk) Hinf. assert (Forall2 (register scope) vs' ts') as Hr' by (by apply Forall2_take, Forall2_drop).
  assert (Forall tensor_full ts' /\ Forall (fun t => getTensorElementType t = getElementType type) ts' /\ Forall (joins k (getShape type)) ts') as (Hf' & He' & Hj')
    by (split_and!; by apply Forall_take, Forall_drop).
  assert (getEncoding newType = None) as Henc.
  { eapply inferConcatenateOp_encoding; [exact Hinf|]. clear -Hr'. induction Hr' as [|v t us ws Hv H IH]; constructor; [by eapply register_encoding|done]. }
  apply inferConcatenateOp_inv in Hinf as (k' & t0 & rest & Hkk & Et & Hel & Hjn & Hkn); [|done]. assert (k' = k) as -> by lia.
  assert (getElementType newType = getElementType type) as Hnew by (rewrite Hel; rewrite Et in He'; by apply Forall_cons in He' as [-> _]).
  rewrite Et in Hj', Hjn. pose proof Hj' as [Hj0 _]%Forall_cons. pose proof Hjn as [Hjn0 _]%Forall_cons. rewrite <- Et in Hj', Hjn.
  destruct (joins_same _ _ _ _ Hj0 Hjn0) as [Hl Hd].
  assert (shaped_ok newType) as Hok.
  { clear Hel. destruct newType as [ns nt ne], type as [s t enc]. cbn [getShape getElementType] in *. subst nt. eapply shaped_ok_le; [|exact Hty].
    apply Forall2_same_length_lookup_2; [done|]. intros d x y Hx Hy. pose proof (shaped_shape _ Hty) as Hs. cbn [getShape] in Hs.
    pose proof (static_dim _ _ _ Hs Hy) as [Hy0 _]. destruct (decide (d = k)) as [->|Hne]; [|rewrite Hd, Hx in Hy by done; injection Hy as ->; lia].
    rewrite Hkn in Hx. rewrite Hk in Hy. injection Hx as <-. injection Hy as <-. by apply total_kept. }
  split; [done|]. split; [done|]. split; [done|]. split; [done|]. split; [done|]. split; [done|]. split; [by rewrite Hnew|]. done.
Qed.

(** ** The indices of the new slice *)
Lemma slice_index_shifted k start strides (i : Index) s f x : start !! k = Some s -> slice_index start strides i !! k = Some x ->
  slice_index (<[k := s - f]> start) strides i = <[k := x - f]> (slice_index start strides i).
Proof.
  unfold slice_index. intros Hs Hx. apply lookup_zip_with_Some in Hx as (s' & z & -> & Hs' & Hz). rewrite Hs in Hs'. injection Hs' as <-.
  apply list_eq. intros d. destruct (decide (d = k)) as [->|Hne].
  - rewrite list_lookup_insert_eq by (rewrite length_zip_with; apply lookup_lt_Some in Hs, Hz; lia). apply lookup_zip_with_Some.
    exists (s - f), z. split; [lia|]. split; [|done]. apply list_lookup_insert_eq. by eapply lookup_lt_Some.
  - rewrite list_lookup_insert_ne by done. rewrite !lookup_zip_with. by rewrite list_lookup_insert_ne.
Qed.

(** Shifting the bounds of a slice along one dimension keeps its sizes. *)
Lemma shifted_slice_type k t t' start limit strides s l f type type' : shape_ok (getShape t) -> shape_ok (getShape t') ->
  inferSliceOp t start limit strides = Ok type -> start !! k = Some s -> limit !! k = Some l ->
  inferSliceOp t' (<[k := s - f]> start) (<[k := l - f]> limit) strides = Ok type' -> length (getShape t') = length (getShape t) ->
  getElementType t' = getElementType t -> getEncoding t' = None -> getEncoding type = None -> type' = type.
Proof.
  intros Hs Hs' H Hk Hlk H' Hl He Henc Hety. pose proof (inferSliceOp_encoding _ _ _ _ _ H' Henc) as Henc'.
  apply inferSliceOp_inv in H as (_ & E & Hlt & Hd); [|done]. apply inferSliceOp_inv in H' as (_ & E' & Hlt' & Hd'); [|done].
  apply shaped_ext; [|congruence|done|done]. apply list_eq_same_length with (length (getShape t)); [done|lia|].
  intros d x y Hdl Hx Hy. destruct (Hd d ltac:(lia)) as (lo & hi & st & z & E1 & E2 & E3 & _ & _ & _ & _ & E4).
  destruct (Hd' d ltac:(lia)) as (lo' & hi' & st' & z' & E1' & E2' & E3' & _ & _ & _ & _ & E4').
  rewrite E3 in E3'. injection E3' as <-. rewrite E4 in Hy. injection Hy as <-. rewrite E4' in Hx. injection Hx as <-.
  destruct (decide (d = k)) as [->|Hne].
  - rewrite list_lookup_insert_eq in E1', E2' by (by eapply lookup_lt_Some). simplify_eq. f_equal. lia.
  - rewrite list_lookup_insert_ne in E1', E2' by done. by simplify_eq.
Qed.

(** ** The pattern *)
Lemma set_z_nat (l r : list Z) (k : nat) x : set_z l (Z.of_nat k) x = Ok r -> r = <[k := x]> l.
Proof. intros [_ ->]%set_z_inv. by rewrite Nat2Z.id. Qed.

(** What the pattern does when it matches: it keeps a range of the operands. *)
Lemma SliceOpConcatSimplify_inv operand start strides attrs type rw inputs (k : nat) tc :
  SliceOpConcatSimplify program (SliceOp operand start strides) attrs type = Ok rw ->
  defining_op program operand = Some (ConcatenateOp inputs (Z.of_nat k)) -> register scope operand tc ->
  exists s l sS sE front (a := default (length inputs) sS) (e := default (length inputs) sE) types newType sty front0,
    start !! k = Some s /\ limit_indices attrs !! k = Some l /\
    slice_operands (Z.of_nat k) s l 0 0 front0 None None inputs = Ok (sS, sE, front) /\ (a <= e <= length inputs)%nat /\
    mapM type_of (take (e - a) (drop a inputs)) = Ok types /\ inferConcatenateOp types (Z.of_nat k) = Ok newType /\
    inferSliceOp newType (<[k := s - front]> start) (<[k := l - front]> (limit_indices attrs)) strides = Ok sty /\
    rw = MkRewrite [(ConcatenateOp (take (e - a) (drop a inputs)) (Z.of_nat k), no_attrs, new_value program 0 newType)]
      (ReplaceWithOp (SliceOp (new_value program 0 newType) (<[k := s - front]> start) strides) (slice_attrs (<[k := l - front]> (limit_indices attrs))) sty).
Proof.
  intros H Hdo Htc. cbn [SliceOpConcatSimplify] in H. apply bind_ok in H as ([] & _ & H). rewrite Hdo, (register_type _ _ _ Htc) in H.
  cbn [mbind result_bind] in H. apply bind_ok in H as (s & Hs%at_z_inv & H). apply bind_ok in H as (l & Hl%at_z_inv & H).
  apply bind_ok in H as (front0 & _ & H). apply bind_ok in H as ([[sS sE] front] & Hrun & H). cbv zeta in H.
  apply bind_ok in H as ([] & _ & H). apply bind_ok in H as ([] & _ & H). apply bind_ok in H as ([] & _ & H).
  apply bind_ok in H as (range & Hrange & H). apply bind_ok in H as (types & Htypes & H). apply bind_ok in H as (newType & Hnew%or_fatal_ok & H).
  apply bind_ok in H as (x & [-> _]%i64_inv & H). apply bind_ok in H as (newStart & ->%set_z_nat & H).
  apply bind_ok in H as (y & [-> _]%i64_inv & H). apply bind_ok in H as (newLimit & ->%set_z_nat & H).
  apply bind_ok in H as (slice & (sty & Hsty%or_fatal_ok & [= <-])%bind_ok & [= <-]).
  unfold operand_range in Hrange. destruct ((_ <=? _)%nat && _) eqn:E; [|done]. injection Hrange as <-. apply andb_prop in E as [E1%Nat.leb_le E2%Nat.leb_le].
  exists s, l, sS, sE, front, types, newType, sty, front0. by split_and!.
Qed.

Lemma SliceOpConcatSimplify_preserves op attrs type rw : unused program scope -> verified scope op attrs type ->
  SliceOpConcatSimplify program op attrs type = Ok rw -> preserves scope op type rw.
Proof.
  intros Hun Hv H. destruct op; try done. rename startIndices into start. destruct Hv as (Hty & Henc & tc & Htc & Hstr & Hlim & Hinf).
  assert (exists inputs dimension, defining_op program operand = Some (ConcatenateOp inputs dimension)) as (inputs & dimension & Hdo).
  { cbn [SliceOpConcatSimplify] in H. apply bind_ok in H as ([] & _ & H). destruct (defining_op program operand) as [[]|]; try done. eauto. }
  destruct (concat_register program scope Hdef _ _ _ _ Hdo Htc) as (k & ts & -> & Hc & Hjn). pose proof (full_shaped _ (register_full _ _ _ Htc)) as Htyc.
  destruct (SliceOpConcatSimplify_inv _ _ _ _ _ _ _ _ _ H Hdo Htc)
    as (s & l & sS & sE & front & types & newType & sty & front0 & Hs & Hl & Hrun & Hae & Htypes & Hnew & Hsty & ->).
  set (a := default (length inputs) sS) in *. set (e := default (length inputs) sE) in *.
  pose proof Hc as (Hr & Hf & _ & _ & Hk). rewrite (registers_types _ (take (e - a) (drop a ts))) in Htypes by (by apply Forall2_take, Forall2_drop).
  injection Htypes as <-. destruct (kept_concatenation k _ inputs ts a (e - a) newType Htyc Hc Hnew) as (Htyn & Hencn & Heln & Hln & Hcn).
  destruct (concat_operands_result scope k newType _ _ Htyn Hcn) as (v & Hve & Htv & Hfv & Hjv).
  assert (sty = type) as ->.
  { eapply (shifted_slice_type k (getTensorType tc) newType); try done; by apply shaped_shape. }
  destruct (eval_created_one program scope 0 (ConcatenateOp (take (e - a) (drop a inputs)) (Z.of_nat k)) no_attrs newType v) as (scope' & Hcr & Hrv & _); try done.
  pose proof (sliceOp_spec tc start _ strides type (register_full _ _ _ Htc) Hstr Hinf) as Hold.
  assert (length (getTensorShape v) = length (getTensorShape tc)) as Hlv by (unfold getTensorShape; by rewrite Htv).
  rewrite <- Htv in Hsty. pose proof (sliceOp_spec v _ _ strides type Hfv ltac:(by rewrite Hlv) Hsty) as Hres.
  eapply preserves_results; [reflexivity| | |].
  - rewrite (register_find _ _ _ Htc). cbind. exact Hold.
  - unfold eval_rewrite. cbn [created replacement]. rewrite Hcr. cbn [mbind result_bind eval_replacement].
    unfold eval_tensor. cbn [eval_tensor_op ok_or mbind result_bind]. rewrite (register_find _ _ _ Hrv). cbind. exact Hres.
  - intros r r' Q1 Q2 Hr1 Hr2 i Hi. destruct (Q1 i) as [Hb1 ->]; [by unfold getTensorShape; rewrite Hr1|].
    destruct (Q2 i) as [Hb2 ->]; [by unfold getTensorShape; rewrite Hr2|].
    destruct (in_bounds_lookup_Some _ _ _ _ Hb1 Hk) as (x & Hx & Hxb). rewrite (Hjn _ x Hb1 Hx).
    rewrite (slice_index_shifted k start strides i s front x Hs Hx) in Hb2 |- *.
    rewrite (Hjv _ (x - front) Hb2) by (apply list_lookup_insert_eq; by eapply lookup_lt_Some). rewrite concat_at_insert.
    assert (s <= x < l /\ 0 <= s /\ l <= total k ts) as (Hsx & Hs0 & Hlt).
    { apply inferSliceOp_inv in Hinf as (_ & _ & _ & Hd); [|by apply full_shape_ok, (register_full scope operand)].
      destruct (Hd k (lookup_lt_Some _ _ _ Hk)) as (lo & hi & st & z & E1 & E2 & E3 & E4 & ? & ? & ? & E5).
      rewrite Hs in E1. rewrite Hl in E2. rewrite Hk in E4. injection E1 as <-. injection E2 as <-. injection E4 as <-.
      destruct (in_bounds_lookup_Some _ _ _ _ Hi E5) as (y & Hy & ?). pose proof (divideCeil_pos (l - s) st y ltac:(done) ltac:(lia)).
      unfold slice_index in Hx. apply lookup_zip_with_Some in Hx as (s' & q & -> & Es & Eq). apply lookup_zip_with_Some in Eq as (y' & st' & -> & Ey & Est).
      simplify_eq. split; [nia|]. lia. }
    apply (kept_operands k s l inputs ts None None sS sE front0 front x); try done; lia.
Qed.
End SliceConcat.

(** ** A slice that reads nothing

    The comment of the pattern leaves an empty slice alone, but only one that needs
    a range of no operands; the range of this one ends before it starts. *)
Section Crash.
Import Concrete.

Definition part (n : positive) (size : Z) : Value := MkValue n (shaped_type (shaped [size] ui8)).
Definition joined_parts : Program :=
  MkProgram (fun v => if value_id v =? 4 then Some (ConcatenateOp [part 1 2; part 2 0; part 3 2] 0) else None)%positive
    (fun _ => true) true false (fun n => Pos.of_succ_nat (n + 10)).

Lemma slice_of_concat_crashes :
  inferSliceOp (shaped [4] ui8) [2] [2] [1] = Ok (shaped [0] ui8) /\
  SliceOpConcatSimplify joined_parts (SliceOp (part 4 4) [2] [1]) (slice_attrs [2]) (shaped [0] ui8) = Err (UB "iterators out of order").
Proof. split; reflexivity. Qed.
End Crash.
