(* ===== verification/SimplifyEval.v ===== *)
(** * The simplification, against the evaluator

    The patterns of [Simplify.v] and [SimplifyRules.v] put together as the pass
    puts them, and that each keeps the tensor of the operation it rewrites. *)
From S2P Require Import Prelude Types Support Index Element ElementFacts Tensor TensorFacts Samples Base TypeInference Ops OpsFacts OpsMoves OpsPermute OpsJoin AttributeFacts Regions Scope Eval Folder FolderSamples FolderFacts FolderEval Simplify SimplifyRules SimplifyFacts SimplifyElementwise SimplifySelect SimplifyPermute SimplifyBroadcast SimplifySlices SimplifyJoin.

(** ** The pattern set *)
Section Patterns.
Context {L : LLVM} {C : CommonFolders} (options : Options) (program : Program).
Abbreviation Pattern := (Op -> OpAttrs -> ShapedType -> result Rewrite) (only parsing).

(** By the kinds of operations that they rewrite. *)
Definition binary_patterns : list Pattern :=
  [AddOp_CanonicalizeConstantToRhs program; AddOp_RemoveNoop program; AndOp_CanonicalizeConstantToRhs program;
   AndOp_FoldToZero program; AndOp_RemoveNoop program; MaxOp_CanonicalizeConstantToRhs program;
   MinOp_CanonicalizeConstantToRhs program; MulOp_CanonicalizeConstantToRhs program; MulOp_FoldToZero program;
   MulOp_RemoveNoop program; OrOp_CanonicalizeConstantToRhs program; OrOp_FoldToOne program; OrOp_RemoveNoop program;
   SubtractOp_FoldToZero; SubtractOp_RemoveNoop program; XorOp_CanonicalizeConstantToRhs program; XorOp_FoldToZero;
   XorOp_RemoveNoop program].

Definition element_patterns : list Pattern :=
  [ComplexOp_CancelOutComposedOps program; ImagOp_CancelOutComposedOps program; RealOp_CancelOutComposedOps program;
   CompareOp_NeBooleanFalse program; CompareOp_EqBooleanTrue program; CompareOpCanon program; ConvertOp_RemoveNoop;
   SelectOp_InvertPredicateAndSwap program; SelectOp_InvertBroadcastPredicateAndSwap program; SelectOpCanon options program].

Definition shape_patterns : list Pattern :=
  [ReverseOp_EmptyDim; ReverseOp_ZeroElements; ReverseOp_AllDimsEqualOne; ReverseOp_SplatToNoop program;
   BroadcastInDimOp_RemoveNoop; BroadcastInDimOp_MergeComposition program; BroadcastInDimOp_ReplaceWithReshape;
   BroadcastInDimOp_ReplaceWithTranspose; DynamicBroadcastInDimOp_MergeComposition program;
   DynamicBroadcastInDimOp_FoldToDynamicReshape program; DynamicReshapeOp_MergeComposition program;
   ReshapeOp_MergeComposition program; ReshapeOp_RemoveNoop; TransposeOp_RemoveNoop;
   TransposeOp_TransposeOfTranspose program; TransposeIsReshape; DynamicBroadcastInDimOpNotActuallyDynamic program;
   DynamicReshapeOpIsStatic; DynamicIotaIsStatic].

Definition size_patterns : list Pattern :=
  [IotaOp_FoldScalarToZero; IotaOpBroadcast program; GetDimensionSizeOpCanon; DynamicGatherOp_ReplaceWithGather program;
   DynamicPadOp_ReplaceWithPad program; PadOp_RemoveNoop; PadOpBroadcastEmptyTensor; DynamicUpdateSliceOp_RemoveNoop program;
   DynamicUpdateSliceOp_FoldToUpdateOperand program; DynamicSliceOpToSlice program; SliceOp_RemoveNoop;
   SliceOpConcatSimplify program; ConcatenateOpFlatten program; ConcatenateOpNoop; ConcatenateOpRemoveEmpty;
   ZeroExtentToEmptyConstant program].

(** [populateStablehloCanonicalizationPatterns] *)
Definition canonicalization_patterns : list Pattern :=
  binary_patterns ++ element_patterns ++ shape_patterns ++ size_patterns.

(** The first pattern that matches rewrites; a crash of a pattern is one of the pass. *)
Fixpoint apply_first (patterns : list Pattern) (op : Op) (attrs : OpAttrs) (type : ShapedType) : result Rewrite :=
  match patterns with
  | [] => no_match
  | pattern :: patterns =>
      match pattern op attrs type with
      | Err (Failed _) => apply_first patterns op attrs type
      | rewrite => rewrite
      end
  end.

Definition simplify_op : Pattern := apply_first canonicalization_patterns.
End Patterns.

(** ** What the patterns rely on *)
Section Correct.
Context {L : LLVM} {Laws : LLVMLaws L} {C : CommonFolders} {CLaws : CommonFoldersLaws C}.
Context (options : Options) (program : Program) (scope : Scope).
Context (Hdef : defined program scope) (Hun : unused program scope).
Abbreviation Pattern := (Op -> OpAttrs -> ShapedType -> result Rewrite) (only parsing).

(** The operations on which the patterns agree with the interpreter.  Arithmetic is
    exact on integers and booleans, which the interpreter cannot subtract; a zero is
    not neutral for a float of the other sign, and a float compared with itself may be
    no number.  A numbering of complex numbers has a zero computed otherwise, and one
    of no elements may have a dimension that no tensor of its own can have.  An empty
    tensor, or a gather, replaces an operation that the interpreter runs. *)
Definition simplifiable (op : Op) (type : ShapedType) : Prop :=
  (getNumElements type = 0 -> returns scope op type) /\
  match op with
  | UnaryOp ConvertOp _ => discrete (getElementType type)
  | BinaryOp kind _ _ => kind <> ComplexOp -> discrete (getElementType type) /\ (getElementType type = i1 -> kind <> SubtractOp)
  | CompareOp lhs _ _ => forall l, register scope lhs l -> discrete (getTensorElementType l)
  | IotaOp _ => isSupportedComplexType (getElementType type) = false /\ getNumElements type <> 0
  | DynamicGatherOp _ _ _ _ _ => returns scope op type
  | _ => True
  end.

Definition sound (op : Op) (attrs : OpAttrs) (type : ShapedType) (pattern : Pattern) : Prop :=
  forall rw, pattern op attrs type = Ok rw -> preserves scope op type rw.

Context (op : Op) (attrs : OpAttrs) (type : ShapedType).
Context (Hv : verified scope op attrs type) (Hs : simplifiable op type).

Lemma binary_simplifiable kind lhs rhs : op = BinaryOp kind lhs rhs -> kind <> ComplexOp ->
  discrete (getElementType type) /\ (getElementType type = i1 -> kind <> SubtractOp).
Proof. intros -> Hk. destruct Hs as [_ H]. by apply H. Qed.

(** A pattern of one kind of binary operation. *)
Lemma sound_binary kind (pattern : Pattern) : kind <> ComplexOp ->
  (forall rw, pattern op attrs type = Ok rw -> exists lhs rhs, op = BinaryOp kind lhs rhs) ->
  (discrete (getElementType type) -> (getElementType type = i1 -> kind <> SubtractOp) -> sound op attrs type pattern) -> sound op attrs type pattern.
Proof. intros Hk Hm H rw Hrw. destruct (Hm rw Hrw) as (lhs & rhs & E). destruct (binary_simplifiable _ _ _ E Hk) as [Hd Hi]. by apply H. Qed.

Lemma kind_of_canonicalize kind rw : CanonicalizeConstantToRhs program kind op attrs type = Ok rw -> exists lhs rhs, op = BinaryOp kind lhs rhs.
Proof.
  destruct op; try done. intros H. apply constrain_ok in H as [H _]. rewrite !andb_true_iff in H. destruct H as [[H%bool_decide_eq_true _] _]. subst. by eexists _, _.
Qed.
Lemma kind_of_remove kind p rw : remove_noop program kind p op attrs type = Ok rw -> exists lhs rhs, op = BinaryOp kind lhs rhs.
Proof. destruct op; try done. intros H. apply constrain_ok in H as [[H%bool_decide_eq_true _]%andb_prop _]. subst. by eexists _, _. Qed.
Lemma kind_of_fold kind p rw : fold_to_constant program kind p op attrs type = Ok rw -> exists lhs rhs, op = BinaryOp kind lhs rhs.
Proof. destruct op; try done. intros H. apply constrain_ok in H as [[H%bool_decide_eq_true _]%andb_prop _]. subst. by eexists _, _. Qed.
Lemma kind_of_same kind p rw : fold_same_to_zero kind p op attrs type = Ok rw -> exists lhs rhs, op = BinaryOp kind lhs rhs.
Proof.
  destruct op; try done. intros H. apply constrain_ok in H as [H _]. rewrite !andb_true_iff in H. destruct H as [[[H%bool_decide_eq_true _] _] _]. subst. by eexists _, _.
Qed.

Lemma commutative_simple kind : kind ∈ commutative_kinds -> kind <> ComplexOp.
Proof. intros H. apply binary_simple. by right. Qed.

Lemma sound_canonicalize kind : kind ∈ commutative_kinds -> sound op attrs type (CanonicalizeConstantToRhs program kind).
Proof.
  intros Hk. apply (sound_binary kind); [by apply commutative_simple|apply kind_of_canonicalize|].
  intros Hd _ rw. by apply canonicalize_preserves.
Qed.
Lemma sound_remove kind n p : (kind, n) ∈ identities -> reads_as p n -> sound op attrs type (remove_noop program kind p).
Proof.
  intros Hk Hp. apply (sound_binary kind); [by eapply binary_simple, identity_kinds|apply kind_of_remove|].
  intros Hd Hi rw. by eapply remove_noop_preserves.
Qed.
Lemma sound_fold kind n p : (kind, n) ∈ absorbing -> reads_as p n -> sound op attrs type (fold_to_constant program kind p).
Proof.
  intros Hk Hp. apply (sound_binary kind); [by eapply commutative_simple, absorbing_kinds|apply kind_of_fold|].
  intros Hd _ rw. by eapply fold_to_constant_preserves.
Qed.
Lemma sound_same kind p : kind ∈ [SubtractOp; XorOp] -> sound op attrs type (fold_same_to_zero kind p).
Proof.
  intros Hk. apply (sound_binary kind); [intros ->; set_solver|apply kind_of_same|]. intros Hd Hi rw. by apply (fold_same_preserves program).
Qed.

Lemma zero_reads : reads_as IntZero 0.
Proof. intros a t i Hr Hi Hd. by apply IntZero_get. Qed.
Lemma any_zero_reads : reads_as AnyZero 0.
Proof. intros a t i Hr Hi Hd. by apply AnyZero_get. Qed.
Lemma any_one_reads : reads_as AnyOne 1.
Proof. intros a t i Hr Hi Hd. by apply AnyOne_get. Qed.
Lemma all_ones_reads : reads_as IntAllOnes (-1).
Proof. intros a t i Hr Hi Hd. by apply IntAllOnes_get. Qed.

Lemma binary_sound : Forall (sound op attrs type) (binary_patterns program).
Proof.
  unfold binary_patterns. repeat constructor;
    first [apply sound_canonicalize; unfold commutative_kinds; set_solver
          | eapply sound_remove; [|first [apply zero_reads | apply any_zero_reads | apply any_one_reads | apply all_ones_reads]]; unfold identities; set_solver
          | eapply sound_fold; [|first [apply zero_reads | apply all_ones_reads]]; unfold absorbing; set_solver
          | apply sound_same; set_solver].
Qed.

Lemma element_sound : Forall (sound op attrs type) (element_patterns options program).
Proof.
  unfold element_patterns. repeat constructor; intros rw H.
  - by eapply ComplexOp_CancelOutComposedOps_preserves.
  - by eapply ImagOp_CancelOutComposedOps_preserves.
  - by eapply RealOp_CancelOutComposedOps_preserves.
  - by eapply CompareOp_NeBooleanFalse_preserves.
  - by eapply CompareOp_EqBooleanTrue_preserves.
  - eapply CompareOpCanon_preserves; [|done|done]. intros lhs rhs d l E Hl. destruct Hs as [_ Hc]. rewrite E in Hc. by apply Hc.
  - eapply ConvertOp_RemoveNoop_preserves; [|done|done]. destruct Hs as [_ Hc]. unfold ConvertOp_RemoveNoop in H. by repeat case_match.
  - by eapply SelectOp_InvertPredicateAndSwap_preserves.
  - by eapply SelectOp_InvertBroadcastPredicateAndSwap_preserves.
  - by eapply SelectOpCanon_preserves.
Qed.

Lemma shape_sound : Forall (sound op attrs type) (shape_patterns program).
Proof.
  unfold shape_patterns. repeat constructor; intros rw H;
    eauto using ReverseOp_EmptyDim_preserves, ReverseOp_ZeroElements_preserves, ReverseOp_AllDimsEqualOne_preserves,
      ReverseOp_SplatToNoop_preserves, BroadcastInDimOp_RemoveNoop_preserves, BroadcastInDimOp_MergeComposition_preserves,
      BroadcastInDimOp_ReplaceWithReshape_preserves, BroadcastInDimOp_ReplaceWithTranspose_preserves,
      DynamicBroadcastInDimOp_MergeComposition_preserves, DynamicBroadcastInDimOp_FoldToDynamicReshape_preserves,
      DynamicReshapeOp_MergeComposition_preserves, ReshapeOp_MergeComposition_preserves, ReshapeOp_RemoveNoop_preserves,
      TransposeOp_RemoveNoop_preserves, TransposeOp_TransposeOfTranspose_preserves, TransposeIsReshape_preserves,
      DynamicBroadcastInDimOpNotActuallyDynamic_preserves, DynamicReshapeOpIsStatic_preserves, DynamicIotaIsStatic_preserves.
Qed.

Lemma size_sound : Forall (sound op attrs type) (size_patterns program).
Proof.
  unfold size_patterns. destruct Hs as [Hempty Hop]. repeat constructor; intros rw H;
    eauto using GetDimensionSizeOpCanon_preserves, DynamicPadOp_ReplaceWithPad_preserves, PadOp_RemoveNoop_preserves,
      PadOpBroadcastEmptyTensor_preserves, DynamicUpdateSliceOp_RemoveNoop_preserves, DynamicUpdateSliceOp_FoldToUpdateOperand_preserves,
      DynamicSliceOpToSlice_preserves, SliceOp_RemoveNoop_preserves, SliceOpConcatSimplify_preserves, ConcatenateOpFlatten_preserves,
      ConcatenateOpNoop_preserves, ConcatenateOpRemoveEmpty_preserves.
  - eapply IotaOp_FoldScalarToZero_preserves; [|done|done]. unfold IotaOp_FoldScalarToZero in H. case_match; try discriminate H. apply Hop.
  - eapply IotaOpBroadcast_preserves; [|done|done|exact H]. unfold IotaOpBroadcast in H. case_match; try discriminate H. apply Hop.
  - eapply DynamicGatherOp_ReplaceWithGather_preserves; [done| |done|exact H]. unfold DynamicGatherOp_ReplaceWithGather in H. case_match; try discriminate H. apply Hop.
  - eapply ZeroExtentToEmptyConstant_preserves; [|exact H]. apply Hempty. by apply ZeroExtentToEmptyConstant_inv in H as [_ ?].
Qed.

Lemma patterns_sound : Forall (sound op attrs type) (canonicalization_patterns options program).
Proof. unfold canonicalization_patterns. repeat apply Forall_app_2; [apply binary_sound|apply element_sound|apply shape_sound|apply size_sound]. Qed.

Lemma apply_first_sound patterns rw : Forall (sound op attrs type) patterns -> apply_first patterns op attrs type = Ok rw -> preserves scope op type rw.
Proof.
  induction 1 as [|pattern patterns Hp H IH]; [done|]. cbn [apply_first]. destruct (pattern op attrs type) as [rw'|[]] eqn:E; try done.
  intros [= <-]. by apply Hp.
Qed.
End Correct.

(** C15: every pattern of the simplification pass that matches an operation replaces
    it by a computation of the same tensor.  Take a scope that holds the results of the
    operations before, an operation that the verifier accepts there and on which the
    patterns are exact ([simplifiable]), and any of the modelled patterns of
    [populateStablehloCanonicalizationPatterns]: if it matches, the operation evaluates
    to a tensor of its type, the operations the pattern creates evaluate in turn, and
    the value that replaces the result is a tensor of that type with the same
    elements. *)
Theorem simplification_preserves {L : LLVM} {Laws : LLVMLaws L} {C : CommonFolders} {CLaws : CommonFoldersLaws C}
    options program scope op attrs type pattern rw :
  defined program scope -> unused program scope -> verified scope op attrs type -> simplifiable scope op type ->
  pattern ∈ canonicalization_patterns options program -> pattern op attrs type = Ok rw -> preserves scope op type rw.
Proof.
  intros Hdef Hun Hv Hs Hp. pose proof (patterns_sound options program scope Hdef Hun op attrs type Hv Hs) as H.
  rewrite Forall_forall in H. by apply H.
Qed.

(** ** Witnesses *)
Section Witnesses.
Import Concrete.

Definition reg (n : positive) (shape : list Z) : Value := MkValue n (shaped_type (shaped shape ui8)).
Definition left_attr : DenseElementsAttr := byte_attr [2; 3] [2; 3; 4; 5; 6; 7].
Definition right_attr : DenseElementsAttr := byte_attr [2; 1] [8; 9].

Definition joined_attr : DenseElementsAttr := byte_attr [2; 4] [2; 3; 4; 8; 5; 6; 7; 9].

Definition is_reg (v w : Value) : bool := bool_decide (value_id v = value_id w) && bool_decide (ssa_type v = ssa_type w).

Lemma is_reg_eq v w : is_reg v w = true -> v = w.
Proof. intros [H%bool_decide_eq_true H'%bool_decide_eq_true]%andb_prop. destruct v, w. cbn in *. congruence. Qed.

(** Two constants and their concatenation. *)
Definition sample_program : Program :=
  MkProgram (fun v =>
      if is_reg v (reg 1 [2; 3]) then Some (ConstantOp left_attr)
      else if is_reg v (reg 2 [2; 1]) then Some (ConstantOp right_attr)
      else if is_reg v (reg 3 [2; 4]) then Some (ConcatenateOp [reg 1 [2; 3]; reg 2 [2; 1]] 1)
      else None) (fun _ => true) true false (fun n => Pos.of_succ_nat (n + 10)).

Definition simplify_scope : Scope :=
  MkScope {[1%positive := TensorValue (tensor_of_attr left_attr); 2%positive := TensorValue (tensor_of_attr right_attr);
            3%positive := TensorValue (tensor_of_attr joined_attr)]} None.

Lemma sample_register n shape t : findTensor simplify_scope (reg n shape) = Ok t -> getTensorType t = shaped shape ui8 ->
  full_check t = true -> register simplify_scope (reg n shape) t.
Proof. intros H Ht Hf. split; [done|]. rewrite Ht. split; [done|]. split; [done|]. by apply full_check_ok. Qed.

Lemma left_register : register simplify_scope (reg 1 [2; 3]) (tensor_of_attr left_attr).
Proof. apply sample_register; vm_compute; reflexivity. Qed.
Lemma right_register : register simplify_scope (reg 2 [2; 1]) (tensor_of_attr right_attr).
Proof. apply sample_register; vm_compute; reflexivity. Qed.
Lemma joined_register : register simplify_scope (reg 3 [2; 4]) (tensor_of_attr joined_attr).
Proof. apply sample_register; vm_compute; reflexivity. Qed.

Lemma byte_attr_ok shape bytes : shaped_check (shaped shape ui8) = true -> Z.of_nat (length bytes) = prod_z shape ->
  attr_ok (byte_attr shape bytes).
Proof.
  intros Hs Hl. split; [by apply shaped_check_ok|]. cbn [attr_type attr_values byte_attr]. split; [by rewrite length_fmap|].
  apply Forall_fmap, Forall_forall. intros z _. by apply (int_el_ok Unsigned 8 z).
Qed.

Lemma sample_defined : defined sample_program simplify_scope.
Proof.
  intros v op H f Hf. cbn [sample_program defining_op] in H.
  destruct (is_reg v (reg 1 [2; 3])) eqn:E1; [|destruct (is_reg v (reg 2 [2; 1])) eqn:E2; [|destruct (is_reg v (reg 3 [2; 4])) eqn:E3; [|done]]].
  - apply is_reg_eq in E1 as ->. injection H as <-. injection Hf as <-. exists (tensor_of_attr left_attr), no_attrs.
    split; [apply left_register|]. split; [vm_compute; reflexivity|]. split; [concrete|]. split; [done|]. split; [done|]. by apply byte_attr_ok.
  - apply is_reg_eq in E2 as ->. injection H as <-. injection Hf as <-. exists (tensor_of_attr right_attr), no_attrs.
    split; [apply right_register|]. split; [vm_compute; reflexivity|]. split; [concrete|]. split; [done|]. split; [done|]. by apply byte_attr_ok.
  - apply is_reg_eq in E3 as ->. injection H as <-. injection Hf as <-. exists (tensor_of_attr joined_attr), no_attrs.
    split; [apply joined_register|]. split; [vm_compute; reflexivity|]. split; [concrete|]. split; [done|].
    exists [tensor_of_attr left_attr; tensor_of_attr right_attr]. split; [constructor; [apply left_register|constructor; [apply right_register|constructor]]|].
    split; [repeat constructor|vm_compute; reflexivity].
Qed.

Lemma sample_unused : unused sample_program simplify_scope.
Proof.
  intros n v Hv. unfold find, simplify_scope. rewrite Hv. cbn [sample_program fresh].
  rewrite !lookup_insert_ne by (cbn; lia). rewrite lookup_singleton_ne by (cbn; lia). by eexists.
Qed.

(** The slice of the first columns reads only the first operand of the concatenation. *)
Definition slice_of_joined : Op := SliceOp (reg 3 [2; 4]) [0; 1] [1; 1].
Definition kept_part : Value := new_value sample_program 0 (shaped [2; 3] ui8).
Definition slice_of_left : Rewrite :=
  MkRewrite [(ConcatenateOp [reg 1 [2; 3]] 1, no_attrs, kept_part)]
    (ReplaceWithOp (SliceOp kept_part [0; 1] [1; 1]) (slice_attrs [2; 3]) (shaped [2; 2] ui8)).

Lemma simplification_preserves_witness :
  simplify_op all_options sample_program slice_of_joined (slice_attrs [2; 3]) (shaped [2; 2] ui8) = Ok slice_of_left /\
  preserves simplify_scope slice_of_joined (shaped [2; 2] ui8) slice_of_left.
Proof.
  split; [reflexivity|].
  apply (simplification_preserves all_options sample_program simplify_scope _ (slice_attrs [2; 3]) _ (SliceOpConcatSimplify sample_program)).
  - apply sample_defined.
  - apply sample_unused.
  - split; [concrete|]. split; [done|]. exists (tensor_of_attr joined_attr). split; [apply joined_register|].
    split; [reflexivity|]. split; [reflexivity|vm_compute; reflexivity].
  - split; [discriminate|exact Logic.I].
  - apply list_elem_of_lookup_2 with 58%nat. reflexivity.
  - reflexivity.
Defined.
End Witnesses.
