(* ===== verification/Vhlo.v ===== *)
(** * The VHLO dialect: types and attributes

    [src/stablehlo/dialect/VhloTypes.td], [VhloAttrs.td] and [VhloEnums.td]: the
    versioned types and attributes of portable artifacts, one constructor per
    class, with the parameters of the class.  Types and attributes of other
    dialects are kept by the identity that MLIR's context gives them. *)
From S2P Require Import Prelude Types Support Tensor.

(** ** Enumerations

    The generated functions of an enumeration, [stringify] and [symbolize] by number
    and by name, from the table of its cases. *)
Class Enum (A : Type) `{EqDecision A} := enum_cases : list (A * (string * Z)).

Section Enums.
Context {A : Type} `{Enum A}.

Definition case_of (a : A) : string * Z :=
  default ("", 0) (snd <$> find (fun c => bool_decide (c.1 = a)) enum_cases).
Definition stringify (a : A) : string := fst (case_of a).
Definition enum_value (a : A) : Z := snd (case_of a).
Definition symbolize (n : Z) : option A := fst <$> find (fun c => c.2.2 =? n) enum_cases.
Definition symbolize_name (s : string) : option A := fst <$> find (fun c => bool_decide (c.2.1 = s)) enum_cases.
End Enums.

Class EnumLaws (A : Type) `{Enum A} := {
  symbolize_value (a : A) : symbolize (enum_value a) = Some a;
  symbolize_stringify (a : A) : symbolize_name (stringify a) = Some a;
  enum_value_range (a : A) : 0 <= enum_value a < 2 ^ 32;
}.

Inductive ComparisonDirectionV1 :=
| ComparisonDirectionV1_EQ | ComparisonDirectionV1_NE | ComparisonDirectionV1_GE
| ComparisonDirectionV1_GT | ComparisonDirectionV1_LE | ComparisonDirectionV1_LT.

Inductive ComparisonTypeV1 :=
| ComparisonTypeV1_NOTYPE | ComparisonTypeV1_FLOAT | ComparisonTypeV1_TOTALORDER
| ComparisonTypeV1_SIGNED | ComparisonTypeV1_UNSIGNED.

Inductive CustomCallApiVersionV1 :=
| CustomCallApiVersionV1_API_VERSION_UNSPECIFIED | CustomCallApiVersionV1_API_VERSION_ORIGINAL
| CustomCallApiVersionV1_API_VERSION_STATUS_RETURNING | CustomCallApiVersionV1_API_VERSION_STATUS_RETURNING_UNIFIED
| CustomCallApiVersionV1_API_VERSION_TYPED_FFI.

Inductive FftTypeV1 := FftTypeV1_FFT | FftTypeV1_IFFT | FftTypeV1_RFFT | FftTypeV1_IRFFT.

Inductive PrecisionV1 := PrecisionV1_DEFAULT | PrecisionV1_HIGH | PrecisionV1_HIGHEST.

Inductive RngAlgorithmV1 := RngAlgorithmV1_DEFAULT | RngAlgorithmV1_THREE_FRY | RngAlgorithmV1_PHILOX.

Inductive RngDistributionV1 := RngDistributionV1_UNIFORM | RngDistributionV1_NORMAL.

Inductive TransposeV1 :=
| TransposeV1_TRANSPOSE_INVALID | TransposeV1_NO_TRANSPOSE | TransposeV1_TRANSPOSE | TransposeV1_ADJOINT.

Inductive ResultAccuracyModeV1 :=
| ResultAccuracyModeV1_DEFAULT | ResultAccuracyModeV1_HIGHEST | ResultAccuracyModeV1_TOLERANCE.

#[export] Instance ComparisonDirectionV1_eq_dec : EqDecision ComparisonDirectionV1. Proof. solve_decision. Defined.
#[export] Instance ComparisonTypeV1_eq_dec : EqDecision ComparisonTypeV1. Proof. solve_decision. Defined.
#[export] Instance CustomCallApiVersionV1_eq_dec : EqDecision CustomCallApiVersionV1. Proof. solve_decision. Defined.
#[export] Instance FftTypeV1_eq_dec : EqDecision FftTypeV1. Proof. solve_decision. Defined.
#[export] Instance PrecisionV1_eq_dec : EqDecision PrecisionV1. Proof. solve_decision. Defined.
#[export] Instance RngAlgorithmV1_eq_dec : EqDecision RngAlgorithmV1. Proof. solve_decision. Defined.
#[export] Instance RngDistributionV1_eq_dec : EqDecision RngDistributionV1. Proof. solve_decision. Defined.
#[export] Instance TransposeV1_eq_dec : EqDecision TransposeV1. Proof. solve_decision. Defined.
#[export] Instance ResultAccuracyModeV1_eq_dec : EqDecision ResultAccuracyModeV1. Proof. solve_decision. Defined.

#[export] Instance ComparisonDirectionV1_enum : Enum ComparisonDirectionV1 :=
  [(ComparisonDirectionV1_EQ, ("EQ", 0)); (ComparisonDirectionV1_NE, ("NE", 1)); (ComparisonDirectionV1_GE, ("GE", 2));
   (ComparisonDirectionV1_GT, ("GT", 3)); (ComparisonDirectionV1_LE, ("LE", 4)); (ComparisonDirectionV1_LT, ("LT", 5))].
#[export] Instance ComparisonTypeV1_enum : Enum ComparisonTypeV1 :=
  [(ComparisonTypeV1_NOTYPE, ("NOTYPE", 0)); (ComparisonTypeV1_FLOAT, ("FLOAT", 1));
   (ComparisonTypeV1_TOTALORDER, ("TOTALORDER", 2)); (ComparisonTypeV1_SIGNED, ("SIGNED", 3));
   (ComparisonTypeV1_UNSIGNED, ("UNSIGNED", 4))].
#[export] Instance CustomCallApiVersionV1_enum : Enum CustomCallApiVersionV1 :=
  [(CustomCallApiVersionV1_API_VERSION_UNSPECIFIED, ("API_VERSION_UNSPECIFIED", 0));
   (CustomCallApiVersionV1_API_VERSION_ORIGINAL, ("API_VERSION_ORIGINAL", 1));
   (CustomCallApiVersionV1_API_VERSION_STATUS_RETURNING, ("API_VERSION_STATUS_RETURNING", 2));
   (CustomCallApiVersionV1_API_VERSION_STATUS_RETURNING_UNIFIED, ("API_VERSION_STATUS_RETURNING_UNIFIED", 3));
   (CustomCallApiVersionV1_API_VERSION_TYPED_FFI, ("API_VERSION_TYPED_FFI", 4))].
#[export] Instance FftTypeV1_enum : Enum FftTypeV1 :=
  [(FftTypeV1_FFT, ("FFT", 0)); (FftTypeV1_IFFT, ("IFFT", 1)); (FftTypeV1_RFFT, ("RFFT", 2)); (FftTypeV1_IRFFT, ("IRFFT", 3))].
#[export] Instance PrecisionV1_enum : Enum PrecisionV1 :=
  [(PrecisionV1_DEFAULT, ("DEFAULT", 0)); (PrecisionV1_HIGH, ("HIGH", 1)); (PrecisionV1_HIGHEST, ("HIGHEST", 2))].
#[export] Instance RngAlgorithmV1_enum : Enum RngAlgorithmV1 :=
  [(RngAlgorithmV1_DEFAULT, ("DEFAULT", 0)); (RngAlgorithmV1_THREE_FRY, ("THREE_FRY", 1)); (RngAlgorithmV1_PHILOX, ("PHILOX", 2))].
#[export] Instance RngDistributionV1_enum : Enum RngDistributionV1 :=
  [(RngDistributionV1_UNIFORM, ("UNIFORM", 1)); (RngDistributionV1_NORMAL, ("NORMAL", 2))].
#[export] Instance TransposeV1_enum : Enum TransposeV1 :=
  [(TransposeV1_TRANSPOSE_INVALID, ("TRANSPOSE_INVALID", 0)); (TransposeV1_NO_TRANSPOSE, ("NO_TRANSPOSE", 1));
   (TransposeV1_TRANSPOSE, ("TRANSPOSE", 2)); (TransposeV1_ADJOINT, ("ADJOINT", 3))].
#[export] Instance ResultAccuracyModeV1_enum : Enum ResultAccuracyModeV1 :=
  [(ResultAccuracyModeV1_DEFAULT, ("DEFAULT", 0)); (ResultAccuracyModeV1_HIGHEST, ("HIGHEST", 1));
   (ResultAccuracyModeV1_TOLERANCE, ("TOLERANCE", 2))].

(** The laws of an enumeration hold case by case. *)
Ltac enum_laws := split; intros []; first [reflexivity | by cbv].

#[export] Instance ComparisonDirectionV1_laws : EnumLaws ComparisonDirectionV1. Proof. enum_laws. Qed.
#[export] Instance ComparisonTypeV1_laws : EnumLaws ComparisonTypeV1. Proof. enum_laws. Qed.
#[export] Instance CustomCallApiVersionV1_laws : EnumLaws CustomCallApiVersionV1. Proof. enum_laws. Qed.
#[export] Instance FftTypeV1_laws : EnumLaws FftTypeV1. Proof. enum_laws. Qed.
#[export] Instance PrecisionV1_laws : EnumLaws PrecisionV1. Proof. enum_laws. Qed.
#[export] Instance RngAlgorithmV1_laws : EnumLaws RngAlgorithmV1. Proof. enum_laws. Qed.
#[export] Instance RngDistributionV1_laws : EnumLaws RngDistributionV1. Proof. enum_laws. Qed.
#[export] Instance TransposeV1_laws : EnumLaws TransposeV1. Proof. enum_laws. Qed.
#[export] Instance ResultAccuracyModeV1_laws : EnumLaws ResultAccuracyModeV1. Proof. enum_laws. Qed.

(** ** Types and attributes *)
Section Dialect.
Context {L : LLVM}.

Inductive VhloType :=
| BooleanV1Type
| ComplexV1Type (elementType : VhloType)
| FloatBF16V1Type | FloatF16V1Type | FloatF32V1Type | FloatF64V1Type
| FloatF4E2M1FNV1Type | FloatF6E2M3FNV1Type | FloatF6E3M2FNV1Type
| FloatF8E3M4V1Type | FloatF8E4M3V1Type | FloatF8E4M3FNV1Type | FloatF8E5M2V1Type
| FloatF8E4M3FNUZV1Type | FloatF8E4M3B11FNUZV1Type | FloatF8E5M2FNUZV1Type | FloatF8E8M0FNUV1Type
| FloatTF32V1Type
| FunctionV1Type (inputs outputs : list VhloType)
| IndexV1Type
| IntegerSI2V1Type | IntegerSI4V1Type | IntegerSI8V1Type | IntegerSI16V1Type | IntegerSI32V1Type | IntegerSI64V1Type
| IntegerUI2V1Type | IntegerUI4V1Type | IntegerUI8V1Type | IntegerUI16V1Type | IntegerUI32V1Type | IntegerUI64V1Type
| NoneV1Type
| RankedTensorV1Type (shape : list Z) (elementType : VhloType) (encoding : option VhloAttr)
| TokenV1Type
| FutureV1Type (types : list VhloType)
| TupleV1Type (types : list VhloType)
| UniformQuantizedPerAxisV1Type (flags : Z) (storageType expressedType : VhloType) (quantizedDimension : Z)
    (scales : list APFloat) (zeroPoints : list Z) (storageTypeMin storageTypeMax : Z)
| UniformQuantizedV1Type (flags : Z) (storageType expressedType : VhloType) (scale : APFloat)
    (zeroPoint storageTypeMin storageTypeMax : Z)
| UnrankedTensorV1Type (elementType : VhloType)
| WitnessV1Type
| RankedBufferV1Type (shape : list Z) (elementType : VhloType)
| ForeignType (tag : Z)
with VhloAttr :=
| ArrayV1Attr (value : list VhloAttr)
| BooleanV1Attr (value : bool)
| ComparisonDirectionV1Attr (value : ComparisonDirectionV1)
| ComparisonTypeV1Attr (value : ComparisonTypeV1)
| CustomCallApiVersionV1Attr (value : CustomCallApiVersionV1)
| DictionaryV1Attr (value : list (VhloAttr * VhloAttr))
| FftTypeV1Attr (value : FftTypeV1)
| FloatV1Attr (type : VhloType) (value : APFloat)
| IntegerV1Attr (type : VhloType) (value : APInt)
| OutputOperandAliasV1Attr (outputTupleIndices : list Z) (operandIndex : Z) (operandTupleIndices : list Z)
| PrecisionV1Attr (value : PrecisionV1)
| RngAlgorithmV1Attr (value : RngAlgorithmV1)
| RngDistributionV1Attr (value : RngDistributionV1)
| StringV1Attr (value : string)
| TensorV1Attr (type : VhloType) (data : DenseElementsAttr)
| TransposeV1Attr (value : TransposeV1)
| TypeV1Attr (value : VhloType)
| TypeExtensionsV1Attr (bounds : list Z)
| ResultAccuracyModeV1Attr (value : ResultAccuracyModeV1)
| ResultAccuracyV1Attr (atol rtol : APFloat) (ulps : Z) (mode : VhloAttr)
| SubAxisInfoV1Attr (preSize size : Z)
| AxisRefV1Attr (name : VhloAttr) (subAxisInfo : option VhloAttr)
| ReplicaGroupMeshAxesV1Attr (mesh axes : VhloAttr)
| MeshAxisV1Attr (name : VhloAttr) (size : Z)
| MeshV1Attr (axes : VhloAttr) (deviceIds : option VhloAttr)
| ForeignAttr (tag : Z).

(** [isa<VhloDialect>(_.getDialect())] *)
Definition isVhloType (t : VhloType) : bool := match t with ForeignType _ => false | _ => true end.
Definition isVhloAttr (a : VhloAttr) : bool := match a with ForeignAttr _ => false | _ => true end.

(** ** What a type and an attribute mention *)
Definition type_types (t : VhloType) : list VhloType :=
  match t with
  | ComplexV1Type e | UnrankedTensorV1Type e | RankedTensorV1Type _ e _ | RankedBufferV1Type _ e => [e]
  | FunctionV1Type inputs outputs => inputs ++ outputs
  | FutureV1Type types | TupleV1Type types => types
  | UniformQuantizedPerAxisV1Type _ storage expressed _ _ _ _ _ | UniformQuantizedV1Type _ storage expressed _ _ _ _ =>
      [storage; expressed]
  | _ => []
  end.

Definition type_attrs (t : VhloType) : list VhloAttr :=
  match t with RankedTensorV1Type _ _ (Some encoding) => [encoding] | _ => [] end.

Definition attr_types (a : VhloAttr) : list VhloType :=
  match a with FloatV1Attr t _ | IntegerV1Attr t _ | TensorV1Attr t _ | TypeV1Attr t => [t] | _ => [] end.

Definition optional {A} (o : option A) : list A := match o with Some a => [a] | None => [] end.

Definition attr_attrs (a : VhloAttr) : list VhloAttr :=
  match a with
  | ArrayV1Attr value => value
  | DictionaryV1Attr value => flat_map (fun '(name, v) => [name; v]) value
  | ResultAccuracyV1Attr _ _ _ mode => [mode]
  | AxisRefV1Attr name subAxisInfo => name :: optional subAxisInfo
  | ReplicaGroupMeshAxesV1Attr mesh axes => [mesh; axes]
  | MeshAxisV1Attr name _ => [name]
  | MeshV1Attr axes deviceIds => axes :: optional deviceIds
  | _ => []
  end.

(** The depth of the nesting. *)
Fixpoint type_depth (t : VhloType) : nat :=
  match t with
  | ComplexV1Type e | UnrankedTensorV1Type e | RankedTensorV1Type _ e None | RankedBufferV1Type _ e => S (type_depth e)
  | RankedTensorV1Type _ e (Some encoding) => S (Nat.max (type_depth e) (attr_depth encoding))
  | FunctionV1Type inputs outputs => S (Nat.max (max_list (map type_depth inputs)) (max_list (map type_depth outputs)))
  | FutureV1Type types | TupleV1Type types => S (max_list (map type_depth types))
  | UniformQuantizedPerAxisV1Type _ storage expressed _ _ _ _ _ | UniformQuantizedV1Type _ storage expressed _ _ _ _ =>
      S (Nat.max (type_depth storage) (type_depth expressed))
  | _ => O
  end
with attr_depth (a : VhloAttr) : nat :=
  match a with
  | FloatV1Attr t _ | IntegerV1Attr t _ | TensorV1Attr t _ | TypeV1Attr t => S (type_depth t)
  | ArrayV1Attr value => S (max_list (map attr_depth value))
  | DictionaryV1Attr value => S (max_list (map (fun '(name, v) => Nat.max (attr_depth name) (attr_depth v)) value))
  | ResultAccuracyV1Attr _ _ _ b | MeshAxisV1Attr b _ | AxisRefV1Attr b None | MeshV1Attr b None => S (attr_depth b)
  | AxisRefV1Attr b (Some c) | MeshV1Attr b (Some c) | ReplicaGroupMeshAxesV1Attr b c =>
      S (Nat.max (attr_depth b) (attr_depth c))
  | _ => O
  end.

Lemma max_list_le n l : n ∈ l -> (n <= max_list l)%nat.
Proof. induction 1 as [|x y l H IH]; cbn; lia. Qed.

Lemma max_list_map_le {A} (f : A -> nat) x l : x ∈ l -> (f x <= max_list (map f l))%nat.
Proof. intros H. by apply max_list_le, (list_elem_of_fmap_2 f). Qed.

Lemma max_list_pairs_le {A} (f : A -> nat) x (l : list (A * A)) : x ∈ flat_map (fun '(a, b) => [a; b]) l ->
  (f x <= max_list (map (fun '(a, b) => Nat.max (f a) (f b)) l))%nat.
Proof.
  intros H. apply list_elem_of_In, in_flat_map in H as ([a b] & H & Hx%list_elem_of_In). apply list_elem_of_In in H.
  apply (max_list_map_le (fun '(a, b) => Nat.max (f a) (f b))) in H. rewrite !elem_of_cons in Hx.
  destruct_or?; subst; try (by apply elem_of_nil in Hx); lia.
Qed.

Ltac depths :=
  repeat match goal with o : option _ |- _ => destruct o end;
  cbn [type_types type_attrs attr_types attr_attrs type_depth attr_depth optional];
  rewrite ?elem_of_app, ?elem_of_cons; intros H; destruct_or?; subst;
  first [by apply elem_of_nil in H | lia
        | apply (max_list_map_le type_depth) in H; lia | apply (max_list_map_le attr_depth) in H; lia
        | apply (max_list_pairs_le attr_depth) in H; lia].

Lemma type_types_depth t x : x ∈ type_types t -> (type_depth x < type_depth t)%nat.
Proof. destruct t; depths. Qed.
Lemma type_attrs_depth t a : a ∈ type_attrs t -> (attr_depth a < type_depth t)%nat.
Proof. destruct t; depths. Qed.
Lemma attr_types_depth a t : t ∈ attr_types a -> (type_depth t < attr_depth a)%nat.
Proof. destruct a; depths. Qed.
Lemma attr_attrs_depth a x : x ∈ attr_attrs a -> (attr_depth x < attr_depth a)%nat.
Proof. destruct a; depths. Qed.
End Dialect.
