(* ===== verification/VhloTypes.v ===== *)
(** * Conversion of types between MLIR and VHLO

    [src/stablehlo/dialect/VhloTypes.cpp] and the type converters that derive from
    [VhloTypeConverter].  [Failed] is the null type, and a null type passed to
    the constructor of a complex type is [UB]. *)
From S2P Require Import Prelude Types Support Tensor Vhlo.

Section Conversions.
Context {L : LLVM}.

(** The value of a conversion that is used without a test. *)
Definition unchecked {A} (r : result A) : result A :=
  match r with Err (Failed _) => Err (UB "null type") | _ => r end.

Definition null_type {A} : result A := Err (Failed "no conversion").

(** ** MLIR to VHLO *)
Definition convertBuiltinIntegerType (signedness : Signedness) (width : Z) : result VhloType :=
  match signedness with
  | Signed => null_type
  | _ =>
      let isSignless := match signedness with Signless => true | _ => false end in
      if (width =? 1) && isSignless then Ok BooleanV1Type
      else if width =? 2 then Ok (if isSignless then IntegerSI2V1Type else IntegerUI2V1Type)
      else if width =? 4 then Ok (if isSignless then IntegerSI4V1Type else IntegerUI4V1Type)
      else if width =? 8 then Ok (if isSignless then IntegerSI8V1Type else IntegerUI8V1Type)
      else if width =? 16 then Ok (if isSignless then IntegerSI16V1Type else IntegerUI16V1Type)
      else if width =? 32 then Ok (if isSignless then IntegerSI32V1Type else IntegerUI32V1Type)
      else if width =? 64 then Ok (if isSignless then IntegerSI64V1Type else IntegerUI64V1Type)
      else null_type
  end.

Definition convertBuiltinFloatType (kind : FloatKind) : result VhloType :=
  match kind with
  | BFloat16 => Ok FloatBF16V1Type
  | Float16 => Ok FloatF16V1Type
  | Float32 => Ok FloatF32V1Type
  | Float64 => Ok FloatF64V1Type
  | Float4E2M1FN => Ok FloatF4E2M1FNV1Type
  | Float6E2M3FN => Ok FloatF6E2M3FNV1Type
  | Float6E3M2FN => Ok FloatF6E3M2FNV1Type
  | Float8E3M4 => Ok FloatF8E3M4V1Type
  | Float8E4M3 => Ok FloatF8E4M3V1Type
  | Float8E4M3FN => Ok FloatF8E4M3FNV1Type
  | Float8E5M2 => Ok FloatF8E5M2V1Type
  | Float8E4M3FNUZ => Ok FloatF8E4M3FNUZV1Type
  | Float8E4M3B11FNUZ => Ok FloatF8E4M3B11FNUZV1Type
  | Float8E5M2FNUZ => Ok FloatF8E5M2FNUZV1Type
  | Float8E8M0FNU => Ok FloatF8E8M0FNUV1Type
  | FloatTF32 => Ok FloatTF32V1Type
  | Float80 | Float128 => null_type
  end.

Section ToVhlo.
(** The virtual [convertEncoding], and whether types of other dialects pass. *)
Context (convertEncoding : Encoding -> result VhloAttr) (allowOtherDialects : bool).

Fixpoint builtinToVhlo (type : Ty) : result VhloType :=
  match type with
  | FloatType kind => convertBuiltinFloatType kind
  | ComplexType e => e ← unchecked (builtinToVhlo e); Ok (ComplexV1Type e)
  | FunctionType inputs results =>
      inputs ← mapM builtinToVhlo inputs;
      results ← mapM builtinToVhlo results;
      Ok (FunctionV1Type inputs results)
  | IndexType => Ok IndexV1Type
  | IntegerType signedness width => convertBuiltinIntegerType signedness width
  | NoneType => Ok NoneV1Type
  | RankedTensorType shape e encoding =>
      encoding ← match encoding with None => Ok None | Some a => a ← convertEncoding a; Ok (Some a) end;
      e ← builtinToVhlo e;
      Ok (RankedTensorV1Type shape e encoding)
  | TupleType types => types ← mapM builtinToVhlo types; Ok (TupleV1Type types)
  | QuantizedType flags storage min max expressed None [scale] [zeroPoint] =>
      storage ← builtinToVhlo storage;
      expressed ← builtinToVhlo expressed;
      Ok (UniformQuantizedV1Type flags storage expressed (apfloat_of_double scale) zeroPoint min max)
  | QuantizedType _ _ _ _ _ None _ _ => null_type
  | QuantizedType flags storage min max expressed (Some dimension) scales zeroPoints =>
      storage ← builtinToVhlo storage;
      expressed ← builtinToVhlo expressed;
      Ok (UniformQuantizedPerAxisV1Type flags storage expressed dimension (map apfloat_of_double scales) zeroPoints min max)
  | UnrankedTensorType e => e ← builtinToVhlo e; Ok (UnrankedTensorV1Type e)
  | WitnessType => Ok WitnessV1Type
  | MemRefType shape e _ _ => e ← builtinToVhlo e; Ok (RankedBufferV1Type shape e)
  | TokenType => Ok TokenV1Type
  | FutureType types => types ← mapM builtinToVhlo types; Ok (FutureV1Type types)
  | OtherType tag => if allowOtherDialects then Ok (ForeignType tag) else null_type
  end.
End ToVhlo.

(** ** VHLO to MLIR *)
Section ToBuiltin.
(** The virtual [convertEncoding], and whether the converter is the one to
    StableHLO, which adds the token and future types and lets other types pass. *)
Context (convertEncoding : VhloAttr -> result Encoding) (stablehlo : bool).

Fixpoint vhloToBuiltin (type : VhloType) : result Ty :=
  match type with
  | BooleanV1Type => Ok (IntegerType Signless 1)
  | ComplexV1Type e => e ← unchecked (vhloToBuiltin e); Ok (ComplexType e)
  | FloatBF16V1Type => Ok (FloatType BFloat16)
  | FloatF16V1Type => Ok (FloatType Float16)
  | FloatF32V1Type => Ok (FloatType Float32)
  | FloatF64V1Type => Ok (FloatType Float64)
  | FloatF4E2M1FNV1Type => Ok (FloatType Float4E2M1FN)
  | FloatF6E2M3FNV1Type => Ok (FloatType Float6E2M3FN)
  | FloatF6E3M2FNV1Type => Ok (FloatType Float6E3M2FN)
  | FloatF8E3M4V1Type => Ok (FloatType Float8E3M4)
  | FloatF8E4M3V1Type => Ok (FloatType Float8E4M3)
  | FloatF8E4M3FNV1Type => Ok (FloatType Float8E4M3FN)
  | FloatF8E5M2V1Type => Ok (FloatType Float8E5M2)
  | FloatF8E4M3FNUZV1Type => Ok (FloatType Float8E4M3FNUZ)
  | FloatF8E4M3B11FNUZV1Type => Ok (FloatType Float8E4M3B11FNUZ)
  | FloatF8E5M2FNUZV1Type => Ok (FloatType Float8E5M2FNUZ)
  | FloatF8E8M0FNUV1Type => Ok (FloatType Float8E8M0FNU)
  | FloatTF32V1Type => Ok (FloatType FloatTF32)
  | FunctionV1Type inputs outputs =>
      inputs ← mapM vhloToBuiltin inputs;
      outputs ← mapM vhloToBuiltin outputs;
      Ok (FunctionType inputs outputs)
  | IndexV1Type => Ok IndexType
  | IntegerSI2V1Type => Ok (IntegerType Signless 2)
  | IntegerSI4V1Type => Ok (IntegerType Signless 4)
  | IntegerSI8V1Type => Ok (IntegerType Signless 8)
  | IntegerSI16V1Type => Ok (IntegerType Signless 16)
  | IntegerSI32V1Type => Ok (IntegerType Signless 32)
  | IntegerSI64V1Type => Ok (IntegerType Signless 64)
  | IntegerUI2V1Type => Ok (IntegerType Unsigned 2)
  | IntegerUI4V1Type => Ok (IntegerType Unsigned 4)
  | IntegerUI8V1Type => Ok (IntegerType Unsigned 8)
  | IntegerUI16V1Type => Ok (IntegerType Unsigned 16)
  | IntegerUI32V1Type => Ok (IntegerType Unsigned 32)
  | IntegerUI64V1Type => Ok (IntegerType Unsigned 64)
  | NoneV1Type => Ok NoneType
  | RankedTensorV1Type shape e encoding =>
      encoding ← match encoding with None => Ok None | Some a => a ← convertEncoding a; Ok (Some a) end;
      e ← vhloToBuiltin e;
      Ok (RankedTensorType shape e encoding)
  | TupleV1Type types => types ← mapM vhloToBuiltin types; Ok (TupleType types)
  | UniformQuantizedV1Type flags storage expressed scale zeroPoint min max =>
      storage ← vhloToBuiltin storage;
      expressed ← vhloToBuiltin expressed;
      Ok (QuantizedType flags storage min max expressed None [convertToDouble scale] [zeroPoint])
  | UniformQuantizedPerAxisV1Type flags storage expressed dimension scales zeroPoints min max =>
      storage ← vhloToBuiltin storage;
      expressed ← vhloToBuiltin expressed;
      Ok (QuantizedType flags storage min max expressed (Some dimension) (map convertToDouble scales) zeroPoints)
  | UnrankedTensorV1Type e => e ← vhloToBuiltin e; Ok (UnrankedTensorType e)
  | WitnessV1Type => Ok WitnessType
  | RankedBufferV1Type shape e => e ← vhloToBuiltin e; Ok (MemRefType shape e None None)
  | TokenV1Type => if stablehlo then Ok TokenType else null_type
  | FutureV1Type types => if stablehlo then types ← mapM vhloToBuiltin types; Ok (FutureType types) else null_type
  | ForeignType tag => if stablehlo then Ok (OtherType tag) else null_type
  end.
End ToBuiltin.
End Conversions.

(** ** Induction over types, through the lists in them *)
Section Ty_induction.
Context (P : Ty -> Prop).
Definition parts (t : Ty) : list Ty :=
  match t with
  | ComplexType e | RankedTensorType _ e _ | UnrankedTensorType e | MemRefType _ e _ _ => [e]
  | QuantizedType _ storage _ _ expressed _ _ _ => [storage; expressed]
  | TupleType types | FutureType types => types
  | FunctionType inputs results => inputs ++ results
  | _ => []
  end.

Context (step : forall t, Forall P (parts t) -> P t).

Definition all_of (IH : forall t, P t) : forall l, Forall P l :=
  fix go l := match l with [] => Forall_nil_2 P | x :: l => Forall_cons_2 P x l (IH x) (go l) end.

Fixpoint Ty_parts_ind (t : Ty) : P t :=
  step t
    match t return Forall P (parts t) with
    | ComplexType e | RankedTensorType _ e _ | UnrankedTensorType e | MemRefType _ e _ _ => all_of Ty_parts_ind [e]
    | QuantizedType _ storage _ _ expressed _ _ _ => all_of Ty_parts_ind [storage; expressed]
    | TupleType types | FutureType types => all_of Ty_parts_ind types
    | FunctionType inputs results => Forall_app_2 P _ _ (all_of Ty_parts_ind inputs) (all_of Ty_parts_ind results)
    | _ => Forall_nil_2 P
    end.
End Ty_induction.

(** [Q] holds of a type and of everything in it. *)
Inductive everywhere (Q : Ty -> Prop) (t : Ty) : Prop :=
| Everywhere (here : Q t) (below : Forall (everywhere Q) (parts t)).

(** The scales of a quantized type are doubles; a buffer has the identity layout and the
    default memory space, which VHLO has no place for. *)
Definition vhlo_keeps (t : Ty) : Prop :=
  match t with
  | QuantizedType _ _ _ _ _ _ scales _ => Forall (fun d => 0 <= double_bits d < 2 ^ 64) scales
  | MemRefType _ _ layout memorySpace => layout = None /\ memorySpace = None
  | _ => True
  end.

(** ** Round trips *)
Section RoundTrip.
Context {L : LLVM} {Laws : LLVMLaws L}.
Context (toVhlo : Encoding -> result VhloAttr) (toMlir : VhloAttr -> result Encoding).

Lemma bind_inv {A B} (m : result A) (k : A -> result B) b : m ≫= k = Ok b -> exists a, m = Ok a /\ k a = Ok b.
Proof. destruct m as [a|]; [|done]. intros H. by exists a. Qed.

Lemma unchecked_inv {A} (m : result A) a : unchecked m = Ok a -> m = Ok a.
Proof. by destruct m as [|[]]. Qed.

Lemma mapM_inverse {A B} (f : A -> result B) (g : B -> result A) l l' :
  Forall (fun x => forall y, f x = Ok y -> g y = Ok x) l -> mapM f l = Ok l' -> mapM g l' = Ok l.
Proof.
  intros H. revert l'. induction H as [|x l Hx H IH]; intros l'; [by intros [= <-]|].
  cbn [mapM]. intros (y & Hy & (k & Hk & [= <-])%bind_inv)%bind_inv.
  cbn [mapM]. rewrite (Hx y Hy). cbn. by rewrite (IH k Hk).
Qed.

Lemma Forall_one {A} (P : A -> Prop) x : Forall P [x] -> P x.
Proof. intros H. by inversion H. Qed.

Lemma doubles_round_trip scales : Forall (fun d => 0 <= double_bits d < 2 ^ 64) scales ->
  map convertToDouble (map apfloat_of_double scales) = scales.
Proof. induction 1 as [|d l Hd H IH]; [done|]. cbn. by rewrite to_of_double, IH. Qed.

Lemma integer_round_trip s w t : convertBuiltinIntegerType s w = Ok t -> vhloToBuiltin toMlir true t = Ok (IntegerType s w).
Proof.
  unfold convertBuiltinIntegerType. destruct s; [|done|];
    repeat match goal with |- context[if ?b then _ else _] => destruct b eqn:?E end; try done; intros [= <-]; cbn;
    repeat f_equal; lia.
Qed.

Lemma float_round_trip k t : convertBuiltinFloatType k = Ok t -> vhloToBuiltin toMlir true t = Ok (FloatType k).
Proof. by destruct k; intros [= <-]. Qed.

Lemma types_round_trip allow t t' :
  (forall e a, toVhlo e = Ok a -> toMlir a = Ok e) -> everywhere vhlo_keeps t ->
  builtinToVhlo toVhlo allow t = Ok t' -> vhloToBuiltin toMlir true t' = Ok t.
Proof.
  intros He. revert t'. induction t as [t IH] using Ty_parts_ind. intros t' [Hq Hs] E.
  assert (H : Forall (fun t => forall t', builtinToVhlo toVhlo allow t = Ok t' -> vhloToBuiltin toMlir true t' = Ok t) (parts t)).
  { rewrite Forall_forall in IH, Hs |- *. eauto. }
  clear IH Hs. destruct t; cbn [builtinToVhlo parts] in E, H.
  - by apply integer_round_trip.
  - by apply float_round_trip.
  - by injection E as <-.
  - apply bind_inv in E as (e & Ee%unchecked_inv & [= <-]). apply Forall_one in H. cbn [vhloToBuiltin]. by rewrite (H _ Ee).
  - apply Forall_cons in H as [Hst Hex%Forall_one]. destruct quantizedDimension as [dimension|].
    + apply bind_inv in E as (s & Es & (x & Ex & [= <-])%bind_inv). cbn [vhloToBuiltin].
      rewrite (Hst _ Es), (Hex _ Ex). cbn. by rewrite doubles_round_trip.
    + destruct scales as [|scale []], zeroPoints as [|zero []]; try done.
      apply bind_inv in E as (s & Es & (x & Ex & [= <-])%bind_inv). cbn [vhloToBuiltin]. rewrite (Hst _ Es), (Hex _ Ex). cbn.
      apply Forall_one in Hq. by rewrite to_of_double.
  - by injection E as <-.
  - apply bind_inv in E as (l & El & [= <-]). cbn [vhloToBuiltin]. by rewrite (mapM_inverse _ _ _ _ H El).
  - apply Forall_one in H. apply bind_inv in E as (a & Ea & (e & Ee & [= <-])%bind_inv). cbn [vhloToBuiltin]. rewrite (H _ Ee).
    destruct encoding as [encoding|]; [apply bind_inv in Ea as (b & Eb & [= <-]); cbn; by rewrite (He _ _ Eb)|by injection Ea as <-].
  - apply Forall_one in H. apply bind_inv in E as (e & Ee & [= <-]). cbn [vhloToBuiltin]. by rewrite (H _ Ee).
  - destruct Hq as [-> ->]. apply Forall_one in H. apply bind_inv in E as (e & Ee & [= <-]). cbn [vhloToBuiltin]. by rewrite (H _ Ee).
  - apply Forall_app in H as [Hi Hr]. apply bind_inv in E as (i & Ei & (r & Er & [= <-])%bind_inv). cbn [vhloToBuiltin].
    rewrite (mapM_inverse _ _ _ _ Hi Ei). cbn. by rewrite (mapM_inverse _ _ _ _ Hr Er).
  - apply bind_inv in E as (l & El & [= <-]). cbn [vhloToBuiltin]. by rewrite (mapM_inverse _ _ _ _ H El).
  - by injection E as <-.
  - by injection E as <-.
  - destruct allow; [|done]. by injection E as <-.
Qed.
End RoundTrip.

(** ** Encodings

    The [convertEncoding] of [StablehloToVhloTypeConverter] and of
    [VhloToStablehloTypeConverter].  An encoding other than the bounds of a tensor is
    known by its identity; [vhlo_encoding] finds the VHLO attribute it is, if it is one. *)
Section Encodings.
Context {L : LLVM} {Laws : LLVMLaws L}.
Context (vhlo_encoding : Z -> option VhloAttr) (attr_identity : VhloAttr -> Z).

Definition stablehloToVhloEncoding (encoding : Encoding) : result VhloAttr :=
  match encoding with
  | TypeExtensions bounds => Ok (TypeExtensionsV1Attr bounds)
  | OtherEncoding tag => ok_or (vhlo_encoding tag) (Failed "no conversion")
  end.

Definition vhloToStablehloEncoding (attr : VhloAttr) : result Encoding :=
  match attr with
  | TypeExtensionsV1Attr bounds => Ok (TypeExtensions bounds)
  | _ => Ok (OtherEncoding (attr_identity attr))
  end.

Definition stablehloToVhloType (allowOtherDialects : bool) : Ty -> result VhloType :=
  builtinToVhlo stablehloToVhloEncoding allowOtherDialects.
Definition vhloToStablehloType : VhloType -> result Ty := vhloToBuiltin vhloToStablehloEncoding true.

(** The attribute found for an identity has that identity, and the bounds of a
    StableHLO tensor are not in VHLO yet. *)
Definition identities_ok : Prop := forall tag a, vhlo_encoding tag = Some a ->
  attr_identity a = tag /\ forall bounds, a <> TypeExtensionsV1Attr bounds.

Lemma encoding_round_trip : identities_ok ->
  forall e a, stablehloToVhloEncoding e = Ok a -> vhloToStablehloEncoding a = Ok e.
Proof.
  intros H [bounds|tag] a; cbn; [by intros [= <-]|]. destruct (vhlo_encoding tag) as [b|] eqn:E; [|done].
  intros [= <-]. destruct (H tag b E) as [Ht Hb]. destruct b; try (cbn; by rewrite Ht). by destruct (Hb bounds).
Qed.

Lemma stablehlo_type_round_trip allow t t' : identities_ok -> everywhere vhlo_keeps t ->
  stablehloToVhloType allow t = Ok t' -> vhloToStablehloType t' = Ok t.
Proof. intros H. apply types_round_trip. by apply encoding_round_trip. Qed.

(** A buffer with a layout or a memory space is converted, and comes back without it. *)
Lemma buffer_layout_is_lost allow shape e e' layout memorySpace : identities_ok -> everywhere vhlo_keeps e ->
  stablehloToVhloType allow e = Ok e' ->
  exists t', stablehloToVhloType allow (MemRefType shape e layout memorySpace) = Ok t' /\
    vhloToStablehloType t' = Ok (MemRefType shape e None None).
Proof.
  intros Hi He H. pose proof (stablehlo_type_round_trip _ _ _ Hi He H) as Hb. exists (RankedBufferV1Type shape e').
  unfold stablehloToVhloType, vhloToStablehloType in *. cbn [builtinToVhlo vhloToBuiltin]. rewrite H, Hb. by split.
Qed.

(** C26: A type that passes to VHLO comes back the same, as long as the buffers in it
    have the identity layout and the default memory space: every such StableHLO and
    builtin type, at any depth of nesting, that [StablehloToVhloTypeConverter] converts
    is what [VhloToStablehloTypeConverter] makes of the result, with its encoding, the
    signedness and width of its integers and the parameters of its quantization. *)
Theorem type_to_vhlo_round_trip allow t t' : identities_ok -> everywhere vhlo_keeps t ->
  stablehloToVhloType allow t = Ok t' -> vhloToStablehloType t' = Ok t.
Proof. apply stablehlo_type_round_trip. Qed.
End Encodings.

(** ** Witness *)
Import Concrete.

(** A function of a bounded tensor of quantized bytes and a future of booleans. *)
Definition sample_type : Ty :=
  FunctionType
    [RankedTensorType [2; int64_min] (QuantizedType 1 (IntegerType Signless 8) (-128) 127 (FloatType Float32) None [Double 7] [3])
       (Some (TypeExtensions [int64_min; 5]));
     FutureType [RankedTensorType [] (IntegerType Signless 1) None]]
    [TupleType [ComplexType (FloatType Float64); TokenType; IntegerType Unsigned 4]].

Ltac every :=
  apply Everywhere;
    [first [exact I | apply Forall_cons_2; [vm_compute; by split|apply Forall_nil_2]]
    |cbn [parts app]; repeat (apply Forall_cons_2; [every|]); apply Forall_nil_2].

Lemma type_to_vhlo_round_trip_witness : exists t',
  stablehloToVhloType (fun _ => None) false sample_type = Ok t' /\ vhloToStablehloType (fun _ => 0) t' = Ok sample_type.
Proof.
  eexists. split; [reflexivity|]. apply (type_to_vhlo_round_trip (fun _ => None) (fun _ => 0) false); [done| |reflexivity].
  every.
Defined.
