(* ===== verification/VhloBytecode.v ===== *)
(** * The bytecode of VHLO

    [src/stablehlo/dialect/VhloBytecode.cpp]: how the attributes and types of the
    dialect are written to and read from MLIR bytecode.  What a writer writes is a
    list of integers, its bytes. *)
From S2P Require Import Prelude Types Support Tensor Base TypeInference Vhlo VhloTypes.

(** ** Readers *)
Definition Reader (A : Type) : Type := list Z -> result (A * list Z).
#[export] Instance reader_ret : MRet Reader := fun A a s => Ok (a, s).
#[export] Instance reader_bind : MBind Reader := fun A B k m s => match m s with Ok (a, s) => k a s | Err e => Err e end.
#[export] Instance reader_lift : MLift Reader := fun A m s => match m with Ok a => Ok (a, s) | Err e => Err e end.
Definition fails {A} (msg : string) : Reader A := lift (Err (Failed msg)).

(** [DialectBytecodeWriter] and [DialectBytecodeReader], and the raw storage of the
    elements of an attribute.  A list is given by what its elements are written as. *)
Class MlirBytecode {L : LLVM} := {
  writeVarInt : Z -> list Z;
  readVarInt : Reader Z;
  writeSignedVarInt : Z -> list Z;
  readSignedVarInt : Reader Z;
  writeOwnedString : string -> list Z;
  readString : Reader string;
  writeOwnedBool : bool -> list Z;
  readBool : Reader bool;
  writeBlob : list Z -> list Z;
  readBlob : Reader (list Z);
  writeAPIntWithKnownWidth : APInt -> list Z;
  readAPIntWithKnownWidth : Z -> Reader APInt;
  writeAPFloatWithKnownSemantics : APFloat -> list Z;
  readAPFloatWithKnownSemantics : FloatKind -> Reader APFloat;
  writeItems : list (list Z) -> list Z;
  readItems : forall A, Reader A -> Reader (list A);
  getRawData : DenseElementsAttr -> list Z;
  getFromRawBuffer : ShapedType -> list Z -> result DenseElementsAttr;
  (** the identity of an attribute, for an encoding that stays a VHLO attribute *)
  attr_tag : VhloAttr -> Z;
}.
Arguments readItems {L _ A}.

(** ** Codes *)
Inductive AttributeCode :=
| kArrayV1Attr | kBooleanV1Attr | kComparisonDirectionV1Attr | kComparisonTypeV1Attr | kCustomCallApiVersionV1Attr
| kDictionaryV1Attr | kFftTypeV1Attr | kFloatV1Attr | kIntegerV1Attr | kOutputOperandAliasV1Attr | kPrecisionV1Attr
| kRngAlgorithmV1Attr | kRngDistributionV1Attr | kStringV1Attr | kTensorV1Attr | kTransposeV1Attr | kTypeV1Attr
| kTypeExtensionsV1Attr | kResultAccuracyModeV1Attr | kResultAccuracyV1Attr | kSubAxisInfoV1Attr | kAxisRefV1Attr
| kReplicaGroupMeshAxesV1Attr | kMeshAxisV1Attr | kMeshV1Attr.

Definition attribute_codes : list (AttributeCode * Z) :=
  [(kArrayV1Attr, 1); (kBooleanV1Attr, 2); (kComparisonDirectionV1Attr, 3); (kComparisonTypeV1Attr, 4);
   (kCustomCallApiVersionV1Attr, 5); (kDictionaryV1Attr, 6); (kFftTypeV1Attr, 7); (kFloatV1Attr, 8); (kIntegerV1Attr, 9);
   (kOutputOperandAliasV1Attr, 10); (kPrecisionV1Attr, 11); (kRngAlgorithmV1Attr, 12); (kRngDistributionV1Attr, 13);
   (kStringV1Attr, 14); (kTensorV1Attr, 15); (kTransposeV1Attr, 16); (kTypeV1Attr, 17); (kTypeExtensionsV1Attr, 18);
   (kResultAccuracyModeV1Attr, 19); (kResultAccuracyV1Attr, 20); (kSubAxisInfoV1Attr, 21); (kAxisRefV1Attr, 22);
   (kReplicaGroupMeshAxesV1Attr, 23); (kMeshAxisV1Attr, 24); (kMeshV1Attr, 25)].

Inductive TypeCode :=
| kBooleanV1Type | kComplexV1Type | kFloatBF16V1Type | kFloatF16V1Type | kFloatF32V1Type | kFloatF64V1Type
| kFloatF8E3M4V1Type | kFloatF8E4M3V1Type | kFloatF8E4M3FNV1Type | kFloatF8E5M2V1Type | kFloatTF32V1Type
| kFunctionV1Type | kIndexV1Type | kIntegerSI2V1Type | kIntegerSI4V1Type | kIntegerSI8V1Type | kIntegerSI16V1Type
| kIntegerSI32V1Type | kIntegerSI64V1Type | kIntegerUI2V1Type | kIntegerUI4V1Type | kIntegerUI8V1Type
| kIntegerUI16V1Type | kIntegerUI32V1Type | kIntegerUI64V1Type | kRankedTensorV1Type | kRankedTensorV1TypeWithEncoding
| kTokenV1Type | kTupleV1Type | kUniformQuantizedV1Type | kUnrankedTensorV1Type | kWitnessV1Type
| kFloatF4E2M1FNV1Type | kFloatF6E2M3FNV1Type | kFloatF6E3M2FNV1Type | kFloatF8E4M3FNUZV1Type
| kFloatF8E5M2FNUZV1Type | kFloatF8E4M3B11FNUZV1Type | kFloatF8E8M0FNUV1Type | kUniformQuantizedPerAxisV1Type
| kRankedBufferV1Type | kNoneV1Type | kFutureV1Type.

Definition type_codes : list (TypeCode * Z) :=
  [(kBooleanV1Type, 0); (kComplexV1Type, 1); (kFloatBF16V1Type, 2); (kFloatF16V1Type, 3); (kFloatF32V1Type, 4);
   (kFloatF64V1Type, 5); (kFloatF8E3M4V1Type, 36); (kFloatF8E4M3V1Type, 35); (kFloatF8E4M3FNV1Type, 6);
   (kFloatF8E5M2V1Type, 7); (kFloatTF32V1Type, 34); (kFunctionV1Type, 8); (kIndexV1Type, 9); (kIntegerSI2V1Type, 31);
   (kIntegerSI4V1Type, 10); (kIntegerSI8V1Type, 11); (kIntegerSI16V1Type, 12); (kIntegerSI32V1Type, 13);
   (kIntegerSI64V1Type, 14); (kIntegerUI2V1Type, 32); (kIntegerUI4V1Type, 15); (kIntegerUI8V1Type, 16);
   (kIntegerUI16V1Type, 17); (kIntegerUI32V1Type, 18); (kIntegerUI64V1Type, 19); (kRankedTensorV1Type, 20);
   (kRankedTensorV1TypeWithEncoding, 21); (kTokenV1Type, 22); (kTupleV1Type, 23); (kUniformQuantizedV1Type, 24);
   (kUnrankedTensorV1Type, 25); (kWitnessV1Type, 26); (kFloatF4E2M1FNV1Type, 37); (kFloatF6E2M3FNV1Type, 38);
   (kFloatF6E3M2FNV1Type, 39); (kFloatF8E4M3FNUZV1Type, 27); (kFloatF8E5M2FNUZV1Type, 28);
   (kFloatF8E4M3B11FNUZV1Type, 29); (kFloatF8E8M0FNUV1Type, 40); (kUniformQuantizedPerAxisV1Type, 30);
   (kRankedBufferV1Type, 41); (kNoneV1Type, 33); (kFutureV1Type, 42)].

#[export] Instance AttributeCode_eq_dec : EqDecision AttributeCode.
Proof. solve_decision. Defined.
#[export] Instance TypeCode_eq_dec : EqDecision TypeCode.
Proof. solve_decision. Defined.

(** The number of a code in a table, and the [switch] over a number. *)
Definition code_value {A} `{EqDecision A} (codes : list (A * Z)) (c : A) : Z :=
  default 0 (snd <$> find (fun p => bool_decide (p.1 = c)) codes).
Definition code_of {A} (codes : list (A * Z)) (n : Z) : option A := fst <$> find (fun p => p.2 =? n) codes.
Definition attribute_code : AttributeCode -> Z := code_value attribute_codes.
Definition type_code : TypeCode -> Z := code_value type_codes.

Section Bytecode.
Context {L : LLVM} {M : MlirBytecode}.

(** The conversions of C++ integers on the way. *)
Definition uint32 (n : Z) : Z := n mod 2 ^ 32.
Definition int32 (n : Z) : Z := (n + 2 ^ 31) mod 2 ^ 32 - 2 ^ 31.
Definition uint64 (n : Z) : Z := n mod 2 ^ 64.

(** [hlo::bytecode] of [Base.h] *)
Definition readEnumAttribute {A B} `{Enum A} (get : A -> B) : Reader B :=
  code ← readVarInt;
  match symbolize (uint32 code) with Some a => mret (get a) | None => fails "no such case" end.
Definition writeEnumAttribute {A} `{Enum A} (a : A) : list Z := writeVarInt (uint32 (enum_value a)).

(** ** Lists *)
Definition writeSignedVarInts (l : list Z) : list Z := writeItems (map writeSignedVarInt l).
Definition readSignedVarInts : Reader (list Z) := readItems readSignedVarInt.

(** ** Numbers in attributes *)
Definition getFloatSemantics (type : VhloType) : result FloatKind :=
  match type with
  | FloatBF16V1Type => Ok BFloat16
  | FloatF16V1Type => Ok Float16
  | FloatF32V1Type => Ok Float32
  | FloatF4E2M1FNV1Type => Ok Float4E2M1FN
  | FloatF64V1Type => Ok Float64
  | FloatF6E2M3FNV1Type => Ok Float6E2M3FN
  | FloatF6E3M2FNV1Type => Ok Float6E3M2FN
  | FloatF8E3M4V1Type => Ok Float8E3M4
  | FloatF8E4M3FNUZV1Type => Ok Float8E4M3FNUZ
  | FloatF8E4M3B11FNUZV1Type => Ok Float8E4M3B11FNUZ
  | FloatF8E4M3FNV1Type => Ok Float8E4M3FN
  | FloatF8E4M3V1Type => Ok Float8E4M3
  | FloatF8E5M2FNUZV1Type => Ok Float8E5M2FNUZ
  | FloatF8E5M2V1Type => Ok Float8E5M2
  | FloatF8E8M0FNUV1Type => Ok Float8E8M0FNU
  | FloatTF32V1Type => Ok FloatTF32
  | _ => Err (Fatal "unsupported floating-point type")
  end.

Definition getBitWidthForIntegerType (type : VhloType) : result Z :=
  match type with
  | IntegerSI4V1Type | IntegerUI4V1Type => Ok 4
  | IntegerSI8V1Type | IntegerUI8V1Type => Ok 8
  | IntegerSI16V1Type | IntegerUI16V1Type => Ok 16
  | IntegerSI32V1Type | IntegerUI32V1Type => Ok 32
  | IntegerSI64V1Type | IntegerUI64V1Type => Ok 64
  | _ => Err (Fatal "unsupported integer type")
  end.

(** [IndexType::kInternalStorageBitWidth] *)
Definition kInternalStorageBitWidth : Z := 64.

Definition integer_bit_width (type : VhloType) : result Z :=
  match type with IndexV1Type => Ok kInternalStorageBitWidth | _ => getBitWidthForIntegerType type end.

(** ** The elements of a tensor *)
Definition isBooleanType (type : VhloType) : bool :=
  match type with RankedTensorV1Type _ BooleanV1Type _ => true | _ => false end.

(** [cast<RankedTensorV1Type>(type).getNumElements()] *)
Definition ranked_num_elements (type : VhloType) : result Z :=
  match type with
  | RankedTensorV1Type shape _ _ =>
      if existsb isDynamicDimSize shape then Err (UB "assert: cannot get element count of dynamic shaped type")
      else Ok (prod_z shape)
  | _ => Err (UB "cast<RankedTensorV1Type>")
  end.

(** [(blob[i / 8] & (1 << (i % 8))) ? 1 : 0] for each element. *)
Definition unpack (blob : list Z) (numElements : Z) : result (list Z) :=
  mapM (fun i => b ← at_z blob (i / 8); Ok (if Z.land b (Z.shiftl 1 (i mod 8)) =? 0 then 0 else 1)) (seqZ 0 numElements).

Definition unpack_blob (type : VhloType) (blob : list Z) : result (list Z) :=
  if negb (isBooleanType type) then Ok blob
  else
    numElements ← ranked_num_elements type;
    let packedSize := divideCeil numElements 8 in
    let size := Z.of_nat (length blob) in
    if bool_decide (blob = [255]) then Ok [1]
    else if (size =? packedSize) && negb (size =? numElements) then unpack blob numElements
    else Ok blob.

Definition readVhloTensorV1Attr (type : VhloType) : Reader (list Z) := blob ← readBlob; lift (unpack_blob type blob).

(** [if (rawData[i]) data[i / 8] |= (1 << (i % 8))] for each element. *)
Definition pack (rawData : list Z) (numElements : Z) : result (list Z) :=
  foldM (fun i data =>
      r ← at_z rawData i;
      if r =? 0 then Ok data else b ← at_z data (i / 8); set_z data (i / 8) (Z.lor b (Z.shiftl 1 (i mod 8))))
    (seqZ 0 numElements) (replicate (Z.to_nat (divideCeil numElements 8)) 0).

Definition pack_blob (type : VhloType) (rawData : list Z) : result (list Z) :=
  if negb (isBooleanType type) then Ok rawData
  else
    numElements ← ranked_num_elements type;
    if (Z.of_nat (length rawData) =? 1) && (1 <? numElements) then
      r ← at_z rawData 0; Ok [if r =? 0 then 0 else 255]
    else pack rawData numElements.

Definition writeVhloTensorV1Attr (type : VhloType) (data : DenseElementsAttr) : result (list Z) :=
  blob ← pack_blob type (getRawData data); Ok (writeBlob blob).

(** The type of the elements, by the converter that keeps encodings. *)
Definition builtin_shaped_type (type : VhloType) : result ShapedType :=
  t ← vhloToBuiltin (fun a => Ok (OtherEncoding (attr_tag a))) false type;
  match dyn_cast_shaped t with Some t => Ok t | None => Err (UB "cast<ShapedType>") end.

(** ** Attributes *)

(** [writer.writeAttribute], [writer.writeType] and their readers, for what is nested. *)
Context (writeAttr : VhloAttr -> list Z) (writeTy : VhloType -> list Z).
Context (writeOptAttr : option VhloAttr -> list Z).
Context (readAttr : Reader VhloAttr) (readTy : Reader VhloType) (readOptAttr : Reader (option VhloAttr)).

Definition write_code (c : AttributeCode) : list Z := writeVarInt (attribute_code c).

Definition write_ArrayV1Attr (value : list VhloAttr) : list Z := write_code kArrayV1Attr ++ writeItems (map writeAttr value).
Definition readArrayV1Attr : Reader VhloAttr := elements ← readItems readAttr; mret (ArrayV1Attr elements).

Definition write_BooleanV1Attr (value : bool) : list Z :=
  write_code kBooleanV1Attr ++ writeVarInt (if value then 1 else 0).
Definition readBooleanV1Attr : Reader VhloAttr :=
  int_value ← readVarInt;
  if negb (int_value =? 0) && negb (int_value =? 1) then fails "unsupported value" else mret (BooleanV1Attr (int_value =? 1)).

Definition write_ComparisonDirectionV1Attr (value : ComparisonDirectionV1) : list Z :=
  write_code kComparisonDirectionV1Attr ++ writeEnumAttribute value.
Definition readComparisonDirectionV1Attr : Reader VhloAttr := readEnumAttribute ComparisonDirectionV1Attr.

Definition write_ComparisonTypeV1Attr (value : ComparisonTypeV1) : list Z :=
  write_code kComparisonTypeV1Attr ++ writeEnumAttribute value.
Definition readComparisonTypeV1Attr : Reader VhloAttr := readEnumAttribute ComparisonTypeV1Attr.

Definition write_CustomCallApiVersionV1Attr (value : CustomCallApiVersionV1) : list Z :=
  write_code kCustomCallApiVersionV1Attr ++ writeEnumAttribute value.
Definition readCustomCallApiVersionV1Attr : Reader VhloAttr := readEnumAttribute CustomCallApiVersionV1Attr.

Definition write_DictionaryV1Attr (value : list (VhloAttr * VhloAttr)) : list Z :=
  write_code kDictionaryV1Attr ++ writeItems (map (fun '(name, v) => writeAttr name ++ writeAttr v) value).
Definition readDictionaryV1Attr : Reader VhloAttr :=
  attrs ← readItems (name ← readAttr; v ← readAttr; mret (name, v)); mret (DictionaryV1Attr attrs).

Definition write_FftTypeV1Attr (value : FftTypeV1) : list Z := write_code kFftTypeV1Attr ++ writeEnumAttribute value.
Definition readFftTypeV1Attr : Reader VhloAttr := readEnumAttribute FftTypeV1Attr.

Definition write_FloatV1Attr (type : VhloType) (value : APFloat) : list Z :=
  write_code kFloatV1Attr ++ writeTy type ++ writeAPFloatWithKnownSemantics value.
Definition readFloatV1Attr : Reader VhloAttr :=
  type ← readTy;
  semantics ← (lift (getFloatSemantics type) : Reader FloatKind);
  value ← readAPFloatWithKnownSemantics semantics;
  mret (FloatV1Attr type value).

Definition write_IntegerV1Attr (type : VhloType) (value : APInt) : list Z :=
  write_code kIntegerV1Attr ++ writeTy type ++ writeAPIntWithKnownWidth value.
Definition readIntegerV1Attr : Reader VhloAttr :=
  type ← readTy;
  bitWidth ← (lift (integer_bit_width type) : Reader Z);
  value ← readAPIntWithKnownWidth bitWidth;
  mret (IntegerV1Attr type value).

Definition write_OutputOperandAliasV1Attr (outputTupleIndices : list Z) (operandIndex : Z) (operandTupleIndices : list Z) : list Z :=
  write_code kOutputOperandAliasV1Attr ++ writeSignedVarInts outputTupleIndices ++ writeSignedVarInt operandIndex ++
  writeSignedVarInts operandTupleIndices.
Definition readOutputOperandAliasV1Attr : Reader VhloAttr :=
  outputTupleIndices ← readSignedVarInts;
  operandIndex ← readSignedVarInt;
  operandTupleIndices ← readSignedVarInts;
  mret (OutputOperandAliasV1Attr outputTupleIndices operandIndex operandTupleIndices).

Definition write_PrecisionV1Attr (value : PrecisionV1) : list Z := write_code kPrecisionV1Attr ++ writeEnumAttribute value.
Definition readPrecisionV1Attr : Reader VhloAttr := readEnumAttribute PrecisionV1Attr.

Definition write_RngAlgorithmV1Attr (value : RngAlgorithmV1) : list Z :=
  write_code kRngAlgorithmV1Attr ++ writeEnumAttribute value.
Definition readRngAlgorithmV1Attr : Reader VhloAttr := readEnumAttribute RngAlgorithmV1Attr.

Definition write_RngDistributionV1Attr (value : RngDistributionV1) : list Z :=
  write_code kRngDistributionV1Attr ++ writeEnumAttribute value.
Definition readRngDistributionV1Attr : Reader VhloAttr := readEnumAttribute RngDistributionV1Attr.

Definition write_StringV1Attr (value : string) : list Z := write_code kStringV1Attr ++ writeOwnedString value.
Definition readStringV1Attr : Reader VhloAttr := value ← readString; mret (StringV1Attr value).

Definition write_TensorV1Attr (type : VhloType) (data : DenseElementsAttr) : result (list Z) :=
  elements ← writeVhloTensorV1Attr type data; Ok (write_code kTensorV1Attr ++ writeTy type ++ elements).
Definition readTensorV1Attr : Reader VhloAttr :=
  type ← readTy;
  blob ← readVhloTensorV1Attr type;
  builtinType ← (lift (builtin_shaped_type type) : Reader ShapedType);
  data ← (lift (getFromRawBuffer builtinType blob) : Reader DenseElementsAttr);
  mret (TensorV1Attr type data).

Definition write_TransposeV1Attr (value : TransposeV1) : list Z := write_code kTransposeV1Attr ++ writeEnumAttribute value.
Definition readTransposeV1Attr : Reader VhloAttr := readEnumAttribute TransposeV1Attr.

Definition write_TypeV1Attr (value : VhloType) : list Z := write_code kTypeV1Attr ++ writeTy value.
Definition readTypeV1Attr : Reader VhloAttr := type ← readTy; mret (TypeV1Attr type).

Definition write_TypeExtensionsV1Attr (bounds : list Z) : list Z := write_code kTypeExtensionsV1Attr ++ writeSignedVarInts bounds.
Definition readTypeExtensionsV1Attr : Reader VhloAttr := bounds ← readSignedVarInts; mret (TypeExtensionsV1Attr bounds).

Definition write_ResultAccuracyModeV1Attr (value : ResultAccuracyModeV1) : list Z :=
  write_code kResultAccuracyModeV1Attr ++ writeEnumAttribute value.
Definition readResultAccuracyModeV1Attr : Reader VhloAttr := readEnumAttribute ResultAccuracyModeV1Attr.

(** The mode is read as a [ResultAccuracyModeV1Attr]. *)
Definition write_ResultAccuracyV1Attr (atol rtol : APFloat) (ulps : Z) (mode : VhloAttr) : list Z :=
  write_code kResultAccuracyV1Attr ++ writeAPFloatWithKnownSemantics atol ++ writeAPFloatWithKnownSemantics rtol ++
  writeSignedVarInt ulps ++ writeAttr mode.
Definition readResultAccuracyV1Attr : Reader VhloAttr :=
  atol ← readAPFloatWithKnownSemantics Float64;
  rtol ← readAPFloatWithKnownSemantics Float64;
  ulps ← readSignedVarInt;
  mode ← readAttr;
  match mode with
  | ResultAccuracyModeV1Attr _ => mret (ResultAccuracyV1Attr atol rtol ulps mode)
  | _ => fails "expected a result accuracy mode"
  end.

Definition write_SubAxisInfoV1Attr (preSize size : Z) : list Z :=
  write_code kSubAxisInfoV1Attr ++ writeSignedVarInt preSize ++ writeSignedVarInt size.
Definition readSubAxisInfoV1Attr : Reader VhloAttr :=
  preSize ← readSignedVarInt; size ← readSignedVarInt; mret (SubAxisInfoV1Attr preSize size).

Definition write_AxisRefV1Attr (name : VhloAttr) (subAxisInfo : option VhloAttr) : list Z :=
  write_code kAxisRefV1Attr ++ writeAttr name ++
  match subAxisInfo with Some a => writeVarInt 1 ++ writeAttr a | None => writeVarInt 0 end.
Definition readAxisRefV1Attr : Reader VhloAttr :=
  name ← readAttr;
  hasSubAxisInfo ← readVarInt;
  if negb (hasSubAxisInfo =? 0) then subAxisInfo ← readAttr; mret (AxisRefV1Attr name (Some subAxisInfo))
  else mret (AxisRefV1Attr name None).

Definition write_ReplicaGroupMeshAxesV1Attr (mesh axes : VhloAttr) : list Z :=
  write_code kReplicaGroupMeshAxesV1Attr ++ writeAttr mesh ++ writeAttr axes.
Definition readReplicaGroupMeshAxesV1Attr : Reader VhloAttr :=
  mesh ← readAttr; axes ← readAttr; mret (ReplicaGroupMeshAxesV1Attr mesh axes).

Definition write_MeshAxisV1Attr (name : VhloAttr) (size : Z) : list Z :=
  write_code kMeshAxisV1Attr ++ writeAttr name ++ writeSignedVarInt size.
Definition readMeshAxisV1Attr : Reader VhloAttr := name ← readAttr; size ← readSignedVarInt; mret (MeshAxisV1Attr name size).

Definition write_MeshV1Attr (axes : VhloAttr) (deviceIds : option VhloAttr) : list Z :=
  write_code kMeshV1Attr ++ writeAttr axes ++ writeOptAttr deviceIds.
Definition readMeshV1Attr : Reader VhloAttr := axes ← readAttr; deviceIds ← readOptAttr; mret (MeshV1Attr axes deviceIds).

(** [failure()] for an attribute of another dialect, which is then written as text. *)
Definition writeAttribute (attr : VhloAttr) : result (list Z) :=
  match attr with
  | ArrayV1Attr value => Ok (write_ArrayV1Attr value)
  | BooleanV1Attr value => Ok (write_BooleanV1Attr value)
  | ComparisonDirectionV1Attr value => Ok (write_ComparisonDirectionV1Attr value)
  | ComparisonTypeV1Attr value => Ok (write_ComparisonTypeV1Attr value)
  | CustomCallApiVersionV1Attr value => Ok (write_CustomCallApiVersionV1Attr value)
  | DictionaryV1Attr value => Ok (write_DictionaryV1Attr value)
  | FftTypeV1Attr value => Ok (write_FftTypeV1Attr value)
  | FloatV1Attr type value => Ok (write_FloatV1Attr type value)
  | IntegerV1Attr type value => Ok (write_IntegerV1Attr type value)
  | OutputOperandAliasV1Attr output operand tuple => Ok (write_OutputOperandAliasV1Attr output operand tuple)
  | PrecisionV1Attr value => Ok (write_PrecisionV1Attr value)
  | RngAlgorithmV1Attr value => Ok (write_RngAlgorithmV1Attr value)
  | RngDistributionV1Attr value => Ok (write_RngDistributionV1Attr value)
  | StringV1Attr value => Ok (write_StringV1Attr value)
  | TensorV1Attr type data => write_TensorV1Attr type data
  | TransposeV1Attr value => Ok (write_TransposeV1Attr value)
  | TypeV1Attr value => Ok (write_TypeV1Attr value)
  | TypeExtensionsV1Attr bounds => Ok (write_TypeExtensionsV1Attr bounds)
  | ResultAccuracyModeV1Attr value => Ok (write_ResultAccuracyModeV1Attr value)
  | ResultAccuracyV1Attr atol rtol ulps mode => Ok (write_ResultAccuracyV1Attr atol rtol ulps mode)
  | SubAxisInfoV1Attr preSize size => Ok (write_SubAxisInfoV1Attr preSize size)
  | AxisRefV1Attr name subAxisInfo => Ok (write_AxisRefV1Attr name subAxisInfo)
  | ReplicaGroupMeshAxesV1Attr mesh axes => Ok (write_ReplicaGroupMeshAxesV1Attr mesh axes)
  | MeshAxisV1Attr name size => Ok (write_MeshAxisV1Attr name size)
  | MeshV1Attr axes deviceIds => Ok (write_MeshV1Attr axes deviceIds)
  | ForeignAttr _ => Err (Failed "not implemented")
  end.

Definition readAttribute : Reader VhloAttr :=
  code ← readVarInt;
  match code_of attribute_codes code with
  | Some kArrayV1Attr => readArrayV1Attr
  | Some kBooleanV1Attr => readBooleanV1Attr
  | Some kComparisonDirectionV1Attr => readComparisonDirectionV1Attr
  | Some kComparisonTypeV1Attr => readComparisonTypeV1Attr
  | Some kCustomCallApiVersionV1Attr => readCustomCallApiVersionV1Attr
  | Some kDictionaryV1Attr => readDictionaryV1Attr
  | Some kFftTypeV1Attr => readFftTypeV1Attr
  | Some kFloatV1Attr => readFloatV1Attr
  | Some kIntegerV1Attr => readIntegerV1Attr
  | Some kOutputOperandAliasV1Attr => readOutputOperandAliasV1Attr
  | Some kPrecisionV1Attr => readPrecisionV1Attr
  | Some kRngAlgorithmV1Attr => readRngAlgorithmV1Attr
  | Some kRngDistributionV1Attr => readRngDistributionV1Attr
  | Some kStringV1Attr => readStringV1Attr
  | Some kTensorV1Attr => readTensorV1Attr
  | Some kTransposeV1Attr => readTransposeV1Attr
  | Some kTypeV1Attr => readTypeV1Attr
  | Some kTypeExtensionsV1Attr => readTypeExtensionsV1Attr
  | Some kResultAccuracyModeV1Attr => readResultAccuracyModeV1Attr
  | Some kResultAccuracyV1Attr => readResultAccuracyV1Attr
  | Some kSubAxisInfoV1Attr => readSubAxisInfoV1Attr
  | Some kAxisRefV1Attr => readAxisRefV1Attr
  | Some kReplicaGroupMeshAxesV1Attr => readReplicaGroupMeshAxesV1Attr
  | Some kMeshAxisV1Attr => readMeshAxisV1Attr
  | Some kMeshV1Attr => readMeshV1Attr
  | None => fails "unknown vhlo attribute code"
  end.
(** ** Types *)
Definition write_type_code (c : TypeCode) : list Z := writeVarInt (type_code c).

Definition write_ComplexV1Type (elementType : VhloType) : list Z := write_type_code kComplexV1Type ++ writeTy elementType.
Definition readComplexV1Type : Reader VhloType := elementType ← readTy; mret (ComplexV1Type elementType).

Definition write_FunctionV1Type (inputs outputs : list VhloType) : list Z :=
  write_type_code kFunctionV1Type ++ writeItems (map writeTy inputs) ++ writeItems (map writeTy outputs).
Definition readFunctionV1Type : Reader VhloType :=
  inputs ← readItems readTy; outputs ← readItems readTy; mret (FunctionV1Type inputs outputs).

Definition write_RankedTensorV1Type (shape : list Z) (elementType : VhloType) (encoding : option VhloAttr) : list Z :=
  match encoding with
  | Some encoding => write_type_code kRankedTensorV1TypeWithEncoding ++ writeAttr encoding
  | None => write_type_code kRankedTensorV1Type
  end ++ writeSignedVarInts shape ++ writeTy elementType.
Definition readRankedTensorV1Type (hasEncoding : bool) : Reader VhloType :=
  encoding ← (if hasEncoding then encoding ← readAttr; mret (Some encoding) else mret None);
  shape ← readSignedVarInts;
  elementType ← readTy;
  mret (RankedTensorV1Type shape elementType encoding).

Definition write_TokenV1Type : list Z := write_type_code kTokenV1Type.
Definition readTokenV1Type : Reader VhloType := mret TokenV1Type.

Definition write_FutureV1Type (types : list VhloType) : list Z := write_type_code kFutureV1Type ++ writeItems (map writeTy types).
Definition readFutureV1Type : Reader VhloType := types ← readItems readTy; mret (FutureV1Type types).

Definition write_TupleV1Type (types : list VhloType) : list Z := write_type_code kTupleV1Type ++ writeItems (map writeTy types).
Definition readTupleV1Type : Reader VhloType := elements ← readItems readTy; mret (TupleV1Type elements).

(** The flags are an [unsigned] and the dimension an [int32_t]; both are written as
    an [uint64_t]. *)
Definition write_UniformQuantizedPerAxisV1Type (flags : Z) (storageType expressedType : VhloType) (quantizedDimension : Z)
    (scales : list APFloat) (zeroPoints : list Z) (storageTypeMin storageTypeMax : Z) : list Z :=
  write_type_code kUniformQuantizedPerAxisV1Type ++ writeVarInt flags ++ writeTy storageType ++ writeTy expressedType ++
  writeVarInt (uint64 quantizedDimension) ++ writeSignedVarInt storageTypeMin ++ writeSignedVarInt storageTypeMax ++
  writeItems (map writeAPFloatWithKnownSemantics scales) ++ writeItems (map writeSignedVarInt zeroPoints).
Definition readUniformQuantizedPerAxisV1Type : Reader VhloType :=
  flags ← readVarInt;
  storageType ← readTy;
  expressedType ← readTy;
  quantizedDimension ← readVarInt;
  storageTypeMin ← readSignedVarInt;
  storageTypeMax ← readSignedVarInt;
  scales ← readItems (readAPFloatWithKnownSemantics Float64);
  zeroPoints ← readItems readSignedVarInt;
  mret (UniformQuantizedPerAxisV1Type (uint32 flags) storageType expressedType (int32 quantizedDimension) scales zeroPoints
    storageTypeMin storageTypeMax).

Definition write_UniformQuantizedV1Type (flags : Z) (storageType expressedType : VhloType) (scale : APFloat)
    (zeroPoint storageTypeMin storageTypeMax : Z) : list Z :=
  write_type_code kUniformQuantizedV1Type ++ writeVarInt flags ++ writeTy storageType ++ writeTy expressedType ++
  writeAPFloatWithKnownSemantics scale ++ writeSignedVarInt zeroPoint ++ writeSignedVarInt storageTypeMin ++
  writeSignedVarInt storageTypeMax.
Definition readUniformQuantizedV1Type : Reader VhloType :=
  flags ← readVarInt;
  storageType ← readTy;
  expressedType ← readTy;
  scale ← readAPFloatWithKnownSemantics Float64;
  zeroPoint ← readSignedVarInt;
  storageTypeMin ← readSignedVarInt;
  storageTypeMax ← readSignedVarInt;
  mret (UniformQuantizedV1Type (uint32 flags) storageType expressedType scale zeroPoint storageTypeMin storageTypeMax).

Definition write_UnrankedTensorV1Type (elementType : VhloType) : list Z :=
  write_type_code kUnrankedTensorV1Type ++ writeTy elementType.
Definition readUnrankedTensorV1Type : Reader VhloType := elementType ← readTy; mret (UnrankedTensorV1Type elementType).

Definition write_RankedBufferV1Type (shape : list Z) (elementType : VhloType) : list Z :=
  write_type_code kRankedBufferV1Type ++ writeSignedVarInts shape ++ writeTy elementType.
Definition readRankedBufferV1Type : Reader VhloType :=
  shape ← readSignedVarInts; elementType ← readTy; mret (RankedBufferV1Type shape elementType).

Definition writeType (type : VhloType) : result (list Z) :=
  match type with
  | ComplexV1Type elementType => Ok (write_ComplexV1Type elementType)
  | FunctionV1Type inputs outputs => Ok (write_FunctionV1Type inputs outputs)
  | RankedTensorV1Type shape elementType encoding => Ok (write_RankedTensorV1Type shape elementType encoding)
  | TokenV1Type => Ok write_TokenV1Type
  | FutureV1Type types => Ok (write_FutureV1Type types)
  | TupleV1Type types => Ok (write_TupleV1Type types)
  | UnrankedTensorV1Type elementType => Ok (write_UnrankedTensorV1Type elementType)
  | UniformQuantizedPerAxisV1Type flags storage expressed dimension scales zeroPoints min max =>
      Ok (write_UniformQuantizedPerAxisV1Type flags storage expressed dimension scales zeroPoints min max)
  | UniformQuantizedV1Type flags storage expressed scale zeroPoint min max =>
      Ok (write_UniformQuantizedV1Type flags storage expressed scale zeroPoint min max)
  | RankedBufferV1Type shape elementType => Ok (write_RankedBufferV1Type shape elementType)
  | BooleanV1Type => Ok (write_type_code kBooleanV1Type)
  | FloatBF16V1Type => Ok (write_type_code kFloatBF16V1Type)
  | FloatF16V1Type => Ok (write_type_code kFloatF16V1Type)
  | FloatF32V1Type => Ok (write_type_code kFloatF32V1Type)
  | FloatF4E2M1FNV1Type => Ok (write_type_code kFloatF4E2M1FNV1Type)
  | FloatF64V1Type => Ok (write_type_code kFloatF64V1Type)
  | FloatF6E2M3FNV1Type => Ok (write_type_code kFloatF6E2M3FNV1Type)
  | FloatF6E3M2FNV1Type => Ok (write_type_code kFloatF6E3M2FNV1Type)
  | FloatF8E3M4V1Type => Ok (write_type_code kFloatF8E3M4V1Type)
  | FloatF8E4M3V1Type => Ok (write_type_code kFloatF8E4M3V1Type)
  | FloatF8E4M3FNV1Type => Ok (write_type_code kFloatF8E4M3FNV1Type)
  | FloatF8E5M2V1Type => Ok (write_type_code kFloatF8E5M2V1Type)
  | FloatF8E4M3FNUZV1Type => Ok (write_type_code kFloatF8E4M3FNUZV1Type)
  | FloatF8E4M3B11FNUZV1Type => Ok (write_type_code kFloatF8E4M3B11FNUZV1Type)
  | FloatF8E5M2FNUZV1Type => Ok (write_type_code kFloatF8E5M2FNUZV1Type)
  | FloatF8E8M0FNUV1Type => Ok (write_type_code kFloatF8E8M0FNUV1Type)
  | FloatTF32V1Type => Ok (write_type_code kFloatTF32V1Type)
  | IndexV1Type => Ok (write_type_code kIndexV1Type)
  | IntegerSI2V1Type => Ok (write_type_code kIntegerSI2V1Type)
  | IntegerSI4V1Type => Ok (write_type_code kIntegerSI4V1Type)
  | IntegerSI8V1Type => Ok (write_type_code kIntegerSI8V1Type)
  | IntegerSI16V1Type => Ok (write_type_code kIntegerSI16V1Type)
  | IntegerSI32V1Type => Ok (write_type_code kIntegerSI32V1Type)
  | IntegerSI64V1Type => Ok (write_type_code kIntegerSI64V1Type)
  | IntegerUI2V1Type => Ok (write_type_code kIntegerUI2V1Type)
  | IntegerUI4V1Type => Ok (write_type_code kIntegerUI4V1Type)
  | IntegerUI8V1Type => Ok (write_type_code kIntegerUI8V1Type)
  | IntegerUI16V1Type => Ok (write_type_code kIntegerUI16V1Type)
  | IntegerUI32V1Type => Ok (write_type_code kIntegerUI32V1Type)
  | IntegerUI64V1Type => Ok (write_type_code kIntegerUI64V1Type)
  | NoneV1Type => Ok (write_type_code kNoneV1Type)
  | WitnessV1Type => Ok (write_type_code kWitnessV1Type)
  | ForeignType _ => Err (Failed "not implemented")
  end.

Definition readType : Reader VhloType :=
  code ← readVarInt;
  match code_of type_codes code with
  | Some kComplexV1Type => readComplexV1Type
  | Some kFunctionV1Type => readFunctionV1Type
  | Some kRankedTensorV1Type => readRankedTensorV1Type false
  | Some kRankedTensorV1TypeWithEncoding => readRankedTensorV1Type true
  | Some kTokenV1Type => readTokenV1Type
  | Some kFutureV1Type => readFutureV1Type
  | Some kTupleV1Type => readTupleV1Type
  | Some kUniformQuantizedPerAxisV1Type => readUniformQuantizedPerAxisV1Type
  | Some kUniformQuantizedV1Type => readUniformQuantizedV1Type
  | Some kUnrankedTensorV1Type => readUnrankedTensorV1Type
  | Some kRankedBufferV1Type => readRankedBufferV1Type
  | Some kBooleanV1Type => mret BooleanV1Type
  | Some kFloatBF16V1Type => mret FloatBF16V1Type
  | Some kFloatF16V1Type => mret FloatF16V1Type
  | Some kFloatF32V1Type => mret FloatF32V1Type
  | Some kFloatF4E2M1FNV1Type => mret FloatF4E2M1FNV1Type
  | Some kFloatF64V1Type => mret FloatF64V1Type
  | Some kFloatF6E2M3FNV1Type => mret FloatF6E2M3FNV1Type
  | Some kFloatF6E3M2FNV1Type => mret FloatF6E3M2FNV1Type
  | Some kFloatF8E3M4V1Type => mret FloatF8E3M4V1Type
  | Some kFloatF8E4M3V1Type => mret FloatF8E4M3V1Type
  | Some kFloatF8E4M3FNV1Type => mret FloatF8E4M3FNV1Type
  | Some kFloatF8E5M2V1Type => mret FloatF8E5M2V1Type
  | Some kFloatF8E4M3FNUZV1Type => mret FloatF8E4M3FNUZV1Type
  | Some kFloatF8E4M3B11FNUZV1Type => mret FloatF8E4M3B11FNUZV1Type
  | Some kFloatF8E5M2FNUZV1Type => mret FloatF8E5M2FNUZV1Type
  | Some kFloatF8E8M0FNUV1Type => mret FloatF8E8M0FNUV1Type
  | Some kFloatTF32V1Type => mret FloatTF32V1Type
  | Some kIndexV1Type => mret IndexV1Type
  | Some kIntegerSI2V1Type => mret IntegerSI2V1Type
  | Some kIntegerSI4V1Type => mret IntegerSI4V1Type
  | Some kIntegerSI8V1Type => mret IntegerSI8V1Type
  | Some kIntegerSI16V1Type => mret IntegerSI16V1Type
  | Some kIntegerSI32V1Type => mret IntegerSI32V1Type
  | Some kIntegerSI64V1Type => mret IntegerSI64V1Type
  | Some kIntegerUI2V1Type => mret IntegerUI2V1Type
  | Some kIntegerUI4V1Type => mret IntegerUI4V1Type
  | Some kIntegerUI8V1Type => mret IntegerUI8V1Type
  | Some kIntegerUI16V1Type => mret IntegerUI16V1Type
  | Some kIntegerUI32V1Type => mret IntegerUI32V1Type
  | Some kIntegerUI64V1Type => mret IntegerUI64V1Type
  | Some kNoneV1Type => mret NoneV1Type
  | Some kWitnessV1Type => mret WitnessV1Type
  | None => fails "unknown vhlo type code"
  end.
End Bytecode.
