(* ===== verification/VhloBytecodeFacts.v ===== *)
(** * What is written is read back

    The laws of MLIR's bytecode writer and reader, the packing of boolean tensors,
    and the theorems that every attribute and type of VHLO is read as it was
    written, one at a time and through the tables of a whole artifact. *)
From S2P Require Import Prelude Types Support Element Tensor Base TypeInference OpsFacts Vhlo VhloTypes VhloBytecode.

(** [r] reads what [w] holds as [a], whatever follows. *)
Definition reads_as {A} (r : Reader A) (w : list Z) (a : A) : Prop := forall s, r (w ++ s) = Ok (a, s).

(** The values of an attribute are of the type of its elements. *)
Definition value_fits {L : LLVM} (t : Ty) (v : Value_) : bool :=
  match t, v with
  | IntegerType Signless w, VBool _ => w =? 1
  | IntegerType s w, VInt x => (w =? Support.getBitWidth x) && negb (bool_decide (s = Signless) && (w =? 1))
  | IndexType, VInt x => Support.getBitWidth x =? kInternalStorageBitWidth
  | FloatType k, VFloat f => bool_decide (getSemantics f = k)
  | ComplexType (FloatType k), VComplex (re, im) => bool_decide (getSemantics re = k) && bool_decide (getSemantics im = k)
  | _, _ => false
  end.

Definition dense_ok {L : LLVM} (d : DenseElementsAttr) : bool :=
  forallb (fun n => 0 <=? n) (getShape (attr_type d)) &&
  (Z.of_nat (length (attr_values d)) =? prod_z (getShape (attr_type d))) &&
  forallb (value_fits (getElementType (attr_type d))) (attr_values d).

(** A boolean element is a byte; equal elements may be given by one byte. *)
Definition bytes_of_bools (bs : list bool) : list Z := map Z.b2z bs.
Definition bools_attr {L : LLVM} (type : ShapedType) (bs : list bool) : DenseElementsAttr := MkAttr type (VBool <$> bs).

Class MlirBytecodeLaws {L : LLVM} (M : MlirBytecode) := {
  varint_reads n : 0 <= n < 2 ^ 64 -> reads_as readVarInt (writeVarInt n) n;
  signed_reads n : in_i64 n = true -> reads_as readSignedVarInt (writeSignedVarInt n) n;
  string_reads s : reads_as readString (writeOwnedString s) s;
  bool_reads b : reads_as readBool (writeOwnedBool b) b;
  blob_reads b : reads_as readBlob (writeBlob b) b;
  apint_reads x : reads_as (readAPIntWithKnownWidth (Support.getBitWidth x)) (writeAPIntWithKnownWidth x) x;
  apfloat_reads f : reads_as (readAPFloatWithKnownSemantics (getSemantics f)) (writeAPFloatWithKnownSemantics f) f;
  items_reads A (r : Reader A) ws l : Forall2 (reads_as r) ws l -> reads_as (readItems r) (writeItems ws) l;
  raw_data d : dense_ok d = true -> getFromRawBuffer (attr_type d) (getRawData d) = Ok d;
  raw_bools type bs : getElementType type = i1 -> dense_ok (bools_attr type bs) = true ->
    getFromRawBuffer type (bytes_of_bools bs) = Ok (bools_attr type bs) /\
    (getRawData (bools_attr type bs) = bytes_of_bools bs \/
     exists b, bs = replicate (length bs) b /\ getRawData (bools_attr type bs) = [Z.b2z b]);
  raw_splat type n b : getElementType type = i1 -> dense_ok (bools_attr type (replicate n b)) = true -> (n <> 0)%nat ->
    getFromRawBuffer type [Z.b2z b] = Ok (bools_attr type (replicate n b));
  raw_empty d : getRawData d = [] <-> attr_values d = [];
}.

(** ** Readers *)
Lemma reads_ret {A} (a : A) : reads_as (mret a) [] a.
Proof. done. Qed.

Lemma reads_bind {A B} (r : Reader A) (k : A -> Reader B) w w' a b :
  reads_as r w a -> reads_as (k a) w' b -> reads_as (r ≫= k) (w ++ w') b.
Proof. intros Hr Hk s. rewrite <- app_assoc. unfold mbind, reader_bind. rewrite (Hr (w' ++ s)). apply Hk. Qed.

Lemma reads_last {A B} (r : Reader A) (k : A -> Reader B) w a b :
  reads_as r w a -> reads_as (k a) [] b -> reads_as (r ≫= k) w b.
Proof. intros Hr Hk. rewrite <- (app_nil_r w). by apply (reads_bind r k w [] a b). Qed.

Lemma reads_lift {A B} (m : result A) (k : A -> Reader B) w a b : m = Ok a -> reads_as (k a) w b -> reads_as (lift m ≫= k) w b.
Proof. by intros ->. Qed.

Lemma reads_map {A B} (f : A -> list Z) (r : Reader B) (g : A -> B) l :
  (forall x, x ∈ l -> reads_as r (f x) (g x)) -> Forall2 (reads_as r) (map f l) (map g l).
Proof.
  induction l as [|x l IH]; intros H; cbn; constructor; [apply H; left|]. apply IH. intros y Hy. apply H. by right.
Qed.

Section Facts.
Context {L : LLVM} {Laws : LLVMLaws L} {M : MlirBytecode} {MLaws : MlirBytecodeLaws M}.

Lemma reads_each {A} (f : A -> list Z) (r : Reader A) l : (forall x, x ∈ l -> reads_as r (f x) x) ->
  reads_as (readItems r) (writeItems (map f l)) l.
Proof. intros H. apply items_reads. rewrite <- (map_id l) at 2. by apply reads_map. Qed.

Lemma signed_items l : forallb in_i64 l = true -> reads_as readSignedVarInts (writeSignedVarInts l) l.
Proof.
  intros H. apply reads_each. intros x Hx. apply signed_reads. rewrite forallb_forall in H. apply H. by apply list_elem_of_In.
Qed.

Lemma enum_reads {A B} `{EnumLaws A} (get : A -> B) a :
  reads_as (readEnumAttribute get) (writeEnumAttribute a) (get a).
Proof.
  pose proof (enum_value_range a) as R. unfold readEnumAttribute, writeEnumAttribute, uint32. rewrite Z.mod_small by lia.
  eapply reads_last; [apply varint_reads; lia|]. unfold uint32. rewrite Z.mod_small by lia. rewrite symbolize_value. apply reads_ret.
Qed.

(** ** The elements of a boolean tensor *)
Lemma land_bit b k : 0 <= k -> (Z.land b (Z.shiftl 1 k) =? 0) = negb (Z.testbit b k).
Proof.
  intros Hk. rewrite Z.shiftl_1_l. destruct (Z.testbit b k) eqn:E; cbn.
  - apply Z.eqb_neq. intros H. apply (f_equal (fun z => Z.testbit z k)) in H.
    rewrite Z.land_spec, E, Z.pow2_bits_true, Z.bits_0 in H by lia. done.
  - apply Z.eqb_eq, Z.bits_inj'. intros n Hn. rewrite Z.land_spec, Z.bits_0, Z.pow2_bits_eqb by lia.
    destruct (Z.eqb_spec k n) as [->|]; [by rewrite E|by rewrite andb_false_r].
Qed.

(** [data] holds the bits of the first [k] elements. *)
Definition packed (bs : list bool) (k : nat) (data : list Z) : Prop :=
  Z.of_nat (length data) = divideCeil (Z.of_nat (length bs)) 8 /\
  forall i : Z, 0 <= i < Z.of_nat (length bs) -> exists b, at_z data (i / 8) = Ok b /\
    Z.testbit b (i mod 8) = (i <? Z.of_nat k) && default false (bs !! Z.to_nat i).

Lemma pack_step bs k data : (k < length bs)%nat -> packed bs k data ->
  exists data', (r ← at_z (bytes_of_bools bs) (Z.of_nat k);
    if r =? 0 then Ok data
    else b ← at_z data (Z.of_nat k / 8); set_z data (Z.of_nat k / 8) (Z.lor b (Z.shiftl 1 (Z.of_nat k mod 8)))) = Ok data' /\
    packed bs (S k) data'.
Proof.
  intros Hk [Hl Hd]. destruct (lookup_lt_is_Some_2 bs k Hk) as [x Hx].
  assert (at_z (bytes_of_bools bs) (Z.of_nat k) = Ok (Z.b2z x)) as ->.
  { rewrite at_z_nat. unfold bytes_of_bools. by rewrite list_lookup_fmap, Hx. }
  cbind. destruct (Hd (Z.of_nat k)) as (b & Hb & _); [lia|]. destruct x; cbn [Z.b2z Z.eqb].
  - rewrite Hb. cbind. apply at_z_ok in Hb as [Hr Hb]. pose proof (lookup_lt_Some _ _ _ Hb) as Hlt. rewrite set_z_ok by lia.
    eexists; split; [done|]. split; [by rewrite length_insert|]. intros i Hi. destruct (Hd i Hi) as (c & Hc & Hbit).
    pose proof (Z.mod_pos_bound i 8 ltac:(lia)). pose proof (Z.mod_pos_bound (Z.of_nat k) 8 ltac:(lia)).
    apply at_z_ok in Hc as [Hi8 Hc]. destruct (decide (i / 8 = Z.of_nat k / 8)) as [E|E].
    + rewrite E in Hc. rewrite Hb in Hc. injection Hc as <-. eexists. split; [apply at_z_ok; split; [done|]; rewrite E;
        by rewrite list_lookup_insert_eq by lia|].
      rewrite Z.lor_spec, Hbit, Z.shiftl_1_l, Z.pow2_bits_eqb by lia.
      destruct (Z.eqb_spec (Z.of_nat k mod 8) (i mod 8)) as [Em|Em].
      * replace i with (Z.of_nat k) by (rewrite (Z.div_mod i 8), (Z.div_mod (Z.of_nat k) 8) by lia; lia).
        rewrite Nat2Z.id, Hx, orb_true_r. cbn. by rewrite (proj2 (Z.ltb_lt _ _)) by lia.
      * rewrite orb_false_r. f_equal. assert (i <> Z.of_nat k) by (intros ->; lia).
        destruct (Z.ltb_spec i (Z.of_nat k)), (Z.ltb_spec i (Z.of_nat (S k))); lia.
    + exists c. split; [apply at_z_ok; split; [done|]; rewrite list_lookup_insert_ne; [done|lia]|]. rewrite Hbit. f_equal.
      assert (i <> Z.of_nat k) by (intros ->; lia).
      destruct (Z.ltb_spec i (Z.of_nat k)), (Z.ltb_spec i (Z.of_nat (S k))); lia.
  - eexists; split; [done|]. split; [done|]. intros i Hi. destruct (Hd i Hi) as (c & Hc & Hbit). exists c. split; [done|].
    rewrite Hbit. destruct (decide (i = Z.of_nat k)) as [->|Hne]; [by rewrite Nat2Z.id, Hx, !andb_false_r|]. f_equal.
    destruct (Z.ltb_spec i (Z.of_nat k)), (Z.ltb_spec i (Z.of_nat (S k))); lia.
Qed.

Lemma pack_bits bs : exists data, pack (bytes_of_bools bs) (Z.of_nat (length bs)) = Ok data /\ packed bs (length bs) data.
Proof.
  apply (foldM_seqZ_total _ (packed bs)); [|intros; by apply pack_step].
  assert (0 <= divideCeil (Z.of_nat (length bs)) 8) by (apply divideCeil_range; lia).
  split; [rewrite length_replicate; lia|]. intros i Hi. exists 0. rewrite Z.bits_0. split; [|by rewrite (proj2 (Z.ltb_ge _ _)) by lia].
  assert (0 <= i / 8) by (apply Z.div_pos; lia). apply at_z_ok. split; [done|]. apply lookup_replicate. split; [done|].
  unfold divideCeil. assert (i / 8 < (Z.of_nat (length bs) + 8 - 1) / 8); [|lia].
  apply Z.div_lt_upper_bound; [lia|]. pose proof (Z.mod_pos_bound (Z.of_nat (length bs) + 8 - 1) 8 ltac:(lia)).
  pose proof (Z.div_mod (Z.of_nat (length bs) + 8 - 1) 8 ltac:(lia)). lia.
Qed.

Lemma unpack_bits bs data : packed bs (length bs) data -> unpack data (Z.of_nat (length bs)) = Ok (bytes_of_bools bs).
Proof.
  intros [_ Hd]. unfold unpack. rewrite (mapM_ok _ (fun i => Z.b2z (default false (bs !! Z.to_nat i)))).
  - f_equal. apply list_eq. intros k. unfold seqZ, bytes_of_bools. rewrite Nat2Z.id, !list_lookup_fmap.
    destruct (bs !! k) as [b|] eqn:E.
    + rewrite lookup_seq_lt by (by eapply lookup_lt_Some). cbn. replace (Z.to_nat (Z.of_nat k + 0)) with k by lia. by rewrite E.
    + by rewrite lookup_seq_ge by (by apply lookup_ge_None).
  - intros i Hi. apply elem_of_seqZ in Hi. destruct (Hd i) as (b & Hb & Hbit); [lia|]. rewrite Hb. cbind.
    rewrite land_bit by (apply Z.mod_pos_bound; lia). rewrite Hbit, (proj2 (Z.ltb_lt _ _)) by lia.
    by destruct (default false _).
Qed.

Lemma bools_of d : getElementType (attr_type d) = i1 -> dense_ok d = true -> exists bs, d = bools_attr (attr_type d) bs.
Proof.
  intros Ht H. apply andb_prop in H as [_ H]. rewrite Ht in H. destruct d as [type vs]. cbn [attr_type attr_values] in *.
  enough (exists bs, vs = VBool <$> bs) as [bs ->] by (by exists bs). clear Ht. induction vs as [|v vs IH]; [by exists []|].
  apply andb_prop in H as [Hv Hvs]. destruct (IH Hvs) as [bs ->].
  destruct v as [x|b|f|[]]; cbn in Hv; [by rewrite andb_false_r in Hv|by exists (b :: bs)|done|done].
Qed.

Lemma bools_count type bs : dense_ok (bools_attr type bs) = true ->
  existsb isDynamicDimSize (getShape type) = false /\ prod_z (getShape type) = Z.of_nat (length bs).
Proof.
  intros [[Hs Hn%Z.eqb_eq]%andb_prop _]%andb_prop. cbn in Hs, Hn. rewrite length_fmap in Hn. split; [|done].
  apply not_true_iff_false. rewrite existsb_exists. intros (n & Hin & Hd). rewrite forallb_forall in Hs. specialize (Hs n Hin).
  unfold isDynamicDimSize, kDynamic, int64_min in Hd. lia.
Qed.

Lemma all_ones bs data : packed bs (length bs) data -> data = [255] -> bs = replicate (length bs) true /\ length bs <> O.
Proof.
  intros [Hl Hd] ->. split.
  - apply list_eq. intros k. destruct (bs !! k) as [b|] eqn:E.
    + pose proof (lookup_lt_Some _ _ _ E) as Hk. rewrite (proj2 (lookup_replicate _ _ _ _) (conj eq_refl Hk)).
      destruct (Hd (Z.of_nat k)) as (c & Hc & Hbit); [lia|]. rewrite Nat2Z.id, E in Hbit.
      apply at_z_ok in Hc as [_ Hc]. pose proof (lookup_lt_Some _ _ _ Hc) as H0. cbn [length] in H0.
      replace (Z.to_nat (Z.of_nat k / 8)) with O in Hc by lia. injection Hc as <-.
      rewrite (proj2 (Z.ltb_lt _ _)) in Hbit by lia. cbn in Hbit. rewrite <- Hbit.
      pose proof (Z.mod_pos_bound (Z.of_nat k) 8 ltac:(lia)). change 255 with (Z.ones 8). by rewrite Z.ones_spec_low by lia.
    + symmetry. apply lookup_ge_None. rewrite length_replicate. by apply lookup_ge_None.
  - intros E. rewrite E in Hl. done.
Qed.

(** [w] is a blob that is read back as [bs]. *)
Definition blob_of (vtype : VhloType) (type : ShapedType) (bs : list bool) (w : list Z) : Prop :=
  exists w', unpack_blob vtype w = Ok w' /\ getFromRawBuffer type w' = Ok (bools_attr type bs).

Section Booleans.
Context (encoding : option VhloAttr) (type : ShapedType) (bs : list bool).
Context (Ht : getElementType type = i1) (Hd : dense_ok (bools_attr type bs) = true).
Let vtype : VhloType := RankedTensorV1Type (getShape type) BooleanV1Type encoding.

Lemma elements_count : ranked_num_elements vtype = Ok (Z.of_nat (length bs)).
Proof. destruct (bools_count type bs Hd) as [Hs Hn]. cbn. by rewrite Hs, Hn. Qed.

Lemma packed_blob data : pack (bytes_of_bools bs) (Z.of_nat (length bs)) = Ok data -> packed bs (length bs) data ->
  blob_of vtype type bs data.
Proof.
  intros Hp Hb. destruct (raw_bools type bs Ht Hd) as [Hr _]. unfold blob_of, unpack_blob. cbn [isBooleanType vtype negb].
  rewrite elements_count. cbind. case_bool_decide as E.
  - destruct (all_ones bs data Hb E) as [Ea Hn]. exists [1]. split; [done|]. rewrite Ea.
    apply (raw_splat type (length bs) true); [done|by rewrite <- Ea|done].
  - rewrite (proj1 Hb), Z.eqb_refl. cbn [andb]. destruct (Z.eqb_spec (divideCeil (Z.of_nat (length bs)) 8) (Z.of_nat (length bs))) as [En|En].
    + cbn [negb]. exists data. split; [done|]. destruct bs as [|b [|c bs']].
      * injection Hp as <-. done.
      * assert (data = bytes_of_bools [b]) as -> by (by destruct b; injection Hp as <-). done.
      * exfalso. revert En. unfold divideCeil. cbn [length]. intros En.
        pose proof (Z.div_mod (Z.of_nat (S (S (length bs'))) + 8 - 1) 8 ltac:(lia)).
        pose proof (Z.mod_pos_bound (Z.of_nat (S (S (length bs'))) + 8 - 1) 8 ltac:(lia)). lia.
    + cbn [negb]. exists (bytes_of_bools bs). split; [by apply unpack_bits|done].
Qed.

Lemma splat_blob b : bs = replicate (length bs) b -> (1 < length bs)%nat -> blob_of vtype type bs [if Z.b2z b =? 0 then 0 else 255].
Proof.
  intros Hb Hn. assert (getFromRawBuffer type [Z.b2z b] = Ok (bools_attr type bs)) as Hr.
  { rewrite Hb. apply raw_splat; [done|by rewrite <- Hb|lia]. }
  unfold blob_of, unpack_blob. cbn [isBooleanType vtype negb]. rewrite elements_count. cbind. destruct b; [by exists [1]|].
  rewrite bool_decide_eq_false_2 by done. cbn [length Z.b2z Z.eqb Pos.eqb]. change (Z.of_nat 1) with 1.
  destruct (1 =? divideCeil (Z.of_nat (length bs)) 8) eqn:E; [|by exists [0]].
  rewrite (proj2 (Z.eqb_neq _ _)) by lia. cbn [andb negb]. exists (bytes_of_bools bs). split.
  - apply unpack_bits. split; [cbn [length]; lia|]. intros i Hi. exists 0. rewrite Z.bits_0. split.
    + replace (i / 8) with 0; [done|]. symmetry. apply Z.div_small. split; [lia|].
      apply Z.eqb_eq in E. pose proof (divideCeil_pos (Z.of_nat (length bs)) 8 1 ltac:(lia)) as Hp.
      destruct (Z.ltb_spec i 8); [lia|]. exfalso. unfold divideCeil in E.
      pose proof (Z.div_le_lower_bound (Z.of_nat (length bs) + 8 - 1) 8 2 ltac:(lia) ltac:(lia)). lia.
    + rewrite Hb, andb_comm. destruct (_ !! Z.to_nat i) as [b|] eqn:El; [|done]. by apply lookup_replicate in El as [-> _].
  - apply (proj1 (raw_bools type bs Ht Hd)).
Qed.

Lemma boolean_blob : exists w, pack_blob vtype (getRawData (bools_attr type bs)) = Ok w /\ blob_of vtype type bs w.
Proof.
  destruct (pack_bits bs) as (data & Hp & Hb). unfold pack_blob. cbn [isBooleanType vtype negb]. rewrite elements_count. cbind.
  destruct (raw_bools type bs Ht Hd) as [_ [Hr|(b & Hs & Hr)]]; rewrite Hr.
  - unfold bytes_of_bools at 1. rewrite length_map.
    assert ((Z.of_nat (length bs) =? 1) && (1 <? Z.of_nat (length bs)) = false) as -> by lia.
    exists data. split; [done|by apply packed_blob].
  - cbn [length]. change (Z.of_nat 1 =? 1) with true. cbn [andb]. destruct (Z.ltb_spec 1 (Z.of_nat (length bs))).
    + eexists. split; [done|]. apply splat_blob; [done|lia].
    + exists data. split; [|by apply packed_blob]. rewrite <- Hp, Hs. destruct (length bs) as [|[]]; [done|done|lia].
Qed.
End Booleans.

(** The blob of any tensor attribute. *)
Lemma tensor_blob type d : builtin_shaped_type type = Ok (attr_type d) -> dense_ok d = true ->
  exists w w', pack_blob type (getRawData d) = Ok w /\ unpack_blob type w = Ok w' /\ getFromRawBuffer (attr_type d) w' = Ok d.
Proof.
  intros Hc Hd. destruct (isBooleanType type) eqn:Hb.
  - destruct type; try done. destruct type; try done. unfold builtin_shaped_type in Hc. cbn in Hc.
    assert (getShape (attr_type d) = shape /\ getElementType (attr_type d) = i1) as [Hsh Ht].
    { destruct encoding; injection Hc as <-; done. }
    destruct (bools_of d Ht Hd) as [bs E]. rewrite E in Hd.
    destruct (boolean_blob encoding (attr_type d) bs Ht Hd) as (w & Hw & w' & Hu & Hg).
    rewrite Hsh in Hw, Hu. rewrite E in Hg |- *. cbn [attr_type bools_attr] in Hg |- *. by exists w, w'.
  - exists (getRawData d), (getRawData d). unfold pack_blob, unpack_blob. rewrite Hb. cbn [negb].
    split; [done|]. split; [done|]. by apply raw_data.
Qed.

(** ** Attributes and types *)

(** The parameters of an attribute are in the range of their C++ types and agree with
    each other.  A two-bit integer is not, since [getBitWidthForIntegerType] has no
    width for its type. *)
Definition attr_fits (a : VhloAttr) : bool :=
  match a with
  | FloatV1Attr t v => bool_decide (getFloatSemantics t = Ok (getSemantics v))
  | IntegerV1Attr t v => bool_decide (integer_bit_width t = Ok (Support.getBitWidth v))
  | OutputOperandAliasV1Attr outputs operand operands => forallb in_i64 outputs && in_i64 operand && forallb in_i64 operands
  | TensorV1Attr t d => bool_decide (builtin_shaped_type t = Ok (attr_type d)) && dense_ok d
  | TypeExtensionsV1Attr bounds => forallb in_i64 bounds
  | ResultAccuracyV1Attr atol rtol ulps mode =>
      bool_decide (getSemantics atol = Float64) && bool_decide (getSemantics rtol = Float64) && in_i64 ulps &&
      match mode with ResultAccuracyModeV1Attr _ => true | _ => false end
  | SubAxisInfoV1Attr preSize size => in_i64 preSize && in_i64 size
  | MeshAxisV1Attr _ size => in_i64 size
  | _ => true
  end.

Definition type_fits (t : VhloType) : bool :=
  match t with
  | RankedTensorV1Type shape _ _ | RankedBufferV1Type shape _ => forallb in_i64 shape
  | UniformQuantizedPerAxisV1Type flags _ _ dimension scales zeroPoints min max =>
      (0 <=? flags) && (flags <? 2 ^ 32) && (- 2 ^ 31 <=? dimension) && (dimension <? 2 ^ 31) &&
      forallb (fun f => bool_decide (getSemantics f = Float64)) scales && forallb in_i64 zeroPoints && in_i64 min && in_i64 max
  | UniformQuantizedV1Type flags _ _ scale zeroPoint min max =>
      (0 <=? flags) && (flags <? 2 ^ 32) && bool_decide (getSemantics scale = Float64) && in_i64 zeroPoint && in_i64 min && in_i64 max
  | _ => true
  end.

Section Nested.
Context (writeAttr : VhloAttr -> list Z) (writeTy : VhloType -> list Z) (writeOptAttr : option VhloAttr -> list Z).
Context (readAttr : Reader VhloAttr) (readTy : Reader VhloType) (readOptAttr : Reader (option VhloAttr)).

Definition attr_read (a : VhloAttr) : Prop := reads_as readAttr (writeAttr a) a.
Definition type_read (t : VhloType) : Prop := reads_as readTy (writeTy t) t.
Definition optional_read (o : option VhloAttr) : Prop := reads_as readOptAttr (writeOptAttr o) o.

Lemma code_reads c : reads_as readVarInt (write_code c) (attribute_code c).
Proof. apply varint_reads. destruct c; vm_compute; by split. Qed.
Lemma type_code_reads c : reads_as readVarInt (write_type_code c) (type_code c).
Proof. apply varint_reads. destruct c; vm_compute; by split. Qed.

Lemma attribute_codes_distinct c : code_of attribute_codes (attribute_code c) = Some c.
Proof. by destruct c. Qed.
Lemma type_codes_distinct c : code_of type_codes (type_code c) = Some c.
Proof. by destruct c. Qed.

Lemma float_reads k f : getSemantics f = k -> reads_as (readAPFloatWithKnownSemantics k) (writeAPFloatWithKnownSemantics f) f.
Proof. intros <-. apply apfloat_reads. Qed.

Lemma dictionary_reads value : (forall x, x ∈ flat_map (fun '(name, v) => [name; v]) value -> attr_read x) ->
  reads_as (readItems (name ← readAttr; v ← readAttr; mret (name, v)))
    (writeItems (map (fun '(name, v) => writeAttr name ++ writeAttr v) value)) value.
Proof.
  intros H. apply reads_each. intros [name v] Hx. apply list_elem_of_In in Hx.
  eapply reads_bind; [|eapply reads_last; [|apply reads_ret]]; apply H, list_elem_of_In, in_flat_map; exists (name, v);
    (split; [done|cbn; auto]).
Qed.

Create HintDb bytecode.
#[local] Hint Resolve code_reads type_code_reads reads_ret signed_reads signed_items string_reads blob_reads apint_reads apfloat_reads
  float_reads reads_each enum_reads dictionary_reads : bytecode.
#[local] Hint Extern 1 (_ ∈ _) => set_solver : bytecode.

(** One value after the other. *)
Ltac read_step :=
  first [apply reads_ret
        | eapply reads_bind; [solve [eauto with bytecode]|]
        | eapply reads_last; [solve [eauto with bytecode]|]
        | eapply reads_lift; [eassumption|]].

Lemma boolean_reads (value : bool) : reads_as readBooleanV1Attr (writeVarInt (if value then 1 else 0)) (BooleanV1Attr value).
Proof. eapply reads_last; [apply varint_reads; by destruct value|]. by destruct value. Qed.

Lemma tensor_reads type data w : builtin_shaped_type type = Ok (attr_type data) -> dense_ok data = true ->
  type_read type -> write_TensorV1Attr writeTy type data = Ok w ->
  exists w', w = write_code kTensorV1Attr ++ w' /\ reads_as (readTensorV1Attr readTy) w' (TensorV1Attr type data).
Proof.
  intros Hc Hd Ht Hw. destruct (tensor_blob type data Hc Hd) as (b & b' & Hp & Hu & Hg).
  unfold write_TensorV1Attr, writeVhloTensorV1Attr in Hw. rewrite Hp in Hw. injection Hw as <-. eexists. split; [done|].
  unfold readTensorV1Attr. eapply reads_bind; [exact Ht|]. eapply reads_last.
  - eapply reads_last; [apply blob_reads|]. rewrite Hu. apply reads_ret.
  - by repeat (eapply reads_lift; [eassumption|]).
Qed.

(** Every attribute that is written in the dialect's encoding is read as it was, when
    what is nested in it is. *)
Lemma attribute_reads a w : attr_fits a = true ->
  (forall t, t ∈ attr_types a -> type_read t) -> (forall x, x ∈ attr_attrs a -> attr_read x) ->
  (forall o, (forall x, x ∈ optional o -> x ∈ attr_attrs a) -> optional_read o) ->
  writeAttribute writeAttr writeTy writeOptAttr a = Ok w -> reads_as (readAttribute readAttr readTy readOptAttr) w a.
Proof.
  intros Hf Ht Ha Ho Hw. unfold readAttribute. unfold attr_read, type_read, optional_read in *.
  destruct a; cbn [attr_types attr_attrs attr_fits writeAttribute] in *; rewrite ?andb_true_iff, ?bool_decide_eq_true in Hf; destruct_and?;
    try (injection Hw as <-); try (eapply reads_bind; [apply code_reads|]); rewrite ?attribute_codes_distinct; cbn iota.
  - unfold readArrayV1Attr. repeat read_step.
  - apply boolean_reads.
  - apply enum_reads.
  - apply enum_reads.
  - apply enum_reads.
  - unfold readDictionaryV1Attr. repeat read_step.
  - apply enum_reads.
  - unfold readFloatV1Attr. repeat read_step.
  - unfold readIntegerV1Attr. repeat read_step.
  - unfold readOutputOperandAliasV1Attr. repeat read_step.
  - apply enum_reads.
  - apply enum_reads.
  - apply enum_reads.
  - unfold readStringV1Attr. repeat read_step.
  - destruct (tensor_reads type data w) as (w' & -> & H'); [done|done|apply Ht; set_solver|done|].
    eapply reads_bind; [apply code_reads|]. by rewrite attribute_codes_distinct.
  - apply enum_reads.
  - unfold readTypeV1Attr. repeat read_step.
  - unfold readTypeExtensionsV1Attr. repeat read_step.
  - apply enum_reads.
  - unfold readResultAccuracyV1Attr. repeat read_step. by destruct a.
  - unfold readSubAxisInfoV1Attr. repeat read_step.
  - unfold readAxisRefV1Attr. read_step. destruct subAxisInfo as [info|].
    + eapply reads_bind; [apply varint_reads; lia|]. cbn iota. cbn [Z.eqb negb]. repeat read_step.
    + eapply reads_last; [apply varint_reads; lia|]. apply reads_ret.
  - unfold readReplicaGroupMeshAxesV1Attr. repeat read_step.
  - unfold readMeshAxisV1Attr. repeat read_step.
  - unfold readMeshV1Attr. read_step. eapply reads_last; [apply Ho; set_solver|]. apply reads_ret.
  - done.
Qed.

Lemma attribute_written a : isVhloAttr a = true -> attr_fits a = true -> exists w, writeAttribute writeAttr writeTy writeOptAttr a = Ok w.
Proof.
  intros Hv Hf. destruct a; try done; try (by eexists). cbn [attr_fits] in Hf.
  rewrite andb_true_iff, bool_decide_eq_true in Hf. destruct Hf as [Hc Hd]. destruct (tensor_blob type data Hc Hd) as (w & w' & Hw & _).
  cbn [writeAttribute]. unfold write_TensorV1Attr, writeVhloTensorV1Attr. rewrite Hw. by eexists.
Qed.

Lemma uint32_id n : 0 <= n < 2 ^ 32 -> uint32 n = n.
Proof. intros. unfold uint32. by rewrite Z.mod_small by lia. Qed.
Lemma int32_uint64 n : - 2 ^ 31 <= n < 2 ^ 31 -> int32 (uint64 n) = n.
Proof.
  intros Hn. unfold int32, uint64. rewrite <- Z.add_mod_idemp_l by lia.
  assert ((n mod 2 ^ 64) mod 2 ^ 32 = n mod 2 ^ 32) as ->.
  { apply Z.mod_mod_divide. by exists (2 ^ 32). }
  rewrite Z.add_mod_idemp_l by lia. rewrite Z.mod_small by lia. lia.
Qed.

Lemma floats_read scales : forallb (fun f => bool_decide (getSemantics f = Float64)) scales = true ->
  reads_as (readItems (readAPFloatWithKnownSemantics Float64)) (writeItems (map writeAPFloatWithKnownSemantics scales)) scales.
Proof.
  intros H. apply reads_each. intros f Hf. apply float_reads. rewrite forallb_forall in H.
  by apply list_elem_of_In, H, bool_decide_eq_true in Hf.
Qed.

Lemma type_reads t w : type_fits t = true ->
  (forall x, x ∈ type_types t -> type_read x) -> (forall a, a ∈ type_attrs t -> attr_read a) ->
  writeType writeAttr writeTy t = Ok w -> reads_as (readType readAttr readTy) w t.
Proof.
  intros Hf Ht Ha Hw. unfold readType. unfold attr_read, type_read in *.
  destruct t; cbn [type_types type_attrs type_fits writeType] in *; try done; injection Hw as <-;
    try (eapply reads_last; [apply type_code_reads|]; rewrite type_codes_distinct; apply reads_ret).
  - eapply reads_bind; [apply type_code_reads|]. rewrite type_codes_distinct. unfold readComplexV1Type. repeat read_step.
  - eapply reads_bind; [apply type_code_reads|]. rewrite type_codes_distinct. unfold readFunctionV1Type.
    eapply reads_bind; [apply reads_each; intros; apply Ht; set_solver|].
    eapply reads_last; [apply reads_each; intros; apply Ht; set_solver|]. apply reads_ret.
  - unfold write_RankedTensorV1Type. destruct encoding as [encoding|]; rewrite <- ?app_assoc;
      (eapply reads_bind; [apply type_code_reads|]); rewrite type_codes_distinct; cbn iota; unfold readRankedTensorV1Type.
    + eapply reads_bind; [eapply reads_last; [apply Ha; set_solver|apply reads_ret]|]. repeat read_step.
    + eapply (reads_bind _ _ []); [apply reads_ret|]. repeat read_step.
  - eapply reads_bind; [apply type_code_reads|]. rewrite type_codes_distinct. unfold readFutureV1Type. repeat read_step.
  - eapply reads_bind; [apply type_code_reads|]. rewrite type_codes_distinct. unfold readTupleV1Type. repeat read_step.
  - rewrite !andb_true_iff in Hf. destruct_and!. eapply reads_bind; [apply type_code_reads|].
    rewrite type_codes_distinct. unfold readUniformQuantizedPerAxisV1Type.
    eapply reads_bind; [apply varint_reads; lia|]. do 2 read_step.
    eapply reads_bind; [apply varint_reads; unfold uint64; apply Z.mod_pos_bound; lia|]. do 2 read_step.
    eapply reads_bind; [by apply floats_read|]. eapply reads_last; [by apply signed_items|].
    rewrite uint32_id, int32_uint64 by lia. apply reads_ret.
  - rewrite !andb_true_iff, bool_decide_eq_true in Hf. destruct_and!. eapply reads_bind; [apply type_code_reads|].
    rewrite type_codes_distinct. unfold readUniformQuantizedV1Type.
    eapply reads_bind; [apply varint_reads; lia|]. repeat read_step. rewrite uint32_id by lia. apply reads_ret.
  - eapply reads_bind; [apply type_code_reads|]. rewrite type_codes_distinct. unfold readUnrankedTensorV1Type. repeat read_step.
  - eapply reads_bind; [apply type_code_reads|]. rewrite type_codes_distinct. unfold readRankedBufferV1Type. repeat read_step.
Qed.

(** ** Whole artifacts

    What MLIR's sections promise for the attributes and types of an artifact: what is
    nested in one of them is one of them; a reference reads as what the hooks of the
    dialect read, when these read what they wrote, and as itself when it belongs to
    another dialect. *)
Record sections (attrs : list VhloAttr) (types : list VhloType) : Prop := {
  attr_closed a : a ∈ attrs -> (forall t, t ∈ attr_types a -> t ∈ types) /\ (forall x, x ∈ attr_attrs a -> x ∈ attrs);
  type_closed t : t ∈ types -> (forall x, x ∈ type_types t -> x ∈ types) /\ (forall a, a ∈ type_attrs t -> a ∈ attrs);
  attr_reference a : a ∈ attrs ->
    (isVhloAttr a = true -> exists w, writeAttribute writeAttr writeTy writeOptAttr a = Ok w /\
       reads_as (readAttribute readAttr readTy readOptAttr) w a) ->
    attr_read a;
  type_reference t : t ∈ types ->
    (isVhloType t = true -> exists w, writeType writeAttr writeTy t = Ok w /\ reads_as (readType readAttr readTy) w t) ->
    type_read t;
  optional_reference o : (forall a, a ∈ optional o -> a ∈ attrs /\ attr_read a) -> optional_read o;
}.

Lemma type_written t : isVhloType t = true -> exists w, writeType writeAttr writeTy t = Ok w.
Proof. destruct t; try done; by eexists. Qed.

Section Artifact.
Context (attrs : list VhloAttr) (types : list VhloType) (Hs : sections attrs types).
Context (Ha : forallb attr_fits attrs = true) (Ht : forallb type_fits types = true).

Lemma read_by_depth n :
  (forall a, a ∈ attrs -> (attr_depth a < n)%nat -> attr_read a) /\ (forall t, t ∈ types -> (type_depth t < n)%nat -> type_read t).
Proof.
  induction n as [|n [IHa IHt]]; [split; intros; lia|]. rewrite forallb_forall in Ha, Ht. split.
  - intros a Hin Hn. apply (attr_reference _ _ Hs); [done|]. intros Hv. pose proof (Ha a (proj1 (list_elem_of_In _ _) Hin)) as Hf.
    destruct (attribute_written a Hv Hf) as [w Hw]. exists w. split; [done|]. destruct (attr_closed _ _ Hs a Hin) as [Ct Ca].
    assert (forall x, x ∈ attr_attrs a -> attr_read x) as Hr.
    { intros x Hx. apply IHa; [by apply Ca|]. apply attr_attrs_depth in Hx. lia. }
    apply attribute_reads; [done| |done| |done].
    + intros t Htt. apply IHt; [by apply Ct|]. apply attr_types_depth in Htt. lia.
    + intros o Ho. apply (optional_reference _ _ Hs). intros x Hx. split; [by apply Ca, Ho|by apply Hr, Ho].
  - intros t Hin Hn. apply (type_reference _ _ Hs); [done|]. intros Hv. pose proof (Ht t (proj1 (list_elem_of_In _ _) Hin)) as Hf.
    destruct (type_written t Hv) as [w Hw]. exists w. split; [done|]. destruct (type_closed _ _ Hs t Hin) as [Ct Ca].
    apply type_reads; [done| | |done].
    + intros x Hx. apply IHt; [by apply Ct|]. apply type_types_depth in Hx. lia.
    + intros a Hx. apply IHa; [by apply Ca|]. apply type_attrs_depth in Hx. lia.
Qed.

(** C24: A portable artifact is read as it was written: for attributes and types in
    the range of their C++ types that agree with each other ([attr_fits], [type_fits]:
    an integer with the width of its type, which is not 2 bits, a float with the
    semantics of its type, a tensor with the elements of its type), everything nested
    included, the reader of the VHLO dialect gives back what its writer wrote, packed
    boolean tensors, absent encodings and optional attributes included. *)
Theorem bytecode_round_trip :
  (forall a, a ∈ attrs -> attr_read a) /\ (forall t, t ∈ types -> type_read t).
Proof.
  split; intros x Hx; [apply (read_by_depth (S (attr_depth x)))|apply (read_by_depth (S (type_depth x)))]; done || lia.
Qed.
End Artifact.
End Nested.

(** C25: A boolean tensor survives its packing to one bit per element: whatever the
    number of elements, whether MLIR keeps them one by one or as one byte for all, and
    where the packed blob could be taken for a splat or for unpacked bytes. *)
Theorem boolean_tensor_round_trip type encoding bs :
  getElementType type = i1 -> dense_ok (bools_attr type bs) = true ->
  exists w, pack_blob (RankedTensorV1Type (getShape type) BooleanV1Type encoding) (getRawData (bools_attr type bs)) = Ok w /\
    exists w', unpack_blob (RankedTensorV1Type (getShape type) BooleanV1Type encoding) w = Ok w' /\
      getFromRawBuffer type w' = Ok (bools_attr type bs).
Proof. apply boolean_blob. Qed.
End Facts.
