(* ===== verification/VhloSamples.v ===== *)
(** * A concrete bytecode

    An instance of MLIR's bytecode over the concrete numbers, one integer per value,
    with its laws, and a small artifact: the inputs of the witnesses. *)
From S2P Require Import Prelude Types Support Element Tensor Base TypeInference OpsFacts Vhlo VhloTypes VhloBytecode VhloBytecodeFacts.
Import Concrete.

(** ** Readers *)
Definition one : Reader Z := fun s => match s with n :: s => Ok (n, s) | [] => Err (Failed "end of input") end.

Fixpoint repeated {A} (n : nat) (r : Reader A) : Reader (list A) :=
  match n with O => mret [] | S n => a ← r; l ← repeated n r; mret (a :: l) end.
Definition counted {A} (r : Reader A) : Reader (list A) := n ← one; repeated (Z.to_nat n) r.

Lemma one_reads n : reads_as one [n] n.
Proof. done. Qed.

Lemma counted_reads {A} (r : Reader A) ws l : Forall2 (reads_as r) ws l ->
  reads_as (counted r) (Z.of_nat (length ws) :: concat ws) l.
Proof.
  intros H. apply (reads_bind one _ [_] _ _ _ (one_reads _)). rewrite Nat2Z.id.
  induction H as [|w a ws l Hw H IH]; [apply reads_ret|]. cbn [length concat repeated].
  eapply reads_bind; [exact Hw|]. eapply reads_last; [exact IH|]. apply reads_ret.
Qed.

Lemma list_reads (l : list Z) : reads_as (counted one) (Z.of_nat (length l) :: l) l.
Proof.
  assert (concat (map (fun n => [n]) l) = l) as E by (induction l as [|n l IH]; cbn; [|rewrite IH]; done).
  rewrite <- (map_id l) at 3. rewrite <- E at 2. rewrite <- (length_map (fun n => [n]) l). by apply counted_reads, reads_map.
Qed.

Definition string_codes (s : string) : list Z := (fun c => Z.of_nat (Ascii.nat_of_ascii c)) <$> String.list_ascii_of_string s.
Definition string_of_codes (l : list Z) : string := String.string_of_list_ascii ((fun n => Ascii.ascii_of_nat (Z.to_nat n)) <$> l).

Lemma string_of_codes_of s : string_of_codes (string_codes s) = s.
Proof.
  unfold string_of_codes, string_codes. rewrite <- list_fmap_compose.
  rewrite <- (String.string_of_list_ascii_of_string s) at 2. f_equal. rewrite <- (list_fmap_id (String.list_ascii_of_string s)) at 2.
  apply list_fmap_ext. intros _ c _. cbn. by rewrite Nat2Z.id, Ascii.ascii_nat_embedding.
Qed.

(** ** The elements of an attribute *)
Definition value_codes (v : Value_) : list Z :=
  match v with
  | VInt x => [zi_val x]
  | VBool b => [Z.b2z b]
  | VFloat f => [zf_val f]
  | VComplex (re, im) => [zf_val re; zf_val im]
  end.

Definition read_value (t : Ty) : Reader Value_ :=
  match t with
  | IntegerType s w => n ← one; mret (if bool_decide (s = Signless) && (w =? 1) then VBool (negb (n =? 0)) else VInt (mk w n))
  | IndexType => n ← one; mret (VInt (mk kInternalStorageBitWidth n))
  | FloatType k => n ← one; mret (VFloat (mkf k n))
  | ComplexType (FloatType k) => n ← one; m ← one; mret (VComplex (mkf k n, mkf k m))
  | _ => fails "no elements of this type"
  end.

Lemma mk_val x : mk (zi_width x) (zi_val x) = x.
Proof. destruct (zint_range x). destruct (mk_spec (zi_width x) (zi_val x)); [done|]. apply zint_eq; [done|]. by rewrite Z.mod_small in *. Qed.
Lemma mkf_val f : mkf (zf_kind f) (zf_val f) = f.
Proof. pose proof (zfloat_range f). destruct (mkf_spec (zf_kind f) (zf_val f)). apply zfloat_eq; [done|]. by rewrite Z.mod_small in *. Qed.

Lemma value_reads t v : value_fits t v = true -> reads_as (read_value t) (value_codes v) v.
Proof.
  intros H. destruct t as [sign w|k| |t| | | | | | | | | | |], v as [x|b|f|[re im]]; try done; try (by destruct sign); try (by destruct t);
    unfold value_fits in H.
  - assert (w = zi_width x /\ bool_decide (sign = Signless) && (w =? 1) = false) as [-> E].
    { destruct sign; apply andb_prop in H as [H%Z.eqb_eq H']; (split; [done|]); [by apply negb_true_iff in H'|done|done]. }
    eapply reads_last; [apply one_reads|]. rewrite E, mk_val. apply reads_ret.
  - destruct sign; try done. apply Z.eqb_eq in H as ->. by destruct b.
  - apply bool_decide_eq_true in H as <-. eapply reads_last; [apply one_reads|]. rewrite mkf_val. apply reads_ret.
  - apply Z.eqb_eq in H. eapply reads_last; [apply one_reads|]. rewrite <- H, mk_val. apply reads_ret.
  - destruct t as [|k| | | | | | | | | | | | |]; try done. apply andb_prop in H as [Hr%bool_decide_eq_true Hi%bool_decide_eq_true].
    apply (reads_bind one _ [_] [_] _ _ (one_reads _)). eapply reads_last; [apply one_reads|].
    rewrite <- Hr at 1. rewrite <- Hi. cbn [getSemantics concrete]. rewrite !mkf_val. apply reads_ret.
Qed.

Definition same_bool (b : bool) (v : Value_) : bool := match v with VBool c => Bool.eqb b c | _ => false end.

(** Equal booleans are kept as one byte, when there are several. *)
Definition concrete_raw (d : DenseElementsAttr) : list Z :=
  let vs := attr_values d in
  match bool_decide (getElementType (attr_type d) = i1), vs with
  | true, VBool b :: _ :: _ => if forallb (same_bool b) vs then [Z.b2z b] else concat (map value_codes vs)
  | _, _ => concat (map value_codes vs)
  end.

Definition concrete_of_raw (type : ShapedType) (buffer : list Z) : result DenseElementsAttr :=
  let n := Z.to_nat (prod_z (getShape type)) in
  match bool_decide (getElementType type = i1), buffer with
  | true, [b] => Ok (MkAttr type (replicate n (VBool (negb (b =? 0)))))
  | _, _ => r ← repeated n (read_value (getElementType type)) buffer; Ok (MkAttr type (fst r))
  end.

#[export] Instance concrete_bytecode : MlirBytecode := {|
  writeVarInt n := [n];
  readVarInt := one;
  writeSignedVarInt n := [n];
  readSignedVarInt := one;
  writeOwnedString s := Z.of_nat (length (string_codes s)) :: string_codes s;
  readString := l ← counted one; mret (string_of_codes l);
  writeOwnedBool b := [Z.b2z b];
  readBool := n ← one; mret (negb (n =? 0));
  writeBlob b := Z.of_nat (length b) :: b;
  readBlob := counted one;
  writeAPIntWithKnownWidth x := [zi_val x];
  readAPIntWithKnownWidth w := n ← one; mret (mk w n);
  writeAPFloatWithKnownSemantics f := [zf_val f];
  readAPFloatWithKnownSemantics k := n ← one; mret (mkf k n);
  writeItems ws := Z.of_nat (length ws) :: concat ws;
  readItems := @counted;
  getRawData := concrete_raw;
  getFromRawBuffer := concrete_of_raw;
  attr_tag a := 0;
|}.

Lemma values_read t vs : forallb (value_fits t) vs = true ->
  reads_as (repeated (length vs) (read_value t)) (concat (map value_codes vs)) vs.
Proof.
  induction vs as [|v vs IH]; [done|]. intros [Hv Hvs]%andb_prop. cbn [length map concat repeated].
  eapply reads_bind; [by apply value_reads|]. eapply reads_last; [by apply IH|]. apply reads_ret.
Qed.

Lemma dense_count d : dense_ok d = true ->
  Z.to_nat (prod_z (getShape (attr_type d))) = length (attr_values d) /\
  forallb (value_fits (getElementType (attr_type d))) (attr_values d) = true.
Proof. intros [[_ H%Z.eqb_eq]%andb_prop Hv]%andb_prop. split; [lia|done]. Qed.

Lemma read_all d : dense_ok d = true ->
  (r ← repeated (Z.to_nat (prod_z (getShape (attr_type d)))) (read_value (getElementType (attr_type d)))
         (concat (map value_codes (attr_values d))); Ok (MkAttr (attr_type d) (fst r))) = Ok d.
Proof.
  intros H. destruct (dense_count d H) as [-> Hv]. pose proof (values_read _ _ Hv []) as E. rewrite app_nil_r in E.
  rewrite E. by destruct d.
Qed.

Lemma bools_codes bs : concat (map value_codes (VBool <$> bs)) = bytes_of_bools bs.
Proof. induction bs as [|b bs IH]; [done|]. cbn in IH |- *. by rewrite IH. Qed.

Lemma of_raw_bools type bs : getElementType type = i1 -> dense_ok (bools_attr type bs) = true ->
  concrete_of_raw type (bytes_of_bools bs) = Ok (bools_attr type bs).
Proof.
  intros Ht H. unfold concrete_of_raw. rewrite bool_decide_eq_true_2 by done.
  pose proof (dense_count _ H) as [Hn _]. cbn [attr_type attr_values bools_attr] in Hn. rewrite length_fmap in Hn.
  pose proof (read_all _ H) as E. cbn [attr_type attr_values bools_attr] in E. rewrite bools_codes in E.
  destruct bs as [|b [|c bs]]; [exact E| |exact E]. rewrite Hn. by destruct b.
Qed.

Lemma same_bools b bs : forallb (same_bool b) (VBool <$> bs) = true -> bs = replicate (length bs) b.
Proof. induction bs as [|c bs IH]; [done|]. intros [->%Bool.eqb_prop H]%andb_prop. cbn. by rewrite <- IH. Qed.

Lemma raw_of_bools type bs : getElementType type = i1 ->
  concrete_raw (bools_attr type bs) = bytes_of_bools bs \/
  exists b, bs = replicate (length bs) b /\ concrete_raw (bools_attr type bs) = [Z.b2z b].
Proof.
  intros Ht. unfold concrete_raw. cbn [attr_type attr_values bools_attr]. rewrite bool_decide_eq_true_2, bools_codes by done.
  destruct bs as [|b [|c bs]]; [by left|by left|]. cbn [fmap list_fmap].
  destruct (forallb _ _) eqn:E; [|by left]. right. exists b. split; [|done]. by apply (same_bools b (b :: c :: bs)).
Qed.

#[export] Instance concrete_bytecode_laws : MlirBytecodeLaws concrete_bytecode.
Proof.
  constructor.
  - done.
  - done.
  - intros s. eapply reads_last; [apply list_reads|]. rewrite string_of_codes_of. apply reads_ret.
  - intros []; done.
  - apply list_reads.
  - intros x. eapply reads_last; [apply one_reads|]. rewrite mk_val. apply reads_ret.
  - intros f. eapply reads_last; [apply one_reads|]. rewrite mkf_val. apply reads_ret.
  - intros A r ws l. apply counted_reads.
  - intros d H. destruct (decide (getElementType (attr_type d) = i1)) as [Ht|Ht].
    + destruct (bools_of d Ht H) as [bs E]. rewrite E in H. rewrite E at 2 3. cbn [getRawData getFromRawBuffer concrete_bytecode].
      destruct (raw_of_bools (attr_type d) bs Ht) as [->|(b & Hb & ->)]; [by apply of_raw_bools|].
      unfold concrete_of_raw. rewrite bool_decide_eq_true_2 by done. pose proof (dense_count _ H) as [Hn _].
      cbn [attr_type attr_values bools_attr] in Hn. rewrite length_fmap in Hn. rewrite Hn, Hb. unfold bools_attr.
      rewrite fmap_replicate, length_replicate. by destruct b.
    + cbn. unfold concrete_of_raw, concrete_raw. rewrite bool_decide_eq_false_2 by done. by apply read_all.
  - intros type bs Ht H. split; [by apply of_raw_bools|by apply raw_of_bools].
  - intros type n b Ht H Hn. cbn. unfold concrete_of_raw. rewrite bool_decide_eq_true_2 by done. pose proof (dense_count _ H) as [Hc _].
    cbn [attr_type attr_values bools_attr] in Hc. rewrite length_fmap, length_replicate in Hc. rewrite Hc. unfold bools_attr.
    rewrite fmap_replicate. by destruct b.
  - intros d. cbn. unfold concrete_raw. destruct (attr_values d) as [|v vs]; [by case_bool_decide|]. split; [|done]. intros H. exfalso.
    destruct (bool_decide _), v as [x|b|f|[]]; try done. destruct vs as [|w vs]; [done|]. by destruct (forallb _ _).
Qed.

(** ** A small artifact

    Attributes and types refer to each other by number; an entry is what the writer of
    the dialect makes of it. *)
Definition bound : VhloAttr := TypeExtensionsV1Attr [int64_min; 4].
Definition predicate_type : VhloType := RankedTensorV1Type [2; 5] BooleanV1Type (Some bound).
Definition quantized_type : VhloType :=
  UniformQuantizedPerAxisV1Type 1 IntegerSI8V1Type FloatF32V1Type (-1) [mkf Float64 3; mkf Float64 4] [0; -7] (-128) 127.
Definition predicates : list bool := [true; false; true; true; false; false; false; true; true; true].
Definition predicate : VhloAttr :=
  TensorV1Attr predicate_type (bools_attr (MkShaped [2; 5] i1 (Some (OtherEncoding 0))) predicates).
Definition number : VhloAttr := IntegerV1Attr IntegerSI8V1Type (mk 8 250).
Definition name : VhloAttr := StringV1Attr "axis".
Definition axis : VhloAttr := MeshAxisV1Attr name 4.
Definition axes : VhloAttr := ArrayV1Attr [axis; number].
Definition mesh : VhloAttr := MeshV1Attr axes (Some predicate).
Definition quantized : VhloAttr := TypeV1Attr quantized_type.

Definition sample_attrs : list VhloAttr := [bound; predicate; number; name; axis; axes; mesh; quantized].
Definition sample_types : list VhloType :=
  [BooleanV1Type; predicate_type; quantized_type; IntegerSI8V1Type; FloatF32V1Type].

Definition attr_number (a : VhloAttr) : Z :=
  match a with
  | TypeExtensionsV1Attr _ => 0 | TensorV1Attr _ _ => 1 | IntegerV1Attr _ _ => 2 | StringV1Attr _ => 3
  | MeshAxisV1Attr _ _ => 4 | ArrayV1Attr _ => 5 | MeshV1Attr _ _ => 6 | _ => 7
  end.
Definition type_number (t : VhloType) : Z :=
  match t with BooleanV1Type => 0 | RankedTensorV1Type _ _ _ => 1 | UniformQuantizedPerAxisV1Type _ _ _ _ _ _ _ _ => 2
  | IntegerSI8V1Type => 3 | _ => 4 end.

Definition sample_writeAttr (a : VhloAttr) : list Z := [attr_number a].
Definition sample_writeType (t : VhloType) : list Z := [type_number t].
Definition sample_writeOptionalAttr (o : option VhloAttr) : list Z :=
  match o with Some a => [attr_number a + 1] | None => [0] end.

(** An entry must be read to its end. *)
Definition whole {A} (r : Reader A) (entry : result (list Z)) : result A :=
  s ← entry; p ← r s; match snd p with [] => Ok (fst p) | _ => Err (Failed "unexpected trailing bytes") end.

Fixpoint resolve (fuel : nat) : (Z -> result VhloAttr) * (Z -> result VhloType) :=
  match fuel with
  | O => (fun _ => Err OutOfFuel, fun _ => Err OutOfFuel)
  | S fuel =>
      let readAttr : Reader VhloAttr := n ← one; lift (fst (resolve fuel) n) in
      let readTy : Reader VhloType := n ← one; lift (snd (resolve fuel) n) in
      let readOptAttr : Reader (option VhloAttr) :=
        n ← one; if n =? 0 then mret None else a ← (lift (fst (resolve fuel) (n - 1)) : Reader VhloAttr); mret (Some a) in
      (fun n => a ← at_z sample_attrs n;
         whole (readAttribute readAttr readTy readOptAttr) (writeAttribute sample_writeAttr sample_writeType sample_writeOptionalAttr a),
       fun n => t ← at_z sample_types n; whole (readType readAttr readTy) (writeType sample_writeAttr sample_writeType t))
  end.

Definition sample_readAttr : Reader VhloAttr := n ← one; lift (fst (resolve 10) n).
Definition sample_readType : Reader VhloType := n ← one; lift (snd (resolve 10) n).
Definition sample_readOptionalAttr : Reader (option VhloAttr) :=
  n ← one; if n =? 0 then mret None else a ← (lift (fst (resolve 10) (n - 1)) : Reader VhloAttr); mret (Some a).

Ltac each := rewrite ?elem_of_app, ?elem_of_cons, ?elem_of_nil; let H := fresh "H" in intros H; destruct_or?; try done; subst.
Ltac member := unfold sample_attrs, sample_types; repeat (left + right).
Ltac nested := cbn [attr_types attr_attrs type_types type_attrs optional bound predicate number name axis axes mesh quantized
  predicate_type quantized_type]; each; member.

Lemma sample_attr_reads a : a ∈ sample_attrs -> attr_read sample_writeAttr sample_readAttr a.
Proof. unfold sample_attrs. each; intros s; reflexivity. Qed.
Lemma sample_type_reads t : t ∈ sample_types -> type_read sample_writeType sample_readType t.
Proof. unfold sample_types. each; intros s; reflexivity. Qed.
Lemma sample_optional_reads a : a ∈ sample_attrs -> optional_read sample_writeOptionalAttr sample_readOptionalAttr (Some a).
Proof. unfold sample_attrs. each; intros s; reflexivity. Qed.

Lemma sample_sections :
  sections sample_writeAttr sample_writeType sample_writeOptionalAttr sample_readAttr sample_readType sample_readOptionalAttr
    sample_attrs sample_types.
Proof.
  constructor.
  - intros a. unfold sample_attrs at 1. each; (split; intros x; nested).
  - intros t. unfold sample_types at 1. each; (split; intros x; nested).
  - intros a Ha _. by apply sample_attr_reads.
  - intros t Ht _. by apply sample_type_reads.
  - intros [a|] H; [|done]. apply sample_optional_reads, H. by left.
Qed.

Lemma bytecode_round_trip_witness :
  attr_read sample_writeAttr sample_readAttr mesh /\ type_read sample_writeType sample_readType quantized_type.
Proof.
  destruct (bytecode_round_trip _ _ _ _ _ _ sample_attrs sample_types sample_sections eq_refl eq_refl) as [Ha Ht].
  split; [apply Ha|apply Ht]; member.
Defined.

Lemma boolean_tensor_round_trip_witness : exists w,
  pack_blob (RankedTensorV1Type [8] BooleanV1Type None) (getRawData (bools_attr (shaped [8] i1) (replicate 8 true))) = Ok w /\
  exists w', unpack_blob (RankedTensorV1Type [8] BooleanV1Type None) w = Ok w' /\
    getFromRawBuffer (shaped [8] i1) w' = Ok (bools_attr (shaped [8] i1) (replicate 8 true)).
Proof. apply (boolean_tensor_round_trip (shaped [8] i1) None (replicate 8 true)); reflexivity. Defined.
