(* ===== verification/StablehloAttrs.v ===== *)
(** * Attributes of StableHLO programs

    [src/stablehlo/dialect/StablehloAttrs.td] and [StablehloEnums.td], with the
    attributes of MLIR that StableHLO operations use. *)
From S2P Require Import Prelude Types Support Element Tensor Ops Linear Folder Vhlo.

(** ** Enumerations *)
Inductive Precision := Precision_DEFAULT | Precision_HIGH | Precision_HIGHEST.
Inductive RngAlgorithm := RngAlgorithm_DEFAULT | RngAlgorithm_THREE_FRY | RngAlgorithm_PHILOX.
Inductive RngDistribution := RngDistribution_UNIFORM | RngDistribution_NORMAL.
Inductive ResultAccuracyMode := ResultAccuracyMode_DEFAULT | ResultAccuracyMode_HIGHEST | ResultAccuracyMode_TOLERANCE.
Inductive CustomCallApiVersion :=
| API_VERSION_UNSPECIFIED | API_VERSION_ORIGINAL | API_VERSION_STATUS_RETURNING | API_VERSION_STATUS_RETURNING_UNIFIED
| API_VERSION_TYPED_FFI.

#[export] Instance Precision_eq_dec : EqDecision Precision. Proof. solve_decision. Defined.
#[export] Instance RngAlgorithm_eq_dec : EqDecision RngAlgorithm. Proof. solve_decision. Defined.
#[export] Instance RngDistribution_eq_dec : EqDecision RngDistribution. Proof. solve_decision. Defined.
#[export] Instance ResultAccuracyMode_eq_dec : EqDecision ResultAccuracyMode. Proof. solve_decision. Defined.
#[export] Instance CustomCallApiVersion_eq_dec : EqDecision CustomCallApiVersion. Proof. solve_decision. Defined.
#[export] Instance ComparisonDirection_eq_dec' : EqDecision ComparisonDirection. Proof. solve_decision. Defined.
#[export] Instance ComparisonType_eq_dec' : EqDecision ComparisonType. Proof. solve_decision. Defined.
#[export] Instance FftType_eq_dec' : EqDecision FftType. Proof. solve_decision. Defined.
#[export] Instance Transpose_eq_dec' : EqDecision Transpose. Proof. solve_decision. Defined.

#[export] Instance ComparisonDirection_enum : Enum ComparisonDirection :=
  [(EQ, ("EQ", 0)); (NE, ("NE", 1)); (GE, ("GE", 2)); (GT, ("GT", 3)); (LE, ("LE", 4)); (LT, ("LT", 5))].
#[export] Instance ComparisonType_enum : Enum ComparisonType :=
  [(NOTYPE, ("NOTYPE", 0)); (FLOAT, ("FLOAT", 1)); (TOTALORDER, ("TOTALORDER", 2)); (SIGNED, ("SIGNED", 3));
   (UNSIGNED, ("UNSIGNED", 4))].
#[export] Instance FftType_enum : Enum FftType :=
  [(FFT, ("FFT", 0)); (IFFT, ("IFFT", 1)); (RFFT, ("RFFT", 2)); (IRFFT, ("IRFFT", 3))].
#[export] Instance Transpose_enum : Enum Transpose :=
  [(TRANSPOSE_INVALID, ("TRANSPOSE_INVALID", 0)); (NO_TRANSPOSE, ("NO_TRANSPOSE", 1)); (TRANSPOSE, ("TRANSPOSE", 2));
   (ADJOINT, ("ADJOINT", 3))].
#[export] Instance Precision_enum : Enum Precision :=
  [(Precision_DEFAULT, ("DEFAULT", 0)); (Precision_HIGH, ("HIGH", 1)); (Precision_HIGHEST, ("HIGHEST", 2))].
#[export] Instance RngAlgorithm_enum : Enum RngAlgorithm :=
  [(RngAlgorithm_DEFAULT, ("DEFAULT", 0)); (RngAlgorithm_THREE_FRY, ("THREE_FRY", 1)); (RngAlgorithm_PHILOX, ("PHILOX", 2))].
#[export] Instance RngDistribution_enum : Enum RngDistribution :=
  [(RngDistribution_UNIFORM, ("UNIFORM", 1)); (RngDistribution_NORMAL, ("NORMAL", 2))].
#[export] Instance ResultAccuracyMode_enum : Enum ResultAccuracyMode :=
  [(ResultAccuracyMode_DEFAULT, ("DEFAULT", 0)); (ResultAccuracyMode_HIGHEST, ("HIGHEST", 1));
   (ResultAccuracyMode_TOLERANCE, ("TOLERANCE", 2))].
#[export] Instance CustomCallApiVersion_enum : Enum CustomCallApiVersion :=
  [(API_VERSION_UNSPECIFIED, ("API_VERSION_UNSPECIFIED", 0)); (API_VERSION_ORIGINAL, ("API_VERSION_ORIGINAL", 1));
   (API_VERSION_STATUS_RETURNING, ("API_VERSION_STATUS_RETURNING", 2));
   (API_VERSION_STATUS_RETURNING_UNIFIED, ("API_VERSION_STATUS_RETURNING_UNIFIED", 3));
   (API_VERSION_TYPED_FFI, ("API_VERSION_TYPED_FFI", 4))].

(** The cases of an enumeration have the names of the cases of the other. *)
Class SameNames (A B : Type) `{Enum A, Enum B} := same_names (a : A) :
  exists b : B, symbolize_name (A := B) (stringify a) = Some b /\ symbolize_name (A := A) (stringify b) = Some a.
Ltac same_names := intros []; eexists; split; reflexivity.

#[export] Instance ComparisonDirection_names : SameNames ComparisonDirection ComparisonDirectionV1. Proof. same_names. Qed.
#[export] Instance ComparisonType_names : SameNames ComparisonType ComparisonTypeV1. Proof. same_names. Qed.
#[export] Instance FftType_names : SameNames FftType FftTypeV1. Proof. same_names. Qed.
#[export] Instance Transpose_names : SameNames Transpose TransposeV1. Proof. same_names. Qed.
#[export] Instance Precision_names : SameNames Precision PrecisionV1. Proof. same_names. Qed.
#[export] Instance RngAlgorithm_names : SameNames RngAlgorithm RngAlgorithmV1. Proof. same_names. Qed.
#[export] Instance RngDistribution_names : SameNames RngDistribution RngDistributionV1. Proof. same_names. Qed.
#[export] Instance ResultAccuracyMode_names : SameNames ResultAccuracyMode ResultAccuracyModeV1. Proof. same_names. Qed.
#[export] Instance CustomCallApiVersion_names : SameNames CustomCallApiVersion CustomCallApiVersionV1. Proof. same_names. Qed.

(** ** Attributes *)
Section Attributes.
Context {L : LLVM}.

Record ConvDimensions := MkConvDimensions {
  inputBatchDimension : Z; inputFeatureDimension : Z; inputSpatialDimensions : list Z;
  kernelInputFeatureDimension : Z; kernelOutputFeatureDimension : Z; kernelSpatialDimensions : list Z;
  outputBatchDimension : Z; outputFeatureDimension : Z; outputSpatialDimensions : list Z;
}.
Record DotAlgorithm := MkDotAlgorithm {
  lhsPrecisionType : Ty; rhsPrecisionType : Ty; accumulationType : Ty;
  lhsComponentCount : Z; rhsComponentCount : Z; numPrimitiveOperations : Z; allowImpreciseAccumulation : bool;
}.
Record DotDimensions := MkDotDimensions {
  lhsBatchingDimensions : list Z; rhsBatchingDimensions : list Z;
  lhsContractingDimensions : list Z; rhsContractingDimensions : list Z;
}.
Record GatherDimensions := MkGatherDimensions {
  offsetDims : list Z; collapsedSliceDims : list Z; operandBatchingDims : list Z; startIndicesBatchingDims : list Z;
  startIndexMap : list Z; indexVectorDim : Z;
}.
Record ScatterDimensions := MkScatterDimensions {
  updateWindowDims : list Z; insertedWindowDims : list Z; inputBatchingDims : list Z; scatterIndicesBatchingDims : list Z;
  scatterDimsToOperandDims : list Z; scatterIndexVectorDim : Z;
}.

(** A [BoolAttr] is an [IntegerAttr] of type [i1], and the version of the API of a
    custom call one of type [i32].  Attributes without a case of their own are
    [OtherAttr], with their identity. *)
Inductive Attribute :=
| ComparisonDirectionAttr (value : ComparisonDirection)
| ComparisonTypeAttr (value : ComparisonType)
| FftTypeAttr (value : FftType)
| PrecisionAttr (value : Precision)
| RngAlgorithmAttr (value : RngAlgorithm)
| RngDistributionAttr (value : RngDistribution)
| TransposeAttr (value : Transpose)
| ResultAccuracyModeAttr (value : ResultAccuracyMode)
| ResultAccuracyAttr (atol rtol : APFloat) (ulps : Z) (mode : ResultAccuracyMode)
| OutputOperandAliasAttr (outputTupleIndices : list Z) (operandIndex : Z) (operandTupleIndices : list Z)
| SubAxisInfoAttr (preSize size : Z)
| AxisRefAttr (name : string) (subAxisInfo : option (Z * Z))
| MeshAxisAttr (name : string) (size : Z)
| MeshAttr (axes : list (string * Z)) (deviceIds : option DenseElementsAttr)
| ReplicaGroupMeshAxesAttr (mesh : Attribute) (axes : list Attribute)
| ChannelHandleAttr (handle type : Z)
| ConvDimensionNumbersAttr (value : ConvDimensions)
| DotAlgorithmAttr (value : DotAlgorithm)
| DotDimensionNumbersAttr (value : DotDimensions)
| GatherDimensionNumbersAttr (value : GatherDimensions)
| ScatterDimensionNumbersAttr (value : ScatterDimensions)
| TypeExtensionsAttr (bounds : list Z)
| ArrayAttr (value : list Attribute)
| DenseTypedElementsAttr (value : DenseElementsAttr)
| DenseI64ArrayAttr (value : list Z)
| DenseBoolArrayAttr (value : list bool)
| DictionaryAttr (value : list (string * Attribute))
| FloatAttr (type : Ty) (value : APFloat)
| IntegerAttr (type : Ty) (value : APInt)
| FlatSymbolRefAttr (value : string)
| StringAttr (value : string) (type : Ty)
| TypeAttr (value : Ty)
| UnitAttr
| VhloAttribute (value : VhloAttr)
| OtherAttr (tag : Z).

(** [isa<StablehloDialect>(attr.getDialect())] *)
Definition isStablehloAttr (attr : Attribute) : bool :=
  match attr with
  | ArrayAttr _ | DenseTypedElementsAttr _ | DenseI64ArrayAttr _ | DenseBoolArrayAttr _ | DictionaryAttr _ | FloatAttr _ _
  | IntegerAttr _ _ | FlatSymbolRefAttr _ | StringAttr _ _ | TypeAttr _ | UnitAttr | VhloAttribute _ | OtherAttr _ => false
  | _ => true
  end.

Definition si64 : Ty := IntegerType Signless 64.
Definition si32 : Ty := IntegerType Signless 32.

(** [Builder::getI64IntegerAttr], [getBoolAttr] and [getDenseI64ArrayAttr]'s dense form *)
Definition i64Attr (n : Z) : Attribute := IntegerAttr si64 (apint 64 n).
Definition boolAttr (b : bool) : Attribute := IntegerAttr i1 (apint 1 (Z.b2z b)).
Definition denseI64 (shape : list Z) (l : list Z) : DenseElementsAttr :=
  MkAttr (shaped shape si64) ((fun n => VInt (apint 64 n)) <$> l).
Definition denseBool (l : list bool) : DenseElementsAttr := MkAttr (shaped [Z.of_nat (length l)] i1) (VBool <$> l).
End Attributes.
