(* ===== verification/StablehloToVhlo.v ===== *)
(** * StableHLO to VHLO: the attributes of operations

    [src/stablehlo/transforms/StablehloLegalizeToVhlo.cpp]: how the attributes of an
    operation become those of the VHLO operation of the same name.  [Failed] is the
    null attribute and [failure()]. *)
From S2P Require Import Prelude Types Support Element Tensor Vhlo VhloTypes StablehloAttrs.

(** ** Operations

    The operations that the conversions single out by name; the others are
    [OtherOp]. *)
Inductive OpName :=
| AllGatherOp | AllReduceOp | AllToAllOp | CollectivePermuteOp | ReduceScatterOp | CollectiveBroadcastOp | CollectiveReduceOp
| ConvolutionOp | DynamicConvOp | CustomCallOp | DotGeneralOp | DotOp | DynamicGatherOp | GatherOp | RecvOp | SendOp
| ScatterOp | CallOp | FuncOp | CholeskyOp | CompareOp | CompositeOp | CbrtOp | CosineOp | ExpOp | Expm1Op | LogOp | Log1pOp
| LogisticOp | RsqrtOp | SineOp | SqrtOp | TanOp | TanhOp | DynamicBroadcastInDimOp | InfeedOp | OutfeedOp | ReduceWindowOp
| SelectAndScatterOp | SortOp | FftOp | BroadcastOp | DynamicSliceOp | ReverseOp | TransposeOp | PadOp | SliceOp
| BroadcastInDimOp | MapOp | ReduceOp | OtherOp.

(** The attribute of a name among named attributes. *)
Definition get_attr {A} (attrs : list (string * A)) (name : string) : option A :=
  snd <$> find (fun p => String.eqb p.1 name) attrs.

Definition null_attr {A} : result A := Err (Failed "no attribute").
Definition specialFailure {A} : result A := Err (Failed "special case").

Section Conversion.
Context {L : LLVM}.
Context (vhlo_encoding : Z -> option VhloAttr) (allowOtherDialects : bool) (identity : Attribute -> Z).

Let convertType : Ty -> result VhloType := stablehloToVhloType vhlo_encoding allowOtherDialects.

(** ** The generic case *)

(** [RETURN_CONVERTED_ENUM_ATTR] *)
Definition convert_enum {A B} `{Enum A, Enum B} (get : B -> VhloAttr) (value : A) : result VhloAttr :=
  match symbolize_name (A := B) (stringify value) with Some v => Ok (get v) | None => null_attr end.

Definition convertUnknownAttribute (attr : Attribute) : result VhloAttr :=
  if allowOtherDialects then match attr with VhloAttribute a => Ok a | _ => Ok (ForeignAttr (identity attr)) end else null_attr.

Definition convertDense (data : DenseElementsAttr) : result VhloAttr :=
  let type := attr_type data in
  vhloType ← convertType (RankedTensorType (getShape type) (getElementType type) (getEncoding type));
  Ok (TensorV1Attr vhloType data).

Definition convertMeshAxis (axis : string * Z) : VhloAttr := MeshAxisV1Attr (StringV1Attr axis.1) axis.2.

(** A conversion whose result may be null. *)
Definition nullable {A} (r : result A) : result (option A) :=
  match r with Ok a => Ok (Some a) | Err (Failed _) => Ok None | Err e => Err e end.

Fixpoint convertGeneric (stablehloAttr : Attribute) : result VhloAttr :=
  match stablehloAttr with
  | ComparisonDirectionAttr value => convert_enum ComparisonDirectionV1Attr value
  | ComparisonTypeAttr value => convert_enum ComparisonTypeV1Attr value
  | FftTypeAttr value => convert_enum FftTypeV1Attr value
  | OutputOperandAliasAttr outputs operand operands => Ok (OutputOperandAliasV1Attr outputs operand operands)
  | PrecisionAttr value => convert_enum PrecisionV1Attr value
  | RngAlgorithmAttr value => convert_enum RngAlgorithmV1Attr value
  | RngDistributionAttr value => convert_enum RngDistributionV1Attr value
  | TransposeAttr value => convert_enum TransposeV1Attr value
  | ResultAccuracyModeAttr value => convert_enum ResultAccuracyModeV1Attr value
  | ResultAccuracyAttr atol rtol ulps mode =>
      modeAttr ← convert_enum ResultAccuracyModeV1Attr mode; Ok (ResultAccuracyV1Attr atol rtol ulps modeAttr)
  | SubAxisInfoAttr preSize size => Ok (SubAxisInfoV1Attr preSize size)
  | AxisRefAttr name subAxisInfo =>
      Ok (AxisRefV1Attr (StringV1Attr name) ((fun '(preSize, size) => SubAxisInfoV1Attr preSize size) <$> subAxisInfo))
  | MeshAxisAttr name size => Ok (convertMeshAxis (name, size))
  | MeshAttr axes deviceIds =>
      vhloDeviceIds ← match deviceIds with Some ids => nullable (convertDense ids) | None => Ok None end;
      Ok (MeshV1Attr (ArrayV1Attr (map convertMeshAxis axes)) vhloDeviceIds)
  | ReplicaGroupMeshAxesAttr mesh axes =>
      vhloMesh ← match mesh with FlatSymbolRefAttr value => Ok (StringV1Attr value) | _ => convertGeneric mesh end;
      vhloAxes ← mapM convertGeneric axes;
      Ok (ReplicaGroupMeshAxesV1Attr vhloMesh (ArrayV1Attr vhloAxes))
  | ArrayAttr value => vhloAttrs ← mapM convertGeneric value; Ok (ArrayV1Attr vhloAttrs)
  | DenseTypedElementsAttr data => convertDense data
  | DenseI64ArrayAttr data => convertDense (denseI64 [Z.of_nat (length data)] data)
  | DenseBoolArrayAttr data => convertDense (denseBool data)
  | DictionaryAttr value =>
      vhloAttrs ← mapM (fun '(name, a) => vhloValue ← convertGeneric a; Ok (StringV1Attr name, vhloValue)) value;
      Ok (DictionaryV1Attr vhloAttrs)
  | FloatAttr type value => vhloFloatType ← convertType type; Ok (FloatV1Attr vhloFloatType value)
  | IntegerAttr type value =>
      if bool_decide (type = i1) then Ok (BooleanV1Attr (negb (isZero value)))
      else vhloIntegerType ← convertType type; Ok (IntegerV1Attr vhloIntegerType value)
  | FlatSymbolRefAttr value => Ok (StringV1Attr value)
  | StringAttr value type => if bool_decide (type = NoneType) then Ok (StringV1Attr value) else null_attr
  | TypeAttr value => vhloType ← convertType value; Ok (TypeV1Attr vhloType)
  | UnitAttr | VhloAttribute _ | OtherAttr _ => convertUnknownAttribute stablehloAttr
  | ChannelHandleAttr _ _ | ConvDimensionNumbersAttr _ | DotAlgorithmAttr _ | DotDimensionNumbersAttr _
  | GatherDimensionNumbersAttr _ | ScatterDimensionNumbersAttr _ | TypeExtensionsAttr _ => null_attr
  end.

(** ** Special cases

    [None] is [NOT_SPECIAL]; otherwise the attributes to add. *)
Definition NamedAttrs : Type := list (string * VhloAttr).

Definition convertBool (stablehloDim : bool) : result VhloAttr := convertGeneric (boolAttr stablehloDim).
Definition convertInt (stablehloDim : Z) : result VhloAttr := convertGeneric (i64Attr stablehloDim).
Definition convertInts (stablehloDims : list Z) : result VhloAttr :=
  convertGeneric (DenseTypedElementsAttr (denseI64 [Z.of_nat (length stablehloDims)] stablehloDims)).
Definition convertSymbol (stablehloAttr : Attribute) : result VhloAttr :=
  match stablehloAttr with FlatSymbolRefAttr value => convertGeneric (StringAttr value NoneType) | _ => null_attr end.

(** The attributes with their names, in order. *)
Definition named (l : list (string * result VhloAttr)) : result NamedAttrs :=
  mapM (fun '(name, r) => a ← r; Ok (name, a)) l.

Definition convertChannelHandle (stablehloAttr : Attribute) : result NamedAttrs :=
  match stablehloAttr with
  | ChannelHandleAttr handle type => named [("channel_id", convertInt handle); ("channel_type", convertInt type)]
  | _ => specialFailure
  end.

Definition convertChannelId (stablehloAttr : Attribute) : result NamedAttrs :=
  match stablehloAttr with ChannelHandleAttr handle _ => named [("channel_id", convertInt handle)] | _ => specialFailure end.

Definition convertConvDimensionNumbers (stablehloAttr : Attribute) : result NamedAttrs :=
  match stablehloAttr with
  | ConvDimensionNumbersAttr d => named
      [("input_batch_dimension", convertInt (inputBatchDimension d)); ("input_feature_dimension", convertInt (inputFeatureDimension d));
       ("input_spatial_dimensions", convertInts (inputSpatialDimensions d));
       ("kernel_input_feature_dimension", convertInt (kernelInputFeatureDimension d));
       ("kernel_output_feature_dimension", convertInt (kernelOutputFeatureDimension d));
       ("kernel_spatial_dimensions", convertInts (kernelSpatialDimensions d));
       ("output_batch_dimension", convertInt (outputBatchDimension d)); ("output_feature_dimension", convertInt (outputFeatureDimension d));
       ("output_spatial_dimensions", convertInts (outputSpatialDimensions d))]
  | _ => specialFailure
  end.

(** [dyn_cast<CustomCallApiVersionAttr>]: an integer of type [i32] that is a case. *)
Definition dyn_cast_api_version (attr : Attribute) : option CustomCallApiVersion :=
  match attr with IntegerAttr type value => if bool_decide (type = si32) then symbolize (getSExtValue value) else None | _ => None end.

Definition convertCustomCallApiVersion (stablehloAttr : Attribute) : result NamedAttrs :=
  match dyn_cast_api_version stablehloAttr with
  | Some value => named [("api_version", convert_enum CustomCallApiVersionV1Attr value)]
  | None => specialFailure
  end.

Definition convertCustomCallCalledComputations (stablehloAttr : Attribute) : result NamedAttrs :=
  match stablehloAttr with
  | ArrayAttr value => vhloElementAttrs ← mapM convertSymbol value; Ok [("called_computations", ArrayV1Attr vhloElementAttrs)]
  | _ => specialFailure
  end.

Definition convertDotAlgorithm (stablehloAttr : Attribute) : result NamedAttrs :=
  match stablehloAttr with
  | VhloAttribute (TypeV1Attr NoneV1Type) => Ok []
  | DotAlgorithmAttr d => named
      [("lhs_precision_type", unchecked (convertGeneric (TypeAttr (lhsPrecisionType d))));
       ("rhs_precision_type", unchecked (convertGeneric (TypeAttr (rhsPrecisionType d))));
       ("accumulation_type", unchecked (convertGeneric (TypeAttr (accumulationType d))));
       ("lhs_component_count", convertInt (lhsComponentCount d)); ("rhs_component_count", convertInt (rhsComponentCount d));
       ("num_primitive_operations", convertInt (numPrimitiveOperations d));
       ("allow_imprecise_accumulation", convertBool (allowImpreciseAccumulation d))]
  | _ => specialFailure
  end.

Definition convertDotDimensionNumbers (stablehloAttr : Attribute) : result NamedAttrs :=
  match stablehloAttr with
  | DotDimensionNumbersAttr d => named
      [("lhs_batching_dimensions", convertInts (lhsBatchingDimensions d)); ("rhs_batching_dimensions", convertInts (rhsBatchingDimensions d));
       ("lhs_contracting_dimensions", convertInts (lhsContractingDimensions d));
       ("rhs_contracting_dimensions", convertInts (rhsContractingDimensions d))]
  | _ => specialFailure
  end.

Definition convertFuncCallee (stablehloAttr : Attribute) : result NamedAttrs := named [("callee", convertSymbol stablehloAttr)].

Definition convertGatherDimensionNumbers (stablehloAttr : Attribute) : result NamedAttrs :=
  match stablehloAttr with
  | GatherDimensionNumbersAttr d => named
      [("offset_dims", convertInts (offsetDims d)); ("collapsed_slice_dims", convertInts (collapsedSliceDims d));
       ("operand_batching_dims", convertInts (operandBatchingDims d));
       ("start_indices_batching_dims", convertInts (startIndicesBatchingDims d)); ("start_index_map", convertInts (startIndexMap d));
       ("index_vector_dim", convertInt (indexVectorDim d))]
  | _ => specialFailure
  end.

Definition convertScatterDimensionNumbers (stablehloAttr : Attribute) : result NamedAttrs :=
  match stablehloAttr with
  | ScatterDimensionNumbersAttr d => named
      [("update_window_dims", convertInts (updateWindowDims d)); ("inserted_window_dims", convertInts (insertedWindowDims d));
       ("input_batching_dims", convertInts (inputBatchingDims d));
       ("scatter_indices_batching_dims", convertInts (scatterIndicesBatchingDims d));
       ("scatter_dims_to_operand_dims", convertInts (scatterDimsToOperandDims d));
       ("index_vector_dim", convertInt (scatterIndexVectorDim d))]
  | _ => specialFailure
  end.

Definition convertUnit (name : string) (stablehloAttr : Attribute) : result NamedAttrs :=
  match stablehloAttr with UnitAttr => Ok [(name, BooleanV1Attr true)] | _ => specialFailure end.
Definition convertUseGlobalDeviceIds : Attribute -> result NamedAttrs := convertUnit "use_global_device_ids".

(** The conversion that [convertSpecial] selects for an operation and a name. *)
Definition convertSpecial (op : OpName) (stablehloName : string) : option (Attribute -> result NamedAttrs) :=
  let case name (f : Attribute -> result NamedAttrs) rest := if String.eqb stablehloName name then Some f else rest in
  match op with
  | AllGatherOp | AllReduceOp | AllToAllOp | CollectivePermuteOp | ReduceScatterOp =>
      case "channel_handle" convertChannelId (case "use_global_device_ids" convertUseGlobalDeviceIds None)
  | CollectiveBroadcastOp =>
      case "channel_handle" convertChannelId (case "has_dynamic_root" (convertUnit "has_dynamic_root") None)
  | CollectiveReduceOp =>
      case "channel_handle" convertChannelId
        (case "use_global_device_ids" convertUseGlobalDeviceIds (case "has_dynamic_root" (convertUnit "has_dynamic_root") None))
  | ConvolutionOp | DynamicConvOp => case "dimension_numbers" convertConvDimensionNumbers None
  | CustomCallOp =>
      case "api_version" convertCustomCallApiVersion (case "called_computations" convertCustomCallCalledComputations None)
  | DotGeneralOp => case "dot_dimension_numbers" convertDotDimensionNumbers (case "algorithm" convertDotAlgorithm None)
  | DynamicGatherOp | GatherOp => case "dimension_numbers" convertGatherDimensionNumbers None
  | RecvOp | SendOp => case "channel_handle" convertChannelHandle None
  | ScatterOp => case "scatter_dimension_numbers" convertScatterDimensionNumbers None
  | CallOp => case "callee" convertFuncCallee None
  | _ => None
  end.

(** ** Default attributes

    What [addDefaults] adds for an operation: a default, as an attribute of StableHLO
    or of VHLO, goes under a VHLO name when the operation has no attribute of a
    StableHLO name. *)
Inductive Default := StablehloDefault (attr : Attribute) | VhloDefault (attr : VhloAttr).

(** A default: the StableHLO name, the VHLO name and the value. *)
Definition unless (stablehloName vhloName : string) (attr : Attribute) : string * string * Default :=
  (stablehloName, vhloName, StablehloDefault attr).
Definition unless_same (name : string) (attr : Attribute) : string * string * Default := unless name name attr.

Definition ones (n : Z) : list Z := replicate (Z.to_nat n) 1.
Definition zeros (n : Z) : list Z := replicate (Z.to_nat n) 0.
Definition i64Array (l : list Z) : Attribute := DenseI64ArrayAttr l.
Definition i64Tensor (l : list Z) : Attribute := DenseTypedElementsAttr (denseI64 [Z.of_nat (length l)] l).
Definition noPadding (n : Z) : Attribute := DenseTypedElementsAttr (denseI64 [n; 2] (zeros (n * 2))).
Definition defaultPrecision : Attribute := ArrayAttr [PrecisionAttr Precision_DEFAULT; PrecisionAttr Precision_DEFAULT].
Definition defaultAccuracy : Attribute :=
  ResultAccuracyAttr (apfloat_of_double (Double 0)) (apfloat_of_double (Double 0)) 0 ResultAccuracyMode_DEFAULT.
Definition noChannel : string * string * Default := unless "channel_handle" "channel_id" (i64Attr 0).

(** [CustomCallOp::getBackendConfigOrDefault] *)
Definition getBackendConfigOrDefault (attrs : list (string * Attribute)) : Attribute :=
  match get_attr attrs "backend_config" with
  | Some a => a
  | None =>
      match get_attr attrs "api_version" ≫= dyn_cast_api_version with
      | Some API_VERSION_TYPED_FFI => DictionaryAttr []
      | _ => StringAttr "" NoneType
      end
  end.

Definition defaults (op : OpName) (attrs : list (string * Attribute)) : result (list (string * string * Default)) :=
  match op with
  | FuncOp =>
      Ok [unless_same "sym_visibility" (StringAttr "" NoneType); unless_same "arg_attrs" (ArrayAttr []);
          unless_same "res_attrs" (ArrayAttr [])]
  | AllGatherOp | AllReduceOp | ReduceScatterOp => Ok [noChannel; unless_same "use_global_device_ids" (boolAttr false)]
  | AllToAllOp | CollectivePermuteOp => Ok [noChannel]
  | CollectiveBroadcastOp => Ok [noChannel; unless_same "has_dynamic_root" (boolAttr false)]
  | CollectiveReduceOp =>
      Ok [noChannel; unless_same "use_global_device_ids" (boolAttr false); unless_same "has_dynamic_root" (boolAttr false)]
  | CholeskyOp => Ok [unless_same "lower" (boolAttr false)]
  | CompareOp => Ok [unless_same "compare_type" (ComparisonTypeAttr Folder.NOTYPE)]
  | CompositeOp => Ok [unless_same "version" (i64Attr 0); unless_same "composite_attributes" (DictionaryAttr [])]
  | ConvolutionOp | DynamicConvOp =>
      match get_attr attrs "dimension_numbers" with
      | Some (ConvDimensionNumbersAttr d) =>
          let numSpatialDimensions := Z.of_nat (length (inputSpatialDimensions d)) in
          Ok ([unless_same "window_strides" (i64Array (ones numSpatialDimensions))] ++
              match op with ConvolutionOp => [unless_same "padding" (noPadding numSpatialDimensions)] | _ => [] end ++
              [unless_same "lhs_dilation" (i64Array (ones numSpatialDimensions));
               unless_same "rhs_dilation" (i64Array (ones numSpatialDimensions));
               unless_same "window_reversal" (DenseTypedElementsAttr (denseBool (replicate (Z.to_nat numSpatialDimensions) false)));
               unless_same "precision_config" defaultPrecision])
      | _ => Err (UB "getDimensionNumbers")
      end
  | CustomCallOp =>
      Ok [unless_same "has_side_effect" (boolAttr false); unless_same "backend_config" (getBackendConfigOrDefault attrs);
          ("api_version", "api_version", VhloDefault (CustomCallApiVersionV1Attr CustomCallApiVersionV1_API_VERSION_ORIGINAL));
          unless_same "called_computations" (ArrayAttr []); unless_same "operand_layouts" (ArrayAttr []);
          unless_same "result_layouts" (ArrayAttr []); unless_same "output_operand_aliases" (ArrayAttr []);
          unless_same "result_tilings" (ArrayAttr [])]
  | DotGeneralOp =>
      Ok (unless_same "precision_config" defaultPrecision ::
          map (fun attrName => unless "algorithm" attrName (TypeAttr NoneType))
            ["lhs_precision_type"; "rhs_precision_type"; "accumulation_type"; "lhs_component_count"; "rhs_component_count";
             "num_primitive_operations"; "allow_imprecise_accumulation"])
  | DotOp => Ok [unless_same "precision_config" defaultPrecision]
  | CbrtOp | CosineOp | ExpOp | Expm1Op | LogOp | Log1pOp | LogisticOp | RsqrtOp | SineOp | SqrtOp | TanOp | TanhOp =>
      Ok [unless_same "result_accuracy" defaultAccuracy]
  | DynamicBroadcastInDimOp =>
      Ok [unless_same "known_expanding_dimensions" (i64Tensor []); unless_same "known_nonexpanding_dimensions" (i64Tensor [])]
  | DynamicGatherOp | GatherOp => Ok [unless_same "indices_are_sorted" (boolAttr false)]
  | InfeedOp => Ok [unless_same "infeed_config" (StringAttr "" NoneType); unless_same "layout" (ArrayAttr [])]
  | OutfeedOp => Ok [unless_same "outfeed_config" (StringAttr "" NoneType)]
  | RecvOp | SendOp => Ok [unless_same "is_host_transfer" (boolAttr false); unless_same "source_target_pairs" (i64Array [])]
  | ReduceWindowOp =>
      match get_attr attrs "window_dimensions" with
      | Some (DenseI64ArrayAttr dimensions) =>
          let numWindowDimensions := Z.of_nat (length dimensions) in
          Ok [unless_same "window_strides" (i64Tensor (ones numWindowDimensions));
              unless_same "base_dilations" (i64Tensor (ones numWindowDimensions));
              unless_same "window_dilations" (i64Tensor (ones numWindowDimensions));
              unless_same "padding" (noPadding numWindowDimensions)]
      | _ => Err (UB "getWindowDimensions")
      end
  | ScatterOp => Ok [unless_same "indices_are_sorted" (boolAttr false); unless_same "unique_indices" (boolAttr false)]
  | SelectAndScatterOp =>
      match get_attr attrs "window_dimensions" with
      | Some (DenseI64ArrayAttr dimensions) =>
          let numWindowDimensions := Z.of_nat (length dimensions) in
          Ok [unless_same "window_strides" (i64Tensor (ones numWindowDimensions)); unless_same "padding" (noPadding numWindowDimensions)]
      | _ => Err (Failed "window_dimensions")
      end
  | SortOp => Ok [unless_same "dimension" (i64Attr (-1)); unless_same "is_stable" (boolAttr false)]
  | _ => Ok []
  end.

Definition convertDefault (d : Default) : result VhloAttr :=
  match d with StablehloDefault a => unchecked (convertGeneric a) | VhloDefault a => Ok a end.

Definition addDefaults (op : OpName) (attrs : list (string * Attribute)) : result NamedAttrs :=
  ds ← defaults op attrs;
  named (map (fun '(_, vhloName, d) => (vhloName, convertDefault d))
    (filter (fun '(stablehloName, _, _) => get_attr attrs stablehloName = None) ds)).

(** ** Operations *)

(** One attribute of the operation. *)
Definition convertAttr (op : OpName) (attr : string * Attribute) : result NamedAttrs :=
  match convertSpecial op attr.1 with
  | Some f => f attr.2
  | None => vhloAttr ← convertGeneric attr.2; Ok [(attr.1, vhloAttr)]
  end.

(** The attributes of the VHLO operation: the defaults, and then those of the
    operation in order. *)
Definition convertAttrs (op : OpName) (attrs : list (string * Attribute)) : result NamedAttrs :=
  vhloDefaults ← addDefaults op attrs;
  vhloAttrs ← mapM (convertAttr op) attrs;
  Ok (vhloDefaults ++ concat vhloAttrs).
End Conversion.
