(* ===== verification/VhloToStablehlo.v ===== *)
(** * VHLO to StableHLO: the attributes of operations

    [src/stablehlo/transforms/VhloLegalizeToStablehlo.cpp]: how the attributes of a
    VHLO operation become those of the StableHLO operation.  [Failed] is the null
    attribute and [failure()]; a cast of a null attribute is [UB]. *)
From S2P Require Import Prelude Types Support Element Tensor Folder Vhlo VhloTypes VhloBytecode StablehloAttrs StablehloToVhlo.

Section Conversion.
Context {L : LLVM} {M : MlirBytecode} {C : CommonFolders}.
Context (attr_identity : VhloAttr -> Z) (of_identity : Z -> Attribute).

Let convertType : VhloType -> result Ty := vhloToStablehloType attr_identity.

(** ** The generic case *)

(** [RETURN_CONVERTED_ENUM_ATTR] *)
Definition convert_enum {A B} `{Enum A, Enum B} (get : B -> Attribute) (value : A) : result Attribute :=
  match symbolize_name (A := B) (stringify value) with Some v => Ok (get v) | None => null_attr end.

(** [FloatAttr::get(type, value)] for a [double]. *)
Definition float_attr (type : Ty) (value : double) : Attribute :=
  match type with
  | FloatType Float64 => FloatAttr type (apfloat_of_double value)
  | FloatType kind => FloatAttr type (apfloat_convert kind (apfloat_of_double value))
  | _ => FloatAttr type (apfloat_of_double value)
  end.

(** [CustomCallApiVersionAttr::get] *)
Definition apiVersionAttr (value : CustomCallApiVersion) : Attribute := IntegerAttr si32 (apint 32 (enum_value value)).

Definition isa_ShapedType (type : Ty) : bool :=
  match type with RankedTensorType _ _ _ | UnrankedTensorType _ | MemRefType _ _ _ _ => true | _ => false end.

(** [dyn_cast<DenseIntElementsAttr>] *)
Definition dyn_cast_dense_int (attr : Attribute) : option DenseElementsAttr :=
  match attr with
  | DenseTypedElementsAttr d =>
      match getElementType (attr_type d) with IntegerType _ _ | IndexType => Some d | _ => None end
  | _ => None
  end.

(** A null attribute where [cast] expects one. *)
Definition cast_attr {A} (r : result Attribute) (f : Attribute -> option A) : result A :=
  a ← unchecked r; match f a with Some x => Ok x | None => Err (UB "cast") end.

(** A conversion that gives nothing when the attribute is null or not of the class. *)
Definition dyn_cast_or_null {A} (r : result Attribute) (f : Attribute -> option A) : result (option A) :=
  a ← nullable r; Ok (a ≫= f).

Definition as_string (attr : Attribute) : option string := match attr with StringAttr value _ => Some value | _ => None end.
Definition as_array (attr : Attribute) : option (list Attribute) := match attr with ArrayAttr value => Some value | _ => None end.
Definition as_sub_axis (attr : Attribute) : option (Z * Z) := match attr with SubAxisInfoAttr p s => Some (p, s) | _ => None end.
Definition as_mode (attr : Attribute) : option ResultAccuracyMode :=
  match attr with ResultAccuracyModeAttr mode => Some mode | _ => None end.
Definition as_mesh_axis (attr : Attribute) : result (string * Z) :=
  match attr with MeshAxisAttr name size => Ok (name, size) | _ => null_attr end.
Definition present {A} (o : option A) : result A := ok_or o (Failed "no attribute").

Definition convertTensor (type : VhloType) (data : DenseElementsAttr) : result Attribute :=
  builtinType ← unchecked (convertType type);
  if isa_ShapedType builtinType then Ok (DenseTypedElementsAttr data) else Err (UB "cast<ShapedType>").

Fixpoint convertGeneric (vhloAttr : VhloAttr) : result Attribute :=
  match vhloAttr with
  | ArrayV1Attr value => stablehloAttrs ← mapM convertGeneric value; Ok (ArrayAttr stablehloAttrs)
  | BooleanV1Attr value => Ok (boolAttr value)
  | ComparisonDirectionV1Attr value => convert_enum ComparisonDirectionAttr value
  | ComparisonTypeV1Attr value => convert_enum ComparisonTypeAttr value
  | CustomCallApiVersionV1Attr value => convert_enum apiVersionAttr value
  | DictionaryV1Attr value =>
      attrs ← mapM (fun '(name, v) =>
          builtinName ← dyn_cast_or_null (convertGeneric name) as_string;
          builtinValue ← nullable (convertGeneric v);
          builtinName ← present builtinName;
          builtinValue ← present builtinValue;
          Ok (builtinName, builtinValue)) value;
      Ok (DictionaryAttr attrs)
  | FftTypeV1Attr value => convert_enum FftTypeAttr value
  | FloatV1Attr type value => builtinFloatType ← convertType type; Ok (float_attr builtinFloatType (convertToDouble value))
  | IntegerV1Attr type value => builtinIntegerType ← convertType type; Ok (IntegerAttr builtinIntegerType value)
  | OutputOperandAliasV1Attr outputs operand operands => Ok (OutputOperandAliasAttr outputs operand operands)
  | PrecisionV1Attr value => convert_enum PrecisionAttr value
  | RngAlgorithmV1Attr value => convert_enum RngAlgorithmAttr value
  | RngDistributionV1Attr value => convert_enum RngDistributionAttr value
  | StringV1Attr value => Ok (StringAttr value NoneType)
  | TensorV1Attr type data => convertTensor type data
  | TransposeV1Attr value => convert_enum TransposeAttr value
  | TypeV1Attr value => builtinType ← convertType value; Ok (TypeAttr builtinType)
  | ResultAccuracyModeV1Attr value => convert_enum ResultAccuracyModeAttr value
  | ResultAccuracyV1Attr atol rtol ulps mode =>
      modeAttr ← cast_attr (convertGeneric mode) as_mode; Ok (ResultAccuracyAttr atol rtol ulps modeAttr)
  | SubAxisInfoV1Attr preSize size => Ok (SubAxisInfoAttr preSize size)
  | AxisRefV1Attr name subAxisInfo =>
      stablehloName ← cast_attr (convertGeneric name) as_string;
      stablehloSubAxisInfo ← match subAxisInfo with
                             | Some a => a ← cast_attr (convertGeneric a) as_sub_axis; Ok (Some a)
                             | None => Ok None
                             end;
      Ok (AxisRefAttr stablehloName stablehloSubAxisInfo)
  | MeshAxisV1Attr name size =>
      stablehloName ← dyn_cast_or_null (convertGeneric name) as_string;
      stringAttr ← present stablehloName;
      Ok (MeshAxisAttr stringAttr size)
  | MeshV1Attr axes deviceIds =>
      stablehloAxes ← dyn_cast_or_null (convertGeneric axes) as_array;
      arrayAttr ← present stablehloAxes;
      axes ← mapM as_mesh_axis arrayAttr;
      deviceIds ← match deviceIds with Some a => dyn_cast_or_null (convertGeneric a) dyn_cast_dense_int | None => Ok None end;
      Ok (MeshAttr axes deviceIds)
  | ReplicaGroupMeshAxesV1Attr mesh axes =>
      stablehloMesh ← match mesh with StringV1Attr value => Ok (FlatSymbolRefAttr value) | _ => unchecked (convertGeneric mesh) end;
      arrayAttrAxes ← cast_attr (convertGeneric axes) as_array;
      Ok (ReplicaGroupMeshAxesAttr stablehloMesh arrayAttrAxes)
  | TypeExtensionsV1Attr _ => null_attr
  | ForeignAttr tag => Ok (of_identity tag)
  end.

(** ** Special cases *)
Definition NamedAttributes : Type := list (string * Attribute).

Definition convertBool (vhloAttr : VhloAttr) : result bool :=
  match vhloAttr with BooleanV1Attr value => Ok value | _ => specialFailure end.

Definition isNoneType (vhloAttr : VhloAttr) : bool := match vhloAttr with TypeV1Attr NoneV1Type => true | _ => false end.

Definition convertTypeAttr (vhloAttr : VhloAttr) : result Ty :=
  a ← convertGeneric vhloAttr; match a with TypeAttr type => Ok type | _ => specialFailure end.

Definition convertInt (vhloAttr : VhloAttr) : result Z :=
  match vhloAttr with IntegerV1Attr _ value => Ok (getSExtValue value) | _ => specialFailure end.

(** [getValues<int64_t>()] and [getValues<bool>()] *)
Definition int_values (d : DenseElementsAttr) : result (list Z) :=
  mapM (fun v => match v with VInt x => Ok (getSExtValue x) | _ => Err (UB "getValues") end) (attr_values d).
Definition bool_values (d : DenseElementsAttr) : result (list bool) :=
  mapM (fun v => match v with VBool b => Ok b | _ => Err (UB "getValues") end) (attr_values d).

Definition convertInts (vhloAttr : VhloAttr) : result (list Z) :=
  match vhloAttr with
  | TensorV1Attr _ _ =>
      stablehloAttr ← convertGeneric vhloAttr;
      match dyn_cast_dense_int stablehloAttr with Some d => int_values d | None => specialFailure end
  | _ => specialFailure
  end.

Definition convertSymbol (vhloAttr : VhloAttr) : result Attribute :=
  match vhloAttr with
  | StringV1Attr _ =>
      stablehloStringAttr ← convertGeneric vhloAttr;
      value ← present (as_string stablehloStringAttr);
      Ok (FlatSymbolRefAttr value)
  | _ => null_attr
  end.

Definition convertFuncCallee (vhloAttr : VhloAttr) : result Attribute := convertSymbol vhloAttr.

(** The attribute that a getter of the operation returns, where it is used. *)
Definition getter (vhloAttrs : NamedAttrs) (name : string) : result VhloAttr := ok_or (get_attr vhloAttrs name) (UB "null attribute").

Definition getInt (vhloAttrs : NamedAttrs) (name : string) : result Z := a ← getter vhloAttrs name; convertInt a.
Definition getInts (vhloAttrs : NamedAttrs) (name : string) : result (list Z) := a ← getter vhloAttrs name; convertInts a.
Definition getType_ (vhloAttrs : NamedAttrs) (name : string) : result Ty := a ← getter vhloAttrs name; convertTypeAttr a.

Definition convertChannelHandle (op : NamedAttrs) : result Attribute :=
  channelId ← getInt op "channel_id"; channelType ← getInt op "channel_type"; Ok (ChannelHandleAttr channelId channelType).

Definition convertChannelId (vhloAttr : VhloAttr) : result Attribute :=
  channelId ← convertInt vhloAttr; Ok (ChannelHandleAttr channelId 0).

Definition convertConvDimensionNumbers (op : NamedAttrs) : result Attribute :=
  inputBatch ← getInt op "input_batch_dimension";
  inputFeature ← getInt op "input_feature_dimension";
  inputSpatial ← getInts op "input_spatial_dimensions";
  kernelInputFeature ← getInt op "kernel_input_feature_dimension";
  kernelOutputFeature ← getInt op "kernel_output_feature_dimension";
  kernelSpatial ← getInts op "kernel_spatial_dimensions";
  outputBatch ← getInt op "output_batch_dimension";
  outputFeature ← getInt op "output_feature_dimension";
  outputSpatial ← getInts op "output_spatial_dimensions";
  Ok (ConvDimensionNumbersAttr (MkConvDimensions inputBatch inputFeature inputSpatial kernelInputFeature kernelOutputFeature
    kernelSpatial outputBatch outputFeature outputSpatial)).

Definition convertCustomCallCalledComputations (vhloAttr : VhloAttr) : result Attribute :=
  match vhloAttr with
  | ArrayV1Attr value => stablehloAttrs ← mapM convertSymbol value; Ok (ArrayAttr stablehloAttrs)
  | _ => null_attr
  end.

(** [None] is the null attribute of a dot without an algorithm. *)
Definition convertDotAlgorithm (op : NamedAttrs) : result (option Attribute) :=
  lhsComponentCount ← getter op "lhs_component_count";
  if isNoneType lhsComponentCount then
    others ← mapM (getter op) ["rhs_component_count"; "accumulation_type"; "lhs_component_count"; "rhs_component_count";
      "num_primitive_operations"; "allow_imprecise_accumulation"];
    if forallb isNoneType others then Ok None else specialFailure
  else
    lhsPrecisionType ← getType_ op "lhs_precision_type";
    rhsPrecisionType ← getType_ op "rhs_precision_type";
    accumulationType ← getType_ op "accumulation_type";
    lhsComponentCount ← getInt op "lhs_component_count";
    rhsComponentCount ← getInt op "rhs_component_count";
    numPrimitiveOperations ← getInt op "num_primitive_operations";
    a ← getter op "allow_imprecise_accumulation";
    allowImpreciseAccumulation ← convertBool a;
    Ok (Some (DotAlgorithmAttr (MkDotAlgorithm lhsPrecisionType rhsPrecisionType accumulationType lhsComponentCount
      rhsComponentCount numPrimitiveOperations allowImpreciseAccumulation))).

Definition convertDotDimensionNumbers (op : NamedAttrs) : result Attribute :=
  lhsBatching ← getInts op "lhs_batching_dimensions";
  rhsBatching ← getInts op "rhs_batching_dimensions";
  lhsContracting ← getInts op "lhs_contracting_dimensions";
  rhsContracting ← getInts op "rhs_contracting_dimensions";
  Ok (DotDimensionNumbersAttr (MkDotDimensions lhsBatching rhsBatching lhsContracting rhsContracting)).

Definition convertGatherDimensionNumbers (op : NamedAttrs) : result Attribute :=
  offset ← getInts op "offset_dims";
  collapsed ← getInts op "collapsed_slice_dims";
  operandBatching ← getInts op "operand_batching_dims";
  startIndicesBatching ← getInts op "start_indices_batching_dims";
  indexMap ← getInts op "start_index_map";
  vectorDim ← getInt op "index_vector_dim";
  Ok (GatherDimensionNumbersAttr (MkGatherDimensions offset collapsed operandBatching startIndicesBatching indexMap vectorDim)).

Definition convertScatterDimensionNumbers (op : NamedAttrs) : result Attribute :=
  updateWindow ← getInts op "update_window_dims";
  insertedWindow ← getInts op "inserted_window_dims";
  inputBatching ← getInts op "input_batching_dims";
  scatterIndicesBatching ← getInts op "scatter_indices_batching_dims";
  scatterDims ← getInts op "scatter_dims_to_operand_dims";
  vectorDim ← getInt op "index_vector_dim";
  Ok (ScatterDimensionNumbersAttr (MkScatterDimensions updateWindow insertedWindow inputBatching scatterIndicesBatching
    scatterDims vectorDim)).

Definition eraseAttrs (attrs : NamedAttrs) (names : list string) : NamedAttrs :=
  filter (fun a => existsb (String.eqb a.1) names = false) attrs.

(** What [implodeSpecial] builds for an operation: the attribute it adds, if any, and
    the names it erases. *)
Definition imploded (op : OpName) (vhloOp : NamedAttrs) : list (string * result (option Attribute) * list string) :=
  let some (r : result Attribute) : result (option Attribute) := a ← r; Ok (Some a) in
  match op with
  | ConvolutionOp | DynamicConvOp =>
      [("dimension_numbers", some (convertConvDimensionNumbers vhloOp),
        ["input_batch_dimension"; "input_feature_dimension"; "input_spatial_dimensions"; "kernel_input_feature_dimension";
         "kernel_output_feature_dimension"; "kernel_spatial_dimensions"; "output_batch_dimension"; "output_feature_dimension";
         "output_spatial_dimensions"])]
  | DotGeneralOp =>
      [("dot_dimension_numbers", some (convertDotDimensionNumbers vhloOp),
        ["lhs_batching_dimensions"; "rhs_batching_dimensions"; "lhs_contracting_dimensions"; "rhs_contracting_dimensions"]);
       ("algorithm", convertDotAlgorithm vhloOp,
        ["lhs_precision_type"; "rhs_precision_type"; "accumulation_type"; "lhs_component_count"; "rhs_component_count";
         "num_primitive_operations"; "allow_imprecise_accumulation"])]
  | DynamicGatherOp | GatherOp =>
      [("dimension_numbers", some (convertGatherDimensionNumbers vhloOp),
        ["offset_dims"; "collapsed_slice_dims"; "operand_batching_dims"; "start_indices_batching_dims"; "start_index_map";
         "index_vector_dim"])]
  | ScatterOp =>
      [("scatter_dimension_numbers", some (convertScatterDimensionNumbers vhloOp),
        ["update_window_dims"; "inserted_window_dims"; "input_batching_dims"; "scatter_indices_batching_dims";
         "scatter_dims_to_operand_dims"; "index_vector_dim"])]
  | RecvOp | SendOp => [("channel_handle", some (convertChannelHandle vhloOp), ["channel_id"; "channel_type"])]
  | _ => []
  end.

(** The attributes that are left and those that were built. *)
Definition implodeSpecial (op : OpName) (vhloOp vhloAttrs : NamedAttrs) : result (NamedAttrs * NamedAttributes) :=
  foldM (fun '(name, r, erased) '(vhloAttrs, stablehloAttrs) =>
      a ← r;
      Ok (eraseAttrs vhloAttrs erased, stablehloAttrs ++ match a with Some a => [(name, a)] | None => [] end))
    (imploded op vhloOp) (vhloAttrs, []).

(** [convertDenseArray] *)
Definition convertDenseArray {T} (values : DenseElementsAttr -> result (list T)) (get : list T -> Attribute) (vhloName : string)
    (vhloAttr : VhloAttr) : result NamedAttributes :=
  match vhloAttr with
  | TensorV1Attr vhloType data =>
      type ← unchecked (convertType vhloType);
      match type with
      | RankedTensorType shape elementType encoding =>
          elems ← getFromRawBuffer (MkShaped shape elementType encoding) (getRawData data);
          l ← values elems;
          Ok [(vhloName, get l)]
      | _ => specialFailure
      end
  | _ => specialFailure
  end.
Definition convertDenseBoolArray : string -> VhloAttr -> result NamedAttributes := convertDenseArray bool_values DenseBoolArrayAttr.
Definition convertDenseI64Array : string -> VhloAttr -> result NamedAttributes := convertDenseArray int_values DenseI64ArrayAttr.

(** A flag that is an absent or present [UnitAttr] in StableHLO. *)
Definition convertFlag (name : string) (vhloAttr : VhloAttr) : result NamedAttributes :=
  match vhloAttr with BooleanV1Attr value => Ok (if value then [(name, UnitAttr)] else []) | _ => specialFailure end.

Definition single (name : string) (f : VhloAttr -> result Attribute) (vhloAttr : VhloAttr) : result NamedAttributes :=
  stablehloAttr ← f vhloAttr; Ok [(name, stablehloAttr)].

(** The attributes that StableHLO keeps as arrays of [int64_t]. *)
Definition i64_arrays (op : OpName) : list string :=
  match op with
  | FftOp => ["fft_length"]
  | BroadcastOp => ["broadcast_sizes"]
  | DynamicSliceOp => ["slice_sizes"]
  | ReverseOp => ["dimensions"]
  | TransposeOp => ["permutation"]
  | PadOp => ["edge_padding_low"; "edge_padding_high"; "interior_padding"]
  | SliceOp => ["start_indices"; "limit_indices"; "strides"]
  | BroadcastInDimOp => ["broadcast_dimensions"]
  | DynamicBroadcastInDimOp => ["broadcast_dimensions"; "known_expanding_dimensions"; "known_nonexpanding_dimensions"]
  | SelectAndScatterOp => ["window_dimensions"; "window_strides"]
  | ReduceWindowOp => ["window_dimensions"; "window_strides"; "base_dilations"; "window_dilations"]
  | MapOp | ReduceOp => ["dimensions"]
  | GatherOp => ["slice_sizes"]
  | ConvolutionOp | DynamicConvOp => ["lhs_dilation"; "rhs_dilation"; "window_strides"]
  | _ => []
  end.

(** The conversion that [convertSpecial] selects for an operation and a name. *)
Definition convertSpecial (op : OpName) (vhloName : string) : option (VhloAttr -> result NamedAttributes) :=
  let case name (f : VhloAttr -> result NamedAttributes) rest := if String.eqb vhloName name then Some f else rest in
  let arrays :=
    if existsb (String.eqb vhloName) (i64_arrays op) then Some (convertDenseI64Array vhloName)
    else match op with
         | ConvolutionOp | DynamicConvOp => case "window_reversal" (convertDenseBoolArray vhloName) None
         | _ => None
         end in
  match op with
  | AllGatherOp | AllReduceOp | AllToAllOp | CollectivePermuteOp | ReduceScatterOp =>
      case "channel_id" (single "channel_handle" convertChannelId)
        (case "use_global_device_ids" (convertFlag vhloName) arrays)
  | CollectiveBroadcastOp =>
      case "channel_id" (single "channel_handle" convertChannelId) (case "has_dynamic_root" (convertFlag vhloName) arrays)
  | CollectiveReduceOp =>
      case "channel_id" (single "channel_handle" convertChannelId)
        (case "use_global_device_ids" (convertFlag vhloName) (case "has_dynamic_root" (convertFlag vhloName) arrays))
  | CustomCallOp => case "called_computations" (single vhloName convertCustomCallCalledComputations) arrays
  | CompositeOp => case "decomposition" (single vhloName convertSymbol) arrays
  | CallOp => case "callee" (single vhloName convertFuncCallee) arrays
  | _ => arrays
  end.

(** ** Default attributes *)
Definition isBoolean (value : bool) (vhloAttr : VhloAttr) : bool :=
  match vhloAttr with BooleanV1Attr v => Bool.eqb v value | _ => false end.
Definition isEmptyArray (vhloAttr : VhloAttr) : bool := match vhloAttr with ArrayV1Attr [] => true | _ => false end.
Definition isEmptyDictionary (vhloAttr : VhloAttr) : bool := match vhloAttr with DictionaryV1Attr [] => true | _ => false end.
Definition isString (value : string) (vhloAttr : VhloAttr) : bool :=
  match vhloAttr with StringV1Attr v => String.eqb v value | _ => false end.
Definition isEmptyString : VhloAttr -> bool := isString "".
Definition isEmptyTensor (vhloAttr : VhloAttr) : bool :=
  match vhloAttr with TensorV1Attr _ data => match getRawData data with [] => true | _ => false end | _ => false end.
Definition isInteger (value : Z) (vhloAttr : VhloAttr) : bool :=
  match vhloAttr with IntegerV1Attr _ v => getSExtValue v =? value | _ => false end.

(** [isEnum] and [isSplatArray], for the values they are used with. *)
Definition isNoCompareType (vhloAttr : VhloAttr) : bool :=
  match vhloAttr with ComparisonTypeV1Attr ComparisonTypeV1_NOTYPE => true | _ => false end.
Definition isOriginalApi (vhloAttr : VhloAttr) : bool :=
  match vhloAttr with CustomCallApiVersionV1Attr CustomCallApiVersionV1_API_VERSION_ORIGINAL => true | _ => false end.
Definition isDefaultPrecision (vhloAttr : VhloAttr) : bool :=
  match vhloAttr with PrecisionV1Attr PrecisionV1_DEFAULT => true | _ => false end.
Definition isDefaultPrecisions (vhloAttr : VhloAttr) : bool :=
  match vhloAttr with ArrayV1Attr value => forallb isDefaultPrecision value | _ => false end.

Definition isDefaultResultAccuracyAttribute (vhloAttr : VhloAttr) : result bool :=
  match vhloAttr with
  | ResultAccuracyV1Attr atol rtol ulps mode =>
      if negb (apfloat_isZero atol && apfloat_isZero rtol && (ulps =? 0)) then Ok false
      else match mode with
           | ResultAccuracyModeV1Attr mode => Ok (bool_decide (mode = ResultAccuracyModeV1_DEFAULT))
           | _ => Err (UB "null mode")
           end
  | _ => Err (UB "null attribute")
  end.

Definition as_dense (attr : Attribute) : option DenseElementsAttr :=
  match attr with DenseTypedElementsAttr d => Some d | _ => None end.

(** [getSplatValue<int64_t>() == value] and [getSplatValue<bool>() == value] *)
Definition splat_is_int (value : Z) (v : Value_) : result bool :=
  match v with VInt x => Ok (getSExtValue x =? value) | _ => Err (UB "getSplatValue") end.
Definition splat_is_bool (value : bool) (v : Value_) : result bool :=
  match v with VBool b => Ok (Bool.eqb b value) | _ => Err (UB "getSplatValue") end.

Definition isSplatTensor (splatValue : Value_ -> result bool) (vhloAttr : VhloAttr) : result bool :=
  attr ← dyn_cast_or_null (convertGeneric vhloAttr) as_dense;
  match attr ≫= getSplatValue with Some v => splatValue v | None => Ok false end.

(** What [removeDefaults] tests of an operation, by the name it then erases. *)
Definition removals (op : OpName) (vhloOp : NamedAttrs) : list (string * result bool) :=
  let get name := get_attr vhloOp name in
  let test name (p : VhloAttr -> bool) := (name, Ok (match get name with Some a => p a | None => false end)) in
  let checked name (p : VhloAttr -> result bool) := (name, a ← getter vhloOp name; p a) in
  let splat name n := checked name (isSplatTensor (splat_is_int n)) in
  match op with
  | FuncOp => [test "sym_visibility" (isString ""); test "arg_attrs" isEmptyArray; test "res_attrs" isEmptyArray]
  | AllGatherOp | AllReduceOp | ReduceScatterOp => [test "channel_id" (isInteger 0); test "use_global_device_ids" (isBoolean false)]
  | AllToAllOp | CollectivePermuteOp => [test "channel_id" (isInteger 0)]
  | CollectiveBroadcastOp => [test "channel_id" (isInteger 0); test "has_dynamic_root" (isBoolean false)]
  | CollectiveReduceOp =>
      [test "channel_id" (isInteger 0); test "use_global_device_ids" (isBoolean false); test "has_dynamic_root" (isBoolean false)]
  | CholeskyOp => [test "lower" (isBoolean false)]
  | CompareOp => [test "compare_type" isNoCompareType]
  | CompositeOp => [test "version" (isInteger 0); test "composite_attributes" isEmptyDictionary]
  | ConvolutionOp | DynamicConvOp =>
      [splat "window_strides" 1] ++ match op with ConvolutionOp => [splat "padding" 0] | _ => [] end ++
      [splat "lhs_dilation" 1; splat "rhs_dilation" 1; checked "window_reversal" (isSplatTensor (splat_is_bool false));
       test "precision_config" isDefaultPrecisions]
  | CustomCallOp =>
      let no_layouts := Ok (match get "operand_layouts", get "result_layouts" with
                            | Some operands, Some results => isEmptyArray operands && isEmptyArray results
                            | _, _ => false
                            end) in
      [test "has_side_effect" (isBoolean false);
       test "backend_config" (fun a => isEmptyString a || isEmptyDictionary a);
       test "api_version" isOriginalApi; test "called_computations" isEmptyArray;
       ("operand_layouts", no_layouts); ("result_layouts", no_layouts);
       test "output_operand_aliases" isEmptyArray; test "result_tilings" isEmptyArray]
  | DotGeneralOp | DotOp => [test "precision_config" isDefaultPrecisions]
  | DynamicBroadcastInDimOp => [test "known_expanding_dimensions" isEmptyTensor; test "known_nonexpanding_dimensions" isEmptyTensor]
  | DynamicGatherOp | GatherOp => [test "indices_are_sorted" (isBoolean false)]
  | InfeedOp => [test "infeed_config" isEmptyString; test "layout" isEmptyArray]
  | OutfeedOp => [test "outfeed_config" isEmptyString]
  | RecvOp | SendOp => [test "is_host_transfer" (isBoolean false); test "source_target_pairs" isEmptyTensor]
  | ReduceWindowOp => [splat "window_strides" 1; splat "base_dilations" 1; splat "window_dilations" 1; splat "padding" 0]
  | ScatterOp => [test "indices_are_sorted" (isBoolean false); test "unique_indices" (isBoolean false)]
  | SelectAndScatterOp => [splat "window_strides" 1; splat "padding" 0]
  | SortOp => [test "dimension" (isInteger (-1)); test "is_stable" (isBoolean false)]
  | CbrtOp | CosineOp | ExpOp | Expm1Op | LogOp | Log1pOp | LogisticOp | RsqrtOp | SineOp | SqrtOp | TanOp | TanhOp =>
      [checked "result_accuracy" isDefaultResultAccuracyAttribute]
  | _ => []
  end.

Definition removeDefaults (op : OpName) (vhloOp vhloAttrs : NamedAttrs) : result NamedAttrs :=
  foldM (fun '(name, test) vhloAttrs => b ← test; Ok (if (b : bool) then eraseAttrs vhloAttrs [name] else vhloAttrs))
    (removals op vhloOp) vhloAttrs.

(** ** Operations *)

(** One attribute that is left. *)
Definition convertAttr (op : OpName) (attr : string * VhloAttr) : result NamedAttributes :=
  match convertSpecial op attr.1 with
  | Some f => f attr.2
  | None => stablehloAttr ← convertGeneric attr.2; Ok [(attr.1, stablehloAttr)]
  end.

(** The attributes of the StableHLO operation. *)
Definition convertAttrs (op : OpName) (vhloOp : NamedAttrs) : result NamedAttributes :=
  vhloAttrs ← removeDefaults op vhloOp vhloOp;
  '(vhloAttrs, imploded) ← implodeSpecial op vhloOp vhloAttrs;
  stablehloAttrs ← mapM (convertAttr op) vhloAttrs;
  Ok (imploded ++ concat stablehloAttrs).
End Conversion.
