(* ===== verification/StablehloVhloFacts.v ===== *)
(** * Attributes that pass to VHLO come back

    What the conversions of [StablehloToVhlo.v] and [VhloToStablehlo.v] do one after
    the other: the attributes, then the operations. *)
From S2P Require Import Prelude Types Support Element ElementFacts Tensor Folder Vhlo VhloTypes VhloBytecode VhloBytecodeFacts StablehloAttrs StablehloToVhlo VhloToStablehlo.

(** ** Induction on attributes *)
Section Induction.
Context {L : LLVM} (P : Attribute -> Prop).

Definition attr_parts (a : Attribute) : list Attribute :=
  match a with
  | ArrayAttr value => value
  | DictionaryAttr value => map snd value
  | ReplicaGroupMeshAxesAttr mesh axes => mesh :: axes
  | _ => []
  end.

Context (step : forall a, Forall P (attr_parts a) -> P a).

Definition each (IH : forall a, P a) : forall l, Forall P l :=
  fix go l := match l with [] => Forall_nil_2 P | a :: l => Forall_cons_2 P a l (IH a) (go l) end.
Definition each_value (IH : forall a, P a) : forall l : list (string * Attribute), Forall P (map snd l) :=
  fix go l := match l with [] => Forall_nil_2 P | p :: l => Forall_cons_2 P (snd p) (map snd l) (let (_, a) as p return P (snd p) := p in IH a) (go l) end.

Fixpoint Attribute_parts_ind (a : Attribute) : P a :=
  step a
    match a return Forall P (attr_parts a) with
    | ArrayAttr value => each Attribute_parts_ind value
    | DictionaryAttr value => each_value Attribute_parts_ind value
    | ReplicaGroupMeshAxesAttr mesh axes => Forall_cons_2 P mesh axes (Attribute_parts_ind mesh) (each Attribute_parts_ind axes)
    | _ => Forall_nil_2 P
    end.
End Induction.

(** [Q] holds of an attribute and of everything in it. *)
Inductive all_parts {L : LLVM} (Q : Attribute -> Prop) (a : Attribute) : Prop :=
| AllParts (here : Q a) (below : Forall (all_parts Q) (attr_parts a)).

Lemma unknown_kept {L : LLVM} allow identity a v : convertUnknownAttribute allow identity a = Ok v ->
  match a with VhloAttribute _ => False | _ => True end -> v = ForeignAttr (identity a).
Proof. unfold convertUnknownAttribute. destruct allow; [|done]. by destruct a; intros [= <-]. Qed.

Section RoundTrip.
Context {L : LLVM} {Laws : LLVMLaws L} {M : MlirBytecode} {MLaws : MlirBytecodeLaws M} {C : CommonFolders} {CLaws : CommonFoldersLaws C}.
Context (vhlo_encoding : Z -> option VhloAttr) (allow : bool) (identity : Attribute -> Z).
Context (attr_identity : VhloAttr -> Z) (of_identity : Z -> Attribute).
Context (Hid : identities_ok vhlo_encoding attr_identity).

Let to_vhlo : Attribute -> result VhloAttr := StablehloToVhlo.convertGeneric vhlo_encoding allow identity.
Let to_stablehlo : VhloAttr -> result Attribute := VhloToStablehlo.convertGeneric attr_identity of_identity.

(** What comes back of an attribute: arrays of integers and booleans as tensors, and
    symbols, where no operation says otherwise, as strings. *)
Fixpoint normal (a : Attribute) : Attribute :=
  match a with
  | ArrayAttr value => ArrayAttr (map normal value)
  | DictionaryAttr value => DictionaryAttr (map (fun '(name, v) => (name, normal v)) value)
  | ReplicaGroupMeshAxesAttr mesh axes =>
      ReplicaGroupMeshAxesAttr
        match mesh with FlatSymbolRefAttr _ => mesh | StringAttr value _ => FlatSymbolRefAttr value | _ => normal mesh end
        (map normal axes)
  | DenseI64ArrayAttr value => DenseTypedElementsAttr (denseI64 [Z.of_nat (length value)] value)
  | DenseBoolArrayAttr value => DenseTypedElementsAttr (denseBool value)
  | FlatSymbolRefAttr value => StringAttr value NoneType
  | _ => a
  end.

Definition dense_type (d : DenseElementsAttr) : Ty :=
  RankedTensorType (getShape (attr_type d)) (getElementType (attr_type d)) (getEncoding (attr_type d)).

(** An attribute that can come back: its scales are doubles, a float is not changed by
    its passage through [double], the device ids of a mesh are integers of a type with
    a conversion, and an attribute of another dialect is known by its identity. *)
Definition plain (a : Attribute) : Prop :=
  match a with
  | FloatAttr type value => everywhere vhlo_keeps type /\ float_attr type (convertToDouble value) = FloatAttr type value
  | IntegerAttr type value => everywhere vhlo_keeps type /\ (type = i1 -> Support.getBitWidth value = 1)
  | TypeAttr type => everywhere vhlo_keeps type
  | DenseTypedElementsAttr d => everywhere vhlo_keeps (dense_type d)
  | MeshAttr _ (Some ids) =>
      everywhere vhlo_keeps (dense_type ids) /\ dyn_cast_dense_int (DenseTypedElementsAttr ids) = Some ids /\
      exists v, convertDense vhlo_encoding allow ids = Ok v
  | VhloAttribute _ => False
  | UnitAttr | OtherAttr _ => of_identity (identity a) = a
  | _ => True
  end.

Lemma enum_round_trip {A B} `{SameNames A B} (getv : B -> VhloAttr) (gets : A -> Attribute) a v :
  StablehloToVhlo.convert_enum getv a = Ok v -> exists b, v = getv b /\ VhloToStablehlo.convert_enum gets b = Ok (gets a).
Proof.
  destruct (same_names (A := A) (B := B) a) as (b & Hab & Hba). unfold StablehloToVhlo.convert_enum, VhloToStablehlo.convert_enum.
  rewrite Hab. intros [= <-]. exists b. by rewrite Hba.
Qed.

Lemma type_back t t' : everywhere vhlo_keeps t -> stablehloToVhloType vhlo_encoding allow t = Ok t' ->
  vhloToStablehloType attr_identity t' = Ok t.
Proof. by apply stablehlo_type_round_trip. Qed.

Lemma dense_back d v : everywhere vhlo_keeps (dense_type d) -> convertDense vhlo_encoding allow d = Ok v ->
  exists t, v = TensorV1Attr t d /\ vhloToStablehloType attr_identity t = Ok (dense_type d) /\
    to_stablehlo v = Ok (DenseTypedElementsAttr d).
Proof.
  intros Hs (t & Ht & [= <-])%bind_inv. exists t. split; [done|]. pose proof (type_back _ _ Hs Ht) as Hb. split; [done|].
  unfold to_stablehlo. cbn [VhloToStablehlo.convertGeneric]. unfold convertTensor. by rewrite Hb.
Qed.

Lemma i64_type_ok s : everywhere vhlo_keeps (RankedTensorType s si64 None).
Proof. by repeat constructor. Qed.
Lemma i1_type_ok s : everywhere vhlo_keeps (RankedTensorType s i1 None).
Proof. by repeat constructor. Qed.

Lemma bool_back x : Support.getBitWidth x = 1 -> boolAttr (negb (isZero x)) = IntegerAttr i1 x.
Proof.
  intros Hw. unfold boolAttr. f_equal. pose proof (uval_range x) as Hr. rewrite Hw in Hr. rewrite isZero_spec.
  symmetry. apply apint_intro; [lia|done|]. destruct (Z.eqb_spec (uval x) 0) as [E|E]; cbn; [by rewrite E|].
  rewrite Z.mod_small by lia. lia.
Qed.

Lemma mapM_back {X Y W} (f : X -> result Y) (g : Y -> result W) (h : X -> W) l vs :
  Forall (fun a => forall v, f a = Ok v -> g v = Ok (h a)) l -> mapM f l = Ok vs -> mapM g vs = Ok (map h l).
Proof.
  intros H. revert vs. induction H as [|a l Ha H IH]; intros vs; [by intros [= <-]|]. cbn [mapM].
  intros (v & Hv & (k & Hk & [= <-])%bind_inv)%bind_inv. cbn [mapM map]. rewrite (Ha v Hv). cbn. by rewrite (IH k Hk).
Qed.

Definition comes_back (a : Attribute) : Prop := forall v, to_vhlo a = Ok v -> to_stablehlo v = Ok (normal a).

Lemma dictionary_back (value : list (string * Attribute)) vs : Forall comes_back (map snd value) ->
  mapM (fun '(name, a) => vhloValue ← to_vhlo a; Ok (StringV1Attr name, vhloValue)) value = Ok vs ->
  to_stablehlo (DictionaryV1Attr vs) = Ok (normal (DictionaryAttr value)).
Proof.
  intros H Hv. unfold to_stablehlo. cbn [VhloToStablehlo.convertGeneric normal]. fold to_stablehlo.
  erewrite mapM_back; [done| |exact Hv]. apply Forall_forall. pose proof (proj1 (Forall_forall _ _) H) as Ha.
  intros [name a] Hin v (w & Hw & [= <-])%bind_inv. specialize (Ha a (list_elem_of_fmap_2 snd _ _ Hin)). cbn. by rewrite (Ha w Hw).
Qed.

Lemma mesh_equation axes ids :
  to_stablehlo (MeshV1Attr axes ids) =
    (stablehloAxes ← dyn_cast_or_null (to_stablehlo axes) as_array;
     arrayAttr ← present stablehloAxes;
     axes ← mapM as_mesh_axis arrayAttr;
     deviceIds ← match ids with Some a => dyn_cast_or_null (to_stablehlo a) dyn_cast_dense_int | None => Ok None end;
     Ok (MeshAttr axes deviceIds)).
Proof. done. Qed.

Lemma mesh_axes_back (axes : list (string * Z)) :
  to_stablehlo (ArrayV1Attr (map convertMeshAxis axes)) = Ok (ArrayAttr (map (fun '(name, size) => MeshAxisAttr name size) axes)).
Proof.
  unfold to_stablehlo. cbn [VhloToStablehlo.convertGeneric]. fold to_stablehlo.
  enough (mapM to_stablehlo (map convertMeshAxis axes) = Ok (map (fun '(name, size) => MeshAxisAttr name size) axes)) as -> by done.
  induction axes as [|[name size] axes IH]; [done|]. cbn [map mapM]. cbn. cbn in IH. by rewrite IH.
Qed.

Lemma as_mesh_axes (axes : list (string * Z)) :
  mapM as_mesh_axis (map (fun '(name, size) => MeshAxisAttr name size) axes) = Ok axes.
Proof. induction axes as [|[name size] axes IH]; [done|]. cbn [map mapM]. cbn. by rewrite IH. Qed.

Lemma mesh_back axes ids v : plain (MeshAttr axes ids) -> to_vhlo (MeshAttr axes ids) = Ok v ->
  to_stablehlo v = Ok (MeshAttr axes ids).
Proof.
  intros Hp (i & Hi & [= <-])%bind_inv. rewrite mesh_equation, mesh_axes_back. cbn. rewrite as_mesh_axes. cbn.
  destruct ids as [ids|]; [|by injection Hi as <-].
  destruct Hp as (Hs & Hd & w & Hw). rewrite Hw in Hi. injection Hi as <-.
  destruct (dense_back ids w Hs Hw) as (t & -> & _ & Hb). unfold dyn_cast_or_null. rewrite Hb. cbn [nullable mbind result_bind option_bind].
  by rewrite Hd.
Qed.

Lemma array_back value vs : Forall comes_back value -> mapM to_vhlo value = Ok vs ->
  to_stablehlo (ArrayV1Attr vs) = Ok (ArrayAttr (map normal value)).
Proof.
  intros H Hv. unfold to_stablehlo. cbn [VhloToStablehlo.convertGeneric]. fold to_stablehlo.
  by rewrite (mapM_back _ _ _ _ _ H Hv).
Qed.

Lemma group_axes_equation mesh axes :
  to_stablehlo (ReplicaGroupMeshAxesV1Attr mesh axes) =
    (stablehloMesh ← match mesh with StringV1Attr value => Ok (FlatSymbolRefAttr value) | _ => unchecked (to_stablehlo mesh) end;
     arrayAttrAxes ← cast_attr (to_stablehlo axes) as_array;
     Ok (ReplicaGroupMeshAxesAttr stablehloMesh arrayAttrAxes)).
Proof. done. Qed.

Lemma axes_back mesh axes v : Forall comes_back (mesh :: axes) -> to_vhlo (ReplicaGroupMeshAxesAttr mesh axes) = Ok v ->
  to_stablehlo v = Ok (normal (ReplicaGroupMeshAxesAttr mesh axes)).
Proof.
  intros [Hm Ha]%Forall_cons (m & Hmv & (vs & Hvs & [= <-])%bind_inv)%bind_inv. rewrite group_axes_equation.
  assert ((stablehloMesh ← match m with StringV1Attr value => Ok (FlatSymbolRefAttr value) | _ => unchecked (to_stablehlo m) end;
           Ok stablehloMesh) = Ok match mesh with FlatSymbolRefAttr _ => mesh | StringAttr value _ => FlatSymbolRefAttr value | _ => normal mesh end) as Em.
  { assert (to_vhlo mesh = Ok m -> to_stablehlo m = Ok (normal mesh)) as Hback by apply Hm.
    destruct mesh; try (by injection Hmv as <-); specialize (Hback Hmv);
      try (destruct m; try (by rewrite Hback); cbn in Hback; injection Hback as Hback; discriminate Hback).
    all: try (cbn in Hmv; case_bool_decide; [by injection Hmv as <-|done]). }
  destruct (match m with StringV1Attr value => Ok (FlatSymbolRefAttr value) | _ => unchecked (to_stablehlo m) end) as [x|]; [|done].
  injection Em as Em. cbn [mbind result_bind]. unfold cast_attr. rewrite (array_back _ _ Ha Hvs). cbn. by rewrite Em.
Qed.

Lemma attribute_back a v : all_parts plain a -> to_vhlo a = Ok v -> to_stablehlo v = Ok (normal a).
Proof.
  revert v. induction a as [a IH] using Attribute_parts_ind. intros v [Hp Hb] E.
  assert (Forall comes_back (attr_parts a)) as H.
  { rewrite Forall_forall in IH, Hb |- *. unfold comes_back. eauto. }
  clear IH Hb. destruct a; try discriminate E; try (by injection E as <-); cbn [attr_parts plain normal] in H, Hp |- *.
  - by destruct (enum_round_trip _ ComparisonDirectionAttr _ _ E) as (b & -> & Hb).
  - by destruct (enum_round_trip _ ComparisonTypeAttr _ _ E) as (b & -> & Hb).
  - by destruct (enum_round_trip _ FftTypeAttr _ _ E) as (b & -> & Hb).
  - by destruct (enum_round_trip _ PrecisionAttr _ _ E) as (b & -> & Hb).
  - by destruct (enum_round_trip _ RngAlgorithmAttr _ _ E) as (b & -> & Hb).
  - by destruct (enum_round_trip _ RngDistributionAttr _ _ E) as (b & -> & Hb).
  - by destruct (enum_round_trip _ TransposeAttr _ _ E) as (b & -> & Hb).
  - by destruct (enum_round_trip _ ResultAccuracyModeAttr _ _ E) as (b & -> & Hb).
  - apply bind_inv in E as (m & Em & [= <-]). destruct (enum_round_trip _ ResultAccuracyModeAttr _ _ Em) as (b & -> & Hb).
    cbn. unfold cast_attr. by rewrite Hb.
  - injection E as <-. by destruct subAxisInfo as [[]|].
  - by apply mesh_back.
  - by apply axes_back.
  - apply bind_inv in E as (vs & Hvs & [= <-]). by apply array_back.
  - by destruct (dense_back _ _ Hp E) as (t & _ & _ & Hb).
  - apply bind_inv in E as (vs & Hvs & [= <-]). by apply dictionary_back.
  - apply bind_inv in E as (t & Ht & [= <-]). cbn. rewrite (type_back _ _ (proj1 Hp) Ht). cbn. by rewrite (proj2 Hp).
  - destruct Hp as [Hs Hw]. cbn in E. case_bool_decide as Et.
    + injection E as <-. cbn. subst type. by rewrite bool_back by auto.
    + apply bind_inv in E as (t & Ht & [= <-]). cbn. by rewrite (type_back _ _ Hs Ht).
  - cbn in E. case_bool_decide as Et; [|done]. injection E as <-. by rewrite Et.
  - apply bind_inv in E as (t & Ht & [= <-]). cbn. by rewrite (type_back _ _ Hp Ht).
  - rewrite (unknown_kept _ _ _ _ E) by done. cbn. by rewrite Hp.
  - done.
  - rewrite (unknown_kept _ _ _ _ E) by done. cbn. by rewrite Hp.
Qed.
End RoundTrip.
