(* ===== verification/StablehloVhloOps.v ===== *)
(** * The attributes of operations pass to VHLO and come back

    What an operation's attributes mean - its explicit attributes that are not the
    default - and what the tables of the two conversions say about each of them. *)
From S2P Require Import Prelude Types Support Element ElementFacts Tensor OpsFacts Folder Vhlo VhloTypes VhloBytecode VhloBytecodeFacts StablehloAttrs StablehloToVhlo VhloToStablehlo StablehloVhloFacts.

(** ** The attributes of operations *)

(** How the attribute of a name passes to VHLO and back. *)
Inductive Kind :=
| Generic
| Channel        (* a channel handle of which only the number is kept *)
| Flag           (* a unit attribute, a boolean in VHLO *)
| Callee
| Decomposition
| Symbols
| ApiVersion
| I64Array
| BoolArray
| Padding        (* a tensor of [int64_t] *)
| Accuracy
| Group.         (* spread over several VHLO attributes *)

#[export] Instance Kind_eq_dec : EqDecision Kind. Proof. solve_decision. Defined.

Definition keeps_channel_id (op : OpName) : bool :=
  match op with
  | AllGatherOp | AllReduceOp | AllToAllOp | CollectivePermuteOp | ReduceScatterOp | CollectiveBroadcastOp | CollectiveReduceOp => true
  | _ => false
  end.

Definition flags (op : OpName) : list string :=
  match op with
  | AllGatherOp | AllReduceOp | AllToAllOp | CollectivePermuteOp | ReduceScatterOp => ["use_global_device_ids"]
  | CollectiveBroadcastOp => ["has_dynamic_root"]
  | CollectiveReduceOp => ["use_global_device_ids"; "has_dynamic_root"]
  | _ => []
  end.

(** The attributes that are spread, with the names of their parts. *)
Definition groups (op : OpName) : list (string * list string) :=
  match op with
  | ConvolutionOp | DynamicConvOp =>
      [("dimension_numbers",
        ["input_batch_dimension"; "input_feature_dimension"; "input_spatial_dimensions"; "kernel_input_feature_dimension";
         "kernel_output_feature_dimension"; "kernel_spatial_dimensions"; "output_batch_dimension"; "output_feature_dimension";
         "output_spatial_dimensions"])]
  | DotGeneralOp =>
      [("dot_dimension_numbers",
        ["lhs_batching_dimensions"; "rhs_batching_dimensions"; "lhs_contracting_dimensions"; "rhs_contracting_dimensions"]);
       ("algorithm",
        ["lhs_precision_type"; "rhs_precision_type"; "accumulation_type"; "lhs_component_count"; "rhs_component_count";
         "num_primitive_operations"; "allow_imprecise_accumulation"])]
  | DynamicGatherOp | GatherOp =>
      [("dimension_numbers",
        ["offset_dims"; "collapsed_slice_dims"; "operand_batching_dims"; "start_indices_batching_dims"; "start_index_map";
         "index_vector_dim"])]
  | ScatterOp =>
      [("scatter_dimension_numbers",
        ["update_window_dims"; "inserted_window_dims"; "input_batching_dims"; "scatter_indices_batching_dims";
         "scatter_dims_to_operand_dims"; "index_vector_dim"])]
  | RecvOp | SendOp => [("channel_handle", ["channel_id"; "channel_type"])]
  | _ => []
  end.

Definition mem (name : string) (names : list string) : bool := existsb (String.eqb name) names.

Definition kind_of (op : OpName) (name : string) : Kind :=
  if mem name (map fst (groups op)) then Group
  else if keeps_channel_id op && String.eqb name "channel_handle" then Channel
  else if mem name (flags op) then Flag
  else if mem name (i64_arrays op) then I64Array
  else match op with
       | ConvolutionOp =>
           if String.eqb name "window_reversal" then BoolArray else if String.eqb name "padding" then Padding else Generic
       | DynamicConvOp => if String.eqb name "window_reversal" then BoolArray else Generic
       | ReduceWindowOp | SelectAndScatterOp => if String.eqb name "padding" then Padding else Generic
       | CustomCallOp =>
           if String.eqb name "called_computations" then Symbols
           else if String.eqb name "api_version" then ApiVersion else Generic
       | CompositeOp => if String.eqb name "decomposition" then Decomposition else Generic
       | CallOp => if String.eqb name "callee" then Callee else Generic
       | CbrtOp | CosineOp | ExpOp | Expm1Op | LogOp | Log1pOp | LogisticOp | RsqrtOp | SineOp | SqrtOp | TanOp | TanhOp =>
           if String.eqb name "result_accuracy" then Accuracy else Generic
       | _ => Generic
       end.

(** The StableHLO attribute that a VHLO name comes from. *)
Definition owner (op : OpName) (vhloName : string) : string :=
  match find (fun g => mem vhloName g.2) (groups op) with
  | Some g => g.1
  | None => if keeps_channel_id op && String.eqb vhloName "channel_id" then "channel_handle" else vhloName
  end.

(** The name in VHLO of an attribute that is not spread. *)
Definition vhlo_name (op : OpName) (name : string) : string :=
  if keeps_channel_id op && String.eqb name "channel_handle" then "channel_id" else name.

Section Meaning.
Context {L : LLVM}.

(** Tests for the defaults of StableHLO. *)
Definition bool_is (b : bool) (a : Attribute) : bool :=
  match a with IntegerAttr type v => bool_decide (type = i1) && Bool.eqb (negb (isZero v)) b | _ => false end.
Definition int_is (n : Z) (a : Attribute) : bool := match a with IntegerAttr _ v => getSExtValue v =? n | _ => false end.
Definition no_handle (a : Attribute) : bool := match a with ChannelHandleAttr h _ => h =? 0 | _ => false end.
Definition empty_string (a : Attribute) : bool := match a with StringAttr v _ => String.eqb v "" | _ => false end.
Definition empty_array (a : Attribute) : bool := match a with ArrayAttr [] => true | _ => false end.
Definition empty_dictionary (a : Attribute) : bool := match a with DictionaryAttr [] => true | _ => false end.
Definition no_compare_type (a : Attribute) : bool := match a with ComparisonTypeAttr Folder.NOTYPE => true | _ => false end.
Definition original_api (a : Attribute) : bool :=
  match dyn_cast_api_version a with Some API_VERSION_ORIGINAL => true | _ => false end.
Definition default_precisions (a : Attribute) : bool :=
  match a with
  | ArrayAttr l => forallb (fun p => match p with PrecisionAttr Precision_DEFAULT => true | _ => false end) l
  | _ => false
  end.
Definition default_accuracy (a : Attribute) : bool :=
  match a with
  | ResultAccuracyAttr atol rtol ulps mode =>
      apfloat_isZero atol && apfloat_isZero rtol && (ulps =? 0) && bool_decide (mode = ResultAccuracyMode_DEFAULT)
  | _ => false
  end.
Definition all_ints (n : Z) (a : Attribute) : bool :=
  match a with
  | DenseI64ArrayAttr l => forallb (Z.eqb n) l
  | DenseTypedElementsAttr d => forallb (fun v => match v with VInt x => getSExtValue x =? n | _ => false end) (attr_values d)
  | _ => false
  end.
Definition all_bools (b : bool) (a : Attribute) : bool :=
  match a with DenseBoolArrayAttr l => forallb (Bool.eqb b) l | _ => false end.
Definition no_ints (a : Attribute) : bool :=
  match a with
  | DenseI64ArrayAttr l => match l with [] => true | _ => false end
  | DenseTypedElementsAttr d => match attr_values d with [] => true | _ => false end
  | _ => false
  end.

(** The attributes of an operation that have a default, with its test. *)
Definition default_tests (op : OpName) : list (string * (Attribute -> bool)) :=
  match op with
  | FuncOp => [("sym_visibility", empty_string); ("arg_attrs", empty_array); ("res_attrs", empty_array)]
  | AllGatherOp | AllReduceOp | ReduceScatterOp => [("channel_handle", no_handle)]
  | AllToAllOp | CollectivePermuteOp => [("channel_handle", no_handle)]
  | CollectiveBroadcastOp | CollectiveReduceOp => [("channel_handle", no_handle)]
  | CholeskyOp => [("lower", bool_is false)]
  | CompareOp => [("compare_type", no_compare_type)]
  | CompositeOp => [("version", int_is 0); ("composite_attributes", empty_dictionary)]
  | ConvolutionOp =>
      [("window_strides", all_ints 1); ("padding", all_ints 0); ("lhs_dilation", all_ints 1); ("rhs_dilation", all_ints 1);
       ("window_reversal", all_bools false); ("precision_config", default_precisions)]
  | DynamicConvOp =>
      [("window_strides", all_ints 1); ("lhs_dilation", all_ints 1); ("rhs_dilation", all_ints 1);
       ("window_reversal", all_bools false); ("precision_config", default_precisions)]
  | CustomCallOp =>
      [("has_side_effect", bool_is false); ("backend_config", fun a => empty_string a || empty_dictionary a);
       ("api_version", original_api); ("called_computations", empty_array); ("operand_layouts", empty_array);
       ("result_layouts", empty_array); ("output_operand_aliases", empty_array); ("result_tilings", empty_array)]
  | DotGeneralOp | DotOp => [("precision_config", default_precisions)]
  | DynamicBroadcastInDimOp => [("known_expanding_dimensions", no_ints); ("known_nonexpanding_dimensions", no_ints)]
  | DynamicGatherOp | GatherOp => [("indices_are_sorted", bool_is false)]
  | InfeedOp => [("infeed_config", empty_string); ("layout", empty_array)]
  | OutfeedOp => [("outfeed_config", empty_string)]
  | RecvOp | SendOp => [("is_host_transfer", bool_is false); ("source_target_pairs", no_ints)]
  | ReduceWindowOp =>
      [("window_strides", all_ints 1); ("base_dilations", all_ints 1); ("window_dilations", all_ints 1); ("padding", all_ints 0)]
  | ScatterOp => [("indices_are_sorted", bool_is false); ("unique_indices", bool_is false)]
  | SelectAndScatterOp => [("window_strides", all_ints 1); ("padding", all_ints 0)]
  | SortOp => [("dimension", int_is (-1)); ("is_stable", bool_is false)]
  | CbrtOp | CosineOp | ExpOp | Expm1Op | LogOp | Log1pOp | LogisticOp | RsqrtOp | SineOp | SqrtOp | TanOp | TanhOp =>
      [("result_accuracy", default_accuracy)]
  | _ => []
  end.

Definition is_default (op : OpName) (name : string) (a : Attribute) : bool :=
  match find (fun t => String.eqb t.1 name) (default_tests op) with Some t => t.2 a | None => false end.

(** The explicit attribute of a name, unless it is the default. *)
Definition effective (op : OpName) (attrs : list (string * Attribute)) (name : string) : option Attribute :=
  match get_attr attrs name with Some a => if is_default op name a then None else Some a | None => None end.

(** What the attribute of a name comes back as. *)
Definition normal_attr (op : OpName) (name : string) (a : Attribute) : Attribute :=
  match kind_of op name with
  | Generic => normal a
  | Channel => match a with ChannelHandleAttr h _ => ChannelHandleAttr h 0 | _ => a end
  | _ => a
  end.
End Meaning.

(** ** The tables of the conversions, by kind *)

(** Case analysis on an operation and on the names that it singles out. *)
Ltac by_name :=
  repeat match goal with
  | H : context [String.eqb ?name ?s] |- _ => is_var name; destruct (String.eqb_spec name s); [subst name|]
  | |- context [String.eqb ?name ?s] => is_var name; destruct (String.eqb_spec name s); [subst name|]
  end.
Ltac table op :=
  destruct op; cbn -[String.eqb] in *; by_name; cbn in *; try done.

Section Tables.
Context {L : LLVM} {M : MlirBytecode} {C : CommonFolders}.
Context (vhlo_encoding : Z -> option VhloAttr) (allow : bool) (identity : Attribute -> Z).
Context (attr_identity : VhloAttr -> Z) (of_identity : Z -> Attribute).

Lemma to_vhlo_special op name : kind_of op name <> Group ->
  StablehloToVhlo.convertSpecial vhlo_encoding allow identity op name =
    match kind_of op name with
    | Channel => Some (StablehloToVhlo.convertChannelId vhlo_encoding allow identity)
    | Flag => Some (convertUnit name)
    | ApiVersion => Some convertCustomCallApiVersion
    | Symbols => Some (StablehloToVhlo.convertCustomCallCalledComputations vhlo_encoding allow identity)
    | Callee => Some (StablehloToVhlo.convertFuncCallee vhlo_encoding allow identity)
    | _ => None
    end.
Proof. intros H. unfold kind_of, StablehloToVhlo.convertSpecial, mem in *. table op. Qed.

Lemma to_stablehlo_special op name : kind_of op name <> Group -> owner op name = name ->
  VhloToStablehlo.convertSpecial attr_identity of_identity op (vhlo_name op name) =
    match kind_of op name with
    | Channel => Some (single "channel_handle" VhloToStablehlo.convertChannelId)
    | Flag => Some (convertFlag name)
    | Symbols => Some (single name (VhloToStablehlo.convertCustomCallCalledComputations attr_identity of_identity))
    | Decomposition | Callee => Some (single name (VhloToStablehlo.convertSymbol attr_identity of_identity))
    | I64Array => Some (convertDenseI64Array attr_identity name)
    | BoolArray => Some (convertDenseBoolArray attr_identity name)
    | _ => None
    end.
Proof. intros H H'. unfold kind_of, vhlo_name, owner, VhloToStablehlo.convertSpecial, mem in *. table op. Qed.

Lemma kind_names op name :
  match kind_of op name with
  | Channel => name = "channel_handle" /\ vhlo_name op name = "channel_id"
  | Symbols => name = "called_computations" /\ vhlo_name op name = name
  | ApiVersion => name = "api_version" /\ vhlo_name op name = name
  | Callee => name = "callee" /\ vhlo_name op name = name
  | Group => True
  | _ => vhlo_name op name = name
  end.
Proof. unfold kind_of, vhlo_name, mem. table op. Qed.

Lemma owner_vhlo_name op name : kind_of op name <> Group -> owner op name = name -> owner op (vhlo_name op name) = name.
Proof. intros H H'. unfold kind_of, vhlo_name, owner, mem in *. table op. Qed.

Lemma group_owner op name parts : (name, parts) ∈ groups op -> forall n, n ∈ parts -> owner op n = name.
Proof.
  intros H n. unfold owner. destruct op; cbn [groups] in H; rewrite ?elem_of_cons, ?elem_of_nil in H; destruct_or?; try done;
    injection H as -> ->; rewrite ?elem_of_cons, ?elem_of_nil; intros Hn; destruct_or?; subst; done.
Qed.

Lemma group_kind op name parts : (name, parts) ∈ groups op -> kind_of op name = Group.
Proof.
  intros H. unfold kind_of, mem. rewrite (proj2 (existsb_exists _ _)); [done|]. exists name. split; [|apply String.eqb_refl].
  apply list_elem_of_In. apply (list_elem_of_fmap_2 fst _ _ H).
Qed.

Lemma kind_group op name : kind_of op name = Group -> exists parts, (name, parts) ∈ groups op.
Proof.
  unfold kind_of. destruct (mem name (map fst (groups op))) eqn:E.
  - intros _. apply existsb_exists in E as (n & Hn & <-%String.eqb_eq). apply list_elem_of_In, list_elem_of_fmap in Hn as ([m parts] & -> & H).
    by exists parts.
  - clear E. unfold mem. intros H. exfalso. table op.
Qed.
End Tables.
