(* ===== verification/StablehloVhloRoundTrip.v ===== *)
(** * Operations keep their attributes through VHLO

    One attribute at a time, then what [addDefaults] adds and [removeDefaults] removes,
    then the operation. *)
From S2P Require Import Prelude Types Support Element ElementFacts Tensor OpsFacts Folder Vhlo VhloTypes VhloBytecode VhloBytecodeFacts StablehloAttrs StablehloToVhlo VhloToStablehlo StablehloVhloFacts StablehloVhloOps.

(** ** Named attributes *)
Section Named.
Context {A : Type}.
Implicit Types (l : list (string * A)) (n : string).

Definition functional l : Prop := forall n a b, (n, a) ∈ l -> (n, b) ∈ l -> a = b.

Lemma get_attr_in l n a : get_attr l n = Some a -> (n, a) ∈ l.
Proof.
  unfold get_attr. destruct (find _ l) as [[m b]|] eqn:E; [|done]. intros [= <-].
  apply find_some in E as [E Em]. cbn in Em. apply String.eqb_eq in Em as ->. by apply list_elem_of_In.
Qed.

Lemma get_attr_none l n a : get_attr l n = None -> (n, a) ∉ l.
Proof.
  unfold get_attr. destruct (find _ l) eqn:E; [done|]. intros _ H. apply list_elem_of_In in H.
  pose proof (find_none _ _ E _ H) as Hn. cbn in Hn. by rewrite String.eqb_refl in Hn.
Qed.

Lemma in_get_attr l n a : functional l -> (n, a) ∈ l -> get_attr l n = Some a.
Proof.
  intros Hf H. destruct (get_attr l n) as [b|] eqn:E; [|by destruct (get_attr_none l n a E)].
  f_equal. by apply (Hf n); [apply get_attr_in|].
Qed.

Lemma nodup_functional l : NoDup (map fst l) -> functional l.
Proof.
  intros H n a b. induction l as [|[m c] l IH]; [by rewrite elem_of_nil|]. cbn in H. apply NoDup_cons in H as [Hm H].
  assert (forall x, (m, x) ∉ l) as Hl by (by intros x Hx; apply Hm, (list_elem_of_fmap_2 fst _ _ Hx)).
  rewrite !elem_of_cons. intros [Ha|Ha] [Hb|Hb]; simplify_eq; [done|by destruct (Hl b)|by destruct (Hl a)|by apply IH].
Qed.

End Named.

(** ** Integers and the parts of spread attributes *)
Section Attributes.
Context {L : LLVM} {Laws : LLVMLaws L} {M : MlirBytecode} {MLaws : MlirBytecodeLaws M} {C : CommonFolders} {CLaws : CommonFoldersLaws C}.
Context (vhlo_encoding : Z -> option VhloAttr) (allow : bool) (identity : Attribute -> Z).
Context (attr_identity : VhloAttr -> Z) (of_identity : Z -> Attribute).
Context (Hid : identities_ok vhlo_encoding attr_identity).
Local Abbreviation to_vhlo := (StablehloToVhlo.convertGeneric vhlo_encoding allow identity).
Local Abbreviation to_stablehlo := (VhloToStablehlo.convertGeneric attr_identity of_identity).
Local Abbreviation attr_to_vhlo := (StablehloToVhlo.convertAttr vhlo_encoding allow identity).
Local Abbreviation attr_to_stablehlo := (VhloToStablehlo.convertAttr attr_identity of_identity).

Lemma named_ok (l : list (string * result VhloAttr)) k : named l = Ok k ->
  Forall2 (fun p q => p.1 = q.1 /\ p.2 = Ok q.2) l k.
Proof.
  intros H. apply mapM_inv in H. apply (Forall2_impl _ _ _ _ H). intros [n r] [m v] (a & Ha & [= <- <-])%bind_inv. done.
Qed.
Lemma sext_apint w n : 0 < w <= 64 -> - 2 ^ (w - 1) <= n < 2 ^ (w - 1) -> getSExtValue (apint w n) = n.
Proof.
  intros Hw H. rewrite getSExtValue_spec by (rewrite width_apint; lia). rewrite sval_apint by lia. by apply to_signed_small; [lia|].
Qed.

Lemma sext_i64 n : in_i64 n = true -> getSExtValue (apint 64 n) = n.
Proof. intros [?%Z.leb_le ?%Z.leb_le]%andb_prop. apply sext_apint; [lia|]. unfold int64_min, int64_max in *. lia. Qed.

Lemma int_values_i64 shape l : forallb in_i64 l = true -> int_values (denseI64 shape l) = Ok l.
Proof.
  unfold int_values. cbn [attr_values denseI64]. induction l as [|n l IH]; [done|]. intros [Hn Hl]%andb_prop. cbn.
  rewrite sext_i64 by done. cbn. by rewrite IH.
Qed.

Lemma bool_values_bools l : bool_values (denseBool l) = Ok l.
Proof. unfold bool_values. cbn [attr_values denseBool]. induction l as [|n l IH]; [done|]. cbn. by rewrite IH. Qed.

Lemma dense_i64_ok l : dense_ok (denseI64 [Z.of_nat (length l)] l) = true.
Proof.
  unfold dense_ok. cbn [attr_type attr_values denseI64 shaped getShape getElementType forallb].
  rewrite length_fmap. repeat (apply andb_true_intro; split); [|done| |].
  - by apply Z.leb_le; lia.
  - apply Z.eqb_eq. unfold prod_z. cbn. lia.
  - apply forallb_forall. intros v (n & -> & _)%list_elem_of_In%list_elem_of_fmap. cbn. by rewrite width_apint.
Qed.

Lemma dense_bool_ok l : dense_ok (denseBool l) = true.
Proof.
  unfold dense_ok. cbn [attr_type attr_values denseBool shaped getShape getElementType forallb].
  rewrite length_fmap. repeat (apply andb_true_intro; split); [|done| |].
  - by apply Z.leb_le; lia.
  - apply Z.eqb_eq. unfold prod_z. cbn. lia.
  - apply forallb_forall. by intros v (n & -> & _)%list_elem_of_In%list_elem_of_fmap.
Qed.

Lemma int_part n : in_i64 n = true -> exists v,
  StablehloToVhlo.convertInt vhlo_encoding allow identity n = Ok v /\ VhloToStablehlo.convertInt v = Ok n /\ isNoneType v = false.
Proof. intros H. eexists. split; [reflexivity|]. cbn. by rewrite sext_i64. Qed.

Lemma ints_part l : forallb in_i64 l = true -> exists v,
  StablehloToVhlo.convertInts vhlo_encoding allow identity l = Ok v /\
  VhloToStablehlo.convertInts attr_identity of_identity v = Ok l.
Proof. intros H. eexists. split; [reflexivity|]. cbn. by apply (int_values_i64 [Z.of_nat (length l)]). Qed.

(** The VHLO attributes [l] are all among those of the operation. *)
Definition holds (l vhloOp : NamedAttrs) : Prop := Forall (fun p => get_attr vhloOp p.1 = Some p.2) l.

(** An attribute that is spread into parts of these names and built again from them. *)
Definition spreads {B} (r : result NamedAttrs) (g : NamedAttrs -> result B) (b : B) (parts : list string) : Prop :=
  exists l, r = Ok l /\ map fst l = parts /\ forall vhloOp, holds l vhloOp -> g vhloOp = Ok b.

(** Convert the parts one by one, and read them back. *)
Ltac spread :=
  repeat match goal with
  | |- context [StablehloToVhlo.convertInt vhlo_encoding allow identity ?n] =>
      let E := fresh "E" in destruct (int_part n) as (? & E & ? & ?); [done|rewrite E]
  | |- context [StablehloToVhlo.convertInts vhlo_encoding allow identity ?l] =>
      let E := fresh "E" in destruct (ints_part l) as (? & E & ?); [done|rewrite E]
  end;
  eexists; split; [reflexivity|]; split; [reflexivity|]; intros vhloOp Hh; unfold holds in Hh;
  repeat (apply Forall_cons in Hh as [? Hh]); unfold getInt, getInts, getter; cbn in *;
  repeat match goal with H : get_attr vhloOp _ = Some _ |- _ => rewrite H; clear H end; cbn;
  repeat match goal with H : _ = Ok _ |- _ => rewrite H; clear H; cbn end.

Definition conv_ok (d : ConvDimensions) : bool :=
  in_i64 (inputBatchDimension d) && in_i64 (inputFeatureDimension d) && forallb in_i64 (inputSpatialDimensions d) &&
  in_i64 (kernelInputFeatureDimension d) && in_i64 (kernelOutputFeatureDimension d) && forallb in_i64 (kernelSpatialDimensions d) &&
  in_i64 (outputBatchDimension d) && in_i64 (outputFeatureDimension d) && forallb in_i64 (outputSpatialDimensions d).

Lemma conv_spreads d : conv_ok d = true ->
  spreads (StablehloToVhlo.convertConvDimensionNumbers vhlo_encoding allow identity (ConvDimensionNumbersAttr d))
    (VhloToStablehlo.convertConvDimensionNumbers attr_identity of_identity) (ConvDimensionNumbersAttr d)
    ["input_batch_dimension"; "input_feature_dimension"; "input_spatial_dimensions"; "kernel_input_feature_dimension";
     "kernel_output_feature_dimension"; "kernel_spatial_dimensions"; "output_batch_dimension"; "output_feature_dimension";
     "output_spatial_dimensions"].
Proof.
  unfold conv_ok, spreads, StablehloToVhlo.convertConvDimensionNumbers, VhloToStablehlo.convertConvDimensionNumbers. intros H.
  rewrite !andb_true_iff in H. destruct_and!. spread. by destruct d.
Qed.

Definition dot_ok (d : DotDimensions) : bool :=
  forallb in_i64 (lhsBatchingDimensions d) && forallb in_i64 (rhsBatchingDimensions d) &&
  forallb in_i64 (lhsContractingDimensions d) && forallb in_i64 (rhsContractingDimensions d).

Lemma dot_spreads d : dot_ok d = true ->
  spreads (StablehloToVhlo.convertDotDimensionNumbers vhlo_encoding allow identity (DotDimensionNumbersAttr d))
    (VhloToStablehlo.convertDotDimensionNumbers attr_identity of_identity) (DotDimensionNumbersAttr d)
    ["lhs_batching_dimensions"; "rhs_batching_dimensions"; "lhs_contracting_dimensions"; "rhs_contracting_dimensions"].
Proof.
  unfold dot_ok, spreads, StablehloToVhlo.convertDotDimensionNumbers, VhloToStablehlo.convertDotDimensionNumbers. intros H.
  rewrite !andb_true_iff in H. destruct_and!. spread. by destruct d.
Qed.

Definition gather_ok (d : GatherDimensions) : bool :=
  forallb in_i64 (offsetDims d) && forallb in_i64 (collapsedSliceDims d) && forallb in_i64 (operandBatchingDims d) &&
  forallb in_i64 (startIndicesBatchingDims d) && forallb in_i64 (startIndexMap d) && in_i64 (indexVectorDim d).

Lemma gather_spreads d : gather_ok d = true ->
  spreads (StablehloToVhlo.convertGatherDimensionNumbers vhlo_encoding allow identity (GatherDimensionNumbersAttr d))
    (VhloToStablehlo.convertGatherDimensionNumbers attr_identity of_identity) (GatherDimensionNumbersAttr d)
    ["offset_dims"; "collapsed_slice_dims"; "operand_batching_dims"; "start_indices_batching_dims"; "start_index_map";
     "index_vector_dim"].
Proof.
  unfold gather_ok, spreads, StablehloToVhlo.convertGatherDimensionNumbers, VhloToStablehlo.convertGatherDimensionNumbers. intros H.
  rewrite !andb_true_iff in H. destruct_and!. spread. by destruct d.
Qed.

Definition scatter_ok (d : ScatterDimensions) : bool :=
  forallb in_i64 (updateWindowDims d) && forallb in_i64 (insertedWindowDims d) && forallb in_i64 (inputBatchingDims d) &&
  forallb in_i64 (scatterIndicesBatchingDims d) && forallb in_i64 (scatterDimsToOperandDims d) && in_i64 (scatterIndexVectorDim d).

Lemma scatter_spreads d : scatter_ok d = true ->
  spreads (StablehloToVhlo.convertScatterDimensionNumbers vhlo_encoding allow identity (ScatterDimensionNumbersAttr d))
    (VhloToStablehlo.convertScatterDimensionNumbers attr_identity of_identity) (ScatterDimensionNumbersAttr d)
    ["update_window_dims"; "inserted_window_dims"; "input_batching_dims"; "scatter_indices_batching_dims";
     "scatter_dims_to_operand_dims"; "index_vector_dim"].
Proof.
  unfold scatter_ok, spreads, StablehloToVhlo.convertScatterDimensionNumbers, VhloToStablehlo.convertScatterDimensionNumbers. intros H.
  rewrite !andb_true_iff in H. destruct_and!. spread. by destruct d.
Qed.

Lemma channel_spreads h t : in_i64 h && in_i64 t = true ->
  spreads (StablehloToVhlo.convertChannelHandle vhlo_encoding allow identity (ChannelHandleAttr h t))
    VhloToStablehlo.convertChannelHandle (ChannelHandleAttr h t) ["channel_id"; "channel_type"].
Proof.
  unfold spreads, StablehloToVhlo.convertChannelHandle, VhloToStablehlo.convertChannelHandle. intros [? ?]%andb_prop.
  by spread.
Qed.

(** A type that converts, with scales that are doubles. *)
Definition type_ok (t : Ty) : Prop :=
  everywhere vhlo_keeps t /\ exists v, stablehloToVhloType vhlo_encoding allow t = Ok v.
Definition algorithm_ok (d : DotAlgorithm) : Prop :=
  type_ok (lhsPrecisionType d) /\ type_ok (rhsPrecisionType d) /\ type_ok (accumulationType d) /\
  in_i64 (lhsComponentCount d) && in_i64 (rhsComponentCount d) && in_i64 (numPrimitiveOperations d) = true.

Lemma type_part t : type_ok t -> exists v,
  unchecked (to_vhlo (TypeAttr t)) = Ok v /\ convertTypeAttr attr_identity of_identity v = Ok t.
Proof.
  intros (Hs & v & Hv). exists (TypeV1Attr v). cbn. rewrite Hv. split; [done|]. unfold convertTypeAttr. cbn.
  by rewrite (type_back _ _ _ Hid _ _ Hs Hv).
Qed.

Lemma bool_part b : exists v, StablehloToVhlo.convertBool vhlo_encoding allow identity b = Ok v /\ VhloToStablehlo.convertBool v = Ok b.
Proof.
  eexists. split; [reflexivity|]. cbn. rewrite isZero_spec, uval_apint by lia. by destruct b.
Qed.

Lemma algorithm_spreads d : algorithm_ok d ->
  spreads (StablehloToVhlo.convertDotAlgorithm vhlo_encoding allow identity (DotAlgorithmAttr d))
    (VhloToStablehlo.convertDotAlgorithm attr_identity of_identity) (Some (DotAlgorithmAttr d))
    ["lhs_precision_type"; "rhs_precision_type"; "accumulation_type"; "lhs_component_count"; "rhs_component_count";
     "num_primitive_operations"; "allow_imprecise_accumulation"].
Proof.
  intros (Hl & Hr & Ha & H). unfold spreads, StablehloToVhlo.convertDotAlgorithm, VhloToStablehlo.convertDotAlgorithm.
  rewrite !andb_true_iff in H. destruct_and!.
  destruct (type_part _ Hl) as (vl & El & Bl), (type_part _ Hr) as (vr & Er & Br), (type_part _ Ha) as (va & Ea & Ba).
  destruct (bool_part (allowImpreciseAccumulation d)) as (vb & Eb & Bb). rewrite El, Er, Ea, Eb. unfold getType_. spread.
  repeat match goal with H : isNoneType _ = false |- _ => rewrite H; clear H end. by destruct d.
Qed.

(** ** One attribute of an operation *)

(** What the attribute of a name is in an operation that verifies. *)
Definition group_ok (op : OpName) (name : string) (a : Attribute) : Prop :=
  match op with
  | ConvolutionOp | DynamicConvOp => exists d, a = ConvDimensionNumbersAttr d /\ conv_ok d = true
  | DotGeneralOp =>
      if String.eqb name "algorithm" then exists d, a = DotAlgorithmAttr d /\ algorithm_ok d
      else exists d, a = DotDimensionNumbersAttr d /\ dot_ok d = true
  | DynamicGatherOp | GatherOp => exists d, a = GatherDimensionNumbersAttr d /\ gather_ok d = true
  | ScatterOp => exists d, a = ScatterDimensionNumbersAttr d /\ scatter_ok d = true
  | RecvOp | SendOp => exists h t, a = ChannelHandleAttr h t /\ in_i64 h && in_i64 t = true
  | _ => False
  end.

Definition default_test (op : OpName) (name : string) : option (Attribute -> bool) :=
  snd <$> find (fun t => String.eqb t.1 name) (default_tests op).

Definition attr_ok (op : OpName) (name : string) (a : Attribute) : Prop :=
  owner op name = name /\
  match kind_of op name with
  | Generic =>
      all_parts (plain vhlo_encoding allow identity of_identity) a /\ (exists v, to_vhlo a = Ok v) /\
      (default_test op name = None \/ match a with FlatSymbolRefAttr _ | DenseBoolArrayAttr _ => False | _ => True end)
  | Channel => exists h t, a = ChannelHandleAttr h t /\ in_i64 h = true
  | Flag => a = UnitAttr
  | Callee | Decomposition => exists s, a = FlatSymbolRefAttr s
  | Symbols => exists l, a = ArrayAttr (map FlatSymbolRefAttr l)
  | ApiVersion => exists v, a = apiVersionAttr v
  | I64Array => exists l, a = DenseI64ArrayAttr l /\ forallb in_i64 l = true
  | BoolArray => exists l, a = DenseBoolArrayAttr l
  | Padding => exists shape l, a = DenseTypedElementsAttr (denseI64 shape l) /\ forallb in_i64 l = true
  | Accuracy => exists atol rtol ulps mode, a = ResultAccuracyAttr atol rtol ulps mode
  | Group => group_ok op name a
  end.

(** A tensor attribute whose type in VHLO is the type of its elements. *)
Definition tensor_of (d : DenseElementsAttr) (v : VhloAttr) : Prop :=
  exists t, v = TensorV1Attr t d /\ vhloToStablehloType attr_identity t = Ok (dense_type d).

(** What the VHLO attribute is, for the tests of defaults that need it to be so. *)
Definition testable (k : Kind) (v : VhloAttr) : Prop :=
  match k with
  | I64Array => exists l, tensor_of (denseI64 [Z.of_nat (length l)] l) v /\ forallb in_i64 l = true
  | Padding => exists shape l, tensor_of (denseI64 shape l) v
  | BoolArray => exists l, tensor_of (denseBool l) v
  | Accuracy => exists atol rtol ulps mode, v = ResultAccuracyV1Attr atol rtol ulps (ResultAccuracyModeV1Attr mode)
  | _ => True
  end.

Lemma tensor_generic d v : tensor_of d v -> to_stablehlo v = Ok (DenseTypedElementsAttr d).
Proof. intros (t & -> & Ht). cbn. unfold convertTensor. by rewrite Ht. Qed.

Lemma i64_tensor shape l : exists v, to_vhlo (DenseTypedElementsAttr (denseI64 shape l)) = Ok v /\ tensor_of (denseI64 shape l) v.
Proof. eexists. split; [reflexivity|]. eexists. by split. Qed.
Lemma bool_tensor l : exists v, to_vhlo (DenseTypedElementsAttr (denseBool l)) = Ok v /\ tensor_of (denseBool l) v.
Proof. eexists. split; [reflexivity|]. eexists. by split. Qed.

Lemma array_of {T} values (get : list T -> Attribute) name d v l : tensor_of d v -> dense_ok d = true -> values d = Ok l ->
  convertDenseArray attr_identity values get name v = Ok [(name, get l)].
Proof.
  intros (t & -> & Ht) Hd Hl. unfold convertDenseArray. rewrite Ht. cbn.
  destruct d as [[shape e enc] vals]. pose proof (raw_data _ Hd) as Er. cbn in Er |- *. rewrite Er. cbn. by rewrite Hl.
Qed.

Lemma i64_array name l v : tensor_of (denseI64 [Z.of_nat (length l)] l) v -> forallb in_i64 l = true ->
  convertDenseI64Array attr_identity name v = Ok [(name, DenseI64ArrayAttr l)].
Proof. intros Hv Hl. eapply array_of; [exact Hv|apply dense_i64_ok|by apply int_values_i64]. Qed.
Lemma bool_array name l v : tensor_of (denseBool l) v ->
  convertDenseBoolArray attr_identity name v = Ok [(name, DenseBoolArrayAttr l)].
Proof. intros Hv. eapply array_of; [exact Hv|apply dense_bool_ok|by apply bool_values_bools]. Qed.

Lemma symbols_pass l : exists v,
  StablehloToVhlo.convertCustomCallCalledComputations vhlo_encoding allow identity (ArrayAttr (map FlatSymbolRefAttr l)) =
    Ok [("called_computations", v)] /\
  VhloToStablehlo.convertCustomCallCalledComputations attr_identity of_identity v = Ok (ArrayAttr (map FlatSymbolRefAttr l)).
Proof.
  exists (ArrayV1Attr (map StringV1Attr l)). split.
  - cbn. enough (mapM (StablehloToVhlo.convertSymbol vhlo_encoding allow identity) (map FlatSymbolRefAttr l) =
      Ok (map StringV1Attr l)) as -> by done. induction l as [|s l IH]; [done|]. cbn [map mapM]. cbn. by rewrite IH.
  - cbn. enough (mapM (VhloToStablehlo.convertSymbol attr_identity of_identity) (map StringV1Attr l) =
      Ok (map FlatSymbolRefAttr l)) as -> by done. induction l as [|s l IH]; [done|]. cbn [map mapM]. cbn. by rewrite IH.
Qed.

Lemma api_version_cast v : dyn_cast_api_version (apiVersionAttr v) = Some v.
Proof. unfold dyn_cast_api_version, apiVersionAttr. cbn. rewrite sext_apint by (destruct v; vm_compute; by split). by destruct v. Qed.

Lemma api_version_passes v : exists w, StablehloToVhlo.convertCustomCallApiVersion (apiVersionAttr v) = Ok [("api_version", w)] /\
  to_stablehlo w = Ok (apiVersionAttr v).
Proof.
  unfold StablehloToVhlo.convertCustomCallApiVersion. rewrite api_version_cast.
  destruct (same_names (A := CustomCallApiVersion) (B := CustomCallApiVersionV1) v) as (b & Hab & Hba).
  exists (CustomCallApiVersionV1Attr b). cbn. unfold StablehloToVhlo.convert_enum, VhloToStablehlo.convert_enum.
  by rewrite Hab, Hba.
Qed.

(** An attribute that is not spread goes to one attribute and comes back from it. *)
Lemma attr_passes op name a : attr_ok op name a -> kind_of op name <> Group -> exists v,
  attr_to_vhlo op (name, a) = Ok [(vhlo_name op name, v)] /\
  attr_to_stablehlo op (vhlo_name op name, v) = Ok [(name, normal_attr op name a)] /\
  testable (kind_of op name) v.
Proof.
  intros [Ho Ha] Hk. unfold StablehloToVhlo.convertAttr, VhloToStablehlo.convertAttr. cbn [fst snd].
  rewrite to_vhlo_special, to_stablehlo_special by done. unfold normal_attr. pose proof (kind_names op name) as Hn.
  destruct (kind_of op name) eqn:E; try done; try rewrite Hn; unfold single.
  - destruct Ha as (Ha & (v & Hv) & _). exists v. rewrite Hv. split; [done|]. split; [|done].
    by rewrite (attribute_back _ _ _ _ _ Hid _ _ Ha Hv).
  - destruct Ha as (h & t & -> & Hh), Hn as [-> ->]. destruct (int_part h Hh) as (v & Hv & Hb & _). exists v.
    cbn in Hv. cbn. rewrite Hv. split; [done|]. split; [|done]. unfold VhloToStablehlo.convertChannelId. by rewrite Hb.
  - subst a. by eexists.
  - destruct Ha as [s ->], Hn as [-> ->]. by eexists.
  - destruct Ha as [s ->]. by eexists.
  - destruct Ha as [l ->], Hn as [-> ->]. destruct (symbols_pass l) as (v & Hv & Hb). exists v. by rewrite Hv, Hb.
  - destruct Ha as [v ->], Hn as [-> ->]. destruct (api_version_passes v) as (w & Hw & Hb). exists w. by rewrite Hw, Hb.
  - destruct Ha as (l & -> & Hl). destruct (i64_tensor [Z.of_nat (length l)] l) as (v & Hv & Ht). exists v.
    change (to_vhlo (DenseI64ArrayAttr l)) with (to_vhlo (DenseTypedElementsAttr (denseI64 [Z.of_nat (length l)] l))).
    rewrite Hv, (i64_array _ l) by done. cbn; eauto.
  - destruct Ha as (l & ->). destruct (bool_tensor l) as (v & Hv & Ht). exists v.
    change (to_vhlo (DenseBoolArrayAttr l)) with (to_vhlo (DenseTypedElementsAttr (denseBool l))).
    rewrite Hv, (bool_array _ l) by done. cbn; eauto.
  - destruct Ha as (shape & l & -> & Hl). destruct (i64_tensor shape l) as (v & Hv & Ht). exists v.
    rewrite Hv, (tensor_generic _ _ Ht). cbn; eauto.
  - destruct Ha as (atol & rtol & ulps & mode & ->).
    destruct (same_names (A := ResultAccuracyMode) (B := ResultAccuracyModeV1) mode) as (b & Hab & Hba).
    exists (ResultAccuracyV1Attr atol rtol ulps (ResultAccuracyModeV1Attr b)). cbn. unfold StablehloToVhlo.convert_enum. rewrite Hab.
    split; [done|]. unfold VhloToStablehlo.convert_enum, cast_attr. rewrite Hba. split; [done|]. by do 4 eexists.
Qed.

Lemma imploded_groups op vhloOp : map (fun '(name, _, parts) => (name, parts)) (imploded attr_identity of_identity op vhloOp) = groups op.
Proof. by destruct op. Qed.

Ltac gather_parts lemma :=
  let l := fresh "l" in let Hl := fresh "Hl" in let Hn := fresh "Hn" in let Hb := fresh "Hb" in
  destruct lemma as (l & Hl & Hn & Hb); exists l; eexists; split; [exact Hl|]; split; [cbn; rewrite ?elem_of_cons; eauto|];
  split; [exact Hn|]; split; [apply (bool_decide_unpack _); reflexivity|];
  intros vhloOp Hh r erased; cbn [imploded]; rewrite ?elem_of_cons, ?elem_of_nil; intros Hin; destruct_or?; try done;
  injection Hin as -> ->; by rewrite (Hb _ Hh).

(** An attribute that is spread is built again from its parts. *)
Lemma group_passes op name a : attr_ok op name a -> kind_of op name = Group -> exists l parts,
  attr_to_vhlo op (name, a) = Ok l /\ (name, parts) ∈ groups op /\ map fst l = parts /\ NoDup parts /\
  forall vhloOp, holds l vhloOp -> forall r erased, (name, r, erased) ∈ imploded attr_identity of_identity op vhloOp -> r = Ok (Some a).
Proof.
  intros [_ Ha] Hk. rewrite Hk in Ha. apply kind_group in Hk as [parts Hp]. unfold StablehloToVhlo.convertAttr. cbn [fst snd].
  destruct op; try done; cbn [groups] in Hp; rewrite ?elem_of_cons, ?elem_of_nil in Hp; destruct_or?; try done; injection Hp as -> ->;
    cbn in Ha; first [destruct Ha as (d & -> & Hok) | destruct Ha as (h & t & -> & Hok)].
  all: first [gather_parts (conv_spreads d Hok) | gather_parts (dot_spreads d Hok) | gather_parts (algorithm_spreads d Hok)
    | gather_parts (gather_spreads d Hok) | gather_parts (scatter_spreads d Hok) | gather_parts (channel_spreads h t Hok)].
Qed.
End Attributes.
