(* ===== verification/StablehloVhloDefaults.v ===== *)
(** * Defaults that are added and removed

    What [addDefaults] adds comes back as the default or not at all; what
    [removeDefaults] removes is the default. *)
From S2P Require Import Prelude Types Support Element ElementFacts Tensor OpsFacts Folder Vhlo VhloTypes VhloBytecode VhloBytecodeFacts StablehloAttrs StablehloToVhlo VhloToStablehlo StablehloVhloFacts StablehloVhloOps StablehloVhloRoundTrip.

Section Defaults.
Context {L : LLVM} {Laws : LLVMLaws L} {M : MlirBytecode} {MLaws : MlirBytecodeLaws M} {C : CommonFolders} {CLaws : CommonFoldersLaws C}.
Context (vhlo_encoding : Z -> option VhloAttr) (allow : bool) (identity : Attribute -> Z).
Context (attr_identity : VhloAttr -> Z) (of_identity : Z -> Attribute).
Context (Hid : identities_ok vhlo_encoding attr_identity).
Local Abbreviation to_vhlo := (StablehloToVhlo.convertGeneric vhlo_encoding allow identity).
Local Abbreviation to_stablehlo := (VhloToStablehlo.convertGeneric attr_identity of_identity).
Local Abbreviation attr_to_vhlo := (StablehloToVhlo.convertAttr vhlo_encoding allow identity).
Local Abbreviation attr_to_stablehlo := (VhloToStablehlo.convertAttr attr_identity of_identity).
Local Abbreviation convertDefault := (StablehloToVhlo.convertDefault vhlo_encoding allow identity).
Local Abbreviation attr_ok := (attr_ok vhlo_encoding allow identity of_identity).

(** ** The tests on the defaults *)
Lemma isZero_b2z b : isZero (apint 1 (Z.b2z b)) = negb b.
Proof. rewrite isZero_spec, uval_apint by lia. by destruct b. Qed.

Lemma bool_is_bool b : bool_is b (boolAttr b) = true.
Proof. unfold bool_is, boolAttr. rewrite isZero_b2z, bool_decide_eq_true_2 by done. by destruct b. Qed.

Lemma int_is_int n : in_i64 n = true -> int_is n (i64Attr n) = true.
Proof. intros H. unfold int_is, i64Attr. rewrite sext_i64 by done. apply Z.eqb_refl. Qed.

Lemma forallb_replicate {A} (p : A -> bool) n x : p x = true -> forallb p (replicate n x) = true.
Proof. intros H. induction n as [|n IH]; [done|]. cbn. by rewrite H. Qed.

Lemma all_ints_array n k : all_ints k (DenseI64ArrayAttr (replicate n k)) = true.
Proof. apply forallb_replicate, Z.eqb_refl. Qed.

Lemma all_ints_tensor shape n k : in_i64 k = true -> all_ints k (DenseTypedElementsAttr (denseI64 shape (replicate n k))) = true.
Proof. intros H. cbn. rewrite fmap_replicate. apply forallb_replicate. rewrite sext_i64 by done. apply Z.eqb_refl. Qed.

Lemma all_bools_array n b : all_bools b (DenseBoolArrayAttr (replicate n b)) = true.
Proof. apply forallb_replicate. by destruct b. Qed.

Lemma default_accuracy_zero : default_accuracy defaultAccuracy = true.
Proof. unfold default_accuracy, defaultAccuracy. by rewrite isZero_double. Qed.

Lemma original_api_version : original_api (apiVersionAttr API_VERSION_ORIGINAL) = true.
Proof. unfold original_api. by rewrite api_version_cast. Qed.

Lemma is_default_by op name t a : find (fun t => String.eqb t.1 name) (default_tests op) = Some t -> t.2 a = true ->
  is_default op name a = true.
Proof. unfold is_default. by intros ->. Qed.

(** ** What is added comes back as the default *)
Definition default_back (op : OpName) (e : string * string * Default) : Prop :=
  let '(s, n, d) := e in
  owner op n = s /\
  match kind_of op s with
  | Group => (exists parts, (s, parts) ∈ groups op /\ n ∈ parts) /\ convertDefault d = Ok (TypeV1Attr NoneV1Type)
  | k => n = vhlo_name op s /\ exists v l, convertDefault d = Ok v /\ attr_to_stablehlo op (n, v) = Ok l /\
      Forall (fun p => p.1 = s /\ is_default op s p.2 = true) l /\ testable attr_identity k v
  end.

(** The default is an attribute that the operation may have. *)
Lemma default_is_attr op name a d :
  match kind_of op name with Generic | I64Array | BoolArray | Padding | Accuracy => True | _ => False end ->
  attr_ok op name a -> is_default op name (normal_attr op name a) = true ->
  convertDefault d = unchecked (to_vhlo a) -> default_back op (name, name, d).
Proof.
  intros Hk Ha Hd Hc. assert (kind_of op name <> Group) as Hg by (by intros E; rewrite E in Hk).
  destruct (attr_passes _ _ _ _ _ Hid op name a Ha Hg) as (v & Hv & Hb & Ht). pose proof (kind_names op name) as Hn.
  unfold StablehloToVhlo.convertAttr in Hv. cbn [fst snd] in Hv. rewrite to_vhlo_special in Hv by done.
  unfold default_back. split; [apply Ha|].
  assert (to_vhlo a = Ok v) as Ev.
  { destruct (kind_of op name); try done; apply bind_inv in Hv as (w & Hw & [= _ <-]); exact Hw. }
  rewrite Ev in Hc.
  destruct (kind_of op name); try done; rewrite Hn in *; (split; [done|]); exists v, [(name, normal_attr op name a)]; by rewrite Hc, Forall_singleton.
Qed.

(** The defaults that pass like any other attribute. *)
Lemma generic_default op name a : kind_of op name = Generic -> owner op name = name ->
  all_parts (plain vhlo_encoding allow identity of_identity) a -> (exists v, to_vhlo a = Ok v) ->
  match a with FlatSymbolRefAttr _ | DenseBoolArrayAttr _ => False | _ => True end -> is_default op name (normal a) = true ->
  default_back op (unless_same name a).
Proof.
  intros Hk Ho Hp Hv Hs Hd. destruct Hv as [v Hv]. apply (default_is_attr op name a); [by rewrite Hk| |unfold normal_attr; by rewrite Hk|done].
  split; [done|]. rewrite Hk. eauto.
Qed.

Lemma bool_default op name : kind_of op name = Generic -> owner op name = name -> is_default op name (boolAttr false) = true ->
  default_back op (unless_same name (boolAttr false)).
Proof.
  intros Hk Ho Hd. apply generic_default; try done; [|by eexists].
  constructor; [|constructor]. split; [by repeat constructor|]. intros _. by apply width_apint.
Qed.

Lemma int_default op name n : kind_of op name = Generic -> owner op name = name -> is_default op name (i64Attr n) = true ->
  default_back op (unless_same name (i64Attr n)).
Proof.
  intros Hk Ho Hd. apply generic_default; try done; by eexists.
Qed.

Definition simple : list Attribute :=
  [StringAttr "" NoneType; ArrayAttr []; DictionaryAttr []; ComparisonTypeAttr Folder.NOTYPE; i64Array []; defaultPrecision].

Lemma simple_default op name a : kind_of op name = Generic -> owner op name = name -> is_default op name (normal a) = true ->
  a ∈ simple -> default_back op (unless_same name a).
Proof.
  intros Hk Ho Hd Ha. unfold simple in Ha. rewrite !elem_of_cons, elem_of_nil in Ha.
  destruct_or?; try done; subst a; apply generic_default; try done; try (by eexists); by repeat constructor.
Qed.

Lemma i64_default op name n k d : kind_of op name = I64Array -> owner op name = name -> in_i64 k = true ->
  is_default op name (DenseI64ArrayAttr (replicate n k)) = true ->
  d = StablehloDefault (i64Array (replicate n k)) \/ d = StablehloDefault (i64Tensor (replicate n k)) -> default_back op (name, name, d).
Proof.
  intros Hk Ho Hn Hd Hc. apply (default_is_attr op name (DenseI64ArrayAttr (replicate n k))).
  - by rewrite Hk.
  - split; [done|]. rewrite Hk. eexists. split; [done|]. by apply forallb_replicate.
  - unfold normal_attr. by rewrite Hk.
  - by destruct Hc as [-> | ->].
Qed.

Lemma padding_default op name n : kind_of op name = Padding -> owner op name = name -> is_default op name (noPadding n) = true ->
  default_back op (unless_same name (noPadding n)).
Proof.
  intros Hk Ho Hd. apply (default_is_attr op name (noPadding n)).
  - by rewrite Hk.
  - split; [done|]. rewrite Hk. do 2 eexists. split; [done|]. by apply forallb_replicate.
  - unfold normal_attr. by rewrite Hk.
  - done.
Qed.

Lemma window_reversal_default op name n : kind_of op name = BoolArray -> owner op name = name ->
  is_default op name (DenseBoolArrayAttr (replicate n false)) = true ->
  default_back op (unless_same name (DenseTypedElementsAttr (denseBool (replicate n false)))).
Proof.
  intros Hk Ho Hd. apply (default_is_attr op name (DenseBoolArrayAttr (replicate n false))).
  - by rewrite Hk.
  - split; [done|]. rewrite Hk. by eexists.
  - unfold normal_attr. by rewrite Hk.
  - done.
Qed.

Lemma accuracy_default op name : kind_of op name = Accuracy -> owner op name = name -> is_default op name defaultAccuracy = true ->
  default_back op (unless_same name defaultAccuracy).
Proof.
  intros Hk Ho Hd. apply (default_is_attr op name defaultAccuracy).
  - by rewrite Hk.
  - split; [done|]. rewrite Hk. by do 4 eexists.
  - unfold normal_attr. by rewrite Hk.
  - done.
Qed.

Lemma flag_default op name : kind_of op name = Flag -> owner op name = name -> default_back op (unless_same name (boolAttr false)).
Proof.
  intros Hk Ho. pose proof (kind_names op name) as Hn. rewrite Hk in Hn. split; [done|]. rewrite Hk. split; [done|].
  exists (BooleanV1Attr false), []. rewrite Forall_nil. unfold VhloToStablehlo.convertAttr. cbn [fst snd]. split.
  { pose proof (isZero_b2z false) as E. cbn in E |- *. by rewrite E. }
  rewrite <- Hn at 1. rewrite to_stablehlo_special by (done || by rewrite Hk). by rewrite Hk.
Qed.

Lemma channel_default op : keeps_channel_id op = true -> is_default op "channel_handle" (ChannelHandleAttr 0 0) = true ->
  default_back op noChannel.
Proof.
  intros Hc Hd. assert (kind_of op "channel_handle" = Channel) as Hk by (by destruct op). split; [by destruct op|]. rewrite Hk.
  split; [by destruct op|]. destruct (int_part vhlo_encoding allow identity 0) as (v & Hv & Hb & _); [done|].
  exists v, [("channel_handle", ChannelHandleAttr 0 0)]. unfold convertDefault. cbn in Hv. cbn [noChannel unless]. cbn. rewrite Hv.
  split; [done|]. split; [|by rewrite Forall_singleton]. unfold VhloToStablehlo.convertAttr. cbn [fst snd].
  pose proof (to_stablehlo_special attr_identity of_identity op "channel_handle") as E. rewrite Hk in E.
  unfold vhlo_name in E. rewrite Hc in E. cbn in E. rewrite E by (done || by destruct op). unfold single, VhloToStablehlo.convertChannelId.
  by rewrite Hb.
Qed.

Ltac is_the_default :=
  eapply is_default_by; [reflexivity|]; cbn [fst snd]; unfold noPadding, ones, zeros;
  first [apply bool_is_bool | by apply int_is_int | apply all_ints_array | by apply all_ints_tensor | apply all_bools_array
    | apply default_accuracy_zero | reflexivity].
Ltac known_default :=
  lazymatch goal with
  | |- default_back _ noChannel => apply channel_default; [reflexivity|is_the_default]
  | |- default_back _ (unless_same _ (boolAttr _)) =>
      first [apply flag_default; reflexivity | apply bool_default; [reflexivity|reflexivity|is_the_default]]
  | |- default_back _ (unless_same _ (i64Attr _)) => apply int_default; [reflexivity|reflexivity|is_the_default]
  | |- default_back _ (unless_same _ (noPadding _)) => apply padding_default; [reflexivity|reflexivity|is_the_default]
  | |- default_back _ (unless_same _ (DenseTypedElementsAttr _)) =>
      apply window_reversal_default; [reflexivity|reflexivity|is_the_default]
  | |- default_back _ (unless_same _ defaultAccuracy) => apply accuracy_default; [reflexivity|reflexivity|is_the_default]
  | |- default_back _ (unless_same _ (i64Array (ones _))) =>
      eapply i64_default; [reflexivity|reflexivity| |is_the_default|left; reflexivity]; reflexivity
  | |- default_back _ (unless_same _ (i64Tensor [])) =>
      eapply (i64_default _ _ 0 0); [reflexivity|reflexivity|reflexivity|is_the_default|right; reflexivity]
  | |- default_back _ (unless_same _ (i64Tensor _)) =>
      eapply i64_default; [reflexivity|reflexivity| |is_the_default|right; reflexivity]; reflexivity
  | |- default_back _ (unless_same _ _) =>
      apply simple_default; [reflexivity|reflexivity|is_the_default|unfold simple; repeat (apply list_elem_of_here || apply list_elem_of_further)]
  end.

Lemma api_version_default : default_back CustomCallOp
  ("api_version", "api_version", VhloDefault (CustomCallApiVersionV1Attr CustomCallApiVersionV1_API_VERSION_ORIGINAL)).
Proof.
  split; [done|]. cbn. split; [done|]. do 2 eexists. split; [done|]. split; [reflexivity|]. rewrite Forall_singleton.
  split; [|done]. split; [done|]. exact original_api_version.
Qed.

Lemma no_computations_default : default_back CustomCallOp (unless_same "called_computations" (ArrayAttr [])).
Proof.
  split; [done|]. cbn. split; [done|]. do 2 eexists. split; [done|]. split; [reflexivity|]. by rewrite Forall_singleton.
Qed.

Lemma algorithm_default n : n ∈ ["lhs_precision_type"; "rhs_precision_type"; "accumulation_type"; "lhs_component_count";
    "rhs_component_count"; "num_primitive_operations"; "allow_imprecise_accumulation"] ->
  default_back DotGeneralOp (unless "algorithm" n (TypeAttr NoneType)).
Proof.
  intros H. assert (("algorithm", ["lhs_precision_type"; "rhs_precision_type"; "accumulation_type"; "lhs_component_count";
    "rhs_component_count"; "num_primitive_operations"; "allow_imprecise_accumulation"]) ∈ groups DotGeneralOp) as Hg
    by (cbn; rewrite !elem_of_cons; tauto).
  split; [by apply (group_owner _ _ _ Hg)|]. rewrite (group_kind _ _ _ Hg). split; [by eexists|done].
Qed.

Lemma backend_default attrs : get_attr attrs "backend_config" = None ->
  default_back CustomCallOp (unless_same "backend_config" (getBackendConfigOrDefault attrs)).
Proof.
  intros H. unfold getBackendConfigOrDefault. rewrite H.
  destruct (get_attr attrs "api_version" ≫= dyn_cast_api_version) as [[]|]; known_default.
Qed.

(** What [addDefaults] adds, for the attributes that the operation does not have. *)
Lemma defaults_back op attrs ds : defaults op attrs = Ok ds ->
  Forall (fun e => get_attr attrs e.1.1 = None -> default_back op e) ds.
Proof.
  intros H.
  destruct op; cbn [defaults] in H;
    repeat match type of H with match ?x with _ => _ end = _ => destruct x; try discriminate H end;
    injection H as <-; cbn [app map]; rewrite ?Forall_cons, ?Forall_nil;
    repeat match goal with |- _ /\ _ => split | |- True => exact I end; intros Hno;
    lazymatch goal with
    | |- default_back CustomCallOp (unless_same "called_computations" _) => apply no_computations_default
    | |- default_back CustomCallOp (unless_same "backend_config" _) => apply backend_default, Hno
    | |- default_back CustomCallOp (_, _, _) => apply api_version_default
    | |- default_back DotGeneralOp (unless _ _ _) => apply algorithm_default; rewrite !elem_of_cons; tauto
    | |- _ => known_default
    end.
Qed.

(** ** What is removed is the default *)
Definition default_removed (op : OpName) (vhloOp : NamedAttrs) (e : string * result bool) : Prop :=
  forall v l, e.2 = Ok true -> get_attr vhloOp e.1 = Some v -> testable attr_identity (kind_of op (owner op e.1)) v ->
    attr_to_stablehlo op (e.1, v) = Ok l -> Forall (fun p => is_default op p.1 p.2 = true) l.

(** The test of a VHLO attribute is that of what it comes back as. *)
Definition agrees (p : VhloAttr -> bool) (t : Attribute -> bool) : Prop :=
  forall v a, p v = true -> to_stablehlo v = Ok a -> t a = true.

Lemma boolean_agrees b : agrees (isBoolean b) (bool_is b).
Proof. intros v a. destruct v; try done. intros <-%Bool.eqb_prop [= <-]. apply bool_is_bool. Qed.

Lemma integer_agrees n : agrees (isInteger n) (int_is n).
Proof. intros v a. destruct v; try done. intros H (t & _ & [= <-])%bind_inv. exact H. Qed.

Lemma empty_array_agrees : agrees isEmptyArray empty_array.
Proof. intros v a. destruct v as [[]| | | | | | | | | | | | | | | | | | | | | | | | |]; try done. by intros _ [= <-]. Qed.

Lemma empty_dictionary_agrees : agrees isEmptyDictionary empty_dictionary.
Proof. intros v a. destruct v as [| | | | |[]| | | | | | | | | | | | | | | | | | | |]; try done. by intros _ [= <-]. Qed.

Lemma empty_string_agrees : agrees (isString "") empty_string.
Proof. intros v a. destruct v; try done. by intros H [= <-]. Qed.

Lemma backend_agrees : agrees (fun a => isEmptyString a || isEmptyDictionary a) (fun a => empty_string a || empty_dictionary a).
Proof.
  intros v a [H|H]%orb_prop E; apply orb_true_iff; [left; by eapply empty_string_agrees|right; by eapply empty_dictionary_agrees].
Qed.

Lemma compare_type_agrees : agrees isNoCompareType no_compare_type.
Proof. intros v a. destruct v as [| | |[]| | | | | | | | | | | | | | | | | | | | | |]; try done. by intros _ [= <-]. Qed.

Lemma original_api_agrees : agrees isOriginalApi original_api.
Proof.
  intros v a. destruct v as [| | | |[]| | | | | | | | | | | | | | | | | | | | |]; try done. intros _ [= <-]. apply original_api_version.
Qed.

Lemma precisions_agree : agrees isDefaultPrecisions default_precisions.
Proof.
  intros v a. destruct v as [value| | | | | | | | | | | | | | | | | | | | | | | | |]; try done. cbn [isDefaultPrecisions].
  intros H (l & Hl & [= <-])%bind_inv. cbn. apply mapM_inv in Hl. revert H.
  induction Hl as [|p a value l Ha Hl IH]; [done|]. cbn [forallb]. intros [Hp H]%andb_prop. rewrite IH, andb_true_r by done.
  destruct p as [| | | | | | | | | |[]| | | | | | | | | | | | | | |]; try done. by injection Ha as <-.
Qed.

Lemma empty_tensor_agrees : agrees isEmptyTensor no_ints.
Proof.
  intros v a. destruct v as [| | | | | | | | | | | | | |type d| | | | | | | | | | |]; try done. cbn.
  destruct (getRawData d) eqn:E; [|done]. apply raw_empty in E. intros _. unfold convertTensor.
  intros (t & _ & H)%bind_inv. destruct (isa_ShapedType t); [|done]. injection H as <-. cbn. by rewrite E.
Qed.

Lemma test_removed op vhloOp n p t : VhloToStablehlo.convertSpecial attr_identity of_identity op n = None ->
  find (fun t => String.eqb t.1 n) (default_tests op) = Some (n, t) -> agrees p t ->
  default_removed op vhloOp (n, Ok match get_attr vhloOp n with Some a => p a | None => false end).
Proof.
  intros Hs Hf Ha v l H Hv _ Hl. cbn [fst snd] in *. rewrite Hv in H. injection H as H. unfold VhloToStablehlo.convertAttr in Hl.
  cbn [fst snd] in Hl. rewrite Hs in Hl. apply bind_inv in Hl as (a & Ea & [= <-]). rewrite Forall_singleton.
  eapply is_default_by; [exact Hf|]. by eapply Ha.
Qed.

(** The attributes with a conversion of their own. *)
Lemma special_removed op vhloOp n f r : VhloToStablehlo.convertSpecial attr_identity of_identity op n = Some f ->
  (forall v l, r = Ok true -> get_attr vhloOp n = Some v -> testable attr_identity (kind_of op (owner op n)) v -> f v = Ok l ->
    Forall (fun p => is_default op p.1 p.2 = true) l) -> default_removed op vhloOp (n, r).
Proof.
  intros Hs Hf v l H Hv Ht Hl. unfold VhloToStablehlo.convertAttr in Hl. cbn [fst snd] in *. rewrite Hs in Hl. eauto.
Qed.

Lemma flag_removed op vhloOp n : VhloToStablehlo.convertSpecial attr_identity of_identity op n = Some (convertFlag n) ->
  default_removed op vhloOp (n, Ok match get_attr vhloOp n with Some a => isBoolean false a | None => false end).
Proof.
  intros Hs. apply (special_removed _ _ _ _ _ Hs). intros v l H Hv _. rewrite Hv in H. injection H as H.
  destruct v as [|[]| | | | | | | | | | | | | | | | | | | | | | | |]; try done. by intros [= <-].
Qed.

Lemma channel_removed op vhloOp : keeps_channel_id op = true ->
  default_removed op vhloOp ("channel_id", Ok match get_attr vhloOp "channel_id" with Some a => isInteger 0 a | None => false end).
Proof.
  intros Hc. apply (special_removed _ _ _ (single "channel_handle" VhloToStablehlo.convertChannelId)); [by destruct op|].
  intros v l H Hv _ Hl. rewrite Hv in H. injection H as H. destruct v; try done. unfold single, VhloToStablehlo.convertChannelId in Hl. cbn in H, Hl.
  injection Hl as <-. apply Z.eqb_eq in H as ->. rewrite Forall_singleton. by destruct op.
Qed.

Lemma computations_removed vhloOp :
  default_removed CustomCallOp vhloOp
    ("called_computations", Ok match get_attr vhloOp "called_computations" with Some a => isEmptyArray a | None => false end).
Proof.
  eapply special_removed; [reflexivity|]. intros v l H Hv _ Hl. rewrite Hv in H. injection H as H.
  destruct v as [[]| | | | | | | | | | | | | | | | | | | | | | | | |]; try done. by injection Hl as <-; rewrite Forall_singleton.
Qed.

(** A splat test holds of all the values. *)
Lemma splat_values_hold test d v : tensor_of attr_identity d v -> isSplatTensor attr_identity of_identity test v = Ok true ->
  Forall (fun x => test x = Ok true) (attr_values d).
Proof.
  intros Ht. unfold isSplatTensor, dyn_cast_or_null. rewrite (tensor_generic _ _ _ _ Ht). cbn.
  destruct (getSplatValue d) as [x|] eqn:E; [|done]. intros Hx. apply splat_values in E. apply (Forall_impl _ _ _ E). by intros y <-.
Qed.

Lemma splat_ints_hold k shape l v : tensor_of attr_identity (denseI64 shape l) v ->
  isSplatTensor attr_identity of_identity (splat_is_int k) v = Ok true ->
  forallb (fun n => getSExtValue (apint 64 n) =? k) l = true.
Proof.
  intros Ht H. pose proof (splat_values_hold _ _ _ Ht H) as Hv. cbn in Hv. rewrite Forall_fmap in Hv.
  apply forallb_forall. intros n Hn%list_elem_of_In. pose proof (proj1 (Forall_forall _ _) Hv n Hn) as E. cbn in E. by injection E.
Qed.

Lemma i64_splat_removed op vhloOp n k : kind_of op n = I64Array -> owner op n = n ->
  find (fun t => String.eqb t.1 n) (default_tests op) = Some (n, all_ints k) ->
  default_removed op vhloOp (n, a ← getter vhloOp n; isSplatTensor attr_identity of_identity (splat_is_int k) a).
Proof.
  intros Hk Ho Hf. pose proof (to_stablehlo_special attr_identity of_identity op n) as Hs. pose proof (kind_names op n) as Hn.
  rewrite Hk in Hs, Hn. rewrite Hn in Hs. apply (special_removed _ _ _ _ _ (Hs ltac:(done) Ho)).
  intros v l H Hv Ht Hl. rewrite Ho, Hk in Ht. destruct Ht as (ns & Ht & Hns). unfold getter in H. rewrite Hv in H. cbn in H.
  rewrite (i64_array _ _ ns v Ht Hns) in Hl. injection Hl as <-. rewrite Forall_singleton. eapply is_default_by; [exact Hf|]. cbn.
  pose proof (splat_ints_hold _ _ _ _ Ht H) as Ha. apply forallb_forall. intros x Hx.
  rewrite forallb_forall in Ha, Hns. specialize (Ha x Hx). rewrite sext_i64 in Ha by auto. by rewrite Z.eqb_sym.
Qed.

Lemma padding_removed op vhloOp : kind_of op "padding" = Padding ->
  find (fun t => String.eqb t.1 "padding") (default_tests op) = Some ("padding", all_ints 0) ->
  default_removed op vhloOp ("padding", a ← getter vhloOp "padding"; isSplatTensor attr_identity of_identity (splat_is_int 0) a).
Proof.
  intros Hk Hf v l H Hv Ht Hl. assert (owner op "padding" = "padding") as Ho by (by destruct op). cbn [fst snd] in *.
  rewrite Ho, Hk in Ht. destruct Ht as (shape & ns & Ht). unfold getter in H. rewrite Hv in H. cbn in H.
  unfold VhloToStablehlo.convertAttr in Hl. cbn [fst snd] in Hl.
  pose proof (to_stablehlo_special attr_identity of_identity op "padding") as Hs. pose proof (kind_names op "padding") as Hn.
  rewrite Hk in Hs, Hn. rewrite Hn in Hs. rewrite (Hs ltac:(done) Ho), (tensor_generic _ _ _ _ Ht) in Hl. injection Hl as <-.
  rewrite Forall_singleton. eapply is_default_by; [exact Hf|]. cbn. apply forallb_forall.
  intros x (m & -> & Hm)%list_elem_of_In%list_elem_of_fmap. pose proof (splat_ints_hold _ _ _ _ Ht H) as Ha.
  rewrite forallb_forall in Ha. by apply Ha, list_elem_of_In.
Qed.

Lemma reversal_removed op vhloOp : kind_of op "window_reversal" = BoolArray ->
  default_removed op vhloOp
    ("window_reversal", a ← getter vhloOp "window_reversal"; isSplatTensor attr_identity of_identity (splat_is_bool false) a).
Proof.
  intros Hk. assert (owner op "window_reversal" = "window_reversal") as Ho by (by destruct op).
  apply (special_removed _ _ _ (convertDenseBoolArray attr_identity "window_reversal")); [by destruct op|].
  intros v l H Hv Ht Hl. rewrite Ho, Hk in Ht. destruct Ht as (bs & Ht). unfold getter in H. rewrite Hv in H. cbn in H.
  rewrite (bool_array _ _ bs v Ht) in Hl. injection Hl as <-. rewrite Forall_singleton.
  enough (all_bools false (DenseBoolArrayAttr bs) = true) as E by (by destruct op).
  pose proof (splat_values_hold _ _ _ Ht H) as Ha. cbn in Ha. rewrite Forall_fmap in Ha. cbn. apply forallb_forall.
  intros b Hb%list_elem_of_In. pose proof (proj1 (Forall_forall _ _) Ha b Hb) as E. cbn in E. by destruct b.
Qed.

Lemma accuracy_removed op vhloOp : kind_of op "result_accuracy" = Accuracy ->
  default_removed op vhloOp ("result_accuracy", a ← getter vhloOp "result_accuracy"; isDefaultResultAccuracyAttribute a).
Proof.
  intros Hk v l H Hv Ht Hl. assert (owner op "result_accuracy" = "result_accuracy") as Ho by (by destruct op). cbn [fst snd] in *.
  rewrite Ho, Hk in Ht. destruct Ht as (atol & rtol & ulps & mode & ->). unfold getter in H. rewrite Hv in H. cbn in H.
  destruct (apfloat_isZero atol && apfloat_isZero rtol && (ulps =? 0)) eqn:Ez; [|done]. cbn in H. injection H as Em%bool_decide_eq_true.
  subst mode. unfold VhloToStablehlo.convertAttr in Hl. cbn [fst snd] in Hl.
  pose proof (to_stablehlo_special attr_identity of_identity op "result_accuracy") as Hs. pose proof (kind_names op "result_accuracy") as Hn.
  rewrite Hk in Hs, Hn. rewrite Hn in Hs. rewrite (Hs ltac:(done) Ho) in Hl. injection Hl as <-. rewrite Forall_singleton.
  assert (default_accuracy (ResultAccuracyAttr atol rtol ulps ResultAccuracyMode_DEFAULT) = true) as E by (cbn; by rewrite Ez).
  by destruct op.
Qed.

Lemma empty_i64_removed op vhloOp n : kind_of op n = I64Array -> owner op n = n ->
  find (fun t => String.eqb t.1 n) (default_tests op) = Some (n, no_ints) ->
  default_removed op vhloOp (n, Ok match get_attr vhloOp n with Some a => isEmptyTensor a | None => false end).
Proof.
  intros Hk Ho Hf. pose proof (to_stablehlo_special attr_identity of_identity op n) as Hs. pose proof (kind_names op n) as Hn.
  rewrite Hk in Hs, Hn. rewrite Hn in Hs. apply (special_removed _ _ _ _ _ (Hs ltac:(done) Ho)).
  intros v l H Hv Ht Hl. rewrite Hv in H. rewrite Ho, Hk in Ht. destruct Ht as (ns & Ht & Hns).
  rewrite (i64_array _ _ ns v Ht Hns) in Hl. injection Hl as <-. rewrite Forall_singleton. eapply is_default_by; [exact Hf|]. cbn.
  destruct Ht as (t & -> & _). cbn in H. destruct (getRawData _) eqn:E; [|done]. apply raw_empty in E. by destruct ns.
Qed.

Lemma layouts_removed vhloOp n : n = "operand_layouts" \/ n = "result_layouts" ->
  default_removed CustomCallOp vhloOp
    (n, Ok match get_attr vhloOp "operand_layouts", get_attr vhloOp "result_layouts" with
        | Some operands, Some results => isEmptyArray operands && isEmptyArray results
        | _, _ => false
        end).
Proof.
  intros Hn v l H Hv _ Hl. cbn [fst snd] in *. destruct (get_attr vhloOp "operand_layouts") as [a|] eqn:Ea; [|done].
  destruct (get_attr vhloOp "result_layouts") as [b|] eqn:Eb; [|done]. injection H as [Ha Hb]%andb_prop.
  assert (isEmptyArray v = true) as Hv' by (destruct Hn as [-> | ->]; by simplify_eq).
  assert (attr_to_stablehlo CustomCallOp (n, v) = (a' ← to_stablehlo v; Ok [(n, a')])) as E by (by destruct Hn as [-> | ->]).
  rewrite E in Hl. apply bind_inv in Hl as (a' & Ea' & [= <-]). rewrite Forall_singleton.
  apply (is_default_by CustomCallOp n (n, empty_array)); [by destruct Hn as [-> | ->]|]. by eapply empty_array_agrees.
Qed.

Lemma removals_default op vhloOp : Forall (default_removed op vhloOp) (removals attr_identity of_identity op vhloOp).
Proof.
  destruct op; cbn [removals app]; rewrite ?Forall_cons, ?Forall_nil;
    repeat match goal with |- _ /\ _ => split | |- True => exact I end;
    lazymatch goal with
    | |- default_removed _ _ ("channel_id", _) => apply channel_removed; reflexivity
    | |- default_removed _ _ ("called_computations", _) => apply computations_removed
    | |- default_removed _ _ ("operand_layouts", _) => apply layouts_removed; by left
    | |- default_removed _ _ ("result_layouts", _) => apply layouts_removed; by right
    | |- default_removed _ _ ("padding", _) => apply padding_removed; reflexivity
    | |- default_removed _ _ ("window_reversal", _) => apply reversal_removed; reflexivity
    | |- default_removed _ _ ("result_accuracy", _) => apply accuracy_removed; reflexivity
    | |- default_removed _ _ ("known_expanding_dimensions", _) => apply empty_i64_removed; reflexivity
    | |- default_removed _ _ ("known_nonexpanding_dimensions", _) => apply empty_i64_removed; reflexivity
    | |- default_removed _ _ ("use_global_device_ids", _) => apply flag_removed; reflexivity
    | |- default_removed _ _ ("has_dynamic_root", _) => apply flag_removed; reflexivity
    | |- default_removed _ _ (_, getter _ _ ≫= _) => apply i64_splat_removed; reflexivity
    | |- _ => eapply test_removed; [reflexivity|reflexivity|]; cbn [snd];
        first [apply boolean_agrees | apply integer_agrees | apply empty_array_agrees | apply empty_dictionary_agrees
          | apply empty_string_agrees | apply backend_agrees | apply compare_type_agrees | apply original_api_agrees
          | apply precisions_agree | apply empty_tensor_agrees]
    end.
Qed.

(** ** The tests of defaults succeed *)
Lemma splat_total test d v : tensor_of attr_identity d v ->
  (forall x, getSplatValue d = Some x -> exists b, test x = Ok b) ->
  exists b, isSplatTensor attr_identity of_identity test v = Ok b.
Proof.
  intros Ht Hx. unfold isSplatTensor, dyn_cast_or_null. rewrite (tensor_generic _ _ _ _ Ht). cbn.
  destruct (getSplatValue d) as [x|]; [by apply Hx|by eexists].
Qed.

Lemma splat_of d x : getSplatValue d = Some x -> x ∈ attr_values d \/ element_ok (MkElement (getElementType (attr_type d)) x).
Proof.
  intros H. destruct (attr_values d) as [|y l] eqn:E; [right; by apply splat_typed|]. left.
  pose proof (splat_values _ _ H) as Hv. rewrite E in Hv. apply Forall_cons in Hv as [-> _]. by left.
Qed.

Lemma splat_ints_total k shape l v : tensor_of attr_identity (denseI64 shape l) v ->
  exists b, isSplatTensor attr_identity of_identity (splat_is_int k) v = Ok b.
Proof.
  intros Ht. apply (splat_total _ _ _ Ht). intros x [Hx|Hx]%splat_of.
  - cbn in Hx. apply list_elem_of_fmap in Hx as (n & -> & _). by eexists.
  - destruct x as [y|b|f|[]]; cbn in Hx; [by eexists|done|by destruct Hx|by destruct Hx].
Qed.

Lemma splat_bools_total k l v : tensor_of attr_identity (denseBool l) v ->
  exists b, isSplatTensor attr_identity of_identity (splat_is_bool k) v = Ok b.
Proof.
  intros Ht. apply (splat_total _ _ _ Ht). intros x [Hx|Hx]%splat_of.
  - cbn in Hx. apply list_elem_of_fmap in Hx as (n & -> & _). by eexists.
  - destruct x as [y|b|f|[]]; cbn in Hx; [by destruct Hx|by eexists|by destruct Hx|by destruct Hx].
Qed.

(** The attributes that a test looks at without asking whether they are there. *)
Definition tested (op : OpName) (vhloOp : NamedAttrs) : Prop :=
  forall n r, (n, r) ∈ removals attr_identity of_identity op vhloOp ->
    match kind_of op n with
    | I64Array | Padding | BoolArray | Accuracy => exists v, get_attr vhloOp n = Some v /\ testable attr_identity (kind_of op n) v
    | _ => True
    end.

Lemma removals_total op vhloOp : tested op vhloOp ->
  Forall (fun e => exists b, e.2 = Ok b) (removals attr_identity of_identity op vhloOp).
Proof.
  unfold tested. intros H. apply Forall_forall. intros [n r] Hin. pose proof (H n r Hin) as Ht. clear H.
  destruct op; cbn [removals app] in Hin; rewrite ?elem_of_cons, ?elem_of_nil in Hin; destruct_or?; try done;
    injection Hin as -> ->; cbn [snd]; try (by eexists); cbn in Ht; destruct Ht as (v & Hv & Ht); unfold getter; rewrite Hv; cbn [ok_or mbind result_bind].
  all: first
    [ destruct Ht as (l & Ht & _); by apply (splat_ints_total _ _ _ _ Ht)
    | destruct Ht as (shape & l & Ht); by apply (splat_ints_total _ _ _ _ Ht)
    | destruct Ht as (l & Ht); by apply (splat_bools_total _ _ _ Ht)
    | destruct Ht as (atol & rtol & ulps & mode & ->); cbn;
      destruct (apfloat_isZero atol && apfloat_isZero rtol && (ulps =? 0)); by eexists ].
Qed.

(** Every name that is tested is that of a default. *)
Lemma removals_defaults op attrs ds vhloOp n r : defaults op attrs = Ok ds ->
  (n, r) ∈ removals attr_identity of_identity op vhloOp -> exists s d, (s, n, d) ∈ ds.
Proof.
  intros Hd Hin. enough (n ∈ map (fun e => e.1.2) ds) as ([[s m] d] & -> & H)%list_elem_of_fmap by eauto.
  destruct op; cbn [defaults] in Hd;
    repeat match type of Hd with match ?x with _ => _ end = _ => destruct x; try discriminate Hd end;
    injection Hd as <-; cbn [removals app] in Hin; rewrite ?elem_of_cons, ?elem_of_nil in Hin; destruct_or?; try done;
    injection Hin as -> _; cbn; rewrite ?elem_of_cons; tauto.
Qed.
End Defaults.
