(* ===== verification/StablehloVhloOperations.v ===== *)
(** * The attributes of an operation after a passage through VHLO

    The attributes of an operation pass to VHLO and back, and mean the same: the explicit
    attributes that are not defaults are there in their normal form. *)
From S2P Require Import Prelude Types Support Element ElementFacts Tensor OpsFacts SortFacts Folder Vhlo VhloTypes VhloBytecode VhloBytecodeFacts StablehloAttrs StablehloToVhlo VhloToStablehlo StablehloVhloFacts StablehloVhloOps StablehloVhloRoundTrip StablehloVhloDefaults.

(** ** Lists *)
Lemma elem_of_mapM {A B} (f : A -> result (list B)) l k b : mapM f l = Ok k ->
  b ∈ concat k <-> exists a r, a ∈ l /\ f a = Ok r /\ b ∈ r.
Proof.
  intros H%mapM_inv. induction H as [|a r l k Ha H IH]; cbn.
  - rewrite elem_of_nil. split; [done|]. intros (a & r & Hin & _). by apply elem_of_nil in Hin.
  - rewrite elem_of_app, IH. split.
    + intros [Hb|(a' & r' & Hin & Hf & Hb)]; [exists a, r|exists a', r']; rewrite elem_of_cons; auto.
    + intros (a' & r' & [-> | Hin]%elem_of_cons & Hf & Hb); [left; rewrite Ha in Hf; by injection Hf as <-|right; eauto].
Qed.

(** ** Facts of the tables *)
Section Tables.
Context {L : LLVM} {M : MlirBytecode} {C : CommonFolders}.
Context (attr_identity : VhloAttr -> Z) (of_identity : Z -> Attribute).

Lemma kind_owner op n : match kind_of op n with I64Array | Padding | BoolArray | Accuracy => owner op n = n | _ => True end.
Proof. unfold kind_of, owner, mem. table op. Qed.

Lemma defaults_names op attrs ds : defaults op attrs = Ok ds ->
  Forall (fun e => owner op e.1.2 = e.1.1) ds /\ NoDup (map (fun e => e.1.2) ds).
Proof.
  intros H. destruct op; cbn [defaults] in H;
    repeat match type of H with match ?x with _ => _ end = _ => destruct x; try discriminate H end;
    injection H as <-; (split; [by repeat constructor|apply (bool_decide_unpack _); reflexivity]).
Qed.

(** ** Lists of removals and of spread attributes *)
Definition removed (op : OpName) (vhloOp : NamedAttrs) (n : string) : bool :=
  existsb (fun e => String.eqb e.1 n && match e.2 with Ok b => b | Err _ => false end) (removals attr_identity of_identity op vhloOp).

Lemma removed_in op vhloOp n : removed op vhloOp n = true <-> (n, Ok true) ∈ removals attr_identity of_identity op vhloOp.
Proof.
  unfold removed. rewrite existsb_exists. split.
  - intros ([m r] & Hin & H). cbn in H. apply andb_prop in H as [->%String.eqb_eq H]. destruct r as [b|]; [|done].
    subst b. by apply list_elem_of_In.
  - intros H. exists (n, Ok true). rewrite <- list_elem_of_In. split; [done|]. cbn. by rewrite String.eqb_refl.
Qed.

Lemma erase_in (l : NamedAttrs) names p : p ∈ eraseAttrs l names <-> p ∈ l /\ p.1 ∉ names.
Proof.
  unfold eraseAttrs. rewrite list_elem_of_filter. split; intros [H H']; split; try done.
  - intros Hn%list_elem_of_In. assert (existsb (String.eqb p.1) names = true) as E; [|by rewrite E in H].
    apply existsb_exists. exists p.1. by rewrite String.eqb_refl.
  - destruct (existsb (String.eqb p.1) names) eqn:E; [|done]. apply existsb_exists in E as (n & Hn & En%String.eqb_eq).
    destruct H'. rewrite En. by apply list_elem_of_In.
Qed.

Lemma removeDefaults_list (tests : list (string * result bool)) l : Forall (fun e => exists b, e.2 = Ok b) tests ->
  exists k, foldM (fun '(name, test) l => b ← test; Ok (if (b : bool) then eraseAttrs l [name] else l)) tests l = Ok k /\
    forall p, p ∈ k <-> p ∈ l /\ (p.1, Ok true) ∉ tests.
Proof.
  intros H. revert l. induction H as [|[n r] tests [b Hb] H IH]; intros l.
  - exists l. split; [done|]. intros p. split; [|tauto]. intros Hp. split; [done|]. apply not_elem_of_nil.
  - cbn in Hb. subst r. cbn [foldM]. cbn [mbind result_bind]. destruct (IH (if b then eraseAttrs l [n] else l)) as (k & -> & Hk).
    exists k. split; [done|]. intros p. rewrite Hk. destruct b.
    + rewrite erase_in, list_elem_of_singleton, not_elem_of_cons. split; [intros [[? ?] ?]|intros [? [? ?]]]; repeat split; try done.
      * by intros [= ?].
      * intros Hp. by rewrite Hp in *.
    + rewrite not_elem_of_cons. split; [intros [? ?]|intros [? [? ?]]]; by repeat split.
Qed.

Lemma implode_list (entries : list (string * result (option Attribute) * list string)) (l : NamedAttrs) (acc : NamedAttributes) :
  Forall (fun e => exists o, e.1.2 = Ok o) entries ->
  exists k built, foldM (fun '(name, r, erased) '(vhloAttrs, stablehloAttrs) =>
      a ← r; Ok (eraseAttrs vhloAttrs erased, stablehloAttrs ++ match a with Some a => [(name, a)] | None => [] end))
    entries (l, acc) = Ok (k, acc ++ built) /\
    (forall p, p ∈ k <-> p ∈ l /\ Forall (fun e => p.1 ∉ e.2) entries) /\
    (forall name a, (name, a) ∈ built <-> exists erased, (name, Ok (Some a), erased) ∈ entries).
Proof.
  intros H. revert l acc. induction H as [|[[n r] erased] entries [o Ho] H IH]; intros l acc.
  - exists l, []. rewrite app_nil_r. split; [done|]. split; [intros p; rewrite Forall_nil; tauto|]. intros name a.
    rewrite elem_of_nil. split; [done|]. by intros (? & ?%elem_of_nil).
  - cbn in Ho. subst r.
    destruct (IH (eraseAttrs l erased) (acc ++ match o with Some a => [(n, a)] | None => [] end)) as (k & built & E & Hk & Hb).
    exists k, (match o with Some a => [(n, a)] | None => [] end ++ built). rewrite app_assoc. split; [exact E|]. split.
    + intros p. rewrite Hk, erase_in, Forall_cons. cbn. tauto.
    + intros name a. rewrite elem_of_app, Hb. setoid_rewrite elem_of_cons. split.
      * intros [Hin|(e & He)]; [|by exists e; right]. exists erased. left.
        destruct o; [|by apply elem_of_nil in Hin]. apply list_elem_of_singleton in Hin. by injection Hin as -> ->.
      * intros (e & [Hin|He]); [|right; by exists e]. left. injection Hin as -> <- _. by apply list_elem_of_singleton.
Qed.
End Tables.

(** ** Operations *)
Section Operation.
Context {L : LLVM} {Laws : LLVMLaws L} {M : MlirBytecode} {MLaws : MlirBytecodeLaws M} {C : CommonFolders} {CLaws : CommonFoldersLaws C}.
Context (vhlo_encoding : Z -> option VhloAttr) (allow : bool) (identity : Attribute -> Z).
Context (attr_identity : VhloAttr -> Z) (of_identity : Z -> Attribute).
Context (Hid : identities_ok vhlo_encoding attr_identity).
Local Abbreviation attr_to_vhlo := (StablehloToVhlo.convertAttr vhlo_encoding allow identity).
Local Abbreviation attr_to_stablehlo := (VhloToStablehlo.convertAttr attr_identity of_identity).
Local Abbreviation convertDefault := (StablehloToVhlo.convertDefault vhlo_encoding allow identity).
Local Abbreviation default_back := (default_back vhlo_encoding allow identity attr_identity of_identity).
Local Abbreviation removals := (removals attr_identity of_identity).
Local Abbreviation imploded := (imploded attr_identity of_identity).

(** The attributes without which an operation does not verify. *)
Definition required (op : OpName) (attrs : list (string * Attribute)) : Prop :=
  Forall (fun g => g.1 = "algorithm" \/ is_Some (get_attr attrs g.1)) (groups op) /\
  match op with ReduceWindowOp | SelectAndScatterOp => is_Some (get_attr attrs "window_dimensions") | _ => True end.

Record operation_ok (op : OpName) (attrs : list (string * Attribute)) : Prop := {
  names_differ : NoDup (map fst attrs);
  attrs_ok name a : (name, a) ∈ attrs -> attr_ok vhlo_encoding allow identity of_identity op name a;
  has_required : required op attrs;
}.

(** One attribute of the operation in VHLO. *)
Lemma attr_converts op name a : attr_ok vhlo_encoding allow identity of_identity op name a -> exists l,
  attr_to_vhlo op (name, a) = Ok l /\ NoDup (map fst l) /\ forall n v, (n, v) ∈ l -> owner op n = name.
Proof.
  intros Ha. destruct (decide (kind_of op name = Group)) as [Hk|Hk].
  - destruct (group_passes _ _ _ _ _ Hid op name a Ha Hk) as (l & parts & Hl & Hg & <- & Hn & _). exists l. split; [done|].
    split; [done|]. intros n v Hin. apply (group_owner _ _ _ Hg), (list_elem_of_fmap_2 fst _ _ Hin).
  - destruct (attr_passes _ _ _ _ _ Hid op name a Ha Hk) as (v & Hv & _). eexists. split; [exact Hv|].
    split; [apply NoDup_singleton|]. intros n w [= -> _]%list_elem_of_singleton. apply owner_vhlo_name; [done|apply Ha].
Qed.

Section Fixed.
Context (op : OpName) (attrs : list (string * Attribute)) (Hok : operation_ok op attrs).
Context (ds : list (string * string * Default)) (Hds : defaults op attrs = Ok ds).
Context (vhloOp : NamedAttrs).

(** Where an attribute in VHLO comes from. *)
Inductive origin (n : string) (v : VhloAttr) : Prop :=
| FromAttr a l (Ha : get_attr attrs (owner op n) = Some a) (Hc : attr_to_vhlo op (owner op n, a) = Ok l) (Hin : (n, v) ∈ l)
| FromDefault d (Hno : get_attr attrs (owner op n) = None) (Hd : (owner op n, n, d) ∈ ds) (Hc : convertDefault d = Ok v).
Context (Hop : forall n v, (n, v) ∈ vhloOp <-> origin n v).

Lemma attr_there name a : (name, a) ∈ attrs <-> get_attr attrs name = Some a.
Proof. split; [|apply get_attr_in]. apply in_get_attr, nodup_functional, Hok. Qed.

Lemma default_there s n d : (s, n, d) ∈ ds -> get_attr attrs s = None -> default_back op (s, n, d).
Proof. intros H Hno. pose proof (proj1 (Forall_forall _ _) (defaults_back vhlo_encoding allow identity attr_identity of_identity Hid _ _ _ Hds) _ H). auto. Qed.

Lemma default_owner s n d : (s, n, d) ∈ ds -> owner op n = s.
Proof. intros H. apply (proj1 (Forall_forall _ _) (proj1 (defaults_names _ _ _ Hds)) _ H). Qed.

Lemma vhlo_functional : functional vhloOp.
Proof.
  intros n v w [a l Ha Hc Hv|d Hno Hd Hc]%Hop [a' l' Ha' Hc' Hv'|d' Hno' Hd' Hc']%Hop; simplify_eq.
  - destruct (attr_converts op (owner op n) a) as (k & Hk & Hn & _); [by apply Hok, attr_there|].
    rewrite Hc in Hk, Hc'. injection Hk as <-. injection Hc' as <-. by apply (nodup_functional _ Hn n).
  - enough (d = d') as E by (rewrite <- E, Hc in Hc'; by injection Hc').
    pose proof (proj2 (defaults_names _ _ _ Hds)) as Hn.
    assert (functional (map (fun e => (e.1.2, e.2)) ds)) as Hf by (apply nodup_functional; by rewrite map_map).
    apply (Hf n); by apply (list_elem_of_fmap_2 (fun e => (e.1.2, e.2)) _ _ Hd) || by apply (list_elem_of_fmap_2 (fun e => (e.1.2, e.2)) _ _ Hd').
Qed.

Lemma vhlo_there n v : (n, v) ∈ vhloOp <-> get_attr vhloOp n = Some v.
Proof. split; [|apply get_attr_in]. apply in_get_attr, vhlo_functional. Qed.

(** The attribute in VHLO of one that is not spread. *)
Lemma attr_in_vhlo name a : get_attr attrs name = Some a -> kind_of op name <> Group -> exists v,
  get_attr vhloOp (vhlo_name op name) = Some v /\
  attr_to_stablehlo op (vhlo_name op name, v) = Ok [(name, normal_attr op name a)] /\ testable attr_identity (kind_of op name) v.
Proof.
  intros Ha Hk. pose proof (attrs_ok _ _ Hok _ _ (proj2 (attr_there _ _) Ha)) as Hok'.
  destruct (attr_passes _ _ _ _ _ Hid op name a Hok' Hk) as (v & Hv & Hb & Ht). exists v. split; [|done].
  apply vhlo_there, Hop. pose proof (owner_vhlo_name _ _ Hk (proj1 Hok')) as Ho. apply (FromAttr _ _ a [(vhlo_name op name, v)]);
    rewrite ?Ho; [done..|]. by apply list_elem_of_singleton.
Qed.

Lemma tested_there : tested attr_identity of_identity op vhloOp.
Proof.
  intros n r Hin. destruct (removals_defaults _ _ _ _ _ _ _ _ Hds Hin) as (s & d & Hd). pose proof (default_owner _ _ _ Hd) as Ho.
  pose proof (kind_owner op n) as Hkn. pose proof (kind_names op n) as Hn.
  assert (match kind_of op n with I64Array | Padding | BoolArray | Accuracy => True | _ => False end ->
    exists v, get_attr vhloOp n = Some v /\ testable attr_identity (kind_of op n) v) as H; [|by destruct (kind_of op n); auto].
  intros Hk. assert (s = n) as -> by (destruct (kind_of op n); by simplify_eq).
  assert (kind_of op n <> Group) as Hg by (intros E; by rewrite E in Hk).
  assert (vhlo_name op n = n) as Hvn by (by destruct (kind_of op n)).
  destruct (get_attr attrs n) as [a|] eqn:Ea.
  - destruct (attr_in_vhlo n a Ea Hg) as (v & Hv & _ & Ht). rewrite Hvn in Hv. eauto.
  - pose proof (default_there _ _ _ Hd Ea) as [_ Hb].
    assert (exists v, convertDefault d = Ok v /\ testable attr_identity (kind_of op n) v) as (v & Hv & Ht).
    { destruct (kind_of op n); try done; destruct Hb as (_ & v & l & Hv & _ & _ & Ht); eauto. }
    exists v. split; [|done]. apply vhlo_there, Hop. by apply (FromDefault _ _ d); rewrite ?Ho.
Qed.

(** The spread attributes are built again. *)
Lemma no_algorithm : op = DotGeneralOp -> get_attr attrs "algorithm" = None ->
  VhloToStablehlo.convertDotAlgorithm attr_identity of_identity vhloOp = Ok None.
Proof.
  intros E Hno. pose proof Hop as Hop'. pose proof Hds as Hds'. revert Hop' Hds'. rewrite E. intros Hop' [= Hds'].
  assert (forall n, n ∈ ["lhs_precision_type"; "rhs_precision_type"; "accumulation_type"; "lhs_component_count";
    "rhs_component_count"; "num_primitive_operations"; "allow_imprecise_accumulation"] ->
    getter vhloOp n = Ok (TypeV1Attr NoneV1Type)) as Hn.
  { intros n Hin. unfold getter. rewrite (proj1 (vhlo_there n (TypeV1Attr NoneV1Type))); [done|]. apply Hop.
    assert (("algorithm", n, StablehloDefault (TypeAttr NoneType)) ∈ ds) as Hd.
    { rewrite <- Hds'. apply elem_of_cons. right. apply (list_elem_of_fmap_2 (fun attrName => unless "algorithm" attrName (TypeAttr NoneType)) _ _ Hin). }
    pose proof (default_owner _ _ _ Hd) as Ho. by apply (FromDefault _ _ (StablehloDefault (TypeAttr NoneType))); rewrite ?Ho. }
  unfold VhloToStablehlo.convertDotAlgorithm. cbn [mapM]. rewrite !Hn by (rewrite !elem_of_cons; tauto). done.
Qed.

Lemma built_again name r parts : (name, r, parts) ∈ imploded op vhloOp -> r = Ok (get_attr attrs name).
Proof.
  intros Hin. assert ((name, parts) ∈ groups op) as Hg.
  { rewrite <- (imploded_groups attr_identity of_identity op vhloOp).
    apply (list_elem_of_fmap_2 (fun '(name, _, parts) => (name, parts)) _ _ Hin). }
  destruct (get_attr attrs name) as [a|] eqn:Ea.
  - pose proof (attrs_ok _ _ Hok _ _ (proj2 (attr_there _ _) Ea)) as Ha.
    destruct (group_passes _ _ _ attr_identity of_identity Hid op name a Ha (group_kind _ _ _ Hg)) as (l & ps & Hl & Hps & Hnames & _ & Hr).
    apply (Hr vhloOp) in Hin; [done|]. apply Forall_forall. intros [n v] Hnv. cbn. apply vhlo_there, Hop.
    assert (owner op n = name) as Ho.
    { apply (group_owner _ _ _ Hps). rewrite <- Hnames. apply (list_elem_of_fmap_2 fst _ _ Hnv). }
    by apply (FromAttr _ _ a l); rewrite ?Ho.
  - destruct (has_required _ _ Hok) as [Hreq _]. pose proof (proj1 (Forall_forall _ _) Hreq _ Hg) as [Hn|Hn]; cbn in Hn.
    + subst name. assert (op = DotGeneralOp) as E.
      { clear - Hg. destruct op; cbn in Hg; rewrite ?elem_of_cons, ?elem_of_nil in Hg; destruct_or?; done. }
      pose proof (no_algorithm E Ea) as Hr. clear Hreq Hg. revert Hin. rewrite E. cbn [VhloToStablehlo.imploded].
      rewrite !elem_of_cons, elem_of_nil. intros [H|[H|[]]]; [done|]. injection H as -> _. exact Hr.
    + by rewrite Ea in Hn; destruct Hn.
Qed.

(** What an attribute that is left comes back as. *)
Lemma left_converts n v : (n, v) ∈ vhloOp -> (forall name parts, (name, parts) ∈ groups op -> n ∉ parts) -> exists l,
  attr_to_stablehlo op (n, v) = Ok l /\
  ((exists a, get_attr attrs (owner op n) = Some a /\ l = [(owner op n, normal_attr op (owner op n) a)]) \/
   (get_attr attrs (owner op n) = None /\ Forall (fun p => p.1 = owner op n /\ is_default op (owner op n) p.2 = true) l)).
Proof.
  intros [a l Ha Hc Hin|d Hno Hd Hc]%Hop Hleft.
  - pose proof (attrs_ok _ _ Hok _ _ (proj2 (attr_there _ _) Ha)) as Hok'.
    destruct (decide (kind_of op (owner op n) = Group)) as [Hk|Hk].
    + destruct (group_passes _ _ _ attr_identity of_identity Hid op _ a Hok' Hk) as (k & ps & Hl & Hps & Hnames & _ & _). rewrite Hc in Hl. injection Hl as <-.
      destruct (Hleft _ _ Hps). rewrite <- Hnames. apply (list_elem_of_fmap_2 fst _ _ Hin).
    + destruct (attr_passes _ _ _ attr_identity of_identity Hid op _ a Hok' Hk) as (w & Hw & Hb & _). rewrite Hc in Hw. injection Hw as ->.
      apply list_elem_of_singleton in Hin. injection Hin as En ->. rewrite <- En in Hb. eexists. split; [exact Hb|]. left. eauto.
  - pose proof (default_there _ _ _ Hd Hno) as [_ Hb]. destruct (kind_of op (owner op n)) eqn:Hk.
    12: { destruct Hb as [(parts & Hps & Hin) _]. by destruct (Hleft _ _ Hps). }
    all: destruct Hb as (En & w & l & Hw & Hl & Hf & _); rewrite Hc in Hw; injection Hw as <-; eauto.
Qed.
End Fixed.

(** ** The conversions succeed *)
Lemma defaults_total op attrs : operation_ok op attrs -> exists ds, defaults op attrs = Ok ds.
Proof.
  intros [_ Hok [Hreq Hwin]]. unfold defaults. destruct op; try (by eexists).
  - apply Forall_cons in Hreq as [[E|[a Ha]] _]; [done|]. cbn in Ha. rewrite Ha.
    destruct (Hok _ _ (get_attr_in _ _ _ Ha)) as (_ & d & -> & _). by eexists.
  - apply Forall_cons in Hreq as [[E|[a Ha]] _]; [done|]. cbn in Ha. rewrite Ha.
    destruct (Hok _ _ (get_attr_in _ _ _ Ha)) as (_ & d & -> & _). by eexists.
  - destruct Hwin as [a Ha]. rewrite Ha. destruct (Hok _ _ (get_attr_in _ _ _ Ha)) as (_ & l & -> & _). by eexists.
  - destruct Hwin as [a Ha]. rewrite Ha. destruct (Hok _ _ (get_attr_in _ _ _ Ha)) as (_ & l & -> & _). by eexists.
Qed.

Lemma default_converts op e : default_back op e -> exists v, convertDefault e.2 = Ok v.
Proof.
  destruct e as [[s n] d]. intros [_ H]. destruct (kind_of op s); try (destruct H as (_ & v & l & Hv & _); by exists v).
  destruct H as [_ H]. by exists (TypeV1Attr NoneV1Type).
Qed.

Lemma named_total (l : list (string * result VhloAttr)) : Forall (fun p => exists v, p.2 = Ok v) l ->
  exists k, named l = Ok k /\ forall n v, (n, v) ∈ k <-> (n, Ok v) ∈ l.
Proof.
  unfold named. induction 1 as [|[n r] l [v Hv] H (k & Hk & IH)]; [by exists []; split; [|intros; rewrite !elem_of_nil]|].
  cbn in Hv. subst r. exists ((n, v) :: k). cbn [mapM]. rewrite Hk. split; [done|]. intros m w. rewrite !elem_of_cons, IH.
  split; (intros [E|?]; [left; by injection E as -> ->|by right]).
Qed.

(** The operation in VHLO. *)
Lemma to_vhlo_total op attrs : operation_ok op attrs -> exists ds vhloOp, defaults op attrs = Ok ds /\
  StablehloToVhlo.convertAttrs vhlo_encoding allow identity op attrs = Ok vhloOp /\
  forall n v, (n, v) ∈ vhloOp <-> origin op attrs ds n v.
Proof.
  intros Hok. destruct (defaults_total op attrs Hok) as [ds Hds]. unfold StablehloToVhlo.convertAttrs, addDefaults. rewrite Hds.
  destruct (mapM_exists (B := list (string * VhloAttr)) (attr_to_vhlo op) attrs) as [ls Hls].
  { intros [name a] Hin. destruct (attr_converts op name a) as (l & Hl & _); [by apply Hok|]. eauto. }
  rewrite Hls. cbn [mbind result_bind].
  set (absent := filter _ ds).
  assert (forall e, e ∈ absent -> e ∈ ds /\ get_attr attrs e.1.1 = None) as Habsent.
  { intros [[s n] d] [H ?]%list_elem_of_filter. done. }
  destruct (named_total (map (fun '(_, vhloName, d) => (vhloName, convertDefault d)) absent)) as (dv & -> & Hdv).
  { apply Forall_fmap, Forall_forall. intros e He. destruct (Habsent e He) as [Hin Hno].
    pose proof (proj1 (Forall_forall _ _) (defaults_back vhlo_encoding allow identity attr_identity of_identity Hid _ _ _ Hds) _ Hin Hno) as Hb.
    destruct (default_converts _ _ Hb) as [v Hv]. destruct e as [[s n] d]. by exists v. }
  cbn [mbind result_bind]. exists ds, (dv ++ concat ls). split; [done|]. split; [done|]. intros n v.
  rewrite elem_of_app, Hdv, (elem_of_mapM _ _ _ _ Hls). split.
  - intros [([[s m] d] & E & Hin)%list_elem_of_fmap|([name a] & l & Hin & Hl & Hv)].
    + injection E as -> Hc. destruct (Habsent _ Hin) as [Hd Hno].
      pose proof (default_owner op attrs ds Hds _ _ _ Hd) as Ho. cbn in Hno. subst s. by apply (FromDefault _ _ _ _ _ d).
    + destruct (attr_converts op name a) as (k & Hk & _ & Ho); [by apply Hok|]. rewrite Hl in Hk. injection Hk as <-.
      pose proof (Ho _ _ Hv) as <-. apply (FromAttr _ _ _ _ _ a l); [|done|done]. by apply (attr_there op attrs Hok).
  - intros [a l Ha Hc Hv|d Hno Hd Hc].
    + right. exists (owner op n, a), l. split; [|done]. by apply (attr_there op attrs Hok).
    + left. apply list_elem_of_fmap. exists (owner op n, n, d). rewrite Hc. split; [done|]. by apply list_elem_of_filter.
Qed.

(** The operation in StableHLO again: where its attributes come from, and which it has. *)
Lemma to_stablehlo_total op attrs ds vhloOp : operation_ok op attrs -> defaults op attrs = Ok ds ->
  (forall n v, (n, v) ∈ vhloOp <-> origin op attrs ds n v) -> exists out,
  VhloToStablehlo.convertAttrs attr_identity of_identity op vhloOp = Ok out /\
  (forall name a, (name, a) ∈ out ->
    match get_attr attrs name with Some b => a = normal_attr op name b | None => is_default op name a = true end) /\
  (forall name b, get_attr attrs name = Some b ->
    is_default op name (normal_attr op name b) = true \/ (name, normal_attr op name b) ∈ out).
Proof.
  intros Hok Hds Hop. unfold VhloToStablehlo.convertAttrs, removeDefaults.
  destruct (removeDefaults_list (removals op vhloOp) vhloOp) as (kept & -> & Hkept).
  { apply removals_total. by eapply tested_there. }
  cbn [mbind result_bind].
  assert (forall name r parts, (name, r, parts) ∈ imploded op vhloOp -> r = Ok (get_attr attrs name)) as Hbuilt.
  { intros name r parts. by apply (built_again op attrs Hok ds Hds vhloOp Hop). }
  destruct (implode_list attr_identity of_identity (imploded op vhloOp) kept []) as (rest & built & E & Hrest & Hin).
  { apply Forall_forall. intros [[name r] parts] He. exists (get_attr attrs name). by apply (Hbuilt _ _ parts). }
  assert (implodeSpecial attr_identity of_identity op vhloOp kept = Ok (rest, built)) as -> by exact E. clear E.
  cbn [mbind result_bind app].
  assert (forall n v, (n, v) ∈ rest -> (n, v) ∈ vhloOp /\ forall name parts, (name, parts) ∈ groups op -> n ∉ parts) as Hleft.
  { intros n v [[Hv _]%Hkept Hf]%Hrest. split; [done|]. intros name parts Hg.
    rewrite <- (imploded_groups attr_identity of_identity op vhloOp) in Hg. apply list_elem_of_fmap in Hg as ([[m r] ps] & [= -> ->] & He).
    apply (proj1 (Forall_forall _ _) Hf _ He). }
  destruct (mapM_exists (B := list (string * Attribute)) (attr_to_stablehlo op) rest) as [outs Houts].
  { intros [n v] Hv. destruct (Hleft n v Hv) as [Hn Hp].
    destruct (left_converts op attrs Hok ds Hds vhloOp Hop n v Hn Hp) as (l & Hl & _). eauto. }
  rewrite Houts. exists (built ++ concat outs). split; [done|]. split.
  - intros name a [Ha|Ha]%elem_of_app.
    + apply Hin in Ha as (parts & He). pose proof (Hbuilt _ _ _ He) as Hb. injection Hb as Hb. rewrite <- Hb.
      unfold normal_attr. enough (kind_of op name = Group) as -> by done. apply (group_kind op name parts).
      rewrite <- (imploded_groups attr_identity of_identity op vhloOp).
      apply (list_elem_of_fmap_2 (fun '(name, _, parts) => (name, parts)) _ _ He).
    + apply (elem_of_mapM _ _ _ _ Houts) in Ha as ([n v] & l & Hv & Hl & Ha). destruct (Hleft n v Hv) as [Hn Hp].
      destruct (left_converts op attrs Hok ds Hds vhloOp Hop n v Hn Hp) as (k & Hk & Hf). rewrite Hl in Hk. injection Hk as <-.
      destruct Hf as [(b & Hb & ->)|[Hb Hf]].
      * apply list_elem_of_singleton in Ha. injection Ha as -> ->. by rewrite Hb.
      * pose proof (proj1 (Forall_forall _ _) Hf _ Ha) as [E Hd]. cbn in E, Hd. by rewrite E, Hb.
  - intros name b Hb. destruct (decide (kind_of op name = Group)) as [Hk|Hk].
    + right. apply elem_of_app. left. apply Hin. apply kind_group in Hk as Hg. destruct Hg as [parts Hg]. exists parts.
      rewrite <- (imploded_groups attr_identity of_identity op vhloOp) in Hg. apply list_elem_of_fmap in Hg as ([[m r] ps] & [= -> ->] & He).
      pose proof (Hbuilt _ _ _ He) as ->. rewrite Hb in He. unfold normal_attr. by rewrite Hk.
    + destruct (attr_in_vhlo op attrs Hok ds Hds vhloOp Hop name b Hb Hk) as (v & Hv & Hl & Ht).
      pose proof (attrs_ok _ _ Hok _ _ (proj2 (attr_there op attrs Hok _ _) Hb)) as [Ho _].
      pose proof (owner_vhlo_name _ _ Hk Ho) as Hvn. apply get_attr_in in Hv as Hvin.
      destruct (removed attr_identity of_identity op vhloOp (vhlo_name op name)) eqn:Hrm;
        [apply removed_in in Hrm|apply not_true_iff_false in Hrm; rewrite removed_in in Hrm].
      * left. pose proof (proj1 (Forall_forall _ _) (removals_default _ _ op vhloOp) _ Hrm) as Hd.
        unfold default_removed in Hd. cbn [fst snd] in Hd. rewrite Hvn in Hd.
        specialize (Hd v _ eq_refl Hv Ht Hl). rewrite Forall_singleton in Hd. exact Hd.
      * right. apply elem_of_app. right. apply (elem_of_mapM _ _ _ _ Houts). exists (vhlo_name op name, v), [(name, normal_attr op name b)].
        split; [|split; [done|by apply list_elem_of_singleton]]. apply Hrest. split; [by apply Hkept|].
        apply Forall_forall. intros [[m r] ps] He Hps. cbn in Hps. assert ((m, ps) ∈ groups op) as Hg.
        { rewrite <- (imploded_groups attr_identity of_identity op vhloOp).
          apply (list_elem_of_fmap_2 (fun '(name, _, parts) => (name, parts)) _ _ He). }
        pose proof (group_owner _ _ _ Hg _ Hps) as E. rewrite Hvn in E. subst m. by rewrite (group_kind _ _ _ Hg) in Hk.
Qed.

Lemma precisions_normal (l : list Attribute) :
  default_precisions (ArrayAttr (map normal l)) = default_precisions (ArrayAttr l).
Proof. cbn. induction l as [|a l IH]; [done|]. cbn [map forallb]. rewrite IH. f_equal. by destruct a. Qed.

Lemma tests_normal op : Forall (fun t => kind_of op t.1 = Generic -> forall a,
  match a with FlatSymbolRefAttr _ | DenseBoolArrayAttr _ => False | _ => True end -> t.2 (normal a) = t.2 a) (default_tests op).
Proof.
  destruct op; cbn [default_tests]; rewrite ?Forall_cons, ?Forall_nil;
    repeat match goal with |- _ /\ _ => split | |- True => exact I end; intros Hk; cbn in Hk; try discriminate Hk;
    intros a Ha; cbn [fst snd]; destruct a; try done; try apply precisions_normal; try (by destruct value).
Qed.

(** The default is a default as it comes back. *)
Lemma default_normal op name a : attr_ok vhlo_encoding allow identity of_identity op name a ->
  is_default op name (normal_attr op name a) = is_default op name a.
Proof.
  intros [_ Ha]. unfold normal_attr. pose proof (kind_names op name) as Hn. destruct (kind_of op name) eqn:Hk; try done.
  - destruct Ha as (_ & _ & Ha). unfold default_test in Ha. unfold is_default.
    destruct (find _ (default_tests op)) as [[m t]|] eqn:E; [|done]. destruct Ha as [Ha|Ha]; [done|].
    apply find_some in E as [Hin Em]. cbn in Em. apply String.eqb_eq in Em as ->.
    pose proof (proj1 (Forall_forall _ _) (tests_normal op) (name, t) (proj2 (list_elem_of_In _ _) Hin)) as Ht. by apply Ht.
  - destruct Ha as (h & t & -> & _), Hn as [-> _]. clear - Hk. by destruct op.
Qed.

(** C17: the attributes of an operation, of the kinds and in the ranges that the
    operation asks for ([operation_ok]), pass to VHLO and back, and every attribute that
    is not its default is there again in its normal form, and no other: a generic
    attribute has its dense arrays as dense tensors and its symbol references as
    strings (the mesh of replica groups a symbol), a channel handle of a collective has
    type 0, and all others are what they were. *)
Theorem operation_round_trip op attrs : operation_ok op attrs -> exists vhloOp out,
  StablehloToVhlo.convertAttrs vhlo_encoding allow identity op attrs = Ok vhloOp /\
  VhloToStablehlo.convertAttrs attr_identity of_identity op vhloOp = Ok out /\
  forall name, effective op out name = normal_attr op name <$> effective op attrs name.
Proof.
  intros Hok. destruct (to_vhlo_total op attrs Hok) as (ds & vhloOp & Hds & Hv & Hop).
  destruct (to_stablehlo_total op attrs ds vhloOp Hok Hds Hop) as (out & Hout & Hfrom & Hthere).
  exists vhloOp, out. split; [done|]. split; [done|]. intros name. unfold effective.
  destruct (get_attr attrs name) as [b|] eqn:Eb.
  - rewrite <- (default_normal op name b) by (by apply Hok, get_attr_in). specialize (Hthere name b Eb).
    destruct (get_attr out name) as [a|] eqn:Ea.
    + apply get_attr_in, Hfrom in Ea. rewrite Eb in Ea. subst a. by destruct (is_default _ _ _).
    + destruct Hthere as [-> | Hin]; [done|]. by apply get_attr_none in Hin.
  - destruct (get_attr out name) as [a|] eqn:Ea; [|done]. apply get_attr_in, Hfrom in Ea. rewrite Eb in Ea. by rewrite Ea.
Qed.
End Operation.
