(* ===== verification/VhloToVersion.v ===== *)
(** * Versions of VHLO programs

    [src/stablehlo/transforms/VhloToVersion.cpp] and [VhloToVersionPatterns.td], with
    the versions of types, attributes and operations from [VhloTypes.td],
    [VhloAttrs.td], [VhloEnums.td] and [VhloOps.td], and the constraints of
    [VhloOps.cpp]: which operations a target version allows, and how an operation is
    upgraded or downgraded.  [Failed] is [failure()] and a pattern that does not match. *)
From S2P Require Import Prelude Types Support Tensor Version Vhlo VhloTypes VhloBytecode StablehloAttrs StablehloToVhlo.

(** ** The target version *)
Definition validateTargetVersion (versionRef : string) : result Version :=
  targetVersion ← fromString versionRef;
  if version_lt targetVersion getMinimumVersion then Err (Failed "less than minimum supported")
  else if version_lt getCurrentVersion targetVersion then Err (Failed "greater than current version")
  else Ok (MkVersion (getMajor targetVersion) (getMinor targetVersion) 0).

(** [isLegalVersion], for the minimal and the maximal version. *)
Definition isLegalVersion (versions : Version * Version) (target : Version) : bool :=
  version_le versions.1 target && version_le target versions.2.

Definition since (major minor : Z) : Version * Version := (MkVersion major minor 0, getCurrentVersion).

(** ** Operations *)
Definition original_ops : list string :=
  ["abs_v1"; "add_v1"; "after_all_v1"; "and_v1"; "atan2_v1"; "batch_norm_grad_v1"; "batch_norm_inference_v1";
   "batch_norm_training_v1"; "bitcast_convert_v1"; "broadcast_in_dim_v1"; "broadcast_v1"; "call_v1"; "case_v1"; "ceil_v1";
   "cholesky_v1"; "clamp_v1"; "count_leading_zeros_v1"; "collective_permute_v1"; "compare_v1"; "complex_v1";
   "concatenate_v1"; "constant_v1"; "convert_v1"; "convolution_v1"; "create_token_v1"; "cross-replica-sum_v1"; "divide_v1";
   "dot_v1"; "dynamic_broadcast_in_dim_v1"; "dynamic_iota_v1"; "dynamic_pad_v1"; "dynamic_reshape_v1"; "dynamic_slice_v1";
   "dynamic_update_slice_v1"; "einsum_v1"; "fft_v1"; "floor_v1"; "func_v1"; "get_dimension_size_v1"; "get_tuple_element_v1";
   "if_v1"; "imag_v1"; "infeed_v1"; "iota_v1"; "is_finite_v1"; "map_v1"; "maximum_v1"; "minimum_v1"; "multiply_v1";
   "negate_v1"; "not_v1"; "optimization_barrier_v1"; "or_v1"; "outfeed_v1"; "pad_v1"; "partition_id_v1"; "popcnt_v1";
   "power_v1"; "real_dynamic_slice_v1"; "real_v1"; "reduce_v1"; "reduce_precision_v1"; "reduce_scatter_v1";
   "reduce_window_v1"; "remainder_v1"; "replica_id_v1"; "reshape_v1"; "return_v1"; "reverse_v1"; "rng_bit_generator_v1";
   "rng_v1"; "round_nearest_even_v1"; "round_nearest_afz_v1"; "select_and_scatter_v1"; "select_v1"; "set_dimension_size_v1";
   "shift_left_v1"; "shift_right_arithmetic_v1"; "shift_right_logical_v1"; "sign_v1"; "slice_v1"; "sort_v1"; "subtract_v1";
   "torch_index_select_v1"; "transpose_v1"; "triangular_solve_v1"; "tuple_v1"; "unary_einsum_v1"; "uniform_dequantize_v1";
   "uniform_quantize_v1"; "while_v1"; "xor_v1"].

Definition op_versions : list (string * (Version * Version)) :=
  map (fun name => (name, (MkVersion 0 9 0, getCurrentVersion))) original_ops ++
  [("all_gather_v1", (MkVersion 0 9 0, MkVersion 1 4 0)); ("all_gather_v2", (MkVersion 1 5 0, getCurrentVersion));
   ("all_reduce_v1", (MkVersion 0 9 0, MkVersion 1 4 0)); ("all_reduce_v2", (MkVersion 1 5 0, getCurrentVersion));
   ("all_to_all_v1", (MkVersion 0 9 0, MkVersion 1 4 0)); ("all_to_all_v2", (MkVersion 1 5 0, getCurrentVersion));
   ("async_start_v1", (MkVersion 1 15 0, getCurrentVersion)); ("async_done_v1", (MkVersion 1 15 0, getCurrentVersion));
   ("cbrt_v1", (MkVersion 0 9 0, MkVersion 1 9 0)); ("cbrt_v2", (MkVersion 1 10 0, getCurrentVersion));
   ("collective_broadcast_v1", (MkVersion 0 16 0, MkVersion 1 19 0));
   ("collective_broadcast_v2", (MkVersion 1 20 0, getCurrentVersion));
   ("collective_reduce_v1", (MkVersion 1 19 0, getCurrentVersion)); ("composite_v1", (MkVersion 0 19 0, MkVersion 1 13 0));
   ("composite_v2", (MkVersion 1 14 0, getCurrentVersion)); ("cosine_v1", (MkVersion 0 9 0, MkVersion 1 9 0));
   ("cosine_v2", (MkVersion 1 10 0, getCurrentVersion)); ("custom_call_v1", (MkVersion 0 9 0, MkVersion 1 17 0));
   ("custom_call_v2", (MkVersion 1 18 0, getCurrentVersion)); ("dot_general_v1", (MkVersion 0 9 0, MkVersion 1 5 0));
   ("dot_general_v2", (MkVersion 1 6 0, getCurrentVersion)); ("dynamic_conv_v1", (MkVersion 0 9 0, MkVersion 0 19 0));
   ("dynamic_conv_v2", (MkVersion 0 20 0, getCurrentVersion)); ("dynamic_gather_v1", (MkVersion 0 9 0, MkVersion 1 0 0));
   ("dynamic_gather_v2", (MkVersion 1 1 0, getCurrentVersion));
   ("exponential_minus_one_v1", (MkVersion 0 9 0, MkVersion 1 9 0));
   ("exponential_minus_one_v2", (MkVersion 1 10 0, getCurrentVersion));
   ("exponential_v1", (MkVersion 0 9 0, MkVersion 1 8 0)); ("exponential_v2", (MkVersion 1 9 0, getCurrentVersion));
   ("gather_v1", (MkVersion 0 9 0, MkVersion 1 0 0)); ("gather_v2", (MkVersion 1 1 0, getCurrentVersion));
   ("log_plus_one_v1", (MkVersion 0 9 0, MkVersion 1 9 0)); ("log_plus_one_v2", (MkVersion 1 10 0, getCurrentVersion));
   ("logistic_v1", (MkVersion 0 9 0, MkVersion 1 9 0)); ("logistic_v2", (MkVersion 1 10 0, getCurrentVersion));
   ("log_v1", (MkVersion 0 9 0, MkVersion 1 9 0)); ("log_v2", (MkVersion 1 10 0, getCurrentVersion));
   ("recv_v1", (MkVersion 0 9 0, MkVersion 1 11 0)); ("recv_v2", (MkVersion 1 12 0, getCurrentVersion));
   ("rsqrt_v1", (MkVersion 0 9 0, MkVersion 1 9 0)); ("rsqrt_v2", (MkVersion 1 10 0, getCurrentVersion));
   ("scatter_v1", (MkVersion 0 9 0, MkVersion 1 0 0)); ("scatter_v2", (MkVersion 1 1 0, getCurrentVersion));
   ("send_v1", (MkVersion 0 9 0, MkVersion 1 11 0)); ("send_v2", (MkVersion 1 12 0, getCurrentVersion));
   ("sine_v1", (MkVersion 0 9 0, MkVersion 1 9 0)); ("sine_v2", (MkVersion 1 10 0, getCurrentVersion));
   ("sqrt_v1", (MkVersion 0 9 0, MkVersion 1 9 0)); ("sqrt_v2", (MkVersion 1 10 0, getCurrentVersion));
   ("tan_v1", (MkVersion 1 4 0, MkVersion 1 9 0)); ("tan_v2", (MkVersion 1 10 0, getCurrentVersion));
   ("tanh_v1", (MkVersion 0 9 0, MkVersion 1 9 0)); ("tanh_v2", (MkVersion 1 10 0, getCurrentVersion))].

Definition versions_of (name : string) : option (Version * Version) := get_attr op_versions name.

Section Legality.
Context {L : LLVM}.

(** ** Types and attributes *)
Definition type_versions (type : VhloType) : option (Version * Version) :=
  match type with
  | ForeignType _ => None
  | FloatF4E2M1FNV1Type | FloatF6E2M3FNV1Type | FloatF6E3M2FNV1Type | FloatF8E8M0FNUV1Type => Some (since 1 8)
  | FloatF8E3M4V1Type | FloatF8E4M3V1Type => Some (since 1 7)
  | FloatF8E4M3FNUZV1Type | FloatF8E5M2FNUZV1Type => Some (since 0 10)
  | FloatF8E4M3B11FNUZV1Type => Some (since 0 11)
  | FloatTF32V1Type | NoneV1Type => Some (since 1 6)
  | IntegerSI2V1Type | IntegerUI2V1Type => Some (since 1 2)
  | FutureV1Type _ => Some (since 1 15)
  | UniformQuantizedPerAxisV1Type _ _ _ _ _ _ _ _ => Some (since 0 18)
  | RankedBufferV1Type _ _ => Some (since 1 13)
  | _ => Some (since 0 9)
  end.

Definition attr_versions (attr : VhloAttr) : option (Version * Version) :=
  match attr with
  | ForeignAttr _ => None
  | ResultAccuracyV1Attr _ _ _ _ | ResultAccuracyModeV1Attr _ => Some (since 1 9)
  | SubAxisInfoV1Attr _ _ | AxisRefV1Attr _ _ | ReplicaGroupMeshAxesV1Attr _ _ | MeshAxisV1Attr _ _ | MeshV1Attr _ _ =>
      Some (since 1 16)
  | _ => Some (since 0 9)
  end.

Fixpoint isLegalType (type : VhloType) (target : Version) : bool :=
  match type_versions type with
  | None => true
  | Some versions =>
      isLegalVersion versions target &&
      match type with
      | ComplexV1Type e | UnrankedTensorV1Type e | RankedBufferV1Type _ e => isLegalType e target
      | FunctionV1Type inputs outputs =>
          forallb (fun e => isLegalType e target) inputs && forallb (fun e => isLegalType e target) outputs
      | RankedTensorV1Type _ e encoding =>
          match encoding with Some a => isLegalAttribute a target | None => true end && isLegalType e target
      | TupleV1Type types => forallb (fun e => isLegalType e target) types
      | UniformQuantizedV1Type _ storage expressed _ _ _ _ => isLegalType storage target && isLegalType expressed target
      | _ => true
      end
  end
with isLegalAttribute (attr : VhloAttr) (target : Version) : bool :=
  match attr_versions attr with
  | None => true
  | Some versions =>
      isLegalVersion versions target &&
      match attr with
      | ArrayV1Attr value => forallb (fun e => isLegalAttribute e target) value
      | DictionaryV1Attr value => forallb (fun '(name, v) => isLegalAttribute name target && isLegalAttribute v target) value
      | FloatV1Attr type _ | IntegerV1Attr type _ | TensorV1Attr type _ | TypeV1Attr type => isLegalType type target
      | ResultAccuracyV1Attr _ _ _ mode => isLegalAttribute mode target
      | AxisRefV1Attr name subAxisInfo =>
          isLegalAttribute name target && match subAxisInfo with Some a => isLegalAttribute a target | None => true end
      | ReplicaGroupMeshAxesV1Attr mesh axes => isLegalAttribute mesh target && isLegalAttribute axes target
      | _ => true
      end
  end.

(** ** Operations

    An operation has its operands with their types, the attributes it declares, in the
    order of their declaration, and other attributes, that are discardable. *)
Context {Value Region : Type}.

Record VhloOp := MkVhloOp {
  op_name : string;
  operands : list (Value * VhloType);
  result_types : list VhloType;
  op_attributes : list (string * VhloAttr);
  discardable : list (string * VhloAttr);
  regions : list Region;
}.

(** Types are unique in MLIR's context, which tells whether two of them are equal. *)
Context (same_type : VhloType -> VhloType -> bool).

Definition op_attr (op : VhloOp) (name : string) : result VhloAttr :=
  ok_or (get_attr (op_attributes op) name) (UB "null attribute").

(** ** Constraints *)
Definition getVhloElementType (tensorType : VhloType) : result VhloType :=
  match tensorType with
  | RankedTensorV1Type _ e _ | UnrankedTensorV1Type e => Ok e
  | _ => Err (UB "cast<UnrankedTensorV1Type>")
  end.

Definition checkIfOperandAndResultElementTypesMatch (operandTypes resultTypes : list VhloType) : result bool :=
  inputElementTypes ← mapM getVhloElementType operandTypes;
  resultElementTypes ← mapM getVhloElementType resultTypes;
  Ok (forallb (fun '(a, b) => same_type a b) (zip inputElementTypes resultElementTypes)).

Definition verifyConstraint_0_17_0 (op : VhloOp) (target : Version) : result bool :=
  same ← checkIfOperandAndResultElementTypesMatch (map snd (operands op)) (result_types op);
  Ok (same || negb (version_lt target (MkVersion 0 17 0))).

Definition verifyConstraint_1_3_0 (op : VhloOp) (target : Version) : result bool :=
  if negb (version_lt target (MkVersion 1 3 0)) then Ok true
  else
    config ← op_attr op "backend_config";
    match config with
    | DictionaryV1Attr _ => Ok false
    | _ =>
        version ← op_attr op "api_version";
        match version with
        | CustomCallApiVersionV1Attr CustomCallApiVersionV1_API_VERSION_TYPED_FFI => Ok false
        | CustomCallApiVersionV1Attr _ => Ok true
        | _ => Err (UB "cast<CustomCallApiVersionV1Attr>")
        end
    end.

Definition verifyConstraint_1_17_0 (op : VhloOp) (target : Version) : result bool :=
  Ok (negb (version_lt target (MkVersion 1 17 0)) ||
      forallb (fun o => match o.2 with FutureV1Type _ => false | _ => true end) (operands op)).

Definition isVhloFp8Type (type : VhloType) : bool :=
  match type with
  | FloatF8E3M4V1Type | FloatF8E4M3V1Type | FloatF8E4M3FNV1Type | FloatF8E5M2V1Type | FloatF8E4M3FNUZV1Type
  | FloatF8E4M3B11FNUZV1Type | FloatF8E5M2FNUZV1Type | FloatF8E8M0FNUV1Type => true
  | _ => false
  end.

Definition verifyConstraint_1_20_0 (op : VhloOp) (target : Version) : result bool :=
  if negb (version_lt target (MkVersion 1 20 0)) then Ok true
  else
    match operands op with
    | (_, lhs) :: (_, rhs) :: _ =>
        lhsElementType ← getVhloElementType lhs;
        rhsElementType ← getVhloElementType rhs;
        Ok (negb (negb (same_type lhsElementType rhsElementType) && isVhloFp8Type lhsElementType && isVhloFp8Type rhsElementType))
    | _ => Ok false
    end.

Definition is_f8E4M3FN (attr : VhloAttr) : bool := match attr with TypeV1Attr FloatF8E4M3FNV1Type => true | _ => false end.

Definition verifyConstraint_1_21_0 (op : VhloOp) (target : Version) : result bool :=
  if negb (version_lt target (MkVersion 1 21 0)) then Ok true
  else
    lhsType ← op_attr op "lhs_precision_type";
    rhsType ← op_attr op "rhs_precision_type";
    Ok (negb (is_f8E4M3FN lhsType || is_f8E4M3FN rhsType)).

(** The constraint of an operation that has one. *)
Definition validateConstraint (op : VhloOp) (target : Version) : result bool :=
  let one_of names := existsb (String.eqb (op_name op)) names in
  if one_of ["all_reduce_v1"; "reduce_v1"; "reduce_scatter_v1"; "reduce_window_v1"; "scatter_v1"; "select_and_scatter_v1"] then
    verifyConstraint_0_17_0 op target
  else if one_of ["convolution_v1"; "dynamic_conv_v2"] then verifyConstraint_1_20_0 op target
  else if one_of ["dot_general_v2"] then verifyConstraint_1_21_0 op target
  else if one_of ["custom_call_v1"] then
    b ← verifyConstraint_1_17_0 op target;
    if (b : bool) then verifyConstraint_1_3_0 op target else Ok false
  else Ok true.

(** Operations of other dialects have no versions. *)
Definition isLegalOperation (op : VhloOp) (target : Version) : result bool :=
  match versions_of (op_name op) with
  | None => Ok true
  | Some versions =>
      if negb (isLegalVersion versions target) then Ok false
      else
        constraint ← validateConstraint op target;
        Ok (constraint && forallb (fun a => isLegalAttribute a.2 target) (op_attributes op ++ discardable op) &&
            forallb (fun o => isLegalType o.2 target) (operands op) && forallb (fun t => isLegalType t target) (result_types op))
  end.
End Legality.
Arguments VhloOp {L} Value Region.

(** ** Upgrades and downgrades *)
Section Patterns.
Context {L : LLVM} {M : MlirBytecode} {Value Region : Type}.
Local Abbreviation VhloOp := (VhloOp Value Region).
Implicit Types op : VhloOp.

Definition getEmptyI64Tensor : VhloAttr := TensorV1Attr (RankedTensorV1Type [0] IntegerSI64V1Type None) (denseI64 [0] []).
Definition isEmptyTensor (attr : VhloAttr) : bool :=
  match attr with TensorV1Attr _ data => match getRawData data with [] => true | _ => false end | _ => false end.
Definition getEmptyArray : VhloAttr := ArrayV1Attr [].
Definition isEmptyArray (attr : VhloAttr) : bool := match attr with ArrayV1Attr [] => true | _ => false end.
Definition isNoneType (attr : VhloAttr) : bool := match attr with TypeV1Attr NoneV1Type => true | _ => false end.
Definition getNoneType : VhloAttr := TypeV1Attr NoneV1Type.
Definition isFalseBoolean (attr : VhloAttr) : bool := match attr with BooleanV1Attr b => negb b | _ => false end.
Definition getFalseBoolean : VhloAttr := BooleanV1Attr false.

Definition isDefaultResultAccuracy (attr : VhloAttr) : result bool :=
  match attr with
  | ResultAccuracyV1Attr atol rtol ulps mode =>
      Ok (apfloat_isZero atol && apfloat_isZero rtol && (ulps =? 0) &&
          match mode with ResultAccuracyModeV1Attr ResultAccuracyModeV1_DEFAULT => true | _ => false end)
  | _ => Err (UB "null attribute")
  end.
Definition getDefaultResultAccuracy : VhloAttr :=
  ResultAccuracyV1Attr (apfloat_of_double (Double 0)) (apfloat_of_double (Double 0)) 0
    (ResultAccuracyModeV1Attr ResultAccuracyModeV1_DEFAULT).

(** The padding of a rank below two has a negative extent. *)
Definition getDefaultConvPadding (lhs : VhloType) : result VhloAttr :=
  match lhs with
  | RankedTensorV1Type shape _ _ =>
      let n := Z.of_nat (length shape) - 2 in
      if n <? 0 then Err (UB "negative padding shape")
      else Ok (TensorV1Attr (RankedTensorV1Type [n; 2] IntegerSI64V1Type None) (denseI64 [n; 2] (zeros (n * 2))))
  | _ => Err (UB "null attribute")
  end.

(** An attribute of the new operation: that of the old one, or a new one. *)
Inductive Argument := Keep (name : string) | Put (name : string) (attr : VhloAttr).

Definition argument op (a : Argument) : result (string * VhloAttr) :=
  match a with Keep name => attr ← op_attr op name; Ok (name, attr) | Put name attr => Ok (name, attr) end.

(** The new operation has the operands and the discardable attributes of the old one. *)
Definition replaceOp op (name : string) (types : list VhloType) (arguments : list Argument) : result VhloOp :=
  attrs ← mapM (argument op) arguments;
  Ok (MkVhloOp name (operands op) types attrs (discardable op) (regions op)).

(** A pattern that matches when the tests of these attributes succeed. *)
Fixpoint tests op (l : list (string * (VhloAttr -> result bool))) : result () :=
  match l with
  | [] => Ok ()
  | (name, test) :: l =>
      attr ← op_attr op name; b ← test attr; if (b : bool) then tests op l else Err (Failed "no match")
  end.

Definition holds (p : VhloAttr -> bool) (attr : VhloAttr) : result bool := Ok (p attr).
Definition singleOperand op : result () := match operands op with [_] => Ok () | _ => Err (Failed "multiple operands") end.
Definition front {A} (l : list A) : result A := match l with a :: _ => Ok a | [] => Err (UB "front of an empty range") end.

Definition Pattern : Type := VhloOp -> result VhloOp.

Definition ScatterOpV2ToV1 : Pattern := fun op =>
  _ ← tests op [("scatter_indices_batching_dims", holds isEmptyTensor); ("input_batching_dims", holds isEmptyTensor)];
  replaceOp op "scatter_v1" (result_types op)
    [Keep "update_window_dims"; Keep "inserted_window_dims"; Keep "scatter_dims_to_operand_dims"; Keep "index_vector_dim";
     Keep "indices_are_sorted"; Keep "unique_indices"].

Definition ScatterOpV1ToV2 : Pattern := fun op =>
  replaceOp op "scatter_v2" (result_types op)
    [Keep "update_window_dims"; Keep "inserted_window_dims"; Put "input_batching_dims" getEmptyI64Tensor;
     Put "scatter_indices_batching_dims" getEmptyI64Tensor; Keep "scatter_dims_to_operand_dims"; Keep "index_vector_dim";
     Keep "indices_are_sorted"; Keep "unique_indices"].

Definition AllReduceOpV1ToV2 : Pattern := fun op =>
  replaceOp op "all_reduce_v2" (result_types op) [Keep "replica_groups"; Keep "channel_id"; Keep "use_global_device_ids"].

Definition AllReduceOpV2ToV1 : Pattern := fun op =>
  _ ← singleOperand op;
  type ← front (result_types op);
  replaceOp op "all_reduce_v1" [type] [Keep "replica_groups"; Keep "channel_id"; Keep "use_global_device_ids"].

Definition CompositeOpV1ToV2 : Pattern := fun op =>
  new ← replaceOp op "composite_v2" (result_types op)
    [Keep "name"; Keep "composite_attributes"; Keep "decomposition"; Keep "version"];
  Ok (MkVhloOp (op_name new) (operands new) (result_types new) (op_attributes new) (discardable new) []).

Definition CompositeOpV2ToV1 : Pattern := fun op =>
  match regions op with
  | [] => replaceOp op "composite_v1" (result_types op)
            [Keep "name"; Keep "composite_attributes"; Keep "decomposition"; Keep "version"]
  | _ => Err (Failed "non-empty regions")
  end.

Definition custom_call_arguments : list Argument :=
  [Keep "call_target_name"; Keep "has_side_effect"; Keep "backend_config"; Keep "api_version"; Keep "called_computations";
   Keep "operand_layouts"; Keep "result_layouts"; Keep "output_operand_aliases"].

Definition CustomCallOpV1ToV2 : Pattern := fun op =>
  replaceOp op "custom_call_v2" (result_types op) (custom_call_arguments ++ [Put "result_tilings" getEmptyArray]).

Definition CustomCallOpV2ToV1 : Pattern := fun op =>
  _ ← tests op [("result_tilings", holds isEmptyArray)];
  replaceOp op "custom_call_v1" (result_types op) custom_call_arguments.

(** The patterns of the .td file; the results keep their types. *)
Definition pat (name : string) (guards : list (string * (VhloAttr -> result bool))) (arguments : list Argument) : Pattern := fun op =>
  _ ← tests op guards; replaceOp op name (result_types op) arguments.
Definition single (p : Pattern) : Pattern := fun op => _ ← singleOperand op; p op.

Definition conv_arguments : list Argument :=
  [Keep "lhs_dilation"; Keep "rhs_dilation"; Keep "window_reversal"; Keep "input_batch_dimension";
   Keep "input_feature_dimension"; Keep "input_spatial_dimensions"; Keep "kernel_input_feature_dimension";
   Keep "kernel_output_feature_dimension"; Keep "kernel_spatial_dimensions"; Keep "output_batch_dimension";
   Keep "output_feature_dimension"; Keep "output_spatial_dimensions"; Keep "feature_group_count"; Keep "batch_group_count";
   Keep "precision_config"].

Definition DynamicConvUpgradeV1ToV2 : Pattern := pat "dynamic_conv_v2" [] (Keep "window_strides" :: conv_arguments).
Definition DynamicConvDowngradeV2ToV1 : Pattern := fun op =>
  lhs ← front (operands op);
  padding ← getDefaultConvPadding lhs.2;
  pat "dynamic_conv_v1" [] (Keep "window_strides" :: Put "padding" padding :: conv_arguments) op.

Definition GatherOpUpgradeV1ToV2 : Pattern := pat "gather_v2" []
  [Keep "offset_dims"; Keep "collapsed_slice_dims"; Put "operand_batching_dims" getEmptyI64Tensor;
   Put "start_indices_batching_dims" getEmptyI64Tensor; Keep "start_index_map"; Keep "index_vector_dim"; Keep "slice_sizes";
   Keep "indices_are_sorted"].
Definition GatherOpDowngradeV2ToV1 : Pattern := pat "gather_v1"
  [("operand_batching_dims", holds isEmptyTensor); ("start_indices_batching_dims", holds isEmptyTensor)]
  [Keep "offset_dims"; Keep "collapsed_slice_dims"; Keep "start_index_map"; Keep "index_vector_dim"; Keep "slice_sizes";
   Keep "indices_are_sorted"].

Definition DynamicGatherOpUpgradeV1ToV2 : Pattern := pat "dynamic_gather_v2" []
  [Keep "offset_dims"; Keep "collapsed_slice_dims"; Put "operand_batching_dims" getEmptyI64Tensor;
   Put "start_indices_batching_dims" getEmptyI64Tensor; Keep "start_index_map"; Keep "index_vector_dim"; Keep "indices_are_sorted"].
Definition DynamicGatherOpDowngradeV2ToV1 : Pattern := pat "dynamic_gather_v1"
  [("operand_batching_dims", holds isEmptyTensor); ("start_indices_batching_dims", holds isEmptyTensor)]
  [Keep "offset_dims"; Keep "collapsed_slice_dims"; Keep "start_index_map"; Keep "index_vector_dim"; Keep "indices_are_sorted"].

Definition all_gather_arguments : list Argument :=
  [Keep "all_gather_dim"; Keep "replica_groups"; Keep "channel_id"; Keep "use_global_device_ids"].
Definition AllGatherOpUpgradeV1ToV2 : Pattern := pat "all_gather_v2" [] all_gather_arguments.
Definition AllGatherOpDowngradeV2ToV1 : Pattern := single (pat "all_gather_v1" [] all_gather_arguments).

Definition all_to_all_arguments : list Argument :=
  [Keep "split_dimension"; Keep "concat_dimension"; Keep "split_count"; Keep "replica_groups"; Keep "channel_id"].
Definition AllToAllOpUpgradeV1ToV2 : Pattern := pat "all_to_all_v2" [] all_to_all_arguments.
Definition AllToAllOpDowngradeV2ToV1 : Pattern := single (pat "all_to_all_v1" [] all_to_all_arguments).

Definition dot_general_arguments : list Argument :=
  [Keep "lhs_batching_dimensions"; Keep "rhs_batching_dimensions"; Keep "lhs_contracting_dimensions";
   Keep "rhs_contracting_dimensions"; Keep "precision_config"].
Definition algorithm_names : list string :=
  ["lhs_precision_type"; "rhs_precision_type"; "accumulation_type"; "lhs_component_count"; "rhs_component_count";
   "num_primitive_operations"; "allow_imprecise_accumulation"].
Definition DotGeneralOpDowngradeV2ToV1 : Pattern :=
  pat "dot_general_v1" (map (fun name => (name, holds isNoneType)) algorithm_names) dot_general_arguments.
Definition DotGeneralOpUpradeV1ToV2 : Pattern :=
  pat "dot_general_v2" [] (dot_general_arguments ++ map (fun name => Put name getNoneType) algorithm_names).

Definition channel_arguments : list Argument := [Keep "channel_id"; Keep "channel_type"; Keep "is_host_transfer"].
Definition SendOpDowngradeV2ToV1 : Pattern := pat "send_v1" [("source_target_pairs", holds isEmptyTensor)] channel_arguments.
Definition SendOpUpgradeV1ToV2 : Pattern := pat "send_v2" [] (channel_arguments ++ [Put "source_target_pairs" getEmptyI64Tensor]).
Definition RecvOpDowngradeV2ToV1 : Pattern := pat "recv_v1" [("source_target_pairs", holds isEmptyTensor)] channel_arguments.
Definition RecvOpUpgradeV1ToV2 : Pattern := pat "recv_v2" [] (channel_arguments ++ [Put "source_target_pairs" getEmptyI64Tensor]).

Definition resultAccuracyOps : list string :=
  ["cbrt"; "cosine"; "exponential"; "exponential_minus_one"; "log"; "log_plus_one"; "logistic"; "rsqrt"; "sine"; "sqrt"; "tan";
   "tanh"].
Definition resultAccuracyUpgrade (name : string) : Pattern := pat (name ++ "_v2") [] [Put "result_accuracy" getDefaultResultAccuracy].
Definition resultAccuracyDowngrade (name : string) : Pattern := pat (name ++ "_v1") [("result_accuracy", isDefaultResultAccuracy)] [].

Definition CollectiveBroadcastOpUpgradeV1ToV2 : Pattern := pat "collective_broadcast_v2" []
  [Keep "replica_groups"; Keep "channel_id"; Put "has_dynamic_root" getFalseBoolean].
Definition CollectiveBroadcastOpDowngradeV2ToV1 : Pattern := single
  (pat "collective_broadcast_v1" [("has_dynamic_root", holds isFalseBoolean)] [Keep "replica_groups"; Keep "channel_id"]).

(** The operations with two versions, with the upgrade from the first to the second and
    the downgrade back. *)
Definition pairs : list (string * (Pattern * Pattern)) :=
  [("dynamic_conv", (DynamicConvUpgradeV1ToV2, DynamicConvDowngradeV2ToV1));
   ("gather", (GatherOpUpgradeV1ToV2, GatherOpDowngradeV2ToV1));
   ("dynamic_gather", (DynamicGatherOpUpgradeV1ToV2, DynamicGatherOpDowngradeV2ToV1));
   ("all_gather", (AllGatherOpUpgradeV1ToV2, AllGatherOpDowngradeV2ToV1));
   ("all_to_all", (AllToAllOpUpgradeV1ToV2, AllToAllOpDowngradeV2ToV1));
   ("dot_general", (DotGeneralOpUpradeV1ToV2, DotGeneralOpDowngradeV2ToV1));
   ("send", (SendOpUpgradeV1ToV2, SendOpDowngradeV2ToV1));
   ("recv", (RecvOpUpgradeV1ToV2, RecvOpDowngradeV2ToV1))] ++
  map (fun name => (name, (resultAccuracyUpgrade name, resultAccuracyDowngrade name))) resultAccuracyOps ++
  [("collective_broadcast", (CollectiveBroadcastOpUpgradeV1ToV2, CollectiveBroadcastOpDowngradeV2ToV1));
   ("scatter", (ScatterOpV1ToV2, ScatterOpV2ToV1));
   ("all_reduce", (AllReduceOpV1ToV2, AllReduceOpV2ToV1));
   ("composite", (CompositeOpV1ToV2, CompositeOpV2ToV1));
   ("custom_call", (CustomCallOpV1ToV2, CustomCallOpV2ToV1))].

(** [populateVhloToVersionPatterns], by the operation that a pattern matches. *)
Definition patterns : list (string * Pattern) :=
  flat_map (fun '(name, (up, down)) => [((name ++ "_v1")%string, up); ((name ++ "_v2")%string, down)]) pairs.

(** ** The conversion of an operation

    [applyPartialConversion] replaces an operation that is not legal by a legal one. *)
Context (same_type : VhloType -> VhloType -> bool).

Definition convertOp (target : Version) op : result VhloOp :=
  legal ← isLegalOperation same_type op target;
  if (legal : bool) then Ok op
  else
    p ← ok_or (get_attr patterns (op_name op)) (Failed "failed to legalize");
    new ← p op;
    legal ← isLegalOperation same_type new target;
    if (legal : bool) then Ok new else Err (Failed "failed to legalize").

(** The pass: the target version, and then every operation. *)
Definition runOnOperation (targetVersion : string) (ops : list VhloOp) : result (list VhloOp) :=
  target ← validateTargetVersion targetVersion;
  mapM (convertOp target) ops.
End Patterns.
