(* ===== verification/VhloToVersionFacts.v ===== *)
(** * Upgrades and downgrades of VHLO programs

    A target version selects one version of every operation; what is legal at a version
    can be brought to the current one; an upgrade can be taken back. *)
From S2P Require Import Prelude Types Support ElementFacts Tensor Version Vhlo VhloTypes VhloBytecode VhloBytecodeFacts StablehloAttrs StablehloToVhlo VhloToVersion.

(** ** Versions *)
Lemma version_le_trans a b c : version_le a b = true -> version_le b c = true -> version_le a c = true.
Proof. unfold version_le, version_lt. lia. Qed.

Lemma legal_since versions v w : versions.2 = getCurrentVersion -> isLegalVersion versions v = true ->
  version_le v w = true -> version_le w getCurrentVersion = true -> isLegalVersion versions w = true.
Proof.
  unfold isLegalVersion. intros -> [Hv _]%andb_prop Hw Hc. apply andb_true_intro. split; [|done]. by apply (version_le_trans _ v).
Qed.

Lemma target_version s t : validateTargetVersion s = Ok t ->
  getPatch t = 0 /\ version_le getMinimumVersion t = true /\ version_le t getCurrentVersion = true.
Proof.
  unfold validateTargetVersion. intros (v & _ & H)%bind_inv.
  destruct (version_lt v getMinimumVersion) eqn:Hmin; [done|]. destruct (version_lt getCurrentVersion v) eqn:Hmax; [done|].
  injection H as <-. split; [done|]. destruct v as [a b c]. split; versions.
Qed.

(** ** Legality of types and attributes *)
Section Legality.
Context {L : LLVM}.

(** What is looked at in a type and in an attribute. *)
Definition checked_types (t : VhloType) : list VhloType :=
  match t with FutureV1Type _ | UniformQuantizedPerAxisV1Type _ _ _ _ _ _ _ _ => [] | _ => type_types t end.
Definition checked_attrs (a : VhloAttr) : list VhloAttr :=
  match a with MeshAxisV1Attr _ _ | MeshV1Attr _ _ => [] | _ => attr_attrs a end.

Lemma type_legal t v : isLegalType t v =
  match type_versions t with
  | None => true
  | Some versions => isLegalVersion versions v && forallb (fun a => isLegalAttribute a v) (type_attrs t) &&
      forallb (fun e => isLegalType e v) (checked_types t)
  end.
Proof.
  destruct t; try (match goal with o : option VhloAttr |- _ => destruct o end); cbn; rewrite ?andb_true_r, ?forallb_app; try done; by rewrite ?andb_assoc.
Qed.

Lemma forallb_pairs (p : VhloAttr -> bool) (l : list (VhloAttr * VhloAttr)) :
  forallb p (flat_map (fun '(name, v) => [name; v]) l) = forallb (fun '(name, v) => p name && p v) l.
Proof. induction l as [|[a b] l IH]; [done|]. cbn. by rewrite IH, andb_assoc. Qed.

Lemma attr_legal a v : isLegalAttribute a v =
  match attr_versions a with
  | None => true
  | Some versions => isLegalVersion versions v && forallb (fun t => isLegalType t v) (attr_types a) &&
      forallb (fun b => isLegalAttribute b v) (checked_attrs a)
  end.
Proof.
  destruct a; try (match goal with o : option VhloAttr |- _ => destruct o end); cbn; rewrite ?andb_true_r, ?forallb_pairs; try done.
Qed.

(** A type or an attribute that is legal stays legal in later versions. *)
Lemma legal_later v w : version_le v w = true -> version_le w getCurrentVersion = true -> forall n,
  (forall t, (type_depth t < n)%nat -> isLegalType t v = true -> isLegalType t w = true) /\
  (forall a, (attr_depth a < n)%nat -> isLegalAttribute a v = true -> isLegalAttribute a w = true).
Proof.
  intros Hvw Hw. induction n as [|n [IHt IHa]]; [split; intros; lia|]. split.
  - intros t Hn. rewrite !type_legal. assert (forall vs, type_versions t = Some vs -> vs.2 = getCurrentVersion) as Hc.
    { intros vs. destruct t; intros [= <-]; done. }
    destruct (type_versions t) as [vs|]; [|done]. intros [[Hl Ha]%andb_prop Ht]%andb_prop.
    rewrite (legal_since vs v w) by auto. cbn. rewrite forallb_forall in Ha, Ht. apply andb_true_intro.
    split; apply forallb_forall; intros x Hx.
    + apply IHa; [|by apply Ha]. apply list_elem_of_In in Hx. apply type_attrs_depth in Hx. lia.
    + apply IHt; [|by apply Ht]. apply list_elem_of_In in Hx. assert (x ∈ type_types t) as Hx' by (by destruct t; try (by apply elem_of_nil in Hx)).
      apply type_types_depth in Hx'. lia.
  - intros a Hn. rewrite !attr_legal. assert (forall vs, attr_versions a = Some vs -> vs.2 = getCurrentVersion) as Hc.
    { intros vs. destruct a; intros [= <-]; done. }
    destruct (attr_versions a) as [vs|]; [|done]. intros [[Hl Ht]%andb_prop Ha]%andb_prop.
    rewrite (legal_since vs v w) by auto. cbn. rewrite forallb_forall in Ha, Ht. apply andb_true_intro.
    split; apply forallb_forall; intros x Hx.
    + apply IHt; [|by apply Ht]. apply list_elem_of_In in Hx. apply attr_types_depth in Hx. lia.
    + apply IHa; [|by apply Ha]. apply list_elem_of_In in Hx. assert (x ∈ attr_attrs a) as Hx' by (by destruct a; try (by apply elem_of_nil in Hx)).
      apply attr_attrs_depth in Hx'. lia.
Qed.

Lemma type_later t v w : version_le v w = true -> version_le w getCurrentVersion = true ->
  isLegalType t v = true -> isLegalType t w = true.
Proof. intros Hv Hw. apply (legal_later v w Hv Hw (S (type_depth t))). lia. Qed.
Lemma attr_later a v w : version_le v w = true -> version_le w getCurrentVersion = true ->
  isLegalAttribute a v = true -> isLegalAttribute a w = true.
Proof. intros Hv Hw. apply (legal_later v w Hv Hw (S (attr_depth a))). lia. Qed.
End Legality.

(** ** Operations that their definitions allow

    The attributes that the operations with two versions declare. *)
Definition declared_attributes : list (string * list string) :=
  [("all_gather_v1", ["all_gather_dim"; "replica_groups"; "channel_id"; "use_global_device_ids"]);
   ("all_gather_v2", ["all_gather_dim"; "replica_groups"; "channel_id"; "use_global_device_ids"]);
   ("all_reduce_v1", ["replica_groups"; "channel_id"; "use_global_device_ids"]);
   ("all_reduce_v2", ["replica_groups"; "channel_id"; "use_global_device_ids"]);
   ("all_to_all_v1", ["split_dimension"; "concat_dimension"; "split_count"; "replica_groups"; "channel_id"]);
   ("all_to_all_v2", ["split_dimension"; "concat_dimension"; "split_count"; "replica_groups"; "channel_id"]);
   ("collective_broadcast_v1", ["replica_groups"; "channel_id"]);
   ("collective_broadcast_v2", ["replica_groups"; "channel_id"; "has_dynamic_root"]);
   ("composite_v1", ["name"; "composite_attributes"; "decomposition"; "version"]);
   ("composite_v2", ["name"; "composite_attributes"; "decomposition"; "version"]);
   ("custom_call_v1", ["call_target_name"; "has_side_effect"; "backend_config"; "api_version"; "called_computations";
     "operand_layouts"; "result_layouts"; "output_operand_aliases"]);
   ("custom_call_v2", ["call_target_name"; "has_side_effect"; "backend_config"; "api_version"; "called_computations";
     "operand_layouts"; "result_layouts"; "output_operand_aliases"; "result_tilings"]);
   ("dot_general_v1", ["lhs_batching_dimensions"; "rhs_batching_dimensions"; "lhs_contracting_dimensions";
     "rhs_contracting_dimensions"; "precision_config"]);
   ("dot_general_v2", ["lhs_batching_dimensions"; "rhs_batching_dimensions"; "lhs_contracting_dimensions";
     "rhs_contracting_dimensions"; "precision_config"; "lhs_precision_type"; "rhs_precision_type"; "accumulation_type";
     "lhs_component_count"; "rhs_component_count"; "num_primitive_operations"; "allow_imprecise_accumulation"]);
   ("dynamic_conv_v1", ["window_strides"; "padding"; "lhs_dilation"; "rhs_dilation"; "window_reversal";
     "input_batch_dimension"; "input_feature_dimension"; "input_spatial_dimensions"; "kernel_input_feature_dimension";
     "kernel_output_feature_dimension"; "kernel_spatial_dimensions"; "output_batch_dimension"; "output_feature_dimension";
     "output_spatial_dimensions"; "feature_group_count"; "batch_group_count"; "precision_config"]);
   ("dynamic_conv_v2", ["window_strides"; "lhs_dilation"; "rhs_dilation"; "window_reversal"; "input_batch_dimension";
     "input_feature_dimension"; "input_spatial_dimensions"; "kernel_input_feature_dimension";
     "kernel_output_feature_dimension"; "kernel_spatial_dimensions"; "output_batch_dimension"; "output_feature_dimension";
     "output_spatial_dimensions"; "feature_group_count"; "batch_group_count"; "precision_config"]);
   ("dynamic_gather_v1", ["offset_dims"; "collapsed_slice_dims"; "start_index_map"; "index_vector_dim";
     "indices_are_sorted"]);
   ("dynamic_gather_v2", ["offset_dims"; "collapsed_slice_dims"; "operand_batching_dims"; "start_indices_batching_dims";
     "start_index_map"; "index_vector_dim"; "indices_are_sorted"]);
   ("gather_v1", ["offset_dims"; "collapsed_slice_dims"; "start_index_map"; "index_vector_dim"; "slice_sizes";
     "indices_are_sorted"]);
   ("gather_v2", ["offset_dims"; "collapsed_slice_dims"; "operand_batching_dims"; "start_indices_batching_dims";
     "start_index_map"; "index_vector_dim"; "slice_sizes"; "indices_are_sorted"]);
   ("recv_v1", ["channel_id"; "channel_type"; "is_host_transfer"]);
   ("recv_v2", ["channel_id"; "channel_type"; "is_host_transfer"; "source_target_pairs"]);
   ("scatter_v1", ["update_window_dims"; "inserted_window_dims"; "scatter_dims_to_operand_dims"; "index_vector_dim";
     "indices_are_sorted"; "unique_indices"]);
   ("scatter_v2", ["update_window_dims"; "inserted_window_dims"; "input_batching_dims"; "scatter_indices_batching_dims";
     "scatter_dims_to_operand_dims"; "index_vector_dim"; "indices_are_sorted"; "unique_indices"]);
   ("send_v1", ["channel_id"; "channel_type"; "is_host_transfer"]);
   ("send_v2", ["channel_id"; "channel_type"; "is_host_transfer"; "source_target_pairs"])] ++
  map (fun name => ((name ++ "_v1")%string, [])) resultAccuracyOps ++
  map (fun name => ((name ++ "_v2")%string, ["result_accuracy"])) resultAccuracyOps.

(** A pair of versions, one by one. *)
Ltac for_pairs H :=
  unfold pairs in H; cbn in H; rewrite !elem_of_cons in H;
  repeat (destruct H as [H|H]; [injection H as -> -> -> |]); [..|by apply elem_of_nil in H].

(** The older all-reduce, all-gather, all-to-all and broadcast have one operand and one
    result, the newer ones a result for every operand; the older composite has no regions. *)
Definition single_ops : list string := ["all_reduce_v1"; "all_gather_v1"; "all_to_all_v1"; "collective_broadcast_v1"].
Definition variadic_ops : list string := ["all_reduce_v2"; "all_gather_v2"; "all_to_all_v2"; "collective_broadcast_v2"].

Section Operations.
Context {L : LLVM} {LL : LLVMLaws L} {M : MlirBytecode} {ML : MlirBytecodeLaws M} {Value Region : Type}.
Local Abbreviation VhloOp := (VhloOp Value Region).
Implicit Types op : VhloOp.

Definition well_formed op : bool :=
  match get_attr declared_attributes (op_name op) with
  | Some names => bool_decide (map fst (op_attributes op) = names)
  | None => true
  end &&
  (if existsb (String.eqb (op_name op)) single_ops then
     match operands op, result_types op with [_], [_] => true | _, _ => false end
   else true) &&
  (if existsb (String.eqb (op_name op)) variadic_ops then
     bool_decide (length (operands op) = length (result_types op)) else true) &&
  (if String.eqb (op_name op) "composite_v1" then match regions op with [] => true | _ => false end else true).

Lemma list_of_names (l : list (string * VhloAttr)) n names : map fst l = n :: names ->
  exists a l', l = (n, a) :: l' /\ map fst l' = names.
Proof. destruct l as [|[m a] l]; [done|]. intros [= -> <-]. by exists a, l. Qed.

Lemma empty_is_empty : isEmptyTensor getEmptyI64Tensor = true.
Proof. unfold isEmptyTensor, getEmptyI64Tensor. by rewrite (proj2 (raw_empty (denseI64 [0] [])) eq_refl). Qed.
Lemma default_is_default : isDefaultResultAccuracy getDefaultResultAccuracy = Ok true.
Proof. unfold isDefaultResultAccuracy, getDefaultResultAccuracy. by rewrite isZero_double. Qed.

Lemma well_formed_names op names : well_formed op = true -> get_attr declared_attributes (op_name op) = Some names ->
  map fst (op_attributes op) = names.
Proof. unfold well_formed. intros H E. rewrite E in H. by do 3 apply andb_prop in H as [H _]; apply bool_decide_eq_true in H. Qed.
Lemma well_formed_single op : well_formed op = true -> existsb (String.eqb (op_name op)) single_ops = true ->
  exists o t, operands op = [o] /\ result_types op = [t].
Proof.
  unfold well_formed. intros H E. rewrite E in H. do 2 apply andb_prop in H as [H _]. apply andb_prop in H as [_ H].
  destruct (operands op) as [|o [|]], (result_types op) as [|t [|]]; try done. by exists o, t.
Qed.
Lemma well_formed_variadic op : well_formed op = true -> existsb (String.eqb (op_name op)) variadic_ops = true ->
  length (operands op) = length (result_types op).
Proof.
  unfold well_formed. intros H E. rewrite E in H. apply andb_prop in H as [H _]. apply andb_prop in H as [_ H].
  by apply bool_decide_eq_true in H.
Qed.
Lemma well_formed_composite op : well_formed op = true -> op_name op = "composite_v1" -> regions op = [].
Proof. unfold well_formed. intros H E. rewrite E in H. apply andb_prop in H as [_ H]. by destruct (regions op). Qed.

(** An operation of two versions, taken apart into the attributes that it declares. *)
Ltac name_attributes H :=
  lazymatch type of H with
  | map fst ?l = _ :: _ =>
      let a := fresh "a" in let l' := fresh "l" in
      apply list_of_names in H; destruct H as (a & l' & -> & H); name_attributes H
  | map fst ?l = [] => apply map_eq_nil in H; subst l
  end.

Ltac open_op op Hname Hwf :=
  let Ha := fresh "Ha" in
  destruct op as [? ? ? ? ? ?]; cbn in Hname; subst;
  pose proof (well_formed_names _ _ Hwf eq_refl) as Ha; cbn in Ha; name_attributes Ha;
  try (destruct (well_formed_single _ Hwf eq_refl) as (? & ? & Ho & Ht); cbn in Ho, Ht; subst);
  try (pose proof (well_formed_composite _ Hwf eq_refl) as Hr; cbn in Hr; subst).

Lemma upgraded name up down op : (name, (up, down)) ∈ pairs -> op_name op = (name ++ "_v1")%string -> well_formed op = true ->
  exists new, up op = Ok new /\ op_name new = (name ++ "_v2")%string /\ well_formed new = true /\
    operands new = operands op /\ result_types new = result_types op /\ discardable new = discardable op /\
    Forall (fun p => p ∈ op_attributes op \/ isLegalAttribute p.2 getCurrentVersion = true) (op_attributes new) /\
    (name <> "dynamic_conv" -> down new = Ok op).
Proof.
  intros Hp Hn Hw. for_pairs Hp; open_op op Hn Hw;
    (eexists; split; [cbn -[getEmptyI64Tensor getDefaultResultAccuracy]; reflexivity|]);
    do 5 (split; [reflexivity|]); split.
  all: try (cbn [op_attributes VhloToVersion.op_attributes]; repeat (apply Forall_cons; split;
    [first [left; solve [repeat (apply list_elem_of_here || apply list_elem_of_further)] | right; reflexivity]|]); apply Forall_nil; done).
  1: done.
  all: intros _; repeat (cbn -[getEmptyI64Tensor getDefaultResultAccuracy isEmptyTensor isDefaultResultAccuracy];
            rewrite ?empty_is_empty, ?default_is_default); reflexivity.
Qed.

(** An upgrade can be taken back, but for the padding that a dynamic convolution loses. *)
Theorem upgrade_downgrade name up down op : (name, (up, down)) ∈ pairs -> name <> "dynamic_conv" ->
  op_name op = (name ++ "_v1")%string -> well_formed op = true ->
  exists new, up op = Ok new /\ op_name new = (name ++ "_v2")%string /\ well_formed new = true /\ down new = Ok op.
Proof. intros Hp Hd Hn Hw. destruct (upgraded _ _ _ _ Hp Hn Hw) as (new & ? & ? & ? & _ & _ & _ & _ & ?). exists new. auto. Qed.

(** Attributes that mean the same: equal ones, empty tensors, and the default accuracy. *)
Definition same_default (a b : VhloAttr) : Prop :=
  a = b \/ (isEmptyTensor a = true /\ isEmptyTensor b = true) \/
  (isDefaultResultAccuracy a = Ok true /\ isDefaultResultAccuracy b = Ok true).
#[local] Instance same_default_reflexive : Reflexive same_default.
Proof. by left. Qed.

Definition same_op op new : Prop :=
  op_name new = op_name op /\ operands new = operands op /\ result_types new = result_types op /\
  discardable new = discardable op /\ regions new = regions op /\
  Forall2 (fun p q => p.1 = q.1 /\ same_default p.2 q.2) (op_attributes op) (op_attributes new).

Lemma isEmptyArray_true a : isEmptyArray a = true -> a = getEmptyArray.
Proof. destruct a; try done. by match goal with l : list VhloAttr |- _ => destruct l end. Qed.
Lemma isNoneType_true a : isNoneType a = true -> a = getNoneType.
Proof. destruct a; try done. by match goal with t : VhloType |- _ => destruct t end. Qed.
Lemma isFalseBoolean_true a : isFalseBoolean a = true -> a = getFalseBoolean.
Proof. destruct a; try done. by match goal with b : bool |- _ => destruct b end. Qed.

(** A downgrade, computed down to its tests. *)
Ltac step_down Hd :=
  lazy -[isEmptyTensor isDefaultResultAccuracy isEmptyArray isNoneType isFalseBoolean getDefaultConvPadding] in Hd;
  repeat match type of Hd with context[match ?x with _ => _ end] => destruct x eqn:?; try discriminate Hd end;
  injection Hd as <-;
  repeat match goal with H : (if ?b then _ else _) = Ok _ |- _ => destruct b eqn:?; try discriminate H end;
  try match goal with H : match isDefaultResultAccuracy ?a with _ => _ end = Ok _ |- _ =>
    destruct (isDefaultResultAccuracy a) as [[]|] eqn:?; try discriminate H end.

Ltac one_result Hw :=
  let E := fresh "E" in
  pose proof (well_formed_variadic _ Hw eq_refl) as E; cbn in E;
  repeat match goal with H : match ?l with _ => _ end = Ok _ |- _ => destruct l; try discriminate H; cbn in H end;
  repeat (cbn in E; match type of E with context [length ?l] => is_var l; destruct l; try discriminate E end);
  repeat match goal with H : Ok ?x = Ok ?y |- _ => is_var y; injection H as <- end.

Ltac same_attr :=
  solve [ cbn; apply reflexivity
        | right; left; split; [done|apply empty_is_empty] | right; right; split; [done|apply default_is_default]
        | left; first [by apply isEmptyArray_true|by apply isNoneType_true|by apply isFalseBoolean_true]].

(** A downgraded operation is upgraded to one that means the same. *)
Lemma downgraded name up down op old : (name, (up, down)) ∈ pairs -> op_name op = (name ++ "_v2")%string ->
  well_formed op = true -> down op = Ok old ->
  op_name old = (name ++ "_v1")%string /\ well_formed old = true /\ exists new, up old = Ok new /\ same_op op new.
Proof.
  intros Hp Hn Hw Hd. for_pairs Hp; open_op op Hn Hw.
  all: step_down Hd.
  all: try (one_result Hw).
  all: split; [reflexivity|]; split; [reflexivity|].
  all: eexists; split; [cbn -[getEmptyI64Tensor getDefaultResultAccuracy]; reflexivity|].
  all: do 5 (split; [reflexivity|]); cbn [op_attributes]; repeat (apply Forall2_cons; split; [split; [reflexivity|]|]);
    try (by apply Forall2_nil).
  all: same_attr.
Qed.

(** The downgrade of a convolution whose left operand has rank two at least. *)
Lemma conv_downgraded op x shape e enc rest : op_name op = "dynamic_conv_v2" -> well_formed op = true ->
  operands op = (x, RankedTensorV1Type shape e enc) :: rest -> (2 <= length shape)%nat ->
  exists old padding, DynamicConvDowngradeV2ToV1 op = Ok old /\ op_name old = "dynamic_conv_v1" /\
    operands old = operands op /\ result_types old = result_types op /\ discardable old = discardable op /\
    padding = getDefaultConvPadding (RankedTensorV1Type shape e enc) /\
    Forall (fun p => p ∈ op_attributes op \/ Ok p.2 = padding) (op_attributes old).
Proof.
  intros Hn Hw Ho Hs. open_op op Hn Hw. cbn in Ho. subst.
  assert (exists a, getDefaultConvPadding (RankedTensorV1Type shape e enc) = Ok a) as [a' Ha'].
  { unfold getDefaultConvPadding. replace (Z.of_nat (length shape) - 2 <? 0) with false by lia. by eexists. }
  rewrite Ha'. eexists _, _. split.
  { unfold DynamicConvDowngradeV2ToV1. cbn -[getDefaultConvPadding]. rewrite Ha'. cbn. reflexivity. }
  do 5 (split; [reflexivity|]). cbn [op_attributes VhloToVersion.op_attributes].
  repeat (apply Forall_cons; split;
    [first [left; solve [repeat (apply list_elem_of_here || apply list_elem_of_further)] | right; reflexivity]|]).
  by apply Forall_nil.
Qed.
End Operations.
