(* ===== verification/VhloToVersionLegal.v ===== *)
(** * Legal VHLO programs

    A target version selects one version of every operation, and what is legal at some
    version can be brought to the current one. *)
From S2P Require Import Prelude Types Support ElementFacts Tensor Version Vhlo VhloTypes VhloBytecode VhloBytecodeFacts StablehloAttrs StablehloToVhlo VhloToVersion VhloToVersionFacts OpsFacts.

Section Operations.
Context {L : LLVM} {LL : LLVMLaws L} {M : MlirBytecode} {ML : MlirBytecodeLaws M} {Value Region : Type}.
Local Abbreviation VhloOp := (VhloOp Value Region).
Implicit Types op : VhloOp.

(** ** The versions of operations *)
(** C22: at a target version that the pass accepts, exactly one of the two versions of an
    operation is legal once the operation exists, and none before: dropping the patch of
    the target leaves no gap between the versions. *)
Theorem target_selects_version s t name (p : Pattern (Value := Value) (Region := Region) * Pattern) :
  validateTargetVersion s = Ok t -> (name, p) ∈ pairs ->
  exists v1 v2, versions_of (name ++ "_v1") = Some v1 /\ versions_of (name ++ "_v2") = Some v2 /\
    isLegalVersion v1 t || isLegalVersion v2 t = version_le v1.1 t /\ isLegalVersion v1 t && isLegalVersion v2 t = false.
Proof.
  intros Ht Hp. destruct p as [up down]. apply target_version in Ht as (H0 & Hmin & Hmax). destruct t as [a b c].
  cbn in H0. subst c. for_pairs Hp; (do 2 eexists; split; [reflexivity|]; split; [reflexivity|]);
    unfold isLegalVersion; cbn [fst snd]; versions.
Qed.

Lemma older_is_paired n vs : versions_of n = Some vs -> vs.2 = getCurrentVersion \/
  exists name up down, (name, (up, down)) ∈ pairs (Value := Value) (Region := Region) /\ n = (name ++ "_v1")%string.
Proof.
  unfold versions_of, get_attr. destruct (find _ op_versions) as [[m vs']|] eqn:E; [|done]. intros [= <-].
  apply find_some in E as [Hin Hm]. cbn in Hm. apply String.eqb_eq in Hm. subst m.
  assert (forallb (fun '(n, vs) => (version_le getCurrentVersion vs.2 && version_le vs.2 getCurrentVersion && (getPatch vs.2 =? 0)) ||
    existsb (fun '(name, _) => String.eqb n (name ++ "_v1")) (pairs (Value := Value) (Region := Region))) op_versions = true) as Ht
    by (vm_compute; reflexivity).
  rewrite forallb_forall in Ht. specialize (Ht _ Hin). cbn beta iota in Ht. apply orb_prop in Ht as [Ht|Ht].
  - left. destruct vs' as [v1 [a b c]]. cbn [snd] in *. unfold getCurrentVersion. f_equal; versions.
  - right. apply existsb_exists in Ht as ([name [up down]] & Hp & He). apply String.eqb_eq in He.
    exists name, up, down. split; [by apply list_elem_of_In|done].
Qed.

Section Legal.
Context (same_type : VhloType -> VhloType -> bool).
Local Abbreviation legal := (isLegalOperation same_type).

(** A constraint that ends with a version. *)
Lemma until_later (b c : bool) (r : result bool) : (b = true -> c = true) ->
  (if b then Ok true else r) = Ok true -> (if c then Ok true else r) = Ok true.
Proof. intros Hbc. destruct b; [by rewrite Hbc|]. intros ->. by destruct c. Qed.

Lemma constraint_later op v w : version_le v w = true -> validateConstraint same_type op v = Ok true ->
  validateConstraint same_type op w = Ok true.
Proof.
  intros Hv.
  assert (forall x, negb (version_lt v x) = true -> negb (version_lt w x) = true) as Hlt
    by (intros x Hx; apply (version_le_trans _ v w Hx Hv)).
  assert (forall r, (b ← verifyConstraint_1_17_0 op v; if (b : bool) then r else Ok false) = Ok true ->
    r = Ok true /\ verifyConstraint_1_17_0 op w = Ok true) as H17.
  { unfold verifyConstraint_1_17_0. intros r. cbn [mbind result_bind]. destruct (negb (version_lt v _)) eqn:E.
    - rewrite (Hlt _ E). by cbn.
    - destruct (forallb _ _) eqn:F; cbn; [|done]. by rewrite orb_true_r. }
  unfold validateConstraint. repeat case_match; try done.
  - unfold verifyConstraint_0_17_0. intros (b & -> & Hb)%bind_inv. cbn. injection Hb as Hb. f_equal.
    apply orb_true_iff in Hb as [->|Hb]; [done|]. by rewrite (Hlt _ Hb), orb_true_r.
  - apply until_later, Hlt.
  - apply until_later, Hlt.
  - intros [Hr ->]%H17. cbn. by eapply until_later, Hr; apply Hlt.
Qed.

(** The new version of an operation has no constraint at the current version. *)
Lemma constraint_current name p op : (name, p) ∈ pairs (Value := Value) (Region := Region) -> op_name op = (name ++ "_v2")%string ->
  validateConstraint same_type op getCurrentVersion = Ok true.
Proof. destruct p as [up down]. intros Hp Hn. unfold validateConstraint. rewrite Hn. clear Hn. for_pairs Hp; reflexivity. Qed.

Lemma legal_inv op v versions : versions_of (op_name op) = Some versions ->
  legal op v = Ok true <->
  isLegalVersion versions v = true /\ validateConstraint same_type op v = Ok true /\
  Forall (fun a => isLegalAttribute a.2 v = true) (op_attributes op ++ discardable op) /\
  Forall (fun o => isLegalType o.2 v = true) (operands op) /\ Forall (fun t => isLegalType t v = true) (result_types op).
Proof.
  intros E. unfold isLegalOperation. rewrite E. destruct (isLegalVersion versions v); [|by split; [done|intros (?&_)]].
  rewrite !Forall_forall. setoid_rewrite list_elem_of_In. rewrite <- !forallb_forall. cbn [negb]. split.
  - intros (c & -> & [= Hc])%bind_inv. apply andb_prop in Hc as [[[-> Ha]%andb_prop Ho]%andb_prop Ht]. done.
  - intros (_ & -> & -> & -> & ->). done.
Qed.

Lemma legal_known op v : versions_of (op_name op) = None -> legal op v = Ok true.
Proof. intros E. unfold isLegalOperation. by rewrite E. Qed.

(** An upgrade of a legal operation is legal at the current version. *)
Lemma upgrade_legal name up down op v : (name, (up, down)) ∈ pairs -> op_name op = (name ++ "_v1")%string ->
  well_formed op = true -> version_le v getCurrentVersion = true -> legal op v = Ok true ->
  exists new, convertOp same_type getCurrentVersion op = Ok new /\ up op = Ok new /\ legal new getCurrentVersion = Ok true.
Proof.
  intros Hp Hn Hw Hv Hl. destruct (upgraded _ _ _ _ Hp Hn Hw) as (new & Hup & Hnew & _ & Ho & Ht & Hd & Ha & _).
  assert (legal op getCurrentVersion = Ok false /\ get_attr patterns (op_name op) = Some up /\
    exists vs1 vs2, versions_of (op_name op) = Some vs1 /\ versions_of (op_name new) = Some vs2 /\
      isLegalVersion vs2 getCurrentVersion = true) as (Hill & Hpat & vs1 & vs2 & E1 & E2 & H2).
  { unfold isLegalOperation. rewrite Hn, Hnew. clear Hn Hnew Hup. clear -Hp. for_pairs Hp; split_and!; try reflexivity; do 2 eexists; done. }
  apply (legal_inv _ _ _ E1) in Hl as (_ & _ & Hla & Hlo & Hlt).
  assert (legal new getCurrentVersion = Ok true) as Hlegal.
  { apply (legal_inv _ _ _ E2). split; [done|]. split; [by eapply constraint_current|]. rewrite Ho, Ht, Hd.
    rewrite Forall_app in Hla |- *. destruct Hla as [Hla Hld]. split_and!.
    - eapply Forall_impl; [exact Ha|]. cbn. intros q [Hq|Hq]; [|done]. apply (attr_later _ v); auto.
      by apply (proj1 (Forall_forall _ _) Hla).
    - eapply Forall_impl; [exact Hld|]. intros q Hq. by apply (attr_later _ v).
    - eapply Forall_impl; [exact Hlo|]. intros q Hq. by apply (type_later _ v).
    - eapply Forall_impl; [exact Hlt|]. intros q Hq. by apply (type_later _ v). }
  exists new. split; [|done]. unfold convertOp. rewrite Hill. cbn [mbind result_bind]. rewrite Hpat. cbn [mbind result_bind ok_or].
  rewrite Hup. cbn [mbind result_bind]. by rewrite Hlegal.
Qed.

Lemma current_legal op v : versions_of (op_name op) = None \/ (exists vs, versions_of (op_name op) = Some vs /\ vs.2 = getCurrentVersion) ->
  version_le v getCurrentVersion = true -> legal op v = Ok true -> legal op getCurrentVersion = Ok true.
Proof.
  intros [E|(vs & E & Hc)] Hv; [intros _; by apply legal_known|]. rewrite !(legal_inv _ _ _ E).
  intros (Hl & Hk & Ha & Ho & Ht). split; [by apply (legal_since vs v)|]. split; [by apply (constraint_later _ v)|].
  split_and!; (eapply Forall_impl; [eassumption|]); intros q Hq; by (apply (attr_later _ v) || apply (type_later _ v)).
Qed.

Lemma mapM_forall2 {A B} (f : A -> result B) (R : A -> B -> Prop) l :
  Forall (fun x => exists y, f x = Ok y /\ R x y) l -> exists k, mapM f l = Ok k /\ Forall2 R l k.
Proof.
  induction 1 as [|x l (y & Hf & HR) _ (k & Hk & HRs)]; [by exists []|]. exists (y :: k). cbn [mapM].
  rewrite Hf. cbn [mbind result_bind]. by rewrite Hk; auto.
Qed.

Lemma pattern_of_pair n p : get_attr (patterns (Value := Value) (Region := Region)) n = Some p ->
  exists name up down, (name, (up, down)) ∈ pairs /\ ((n = (name ++ "_v1")%string /\ p = up) \/ (n = (name ++ "_v2")%string /\ p = down)).
Proof.
  unfold get_attr. destruct (find _ patterns) as [[m q]|] eqn:E; [|done]. intros [= <-].
  apply find_some in E as [Hin Hm]. cbn in Hm. apply String.eqb_eq in Hm. subst m.
  unfold patterns in Hin. apply in_flat_map in Hin as ([name [up down]] & Hp & Hin). exists name, up, down.
  split; [by apply list_elem_of_In|]. destruct Hin as [[= <- <-]|[[= <- <-]|[]]]; auto.
Qed.

(** The first version of an operation is gone at the current version. *)
Lemma older_illegal name p op : (name, p) ∈ pairs (Value := Value) (Region := Region) -> op_name op = (name ++ "_v1")%string ->
  legal op getCurrentVersion = Ok false.
Proof. destruct p as [up down]. intros Hp Hn. unfold isLegalOperation. rewrite Hn. clear Hn. for_pairs Hp; reflexivity. Qed.

Lemma same_op_refl op : same_op op op.
Proof. unfold same_op. split_and!; try done. induction (op_attributes op); constructor; [split; [done|by left]|done]. Qed.

(** What is converted to an older version is converted back. *)
Lemma convert_back t op old : version_le t getCurrentVersion = true -> legal op getCurrentVersion = Ok true ->
  well_formed op = true -> convertOp same_type t op = Ok old ->
  exists new, convertOp same_type getCurrentVersion old = Ok new /\ same_op op new.
Proof.
  intros Ht Hl Hw (legal_t & _ & H)%bind_inv. destruct legal_t.
  - injection H as <-. exists op. unfold convertOp. rewrite Hl. split; [done|apply same_op_refl].
  - apply bind_inv in H as (p & Hp & H). apply bind_inv in H as (old' & Hold & H). apply bind_inv in H as (b & Hleg & H).
    destruct b; [|done]. injection H as ->. destruct (get_attr patterns (op_name op)) as [q|] eqn:Hq; [|done]. injection Hp as ->.
    apply pattern_of_pair in Hq as (name & up & down & Hpair & [[Hn ->]|[Hn ->]]).
    + by rewrite (older_illegal _ _ _ Hpair Hn) in Hl.
    + destruct (downgraded _ _ _ _ _ Hpair Hn Hw Hold) as (Hn' & Hw' & new & Hup & Hsame).
      destruct (upgrade_legal _ _ _ _ _ Hpair Hn' Hw' Ht Hleg) as (new' & Hnew & Hup' & _).
      rewrite Hup in Hup'. injection Hup' as <-. by exists new.
Qed.

(** C21: a program that is legal at some version, whose operations declare the attributes
    of their definition, is converted to the current version: every operation is legal
    there, and is the same or the upgrade of the first version of its pair. *)
Theorem backward_compatible v (ops : list VhloOp) : version_le v getCurrentVersion = true ->
  Forall (fun op => legal op v = Ok true /\ well_formed op = true) ops ->
  exists news, runOnOperation same_type "1.21.0" ops = Ok news /\
    Forall2 (fun op new => legal new getCurrentVersion = Ok true /\
      (new = op \/ exists name up down, (name, (up, down)) ∈ pairs /\ op_name op = (name ++ "_v1")%string /\ up op = Ok new)) ops news.
Proof.
  intros Hv H. unfold runOnOperation. replace (validateTargetVersion "1.21.0") with (Ok getCurrentVersion) by (vm_compute; reflexivity).
  cbn [mbind result_bind]. apply mapM_forall2. eapply Forall_impl; [exact H|]. clear H. intros op [Hl Hw].
  destruct (versions_of (op_name op)) as [vs|] eqn:E;
    [destruct (older_is_paired _ _ E) as [Hc|(name & up & down & Hp & Hn)]|].
  2: { destruct (upgrade_legal _ _ _ _ _ Hp Hn Hw Hv Hl) as (new & Hnew & Hup & Hnl). exists new. split_and!; eauto 10. }
  all: exists op; assert (legal op getCurrentVersion = Ok true) as Hcur by (eapply current_legal; eauto);
    unfold convertOp; rewrite Hcur; auto.
Qed.

Lemma program_back s (ops olds : list VhloOp) :
  Forall (fun op => legal op getCurrentVersion = Ok true /\ well_formed op = true) ops ->
  runOnOperation same_type s ops = Ok olds ->
  exists news, runOnOperation same_type "1.21.0" olds = Ok news /\ Forall2 same_op ops news.
Proof.
  intros H (t & Ht & Hrun)%bind_inv. apply target_version in Ht as (_ & _ & Ht). apply mapM_inv in Hrun.
  unfold runOnOperation. replace (validateTargetVersion "1.21.0") with (Ok getCurrentVersion) by (vm_compute; reflexivity).
  cbn [mbind result_bind]. revert H. induction Hrun as [|op old ops olds Hop _ IH]; intros H; [by exists []|].
  apply Forall_cons in H as [[Hl Hw] H]. destruct (IH H) as (news & Hn & Hs).
  destruct (convert_back _ _ _ Ht Hl Hw Hop) as (new & Hnew & Hsame). exists (new :: news). cbn [mapM].
  rewrite Hnew. cbn [mbind result_bind]. rewrite Hn. auto.
Qed.

(** C20: what the conversion to an older version accepts is converted back to the current
    version without a loss: every operation keeps its operands, types, regions and
    discardable attributes, and its attributes up to empty tensors and default accuracies. *)
Theorem program_round_trip s (ops olds : list VhloOp) :
  Forall (fun op => legal op getCurrentVersion = Ok true /\ well_formed op = true) ops ->
  runOnOperation same_type s ops = Ok olds ->
  exists news, runOnOperation same_type "1.21.0" olds = Ok news /\ Forall2 same_op ops news.
Proof. apply program_back. Qed.

(** ** What is not checked *)
(** C23: the constraint of dynamic_conv_v2 keeps convolutions of two different 8-bit floats
    out of the versions before 1.20.0, but at 0.19.0 such an operation is accepted: it
    becomes a dynamic_conv_v1, which has no constraint. *)
Theorem legality_gaps op x y a b shape shape' enc enc' rest :
  op_name op = "dynamic_conv_v2" -> well_formed op = true ->
  operands op = (x, RankedTensorV1Type shape a enc) :: (y, RankedTensorV1Type shape' b enc') :: rest ->
  isVhloFp8Type a = true -> isVhloFp8Type b = true -> same_type a b = false -> (2 <= length shape)%nat ->
  Forall (fun a => isLegalAttribute a.2 (MkVersion 0 19 0) = true) (op_attributes op ++ discardable op) ->
  Forall (fun o => isLegalType o.2 (MkVersion 0 19 0) = true) (operands op) ->
  Forall (fun t => isLegalType t (MkVersion 0 19 0) = true) (result_types op) ->
  legal op (MkVersion 1 19 0) = Ok false /\ legal op getCurrentVersion = Ok true /\
  exists old, convertOp same_type (MkVersion 0 19 0) op = Ok old.
Proof.
  intros Hn Hw Ho Ha Hb Hab Hs Hla Hlo Hlt. split_and!.
  - unfold isLegalOperation. rewrite Hn. cbn. unfold validateConstraint. rewrite Hn. cbn. unfold verifyConstraint_1_20_0.
    rewrite Ho. cbn. by rewrite Ha, Hb, Hab.
  - apply (legal_inv _ _ (MkVersion 0 20 0, getCurrentVersion)); [by rewrite Hn|]. split; [done|]. split.
    { unfold validateConstraint. by rewrite Hn. }
    split_and!; (eapply Forall_impl; [eassumption|]); intros q Hq;
      by (apply (attr_later _ (MkVersion 0 19 0)) || apply (type_later _ (MkVersion 0 19 0))).
  - destruct (conv_downgraded _ _ _ _ _ _ Hn Hw Ho Hs) as (old & padding & Hd & Hn' & Ho' & Ht' & Hdisc & -> & Hattrs).
    exists old. unfold convertOp.
    assert (get_attr (patterns (Value := Value) (Region := Region)) "dynamic_conv_v2" = Some DynamicConvDowngradeV2ToV1) as E by reflexivity. assert (legal op (MkVersion 0 19 0) = Ok false) as -> by (unfold isLegalOperation; by rewrite Hn).
    assert (legal old (MkVersion 0 19 0) = Ok true) as Hl; [|
      cbn [mbind result_bind]; rewrite Hn, E; cbn [mbind result_bind ok_or]; rewrite Hd; cbn [mbind result_bind]; by rewrite Hl].
    apply (legal_inv _ _ (MkVersion 0 9 0, MkVersion 0 19 0)); [by rewrite Hn'|]. split; [done|]. split.
    { unfold validateConstraint. by rewrite Hn'. }
    rewrite Ho', Ht', Hdisc. split_and!; [|done|done]. rewrite Forall_app in Hla |- *. destruct Hla as [Hla Hld].
    split; [|done]. eapply Forall_impl; [exact Hattrs|]. cbn. intros q [Hq|Hq].
    + by apply (proj1 (Forall_forall _ _) Hla).
    + unfold getDefaultConvPadding in Hq. case_match; [done|]. by injection Hq as ->.
Qed.

(** The storage type of a type quantized per axis is not looked at. *)
Lemma per_axis_not_checked flags storage expressed dim scales zps smin smax t :
  isLegalType (UniformQuantizedPerAxisV1Type flags storage expressed dim scales zps smin smax) t =
  isLegalVersion (since 0 18) t.
Proof. cbn. by rewrite andb_true_r. Qed.
End Legal.
End Operations.
