(* ===== verification/StablehloBytecode.v ===== *)
(** * The bytecode of StableHLO

    [src/stablehlo/dialect/StablehloBytecode.cpp]: how the attributes, types and the
    version of the dialect are written to and read from MLIR bytecode. *)
From S2P Require Import Prelude Types Support Tensor Ops Linear Folder Version Vhlo VhloBytecode StablehloAttrs.

#[export] Instance ComparisonDirection_laws : EnumLaws ComparisonDirection. Proof. enum_laws. Qed.
#[export] Instance ComparisonType_laws : EnumLaws ComparisonType. Proof. enum_laws. Qed.
#[export] Instance FftType_laws : EnumLaws FftType. Proof. enum_laws. Qed.
#[export] Instance Transpose_laws : EnumLaws Transpose. Proof. enum_laws. Qed.
#[export] Instance Precision_laws : EnumLaws Precision. Proof. enum_laws. Qed.
#[export] Instance RngAlgorithm_laws : EnumLaws RngAlgorithm. Proof. enum_laws. Qed.
#[export] Instance RngDistribution_laws : EnumLaws RngDistribution. Proof. enum_laws. Qed.
#[export] Instance ResultAccuracyMode_laws : EnumLaws ResultAccuracyMode. Proof. enum_laws. Qed.

(** ** Codes *)
Inductive AttributeCode :=
| kChannelHandleAttr | kComparisonDirectionAttr | kComparisonTypeAttr | kConvDimensionNumbersAttr | kDotDimensionNumbers
| kFftTypeAttr | kGatherDimensionNumbers | kPrecisionAttr | kRngAlgorithmAttr | kRngDistributionAttr
| kScatterDimensionNumbersAttr | kTransposeAttr | kTypeExtensionsAttr | kOutputOperandAlias | kDotAlgorithmAttr
| kResultAccuracyModeAttr | kResultAccuracyAttr | kReplicaGroupMeshAxesAttr | kSubAxisInfoAttr | kAxisRefAttr
| kMeshAxisAttr | kMeshAttr.

Definition attribute_codes : list (AttributeCode * Z) :=
  [(kChannelHandleAttr, 1); (kComparisonDirectionAttr, 2); (kComparisonTypeAttr, 3); (kConvDimensionNumbersAttr, 4);
   (kDotDimensionNumbers, 5); (kFftTypeAttr, 6); (kGatherDimensionNumbers, 7); (kPrecisionAttr, 8); (kRngAlgorithmAttr, 9);
   (kRngDistributionAttr, 10); (kScatterDimensionNumbersAttr, 11); (kTransposeAttr, 12); (kTypeExtensionsAttr, 13);
   (kOutputOperandAlias, 14); (kDotAlgorithmAttr, 15); (kResultAccuracyModeAttr, 16); (kResultAccuracyAttr, 17);
   (kReplicaGroupMeshAxesAttr, 18); (kSubAxisInfoAttr, 19); (kAxisRefAttr, 20); (kMeshAxisAttr, 21); (kMeshAttr, 22)].

#[export] Instance StablehloAttributeCode_eq_dec : EqDecision AttributeCode.
Proof. solve_decision. Defined.
Definition attribute_code : AttributeCode -> Z := code_value attribute_codes.

Definition kTokenType : Z := 0.
Definition kFutureType : Z := 1.

Section Bytecode.
Context {L : LLVM} {M : MlirBytecode}.

(** [writer.writeAttribute], [writer.writeType] and their readers, for what is nested. *)
Context (writeAttr : Attribute -> list Z) (writeTy : Ty -> list Z).
Context (readAttr : Reader Attribute) (readTy : Reader Ty).

Definition write_code (c : AttributeCode) : list Z := writeVarInt (attribute_code c).

(** ** Attributes *)
Definition write_ChannelHandleAttr (handle type : Z) : list Z :=
  write_code kChannelHandleAttr ++ writeSignedVarInt handle ++ writeSignedVarInt type.
Definition readChannelHandleAttr : Reader Attribute :=
  handle ← readSignedVarInt; type ← readSignedVarInt; mret (ChannelHandleAttr handle type).

Definition write_ComparisonDirectionAttr (value : ComparisonDirection) : list Z :=
  write_code kComparisonDirectionAttr ++ writeEnumAttribute value.
Definition readComparisonDirectionAttr : Reader Attribute := readEnumAttribute ComparisonDirectionAttr.

Definition write_ComparisonTypeAttr (value : ComparisonType) : list Z :=
  write_code kComparisonTypeAttr ++ writeEnumAttribute value.
Definition readComparisonTypeAttr : Reader Attribute := readEnumAttribute ComparisonTypeAttr.

Definition write_ConvDimensionNumbersAttr (value : ConvDimensions) : list Z :=
  write_code kConvDimensionNumbersAttr ++ writeSignedVarInt (inputBatchDimension value) ++
  writeSignedVarInt (inputFeatureDimension value) ++ writeSignedVarInts (inputSpatialDimensions value) ++
  writeSignedVarInt (kernelInputFeatureDimension value) ++ writeSignedVarInt (kernelOutputFeatureDimension value) ++
  writeSignedVarInts (kernelSpatialDimensions value) ++ writeSignedVarInt (outputBatchDimension value) ++
  writeSignedVarInt (outputFeatureDimension value) ++ writeSignedVarInts (outputSpatialDimensions value).
Definition readConvDimensionNumbersAttr : Reader Attribute :=
  inputBatchDimension ← readSignedVarInt;
  inputFeatureDimension ← readSignedVarInt;
  inputSpatialDimensions ← readSignedVarInts;
  kernelInputFeatureDimension ← readSignedVarInt;
  kernelOutputFeatureDimension ← readSignedVarInt;
  kernelSpatialDimensions ← readSignedVarInts;
  outputBatchDimension ← readSignedVarInt;
  outputFeatureDimension ← readSignedVarInt;
  outputSpatialDimensions ← readSignedVarInts;
  mret (ConvDimensionNumbersAttr (MkConvDimensions inputBatchDimension inputFeatureDimension inputSpatialDimensions
    kernelInputFeatureDimension kernelOutputFeatureDimension kernelSpatialDimensions outputBatchDimension
    outputFeatureDimension outputSpatialDimensions)).

Definition write_DotAlgorithmAttr (value : DotAlgorithm) : list Z :=
  write_code kDotAlgorithmAttr ++ writeTy (lhsPrecisionType value) ++ writeTy (rhsPrecisionType value) ++
  writeTy (accumulationType value) ++ writeSignedVarInt (lhsComponentCount value) ++
  writeSignedVarInt (rhsComponentCount value) ++ writeSignedVarInt (numPrimitiveOperations value) ++
  writeOwnedBool (allowImpreciseAccumulation value).
Definition readDotAlgorithmAttr : Reader Attribute :=
  lhsPrecisionType ← readTy;
  rhsPrecisionType ← readTy;
  accumulationType ← readTy;
  lhsComponentCount ← readSignedVarInt;
  rhsComponentCount ← readSignedVarInt;
  numPrimitiveOperations ← readSignedVarInt;
  allowImpreciseAccumulation ← readBool;
  mret (DotAlgorithmAttr (MkDotAlgorithm lhsPrecisionType rhsPrecisionType accumulationType lhsComponentCount
    rhsComponentCount numPrimitiveOperations allowImpreciseAccumulation)).

Definition write_DotDimensionNumbersAttr (value : DotDimensions) : list Z :=
  write_code kDotDimensionNumbers ++ writeSignedVarInts (lhsBatchingDimensions value) ++
  writeSignedVarInts (rhsBatchingDimensions value) ++ writeSignedVarInts (lhsContractingDimensions value) ++
  writeSignedVarInts (rhsContractingDimensions value).
Definition readDotDimensionNumbersAttr : Reader Attribute :=
  lhsBatchingDimensions ← readSignedVarInts;
  rhsBatchingDimensions ← readSignedVarInts;
  lhsContractingDimensions ← readSignedVarInts;
  rhsContractingDimensions ← readSignedVarInts;
  mret (DotDimensionNumbersAttr (MkDotDimensions lhsBatchingDimensions rhsBatchingDimensions lhsContractingDimensions
    rhsContractingDimensions)).

Definition write_FftTypeAttr (value : FftType) : list Z := write_code kFftTypeAttr ++ writeEnumAttribute value.
Definition readFftTypeAttr : Reader Attribute := readEnumAttribute FftTypeAttr.

Definition write_GatherDimensionNumbersAttr (value : GatherDimensions) : list Z :=
  write_code kGatherDimensionNumbers ++ writeSignedVarInts (offsetDims value) ++
  writeSignedVarInts (collapsedSliceDims value) ++ writeSignedVarInts (operandBatchingDims value) ++
  writeSignedVarInts (startIndicesBatchingDims value) ++ writeSignedVarInts (startIndexMap value) ++
  writeSignedVarInt (indexVectorDim value).
Definition readGatherDimensionNumbersAttr : Reader Attribute :=
  offsetDims ← readSignedVarInts;
  collapsedSliceDims ← readSignedVarInts;
  operandBatchingDims ← readSignedVarInts;
  startIndicesBatchingDims ← readSignedVarInts;
  startIndexMap ← readSignedVarInts;
  indexVectorDim ← readSignedVarInt;
  mret (GatherDimensionNumbersAttr (MkGatherDimensions offsetDims collapsedSliceDims operandBatchingDims
    startIndicesBatchingDims startIndexMap indexVectorDim)).

Definition write_OutputOperandAliasAttr (outputTupleIndices : list Z) (operandIndex : Z) (operandTupleIndices : list Z) : list Z :=
  write_code kOutputOperandAlias ++ writeSignedVarInts outputTupleIndices ++ writeSignedVarInt operandIndex ++
  writeSignedVarInts operandTupleIndices.
Definition readOutputOperandAliasAttr : Reader Attribute :=
  outputTupleIndices ← readSignedVarInts;
  operandIndex ← readSignedVarInt;
  operandTupleIndices ← readSignedVarInts;
  mret (OutputOperandAliasAttr outputTupleIndices operandIndex operandTupleIndices).

Definition write_PrecisionAttr (value : Precision) : list Z := write_code kPrecisionAttr ++ writeEnumAttribute value.
Definition readPrecisionAttr : Reader Attribute := readEnumAttribute PrecisionAttr.

Definition write_RngAlgorithmAttr (value : RngAlgorithm) : list Z := write_code kRngAlgorithmAttr ++ writeEnumAttribute value.
Definition readRngAlgorithmAttr : Reader Attribute := readEnumAttribute RngAlgorithmAttr.

Definition write_RngDistributionAttr (value : RngDistribution) : list Z :=
  write_code kRngDistributionAttr ++ writeEnumAttribute value.
Definition readRngDistributionAttr : Reader Attribute := readEnumAttribute RngDistributionAttr.

Definition write_ScatterDimensionNumbersAttr (value : ScatterDimensions) : list Z :=
  write_code kScatterDimensionNumbersAttr ++ writeSignedVarInts (updateWindowDims value) ++
  writeSignedVarInts (insertedWindowDims value) ++ writeSignedVarInts (inputBatchingDims value) ++
  writeSignedVarInts (scatterIndicesBatchingDims value) ++ writeSignedVarInts (scatterDimsToOperandDims value) ++
  writeSignedVarInt (scatterIndexVectorDim value).
Definition readScatterDimensionNumbersAttr : Reader Attribute :=
  updateWindowDims ← readSignedVarInts;
  insertedWindowDims ← readSignedVarInts;
  inputBatchingDims ← readSignedVarInts;
  scatterIndicesBatchingDims ← readSignedVarInts;
  scatterDimsToOperandDims ← readSignedVarInts;
  indexVectorDim ← readSignedVarInt;
  mret (ScatterDimensionNumbersAttr (MkScatterDimensions updateWindowDims insertedWindowDims inputBatchingDims
    scatterIndicesBatchingDims scatterDimsToOperandDims indexVectorDim)).

Definition write_TransposeAttr (value : Transpose) : list Z := write_code kTransposeAttr ++ writeEnumAttribute value.
Definition readTransposeAttr : Reader Attribute := readEnumAttribute TransposeAttr.

Definition write_TypeExtensionsAttr (bounds : list Z) : list Z := write_code kTypeExtensionsAttr ++ writeSignedVarInts bounds.
Definition readTypeExtensionsAttr : Reader Attribute := bounds ← readSignedVarInts; mret (TypeExtensionsAttr bounds).

Definition write_SubAxisInfoAttr (preSize size : Z) : list Z :=
  write_code kSubAxisInfoAttr ++ writeSignedVarInt preSize ++ writeSignedVarInt size.
Definition readSubAxisInfoAttr : Reader Attribute :=
  preSize ← readSignedVarInt; size ← readSignedVarInt; mret (SubAxisInfoAttr preSize size).

Definition write_AxisRefAttr (name : string) (subAxisInfo : option (Z * Z)) : list Z :=
  write_code kAxisRefAttr ++ writeOwnedString name ++
  match subAxisInfo with
  | Some (preSize, size) => writeOwnedBool true ++ writeAttr (SubAxisInfoAttr preSize size)
  | None => writeOwnedBool false
  end.
Definition readAxisRefAttr : Reader Attribute :=
  name ← readString;
  hasSubAxisInfo ← readBool;
  if (hasSubAxisInfo : bool) then
    attr ← readAttr;
    match attr with SubAxisInfoAttr preSize size => mret (AxisRefAttr name (Some (preSize, size))) | _ => fails "not a sub-axis" end
  else mret (AxisRefAttr name None).

Definition write_ReplicaGroupMeshAxesAttr (mesh : Attribute) (axes : list Attribute) : list Z :=
  write_code kReplicaGroupMeshAxesAttr ++ writeAttr mesh ++ writeVarInt (Z.of_nat (length axes)) ++ concat (map writeAttr axes).
Fixpoint readEach (n : nat) : Reader (list Attribute) :=
  match n with O => mret [] | S n => axis ← readAttr; axes ← readEach n; mret (axis :: axes) end.
Definition readReplicaGroupMeshAxesAttr : Reader Attribute :=
  mesh ← readAttr;
  axesSize ← readVarInt;
  axes ← readEach (Z.to_nat axesSize);
  mret (ReplicaGroupMeshAxesAttr mesh axes).

Definition write_MeshAxisAttr (name : string) (size : Z) : list Z :=
  write_code kMeshAxisAttr ++ writeOwnedString name ++ writeSignedVarInt size.
Definition readMeshAxisAttr : Reader Attribute := name ← readString; size ← readSignedVarInt; mret (MeshAxisAttr name size).

Definition mesh_axes (axes : list (string * Z)) : Attribute := ArrayAttr (map (fun '(name, size) => MeshAxisAttr name size) axes).
Definition write_MeshAttr (axes : list (string * Z)) (deviceIds : option DenseElementsAttr) : list Z :=
  write_code kMeshAttr ++ writeAttr (mesh_axes axes) ++
  match deviceIds with
  | Some d => writeOwnedBool true ++ writeAttr (DenseTypedElementsAttr d)
  | None => writeOwnedBool false
  end.
Definition as_mesh_axis (attr : Attribute) : result (string * Z) :=
  match attr with MeshAxisAttr name size => Ok (name, size) | _ => Err (Failed "not a mesh axis") end.
(** [DenseIntElementsAttr]: elements of an integer type or of [index]. *)
Definition isDenseInt (d : DenseElementsAttr) : bool :=
  match getElementType (attr_type d) with IntegerType _ _ | IndexType => true | _ => false end.
Definition readMeshAttr : Reader Attribute :=
  axesAttr ← readAttr;
  match axesAttr with
  | ArrayAttr elements =>
      axes ← lift (mapM as_mesh_axis elements);
      hasDeviceIds ← readBool;
      if (hasDeviceIds : bool) then
        attr ← readAttr;
        match attr with
        | DenseTypedElementsAttr d =>
            if isDenseInt d then mret (MeshAttr axes (Some d)) else fails "not integers"
        | _ => fails "not elements"
        end
      else mret (MeshAttr axes None)
  | _ => fails "not an array"
  end.

Definition write_ResultAccuracyModeAttr (value : ResultAccuracyMode) : list Z :=
  write_code kResultAccuracyModeAttr ++ writeEnumAttribute value.
Definition readResultAccuracyModeAttr : Reader Attribute := readEnumAttribute ResultAccuracyModeAttr.

Definition write_ResultAccuracyAttr (atol rtol : APFloat) (ulps : Z) (mode : ResultAccuracyMode) : list Z :=
  write_code kResultAccuracyAttr ++ writeAPFloatWithKnownSemantics atol ++ writeAPFloatWithKnownSemantics rtol ++
  writeSignedVarInt ulps ++ writeAttr (ResultAccuracyModeAttr mode).
Definition readResultAccuracyAttr : Reader Attribute :=
  atol ← readAPFloatWithKnownSemantics Float64;
  rtol ← readAPFloatWithKnownSemantics Float64;
  ulps ← readSignedVarInt;
  mode ← readAttr;
  match mode with ResultAccuracyModeAttr mode => mret (ResultAccuracyAttr atol rtol ulps mode) | _ => fails "not a mode" end.

(** [failure()] for an attribute of another dialect, which is then written as text. *)
Definition writeAttribute (attr : Attribute) : result (list Z) :=
  match attr with
  | ChannelHandleAttr handle type => Ok (write_ChannelHandleAttr handle type)
  | ComparisonDirectionAttr value => Ok (write_ComparisonDirectionAttr value)
  | ComparisonTypeAttr value => Ok (write_ComparisonTypeAttr value)
  | ConvDimensionNumbersAttr value => Ok (write_ConvDimensionNumbersAttr value)
  | DotAlgorithmAttr value => Ok (write_DotAlgorithmAttr value)
  | DotDimensionNumbersAttr value => Ok (write_DotDimensionNumbersAttr value)
  | FftTypeAttr value => Ok (write_FftTypeAttr value)
  | GatherDimensionNumbersAttr value => Ok (write_GatherDimensionNumbersAttr value)
  | OutputOperandAliasAttr output operand tuple => Ok (write_OutputOperandAliasAttr output operand tuple)
  | PrecisionAttr value => Ok (write_PrecisionAttr value)
  | ResultAccuracyAttr atol rtol ulps mode => Ok (write_ResultAccuracyAttr atol rtol ulps mode)
  | ResultAccuracyModeAttr value => Ok (write_ResultAccuracyModeAttr value)
  | RngAlgorithmAttr value => Ok (write_RngAlgorithmAttr value)
  | RngDistributionAttr value => Ok (write_RngDistributionAttr value)
  | ScatterDimensionNumbersAttr value => Ok (write_ScatterDimensionNumbersAttr value)
  | TransposeAttr value => Ok (write_TransposeAttr value)
  | TypeExtensionsAttr bounds => Ok (write_TypeExtensionsAttr bounds)
  | ReplicaGroupMeshAxesAttr mesh axes => Ok (write_ReplicaGroupMeshAxesAttr mesh axes)
  | SubAxisInfoAttr preSize size => Ok (write_SubAxisInfoAttr preSize size)
  | AxisRefAttr name subAxisInfo => Ok (write_AxisRefAttr name subAxisInfo)
  | MeshAxisAttr name size => Ok (write_MeshAxisAttr name size)
  | MeshAttr axes deviceIds => Ok (write_MeshAttr axes deviceIds)
  | _ => Err (Failed "not implemented")
  end.

Definition readAttribute : Reader Attribute :=
  code ← readVarInt;
  match code_of attribute_codes code with
  | Some kChannelHandleAttr => readChannelHandleAttr
  | Some kComparisonDirectionAttr => readComparisonDirectionAttr
  | Some kComparisonTypeAttr => readComparisonTypeAttr
  | Some kConvDimensionNumbersAttr => readConvDimensionNumbersAttr
  | Some kDotAlgorithmAttr => readDotAlgorithmAttr
  | Some kDotDimensionNumbers => readDotDimensionNumbersAttr
  | Some kFftTypeAttr => readFftTypeAttr
  | Some kGatherDimensionNumbers => readGatherDimensionNumbersAttr
  | Some kOutputOperandAlias => readOutputOperandAliasAttr
  | Some kPrecisionAttr => readPrecisionAttr
  | Some kResultAccuracyAttr => readResultAccuracyAttr
  | Some kResultAccuracyModeAttr => readResultAccuracyModeAttr
  | Some kRngAlgorithmAttr => readRngAlgorithmAttr
  | Some kRngDistributionAttr => readRngDistributionAttr
  | Some kScatterDimensionNumbersAttr => readScatterDimensionNumbersAttr
  | Some kTransposeAttr => readTransposeAttr
  | Some kTypeExtensionsAttr => readTypeExtensionsAttr
  | Some kReplicaGroupMeshAxesAttr => readReplicaGroupMeshAxesAttr
  | Some kSubAxisInfoAttr => readSubAxisInfoAttr
  | Some kAxisRefAttr => readAxisRefAttr
  | Some kMeshAxisAttr => readMeshAxisAttr
  | Some kMeshAttr => readMeshAttr
  | None => fails "unknown stablehlo attribute code"
  end.

(** ** Types *)
Definition write_TokenType : list Z := writeVarInt kTokenType.
Definition readTokenType : Reader Ty := mret TokenType.
Definition write_FutureType (types : list Ty) : list Z := writeVarInt kFutureType ++ writeItems (map writeTy types).
Definition readFutureType : Reader Ty := elementTypes ← readItems readTy; mret (FutureType elementTypes).

Definition writeType (type : Ty) : result (list Z) :=
  match type with
  | TokenType => Ok write_TokenType
  | FutureType types => Ok (write_FutureType types)
  | _ => Err (Failed "not implemented")
  end.
Definition readType : Reader Ty :=
  code ← readVarInt;
  if code =? kTokenType then readTokenType
  else if code =? kFutureType then readFutureType
  else fails "unknown builtin type code".

(** ** The version of the dialect

    The components are an [int64_t], written and read as an [uint64_t]. *)
Definition int64 (n : Z) : Z := (n + 2 ^ 63) mod 2 ^ 64 - 2 ^ 63.
Definition readVersion : Reader Version :=
  major ← readVarInt; minor ← readVarInt; patch ← readVarInt;
  let version := MkVersion (int64 major) (int64 minor) (int64 patch) in
  if version_lt getCurrentVersion version then fails "reading newer dialect than supported" else mret version.
Definition writeVersion (version : option Version) : list Z :=
  match version with
  | Some v => writeVarInt (uint64 (getMajor v)) ++ writeVarInt (uint64 (getMinor v)) ++ writeVarInt (uint64 (getPatch v))
  | None => []
  end.
End Bytecode.
