(* ===== verification/StablehloBytecodeFacts.v ===== *)
(** * What is written of StableHLO is read back

    Every attribute, type and version of the dialect is read as it was written, one at
    a time and through the tables of a whole artifact. *)
From S2P Require Import Prelude Types Support Tensor Ops Linear Folder Version Vhlo VhloTypes VhloBytecode VhloBytecodeFacts StablehloAttrs OpsFacts StablehloBytecode.

Section Facts.
Context {L : LLVM} {Laws : LLVMLaws L} {M : MlirBytecode} {MLaws : MlirBytecodeLaws M}.

(** ** What is nested in an attribute and in a type *)
Definition children (a : Attribute) : list Attribute :=
  match a with
  | ResultAccuracyAttr _ _ _ mode => [ResultAccuracyModeAttr mode]
  | AxisRefAttr _ (Some (preSize, size)) => [SubAxisInfoAttr preSize size]
  | MeshAttr axes deviceIds => mesh_axes axes :: match deviceIds with Some d => [DenseTypedElementsAttr d] | None => [] end
  | ReplicaGroupMeshAxesAttr mesh axes => mesh :: axes
  | ArrayAttr value => value
  | DictionaryAttr value => map snd value
  | _ => []
  end.
Definition attr_tys (a : Attribute) : list Ty :=
  match a with
  | DotAlgorithmAttr value => [lhsPrecisionType value; rhsPrecisionType value; accumulationType value]
  | FloatAttr t _ | IntegerAttr t _ | StringAttr _ t | TypeAttr t => [t]
  | _ => []
  end.
Definition encodings (t : Ty) : list Attribute :=
  match t with RankedTensorType _ _ (Some (TypeExtensions bounds)) => [TypeExtensionsAttr bounds] | _ => [] end.
Definition isStablehloType (t : Ty) : bool := match t with TokenType | FutureType _ => true | _ => false end.

Fixpoint attr_height (a : Attribute) : nat :=
  match a with
  | ResultAccuracyAttr _ _ _ _ | AxisRefAttr _ _ => 2
  | MeshAttr _ _ => 3
  | ReplicaGroupMeshAxesAttr mesh axes => S (Nat.max (attr_height mesh) (max_list (map attr_height axes)))
  | ArrayAttr value => S (max_list (map attr_height value))
  | DictionaryAttr value => S (max_list (map (fun p => attr_height p.2) value))
  | _ => 1
  end.

Lemma mesh_axes_height axes : (attr_height (mesh_axes axes) <= 2)%nat.
Proof. cbn. induction axes as [|[] axes IH]; cbn in *; lia. Qed.

Lemma children_height a x : x ∈ children a -> (attr_height x < attr_height a)%nat.
Proof.
  destruct a; cbn [children attr_height]; try (by intros ?%elem_of_nil).
  - intros ->%list_elem_of_singleton. cbn. lia.
  - destruct subAxisInfo as [[]|]; [|by intros ?%elem_of_nil]. intros ->%list_elem_of_singleton. cbn. lia.
  - pose proof (mesh_axes_height axes). destruct deviceIds; rewrite !elem_of_cons, elem_of_nil;
      intros H'; destruct_or?; try done; subst; [lia|cbn; lia|lia].
  - rewrite elem_of_cons. intros [->|H]; [lia|]. apply (max_list_map_le attr_height) in H. lia.
  - intros H. apply (max_list_map_le attr_height) in H. lia.
  - intros H. apply list_elem_of_fmap in H as (p & -> & H). apply (max_list_map_le (fun p => attr_height p.2)) in H. lia.
Qed.

(** What the fields of an attribute hold in C++, and integers as the ids of a mesh. *)
Definition attr_fits (a : Attribute) : bool :=
  match a with
  | ChannelHandleAttr handle type => in_i64 handle && in_i64 type
  | ConvDimensionNumbersAttr v =>
      in_i64 (inputBatchDimension v) && in_i64 (inputFeatureDimension v) && forallb in_i64 (inputSpatialDimensions v) &&
      in_i64 (kernelInputFeatureDimension v) && in_i64 (kernelOutputFeatureDimension v) &&
      forallb in_i64 (kernelSpatialDimensions v) && in_i64 (outputBatchDimension v) && in_i64 (outputFeatureDimension v) &&
      forallb in_i64 (outputSpatialDimensions v)
  | DotAlgorithmAttr v => in_i64 (lhsComponentCount v) && in_i64 (rhsComponentCount v) && in_i64 (numPrimitiveOperations v)
  | DotDimensionNumbersAttr v =>
      forallb in_i64 (lhsBatchingDimensions v) && forallb in_i64 (rhsBatchingDimensions v) &&
      forallb in_i64 (lhsContractingDimensions v) && forallb in_i64 (rhsContractingDimensions v)
  | GatherDimensionNumbersAttr v =>
      forallb in_i64 (offsetDims v) && forallb in_i64 (collapsedSliceDims v) && forallb in_i64 (operandBatchingDims v) &&
      forallb in_i64 (startIndicesBatchingDims v) && forallb in_i64 (startIndexMap v) && in_i64 (indexVectorDim v)
  | OutputOperandAliasAttr outputs operand operands => forallb in_i64 outputs && in_i64 operand && forallb in_i64 operands
  | ResultAccuracyAttr atol rtol ulps _ =>
      bool_decide (getSemantics atol = Float64) && bool_decide (getSemantics rtol = Float64) && in_i64 ulps
  | ScatterDimensionNumbersAttr v =>
      forallb in_i64 (updateWindowDims v) && forallb in_i64 (insertedWindowDims v) && forallb in_i64 (inputBatchingDims v) &&
      forallb in_i64 (scatterIndicesBatchingDims v) && forallb in_i64 (scatterDimsToOperandDims v) &&
      in_i64 (scatterIndexVectorDim v)
  | TypeExtensionsAttr bounds => forallb in_i64 bounds
  | ReplicaGroupMeshAxesAttr _ axes => Z.of_nat (length axes) <? 2 ^ 64
  | SubAxisInfoAttr preSize size => in_i64 preSize && in_i64 size
  | MeshAxisAttr _ size => in_i64 size
  | MeshAttr _ deviceIds => match deviceIds with Some d => isDenseInt d | None => true end
  | _ => true
  end.

Section Nested.
Context (writeAttr : Attribute -> list Z) (writeTy : Ty -> list Z) (readAttr : Reader Attribute) (readTy : Reader Ty).
Definition attr_read (a : Attribute) : Prop := reads_as readAttr (writeAttr a) a.
Definition type_read (t : Ty) : Prop := reads_as readTy (writeTy t) t.

Lemma kind_reads c : reads_as readVarInt (write_code c) (attribute_code c).
Proof. apply varint_reads. destruct c; vm_compute; by split. Qed.
Lemma kinds_distinct c : code_of attribute_codes (attribute_code c) = Some c.
Proof. by destruct c. Qed.

Lemma double_reads f : bool_decide (getSemantics f = Float64) = true ->
  reads_as (readAPFloatWithKnownSemantics Float64) (writeAPFloatWithKnownSemantics f) f.
Proof. intros E%bool_decide_eq_true. rewrite <- E. apply apfloat_reads. Qed.

Lemma each_reads l : (forall x, x ∈ l -> attr_read x) ->
  reads_as (readEach readAttr (length l)) (concat (map writeAttr l)) l.
Proof.
  induction l as [|x l IH]; intros H; [apply reads_ret|]. cbn. eapply reads_bind; [apply H; by left|].
  eapply reads_last; [apply IH; intros; apply H; by right|]. apply reads_ret.
Qed.

Create HintDb stablehlo_bytecode.
#[local] Hint Resolve kind_reads reads_ret signed_reads signed_items string_reads bool_reads double_reads reads_each enum_reads : stablehlo_bytecode.
Ltac read_step :=
  first [apply reads_ret
        | eapply reads_bind; [solve [eauto with stablehlo_bytecode]|]
        | eapply reads_last; [solve [eauto with stablehlo_bytecode]|]
        | eapply reads_lift; [eassumption|]].

Lemma mesh_axes_read axes : mapM as_mesh_axis (map (fun '(name, size) => MeshAxisAttr name size) axes) = Ok axes.
Proof. induction axes as [|[name size] axes IH]; [done|]. cbn [map mapM as_mesh_axis]. by rewrite IH. Qed.

(** Every attribute that is written in the encoding of the dialect is read as it was,
    when what is nested in it is. *)
Lemma fields_read a w : attr_fits a = true ->
  (forall t, t ∈ attr_tys a -> type_read t) -> (forall x, x ∈ children a -> attr_read x) ->
  writeAttribute writeAttr writeTy a = Ok w -> reads_as (readAttribute readAttr readTy) w a.
Proof.
  intros Hf Ht Ha Hw. unfold readAttribute. unfold attr_read, type_read in *.
  destruct a; cbn [attr_tys children attr_fits writeAttribute] in *; try done; rewrite ?andb_true_iff in Hf; destruct_and?;
    injection Hw as <-; (eapply reads_bind; [apply kind_reads|]); rewrite kinds_distinct; cbn iota; try apply enum_reads.
  - unfold readResultAccuracyAttr. do 3 read_step. eapply reads_last; [apply Ha; by left|]. apply reads_ret.
  - unfold readOutputOperandAliasAttr. repeat read_step.
  - unfold readSubAxisInfoAttr. repeat read_step.
  - unfold readAxisRefAttr. read_step. destruct subAxisInfo as [[preSize size]|]; [|repeat read_step].
    read_step. eapply reads_last; [apply Ha; by left|]. apply reads_ret.
  - unfold readMeshAxisAttr. repeat read_step.
  - unfold readMeshAttr. eapply reads_bind; [apply Ha; by left|]. cbn [mesh_axes]. eapply reads_lift; [apply mesh_axes_read|].
    destruct deviceIds as [d|]; [|repeat read_step]. read_step. eapply reads_last; [apply Ha; right; by left|].
    cbn beta iota. rewrite Hf. apply reads_ret.
  - unfold readReplicaGroupMeshAxesAttr. eapply reads_bind; [apply Ha; by left|].
    eapply reads_bind; [apply varint_reads; lia|]. rewrite Nat2Z.id.
    eapply reads_last; [apply each_reads; intros; apply Ha; by right|]. apply reads_ret.
  - unfold readChannelHandleAttr. repeat read_step.
  - unfold readConvDimensionNumbersAttr. repeat read_step. by destruct value.
  - unfold readDotAlgorithmAttr. do 3 (eapply reads_bind; [apply Ht; set_solver|]). repeat read_step. by destruct value.
  - unfold readDotDimensionNumbersAttr. repeat read_step. by destruct value.
  - unfold readGatherDimensionNumbersAttr. repeat read_step. by destruct value.
  - unfold readScatterDimensionNumbersAttr. repeat read_step. by destruct value.
  - unfold readTypeExtensionsAttr. repeat read_step.
Qed.

Lemma fields_written a : isStablehloAttr a = true -> exists w, writeAttribute writeAttr writeTy a = Ok w.
Proof. destruct a; try done; by eexists. Qed.

Lemma type_fields_read t w : (forall x, x ∈ parts t -> type_read x) -> writeType writeTy t = Ok w -> reads_as (readType readTy) w t.
Proof.
  intros Ht Hw. destruct t; try done; injection Hw as <-; unfold readType.
  - eapply reads_last; [apply varint_reads; unfold kTokenType; lia|]. apply reads_ret.
  - eapply reads_bind; [apply varint_reads; unfold kFutureType; lia|]. cbn [Z.eqb kFutureType kTokenType Pos.eqb].
    eapply reads_last; [by apply reads_each|]. apply reads_ret.
Qed.

(** ** Whole artifacts

    What MLIR's sections promise for the attributes and types of an artifact: what is
    nested in one of them is one of them; a reference reads as what the hooks of the
    dialect read, when these read what they wrote, and, for an attribute or a type of
    another dialect, as itself when what is nested in it does. *)
Record sections (attrs : list Attribute) (types : list Ty) : Prop := {
  attr_closed a : a ∈ attrs -> (forall x, x ∈ children a -> x ∈ attrs) /\ (forall t, t ∈ attr_tys a -> t ∈ types);
  type_closed t : t ∈ types -> (forall x, x ∈ parts t -> x ∈ types) /\ (forall a, a ∈ encodings t -> a ∈ attrs);
  attr_reference a : a ∈ attrs -> (forall x, x ∈ children a -> attr_read x) -> (forall t, t ∈ attr_tys a -> type_read t) ->
    (isStablehloAttr a = true -> exists w, writeAttribute writeAttr writeTy a = Ok w /\ reads_as (readAttribute readAttr readTy) w a) ->
    attr_read a;
  type_reference t : t ∈ types -> (forall x, x ∈ parts t -> type_read x) -> (forall a, a ∈ encodings t -> attr_read a) ->
    (isStablehloType t = true -> exists w, writeType writeTy t = Ok w /\ reads_as (readType readTy) w t) ->
    type_read t;
}.

Section Artifact.
Context (attrs : list Attribute) (types : list Ty) (Hs : sections attrs types) (Hf : forallb attr_fits attrs = true).

Lemma attr_step a : a ∈ attrs -> (forall x, x ∈ children a -> attr_read x) -> (forall t, t ∈ attr_tys a -> type_read t) ->
  attr_read a.
Proof.
  intros Hin Hc Ht. apply (attr_reference _ _ Hs); [done..|]. intros Ha. destruct (fields_written a Ha) as [w Hw].
  exists w. split; [done|]. apply fields_read; [|done..]. rewrite forallb_forall in Hf. by apply Hf, list_elem_of_In.
Qed.

Lemma types_read t : t ∈ types -> type_read t.
Proof.
  induction t as [t IH] using Ty_parts_ind. intros Hin. destruct (type_closed _ _ Hs t Hin) as [Cx Ca].
  assert (forall x, x ∈ parts t -> type_read x) as Hx by (intros x Hx; apply (proj1 (Forall_forall _ _) IH); auto).
  apply (type_reference _ _ Hs); [done..| |].
  - intros a Ha. apply attr_step; [by apply Ca| |]; intros x Hxx; destruct t; try (by apply elem_of_nil in Ha);
      cbn in Ha; repeat case_match; try (by apply elem_of_nil in Ha); apply list_elem_of_singleton in Ha as ->;
      by apply elem_of_nil in Hxx.
  - intros Ht. destruct t; try done; (eexists; split; [reflexivity|]); by apply type_fields_read.
Qed.

Lemma attrs_read n a : a ∈ attrs -> (attr_height a < n)%nat -> attr_read a.
Proof.
  revert a. induction n as [|n IH]; intros a Hin Hn; [lia|]. destruct (attr_closed _ _ Hs a Hin) as [Cx Ct].
  apply attr_step; [done| |].
  - intros x Hx. apply IH; [by apply Cx|]. apply children_height in Hx. lia.
  - intros t Ht. by apply types_read, Ct.
Qed.

(** C19: The attributes and types of a StableHLO program are read from its bytecode as
    they were written, everything nested included, when the fields of the attributes are
    in the range of their C++ types. *)
Theorem stablehlo_round_trip :
  (forall a, a ∈ attrs -> attr_read a) /\ (forall t, t ∈ types -> type_read t).
Proof. split; [intros a Ha; by apply (attrs_read (S (attr_height a))); [|lia]|apply types_read]. Qed.
End Artifact.
End Nested.

(** The version of the dialect is read back up to the current version; a newer one is
    rejected. *)
Lemma int64_uint64 n : in_i64 n = true -> int64 (uint64 n) = n.
Proof.
  unfold in_i64, int64_min, int64_max, int64, uint64. intros H. rewrite Z.add_mod_idemp_l by lia.
  rewrite Z.mod_small by lia. lia.
Qed.

Theorem version_reads v : in_i64 (getMajor v) = true -> in_i64 (getMinor v) = true -> in_i64 (getPatch v) = true ->
  (version_le v getCurrentVersion = true -> reads_as readVersion (writeVersion (Some v)) v) /\
  (version_le v getCurrentVersion = false -> forall s, exists msg, readVersion (writeVersion (Some v) ++ s) = Err (Failed msg)).
Proof.
  intros H1 H2 H3.
  assert (forall s, readVersion (writeVersion (Some v) ++ s) =
    if version_lt getCurrentVersion v then Err (Failed "reading newer dialect than supported") else Ok (v, s)) as E.
  { intros s. unfold readVersion, writeVersion. rewrite <- !app_assoc. destruct v as [a b c]. cbn [getMajor getMinor getPatch] in *.
    unfold mbind, reader_bind. do 3 (rewrite varint_reads by (unfold uint64; apply Z.mod_pos_bound; lia)).
    rewrite !int64_uint64 by done. by destruct (version_lt _ _). }
  unfold version_le. split; intros Hv.
  - intros s. rewrite E. by destruct (version_lt _ _).
  - intros s. rewrite E. destruct (version_lt _ _); [by eexists|done].
Qed.
End Facts.
