(* ===== verification/ChloBytecode.v ===== *)
(** * The bytecode of CHLO

    [src/stablehlo/dialect/ChloBytecode.cpp]: the attributes of the dialect that have an
    encoding, read as they were written; the other ones are written as text. *)
From S2P Require Import Prelude Types Support Tensor Vhlo VhloBytecode VhloBytecodeFacts.

(** ** Attributes ([ChloEnums.td]) *)
Inductive ComparisonDirection := EQ | NE | GE | GT | LE | LT.
Inductive ComparisonType := NOTYPE | FLOAT | TOTALORDER | SIGNED | UNSIGNED.
Inductive Precision := DEFAULT | HIGH | HIGHEST.

#[export] Instance ChloComparisonDirection_eq_dec : EqDecision ComparisonDirection. Proof. solve_decision. Defined.
#[export] Instance ChloComparisonType_eq_dec : EqDecision ComparisonType. Proof. solve_decision. Defined.
#[export] Instance ChloComparisonDirection_enum : Enum ComparisonDirection :=
  [(EQ, ("EQ", 0)); (NE, ("NE", 1)); (GE, ("GE", 2)); (GT, ("GT", 3)); (LE, ("LE", 4)); (LT, ("LT", 5))].
#[export] Instance ChloComparisonType_enum : Enum ComparisonType :=
  [(NOTYPE, ("NOTYPE", 0)); (FLOAT, ("FLOAT", 1)); (TOTALORDER, ("TOTALORDER", 2)); (SIGNED, ("SIGNED", 3));
   (UNSIGNED, ("UNSIGNED", 4))].
#[export] Instance ChloComparisonDirection_laws : EnumLaws ComparisonDirection. Proof. enum_laws. Qed.
#[export] Instance ChloComparisonType_laws : EnumLaws ComparisonType. Proof. enum_laws. Qed.

(** The attributes of CHLO; those of other dialects have their identity. *)
Inductive ChloAttr :=
| ComparisonDirectionAttr (value : ComparisonDirection)
| ComparisonTypeAttr (value : ComparisonType)
| PrecisionAttr (value : Precision)
| RaggedDotDimensionNumbersAttr (lhsBatching rhsBatching lhsContracting rhsContracting lhsRagged rhsGroup : list Z)
| OtherDialectAttr (tag : Z).

Definition kComparisonDirectionAttr : Z := 0.
Definition kComparisonTypeAttr : Z := 1.

Section Bytecode.
Context {L : LLVM} {M : MlirBytecode}.

Definition write_ComparisonDirectionAttr (value : ComparisonDirection) : list Z :=
  writeVarInt kComparisonDirectionAttr ++ writeEnumAttribute value.
Definition readComparisonDirectionAttr : Reader ChloAttr := readEnumAttribute ComparisonDirectionAttr.

Definition write_ComparisonTypeAttr (value : ComparisonType) : list Z :=
  writeVarInt kComparisonTypeAttr ++ writeEnumAttribute value.
Definition readComparisonTypeAttr : Reader ChloAttr := readEnumAttribute ComparisonTypeAttr.

Definition writeAttribute (attr : ChloAttr) : result (list Z) :=
  match attr with
  | ComparisonDirectionAttr value => Ok (write_ComparisonDirectionAttr value)
  | ComparisonTypeAttr value => Ok (write_ComparisonTypeAttr value)
  | _ => Err (Failed "not implemented")
  end.

Definition readAttribute : Reader ChloAttr :=
  code ← readVarInt;
  if code =? kComparisonDirectionAttr then readComparisonDirectionAttr
  else if code =? kComparisonTypeAttr then readComparisonTypeAttr
  else fails "unknown chlo attribute code".

(** The dialect has no types. *)
Definition writeType (type : Ty) : result (list Z) := Err (Failed "not implemented").
Definition readType : Reader Ty := code ← readVarInt; fails "unknown builtin type code".

Context {Laws : LLVMLaws L} {MLaws : MlirBytecodeLaws M}.

(** What has an encoding is read as it was written; a reader never takes what is not
    one of the two codes for an attribute. *)
Theorem chlo_round_trip :
  (forall a w, writeAttribute a = Ok w -> reads_as readAttribute w a) /\
  (forall n s, 2 <= n < 2 ^ 64 -> readAttribute (writeVarInt n ++ s) = Err (Failed "unknown chlo attribute code")).
Proof.
  split.
  - intros a w. destruct a; cbn [writeAttribute]; intros [= <-]; unfold readAttribute;
      (eapply reads_bind; [apply varint_reads; unfold kComparisonDirectionAttr, kComparisonTypeAttr; lia|]); apply enum_reads.
  - intros n s Hn. unfold readAttribute, mbind, reader_bind. rewrite varint_reads by lia.
    unfold kComparisonDirectionAttr, kComparisonTypeAttr. by rewrite !(proj2 (Z.eqb_neq _ _)) by lia.
Qed.
End Bytecode.
