(* ===== verification/Serialization.v ===== *)
(** * The header of a portable artifact

    [src/stablehlo/dialect/Serialization.cpp]: the end of [serializePortableArtifact],
    which writes the program as bytecode whose producer names the version, and
    [getPortableArtifactVersion], which reads the version back.  The passes between the
    dialects are in [StablehloToVhlo.v], [VhloToVersion.v] and [VhloToStablehlo.v]. *)
From Stdlib Require Import Ascii.
From S2P Require Import Prelude Support Version.

(** ** [StringRef] *)
Fixpoint starts_with (p s : string) : bool :=
  match p, s with
  | EmptyString, _ => true
  | String a p, String b s => Ascii.eqb a b && starts_with p s
  | _, EmptyString => false
  end.
(** [find], with [None] as [npos] *)
Fixpoint find (s p : string) : option nat :=
  if starts_with p s then Some O
  else match s with String _ s => S <$> find s p | EmptyString => None end.
Fixpoint drop_front (n : nat) (s : string) : string :=
  match n, s with S n, String _ s => drop_front n s | _, _ => s end.
Fixpoint take_front (n : nat) (s : string) : string :=
  match n, s with S n, String a s => String a (take_front n s) | _, _ => EmptyString end.

Definition nul : string := String Ascii.zero EmptyString.
Definition stablehloHeader : string := "StableHLO_v".
Definition minHeaderLength : nat := 19.

Section Artifacts.
(** MLIR's writer of bytecode files, by producer, version of the format and module, and
    its test for their magic number. *)
Context {Module_ : Type} (writeBytecodeToFile : string -> Z -> Module_ -> result string) (isBytecode : string -> bool).

(** The last step of [serializePortableArtifact]: the version is dereferenced unchecked. *)
Definition writeArtifact (module : Module_) (targetVersion : string) : result string :=
  let producer := (stablehloHeader ++ targetVersion)%string in
  version ← match fromString targetVersion with Err (Failed _) => Err (UB "operator-> of a failure") | r => r end;
  bytecodeVersion ← getBytecodeVersion version;
  writeBytecodeToFile producer bytecodeVersion module.

Definition getPortableArtifactVersion (bytecode : string) : result Version :=
  if (String.length bytecode <? minHeaderLength)%nat then Err (Failed "min header")
  else
    pos ← ok_or (find bytecode nul) (Failed "no terminator");
    let bytecode := take_front pos bytecode in
    if negb (isBytecode bytecode) then Err (Failed "not bytecode")
    else
      stablehloPos ← ok_or (find bytecode stablehloHeader) (Failed "not a StableHLO portable artifact");
      fromString (drop_front (stablehloPos + String.length stablehloHeader) bytecode).

(** ** The format of a bytecode file

    The magic number, the version of the format as a [varint] of one byte, the producer
    and a terminator. *)
Definition magic : string := "ML" ++ String (ascii_of_nat 239) "R".
Record BytecodeFile : Prop := {
  file_format producer v module w : 0 <= v < 64 -> writeBytecodeToFile producer v module = Ok w ->
    exists rest, w = (magic ++ String (ascii_of_nat (Z.to_nat (2 * v + 1))) producer ++ nul ++ rest)%string;
  file_magic s : isBytecode (magic ++ s) = true;
}.

(** A character that does not occur. *)
Fixpoint without (a : ascii) (s : string) : bool :=
  match s with String b s => negb (Ascii.eqb a b) && without a s | EmptyString => true end.

Lemma find_nul s rest : without Ascii.zero s = true -> find (s ++ nul ++ rest) nul = Some (String.length s).
Proof.
  induction s as [|a s IH]; [done|]. cbn [without]. intros [Ha Hs]%andb_prop. specialize (IH Hs).
  change (String a s ++ nul ++ rest)%string with (String a (s ++ nul ++ rest)). remember (s ++ nul ++ rest)%string as t.
  cbn [find nul starts_with String.length] in *. destruct (Ascii.eqb Ascii.zero a); [done|]. cbn [andb]. by rewrite IH.
Qed.
Lemma take_length s t : take_front (String.length s) (s ++ t) = s.
Proof. induction s as [|a s IH]; [by destruct t|]. cbn. f_equal. exact IH. Qed.
Lemma length_append_s s t : String.length (s ++ t) = (String.length s + String.length t)%nat.
Proof. induction s as [|a s IH]; [done|]. change (S (String.length (s ++ t)) = S (String.length s + String.length t)). by rewrite IH. Qed.
Lemma without_app a s t : without a (s ++ t) = without a s && without a t.
Proof. induction s as [|b s IH]; [done|].
  change (String b s ++ t)%string with (String b (s ++ t)). cbn [without]. by rewrite IH, andb_assoc.
Qed.

Lemma digits_without s digits rest : span_digits s = (digits, rest) -> without Ascii.zero s = without Ascii.zero rest.
Proof.
  revert digits rest. induction s as [|a s IH]; intros digits rest; [by intros [= <- <-]|]. cbn [span_digits].
  destruct (is_digit a) eqn:Ea; [|by intros [= <- <-]]. destruct (span_digits s) as [d r] eqn:E. intros [= <- <-].
  cbn [without]. rewrite (IH d r) by done. rewrite (proj2 (Ascii.eqb_neq _ _)); [done|]. intros <-. discriminate Ea.
Qed.
Lemma number_without s m r : match_number s = Some (m, r) -> without Ascii.zero s = without Ascii.zero r.
Proof. unfold match_number. destruct (span_digits s) as [[] r'] eqn:E; [done|]. intros [= <- <-]. by eapply digits_without. Qed.
Lemma dot_without s r : match_dot s = Some r -> without Ascii.zero s = without Ascii.zero r.
Proof. destruct s as [|a s]; [done|]. cbn [match_dot]. case_decide; [|done]. intros [= <-]. by subst. Qed.

Lemma version_without s v : fromString s = Ok v -> without Ascii.zero s = true.
Proof.
  unfold fromString. destruct (versionRegex s) as [[[m1 m2] m3]|] eqn:E; [|done]. intros _. unfold versionRegex in E.
  repeat match type of E with
  | (match_number ?s ≫= _) = _ =>
      let H := fresh "N" in destruct (match_number s) as [[? ?]|] eqn:H; [|done]; cbn in E; rewrite (number_without _ _ _ H)
  | (match_dot ?s ≫= _) = _ => let H := fresh "N" in destruct (match_dot s) eqn:H; [|done]; cbn in E; rewrite (dot_without _ _ H)
  end.
  by destruct s7.
Qed.

Lemma version_length s v : fromString s = Ok v -> (2 <= String.length s)%nat.
Proof.
  destruct s as [|a [|b s]]; [done| |cbn; lia]. unfold fromString, versionRegex, match_number. cbn [span_digits].
  by destruct (is_digit a).
Qed.

Lemma bytecode_versions v n : getBytecodeVersion v = Ok n -> n = 0 \/ n = 1 \/ n = 3 \/ n = 4 \/ n = 6.
Proof.
  unfold getBytecodeVersion. repeat (destruct (version_lt _ _); [try done; intros [= <-]; tauto|]).
  destruct (version_le _ _); [|done]. intros [= <-]. tauto.
Qed.

Context (File : BytecodeFile).

(** C18: The version that [getPortableArtifactVersion] reads from an artifact is the one
    that [serializePortableArtifact] was given when it wrote it: the header is found
    after the magic number and the version of the format, and it ends at the
    terminator, whatever the rest of the file holds. *)
Theorem artifact_version module target w : writeArtifact module target = Ok w ->
  exists v, fromString target = Ok v /\ getPortableArtifactVersion w = Ok v.
Proof.
  unfold writeArtifact. destruct (fromString target) as [v|[]] eqn:Ht; [|done..]. cbn [mbind result_bind]. intros (n & Hn & Hw)%bind_ok.
  exists v. split; [done|].
  pose proof (bytecode_versions _ _ Hn) as Hr. apply (file_format File) in Hw as [rest ->]; [|lia].
  pose proof (version_without _ _ Ht) as Hz. pose proof (version_length _ _ Ht) as Hl.
  set (c := ascii_of_nat (Z.to_nat (2 * n + 1))).
  assert (Ascii.eqb Ascii.zero c = false /\ Ascii.eqb "S" c = false) as [Hc0 Hc] by (destruct Hr as [->|[->|[->|[->| ->]]]]; by subst c).
  change (magic ++ String c (stablehloHeader ++ target) ++ nul ++ rest)%string
    with ((magic ++ String c (stablehloHeader ++ target)) ++ nul ++ rest)%string.
  set (head := (magic ++ String c (stablehloHeader ++ target))%string).
  assert (without Ascii.zero head = true) as Hh.
  { subst head. change (magic ++ String c (stablehloHeader ++ target))%string with (magic ++ String c stablehloHeader ++ target)%string.
    rewrite !without_app, Hz. cbn [without]. by rewrite Hc0. }
  unfold getPortableArtifactVersion. rewrite (find_nul _ _ Hh). cbn [ok_or mbind result_bind]. rewrite take_length.
  assert (isBytecode head = true) as -> by apply (file_magic File).
  assert (find head stablehloHeader = Some 5%nat) as ->.
  { subst head c. by destruct Hr as [->|[->|[->|[->| ->]]]]. }
  cbn [ok_or mbind result_bind].
  replace (String.length (head ++ nul ++ rest) <? minHeaderLength)%nat with false.
  - cbn [negb]. exact Ht.
  - symmetry. apply Nat.ltb_ge. subst head. unfold minHeaderLength. rewrite !length_append_s.
    change (String.length magic + String.length (String c (stablehloHeader ++ target)))%nat with (16 + String.length target)%nat.
    change (String.length nul) with 1%nat. lia.
Qed.
End Artifacts.

(** ** Witness: a file of one byte *)
Definition sample_write (producer : string) (v : Z) (module : ascii) : result string :=
  Ok (magic ++ String (ascii_of_nat (Z.to_nat (2 * v + 1))) producer ++ nul ++ String module "")%string.

Lemma artifact_version_witness :
  exists w v, writeArtifact sample_write "7"%char "1.2.0" = Ok w /\ fromString "1.2.0" = Ok v /\
    getPortableArtifactVersion (starts_with magic) w = Ok v.
Proof.
  assert (BytecodeFile sample_write (starts_with magic)) as File.
  { split; [|done]. intros producer v module w _ [= <-]. by eexists. }
  destruct (artifact_version sample_write (starts_with magic) File "7"%char "1.2.0" _ eq_refl) as (v & Hv & Hg).
  eexists _, v. split; [reflexivity|]. split; [exact Hv|exact Hg].
Defined.
