(* ===== verification/VhloVersionSamples.v ===== *)
(** * A gather, a convolution and a mesh

    Inputs of the witnesses about the conversion to VHLO, its versions and
    the bytecode of StableHLO, over the concrete numbers and bytecode. *)
From Stdlib Require Import Ascii.
From S2P Require Import Prelude Types Support Element Tensor Version Folder FolderSamples Vhlo VhloTypes VhloBytecode VhloBytecodeFacts VhloSamples StablehloAttrs StablehloToVhlo VhloToStablehlo StablehloVhloFacts StablehloVhloOps StablehloVhloRoundTrip StablehloVhloDefaults StablehloVhloOperations VhloToVersion VhloToVersionFacts VhloToVersionLegal StablehloBytecode StablehloBytecodeFacts.
Import Concrete.

Local Abbreviation Op := (VhloOp nat unit).

(** Types that are not looked into are told apart by their constructors. *)
Definition same_type (a b : VhloType) : bool :=
  match a, b with
  | FloatF8E4M3FNV1Type, FloatF8E4M3FNV1Type | FloatF8E5M2V1Type, FloatF8E5M2V1Type | FloatF32V1Type, FloatF32V1Type => true
  | _, _ => false
  end.

Definition f32s : VhloType := RankedTensorV1Type [2; 3] FloatF32V1Type None.
Definition dims (l : list Z) : VhloAttr :=
  TensorV1Attr (RankedTensorV1Type [Z.of_nat (length l)] IntegerSI64V1Type None) (denseI64 [Z.of_nat (length l)] l).
Definition i64 (n : Z) : VhloAttr := IntegerV1Attr IntegerSI64V1Type (apint 64 n).

Definition gather_attributes (batching : list (string * VhloAttr)) : list (string * VhloAttr) :=
  [("offset_dims", dims [0]); ("collapsed_slice_dims", dims [1])] ++ batching ++
  [("start_index_map", dims [1]); ("index_vector_dim", i64 0); ("slice_sizes", dims [2; 1]);
   ("indices_are_sorted", BooleanV1Attr false)].
Definition gather_v1 : Op :=
  MkVhloOp "gather_v1" [(0%nat, f32s); (1%nat, f32s)] [f32s] (gather_attributes []) [("name", StringV1Attr "g")] [].
Definition gather_v2 : Op :=
  MkVhloOp "gather_v2" [(0%nat, f32s); (1%nat, f32s)] [f32s]
    (gather_attributes [("operand_batching_dims", dims []); ("start_indices_batching_dims", dims [])]) [("name", StringV1Attr "g")] [].

Definition fp8_convolution : Op :=
  MkVhloOp "dynamic_conv_v2"
    [(0%nat, RankedTensorV1Type [1; 4; 1] FloatF8E4M3FNV1Type None); (1%nat, RankedTensorV1Type [1; 1; 1] FloatF8E5M2V1Type None);
     (2%nat, f32s)] [f32s]
    [("window_strides", dims [1]); ("lhs_dilation", dims [1]); ("rhs_dilation", dims [1]);
     ("window_reversal", BooleanV1Attr false); ("input_batch_dimension", i64 0); ("input_feature_dimension", i64 2);
     ("input_spatial_dimensions", dims [1]); ("kernel_input_feature_dimension", i64 1);
     ("kernel_output_feature_dimension", i64 2); ("kernel_spatial_dimensions", dims [0]); ("output_batch_dimension", i64 0);
     ("output_feature_dimension", i64 2); ("output_spatial_dimensions", dims [1]); ("feature_group_count", i64 1);
     ("batch_group_count", i64 1); ("precision_config", ArrayV1Attr [])] [] [].

Lemma target_selects_version_witness :
  validateTargetVersion "1.0.7" = Ok (MkVersion 1 0 0) /\
  exists v1 v2, versions_of ("gather" ++ "_v1") = Some v1 /\ versions_of ("gather" ++ "_v2") = Some v2 /\
    isLegalVersion v1 (MkVersion 1 0 0) || isLegalVersion v2 (MkVersion 1 0 0) = version_le v1.1 (MkVersion 1 0 0) /\
    isLegalVersion v1 (MkVersion 1 0 0) && isLegalVersion v2 (MkVersion 1 0 0) = false.
Proof.
  assert (validateTargetVersion "1.0.7" = Ok (MkVersion 1 0 0)) as H by (vm_compute; reflexivity). split; [exact H|].
  apply (target_selects_version (Value := nat) (Region := unit) "1.0.7" _ _ (GatherOpUpgradeV1ToV2, GatherOpDowngradeV2ToV1) H).
  right. left.
Defined.

Lemma upgrade_downgrade_witness : exists new : Op,
  GatherOpUpgradeV1ToV2 gather_v1 = Ok new /\ op_name new = "gather_v2" /\ well_formed new = true /\
  GatherOpDowngradeV2ToV1 new = Ok gather_v1.
Proof. apply (upgrade_downgrade "gather"); [right; left|done|reflexivity|reflexivity]. Defined.

Lemma backward_compatible_witness : exists news : list Op,
  runOnOperation same_type "1.21.0" [gather_v1] = Ok news /\
  Forall2 (fun op new => isLegalOperation same_type new getCurrentVersion = Ok true /\
    (new = op \/ exists name up down, (name, (up, down)) ∈ pairs /\ op_name op = (name ++ "_v1")%string /\ up op = Ok new))
    [gather_v1] news.
Proof. apply (backward_compatible same_type (MkVersion 1 0 0)); [reflexivity|]. repeat constructor. Defined.

Lemma program_round_trip_witness : exists olds news : list Op,
  runOnOperation same_type "1.0.0" [gather_v2] = Ok olds /\
  runOnOperation same_type "1.21.0" olds = Ok news /\ Forall2 same_op [gather_v2] news.
Proof.
  exists [gather_v1]. destruct (program_round_trip same_type "1.0.0" [gather_v2] [gather_v1]) as (news & Hn & Hs).
  - repeat constructor.
  - vm_cast_no_check (eq_refl (Ok [gather_v1] : result (list Op))).
  - exists news. split; [vm_cast_no_check (eq_refl (Ok [gather_v1] : result (list Op)))|]. split; [exact Hn|exact Hs].
Defined.

Lemma legality_gaps_witness :
  isLegalOperation same_type fp8_convolution (MkVersion 1 19 0) = Ok false /\
  isLegalOperation same_type fp8_convolution getCurrentVersion = Ok true /\
  exists old, convertOp same_type (MkVersion 0 19 0) fp8_convolution = Ok old.
Proof.
  eapply legality_gaps; try reflexivity; [cbn; lia|repeat constructor..].
Defined.

(** ** A mesh in StableHLO bytecode *)
Section Mesh.
Let axes_of_mesh : list (string * Z) := [("x", 2); ("y", 3)].
Let ids : DenseElementsAttr := denseI64 [6] [0; 1; 2; 3; 4; 5].
Definition mesh_attr : Attribute := MeshAttr axes_of_mesh (Some ids).
Definition mesh_attrs : list Attribute :=
  [MeshAxisAttr "x" 2; MeshAxisAttr "y" 3; mesh_axes axes_of_mesh; DenseTypedElementsAttr ids; mesh_attr;
   SubAxisInfoAttr 1 2; AxisRefAttr "x" (Some (1, 2)); ReplicaGroupMeshAxesAttr mesh_attr [AxisRefAttr "x" (Some (1, 2))];
   TypeExtensionsAttr [int64_min; 4]].
Definition mesh_types : list Ty :=
  [TokenType; IntegerType Signless 64; RankedTensorType [-1; 2] (IntegerType Signless 64) (Some (TypeExtensions [int64_min; 4]));
   FutureType [TokenType; RankedTensorType [-1; 2] (IntegerType Signless 64) (Some (TypeExtensions [int64_min; 4]))]].
End Mesh.

Definition mesh_attr_number (a : Attribute) : Z :=
  match a with
  | MeshAxisAttr n _ => if String.eqb n "x" then 0 else 1
  | ArrayAttr _ => 2 | DenseTypedElementsAttr _ => 3 | MeshAttr _ _ => 4 | SubAxisInfoAttr _ _ => 5 | AxisRefAttr _ _ => 6
  | ReplicaGroupMeshAxesAttr _ _ => 7 | _ => 8
  end.
Definition mesh_type_number (t : Ty) : Z :=
  match t with TokenType => 0 | IntegerType _ _ => 1 | RankedTensorType _ _ _ => 2 | _ => 3 end.
Definition mesh_writeAttr (a : Attribute) : list Z := [mesh_attr_number a].
Definition mesh_writeType (t : Ty) : list Z := [mesh_type_number t].

(** An entry of the dialect is read by its hooks, another one by MLIR. *)
Fixpoint mesh_resolve (fuel : nat) : (Z -> result Attribute) * (Z -> result Ty) :=
  match fuel with
  | O => (fun _ => Err OutOfFuel, fun _ => Err OutOfFuel)
  | S fuel =>
      let readAttr : Reader Attribute := n ← one; lift (fst (mesh_resolve fuel) n) in
      let readTy : Reader Ty := n ← one; lift (snd (mesh_resolve fuel) n) in
      (fun n => a ← at_z mesh_attrs n;
         if isStablehloAttr a then whole (StablehloBytecode.readAttribute readAttr readTy)
           (StablehloBytecode.writeAttribute mesh_writeAttr mesh_writeType a) else Ok a,
       fun n => t ← at_z mesh_types n;
         if isStablehloType t then whole (StablehloBytecode.readType readTy) (StablehloBytecode.writeType mesh_writeType t)
         else Ok t)
  end.
Definition mesh_readAttr : Reader Attribute := n ← one; lift (fst (mesh_resolve 5) n).
Definition mesh_readType : Reader Ty := n ← one; lift (snd (mesh_resolve 5) n).

Lemma mesh_attr_reads a : a ∈ mesh_attrs -> StablehloBytecodeFacts.attr_read mesh_writeAttr mesh_readAttr a.
Proof. unfold mesh_attrs. each; intros s; reflexivity. Qed.
Lemma mesh_type_reads t : t ∈ mesh_types -> StablehloBytecodeFacts.type_read mesh_writeType mesh_readType t.
Proof. unfold mesh_types. each; intros s; reflexivity. Qed.

Lemma mesh_sections : StablehloBytecodeFacts.sections mesh_writeAttr mesh_writeType mesh_readAttr mesh_readType mesh_attrs mesh_types.
Proof.
  constructor.
  - intros a. unfold mesh_attrs at 1. each; (split; intros x; cbn; each; unfold mesh_attrs, mesh_types; repeat (left + right)).
  - intros t. unfold mesh_types at 1. each; (split; intros x; cbn; each; unfold mesh_attrs, mesh_types; repeat (left + right)).
  - intros a Ha _ _ _. by apply mesh_attr_reads.
  - intros t Ht _ _ _. by apply mesh_type_reads.
Qed.

Lemma stablehlo_round_trip_witness :
  StablehloBytecodeFacts.attr_read mesh_writeAttr mesh_readAttr mesh_attr /\
  StablehloBytecodeFacts.type_read mesh_writeType mesh_readType (FutureType [TokenType; RankedTensorType [-1; 2] (IntegerType Signless 64) (Some (TypeExtensions [int64_min; 4]))]).
Proof.
  destruct (stablehlo_round_trip mesh_writeAttr mesh_writeType mesh_readAttr mesh_readType mesh_attrs mesh_types mesh_sections eq_refl)
    as [Ha Ht]. split; [apply Ha|apply Ht]; unfold mesh_attrs, mesh_types; repeat (left + right).
Defined.

(** ** A convolution that passes to VHLO and back *)
Definition conv_numbers : ConvDimensions := MkConvDimensions 0 3 [1; 2] 2 3 [0; 1] 0 3 [1; 2].
Definition convolution : list (string * Attribute) :=
  [("batch_group_count", i64Attr 1);
   ("dimension_numbers", ConvDimensionNumbersAttr conv_numbers);
   ("feature_group_count", i64Attr 1);
   ("padding", DenseTypedElementsAttr (denseI64 [2; 2] [0; 1; 2; 3]));
   ("precision_config", ArrayAttr [PrecisionAttr Precision_HIGH; PrecisionAttr Precision_DEFAULT]);
   ("rhs_dilation", DenseI64ArrayAttr [1; 2]);
   ("window_reversal", DenseBoolArrayAttr [false; false])].

Definition no_encoding (tag : Z) : option VhloAttr := None.
Definition no_identity {A} (a : A) : Z := 0.

Lemma operation_round_trip_witness : exists vhloOp out,
  StablehloToVhlo.convertAttrs no_encoding false no_identity ConvolutionOp convolution = Ok vhloOp /\
  VhloToStablehlo.convertAttrs no_identity OtherAttr ConvolutionOp vhloOp = Ok out /\
  forall name, effective ConvolutionOp out name = normal_attr ConvolutionOp name <$> effective ConvolutionOp convolution name.
Proof.
  apply (operation_round_trip no_encoding false no_identity no_identity OtherAttr); [done|]. constructor.
  - apply (bool_decide_unpack _). reflexivity.
  - intros name a. unfold convolution. rewrite !elem_of_cons, elem_of_nil.
    intros H. destruct_or?; try done; injection H as -> ->; (split; [reflexivity|]); cbn.
    + split; [constructor; [split; [every|done]|constructor]|]. split; [by eexists|by left].
    + by eexists.
    + split; [constructor; [split; [every|done]|constructor]|]. split; [by eexists|by left].
    + by do 2 eexists.
    + split; [by repeat constructor|]. split; [by eexists|by right].
    + by eexists.
    + by eexists.
  - split; [|done]. constructor; [right; by eexists|constructor].
Defined.
