(* ===== verification/RefineShapes.v ===== *)
(** * Shape refinement

    [src/stablehlo/transforms/StablehloRefineShapes.cpp], its header,
    [StablehloRefineArguments.cpp], and the functions of [Base.cpp] they call: the
    types of values are refined in place, from the refined types of the arguments of a
    function.  A value is its type and its users; a pattern is the change it makes to
    the values of its operation, with the failure it reports.  The greedy driver that
    picks the patterns, the folder that runs with them, and the creation of constants
    belong to other files and to MLIR. *)
From S2P Require Import Prelude Types Support Base TypeInference Inference ReplicaGroups.

(** ** Tuples: [flattenTupleTypes] and [unflattenTupleTypes] *)
Fixpoint flatten_type (type : Ty) : list Ty :=
  match type with TupleType types => flat_map flatten_type types | _ => [type] end.
Definition flattenTupleTypes (types : list Ty) : list Ty := flat_map flatten_type types.

(** A type that may be the null type. *)
Definition MaybeType : Type := option Ty.
Definition TupleType_get (types : list MaybeType) : MaybeType := TupleType <$> mapM id types.

(** The lambda [loop]: the number of types consumed, or a failure, and what it has
    pushed to [result]; [front] runs it on the elements of a tuple. *)
Definition unflatten_loop (front : Ty -> list MaybeType -> option nat * list MaybeType) :=
  fix loop (prototype : list Ty) (types result : list MaybeType) {struct prototype} : option nat * list MaybeType :=
    match prototype, types with
    | [], [] => (Some 0%nat, result)
    | [], _ :: _ | _ :: _, [] => (None, result)
    | prototypeFront :: prototype, type :: types' =>
        match prototypeFront with
        | TupleType _ =>
            let '(consumedFront, tupleResult) := front prototypeFront types in
            match consumedFront with
            | None => (None, result)
            | Some consumedFront =>
                let '(consumedRest, result) := loop prototype (drop consumedFront types) result in
                match consumedRest with
                | None => (None, result)
                | Some consumedRest => (Some (consumedFront + consumedRest)%nat, result ++ [TupleType_get tupleResult])
                end
            end
        | _ =>
            let '(consumed, result) := loop prototype types' (result ++ [type]) in
            (S <$> consumed, result)
        end
    end.

Fixpoint unflatten_tuple (prototypeFront : Ty) (types : list MaybeType) : option nat * list MaybeType :=
  match prototypeFront with
  | TupleType prototype => unflatten_loop unflatten_tuple prototype types []
  | _ => (None, [])
  end.

(** [consumed != -1] compares an empty optional with a number: it is true whether the
    loop has failed or not. *)
Definition unflattenTupleTypes (prototype : list Ty) (types : list MaybeType) : result (list MaybeType) :=
  let '(consumed, result) := unflatten_loop unflatten_tuple prototype types [] in
  if match consumed with Some consumed => negb (Z.of_nat consumed =? -1) | None => true end
  then Ok result else Err (Failed "unflattenTupleTypes").

(** ** Values *)
Inductive User :=
| HloUser            (* an operation of StableHLO or CHLO *)
| SdyUser
| ReturnUser         (* [func.return] *)
| CallUser           (* [func.call] *)
| CastUser (unrefinedType : Ty)   (* a cast that feeds [func.return] *)
| OtherUser.
Record Value := MkValue { value_type : Ty; value_users : list User }.

Definition supportsRefinement (user : User) : bool :=
  match user with HloUser | SdyUser | ReturnUser | CallUser => true | CastUser _ | OtherUser => false end.
Definition isFuncReturn (user : User) : bool := match user with ReturnUser => true | _ => false end.

(** The new type; the uses by [func.return] go through a cast to the old one. *)
Definition setType (value : Value) (refinedType : Ty) : Value :=
  MkValue refinedType
    (if existsb isFuncReturn (value_users value)
     then CastUser (value_type value) :: List.filter (fun user => negb (isFuncReturn user)) (value_users value)
     else value_users value).

(** The values are changed one after the other: a value whose user is not supported
    ends the loop, after the values before it have been changed. *)
Fixpoint setTypes (values : list Value) (refinedTypes : list Ty) : list Value * result () :=
  match values, refinedTypes with
  | value :: values', refinedType :: refinedTypes =>
      if bool_decide (value_type value = refinedType) then
        let '(values', r) := setTypes values' refinedTypes in (value :: values', r)
      else if forallb supportsRefinement (value_users value) then
        let '(values', r) := setTypes values' refinedTypes in (setType value refinedType :: values', r)
      else (values, Err (Failed "unsupported refinement"))
  | _, _ => (values, Ok ())
  end.

Definition refineValues (values : list Value) (types : list MaybeType) : list Value * result () :=
  if negb (bool_decide (length values = length types)) then (values, Err (Failed "refineValues failed"))
  else
    match mapM (fun '(value, type) =>
        refinement ← ok_or type (UB "dyn_cast of a null type");
        inferMostSpecificType [value_type value; refinement]) (zip values types) with
    | Err e => (values, Err e)
    | Ok refinedTypes =>
        if bool_decide (value_type <$> values = refinedTypes) then (values, Err (Failed "doesn't need refinement"))
        else setTypes values refinedTypes
    end.

(** The results of an operation. *)
Definition refineReturnTypes (results : list Value) (types : list Ty) : list Value * result () :=
  refineValues results (Some <$> types).

(** ** Refinements by components *)
Record ShapedTypeComponents := MkComponents {
  component_dims : option (list Z);
  component_element : option Ty;
  component_attribute : option Encoding;
}.

(** Any shaped type: a tensor, ranked or not, or a buffer. *)
Definition isShapedType (type : Ty) : bool :=
  match type with RankedTensorType _ _ _ | UnrankedTensorType _ | MemRefType _ _ _ _ => true | _ => false end.
Definition shape_of (type : Ty) : option (list Z) :=
  match type with RankedTensorType shape _ _ | MemRefType shape _ _ _ => Some shape | _ => None end.
Definition encoding_of (type : Ty) : option Encoding :=
  match type with RankedTensorType _ _ encoding => encoding | _ => None end.
(** What [isCompatibleForHloTypeInference] sees of a buffer. *)
Definition tensor_view (type : Ty) : Ty :=
  match type with MemRefType shape element _ _ => RankedTensorType shape element None | _ => type end.

(** The body of the loop over the flattened types; the null type is what the code
    pushes for a type that is not shaped. *)
Definition refineComponent (type : Ty) (refinement : ShapedTypeComponents) : result MaybeType :=
  if negb (isShapedType type) then
    _ ← ensure (bool_decide (component_dims refinement = None) && bool_decide (component_element refinement = None) &&
                bool_decide (component_attribute refinement = None)) "unsupported refinement";
    Ok None
  else
    let currentElementType := getElementTypeOrSelf type in
    _ ← ensure (match component_element refinement with
                | Some element => bool_decide (currentElementType = element) | None => true end)
          "expected compatible element types";
    match component_dims refinement, shape_of type with
    | None, None => Ok (Some type)
    | dims, shape =>
        _ ← ensure (bool_decide (encoding_of type = None) && bool_decide (component_attribute refinement = None))
              "expected compatible encodings";
        refinedShape ← ok_or (match dims with Some dims => Some dims | None => shape end) (UB "getShape");
        let refinedType := RankedTensorType refinedShape currentElementType None in
        _ ← ensure (isCompatibleForHloTypeInference (tensor_view type) refinedType) "expected compatible shapes";
        Ok (Some refinedType)
    end.

Definition refineReturnTypesByComponents (results : list Value) (refinements : list ShapedTypeComponents)
    : list Value * result () :=
  let flattenedTypes := flattenTupleTypes (value_type <$> results) in
  match
    _ ← ensure (bool_decide (length flattenedTypes = length refinements)) "refineReturnTypes failed";
    flattenedRefinedTypes ← mapM (fun '(type, refinement) => refineComponent type refinement) (zip flattenedTypes refinements);
    unflattenTupleTypes (value_type <$> results) flattenedRefinedTypes
  with
  | Ok refinedTypes => refineValues results refinedTypes
  | Err e => (results, Err e)
  end.

(** [refineReturnShape], by a shape and by an operand that may be a constant *)
Definition shape_components (shape : list Z) : ShapedTypeComponents := MkComponents (Some shape) None None.
Definition refineReturnShape (results : list Value) (shape : list Z) : list Value * result () :=
  refineReturnTypesByComponents results [shape_components shape].
Definition refineReturnShapeValue (results : list Value) (shapeValue : option (list Z)) : list Value * result () :=
  match shapeValue with
  | None => (results, Err (Failed "expected constant output shape"))
  | Some shape => refineReturnShape results shape
  end.

(** [getShapeRefinements]: the attribute [indices_of_shape_operands] by its type and
    values, if the operation has it; the operands by their constant values. *)
Definition getShapeRefinements (indicesAttr : option (ShapedType * list Z)) (operands : list (option (list Z)))
    (resultTypes : list Ty) : result (list ShapedTypeComponents) :=
  '(type, indices) ← ok_or indicesAttr (Failed "indices_of_shape_operands");
  let flattenedResultTypes := flattenTupleTypes resultTypes in
  _ ← ensure (getNumElements type =? Z.of_nat (length flattenedResultTypes))
        "number of elements must be equal to the number of operation results";
  _ ← ensure (getRank type =? 1) "must have rank = 1";
  _ ← ensure (isInteger (getElementType type) 64) "must have i64 element type";
  mapM (fun '(operandIndex, resultType) =>
      _ ← ensure ((0 <=? operandIndex) && (operandIndex <? Z.of_nat (length operands)))
            "must be within bounds for operation operands";
      operand ← at_z operands operandIndex;
      refinement ← ok_or operand (Failed "matchInts");
      _ ← ensure (isCompatibleShapeForHloTypeInference refinement resultType) "must be compatible with operation result";
      Ok (shape_components refinement)) (zip indices flattenedResultTypes).

(** ** Refining the arguments of a function: [StablehloRefineArguments.cpp] *)
Definition isTensorType (type : Ty) : bool :=
  match type with RankedTensorType _ _ _ | UnrankedTensorType _ => true | _ => false end.

Definition validateRefinedType (type refinedType : Ty) : result () :=
  if bool_decide (type = refinedType) then Ok ()
  else
    _ ← ensure (isTensorType type && isTensorType refinedType) "must be a tensor";
    _ ← ensure (bool_decide (getElementTypeOrSelf type = getElementTypeOrSelf refinedType)) "element types must match";
    match refinedType, type with
    | RankedTensorType refinedShape _ _, RankedTensorType shape _ _ =>
        _ ← ensure (bool_decide (length shape = length refinedShape)) "rank must match operand rank";
        ensure (forallb (fun '(dimSize, refinedDimSize) => isDynamicDimSize dimSize || (dimSize =? refinedDimSize))
                  (zip shape refinedShape)) "dimension sizes must match for static dimensions"
    | RankedTensorType _ _ _, _ => Ok ()
    | _, _ => Err (Failed "must be ranked")
    end.

Definition validateRefinedTypes (argTypes refinedTypes : list Ty) : result () :=
  _ ← ensure (bool_decide (length argTypes = length refinedTypes))
        "number of refinements must match number of op operands";
  check_each (fun '(type, refinedType) => validateRefinedType type refinedType) (zip argTypes refinedTypes).

(** The custom call that stands for an argument while the program is refined: its
    operands are the argument and a constant, the refined shape. *)
Record OperandWrapper := MkWrapper {
  wrapper_operand : Ty;
  wrapper_shape : list Z;
  wrapper_indices : ShapedType * list Z;
  wrapper_result : Ty;
}.

Definition makeShapeRefinementOperandWrapper (operandType : Ty) (refinedShape : list Z) : OperandWrapper :=
  MkWrapper operandType refinedShape (MkShaped [1] (IntegerType Signless 64) None, [1]) operandType.

(** The wrapper of each argument that has one; the operand's type is the refined one
    once the signature is updated. *)
Definition wrapRefinedOperands (argTypes refinedTypes : list Ty) : result (list (option OperandWrapper)) :=
  mapM (fun '(i, argType) =>
      refinedType ← at_z refinedTypes i;
      if bool_decide (argType = refinedType) then Ok None
      else match refinedType with
           | RankedTensorType shape _ _ => Ok (Some (makeShapeRefinementOperandWrapper argType shape))
           | _ => Err (UB "cast<RankedTensorType>")
           end) (enumerate argTypes).

Definition refine_operand (argType : Ty) (wrapper : OperandWrapper) : OperandWrapper :=
  MkWrapper argType (wrapper_shape wrapper) (wrapper_indices wrapper) (wrapper_result wrapper).

Definition refineOperandsAndUpdateFunctionSignature (argTypes refinedTypes : list Ty)
    (wrappers : list (option OperandWrapper)) : result (list Ty * list (option OperandWrapper)) :=
  types ← mapM (fun i => at_z refinedTypes i) (seqZ 0 (Z.of_nat (length argTypes)));
  Ok (types, zip_with (fun argType wrapper => refine_operand argType <$> wrapper) types wrappers).

(** The new types of the arguments, and the wrappers. *)
Definition refineArguments (argTypes refinedTypes : list Ty) : result (list Ty * list (option OperandWrapper)) :=
  _ ← validateRefinedTypes argTypes refinedTypes;
  wrappers ← wrapRefinedOperands argTypes refinedTypes;
  refineOperandsAndUpdateFunctionSignature argTypes refinedTypes wrappers.

(** ** Calls: [RefinementKey] *)
Record APSInt := MkAPSInt { apsint_width : Z; apsint_unsigned : bool; apsint_value : Z }.
#[export] Instance apsint_eq_dec : EqDecision APSInt.
Proof. solve_decision. Defined.

Record RefinementKey := MkKey {
  key_func : string;
  leadingTokenOperands : nat;
  globalConstants : list APSInt;
  functionalArgumentTypes : list Ty;
}.

Definition getAllNonGlobalConstantArgumentTypes (key : RefinementKey) : list Ty :=
  replicate (leadingTokenOperands key) TokenType ++ functionalArgumentTypes key.

(** An operand of a call: its type, and its value if it is a constant scalar. *)
Record CallOperand := MkOperand { operand_type : Ty; operand_int : option APSInt }.

Definition isTokenOperand (operand : CallOperand) : bool :=
  match operand_type operand with TokenType => true | _ => false end.
Fixpoint countLeadingTokenOperands (operands : list CallOperand) : nat :=
  match operands with
  | [] => 0
  | operand :: operands => if isTokenOperand operand then S (countLeadingTokenOperands operands) else 0
  end.

Fixpoint getGlobalConstantsFrom (operands : list CallOperand) : list APSInt :=
  match operands with
  | [] => []
  | operand :: operands =>
      match operand_type operand, operand_int operand with
      | RankedTensorType [] (IntegerType _ _) _, Some value => value :: getGlobalConstantsFrom operands
      | _, _ => []
      end
  end.
Definition getGlobalConstants (operands : list CallOperand) (leadingTokenOperands : nat) : list APSInt :=
  getGlobalConstantsFrom (drop leadingTokenOperands operands).
Definition getFunctionalArgumentTypes (operands : list CallOperand) (leadingTokenOperands globalConstantsSize : nat)
    : list Ty :=
  operand_type <$> drop (leadingTokenOperands + globalConstantsSize) operands.

(** The state of the functions of the module that refinement uses. *)
Record FuncOp := MkFunc { func_arguments : list Ty; func_one_block : bool }.

Definition fromCallOp (functions : gmap string FuncOp) (callee : string) (operands : list CallOperand)
    : result RefinementKey :=
  let leading := countLeadingTokenOperands operands in
  let constants := getGlobalConstants operands leading in
  let types := getFunctionalArgumentTypes operands leading (length constants) in
  _ ← ok_or (functions !! callee) (Failed "cannot resolve function call");
  Ok (MkKey callee leading constants types).

(** ** [RefineShapeState] *)
Inductive RefinementState := NOT_ALREADY_REFINED | ALREADY_REFINED.

(** The stack of functions that are being refined has the current one first. *)
Record RefineShapeState := MkState {
  refinementContexts : gmap string RefinementKey;
  functionsBeingRefined : list string;
  functions : gmap string FuncOp;
}.

Definition validateFunctionRefinement (state : RefineShapeState) (key : RefinementKey) : result RefinementState :=
  match refinementContexts state !! key_func key with
  | None => Ok NOT_ALREADY_REFINED
  | Some prevKey =>
      _ ← ensure (bool_decide (globalConstants key = []) || bool_decide (globalConstants prevKey = globalConstants key))
            "refined with incompatible refinement keys";
      _ ← ensure (bool_decide (getAllNonGlobalConstantArgumentTypes key = getAllNonGlobalConstantArgumentTypes prevKey))
            "refined with incompatible refinement keys";
      _ ← ensure (negb (bool_decide (key_func key ∈ functionsBeingRefined state))) "is being refined recursively";
      Ok ALREADY_REFINED
  end.

Definition createScopedFunctionRefinement (state : RefineShapeState) (key : RefinementKey) : RefineShapeState :=
  MkState (match refinementContexts state !! key_func key with
           | Some _ => refinementContexts state
           | None => <[key_func key := key]> (refinementContexts state) end)
    (key_func key :: functionsBeingRefined state) (functions state).
(** The clean-up at the end of the scope *)
Definition leaveScope (state : RefineShapeState) (key : RefinementKey) : result RefineShapeState :=
  match functionsBeingRefined state with
  | [] => Err (UB "back of an empty vector")
  | current :: rest =>
      if negb (bool_decide (key_func key = current))
      then Err (Fatal "Stack mismatch in createScopedFunctionRefinement")
      else Ok (MkState (refinementContexts state) rest (functions state))
  end.

Definition setArguments (state : RefineShapeState) (func : string) (arguments : list Ty) : RefineShapeState :=
  MkState (refinementContexts state) (functionsBeingRefined state)
    (alter (fun f => MkFunc arguments (func_one_block f)) func (functions state)).

(** The signature of a function: the arguments that stand for global constants are
    replaced and erased, and the others get the types of the key. *)
Definition refineSignature (state : RefineShapeState) (key : RefinementKey) : RefineShapeState * result () :=
  match functions state !! key_func key with
  | None => (state, Err (UB "null function"))
  | Some func =>
      let first := leadingTokenOperands key in
      let count := length (globalConstants key) in
      match
        _ ← ensure (func_one_block func) "must have exactly one block";
        check_each (fun i =>
          argType ← at_z (func_arguments func) (Z.of_nat first + i);
          ensure (isShapedType argType) "expected global constant argument to be shaped") (seqZ 0 (Z.of_nat count))
      with
      | Err e => (state, Err e)
      | Ok _ =>
          if bool_decide (length (func_arguments func) < first + count)%nat then (state, Err (UB "BitVector::set"))
          else
            let arguments := take first (func_arguments func) ++ drop (first + count) (func_arguments func) in
            let state := setArguments state (key_func key) arguments in
            match refineArguments arguments (getAllNonGlobalConstantArgumentTypes key) with
            | Err e => (state, Err e)
            | Ok (arguments, _) => (setArguments state (key_func key) arguments, Ok ())
            end
      end
  end.

(** A refinement that is asked for, and those that the calls in the body of the
    function ask for while its patterns are applied, in order. *)
Inductive Attempt := MkAttempt (key : RefinementKey) (nested : list Attempt).

(** [applyShapeRefinementPatterns] is a success whatever the patterns return; a fault
    ends the program. *)
Definition applyShapeRefinementPatterns (refine : Attempt -> RefineShapeState -> RefineShapeState * result ()) :=
  fix apply (attempts : list Attempt) (state : RefineShapeState) {struct attempts} : RefineShapeState * result () :=
    match attempts with
    | [] => (state, Ok ())
    | attempt :: attempts =>
        match refine attempt state with
        | (state, Ok _) | (state, Err (Failed _)) => apply attempts state
        | (state, Err e) => (state, Err e)
        end
    end.

Fixpoint refineFunction (attempt : Attempt) (state : RefineShapeState) : RefineShapeState * result () :=
  let 'MkAttempt key nested := attempt in
  match validateFunctionRefinement state key with
  | Err e => (state, Err e)
  | Ok ALREADY_REFINED => (state, Ok ())
  | Ok NOT_ALREADY_REFINED =>
      let '(state, r) :=
        match refineSignature (createScopedFunctionRefinement state key) key with
        | (state, Ok _) => applyShapeRefinementPatterns refineFunction nested state
        | (state, Err e) => (state, Err e)
        end in
      match leaveScope state key with
      | Err e => (state, Err e)
      | Ok state => (state, r)
      end
  end.

Definition refineEntryFunction (functions : gmap string FuncOp) (func : string) (nested : list Attempt)
    : RefineShapeState * result () :=
  let arguments := match functions !! func with Some f => func_arguments f | None => [] end in
  refineFunction (MkAttempt (MkKey func 0 [] arguments) nested) (MkState ∅ [] functions).

(** ** [FunctionEffectAnalysis] *)
Module Effects.
Inductive State := Visiting | EffectFree | MayHaveEffects.
#[export] Instance state_eq_dec : EqDecision State.
Proof. solve_decision. Defined.

(** An operation: a call, with the function it resolves to; one that has no recursive
    effects, with MLIR's verdict; one that has them, with what its own interface says, if
    it has one, and the operations of its regions. *)
Inductive Operation :=
| CallLike (callee : option string)
| Simple (isMemoryEffectFree : bool)
| WithRegions (hasNoEffect : option bool) (regions : list (list Operation)).
Record Func := MkEffectFunc { isExternal : bool; getBody : list Operation }.

(** A visit that may run out of fuel: the answer and the new states. *)
Definition Visit : Type := gmap string State -> option (bool * gmap string State).

(** [llvm::all_of], and the loops that return false at the first operation that is not
    free of effects. *)
Definition all_free {A} (visit : A -> Visit) : list A -> Visit :=
  fix go l states :=
    match l with
    | [] => Some (true, states)
    | a :: l =>
        match visit a states with
        | Some (true, states) => go l states
        | r => r
        end
    end.

Section Analysis.
Context (module : gmap string Func).

Fixpoint operationIsFree (computeFunctionEffects : string -> Visit) (op : Operation) : Visit := fun states =>
  match op with
  | CallLike None => Some (false, states)
  | CallLike (Some callee) => computeFunctionEffects callee states
  | Simple isMemoryEffectFree => Some (isMemoryEffectFree, states)
  | WithRegions (Some false) _ => Some (false, states)
  | WithRegions _ regions => all_free (all_free (operationIsFree computeFunctionEffects)) regions states
  end.

(** A callee that is not in the module does not resolve. *)
Fixpoint computeFunctionEffects (fuel : nat) (func : string) : Visit := fun states =>
  match fuel with
  | O => None
  | S fuel =>
      match module !! func with
      | None => Some (false, states)
      | Some f =>
          match states !! func with
          | Some state => Some (bool_decide (state = EffectFree), states)
          | None =>
              let states := <[func := Visiting]> states in
              match (if isExternal f then Some (false, states)
                     else all_free (operationIsFree (computeFunctionEffects fuel)) (getBody f) states) with
              | None => None
              | Some (effectFree, states) =>
                  Some (effectFree, <[func := if effectFree : bool then EffectFree else MayHaveEffects]> states)
              end
          end
      end
  end.

(** A function of the module is visited at most once: its size is enough. *)
Definition enough : nat := S (base.size module).

(** The constructor: the entry function, then those of the module in order. *)
Fixpoint computeAll (funcs : list string) (states : gmap string State) : option (gmap string State) :=
  match funcs with
  | [] => Some states
  | func :: funcs =>
      match computeFunctionEffects enough func states with
      | Some (_, states) => computeAll funcs states
      | None => None
      end
  end.
Definition functionEffects (entryFunction : string) : option (gmap string State) :=
  computeAll (entryFunction :: (map_to_list module).*1) ∅.
Definition isMemoryEffectFree (entryFunction func : string) : option bool :=
  states ← functionEffects entryFunction; Some (bool_decide (states !! func = Some EffectFree)).
End Analysis.
End Effects.

(** ** The patterns *)

(** A pattern that computes the refinement first *)
Definition with_refinement {A} (results : list Value) (inferred : result A) (refine : A -> list Value * result ())
    : list Value * result () :=
  match inferred with Ok a => refine a | Err e => (results, Err e) end.

(** [replica_groups]: a dense attribute, by its shape, or axes of a mesh *)
Inductive ReplicaGroups := DenseGroups (shape : list Z) | MeshAxes (mesh : option Mesh) (axes : list (option AxisRef)).
Definition shardCount (hasChannelHandle useGlobalDeviceIds : bool) (replicaGroups : ReplicaGroups) : result Z :=
  _ ← ensure (negb (hasChannelHandle && negb useGlobalDeviceIds)) "unsupported strategy";
  match replicaGroups with
  | DenseGroups shape => at_z shape 1
  | MeshAxes mesh axes =>
      groups ← flattenReplicaGroupMeshAxes mesh axes;
      group ← ok_or (head groups) (Failed "empty flattened replica groups");
      Ok (Z.of_nat (length group))
  end.

Definition all_gather_shape (operandType : ShapedType) (allGatherDim shardCount : Z) : result (list Z) :=
  dynamic ← isDynamicDim operandType allGatherDim;
  if dynamic : bool then Ok (getShape operandType)
  else d ← getDimSize operandType allGatherDim; d ← i64 (d * shardCount); set_z (getShape operandType) allGatherDim d.

Fixpoint RefineAllGatherOp (results : list Value) (operandTypes : list ShapedType) (allGatherDim : Z)
    (hasChannelHandle useGlobalDeviceIds : bool) (replicaGroups : ReplicaGroups) : list Value * result () :=
  match operandTypes with
  | [] => (results, Ok ())
  | operandType :: operandTypes =>
      with_refinement results
        (count ← shardCount hasChannelHandle useGlobalDeviceIds replicaGroups; all_gather_shape operandType allGatherDim count)
        (fun refinement =>
           match refineReturnShape results refinement with
           | (results, Ok _) => RefineAllGatherOp results operandTypes allGatherDim hasChannelHandle useGlobalDeviceIds replicaGroups
           | r => r
           end)
  end.

Definition reduce_scatter_shape (operandType : ShapedType) (scatterDimension shardCount : Z) : result (list Z) :=
  _ ← ensure (negb (shardCount =? 0)) "zero shard count";
  dynamic ← isDynamicDim operandType scatterDimension;
  if dynamic : bool then Ok (getShape operandType)
  else d ← getDimSize operandType scatterDimension; set_z (getShape operandType) scatterDimension (Z.quot d shardCount).

Definition RefineReduceScatterOp (results : list Value) (operandType : ShapedType) (scatterDimension : Z)
    (hasChannelHandle useGlobalDeviceIds : bool) (replicaGroups : ReplicaGroups) : list Value * result () :=
  with_refinement results
    (count ← shardCount hasChannelHandle useGlobalDeviceIds replicaGroups; reduce_scatter_shape operandType scatterDimension count)
    (refineReturnShape results).

(** [getIntOrFloatBitWidth], of the element type of a complex type *)
Definition getIntOrFloatBitWidth (type : Ty) : result Z :=
  match type with
  | IntegerType _ _ | FloatType _ => TypeInference.getBitWidth type
  | _ => Err (UB "getIntOrFloatBitWidth")
  end.
Definition getBitWidthFn (type : ShapedType) : result Z :=
  match getElementType type with ComplexType element => getIntOrFloatBitWidth element | element => getIntOrFloatBitWidth element end.

Definition RefineBitcastConvertOp (results : list Value) (operandType resultType : ShapedType) : list Value * result () :=
  with_refinement results
    (a ← getBitWidthFn operandType; b ← getBitWidthFn resultType; ensure (a =? b) "unsupported bit width")
    (fun _ => refineReturnShape results (getShape operandType)).

(** The operations whose inference gives the components of one result *)
Definition refine_inferred (results : list Value) (inferred : result (list Z * option Encoding)) : list Value * result () :=
  with_refinement results inferred (fun '(dims, encoding) =>
    refineReturnTypesByComponents results [MkComponents (Some dims) None encoding]).
Definition RefineConvertOp (results : list Value) (operandType : ShapedType) :=
  refine_inferred results (Ok (inferConvertOp operandType)).
Definition RefineConvolutionOp (results : list Value) (lhsType rhsType : ShapedType) (windowStrides : option (list Z))
    (padding : option (list Z * list Z)) (lhsDilation rhsDilation : option (list Z)) (windowReversal : option (list bool))
    (c : ConvDims) (featureGroupCount batchGroupCount : Z) (precisionConfig : option (list Z)) :=
  with_refinement results (inferConvolutionOp lhsType rhsType windowStrides padding lhsDilation rhsDilation windowReversal c
    featureGroupCount batchGroupCount precisionConfig) (refineReturnShape results).
Definition RefineDynamicConvOp (results : list Value) (lhsType rhsType paddingType : ShapedType) (padding : option (list Z))
    (windowStrides lhsDilation rhsDilation : option (list Z)) (windowReversal : option (list bool))
    (c : ConvDims) (featureGroupCount batchGroupCount : Z) (precisionConfig : option (list Z)) :=
  with_refinement results (ok_or padding (Failed "expected constant padding")) (fun padding =>
    RefineConvolutionOp results lhsType rhsType windowStrides (Some (getShape paddingType, padding)) lhsDilation rhsDilation
      windowReversal c featureGroupCount batchGroupCount precisionConfig).
Definition RefineDotGeneralOp (results : list Value) (lhsType rhsType : ShapedType)
    (lhsBatchingDimensions rhsBatchingDimensions lhsContractingDimensions rhsContractingDimensions : list Z)
    (precisionConfig : option (list Z)) :=
  refine_inferred results (inferDotGeneralOp lhsType rhsType lhsBatchingDimensions rhsBatchingDimensions
    lhsContractingDimensions rhsContractingDimensions precisionConfig).
Definition RefineDotOp (results : list Value) (lhsType rhsType : ShapedType) (precisionConfig : option (list Z)) :=
  refine_inferred results (inferDotOp lhsType rhsType precisionConfig).
Definition RefineUniformQuantizeOp (results : list Value) (operandType : ShapedType) :=
  refineReturnShape results (inferUniformQuantizeOp operandType).

(** The operations whose shape is an operand *)
Definition RefineDynamicBroadcastInDimOp (results : list Value) (outputDimensions : option (list Z)) :=
  refineReturnShapeValue results outputDimensions.
Definition RefineDynamicIotaOp (results : list Value) (outputShape : option (list Z)) :=
  refineReturnShapeValue results outputShape.
Definition RefineDynamicReshapeOp (results : list Value) (outputShape : option (list Z)) :=
  refineReturnShapeValue results outputShape.
Definition RefineRngOp (results : list Value) (shape : option (list Z)) := refineReturnShapeValue results shape.

(** [RefineInferTypeOpInterface]: the dialect of the operation, and what it infers *)
Definition RefineInferTypeOp (results : list Value) (isChloOrStablehlo : bool) (inferredReturnTypes : result (list Ty)) :=
  if negb isChloOrStablehlo then (results, Err (Failed "unsupported dialect"))
  else with_refinement results inferredReturnTypes (refineReturnTypes results).

Definition RefineDynamicPadOp (results : list Value) (operandType : ShapedType)
    (edgePaddingLow edgePaddingHigh interiorPadding : option (list Z)) :=
  with_refinement results
    (low ← ok_or edgePaddingLow (Failed "expected constant edge_padding_low");
     high ← ok_or edgePaddingHigh (Failed "expected constant edge_padding_high");
     interior ← ok_or interiorPadding (Failed "expected constant interior_padding");
     inferPadOp operandType low high interior)
    (fun inferred => refineReturnTypes results [shaped_type inferred]).

(** [limitIsStartPlus]: the constant, when the limits are an addition of the start
    indices and a constant, in any order. *)
Definition RefineRealDynamicSliceOp (results : list Value) (operandType startIndicesType : ShapedType)
    (startIndices limitIndices strides limitIsStartPlus : option (list Z)) :=
  match startIndices, limitIndices, strides, limitIsStartPlus with
  | Some startIndices, Some limitIndices, Some strides, _ =>
      with_refinement results (inferSliceOp operandType startIndices limitIndices strides)
        (fun inferred => refineReturnTypes results [shaped_type inferred])
  | _, _, strides, Some sliceSizes =>
      with_refinement results
        (_ ← ensure (match strides with Some strides => forallb (fun stride => stride =? 1) strides | None => false end)
               "expected unit strides";
         inferDynamicSliceOp operandType (replicate (length sliceSizes) (shaped [] (getElementType startIndicesType))) sliceSizes)
        (fun inferred => refineReturnTypesByComponents results
           [MkComponents (Some (getShape inferred)) (Some (getElementType inferred)) (getEncoding inferred)])
  | _, _, _, None => (results, Err (Failed "expected either fully static attributes or static sliceSizes"))
  end.

(** [RefineCustomCall]: what becomes of the operation. *)
Inductive CustomCallOutcome :=
| KeepOp                  (* it stays *)
| ReplaceByOperand        (* its uses use the operand, and it is erased *)
| EraseOp.                (* it is erased *)
Definition kCustomCallOperandBarrierTarget : string := "stablehlo.shape_refinement_operand_wrapper".

Definition RefineCustomCallOp (results : list Value) (callTargetName : string) (indicesAttr : option (ShapedType * list Z))
    (operands : list (Ty * option (list Z))) : list Value * result CustomCallOutcome :=
  match getShapeRefinements indicesAttr (operands.*2) (value_type <$> results) with
  | Err e => (results, Err e)
  | Ok refinements =>
      match refineReturnTypesByComponents results refinements with
      | (results, Err e) => (results, Err e)
      | (results, Ok _) =>
          (results,
           if bool_decide (callTargetName = kCustomCallOperandBarrierTarget) then
             operand ← at_z operands 0;
             value ← at_z results 0;
             if bool_decide (operand.1 = value_type value) then Ok ReplaceByOperand else Ok EraseOp
           else Ok KeepOp)
      end
  end.

(** The arguments of the two regions get the types of the operands. *)
Definition RefineWhileOp (condArguments bodyArguments : list Value) (operandTypes : list Ty)
    : list Value * list Value * result () :=
  let '(condArguments, condStatus) := refineValues condArguments (Some <$> operandTypes) in
  let '(bodyArguments, bodyStatus) := refineValues bodyArguments (Some <$> operandTypes) in
  (condArguments, bodyArguments,
   match condStatus, bodyStatus with
   | Ok _, Err (Failed _) => Ok ()
   | Ok _, _ | Err (Failed _), _ => bodyStatus
   | Err e, _ => Err e
   end).

(** An operand of [func.return]: its type, and the type it is cast from. *)
Definition updated_type (operand : Ty * option Ty) : result (option Ty) :=
  match operand.2 with
  | None => Ok None
  | Some sourceType =>
      match inferMostSpecificType [sourceType; operand.1] with
      | Ok mostSpecificType => Ok (if bool_decide (operand.1 = mostSpecificType) then None else Some sourceType)
      | Err (Failed _) => Ok None
      | Err e => Err e
      end
  end.
Definition UpdateFunctionType (operands : list (Ty * option Ty)) : result (list Ty) :=
  updates ← mapM updated_type operands;
  _ ← ensure (existsb (fun update => match update with Some _ => true | None => false end) updates) "doesn't need update";
  Ok (zip_with (fun operand update => default operand.1 update) operands updates).

(** [parentResultTypes]: of the parent, if it is a [case] or an [if]. *)
Definition UpdateRegionType (parentResultTypes : option (list Ty)) (operandTypes : list Ty) : result () :=
  resultTypes ← ok_or parentResultTypes (Failed "unsupported region");
  needs ← mapM (fun '(regionType, refinedType) =>
      match inferMostSpecificType [regionType; refinedType] with
      | Ok mostSpecificType => Ok (negb (bool_decide (regionType = mostSpecificType)))
      | Err (Failed _) => Ok false
      | Err e => Err e
      end) (zip resultTypes operandTypes);
  ensure (existsb id needs) "doesn't need update".

(** [getStablehloRefineShapesTarget]: the only function of the module, or [main]. *)
Definition getStablehloRefineShapesTarget (funcs : list (string * FuncOp)) : result string :=
  '(name, func) ← match funcs with
    | [] => Err (Failed "null")
    | [func] => Ok func
    | _ => ok_or (list_find (fun '(name, _) => name = "main") funcs ≫= fun '(_, func) => Some func)
             (Failed "must have no more than one function or a main function")
    end;
  _ ← ensure (func_one_block func) "must have exactly one block";
  Ok name.
