(* ===== verification/RefineFacts.v ===== *)
(** * Shape refinement: effects, the stack of functions, and arguments *)
From S2P Require Import Prelude Types Support Index Element Tensor Base TypeInference Inference ReplicaGroups OpsFacts RefineShapes.

(** ** [FunctionEffectAnalysis] finds the functions without effects *)
Section Effects.
Import Effects.
Context (module : gmap string Func).

(** An operation is free of effects, if the functions it calls are [free]. *)
Inductive op_free (free : string -> Prop) : Operation -> Prop :=
| Call_free callee : free callee -> op_free free (CallLike (Some callee))
| Simple_free : op_free free (Simple true)
| Regions_free hasNoEffect regions : hasNoEffect <> Some false -> Forall (Forall (op_free free)) regions ->
    op_free free (WithRegions hasNoEffect regions).

(** A function has no effects when its body has none, and all it calls have none: a
    recursive function never does. *)
Inductive effect_free : string -> Prop :=
| Function_free func f : module !! func = Some f -> isExternal f = false -> Forall (op_free effect_free) (getBody f) ->
    effect_free func.

Definition forall_map {A} {P Q : A -> Prop} (h : forall a, P a -> Q a) : forall l, Forall P l -> Forall Q l :=
  fix go l (H : Forall P l) := match H with
    | List.Forall_nil _ => List.Forall_nil Q
    | List.Forall_cons _ x l p H => List.Forall_cons Q x l (h x p) (go l H)
    end.
Definition op_free_map {P Q : string -> Prop} (h : forall func, P func -> Q func) : forall op, op_free P op -> op_free Q op :=
  fix go op (H : op_free P op) := match H with
    | Call_free _ callee p => Call_free Q callee (h callee p)
    | Simple_free _ => Simple_free Q
    | Regions_free _ hasNoEffect regions n H => Regions_free Q hasNoEffect regions n (forall_map (forall_map go) regions H)
    end.

Lemma effect_free_rule (Q : string -> Prop) :
  (forall func f, module !! func = Some f -> Forall (op_free Q) (getBody f) -> Q func) -> forall func, effect_free func -> Q func.
Proof.
  intros step. refine (fix go func (H : effect_free func) {struct H} : Q func := match H with Function_free func f Hm He Hb => _ end).
  apply (step func f Hm). exact (forall_map (op_free_map go) _ Hb).
Defined.

(** The effects of [f] depend on those of [g]. *)
Definition requires (f g : string) : Prop :=
  exists func, module !! f = Some func /\ forall P, Forall (op_free P) (getBody func) -> P g.

Lemma recursive_not_free f : effect_free f -> ~ tc requires f f.
Proof.
  intros Hf. induction Hf as [f func Hm IH] using effect_free_rule. intros Hc.
  assert (exists g, requires f g /\ rtc requires g f) as (g & (func' & Hm' & Hg) & Hr).
  { inversion Hc as [? ? H|? g ? H Hr]; subst; [by exists f|]. exists g. split; [done|by apply tc_rtc]. }
  simplify_eq. apply (Hg _ IH). eapply tc_rtc_l; [exact Hr|]. apply tc_once. by exists func.
Qed.

(** ** The states of a visit

    The functions being visited are those of [visiting]; the others have their answer; of
    those of [known] nothing is left to do; and the fuel is enough for the others. *)
Record good (visiting known : gset string) (fuel : nat) (states : gmap string State) : Prop := {
  free_ok f : states !! f = Some EffectFree -> effect_free f;
  effects_ok f : states !! f = Some MayHaveEffects -> ~ effect_free f;
  visiting_ok f : states !! f = Some Visiting <-> f ∈ visiting;
  of_module : dom states ⊆ dom module;
  known_ok : known ⊆ dom states;
  fuel_ok : (base.size module < fuel + base.size states)%nat;
}.

(** A visit of [A] gives the answer [ok]. *)
Definition visits {A} (visit : A -> Visit) (visiting : gset string) (fuel : nat) (ok : A -> Prop) (a : A) : Prop :=
  forall known states, good visiting known fuel states ->
  exists b states', visit a states = Some (b, states') /\ good visiting known fuel states' /\ (b = true <-> ok a).

Lemma all_free_visits {A} (visit : A -> Visit) visiting fuel (ok : A -> Prop) l :
  Forall (visits visit visiting fuel ok) l -> visits (all_free visit) visiting fuel (Forall ok) l.
Proof.
  intros Hl. induction Hl as [|a l Ha _ IH]; intros known states Hs; cbn [all_free].
  - exists true, states. split; [done|]. split; [done|]. split; [constructor|done].
  - destruct (Ha known states Hs) as (b & states' & -> & Hs' & Hb). destruct b.
    + destruct (IH known states' Hs') as (b & states'' & -> & Hs'' & Hb'). exists b, states''. split; [done|]. split; [done|].
      rewrite Hb', Forall_cons. split; [|tauto]. intros H. split; [by apply Hb|done].
    + exists false, states'. split; [done|]. split; [done|]. split; [done|]. intros [H _]%Forall_cons. by apply Hb in H.
Qed.

Section Operation_induction.
Context (P : Operation -> Prop).
Context (Hcall : forall callee, P (CallLike callee)) (Hsimple : forall b, P (Simple b)).
Context (Hregions : forall hasNoEffect regions, Forall (Forall P) regions -> P (WithRegions hasNoEffect regions)).
Fixpoint operation_ind' (op : Operation) : P op :=
  match op with
  | CallLike callee => Hcall callee
  | Simple b => Hsimple b
  | WithRegions hasNoEffect regions =>
      Hregions hasNoEffect regions
        ((fix all_regions rs : Forall (Forall P) rs := match rs with
          | [] => List.Forall_nil _
          | ops :: rs =>
              List.Forall_cons _ _ _ ((fix all_ops os : Forall P os := match os with
                | [] => List.Forall_nil _ | op :: os => List.Forall_cons _ _ _ (operation_ind' op) (all_ops os) end) ops)
                (all_regions rs)
          end) regions)
  end.
End Operation_induction.

(** An operation visits the functions that it calls, in whatever functions it has. *)
Lemma operation_visits (compute : string -> Visit) visiting fuel op :
  (forall callee, (forall P, op_free P op -> P callee) -> visits compute visiting fuel effect_free callee) ->
  visits (operationIsFree compute) visiting fuel (op_free effect_free) op.
Proof.
  induction op as [[callee|]|b|hasNoEffect regions IH] using operation_ind'; intros Hcalls known states Hs; cbn [operationIsFree].
  - destruct (Hcalls callee) with (states := states) (known := known) as (b & states' & -> & Hs' & Hb); [|done|].
    { intros P H. by inversion H. }
    exists b, states'. split; [done|]. split; [done|]. rewrite Hb. split; [by constructor|]. intros H. by inversion H.
  - exists false, states. split; [done|]. split; [done|]. split; [done|]. intros H. by inversion H.
  - exists b, states. split; [done|]. split; [done|]. split; [intros ->; constructor|]. intros H. by inversion H.
  - destruct (decide (hasNoEffect = Some false)) as [->|Hn].
    { exists false, states. split; [done|]. split; [done|]. split; [done|]. intros H. by inversion H. }
    assert (Forall (Forall (visits (operationIsFree compute) visiting fuel (op_free effect_free))) regions) as Hr.
    { apply Forall_forall. intros ops Hops. apply Forall_forall. intros op Hop.
      rewrite Forall_forall in IH. pose proof (IH ops Hops) as IHop. rewrite Forall_forall in IHop. apply (IHop op Hop).
      intros callee Hc. apply Hcalls. intros P H. inversion H as [| |? ? _ Hall]; subst. apply Hc.
      rewrite Forall_forall in Hall. specialize (Hall ops Hops). rewrite Forall_forall in Hall. by apply Hall. }
    assert (visits (all_free (all_free (operationIsFree compute))) visiting fuel (Forall (Forall (op_free effect_free))) regions) as H.
    { apply all_free_visits. eapply Forall_impl; [exact Hr|]. intros ops. apply all_free_visits. }
    destruct (H known states Hs) as (b & states' & E & Hs' & Hb). exists b, states'. split.
    { by destruct hasNoEffect as [[]|]. }
    split; [done|]. rewrite Hb. split; [by constructor|]. intros H'. by inversion H'.
Qed.

Lemma states_size (states : gmap string State) : dom states ⊆@{gset string} dom module -> (base.size states <= base.size module)%nat.
Proof. intros H%subseteq_size. by rewrite !size_dom in H. Qed.

Lemma start_visit func visiting known fuel states : good visiting known (S fuel) states -> states !! func = None ->
  is_Some (module !! func) -> good ({[func]} ∪ visiting) ({[func]} ∪ known) fuel (<[func := Visiting]> states).
Proof.
  intros Hs Hn Hm. split.
  - intros f Hf. destruct (decide (f = func)) as [->|Hd]; [by rewrite lookup_insert_eq in Hf|].
    rewrite lookup_insert_ne in Hf by done. by apply Hs.
  - intros f Hf. destruct (decide (f = func)) as [->|Hd]; [by rewrite lookup_insert_eq in Hf|].
    rewrite lookup_insert_ne in Hf by done. by apply Hs.
  - intros f. destruct (decide (f = func)) as [->|Hd]; [rewrite lookup_insert_eq; set_solver|].
    rewrite lookup_insert_ne by done. rewrite (visiting_ok _ _ _ _ Hs). set_solver.
  - rewrite dom_insert. pose proof (of_module _ _ _ _ Hs). apply elem_of_dom in Hm. set_solver.
  - rewrite dom_insert. pose proof (known_ok _ _ _ _ Hs). set_solver.
  - rewrite map_size_insert_None by done. pose proof (fuel_ok _ _ _ _ Hs). lia.
Qed.

Lemma end_visit func (b : bool) visiting known fuel states : func ∉ visiting ->
  good ({[func]} ∪ visiting) ({[func]} ∪ known) fuel states -> (b = true <-> effect_free func) ->
  good visiting known (S fuel) (<[func := if b then EffectFree else MayHaveEffects]> states).
Proof.
  intros Hv Hs Hb. assert (func ∈ dom states) as Hin by (pose proof (known_ok _ _ _ _ Hs); set_solver). split.
  - intros f Hf. destruct (decide (f = func)) as [->|Hd].
    + rewrite lookup_insert_eq in Hf. destruct b; [by apply Hb|done].
    + rewrite lookup_insert_ne in Hf by done. by apply Hs.
  - intros f Hf. destruct (decide (f = func)) as [->|Hd].
    + rewrite lookup_insert_eq in Hf. destruct b; [done|]. intros H. by apply Hb in H.
    + rewrite lookup_insert_ne in Hf by done. by apply Hs.
  - intros f. destruct (decide (f = func)) as [->|Hd].
    + rewrite lookup_insert_eq. by destruct b.
    + rewrite lookup_insert_ne by done. rewrite (visiting_ok _ _ _ _ Hs). set_solver.
  - rewrite dom_insert. pose proof (of_module _ _ _ _ Hs). set_solver.
  - rewrite dom_insert. pose proof (known_ok _ _ _ _ Hs). set_solver.
  - rewrite map_size_insert_Some by (by apply elem_of_dom). pose proof (fuel_ok _ _ _ _ Hs). lia.
Qed.

(** A function that is visited while it is being visited is recursive. *)
Lemma compute_visits fuel : forall visiting func, (forall f, f ∈ visiting -> tc requires f func) ->
  visits (computeFunctionEffects module fuel) visiting fuel effect_free func.
Proof.
  induction fuel as [|fuel IH]; intros visiting func Hv known states Hs.
  { pose proof (fuel_ok _ _ _ _ Hs). pose proof (states_size _ (of_module _ _ _ _ Hs)). lia. }
  cbn [computeFunctionEffects]. destruct (module !! func) as [f|] eqn:Hm.
  2:{ exists false, states. split; [done|]. split; [done|]. split; [done|]. intros H. inversion H. congruence. }
  destruct (states !! func) as [state|] eqn:Est.
  { exists (bool_decide (state = EffectFree)), states. split; [done|]. split; [done|]. rewrite bool_decide_eq_true. destruct state.
    - split; [done|]. intros H. apply (visiting_ok _ _ _ _ Hs) in Est. by destruct (recursive_not_free func H (Hv _ Est)).
    - split; [|done]. intros _. by apply (free_ok _ _ _ _ Hs).
    - split; [done|]. intros H. by destruct (effects_ok _ _ _ _ Hs _ Est). }
  assert (func ∉ visiting) as Hnv by (intros H; apply (visiting_ok _ _ _ _ Hs) in H; congruence).
  pose proof (start_visit _ _ _ _ _ Hs Est ltac:(by exists f)) as Hs1.
  assert (exists b states', (if isExternal f then Some (false, <[func := Visiting]> states)
      else all_free (operationIsFree (computeFunctionEffects module fuel)) (getBody f) (<[func := Visiting]> states)) = Some (b, states') /\
    good ({[func]} ∪ visiting) ({[func]} ∪ known) fuel states' /\ (b = true <-> effect_free func)) as (b & states' & -> & Hs2 & Hb).
  { destruct (isExternal f) eqn:He.
    { eexists _, _. split; [done|]. split; [done|]. split; [done|]. intros H. inversion H. congruence. }
    edestruct (all_free_visits (operationIsFree (computeFunctionEffects module fuel)) ({[func]} ∪ visiting) fuel (op_free effect_free)
      (getBody f)) as (b & states' & E & Hs2 & Hb); [|exact Hs1|].
    - apply Forall_forall. intros op Hop. apply operation_visits. intros callee Hc. apply IH.
      assert (requires func callee) as Hreq.
      { exists f. split; [done|]. intros P HP. rewrite Forall_forall in HP. by apply Hc, HP. }
      intros g [->%elem_of_singleton|Hg]%elem_of_union; [by apply tc_once|]. eapply tc_transitive; [by apply Hv|by apply tc_once].
    - exists b, states'. split; [exact E|]. split; [done|]. rewrite Hb. split; [by apply (Function_free func f)|].
      intros H. inversion H. congruence. }
  eexists b, _. split; [done|]. split; [|done]. by apply end_visit.
Qed.

Lemma computed fuel func states b states' : computeFunctionEffects module fuel func states = Some (b, states') ->
  is_Some (module !! func) -> func ∈ dom states'.
Proof.
  intros H [f Hm]. destruct fuel as [|fuel]; [done|]. cbn [computeFunctionEffects] in H. rewrite Hm in H.
  destruct (states !! func) as [state|] eqn:E; [injection H as _ <-; by apply elem_of_dom|].
  destruct (if isExternal f then _ else _) as [[b' states'']|]; [|done]. injection H as _ <-. rewrite dom_insert. set_solver.
Qed.

Lemma compute_all funcs : forall known states, good ∅ known (enough module) states ->
  exists states', computeAll module funcs states = Some states' /\ good ∅ known (enough module) states' /\
    forall func, func ∈ funcs -> is_Some (module !! func) -> func ∈ dom states'.
Proof.
  induction funcs as [|func funcs IH]; intros known states Hs; cbn [computeAll].
  { exists states. split; [done|]. split; [done|]. intros func H. by apply elem_of_nil in H. }
  edestruct (compute_visits (enough module) ∅ func) as (b & states' & E & Hs' & _); [set_solver|exact Hs|]. rewrite E.
  assert (good ∅ (dom states') (enough module) states') as Hs2 by (destruct Hs'; split; done).
  destruct (IH _ _ Hs2) as (final & Ef & Hf & Hall). exists final. split; [done|]. split.
  - destruct Hf, Hs'. split; try done. set_solver.
  - intros g [->|Hg]%elem_of_cons Hm; [|by apply Hall]. apply (known_ok _ _ _ _ Hf). by eapply computed.
Qed.

(** The analysis ends, and a function is found to be free of effects exactly when it is,
    whatever the order of the functions and the recursion between them. *)
Theorem isMemoryEffectFree_correct entryFunction func :
  exists b, isMemoryEffectFree module entryFunction func = Some b /\ (b = true <-> effect_free func).
Proof.
  assert (good ∅ ∅ (enough module) ∅) as Hs.
  { split; try (intros f; rewrite lookup_empty); try done; try set_solver. unfold enough. rewrite map_size_empty. lia. }
  destruct (compute_all (entryFunction :: (map_to_list module).*1) ∅ ∅ Hs) as (states & E & Hg & Hall).
  unfold isMemoryEffectFree, functionEffects. rewrite E. eexists. split; [done|]. rewrite bool_decide_eq_true. split; [by apply Hg|].
  intros Hf. assert (exists f, module !! func = Some f) as [f Hm] by (inversion Hf; by eexists).
  assert (func ∈ dom states) as [state Hst]%elem_of_dom.
  { apply Hall; [|by exists f]. apply elem_of_cons. right. apply list_elem_of_fmap. exists (func, f). split; [done|].
    by apply elem_of_map_to_list. }
  rewrite Hst. destruct state; [|done|].
  - apply (visiting_ok _ _ _ _ Hg) in Hst. set_solver.
  - by destruct (effects_ok _ _ _ _ Hg _ Hst).
Qed.
End Effects.

(** ** [refineArguments] gives the arguments the types that it is asked for *)
Lemma mapM_at_seqZ {A} (l : list A) : mapM (fun i => at_z l i) (seqZ 0 (Z.of_nat (length l))) = Ok l.
Proof.
  enough (forall pre, mapM (fun i => at_z (pre ++ l) i) (seqZ (Z.of_nat (length pre)) (Z.of_nat (length l))) = Ok l) as H by apply (H []).
  induction l as [|a l IH]; intros pre; [done|]. cbn [length]. rewrite Nat2Z.inj_succ, seqZ_cons, Z.pred_succ by lia.
  cbn [mapM]. rewrite at_z_app_mid. cbind. specialize (IH (pre ++ [a])). rewrite length_app, <- app_assoc in IH. cbn [length app] in IH.
  replace (Z.of_nat (length pre + 1)) with (Z.succ (Z.of_nat (length pre))) in IH by lia. by rewrite IH.
Qed.

Lemma refineArguments_types argTypes refinedTypes types wrappers :
  refineArguments argTypes refinedTypes = Ok (types, wrappers) -> types = refinedTypes.
Proof.
  unfold refineArguments, validateRefinedTypes, refineOperandsAndUpdateFunctionSignature.
  intros ([] & Hv & (ws & _ & H)%bind_ok)%bind_ok. apply bind_ok in Hv as ([] & Hl%ensure_ok%bool_decide_eq_true & _).
  rewrite Hl, mapM_at_seqZ in H. by injection H.
Qed.

(** ** [refineFunction] *)
Section Attempt_induction.
Context (P : Attempt -> Prop) (step : forall key nested, Forall P nested -> P (MkAttempt key nested)).
Fixpoint attempt_ind' (attempt : Attempt) : P attempt :=
  let 'MkAttempt key nested := attempt in
  step key nested ((fix all l : Forall P l := match l with
    | [] => List.Forall_nil _ | a :: l => List.Forall_cons _ _ _ (attempt_ind' a) (all l) end) nested).
End Attempt_induction.

(** What a refinement keeps: the stack, the keys, and the functions that have a key. *)
Record keeps (state state' : RefineShapeState) : Prop := {
  keeps_stack : functionsBeingRefined state' = functionsBeingRefined state;
  keeps_contexts : refinementContexts state ⊆ refinementContexts state';
  keeps_functions g : is_Some (refinementContexts state !! g) -> functions state' !! g = functions state !! g;
}.
#[export] Instance keeps_preorder : PreOrder keeps.
Proof.
  split; [by split|]. intros a b c [H1 H2 H3] [H1' H2' H3']. split; [congruence|by etrans|].
  intros g Hg. rewrite H3', H3; [done..|]. destruct Hg as [k Hk]. exists k. by eapply lookup_weaken.
Qed.

Lemma setArguments_other state func arguments g : g <> func ->
  functions (setArguments state func arguments) !! g = functions state !! g.
Proof. intros H. by apply lookup_alter_ne. Qed.

Lemma refineSignature_changes state key state' r : refineSignature state key = (state', r) ->
  functionsBeingRefined state' = functionsBeingRefined state /\ refinementContexts state' = refinementContexts state /\
  (forall g, g <> key_func key -> functions state' !! g = functions state !! g) /\
  (r = Ok () -> func_arguments <$> functions state' !! key_func key = Some (getAllNonGlobalConstantArgumentTypes key)).
Proof.
  unfold refineSignature. destruct (functions state !! key_func key) as [func|] eqn:Ef; [|by intros [= <- <-]].
  destruct (_ ← ensure _ _; check_each _ _); [|by intros [= <- <-]].
  case_bool_decide; [by intros [= <- <-]|].
  destruct (refineArguments _ _) as [[arguments wrappers]|] eqn:Er.
  - apply refineArguments_types in Er as ->. intros [= <- <-]. split; [done|]. split; [done|]. split.
    + intros g Hg. by rewrite !setArguments_other.
    + intros _. unfold setArguments. cbn [functions]. rewrite !lookup_alter_eq, Ef. done.
  - intros [= <- <-]. split; [done|]. split; [done|]. split; [|done]. intros g Hg. by rewrite setArguments_other.
Qed.

Lemma patterns_keep nested :
  Forall (fun a => forall state state' r, refineFunction a state = (state', r) -> keeps state state') nested ->
  forall state state' r, applyShapeRefinementPatterns refineFunction nested state = (state', r) -> keeps state state'.
Proof.
  intros H. induction H as [|a nested Ha _ IH]; intros state state' r; cbn [applyShapeRefinementPatterns]; [by intros [= <- _]|].
  destruct (refineFunction a state) as [state1 r1] eqn:E. pose proof (Ha _ _ _ E) as Hk.
  destruct r1 as [[]|[]]; intros Hr; try (injection Hr as <- _; done); (etrans; [exact Hk|by eapply IH]).
Qed.

Lemma created state key : refinementContexts state !! key_func key = None ->
  createScopedFunctionRefinement state key
  = MkState (<[key_func key := key]> (refinementContexts state)) (key_func key :: functionsBeingRefined state) (functions state).
Proof. unfold createScopedFunctionRefinement. by intros ->. Qed.

Lemma not_already_refined state key : validateFunctionRefinement state key = Ok NOT_ALREADY_REFINED ->
  refinementContexts state !! key_func key = None.
Proof.
  unfold validateFunctionRefinement. destruct (_ !! _); [|done]. intros (? & _ & (? & _ & (? & _ & H)%bind_ok)%bind_ok)%bind_ok. done.
Qed.

(** The refinement of a function leaves the stack of the functions that are being
    refined as it was, so that its clean-up never finds another function there; it
    changes no function that has a key already, so that each one is refined at most
    once, whatever calls its patterns find; and a function that had no key has one then,
    and, if the refinement succeeds, the types of the key for its arguments. *)
Theorem refineFunction_once attempt : forall state state' r, refineFunction attempt state = (state', r) ->
  keeps state state' /\
  let 'MkAttempt key _ := attempt in refinementContexts state !! key_func key = None ->
    refinementContexts state' !! key_func key = Some key /\
    (r = Ok () -> func_arguments <$> functions state' !! key_func key = Some (getAllNonGlobalConstantArgumentTypes key)).
Proof.
  induction attempt as [key nested IH] using attempt_ind'. intros state state' r. cbn [refineFunction].
  destruct (validateFunctionRefinement state key) as [[]|e] eqn:Ev.
  2,3: intros [= <- <-]; split; [done|]; intros Hn; unfold validateFunctionRefinement in Ev; by rewrite Hn in Ev.
  apply not_already_refined in Ev. rewrite (created _ _ Ev).
  destruct (refineSignature _ key) as [state1 r1] eqn:E1. apply refineSignature_changes in E1 as (Hs1 & Hc1 & Hf1 & Ha1).
  cbn [functionsBeingRefined refinementContexts functions] in Hs1, Hc1, Hf1.
  assert (exists state2 r2, match r1 with Ok _ => applyShapeRefinementPatterns refineFunction nested state1 | Err e => (state1, Err e) end
      = (state2, r2) /\ keeps state1 state2 /\ (r2 = Ok () -> r1 = Ok ())) as (state2 & r2 & E2 & Hk & H12).
  { destruct r1 as [[]|e]; [|by eexists _, _]. destruct (applyShapeRefinementPatterns refineFunction nested state1) as [state2 r2] eqn:E2.
    eexists _, _. split; [done|]. split; [|done]. eapply patterns_keep; [|exact E2]. eapply Forall_impl; [exact IH|].
    intros a Ha s s' r' H. by apply (Ha _ _ _ H). }
  assert ((let '(state, r) := match r1 with Ok _ => applyShapeRefinementPatterns refineFunction nested state1 | Err e => (state1, Err e) end
           in match leaveScope state key with Err e => (state, Err e) | Ok state => (state, r) end)
          = (MkState (refinementContexts state2) (functionsBeingRefined state) (functions state2), r2)) as E3.
  { rewrite E2. unfold leaveScope. rewrite (keeps_stack _ _ Hk), Hs1. by rewrite bool_decide_true. }
  intros H. assert ((state', r) = (MkState (refinementContexts state2) (functionsBeingRefined state) (functions state2), r2)) as [= -> ->].
  { rewrite <- E3, <- H. by destruct r1. }
  split.
  - split; cbn [functionsBeingRefined refinementContexts functions]; [done| |].
    + etrans; [|apply Hk]. rewrite Hc1. by apply insert_subseteq.
    + intros g [k Hg]. assert (g <> key_func key) as Hne by congruence. rewrite (keeps_functions _ _ Hk); [by apply Hf1|].
      exists k. by rewrite Hc1, lookup_insert_ne.
  - assert (refinementContexts state1 !! key_func key = Some key) as Hkey by (by rewrite Hc1, lookup_insert_eq).
    intros _. cbn [functions refinementContexts]. split; [by eapply lookup_weaken; [|apply Hk]|].
    intros Hr. rewrite (keeps_functions _ _ Hk); [by apply Ha1, H12|by exists key].
Qed.

(** A refinement that has failed keeps its key, so that the next call of the function is
    told that it is refined already. *)
Lemma failure_is_forgotten key nested state state' msg :
  refinementContexts state !! key_func key = None -> key_func key ∉ functionsBeingRefined state ->
  refineFunction (MkAttempt key nested) state = (state', Err (Failed msg)) ->
  refineFunction (MkAttempt key nested) state' = (state', Ok ()).
Proof.
  intros Hn Hs H. apply refineFunction_once in H as [Hk Hkey]. destruct (Hkey Hn) as [E _].
  cbn [refineFunction]. unfold validateFunctionRefinement. rewrite E, (keeps_stack _ _ Hk).
  rewrite (bool_decide_true (globalConstants key = globalConstants key)), orb_true_r by done. cbn [ensure mbind result_bind].
  rewrite (bool_decide_true (_ = getAllNonGlobalConstantArgumentTypes key)) by done. cbn [ensure mbind result_bind].
  by rewrite bool_decide_false.
Qed.
